(* ===== verification/_CoqProject ===== *)
-Q . S2P
Prelude.v
QtCore.v
QtReference.v
Json.v
PhysicalQuantity.v
Serializer.v
Pbh.v
FsdBase.v
MsgSession.v
MsgQuery.v
MsgPosition.v
AircraftParts.v
TimestampList.v
Severity.v
StatusMessage.v
TokenBucket.v
LogPattern.v
LogHandler.v
CryptoChannel.v
CryptoSerializer.v
VoiceConnection.v
ValueReplica.v
ValueCache.v
ValueProcess.v
ValueNetwork.v
DataRevision.v
DigestSignal.v
Transponder.v
Callsign.v
ComSystem.v
OnGround.v
RemoteAircraft.v
RemoteInvariant.v
RemoteHistory.v
RemoteUpdates.v
AirspaceSnapshot.v
InterpolationSetup.v
SimulatorDriver.v
SimulatorEmulated.v
FsdTypes.v
AirspaceAnalyzer.v
SimulatorRendering.v
TextMessages.v
NetworkConfig.v
Dispatch.v
FsdState.v
FsdCore.v
FsdSend.v
FsdReceive.v
AirspaceMonitor.v
MonitorReadiness.v
MonitorSlots.v
FsdRun.v
FsdReference.v
FsdInvariant.v
FsdLine.v
FsdFraming.v
FsdQueue.v
FsdConnection.v
FsdPeers.v
FsdConfig.v
FsdOwn.v
TextRelay.v
TextPartner.v
NetworkContext.v
NetworkReconnect.v
AircraftCodes.v
AircraftModel.v
LiveryString.v
AircraftMatcher.v
MatcherResult.v
SimulatorContext.v
