(* ===== verification/Prelude.v ===== *)
(** * neoswift: a verification library for the pilot client

    neoswift is a pilot client for flight simulation networks.  Its core
    (src/src/core) speaks the FSD protocol with a server, keeps the aircraft the
    network has in range, draws them in a flight simulator, and runs as several
    processes that share settings and data.  This library models that core and
    the value classes of src/src/misc it builds on.

    ** How the parts interact

    The user acts on the network context ([CContextNetwork]).  The context sets
    the presets of the FSD client ([CFSDClient]), tells it to connect, and connects
    again when a connection is lost.  What the FSD client receives is cut into lines,
    each line is recognised by its command and split in tokens, the tokens become
    a message object, and a handler changes the state and emits signals.  What it
    sends is built as a message object, written as one line and queued; a timer
    sends the queue.

    The signals go to the airspace monitor, which is the provider of the remote
    aircraft: it keeps the aircraft in range with their latest situations and
    parts, asks for what it does not know, and says when an aircraft is ready for
    the matching of its model.  The analyzer watches who has fallen silent and takes
    snapshots of the aircraft in range; a simulator driver keeps the simulator
    equal to the last snapshot.  The simulator context has an aircraft that is ready
    matched with a model of the user's set and added to the simulator, and matches
    again when the simulator cannot add it.  Every part logs its messages through one
    handler, which passes them to the subscribers of patterns.  Beside this, text messages go through the context,
    voice runs over a connection of its own, and values are kept in caches that the
    processes keep in agreement.

    ** Conventions

    A member function is a function from a state to a state, with a list of what it
    emits: signals, calls of other objects, lines of the log.  The larger components
    have a monad each: [Cmd] (FSD client), [Mon] (monitor), [Sim] (driver), [Ctx]
    (context), [Voice].  A machine is a list of events, and the theorems about it hold
    for every list.  Definitions have the names of the source.

    What is not in the repository is a type class: the operations it offers, and a
    second class with the laws of its documentation.  Each has an instance that
    evaluates and satisfies the laws, on which the witnesses run:
    - [QtConv], [QtConvLaws], [QtJson], [QtUrl]: conversions of Qt ([QtReference]);
    - [StdSort], [StdSortBy]: what std::sort promises;
    - [CMath]: std::pow; [Aead], [MsgPack], [HeaderLaws]: libsodium and msgpack;
    - [QtChars], [QtLowerLaws]: members of QChar and QString only the codes use;
    - [UniformInt]: the distribution std::uniform_int_distribution; [ScriptEngine]: QJSEngine;
    - [VariantData], [VoiceObjects]: registered types of QVariant, replies of the
      voice server.

    The same way a component sees another one:
    - [FsdWire] of [FsdBase]: every message class promises that a well-formed message
      is read back from the fields it was written to;
    - [World] of [FsdTypes]: what the client asks during one event, i.e. the clock, the
      sockets, the own aircraft; [CtxWorld] for the context; [MonitorEnv] for the monitor;
    - [FlightGeometry], [AircraftKind]: geometry and models of aircraft, opaque there;
    - [AircraftDatabase]: the web data services, as the matcher asks them;
    - [MeasurementUnit]: the units of a physical quantity;
    - [SimulatorDriver] with [SimulatorDriverLaws]: what the base class of the drivers
      relies on; [SimulatorEmulated] discharges it.

    ** Files: shared vocabulary

    - [QtCore]: QString and QStringList with the methods the sources call, on
      lists of UTF-16 code units; binary64 arithmetic; [QtConv].
      [QtReference]: the instance.
    - [Json]: JSON values, the difference of two objects and the merge of a difference.
    - [PhysicalQuantity] (misc/pq): quantities with units: comparing, converting, JSON.
    - [Serializer]: core/fsd/enums.h and serializer.cpp, a Module per
      enumeration with [toQString] and [fromQString]; [Pbh]: the word of pitch, bank,
      heading and ground flag.
    - [Transponder], [Callsign], [ComSystem], [AircraftParts] (misc/aviation).
    - [TimestampList]: lists of timestamped objects with and without offset.
    - [TokenBucket], [DigestSignal] (misc).
    - [Severity], [StatusMessage], [LogPattern], [LogHandler] (misc/statusmessage, logpattern,
      loghandler): messages with their arguments; patterns and their order; the handlers
      of patterns and their subscribers.  A subscription lasts, the most specific pattern
      decides what the console shows, and messages held back are counted.

    ** Files: the FSD client, core/fsd

    - [FsdBase]: messagebase.h; [MsgSession], [MsgQuery], [MsgPosition]: the classes of
      messages, each a Module with [t], [null], [make], [toTokens], [fromTokens] and [eqb].
    - [FsdTypes]: value objects, the outputs ([Out]) and [World]; [Dispatch]: the table of
      commands and the split of a line; [FsdState]: the members and the monad [Cmd],
      which is [None] where the code indexes a list out of range.
    - [FsdCore]: statistics, raw message log, send queue, timers, connecting and
      disconnecting; [FsdSend]: the send functions; [FsdReceive]: the handlers,
      parseMessage and the reading of both transports.
    - [FsdRun]: the client as a machine: [Event] is a call from outside, [handle] the
      member function called, [client_run] a sequence of them.  [Leaves] reduces a
      statement about all runs to the kinds of updates.  [FsdReference]: a world.
    - [FsdInvariant]: over every run the status signals form a chain, and the data of
      the client is bounded.  [FsdLine]: exactly which lines the client cannot handle.
      [FsdFraming]: a WebSocket stream has the same effect however it is cut.
      [FsdQueue]: order and number of what the send timer sends; the password in the log.
      [FsdConnection]: what disconnecting leaves and writes.  [FsdPeers]: what
      two clients agree on.  [FsdConfig]: the differences of aircraft configurations that
      a client sends keep its peers up to date.  [FsdOwn]: visual updates of the own aircraft.
      [Dispatch.message_end_to_end]: every class survives the way to the other client.

    ** Files: the aircraft in range

    - [OnGround] (ongroundinfo, aircraftsituation, aircraftsituationlist) and
      [RemoteAircraft] (misc/simulation/remoteaircraftprovider): the provider.
      [RemoteInvariant]: its maps agree, its lists are bounded, situations and parts sorted;
      [RemoteHistory]: the situations of a callsign are its history, by refinement of a
      simple machine; [RemoteUpdates]: removal, configurations, and interleavings
      of two threads.
    - [AirspaceMonitor] (core/airspacemonitor, misc/network/clientprovider): the slots and
      timers.  [MonitorReadiness]: an aircraft not yet sent to the matching is sent, or a timer
      waits for it; [MonitorSlots]: clients,
      stations and queues are consistent in every state.
    - [AirspaceSnapshot] (misc/simulation/airspaceaircraftsnapshot) and
      [AirspaceAnalyzer] (core/airspaceanalyzer): who is reported as timed out has been
      silent, and who has been silent is reported.
    - [InterpolationSetup] (misc/simulation/interpolation): the set-up that is in force for
      a callsign, and the restrictions of rendering.
    - [SimulatorDriver] (core/simulator), [SimulatorEmulated] (plugins/simulator/emulated),
      [SimulatorRendering]: what the simulator shows is what the snapshot enables and is
      still in range.

    ** Files: matching aircraft with models

    - [AircraftCodes] (misc/aviation/aircrafticaocode, airlineicaocode, livery, aircraftcategory,
      misc/rgbcolor), [AircraftModel] (misc/simulation/aircraftmodel, aircraftmodellist): the codes
      and models, their filters and scores.  [LiveryString]: the keys sent in the text of a
      livery are read back.
    - [AircraftMatcher] (core/aircraftmatcher, misc/simulation/categorymatcher,
      aircraftmatchersetup, matchingscript): the reductions of the set, the scores, the script,
      the model set.  A reduction yields the models left and whether it has reduced;
      what is logged is left out but for the one step that depends on it.  [MatcherResult]:
      every reduction leaves models of the set, so that one is found, as long as categories
      have levels without gap and a script returns values; the scores pick the best.
    - [SimulatorContext] (core/context/contextsimulatorimpl): the failures of the simulator to add
      an aircraft.  Failing over ends; where the setup has failed models removed, a failed model is
      avoided and another one is added.

    ** Files: context, text messages, voice, values

    - [NetworkConfig] (misc/network/networkconfig): the configuration of an operator and
      the delays before a new attempt.  [NetworkContext] (core/context/contextnetworkimpl):
      connecting, over the threads of context and client; [NetworkReconnect]: the attempts
      are bounded, and a disconnect ends them unless one is under way.
    - [TextMessages], [TextRelay] (misc/network/textmessage, the slots of the context)
      and [TextPartner]: what is relayed to a partner arrives, and relaying ends when no relay
      is forged.
    - [CryptoChannel], [CryptoSerializer] (core/afv/crypto) and [VoiceConnection]
      (core/afv/connection/clientconnection): no sequence number is accepted
      twice, no nonce is used twice, only authentic data is passed on.
    - [ValueReplica], [ValueCache] (misc/valuecache), [ValueProcess], [ValueNetwork]: after
      orderly runs, when nothing is on the way, all pages show what the cache has, in one
      process and over several.  [DataRevision] (misc/datacache): a change saved by one process
      is loaded by another one that loads next.

    A theorem with the ids of the form C<n> in its comment is a main property.  The other
    theorems support them, or state the behaviour of single operations; the examples
    at the ends of files show behaviours the code probably does not intend.

    ** Integers, fuel and undefined behaviour

    Integers are [Z] with the wrap-around written out where the code can reach
    it ([wrapU], [wrapS]): conversions from text, the fields of the packed word,
    the 32-bit sequence numbers and counters, 64-bit times.  Doubles are computed by
    [SpecFloat] as binary64.  [readWebSocketLines] runs with as many turns as the
    buffer has bytes, since every turn takes at least the line feed of a line
    off it; [FsdFraming.lines_fuel] shows that more turns change nothing.
    [readSocketLines] runs with the number of lines in the buffer, of which every
    turn takes one.  [AircraftModel.parseIds] runs with the number of characters, of which every
    turn takes one.  [ValueProcess.setDirect] has fuel because direct calls between pages
    may not end; an example shows that they do not.  An index out of range is [None].

    ** What is not modelled

    The closed library of the VATSIM authentication: the build without it is the
    one modelled.  Sockets, timers and the network access manager are outputs
    and events; a timer is the event that it fires.  The calls that move to the
    thread of the FSD client are posted in [NetworkContext]; elsewhere every event runs
    in that thread.
    - FSD client: the file of raw messages and the statistics as text.
    - Value objects: the members nobody in the model uses; property maps and
      icons; parsing and printing of quantities.
    - Monitor and provider: where an elevation comes from; the lookup of codes and models in the
      databases; changes of an aircraft by a map of properties.
    - Matcher: the reverse lookup, the statistics, the validation and the saving of
      models; the monitor's aircraft and those of the simulator context are two models of
      the same objects, each with the members its component reads.
    - Logging: the names of the categories, the history, the log file, DBus.
    - Drivers: the interpolation of positions, the plugins for real simulators, weather.
    - Context: the graceful shutdown, the command line, getters that only delegate.
    - Values: backups and session files, the text of a value in a file.
    - The readers of web data, the VATSIM data files, the requests of the voice API, the
      audio devices, and the graphical user interface. *)

From stdpp Require Export prelude gmap list.
From Stdlib Require Export ZArith Lia.

#[export] Set Default Goal Selector "!".

(** ** Automation *)

Create HintDb swift discriminated.
Create HintDb swift_arith discriminated.
Create Rewrite HintDb qt.
Create Rewrite HintDb swift_refl.

(** Split every [if]/[match] scrutinee of the goal, deciding propositions. *)
Ltac cases := repeat (case_decide || case_match); simplify_eq/=.

(** Turn the boolean comparisons in the context into propositions. *)
Ltac bool_hyps :=
  repeat match goal with
  | H : (_ <? _)%Z = true |- _ => apply Z.ltb_lt in H
  | H : (_ <? _)%Z = false |- _ => apply Z.ltb_ge in H
  | H : (_ <=? _)%Z = true |- _ => apply Z.leb_le in H
  | H : (_ <=? _)%Z = false |- _ => apply Z.leb_gt in H
  | H : (_ =? _)%Z = true |- _ => apply Z.eqb_eq in H
  | H : (_ =? _)%Z = false |- _ => apply Z.eqb_neq in H
  | H : _ && _ = true |- _ => apply andb_true_iff in H as [? ?]
  | H : _ || _ = false |- _ => apply orb_false_iff in H as [? ?]
  | H : negb _ = true |- _ => apply negb_true_iff in H
  | H : negb _ = false |- _ => apply negb_false_iff in H
  | H : bool_decide _ = true |- _ => apply bool_decide_eq_true in H
  | H : bool_decide _ = false |- _ => apply bool_decide_eq_false in H
  end.

(** Arithmetic after unfolding what the hint database [swift_arith] knows. *)
Ltac zlia := autounfold with swift_arith in *; bool_hyps; lia.

(** ** Machine integers

    A C++ integer of [w] bits is a [Z]; [wrapU] and [wrapS] are the unsigned
    and the signed (two's complement) reductions to [w] bits. *)

Open Scope Z_scope.

Definition wrapU (w z : Z) : Z := z mod 2 ^ w.
Definition wrapS (w z : Z) : Z := (z + 2 ^ (w - 1)) mod 2 ^ w - 2 ^ (w - 1).

Definition inU (w z : Z) : Prop := 0 <= z < 2 ^ w.
Definition inS (w z : Z) : Prop := - 2 ^ (w - 1) <= z < 2 ^ (w - 1).

#[global] Instance inU_dec w z : Decision (inU w z).
Proof. unfold inU. apply _. Defined.
#[global] Instance inS_dec w z : Decision (inS w z).
Proof. unfold inS. apply _. Defined.

Definition int32_max : Z := 2147483647.
Definition int32_min : Z := -2147483648.
Definition uint32_max : Z := 4294967295.

#[export] Hint Unfold inU inS int32_max int32_min uint32_max : swift_arith.

Lemma wrapU_range w z : 0 <= w -> inU w (wrapU w z).
Proof. intros Hw. apply Z.mod_pos_bound. apply Z.pow_pos_nonneg; lia. Qed.

Lemma wrapU_id w z : inU w z -> wrapU w z = z.
Proof. apply Z.mod_small. Qed.

Lemma pow2_half w : 0 < w -> 2 ^ w = 2 * 2 ^ (w - 1).
Proof. intros. rewrite <- Z.pow_succ_r by lia. f_equal. lia. Qed.

Lemma wrapS_range w z : 0 < w -> inS w (wrapS w z).
Proof.
  intros Hw. unfold inS, wrapS.
  pose proof (Z.mod_pos_bound (z + 2 ^ (w - 1)) (2 ^ w)).
  pose proof (pow2_half w Hw). pose proof (Z.pow_pos_nonneg 2 w). lia.
Qed.

Lemma wrapS_id w z : 0 < w -> inS w z -> wrapS w z = z.
Proof.
  unfold inS, wrapS. intros Hw Hz. pose proof (pow2_half w Hw).
  rewrite Z.mod_small; lia.
Qed.

(** The signed value read back from the unsigned bits of a field. *)
Lemma wrapS_wrapU w z : 0 < w -> wrapS w (wrapU w z) = wrapS w z.
Proof.
  intros Hw. unfold wrapS, wrapU. f_equal.
  rewrite Zplus_mod_idemp_l. reflexivity.
Qed.

#[export] Hint Resolve wrapU_range wrapS_range : swift.

(** ** Decision by enumeration of an interval of integers *)

Definition Zrange_forall (lo : Z) (n : nat) (P : Z -> bool) : bool :=
  forallb (fun i => P (lo + Z.of_nat i)) (seq 0 n).

Lemma Zrange_forall_spec lo n P :
  Zrange_forall lo n P = true -> forall z, lo <= z < lo + Z.of_nat n -> P z = true.
Proof.
  intros H z Hz. unfold Zrange_forall in H.
  rewrite forallb_forall in H.
  specialize (H (Z.to_nat (z - lo))).
  replace (lo + Z.of_nat (Z.to_nat (z - lo))) with z in H by lia.
  apply H, in_seq. lia.
Qed.

(** ** Lists *)

Section lists.
Context {A : Type}.
Implicit Types (l : list A).

(** [last n] elements kept by a bounded history with the newest in front. *)
Lemma take_cons_bounded (n : nat) (x : A) l :
  (length l <= n)%nat ->
  (length (take n (x :: l)) <= n)%nat.
Proof. intros. rewrite length_take. lia. Qed.

Lemma Forall_lookup_total_dec (P : A -> Prop) `{!forall x, Decision (P x)} l :
  forallb (fun x => bool_decide (P x)) l = true -> Forall P l.
Proof.
  intros Hb. apply Forall_forall. intros x Hx.
  rewrite forallb_forall in Hb.
  apply list_elem_of_In in Hx. apply Hb in Hx. by apply bool_decide_eq_true in Hx.
Qed.

Lemma NoDup_app_singleton l x : NoDup l -> x ∉ l -> NoDup (l ++ [x]).
Proof.
  intros. apply NoDup_app. split_and!; set_solver by eauto using NoDup_singleton.
Qed.

(** Overwriting an element with a fresh one keeps a list without duplicates. *)
Lemma NoDup_insert_fresh l i x : NoDup l -> x ∉ l -> NoDup (<[i := x]> l).
Proof.
  intros Hl Hx. apply NoDup_alt. intros j k y Hj Hk.
  assert (Hxl : forall n, l !! n = Some x -> False).
  { intros n Hn. apply Hx. by eapply list_elem_of_lookup_2. }
  destruct (decide (i = j)) as [->|Hij], (decide (j = k)) as [->|Hjk]; try done.
  - rewrite list_lookup_insert_ne in Hk by done.
    apply list_lookup_insert_Some in Hj as [(_ & <- & _)|[? _]]; [by destruct (Hxl k) | done].
  - rewrite list_lookup_insert_ne in Hj by done.
    apply list_lookup_insert_Some in Hk as [(_ & <- & _)|[_ Hk]]; [by destruct (Hxl j)|].
    by eapply NoDup_lookup.
Qed.

End lists.

(** Fold of a state transformer over a list of events, the way a handler is
    called once per event. *)
Fixpoint run {S E : Type} (step : S -> E -> S) (s : S) (es : list E) : S :=
  match es with
  | [] => s
  | e :: es => run step (step s e) es
  end.

Lemma run_app {S E} (step : S -> E -> S) s es1 es2 :
  run step s (es1 ++ es2) = run step (run step s es1) es2.
Proof. revert s. induction es1 as [|e es1 IH]; simpl; auto. Qed.

(** An invariant of every step is an invariant of every run. *)
Lemma run_invariant {S E} (step : S -> E -> S) (I : S -> Prop) :
  (forall s e, I s -> I (step s e)) -> forall es s, I s -> I (run step s es).
Proof. intros Hstep es. induction es as [|e es IH]; simpl; auto. Qed.

(** ** Filters *)

Lemma list_filter_all {A} (P : A -> Prop) `{!forall x, Decision (P x)} (l : list A) :
  (forall x, x ∈ l -> P x) -> filter P l = l.
Proof.
  induction l as [|x l IH]; intros Hl; [done|]. rewrite filter_cons_True by (apply Hl; left).
  f_equal. apply IH. intros y Hy. apply Hl. by right.
Qed.

Lemma list_filter_none {A} (P : A -> Prop) `{!forall x, Decision (P x)} (l : list A) :
  (forall x, x ∈ l -> ~ P x) -> filter P l = [].
Proof.
  induction l as [|x l IH]; intros Hl; [done|]. rewrite filter_cons_False by (apply Hl; left).
  apply IH. intros y Hy. apply Hl. by right.
Qed.
