(* ===== verification/QtCore.v ===== *)
(** * The Qt vocabulary of the program

    Strings and string lists as the program handles them ([QString] is the
    list of its UTF-16 code units, [QStringList] a list of those), with the
    container methods the sources call, and the interface [QtConv] for the
    conversions the sources only call: text to number, number to text,
    character classes.  The laws the theorems rely on are the class
    [QtConvLaws]; [QtReference] instantiates both. *)

From stdpp Require Export strings.
From Stdlib Require Export SpecFloat.
From S2P Require Export Prelude.




(** ** Strings *)

Abbreviation QChar := N (only parsing).
Abbreviation QString := (list N).
Abbreviation QStringList := (list (list N)).

(** A C++ literal: ASCII only, one code unit per character. *)
Definition lit (s : string) : QString := map Ascii.N_of_ascii (String.list_ascii_of_string s).
Arguments lit s%_string.

Abbreviation colon := 58%N.


Definition isEmpty {A} (s : list A) : bool := match s with [] => true | _ => false end.

(** [str == "literal"]. *)
Definition eqs (s : QString) (l : string) : bool := bool_decide (s = lit l).
Arguments eqs s l%_string.

Lemma eqs_true s l : eqs s l = true <-> s = lit l.
Proof. apply bool_decide_eq_true. Qed.

Definition startsWith (s prefix : QString) : bool := bool_decide (take (length prefix) s = prefix).

Definition endsWith (s suffix : QString) : bool :=
  bool_decide (drop (length s - length suffix) s = suffix).

(** [QString::contains(QString)]. *)
Fixpoint containsSub (s sub : QString) : bool :=
  startsWith s sub || match s with [] => false | _ :: s' => containsSub s' sub end.

Definition containsChar (s : QString) (c : QChar) : bool := bool_decide (c ∈ s).

Definition countChar (s : QString) (c : QChar) : nat := length (filter (fun x => x = c) s).

(** [QString::remove(QChar)]. *)
Definition removeChar (s : QString) (c : QChar) : QString := filter (fun x => x <> c) s.

(** [QString::mid(n)], [QString::left(n)], [QString::right(n)] for [n >= 0]. *)
Definition mid {A} (s : list A) (n : nat) : list A := drop n s.
Definition left (s : QString) (n : nat) : QString := take n s.
Definition right (s : QString) (n : nat) : QString := drop (length s - n) s.

(** [QString::split(QChar)] with the default behaviour, which keeps empty
    parts: the result is never empty. *)
Fixpoint split (c : QChar) (s : QString) : QStringList :=
  match s with
  | [] => [[]]
  | x :: s' =>
      if decide (x = c) then [] :: split c s'
      else match split c s' with
           | h :: t => (x :: h) :: t
           | [] => [[x]]
           end
  end.

(** [QStringList::join]. *)
Fixpoint join (sep : QString) (l : QStringList) : QString :=
  match l with
  | [] => []
  | [s] => s
  | s :: l' => s ++ sep ++ join sep l'
  end.

(** First occurrence of a code unit, [QByteArray::indexOf(char)]. *)
Fixpoint indexOf (c : QChar) (s : QString) : option nat :=
  match s with
  | [] => None
  | x :: s' => if decide (x = c) then Some 0%nat else S <$> indexOf c s'
  end.

Lemma indexOf_lt c s i : indexOf c s = Some i -> (i < length s)%nat.
Proof.
  revert i. induction s as [|x s IH]; intros i; simpl; [done|].
  case_decide; [intros [= <-]; lia|]. destruct (indexOf c s) as [j|]; [|done].
  intros [= <-]. specialize (IH j eq_refl). lia.
Qed.
Lemma indexOf_app c s t i : indexOf c s = Some i -> indexOf c (s ++ t) = Some i.
Proof.
  revert i. induction s as [|x s IH]; intros i; simpl; [done|].
  case_decide; [done|]. destruct (indexOf c s) as [j|]; [|done].
  intros [= <-]. by rewrite (IH j eq_refl).
Qed.

Section trim.
Variable isSpace : QChar -> bool.

Fixpoint dropSpaces (s : QString) : QString :=
  match s with
  | x :: s' => if isSpace x then dropSpaces s' else s
  | [] => []
  end.

(** [QString::trimmed()]. *)
Definition trimWith (s : QString) : QString := rev (dropSpaces (rev (dropSpaces s))).

(** No space at either end. *)
Definition trimmedP (s : QString) : Prop :=
  (forall x, head s = Some x -> isSpace x = false) /\
  (forall x, last s = Some x -> isSpace x = false).

Lemma dropSpaces_id s : (forall x, head s = Some x -> isSpace x = false) -> dropSpaces s = s.
Proof. destruct s as [|x s]; simpl; [done|]. intros H. by rewrite (H x eq_refl). Qed.

Lemma trimWith_id s : trimmedP s -> trimWith s = s.
Proof.
  intros [Hh Hl]. unfold trimWith. rewrite (dropSpaces_id s Hh), dropSpaces_id.
  - apply rev_involutive.
  - intros x Hx. apply Hl. rewrite <- Hx.
    rewrite <- (rev_involutive s) at 1. rewrite !rev_alt, <- !rev_alt.
    destruct (rev s) as [|y r]; [done|]. simpl. by rewrite last_snoc.
Qed.

Lemma dropSpaces_app_spaces s sp :
  Forall (fun x => isSpace x = true) sp -> dropSpaces (sp ++ s) = dropSpaces s.
Proof. induction 1 as [|x sp Hx _ IH]; simpl; [done|]. by rewrite Hx. Qed.

(** Trimming removes a run of spaces at the end. *)
Lemma trimWith_app_spaces s sp :
  trimmedP s -> s <> [] -> Forall (fun x => isSpace x = true) sp -> trimWith (s ++ sp) = s.
Proof.
  intros Ht Hne Hsp. unfold trimWith.
  assert (dropSpaces (s ++ sp) = s ++ sp) as ->.
  { apply dropSpaces_id. destruct s; [done|]. intros x Hx. by apply (proj1 Ht). }
  rewrite rev_app_distr, dropSpaces_app_spaces.
  - rewrite <- (trimWith_id s Ht) at 2. unfold trimWith.
    by rewrite (dropSpaces_id s (proj1 Ht)).
  - by apply Forall_rev.
Qed.

Lemma dropSpaces_suffix s : exists p, s = p ++ dropSpaces s.
Proof.
  induction s as [|x s [p IH]]; simpl; [by exists []|].
  destruct (isSpace x); [|by exists []]. exists (x :: p). simpl. by f_equal.
Qed.

Lemma dropSpaces_head s x : head (dropSpaces s) = Some x -> isSpace x = false.
Proof.
  induction s as [|y s IH]; simpl; [done|].
  destruct (isSpace y) eqn:E; [done|]. simpl. by intros [= ->].
Qed.
End trim.

(** ** Splitting and joining *)

Section split_join.
Variable c : QChar.

Lemma split_nonempty s : split c s <> [].
Proof. destruct s; simpl; [done|]. case_decide; [done|]. by destruct (split c s). Qed.

Lemma split_no_sep s : c ∉ s -> split c s = [s].
Proof.
  induction s as [|x s IH]; simpl; [done|]. rewrite not_elem_of_cons. intros [Hx Hs].
  rewrite decide_False by congruence. by rewrite (IH Hs).
Qed.

Lemma split_app s t : c ∉ s -> split c (s ++ c :: t) = s :: split c t.
Proof.
  induction s as [|x s IH]; simpl.
  - by rewrite decide_True.
  - rewrite not_elem_of_cons. intros [Hx Hs]. rewrite decide_False by congruence.
    by rewrite (IH Hs).
Qed.

(** A list of fields none of which contains the separator is recovered from
    its joined form. *)
Lemma split_join l :
  l <> [] -> Forall (fun t => c ∉ t) l -> split c (join [c] l) = l.
Proof.
  intros Hne Hl. induction Hl as [|s l Hs Hl IH]; [done|].
  destruct l as [|s' l']; [by apply split_no_sep|].
  change (join [c] (s :: s' :: l')) with (s ++ c :: join [c] (s' :: l')).
  rewrite split_app by done. by rewrite IH.
Qed.

(** Splitting loses nothing. *)
Lemma join_split s : join [c] (split c s) = s.
Proof.
  induction s as [|x s IH]; simpl; [done|].
  pose proof (split_nonempty s) as Hne.
  case_decide as Hx; subst.
  - destruct (split c s) eqn:E; [done|]. simpl. simpl in IH. by rewrite IH.
  - destruct (split c s) as [|h t] eqn:E; [done|].
    destruct t; simpl in *; by rewrite IH.
Qed.

Lemma split_fields s : Forall (fun t => c ∉ t) (split c s).
Proof.
  induction s as [|x s IH]; simpl; [repeat constructor; set_solver|].
  case_decide.
  - constructor; [set_solver | done].
  - destruct (split c s) as [|h t] eqn:E; [by destruct (split_nonempty s)|].
    inv IH. constructor; [set_solver | done].
Qed.
End split_join.

Lemma removeChar_spec s c : c ∉ removeChar s c.
Proof. unfold removeChar. rewrite list_elem_of_filter. naive_solver. Qed.

Lemma startsWith_app p s : startsWith (p ++ s) p = true.
Proof. unfold startsWith. rewrite take_app_length. by apply bool_decide_eq_true. Qed.

Lemma startsWith_spec s p : startsWith s p = true <-> exists t, s = p ++ t.
Proof.
  split.
  - unfold startsWith. rewrite bool_decide_eq_true. intros H. exists (drop (length p) s).
    rewrite <- H at 1. by rewrite take_drop.
  - intros [t ->]. apply startsWith_app.
Qed.

Lemma endsWith_spec s p : endsWith s p = true <-> exists t, s = t ++ p.
Proof.
  unfold endsWith. rewrite bool_decide_eq_true. split.
  - intros H. exists (take (length s - length p) s). rewrite <- H at 2. by rewrite take_drop.
  - intros [t ->]. rewrite length_app, Nat.add_sub. apply drop_app_length.
Qed.

Lemma containsSub_spec s p : containsSub s p = true <-> exists t u, s = t ++ p ++ u.
Proof.
  induction s as [|x s IH]; simpl; rewrite orb_true_iff, startsWith_spec.
  - split.
    + intros [[t Ht]|]; [|done]. by exists [], t.
    + intros (t & u & Ht). left. destruct t; [by exists u|done].
  - rewrite IH. split.
    + intros [[t Ht]|(t & u & ->)]; [by exists [], t | by exists (x :: t), u].
    + intros ([|y t] & u & Ht); [left; by exists u|]. right. exists t, u. by simplify_eq/=.
Qed.

(** ** Floating point numbers

    [double] is IEEE binary64, with the operations of the Standard Library's
    executable specification. *)

Abbreviation double := spec_float (only parsing).

#[global] Instance spec_float_eq_dec : EqDecision spec_float.
Proof. solve_decision. Defined.

Definition f64_prec : Z := 53.
Definition f64_emax : Z := 1024.
Definition f64_mul (x y : double) : double := SFmul f64_prec f64_emax x y.
Definition f64_div (x y : double) : double := SFdiv f64_prec f64_emax x y.
Definition f64_add (x y : double) : double := SFadd f64_prec f64_emax x y.
Definition f64_sub (x y : double) : double := SFsub f64_prec f64_emax x y.
Definition f64_opp (x : double) : double := SFopp x.
(** The double nearest to an integer (the conversion of an [int]). *)
Definition f64_of_Z (z : Z) : double := binary_normalize f64_prec f64_emax z 0 false.
Definition f64_zero : double := S754_zero false.

(** Largest integer below a finite double, [std::floor] followed by the
    conversion to an integer; and the conversion that drops the fraction. *)
Definition f64_floor (f : double) : Z :=
  match f with
  | S754_finite s m e => Z.shiftl (if s then Z.neg m else Z.pos m) e
  | _ => 0
  end.
Definition f64_trunc (f : double) : Z :=
  match f with
  | S754_finite s m e => let a := Z.shiftl (Z.pos m) e in if s then - a else a
  | _ => 0
  end.

(** ** Conversions

    What the sources call on [QString] and [QChar] to convert text to numbers
    and back.  [None] is a failed conversion. *)

Class QtConv := {
  qt_toInt : QString -> option Z;            (** toInt(), base 10 *)
  qt_toUInt : QString -> option Z;           (** toUInt(), base 10 *)
  qt_toUShort16 : QString -> option Z;       (** toUShort(nullptr, 16) *)
  qt_toULongLong : QString -> option Z;      (** toULongLong() *)
  qt_toLongLong : QString -> option Z;       (** toLongLong() *)
  qt_toDouble : QString -> option double;    (** toDouble() *)
  qt_number : Z -> QString;                  (** number(n), base 10 *)
  qt_number16 : Z -> QString;                (** number(n, 16) *)
  qt_numberF : double -> Z -> QString;       (** number(x, 'f', prec) *)
  qt_numberG : double -> QString;            (** number(x), format 'g', six digits *)
  qt_isSpace : QChar -> bool;                (** QChar::isSpace *)
  qt_isLetterOrNumber : QChar -> bool;       (** QChar::isLetterOrNumber *)
  qt_isUpper : QChar -> bool;                (** QChar::isUpper *)
  qt_isDigit : QChar -> bool;                (** QChar::isDigit *)
  qt_toUpper : QString -> QString;           (** QString::toUpper *)
  qt_toLower : QString -> QString;           (** QString::toLower *)
  qt_foldCase : QChar -> QChar;              (** the folding of Qt::CaseInsensitive *)
  qt_fuzzyCompare : double -> double -> bool (** qFuzzyCompare *)
}.

(** The characters a printed number consists of. *)
Definition numberChar (c : QChar) : Prop :=
  (48 <= c <= 57)%N \/ c = 45%N \/ c = 43%N \/ c = 46%N \/ (97 <= c <= 122)%N.

Definition asciiUpper (c : QChar) : QChar :=
  if bool_decide (97 <= c <= 122)%N then (c - 32)%N else c.

Class QtConvLaws `{QtConv} := {
  qt_toInt_number n : inS 32 n -> qt_toInt (qt_number n) = Some n;
  qt_toUInt_number n : inU 32 n -> qt_toUInt (qt_number n) = Some n;
  qt_toULongLong_number n : inU 64 n -> qt_toULongLong (qt_number n) = Some n;
  qt_toLongLong_number n : inS 64 n -> qt_toLongLong (qt_number n) = Some n;
  qt_toUShort16_number16 n : inU 16 n -> qt_toUShort16 (qt_number16 n) = Some n;
  qt_toInt_range s n : qt_toInt s = Some n -> inS 32 n;
  qt_toUInt_range s n : qt_toUInt s = Some n -> inU 32 n;
  qt_number_small n : 0 <= n < 10 -> qt_number n = [Z.to_N (48 + n)];
  qt_number_digit n : 10 <= n -> qt_number n = qt_number (n / 10) ++ [Z.to_N (48 + n mod 10)];
  qt_number_chars n : Forall numberChar (qt_number n);
  qt_number_nonempty n : qt_number n <> [];
  qt_number16_chars n : Forall numberChar (qt_number16 n);
  qt_number16_nonempty n : qt_number16 n <> [];
  qt_numberF_chars x p : Forall numberChar (qt_numberF x p);
  qt_numberF_nonempty x p : qt_numberF x p <> [];
  qt_isSpace_ascii c : (c < 128)%N -> qt_isSpace c = bool_decide ((9 <= c <= 13)%N \/ c = 32%N);
  qt_isLetterOrNumber_ascii c : (c < 128)%N ->
    qt_isLetterOrNumber c =
      bool_decide ((48 <= c <= 57)%N \/ (65 <= c <= 90)%N \/ (97 <= c <= 122)%N);
  qt_isUpper_ascii c : (c < 128)%N -> qt_isUpper c = bool_decide (65 <= c <= 90)%N;
  qt_isDigit_ascii c : (c < 128)%N -> qt_isDigit c = bool_decide (48 <= c <= 57)%N;
  qt_foldCase_ascii c : (c < 128)%N ->
    qt_foldCase c = if bool_decide (65 <= c <= 90)%N then (c + 32)%N else c;
  qt_toUpper_ascii s : Forall (fun c => (c < 128)%N) s -> qt_toUpper s = map asciiUpper s;
  qt_fuzzyCompare_refl x : (exists s m e, x = S754_finite s m e) -> qt_fuzzyCompare x x = true;
  qt_fuzzyCompare_zero : qt_fuzzyCompare f64_zero f64_zero = true
}.

Section conv.
Context `{QtConv}.

(** The overloads without an [ok] flag return zero when they fail. *)
Definition toInt (s : QString) : Z := default 0 (qt_toInt s).
Definition toUInt (s : QString) : Z := default 0 (qt_toUInt s).
Definition toUShort16 (s : QString) : Z := default 0 (qt_toUShort16 s).
Definition toULongLong (s : QString) : Z := default 0 (qt_toULongLong s).
Definition toLongLong (s : QString) : Z := default 0 (qt_toLongLong s).
Definition toDouble (s : QString) : double := default f64_zero (qt_toDouble s).
Definition trimmed (s : QString) : QString := trimWith qt_isSpace s.

(** [Qt::CaseInsensitive] comparisons: both sides folded. *)
Definition startsWithCI (s prefix : QString) : bool :=
  startsWith (map qt_foldCase s) (map qt_foldCase prefix).
Definition endsWithCI (s suffix : QString) : bool :=
  endsWith (map qt_foldCase s) (map qt_foldCase suffix).
Definition containsCI (s sub : QString) : bool :=
  containsSub (map qt_foldCase s) (map qt_foldCase sub).
Definition equalsCI (s t : QString) : bool := bool_decide (map qt_foldCase s = map qt_foldCase t).

(** The doubles that survive being printed with [p] decimals. *)
Definition onGrid (p : Z) (x : double) : Prop := toDouble (qt_numberF x p) = x.
#[global] Instance onGrid_dec p x : Decision (onGrid p x).
Proof. unfold onGrid. apply _. Defined.
End conv.

Section conv_laws.
Context `{QtConvLaws}.

Lemma toInt_number n : inS 32 n -> toInt (qt_number n) = n.
Proof. intros. unfold toInt. by rewrite qt_toInt_number. Qed.
Lemma toUInt_number n : inU 32 n -> toUInt (qt_number n) = n.
Proof. intros. unfold toUInt. by rewrite qt_toUInt_number. Qed.
Lemma toULongLong_number n : inU 64 n -> toULongLong (qt_number n) = n.
Proof. intros. unfold toULongLong. by rewrite qt_toULongLong_number. Qed.
Lemma toLongLong_number n : inS 64 n -> toLongLong (qt_number n) = n.
Proof. intros. unfold toLongLong. by rewrite qt_toLongLong_number. Qed.
Lemma toUShort16_number16 n : inU 16 n -> toUShort16 (qt_number16 n) = n.
Proof. intros. unfold toUShort16. by rewrite qt_toUShort16_number16. Qed.

Lemma toInt_range s : inS 32 (toInt s).
Proof.
  unfold toInt. destruct (qt_toInt s) eqn:E; simpl; [by eapply qt_toInt_range|].
  unfold inS. lia.
Qed.
Lemma toUInt_range s : inU 32 (toUInt s).
Proof.
  unfold toUInt. destruct (qt_toUInt s) eqn:E; simpl; [by eapply qt_toUInt_range|].
  unfold inU. lia.
Qed.

(** Case folding of ASCII text. *)
Definition ascii (s : QString) : Prop := Forall (fun c => (c < 128)%N) s.
#[export] Instance ascii_dec s : Decision (ascii s).
Proof. unfold ascii. apply _. Defined.

Definition asciiLower (c : QChar) : QChar := if bool_decide (65 <= c <= 90)%N then (c + 32)%N else c.

Lemma foldCase_ascii s : ascii s -> map qt_foldCase s = map asciiLower s.
Proof.
  induction 1 as [|c s Hc _ IH]; simpl; [done|]. by rewrite IH, qt_foldCase_ascii.
Qed.

(** A number's text has no separator and no space. *)
Lemma numberChar_colon c : numberChar c -> c <> colon.
Proof. unfold numberChar. lia. Qed.
Lemma numberChar_space c : numberChar c -> qt_isSpace c = false.
Proof.
  unfold numberChar. intros Hc. rewrite qt_isSpace_ascii by lia.
  apply bool_decide_eq_false. lia.
Qed.

Lemma numberChars_no_colon s : Forall numberChar s -> colon ∉ s.
Proof.
  intros Hs Hin. rewrite Forall_forall in Hs. apply Hs in Hin.
  by apply numberChar_colon in Hin.
Qed.

End conv_laws.

#[export] Hint Resolve numberChars_no_colon qt_number_chars qt_number16_chars
  qt_numberF_chars : swift.
#[export] Hint Rewrite @toInt_number @toUInt_number @toULongLong_number @toLongLong_number
  @toUShort16_number16 using (assumption || (unfold inS, inU in *; lia)) : qt.
