(* ===== verification/QtReference.v ===== *)
(** * A concrete instance of the Qt conversions

    Decimal and hexadecimal text in the plain C locale, written out so that
    the witnesses of the other files evaluate.  No theorem about the program
    depends on this file: the theorems hold for every instance of
    [QtConv] with [QtConvLaws]. *)

From Stdlib Require Import SpecFloat.
From S2P Require Import QtCore.

Open Scope Z_scope.

(** ** Digits *)

Definition digitChar (d : Z) : QChar := Z.to_N (if d <? 10 then 48 + d else 87 + d).

Definition charDigit (base : Z) (c : QChar) : option Z :=
  let z := Z.of_N c in
  let d := if (48 <=? z) && (z <=? 57) then z - 48
           else if (97 <=? z) && (z <=? 102) then z - 87 else 99 in
  if d <? base then Some d else None.

Fixpoint digits (fuel : nat) (base n : Z) : QString :=
  match fuel with
  | O => []
  | S f => (if n <? base then [] else digits f base (n / base)) ++ [digitChar (n mod base)]
  end.

Fixpoint undigits (base acc : Z) (s : QString) : option Z :=
  match s with
  | [] => Some acc
  | c :: s' => match charDigit base c with
               | Some d => undigits base (acc * base + d) s'
               | None => None
               end
  end.

Definition printNat (base n : Z) : QString := digits (S (Z.to_nat (Z.log2 n))) base n.

Definition parseNat (base : Z) (s : QString) : option Z :=
  match s with [] => None | _ => undigits base 0 s end.

Definition ref_number (base n : Z) : QString :=
  if n <? 0 then 45%N :: printNat base (- n) else printNat base n.

Definition ref_parse (base : Z) (lo hi : Z) (s : QString) : option Z :=
  let r := match s with
           | 45%N :: s' => Z.opp <$> parseNat base s'
           | 43%N :: s' => parseNat base s'
           | _ => parseNat base s
           end in
  match r with
  | Some z => if (lo <=? z) && (z <? hi) then Some z else None
  | None => None
  end.

(** ** Decimal fractions *)

Definition pow10 (p : Z) : Z := 10 ^ p.

(** [x * 10^p] rounded to the nearest integer, ties to even. *)
Definition scaled (x : double) (p : Z) : Z :=
  match x with
  | S754_finite s m e =>
      let a := Z.pos m * pow10 p in
      let r := if 0 <=? e then Z.shiftl a e
               else let d := 2 ^ (- e) in
                    let k := a / d in
                    match (2 * (a mod d) ?= d) with
                    | Lt => k
                    | Gt => k + 1
                    | Eq => if Z.even k then k else k + 1
                    end in
      if s then - r else r
  | _ => 0
  end.

Definition padLeft (n : nat) (s : QString) : QString := repeat 48%N (n - length s) ++ s.

Definition ref_numberF (x : double) (p : Z) : QString :=
  let z := scaled x p in
  let ds := padLeft (S (Z.to_nat p)) (printNat 10 (Z.abs z)) in
  let k := (length ds - Z.to_nat p)%nat in
  (if z <? 0 then [45%N] else []) ++ take k ds ++
  (if p <=? 0 then [] else 46%N :: drop k ds).

Definition ref_toDouble (s : QString) : option double :=
  let '(neg, body) := match s with 45%N :: s' => (true, s') | _ => (false, s) end in
  let '(ip, fp) := match indexOf 46%N body with
                   | Some k => (take k body, drop (S k) body)
                   | None => (body, [])
                   end in
  match parseNat 10 (ip ++ fp) with
  | Some m =>
      let v := f64_div (f64_of_Z m) (f64_of_Z (pow10 (Z.of_nat (length fp)))) in
      Some (if neg then f64_opp v else v)
  | None => None
  end.

Definition ref_isSpace (c : QChar) : bool := bool_decide ((9 <= c <= 13)%N \/ c = 32%N).
Definition ref_isLetterOrNumber (c : QChar) : bool :=
  bool_decide ((48 <= c <= 57)%N \/ (65 <= c <= 90)%N \/ (97 <= c <= 122)%N).

(** [qAbs(p1 - p2) * 1000000000000. <= qMin(qAbs(p1), qAbs(p2))]; equal
    operands have difference zero. *)
Definition ref_fuzzyCompare (x y : double) : bool :=
  bool_decide (x = y) ||
  SFleb (f64_mul (SFabs (f64_sub x y)) (f64_of_Z 1000000000000))
        (if SFltb (SFabs x) (SFabs y) then SFabs x else SFabs y).

#[export] Instance refQt : QtConv := {|
  qt_toInt := ref_parse 10 (-2147483648) 2147483648;
  qt_toUInt := ref_parse 10 0 4294967296;
  qt_toUShort16 := ref_parse 16 0 65536;
  qt_toULongLong := ref_parse 10 0 18446744073709551616;
  qt_toLongLong := ref_parse 10 (-9223372036854775808) 9223372036854775808;
  qt_toDouble := ref_toDouble;
  qt_number := ref_number 10;
  qt_number16 := ref_number 16;
  qt_numberF := ref_numberF;
  qt_numberG := fun x => ref_numberF x 6;
  qt_isSpace := ref_isSpace;
  qt_isLetterOrNumber := ref_isLetterOrNumber;
  qt_isUpper := fun c => bool_decide (65 <= c <= 90)%N;
  qt_isDigit := fun c => bool_decide (48 <= c <= 57)%N;
  qt_toUpper := map asciiUpper;
  qt_toLower := map (fun c => if bool_decide (65 <= c <= 90)%N then (c + 32)%N else c);
  qt_foldCase := fun c => if bool_decide (65 <= c <= 90)%N then (c + 32)%N else c;
  qt_fuzzyCompare := ref_fuzzyCompare
|}.

(** ** The instance satisfies the laws *)

Section digits.
Variable base : Z.
Hypothesis Hbase : 2 <= base <= 16.

Lemma charDigit_digitChar d : 0 <= d < base -> charDigit base (digitChar d) = Some d.
Proof using Hbase.
  intros Hd. unfold charDigit, digitChar.
  destruct (d <? 10) eqn:E; bool_hyps; rewrite Z2N.id by lia.
  - replace ((48 <=? 48 + d) && (48 + d <=? 57)) with true by lia.
    replace (48 + d - 48 <? base) with true by lia. f_equal; lia.
  - replace ((48 <=? 87 + d) && (87 + d <=? 57)) with false by lia.
    replace ((97 <=? 87 + d) && (87 + d <=? 102)) with true by lia.
    replace (87 + d - 87 <? base) with true by lia. f_equal; lia.
Qed.

Lemma digitChar_numberChar d : 0 <= d < base -> numberChar (digitChar d).
Proof using Hbase.
  intros Hd. unfold numberChar, digitChar. destruct (d <? 10) eqn:E; bool_hyps; lia.
Qed.

Lemma undigits_app s t acc :
  undigits base acc (s ++ t) = undigits base acc s ≫= (fun a => undigits base a t).
Proof.
  revert acc. induction s as [|c s IH]; simpl; [done|].
  intros acc. destruct (charDigit base c); simpl; auto.
Qed.

Lemma digits_undigits fuel n :
  0 <= n < 2 ^ Z.of_nat fuel -> undigits base 0 (digits fuel base n) = Some n.
Proof using Hbase.
  revert n. induction fuel as [|f IH]; intros n Hn.
  - change (2 ^ Z.of_nat 0) with 1 in Hn. simpl. f_equal. lia.
  - simpl. rewrite undigits_app.
    pose proof (Z.mod_pos_bound n base). pose proof (Z.div_mod n base).
    destruct (n <? base) eqn:E; bool_hyps.
    + simpl. rewrite charDigit_digitChar by lia. simpl. f_equal. rewrite Z.mod_small; lia.
    + assert (n / base < 2 ^ Z.of_nat f).
      { apply Z.div_lt_upper_bound; [lia|].
        rewrite Nat2Z.inj_succ, Z.pow_succ_r in Hn by lia.
        pose proof (Z.pow_pos_nonneg 2 (Z.of_nat f)). nia. }
      rewrite IH by (split; [apply Z.div_pos; lia | done]).
      simpl. rewrite charDigit_digitChar by lia. simpl. f_equal. lia.
Qed.

Lemma digits_chars fuel n : 0 <= n -> Forall numberChar (digits fuel base n).
Proof using Hbase.
  revert n. induction fuel as [|f IH]; intros n Hn; simpl; [constructor|].
  apply Forall_app. split.
  - destruct (n <? base).
    + constructor.
    + apply IH. apply Z.div_pos; lia.
  - apply Forall_singleton, digitChar_numberChar, Z.mod_pos_bound. lia.
Qed.

Lemma digits_head fuel n c s : 0 <= n -> digits fuel base n = c :: s -> numberChar c.
Proof using Hbase.
  intros Hn E. pose proof (digits_chars fuel n Hn) as Hf. rewrite E in Hf. by inv Hf.
Qed.

Lemma digits_no_sign fuel n c s :
  0 <= n -> digits fuel base n = c :: s -> c <> 45%N /\ c <> 43%N.
Proof using Hbase.
  revert n c s. induction fuel as [|f IH]; intros n c s Hn; simpl; [done|].
  pose proof (Z.mod_pos_bound n base).
  assert (digitChar (n mod base) <> 45%N /\ digitChar (n mod base) <> 43%N) as Hd.
  { unfold digitChar. destruct (_ <? 10) eqn:?; bool_hyps; lia. }
  destruct (n <? base) eqn:E; simpl; [by intros [= <- <-]|]. bool_hyps.
  destruct (digits f base (n / base)) as [|c' s'] eqn:E'; simpl; intros [= <- <-]; [done|].
  eapply IH; [|exact E']. apply Z.div_pos; lia.
Qed.

Lemma printNat_ne n : printNat base n <> [].
Proof.
  unfold printNat. simpl. intros E. apply app_eq_nil in E as [_ E]. done.
Qed.

Lemma printNat_fuel n : 0 <= n -> n < 2 ^ Z.of_nat (S (Z.to_nat (Z.log2 n))).
Proof.
  intros Hn. rewrite Nat2Z.inj_succ, Z2Nat.id by apply Z.log2_nonneg.
  destruct (Z.eq_dec n 0) as [->|]; [done|]. apply Z.log2_spec. lia.
Qed.

Lemma parseNat_printNat n : 0 <= n -> parseNat base (printNat base n) = Some n.
Proof using Hbase.
  intros Hn. pose proof (printNat_fuel n Hn).
  pose proof (printNat_ne n). unfold parseNat.
  destruct (printNat base n) eqn:E; [done|]. rewrite <- E.
  apply digits_undigits. lia.
Qed.

Lemma ref_number_parse lo hi n :
  lo <= n < hi -> ref_parse base lo hi (ref_number base n) = Some n.
Proof using Hbase.
  intros Hn. unfold ref_parse, ref_number.
  destruct (n <? 0) eqn:E; bool_hyps.
  - rewrite parseNat_printNat by lia. simpl. rewrite Z.opp_involutive.
    by replace ((lo <=? n) && (n <? hi)) with true by lia.
  - pose proof (parseNat_printNat n ltac:(lia)) as Hp.
    destruct (printNat base n) as [|c s] eqn:Ep; [by destruct (printNat_ne n)|].
    assert (c <> 45%N /\ c <> 43%N) as [H1 H2] by (eapply digits_no_sign; [|exact Ep]; lia).
    transitivity (match parseNat base (c :: s) with
      | Some z => if (lo <=? z) && (z <? hi) then Some z else None | None => None end).
    + destruct c as [|p]; [done|]. do 7 (destruct p as [p|p|]; try done).
    + rewrite Hp. by replace ((lo <=? n) && (n <? hi)) with true by lia.
Qed.

Lemma ref_number_chars n : Forall numberChar (ref_number base n).
Proof using Hbase.
  unfold ref_number. destruct (n <? 0) eqn:E; bool_hyps.
  - constructor; [unfold numberChar; lia | apply digits_chars; lia].
  - apply digits_chars; lia.
Qed.

Lemma ref_number_ne n : ref_number base n <> [].
Proof. unfold ref_number. destruct (n <? 0); [done | apply printNat_ne]. Qed.
End digits.

Lemma ref_number_small n : 0 <= n < 10 -> ref_number 10 n = [Z.to_N (48 + n)].
Proof.
  intros Hn.
  assert (Hc : forall n, 0 <= n < 10 -> bool_decide (ref_number 10 n = [Z.to_N (48 + n)]) = true).
  { apply (Zrange_forall_spec 0 10). vm_compute. reflexivity. }
  specialize (Hc n Hn). by apply bool_decide_eq_true in Hc.
Qed.

Lemma digits_more_fuel base f : forall n g,
  2 <= base -> 0 <= n < 2 ^ Z.of_nat f -> (f <= g)%nat -> (1 <= f)%nat ->
  digits g base n = digits f base n.
Proof.
  induction f as [|f IH]; intros n g Hb Hn Hg Hf; [lia|].
  destruct g as [|g]; [lia|]. simpl.
  destruct (n <? base) eqn:E; bool_hyps; [done|]. f_equal.
  assert (n / base < 2 ^ Z.of_nat f).
  { apply Z.div_lt_upper_bound; [lia|].
    rewrite Nat2Z.inj_succ, Z.pow_succ_r in Hn by lia.
    pose proof (Z.pow_pos_nonneg 2 (Z.of_nat f)). nia. }
  assert (1 <= n / base) by (apply Z.div_le_lower_bound; lia).
  apply IH; try lia. destruct f; [|lia]. simpl in *. lia.
Qed.

Lemma ref_number_digit n : 10 <= n -> ref_number 10 n = ref_number 10 (n / 10) ++ [Z.to_N (48 + n mod 10)].
Proof.
  intros Hn. pose proof (Z.mod_pos_bound n 10 ltac:(lia)) as Hm.
  assert (1 <= n / 10) by (apply Z.div_le_lower_bound; lia).
  assert (n / 10 < n) by (apply Z.div_lt; lia).
  unfold ref_number. destruct (n <? 0) eqn:E, (n / 10 <? 0) eqn:E'; bool_hyps; try lia.
  unfold printNat at 1. cbn [digits]. destruct (n <? 10) eqn:E10; bool_hyps; [lia|].
  f_equal.
  - unfold printNat. apply digits_more_fuel; try lia.
    + split; [lia|]. apply printNat_fuel. lia.
    + pose proof (Z.log2_nonneg (n / 10)).
      enough (Z.log2 (n / 10) < Z.log2 n) by lia.
      pose proof (Z.log2_le_mono (n / 10) (n / 2) ltac:(apply Z.div_le_compat_l; lia)) as Hle.
      pose proof (Z.log2_shiftr n 1 ltac:(lia)) as Hs.
      rewrite Z.shiftr_div_pow2 in Hs by lia. change (2 ^ 1) with 2 in Hs.
      pose proof (Z.log2_le_mono 2 n ltac:(lia)) as H2. change (Z.log2 2) with 1 in H2. lia.
  - unfold digitChar. destruct (n mod 10 <? 10) eqn:E''; bool_hyps; [done|lia].
Qed.

Lemma ref_parse_range base lo hi s z : ref_parse base lo hi s = Some z -> lo <= z < hi.
Proof.
  unfold ref_parse.
  destruct (match s with 45%N :: s' => _ | 43%N :: s' => _ | _ => _ end) as [y|]; [|done].
  destruct ((lo <=? y) && (y <? hi)) eqn:E; [|done]. intros [= ->]. lia.
Qed.

Lemma padLeft_chars n s : Forall numberChar s -> Forall numberChar (padLeft n s).
Proof.
  intros Hs. apply Forall_app. split; [|done]. apply Forall_forall. intros x Hx.
  apply list_elem_of_In, repeat_spec in Hx. subst. unfold numberChar. lia.
Qed.

Lemma ref_numberF_chars x p : Forall numberChar (ref_numberF x p).
Proof.
  unfold ref_numberF.
  assert (Forall numberChar (padLeft (S (Z.to_nat p)) (printNat 10 (Z.abs (scaled x p))))) as Hd
    by (apply padLeft_chars, digits_chars; lia).
  apply Forall_app. split.
  { destruct (_ <? 0); [apply Forall_singleton; unfold numberChar; lia | apply Forall_nil_2]. }
  apply Forall_app. split; [by apply Forall_take|].
  destruct (p <=? 0); [apply Forall_nil_2|].
  apply Forall_cons. split; [unfold numberChar; lia | by apply Forall_drop].
Qed.

Lemma padLeft_length n s : (n <= length (padLeft n s))%nat.
Proof. unfold padLeft. rewrite length_app, repeat_length. lia. Qed.

Lemma ref_numberF_ne x p : ref_numberF x p <> [].
Proof.
  unfold ref_numberF. set (ds := padLeft _ _).
  pose proof (padLeft_length (S (Z.to_nat p)) (printNat 10 (Z.abs (scaled x p)))) as Hl.
  fold ds in Hl. intros E. apply app_eq_nil in E as [_ E]. apply app_eq_nil in E as [E _].
  apply (f_equal length) in E. rewrite length_take in E. simpl in E. lia.
Qed.

#[export] Instance refQtLaws : QtConvLaws.
Proof.
  split; cbn [refQt qt_toInt qt_toUInt qt_toUShort16 qt_toULongLong qt_toLongLong qt_toDouble
    qt_number qt_number16 qt_numberF qt_isSpace qt_isLetterOrNumber qt_isUpper
    qt_isDigit qt_foldCase qt_fuzzyCompare]; intros.
  all: try (apply ref_number_parse; unfold inS, inU in *; lia).
  all: try (eapply ref_parse_range; eassumption).
  all: try (apply ref_number_small; lia).
  all: try (apply ref_number_digit; lia).
  all: try (apply ref_number_chars; lia).
  all: try apply ref_number_ne.
  all: try reflexivity.
  - apply ref_numberF_chars.
  - apply ref_numberF_ne.
  - unfold ref_fuzzyCompare. by rewrite bool_decide_eq_true_2.
Qed.

(** The printed form of some doubles, and back. *)
Example ref_numberF_ex :
  ref_numberF (f64_div (f64_of_Z (-4853)) (f64_of_Z 100)) 5 = lit "-48.53000".
Proof. vm_compute. reflexivity. Qed.
Example ref_toDouble_ex :
  ref_toDouble (lit "-48.53000") = Some (f64_div (f64_of_Z (-4853)) (f64_of_Z 100)).
Proof. vm_compute. reflexivity. Qed.
