(* ===== verification/Json.v ===== *)
(** * JSON objects and their incremental form (misc/json.cpp)

    [QJsonValue] and [QJsonObject] of Qt as the program uses them, and the two
    functions with which an aircraft configuration is sent as the difference to
    the one sent before.  An object is the list of its members, sorted by key, as
    [QJsonObject::keys] gives them; a number is an integer, or a double that is
    none. *)

From S2P Require Export QtCore.

Open Scope Z_scope.

(** ** Values and objects (Qt) *)

Unset Elimination Schemes.
Inductive QJsonValue :=
  | JNull
  | JBool (b : bool)
  | JInteger (n : Z)
  | JDouble (d : double)
  | JString (s : QString)
  | JArray (l : list QJsonValue)
  | JObject (o : list (QString * QJsonValue)).
Set Elimination Schemes.
Notation QJsonObject := (list (QString * QJsonValue)).

Definition isLeaf (v : QJsonValue) : bool :=
  match v with JArray _ | JObject _ => false | _ => true end.

Section QJsonValue_ind.
Variable P : QJsonValue -> Prop.
Hypothesis Hleaf : forall v, isLeaf v = true -> P v.
Hypothesis Harray : forall l, Forall P l -> P (JArray l).
Hypothesis Hobject : forall o, Forall (fun kv => P kv.2) o -> P (JObject o).
Fixpoint QJsonValue_ind (v : QJsonValue) : P v :=
  match v with
  | JArray l =>
      Harray l ((fix all l : Forall P l :=
        match l with
        | [] => Forall_nil_2 P
        | v :: l' => Forall_cons_2 P v l' (QJsonValue_ind v) (all l')
        end) l)
  | JObject o =>
      Hobject o ((fix all o : Forall (fun kv => P kv.2) o :=
        match o with
        | [] => Forall_nil_2 _
        | kv :: o' => Forall_cons_2 _ kv o' (QJsonValue_ind kv.2) (all o')
        end) o)
  | JNull => Hleaf JNull eq_refl
  | JBool b => Hleaf (JBool b) eq_refl
  | JInteger n => Hleaf (JInteger n) eq_refl
  | JDouble d => Hleaf (JDouble d) eq_refl
  | JString s => Hleaf (JString s) eq_refl
  end.
End QJsonValue_ind.

Fixpoint QJsonValue_eqb (v w : QJsonValue) : bool :=
  match v, w with
  | JNull, JNull => true
  | JBool a, JBool b => bool_decide (a = b)
  | JInteger a, JInteger b => bool_decide (a = b)
  | JDouble a, JDouble b => bool_decide (a = b)
  | JString a, JString b => bool_decide (a = b)
  | JArray a, JArray b =>
      (fix all a b := match a, b with
                      | [], [] => true
                      | x :: a, y :: b => QJsonValue_eqb x y && all a b
                      | _, _ => false
                      end) a b
  | JObject a, JObject b =>
      (fix all a b := match a, b with
                      | [], [] => true
                      | (k, x) :: a, (k', y) :: b =>
                          bool_decide (k = k') && QJsonValue_eqb x y && all a b
                      | _, _ => false
                      end) a b
  | _, _ => false
  end.

Lemma QJsonValue_eqb_true v w : QJsonValue_eqb v w = true <-> v = w.
Proof.
  revert w. induction v as [v Hv | l IH | o IH] using QJsonValue_ind.
  - destruct v; try done; intros w; destruct w; simpl;
      rewrite ?bool_decide_eq_true; split; congruence.
  - intros w. destruct w as [| | | | | b |]; simpl; try (split; congruence).
    revert b. induction IH as [|x l Hx _ IH]; intros [|y b]; try (split; congruence).
    rewrite andb_true_iff, Hx. specialize (IH b). simpl in IH. rewrite IH. split.
    + intros [-> [= ->]]. done.
    + intros [= -> ->]. done.
  - intros w. destruct w as [| | | | | | b]; simpl; try (split; congruence).
    revert b. induction IH as [|[k x] l Hx _ IH]; intros [|[k' y] b]; try (split; congruence).
    simpl in Hx. rewrite !andb_true_iff, Hx, bool_decide_eq_true.
    specialize (IH b). simpl in IH. rewrite IH. split.
    + intros [[-> ->] [= ->]]. done.
    + intros [= -> -> ->]. done.
Qed.

#[export] Instance QJsonValue_eq_dec : EqDecision QJsonValue.
Proof.
  intros v w. destruct (QJsonValue_eqb v w) eqn:E.
  - left. by apply QJsonValue_eqb_true.
  - right. intros H. apply QJsonValue_eqb_true in H. congruence.
Defined.

(** Keys are compared by code units. *)
Fixpoint keyLt (a b : QString) : bool :=
  match a, b with
  | _, [] => false
  | [], _ :: _ => true
  | x :: a, y :: b => (x <? y)%N || ((x =? y)%N && keyLt a b)
  end.

(** [value] of a key that is missing is undefined. *)
Fixpoint value (k : QString) (o : QJsonObject) : option QJsonValue :=
  match o with
  | [] => None
  | (k', v) :: o => if decide (k = k') then Some v else value k o
  end.
Fixpoint insertKey (k : QString) (v : QJsonValue) (o : QJsonObject) : QJsonObject :=
  match o with
  | [] => [(k, v)]
  | (k', v') :: o' =>
      if decide (k = k') then (k, v) :: o'
      else if keyLt k k' then (k, v) :: o else (k', v') :: insertKey k v o'
  end.
Fixpoint removeKey (k : QString) (o : QJsonObject) : QJsonObject :=
  match o with
  | [] => []
  | (k', v) :: o => if decide (k = k') then removeKey k o else (k', v) :: removeKey k o
  end.
Definition toObject (v : option QJsonValue) : QJsonObject :=
  match v with Some (JObject o) => o | _ => [] end.
Definition toBool (v : option QJsonValue) : bool :=
  match v with Some (JBool b) => b | _ => false end.
Definition objectOf (l : list (string * QJsonValue)) : QJsonObject :=
  foldl (fun o kv => insertKey (lit kv.1) kv.2 o) [] l.

(** The conversions of QJsonValue with a default. *)
Definition boolOr (d : bool) (v : option QJsonValue) : bool :=
  match v with Some (JBool b) => b | _ => d end.
Definition stringOr (d : QString) (v : option QJsonValue) : QString :=
  match v with Some (JString s) => s | _ => d end.
(** A double counts as an integer when it has no fraction. *)
Definition integral (x : double) : option Z :=
  match x with
  | S754_zero _ => Some 0
  | S754_finite s m e =>
      let a := Z.shiftl (Z.pos m) e in
      if bool_decide (Z.shiftl a (- e) = Z.pos m) then Some (if s then - a else a) else None
  | _ => None
  end.
Definition intOr (d : Z) (v : option QJsonValue) : Z :=
  match v with
  | Some (JInteger n) => if decide (inS 32 n) then n else d
  | Some (JDouble x) => match integral x with
                        | Some n => if decide (inS 32 n) then n else d
                        | None => d
                        end
  | _ => d
  end.
Definition doubleOr (d : double) (v : option QJsonValue) : double :=
  match v with Some (JInteger n) => f64_of_Z n | Some (JDouble x) => x | _ => d end.

(** ** The incremental form *)

(** The difference: [currentObject] without the members that are as in
    [previousObject]. *)
Fixpoint incrementalOf (previous : QJsonValue) (currentObject : QJsonObject) : QJsonObject :=
  match previous with
  | JObject previousObject =>
      (fix loop (l : QJsonObject) (incrementalObject : QJsonObject) : QJsonObject :=
         match l with
         | [] => incrementalObject
         | (key, v) :: l =>
             loop l
               (match v with
                | JObject _ =>
                    let child := incrementalOf v (toObject (value key currentObject)) in
                    match child with
                    | [] => removeKey key incrementalObject
                    | _ => insertKey key (JObject child) incrementalObject
                    end
                | _ => if bool_decide (value key currentObject = Some v)
                       then removeKey key incrementalObject else incrementalObject
                end)
         end) previousObject currentObject
  | _ => currentObject
  end.
Definition getIncrementalObject (previousObject currentObject : QJsonObject) : QJsonObject :=
  incrementalOf (JObject previousObject) currentObject.

(** The members of [incremental] put over those of [previousObject]. *)
Fixpoint appliedTo (previousObject : QJsonObject) (incremental : QJsonValue) {struct incremental} :
    QJsonObject :=
  match incremental with
  | JObject incrementalObject =>
      (fix loop (l : QJsonObject) (currentObject : QJsonObject) : QJsonObject :=
         match l with
         | [] => currentObject
         | (key, v) :: l =>
             loop l
               (insertKey key
                  (match v with
                   | JObject _ => JObject (appliedTo (toObject (value key currentObject)) v)
                   | _ => v
                   end) currentObject)
         end) incrementalObject previousObject
  | _ => previousObject
  end.
Definition applyIncrementalObject (previousObject incrementalObject : QJsonObject) : QJsonObject :=
  appliedTo previousObject (JObject incrementalObject).

(** The result of sending the difference is the current object exactly when
    every member of the previous object is still there, an object as an
    object. *)
Fixpoint keepsShape (previous current : QJsonValue) : bool :=
  match previous with
  | JObject o =>
      match current with
      | JObject o' =>
          forallb (fun kv => match value kv.1 o' with
                             | Some w => keepsShape kv.2 w
                             | None => false
                             end) o
      | _ => false
      end
  | _ => true
  end.

(** Sorted by key, without duplicates, to any depth. *)
Fixpoint sortedKeys (o : QJsonObject) : bool :=
  match o with
  | [] => true
  | kv :: o => forallb (fun kv' => keyLt kv.1 kv'.1) o && sortedKeys o
  end.
Fixpoint wfJson (v : QJsonValue) : bool :=
  match v with
  | JObject o => sortedKeys o && forallb (fun kv => wfJson kv.2) o
  | _ => true
  end.

(** ** Keys *)

Lemma keyLt_irrefl a : keyLt a a = false.
Proof. induction a as [|x a IH]; simpl; [done|]. by rewrite N.ltb_irrefl, IH, andb_false_r. Qed.
Lemma keyLt_trans a b c : keyLt a b = true -> keyLt b c = true -> keyLt a c = true.
Proof.
  revert b c. induction a as [|x a IH]; intros [|y b] [|z c]; simpl; try done.
  rewrite !orb_true_iff, !andb_true_iff, !N.ltb_lt, !N.eqb_eq.
  intros [|[-> ?]] [|[-> ?]]; [left; lia | left; lia | left; lia | right; eauto].
Qed.
Lemma keyLt_total a b : a <> b -> keyLt a b = false -> keyLt b a = true.
Proof.
  revert b. induction a as [|x a IH]; intros [|y b]; simpl; try done.
  rewrite orb_false_iff, andb_false_iff, orb_true_iff, andb_true_iff, N.ltb_ge, N.ltb_lt, N.eqb_eq,
    N.eqb_neq.
  intros Hne [Hle [Hxy | Hab]]; [left; lia|].
  destruct (decide (x = y)) as [-> |]; [right; split; [done|] | left; lia].
  apply IH; [congruence | done].
Qed.
Lemma keyLt_ne a b : keyLt a b = true -> a <> b.
Proof. intros H ->. by rewrite keyLt_irrefl in H. Qed.

(** ** Values at a key *)

Lemma value_insertKey k v o k' :
  value k' (insertKey k v o) = if decide (k' = k) then Some v else value k' o.
Proof.
  induction o as [|[k1 v1] o IH]; simpl; [done|].
  destruct (decide (k = k1)) as [-> |]; simpl; [by repeat case_decide|].
  destruct (keyLt k k1); simpl; [done|].
  rewrite IH. repeat case_decide; congruence.
Qed.
Lemma value_removeKey k o k' :
  value k' (removeKey k o) = if decide (k' = k) then None else value k' o.
Proof.
  induction o as [|[k1 v1] o IH]; simpl; [by case_decide|].
  destruct (decide (k = k1)) as [-> |]; simpl; rewrite IH; repeat case_decide; congruence.
Qed.

Lemma sortedKeys_cons kv o :
  sortedKeys (kv :: o) = true <->
  Forall (fun kv' => keyLt kv.1 kv'.1 = true) o /\ sortedKeys o = true.
Proof. simpl. by rewrite andb_true_iff, <- Is_true_true, forallb_True, Forall_forall, Forall_forall; setoid_rewrite Is_true_true. Qed.

Arguments sortedKeys : simpl never.

Lemma value_above k o : Forall (fun kv => keyLt k kv.1 = true) o -> value k o = None.
Proof.
  induction 1 as [|[k' v] o Hk _ IH]; simpl in *; [done|].
  rewrite decide_False by (by apply keyLt_ne). done.
Qed.
Lemma value_elem k v o : sortedKeys o = true -> value k o = Some v <-> (k, v) ∈ o.
Proof.
  induction o as [|[k' v'] o IH].
  - intros _. split; [done | by intros ?%elem_of_nil].
  - intros H. cbn [value]. apply sortedKeys_cons in H as [Hk Ho]. rewrite elem_of_cons, <- IH by done.
    simpl in Hk. case_decide as E; [subst k'|].
    + split; [intros [= ->]; by left|]. intros [[= ->]|H]; [done|].
      by rewrite value_above in H.
    + split; [by right|]. intros [[= -> ->]|H]; done.
Qed.

Lemma Forall_insertKey (P : QString * QJsonValue -> Prop) k v o :
  P (k, v) -> Forall P o -> Forall P (insertKey k v o).
Proof.
  intros Hk. induction 1 as [|[k' v'] o Hkv Ho IH]; simpl; [by repeat constructor|].
  repeat case_match; eauto.
Qed.
Lemma sortedKeys_insertKey k v o : sortedKeys o = true -> sortedKeys (insertKey k v o) = true.
Proof.
  induction o as [|[k' v'] o IH]; [done|]. intros H. apply sortedKeys_cons in H as [Hk Ho].
  simpl insertKey. case_decide as E; [subst k'; by apply sortedKeys_cons|].
  destruct (keyLt k k') eqn:El; apply sortedKeys_cons; simpl in *.
  - split; [|by apply sortedKeys_cons]. constructor; [done|].
    eapply Forall_impl; [exact Hk|]. intros [k2 v2] H2. by eapply keyLt_trans.
  - split; [|by apply IH]. apply Forall_insertKey; [|done]. by apply keyLt_total.
Qed.

(** Sorted objects are equal when they have the same values. *)
Lemma sortedKeys_ext a b :
  sortedKeys a = true -> sortedKeys b = true -> (forall k, value k a = value k b) -> a = b.
Proof.
  assert (Hhead : forall k v (o b : QJsonObject) k' v',
    Forall (fun kv => keyLt k' kv.1 = true) b ->
    (forall x, value x ((k, v) :: o) = value x ((k', v') :: b)) -> keyLt k k' = true -> False).
  { intros k v o b' k' v' Hb Hv Hlt. specialize (Hv k). simpl in Hv.
    rewrite decide_True, decide_False in Hv by (done || by apply keyLt_ne).
    rewrite value_above in Hv; [done|].
    eapply Forall_impl; [exact Hb|]. intros [k2 v2] H2. by eapply keyLt_trans. }
  revert b. induction a as [|[k v] a IH]; intros [|[k' v'] b] Ha Hb H; [done | | |].
  - specialize (H k'). simpl in H. by rewrite decide_True in H.
  - specialize (H k). simpl in H. by rewrite decide_True in H.
  - apply sortedKeys_cons in Ha as [Hka Ha], Hb as [Hkb Hb]. simpl in Hka, Hkb.
    destruct (decide (k = k')) as [-> | Hne].
    + f_equal.
      * specialize (H k'). simpl in H. rewrite !decide_True in H by done. congruence.
      * apply IH; [done..|]. intros x. specialize (H x). simpl in H.
        case_decide as E; [subst x; by rewrite !value_above | done].
    + exfalso. destruct (keyLt k k') eqn:E; [by eapply Hhead|].
      apply keyLt_total in E; [|done]. eapply (Hhead k' v' b a k v); [done | | done].
      intros x. symmetry. apply H.
Qed.

(** ** The loops *)

Definition incrementalStep (currentObject incrementalObject : QJsonObject) (kv : QString * QJsonValue) :
    QJsonObject :=
  match kv.2 with
  | JObject _ =>
      let child := incrementalOf kv.2 (toObject (value kv.1 currentObject)) in
      match child with
      | [] => removeKey kv.1 incrementalObject
      | _ => insertKey kv.1 (JObject child) incrementalObject
      end
  | v => if bool_decide (value kv.1 currentObject = Some v)
         then removeKey kv.1 incrementalObject else incrementalObject
  end.
Definition appliedStep (currentObject : QJsonObject) (kv : QString * QJsonValue) : QJsonObject :=
  insertKey kv.1
    (match kv.2 with
     | JObject _ => JObject (appliedTo (toObject (value kv.1 currentObject)) kv.2)
     | v => v
     end) currentObject.

Lemma getIncrementalObject_foldl o c : getIncrementalObject o c = foldl (incrementalStep c) c o.
Proof.
  unfold getIncrementalObject. cbn [incrementalOf].
  match goal with |- ?f o c = foldl ?g c o =>
    cut (forall acc, f o acc = foldl g acc o); [by intros H; apply H|] end.
  induction o as [|[k v] o IH]; intros acc; [done|]. cbn [foldl]. rewrite <- IH.
  by destruct v.
Qed.
Lemma applyIncrementalObject_foldl o i : applyIncrementalObject o i = foldl appliedStep o i.
Proof.
  unfold applyIncrementalObject. cbn [appliedTo]. revert o.
  induction i as [|[k v] i IH]; intros o; [done|]. cbn [foldl]. rewrite <- IH.
  by destruct v.
Qed.

(** A loop over sorted keys whose body changes the value at its key only. *)
Lemma foldl_value step (at_ : QString -> QJsonValue -> option QJsonValue -> option QJsonValue) l acc k :
  (forall acc key v x, value x (step acc (key, v)) =
                       if decide (x = key) then at_ key v (value key acc) else value x acc) ->
  sortedKeys l = true ->
  value k (foldl step acc l) =
    match value k l with Some v => at_ k v (value k acc) | None => value k acc end.
Proof.
  intros Hstep. revert acc. induction l as [|[key v] l IH]; intros acc Hl; [done|].
  apply sortedKeys_cons in Hl as [Hk Hl]. cbn [foldl value]. rewrite IH by done.
  rewrite !Hstep. case_decide as E; [subst k; by rewrite value_above | done].
Qed.

Lemma value_getIncrementalObject o c k :
  sortedKeys o = true ->
  value k (getIncrementalObject o c) =
    match value k o with
    | None => value k c
    | Some (JObject o') =>
        match getIncrementalObject o' (toObject (value k c)) with
        | [] => None
        | child => Some (JObject child)
        end
    | Some v => if decide (value k c = Some v) then None else value k c
    end.
Proof.
  intros Ho. rewrite getIncrementalObject_foldl.
  erewrite (foldl_value _ (fun key v x =>
    match v with
    | JObject o' => match getIncrementalObject o' (toObject (value key c)) with
                    | [] => None
                    | child => Some (JObject child)
                    end
    | v => if decide (value key c = Some v) then None else x
    end)) by (done || (intros acc key v x; unfold incrementalStep; cbn [fst snd];
              destruct v; unfold getIncrementalObject; try case_bool_decide as E;
              repeat case_match; rewrite ?value_removeKey, ?value_insertKey;
              repeat case_decide; congruence)).
  by destruct (value k o) as [[]|].
Qed.

Lemma value_applyIncrementalObject o i k :
  sortedKeys i = true ->
  value k (applyIncrementalObject o i) =
    match value k i with
    | None => value k o
    | Some (JObject i') => Some (JObject (applyIncrementalObject (toObject (value k o)) i'))
    | Some v => Some v
    end.
Proof.
  intros Hi. rewrite applyIncrementalObject_foldl.
  erewrite (foldl_value _ (fun key v x =>
    match v with
    | JObject i' => Some (JObject (applyIncrementalObject (toObject x) i'))
    | v => Some v
    end)) by (done || (intros acc key v x; unfold appliedStep; cbn [fst snd];
              rewrite value_insertKey; by destruct v)).
  by destruct (value k i) as [[]|].
Qed.

Lemma sortedKeys_removeKey k o : sortedKeys o = true -> sortedKeys (removeKey k o) = true.
Proof.
  induction o as [|[k' v] o IH]; [done|]. intros H. apply sortedKeys_cons in H as [Hk Ho].
  simpl. case_decide; [by apply IH|]. apply sortedKeys_cons. split; [|by apply IH].
  clear -Hk. induction Hk as [|[k2 v2] o Hk2 _ IH]; simpl; [done|].
  case_decide; [done | by constructor].
Qed.

Lemma sortedKeys_getIncrementalObject o c :
  sortedKeys c = true -> sortedKeys (getIncrementalObject o c) = true.
Proof.
  rewrite getIncrementalObject_foldl.
  cut (forall acc, sortedKeys acc = true -> sortedKeys (foldl (incrementalStep c) acc o) = true);
    [by intros H; apply H|].
  induction o as [|[k v] o IH]; intros acc Hacc; [done|]. cbn [foldl]. apply IH.
  unfold incrementalStep. cbn [fst snd].
  repeat case_match; auto using sortedKeys_removeKey, sortedKeys_insertKey.
Qed.
Lemma sortedKeys_applyIncrementalObject o i :
  sortedKeys o = true -> sortedKeys (applyIncrementalObject o i) = true.
Proof.
  rewrite applyIncrementalObject_foldl. revert o.
  induction i as [|[k v] i IH]; intros o Ho; [done|]. cbn [foldl].
  apply IH. by apply sortedKeys_insertKey.
Qed.

(** ** Sending the difference *)

Lemma applied_to_empty v i :
  v = JObject i -> wfJson v = true -> applyIncrementalObject [] i = i.
Proof.
  revert i. induction v as [v Hv | l IH | o IH] using QJsonValue_ind; intros i; [by destruct v | done |].
  intros [= <-] Hwf. apply andb_true_iff in Hwf as [Ho Hall]. rewrite forallb_forall in Hall.
  rewrite Forall_forall in IH.
  apply sortedKeys_ext; [by apply sortedKeys_applyIncrementalObject | done |].
  intros k. rewrite value_applyIncrementalObject by done.
  destruct (value k o) as [v|] eqn:E; [|done]. apply value_elem in E; [|done].
  destruct v as [| | | | | | i']; try done. do 2 f_equal.
  apply (IH (k, JObject i')); [done | done |]. by apply (Hall (k, JObject i')), list_elem_of_In.
Qed.

Lemma keepsShape_iff o c :
  sortedKeys o = true ->
  keepsShape (JObject o) (JObject c) = true <->
  forall k v, value k o = Some v -> exists w, value k c = Some w /\ keepsShape v w = true.
Proof.
  intros Ho. cbn [keepsShape]. rewrite forallb_forall. split.
  - intros H k v Hv. apply value_elem in Hv; [|done].
    specialize (H (k, v) ltac:(by apply list_elem_of_In)). cbn [fst snd] in H.
    destruct (value k c); [eauto | done].
  - intros H [k v] Hin. apply list_elem_of_In, value_elem in Hin; [|done].
    destruct (H k v Hin) as (w & Hw & Hs). cbn [fst snd]. by rewrite Hw.
Qed.

Lemma incremental_value o c k :
  wfJson (JObject o) = true -> wfJson (JObject c) = true ->
  (forall o' c', value k o = Some (JObject o') -> value k c = Some (JObject c') ->
     applyIncrementalObject o' (getIncrementalObject o' c') = c' <->
     keepsShape (JObject o') (JObject c') = true) ->
  value k (applyIncrementalObject o (getIncrementalObject o c)) = value k c <->
  forall v, value k o = Some v -> exists w, value k c = Some w /\ keepsShape v w = true.
Proof.
  intros Hwo Hwc IH. pose proof Hwo as [Ho _]%andb_true_iff. pose proof Hwc as [Hc Hallc]%andb_true_iff.
  rewrite forallb_forall in Hallc.
  rewrite value_applyIncrementalObject by (by apply sortedKeys_getIncrementalObject).
  rewrite value_getIncrementalObject by done.
  assert (Hnil : forall w, value k c = Some w ->
    match w with JObject i' => Some (JObject (applyIncrementalObject [] i')) | v => Some v end
    = Some w).
  { intros w Hw. apply value_elem in Hw; [|done]. destruct w; try done. do 2 f_equal.
    eapply applied_to_empty; [done|]. apply (Hallc (k, _)). by apply list_elem_of_In. }
  assert (Hobj : forall o', applyIncrementalObject o' [] = o') by done.
  destruct (value k o) as [v|] eqn:Ev.
  2: { split; [done|]. intros _. destruct (value k c) as [w|]; [|done]. exact (Hnil w eq_refl). }
  destruct v as [| b | n | d | s | l | o'].
  7: { cbn [toObject].
       transitivity (Some (JObject (applyIncrementalObject o'
         (getIncrementalObject o' (toObject (value k c))))) = value k c).
       { destruct (getIncrementalObject o' (toObject (value k c))); done. }
       split.
       - intros H v [= <-]. destruct (value k c) as [[| | | | | | c']|]; try done.
         exists (JObject c'). split; [done|]. apply IH; [done..|]. by injection H.
       - intros H. destruct (H _ eq_refl) as (w & Hw & Hs). rewrite Hw in *.
         destruct w as [| | | | | | c']; try done. do 2 f_equal. by apply IH. }
  all: case_decide as Ec;
    [ rewrite Ec; split; [intros _ v [= <-]; eauto | done] |].
  all: destruct (value k c) as [w|] eqn:Ew;
    [ specialize (Hnil w eq_refl); split; [intros _ v [= <-]; eauto | intros _; by destruct w] |].
  all: split; [done | intros H; by destruct (H _ eq_refl) as (? & ? & ?)].
Qed.

Lemma incremental_iff v o c :
  v = JObject o -> wfJson v = true -> wfJson (JObject c) = true ->
  applyIncrementalObject o (getIncrementalObject o c) = c <-> keepsShape v (JObject c) = true.
Proof.
  revert o c. induction v as [v Hv | l IH | o IH] using QJsonValue_ind; intros o1 c; [by destruct v | done |].
  intros [= <-] Hwo Hwc. pose proof Hwo as [Ho Hall]%andb_true_iff.
  pose proof Hwc as [Hc Hallc]%andb_true_iff.
  rewrite Forall_forall in IH. rewrite forallb_forall in Hall, Hallc.
  rewrite keepsShape_iff by done. split.
  - intros H k. apply incremental_value; [done | done | | by rewrite H].
    intros o' c' Eo Ec. apply value_elem in Eo, Ec; [|done..].
    apply (IH (k, JObject o')); [done.. | |].
    + apply (Hall (k, _)). by apply list_elem_of_In.
    + apply (Hallc (k, _)). by apply list_elem_of_In.
  - intros H. apply sortedKeys_ext; [by apply sortedKeys_applyIncrementalObject | done |].
    intros k. apply incremental_value; [done | done | | apply H].
    intros o' c' Eo Ec. apply value_elem in Eo, Ec; [|done..].
    apply (IH (k, JObject o')); [done.. | |].
    + apply (Hall (k, _)). by apply list_elem_of_In.
    + apply (Hallc (k, _)). by apply list_elem_of_In.
Qed.

(** C23: the incremental configuration.  The receiver that puts the difference
    over the previous object has the current object exactly when the current
    object still has every member of the previous one, objects as objects. *)
Theorem incremental_complete previous current :
  wfJson (JObject previous) = true -> wfJson (JObject current) = true ->
  applyIncrementalObject previous (getIncrementalObject previous current) = current <->
  keepsShape (JObject previous) (JObject current) = true.
Proof.
  intros. by apply incremental_iff.
Qed.

Definition example_previous : QJsonObject :=
  objectOf [("gear_down", JBool true); ("flaps_pct", JInteger 0);
            ("engines", JObject (objectOf [("1", JObject (objectOf [("on", JBool true)]))]))].
Definition example_current : QJsonObject :=
  objectOf [("gear_down", JBool true); ("flaps_pct", JInteger 20);
            ("engines", JObject (objectOf [("1", JObject (objectOf [("on", JBool false)]))]))].

Lemma incremental_complete_witness :
  applyIncrementalObject example_previous (getIncrementalObject example_previous example_current)
  = example_current.
Proof. apply incremental_complete; vm_compute; reflexivity. Defined.
