(* ===== verification/PhysicalQuantity.v ===== *)
(** * Physical quantities (misc/pq/measurementunit, units, physicalquantity)

    A quantity is a number with a unit, or null.  A unit has a name, a symbol, the
    difference below which two values are equal, and the conversion to and from
    the default unit of its class.  The null unit is [None].  All arithmetic is
    that of binary64. *)

From S2P Require Export Json.
From S2P Require Import QtReference.
From Stdlib Require Import Floats.SpecFloat.

Open Scope Z_scope.

(** ** Floating point *)

(** The double nearest to a fraction, as a decimal literal is read. *)
Definition f64_frac (num den : Z) : double := f64_div (f64_of_Z num) (f64_of_Z den).
Definition f64_abs (x : double) : double := SFabs x.
Definition f64_lt (x y : double) : bool := SFltb x y.
Definition f64_le (x y : double) : bool := SFleb x y.
Definition std_floor (x : double) : double :=
  match x with S754_finite _ _ _ => f64_of_Z (f64_floor x) | _ => x end.
Definition std_ceil (x : double) : double := f64_opp (std_floor (f64_opp x)).
(** The fraction, with the sign of the number: modf, and fmod by one. *)
Definition std_fract (x : double) : double :=
  match x with
  | S754_zero s => S754_zero s
  | S754_finite s m e =>
      let r := Z.pos m mod 2 ^ (- e) in
      if (0 <=? e) || (r =? 0) then S754_zero s
      else binary_normalize f64_prec f64_emax (if s then - r else r) e false
  | S754_infinity s => S754_zero s
  | S754_nan => S754_nan
  end.
(** CMathUtils::trunc *)
Definition trunc (value : double) : double :=
  let epsilon := f64_frac 1 10000000000 in
  if f64_lt value f64_zero then std_ceil (f64_sub value epsilon) else std_floor (f64_add value epsilon).
Definition qFuzzyIsNull (d : double) : bool := f64_le (f64_abs d) (f64_frac 1 1000000000000).

(** ** Conversions of units *)

(** The classes with a factor, and the templates on them. *)
Inductive Policy :=
  | One | Two (p : Policy) | Milli (p : Policy) | Centi (p : Policy) | Hecto (p : Policy) | Kilo (p : Policy)
  | Mega (p : Policy) | Giga (p : Policy)
  | NauticalMilesToMeters | FeetToMeters | MilesToMeters | StatuteMilesToMeters | RadiansToDegrees
  | PoundsToKilograms | PsiToHectopascals | InchesToHectopascals | MillimetersToHectopascals
  | KelvinToCentigrade | FahrenheitToCentigrade | KnotsToMps | KphToMps | FtPerSecToMps | FtPerMinToMps
  | DaysToSeconds | HoursToSeconds | MinutesToSeconds.
#[export] Instance Policy_eq_dec : EqDecision Policy.
Proof. solve_decision. Defined.

Definition M_PI : double := binary_normalize f64_prec f64_emax 884279719003555 (-48) false.
Fixpoint factor (p : Policy) : double :=
  match p with
  | One => f64_of_Z 1
  | Two p => f64_mul (factor p) (f64_of_Z 2)
  | Milli p => f64_div (factor p) (f64_of_Z 1000)
  | Centi p => f64_div (factor p) (f64_of_Z 100)
  | Hecto p => f64_mul (factor p) (f64_of_Z 100)
  | Kilo p => f64_mul (factor p) (f64_of_Z 1000)
  | Mega p => f64_mul (factor p) (f64_of_Z 1000000)
  | Giga p => f64_mul (factor p) (f64_of_Z 1000000000)
  | NauticalMilesToMeters => f64_of_Z 1852
  | FeetToMeters => f64_frac 3048 10000
  | MilesToMeters => f64_frac 1609344 1000
  | StatuteMilesToMeters => f64_frac 16093472 10000
  | RadiansToDegrees => f64_div (f64_of_Z 180) M_PI
  | PoundsToKilograms => f64_frac 45359237 100000000
  | PsiToHectopascals => f64_frac 68948 1000
  | InchesToHectopascals => f64_frac 3386389 100000
  | MillimetersToHectopascals => f64_frac 860142806 1000000
  | KelvinToCentigrade => f64_of_Z 1
  | FahrenheitToCentigrade => f64_frac 5 9
  | KnotsToMps => f64_frac 1852 3600
  | KphToMps => f64_div (f64_of_Z 1) (f64_frac 36 10)
  | FtPerSecToMps => f64_frac 3048 10000
  | FtPerMinToMps => f64_div (f64_frac 3048 10000) (f64_of_Z 60)
  | DaysToSeconds => f64_mul (f64_mul (f64_of_Z 60) (f64_of_Z 60)) (f64_of_Z 24)
  | HoursToSeconds => f64_mul (f64_of_Z 60) (f64_of_Z 60)
  | MinutesToSeconds => f64_of_Z 60
  end.
Definition offset (p : Policy) : double :=
  match p with
  | KelvinToCentigrade => f64_frac 27315 100 | FahrenheitToCentigrade => f64_of_Z 32 | _ => f64_zero
  end.
(** InEachHundred *)
Definition fraction : double := f64_of_Z 100.

Inductive Converter :=
  | IdentityConverter | LinearConverter (p : Policy) | AffineConverter (p : Policy)
  | SubdivisionConverter (p : Policy) (subfactor : Z) | SubdivisionConverter2 (p : Policy) (subfactor : Z).
#[export] Instance Converter_eq_dec : EqDecision Converter.
Proof. solve_decision. Defined.

Definition toDefault (c : Converter) (value : double) : double :=
  match c with
  | IdentityConverter => value
  | LinearConverter p => f64_mul value (factor p)
  | AffineConverter p => f64_mul (f64_sub value (offset p)) (factor p)
  | SubdivisionConverter p subfactor =>
      let part2 := f64_mul (std_fract value) fraction in
      f64_mul (f64_add (trunc value) (f64_div part2 (f64_of_Z subfactor))) (factor p)
  | SubdivisionConverter2 p subfactor =>
      let part2 := f64_mul (std_fract value) fraction in
      let part3 := f64_mul (std_fract part2) fraction in
      f64_mul (f64_add (trunc value)
                 (f64_div (f64_add (trunc part2) (f64_div part3 (f64_of_Z subfactor))) (f64_of_Z subfactor)))
        (factor p)
  end.
Definition fromDefault (c : Converter) (value : double) : double :=
  match c with
  | IdentityConverter => value
  | LinearConverter p => f64_div value (factor p)
  | AffineConverter p => f64_add (f64_div value (factor p)) (offset p)
  | SubdivisionConverter p subfactor =>
      let part1 := trunc (f64_div value (factor p)) in
      let part2 := f64_mul (std_fract (f64_div value (factor p))) (f64_of_Z subfactor) in
      f64_add part1 (f64_div part2 fraction)
  | SubdivisionConverter2 p subfactor =>
      let part1 := trunc (f64_div value (factor p)) in
      let remaining := std_fract (f64_div value (factor p)) in
      let part2 := trunc (f64_mul remaining (f64_of_Z subfactor)) in
      let part3 := f64_mul (std_fract (f64_mul remaining (f64_of_Z subfactor))) (f64_of_Z subfactor) in
      f64_add (f64_add part1 (f64_div part2 fraction)) (f64_div part3 (f64_mul fraction fraction))
  end.

(** ** CMeasurementUnit *)

Record UnitData := mkUnitData {
  m_name : QString; m_symbol : QString; m_converter : option Converter; m_displayDigits : Z; m_epsilon : double }.
(** The constructor with a conversion, and the one of a null unit. *)
Definition unitWith (name symbol : string) (c : Converter) (displayDigits : Z) : UnitData :=
  mkUnitData (lit name) (lit symbol) (Some c) displayDigits (f64_frac 1 1000000000).
Definition nullData : UnitData := mkUnitData (lit "null") (lit "null") None 0 f64_zero.

(** A class of units: its units but for the null unit, the data of each, the
    default, and the list the class gives of all. *)
Class MeasurementUnit (U : Type) := {
  unitData : U -> UnitData; defaultUnit : U; allUnits : list (option U) }.

Inductive CLengthUnit := LengthUnit_m | LengthUnit_ft | LengthUnit_km | LengthUnit_NM | LengthUnit_SM | LengthUnit_mi | LengthUnit_cm.
#[export] Instance CLengthUnit_unit : MeasurementUnit CLengthUnit := {|
  unitData u := match u with
    | LengthUnit_m => unitWith "meter" "m" IdentityConverter 2
    | LengthUnit_NM => unitWith "nautical mile" "NM" (LinearConverter NauticalMilesToMeters) 3
    | LengthUnit_ft => unitWith "foot" "ft" (LinearConverter FeetToMeters) 1
    | LengthUnit_km => unitWith "kilometer" "km" (LinearConverter (Kilo One)) 3
    | LengthUnit_cm => unitWith "centimeter" "cm" (LinearConverter (Centi One)) 1
    | LengthUnit_mi => unitWith "mile" "mi" (LinearConverter MilesToMeters) 3
    | LengthUnit_SM => unitWith "statute mile" "SM" (LinearConverter StatuteMilesToMeters) 3
    end;
  defaultUnit := LengthUnit_m;
  allUnits := [None; Some LengthUnit_cm; Some LengthUnit_ft; Some LengthUnit_km; Some LengthUnit_m;
               Some LengthUnit_mi; Some LengthUnit_SM; Some LengthUnit_NM] |}.

Inductive CAngleUnit := AngleUnit_deg | AngleUnit_rad | AngleUnit_sexagesimalDeg | AngleUnit_sexagesimalDegMin.
#[export] Instance CAngleUnit_unit : MeasurementUnit CAngleUnit := {|
  unitData u := match u with
    | AngleUnit_rad => unitWith "radian" "rad" (LinearConverter RadiansToDegrees) 2
    | AngleUnit_deg => unitWith "degree" "deg" IdentityConverter 2
    | AngleUnit_sexagesimalDeg => unitWith "degree, minute, second" "DMS" (SubdivisionConverter2 One 60) 4
    | AngleUnit_sexagesimalDegMin => unitWith "degree, minute" "MinDec" (SubdivisionConverter One 60) 4
    end;
  defaultUnit := AngleUnit_deg;
  allUnits := [None; Some AngleUnit_deg; Some AngleUnit_rad; Some AngleUnit_sexagesimalDeg;
               Some AngleUnit_sexagesimalDegMin] |}.

Inductive CFrequencyUnit := FrequencyUnit_Hz | FrequencyUnit_kHz | FrequencyUnit_MHz | FrequencyUnit_GHz.
#[export] Instance CFrequencyUnit_unit : MeasurementUnit CFrequencyUnit := {|
  unitData u := match u with
    | FrequencyUnit_Hz => unitWith "hertz" "Hz" IdentityConverter 2
    | FrequencyUnit_kHz => unitWith "kilohertz" "kHz" (LinearConverter (Kilo One)) 1
    | FrequencyUnit_MHz => unitWith "megahertz" "MHz" (LinearConverter (Mega One)) 2
    | FrequencyUnit_GHz => unitWith "gigahertz" "GHz" (LinearConverter (Giga One)) 2
    end;
  defaultUnit := FrequencyUnit_Hz;
  allUnits := [None; Some FrequencyUnit_GHz; Some FrequencyUnit_Hz; Some FrequencyUnit_kHz;
               Some FrequencyUnit_MHz] |}.

Inductive CMassUnit := MassUnit_kg | MassUnit_g | MassUnit_tonne | MassUnit_shortTon | MassUnit_lb.
#[export] Instance CMassUnit_unit : MeasurementUnit CMassUnit := {|
  unitData u := match u with
    | MassUnit_kg => unitWith "kilogram" "kg" IdentityConverter 1
    | MassUnit_g => unitWith "gram" "g" (LinearConverter (Milli One)) 0
    | MassUnit_tonne => unitWith "tonne" "t" (LinearConverter (Mega (Milli One))) 3
    | MassUnit_shortTon => unitWith "short ton" "ton" (LinearConverter (Two (Kilo PoundsToKilograms))) 3
    | MassUnit_lb => unitWith "pound" "lb" (LinearConverter PoundsToKilograms) 1
    end;
  defaultUnit := MassUnit_kg;
  allUnits := [None; Some MassUnit_g; Some MassUnit_kg; Some MassUnit_lb; Some MassUnit_tonne;
               Some MassUnit_shortTon] |}.

Inductive CPressureUnit :=
  | PressureUnit_Pa | PressureUnit_hPa | PressureUnit_psi | PressureUnit_bar | PressureUnit_mbar
  | PressureUnit_inHg | PressureUnit_mmHg.
#[export] Instance CPressureUnit_unit : MeasurementUnit CPressureUnit := {|
  unitData u := match u with
    | PressureUnit_Pa => unitWith "pascal" "Pa" (LinearConverter (Centi One)) 2
    | PressureUnit_hPa => unitWith "hectopascal" "hPa" IdentityConverter 2
    | PressureUnit_psi => unitWith "pound per square inch" "psi" (LinearConverter PsiToHectopascals) 2
    | PressureUnit_bar => unitWith "bar" "bar" (LinearConverter (Kilo One)) 1
    | PressureUnit_mbar => unitWith "millibar" "mbar" IdentityConverter 1
    | PressureUnit_inHg => unitWith "inch of mercury" "inHg" (LinearConverter InchesToHectopascals) 2
    | PressureUnit_mmHg => unitWith "millimeter of mercury" "mmHg" (LinearConverter MillimetersToHectopascals) 2
    end;
  defaultUnit := PressureUnit_hPa;
  allUnits := [None; Some PressureUnit_bar; Some PressureUnit_hPa; Some PressureUnit_inHg;
               Some PressureUnit_mmHg; Some PressureUnit_mbar; Some PressureUnit_psi] |}.

Inductive CTemperatureUnit := TemperatureUnit_K | TemperatureUnit_C | TemperatureUnit_F.
#[export] Instance CTemperatureUnit_unit : MeasurementUnit CTemperatureUnit := {|
  unitData u := match u with
    | TemperatureUnit_K => unitWith "Kelvin" "K" (AffineConverter KelvinToCentigrade) 2
    | TemperatureUnit_C => unitWith "centigrade" "C" IdentityConverter 2
    | TemperatureUnit_F => unitWith "Fahrenheit" "F" (AffineConverter FahrenheitToCentigrade) 2
    end;
  defaultUnit := TemperatureUnit_C;
  allUnits := [None; Some TemperatureUnit_C; Some TemperatureUnit_F; Some TemperatureUnit_K] |}.

Inductive CSpeedUnit :=
  | SpeedUnit_m_s | SpeedUnit_kts | SpeedUnit_NM_h | SpeedUnit_ft_s | SpeedUnit_ft_min | SpeedUnit_km_h.
#[export] Instance CSpeedUnit_unit : MeasurementUnit CSpeedUnit := {|
  unitData u := match u with
    | SpeedUnit_m_s => unitWith "meter per second" "m/s" IdentityConverter 2
    | SpeedUnit_kts => unitWith "knot" "kts" (LinearConverter KnotsToMps) 1
    | SpeedUnit_NM_h => unitWith "nautical mile per hour" "NM/h" (LinearConverter KnotsToMps) 1
    | SpeedUnit_ft_s => unitWith "foot per second" "ft/s" (LinearConverter FtPerSecToMps) 0
    | SpeedUnit_ft_min => unitWith "foot per minute" "ft/min" (LinearConverter FtPerMinToMps) 0
    | SpeedUnit_km_h => unitWith "kilometer per hour" "km/h" (LinearConverter KphToMps) 1
    end;
  defaultUnit := SpeedUnit_m_s;
  allUnits := [None; Some SpeedUnit_ft_min; Some SpeedUnit_ft_s; Some SpeedUnit_km_h; Some SpeedUnit_kts;
               Some SpeedUnit_m_s; Some SpeedUnit_NM_h] |}.

Inductive CTimeUnit :=
  | TimeUnit_s | TimeUnit_ms | TimeUnit_h | TimeUnit_min | TimeUnit_d | TimeUnit_hms | TimeUnit_hrmin | TimeUnit_minsec.
#[export] Instance CTimeUnit_unit : MeasurementUnit CTimeUnit := {|
  unitData u := match u with
    | TimeUnit_s => unitWith "second" "s" IdentityConverter 1
    | TimeUnit_ms => unitWith "millisecond" "ms" (LinearConverter (Milli One)) 0
    | TimeUnit_h => unitWith "hour" "h" (LinearConverter HoursToSeconds) 1
    | TimeUnit_min => unitWith "minute" "min" (LinearConverter MinutesToSeconds) 2
    | TimeUnit_d => unitWith "day" "d" (LinearConverter DaysToSeconds) 1
    | TimeUnit_hms => unitWith "hour, minute, second" "hms" (SubdivisionConverter2 HoursToSeconds 60) 4
    | TimeUnit_hrmin => unitWith "hour, minute" "hm" (SubdivisionConverter HoursToSeconds 60) 3
    | TimeUnit_minsec => unitWith "minute, second" "minsec" (SubdivisionConverter MinutesToSeconds 60) 2
    end;
  defaultUnit := TimeUnit_s;
  allUnits := [None; Some TimeUnit_d; Some TimeUnit_h; Some TimeUnit_hms; Some TimeUnit_hrmin;
               Some TimeUnit_min; Some TimeUnit_ms; Some TimeUnit_s] |}.

Inductive CAccelerationUnit := AccelerationUnit_m_s2 | AccelerationUnit_ft_s2.
#[export] Instance CAccelerationUnit_unit : MeasurementUnit CAccelerationUnit := {|
  unitData u := match u with
    | AccelerationUnit_m_s2 => unitWith "meter per second per second" "m/s^2" IdentityConverter 1
    | AccelerationUnit_ft_s2 => unitWith "foot per second per second" "ft/s^2" (LinearConverter FeetToMeters) 0
    end;
  defaultUnit := AccelerationUnit_m_s2;
  allUnits := [None; Some AccelerationUnit_ft_s2; Some AccelerationUnit_m_s2] |}.

Section units.
Context `{QtConv} {U : Type} `{MU : MeasurementUnit U}.
Implicit Types u v : option U.

Definition data u : UnitData := match u with Some u => unitData u | None => nullData end.
Definition unit_isNull u : bool := match m_converter (data u) with None => true | Some _ => false end.
(** Units are equal when their names are. *)
Definition unit_eqb u v : bool := bool_decide (m_name (data u) = m_name (data v)).
(** A value in the unit [unit], converted to the unit [u]; none of the two converts when both have the same functions. *)
Definition convertFrom u (value : double) (unit : option U) : double :=
  match m_converter (data u), m_converter (data unit) with
  | Some to, Some from => if decide (to = from) then value else fromDefault to (toDefault from value)
  | _, _ => f64_zero
  end.
Definition isEpsilon u (value : double) : bool :=
  if unit_isNull u then false
  else if qFuzzyIsNull value then true else f64_le (f64_abs value) (m_epsilon (data u)).

Definition allSymbols : list QString := map (fun u => m_symbol (data u)) allUnits.
Definition hasCaseSensitiveSymbols : bool :=
  negb (Nat.eqb (length (remove_dups (map qt_toLower allSymbols))) (length allSymbols)).
(** [None] is the end of the program (qFatal). *)
Definition unitFromSymbol (symbol : QString) (strict : bool) : option (option U) :=
  if isEmpty symbol then Some (Some defaultUnit)
  else
    let matches u :=
      if strict && hasCaseSensitiveSymbols then bool_decide (m_symbol (data u) = symbol)
      else equalsCI (m_symbol (data u)) symbol in
    match List.find matches allUnits with
    | Some u => Some u
    | None => if strict then None else Some (Some defaultUnit)
    end.
End units.

(** ** CPhysicalQuantity *)

Record CPhysicalQuantity (U : Type) := mkQuantity { pq_value : double; pq_unit : option U }.
Arguments mkQuantity {U} _ _.
Arguments pq_value {U} _.
Arguments pq_unit {U} _.

(** The end of reading JSON: an exception with its message, the end of the
    program, or a value. *)
Inductive FromJson (A : Type) := JsonException (message : string) | Fatal | Converted (a : A).
Arguments JsonException {A} _.
Arguments Fatal {A}.
Arguments Converted {A} _.

(** [QJsonValue] of a double, and [toDouble]. *)
Definition jsonOfDouble (d : double) : QJsonValue :=
  match integral d with
  | Some n => if decide (inS 64 n) then JInteger n else JDouble d
  | None => JDouble d
  end.

Module PQ.
Section quantity.
Context `{QtConv} {U : Type} `{MU : MeasurementUnit U}.
Implicit Types (a b q : CPhysicalQuantity U) (u : option U).

Definition quantity_make (value : double) u : CPhysicalQuantity U :=
  mkQuantity (if unit_isNull u then f64_zero else value) u.
Definition null : CPhysicalQuantity U := mkQuantity f64_zero None.
Definition isNull q : bool := unit_isNull (pq_unit q).
Definition valueOwn q : double := if isNull q then f64_zero else pq_value q.
Definition valueIn u q : double := convertFrom u (pq_value q) (pq_unit q).

Definition switchUnit (newUnit : option U) q : CPhysicalQuantity U :=
  if unit_eqb (pq_unit q) newUnit || isNull q then q
  else if unit_isNull newUnit then null
  else mkQuantity (convertFrom newUnit (pq_value q) (pq_unit q)) newUnit.

(** Equality of two objects; that of one with itself is true without a look. *)
Definition equals a b : bool :=
  if isNull a then isNull b
  else if isNull b then false
  else f64_le (f64_abs (f64_sub (pq_value a) (valueIn (pq_unit a) b))) (m_epsilon (data (pq_unit a))).
Definition lessThan a b : bool :=
  if equals a b then false
  else match isNull a, isNull b with
       | false, true => true
       | true, false => false
       | true, true => false
       | false, false => f64_lt (pq_value a) (valueIn (pq_unit a) b)
       end.
Definition greaterThan a b : bool := lessThan b a.
Definition lessEqual a b : bool := negb (lessThan b a).
Definition greaterEqual a b : bool := negb (lessThan a b).
Definition compareImpl a b : Z := if lessThan a b then -1 else if greaterThan a b then 1 else 0.
Definition maxValue a b : CPhysicalQuantity U :=
  if isNull a then b else if isNull b then a else if greaterThan a b then a else b.
Definition minValue a b : CPhysicalQuantity U :=
  if isNull a then b else if isNull b then a else if lessThan a b then a else b.

Definition withValue (f : double -> double) q : CPhysicalQuantity U := mkQuantity (f (pq_value q)) (pq_unit q).
Definition plus a b : CPhysicalQuantity U := withValue (fun v => f64_add v (valueIn (pq_unit a) b)) a.
Definition minus a b : CPhysicalQuantity U := withValue (fun v => f64_sub v (valueIn (pq_unit a) b)) a.
Definition times (multiply : double) q : CPhysicalQuantity U := withValue (fun v => f64_mul v multiply) q.
Definition dividedBy (divisor : double) q : CPhysicalQuantity U := withValue (fun v => f64_div v divisor) q.
Definition negated q : CPhysicalQuantity U := times (f64_of_Z (-1)) q.

Definition isZeroEpsilonConsidered q : bool := isEpsilon (pq_unit q) (pq_value q).
Definition isPositiveWithEpsilonConsidered q : bool :=
  negb (isZeroEpsilonConsidered q) && f64_lt f64_zero (pq_value q).
Definition isNegativeWithEpsilonConsidered q : bool :=
  negb (isZeroEpsilonConsidered q) && f64_lt (pq_value q) f64_zero.
Definition makePositive q : CPhysicalQuantity U :=
  if isNull q || qFuzzyIsNull (pq_value q) then q
  else if f64_lt (pq_value q) f64_zero then negated q else q.
Definition makeNegative q : CPhysicalQuantity U :=
  if isNull q || qFuzzyIsNull (pq_value q) then q
  else if f64_lt f64_zero (pq_value q) then negated q else q.
Definition abs q : CPhysicalQuantity U :=
  if isNull q || qFuzzyIsNull (pq_value q) then q
  else if f64_le f64_zero (pq_value q) then q else makePositive q.

(** The value for a data stream, in the default unit, and back. *)
Definition marshalToDataStream q : double :=
  if isNull q then S754_nan else valueIn (Some defaultUnit) q.
Definition unmarshalFromDataStream (value : double) : CPhysicalQuantity U :=
  match value with S754_nan => null | _ => mkQuantity value (Some defaultUnit) end.

Definition toJson q : QJsonObject :=
  insertKey (lit "unit") (JString (m_symbol (data (pq_unit q))))
    (insertKey (lit "value") (jsonOfDouble (pq_value q)) []).
Definition convertFromJson (json : QJsonObject) : FromJson (CPhysicalQuantity U) :=
  match value (lit "unit") json, value (lit "value") json with
  | None, _ => JsonException "Missing 'unit'"
  | Some _, None => JsonException "Missing 'value'"
  | Some unit, Some v =>
      match unitFromSymbol (stringOr [] (Some unit)) true with
      | None => Fatal
      | Some u => Converted (mkQuantity (doubleOr f64_zero (Some v)) u)
      end
  end.
End quantity.
Arguments null {U}.
End PQ.

Abbreviation CLength := (CPhysicalQuantity CLengthUnit).

(** ** Subtraction *)

(** The distance of two doubles does not depend on their order. *)
Lemma abs_binary_normalize z e :
  f64_abs (binary_normalize f64_prec f64_emax (- z) e false) =
  f64_abs (binary_normalize f64_prec f64_emax z e false).
Proof.
  assert (Hr : forall p, f64_abs (binary_round f64_prec f64_emax true p e) =
                         f64_abs (binary_round f64_prec f64_emax false p e)).
  { intros p. unfold binary_round, binary_round_aux, f64_abs.
    destruct (shl_align _ _ _) as [mz ez]. destruct (shr_fexp _ _ _ _ _) as [mrs e1].
    destruct (shr_fexp _ _ _ _ _) as [mrs' e2]. destruct (shr_m mrs'); try done.
    by destruct (e2 <=? _). }
  destruct z as [|p|p]; simpl; [done| |symmetry]; apply Hr.
Qed.
Lemma abs_sub_comm x y : f64_abs (f64_sub x y) = f64_abs (f64_sub y x).
Proof.
  unfold f64_sub.
  destruct x as [[]|[]| |sx mx ex], y as [[]|[]| |sy my ey]; try done; simpl.
  rewrite <-abs_binary_normalize, Z.min_comm. f_equal. f_equal. lia.
Qed.
Lemma compare_opp x y : SFcompare y x = CompOpp <$> SFcompare x y.
Proof.
  destruct x as [[]|[]| |[] mx ex], y as [[]|[]| |[] my ey]; try done; simpl;
    rewrite (Z.compare_antisym ex ey); destruct (ex ?= ey) eqn:E; simpl; try done;
    fold (Pos.compare mx my) (Pos.compare my mx); rewrite (Pos.compare_antisym mx my);
    by destruct (Pos.compare mx my).
Qed.
Lemma lt_asym x y : f64_lt x y = true -> f64_lt y x = false.
Proof. unfold f64_lt, SFltb. rewrite (compare_opp x y). by destruct (SFcompare x y) as [[]|]. Qed.

Lemma lt_trans x y z : f64_lt x y = true -> f64_lt y z = true -> f64_lt x z = true.
Proof.
  destruct x as [?|[]| |[] mx ex], y as [?|[]| |[] my ey], z as [?|[]| |[] mz ez]; try done;
    unfold f64_lt, SFltb; simpl;
    fold (Pos.compare mx my) (Pos.compare my mz) (Pos.compare mx mz);
    destruct (Z.compare_spec ex ey), (Z.compare_spec ey ez); try done; subst;
    try (destruct (Z.compare_spec ex ez); try done; lia);
    try (destruct (Z.compare_spec ey ez); try done; lia);
    destruct (Pos.compare_spec mx my), (Pos.compare_spec my mz); try done; subst;
    rewrite ?Z.compare_refl; destruct (Pos.compare_spec mx mz); try done; lia.
Qed.

Definition number (x : double) : Prop :=
  match x with S754_zero _ | S754_finite _ _ _ => True | _ => False end.
Lemma compare_Eq x y : SFcompare x y = Some Eq ->
  x = y \/ (exists s s', x = S754_zero s /\ y = S754_zero s').
Proof.
  destruct x as [s|[]| |sx mx ex], y as [s'|[]| |sy my ey]; try done; try (by left); intros E.
  - right. eauto.
  - by destruct sy.
  - by destruct sx.
  - left. simpl in E. destruct sx, sy; try done; destruct (ex ?= ey) eqn:Ee; try done;
      apply Z.compare_eq in Ee; fold (Pos.compare mx my) in E;
      destruct (Pos.compare mx my) eqn:Em; try done; apply Pos.compare_eq in Em; by subst.
Qed.
Lemma lt_cotrans x y z : number y -> f64_lt x z = true -> f64_lt x y = true \/ f64_lt y z = true.
Proof.
  intros Hy Hxz. destruct (SFcompare x y) as [[]|] eqn:E.
  - right. apply compare_Eq in E as [->|(s & s' & -> & ->)]; [done|]. by destruct z.
  - left. unfold f64_lt, SFltb. by rewrite E.
  - right. apply (lt_trans y x z); [|done]. unfold f64_lt, SFltb. by rewrite (compare_opp x y), E.
  - by destruct x as [[]|[]| |[]], y as [[]|[]| |[]].
Qed.
(** Numbers that compare equal have the distance zero, and the others differ one way. *)
Lemma lt_trichotomy x y : number x -> number y ->
  f64_lt x y = true \/ f64_lt y x = true \/ f64_abs (f64_sub x y) = f64_zero.
Proof.
  intros Hx Hy. destruct (SFcompare x y) as [[]|] eqn:E.
  - right. right. apply compare_Eq in E as [->|(s & s' & -> & ->)]; [|by destruct s, s'].
    destruct y as [[]| | |s m e]; try done. unfold f64_sub. simpl. by rewrite Z.sub_diag.
  - left. unfold f64_lt, SFltb. by rewrite E.
  - right. left. unfold f64_lt, SFltb. by rewrite (compare_opp x y), E.
  - by destruct x as [[]|[]| |[]], y as [[]|[]| |[]].
Qed.

(** ** Comparing quantities *)

(** What the constructor asserts of the value. *)
Definition proper {U} (q : CPhysicalQuantity U) : Prop := number (pq_value q).

Section comparing.
Context {U : Type} `{MU : MeasurementUnit U}.
Implicit Types (a b q : CPhysicalQuantity U) (u : option U).

Lemma convertFrom_same u value : unit_isNull u = false -> convertFrom u value u = value.
Proof using Type. unfold unit_isNull, convertFrom. intros H. case_match; [|done]. by case_decide. Qed.
Lemma valueIn_same a b : pq_unit a = pq_unit b -> PQ.isNull b = false -> PQ.valueIn (pq_unit a) b = pq_value b.
Proof using Type. unfold PQ.valueIn, PQ.isNull. intros ->. apply convertFrom_same. Qed.
Lemma isNull_unit a b : pq_unit a = pq_unit b -> PQ.isNull a = PQ.isNull b.
Proof using Type. unfold PQ.isNull. by intros ->. Qed.

(** Quantities of one unit: the distance of the values, and their order. *)
Lemma equals_same a b : pq_unit a = pq_unit b -> PQ.isNull b = false ->
  PQ.equals a b = f64_le (f64_abs (f64_sub (pq_value a) (pq_value b))) (m_epsilon (data (pq_unit b))).
Proof using Type.
  intros Hu Hb. unfold PQ.equals. by rewrite (isNull_unit a b), Hb, (valueIn_same a b), Hu.
Qed.
Lemma lessThan_same a b : pq_unit a = pq_unit b -> PQ.isNull b = false ->
  PQ.lessThan a b = negb (PQ.equals a b) && f64_lt (pq_value a) (pq_value b).
Proof using Type.
  intros Hu Hb. unfold PQ.lessThan. rewrite (isNull_unit a b), Hb, (valueIn_same a b); [|done..].
  by destruct (PQ.equals a b).
Qed.

Lemma equals_sym_same a b : pq_unit a = pq_unit b -> PQ.equals a b = PQ.equals b a.
Proof using Type.
  intros Hu. destruct (PQ.isNull b) eqn:Hb.
  - unfold PQ.equals. by rewrite (isNull_unit a b), Hb by done.
  - rewrite !equals_same by (rewrite ?(isNull_unit a b) by done; done). by rewrite abs_sub_comm, Hu.
Qed.

(** In one unit the comparison is antisymmetric, and finds exactly the values equal that are within epsilon. *)
Lemma compareImpl_same a b : pq_unit a = pq_unit b ->
  PQ.compareImpl b a = - PQ.compareImpl a b.
Proof using Type.
  intros Hu. unfold PQ.compareImpl, PQ.greaterThan. destruct (PQ.isNull b) eqn:Hb.
  - unfold PQ.lessThan. rewrite (isNull_unit a b), Hb by done. by repeat case_match.
  - rewrite !lessThan_same by (rewrite ?(isNull_unit a b) by done; done).
    rewrite (equals_sym_same b a) by done. destruct (PQ.equals a b); [done|]. simpl.
    destruct (f64_lt (pq_value a) (pq_value b)) eqn:E.
    + by rewrite (lt_asym _ _ E).
    + by destruct (f64_lt (pq_value b) (pq_value a)).
Qed.
Lemma compareImpl_zero a b : pq_unit a = pq_unit b -> proper a -> proper b ->
  f64_le f64_zero (m_epsilon (data (pq_unit a))) = true ->
  PQ.compareImpl a b = 0 <-> PQ.equals a b = true.
Proof using Type.
  intros Hu Ha Hb He. unfold PQ.compareImpl, PQ.greaterThan. destruct (PQ.isNull b) eqn:Hn.
  - unfold PQ.lessThan, PQ.equals. by rewrite (isNull_unit a b), Hn by done.
  - rewrite !lessThan_same by (rewrite ?(isNull_unit a b) by done; done).
    rewrite (equals_sym_same b a) by done. destruct (PQ.equals a b) eqn:E; [done|]. simpl.
    split; [|done]. intros H. exfalso.
    destruct (lt_trichotomy (pq_value a) (pq_value b) Ha Hb) as [Hl|[Hl|Hl]].
    + by rewrite Hl in H.
    + rewrite (lt_asym _ _ Hl), Hl in H. done.
    + rewrite equals_same, Hl, <-Hu, He in E by done. done.
Qed.
End comparing.

(** ** Reading quantities back *)

(** The symbols of a class: not empty, in ASCII, and distinct but for their case. *)
Definition goodSymbols (U : Type) `{MU : MeasurementUnit U} : bool :=
  forallb (fun s => negb (isEmpty s) && forallb (fun c => N.ltb c 128) s) allSymbols
  && bool_decide (NoDup (map (map asciiLower) allSymbols)).
Class MeasurementUnitLaws (U : Type) `{MeasurementUnit U} := { symbols_good : goodSymbols U = true }.
#[export] Instance CLengthUnit_laws : MeasurementUnitLaws CLengthUnit. Proof. split. by vm_compute. Qed.
#[export] Instance CAngleUnit_laws : MeasurementUnitLaws CAngleUnit. Proof. split. by vm_compute. Qed.
#[export] Instance CFrequencyUnit_laws : MeasurementUnitLaws CFrequencyUnit. Proof. split. by vm_compute. Qed.
#[export] Instance CMassUnit_laws : MeasurementUnitLaws CMassUnit. Proof. split. by vm_compute. Qed.
#[export] Instance CPressureUnit_laws : MeasurementUnitLaws CPressureUnit. Proof. split. by vm_compute. Qed.
#[export] Instance CTemperatureUnit_laws : MeasurementUnitLaws CTemperatureUnit. Proof. split. by vm_compute. Qed.
#[export] Instance CSpeedUnit_laws : MeasurementUnitLaws CSpeedUnit. Proof. split. by vm_compute. Qed.
#[export] Instance CTimeUnit_laws : MeasurementUnitLaws CTimeUnit. Proof. split. by vm_compute. Qed.
#[export] Instance CAccelerationUnit_laws : MeasurementUnitLaws CAccelerationUnit. Proof. split. by vm_compute. Qed.

Lemma find_unique {A} (p : A -> bool) (l : list A) x :
  x ∈ l -> p x = true -> (forall y, y ∈ l -> p y = true -> y = x) -> List.find p l = Some x.
Proof.
  intros Hx Hp Hu. destruct (List.find p l) as [y|] eqn:E.
  - apply List.find_some in E as [Hy Hpy]. f_equal. apply Hu; [by apply list_elem_of_In|done].
  - apply list_elem_of_In in Hx. by rewrite (List.find_none p l E x Hx) in Hp.
Qed.
Lemma NoDup_map_inj {A B} (f : A -> B) (l : list A) x y :
  NoDup (map f l) -> x ∈ l -> y ∈ l -> f x = f y -> x = y.
Proof.
  intros Hn Hx Hy He. apply list_elem_of_lookup in Hx as [i Hi], Hy as [j Hj].
  assert (i = j) as ->; [|congruence].
  apply (proj1 (NoDup_alt _) Hn i j (f x)); rewrite list_lookup_fmap; [by rewrite Hi|by rewrite Hj, He].
Qed.

Section reading.
Context `{QtConvLaws} {U : Type} `{MeasurementUnitLaws U}.
Implicit Types (q : CPhysicalQuantity U) (u : option U).

Lemma symbol_ascii u : u ∈ allUnits -> ascii (m_symbol (data u)) /\ m_symbol (data u) <> [].
Proof using All.
  intros Hu. pose proof symbols_good as Hg. apply andb_prop in Hg as [Hg _].
  rewrite forallb_forall in Hg.
  specialize (Hg (m_symbol (data u))). apply andb_prop in Hg as [Hn Ha].
  - split.
    + apply Forall_forall. intros c Hc. rewrite forallb_forall in Ha. apply N.ltb_lt, Ha.
      by apply list_elem_of_In.
    + intros E. by rewrite E in Hn.
  - apply (in_map (fun u => m_symbol (data u))). by apply list_elem_of_In.
Qed.
Lemma unitFromSymbol_listed u : u ∈ allUnits -> unitFromSymbol (m_symbol (data u)) true = Some u.
Proof using All.
  intros Hu. destruct (symbol_ascii u Hu) as [Ha Hn]. unfold unitFromSymbol.
  assert (isEmpty (m_symbol (data u)) = false) as -> by by destruct (m_symbol (data u)).
  rewrite (find_unique _ allUnits u); [done|done| |].
  - destruct hasCaseSensitiveSymbols; by apply bool_decide_eq_true.
  - intros v Hv Hm. destruct (symbol_ascii v Hv) as [Hav _].
    pose proof symbols_good as Hg. apply andb_prop in Hg as [_ Hg]. apply bool_decide_eq_true in Hg.
    unfold allSymbols in Hg. rewrite map_map in Hg. apply (NoDup_map_inj _ _ v u Hg Hv Hu).
    simpl in Hm. destruct hasCaseSensitiveSymbols; apply bool_decide_eq_true in Hm; [congruence|].
    rewrite !foldCase_ascii in Hm by done. done.
Qed.
End reading.

(** *** Doubles in JSON *)

Lemma digits_shift m k : Z.pos (digits2_pos (Pos.iter xO m k)) = Z.pos (digits2_pos m) + Z.pos k.
Proof.
  induction k as [|k IH] using Pos.peano_ind; [simpl; lia|].
  rewrite Pos.iter_succ. simpl. lia.
Qed.
Lemma shiftl_iter m k : Z.shiftl (Z.pos m) (Z.pos k) = Z.pos (Pos.iter xO m k).
Proof. unfold Z.shiftl. symmetry. by apply (Pos.iter_swap_gen _ _ Z.pos xO (Z.mul 2)). Qed.
Lemma iter_pos_iter {A} (f : A -> A) k x : iter_pos f k x = Pos.iter f x k.
Proof. revert x. induction k as [k IH|k IH|]; intros x; simpl; [|by rewrite !IH..|done]. rewrite !IH, Pos.iter_swap. f_equal. by rewrite Pos.iter_swap. Qed.
Lemma shr_shift m k :
  Pos.iter shr_1 (Build_shr_record (Z.pos (Pos.iter xO m k)) false false) k = Build_shr_record (Z.pos m) false false.
Proof.
  revert m. induction k as [|k IH] using Pos.peano_ind; intros m; [done|].
  rewrite Pos.iter_succ_r, Pos.iter_succ. simpl. apply IH.
Qed.

(** A number in its normal form, rounded where it stands, is itself. *)
Lemma round_canonical s m e : bounded f64_prec f64_emax m e = true ->
  binary_round_aux f64_prec f64_emax s (Z.pos m) e loc_Exact = S754_finite s m e.
Proof.
  unfold bounded, canonical_mantissa. intros [Hc He]%andb_prop. apply Z.eqb_eq in Hc.
  unfold binary_round_aux, shr_fexp, shr. simpl Zdigits2. rewrite Hc, Z.sub_diag. simpl.
  rewrite Hc, Z.sub_diag. simpl. by rewrite He.
Qed.

Lemma f64_of_Z_integral x n : valid_binary f64_prec f64_emax x = true -> x <> S754_zero true ->
  integral x = Some n -> f64_of_Z n = x.
Proof.
  destruct x as [[]|s| |s m e]; try done; intros Hv _ Hi; [by injection Hi as <-|].
  simpl in Hv. pose proof Hv as Hb. unfold bounded, canonical_mantissa in Hb.
  apply andb_prop in Hb as [Hc He]. apply Z.eqb_eq in Hc.
  assert (Hp : forall p, n = (if s then Z.neg p else Z.pos p) ->
                 f64_of_Z n = binary_round f64_prec f64_emax s p 0) by by intros p ->; destruct s.
  unfold integral in Hi. destruct (bool_decide _) eqn:Hd in Hi; [|done]. apply bool_decide_eq_true in Hd. injection Hi as Hn.
  destruct e as [|k|k].
  - rewrite (Hp m) by by rewrite <-Hn; destruct s. unfold binary_round. rewrite Hc. simpl shl_align.
    by apply round_canonical.
  - rewrite shiftl_iter in Hn. rewrite (Hp (Pos.iter xO m k)) by by rewrite <-Hn; destruct s.
    unfold binary_round. rewrite Z.add_0_r, digits_shift, Hc. unfold shl_align. rewrite Z.sub_0_r.
    unfold binary_round_aux, shr_fexp, shr. simpl Zdigits2. rewrite Z.add_0_r, digits_shift, Hc, Z.sub_0_r.
    simpl. rewrite iter_pos_iter, shr_shift. simpl. rewrite !Z.add_0_l, Hc, Z.sub_diag. simpl. by rewrite He.
  - destruct (Z.shiftl (Z.pos m) (Z.neg k)) as [|a|a] eqn:Ea.
    + simpl in Hd. rewrite Z.shiftl_0_l in Hd. done.
    + simpl in Hd. change (Z.shiftl (Z.pos a) (Z.pos k) = Z.pos m) in Hd. rewrite shiftl_iter in Hd. injection Hd as Hm.
      rewrite (Hp a) by by rewrite <-Hn; destruct s. unfold binary_round.
      rewrite Z.add_0_r. replace (Z.pos (digits2_pos a)) with (Z.pos (digits2_pos m) + Z.neg k)
        by (rewrite <-Hm, digits_shift; lia).
      rewrite Hc. unfold shl_align. rewrite Z.sub_0_r, Hm. by apply round_canonical.
    + exfalso. pose proof (Z.shiftl_nonneg (Z.pos m) (Z.neg k)). lia.
Qed.

Lemma double_through_json x : valid_binary f64_prec f64_emax x = true -> x <> S754_zero true ->
  doubleOr f64_zero (Some (jsonOfDouble x)) = x.
Proof.
  intros Hv Hz. unfold jsonOfDouble. destruct (integral x) as [n|] eqn:E; [|done].
  case_decide; [|done]. by apply f64_of_Z_integral.
Qed.

Section reading_back.
Context `{QtConvLaws} {U : Type} `{MeasurementUnitLaws U}.
Implicit Types q : CPhysicalQuantity U.

(** A quantity written to JSON is read back as it was, null included, when its
    unit is in the list its class gives of all units. *)
Theorem quantity_json_roundtrip q :
  pq_unit q ∈ allUnits -> valid_binary f64_prec f64_emax (pq_value q) = true -> pq_value q <> S754_zero true ->
  PQ.convertFromJson (PQ.toJson q) = Converted q.
Proof using All.
  intros Hu Hv Hz. unfold PQ.convertFromJson, PQ.toJson. simpl value. cbv iota.
  unfold stringOr. rewrite unitFromSymbol_listed, double_through_json by done. by destruct q.
Qed.
End reading_back.

(** Not so the units the lists leave out: reading a pressure in pascal ends the program. *)
Example pascal_not_read_back :
  @PQ.convertFromJson refQt _ _ (PQ.toJson (mkQuantity (f64_of_Z 101325) (Some PressureUnit_Pa))) = Fatal.
Proof. by vm_compute. Qed.
Example minsec_not_read_back :
  @PQ.convertFromJson refQt _ _ (PQ.toJson (mkQuantity (f64_of_Z 90) (Some TimeUnit_minsec))) = Fatal.
Proof. by vm_compute. Qed.

(** One millimetre of mercury is 25.4 inches of mercury (it is 1 / 25.4 of one). *)
Example millimetre_of_mercury :
  PQ.equals (mkQuantity (f64_of_Z 1) (Some PressureUnit_mmHg))
    (mkQuantity (f64_frac 254 10) (Some PressureUnit_inHg)) = true.
Proof. by vm_compute. Qed.

(** Equality is not an equivalence: in one unit it is not transitive, and with two
    units it is not even symmetric, as the epsilon is that of the unit on the left. *)
Definition nanoMetres (n : Z) : CLength := mkQuantity (f64_frac n 10000000000) (Some LengthUnit_m).
Example equals_not_transitive :
  PQ.equals (nanoMetres 0) (nanoMetres 8) = true /\ PQ.equals (nanoMetres 8) (nanoMetres 16) = true /\
  PQ.equals (nanoMetres 0) (nanoMetres 16) = false.
Proof. by vm_compute. Qed.
Definition oneMile : CLength := mkQuantity (f64_of_Z 1) (Some LengthUnit_NM).
Definition almostOneMile : CLength := mkQuantity (f64_frac 1852000001 1000000) (Some LengthUnit_m).
Example equals_not_symmetric :
  PQ.equals oneMile almostOneMile = true /\ PQ.equals almostOneMile oneMile = false.
Proof. by vm_compute. Qed.

#[local] Existing Instance refQt.
Lemma quantity_json_roundtrip_witness :
  valid_binary f64_prec f64_emax (f64_frac 25 10) = true /\
  PQ.convertFromJson (U := CLengthUnit) (PQ.toJson (mkQuantity (f64_frac 25 10) (Some LengthUnit_NM))) =
    Converted (mkQuantity (f64_frac 25 10) (Some LengthUnit_NM)) /\
  PQ.convertFromJson (U := CPressureUnit) (PQ.toJson (U := CPressureUnit) PQ.null) = Converted PQ.null.
Proof.
  split; [by vm_compute|]. split.
  - apply quantity_json_roundtrip; [set_solver|by vm_compute|by vm_compute].
  - apply quantity_json_roundtrip; [set_solver|done|done].
Defined.
