(* ===== verification/Serializer.v ===== *)
(** * Enumerations of the FSD protocol and their text

    core/fsd/enums.h and core/fsd/serializer.cpp: one Module per enumeration,
    with its [toQString] and [fromQString].  The functions that log an unknown
    text once per session are split in the value they return and, in
    [UnknownLog], the list of texts already logged. *)

From S2P Require Import QtCore.

(** ** enum class AtcRating *)
Module AtcRating.
Inductive t :=
  | Unknown | Observer | Student | Student2 | Student3 | Controller1 | Controller2
  | Controller3 | Instructor1 | Instructor2 | Instructor3 | Supervisor | Administrator.
#[global] Instance eq_dec : EqDecision t.
Proof. solve_decision. Defined.

Definition toQString (value : t) : QString :=
  match value with
  | Unknown => lit "0" | Observer => lit "1" | Student => lit "2" | Student2 => lit "3"
  | Student3 => lit "4" | Controller1 => lit "5" | Controller2 => lit "6"
  | Controller3 => lit "7" | Instructor1 => lit "8" | Instructor2 => lit "9"
  | Instructor3 => lit "10" | Supervisor => lit "11" | Administrator => lit "12"
  end.

(** [None]: the text is unknown, and logged. *)
Definition known (str : QString) : option t :=
  if isEmpty str then Some Unknown
  else if eqs str "1" then Some Observer
  else if eqs str "2" then Some Student
  else if eqs str "3" then Some Student2
  else if eqs str "4" then Some Student3
  else if eqs str "5" then Some Controller1
  else if eqs str "6" then Some Controller2
  else if eqs str "7" then Some Controller3
  else if eqs str "8" then Some Instructor1
  else if eqs str "9" then Some Instructor2
  else if eqs str "10" then Some Instructor3
  else if eqs str "11" then Some Supervisor
  else if eqs str "12" then Some Administrator
  else None.
Definition fromQString (str : QString) : t := default Unknown (known str).
End AtcRating.

(** ** enum class PilotRating *)
Module PilotRating.
Inductive t := Unknown | Student | VFR | IFR | Instructor | Supervisor.
#[global] Instance eq_dec : EqDecision t.
Proof. solve_decision. Defined.

Definition toQString (value : t) : QString :=
  match value with
  | Unknown => lit "0" | Student => lit "1" | VFR => lit "2" | IFR => lit "3"
  | Instructor => lit "4" | Supervisor => lit "5"
  end.

Definition known (str : QString) : option t :=
  if isEmpty str then Some Unknown
  else if eqs str "0" then Some Unknown
  else if eqs str "1" then Some Student
  else if eqs str "2" then Some VFR
  else if eqs str "3" then Some IFR
  else if eqs str "4" then Some Instructor
  else if eqs str "5" then Some Supervisor
  else None.
Definition fromQString (str : QString) : t := default Unknown (known str).
End PilotRating.

(** ** enum class SimType *)
Module SimType.
Inductive t :=
  | Unknown | MSFS95 | MSFS98 | MSCFS | MSFS2000 | MSCFS2 | MSFS2002 | MSCFS3 | MSFS2004
  | MSFSX | MSFS | MSFS2024 | XPLANE8 | XPLANE9 | XPLANE10 | XPLANE11 | XPLANE12
  | P3Dv1 | P3Dv2 | P3Dv3 | P3Dv4 | P3Dv5 | FlightGear.
#[global] Instance eq_dec : EqDecision t.
Proof. solve_decision. Defined.

Definition toQString (value : t) : QString :=
  match value with
  | Unknown => lit "0" | MSFS95 => lit "1" | MSFS98 => lit "2" | MSCFS => lit "3"
  | MSFS2000 => lit "4" | MSCFS2 => lit "5" | MSFS2002 => lit "6" | MSCFS3 => lit "7"
  | MSFS2004 => lit "8" | MSFSX => lit "9" | MSFS => lit "10" | MSFS2024 => lit "11"
  | XPLANE8 => lit "12" | XPLANE9 => lit "13" | XPLANE10 => lit "14" | XPLANE11 => lit "16"
  | FlightGear => lit "25"
  | P3Dv1 => lit "30" | P3Dv2 => lit "30" | P3Dv3 => lit "30" | P3Dv4 => lit "30"
  | XPLANE12 | P3Dv5 => lit "0"
  end.

Definition known (str : QString) : option t :=
  if isEmpty str then Some Unknown
  else if eqs str "0" then Some Unknown
  else if eqs str "1" then Some MSFS95
  else if eqs str "2" then Some MSFS98
  else if eqs str "3" then Some MSCFS
  else if eqs str "4" then Some MSFS2000
  else if eqs str "5" then Some MSCFS2
  else if eqs str "6" then Some MSFS2002
  else if eqs str "7" then Some MSCFS3
  else if eqs str "8" then Some MSFS2004
  else if eqs str "9" then Some MSFSX
  else if eqs str "10" then Some MSFS
  else if eqs str "11" then Some MSFS2024
  else if eqs str "12" then Some XPLANE8
  else if eqs str "13" then Some XPLANE9
  else if eqs str "14" then Some XPLANE10
  else if eqs str "16" then Some XPLANE11
  else if eqs str "25" then Some FlightGear
  else if eqs str "30" then Some P3Dv4
  else None.
Definition fromQString (str : QString) : t := default Unknown (known str).
End SimType.

(** ** CFacilityType *)
Module FacilityType.
Inductive t := OBS | FSS | DEL | GND | TWR | APP | CTR | Unknown.
#[global] Instance eq_dec : EqDecision t.
Proof. solve_decision. Defined.

Definition toQString (value : t) : QString :=
  match value with
  | OBS => lit "0" | FSS => lit "1" | DEL => lit "2" | GND => lit "3" | TWR => lit "4"
  | APP => lit "5" | CTR => lit "6" | Unknown => []
  end.

Definition known (str : QString) : option t :=
  if isEmpty str then Some Unknown
  else if eqs str "0" then Some OBS
  else if eqs str "1" then Some FSS
  else if eqs str "2" then Some DEL
  else if eqs str "3" then Some GND
  else if eqs str "4" then Some TWR
  else if eqs str "5" then Some APP
  else if eqs str "6" then Some CTR
  else None.
Definition fromQString (str : QString) : t := default Unknown (known str).
End FacilityType.

(** ** enum class ClientQueryType *)
Module ClientQueryType.
Inductive t :=
  | Unknown | IsValidATC | Capabilities | Com1Freq | RealName | Server | ATIS | PublicIP
  | INF | FP | AircraftConfig | EuroscopeSimData.
#[global] Instance eq_dec : EqDecision t.
Proof. solve_decision. Defined.

Definition toQString (value : t) : QString :=
  match value with
  | IsValidATC => lit "ATC" | Capabilities => lit "CAPS" | Com1Freq => lit "C?"
  | RealName => lit "RN" | Server => lit "SV" | ATIS => lit "ATIS" | PublicIP => lit "IP"
  | INF => lit "INF" | FP => lit "FP" | AircraftConfig => lit "ACC"
  | EuroscopeSimData => lit "SIMDATA" | Unknown => lit "Unknown query type"
  end.

(** The ATC-only and third party queries that are ignored without a log entry. *)
Definition ignored : QStringList :=
  [lit "BC"; lit "BY"; lit "DI"; lit "DP"; lit "DR"; lit "FA"; lit "HC"; lit "HI"; lit "HT";
   lit "ID"; lit "IH"; lit "IT"; lit "PT"; lit "SC"; lit "ST"; lit "TA"; lit "VT"; lit "VER";
   lit "WH"; lit "HLP"; lit "NOHLP"; lit "NEWATIS"; lit "NEWINFO"].

Definition known (str : QString) : option t :=
  if isEmpty str then Some Unknown
  else if eqs str "ATC" then Some IsValidATC
  else if eqs str "CAPS" then Some Capabilities
  else if eqs str "C?" then Some Com1Freq
  else if eqs str "RN" then Some RealName
  else if eqs str "SV" then Some Server
  else if eqs str "ATIS" then Some ATIS
  else if eqs str "IP" then Some PublicIP
  else if eqs str "INF" then Some INF
  else if eqs str "FP" then Some FP
  else if eqs str "ACC" then Some AircraftConfig
  else if bool_decide (str ∈ ignored) then Some Unknown
  else None.
Definition fromQString (str : QString) : t := default Unknown (known str).
End ClientQueryType.

(** ** enum class FlightType *)
Module FlightType.
Inductive t := IFR | VFR | SVFR | DVFR.
#[global] Instance eq_dec : EqDecision t.
Proof. solve_decision. Defined.

Definition toQString (value : t) : QString :=
  match value with
  | IFR => lit "I" | VFR => lit "V" | SVFR => lit "S" | DVFR => lit "D"
  end.

Definition fromQString (str : QString) : t :=
  if eqs str "I" then IFR
  else if eqs str "V" then VFR
  else if eqs str "S" then SVFR
  else if eqs str "D" then DVFR
  else IFR.
End FlightType.

(** ** CTransponder::TransponderMode *)
Module TransponderMode.
Inductive t :=
  | StateStandby | ModeMil1 | ModeMil2 | ModeMil3 | ModeMil4 | ModeMil5
  | StateIdent | ModeA | ModeC | ModeS.
#[global] Instance eq_dec : EqDecision t.
Proof. solve_decision. Defined.

Definition toQString (value : t) : QString :=
  match value with
  | StateStandby => lit "S"
  | ModeMil1 | ModeMil2 | ModeMil3 | ModeMil4 | ModeMil5 | ModeA | ModeC | ModeS => lit "N"
  | StateIdent => lit "Y"
  end.

Definition fromQString (str : QString) : t :=
  if eqs str "S" then StateStandby
  else if eqs str "N" then ModeC
  else if eqs str "Y" then StateIdent
  else StateStandby.
End TransponderMode.

(** ** enum class Capabilities : int

    The flags, and a set of flags as the [int] the operators of enums.h
    compute on. *)
Module Capabilities.
Inductive t :=
  | None | AtcInfo | SecondaryPos | AircraftInfo | OngoingCoord | InterminPos | FastPos
  | VisPos | Stealth | AircraftConfig | IcaoEquipment.
#[global] Instance eq_dec : EqDecision t.
Proof. solve_decision. Defined.

Definition value (c : t) : Z :=
  match c with
  | None => Z.shiftl 1 0 | AtcInfo => Z.shiftl 1 1 | SecondaryPos => Z.shiftl 1 2
  | AircraftInfo => Z.shiftl 1 3 | OngoingCoord => Z.shiftl 1 4 | InterminPos => Z.shiftl 1 5
  | FastPos => Z.shiftl 1 6 | VisPos => Z.shiftl 1 7 | Stealth => Z.shiftl 1 8
  | AircraftConfig => Z.shiftl 1 9 | IcaoEquipment => Z.shiftl 1 10
  end.

(** [operator|] and the boolean [operator&]. *)
Definition or (lhs rhs : Z) : Z := Z.lor lhs rhs.
Definition has (lhs : Z) (rhs : t) : bool := negb (Z.land lhs (value rhs) =? 0).

Definition toQString (c : t) : QString :=
  match c with
  | None => [] | AtcInfo => lit "ATCINFO" | SecondaryPos => lit "SECPOS"
  | AircraftInfo => lit "MODELDESC" | OngoingCoord => lit "ONGOINGCOORD"
  | InterminPos => lit "INTERIMPOS" | VisPos => lit "VISUPDATE" | FastPos => lit "FASTPOS"
  | Stealth => lit "STEALTH" | AircraftConfig => lit "ACCONFIG" | IcaoEquipment => lit "ICAOEQ"
  end.

Definition fromQString (str : QString) : t :=
  if eqs str "ATCINFO" then AtcInfo
  else if eqs str "SECPOS" then SecondaryPos
  else if eqs str "MODELDESC" then AircraftInfo
  else if eqs str "ONGOINGCOORD" then OngoingCoord
  else if eqs str "INTERIMPOS" then InterminPos
  else if eqs str "FASTPOS" then FastPos
  else if eqs str "VISUPDATE" then VisPos
  else if eqs str "STEALTH" then Stealth
  else if eqs str "ACCONFIG" then AircraftConfig
  else if eqs str "ICAOEQ" then IcaoEquipment
  else None.

Definition all : list t :=
  [None; AtcInfo; SecondaryPos; AircraftInfo; OngoingCoord; InterminPos; FastPos; VisPos;
   Stealth; AircraftConfig; IcaoEquipment].

Lemma has_or a b c : has (or a b) c = has a c || has b c.
Proof.
  unfold has, or. apply Bool.eq_iff_eq_true.
  rewrite orb_true_iff, !negb_true_iff, !Z.eqb_neq, Z.land_lor_distr_l, Z.lor_eq_0_iff.
  destruct (Z.eq_dec (Z.land a (value c)) 0); tauto.
Qed.

Lemma has_value a b : has (value a) b = bool_decide (a = b).
Proof. destruct a, b; reflexivity. Qed.
End Capabilities.

(** ** enum class AtisLineType *)
Module AtisLineType.
Inductive t := Unknown | VoiceRoom | TextMessage | ZuluLogoff | LineCount.
#[global] Instance eq_dec : EqDecision t.
Proof. solve_decision. Defined.

Definition fromQString (str : QString) : t :=
  if eqs str "V" then VoiceRoom
  else if eqs str "Z" then ZuluLogoff
  else if eqs str "T" then TextMessage
  else if eqs str "E" then LineCount
  else Unknown.
End AtisLineType.

(** ** enum class ServerErrorCode

    The code travels as its number: [static_cast<int>] and back. *)
Module ServerErrorCode.
Inductive t :=
  | NoError | CallsignInUse | InvalidCallsign | AlreadyRegistered | SyntaxError
  | InvalidSrcCallsign | InvalidCidPassword | NoSuchCallsign | NoFlightPlan
  | NoWeatherProfile | InvalidRevision | RequestedLevelTooHigh | ServerFull
  | CidSuspended | InvalidCtrl | RatingTooLow | InvalidClient | AuthTimeout | Unknown.
#[global] Instance eq_dec : EqDecision t.
Proof. solve_decision. Defined.

Definition all : list t :=
  [NoError; CallsignInUse; InvalidCallsign; AlreadyRegistered; SyntaxError;
   InvalidSrcCallsign; InvalidCidPassword; NoSuchCallsign; NoFlightPlan;
   NoWeatherProfile; InvalidRevision; RequestedLevelTooHigh; ServerFull;
   CidSuspended; InvalidCtrl; RatingTooLow; InvalidClient; AuthTimeout; Unknown].

(** The enumerators are numbered from 0 in the order of the declaration. *)
Definition toInt (c : t) : Z :=
  match list_find (fun d => d = c) all with Some (i, _) => Z.of_nat i | _ => -1 end.
(** The enumerator with a given number, when there is one. *)
Definition ofInt (n : Z) : option t := if n <? 0 then None else all !! Z.to_nat n.

Lemma ofInt_toInt c : ofInt (toInt c) = Some c.
Proof. by destruct c. Qed.
End ServerErrorCode.

(** ** Logging each unknown text once

    [Private::s_invalidAtcRatings] and its siblings: the texts already
    reported; a text is reported when it is not in the list. *)
Module UnknownLog.
Definition note {A} (known : QString -> option A) (seen : QStringList) (str : QString) :
    QStringList * bool :=
  match known str with
  | Some _ => (seen, false)
  | None => if bool_decide (str ∈ seen) then (seen, false) else (seen ++ [str], true)
  end.

(** The texts reported over a series of calls. *)
Fixpoint reported {A} (known : QString -> option A) (seen : QStringList) (strs : QStringList) :
    QStringList :=
  match strs with
  | [] => []
  | s :: strs' => let '(seen', b) := note known seen s in
                  (if b then [s] else []) ++ reported known seen' strs'
  end.

Lemma reported_fresh {A} (known : QString -> option A) strs seen :
  forall s, s ∈ reported known seen strs -> s ∉ seen /\ s ∈ strs /\ known s = None.
Proof.
  revert seen. induction strs as [|x strs IH]; intros seen s; simpl; [set_solver|].
  unfold note. destruct (known x) eqn:E; simpl.
  { intros Hs. apply IH in Hs as (? & ? & ?). set_solver. }
  case_bool_decide as Hx; simpl.
  { intros Hs. apply IH in Hs as (? & ? & ?). set_solver. }
  rewrite elem_of_cons. intros [-> | Hs]; [set_solver|].
  apply IH in Hs as (? & ? & ?). set_solver.
Qed.

Lemma reported_complete {A} (known : QString -> option A) strs seen :
  forall s, s ∈ strs -> known s = None -> s ∉ seen -> s ∈ reported known seen strs.
Proof.
  revert seen. induction strs as [|x strs IH]; intros seen s; simpl; [set_solver|].
  intros Hin Hk Hs. unfold note. destruct (known x) eqn:E; simpl.
  { apply IH; [|done..]. apply elem_of_cons in Hin as [->|]; [congruence|done]. }
  case_bool_decide as Hx; simpl.
  { apply IH; [|done..]. apply elem_of_cons in Hin as [->|]; [done|done]. }
  destruct (decide (s = x)) as [->|Hne]; [set_solver|].
  apply elem_of_cons. right. apply IH; set_solver.
Qed.

(** Over any series of calls, exactly the unknown texts not reported before
    are reported, each of them once. *)
Theorem reported_once {A} (known : QString -> option A) seen strs :
  NoDup (reported known seen strs) /\
  forall s, s ∈ reported known seen strs <-> s ∈ strs /\ known s = None /\ s ∉ seen.
Proof.
  split.
  - revert seen. induction strs as [|x strs IH]; intros seen; simpl; [constructor|].
    unfold note. destruct (known x); simpl; [apply IH|].
    case_bool_decide; simpl; [apply IH|]. constructor; [|apply IH].
    intros Hx. apply reported_fresh in Hx as (Hx & _). set_solver.
  - intros s. split.
    + intros Hs. apply reported_fresh in Hs. tauto.
    + intros (? & ? & ?). by apply reported_complete.
Qed.
End UnknownLog.

(** ** Round trips *)

Ltac by_enum := intros x; destruct x; vm_compute; tauto.

(** The enumerations whose text determines the value: reading back the text
    of any value gives that value. *)
Theorem enums_roundtrip :
  (forall r, AtcRating.fromQString (AtcRating.toQString r) = r) /\
  (forall r, PilotRating.fromQString (PilotRating.toQString r) = r) /\
  (forall f, FacilityType.fromQString (FacilityType.toQString f) = f) /\
  (forall f, FlightType.fromQString (FlightType.toQString f) = f) /\
  (forall c, Capabilities.fromQString (Capabilities.toQString c) = c).
Proof. split_and!; by_enum. Qed.

(** The enumerations that lose information on the wire: exactly the listed
    values do not come back, and what comes back is stable. *)
Theorem lossy_enums :
  (forall s, SimType.fromQString (SimType.toQString s) = s <->
     ~ (s = SimType.XPLANE12 \/ s = SimType.P3Dv1 \/ s = SimType.P3Dv2 \/
        s = SimType.P3Dv3 \/ s = SimType.P3Dv5)) /\
  (forall q, ClientQueryType.fromQString (ClientQueryType.toQString q) = q <->
     q <> ClientQueryType.EuroscopeSimData) /\
  (forall m, TransponderMode.fromQString (TransponderMode.toQString m) = m <->
     m = TransponderMode.StateStandby \/ m = TransponderMode.StateIdent \/
     m = TransponderMode.ModeC) /\
  (forall s, SimType.toQString (SimType.fromQString (SimType.toQString s)) = SimType.toQString s) /\
  (forall m, TransponderMode.toQString (TransponderMode.fromQString (TransponderMode.toQString m))
             = TransponderMode.toQString m).
Proof.
  split_and!; intros x; destruct x; vm_compute; try tauto; split; intros H;
    try discriminate; try tauto; naive_solver.
Qed.

(** The text of a rating, and the text of every other enumeration, has no
    field separator. *)
Lemma enum_no_colon :
  (forall r, colon ∉ AtcRating.toQString r) /\ (forall r, colon ∉ PilotRating.toQString r) /\
  (forall s, colon ∉ SimType.toQString s) /\ (forall f, colon ∉ FacilityType.toQString f) /\
  (forall q, colon ∉ ClientQueryType.toQString q) /\ (forall f, colon ∉ FlightType.toQString f) /\
  (forall m, colon ∉ TransponderMode.toQString m).
Proof. split_and!; intros x; apply (bool_decide_unpack _); destruct x; vm_compute; exact I. Qed.
