(* ===== verification/Pbh.v ===== *)
(** * Packing pitch, bank, heading and the ground flag (core/fsd/pbh.h)

    The 32-bit word of the position packets.  From the least significant bit:
    one unused bit, the ground flag, ten unsigned bits of heading, ten signed
    bits of bank and ten signed bits of pitch.  The arithmetic is that of
    binary64, computed by the Standard Library's [SpecFloat]. *)

From S2P Require Import QtCore.

(** The fields of [union PBH]. *)
Record PBH := mkPBH { unused : Z; onground : Z; hdg : Z; bank : Z; pitch : Z }.

(** The word the fields overlay; a field is reduced to its width when it is
    assigned. *)
Definition PBH_word (f : PBH) : Z :=
  wrapU 1 (unused f) + wrapU 1 (onground f) * 2 + wrapU 10 (hdg f) * 4
  + wrapU 10 (bank f) * 2 ^ 12 + wrapU 10 (pitch f) * 2 ^ 22.

Definition PBH_fields (w : Z) : PBH :=
  mkPBH (wrapU 1 w) (wrapU 1 (Z.shiftr w 1)) (wrapU 10 (Z.shiftr w 2))
        (wrapS 10 (Z.shiftr w 12)) (wrapS 10 (Z.shiftr w 22)).

Definition pitchMultiplier : double := f64_div (f64_of_Z 256) (f64_of_Z 90).
Definition bankMultiplier : double := f64_div (f64_of_Z 512) (f64_of_Z 180).
Definition headingMultiplier : double := f64_div (f64_of_Z 1024) (f64_of_Z 360).

Definition packPBH (p b h : double) (onGround : bool) : Z :=
  PBH_word
    (mkPBH 0
       (if onGround then 1 else 0)
       (f64_trunc (f64_mul h headingMultiplier))
       (f64_floor (f64_mul b (f64_opp bankMultiplier)))
       (f64_floor (f64_mul p (f64_opp pitchMultiplier)))).

Record angles := mkAngles {
  a_pitch : double; a_bank : double; a_heading : double; a_onGround : bool }.

Definition unpackPBH (w : Z) : angles :=
  let f := PBH_fields w in
  let iPitch := f64_floor (f64_div (f64_of_Z (pitch f)) (f64_opp pitchMultiplier)) in
  let iBank := f64_floor (f64_div (f64_of_Z (bank f)) (f64_opp bankMultiplier)) in
  mkAngles (f64_of_Z iPitch) (f64_of_Z iBank)
           (f64_div (f64_of_Z (hdg f)) headingMultiplier)
           (onground f =? 1).

(** ** The bit fields *)

Lemma shiftr_add_low k lo hi :
  0 <= k -> 0 <= lo < 2 ^ k -> Z.shiftr (lo + hi * 2 ^ k) k = hi.
Proof.
  intros Hk Hlo. rewrite Z.shiftr_div_pow2 by done.
  rewrite Z.div_add by lia. rewrite Z.div_small by done. lia.
Qed.

Lemma mod_add_low k m lo hi :
  0 <= k <= m -> 0 <= lo < 2 ^ k -> (lo + hi * 2 ^ m) mod 2 ^ k = lo.
Proof.
  intros Hk Hlo. replace m with (k + (m - k)) by lia.
  rewrite Z.pow_add_r, (Z.mul_comm (2 ^ k)), Z.mul_assoc, Z.mod_add by lia.
  by apply Z.mod_small.
Qed.

(** Fields that fit their widths. *)
Definition PBH_fits (f : PBH) : Prop :=
  inU 1 (unused f) /\ inU 1 (onground f) /\ inU 10 (hdg f) /\ inS 10 (bank f) /\ inS 10 (pitch f).

(** Reading the word back gives every field reduced to its width. *)
Lemma PBH_fields_word f :
  PBH_fields (PBH_word f) =
  mkPBH (wrapU 1 (unused f)) (wrapU 1 (onground f)) (wrapU 10 (hdg f))
        (wrapS 10 (bank f)) (wrapS 10 (pitch f)).
Proof.
  unfold PBH_fields, PBH_word.
  pose proof (wrapU_range 1 (unused f) ltac:(lia)) as H1.
  pose proof (wrapU_range 1 (onground f) ltac:(lia)) as H2.
  pose proof (wrapU_range 10 (hdg f) ltac:(lia)) as H3.
  pose proof (wrapU_range 10 (bank f) ltac:(lia)) as H4.
  pose proof (wrapU_range 10 (pitch f) ltac:(lia)) as H5.
  rewrite <- (wrapS_wrapU 10 (bank f)), <- (wrapS_wrapU 10 (pitch f)) by lia.
  set (u := wrapU 1 (unused f)) in *. set (o := wrapU 1 (onground f)) in *.
  set (h := wrapU 10 (hdg f)) in *. set (b := wrapU 10 (bank f)) in *.
  set (p := wrapU 10 (pitch f)) in *.
  unfold inU in *. change (2 ^ 1) with 2 in *. change (2 ^ 10) with 1024 in *.
  change (2 ^ 12) with 4096. change (2 ^ 22) with 4194304.
  set (w := u + o * 2 + h * 4 + b * 4096 + p * 4194304).
  assert (wrapU 1 w = u) as ->.
  { unfold wrapU, w. change (2 ^ 1) with 2. symmetry. apply (Z.mod_unique_pos _ _ (o + h * 2 + b * 2048 + p * 2097152)); lia. }
  assert (Z.shiftr w 1 = o + h * 2 + b * 2048 + p * 2097152) as ->.
  { replace w with (u + (o + h * 2 + b * 2048 + p * 2097152) * 2 ^ 1) by lia.
    apply shiftr_add_low; lia. }
  assert (Z.shiftr w 2 = h + b * 1024 + p * 1048576) as ->.
  { replace w with ((u + o * 2) + (h + b * 1024 + p * 1048576) * 2 ^ 2) by lia.
    apply shiftr_add_low; lia. }
  assert (Z.shiftr w 12 = b + p * 1024) as ->.
  { replace w with ((u + o * 2 + h * 4) + (b + p * 1024) * 2 ^ 12) by lia.
    apply shiftr_add_low; lia. }
  assert (Z.shiftr w 22 = p) as ->.
  { replace w with ((u + o * 2 + h * 4 + b * 4096) + p * 2 ^ 22) by lia.
    apply shiftr_add_low; lia. }
  f_equal.
  - unfold wrapU. change (2 ^ 1) with 2. symmetry.
    apply (Z.mod_unique_pos _ _ (h + b * 1024 + p * 1048576)); lia.
  - unfold wrapU. change (2 ^ 10) with 1024. symmetry.
    apply (Z.mod_unique_pos _ _ (b + p * 1024)); lia.
  - rewrite <- (wrapS_wrapU 10 (b + p * 1024)) by lia. f_equal.
    unfold wrapU. change (2 ^ 10) with 1024. symmetry.
    apply (Z.mod_unique_pos _ _ p); lia.
Qed.

(** Every 32-bit word is the word of its fields. *)
Lemma PBH_word_fields w : inU 32 w -> PBH_word (PBH_fields w) = w.
Proof.
  intros Hw. unfold PBH_word, PBH_fields. cbn [unused onground hdg bank pitch].
  rewrite !Z.shiftr_div_pow2 by lia.
  assert (Hs : forall z, wrapU 10 (wrapS 10 z) = wrapU 10 z).
  { intros z. unfold wrapU, wrapS. rewrite Zminus_mod_idemp_l. f_equal. lia. }
  rewrite !Hs. unfold wrapU, inU in *.
  change (2 ^ 1) with 2. change (2 ^ 2) with 4. change (2 ^ 10) with 1024.
  change (2 ^ 12) with 4096. change (2 ^ 22) with 4194304. change (2 ^ 32) with 4294967296 in Hw.
  pose proof (Z.div_mod w 2) as E1. pose proof (Z.div_mod (w / 2) 2) as E2.
  pose proof (Z.div_mod (w / 4) 1024) as E3. pose proof (Z.div_mod (w / 4096) 1024) as E4.
  assert (w / 2 / 2 = w / 4) as R1 by (rewrite Z.div_div by lia; f_equal; lia).
  assert (w / 4 / 1024 = w / 4096) as R2 by (rewrite Z.div_div by lia; f_equal; lia).
  assert (w / 4096 / 1024 = w / 4194304) as R3 by (rewrite Z.div_div by lia; f_equal; lia).
  assert ((w / 4194304) mod 1024 = w / 4194304) as R4.
  { apply Z.mod_small. split; [apply Z.div_pos | apply Z.div_lt_upper_bound]; lia. }
  rewrite !Z.mod_mod by lia. lia.
Qed.

Lemma packPBH_range p b h g : inU 32 (packPBH p b h g).
Proof.
  unfold packPBH, PBH_word, inU. cbn [unused onground hdg bank pitch].
  pose proof (wrapU_range 10 (f64_trunc (f64_mul h headingMultiplier)) ltac:(lia)).
  pose proof (wrapU_range 10 (f64_floor (f64_mul b (f64_opp bankMultiplier))) ltac:(lia)).
  pose proof (wrapU_range 10 (f64_floor (f64_mul p (f64_opp pitchMultiplier))) ltac:(lia)).
  unfold inU in *. change (2 ^ 10) with 1024 in *. change (2 ^ 12) with 4096.
  change (2 ^ 22) with 4194304. change (2 ^ 32) with 4294967296. change (wrapU 1 0) with 0.
  destruct g; [change (wrapU 1 1) with 1 | change (wrapU 1 0) with 0]; lia.
Qed.

(** ** Checks over the ten bits of a field, by computation *)

Definition heading_ok (h : Z) : bool :=
  f64_trunc (f64_mul (f64_div (f64_of_Z h) headingMultiplier) headingMultiplier) =? h.
Definition pitch_ok (d : Z) : bool :=
  f64_floor (f64_div
    (f64_of_Z (wrapS 10 (f64_floor (f64_mul (f64_of_Z d) (f64_opp pitchMultiplier)))))
    (f64_opp pitchMultiplier)) =? d.
Definition bank_ok (d : Z) : bool :=
  f64_floor (f64_div
    (f64_of_Z (wrapS 10 (f64_floor (f64_mul (f64_of_Z d) (f64_opp bankMultiplier)))))
    (f64_opp bankMultiplier)) =? d.

Definition degrees_in_range (x : double) (lo hi : Z) : bool :=
  SFleb (f64_of_Z lo) x && SFltb x (f64_of_Z hi).

Lemma heading_check : forall h, 0 <= h < 1024 -> heading_ok h = true.
Proof. apply (Zrange_forall_spec 0 1024). vm_compute. reflexivity. Qed.

Lemma whole_degrees_check :
  forall d, -179 <= d < 181 -> pitch_ok d && bank_ok d = true.
Proof. apply (Zrange_forall_spec (-179) 360). vm_compute. reflexivity. Qed.

Lemma heading_range_check :
  forall h, 0 <= h < 1024 ->
  degrees_in_range (f64_div (f64_of_Z h) headingMultiplier) 0 360 = true.
Proof. apply (Zrange_forall_spec 0 1024). vm_compute. reflexivity. Qed.

Lemma floor_range_check :
  forall v, -512 <= v < 512 ->
  (-180 <=? f64_floor (f64_div (f64_of_Z v) (f64_opp pitchMultiplier))) &&
  (f64_floor (f64_div (f64_of_Z v) (f64_opp pitchMultiplier)) <=? 180) &&
  (-180 <=? f64_floor (f64_div (f64_of_Z v) (f64_opp bankMultiplier))) &&
  (f64_floor (f64_div (f64_of_Z v) (f64_opp bankMultiplier)) <=? 180) = true.
Proof. apply (Zrange_forall_spec (-512) 1024). vm_compute. reflexivity. Qed.

(** ** Properties *)

(** The heading the receiver computes from a field of ten bits. *)
Definition heading_of (h : Z) : double := f64_div (f64_of_Z h) headingMultiplier.

(** Whole degrees of pitch and bank in (-180, 180], and any heading that is a
    field value, survive packing and unpacking, with the ground flag. *)
Theorem unpack_pack p b h g :
  -180 < p <= 180 -> -180 < b <= 180 -> 0 <= h < 1024 ->
  unpackPBH (packPBH (f64_of_Z p) (f64_of_Z b) (heading_of h) g) =
  mkAngles (f64_of_Z p) (f64_of_Z b) (heading_of h) g.
Proof.
  intros Hp Hb Hh. unfold unpackPBH, packPBH. rewrite PBH_fields_word.
  cbn [unused onground hdg bank pitch].
  pose proof (whole_degrees_check p ltac:(lia)) as Kp.
  pose proof (whole_degrees_check b ltac:(lia)) as Kb.
  pose proof (heading_check h Hh) as Kh.
  unfold pitch_ok, bank_ok, heading_ok in *. bool_hyps.
  unfold heading_of. rewrite Kh, (wrapU_id 10) by done.
  f_equal.
  - f_equal. assumption.
  - f_equal. assumption.
  - by destruct g.
Qed.

Lemma unpack_pack_witness :
  unpackPBH (packPBH (f64_of_Z (-12)) (f64_of_Z 30) (heading_of 700) true) =
  mkAngles (f64_of_Z (-12)) (f64_of_Z 30) (heading_of 700) true.
Proof. apply (unpack_pack (-12) 30 700 true); lia. Defined.

(** What the receiver computes from any word is in range: a heading in
    [0, 360) degrees and whole degrees of pitch and bank in [-180, 180]. *)
Theorem unpack_in_range w :
  degrees_in_range (a_heading (unpackPBH w)) 0 360 = true /\
  exists p b : Z, -180 <= p <= 180 /\ -180 <= b <= 180 /\
    a_pitch (unpackPBH w) = f64_of_Z p /\ a_bank (unpackPBH w) = f64_of_Z b.
Proof.
  unfold unpackPBH, PBH_fields. cbn [unused onground hdg bank pitch a_heading a_pitch a_bank].
  split.
  - apply heading_range_check. pose proof (wrapU_range 10 (Z.shiftr w 2)). unfold inU in *. lia.
  - pose proof (wrapS_range 10 (Z.shiftr w 22) ltac:(lia)) as Hp.
    pose proof (wrapS_range 10 (Z.shiftr w 12) ltac:(lia)) as Hb.
    apply floor_range_check in Hp, Hb. bool_hyps. eauto 10.
Qed.

Arguments packPBH : simpl never.
Arguments unpackPBH : simpl never.
(** The receivers of a word reason about it with the lemmas above. *)
#[global] Opaque packPBH unpackPBH.
