(* ===== verification/FsdBase.v ===== *)
(** * Messages: the base class and the wire form (core/fsd/messagebase.h)

    Every message class has a PDU identifier, [toTokens] and [fromTokens]; the
    interface [FsdMessage] states that, and [FsdWire] the promise its clients
    use: a well-formed message is read back from the fields the receiver
    splits. *)

From S2P Require Import QtCore.

Record MessageBase := mkBase { m_sender : QString; m_receiver : QString; m_isValid : bool }.

Definition MessageBase_default : MessageBase := mkBase [] [] true.
Definition MessageBase_make (sender receiver : QString) : MessageBase := mkBase sender receiver true.
Definition MessageBase_makeSender (sender : QString) : MessageBase := mkBase sender [] true.
Definition setCallsign (sender : QString) (m : MessageBase) : MessageBase :=
  mkBase sender (m_receiver m) (m_isValid m).
Definition setReceiver (receiver : QString) (m : MessageBase) : MessageBase :=
  mkBase (m_sender m) receiver (m_isValid m).
Definition setValid (v : bool) (m : MessageBase) : MessageBase :=
  mkBase (m_sender m) (m_receiver m) v.

(** [fromTokens] yields [None] where the code indexes its token list out of
    range, which is undefined behaviour. *)
Class FsdMessage (M : Type) := {
  msg_base : M -> MessageBase;
  pdu : QString;
  toTokens : M -> QStringList;
  fromTokens : QStringList -> option M
}.

Definition crlf : QString := [13%N; 10%N].

Definition messageToFSDString `{FsdMessage M} (message : M) : QString :=
  if m_isValid (msg_base message)
  then pdu ++ join [colon] (toTokens message) ++ crlf
  else [].

(** The fields the receiver of a joined token list works on. *)
Definition retokenize (tokens : QStringList) : QStringList := split colon (join [colon] tokens).

(** A field that may be put between separators. *)
Definition noColon (s : QString) : Prop := colon ∉ s.
#[global] Instance noColon_dec s : Decision (noColon s).
Proof. unfold noColon. apply _. Defined.

Lemma retokenize_id tokens :
  tokens <> [] -> Forall noColon tokens -> retokenize tokens = tokens.
Proof. apply split_join. Qed.

(** The promise of a message class to the code that sends and receives it. *)
Class FsdWire (M : Type) `{FsdMessage M} := {
  wf : M -> Prop;
  wire_roundtrip m : wf m -> fromTokens (retokenize (toTokens m)) = Some m
}.

Lemma noColon_nil : noColon [].
Proof. apply not_elem_of_nil. Qed.

Lemma noColon_numbers `{QtConvLaws} :
  (forall n, noColon (qt_number n)) /\ (forall n, noColon (qt_number16 n)) /\
  (forall x p, noColon (qt_numberF x p)).
Proof. split_and!; intros; apply numberChars_no_colon; auto with swift. Qed.

Lemma noColon_number `{QtConvLaws} n : noColon (qt_number n).
Proof. apply noColon_numbers. Qed.
Lemma noColon_number16 `{QtConvLaws} n : noColon (qt_number16 n).
Proof. apply noColon_numbers. Qed.
Lemma noColon_numberF `{QtConvLaws} x p : noColon (qt_numberF x p).
Proof. apply noColon_numbers. Qed.

#[export] Hint Resolve noColon_nil noColon_number noColon_number16 noColon_numberF : swift.
(** Literals: decided by evaluation. *)
#[export] Hint Extern 1 (noColon (lit _)) => (apply (bool_decide_unpack _); vm_compute; exact I) : swift.

(** ** Proof patterns shared by the message classes *)

(** A list of fields without separators. *)
Ltac fields := repeat apply Forall_cons_2; try apply Forall_nil_2; eauto with swift.

(** [fromTokens (retokenize (toTokens m)) = Some m] for a class whose tokens
    are fields without separators. *)
Ltac roundtrip :=
  rewrite retokenize_id; [| discriminate | fields];
  cbn; autorewrite with qt; try reflexivity.

(** Totality of [fromTokens]: a list long enough has the indexed fields. *)
Ltac tokens_defined :=
  match goal with
  | |- context [ (length ?l <? _)%nat ] =>
      repeat (destruct l as [|? l]; [ cbn; eauto |]); cbn; eauto
  end.

(** [lhs == rhs] on values with decidable equality. *)
Notation "a ==? b" := (bool_decide (a = b)) (at level 70, no associativity).

(** The comparison of sender and receiver most [operator==] start with. *)
Definition sameRoute (l r : MessageBase) : bool :=
  (m_sender l ==? m_sender r) && (m_receiver l ==? m_receiver r).

Lemma sameRoute_refl b : sameRoute b b = true.
Proof. unfold sameRoute. by rewrite !bool_decide_eq_true_2. Qed.
#[export] Hint Rewrite sameRoute_refl : swift_refl.

(** Reflexivity of the comparison operators. *)
Ltac eqb_refl := intros; cbn; autorewrite with swift_refl;
  rewrite ?bool_decide_eq_true_2 by reflexivity; try reflexivity.

(** Split the hypotheses that bound every element of an explicit list. *)
Ltac forall_hyps :=
  repeat match goal with
  | H : Forall _ (_ :: _) |- _ => apply Forall_cons in H as [? H]
  | H : Forall _ [] |- _ => clear H
  end.
