(* ===== verification/MsgSession.v ===== *)
(** * Session messages

    Login, identification, authentication, deletion, errors, ping and the
    other messages about the connection itself: one Module per class of
    core/fsd/.  [make] is the constructor, [null] the default-constructed
    object that [fromTokens] returns for a list that is too short. *)

From S2P Require Import QtCore Serializer FsdBase.

Definition SERVER : QString := lit "SERVER".
Lemma noColon_SERVER : noColon SERVER.
Proof. apply (bool_decide_unpack _). vm_compute. exact I. Qed.
#[export] Hint Resolve noColon_SERVER : swift.

Lemma noColon_atcRating r : noColon (AtcRating.toQString r).
Proof. apply enum_no_colon. Qed.
Lemma noColon_pilotRating r : noColon (PilotRating.toQString r).
Proof. apply enum_no_colon. Qed.
Lemma noColon_simType s : noColon (SimType.toQString s).
Proof. apply enum_no_colon. Qed.
#[export] Hint Resolve noColon_atcRating noColon_pilotRating noColon_simType : swift.

Lemma atcRating_back r : AtcRating.fromQString (AtcRating.toQString r) = r.
Proof. by destruct r. Qed.
Lemma pilotRating_back r : PilotRating.fromQString (PilotRating.toQString r) = r.
Proof. by destruct r. Qed.
#[export] Hint Rewrite atcRating_back pilotRating_back : qt.

(** A flag printed as a number and compared with "1". *)
Lemma flag_back `{QtConvLaws} (b : bool) : eqs (qt_number (if b then 1 else 0)) "1" = b.
Proof.
  unfold eqs. destruct b.
  - apply bool_decide_eq_true. apply qt_number_small. lia.
  - apply bool_decide_eq_false. rewrite qt_number_small by lia. by vm_compute.
Qed.

(** The version compiled into the program (a generated header). *)
Class BuildConfig := { versionMajor : Z; versionMinor : Z; localDeveloperDebugBuild : bool }.

(** ** AddAtc *)
Module AddAtc.
Record t := mk {
  base : MessageBase; m_cid : QString; m_password : QString; m_rating : AtcRating.t;
  m_protocolRevision : Z; m_realName : QString }.
Definition null : t := mk MessageBase_default [] [] AtcRating.Unknown 0 [].
Definition make (callsign realName cid password : QString) (rating : AtcRating.t)
    (protocolRevision : Z) : t :=
  mk (MessageBase_make callsign SERVER) cid password rating protocolRevision realName.
Definition toTokens `{QtConv} (m : t) : QStringList :=
  [m_sender (base m); m_receiver (base m); m_realName m; m_cid m; m_password m;
   AtcRating.toQString (m_rating m); qt_number (m_protocolRevision m)].
Definition fromTokens `{QtConv} (tokens : QStringList) : option t :=
  if (length tokens <? 7)%nat then Some null
  else t5 ← tokens !! 5%nat; t6 ← tokens !! 6%nat; t0 ← tokens !! 0%nat;
       t2 ← tokens !! 2%nat; t3 ← tokens !! 3%nat; t4 ← tokens !! 4%nat;
       Some (make t0 t2 t3 t4 (AtcRating.fromQString t5) (toInt t6)).
Definition eqb (l r : t) : bool :=
  sameRoute (base l) (base r) && (m_cid l ==? m_cid r) && (m_password l ==? m_password r) &&
  (m_rating l ==? m_rating r) && (m_protocolRevision l ==? m_protocolRevision r) &&
  (m_realName l ==? m_realName r).
Definition wf (m : t) : Prop :=
  base m = MessageBase_make (m_sender (base m)) SERVER /\
  noColon (m_sender (base m)) /\ noColon (m_realName m) /\ noColon (m_cid m) /\
  noColon (m_password m) /\ inS 32 (m_protocolRevision m).
#[global] Instance message `{QtConv} : FsdMessage t :=
  {| msg_base := base; FsdBase.pdu := lit "#AA";
     FsdBase.toTokens := toTokens; FsdBase.fromTokens := fromTokens |}.
#[global] Instance wire `{QtConvLaws} : FsdWire t.
Proof.
  exists wf. intros [b c p r v n] (Hb & H1 & H2 & H3 & H4 & Hv); simpl in *. subst.
  rewrite Hb. roundtrip.
Defined.
End AddAtc.

(** ** AddPilot *)
Module AddPilot.
Record t := mk {
  base : MessageBase; m_cid : QString; m_password : QString; m_rating : PilotRating.t;
  m_protocolRevision : Z; m_simType : SimType.t; m_realName : QString }.
Definition null : t := mk MessageBase_default [] [] PilotRating.Unknown 0 SimType.Unknown [].
Definition make (callsign cid password : QString) (rating : PilotRating.t)
    (protocolRevision : Z) (simType : SimType.t) (realName : QString) : t :=
  mk (MessageBase_make callsign SERVER) cid password rating protocolRevision simType realName.
Definition toTokens `{QtConv} (m : t) : QStringList :=
  [m_sender (base m); m_receiver (base m); m_cid m; m_password m;
   PilotRating.toQString (m_rating m); qt_number (m_protocolRevision m);
   SimType.toQString (m_simType m); m_realName m].
Definition fromTokens `{QtConv} (tokens : QStringList) : option t :=
  if (length tokens <? 6)%nat then Some null
  else t4 ← tokens !! 4%nat; t5 ← tokens !! 5%nat; t6 ← tokens !! 6%nat;
       t0 ← tokens !! 0%nat; t2 ← tokens !! 2%nat; t3 ← tokens !! 3%nat;
       t7 ← tokens !! 7%nat;
       Some (make t0 t2 t3 (PilotRating.fromQString t4) (toInt t5) (SimType.fromQString t6) t7).
Definition eqb (l r : t) : bool :=
  sameRoute (base l) (base r) && (m_cid l ==? m_cid r) && (m_password l ==? m_password r) &&
  (m_rating l ==? m_rating r) && (m_protocolRevision l ==? m_protocolRevision r) &&
  (m_simType l ==? m_simType r) && (m_realName l ==? m_realName r).
(** The simulator must be one the wire format distinguishes. *)
Definition wf (m : t) : Prop :=
  base m = MessageBase_make (m_sender (base m)) SERVER /\
  noColon (m_sender (base m)) /\ noColon (m_cid m) /\ noColon (m_password m) /\
  noColon (m_realName m) /\ inS 32 (m_protocolRevision m) /\
  SimType.fromQString (SimType.toQString (m_simType m)) = m_simType m.
#[global] Instance message `{QtConv} : FsdMessage t :=
  {| msg_base := base; FsdBase.pdu := lit "#AP";
     FsdBase.toTokens := toTokens; FsdBase.fromTokens := fromTokens |}.
#[global] Instance wire `{QtConvLaws} : FsdWire t.
Proof.
  exists wf. intros [b c p r v s n] (Hb & H1 & H2 & H3 & H4 & Hv & Hs); simpl in *.
  rewrite Hb. roundtrip. by rewrite Hs.
Defined.
End AddPilot.

(** ** ClientIdentification *)
Module ClientIdentification.
Record t := mk {
  base : MessageBase; m_clientId : Z; m_clientName : QString; m_clientVersionMajor : Z;
  m_clientVersionMinor : Z; m_userCid : QString; m_sysUid : QString;
  m_initialChallenge : QString }.
Definition null `{BC : BuildConfig} : t :=
  mk MessageBase_default 0 [] versionMajor versionMinor [] [] [].
Definition make (sender : QString) (clientId : Z) (clientName : QString) (major minor : Z)
    (userCid sysUid initialChallenge : QString) : t :=
  mk (MessageBase_make sender SERVER) clientId clientName major minor userCid sysUid
     initialChallenge.
Definition toTokens `{QtConv} (m : t) : QStringList :=
  [m_sender (base m); m_receiver (base m); qt_number16 (m_clientId m); m_clientName m;
   qt_number (m_clientVersionMajor m); qt_number (m_clientVersionMinor m); m_userCid m;
   m_sysUid m; m_initialChallenge m].
Definition fromTokens `{QtConv, BC : BuildConfig} (tokens : QStringList) : option t :=
  if (length tokens <? 8)%nat then Some null
  else t0 ← tokens !! 0%nat; t2 ← tokens !! 2%nat; t3 ← tokens !! 3%nat;
       t4 ← tokens !! 4%nat; t5 ← tokens !! 5%nat; t6 ← tokens !! 6%nat;
       t7 ← tokens !! 7%nat;
       t8 ← (if (8 <? length tokens)%nat then tokens !! 8%nat else Some []);
       Some (make t0 (toUShort16 t2) t3 (toInt t4) (toInt t5) t6 t7 t8).
Definition eqb (l r : t) : bool :=
  sameRoute (base l) (base r) && (m_clientId l ==? m_clientId r) &&
  (m_clientName l ==? m_clientName r) && (m_clientVersionMajor l ==? m_clientVersionMajor r) &&
  (m_clientVersionMinor l ==? m_clientVersionMinor r) && (m_userCid l ==? m_userCid r) &&
  (m_sysUid l ==? m_sysUid r) && (m_initialChallenge l ==? m_initialChallenge r).
Definition wf (m : t) : Prop :=
  base m = MessageBase_make (m_sender (base m)) SERVER /\
  noColon (m_sender (base m)) /\ inU 16 (m_clientId m) /\ noColon (m_clientName m) /\
  inS 32 (m_clientVersionMajor m) /\ inS 32 (m_clientVersionMinor m) /\
  noColon (m_userCid m) /\ noColon (m_sysUid m) /\ noColon (m_initialChallenge m).
#[global] Instance message `{QtConv, BC : BuildConfig} : FsdMessage t :=
  {| msg_base := base; FsdBase.pdu := lit "$ID";
     FsdBase.toTokens := toTokens; FsdBase.fromTokens := fromTokens |}.
#[global] Instance wire `{QtConvLaws, BC : BuildConfig} : FsdWire t.
Proof.
  exists wf. intros [b i n x y u s c] (Hb & H1 & Hi & H2 & Hx & Hy & H3 & H4 & H5); simpl in *.
  rewrite Hb. roundtrip.
Defined.
End ClientIdentification.

(** ** FSDIdentification *)
Module FSDIdentification.
Record t := mk { base : MessageBase; m_serverVersion : QString; m_initialChallenge : QString }.
Definition null : t := mk MessageBase_default [] [].
Definition make (callsign receiver serverVersion initialChallenge : QString) : t :=
  mk (MessageBase_make callsign receiver) serverVersion initialChallenge.
Definition toTokens (m : t) : QStringList :=
  [m_sender (base m); m_receiver (base m); m_serverVersion m; m_initialChallenge m].
Definition fromTokens (tokens : QStringList) : option t :=
  if (length tokens <? 4)%nat then Some null
  else t0 ← tokens !! 0%nat; t1 ← tokens !! 1%nat; t2 ← tokens !! 2%nat;
       t3 ← tokens !! 3%nat; Some (make t0 t1 t2 t3).
Definition wf (m : t) : Prop :=
  m_isValid (base m) = true /\ noColon (m_sender (base m)) /\ noColon (m_receiver (base m)) /\
  noColon (m_serverVersion m) /\ noColon (m_initialChallenge m).
#[global] Instance message : FsdMessage t :=
  {| msg_base := base; FsdBase.pdu := lit "$DI";
     FsdBase.toTokens := toTokens; FsdBase.fromTokens := fromTokens |}.
#[global] Instance wire : FsdWire t.
Proof.
  exists wf. intros [[s r v] a b] (Hv & H1 & H2 & H3 & H4); simpl in *. subst. roundtrip.
Defined.
End FSDIdentification.

(** ** AuthChallenge *)
Module AuthChallenge.
Record t := mk { base : MessageBase; m_challengeKey : QString }.
Definition null : t := mk MessageBase_default [].
Definition make (sender receiver x : QString) : t := mk (MessageBase_make sender receiver) x.
Definition toTokens (m : t) : QStringList := [m_sender (base m); m_receiver (base m); m_challengeKey m].
Definition fromTokens (tokens : QStringList) : option t :=
  if (length tokens <? 3)%nat then Some null
  else t0 ← tokens !! 0%nat; t1 ← tokens !! 1%nat; t2 ← tokens !! 2%nat; Some (make t0 t1 t2).
Definition eqb (l r : t) : bool := sameRoute (base l) (base r) && (m_challengeKey l ==? m_challengeKey r).
Definition wf (m : t) : Prop :=
  m_isValid (base m) = true /\ noColon (m_sender (base m)) /\ noColon (m_receiver (base m)) /\
  noColon (m_challengeKey m).
#[global] Instance message : FsdMessage t :=
  {| msg_base := base; FsdBase.pdu := lit "$ZC";
     FsdBase.toTokens := toTokens; FsdBase.fromTokens := fromTokens |}.
#[global] Instance wire : FsdWire t.
Proof.
  exists wf. intros [[s r v] x] (Hv & H1 & H2 & H3); simpl in *. subst. roundtrip.
Defined.
End AuthChallenge.

(** ** AuthResponse *)
Module AuthResponse.
Record t := mk { base : MessageBase; m_response : QString }.
Definition null : t := mk MessageBase_default [].
Definition make (sender receiver x : QString) : t := mk (MessageBase_make sender receiver) x.
Definition toTokens (m : t) : QStringList := [m_sender (base m); m_receiver (base m); m_response m].
Definition fromTokens (tokens : QStringList) : option t :=
  if (length tokens <? 3)%nat then Some null
  else t0 ← tokens !! 0%nat; t1 ← tokens !! 1%nat; t2 ← tokens !! 2%nat; Some (make t0 t1 t2).
Definition eqb (l r : t) : bool := sameRoute (base l) (base r) && (m_response l ==? m_response r).
Definition wf (m : t) : Prop :=
  m_isValid (base m) = true /\ noColon (m_sender (base m)) /\ noColon (m_receiver (base m)) /\
  noColon (m_response m).
#[global] Instance message : FsdMessage t :=
  {| msg_base := base; FsdBase.pdu := lit "$ZR";
     FsdBase.toTokens := toTokens; FsdBase.fromTokens := fromTokens |}.
#[global] Instance wire : FsdWire t.
Proof.
  exists wf. intros [[s r v] x] (Hv & H1 & H2 & H3); simpl in *. subst. roundtrip.
Defined.
End AuthResponse.

(** ** Ping *)
Module Ping.
Record t := mk { base : MessageBase; m_timestamp : QString }.
Definition null : t := mk MessageBase_default [].
Definition make (sender receiver x : QString) : t := mk (MessageBase_make sender receiver) x.
Definition toTokens (m : t) : QStringList := [m_sender (base m); m_receiver (base m); m_timestamp m].
Definition fromTokens (tokens : QStringList) : option t :=
  if (length tokens <? 3)%nat then Some null
  else t0 ← tokens !! 0%nat; t1 ← tokens !! 1%nat; t2 ← tokens !! 2%nat; Some (make t0 t1 t2).
Definition eqb (l r : t) : bool := sameRoute (base l) (base r) && (m_timestamp l ==? m_timestamp r).
Definition wf (m : t) : Prop :=
  m_isValid (base m) = true /\ noColon (m_sender (base m)) /\ noColon (m_receiver (base m)) /\
  noColon (m_timestamp m).
#[global] Instance message : FsdMessage t :=
  {| msg_base := base; FsdBase.pdu := lit "$PI";
     FsdBase.toTokens := toTokens; FsdBase.fromTokens := fromTokens |}.
#[global] Instance wire : FsdWire t.
Proof.
  exists wf. intros [[s r v] x] (Hv & H1 & H2 & H3); simpl in *. subst. roundtrip.
Defined.
End Ping.

(** ** Pong *)
Module Pong.
Record t := mk { base : MessageBase; m_timestamp : QString }.
Definition null : t := mk MessageBase_default [].
Definition make (sender receiver x : QString) : t := mk (MessageBase_make sender receiver) x.
Definition toTokens (m : t) : QStringList := [m_sender (base m); m_receiver (base m); m_timestamp m].
Definition fromTokens (tokens : QStringList) : option t :=
  if (length tokens <? 3)%nat then Some null
  else t0 ← tokens !! 0%nat; t1 ← tokens !! 1%nat; t2 ← tokens !! 2%nat; Some (make t0 t1 t2).
Definition eqb (l r : t) : bool := sameRoute (base l) (base r) && (m_timestamp l ==? m_timestamp r).
Definition wf (m : t) : Prop :=
  m_isValid (base m) = true /\ noColon (m_sender (base m)) /\ noColon (m_receiver (base m)) /\
  noColon (m_timestamp m).
#[global] Instance message : FsdMessage t :=
  {| msg_base := base; FsdBase.pdu := lit "$PO";
     FsdBase.toTokens := toTokens; FsdBase.fromTokens := fromTokens |}.
#[global] Instance wire : FsdWire t.
Proof.
  exists wf. intros [[s r v] x] (Hv & H1 & H2 & H3); simpl in *. subst. roundtrip.
Defined.
End Pong.

(** ** DeleteAtc *)
Module DeleteAtc.
Record t := mk { base : MessageBase; m_cid : QString }.
Definition null : t := mk MessageBase_default [].
Definition make (sender x : QString) : t := mk (MessageBase_makeSender sender) x.
Definition toTokens (m : t) : QStringList := [m_sender (base m); m_cid m].
Definition fromTokens (tokens : QStringList) : option t :=
  match tokens with
  | [] => Some null
  | t0 :: _ =>
      t1 ← (if (2 <=? length tokens)%nat then tokens !! 1%nat else Some []);
      Some (make t0 t1)
  end.
Definition eqb (l r : t) : bool := sameRoute (base l) (base r) && (m_cid l ==? m_cid r).
Definition wf (m : t) : Prop :=
  base m = MessageBase_makeSender (m_sender (base m)) /\
  noColon (m_sender (base m)) /\ noColon (m_cid m).
#[global] Instance message : FsdMessage t :=
  {| msg_base := base; FsdBase.pdu := lit "#DA";
     FsdBase.toTokens := toTokens; FsdBase.fromTokens := fromTokens |}.
#[global] Instance wire : FsdWire t.
Proof. exists wf. intros [b x] (Hb & H1 & H2); simpl in *. rewrite Hb. roundtrip. Defined.
End DeleteAtc.

(** ** DeletePilot *)
Module DeletePilot.
Record t := mk { base : MessageBase; m_cid : QString }.
Definition null : t := mk MessageBase_default [].
Definition make (sender x : QString) : t := mk (MessageBase_makeSender sender) x.
Definition toTokens (m : t) : QStringList := [m_sender (base m); m_cid m].
Definition fromTokens (tokens : QStringList) : option t :=
  match tokens with
  | [] => Some null
  | t0 :: _ =>
      t1 ← (if (2 <=? length tokens)%nat then tokens !! 1%nat else Some []);
      Some (make t0 t1)
  end.
Definition eqb (l r : t) : bool := sameRoute (base l) (base r) && (m_cid l ==? m_cid r).
Definition wf (m : t) : Prop :=
  base m = MessageBase_makeSender (m_sender (base m)) /\
  noColon (m_sender (base m)) /\ noColon (m_cid m).
#[global] Instance message : FsdMessage t :=
  {| msg_base := base; FsdBase.pdu := lit "#DP";
     FsdBase.toTokens := toTokens; FsdBase.fromTokens := fromTokens |}.
#[global] Instance wire : FsdWire t.
Proof. exists wf. intros [b x] (Hb & H1 & H2); simpl in *. rewrite Hb. roundtrip. Defined.
End DeletePilot.

(** ** KillRequest *)
Module KillRequest.
Record t := mk { base : MessageBase; m_reason : QString }.
Definition null : t := mk MessageBase_default [].
Definition make (callsign receiver reason : QString) : t :=
  mk (MessageBase_make callsign receiver) reason.
Definition toTokens (m : t) : QStringList := [m_sender (base m); m_receiver (base m); m_reason m].
Definition fromTokens (tokens : QStringList) : option t :=
  if (length tokens <? 2)%nat then Some null
  else t0 ← tokens !! 0%nat; t1 ← tokens !! 1%nat;
       t2 ← (if (2 <? length tokens)%nat then tokens !! 2%nat else Some []);
       Some (make t0 t1 t2).
Definition eqb (l r : t) : bool := sameRoute (base l) (base r) && (m_reason l ==? m_reason r).
Definition wf (m : t) : Prop :=
  m_isValid (base m) = true /\ noColon (m_sender (base m)) /\ noColon (m_receiver (base m)) /\
  noColon (m_reason m).
#[global] Instance message : FsdMessage t :=
  {| msg_base := base; FsdBase.pdu := lit "$!!";
     FsdBase.toTokens := toTokens; FsdBase.fromTokens := fromTokens |}.
#[global] Instance wire : FsdWire t.
Proof.
  exists wf. intros [[s r v] x] (Hv & H1 & H2 & H3); simpl in *. subst. roundtrip.
Defined.
End KillRequest.

(** ** Rehost *)
Module Rehost.
Record t := mk { base : MessageBase; m_hostname : QString }.
Definition null : t := mk MessageBase_default [].
Definition make (sender hostname : QString) : t := mk (MessageBase_make sender []) hostname.
Definition toTokens (m : t) : QStringList := [m_sender (base m); m_hostname m].
Definition fromTokens (tokens : QStringList) : option t :=
  if (length tokens <? 2)%nat then Some null
  else t0 ← tokens !! 0%nat; t1 ← tokens !! 1%nat; Some (make t0 t1).
(** Compares the host only. *)
Definition eqb (l r : t) : bool := m_hostname l ==? m_hostname r.
Definition wf (m : t) : Prop :=
  base m = MessageBase_make (m_sender (base m)) [] /\
  noColon (m_sender (base m)) /\ noColon (m_hostname m).
#[global] Instance message : FsdMessage t :=
  {| msg_base := base; FsdBase.pdu := lit "$XX";
     FsdBase.toTokens := toTokens; FsdBase.fromTokens := fromTokens |}.
#[global] Instance wire : FsdWire t.
Proof. exists wf. intros [b x] (Hb & H1 & H2); simpl in *. rewrite Hb. roundtrip. Defined.
End Rehost.

(** ** Mute *)
Module Mute.
Record t := mk { base : MessageBase; m_mute : bool }.
Definition null : t := mk MessageBase_default false.
Definition make (sender receiver : QString) (mute : bool) : t :=
  mk (MessageBase_make sender receiver) mute.
Definition toTokens `{QtConv} (m : t) : QStringList :=
  [m_sender (base m); m_receiver (base m); qt_number (if m_mute m then 1 else 0)].
Definition fromTokens (tokens : QStringList) : option t :=
  if (length tokens <? 3)%nat then Some null
  else t0 ← tokens !! 0%nat; t1 ← tokens !! 1%nat; t2 ← tokens !! 2%nat;
       Some (make t0 t1 (eqs t2 "1")).
Definition eqb (l r : t) : bool := sameRoute (base l) (base r) && (m_mute l ==? m_mute r).
Definition wf (m : t) : Prop :=
  m_isValid (base m) = true /\ noColon (m_sender (base m)) /\ noColon (m_receiver (base m)).
#[global] Instance message `{QtConv} : FsdMessage t :=
  {| msg_base := base; FsdBase.pdu := lit "#MU";
     FsdBase.toTokens := toTokens; FsdBase.fromTokens := fromTokens |}.
#[global] Instance wire `{QtConvLaws} : FsdWire t.
Proof.
  exists wf. intros [[s r v] b] (Hv & H1 & H2); simpl in *. subst. roundtrip.
  by rewrite flag_back.
Defined.
End Mute.

(** ** VisualPilotDataToggle *)
Module VisualPilotDataToggle.
Record t := mk { base : MessageBase; m_client : QString; m_active : bool }.
Definition null : t := mk MessageBase_default [] false.
Definition make (sender client : QString) (active : bool) : t :=
  mk (MessageBase_make sender []) client active.
Definition toTokens `{QtConv} (m : t) : QStringList :=
  [m_sender (base m); m_client m; qt_number (if m_active m then 1 else 0)].
Definition fromTokens (tokens : QStringList) : option t :=
  if (length tokens <? 3)%nat then Some null
  else t0 ← tokens !! 0%nat; t1 ← tokens !! 1%nat; t2 ← tokens !! 2%nat;
       Some (make t0 t1 (eqs t2 "1")).
(** Compares the client and the flag only. *)
Definition eqb (l r : t) : bool := (m_client l ==? m_client r) && (m_active l ==? m_active r).
Definition wf (m : t) : Prop :=
  base m = MessageBase_make (m_sender (base m)) [] /\
  noColon (m_sender (base m)) /\ noColon (m_client m).
#[global] Instance message `{QtConv} : FsdMessage t :=
  {| msg_base := base; FsdBase.pdu := lit "$SF";
     FsdBase.toTokens := toTokens; FsdBase.fromTokens := fromTokens |}.
#[global] Instance wire `{QtConvLaws} : FsdWire t.
Proof.
  exists wf. intros [b c a] (Hb & H1 & H2); simpl in *. rewrite Hb. roundtrip.
  by rewrite flag_back.
Defined.
End VisualPilotDataToggle.

(** ** ServerError *)
Module ServerError.
(** The error number is any [int] the server sends. *)
Record t := mk {
  base : MessageBase; m_errorNumber : Z; m_causingParameter : QString; m_description : QString }.
Definition null : t := mk MessageBase_default 0 [] [].
Definition make (sender receiver : QString) (errorCode : Z)
    (causingParameter description : QString) : t :=
  mk (MessageBase_make sender receiver) errorCode causingParameter description.

Definition fatalErrors : list ServerErrorCode.t :=
  [ServerErrorCode.CallsignInUse; ServerErrorCode.InvalidCallsign;
   ServerErrorCode.AlreadyRegistered; ServerErrorCode.InvalidCidPassword;
   ServerErrorCode.InvalidRevision; ServerErrorCode.RequestedLevelTooHigh;
   ServerErrorCode.ServerFull; ServerErrorCode.CidSuspended;
   ServerErrorCode.RatingTooLow; ServerErrorCode.InvalidClient;
   ServerErrorCode.AuthTimeout].
Definition isFatalError (m : t) : bool :=
  existsb (fun c => ServerErrorCode.toInt c =? m_errorNumber m) fatalErrors.

Definition getCausingParameter (m : t) : QString :=
  if isEmpty (m_causingParameter m) then lit "no details" else m_causingParameter m.
Definition getDescription (m : t) : QString :=
  if isEmpty (m_description m) then lit "no description" else m_description m.

Definition toTokens `{QtConv} (m : t) : QStringList :=
  [m_sender (base m); m_receiver (base m); qt_number (m_errorNumber m);
   m_causingParameter m; m_description m].
Definition fromTokens `{QtConv} (tokens : QStringList) : option t :=
  if (length tokens <? 5)%nat then Some null
  else t0 ← tokens !! 0%nat; t1 ← tokens !! 1%nat; t2 ← tokens !! 2%nat;
       t3 ← tokens !! 3%nat; t4 ← tokens !! 4%nat; Some (make t0 t1 (toInt t2) t3 t4).
Definition eqb (l r : t) : bool :=
  sameRoute (base l) (base r) && (m_errorNumber l ==? m_errorNumber r) &&
  (m_causingParameter l ==? m_causingParameter r) && (m_description l ==? m_description r).
Definition wf (m : t) : Prop :=
  m_isValid (base m) = true /\ noColon (m_sender (base m)) /\ noColon (m_receiver (base m)) /\
  inS 32 (m_errorNumber m) /\ noColon (m_causingParameter m) /\ noColon (m_description m).
#[global] Instance message `{QtConv} : FsdMessage t :=
  {| msg_base := base; FsdBase.pdu := lit "$ER";
     FsdBase.toTokens := toTokens; FsdBase.fromTokens := fromTokens |}.
#[global] Instance wire `{QtConvLaws} : FsdWire t.
Proof.
  exists wf. intros [[s r v] n c d] (Hv & H1 & H2 & Hn & H3 & H4); simpl in *. subst. roundtrip.
Defined.
End ServerError.
