(* ===== verification/MsgQuery.v ===== *)
(** * Queries, flight plans, text messages and plane information

    One Module per class of core/fsd/, as in [MsgSession]. *)

From S2P Require Import QtCore Serializer FsdBase MsgSession.

Lemma noColon_queryType q : noColon (ClientQueryType.toQString q).
Proof. apply enum_no_colon. Qed.
Lemma noColon_flightType f : noColon (FlightType.toQString f).
Proof. apply enum_no_colon. Qed.
#[export] Hint Resolve noColon_queryType noColon_flightType : swift.

Lemma flightType_back f : FlightType.fromQString (FlightType.toQString f) = f.
Proof. by destruct f. Qed.
#[export] Hint Rewrite flightType_back : qt.

(** Appending further fields to a list of fields. *)
Lemma retokenize_app l s :
  Forall noColon l -> l <> [] -> retokenize (l ++ [s]) = l ++ split colon s.
Proof.
  intros Hl _. unfold retokenize. induction Hl as [|x l Hx Hl IH]; [done|].
  destruct l as [|y l]; simpl.
  - by rewrite split_app.
  - simpl in IH. rewrite split_app by done. f_equal. exact IH.
Qed.

(** ** ClientQuery *)
Module ClientQuery.
Record t := mk { base : MessageBase; m_queryType : ClientQueryType.t; m_queryData : QStringList }.
Definition null : t := mk MessageBase_default ClientQueryType.Unknown [].
Definition make (sender clientToBeQueried : QString) (queryType : ClientQueryType.t)
    (queryData : QStringList) : t :=
  mk (MessageBase_make sender clientToBeQueried) queryType queryData.
Definition toTokens (m : t) : QStringList :=
  [m_sender (base m); m_receiver (base m); ClientQueryType.toQString (m_queryType m)]
  ++ m_queryData m.
Definition fromTokens (tokens : QStringList) : option t :=
  if (length tokens <? 3)%nat then Some null
  else let payload := if (3 <? length tokens)%nat then mid tokens 3 else [] in
       t0 ← tokens !! 0%nat; t1 ← tokens !! 1%nat; t2 ← tokens !! 2%nat;
       Some (make t0 t1 (ClientQueryType.fromQString t2) payload).
Definition eqb (l r : t) : bool :=
  sameRoute (base l) (base r) && (m_queryType l ==? m_queryType r) &&
  (m_queryData l ==? m_queryData r).
(** The query must be one that the receiver's parser knows. *)
Definition wf (m : t) : Prop :=
  m_isValid (base m) = true /\ noColon (m_sender (base m)) /\ noColon (m_receiver (base m)) /\
  Forall noColon (m_queryData m) /\
  ClientQueryType.fromQString (ClientQueryType.toQString (m_queryType m)) = m_queryType m.
#[global] Instance message : FsdMessage t :=
  {| msg_base := base; FsdBase.pdu := lit "$CQ";
     FsdBase.toTokens := toTokens; FsdBase.fromTokens := fromTokens |}.
#[global] Instance wire : FsdWire t.
Proof.
  exists wf. intros [[s r v] ty d] (Hv & H1 & H2 & Hd & Ht); simpl in *. subst.
  rewrite retokenize_id; [| discriminate | fields].
  unfold fromTokens. cbn. rewrite Ht. by destruct d.
Defined.
End ClientQuery.

(** ** ClientResponse *)
Module ClientResponse.
Record t := mk {
  base : MessageBase; m_queryType : ClientQueryType.t; m_responseData : QStringList }.
Definition null : t := mk MessageBase_default ClientQueryType.Unknown [].
Definition make (sender receiver : QString) (queryType : ClientQueryType.t)
    (responseData : QStringList) : t :=
  mk (MessageBase_make sender receiver) queryType responseData.
Definition isUnknownQuery (m : t) : bool := m_queryType m ==? ClientQueryType.Unknown.
Definition toTokens (m : t) : QStringList :=
  [m_sender (base m); m_receiver (base m); ClientQueryType.toQString (m_queryType m)]
  ++ m_responseData m.
Definition fromTokens (tokens : QStringList) : option t :=
  if (length tokens <? 3)%nat then Some null
  else let responseData := if (3 <? length tokens)%nat then mid tokens 3 else [] in
       t0 ← tokens !! 0%nat; t1 ← tokens !! 1%nat; t2 ← tokens !! 2%nat;
       Some (make t0 t1 (ClientQueryType.fromQString t2) responseData).
Definition eqb (l r : t) : bool :=
  sameRoute (base l) (base r) && (m_queryType l ==? m_queryType r) &&
  (m_responseData l ==? m_responseData r).
Definition wf (m : t) : Prop :=
  m_isValid (base m) = true /\ noColon (m_sender (base m)) /\ noColon (m_receiver (base m)) /\
  Forall noColon (m_responseData m) /\
  ClientQueryType.fromQString (ClientQueryType.toQString (m_queryType m)) = m_queryType m.
#[global] Instance message : FsdMessage t :=
  {| msg_base := base; FsdBase.pdu := lit "$CR";
     FsdBase.toTokens := toTokens; FsdBase.fromTokens := fromTokens |}.
#[global] Instance wire : FsdWire t.
Proof.
  exists wf. intros [[s r v] ty d] (Hv & H1 & H2 & Hd & Ht); simpl in *. subst.
  rewrite retokenize_id; [| discriminate | fields].
  unfold fromTokens. cbn. rewrite Ht. by destruct d.
Defined.
End ClientResponse.

(** ** FlightPlan *)
Module FlightPlan.
Record t := mk {
  base : MessageBase; m_flightType : FlightType.t; m_aircraftIcaoType : QString;
  m_trueCruisingSpeed : Z; m_depAirport : QString; m_estimatedDepTime : Z;
  m_actualDepTime : Z; m_cruiseAlt : QString; m_destAirport : QString; m_hoursEnroute : Z;
  m_minutesEnroute : Z; m_fuelAvailHours : Z; m_fuelAvailMinutes : Z; m_altAirport : QString;
  m_remarks : QString; m_route : QString }.
(** The flight type of a default-constructed object is the first enumerator. *)
Definition null : t :=
  mk MessageBase_default FlightType.IFR [] 0 [] 0 0 [] [] 0 0 0 0 [] [] [].
Definition make (sender receiver : QString) (flightType : FlightType.t)
    (aircraftIcaoType : QString) (trueCruisingSpeed : Z) (depAirport : QString)
    (estimatedDepTime actualDepTime : Z) (cruiseAlt destAirport : QString)
    (hoursEnroute minutesEnroute fuelAvailHours fuelAvailMinutes : Z)
    (altAirport remarks route : QString) : t :=
  mk (MessageBase_make sender receiver) flightType aircraftIcaoType trueCruisingSpeed
     depAirport estimatedDepTime actualDepTime cruiseAlt destAirport hoursEnroute
     minutesEnroute fuelAvailHours fuelAvailMinutes altAirport remarks route.
Definition toTokens `{QtConv} (m : t) : QStringList :=
  [m_sender (base m); m_receiver (base m); FlightType.toQString (m_flightType m);
   m_aircraftIcaoType m; qt_number (m_trueCruisingSpeed m); m_depAirport m;
   qt_number (m_estimatedDepTime m); qt_number (m_actualDepTime m); m_cruiseAlt m;
   m_destAirport m; qt_number (m_hoursEnroute m); qt_number (m_minutesEnroute m);
   qt_number (m_fuelAvailHours m); qt_number (m_fuelAvailMinutes m); m_altAirport m;
   m_remarks m; m_route m].
Definition fromTokens `{QtConv} (tokens : QStringList) : option t :=
  if (length tokens <? 17)%nat then Some null
  else t0 ← tokens !! 0%nat; t1 ← tokens !! 1%nat; t2 ← tokens !! 2%nat;
       t3 ← tokens !! 3%nat; t4 ← tokens !! 4%nat; t5 ← tokens !! 5%nat;
       t6 ← tokens !! 6%nat; t7 ← tokens !! 7%nat; t8 ← tokens !! 8%nat;
       t9 ← tokens !! 9%nat; t10 ← tokens !! 10%nat; t11 ← tokens !! 11%nat;
       t12 ← tokens !! 12%nat; t13 ← tokens !! 13%nat; t14 ← tokens !! 14%nat;
       t15 ← tokens !! 15%nat; t16 ← tokens !! 16%nat;
       Some (make t0 t1 (FlightType.fromQString t2) t3 (toInt t4) t5 (toInt t6) (toInt t7) t8
                  t9 (toInt t10) (toInt t11) (toInt t12) (toInt t13) t14 t15 t16).
Definition eqb (l r : t) : bool :=
  sameRoute (base l) (base r) && (m_flightType l ==? m_flightType r) &&
  (m_aircraftIcaoType l ==? m_aircraftIcaoType r) &&
  (m_trueCruisingSpeed l ==? m_trueCruisingSpeed r) && (m_depAirport l ==? m_depAirport r) &&
  (m_estimatedDepTime l ==? m_estimatedDepTime r) && (m_actualDepTime l ==? m_actualDepTime r) &&
  (m_cruiseAlt l ==? m_cruiseAlt r) && (m_destAirport l ==? m_destAirport r) &&
  (m_hoursEnroute l ==? m_hoursEnroute r) && (m_minutesEnroute l ==? m_minutesEnroute r) &&
  (m_fuelAvailHours l ==? m_fuelAvailHours r) &&
  (m_fuelAvailMinutes l ==? m_fuelAvailMinutes r) &&
  (m_altAirport l ==? m_altAirport r) && (m_remarks l ==? m_remarks r) &&
  (m_route l ==? m_route r).
Definition wf (m : t) : Prop :=
  m_isValid (base m) = true /\
  Forall noColon [m_sender (base m); m_receiver (base m); m_aircraftIcaoType m;
                  m_depAirport m; m_cruiseAlt m; m_destAirport m; m_altAirport m;
                  m_remarks m; m_route m] /\
  Forall (inS 32) [m_trueCruisingSpeed m; m_estimatedDepTime m; m_actualDepTime m;
                   m_hoursEnroute m; m_minutesEnroute m; m_fuelAvailHours m;
                   m_fuelAvailMinutes m].
#[global] Instance message `{QtConv} : FsdMessage t :=
  {| msg_base := base; FsdBase.pdu := lit "$FP";
     FsdBase.toTokens := toTokens; FsdBase.fromTokens := fromTokens |}.
#[global] Instance wire `{QtConvLaws} : FsdWire t.
Proof.
  exists wf. intros [[s r v] ? ? ? ? ? ? ? ? ? ? ? ? ? ? ?] (Hv & Hs & Hn); simpl in *. subst.
  forall_hyps. roundtrip.
Defined.
End FlightPlan.

(** ** TextMessage *)
Module TextMessage.
Inductive Type_ := PrivateMessage | RadioMessage.
#[global] Instance Type_eq_dec : EqDecision Type_.
Proof. solve_decision. Defined.
Record t := mk {
  base : MessageBase; m_message : QString; m_type : Type_; m_frequencies : list Z }.
Definition null : t := mk MessageBase_default [] PrivateMessage [].

Definition atSign : QChar := 64%N.
Definition ampersand : QChar := 38%N.

(** Frequencies in kHz; the sum is that of two [int]. *)
Definition frequencies `{QtConv} (receiver : QString) : list Z :=
  map (fun frequencyString => wrapS 32 (toInt (drop 1 frequencyString) + 100000))
      (split ampersand receiver).
Definition make `{QtConv} (sender receiver message : QString) : t :=
  if startsWith receiver [atSign]
  then mk (MessageBase_make sender receiver) message RadioMessage (frequencies receiver)
  else mk (MessageBase_make sender receiver) message PrivateMessage [].
Definition toTokens (m : t) : QStringList :=
  [m_sender (base m); m_receiver (base m); m_message m].
Definition fromTokens `{QtConv} (tokens : QStringList) : option t :=
  if (length tokens <? 3)%nat then Some null
  else let messageTokens := mid tokens 2 in
       t0 ← tokens !! 0%nat; t1 ← tokens !! 1%nat;
       Some (make t0 t1 (join [colon] messageTokens)).
(** The text itself may contain the field separator. *)
Definition wf `{QtConv} (m : t) : Prop :=
  m = make (m_sender (base m)) (m_receiver (base m)) (m_message m) /\
  noColon (m_sender (base m)) /\ noColon (m_receiver (base m)).
#[global] Instance message `{QtConv} : FsdMessage t :=
  {| msg_base := base; FsdBase.pdu := lit "#TM";
     FsdBase.toTokens := toTokens; FsdBase.fromTokens := fromTokens |}.
#[global] Instance wire `{QtConvLaws} : FsdWire t.
Proof.
  exists wf. intros m (Hm & H1 & H2). cbn [FsdBase.fromTokens FsdBase.toTokens message].
  unfold toTokens.
  change [m_sender (base m); m_receiver (base m); m_message m]
    with ([m_sender (base m); m_receiver (base m)] ++ [m_message m]).
  rewrite retokenize_app; [| fields | done].
  unfold fromTokens. rewrite length_app.
  pose proof (split_nonempty colon (m_message m)) as Hne.
  replace (_ <? 3)%nat with false
    by (symmetry; apply Nat.ltb_ge; destruct (split colon (m_message m)); [done | simpl; lia]).
  unfold mid. cbn [drop app lookup list_lookup mbind option_bind].
  rewrite drop_0, join_split. by f_equal.
Defined.

(** [sendRadioMessage] writes the receiver as "@f1&@f2&...", each frequency
    less 100000 kHz. *)
Definition radioReceiver `{QtConv} (frequencieskHz : list Z) : QString :=
  join [ampersand] (map (fun f => atSign :: qt_number (f - 100000)) frequencieskHz).

Lemma number_no_ampersand `{QtConvLaws} n : ampersand ∉ qt_number n.
Proof.
  intros Hin. pose proof (qt_number_chars n) as Hc. rewrite Forall_forall in Hc.
  apply Hc in Hin. unfold numberChar, ampersand in Hin. lia.
Qed.

(** What a radio message is read as: the frequencies that were written. *)
Lemma frequencies_radioReceiver `{QtConvLaws} fs :
  fs <> [] -> Forall (fun f => inS 32 f /\ inS 32 (f - 100000)) fs ->
  frequencies (radioReceiver fs) = fs.
Proof.
  intros Hne Hf. unfold frequencies, radioReceiver.
  rewrite split_join.
  - rewrite map_map. simpl. induction Hf as [|f fs [Hf1 Hf2] _ IH]; [done|]. simpl.
    rewrite drop_0, toInt_number by done. f_equal.
    + rewrite Z.sub_add. apply wrapS_id; [lia|done].
    + destruct fs; [done|]. by apply IH.
  - by destruct fs.
  - apply Forall_map, Forall_forall. intros f _.
    apply not_elem_of_cons. split; [by vm_compute | apply number_no_ampersand].
Qed.
End TextMessage.

(** ** PlaneInfoRequest *)
Module PlaneInfoRequest.
Record t := mk { base : MessageBase }.
Definition null : t := mk MessageBase_default.
Definition make (sender receiver : QString) : t := mk (MessageBase_make sender receiver).
Definition toTokens (m : t) : QStringList := [m_sender (base m); m_receiver (base m); lit "PIR"].
Definition fromTokens (tokens : QStringList) : option t :=
  if (length tokens <? 3)%nat then Some null
  else t0 ← tokens !! 0%nat; t1 ← tokens !! 1%nat; Some (make t0 t1).
Definition eqb (l r : t) : bool := sameRoute (base l) (base r).
Definition wf (m : t) : Prop :=
  m_isValid (base m) = true /\ noColon (m_sender (base m)) /\ noColon (m_receiver (base m)).
#[global] Instance message : FsdMessage t :=
  {| msg_base := base; FsdBase.pdu := lit "#SB";
     FsdBase.toTokens := toTokens; FsdBase.fromTokens := fromTokens |}.
#[global] Instance wire : FsdWire t.
Proof. exists wf. intros [[s r v]] (Hv & H1 & H2); simpl in *. subst. roundtrip. Defined.
End PlaneInfoRequest.

(** ** PlaneInfoRequestFsinn *)
Module PlaneInfoRequestFsinn.
Record t := mk {
  base : MessageBase; m_airlineIcao : QString; m_aircraftIcao : QString;
  m_aircraftIcaoCombinedType : QString; m_sendMModelString : QString }.
Definition null : t := mk MessageBase_default [] [] [] [].
Definition make (sender receiver airlineIcao aircraftIcao combinedType sendMModelString : QString)
    : t :=
  mk (MessageBase_make sender receiver) airlineIcao aircraftIcao combinedType sendMModelString.
Definition toTokens (m : t) : QStringList :=
  [m_sender (base m); m_receiver (base m); lit "FSIPIR"; lit "0"; m_airlineIcao m;
   m_aircraftIcao m; []; []; []; []; m_aircraftIcaoCombinedType m; m_sendMModelString m].
Definition fromTokens (tokens : QStringList) : option t :=
  if negb (length tokens =? 12)%nat then Some null
  else t0 ← tokens !! 0%nat; t1 ← tokens !! 1%nat; t4 ← tokens !! 4%nat;
       t5 ← tokens !! 5%nat; t10 ← tokens !! 10%nat; t11 ← tokens !! 11%nat;
       Some (make t0 t1 t4 t5 t10 t11).
Definition eqb (l r : t) : bool :=
  sameRoute (base l) (base r) && (m_airlineIcao l ==? m_airlineIcao r) &&
  (m_aircraftIcao l ==? m_aircraftIcao r) &&
  (m_aircraftIcaoCombinedType l ==? m_aircraftIcaoCombinedType r) &&
  (m_sendMModelString l ==? m_sendMModelString r).
Definition wf (m : t) : Prop :=
  m_isValid (base m) = true /\
  Forall noColon [m_sender (base m); m_receiver (base m); m_airlineIcao m; m_aircraftIcao m;
                  m_aircraftIcaoCombinedType m; m_sendMModelString m].
#[global] Instance message : FsdMessage t :=
  {| msg_base := base; FsdBase.pdu := lit "#SB";
     FsdBase.toTokens := toTokens; FsdBase.fromTokens := fromTokens |}.
#[global] Instance wire : FsdWire t.
Proof.
  exists wf. intros [[s r v] ? ? ? ?] (Hv & Hs); simpl in *. subst.
  forall_hyps. roundtrip.
Defined.
End PlaneInfoRequestFsinn.

(** ** PlaneInformationFsinn *)
Module PlaneInformationFsinn.
Record t := mk {
  base : MessageBase; m_airlineIcao : QString; m_aircraftIcao : QString;
  m_aircraftIcaoCombinedType : QString; m_sendMModelString : QString }.
Definition null : t := mk MessageBase_default [] [] [] [].
Definition make (sender receiver airlineIcao aircraftIcao combinedType sendMModelString : QString)
    : t :=
  mk (MessageBase_make sender receiver) airlineIcao aircraftIcao combinedType sendMModelString.
Definition toTokens (m : t) : QStringList :=
  [m_sender (base m); m_receiver (base m); lit "FSIPI"; lit "0"; m_airlineIcao m;
   m_aircraftIcao m; []; []; []; []; m_aircraftIcaoCombinedType m; m_sendMModelString m].
Definition fromTokens (tokens : QStringList) : option t :=
  if (length tokens <? 12)%nat then Some null
  else t0 ← tokens !! 0%nat; t1 ← tokens !! 1%nat; t4 ← tokens !! 4%nat;
       t5 ← tokens !! 5%nat; t10 ← tokens !! 10%nat; t11 ← tokens !! 11%nat;
       Some (make t0 t1 t4 t5 t10 t11).
Definition eqb (l r : t) : bool :=
  sameRoute (base l) (base r) && (m_airlineIcao l ==? m_airlineIcao r) &&
  (m_aircraftIcao l ==? m_aircraftIcao r) &&
  (m_aircraftIcaoCombinedType l ==? m_aircraftIcaoCombinedType r) &&
  (m_sendMModelString l ==? m_sendMModelString r).
Definition wf (m : t) : Prop :=
  m_isValid (base m) = true /\
  Forall noColon [m_sender (base m); m_receiver (base m); m_airlineIcao m; m_aircraftIcao m;
                  m_aircraftIcaoCombinedType m; m_sendMModelString m].
#[global] Instance message : FsdMessage t :=
  {| msg_base := base; FsdBase.pdu := lit "#SB";
     FsdBase.toTokens := toTokens; FsdBase.fromTokens := fromTokens |}.
#[global] Instance wire : FsdWire t.
Proof.
  exists wf. intros [[s r v] ? ? ? ?] (Hv & Hs); simpl in *. subst.
  forall_hyps. roundtrip.
Defined.
End PlaneInformationFsinn.

(** ** PlaneInformation *)
Module PlaneInformation.
Record t := mk {
  base : MessageBase; m_aircraft : QString; m_airline : QString; m_livery : QString }.
Definition null : t := mk MessageBase_default [] [] [].
Definition make (sender receiver aircraft airline livery : QString) : t :=
  mk (MessageBase_make sender receiver) aircraft airline livery.

Definition equals : QChar := 61%N.
Definition pair (key : string) (v : QString) : QStringList :=
  if isEmpty v then [] else [lit key ++ v].
Definition pairs (m : t) : QStringList :=
  pair "EQUIPMENT=" (m_aircraft m) ++ pair "AIRLINE=" (m_airline m)
  ++ pair "LIVERY=" (m_livery m).
(** The pairs are joined to one token. *)
Definition toTokens (m : t) : QStringList :=
  [m_sender (base m); m_receiver (base m); lit "PI"; lit "GEN"; join [colon] (pairs m)].

(** One turn of the loop over the tokens from the fifth on. *)
Definition scan (acc : QString * QString * QString) (token : QString) :
    QString * QString * QString :=
  let '(aircraft, airline, livery) := acc in
  match split equals token with
  | [key; value] =>
      if eqs key "EQUIPMENT" then (value, airline, livery)
      else if eqs key "AIRLINE" then (aircraft, value, livery)
      else if eqs key "LIVERY" then (aircraft, airline, value)
      else acc
  | _ => acc
  end.
Definition fromTokens (tokens : QStringList) : option t :=
  if (length tokens <? 5)%nat then Some null
  else let '(aircraft, airline, livery) := fold_left scan (mid tokens 4) ([], [], []) in
       t0 ← tokens !! 0%nat; t1 ← tokens !! 1%nat;
       Some (make t0 t1 aircraft airline livery).
Definition eqb (l r : t) : bool :=
  sameRoute (base l) (base r) && (m_aircraft l ==? m_aircraft r) &&
  (m_airline l ==? m_airline r) && (m_livery l ==? m_livery r).

Definition plain (s : QString) : Prop := noColon s /\ equals ∉ s.
Definition wf (m : t) : Prop :=
  m_isValid (base m) = true /\ noColon (m_sender (base m)) /\ noColon (m_receiver (base m)) /\
  plain (m_aircraft m) /\ plain (m_airline m) /\ plain (m_livery m).
#[global] Instance message : FsdMessage t :=
  {| msg_base := base; FsdBase.pdu := lit "#SB";
     FsdBase.toTokens := toTokens; FsdBase.fromTokens := fromTokens |}.

(** Reading the pairs back, and leaving the other accumulators alone. *)
Lemma split_pair (key : string) v :
  bool_decide (equals ∈ lit key) = false -> equals ∉ v ->
  split equals (lit key ++ equals :: v) = [lit key; v].
Proof.
  intros Hk Hv. apply bool_decide_eq_false in Hk.
  rewrite split_app by done. by rewrite split_no_sep.
Qed.

Lemma scan_pairs a l v :
  equals ∉ a -> equals ∉ l -> equals ∉ v ->
  fold_left scan (pair "EQUIPMENT=" a ++ pair "AIRLINE=" l ++ pair "LIVERY=" v) ([], [], [])
  = (a, l, v).
Proof.
  intros Ha Hl Hv.
  assert (E1 : forall acc x, x <> [] -> equals ∉ x ->
    scan acc (lit "EQUIPMENT=" ++ x) = (x, acc.1.2, acc.2)).
  { intros [[? ?] ?] x _ Hx. unfold scan.
    change (lit "EQUIPMENT=" ++ x) with (lit "EQUIPMENT" ++ equals :: x).
    by rewrite split_pair. }
  assert (E2 : forall acc x, x <> [] -> equals ∉ x ->
    scan acc (lit "AIRLINE=" ++ x) = (acc.1.1, x, acc.2)).
  { intros [[? ?] ?] x _ Hx. unfold scan.
    change (lit "AIRLINE=" ++ x) with (lit "AIRLINE" ++ equals :: x).
    by rewrite split_pair. }
  assert (E3 : forall acc x, x <> [] -> equals ∉ x ->
    scan acc (lit "LIVERY=" ++ x) = (acc.1.1, acc.1.2, x)).
  { intros [[? ?] ?] x _ Hx. unfold scan.
    change (lit "LIVERY=" ++ x) with (lit "LIVERY" ++ equals :: x).
    by rewrite split_pair. }
  unfold pair. rewrite !fold_left_app.
  destruct a as [|a0 a], l as [|l0 l], v as [|v0 v]; cbn [isEmpty fold_left];
    rewrite ?E1, ?E2, ?E3 by done; reflexivity.
Qed.

Lemma pair_noColon (key : string) v :
  bool_decide (noColon (lit key)) = true -> noColon v -> Forall noColon (pair key v).
Proof.
  intros Hk Hv. apply bool_decide_eq_true in Hk. unfold pair.
  destruct (isEmpty v); [constructor|]. apply Forall_singleton.
  unfold noColon in *. rewrite elem_of_app. tauto.
Qed.

#[global] Instance wire : FsdWire t.
Proof.
  exists wf. intros [[s r b] a l v] (Hb & H1 & H2 & [Ha Ha'] & [Hl Hl'] & [Hv Hv']).
  cbn [FsdBase.fromTokens FsdBase.toTokens message]. unfold toTokens.
  cbn [base m_aircraft m_airline m_livery m_sender m_receiver m_isValid] in *. subst b.
  change [s; r; lit "PI"; lit "GEN"; join [colon] (pairs (mk (mkBase s r true) a l v))]
    with ([s; r; lit "PI"; lit "GEN"] ++ [join [colon] (pairs (mk (mkBase s r true) a l v))]).
  rewrite retokenize_app; [| fields | done].
  unfold fromTokens. rewrite length_app.
  set (ps := pairs _).
  assert (Hps : Forall noColon ps).
  { unfold ps, pairs. repeat apply Forall_app_2; by apply pair_noColon. }
  assert (Hscan : fold_left scan (split colon (join [colon] ps)) ([], [], []) = (a, l, v)).
  { destruct (decide (ps = [])) as [E|E].
    - rewrite E. pose proof (scan_pairs a l v Ha' Hl' Hv') as Hf.
      change (fold_left scan ps ([], [], []) = (a, l, v)) in Hf. rewrite E in Hf.
      exact Hf.
    - rewrite split_join by done. by apply scan_pairs. }
  pose proof (split_nonempty colon (join [colon] ps)) as Hne.
  replace (_ <? 5)%nat with false
    by (symmetry; apply Nat.ltb_ge; destruct (split colon (join [colon] ps)); [done | simpl; lia]).
  unfold mid. cbn [drop app]. rewrite drop_0, Hscan. reflexivity.
Defined.
End PlaneInformation.
