(* ===== verification/MsgPosition.v ===== *)
(** * Position messages

    The updates of the position of an aircraft or an ATC station, one Module
    per class of core/fsd/.  Coordinates are printed with a fixed number of
    decimals and the angles are packed in one word, so a message comes back
    unchanged when its numbers are on those grids: [onGrid p x] for a printed
    number and [anglesStable] for the angles ([Pbh.unpack_pack] says which
    angles are). *)

From S2P Require Import QtCore Serializer Pbh FsdBase MsgSession.

Lemma noColon_facility f : noColon (FacilityType.toQString f).
Proof. apply enum_no_colon. Qed.
Lemma noColon_transponderMode m : noColon (TransponderMode.toQString m).
Proof. apply enum_no_colon. Qed.
#[export] Hint Resolve noColon_facility noColon_transponderMode : swift.

Lemma facility_back f : FacilityType.fromQString (FacilityType.toQString f) = f.
Proof. by destruct f. Qed.
#[export] Hint Rewrite facility_back : qt.

(** The angles come back from their word. *)
Definition anglesStable (p b h : double) (g : bool) : Prop :=
  unpackPBH (packPBH p b h g) = mkAngles p b h g.

Lemma toUInt_packPBH `{QtConvLaws} p b h g : toUInt (qt_number (packPBH p b h g)) = packPBH p b h g.
Proof. apply toUInt_number, packPBH_range. Qed.
#[export] Hint Rewrite @toUInt_packPBH using assumption : qt.

(** [roundtrip] for messages with numbers on their grids. *)
Ltac position_roundtrip :=
  unfold onGrid, anglesStable in *; roundtrip; simpl in *;
  repeat match goal with
  | H : unpackPBH _ = _ |- _ => rewrite H; clear H; simpl
  | H : toDouble _ = _ |- _ => rewrite H; clear H
  end; try reflexivity.

(** ** AtcDataUpdate *)
Module AtcDataUpdate.
Record t := mk {
  base : MessageBase; m_frequencykHz : Z; m_facility : FacilityType.t; m_visibleRange : Z;
  m_rating : AtcRating.t; m_latitude : double; m_longitude : double; m_elevation : Z }.
Definition null : t :=
  mk MessageBase_default 0 FacilityType.Unknown 0 AtcRating.Unknown f64_zero f64_zero 0.
Definition make (sender : QString) (frequencykHz : Z) (facility : FacilityType.t)
    (visibleRange : Z) (rating : AtcRating.t) (latitude longitude : double) (elevation : Z) : t :=
  mk (MessageBase_make sender []) frequencykHz facility visibleRange rating latitude longitude
     elevation.
Definition toTokens `{QtConv} (m : t) : QStringList :=
  [m_sender (base m); qt_number (m_frequencykHz m - 100000);
   FacilityType.toQString (m_facility m); qt_number (m_visibleRange m);
   AtcRating.toQString (m_rating m); qt_numberF (m_latitude m) 5; qt_numberF (m_longitude m) 5;
   qt_number (m_elevation m)].
(** The guard lets a list of seven fields through, of which the eighth is read. *)
Definition fromTokens `{QtConv} (tokens : QStringList) : option t :=
  if (length tokens <? 7)%nat then Some null
  else t0 ← tokens !! 0%nat; t1 ← tokens !! 1%nat; t2 ← tokens !! 2%nat;
       t3 ← tokens !! 3%nat; t4 ← tokens !! 4%nat; t5 ← tokens !! 5%nat;
       t6 ← tokens !! 6%nat; t7 ← tokens !! 7%nat;
       Some (make t0 (wrapS 32 (toInt t1 + 100000)) (FacilityType.fromQString t2) (toInt t3)
                  (AtcRating.fromQString t4) (toDouble t5) (toDouble t6) (toInt t7)).
Definition eqb `{QtConv} (l r : t) : bool :=
  sameRoute (base l) (base r) && (m_frequencykHz l ==? m_frequencykHz r) &&
  (m_facility l ==? m_facility r) && (m_visibleRange l ==? m_visibleRange r) &&
  (m_rating l ==? m_rating r) &&
  qt_fuzzyCompare (f64_add (f64_of_Z 1) (m_latitude l)) (f64_add (f64_of_Z 1) (m_latitude r)) &&
  qt_fuzzyCompare (f64_add (f64_of_Z 1) (m_longitude l)) (f64_add (f64_of_Z 1) (m_longitude r)) &&
  (m_elevation l ==? m_elevation r).
Definition wf `{QtConv} (m : t) : Prop :=
  base m = MessageBase_make (m_sender (base m)) [] /\ noColon (m_sender (base m)) /\
  inS 32 (m_frequencykHz m) /\ inS 32 (m_frequencykHz m - 100000) /\
  inS 32 (m_visibleRange m) /\ inS 32 (m_elevation m) /\
  Forall (onGrid 5) [m_latitude m; m_longitude m].
#[global] Instance message `{QtConv} : FsdMessage t :=
  {| msg_base := base; FsdBase.pdu := lit "%";
     FsdBase.toTokens := toTokens; FsdBase.fromTokens := fromTokens |}.
#[global] Instance wire `{QtConvLaws} : FsdWire t.
Proof.
  exists wf. intros [b f ? r ? ? ? e] (Hb & Hs & Hf & Hf' & Hr & He & H5); simpl in *.
  forall_hyps. rewrite Hb. position_roundtrip.
  by rewrite Z.sub_add, wrapS_id by (done || lia).
Defined.
End AtcDataUpdate.

(** ** PilotDataUpdate *)
Module PilotDataUpdate.
Record t := mk {
  base : MessageBase; m_transponderMode : TransponderMode.t; m_transponderCode : Z;
  m_rating : PilotRating.t; m_latitude : double; m_longitude : double; m_altitudeTrue : Z;
  m_altitudePressure : Z; m_groundSpeed : Z; m_pitch : double; m_bank : double;
  m_heading : double; m_onGround : bool }.
Definition null : t :=
  mk MessageBase_default TransponderMode.StateStandby 0 PilotRating.Unknown f64_zero f64_zero
     0 0 0 f64_zero f64_zero f64_zero false.
Definition make (transponderMode : TransponderMode.t) (sender : QString) (transponderCode : Z)
    (rating : PilotRating.t) (latitude longitude : double)
    (altitudeTrue altitudePressure groundSpeed : Z) (pitch bank heading : double)
    (onGround : bool) : t :=
  mk (MessageBase_make sender []) transponderMode transponderCode rating latitude longitude
     altitudeTrue altitudePressure groundSpeed pitch bank heading onGround.
Definition toTokens `{QtConv} (m : t) : QStringList :=
  let pbh := packPBH (m_pitch m) (m_bank m) (m_heading m) (m_onGround m) in
  [TransponderMode.toQString (m_transponderMode m); m_sender (base m);
   qt_number (m_transponderCode m); PilotRating.toQString (m_rating m);
   qt_numberF (m_latitude m) 5; qt_numberF (m_longitude m) 5; qt_number (m_altitudeTrue m);
   qt_number (m_groundSpeed m); qt_number pbh;
   qt_number (wrapS 32 (m_altitudePressure m - m_altitudeTrue m))].
Definition fromTokens `{QtConv} (tokens : QStringList) : option t :=
  if (length tokens <? 10)%nat then Some null
  else t8 ← tokens !! 8%nat;
       let a := unpackPBH (toUInt t8) in
       t0 ← tokens !! 0%nat; t1 ← tokens !! 1%nat; t2 ← tokens !! 2%nat;
       t3 ← tokens !! 3%nat; t4 ← tokens !! 4%nat; t5 ← tokens !! 5%nat;
       t6 ← tokens !! 6%nat; t9 ← tokens !! 9%nat; t7 ← tokens !! 7%nat;
       Some (make (TransponderMode.fromQString t0) t1 (toInt t2) (PilotRating.fromQString t3)
                  (toDouble t4) (toDouble t5) (toInt t6) (wrapS 32 (toInt t6 + toInt t9))
                  (toInt t7) (a_pitch a) (a_bank a) (a_heading a) (a_onGround a)).
Definition eqb `{QtConv} (l r : t) : bool :=
  sameRoute (base l) (base r) && (m_transponderMode l ==? m_transponderMode r) &&
  (m_transponderCode l ==? m_transponderCode r) && (m_rating l ==? m_rating r) &&
  qt_fuzzyCompare (m_latitude l) (m_latitude r) &&
  qt_fuzzyCompare (m_longitude l) (m_longitude r) &&
  (m_altitudeTrue l ==? m_altitudeTrue r) && (m_altitudePressure l ==? m_altitudePressure r) &&
  (m_groundSpeed l ==? m_groundSpeed r) && qt_fuzzyCompare (m_pitch l) (m_pitch r) &&
  qt_fuzzyCompare (m_bank l) (m_bank r) && qt_fuzzyCompare (m_heading l) (m_heading r) &&
  (m_onGround l ==? m_onGround r).
(** The altitudes may differ by any [int]: their sum wraps back. *)
Definition wf `{QtConv} (m : t) : Prop :=
  base m = MessageBase_make (m_sender (base m)) [] /\ noColon (m_sender (base m)) /\
  TransponderMode.fromQString (TransponderMode.toQString (m_transponderMode m))
    = m_transponderMode m /\
  Forall (inS 32) [m_transponderCode m; m_altitudeTrue m; m_altitudePressure m;
                   m_groundSpeed m] /\
  Forall (onGrid 5) [m_latitude m; m_longitude m] /\
  anglesStable (m_pitch m) (m_bank m) (m_heading m) (m_onGround m).
#[global] Instance message `{QtConv} : FsdMessage t :=
  {| msg_base := base; FsdBase.pdu := lit "@";
     FsdBase.toTokens := toTokens; FsdBase.fromTokens := fromTokens |}.
Lemma altitudes_back a p : inS 32 p -> wrapS 32 (a + wrapS 32 (p - a)) = p.
Proof.
  intros Hp. rewrite <- (wrapS_id 32 p) at 2 by (done || lia). unfold wrapS.
  replace (a + ((p - a + 2 ^ (32 - 1)) mod 2 ^ 32 - 2 ^ (32 - 1)) + 2 ^ (32 - 1))
    with (a + (p - a + 2 ^ (32 - 1)) mod 2 ^ 32) by lia.
  rewrite Zplus_mod_idemp_r. f_equal. f_equal. lia.
Qed.
#[global] Instance wire `{QtConvLaws} : FsdWire t.
Proof.
  exists wf.
  intros [b ? ? ? ? ? a p ? ? ? ? ?] (Hb & Hs & Hm & Hi & H5 & Ha); simpl in *.
  forall_hyps. rewrite Hb. pose proof (wrapS_range 32 (p - a) ltac:(lia)).
  position_roundtrip. rewrite Hm, altitudes_back by done. done.
Defined.
End PilotDataUpdate.

(** ** InterimPilotDataUpdate *)
Module InterimPilotDataUpdate.
Record t := mk {
  base : MessageBase; m_latitude : double; m_longitude : double; m_altitudeTrue : Z;
  m_groundSpeed : Z; m_pitch : double; m_bank : double; m_heading : double;
  m_onGround : bool }.
Definition null : t :=
  mk MessageBase_default f64_zero f64_zero 0 0 f64_zero f64_zero f64_zero false.
Definition make (sender receiver : QString) (latitude longitude : double)
    (altitudeTrue groundSpeed : Z) (pitch bank heading : double) (onGround : bool) : t :=
  mk (MessageBase_make sender receiver) latitude longitude altitudeTrue groundSpeed pitch bank
     heading onGround.
Definition toTokens `{QtConv} (m : t) : QStringList :=
  let pbh := packPBH (m_pitch m) (m_bank m) (m_heading m) (m_onGround m) in
  [m_sender (base m); m_receiver (base m); lit "VI"; qt_numberF (m_latitude m) 5;
   qt_numberF (m_longitude m) 5; qt_number (m_altitudeTrue m); qt_number (m_groundSpeed m);
   qt_number pbh].
Definition fromTokens `{QtConv} (tokens : QStringList) : option t :=
  if (length tokens <? 8)%nat then Some null
  else t7 ← tokens !! 7%nat;
       let a := unpackPBH (toUInt t7) in
       t0 ← tokens !! 0%nat; t1 ← tokens !! 1%nat; t3 ← tokens !! 3%nat;
       t4 ← tokens !! 4%nat; t5 ← tokens !! 5%nat; t6 ← tokens !! 6%nat;
       Some (make t0 t1 (toDouble t3) (toDouble t4) (toInt t5) (toInt t6)
                  (a_pitch a) (a_bank a) (a_heading a) (a_onGround a)).
(** The ground speed takes no part in the comparison. *)
Definition eqb `{QtConv} (l r : t) : bool :=
  sameRoute (base l) (base r) && qt_fuzzyCompare (m_latitude l) (m_latitude r) &&
  qt_fuzzyCompare (m_longitude l) (m_longitude r) && (m_altitudeTrue l ==? m_altitudeTrue r) &&
  qt_fuzzyCompare (m_pitch l) (m_pitch r) && qt_fuzzyCompare (m_bank l) (m_bank r) &&
  qt_fuzzyCompare (m_heading l) (m_heading r) && (m_onGround l ==? m_onGround r).
Definition wf `{QtConv} (m : t) : Prop :=
  m_isValid (base m) = true /\ noColon (m_sender (base m)) /\ noColon (m_receiver (base m)) /\
  Forall (onGrid 5) [m_latitude m; m_longitude m] /\
  Forall (inS 32) [m_altitudeTrue m; m_groundSpeed m] /\
  anglesStable (m_pitch m) (m_bank m) (m_heading m) (m_onGround m).
#[global] Instance message `{QtConv} : FsdMessage t :=
  {| msg_base := base; FsdBase.pdu := lit "#SB";
     FsdBase.toTokens := toTokens; FsdBase.fromTokens := fromTokens |}.
#[global] Instance wire `{QtConvLaws} : FsdWire t.
Proof.
  exists wf. intros [[s r v] ? ? ? ? ? ? ? ?] (Hv & Hs & Hr & H5 & Hi & Ha); simpl in *.
  forall_hyps. subst. position_roundtrip.
Defined.
End InterimPilotDataUpdate.

(** ** VisualPilotDataUpdate *)
Module VisualPilotDataUpdate.
Record t := mk {
  base : MessageBase; m_latitude : double; m_longitude : double; m_altitudeTrue : double;
  m_heightAgl : double; m_pitch : double; m_bank : double; m_heading : double;
  m_xVelocity : double; m_yVelocity : double; m_zVelocity : double;
  m_pitchRadPerSec : double; m_bankRadPerSec : double; m_headingRadPerSec : double;
  m_noseGearAngle : double }.
Definition null : t :=
  mk MessageBase_default f64_zero f64_zero f64_zero f64_zero f64_zero f64_zero f64_zero
     f64_zero f64_zero f64_zero f64_zero f64_zero f64_zero f64_zero.
Definition make (sender : QString) (latitude longitude altitudeTrue heightAgl pitch bank heading
    xVelocity yVelocity zVelocity pitchRadPerSec bankRadPerSec headingRadPerSec noseGearAngle
    : double) : t :=
  mk (MessageBase_make sender []) latitude longitude altitudeTrue heightAgl pitch bank heading
     xVelocity yVelocity zVelocity pitchRadPerSec bankRadPerSec headingRadPerSec noseGearAngle.
Definition toTokens `{QtConv} (m : t) : QStringList :=
  let pbh := packPBH (m_pitch m) (m_bank m) (m_heading m) false in
  [m_sender (base m); qt_numberF (m_latitude m) 7; qt_numberF (m_longitude m) 7;
   qt_numberF (m_altitudeTrue m) 2; qt_numberF (m_heightAgl m) 2; qt_number pbh;
   qt_numberF (m_xVelocity m) 4; qt_numberF (m_yVelocity m) 4; qt_numberF (m_zVelocity m) 4;
   qt_numberF (m_pitchRadPerSec m) 4; qt_numberF (m_headingRadPerSec m) 4;
   qt_numberF (m_bankRadPerSec m) 4; qt_numberF (m_noseGearAngle m) 2].
Definition fromTokens `{QtConv} (tokens : QStringList) : option t :=
  if (length tokens <? 12)%nat then Some null
  else t5 ← tokens !! 5%nat;
       let a := unpackPBH (toUInt t5) in
       t0 ← tokens !! 0%nat; t1 ← tokens !! 1%nat; t2 ← tokens !! 2%nat;
       t3 ← tokens !! 3%nat; t4 ← tokens !! 4%nat; t6 ← tokens !! 6%nat;
       t7 ← tokens !! 7%nat; t8 ← tokens !! 8%nat; t9 ← tokens !! 9%nat;
       t11 ← tokens !! 11%nat; t10 ← tokens !! 10%nat;
       Some (make t0 (toDouble t1) (toDouble t2) (toDouble t3) (toDouble t4)
                  (a_pitch a) (a_bank a) (a_heading a) (toDouble t6) (toDouble t7) (toDouble t8)
                  (toDouble t9) (toDouble t11) (toDouble t10)
                  (toDouble (default (lit "0") (tokens !! 12%nat)))).
(** Compares the numbers only, not the sender. *)
Definition eqb `{QtConv} (l r : t) : bool :=
  qt_fuzzyCompare (m_latitude l) (m_latitude r) &&
  qt_fuzzyCompare (m_longitude l) (m_longitude r) &&
  qt_fuzzyCompare (m_altitudeTrue l) (m_altitudeTrue r) &&
  qt_fuzzyCompare (m_heightAgl l) (m_heightAgl r) &&
  qt_fuzzyCompare (m_pitch l) (m_pitch r) && qt_fuzzyCompare (m_bank l) (m_bank r) &&
  qt_fuzzyCompare (m_heading l) (m_heading r) &&
  qt_fuzzyCompare (m_xVelocity l) (m_xVelocity r) &&
  qt_fuzzyCompare (m_yVelocity l) (m_yVelocity r) &&
  qt_fuzzyCompare (m_zVelocity l) (m_zVelocity r) &&
  qt_fuzzyCompare (m_pitchRadPerSec l) (m_pitchRadPerSec r) &&
  qt_fuzzyCompare (m_bankRadPerSec l) (m_bankRadPerSec r) &&
  qt_fuzzyCompare (m_headingRadPerSec l) (m_headingRadPerSec r) &&
  qt_fuzzyCompare (m_noseGearAngle l) (m_noseGearAngle r).
Definition wf `{QtConv} (m : t) : Prop :=
  base m = MessageBase_make (m_sender (base m)) [] /\ noColon (m_sender (base m)) /\
  Forall (onGrid 7) [m_latitude m; m_longitude m] /\
  Forall (onGrid 2) [m_altitudeTrue m; m_heightAgl m; m_noseGearAngle m] /\
  Forall (onGrid 4) [m_xVelocity m; m_yVelocity m; m_zVelocity m; m_pitchRadPerSec m;
                     m_bankRadPerSec m; m_headingRadPerSec m] /\
  anglesStable (m_pitch m) (m_bank m) (m_heading m) false.
#[global] Instance message `{QtConv} : FsdMessage t :=
  {| msg_base := base; FsdBase.pdu := lit "^";
     FsdBase.toTokens := toTokens; FsdBase.fromTokens := fromTokens |}.
#[global] Instance wire `{QtConvLaws} : FsdWire t.
Proof.
  exists wf. intros [b ? ? ? ? ? ? ? ? ? ? ? ? ? ?] (Hb & Hs & H7 & H2 & H4 & Ha); simpl in *.
  forall_hyps. rewrite Hb. position_roundtrip.
Defined.
End VisualPilotDataUpdate.

(** ** VisualPilotDataPeriodic *)
Module VisualPilotDataPeriodic.
Record t := mk {
  base : MessageBase; m_latitude : double; m_longitude : double; m_altitudeTrue : double;
  m_heightAgl : double; m_pitch : double; m_bank : double; m_heading : double;
  m_xVelocity : double; m_yVelocity : double; m_zVelocity : double;
  m_pitchRadPerSec : double; m_bankRadPerSec : double; m_headingRadPerSec : double;
  m_noseGearAngle : double }.
Definition null : t :=
  mk MessageBase_default f64_zero f64_zero f64_zero f64_zero f64_zero f64_zero f64_zero
     f64_zero f64_zero f64_zero f64_zero f64_zero f64_zero f64_zero.
Definition make (sender : QString) (latitude longitude altitudeTrue heightAgl pitch bank heading
    xVelocity yVelocity zVelocity pitchRadPerSec bankRadPerSec headingRadPerSec noseGearAngle
    : double) : t :=
  mk (MessageBase_make sender []) latitude longitude altitudeTrue heightAgl pitch bank heading
     xVelocity yVelocity zVelocity pitchRadPerSec bankRadPerSec headingRadPerSec noseGearAngle.
Definition toTokens `{QtConv} (m : t) : QStringList :=
  let pbh := packPBH (m_pitch m) (m_bank m) (m_heading m) false in
  [m_sender (base m); qt_numberF (m_latitude m) 7; qt_numberF (m_longitude m) 7;
   qt_numberF (m_altitudeTrue m) 2; qt_numberF (m_heightAgl m) 2; qt_number pbh;
   qt_numberF (m_xVelocity m) 4; qt_numberF (m_yVelocity m) 4; qt_numberF (m_zVelocity m) 4;
   qt_numberF (m_pitchRadPerSec m) 4; qt_numberF (m_headingRadPerSec m) 4;
   qt_numberF (m_bankRadPerSec m) 4; qt_numberF (m_noseGearAngle m) 2].
Definition fromTokens `{QtConv} (tokens : QStringList) : option t :=
  if (length tokens <? 12)%nat then Some null
  else t5 ← tokens !! 5%nat;
       let a := unpackPBH (toUInt t5) in
       t0 ← tokens !! 0%nat; t1 ← tokens !! 1%nat; t2 ← tokens !! 2%nat;
       t3 ← tokens !! 3%nat; t4 ← tokens !! 4%nat; t6 ← tokens !! 6%nat;
       t7 ← tokens !! 7%nat; t8 ← tokens !! 8%nat; t9 ← tokens !! 9%nat;
       t11 ← tokens !! 11%nat; t10 ← tokens !! 10%nat;
       Some (make t0 (toDouble t1) (toDouble t2) (toDouble t3) (toDouble t4)
                  (a_pitch a) (a_bank a) (a_heading a) (toDouble t6) (toDouble t7) (toDouble t8)
                  (toDouble t9) (toDouble t11) (toDouble t10)
                  (toDouble (default (lit "0") (tokens !! 12%nat)))).
(** Compares the numbers only, not the sender. *)
Definition eqb `{QtConv} (l r : t) : bool :=
  qt_fuzzyCompare (m_latitude l) (m_latitude r) &&
  qt_fuzzyCompare (m_longitude l) (m_longitude r) &&
  qt_fuzzyCompare (m_altitudeTrue l) (m_altitudeTrue r) &&
  qt_fuzzyCompare (m_heightAgl l) (m_heightAgl r) &&
  qt_fuzzyCompare (m_pitch l) (m_pitch r) && qt_fuzzyCompare (m_bank l) (m_bank r) &&
  qt_fuzzyCompare (m_heading l) (m_heading r) &&
  qt_fuzzyCompare (m_xVelocity l) (m_xVelocity r) &&
  qt_fuzzyCompare (m_yVelocity l) (m_yVelocity r) &&
  qt_fuzzyCompare (m_zVelocity l) (m_zVelocity r) &&
  qt_fuzzyCompare (m_pitchRadPerSec l) (m_pitchRadPerSec r) &&
  qt_fuzzyCompare (m_bankRadPerSec l) (m_bankRadPerSec r) &&
  qt_fuzzyCompare (m_headingRadPerSec l) (m_headingRadPerSec r) &&
  qt_fuzzyCompare (m_noseGearAngle l) (m_noseGearAngle r).
Definition wf `{QtConv} (m : t) : Prop :=
  base m = MessageBase_make (m_sender (base m)) [] /\ noColon (m_sender (base m)) /\
  Forall (onGrid 7) [m_latitude m; m_longitude m] /\
  Forall (onGrid 2) [m_altitudeTrue m; m_heightAgl m; m_noseGearAngle m] /\
  Forall (onGrid 4) [m_xVelocity m; m_yVelocity m; m_zVelocity m; m_pitchRadPerSec m;
                     m_bankRadPerSec m; m_headingRadPerSec m] /\
  anglesStable (m_pitch m) (m_bank m) (m_heading m) false.
#[global] Instance message `{QtConv} : FsdMessage t :=
  {| msg_base := base; FsdBase.pdu := lit "#SL";
     FsdBase.toTokens := toTokens; FsdBase.fromTokens := fromTokens |}.
#[global] Instance wire `{QtConvLaws} : FsdWire t.
Proof.
  exists wf. intros [b ? ? ? ? ? ? ? ? ? ? ? ? ? ?] (Hb & Hs & H7 & H2 & H4 & Ha); simpl in *.
  forall_hyps. rewrite Hb. position_roundtrip.
Defined.
End VisualPilotDataPeriodic.

(** ** VisualPilotDataStopped *)
Module VisualPilotDataStopped.
Record t := mk {
  base : MessageBase; m_latitude : double; m_longitude : double; m_altitudeTrue : double;
  m_heightAgl : double; m_pitch : double; m_bank : double; m_heading : double;
  m_noseGearAngle : double }.
Definition null : t :=
  mk MessageBase_default f64_zero f64_zero f64_zero f64_zero f64_zero f64_zero f64_zero f64_zero.
Definition make (sender : QString) (latitude longitude altitudeTrue heightAgl pitch bank heading
    noseGearAngle : double) : t :=
  mk (MessageBase_make sender []) latitude longitude altitudeTrue heightAgl pitch bank heading
     noseGearAngle.
(** Seven fields, the last of them the nose gear angle ... *)
Definition toTokens `{QtConv} (m : t) : QStringList :=
  let pbh := packPBH (m_pitch m) (m_bank m) (m_heading m) false in
  [m_sender (base m); qt_numberF (m_latitude m) 7; qt_numberF (m_longitude m) 7;
   qt_numberF (m_altitudeTrue m) 2; qt_numberF (m_heightAgl m) 2; qt_number pbh;
   qt_numberF (m_noseGearAngle m) 2].
(** ... which is read from the thirteenth. *)
Definition fromTokens `{QtConv} (tokens : QStringList) : option t :=
  if (length tokens <? 6)%nat then Some null
  else t5 ← tokens !! 5%nat;
       let a := unpackPBH (toUInt t5) in
       t0 ← tokens !! 0%nat; t1 ← tokens !! 1%nat; t2 ← tokens !! 2%nat;
       t3 ← tokens !! 3%nat; t4 ← tokens !! 4%nat;
       Some (make t0 (toDouble t1) (toDouble t2) (toDouble t3) (toDouble t4)
                  (a_pitch a) (a_bank a) (a_heading a)
                  (toDouble (default (lit "0") (tokens !! 12%nat)))).
Definition eqb `{QtConv} (l r : t) : bool :=
  qt_fuzzyCompare (m_latitude l) (m_latitude r) &&
  qt_fuzzyCompare (m_longitude l) (m_longitude r) &&
  qt_fuzzyCompare (m_altitudeTrue l) (m_altitudeTrue r) &&
  qt_fuzzyCompare (m_heightAgl l) (m_heightAgl r) &&
  qt_fuzzyCompare (m_pitch l) (m_pitch r) && qt_fuzzyCompare (m_bank l) (m_bank r) &&
  qt_fuzzyCompare (m_heading l) (m_heading r) &&
  qt_fuzzyCompare (m_noseGearAngle l) (m_noseGearAngle r).
(** Well-formed but for the nose gear angle, which is not recovered. *)
Definition wf' `{QtConv} (m : t) : Prop :=
  base m = MessageBase_make (m_sender (base m)) [] /\ noColon (m_sender (base m)) /\
  Forall (onGrid 7) [m_latitude m; m_longitude m] /\
  Forall (onGrid 2) [m_altitudeTrue m; m_heightAgl m] /\
  anglesStable (m_pitch m) (m_bank m) (m_heading m) false.
Definition wf `{QtConv} (m : t) : Prop := wf' m /\ m_noseGearAngle m = toDouble (lit "0").
Definition withNoseGear (m : t) (a : double) : t :=
  mk (base m) (m_latitude m) (m_longitude m) (m_altitudeTrue m) (m_heightAgl m) (m_pitch m)
     (m_bank m) (m_heading m) a.
#[global] Instance message `{QtConv} : FsdMessage t :=
  {| msg_base := base; FsdBase.pdu := lit "#ST";
     FsdBase.toTokens := toTokens; FsdBase.fromTokens := fromTokens |}.
Lemma reread `{QtConvLaws} m :
  wf' m ->
  FsdBase.fromTokens (retokenize (FsdBase.toTokens m)) =
  Some (withNoseGear m (toDouble (lit "0"))).
Proof.
  destruct m as [b ? ? ? ? ? ? ? ?]. intros (Hb & Hs & H7 & H2 & Ha); simpl in *.
  forall_hyps. rewrite Hb. position_roundtrip.
Qed.
#[global] Instance wire `{QtConvLaws} : FsdWire t.
Proof. exists wf. intros m [Hm Hn]. rewrite reread by done. rewrite <- Hn. by destruct m. Defined.
End VisualPilotDataStopped.

(** ** Conversions between the visual updates *)

Section conversions.
Import VisualPilotDataPeriodic.
Definition periodic_toUpdate (m : t) : VisualPilotDataUpdate.t :=
  VisualPilotDataUpdate.make
    (m_sender (base m)) (m_latitude m) (m_longitude m) (m_altitudeTrue m) (m_heightAgl m)
    (m_pitch m) (m_bank m) (m_heading m) (m_xVelocity m) (m_yVelocity m) (m_zVelocity m)
    (m_pitchRadPerSec m) (m_bankRadPerSec m) (m_headingRadPerSec m) (m_noseGearAngle m).
Import VisualPilotDataStopped.
Definition stopped_toUpdate (m : t) : VisualPilotDataUpdate.t :=
  VisualPilotDataUpdate.make
    (m_sender (base m)) (m_latitude m) (m_longitude m) (m_altitudeTrue m) (m_heightAgl m)
    (m_pitch m) (m_bank m) (m_heading m) f64_zero f64_zero f64_zero f64_zero f64_zero f64_zero
    (m_noseGearAngle m).
Import VisualPilotDataUpdate.
Definition update_toPeriodic (m : t) : VisualPilotDataPeriodic.t :=
  VisualPilotDataPeriodic.make
    (m_sender (base m)) (m_latitude m) (m_longitude m) (m_altitudeTrue m) (m_heightAgl m)
    (m_pitch m) (m_bank m) (m_heading m) (m_xVelocity m) (m_yVelocity m) (m_zVelocity m)
    (m_pitchRadPerSec m) (m_bankRadPerSec m) (m_headingRadPerSec m) (m_noseGearAngle m).
Definition update_toStopped (m : t) : VisualPilotDataStopped.t :=
  VisualPilotDataStopped.make
    (m_sender (base m)) (m_latitude m) (m_longitude m) (m_altitudeTrue m) (m_heightAgl m)
    (m_pitch m) (m_bank m) (m_heading m) (m_noseGearAngle m).
End conversions.

(** ** EuroscopeSimData *)

(** CAircraftLights, the part the simulation data carries. *)
Record CAircraftLights := mkLights {
  m_isNull : bool; m_strobeOn : bool; m_landingOn : bool; m_taxiOn : bool; m_beaconOn : bool;
  m_navOn : bool; m_logoOn : bool; m_recognitionOn : bool; m_cabinOn : bool; m_wingOn : bool }.
Definition CAircraftLights_default : CAircraftLights :=
  mkLights false false false false false false false false false false.
Definition CAircraftLights_make8 (strobe landing taxi beacon nav logo recognition cabin : bool) :
    CAircraftLights :=
  mkLights false strobe landing taxi beacon nav logo recognition cabin false.

Module EuroscopeSimData.
Record t := mk {
  base : MessageBase; m_model : QString; m_livery : QString; m_timestamp : Z;
  m_latitude : double; m_longitude : double; m_altitude : double; m_heading : double;
  m_bank : Z; m_pitch : Z; m_groundSpeed : Z; m_onGround : bool; m_gearPercent : Z;
  m_thrustPercent : Z; m_lights : CAircraftLights }.
Definition null : t :=
  mk MessageBase_default [] [] 0 f64_zero f64_zero f64_zero f64_zero 0 0 0 false 0 0
     CAircraftLights_default.
(** The percentages are truncated to the [int] members. *)
Definition make (sender model livery : QString) (timestamp : Z)
    (latitude longitude altitude heading : double) (bank pitch groundSpeed : Z)
    (onGround : bool) (gearPercent thrustPercent : double) (lights : CAircraftLights) : t :=
  mk (MessageBase_make sender []) model livery timestamp latitude longitude altitude heading
     bank pitch groundSpeed onGround (f64_trunc gearPercent) (f64_trunc thrustPercent) lights.

Definition toFlags (l : CAircraftLights) : Z :=
  let bit (b : bool) (v : Z) (n : Z) := if b then Z.lor n v else n in
  bit (m_taxiOn l) 64 (bit (m_strobeOn l) 4 (bit (m_recognitionOn l) 128
    (bit (m_navOn l) 8 (bit (m_logoOn l) 512 (bit (m_landingOn l) 32
      (bit (m_cabinOn l) 1024 (bit (m_beaconOn l) 2 0))))))).
Definition fromFlags (n : Z) : CAircraftLights :=
  let on (v : Z) := negb (Z.land n v =? 0) in
  CAircraftLights_make8 (on 4) (on 32) (on 64) (on 2) (on 8) (on 512) (on 128) (on 1024).

Definition toTokens `{QtConv} (m : t) : QStringList :=
  [[]; m_sender (base m); m_model m; m_livery m; qt_number (m_timestamp m);
   qt_numberF (m_latitude m) 7; qt_numberF (m_longitude m) 7; qt_numberF (m_altitude m) 1;
   qt_numberF (m_heading m) 2; qt_number (m_bank m); qt_number (m_pitch m);
   qt_number (m_groundSpeed m); if m_onGround m then lit "1" else lit "0";
   qt_number (m_gearPercent m); qt_number (m_thrustPercent m); lit "0"; lit "0.0";
   qt_number (toFlags (m_lights m))].
Definition fromTokens `{QtConv} (tokens : QStringList) : option t :=
  if (length tokens <? 18)%nat then Some null
  else t1 ← tokens !! 1%nat; t2 ← tokens !! 2%nat; t3 ← tokens !! 3%nat;
       t4 ← tokens !! 4%nat; t5 ← tokens !! 5%nat; t6 ← tokens !! 6%nat;
       t7 ← tokens !! 7%nat; t8 ← tokens !! 8%nat; t9 ← tokens !! 9%nat;
       t10 ← tokens !! 10%nat; t11 ← tokens !! 11%nat; t12 ← tokens !! 12%nat;
       t13 ← tokens !! 13%nat; t14 ← tokens !! 14%nat; t17 ← tokens !! 17%nat;
       Some (make t1 t2 t3 (toULongLong t4) (toDouble t5) (toDouble t6) (toDouble t7)
                  (toDouble t8) (toInt t9) (toInt t10) (toInt t11) (negb (toInt t12 =? 0))
                  (toDouble t13) (toDouble t14) (fromFlags (toInt t17))).
Definition lights_eqb (l r : CAircraftLights) : bool :=
  (m_isNull l ==? m_isNull r) && (m_strobeOn l ==? m_strobeOn r) &&
  (m_landingOn l ==? m_landingOn r) && (m_taxiOn l ==? m_taxiOn r) &&
  (m_beaconOn l ==? m_beaconOn r) && (m_navOn l ==? m_navOn r) && (m_logoOn l ==? m_logoOn r) &&
  (m_recognitionOn l ==? m_recognitionOn r) && (m_cabinOn l ==? m_cabinOn r) &&
  (m_wingOn l ==? m_wingOn r).
Definition eqb `{QtConv} (l r : t) : bool :=
  sameRoute (base l) (base r) && (m_model l ==? m_model r) && (m_livery l ==? m_livery r) &&
  (m_timestamp l ==? m_timestamp r) && qt_fuzzyCompare (m_latitude l) (m_latitude r) &&
  qt_fuzzyCompare (m_longitude l) (m_longitude r) &&
  qt_fuzzyCompare (m_altitude l) (m_altitude r) && qt_fuzzyCompare (m_heading l) (m_heading r) &&
  (m_bank l ==? m_bank r) && (m_pitch l ==? m_pitch r) && (m_groundSpeed l ==? m_groundSpeed r) &&
  (m_onGround l ==? m_onGround r) && (m_gearPercent l ==? m_gearPercent r) &&
  (m_thrustPercent l ==? m_thrustPercent r) && lights_eqb (m_lights l) (m_lights r).

(** An [int] read back through [toDouble] and truncation. *)
Definition throughDouble `{QtConv} (n : Z) : Prop := f64_trunc (toDouble (qt_number n)) = n.
Definition wf `{QtConv} (m : t) : Prop :=
  base m = MessageBase_make (m_sender (base m)) [] /\
  Forall noColon [m_sender (base m); m_model m; m_livery m] /\ inU 64 (m_timestamp m) /\
  onGrid 7 (m_latitude m) /\ onGrid 7 (m_longitude m) /\ onGrid 1 (m_altitude m) /\
  onGrid 2 (m_heading m) /\ Forall (inS 32) [m_bank m; m_pitch m; m_groundSpeed m] /\
  throughDouble (m_gearPercent m) /\ throughDouble (m_thrustPercent m) /\
  m_isNull (m_lights m) = false /\ m_wingOn (m_lights m) = false.
#[global] Instance message `{QtConv} : FsdMessage t :=
  {| msg_base := base; FsdBase.pdu := lit "SIMDATA";
     FsdBase.toTokens := toTokens; FsdBase.fromTokens := fromTokens |}.

Lemma flags_back l : m_isNull l = false -> m_wingOn l = false -> fromFlags (toFlags l) = l.
Proof. destruct l as [? [] [] [] [] [] [] [] [] ?]; simpl; intros -> ->; reflexivity. Qed.
Lemma toFlags_range l : inS 32 (toFlags l).
Proof.
  destruct l as [? [] [] [] [] [] [] [] [] ?]; apply (bool_decide_unpack _); vm_compute; exact I.
Qed.
Lemma onGround_token_back `{QtConvLaws} (b : bool) :
  negb (toInt (if b then lit "1" else lit "0") =? 0) = b.
Proof.
  assert (lit "1" = qt_number 1) as -> by (rewrite qt_number_small by lia; reflexivity).
  assert (lit "0" = qt_number 0) as -> by (rewrite qt_number_small by lia; reflexivity).
  destruct b; autorewrite with qt; reflexivity.
Qed.
#[global] Instance wire `{QtConvLaws} : FsdWire t.
Proof.
  exists wf.
  intros [b ? ? ? ? ? ? ? ? ? ? g ? ? l] (Hb & Hs & Ht & H1 & H2 & H3 & H4 & Hi & Hg & Hp & Hn & Hw);
    simpl in *.
  forall_hyps. rewrite Hb. unfold throughDouble in *.
  pose proof (toFlags_range l).
  assert (noColon (if g then lit "1" else lit "0")) by (destruct g; auto with swift).
  unfold onGrid in *. roundtrip. simpl in *.
  rewrite H1, H2, H3, H4, onGround_token_back, flags_back by done.
  unfold make. by rewrite Hg, Hp.
Defined.
End EuroscopeSimData.
