(* ===== verification/AircraftParts.v ===== *)
(** * Aircraft parts and their JSON (misc/aviation/aircraftparts.h, .cpp)

    Lights, engines and parts with their conversion to and from JSON, and what
    a receiver makes of a configuration (misc/simulation/remoteaircraftprovider).
    The meta class of a value object lists its members by JSON name: writing
    inserts them in this order, reading leaves a member alone whose name is
    missing. *)

From S2P Require Export QtReference Json Serializer FsdBase MsgSession MsgPosition.

Open Scope Z_scope.

(** ** Reading members *)

Definition readBool (json : QJsonObject) (name : string) (old : bool) : bool :=
  match value (lit name) json with None => old | v => toBool v end.
(** [QJsonValue::toInt]: 0 for what is no [int]. *)
Definition readInt (json : QJsonObject) (name : string) (old : Z) : Z :=
  match value (lit name) json with
  | None => old
  | Some (JInteger n) => if decide (inS 32 n) then n else 0
  | Some _ => 0
  end.

(** ** Lights *)

Definition lights_toJson (l : CAircraftLights) : QJsonObject :=
  objectOf [("strobe_on", JBool (m_strobeOn l)); ("landing_on", JBool (m_landingOn l));
            ("taxi_on", JBool (m_taxiOn l)); ("beacon_on", JBool (m_beaconOn l));
            ("nav_on", JBool (m_navOn l)); ("logo_on", JBool (m_logoOn l));
            ("recognition_on", JBool (m_recognitionOn l)); ("cabin_on", JBool (m_cabinOn l));
            ("wing_on", JBool (m_wingOn l))].
Definition lights_convertFromJson (json : QJsonObject) (l : CAircraftLights) : CAircraftLights :=
  mkLights (m_isNull l) (readBool json "strobe_on" (m_strobeOn l))
    (readBool json "landing_on" (m_landingOn l)) (readBool json "taxi_on" (m_taxiOn l))
    (readBool json "beacon_on" (m_beaconOn l)) (readBool json "nav_on" (m_navOn l))
    (readBool json "logo_on" (m_logoOn l)) (readBool json "recognition_on" (m_recognitionOn l))
    (readBool json "cabin_on" (m_cabinOn l)) (readBool json "wing_on" (m_wingOn l)).
Definition setAllOn (l : CAircraftLights) : CAircraftLights :=
  mkLights (m_isNull l) true true true true true true true true true.
Definition setAllOff (l : CAircraftLights) : CAircraftLights :=
  mkLights (m_isNull l) false false false false false false false false false.

(** ** Engines *)

(** Numbers from 1 on. *)
Record CAircraftEngine := mkEngine { m_number : Z; m_on : bool }.
#[export] Instance CAircraftEngine_eq_dec : EqDecision CAircraftEngine.
Proof. solve_decision. Defined.
Definition CAircraftEngine_default : CAircraftEngine := mkEngine 1 true.
Notation CAircraftEngineList := (list CAircraftEngine).

Definition engine_toJson (e : CAircraftEngine) : QJsonObject := objectOf [("on", JBool (m_on e))].
Definition engine_convertFromJson (json : QJsonObject) (e : CAircraftEngine) : CAircraftEngine :=
  mkEngine (m_number e) (readBool json "on" (m_on e)).

Definition getEngine (l : CAircraftEngineList) (engineNumber : Z) : CAircraftEngine :=
  default CAircraftEngine_default (head (filter (fun e => m_number e = engineNumber) l)).
Definition isEngineOn (l : CAircraftEngineList) (engineNumber : Z) : bool :=
  m_on (getEngine l engineNumber).
Definition isAnyEngineOn (l : CAircraftEngineList) : bool := existsb m_on l.
Fixpoint setEngineOn (engineNumber : Z) (on : bool) (l : CAircraftEngineList) : CAircraftEngineList :=
  match l with
  | [] => []
  | e :: l => if decide (m_number e = engineNumber) then mkEngine (m_number e) on :: l
              else e :: setEngineOn engineNumber on l
  end.
Definition initEngines (engineNumber : nat) (on : bool) : CAircraftEngineList :=
  map (fun e => mkEngine (Z.of_nat e + 1) on) (seq 0 engineNumber).
(** The code numbers a copy of the engine and appends the engine itself. *)
Definition setEngines (engine : CAircraftEngine) (engineNumber : nat) : CAircraftEngineList :=
  replicate engineNumber engine.

Definition engines_toJson `{QtConv} (l : CAircraftEngineList) : QJsonObject :=
  foldl (fun map e => insertKey (qt_number (m_number e)) (JObject (engine_toJson e)) map) [] l.
Definition engines_convertFromJson `{QtConv} (json : QJsonObject) : CAircraftEngineList :=
  map (fun kv => let engine := engine_convertFromJson (toObject (Some kv.2)) CAircraftEngine_default in
                 mkEngine (toInt kv.1) (m_on engine)) json.

(** ** Parts *)

Inductive PartsDetails := NotSet | FSDAircraftParts | GuessedParts.
Record CAircraftParts := mkParts {
  m_lights : CAircraftLights; m_engines : CAircraftEngineList; m_partsDetails : PartsDetails;
  m_flapsPercentage : Z; m_gearDown : bool; m_spoilersOut : bool; m_isOnGround : bool }.
Definition CAircraftParts_default : CAircraftParts :=
  mkParts CAircraftLights_default [] NotSet 0 false false false.
Definition CAircraftParts_null : CAircraftParts :=
  mkParts CAircraftLights_default [] NotSet (-1) false false false.
Definition parts_isNull (p : CAircraftParts) : bool :=
  match m_partsDetails p with NotSet => m_flapsPercentage p <? 0 | _ => false end.

(** Equality leaves out the details. *)
Definition parts_eqb (l r : CAircraftParts) : bool :=
  EuroscopeSimData.lights_eqb (m_lights l) (m_lights r) && (m_gearDown l ==? m_gearDown r) &&
  (m_flapsPercentage l ==? m_flapsPercentage r) && (m_spoilersOut l ==? m_spoilersOut r) &&
  (m_engines l ==? m_engines r) && (m_isOnGround l ==? m_isOnGround r).

Definition attributeNameIsFullJson : string := "is_full_data".

Section json.
Context `{QtConv}.

Definition parts_toJson (p : CAircraftParts) : QJsonObject :=
  objectOf [("lights", JObject (lights_toJson (m_lights p))); ("gear_down", JBool (m_gearDown p));
            ("flaps_pct", JInteger (m_flapsPercentage p)); ("spoilers_out", JBool (m_spoilersOut p));
            ("engines", JObject (engines_toJson (m_engines p))); ("on_ground", JBool (m_isOnGround p))].
Definition parts_withFull (full : bool) (p : CAircraftParts) : QJsonObject :=
  insertKey (lit attributeNameIsFullJson) (JBool full)
    (removeKey (lit attributeNameIsFullJson) (parts_toJson p)).
Definition toIncrementalJson (p : CAircraftParts) : QJsonObject := parts_withFull false p.
Definition toFullJson (p : CAircraftParts) : QJsonObject := parts_withFull true p.

Definition parts_convertFromJson (json : QJsonObject) (p : CAircraftParts) : CAircraftParts :=
  mkParts
    (match value (lit "lights") json with
     | None => m_lights p | v => lights_convertFromJson (toObject v) (m_lights p) end)
    (match value (lit "engines") json with
     | None => m_engines p | v => engines_convertFromJson (toObject v) end)
    (m_partsDetails p) (readInt json "flaps_pct" (m_flapsPercentage p))
    (readBool json "gear_down" (m_gearDown p)) (readBool json "spoilers_out" (m_spoilersOut p))
    (readBool json "on_ground" (m_isOnGround p)).

(** What the receiver stores for a configuration, given whether the aircraft is
    known and its parts are synchronized, and the latest parts it has of it:
    [None] when it throws the configuration away.  A developer build takes a
    full configuration with too few members for an incremental one first.  The
    times of the parts are left out. *)
Definition storeAircraftParts `{BuildConfig} (validCs partsSynchronized : bool)
    (latest : CAircraftParts) (jsonObject : QJsonObject) : option CAircraftParts :=
  let isFull := toBool (value (lit attributeNameIsFullJson) jsonObject) in
  if negb validCs then None
  else if negb partsSynchronized && negb isFull then None
  else
    let incremental := parts_convertFromJson (applyIncrementalObject (parts_toJson latest) jsonObject) latest in
    let parts :=
      if isFull
      then parts_convertFromJson jsonObject
             (if localDeveloperDebugBuild && (length jsonObject <? 3)%nat then incremental
              else CAircraftParts_default)
      else incremental in
    Some (mkParts (m_lights parts) (m_engines parts) FSDAircraftParts (m_flapsPercentage parts)
            (m_gearDown parts) (m_spoilersOut parts) (m_isOnGround parts)).
End json.

(** ** Parts that survive the way over JSON *)

(** Engines in the order of the texts of their numbers, which are different,
    as [initEngines] makes up to nine of them. *)
Definition enginesWf `{QtConv} (l : CAircraftEngineList) : Prop :=
  Forall (fun e => inS 32 (m_number e)) l /\
  sortedKeys (map (fun e => (qt_number (m_number e), JNull)) l) = true.
Definition partsWf `{QtConv} (p : CAircraftParts) : Prop :=
  enginesWf (m_engines p) /\ inS 32 (m_flapsPercentage p).

Section laws.
Context `{QtConvLaws}.

Definition engineMember (e : CAircraftEngine) : QString * QJsonValue :=
  (qt_number (m_number e), JObject [(lit "on", JBool (m_on e))]).

Lemma insertKey_last k v o :
  Forall (fun kv => keyLt kv.1 k = true) o -> insertKey k v o = o ++ [(k, v)].
Proof using Type.
  induction 1 as [|[k' v'] o Hk _ IH]; simpl in *; [done|]. rewrite IH.
  rewrite decide_False by (symmetry; by apply keyLt_ne).
  destruct (keyLt k k') eqn:E; [|done].
  pose proof (keyLt_trans _ _ _ E Hk) as Hx. by rewrite keyLt_irrefl in Hx.
Qed.

Lemma engines_toJson_map l :
  sortedKeys (map (fun e => (qt_number (m_number e), JNull)) l) = true ->
  engines_toJson l = map engineMember l /\ sortedKeys (map engineMember l) = true.
Proof using Type.
  unfold engines_toJson.
  assert (Hgo : forall acc l,
    sortedKeys (map (fun e => (qt_number (m_number e), JNull)) l) = true ->
    Forall (fun kv => Forall (fun e => keyLt kv.1 (qt_number (m_number e)) = true) l) acc ->
    foldl (fun map e => insertKey (qt_number (m_number e)) (JObject (engine_toJson e)) map) acc l
      = acc ++ map engineMember l).
  { intros acc es. revert acc. induction es as [|e es IH]; intros acc Hs Hacc; simpl.
    - by rewrite app_nil_r.
    - cbn [map] in Hs. apply sortedKeys_cons in Hs as [He Hs]. rewrite Forall_map in He. simpl in He.
      rewrite insertKey_last.
      + rewrite IH; [by rewrite <- app_assoc | done |]. apply Forall_app. split.
        * eapply Forall_impl; [exact Hacc|]. intros kv Hkv. by inversion Hkv.
        * by repeat constructor.
      + eapply Forall_impl; [exact Hacc|]. intros kv Hkv. by inversion Hkv. }
  intros Hs. split; [by apply (Hgo [] l)|].
  clear Hgo. induction l as [|e l IH]; [done|].
  cbn [map] in *. apply sortedKeys_cons in Hs as [He Hs]. apply sortedKeys_cons.
  split; [|by apply IH]. rewrite Forall_map in *. exact He.
Qed.

Lemma engines_roundtrip l : enginesWf l -> engines_convertFromJson (engines_toJson l) = l.
Proof using Type*.
  intros [Hn Hs]. destruct (engines_toJson_map l Hs) as [-> _].
  unfold engines_convertFromJson. rewrite map_map. clear Hs.
  induction Hn as [|[n b] l Hn _ IH]; [done|]. simpl in *. rewrite IH.
  unfold toInt. by rewrite qt_toInt_number.
Qed.

(** The members in the order of their names. *)
Lemma parts_toJson_eq p :
  parts_toJson p =
  [(lit "engines", JObject (engines_toJson (m_engines p)));
   (lit "flaps_pct", JInteger (m_flapsPercentage p)); (lit "gear_down", JBool (m_gearDown p));
   (lit "lights", JObject (lights_toJson (m_lights p)));
   (lit "on_ground", JBool (m_isOnGround p)); (lit "spoilers_out", JBool (m_spoilersOut p))].
Proof using Type. reflexivity. Qed.

Lemma parts_wfJson p : enginesWf (m_engines p) -> wfJson (JObject (parts_toJson p)) = true.
Proof using Type.
  intros [_ Hs]. destruct (engines_toJson_map _ Hs) as [He Hk].
  rewrite parts_toJson_eq. cbn [wfJson forallb snd]. rewrite He, Hk.
  assert (forallb (fun kv => wfJson kv.2) (map engineMember (m_engines p)) = true) as ->.
  { clear. induction (m_engines p) as [|e l IH]; [done|]. cbn [map forallb]. by rewrite IH. }
  reflexivity.
Qed.

Lemma parts_shape p q :
  enginesWf (m_engines p) -> enginesWf (m_engines q) ->
  keepsShape (JObject (parts_toJson p)) (JObject (parts_toJson q)) = true <->
  forall e, e ∈ m_engines p -> exists e', e' ∈ m_engines q /\ m_number e' = m_number e.
Proof using Type*.
  intros [Hnp Hp] [Hnq Hq]. destruct (engines_toJson_map _ Hp) as [Ep Sp].
  destruct (engines_toJson_map _ Hq) as [Eq Sq].
  transitivity (keepsShape (JObject (engines_toJson (m_engines p)))
                  (JObject (engines_toJson (m_engines q))) = true).
  { change (keepsShape (JObject (parts_toJson p)) (JObject (parts_toJson q))) with
      (keepsShape (JObject (engines_toJson (m_engines p))) (JObject (engines_toJson (m_engines q))) && true).
    rewrite andb_true_r. reflexivity. }
  rewrite Ep, Eq, keepsShape_iff by done. rewrite Forall_forall in Hnp, Hnq. split.
  - intros Hs e He. destruct (Hs (engineMember e).1 (engineMember e).2) as (w & Hw & _).
    { apply value_elem; [done|]. apply list_elem_of_fmap. by exists e. }
    apply value_elem in Hw; [|done]. apply list_elem_of_fmap in Hw as (e' & [= En _] & He').
    exists e'. split; [done|]. apply (f_equal qt_toInt) in En.
    rewrite !qt_toInt_number in En by auto. by injection En.
  - intros Hs k v Hv. apply value_elem in Hv; [|done].
    apply list_elem_of_fmap in Hv as (e & [= -> ->] & He). destruct (Hs e He) as (e' & He' & En).
    exists (engineMember e').2. split; [|done]. apply value_elem; [done|].
    apply list_elem_of_fmap. exists e'. split; [|done]. unfold engineMember. by rewrite En.
Qed.

Lemma parts_convert p q :
  partsWf p ->
  parts_convertFromJson (parts_toJson p) q =
  mkParts (lights_convertFromJson (lights_toJson (m_lights p)) (m_lights q)) (m_engines p)
    (m_partsDetails q) (m_flapsPercentage p) (m_gearDown p) (m_spoilersOut p) (m_isOnGround p).
Proof using Type*.
  intros [He Hf].
  transitivity (mkParts (lights_convertFromJson (lights_toJson (m_lights p)) (m_lights q))
    (engines_convertFromJson (engines_toJson (m_engines p))) (m_partsDetails q)
    (if decide (inS 32 (m_flapsPercentage p)) then m_flapsPercentage p else 0)
    (m_gearDown p) (m_spoilersOut p) (m_isOnGround p)); [reflexivity|].
  rewrite engines_roundtrip by done. by rewrite decide_True.
Qed.
Lemma lights_roundtrip l l' :
  lights_convertFromJson (lights_toJson l) l' =
  mkLights (m_isNull l') (m_strobeOn l) (m_landingOn l) (m_taxiOn l) (m_beaconOn l) (m_navOn l)
    (m_logoOn l) (m_recognitionOn l) (m_cabinOn l) (m_wingOn l).
Proof using Type. reflexivity. Qed.

(** Parts survive the way over JSON.  Reading the JSON of parts, over
    whatever parts, gives parts equal to them, provided that the lights are
    both null or both not; the details are not part of the JSON. *)
Theorem parts_roundtrip p q :
  partsWf p -> m_isNull (m_lights p) = m_isNull (m_lights q) ->
  let r := parts_convertFromJson (parts_toJson p) q in
  parts_eqb r p = true /\ m_partsDetails r = m_partsDetails q.
Proof using Type*.
  intros Hp Hl. cbv zeta. rewrite parts_convert, lights_roundtrip, <- Hl by done. split; [|done].
  destruct p as [[] ? ? ? ? ? ?]. unfold parts_eqb, EuroscopeSimData.lights_eqb. simpl.
  by rewrite !bool_decide_true.
Qed.

(** ** The configuration received *)

Lemma incremental_not_full p q :
  toBool (value (lit attributeNameIsFullJson) (getIncrementalObject (parts_toJson p) (parts_toJson q)))
  = false.
Proof using Type.
  rewrite value_getIncrementalObject; [reflexivity|]. rewrite parts_toJson_eq. reflexivity.
Qed.

(** A receiver whose latest parts are the ones the sender has sent before
    follows it. *)
Lemma storeAircraftParts_follows `{BuildConfig} p q r :
  partsWf p -> partsWf q -> parts_toJson r = parts_toJson p ->
  (forall e, e ∈ m_engines p -> exists e', e' ∈ m_engines q /\ m_number e' = m_number e) ->
  exists r', storeAircraftParts true true r (getIncrementalObject (parts_toJson p) (parts_toJson q)) = Some r' /\
             parts_toJson r' = parts_toJson q /\ m_partsDetails r' = FSDAircraftParts.
Proof using Type*.
  intros Hp Hq Hr He. unfold storeAircraftParts. rewrite incremental_not_full, Hr. cbn [negb andb]. cbv zeta.
  assert (applyIncrementalObject (parts_toJson p)
            (getIncrementalObject (parts_toJson p) (parts_toJson q)) = parts_toJson q) as ->.
  { apply (incremental_iff (JObject (parts_toJson p))); [done | | |].
    - apply parts_wfJson, Hp.
    - apply parts_wfJson, Hq.
    - apply parts_shape; [apply Hp | apply Hq | done]. }
  rewrite parts_convert, lights_roundtrip by done. eexists. split; [reflexivity|].
  split; [|reflexivity]. rewrite !parts_toJson_eq. cbn [m_engines m_flapsPercentage m_gearDown
    m_lights m_isOnGround m_spoilersOut]. by destruct (m_lights q).
Qed.

(** A full configuration is followed whatever the receiver has. *)
Lemma storeAircraftParts_full `{BuildConfig} p r synchronized :
  partsWf p ->
  exists r', storeAircraftParts true synchronized r (toFullJson p) = Some r' /\ parts_toJson r' = parts_toJson p /\
             m_partsDetails r' = FSDAircraftParts.
Proof using Type*.
  intros Hp. unfold storeAircraftParts.
  assert (toBool (value (lit attributeNameIsFullJson) (toFullJson p)) = true) as ->.
  { unfold toFullJson, parts_withFull. rewrite parts_toJson_eq. reflexivity. }
  rewrite andb_false_r. cbn [negb]. cbv zeta.
  assert ((length (toFullJson p) <? 3)%nat = false) as ->.
  { unfold toFullJson, parts_withFull. rewrite parts_toJson_eq. reflexivity. }
  rewrite andb_false_r.
  assert (parts_convertFromJson (toFullJson p) CAircraftParts_default =
          parts_convertFromJson (parts_toJson p) CAircraftParts_default) as ->.
  { unfold toFullJson, parts_withFull. rewrite parts_toJson_eq. reflexivity. }
  rewrite parts_convert, lights_roundtrip by done. eexists. split; [reflexivity|].
  split; [|reflexivity]. rewrite !parts_toJson_eq. cbn [m_engines m_flapsPercentage m_gearDown
    m_lights m_isOnGround m_spoilersOut]. by destruct (m_lights p).
Qed.
End laws.

Lemma parts_roundtrip_witness :
  let p := mkParts (setAllOn CAircraftLights_default) (initEngines 4 true) NotSet 40 true true false in
  parts_eqb (parts_convertFromJson (parts_toJson p) CAircraftParts_null) p = true.
Proof.
  apply parts_roundtrip; [|reflexivity].
  split; [split; [repeat constructor; vm_compute; congruence | vm_compute; reflexivity]|].
  split; vm_compute; congruence.
Defined.

(** An engine number that is gone stays with the receiver: the difference
    cannot remove a member. *)
Example engine_lost :
  let p := mkParts CAircraftLights_default (initEngines 2 true) NotSet 0 false false false in
  let q := mkParts CAircraftLights_default (initEngines 1 true) NotSet 0 false false false in
  parts_eqb p q = false /\ getIncrementalObject (parts_toJson p) (parts_toJson q) = [].
Proof. split; vm_compute; reflexivity. Qed.

(** [setEngines] repeats the number of its engine. *)
Lemma setEngines_same_number `{QtConv} e n :
  (0 < n)%nat -> engines_toJson (setEngines e n) = [engineMember e].
Proof.
  intros Hn. destruct n as [|n]; [lia|]. unfold setEngines, engines_toJson. clear Hn.
  change (foldl (fun map e => insertKey (qt_number (m_number e)) (JObject (engine_toJson e)) map)
            [engineMember e] (replicate n e) = [engineMember e]).
  induction n as [|n IH]; [done|]. cbn [replicate foldl].
  assert (insertKey (qt_number (m_number e)) (JObject (engine_toJson e)) [engineMember e]
          = [engineMember e]) as ->; [|exact IH].
  simpl. by rewrite decide_True.
Qed.
