(* ===== verification/TimestampList.v ===== *)
(** * Objects and lists with timestamps (misc/timestampbased.h, .cpp, misc/timestampobjectlist.h)

    What remembers the last situations and parts of an aircraft: a list of objects
    with a time and an offset, the latest first.  Times are milliseconds since
    the epoch, -1 when not set; the adjusted time is the time plus the offset.
    Objects are an interface, which CAircraftParts and CAircraftSituation
    implement in [RemoteAircraft].  [CSequence::sort] calls std::sort, which leaves the
    order of equal elements open, so the sort is an interface as well. *)

From S2P Require Export Prelude.
From Stdlib Require Export Sorted Permutation.
From stdpp Require Export sorting.

Open Scope Z_scope.

Definition int64_max : Z := 9223372036854775807.
Definition int64_min : Z := -9223372036854775808.

(** ** Objects *)

(** ITimestampWithOffsetBased, with the default constructor. *)
Class TimestampBased (OBJ : Type) := {
  getMSecsSinceEpoch : OBJ -> Z; setMSecsSinceEpoch : Z -> OBJ -> OBJ;
  getTimeOffsetMs : OBJ -> Z; setTimeOffsetMs : Z -> OBJ -> OBJ; OBJ_default : OBJ }.

(** The two times are members that are independent of each other. *)
Class TimestampBasedLaws (OBJ : Type) `{TimestampBased OBJ} := {
  get_setMSecs t (o : OBJ) : getMSecsSinceEpoch (setMSecsSinceEpoch t o) = t;
  offset_setMSecs t (o : OBJ) : getTimeOffsetMs (setMSecsSinceEpoch t o) = getTimeOffsetMs o;
  msecs_setOffset t (o : OBJ) : getMSecsSinceEpoch (setTimeOffsetMs t o) = getMSecsSinceEpoch o;
  get_setOffset t (o : OBJ) : getTimeOffsetMs (setTimeOffsetMs t o) = t;
  setOffset_setOffset t t' (o : OBJ) : setTimeOffsetMs t (setTimeOffsetMs t' o) = setTimeOffsetMs t o;
  setOffset_get (o : OBJ) : setTimeOffsetMs (getTimeOffsetMs o) o = o }.

Section object.
Context {OBJ : Type} `{TimestampBased OBJ}.
Implicit Types o : OBJ.

(** QDateTime, [None] when not valid. *)
Definition getUtcTimestamp (o : OBJ) : option Z :=
  if getMSecsSinceEpoch o <? 0 then None else Some (getMSecsSinceEpoch o).
Definition setTimestampToNull (o : OBJ) : OBJ := setMSecsSinceEpoch (-1) o.
Definition setUtcTimestamp (timestamp : option Z) (o : OBJ) : OBJ :=
  setMSecsSinceEpoch (default (-1) timestamp) o.
Definition setCurrentUtcTime (now : Z) (o : OBJ) : OBJ := setMSecsSinceEpoch now o.
Definition hasValidTimestamp (o : OBJ) : bool := 0 <=? getMSecsSinceEpoch o.
Definition isNewerThan (mSecsSinceEpoch : Z) (o : OBJ) : bool := mSecsSinceEpoch <? getMSecsSinceEpoch o.
Definition isOlderThan (mSecsSinceEpoch : Z) (o : OBJ) : bool := getMSecsSinceEpoch o <? mSecsSinceEpoch.
Definition isOlderThanNowMinusOffset (now offsetMs : Z) (o : OBJ) : bool :=
  if offsetMs <=? 0 then false else getMSecsSinceEpoch o <? now - offsetMs.
Definition msecsTo (other o : OBJ) : Z := getMSecsSinceEpoch other - getMSecsSinceEpoch o.
Definition absMsecsTo (other o : OBJ) : Z :=
  let dt := msecsTo other o in if 0 <? dt then dt else dt * -1.
Definition msecsToNow (now : Z) (o : OBJ) : Z :=
  if getMSecsSinceEpoch o <? 0 then now else now - getMSecsSinceEpoch o.
Definition addMsecs (ms : Z) (o : OBJ) : OBJ := setMSecsSinceEpoch (getMSecsSinceEpoch o + ms) o.
Definition updateMissingParts (other o : OBJ) : OBJ :=
  if getMSecsSinceEpoch o <? 0 then setMSecsSinceEpoch (getMSecsSinceEpoch other) o else o.
Definition getTimeDifferenceMs (compareTime : Z) (o : OBJ) : Z := compareTime - getMSecsSinceEpoch o.
Definition getAbsTimeDifferenceMs (compareTime : Z) (o : OBJ) : Z :=
  Z.abs (getTimeDifferenceMs compareTime o).

Definition hasNonZeroOffsetTime (o : OBJ) : bool := negb (getTimeOffsetMs o =? 0).
Definition addMsecsToOffsetTime (ms : Z) (o : OBJ) : OBJ := setTimeOffsetMs (getTimeOffsetMs o + ms) o.
Definition getAdjustedMSecsSinceEpoch (o : OBJ) : Z := getMSecsSinceEpoch o + getTimeOffsetMs o.
Definition setAdjustedMSecsSinceEpoch (adjustedTimeMs : Z) (o : OBJ) : OBJ :=
  setMSecsSinceEpoch (adjustedTimeMs - getTimeOffsetMs o) o.
Definition getAdjustedTimeDifferenceMs (compareTime : Z) (o : OBJ) : Z :=
  getAdjustedMSecsSinceEpoch o - compareTime.
Definition isNewerThanAdjusted (mSecsSinceEpoch : Z) (o : OBJ) : bool :=
  mSecsSinceEpoch <? getAdjustedMSecsSinceEpoch o.
Definition isOlderThanAdjusted (mSecsSinceEpoch : Z) (o : OBJ) : bool :=
  getAdjustedMSecsSinceEpoch o <? mSecsSinceEpoch.
End object.

(** ** Sorting *)

(** std::sort by a member that is a number. *)
Class StdSort := { std_sort : forall {A : Type}, (A -> Z) -> list A -> list A }.
Class StdSortLaws `{StdSort} := {
  std_sort_perm {A} (key : A -> Z) l : Permutation (std_sort key l) l;
  std_sort_sorted {A} (key : A -> Z) l : StronglySorted (fun a b => key a <= key b) (std_sort key l) }.

(** ** Lists *)

Inductive HintTimestampSort := NoTimestampSortHint | TimestampLatestFirst | TimestampLatestLast.
Inductive HintAdjustedTimestampSort := NoAdjustedTimestampSortHint | AdjustedTimestampLatestFirst.

(** ITimestampWithOffsetObjectList: the sequence and the two hints.  A list
    made from a sequence ([ofSequence]) has no hints. *)
Record CONTAINER (OBJ : Type) := mkContainer {
  items : list OBJ; m_tsSortHint : HintTimestampSort;
  m_tsAdjustedSortHint : HintAdjustedTimestampSort }.
Arguments mkContainer {OBJ} _ _ _.
Arguments items {OBJ} _.
Arguments m_tsSortHint {OBJ} _.
Arguments m_tsAdjustedSortHint {OBJ} _.

(** std::min_element and std::max_element: the first of the extreme elements. *)
Definition min_element {A} (key : A -> Z) (l : list A) : option A :=
  match l with
  | [] => None
  | a :: l => Some (foldl (fun best x => if key x <? key best then x else best) a l)
  end.
Definition max_element {A} (key : A -> Z) (l : list A) : option A :=
  match l with
  | [] => None
  | a :: l => Some (foldl (fun best x => if key best <? key x then x else best) a l)
  end.

(** The minimum, the maximum and the mean, which the code turns into a double
    after an integer division. *)
Record MillisecondsMinMaxMean := mkMmm { mmm_min : Z; mmm_max : Z; mmm_mean : Z }.
Definition mmm_reset : MillisecondsMinMaxMean := mkMmm (-1) (-1) (-1).
Definition mmm_isValid (m : MillisecondsMinMaxMean) : bool := (0 <=? mmm_min m) && (0 <=? mmm_max m).

Section lists.
Context {OBJ : Type} `{TimestampBased OBJ} `{StdSort}.
Implicit Types (c : CONTAINER OBJ) (l : list OBJ).

Definition ofSequence l : CONTAINER OBJ := mkContainer l NoTimestampSortHint NoAdjustedTimestampSortHint.
Definition withItems (f : list OBJ -> list OBJ) c : CONTAINER OBJ :=
  mkContainer (f (items c)) (m_tsSortHint c) (m_tsAdjustedSortHint c).
Definition setSortHint (hint : HintTimestampSort) c : CONTAINER OBJ :=
  mkContainer (items c) hint (m_tsAdjustedSortHint c).
Definition setAdjustedSortHint (hint : HintAdjustedTimestampSort) c : CONTAINER OBJ :=
  mkContainer (items c) (m_tsSortHint c) hint.

(** CSequence; [findBy] gives a plain sequence. *)
Definition findBy (p : OBJ -> bool) c : CONTAINER OBJ := ofSequence (filter (fun o => p o = true) (items c)).
Definition removeIf (p : OBJ -> bool) c : Z * CONTAINER OBJ :=
  let rest := filter (fun o => p o = false) (items c) in
  (Z.of_nat (length (items c)) - Z.of_nat (length rest), withItems (fun _ => rest) c).
Definition truncate (maxSize : nat) l : list OBJ := take maxSize l.

(** ITimestampObjectList *)
Definition latestObject c : OBJ := default OBJ_default (max_element getMSecsSinceEpoch (items c)).
Definition oldestObject c : OBJ := default OBJ_default (min_element getMSecsSinceEpoch (items c)).

Definition findBefore (msSinceEpoch : Z) c : CONTAINER OBJ := findBy (isOlderThan msSinceEpoch) c.
Definition findAfter (msSinceEpoch : Z) c : CONTAINER OBJ := findBy (isNewerThan msSinceEpoch) c.
Definition findObjectBeforeOrDefault (msSinceEpoch : Z) c : OBJ := latestObject (findBefore msSinceEpoch c).
Definition findObjectAfterOrDefault (msSinceEpoch : Z) c : OBJ := oldestObject (findAfter msSinceEpoch c).
Definition findBeforeNowMinusOffset (now msOffset : Z) c : CONTAINER OBJ := findBefore (now - msOffset) c.
Definition findAfterNowMinusOffset (now msOffset : Z) c : CONTAINER OBJ := findAfter (now - msOffset) c.
Definition removeBefore (msSinceEpoch : Z) c : Z * CONTAINER OBJ := removeIf (isOlderThan msSinceEpoch) c.
Definition removeOlderThanNowMinusOffset (now offsetMs : Z) c : Z * CONTAINER OBJ :=
  removeIf (isOlderThan (now - offsetMs)) c.
Definition findBeforeAndRemove (msSinceEpoch : Z) c : CONTAINER OBJ * CONTAINER OBJ :=
  (findBefore msSinceEpoch c, snd (removeBefore msSinceEpoch c)).
Definition findInvalidTimestamps c : CONTAINER OBJ := findBy (fun o => negb (hasValidTimestamp o)) c.
Definition hasInvalidTimestamps c : bool := existsb (fun o => negb (hasValidTimestamp o)) (items c).
Definition findClosestTimeDistance (msSinceEpoch : Z) c : OBJ :=
  default OBJ_default (min_element (fun o => Z.abs (getTimeDifferenceMs msSinceEpoch o)) (items c)).

Definition setUtcTime (msSinceEpoch : Z) c : CONTAINER OBJ :=
  withItems (map (setMSecsSinceEpoch msSinceEpoch)) c.
Definition setInvalidTimestampsToCurrentUtcTime (now : Z) c : CONTAINER OBJ :=
  withItems (map (fun o => if hasValidTimestamp o then o else setCurrentUtcTime now o)) c.
Definition list_addMsecs (msToAdd : Z) c : CONTAINER OBJ :=
  if msToAdd =? 0 then c else withItems (map (addMsecs msToAdd)) c.

Definition latestTimestamp c : option Z :=
  if decide (items c = []) then None else getUtcTimestamp (latestObject c).
Definition latestTimestampMsecsSinceEpoch c : Z := default (-1) (latestTimestamp c).
Definition oldestTimestamp c : option Z :=
  if decide (items c = []) then None else getUtcTimestamp (oldestObject c).
Definition oldestTimestampMsecsSinceEpoch c : Z := default (-1) (oldestTimestamp c).

Definition sortOldestFirst l : list OBJ := std_sort getMSecsSinceEpoch l.
Definition sortLatestFirst l : list OBJ := rev (sortOldestFirst l).

(** [maxElements] is negative for no limit. *)
Definition truncateTo (maxElements : Z) (n : Z) l : list OBJ :=
  if 0 <? maxElements then truncate (Z.to_nat n) l else l.
Definition push_frontKeepLatestFirst (value : OBJ) (replaceSameTimestamp : bool) (maxElements : Z) c :
    CONTAINER OBJ :=
  withItems (fun l =>
    match l with
    | front :: rest =>
        if replaceSameTimestamp && (getMSecsSinceEpoch front =? getMSecsSinceEpoch value)
        then truncateTo maxElements maxElements (value :: rest)
        else
          let l := truncateTo maxElements (maxElements - 1) l in
          let needSort := match l with [] => false
                          | front :: _ => isOlderThan (getMSecsSinceEpoch front) value end in
          if needSort then sortLatestFirst (value :: l) else value :: l
    | [] => [value]
    end) c.

Definition push_backOverrideTimestamp (newObject : OBJ) (newTsMsSinceEpoch : Z) c : CONTAINER OBJ :=
  withItems (fun l => l ++ [setMSecsSinceEpoch newTsMsSinceEpoch newObject]) c.
Definition push_backIncreaseTimestamp (newObject : OBJ) c : CONTAINER OBJ :=
  match last (items c) with
  | None => withItems (fun l => l ++ [newObject]) c
  | Some back =>
      let newMs := getMSecsSinceEpoch newObject in
      let oldMs := getMSecsSinceEpoch back in
      if oldMs <? newMs then withItems (fun l => l ++ [newObject]) c
      else push_backOverrideTimestamp newObject (oldMs + 1) c
  end.
(** Walks the list from its end. *)
Fixpoint setNewTimestamps (currentMs deltaTimeMs : Z) (reversed : list OBJ) : list OBJ :=
  match reversed with
  | [] => []
  | o :: reversed => setMSecsSinceEpoch currentMs o
                     :: setNewTimestamps (currentMs + deltaTimeMs) deltaTimeMs reversed
  end.
Definition setNewTimestampStartingLast (startTimeStampMs deltaTimeMs : Z) c : CONTAINER OBJ :=
  withItems (fun l => rev (setNewTimestamps startTimeStampMs deltaTimeMs (rev l))) c.
Definition replaceIfSameTimestamp (newObject : OBJ) c : nat * CONTAINER OBJ :=
  let same o := getMSecsSinceEpoch o =? getMSecsSinceEpoch newObject in
  (length (filter (fun o => same o = true) (items c)),
   withItems (map (fun o => if same o then newObject else o)) c).

(** The loops over a list that check its order. *)
Fixpoint descends (key : OBJ -> Z) (min : Z) l : bool :=
  match l with
  | [] => true
  | o :: l => if negb (hasValidTimestamp o) then false
              else if min <? key o then false else descends key (key o) l
  end.
Fixpoint ascends (key : OBJ -> Z) (max : Z) l : bool :=
  match l with
  | [] => true
  | o :: l => if negb (hasValidTimestamp o) then false
              else if key o <? max then false else ascends key (key o) l
  end.
Definition isSortedLatestLast c : bool :=
  if (length (items c) <? 2)%nat then true else ascends getMSecsSinceEpoch (-1) (items c).
Definition isSortedLatestFirst c : bool :=
  if (length (items c) <? 2)%nat then true else descends getMSecsSinceEpoch int64_max (items c).

(** The loop over the differences; [count] counts the objects. *)
Fixpoint differences (last : OBJ) (m : MillisecondsMinMaxMean) (count : Z) l : MillisecondsMinMaxMean * Z :=
  match l with
  | [] => (m, count)
  | o :: l =>
      let diff := getAbsTimeDifferenceMs (getMSecsSinceEpoch o) last in
      differences o (mkMmm (Z.min diff (mmm_min m)) (Z.max diff (mmm_max m)) (mmm_mean m + diff)) (count + 1) l
  end.
Definition getTimestampDifferenceMinMaxMean c : MillisecondsMinMaxMean :=
  match (match m_tsSortHint c with NoTimestampSortHint => sortLatestFirst (items c) | _ => items c end) with
  | first :: (_ :: _) as rest =>
      let '(m, count) := differences first (mkMmm int64_max int64_min 0) 1 rest in
      mkMmm (mmm_min m) (mmm_max m) (Z.quot (mmm_mean m) count)
  | _ => mmm_reset
  end.

(** ITimestampWithOffsetObjectList *)
Definition sortAdjustedOldestFirst l : list OBJ := std_sort getAdjustedMSecsSinceEpoch l.
Definition sortAdjustedLatestFirst l : list OBJ := rev (sortAdjustedOldestFirst l).
Definition getSortedAdjustedLatestFirst c : CONTAINER OBJ := withItems sortAdjustedLatestFirst c.
Definition getLatestAdjustedTwoObjects (alreadySortedLatestFirst : bool) c : CONTAINER OBJ :=
  if (length (items c) <? 2)%nat then ofSequence []
  else withItems (truncate 2) (if alreadySortedLatestFirst then c else getSortedAdjustedLatestFirst c).
Definition containsZeroOrNegativeOffsetTime c : bool :=
  existsb (fun o => getTimeOffsetMs o <=? 0) (items c).
Definition containsNegativeOffsetTime c : bool := existsb (fun o => getTimeOffsetMs o <? 0) (items c).
Definition addMsecsToOffset (msToAdd : Z) c : CONTAINER OBJ :=
  withItems (map (addMsecsToOffsetTime msToAdd)) c.

Definition push_frontKeepLatestAdjustedFirst (value : OBJ) (replaceSameTimestamp : bool)
    (maxElements : Z) c : CONTAINER OBJ :=
  withItems (fun l =>
    match l with
    | front :: rest =>
        if replaceSameTimestamp && (getMSecsSinceEpoch front =? getMSecsSinceEpoch value)
        then truncateTo maxElements maxElements (value :: rest)
        else
          let l := truncateTo maxElements (maxElements - 1) l in
          let needSort := match l with [] => false
                          | front :: _ => isOlderThanAdjusted (getAdjustedMSecsSinceEpoch front) value end in
          if needSort then sortAdjustedLatestFirst (value :: l) else value :: l
    | [] => [value]
    end) c.

(** The front gets an offset that makes it newer than the second. *)
Definition adjustFront l : list OBJ :=
  match l with
  | front :: second :: rest =>
      if isNewerThanAdjusted (getAdjustedMSecsSinceEpoch second) front then l
      else
        let minReqOs := getAdjustedMSecsSinceEpoch second - getMSecsSinceEpoch front in
        let avgOs := Z.quot (getTimeOffsetMs front + getTimeOffsetMs second) 2 in
        setTimeOffsetMs (Z.max (minReqOs + 1) avgOs) front :: second :: rest
  | _ => l
  end.
Definition push_frontKeepLatestFirstAdjustOffset (value : OBJ) (replaceSameTimestamp : bool)
    (maxElements : Z) c : CONTAINER OBJ :=
  withItems adjustFront (push_frontKeepLatestFirst value replaceSameTimestamp maxElements c).
Definition push_frontKeepLatestFirstIgnoreOverlapping (value : OBJ) (replaceSameTimestamp : bool)
    (maxElements : Z) c : CONTAINER OBJ :=
  match items c with
  | front :: _ :: _ =>
      if getAdjustedMSecsSinceEpoch value <=? getAdjustedMSecsSinceEpoch front then c
      else push_frontKeepLatestFirst value replaceSameTimestamp maxElements c
  | _ => push_frontKeepLatestFirst value replaceSameTimestamp maxElements c
  end.

Definition prefillLatestAdjustedFirst (value : OBJ) (elements : nat) (deltaTimeMs : Z) c : CONTAINER OBJ :=
  let os := -1 * Z.abs (if deltaTimeMs <? 0 then getTimeOffsetMs value else deltaTimeMs) in
  mkContainer (value :: map (fun i => addMsecs (os * Z.of_nat i) value) (seq 1 (elements - 1)))
    (m_tsSortHint c) AdjustedTimestampLatestFirst.

Definition isSortedAdjustedLatestLast c : bool :=
  if decide (items c = []) then false
  else if (length (items c) <? 2)%nat then true
  else ascends getAdjustedMSecsSinceEpoch (-1) (items c).
Definition isSortedAdjustedLatestFirst c : bool :=
  if (length (items c) <? 2)%nat then true
  else descends getAdjustedMSecsSinceEpoch int64_max (items c).

Definition latestAdjustedObject c : OBJ :=
  match m_tsAdjustedSortHint c with
  | AdjustedTimestampLatestFirst => default OBJ_default (head (items c))
  | NoAdjustedTimestampSortHint => default OBJ_default (max_element getAdjustedMSecsSinceEpoch (items c))
  end.
Definition oldestAdjustedObject c : OBJ :=
  match m_tsAdjustedSortHint c with
  | AdjustedTimestampLatestFirst => default OBJ_default (last (items c))
  | NoAdjustedTimestampSortHint => default OBJ_default (min_element getAdjustedMSecsSinceEpoch (items c))
  end.
Definition findAfterAdjusted (msSinceEpoch : Z) c : CONTAINER OBJ :=
  findBy (isNewerThanAdjusted msSinceEpoch) c.
Definition findBeforeAdjusted (msSinceEpoch : Z) c : CONTAINER OBJ :=
  findBy (isOlderThanAdjusted msSinceEpoch) c.
Definition findObjectAfterAdjustedOrDefault (msSinceEpoch : Z) c : OBJ :=
  oldestAdjustedObject (findAfterAdjusted msSinceEpoch c).
Definition findObjectBeforeAdjustedOrDefault (msSinceEpoch : Z) c : OBJ :=
  latestAdjustedObject (findBeforeAdjusted msSinceEpoch c).
Definition findClosestTimeDistanceAdjusted (msSinceEpoch : Z) c : OBJ :=
  default OBJ_default (min_element (fun o => Z.abs (getAdjustedTimeDifferenceMs msSinceEpoch o)) (items c)).
Definition latestAdjustedTimestampMsecsSinceEpoch c : Z :=
  if decide (items c = []) then -1 else default (-1) (getUtcTimestamp (latestAdjustedObject c)).
Definition oldestAdjustedTimestampMsecsSinceEpoch c : Z :=
  if decide (items c = []) then -1 else default (-1) (getUtcTimestamp (oldestAdjustedObject c)).

Definition getOffsetMinMaxMean c : MillisecondsMinMaxMean :=
  if decide (items c = []) then mmm_reset
  else
    let os := map getTimeOffsetMs (filter (fun o => hasNonZeroOffsetTime o = true) (items c)) in
    mkMmm (foldl Z.min int64_max os) (foldl Z.max int64_min os)
      (if decide (os = []) then -1 else Z.quot (foldl Z.add 0 os) (Z.of_nat (length os))).
End lists.

(** A sort that satisfies the laws. *)
Definition keyLe {A} (key : A -> Z) (a b : A) : Prop := key a <= key b.
#[export] Instance keyLe_dec {A} (key : A -> Z) : RelDecision (keyLe key).
Proof. intros a b. apply Z.le_dec. Defined.
#[export] Instance merge_StdSort : StdSort :=
  {| std_sort := fun A key l => merge_sort (keyLe key) l |}.
#[export] Instance merge_StdSortLaws : StdSortLaws.
Proof.
  split; intros A key l; simpl.
  - apply merge_sort_Permutation.
  - apply StronglySorted_merge_sort; unfold keyLe; [intros a b c; lia | intros a b; lia].
Qed.

(** ** Sorted lists *)

Section order.
Context {A : Type}.
Implicit Types (key : A -> Z) (l : list A).

(** The latest first, in the order of a key. *)
Definition descending key l : Prop := StronglySorted (fun a b => key b <= key a) l.
Definition strictly_descending key l : Prop := StronglySorted (fun a b => key b < key a) l.

Lemma StronglySorted_rev (R : A -> A -> Prop) l :
  StronglySorted R l -> StronglySorted (fun a b => R b a) (rev l).
Proof.
  induction 1 as [|a l Hs IH Ha]; simpl; [constructor|].
  apply StronglySorted_app. split_and!; [|done | repeat constructor].
  intros x y Hx Hy. apply list_elem_of_singleton in Hy as ->.
  rewrite Forall_forall in Ha. apply Ha. by apply list_elem_of_In, in_rev, list_elem_of_In in Hx.
Qed.

Lemma strictly_weak key l : strictly_descending key l -> descending key l.
Proof.
  induction 1 as [|a l Hs IH Ha]; constructor; [done|].
  eapply Forall_impl; [exact Ha|]. simpl. lia.
Qed.

Lemma StronglySorted_take (R : A -> A -> Prop) n l : StronglySorted R l -> StronglySorted R (take n l).
Proof. intros Hl. rewrite <- (take_drop n l) in Hl. by apply StronglySorted_app in Hl as (_ & ? & _). Qed.

End order.

Lemma StronglySorted_map {A B} (R : B -> B -> Prop) (f : A -> B) l :
  StronglySorted R (map f l) <-> StronglySorted (fun a b => R (f a) (f b)) l.
Proof.
  induction l as [|a l IH]; simpl; [split; constructor|].
  split; intros Hs; inversion_clear Hs as [|? ? Hl Ha]; constructor;
    [by apply IH | by rewrite Forall_map in Ha | by apply IH | by rewrite Forall_map].
Qed.

(** The order is one of the times only. *)
Lemma descending_times {A B} (key : A -> Z) (key' : B -> Z) l l' :
  map key l = map key' l' -> descending key l -> descending key' l'.
Proof.
  unfold descending. intros E Hl.
  apply (StronglySorted_map (fun a b => b <= a) key'). rewrite <- E. by apply StronglySorted_map.
Qed.

Section elements.
Context {A : Type}.
Implicit Types (key : A -> Z) (l : list A).

(** std::min_element and std::max_element *)
Lemma min_element_spec key l :
  match min_element key l with
  | None => l = []
  | Some m => m ∈ l /\ Forall (fun x => key m <= key x) l
  end.
Proof.
  destruct l as [|a l]; simpl; [done|].
  set (f := fun best x => if key x <? key best then x else best).
  assert (Hgo : forall l a, let m := foldl f a l in
    (m = a \/ m ∈ l) /\ key m <= key a /\ Forall (fun x => key m <= key x) l).
  { clear. induction l as [|x l IH]; intros a; simpl; [split_and!; [by left | done | constructor]|].
    assert ((f a x = x /\ key x < key a) \/ (f a x = a /\ key a <= key x)) as Hf.
    { unfold f. destruct (Z.ltb_spec (key x) (key a)); auto. }
    destruct (IH (f a x)) as (Hin & Hle & Hall).
    split_and!; [|destruct Hf as [[E ?]|[E ?]]; rewrite E in *; lia | constructor; [|done]].
    - destruct Hin as [Hin | Hin]; [|by right; right]. rewrite Hin.
      destruct Hf as [[-> _]|[-> _]]; [right; left | by left].
    - destruct Hf as [[E ?]|[E ?]]; rewrite E in *; lia. }
  destruct (Hgo l a) as (Hin & Hle & Hall). split; [|by constructor].
  destruct Hin as [-> | Hin]; [left | by right].
Qed.
Lemma max_element_spec key l :
  match max_element key l with
  | None => l = []
  | Some m => m ∈ l /\ Forall (fun x => key x <= key m) l
  end.
Proof.
  assert (max_element key l = min_element (fun x => - key x) l) as ->.
  { destruct l as [|a l]; [done|]. simpl. f_equal. revert a. induction l as [|x l IH]; intros a; [done|].
    simpl. rewrite IH. f_equal. destruct (Z.ltb_spec (key a) (key x)), (Z.ltb_spec (- key x) (- key a)); done || lia. }
  pose proof (min_element_spec (fun x => - key x) l) as Hm. destruct (min_element _ l) as [m|]; [|done].
  destruct Hm as [Hm Hall]. split; [done|]. eapply Forall_impl; [exact Hall|]. simpl. lia.
Qed.
End elements.

Lemma sort_descending `{StdSortLaws} {A} (key : A -> Z) l :
  descending key (rev (std_sort key l)) /\ Permutation (rev (std_sort key l)) l.
Proof.
  split; [apply (StronglySorted_rev _ _ (std_sort_sorted key l))|].
  rewrite <- Permutation_rev. apply std_sort_perm.
Qed.

(** ** What pushing keeps *)

Section laws.
Context {OBJ : Type} `{TimestampBasedLaws OBJ} `{StdSortLaws}.
Implicit Types (c : CONTAINER OBJ) (l : list OBJ).

(** What the new object replaces: the front of the same time, else the
    oldest when the list is full. *)
Definition kept (value : OBJ) (n : nat) l : list OBJ :=
  match l with
  | front :: rest => if getMSecsSinceEpoch front =? getMSecsSinceEpoch value then take (n - 1) rest
                     else take (n - 1) l
  | [] => []
  end.

Lemma descending_cons (key : OBJ -> Z) v l :
  descending key l -> (forall f, head l = Some f -> key f <= key v) -> descending key (v :: l).
Proof using Type.
  intros Hl Hf. constructor; [done|]. destruct Hl as [|f l Hl Ha]; [constructor|].
  specialize (Hf f eq_refl). constructor; [done|]. eapply Forall_impl; [exact Ha|]. simpl. lia.
Qed.

Lemma push_items value n c :
  (1 < n)%nat ->
  let l := items (push_frontKeepLatestFirst value true (Z.of_nat n) c) in
  Permutation l (value :: kept value n (items c)) /\
  (descending getMSecsSinceEpoch (items c) -> descending getMSecsSinceEpoch l).
Proof using Type*.
  intros Hn. unfold push_frontKeepLatestFirst, truncateTo, truncate. simpl.
  destruct (items c) as [|f r] eqn:Hc; simpl; [split; [done|]; repeat constructor|].
  destruct (Z.ltb_spec 0 (Z.of_nat n)) as [_|]; [|lia].
  destruct (Z.eqb_spec (getMSecsSinceEpoch f) (getMSecsSinceEpoch value)) as [E|E].
  - replace (Z.to_nat (Z.of_nat n)) with (S (n - 1)) by lia. simpl.
    split; [done|]. intros Hl. inversion Hl as [|? ? Hr Hf]; subst.
    apply (StronglySorted_take _ (S (n - 1)) (value :: r)). constructor; [done|].
    eapply Forall_impl; [exact Hf|]. simpl. lia.
  - replace (Z.to_nat (Z.of_nat n - 1)) with (S (n - 2)) by lia.
    replace (n - 1)%nat with (S (n - 2)) by lia. simpl.
    unfold isOlderThan. destruct (Z.ltb_spec (getMSecsSinceEpoch value) (getMSecsSinceEpoch f)).
    + unfold sortLatestFirst, sortOldestFirst. split; [|intros _]; apply sort_descending.
    + split; [done|]. intros Hl. apply descending_cons.
      * apply (StronglySorted_take _ (S (n - 2)) (f :: r)), Hl.
      * intros ? [= <-]. done.
Qed.

Lemma push_bounded value n c :
  (1 < n)%nat -> (length (items c) <= n)%nat ->
  (length (items (push_frontKeepLatestFirst value true (Z.of_nat n) c)) <= n)%nat.
Proof using Type*.
  intros Hn Hl. destruct (push_items value n c Hn) as [Hp _]. rewrite Hp. simpl. unfold kept.
  destruct (items c) as [|f r]; simpl; [lia|]. case_match; rewrite length_take; simpl; lia.
Qed.

(** A list of at most [n] objects with the latest first stays so, whatever
    the time of the object pushed in front: it holds the object and what it does
    not replace. *)
Theorem push_keeps_latest_first value n c :
  (1 < n)%nat -> descending getMSecsSinceEpoch (items c) -> (length (items c) <= n)%nat ->
  let l := items (push_frontKeepLatestFirst value true (Z.of_nat n) c) in
  descending getMSecsSinceEpoch l /\ (length l <= n)%nat /\
  Permutation l (value :: kept value n (items c)).
Proof using Type*.
  intros Hn Hs Hl. cbv zeta. destruct (push_items value n c Hn) as [Hp Hd].
  split_and!; [by apply Hd | by apply push_bounded | done].
Qed.

(** ** The history of an aircraft *)

(** A raised offset. *)
Definition raised (value stored : OBJ) : Prop :=
  stored = setTimeOffsetMs (getTimeOffsetMs stored) value /\
  getTimeOffsetMs value <= getTimeOffsetMs stored.

Lemma raised_refl o : raised o o.
Proof using Type*. split; [by rewrite setOffset_get | lia]. Qed.
Lemma raised_time o o' : raised o o' -> getMSecsSinceEpoch o' = getMSecsSinceEpoch o.
Proof using Type*. intros [-> _]. apply msecs_setOffset. Qed.

Lemma adjustFront_cons v l :
  strictly_descending getAdjustedMSecsSinceEpoch l ->
  exists v', adjustFront (v :: l) = v' :: l /\ raised v v' /\
             strictly_descending getAdjustedMSecsSinceEpoch (v' :: l).
Proof using Type*.
  intros Hl. destruct Hl as [|s l Hl Hs]; simpl.
  { exists v. split_and!; [done | apply raised_refl | repeat constructor]. }
  unfold isNewerThanAdjusted.
  assert (forall v', getAdjustedMSecsSinceEpoch s < getAdjustedMSecsSinceEpoch v' ->
            strictly_descending getAdjustedMSecsSinceEpoch (v' :: s :: l)) as Hcons.
  { intros v' Hv. constructor; [by constructor|]. constructor; [done|].
    eapply Forall_impl; [exact Hs|]. simpl. lia. }
  destruct (Z.ltb_spec (getAdjustedMSecsSinceEpoch s) (getAdjustedMSecsSinceEpoch v)).
  { exists v. split_and!; [done | apply raised_refl | by apply Hcons]. }
  eexists. split; [reflexivity|]. set (os := Z.max _ _).
  assert (getAdjustedMSecsSinceEpoch s - getMSecsSinceEpoch v + 1 <= os) by lia.
  unfold getAdjustedMSecsSinceEpoch in *.
  split; [split|apply Hcons]; rewrite ?get_setOffset, ?msecs_setOffset; [done | lia | lia].
Qed.

Definition push (n : nat) c (value : OBJ) : CONTAINER OBJ :=
  push_frontKeepLatestFirstAdjustOffset value true (Z.of_nat n) c.

Lemma adjustFront_msecs l : map getMSecsSinceEpoch (adjustFront l) = map getMSecsSinceEpoch l.
Proof using Type*.
  destruct l as [|f [|g l]]; [done..|]. simpl. case_match; [done|]. simpl. by rewrite msecs_setOffset.
Qed.
(** What is not older than the front becomes the front, with another offset at most. *)
Lemma push_front n c v :
  (0 < n)%nat -> (forall f, head (items c) = Some f -> getMSecsSinceEpoch f <= getMSecsSinceEpoch v) ->
  exists k, head (items (push n c v)) = Some (setTimeOffsetMs k v).
Proof using Type*.
  intros Hn Hf. unfold push, push_frontKeepLatestFirstAdjustOffset, push_frontKeepLatestFirst. cbn [withItems items].
  assert (forall l, exists k, head (adjustFront (v :: l)) = Some (setTimeOffsetMs k v)) as Ha.
  { intros [|b l]; simpl; [exists (getTimeOffsetMs v); by rewrite setOffset_get|].
    case_match; [exists (getTimeOffsetMs v); by rewrite setOffset_get | by eexists]. }
  destruct (items c) as [|f r]; [apply Ha|]. specialize (Hf f eq_refl).
  unfold truncateTo, truncate. destruct (Z.ltb_spec 0 (Z.of_nat n)); [|lia].
  case_match; [destruct (Z.to_nat (Z.of_nat n)) eqn:E; [lia | apply Ha]|].
  destruct (Z.to_nat (Z.of_nat n - 1)); [apply Ha|]. cbn [take]. unfold isOlderThan.
  destruct (Z.ltb_spec (getMSecsSinceEpoch v) (getMSecsSinceEpoch f)); [lia | apply Ha].
Qed.
Lemma push_ok n c value :
  (1 < n)%nat -> descending getMSecsSinceEpoch (items c) -> (length (items c) <= n)%nat ->
  descending getMSecsSinceEpoch (items (push n c value)) /\ (length (items (push n c value)) <= n)%nat.
Proof using Type*.
  intros Hn Hs Hl. unfold push, push_frontKeepLatestFirstAdjustOffset. cbn [withItems items].
  set (l := items (push_frontKeepLatestFirst value true (Z.of_nat n) c)).
  pose proof (adjustFront_msecs l) as E. split.
  - apply (descending_times getMSecsSinceEpoch getMSecsSinceEpoch l); [done|]. by apply push_items.
  - apply (f_equal length) in E. rewrite !length_map in E. rewrite E. by apply push_bounded.
Qed.

(** A prefilled list: copies of the value, one offset apart. *)
Lemma prefill_msecs value n d c :
  map getMSecsSinceEpoch (items (prefillLatestAdjustedFirst value (S n) d c)) =
  map (fun i => getMSecsSinceEpoch value - Z.abs (if d <? 0 then getTimeOffsetMs value else d) * Z.of_nat i)
    (seq 0 (S n)).
Proof using Type*.
  unfold prefillLatestAdjustedFirst. cbn [items map seq]. rewrite Nat.sub_succ, Nat.sub_0_r. f_equal; [lia|].
  rewrite map_map. apply map_ext. intros i. unfold addMsecs. rewrite get_setMSecs. lia.
Qed.
Lemma prefill_ok value n d c :
  (0 < n)%nat ->
  let l := items (prefillLatestAdjustedFirst value n d c) in
  descending getMSecsSinceEpoch l /\ length l = n.
Proof using Type*.
  intros Hn. destruct n as [|n]; [lia|]. cbv zeta. split.
  - eapply (descending_times (fun i => _) getMSecsSinceEpoch); [symmetry; apply prefill_msecs|].
    generalize (S n), 0%nat. induction n0 as [|m IH]; intros i; simpl; [constructor|].
    constructor; [apply IH|]. apply Forall_forall. intros j Hj%list_elem_of_In%in_seq. nia.
  - unfold prefillLatestAdjustedFirst. cbn [items length]. rewrite length_map, length_seq. lia.
Qed.

(** The last of the objects with its time. *)
Definition lastOfTime (vs : list OBJ) (x : OBJ) : Prop :=
  exists before after, vs = before ++ x :: after /\
    Forall (fun y => getMSecsSinceEpoch y <> getMSecsSinceEpoch x) after.

Lemma lastOfTime_snoc vs v x :
  lastOfTime (vs ++ [v]) x <->
  x = v \/ (lastOfTime vs x /\ getMSecsSinceEpoch x <> getMSecsSinceEpoch v).
Proof using Type.
  split.
  - intros (b & a & E & Ha). destruct a as [|y a _] using rev_ind.
    + apply app_inj_tail in E as [_ ->]. by left.
    + right. rewrite app_comm_cons, app_assoc in E. apply app_inj_tail in E as [-> ->].
      apply Forall_app in Ha as [Ha Hv]. inversion_clear Hv. split; [by exists b, a | congruence].
  - intros [-> | [(b & a & -> & Ha) Hx]]; [exists vs, []; by split|].
    exists b, (a ++ [v]). rewrite <- app_assoc. split; [done|].
    apply Forall_app. repeat constructor; [done | congruence].
Qed.

(** The relation between the history, without bound and offsets, and the list. *)
Definition holdsHistory (n : nat) (vs : list OBJ) (h l : list OBJ) : Prop :=
  strictly_descending getMSecsSinceEpoch h /\ (forall x, x ∈ h <-> lastOfTime vs x) /\
  Forall2 raised (take n h) l /\ strictly_descending getAdjustedMSecsSinceEpoch l.

Lemma holdsHistory_push n vs h c v :
  (1 < n)%nat -> holdsHistory n vs h (items c) ->
  Forall (fun y => getMSecsSinceEpoch y <= getMSecsSinceEpoch v) vs ->
  exists h', holdsHistory n (vs ++ [v]) h' (items (push n c v)).
Proof using Type*.
  intros Hn (Hh & Hin & HF & Hl) Hv.
  assert (Hhv : Forall (fun y => getMSecsSinceEpoch y <= getMSecsSinceEpoch v) h).
  { apply Forall_forall. intros x (b & a & -> & _)%Hin.
    apply Forall_app in Hv as [_ Hv]. by inversion Hv. }
  unfold push, push_frontKeepLatestFirstAdjustOffset, push_frontKeepLatestFirst, truncateTo, truncate.
  cbn [withItems items]. destruct (Z.ltb_spec 0 (Z.of_nat n)) as [_|]; [|lia].
  destruct h as [|f r].
  - rewrite take_nil in HF. destruct (items c); [|inversion HF]. cbn [adjustFront]. exists [v]. split_and!.
    + repeat constructor.
    + intros x. rewrite list_elem_of_singleton, lastOfTime_snoc, <- Hin.
      pose proof (not_elem_of_nil x). tauto.
    + destruct n; [lia|]. cbn [take]. rewrite take_nil. constructor; [apply raised_refl | constructor].
    + repeat constructor.
  - destruct n as [|n]; [lia|]. cbn [take] in HF.
    destruct (items c) as [|f' r']; [inversion HF|]. apply Forall2_cons_1 in HF as [Hf HFr]. inversion Hl as [|? ? Hr' _]; subst.
    inversion Hh as [|? ? Hr Hfr]; subst. inversion_clear Hhv as [|? ? Hfv _].
    rewrite (raised_time _ _ Hf).
    destruct (Z.eqb_spec (getMSecsSinceEpoch f) (getMSecsSinceEpoch v)) as [E|E]; cbn [andb].
    + replace (Z.to_nat (Z.of_nat (S n))) with (S n) by lia. cbn [take].
      assert (take n r' = r') as ->.
      { apply take_ge. rewrite <- (Forall2_length _ _ _ HFr), length_take. lia. }
      destruct (adjustFront_cons v r' Hr') as (v' & -> & Hvv & Hs).
      exists (v :: r). split_and!; [ | | by constructor | done].
      * constructor; [done|]. by rewrite <- E.
      * intros x. rewrite elem_of_cons, lastOfTime_snoc, <- Hin, elem_of_cons. split.
        -- intros [-> | Hx]; [by left|]. right. split; [by right|].
           rewrite Forall_forall in Hfr. specialize (Hfr _ Hx). simpl in Hfr. lia.
        -- intros [-> | [[-> | Hx] Hne]]; [by left | congruence | by right].
    + replace (Z.to_nat (Z.of_nat (S n) - 1)) with (S (n - 1)) by lia. cbn [take].
      unfold isOlderThan. rewrite (raised_time _ _ Hf).
      destruct (Z.ltb_spec (getMSecsSinceEpoch v) (getMSecsSinceEpoch f)); [lia|].
      destruct (adjustFront_cons v (f' :: take (n - 1) r')) as (v' & -> & Hvv & Hs).
      { apply (StronglySorted_take _ (S (n - 1)) (f' :: r')), Hl. }
      exists (v :: f :: r). split_and!; [ | | | done].
      * constructor; [done|]. constructor; [simpl; lia|].
        eapply Forall_impl; [exact Hfr|]. simpl. lia.
      * intros x. rewrite elem_of_cons, lastOfTime_snoc, <- Hin. split; [|tauto].
        intros [-> | Hx]; [by left|]. right. split; [done|].
        apply elem_of_cons in Hx as [-> | Hx]; [done|].
        rewrite Forall_forall in Hfr. specialize (Hfr _ Hx). simpl in Hfr. lia.
      * destruct n as [|n]; [lia|]. cbn [take]. replace (S n - 1)%nat with n by lia.
        constructor; [done|]. constructor; [done|].
        apply (Forall2_take _ _ _ n) in HFr. rewrite take_take in HFr.
        by replace (n `min` S n)%nat with n in HFr by lia.
Qed.

(** The list is the history of the aircraft.  Objects that arrive in the
    order of their times leave the latest [n] times, of each the object that
    came last, the latest first; offsets are raised, never lowered, such that
    the adjusted times descend strictly, as the interpolation needs it. *)
Theorem history_refines n vs :
  (1 < n)%nat -> StronglySorted (fun a b => getMSecsSinceEpoch a <= getMSecsSinceEpoch b) vs ->
  exists h, strictly_descending getMSecsSinceEpoch h /\ (forall x, x ∈ h <-> lastOfTime vs x) /\
    Forall2 raised (take n h) (items (foldl (push n) (ofSequence []) vs)) /\
    strictly_descending getAdjustedMSecsSinceEpoch (items (foldl (push n) (ofSequence []) vs)).
Proof using Type*.
  intros Hn. induction vs as [|v vs IH] using rev_ind; intros Hs.
  - exists []. rewrite take_nil. split_and!; [constructor | | constructor | constructor].
    intros x. split; [by intros ?%not_elem_of_nil | by intros ([] & ? & ? & _)].
  - apply StronglySorted_app in Hs as (Hv & Hs & _). destruct (IH Hs) as (h & Hh).
    rewrite foldl_app. simpl. apply (holdsHistory_push n vs h); [done | done |].
    apply Forall_forall. intros x Hx. apply Hv; [done | by left].
Qed.

(** A list in order is what pushing its objects, the oldest first, gives. *)
Lemma push_rev n l :
  (1 < n)%nat -> (length l <= n)%nat ->
  strictly_descending getMSecsSinceEpoch l -> strictly_descending getAdjustedMSecsSinceEpoch l ->
  items (foldl (push n) (ofSequence []) (rev l)) = l.
Proof using Type*.
  intros Hn. induction l as [|a l IH]; intros Hl Ht Ha; [done|].
  inversion_clear Ht as [|? ? Ht' Hat]. inversion_clear Ha as [|? ? Ha' Haa]. simpl in *.
  rewrite foldl_app. cbn [foldl]. assert (items (foldl (push n) (ofSequence []) (rev l)) = l) as E by (apply IH; done || lia).
  revert E. generalize (foldl (push n) (ofSequence []) (rev l)) as c. intros c E. clear IH.
  unfold push, push_frontKeepLatestFirstAdjustOffset, push_frontKeepLatestFirst.
  cbn [withItems items]. rewrite E. unfold truncateTo, truncate.
  destruct (Z.ltb_spec 0 (Z.of_nat n)) as [_|]; [|lia].
  destruct l as [|b l]; [done|]. apply Forall_cons in Hat as [Hb _], Haa as [Hb' _].
  destruct (Z.eqb_spec (getMSecsSinceEpoch b) (getMSecsSinceEpoch a)); [lia|]. cbn [andb].
  rewrite take_ge by (simpl in *; lia). unfold isOlderThan.
  destruct (Z.ltb_spec (getMSecsSinceEpoch a) (getMSecsSinceEpoch b)); [lia|].
  cbn [adjustFront]. unfold isNewerThanAdjusted. by destruct (Z.ltb_spec (getAdjustedMSecsSinceEpoch b) (getAdjustedMSecsSinceEpoch a)); [|lia].
Qed.

Lemma prefill_strict value n d c :
  (if d <? 0 then getTimeOffsetMs value else d) <> 0 ->
  let l := items (prefillLatestAdjustedFirst value (S n) d c) in
  strictly_descending getMSecsSinceEpoch l /\ strictly_descending getAdjustedMSecsSinceEpoch l.
Proof using Type*.
  intros Hd. set (k := Z.abs (if d <? 0 then getTimeOffsetMs value else d)).
  assert (0 < k) by lia. cbv zeta.
  assert (forall i m t, StronglySorted (fun a b => t - k * Z.of_nat b < t - k * Z.of_nat a) (seq i m)) as Hseq.
  { intros i m t. revert i. induction m as [|m IH]; intros i; simpl; [constructor|].
    constructor; [apply IH|]. apply Forall_forall. intros j Hj%list_elem_of_In%in_seq. nia. }
  assert (forall l : list OBJ, Forall (fun o => getTimeOffsetMs o = getTimeOffsetMs value) l ->
    strictly_descending getMSecsSinceEpoch l -> strictly_descending getAdjustedMSecsSinceEpoch l) as Hadj.
  { intros l Hl Hs. induction Hs as [|o l Hs IH Ho]; [constructor|]. apply Forall_cons in Hl as [Eo Hl].
    constructor; [by apply IH|]. rewrite Forall_forall in *. intros x Hx. unfold getAdjustedMSecsSinceEpoch.
    rewrite Eo, (Hl x Hx). specialize (Ho x Hx). simpl in Ho. lia. }
  assert (strictly_descending getMSecsSinceEpoch (items (prefillLatestAdjustedFirst value (S n) d c))) as Hs.
  { apply (StronglySorted_map (fun a b => b < a)). rewrite prefill_msecs. apply StronglySorted_map, Hseq. }
  split; [done|]. apply Hadj; [|done]. unfold prefillLatestAdjustedFirst. cbn [items].
  constructor; [done|]. apply Forall_map, Forall_forall. intros i _. unfold addMsecs. apply offset_setMSecs.
Qed.

(** ** Looking up by time *)

Lemma findBy_items (p : OBJ -> bool) c x : x ∈ items (findBy p c) <-> p x = true /\ x ∈ items c.
Proof using Type. unfold findBy, ofSequence. simpl. by rewrite list_elem_of_filter. Qed.

Lemma findBefore_spec t c o :
  o ∈ items c -> getAdjustedMSecsSinceEpoch o < t ->
  let b := findObjectBeforeAdjustedOrDefault t c in
  b ∈ items c /\ getAdjustedMSecsSinceEpoch b < t /\
  forall x, x ∈ items c -> getAdjustedMSecsSinceEpoch x < t ->
            getAdjustedMSecsSinceEpoch x <= getAdjustedMSecsSinceEpoch b.
Proof using Type.
  intros Ho Ht. unfold findObjectBeforeAdjustedOrDefault, latestAdjustedObject, findBeforeAdjusted. cbv zeta.
  assert (forall x, x ∈ items (findBy (isOlderThanAdjusted t) c) <->
                    x ∈ items c /\ getAdjustedMSecsSinceEpoch x < t) as Hf.
  { intros x. rewrite findBy_items. unfold isOlderThanAdjusted. rewrite Z.ltb_lt. tauto. }
  cbn [findBy ofSequence m_tsAdjustedSortHint] in *.
  pose proof (max_element_spec getAdjustedMSecsSinceEpoch (items (findBy (isOlderThanAdjusted t) c))) as Hm.
  cbn [findBy ofSequence items] in *.
  destruct (max_element _ _) as [m|]; [|destruct (not_elem_of_nil o); rewrite <- Hm; by apply Hf].
  destruct Hm as [[Hm Hmt]%Hf Hall]. simpl. split_and!; [done..|].
  intros x Hx Hxt. rewrite Forall_forall in Hall. by apply Hall, Hf.
Qed.
Lemma findAfter_spec t c o :
  o ∈ items c -> t < getAdjustedMSecsSinceEpoch o ->
  let a := findObjectAfterAdjustedOrDefault t c in
  a ∈ items c /\ t < getAdjustedMSecsSinceEpoch a /\
  forall x, x ∈ items c -> t < getAdjustedMSecsSinceEpoch x ->
            getAdjustedMSecsSinceEpoch a <= getAdjustedMSecsSinceEpoch x.
Proof using Type.
  intros Ho Ht. unfold findObjectAfterAdjustedOrDefault, oldestAdjustedObject, findAfterAdjusted. cbv zeta.
  assert (forall x, x ∈ items (findBy (isNewerThanAdjusted t) c) <->
                    x ∈ items c /\ t < getAdjustedMSecsSinceEpoch x) as Hf.
  { intros x. rewrite findBy_items. unfold isNewerThanAdjusted. rewrite Z.ltb_lt. tauto. }
  pose proof (min_element_spec getAdjustedMSecsSinceEpoch (items (findBy (isNewerThanAdjusted t) c))) as Hm.
  cbn [findBy ofSequence items m_tsAdjustedSortHint] in *.
  destruct (min_element _ _) as [m|]; [|destruct (not_elem_of_nil o); rewrite <- Hm; by apply Hf].
  destruct Hm as [[Hm Hmt]%Hf Hall]. simpl. split_and!; [done..|].
  intros x Hx Hxt. rewrite Forall_forall in Hall. by apply Hall, Hf.
Qed.

(** The objects found before and after a time, when there are any, enclose
    it: no object of the list lies between them, but at the time itself. *)
Theorem found_objects_enclose t c o1 o2 :
  o1 ∈ items c -> getAdjustedMSecsSinceEpoch o1 < t ->
  o2 ∈ items c -> t < getAdjustedMSecsSinceEpoch o2 ->
  let b := findObjectBeforeAdjustedOrDefault t c in
  let a := findObjectAfterAdjustedOrDefault t c in
  b ∈ items c /\ a ∈ items c /\
  getAdjustedMSecsSinceEpoch b < t < getAdjustedMSecsSinceEpoch a /\
  forall x, x ∈ items c ->
    getAdjustedMSecsSinceEpoch b < getAdjustedMSecsSinceEpoch x < getAdjustedMSecsSinceEpoch a ->
    getAdjustedMSecsSinceEpoch x = t.
Proof using Type.
  intros I1 T1 I2 T2. cbv zeta.
  destruct (findBefore_spec t c o1 I1 T1) as (Hb & Tb & Mb).
  destruct (findAfter_spec t c o2 I2 T2) as (Ha & Ta & Ma).
  split_and!; [done..|]. intros x Hx [Hbx Hxa].
  destruct (Z.lt_trichotomy (getAdjustedMSecsSinceEpoch x) t) as [E|[E|E]]; [|done|].
  - specialize (Mb x Hx E). lia.
  - specialize (Ma x Hx E). lia.
Qed.

(** The check of the order says what it should; the hint is as good as the order. *)
Lemma descends_spec (key : OBJ -> Z) l min :
  descends key min l = true ->
  descending key l /\ Forall (fun o => key o <= min /\ hasValidTimestamp o = true) l.
Proof using Type.
  revert min. induction l as [|o l IH]; intros min; simpl; [repeat constructor|].
  destruct (hasValidTimestamp o) eqn:Ev; simpl; [|done].
  destruct (Z.ltb_spec min (key o)); [done|]. intros [Hs Hall]%IH. split.
  - constructor; [done|]. eapply Forall_impl; [exact Hall|]. simpl. tauto.
  - constructor; [done|]. eapply Forall_impl; [exact Hall|]. simpl. intros ? [? ?]. split; [lia | done].
Qed.

Lemma latestAdjusted_max c :
  isSortedAdjustedLatestFirst c = true -> forall x, x ∈ items c ->
  getAdjustedMSecsSinceEpoch x <= getAdjustedMSecsSinceEpoch (latestAdjustedObject c).
Proof using Type.
  intros Hs x Hx. unfold latestAdjustedObject. destruct (m_tsAdjustedSortHint c).
  - pose proof (max_element_spec getAdjustedMSecsSinceEpoch (items c)) as Hm.
    destruct (max_element _ _) as [m|]; [|rewrite Hm in Hx; by apply not_elem_of_nil in Hx].
    destruct Hm as [_ Hm]. rewrite Forall_forall in Hm. by apply Hm.
  - unfold isSortedAdjustedLatestFirst in Hs. destruct (items c) as [|f r]; [by apply not_elem_of_nil in Hx|].
    simpl. apply elem_of_cons in Hx as [-> | Hx]; [done|].
    destruct (length (f :: r) <? 2)%nat eqn:El.
    { apply Nat.ltb_lt in El. destruct r; [by apply not_elem_of_nil in Hx | simpl in El; lia]. }
    apply descends_spec in Hs as [Hs _]. inversion_clear Hs as [|? ? _ Ha].
    rewrite Forall_forall in Ha. by apply Ha.
Qed.

(** ** The mean of the differences *)

Fixpoint spaced (d : Z) (last : OBJ) l : Prop :=
  match l with
  | [] => True
  | o :: l => getAbsTimeDifferenceMs (getMSecsSinceEpoch o) last = d /\ spaced d o l
  end.

Lemma differences_spaced d last l m count :
  spaced d last l ->
  differences last (mkMmm (Z.min d m) (Z.max d m) (d * (count - 1))) count l =
  (mkMmm (Z.min d m) (Z.max d m) (d * (count - 1 + Z.of_nat (length l))), count + Z.of_nat (length l)).
Proof using Type.
  revert last count. induction l as [|o l IH]; intros last count Hl; cbn [differences spaced length] in *.
  - f_equal; [f_equal|]; lia.
  - destruct Hl as [Ho Hl]. rewrite Ho. cbn [mmm_min mmm_max mmm_mean].
    specialize (IH o (count + 1) Hl).
    replace (Z.min d (Z.min d m)) with (Z.min d m) by lia.
    replace (Z.max d (Z.max d m)) with (Z.max d m) by lia.
    replace (d * (count - 1) + d) with (d * (count + 1 - 1)) by lia.
    rewrite IH. f_equal; [f_equal|]; lia.
Qed.

(** The sum of the differences is divided by the number of objects, which is one
    more than the number of differences: the mean of equal differences is less
    than each of them. *)
Lemma mean_below_minimum first second rest d hint adjustedHint :
  0 < d <= int64_max -> hint <> NoTimestampSortHint -> spaced d first (second :: rest) ->
  let m := getTimestampDifferenceMinMaxMean (mkContainer (first :: second :: rest) hint adjustedHint) in
  let n := Z.of_nat (length rest) + 2 in
  mmm_min m = d /\ mmm_max m = d /\ mmm_mean m = Z.quot (d * (n - 1)) n /\ mmm_mean m < mmm_min m.
Proof using Type.
  intros Hd Hh [Hs Hr]. unfold getTimestampDifferenceMinMaxMean. cbn [m_tsSortHint items].
  destruct hint; [done| |]; cbn [differences mmm_min mmm_max mmm_mean]; rewrite Hs;
    (replace (Z.min d int64_max) with (Z.min d d) by lia);
    (replace (Z.max d int64_min) with (Z.max d d) by (unfold int64_min; lia));
    (replace (0 + d) with (d * (1 + 1 - 1)) by lia);
    rewrite differences_spaced by done; cbn [mmm_min mmm_max mmm_mean];
    (replace (1 + 1 - 1 + Z.of_nat (length rest)) with (Z.of_nat (length rest) + 2 - 1) by lia);
    (replace (1 + 1 + Z.of_nat (length rest)) with (Z.of_nat (length rest) + 2) by lia);
    (split_and!; [lia | lia | done |]);
    (rewrite Z.min_id; apply Z.quot_lt_upper_bound; [lia.. | nia]).
Qed.
End laws.

(** ** A plain time with offset *)

Record Timestamp := mkTimestamp { m_timestampMSecsSinceEpoch : Z; m_timeOffsetMs : Z }.
#[export] Instance Timestamp_eq_dec : EqDecision Timestamp.
Proof. solve_decision. Defined.
#[export] Instance Timestamp_TimestampBased : TimestampBased Timestamp :=
  {| getMSecsSinceEpoch := m_timestampMSecsSinceEpoch;
     setMSecsSinceEpoch := fun t o => mkTimestamp t (m_timeOffsetMs o);
     getTimeOffsetMs := m_timeOffsetMs;
     setTimeOffsetMs := fun t o => mkTimestamp (m_timestampMSecsSinceEpoch o) t;
     OBJ_default := mkTimestamp (-1) 0 |}.
#[export] Instance Timestamp_Laws : TimestampBasedLaws Timestamp.
Proof. split; try done. by intros []. Qed.

(** The example of the source: the times 0, 5, 6 and 8. *)
Example adjusted_example :
  items (foldl (push 50) (ofSequence [])
           [mkTimestamp 0 5; mkTimestamp 5 5; mkTimestamp 6 2; mkTimestamp 8 2]) =
  [mkTimestamp 8 4; mkTimestamp 6 5; mkTimestamp 5 5; mkTimestamp 0 5].
Proof. vm_compute. reflexivity. Qed.

(** An object older than the front, pushed into a sorted list, can break the
    order of the adjusted times: only the front is adjusted. *)
Example older_object_breaks_adjusted_order :
  let c := foldl (push 50) (ofSequence []) [mkTimestamp 4 4; mkTimestamp 6 3; mkTimestamp 8 2] in
  isSortedAdjustedLatestFirst c = true /\
  isSortedAdjustedLatestFirst (push 50 c (mkTimestamp 5 10)) = false /\
  isSortedLatestFirst (push 50 c (mkTimestamp 5 10)) = true.
Proof. vm_compute. auto. Qed.

Lemma push_keeps_latest_first_witness :
  let c := ofSequence [mkTimestamp 8 2; mkTimestamp 6 2; mkTimestamp 4 2] in
  descending getMSecsSinceEpoch (items (push_frontKeepLatestFirst (mkTimestamp 5 2) true 3 c)).
Proof.
  apply (push_keeps_latest_first (mkTimestamp 5 2) 3 (ofSequence [mkTimestamp 8 2; mkTimestamp 6 2; mkTimestamp 4 2]));
    [lia | repeat constructor; simpl; lia | simpl; lia].
Defined.

Lemma history_refines_witness :
  let vs := [mkTimestamp 0 5; mkTimestamp 5 5; mkTimestamp 5 2; mkTimestamp 8 2] in
  strictly_descending getAdjustedMSecsSinceEpoch (items (foldl (push 2) (ofSequence []) vs)).
Proof.
  destruct (history_refines 2 [mkTimestamp 0 5; mkTimestamp 5 5; mkTimestamp 5 2; mkTimestamp 8 2])
    as (h & _ & _ & _ & Hs); [lia | repeat constructor; simpl; lia | exact Hs].
Defined.

Lemma found_objects_enclose_witness :
  let c := ofSequence [mkTimestamp 8 2; mkTimestamp 6 2; mkTimestamp 4 2] in
  getAdjustedMSecsSinceEpoch (findObjectBeforeAdjustedOrDefault 7 c) < 7.
Proof.
  apply (found_objects_enclose 7 (ofSequence [mkTimestamp 8 2; mkTimestamp 6 2; mkTimestamp 4 2])
           (mkTimestamp 4 2) (mkTimestamp 8 2)); [set_solver | done | set_solver | done].
Defined.
