(* ===== verification/Severity.v ===== *)
(** * Severities of status messages (misc/statusmessage.h)

    The enumeration by which messages are filtered and compared. *)

From S2P Require Import Prelude.

Open Scope Z_scope.

Inductive StatusSeverity := SeverityDebug | SeverityInfo | SeverityWarning | SeverityError.
#[export] Instance StatusSeverity_eq : EqDecision StatusSeverity.
Proof. solve_decision. Defined.

(** The value of the enumerator, by which severities compare. *)
Definition severityCode (s : StatusSeverity) : Z :=
  match s with SeverityDebug => 0 | SeverityInfo => 1 | SeverityWarning => 2 | SeverityError => 3 end.
Definition severityOfCode (n : Z) : option StatusSeverity :=
  match n with 0 => Some SeverityDebug | 1 => Some SeverityInfo | 2 => Some SeverityWarning
             | 3 => Some SeverityError | _ => None end.
#[export] Instance StatusSeverity_countable : Countable StatusSeverity.
Proof. apply (inj_countable severityCode severityOfCode). by intros []. Defined.

Lemma severityCode_inj s s' : severityCode s = severityCode s' -> s = s'.
Proof. by destruct s, s'. Qed.
Lemma severityCode_range s : 0 <= severityCode s <= 3.
Proof. destruct s; simpl; lia. Qed.
