(* ===== verification/StatusMessage.v ===== *)
(** * Status messages (misc/statusmessage.h, .cpp, misc/statusmessagelist.cpp)

    A message has categories, a severity, a text with places for arguments, and the
    arguments; the text is put together when it is asked for ([arg]).  The order and
    the time of a message take no part in comparing.  [SWIFT_VERIFY] only warns,
    so what follows it is modelled. *)

From S2P Require Import Prelude.
From S2P Require Export Severity TimestampList QtCore.
From S2P Require Import QtReference.
From coqutil Require Export Datatypes.RecordSetters.
Export TriangleBracketNotations.
#[global] Open Scope record_set.
Arguments constant {E} newValue _ /.
Arguments apply_update {R E} u : simpl nomatch.

Open Scope Z_scope.

(** ** The message *)

Record CStatusMessage := mkStatusMessage {
  m_categories : list QString; m_severity : StatusSeverity; m_message : QString; m_args : list QString;
  m_timestampMSecsSinceEpoch : Z; m_handledByObjects : list N }.
#[export] Instance CStatusMessage_eqdec : EqDecision CStatusMessage.
Proof. solve_decision. Defined.

Definition uncategorized : QString := lit "swift.uncategorized".
Definition validation : QString := lit "swift.validation".

Section text.
Context `{QtConv}.
Implicit Types (args : list QString) (format temp : QString).

Definition percent : QChar := 37%N.
Definition is09 (c : QChar) : bool := bool_decide (48 <= c <= 57)%N.
Definition digitOf (c : QChar) : Z := Z.of_N c - 48.

(** One place of the text, for the argument [n].  The shift by more than 63 is undefined. *)
Definition placeArg args (n : Z) temp (unusedArgs : Z) : option (QString * Z) :=
  if (0 <? n) && (n <=? Z.of_nat (length args))
  then
    if 64 <? n then None
    else Some (temp ++ default [] (args !! Z.to_nat (n - 1)),
               Z.land unusedArgs (Z.lnot (Z.shiftl 1 (n - 1))))
  else Some (temp ++ [percent] ++ qt_number n, unusedArgs).

(** The loop over the text: what was written, and the bits of the arguments not used. *)
Fixpoint argLoop args format temp (unusedArgs : Z) : option (QString * Z) :=
  match format with
  | [] => Some (temp, unusedArgs)
  | c :: rest =>
      if negb (bool_decide (c = percent)) then argLoop args rest (temp ++ [c]) unusedArgs
      else
        match rest with
        | [] => Some (temp ++ [percent], unusedArgs)
        | d :: rest1 =>
            if bool_decide (d = percent) then argLoop args rest1 (temp ++ [percent]) unusedArgs
            else if is09 d then
              match rest1 with
              | e :: rest2 =>
                  if is09 e
                  then '(temp, unusedArgs) ← placeArg args (digitOf d * 10 + digitOf e) temp unusedArgs;
                       argLoop args rest2 temp unusedArgs
                  else '(temp, unusedArgs) ← placeArg args (digitOf d) temp unusedArgs;
                       argLoop args rest1 temp unusedArgs
              | [] => placeArg args (digitOf d) temp unusedArgs
              end
            else argLoop args rest (temp ++ [percent]) unusedArgs
        end
  end.

Definition someUnused : QString := lit " [SOME MESSAGE ARGUMENT(S) UNUSED]".

Definition arg format args : option QString :=
  if bool_decide (format = []) then Some (join [32%N] args)
  else
    '(temp, unusedArgs) ← argLoop args format [] (Z.shiftl 1 (Z.min 63 (Z.of_nat (length args))) - 1);
    Some (if bool_decide (unusedArgs = 0) then temp else temp ++ someUnused).
End text.

Section message.
Context `{QtConv}.
Implicit Types (m : CStatusMessage) (category : QString) (severity : StatusSeverity).

(** What is compared, and hashed. *)
Definition MessageKey : Type := list QString * StatusSeverity * QString * list QString.
Definition compareKey m : MessageKey :=
  (m_categories m, m_severity m, m_message m, m_args m).
Definition messageEqual m m' : bool := bool_decide (compareKey m = compareKey m').

Definition getMessage m : option QString := arg (m_message m) (m_args m).
Definition messageEmpty m : bool := bool_decide (m_message m = []) && bool_decide (m_args m = []).

Definition CStatusMessage_default (now : Z) : CStatusMessage :=
  mkStatusMessage [uncategorized] SeverityDebug [] [] now [].

Definition addIfNotExisting category m : CStatusMessage :=
  if decide (category ∈ m_categories m) then m else m <| m_categories ::= fun l => l ++ [category] |>.
Definition addCategories (categories : list QString) m : CStatusMessage :=
  if bool_decide (m_categories m = []) then m <| m_categories := categories |>
  else foldl (fun m c => addIfNotExisting c m) m categories.
Definition addValidationCategory m : CStatusMessage := addIfNotExisting validation m.

(** The constructor with a text of its own. *)
Definition CStatusMessage_make (now : Z) (categories : list QString) severity (message : QString)
    (isValidation : bool) : CStatusMessage :=
  let m := mkStatusMessage categories severity (trimmed message) [] now [] in
  if isValidation then addValidationCategory m else m.

(** QtMsgType, and what the constructor makes of a message of Qt: its category is a
    list of categories. *)
Inductive QtMsgType := QtDebugMsg | QtInfoMsg | QtWarningMsg | QtCriticalMsg | QtFatalMsg.
Definition categoriesFromQString (string : QString) : list QString :=
  filter (fun s => s <> []) (split 124%N string).
Definition CStatusMessage_ofQt (now : Z) (type : QtMsgType) (category message : QString) : CStatusMessage :=
  mkStatusMessage (categoriesFromQString category)
    (match type with
     | QtDebugMsg => SeverityDebug | QtInfoMsg => SeverityInfo | QtWarningMsg => SeverityWarning
     | QtCriticalMsg | QtFatalMsg => SeverityError end)
    (trimmed (trimmed message)) [] now [].
Definition categoriesToQString (categories : list QString) : QString := join [124%N] categories.
Definition toQtLogTriple m : option (QtMsgType * QString * QString) :=
  message ← getMessage m;
  Some (match m_severity m with
        | SeverityDebug => QtDebugMsg | SeverityInfo => QtInfoMsg
        | SeverityWarning => QtWarningMsg | SeverityError => QtCriticalMsg end,
        categoriesToQString (m_categories m), message).

Definition setSeverity severity m : CStatusMessage := m <| m_severity := severity |>.
Definition clampSeverity severity m : CStatusMessage :=
  if severityCode (m_severity m) <=? severityCode severity then m else setSeverity severity m.
Definition isSeverityHigherOrEqual severity m : bool := severityCode severity <=? severityCode (m_severity m).
Definition isFailure m : bool := bool_decide (m_severity m = SeverityError).
Definition isWarningOrAbove m : bool :=
  bool_decide (m_severity m = SeverityWarning) || bool_decide (m_severity m = SeverityError).

Definition prependMessage (msg : QString) m : CStatusMessage :=
  if bool_decide (msg = []) then m else m <| m_message ::= fun t => msg ++ t |>.
Definition appendMessage (msg : QString) m : CStatusMessage :=
  if bool_decide (msg = []) then m else m <| m_message ::= fun t => t ++ msg |>.

Definition markAsHandledBy (object : N) m : CStatusMessage :=
  m <| m_handledByObjects ::= fun l => l ++ [object] |>.
Definition wasHandledBy (object : N) m : bool := bool_decide (object ∈ m_handledByObjects m).
End message.

(** ** Lists of messages *)

Section messages.
Context `{QtConv}.
Implicit Types (l : list CStatusMessage) (severity : StatusSeverity).

Definition findBySeverity severity l : list CStatusMessage := filter (fun m => m_severity m = severity) l.
Definition hasErrorMessages l : bool := existsb isFailure l.
Definition hasWarningOrErrorMessages l : bool := existsb isWarningOrAbove l.
Definition getErrorMessages l : list CStatusMessage := findBySeverity SeverityError l.
Definition getWarningAndErrorMessages l : list CStatusMessage :=
  filter (fun m => isSeverityHigherOrEqual SeverityWarning m) l.

Definition removeSeverity severity l : list CStatusMessage := filter (fun m => m_severity m <> severity) l.
Definition removeInfoAndBelow l : list CStatusMessage := removeSeverity SeverityInfo (removeSeverity SeverityDebug l).
Definition removeWarningsAndBelow l : list CStatusMessage := removeInfoAndBelow (removeSeverity SeverityWarning l).
Definition warningToError l : list CStatusMessage :=
  map (fun m => if decide (m_severity m = SeverityWarning) then setSeverity SeverityError m else m) l.
Definition clampSeverities severity l : list CStatusMessage := map (clampSeverity severity) l.

Fixpoint worstFrom (s : StatusSeverity) l : StatusSeverity :=
  match l with
  | [] => s
  | msg :: l =>
      if decide (m_severity msg = SeverityError) then SeverityError
      else worstFrom (if severityCode (m_severity msg) <=? severityCode s then s else m_severity msg) l
  end.
Definition worstSeverity l : StatusSeverity := worstFrom SeverityDebug l.

Definition countSeverities l : gmap Z Z :=
  foldl (fun counts m => <[severityCode (m_severity m) := default 0 (counts !! severityCode (m_severity m)) + 1]> counts)
    (list_to_map [(0, 0); (1, 0); (2, 0); (3, 0)]) l.

(** One message of all, but those without text: the texts joined, the worst severity. *)
Definition maxSeverity (s s' : StatusSeverity) : StatusSeverity :=
  if severityCode s <? severityCode s' then s' else s.
Definition toSingleMessage (now : Z) l : option CStatusMessage :=
  match l with
  | [] => Some (CStatusMessage_default now)
  | [m] => Some m
  | _ =>
      let l := filter (fun m => messageEmpty m = false) l in
      newMsgs ← mapM getMessage l;
      Some (CStatusMessage_make now (concat (map m_categories l))
              (foldl (fun s m => maxSeverity s (m_severity m)) SeverityDebug l) (join (lit ", ") newMsgs) false)
  end.

(** The number of messages removed, and the list.  The time of the last message to be kept
    goes through a QDateTime, which is invalid for times before the epoch and gives 0 then. *)
Definition keepLatest `{StdSort} (estimatedNumber : Z) l : Z * list CStatusMessage :=
  let oldSize := Z.of_nat (length l) in
  if oldSize <=? estimatedNumber then (0, l)
  else if estimatedNumber <? 1 then (oldSize, [])
  else
    let copy := rev (std_sort m_timestampMSecsSinceEpoch l) in
    let t := default 0 (m_timestampMSecsSinceEpoch <$> copy !! Z.to_nat (estimatedNumber - 1)) in
    let ts := if t <? 0 then 0 else t in
    let kept := filter (fun m => ~ m_timestampMSecsSinceEpoch m < ts) l in
    (oldSize - Z.of_nat (length kept), kept).
End messages.

(** ** The text of a message *)

Section text_facts.
Context `{QtConv} `{!QtConvLaws}.
Implicit Types (args : list QString) (format temp : QString).

Definition infix (a r : QString) : Prop := exists s t, r = s ++ a ++ t.
Lemma infix_app a r t : infix a r -> infix a (r ++ t).
Proof using Type. intros (s & u & ->). exists s, (u ++ t). by rewrite <- !app_assoc. Qed.
Lemma infix_last a r : infix a (r ++ a).
Proof using Type. exists r, []. by rewrite app_nil_r. Qed.

(** What the loop keeps: an argument whose bit is gone is part of the text. *)
Definition accounted args temp (unusedArgs : Z) : Prop :=
  forall i a, (i < 63)%nat -> args !! i = Some a -> Z.testbit unusedArgs (Z.of_nat i) = true \/ infix a temp.

Lemma accounted_app args temp t u : accounted args temp u -> accounted args (temp ++ t) u.
Proof using Type. intros Ha i a Hi Hl. destruct (Ha i a Hi Hl); [by left | right; by apply infix_app]. Qed.

Lemma placeArg_accounted args n temp u temp' u' :
  placeArg args n temp u = Some (temp', u') -> accounted args temp u -> accounted args temp' u'.
Proof using Type.
  unfold placeArg. intros Hp Ha. repeat case_match; simplify_eq; [|by apply accounted_app].
  bool_hyps. intros i a Hi Hl.
  destruct (decide (i = Z.to_nat (n - 1))) as [->|Hne].
  { right. rewrite Hl. apply infix_last. }
  destruct (Ha i a Hi Hl) as [Hb|Hb]; [left | right; by apply infix_app].
  rewrite Z.land_spec, Z.lnot_spec, Hb, Z.shiftl_spec by lia. simpl.
  destruct (Z.testbit 1 (Z.of_nat i - (n - 1))) eqn:E; [|done].
  destruct (Z_lt_le_dec (Z.of_nat i - (n - 1)) 0); [by rewrite Z.testbit_neg_r in E|].
  destruct (decide (Z.of_nat i = n - 1)); [lia|].
  rewrite (Z.bits_above_log2 1) in E by (simpl; lia). done.
Qed.

Lemma argLoop_accounted args n : forall format temp u temp' u', (length format <= n)%nat ->
  argLoop args format temp u = Some (temp', u') -> accounted args temp u -> accounted args temp' u'.
Proof using Type.
  induction n as [|n IH]; intros format temp u temp' u' Hn Hl Ha.
  { destruct format; [|simpl in Hn; lia]. by simplify_eq/=. }
  destruct format as [|c rest]; [by simplify_eq/=|]. cbn [length argLoop] in Hn, Hl.
  destruct (negb _); [eapply (IH rest); [lia | exact Hl | by apply accounted_app]|].
  destruct rest as [|d rest1]; [simplify_eq; by apply accounted_app|]. cbn [length] in Hn.
  destruct (bool_decide _); [eapply (IH rest1); [lia | exact Hl | by apply accounted_app]|].
  destruct (is09 d); [|eapply (IH (d :: rest1)); [simpl; lia | exact Hl | by apply accounted_app]].
  destruct rest1 as [|e rest2]; [by eapply placeArg_accounted|]. cbn [length] in Hn.
  destruct (is09 e).
  - apply bind_Some in Hl as ([t1 u1] & Hp & Hl). eapply (IH rest2); [lia | exact Hl | by eapply placeArg_accounted].
  - apply bind_Some in Hl as ([t1 u1] & Hp & Hl).
    eapply (IH (e :: rest2)); [simpl; lia | exact Hl | by eapply placeArg_accounted].
Qed.

Lemma join_infix (sep : QString) (l : list QString) i a : l !! i = Some a -> infix a (join sep l).
Proof using Type.
  revert i. induction l as [|s l IH]; intros i Hl; [done|]. destruct i as [|i].
  - simplify_eq/=. destruct l as [|s' l]; [exists [], []; by rewrite app_nil_r|].
    by exists [], (sep ++ join sep (s' :: l)).
  - simpl in Hl. destruct l as [|s' l]; [done|]. destruct (IH i Hl) as (x & y & Ej).
    change (join sep (s :: s' :: l)) with (s ++ sep ++ join sep (s' :: l)). rewrite Ej.
    exists (s ++ sep ++ x), y. by rewrite <- !app_assoc.
Qed.

Lemma placeArg_defined args n temp u : (length args <= 64)%nat -> is_Some (placeArg args n temp u).
Proof using Type. unfold placeArg. intros Ha. repeat case_match; try done. bool_hyps. lia. Qed.

Lemma argLoop_defined args n : forall format temp u, (length format <= n)%nat ->
  (length args <= 64)%nat -> is_Some (argLoop args format temp u).
Proof using Type.
  induction n as [|n IH]; intros format temp u Hn Ha.
  { destruct format; [done|simpl in Hn; lia]. }
  destruct format as [|c rest]; [done|]. cbn [length argLoop] in *.
  destruct (negb _); [apply IH; [lia|done]|]. destruct rest as [|d rest1]; [done|]. cbn [length] in *.
  destruct (bool_decide _); [apply IH; [lia|done]|].
  destruct (is09 d); [|apply IH; [simpl; lia|done]].
  destruct rest1 as [|e rest2]; [by apply placeArg_defined|]. cbn [length] in *.
  destruct (is09 e).
  - destruct (placeArg_defined args (digitOf d * 10 + digitOf e) temp u Ha) as [[t1 u1] ->]. apply IH; [lia|done].
  - destruct (placeArg_defined args (digitOf d) temp u Ha) as [[t1 u1] ->]. apply IH; [simpl; lia|done].
Qed.

Lemma argLoop_plain args format temp u : percent ∉ format -> argLoop args format temp u = Some (temp ++ format, u).
Proof using Type.
  revert temp. induction format as [|c format IH]; intros temp Hp; simpl; [by rewrite app_nil_r|].
  rewrite not_elem_of_cons in Hp. rewrite bool_decide_eq_false_2 by naive_solver. simpl.
  rewrite IH by naive_solver. by rewrite <- app_assoc.
Qed.

Lemma ones_testbit k i : 0 <= k -> 0 <= i < k -> Z.testbit (Z.shiftl 1 k - 1) i = true.
Proof using Type.
  intros Hk Hi. change (Z.shiftl 1 k - 1) with (Z.pred (Z.shiftl 1 k)). apply Z.ones_spec_low. lia.
Qed.

(** The text of a message with at most 64 arguments is defined, and no argument is lost without
    notice: it is part of the text, or the text ends with the remark that some are unused.
    (Arguments behind the 63rd can get lost.) *)
Theorem no_argument_lost format args :
  (length args <= 64)%nat ->
  exists r, arg format args = Some r /\
    (endsWith r someUnused = true \/
     forall i a, (i < 63)%nat -> args !! i = Some a -> containsSub r a = true).
Proof using Type.
  intros Hl. unfold arg. case_bool_decide as He.
  - exists (join [32%N] args). split; [done|]. right. intros i a _ Ha. apply containsSub_spec. by eapply join_infix.
  - set (u0 := Z.shiftl 1 (Z.min 63 (Z.of_nat (length args))) - 1).
    destruct (argLoop_defined args (length format) format [] u0 ltac:(done) Hl) as [[temp u] Hr]. rewrite Hr. simpl.
    eexists; split; [done|]. case_bool_decide as Hu; [right | left; apply endsWith_spec; by eexists].
    intros i a Hi Ha. apply containsSub_spec.
    destruct (argLoop_accounted args (length format) format [] u0 temp u ltac:(done) Hr) with (i := i) (a := a)
      as [Hb|Hb]; try done.
    + intros j b Hj Hb. left. apply lookup_lt_Some in Hb. apply ones_testbit; lia.
    + subst. by rewrite Z.bits_0 in Hb.
Qed.

(** The text of a message of Qt, which is taken for a text with places, is the text itself
    when it has no percent sign. *)
Theorem plain_text format : percent ∉ format -> arg format [] = Some format.
Proof using Type.
  intros Hp. unfold arg. case_bool_decide as He; [by subst|]. rewrite argLoop_plain by done. reflexivity.
Qed.
End text_facts.

(** ** Lists *)

Section list_facts.
Context `{QtConv}.
Implicit Types (l : list CStatusMessage) (s : StatusSeverity).

Lemma worstFrom_spec l s :
  (forall m, m ∈ l -> severityCode (m_severity m) <= severityCode (worstFrom s l)) /\
  severityCode s <= severityCode (worstFrom s l) /\
  (worstFrom s l = s \/ exists m, m ∈ l /\ m_severity m = worstFrom s l).
Proof using Type.
  revert s. induction l as [|x l IH]; intros s; simpl.
  { split_and!; [by intros m Hm%elem_of_nil | done | by left]. }
  destruct (decide (m_severity x = SeverityError)) as [Hx|Hx].
  { split_and!; [intros m _; apply severityCode_range | apply severityCode_range | right; exists x; split; [left|done]]. }
  set (s' := if _ <=? _ then s else _). destruct (IH s') as (Ha & Hs & Hw).
  assert (Hs' : severityCode s <= severityCode s' /\ severityCode (m_severity x) <= severityCode s' /\
                (s' = s \/ s' = m_severity x)).
  { unfold s'. case_match; bool_hyps; auto with lia. }
  destruct Hs' as (H1 & H2 & H3). split_and!.
  - intros m [->|Hm]%elem_of_cons; [lia | by apply Ha].
  - lia.
  - destruct Hw as [->|(m & Hm & Hw)]; [|right; exists m; split; [by right|done]].
    destruct H3 as [->| ->]; [by left | right; exists x; split; [left|done]].
Qed.

(** The worst severity is the least that no message exceeds. *)
Theorem worst_severity l :
  (forall m, m ∈ l -> severityCode (m_severity m) <= severityCode (worstSeverity l)) /\
  (worstSeverity l <> SeverityDebug -> exists m, m ∈ l /\ m_severity m = worstSeverity l).
Proof using Type. destruct (worstFrom_spec l SeverityDebug) as (Ha & _ & Hw). split; [done|]. by destruct Hw. Qed.

(** At least as many of the latest messages are kept as asked for, in their order: those
    from some time on, fewer than asked for are later than that. *)
Theorem keepLatest_result `{StdSortLaws} n l :
  1 <= n < Z.of_nat (length l) -> Forall (fun m => 0 <= m_timestampMSecsSinceEpoch m) l ->
  exists ts removed,
    keepLatest n l = (removed, filter (fun m => ~ m_timestampMSecsSinceEpoch m < ts) l) /\
    n <= Z.of_nat (length l) - removed /\
    Z.of_nat (length (filter (fun m => ts < m_timestampMSecsSinceEpoch m) l)) < n.
Proof using Type.
  intros Hn Hl. unfold keepLatest. rewrite (proj2 (Z.leb_gt _ _)) by lia. rewrite (proj2 (Z.ltb_ge _ _)) by lia.
  set (copy := rev (std_sort m_timestampMSecsSinceEpoch l)).
  assert (Hperm : Permutation copy l) by (unfold copy; rewrite <- Permutation_rev; apply std_sort_perm).
  assert (Hsort : StronglySorted (fun a b => m_timestampMSecsSinceEpoch b <= m_timestampMSecsSinceEpoch a) copy).
  { unfold copy. apply StronglySorted_rev, std_sort_sorted. }
  set (i := Z.to_nat (n - 1)).
  assert (Hlen : length copy = length l) by (by rewrite Hperm).
  destruct (copy !! i) as [x|] eqn:Ex; [|apply lookup_ge_None in Ex; lia]. simpl.
  assert (Hx : x ∈ l) by (rewrite <- Hperm; by eapply list_elem_of_lookup_2).
  rewrite Forall_forall in Hl. specialize (Hl x Hx). rewrite (proj2 (Z.ltb_ge _ _)) by lia.
  set (ts := m_timestampMSecsSinceEpoch x). exists ts.
  eexists. split; [done|]. pose proof (take_drop_middle copy i x Ex) as Hc.
  rewrite <- Hc in Hsort. apply StronglySorted_app in Hsort as (Hbefore & _ & Hs2).
  apply StronglySorted_inv in Hs2 as [_ Hafter]. rewrite Forall_forall in Hafter.
  assert (Hi : length (take i copy) = i) by (rewrite length_take; lia).
  assert (Hkeep : filter (fun m => ~ m_timestampMSecsSinceEpoch m < ts) (take i copy) = take i copy).
  { apply list_filter_all. intros y Hy. specialize (Hbefore y x Hy (list_elem_of_here _ _)). unfold ts. lia. }
  assert (Hnone : filter (fun m => ts < m_timestampMSecsSinceEpoch m) (x :: drop (S i) copy) = []).
  { apply list_filter_none. intros y [->|Hy]%elem_of_cons; [unfold ts; lia|]. specialize (Hafter y Hy). unfold ts. lia. }
  assert (Hf : forall (P : CStatusMessage -> Prop) `{!forall m, Decision (P m)},
    length (filter P l) = (length (filter P (take i copy)) + length (filter P (x :: drop (S i) copy)))%nat).
  { intros P ?. rewrite <- length_app, <- filter_app, Hc. by rewrite Hperm. }
  rewrite !Hf, Hkeep, Hnone, Hi, filter_cons_True by (unfold ts; lia).
  pose proof (length_filter (fun m => ts < m_timestampMSecsSinceEpoch m) (take i copy)).
  rewrite Hi in *. cbn [length]. lia.
Qed.
End list_facts.

(** ** Examples *)

(** A percent sign that the sender has escaped is shown alone, and a two-digit place loses its zero. *)
Example text_altered :
  arg (lit "100%% of %05") [] = Some (lit "100% of %5").
Proof. reflexivity. Qed.

(** An argument behind the 63rd can be lost without notice. *)
Example argument_lost :
  arg (join [] (map (fun n => percent :: qt_number n) (map Z.of_nat (seq 1 63)))) (repeat [] 63 ++ [lit "lost"])
  = Some [].
Proof. vm_compute. reflexivity. Qed.

(** A text is appended to the text with places: a message that consists of arguments loses them. *)
Example appended_to_arguments :
  let m := mkStatusMessage [] SeverityDebug [] [lit "exception"] 0 [] in
  getMessage m = Some (lit "exception") /\
  getMessage (appendMessage (lit " (twice)") m) = Some (lit " (twice) [SOME MESSAGE ARGUMENT(S) UNUSED]").
Proof. split; reflexivity. Qed.
