(* ===== verification/TokenBucket.v ===== *)
(** * The token bucket (misc/tokenbucket.h, misc/tokenbucket.cpp)

    Lazy refill: tokens are added when a consumer finds too few of them.  Time
    is in milliseconds; [clock] is what [QDateTime::currentMSecsSinceEpoch]
    returns at the call. *)

From S2P Require Import Prelude.

Record CTokenBucket := mkBucket {
  m_capacity : Z; m_availableTokens : Z; m_numTokensToRefill : Z; m_intervalMs : Z;
  m_lastReplenishmentTime : Z }.

(** Ten tokens are in stock at first, whatever the capacity. *)
Definition CTokenBucket_make (clock capacity intervalMs numTokensToRefill : Z) : CTokenBucket :=
  mkBucket capacity 10 numTokensToRefill intervalMs clock.

Definition setAvailable (n : Z) (b : CTokenBucket) : CTokenBucket :=
  mkBucket (m_capacity b) n (m_numTokensToRefill b) (m_intervalMs b) (m_lastReplenishmentTime b).
Definition setLast (t : Z) (b : CTokenBucket) : CTokenBucket :=
  mkBucket (m_capacity b) (m_availableTokens b) (m_numTokensToRefill b) (m_intervalMs b) t.
Definition setNumberOfTokensToRefill (n : Z) (b : CTokenBucket) : CTokenBucket :=
  mkBucket (m_capacity b) (m_availableTokens b) n (m_intervalMs b) (m_lastReplenishmentTime b).
Definition setCapacity (n : Z) (b : CTokenBucket) : CTokenBucket :=
  mkBucket n (m_availableTokens b) (m_numTokensToRefill b) (m_intervalMs b)
           (m_lastReplenishmentTime b).
Definition setCapacityAndTokensToRefill (n : Z) (b : CTokenBucket) : CTokenBucket :=
  setNumberOfTokensToRefill n (setCapacity n b).
Definition setInterval (ms : Z) (b : CTokenBucket) : CTokenBucket :=
  mkBucket (m_capacity b) (m_availableTokens b) (m_numTokensToRefill b) ms
           (m_lastReplenishmentTime b).

(** C++ division truncates; the 64-bit quotient is narrowed to [int]. *)
Definition getTokensPerSecond (b : CTokenBucket) : Z :=
  if m_intervalMs b <? 1 then 0
  else wrapS 32 (Z.quot (m_numTokensToRefill b * 1000) (m_intervalMs b)).

Definition getTokens (clock msSinceEpoch : Z) (b : CTokenBucket) : Z * CTokenBucket :=
  let now := if msSinceEpoch >? 0 then msSinceEpoch else clock in
  let deltaMs := now - m_lastReplenishmentTime b in
  let numberOfTokens := wrapS 32 (Z.quot (m_numTokensToRefill b * deltaMs) (m_intervalMs b)) in
  (numberOfTokens, if numberOfTokens >? 0 then setLast now b else b).

Definition tryConsume (clock : Z) (numTokens msSinceEpoch : Z) (b : CTokenBucket) :
    bool * CTokenBucket :=
  if numTokens <=? m_availableTokens b
  then (true, setAvailable (m_availableTokens b - numTokens) b)
  else
    let '(tokens, b) := getTokens clock msSinceEpoch b in
    let replenishedTokens := Z.min (m_capacity b) tokens in
    let b := setAvailable (Z.min (m_availableTokens b + replenishedTokens) (m_capacity b)) b in
    if numTokens <=? m_availableTokens b
    then (true, setAvailable (m_availableTokens b - numTokens) b)
    else (false, b).

(** ** Well-formed buckets and calls

    A positive interval, a non-negative refill, and a stock between zero and
    the larger of the capacity and the initial ten. *)

Definition bucketWf (b : CTokenBucket) : Prop :=
  0 < m_capacity b /\ 0 <= m_numTokensToRefill b /\ 0 < m_intervalMs b /\
  0 <= m_availableTokens b.

(** A call at time [t]: the clock is not behind the last refill, and the bucket
    was not left alone so long that the number of tokens exceeds an [int]. *)
Definition callable (b : CTokenBucket) (t : Z) : Prop :=
  0 < t /\ m_lastReplenishmentTime b <= t /\
  m_numTokensToRefill b * (t - m_lastReplenishmentTime b) < 2 ^ 31 * m_intervalMs b.

#[export] Hint Unfold bucketWf callable : swift_arith.

(** What a refill at [t] adds. *)
Definition earned (b : CTokenBucket) (t : Z) : Z :=
  m_numTokensToRefill b * (t - m_lastReplenishmentTime b) / m_intervalMs b.

Lemma earned_range b t :
  bucketWf b -> callable b t ->
  0 <= earned b t < 2 ^ 31 /\
  earned b t * m_intervalMs b <= m_numTokensToRefill b * (t - m_lastReplenishmentTime b).
Proof.
  unfold bucketWf, callable, earned. intros (_ & Hr & Hi & _) (_ & Hl & Hb).
  set (x := m_numTokensToRefill b * (t - m_lastReplenishmentTime b)) in *.
  assert (0 <= x) by (apply Z.mul_nonneg_nonneg; lia).
  split; [split|].
  - by apply Z.div_pos.
  - apply Z.div_lt_upper_bound; lia.
  - rewrite Z.mul_comm. by apply Z.mul_div_le.
Qed.

Lemma getTokens_earned b t :
  bucketWf b -> callable b t ->
  getTokens t (-1) b =
  (earned b t, if earned b t >? 0 then setLast t b else b).
Proof.
  intros Hwf Hc. pose proof (earned_range b t Hwf Hc) as [Hr _].
  unfold getTokens. change (-1 >? 0) with false. cbv iota.
  assert (wrapS 32 (Z.quot (m_numTokensToRefill b * (t - m_lastReplenishmentTime b))
                           (m_intervalMs b)) = earned b t) as ->; [|done].
  unfold bucketWf, callable in *. rewrite Z.quot_div_nonneg by nia.
  apply wrapS_id; [lia|]. unfold inS. change (2 ^ (32 - 1)) with (2 ^ 31). fold (earned b t). lia.
Qed.

(** One call in closed form. *)
Lemma tryConsume_spec b t n :
  bucketWf b -> callable b t ->
  tryConsume t n (-1) b =
  if n <=? m_availableTokens b then (true, setAvailable (m_availableTokens b - n) b)
  else let b' := if earned b t >? 0 then setLast t b else b in
       let a := Z.min (m_availableTokens b + Z.min (m_capacity b) (earned b t)) (m_capacity b) in
       if n <=? a then (true, setAvailable (a - n) b') else (false, setAvailable a b').
Proof.
  intros Hwf Hc. unfold tryConsume. destruct (n <=? m_availableTokens b); [done|].
  rewrite getTokens_earned by done. by destruct (earned b t >? 0).
Qed.

(** The quantity that never grows faster than the clock: the stock and the
    tokens [used], in units of [1/m_intervalMs] token. *)
Definition account (b : CTokenBucket) (used : Z) : Z :=
  m_intervalMs b * (m_availableTokens b + used)
  - m_numTokensToRefill b * m_lastReplenishmentTime b.

(** The settings a call leaves alone. *)
Definition samePolicy (b b' : CTokenBucket) : Prop :=
  m_capacity b' = m_capacity b /\ m_numTokensToRefill b' = m_numTokensToRefill b /\
  m_intervalMs b' = m_intervalMs b.

Lemma tryConsume_step b t n used :
  bucketWf b -> callable b t -> 0 < n ->
  let '(ok, b') := tryConsume t n (-1) b in
  bucketWf b' /\ samePolicy b b' /\
  m_lastReplenishmentTime b <= m_lastReplenishmentTime b' <= t /\
  account b' (used + if ok then n else 0) <= account b used.
Proof.
  intros Hwf Hc Hn. rewrite tryConsume_spec by done.
  pose proof (earned_range b t Hwf Hc) as [He1 He2].
  unfold bucketWf, callable, samePolicy, account in *.
  destruct (Z.leb_spec n (m_availableTokens b)); [simpl; nia|].
  cbv zeta. set (e := earned b t) in *.
  set (a := Z.min (m_availableTokens b + Z.min (m_capacity b) e) (m_capacity b)).
  assert (Ha : 0 <= a <= m_availableTokens b + e) by lia.
  assert (Hk : m_intervalMs b * a <= m_intervalMs b * m_availableTokens b
               + m_numTokensToRefill b * (t - m_lastReplenishmentTime b)) by nia.
  destruct (e >? 0) eqn:E.
  - destruct (Z.leb_spec n a); simpl; split_and!; try done; try lia; nia.
  - assert (e = 0) by lia.
    destruct (Z.leb_spec n a); simpl; split_and!; try done; try lia; nia.
Qed.

(** ** A consumer over time *)

(** The tokens consumed by a series of calls [(numTokens, time)]. *)
Fixpoint consumed (b : CTokenBucket) (calls : list (Z * Z)) : Z :=
  match calls with
  | [] => 0
  | (n, t) :: calls => let '(ok, b') := tryConsume t n (-1) b in
                       (if ok then n else 0) + consumed b' calls
  end.

(** Calls in the order of the clock, up to [stop], none so late that the number
    of earned tokens exceeds an [int]. *)
Fixpoint ordered (last stop : Z) (calls : list (Z * Z)) : Prop :=
  match calls with
  | [] => last <= stop
  | (n, t) :: calls => 0 < n /\ 0 < t /\ last <= t /\ ordered t stop calls
  end.

Lemma ordered_stop last stop calls : ordered last stop calls -> last <= stop.
Proof.
  revert last. induction calls as [|[n t] calls IH]; intros last; simpl; [done|].
  intros (_ & _ & Hl & Ho). apply IH in Ho. lia.
Qed.

Lemma ordered_weaken last last' stop calls :
  last' <= last -> ordered last stop calls -> ordered last' stop calls.
Proof. destruct calls as [|[n t] calls]; simpl; intuition lia. Qed.

Lemma consumed_account calls : forall b clock stop,
  bucketWf b -> m_lastReplenishmentTime b <= clock -> ordered clock stop calls ->
  m_numTokensToRefill b * (stop - m_lastReplenishmentTime b) < 2 ^ 31 * m_intervalMs b ->
  m_intervalMs b * consumed b calls <=
  m_intervalMs b * m_availableTokens b
  + m_numTokensToRefill b * (stop - m_lastReplenishmentTime b).
Proof.
  induction calls as [|[n t] calls IH]; intros b clock stop Hwf Hl Ho Hs; simpl.
  { simpl in Ho. unfold bucketWf in *. nia. }
  simpl in Ho. destruct Ho as (Hn & Ht & Hlt & Ho).
  pose proof (ordered_stop _ _ _ Ho) as Hstop.
  assert (Hc : callable b t) by (unfold callable, bucketWf in *; nia).
  pose proof (tryConsume_step b t n 0 Hwf Hc Hn) as Hstep.
  destruct (tryConsume t n (-1) b) as [ok b'].
  destruct Hstep as (Hwf' & (Hp1 & Hp2 & Hp3) & Hlast & Hacc).
  specialize (IH b' t stop Hwf' ltac:(lia) Ho).
  unfold account, bucketWf in *. rewrite Hp2, Hp3 in *.
  specialize (IH ltac:(nia)). destruct ok; nia.
Qed.

(** C33: the rate limit.  Whatever the calls between now and [stop], the tokens
    they consume are at most the stock plus what the refill rate yields over
    the time since the last refill. *)
Theorem rate_limit b calls stop :
  bucketWf b -> ordered (m_lastReplenishmentTime b) stop calls ->
  m_numTokensToRefill b * (stop - m_lastReplenishmentTime b) < 2 ^ 31 * m_intervalMs b ->
  consumed b calls <=
  m_availableTokens b
  + m_numTokensToRefill b * (stop - m_lastReplenishmentTime b) / m_intervalMs b.
Proof.
  intros Hwf Ho Hs.
  pose proof (consumed_account calls b _ stop Hwf (Z.le_refl _) Ho Hs) as Hle.
  unfold bucketWf in Hwf.
  rewrite <- Z.div_add_l by lia. apply Z.div_le_lower_bound; lia.
Qed.

Lemma rate_limit_witness :
  consumed (CTokenBucket_make 1000 10 5000 1) (replicate 12 (1, 7000)) = 11 /\
  consumed (CTokenBucket_make 1000 10 5000 1) (replicate 12 (1, 7000)) <= 11.
Proof.
  split; [vm_compute; reflexivity|].
  apply (rate_limit (CTokenBucket_make 1000 10 5000 1) (replicate 12 (1, 7000)) 7000);
    [unfold bucketWf; simpl; lia | simpl; lia | simpl; lia].
Defined.

(** A consumer is not starved: once the refill rate has earned the tokens
    wanted, up to the capacity, the call succeeds. *)
Theorem refill_serves b t n :
  bucketWf b -> callable b t -> 0 < n <= m_capacity b -> n <= earned b t ->
  fst (tryConsume t n (-1) b) = true.
Proof.
  intros Hwf Hc Hn He. rewrite tryConsume_spec by done. unfold bucketWf in Hwf.
  destruct (Z.leb_spec n (m_availableTokens b)); [done|]. cbv zeta.
  destruct (Z.leb_spec n (Z.min (m_availableTokens b + Z.min (m_capacity b) (earned b t))
                                (m_capacity b))); [done | lia].
Qed.

Lemma refill_serves_witness :
  fst (tryConsume 16000 3 (-1) (mkBucket 10 0 1 5000 1000)) = true.
Proof.
  apply (refill_serves (mkBucket 10 0 1 5000 1000) 16000 3);
    [unfold bucketWf; simpl; lia | unfold callable; simpl; lia | simpl; lia
    | vm_compute; discriminate].
Defined.

(** One call with the clock [k] intervals behind the last refill. *)
Lemma tryConsume_behind b t k a :
  bucketWf b -> m_numTokensToRefill b = 1 -> a <= 0 -> 0 < t -> 0 < k < 2 ^ 30 ->
  t = m_lastReplenishmentTime b - k * m_intervalMs b ->
  tryConsume t 1 (-1) (setAvailable a b) = (false, setAvailable (a - k) b).
Proof.
  intros (Hcap & _ & Hi & _) Hr Ha Ht Hk E.
  assert (getTokens t (-1) (setAvailable a b) = (- k, setAvailable a b)) as Hq.
  { unfold getTokens. change (-1 >? 0) with false. cbv iota. simpl. rewrite Hr, E.
    replace (1 * (m_lastReplenishmentTime b - k * m_intervalMs b - m_lastReplenishmentTime b))
      with (- k * m_intervalMs b) by lia.
    rewrite Z.quot_mul by lia. rewrite wrapS_id by (unfold inS; lia).
    by destruct (Z.gtb_spec (- k) 0); [lia|]. }
  unfold tryConsume. rewrite Hq. cbn [m_availableTokens m_capacity setAvailable].
  destruct (Z.leb_spec 1 a); [lia|]. rewrite (Z.min_r (m_capacity b)), Z.min_l by lia.
  destruct (Z.leb_spec 1 (a + - k)); [lia|]. reflexivity.
Qed.

(** The clock set back by [k] refill intervals, a call that finds an empty
    stock takes [k] tokens away instead of adding any, and since the time of
    the last refill stays, the next call takes them away again. *)
Theorem clock_set_back b t k :
  bucketWf b -> m_numTokensToRefill b = 1 -> m_availableTokens b = 0 -> 0 < t ->
  0 < k < 2 ^ 30 -> t = m_lastReplenishmentTime b - k * m_intervalMs b ->
  let '(ok, b') := tryConsume t 1 (-1) b in
  let '(ok', b'') := tryConsume t 1 (-1) b' in
  ok = false /\ m_availableTokens b' = - k /\ ok' = false /\ m_availableTokens b'' = - 2 * k.
Proof.
  intros Hwf Hr Ha Ht Hk E.
  replace (tryConsume t 1 (-1) b) with (tryConsume t 1 (-1) (setAvailable 0 b))
    by (rewrite <- Ha; by destruct b).
  rewrite (tryConsume_behind b t k 0), (tryConsume_behind b t k (0 - k)) by (done || lia).
  simpl. lia.
Qed.

Lemma clock_set_back_witness :
  let '(ok, b') := tryConsume 5000 1 (-1) (mkBucket 10 0 1 5000 20000) in
  let '(ok', b'') := tryConsume 5000 1 (-1) b' in
  ok = false /\ m_availableTokens b' = - 3 /\ ok' = false /\ m_availableTokens b'' = - 2 * 3.
Proof.
  apply (clock_set_back (mkBucket 10 0 1 5000 20000) 5000 3);
    [unfold bucketWf; simpl; lia | reflexivity | reflexivity | lia | lia | reflexivity].
Defined.
