(* ===== verification/LogPattern.v ===== *)
(** * Patterns of log messages (misc/logpattern.h, .cpp)

    A pattern selects messages by severity and by their categories.  The log handler
    orders patterns by [isProperSubsetOf], so that a more specific pattern comes before
    a more general one.  An assertion that fails is not part of a release: what the code does
    behind it is modelled.

    [proper_subset_sound]: a pattern that is a proper subset of another one matches fewer
    messages; [isProperSubsetOf_strict]: the relation is a strict partial order. *)

From S2P Require Import Prelude.
From S2P Require Export StatusMessage.
Open Scope Z_scope.

Create HintDb parts discriminated.

Module CLogPattern.

Inductive Strategy := Everything | ExactMatch | AnyOf | AllOf | StartsWith | EndsWith | Contains | Nothing.
#[export] Instance Strategy_eq : EqDecision Strategy.
Proof. solve_decision. Defined.

Record CLogPattern := mkLogPattern {
  m_severities : gset StatusSeverity; m_strategy : Strategy; m_strings : gset QString }.
#[export] Instance CLogPattern_eq : EqDecision CLogPattern.
Proof. solve_decision. Defined.
Implicit Types (p other : CLogPattern) (s category : QString) (categories : list QString).

Definition allSeverities : gset StatusSeverity :=
  {[ SeverityDebug; SeverityInfo; SeverityWarning; SeverityError ]}.
Definition make (strategy : Strategy) (strings : gset QString) : CLogPattern :=
  mkLogPattern allSeverities strategy strings.
Definition everything : CLogPattern := make Everything ∅.
Definition empty : CLogPattern := make Nothing ∅.

Definition exactMatch category : CLogPattern := make ExactMatch {[ category ]}.
Definition anyOf categories : CLogPattern :=
  match categories with
  | [] => empty
  | [category] => exactMatch category
  | _ => make AnyOf (list_to_set categories)
  end.
Definition allOf categories : CLogPattern :=
  match categories with
  | [] => everything
  | [category] => exactMatch category
  | _ => make AnyOf (list_to_set categories)
  end.
Definition startsWith (prefix : QString) : CLogPattern := make StartsWith {[ prefix ]}.
Definition endsWith (suffix : QString) : CLogPattern := make EndsWith {[ suffix ]}.
Definition contains (substring : QString) : CLogPattern := make Contains {[ substring ]}.

Definition withSeverities (severities : gset StatusSeverity) p : CLogPattern :=
  mkLogPattern severities (m_strategy p) (m_strings p).
Definition withSeverity (severity : StatusSeverity) p : CLogPattern := withSeverities {[ severity ]} p.
Definition withSeverityAtOrAbove (minimumSeverity : StatusSeverity) p : CLogPattern :=
  withSeverities
    (match minimumSeverity with
     | SeverityDebug => {[ SeverityDebug; SeverityInfo; SeverityWarning; SeverityError ]}
     | SeverityInfo => {[ SeverityInfo; SeverityWarning; SeverityError ]}
     | SeverityWarning => {[ SeverityWarning; SeverityError ]}
     | SeverityError => {[ SeverityError ]}
     end) p.

Definition checkInvariants p : bool :=
  let size := size (m_strings p) in
  match m_strategy p with
  | Everything | Nothing => (size =? 0)%nat
  | ExactMatch | StartsWith | EndsWith | Contains => (size =? 1)%nat
  | AnyOf | AllOf => (1 <? size)%nat
  end.

(** getString, getPrefix, getSuffix and getSubstring: the first string. *)
Definition getString p : QString := default [] (head (elements (m_strings p))).

Definition matchCategories p categories : bool :=
  match m_strategy p with
  | Everything => true
  | ExactMatch => bool_decide (getString p ∈ categories)
  | AnyOf => existsb (fun s => bool_decide (s ∈ categories)) (elements (m_strings p))
  | AllOf => forallb (fun s => bool_decide (s ∈ categories)) (elements (m_strings p))
  | StartsWith => existsb (fun cat => QtCore.startsWith cat (getString p)) categories
  | EndsWith => existsb (fun cat => QtCore.endsWith cat (getString p)) categories
  | Contains => existsb (fun cat => containsSub cat (getString p)) categories
  | Nothing => bool_decide (categories = [])
  end.
Definition match_ p (message : CStatusMessage) : bool :=
  if negb (checkInvariants p) then true
  else if negb (bool_decide (m_severity message ∈ m_severities p)) then false
  else matchCategories p (m_categories message).

(** The matrix of the strategies. *)
Definition categoriesSubset p other : bool :=
  let all f := forallb f (elements (m_strings p)) in
  let any f := existsb f (elements (m_strings p)) in
  match m_strategy p, m_strategy other with
  | ExactMatch, AnyOf => bool_decide (getString p ∈ m_strings other)
  | ExactMatch, StartsWith => QtCore.startsWith (getString p) (getString other)
  | ExactMatch, EndsWith => QtCore.endsWith (getString p) (getString other)
  | ExactMatch, Contains => containsSub (getString p) (getString other)
  | AnyOf, AnyOf => bool_decide (m_strings p ⊆ m_strings other) && (size (m_strings p) <? size (m_strings other))%nat
  | AnyOf, StartsWith => all (fun s => QtCore.startsWith s (getString other))
  | AnyOf, EndsWith => all (fun s => QtCore.endsWith s (getString other))
  | AnyOf, Contains => all (fun s => containsSub s (getString other))
  | AllOf, ExactMatch => bool_decide (getString other ∈ m_strings p)
  | AllOf, AnyOf => negb (bool_decide (m_strings p ∩ m_strings other = ∅))
  | AllOf, AllOf => bool_decide (m_strings other ⊆ m_strings p) && (size (m_strings other) <? size (m_strings p))%nat
  | AllOf, StartsWith => any (fun s => QtCore.startsWith s (getString other))
  | AllOf, EndsWith => any (fun s => QtCore.endsWith s (getString other))
  | AllOf, Contains => any (fun s => containsSub s (getString other))
  | StartsWith, StartsWith =>
      QtCore.startsWith (getString p) (getString other) && (length (getString other) <? length (getString p))%nat
  | StartsWith, Contains => containsSub (getString p) (getString other)
  | EndsWith, EndsWith =>
      QtCore.endsWith (getString p) (getString other) && (length (getString other) <? length (getString p))%nat
  | EndsWith, Contains => containsSub (getString p) (getString other)
  | Contains, Contains =>
      containsSub (getString p) (getString other) && (length (getString other) <? length (getString p))%nat
  | _, _ => false
  end.
Definition isProperSubsetOf p other : bool :=
  if negb (checkInvariants p && checkInvariants other) then false
  else if negb (bool_decide (m_severities p ⊆ m_severities other)) then false
  else if bool_decide (m_strategy p = m_strategy other) && bool_decide (m_strings p = m_strings other)
  then (size (m_severities p) <? size (m_severities other))%nat
  else if negb (bool_decide (m_strategy p = Everything)) && bool_decide (m_strategy other = Everything) then true
  else categoriesSubset p other.

(** What is written to DBus and to a data stream: a bit for each severity, the strategy, the
    strings in the order of the set. *)
Definition marshal p : Z * Strategy * list QString :=
  (set_fold (fun severity severities => Z.lor severities (Z.shiftl 1 (severityCode severity))) 0 (m_severities p),
   m_strategy p, elements (m_strings p)).
Definition unmarshal (argument : Z * Strategy * list QString) : CLogPattern :=
  let '(severities, strategy, strings) := argument in
  mkLogPattern
    (list_to_set (filter (fun severity => Z.land severities (Z.shiftl 1 (severityCode severity)) <> 0)
                    [SeverityDebug; SeverityInfo; SeverityWarning; SeverityError]))
    strategy (list_to_set strings).
End CLogPattern.
#[export] Existing Instance CLogPattern.CLogPattern_eq.

Section patterns.
Import CLogPattern.
Implicit Types (p q : CLogPattern) (s category : QString) (categories : list QString).

(** ** What a pattern accepts *)

Lemma startsWith_prefix s t : QtCore.startsWith s t = true <-> t `prefix_of` s.
Proof. apply startsWith_spec. Qed.
Lemma endsWith_suffix s t : QtCore.endsWith s t = true <-> t `suffix_of` s.
Proof. apply endsWith_spec. Qed.
Lemma containsSub_infix s t : containsSub s t = true <-> infix t s.
Proof. apply containsSub_spec. Qed.

Lemma infix_refl (a : QString) : infix a a.
Proof. exists [], []. by rewrite app_nil_r. Qed.
Lemma infix_trans (a b c : QString) : infix a b -> infix b c -> infix a c.
Proof. intros (s & t & ->) (u & v & ->). exists (u ++ s), (t ++ v). by rewrite <- !app_assoc. Qed.
Lemma prefix_infix (a b : QString) : a `prefix_of` b -> infix a b.
Proof. intros [t ->]. by exists [], t. Qed.
Lemma suffix_infix (a b : QString) : a `suffix_of` b -> infix a b.
Proof. intros [t ->]. exists t, []. by rewrite app_nil_r. Qed.
Lemma prefix_trans (a b c : QString) : a `prefix_of` b -> b `prefix_of` c -> a `prefix_of` c.
Proof. apply transitivity. Qed.
Lemma suffix_trans (a b c : QString) : a `suffix_of` b -> b `suffix_of` c -> a `suffix_of` c.
Proof. apply transitivity. Qed.
Lemma infix_length (a b : QString) : infix a b -> (length a <= length b)%nat.
Proof. intros (s & t & ->). rewrite !length_app. lia. Qed.

Definition wf p : Prop := checkInvariants p = true.

Lemma getString_single p : (size (m_strings p) =? 1)%nat = true -> m_strings p = {[ getString p ]}.
Proof.
  intros Hs%Nat.eqb_eq. apply size_1_elem_of in Hs as [x Hx]. apply leibniz_equiv in Hx.
  unfold getString. by rewrite Hx, elements_singleton.
Qed.

Lemma subset_elem (X Y : gset QString) s : X ⊂ Y -> s ∈ X -> s ∈ Y.
Proof. intros [Hs _]. apply Hs. Qed.
Lemma subset_subset (X Y Z : gset QString) : X ⊂ Y -> Y ⊂ Z -> X ⊂ Z.
Proof. apply transitivity. Qed.

#[local] Hint Resolve subset_elem subset_subset Nat.lt_trans : parts.
#[local] Hint Resolve infix_trans prefix_infix suffix_infix prefix_trans suffix_trans : parts.
#[local] Hint Extern 1 (_ ∈ _) => eassumption : parts.

(** Takes existentials and conjunctions of the context apart. *)
Ltac parts :=
  repeat match goal with
  | H : exists _, _ |- _ => destruct H
  | H : _ /\ _ |- _ => destruct H
  end; eauto 6 with parts.

(** The categories a pattern accepts, as a proposition. *)
Definition accepts p categories : Prop :=
  match m_strategy p with
  | Everything => True
  | ExactMatch => getString p ∈ categories
  | AnyOf => exists s, s ∈ m_strings p /\ s ∈ categories
  | AllOf => forall s, s ∈ m_strings p -> s ∈ categories
  | StartsWith => exists s, s ∈ categories /\ getString p `prefix_of` s
  | EndsWith => exists s, s ∈ categories /\ getString p `suffix_of` s
  | Contains => exists s, s ∈ categories /\ infix (getString p) s
  | Nothing => categories = []
  end.

Lemma all_strings (f : QString -> bool) (X : gset QString) :
  forallb f (elements X) = true <-> forall s, s ∈ X -> f s = true.
Proof. rewrite forallb_forall. setoid_rewrite <- list_elem_of_In. by setoid_rewrite elem_of_elements. Qed.
Lemma any_strings (f : QString -> bool) (X : gset QString) :
  existsb f (elements X) = true <-> exists s, s ∈ X /\ f s = true.
Proof. rewrite existsb_exists. setoid_rewrite <- list_elem_of_In. by setoid_rewrite elem_of_elements. Qed.

Lemma accepts_spec p categories : matchCategories p categories = true <-> accepts p categories.
Proof.
  unfold matchCategories, accepts. destruct (m_strategy p); rewrite ?bool_decide_eq_true; try done.
  - rewrite any_strings. by setoid_rewrite bool_decide_eq_true.
  - rewrite all_strings. by setoid_rewrite bool_decide_eq_true.
  - rewrite existsb_exists. setoid_rewrite <- list_elem_of_In. by setoid_rewrite startsWith_prefix.
  - rewrite existsb_exists. setoid_rewrite <- list_elem_of_In. by setoid_rewrite endsWith_suffix.
  - rewrite existsb_exists. setoid_rewrite <- list_elem_of_In. by setoid_rewrite containsSub_infix.
Qed.

Lemma match_spec p m : wf p ->
  match_ p m = true <-> m_severity m ∈ m_severities p /\ accepts p (m_categories m).
Proof.
  unfold wf, match_. intros ->. simpl. rewrite <- accepts_spec. case_bool_decide; simpl; naive_solver.
Qed.

(** Enough is known of the strings of a well-formed pattern. *)
Lemma wf_single p : wf p -> (m_strategy p = ExactMatch \/ m_strategy p = StartsWith \/ m_strategy p = EndsWith \/
  m_strategy p = Contains) -> m_strings p = {[ getString p ]}.
Proof. unfold wf, checkInvariants. intros Hw Hs. apply getString_single. by destruct Hs as [Hs|[Hs|[Hs|Hs]]]; rewrite Hs in Hw. Qed.
Lemma wf_several p : wf p -> (m_strategy p = AnyOf \/ m_strategy p = AllOf) -> (1 < size (m_strings p))%nat.
Proof. unfold wf, checkInvariants. intros Hw [Hs|Hs]; rewrite Hs in Hw; by apply Nat.ltb_lt. Qed.

(** The cases of the matrix, as propositions. *)
Definition below p q : Prop :=
  match m_strategy p, m_strategy q with
  | ExactMatch, AnyOf => getString p ∈ m_strings q
  | ExactMatch, StartsWith => getString q `prefix_of` getString p
  | ExactMatch, EndsWith => getString q `suffix_of` getString p
  | ExactMatch, Contains => infix (getString q) (getString p)
  | AnyOf, AnyOf => m_strings p ⊂ m_strings q
  | AnyOf, StartsWith => forall s, s ∈ m_strings p -> getString q `prefix_of` s
  | AnyOf, EndsWith => forall s, s ∈ m_strings p -> getString q `suffix_of` s
  | AnyOf, Contains => forall s, s ∈ m_strings p -> infix (getString q) s
  | AllOf, ExactMatch => getString q ∈ m_strings p
  | AllOf, AnyOf => exists s, s ∈ m_strings p /\ s ∈ m_strings q
  | AllOf, AllOf => m_strings q ⊂ m_strings p
  | AllOf, StartsWith => exists s, s ∈ m_strings p /\ getString q `prefix_of` s
  | AllOf, EndsWith => exists s, s ∈ m_strings p /\ getString q `suffix_of` s
  | AllOf, Contains => exists s, s ∈ m_strings p /\ infix (getString q) s
  | StartsWith, StartsWith => getString q `prefix_of` getString p /\ (length (getString q) < length (getString p))%nat
  | EndsWith, EndsWith => getString q `suffix_of` getString p /\ (length (getString q) < length (getString p))%nat
  | Contains, Contains => infix (getString q) (getString p) /\ (length (getString q) < length (getString p))%nat
  | StartsWith, Contains | EndsWith, Contains => infix (getString q) (getString p)
  | Everything, _ => False
  | _, Everything => True
  | _, _ => False
  end.

Lemma proper_subset_size `{Countable A} (X Y : gset A) :
  bool_decide (X ⊆ Y) && (size X <? size Y)%nat = true <-> X ⊂ Y.
Proof.
  rewrite andb_true_iff, bool_decide_eq_true, Nat.ltb_lt. split.
  - intros [Hs Hn]. split; [done|]. intros Hs'. apply subseteq_size in Hs'. lia.
  - intros Hs. split; [apply Hs | by apply subset_size].
Qed.

Lemma below_spec p q :
  (negb (bool_decide (m_strategy p = Everything)) && bool_decide (m_strategy q = Everything) || categoriesSubset p q = true)
  <-> below p q.
Proof.
  unfold categoriesSubset, below. destruct (m_strategy p) eqn:Ep, (m_strategy q) eqn:Eq;
    cbn -[QtCore.startsWith QtCore.endsWith containsSub Nat.ltb]; rewrite ?orb_false_l, ?orb_true_l; try done;
    rewrite ?proper_subset_size, ?andb_true_iff, ?Nat.ltb_lt, ?bool_decide_eq_true, ?all_strings, ?any_strings,
      ?startsWith_prefix, ?endsWith_suffix, ?containsSub_infix; try done;
    try setoid_rewrite startsWith_prefix; try setoid_rewrite endsWith_suffix; try setoid_rewrite containsSub_infix;
    try done; clear.
  rewrite negb_true_iff, bool_decide_eq_false. split.
  - intros Hn%set_choose_L. destruct Hn as [s Hs%elem_of_intersection]. by exists s.
  - intros (s & Hp & Hq) He. apply (not_elem_of_empty (C := gset QString) s). rewrite <- He. by apply elem_of_intersection.
Qed.

Lemma isProperSubsetOf_spec p q :
  isProperSubsetOf p q = true <->
  wf p /\ wf q /\ m_severities p ⊆ m_severities q /\
  if decide (m_strategy p = m_strategy q /\ m_strings p = m_strings q)
  then m_severities p ⊂ m_severities q else below p q.
Proof.
  unfold isProperSubsetOf, wf.
  destruct (checkInvariants p), (checkInvariants q); try (split; [done | by intros (? & ? & _)]). cbn [andb negb].
  case_bool_decide as Hs; [|split; [done | by intros (_ & _ & ? & _)]]. cbn [negb]. rewrite <- bool_decide_and.
  destruct (decide _) as [Hd|Hd]; [rewrite bool_decide_eq_true_2 by done | rewrite bool_decide_eq_false_2 by done].
  - rewrite <- proper_subset_size, (bool_decide_eq_true_2 _ Hs). tauto.
  - rewrite <- below_spec. destruct (_ && _); simpl; tauto.
Qed.

(** ** A proper subset matches fewer messages *)

(** A pattern below another one accepts no more categories. *)
Lemma below_accepts p q categories : wf p -> wf q -> below p q -> accepts p categories -> accepts q categories.
Proof.
  intros Hp Hq. unfold below, accepts.
  pose proof (wf_single p Hp) as Sp. pose proof (wf_single q Hq) as Sq. clear Hp Hq.
  destruct (m_strategy p), (m_strategy q); try done; clear Sp Sq; intros Hb Ha.
  all: parts.
Qed.

(** Strings of QChar, which has 16 bits. *)
Definition units (s : QString) : Prop := Forall (fun c => (c < 65536)%N) s.
Definition unitStrings p : Prop := forall s, s ∈ m_strings p -> units s.
Lemma units_getString p : unitStrings p -> units (getString p).
Proof.
  intros Hu. unfold getString. destruct (elements (m_strings p)) as [|s l] eqn:E; [by constructor|].
  apply Hu, elem_of_elements. rewrite E. left.
Qed.
Lemma units_elements p : unitStrings p -> Forall units (elements (m_strings p)).
Proof. intros Hu. apply Forall_forall. intros s Hs%elem_of_elements. by apply Hu. Qed.

Lemma long_string (X : gset QString) (s t : QString) : exists u, ~ (s ++ u ++ t) ∈ X /\ units u.
Proof.
  set (n := max_list (map length (elements X))). exists (replicate (S n) 97%N).
  split; [|apply Forall_replicate; lia]. intros Hx. assert (length (s ++ replicate (S n) 97%N ++ t) <= n)%nat as Hl.
  { apply max_list_elem_of_le, list_elem_of_fmap. eexists. split; [done|]. by apply elem_of_elements. }
  rewrite !length_app, length_replicate in Hl. lia.
Qed.

(** Every pattern accepts the categories of some message. *)
Lemma accepts_some p : wf p -> exists categories, accepts p categories /\ (unitStrings p -> Forall units categories).
Proof.
  intros Hp. unfold accepts. pose proof (units_getString p) as Hg. pose proof (units_elements p) as He.
  destruct (m_strategy p) eqn:Ep;
    [exists [] | exists [getString p] | exists (elements (m_strings p)) | exists (elements (m_strings p))
     | exists [getString p] | exists [getString p] | exists [getString p] | exists []];
    (split; [|auto]); try done.
  - set_solver.
  - pose proof (wf_several p Hp (or_introl Ep)) as Hs.
    destruct (size_pos_elem_of (m_strings p)) as [s Hs']; [lia|]. exists s. by rewrite elem_of_elements.
  - intros s. by rewrite elem_of_elements.
  - exists (getString p). split; [left | done].
  - exists (getString p). split; [left | done].
  - exists (getString p). split; [left | apply infix_refl].
Qed.

(** One category out of many is not enough for [ExactMatch], [AnyOf] and [AllOf]. *)
Lemma accepts_single p c : wf p -> (m_strategy p = ExactMatch \/ m_strategy p = AnyOf \/ m_strategy p = AllOf) ->
  accepts p [c] -> c ∈ m_strings p /\ m_strategy p <> AllOf.
Proof.
  intros Hp Hs. unfold accepts. destruct Hs as [Hs|[Hs|Hs]]; rewrite Hs.
  - intros Hc%list_elem_of_singleton. rewrite (wf_single p Hp) by auto. subst. set_solver.
  - intros (s & Hsp & Hc%list_elem_of_singleton). by subst.
  - intros Ha. pose proof (wf_several p Hp (or_intror Hs)) as Hn. exfalso.
    assert (m_strings p ⊆ {[ c ]}) as Hc%subseteq_size. { intros s Hsp. specialize (Ha s Hsp). set_solver. }
    rewrite size_singleton in Hc. lia.
Qed.

(** An empty prefix or suffix is part of every category. *)
Definition anyCategory p : Prop := (m_strategy p = StartsWith \/ m_strategy p = EndsWith) /\ getString p = [].

(** Categories the one accepts and the other does not. *)
Definition separated p q : Prop :=
  exists categories, accepts q categories /\ ~ accepts p categories /\ (unitStrings q -> Forall units categories).

Lemma strict_single p q c : wf p -> (m_strategy p = ExactMatch \/ m_strategy p = AnyOf \/ m_strategy p = AllOf) ->
  (c ∈ m_strings p -> m_strategy p = AllOf) -> accepts q [c] -> (unitStrings q -> units c) -> separated p q.
Proof.
  intros Hp Hs Hc Hq Hu. exists [c]. split_and!; [done | | auto].
  intros [Hin Hn]%accepts_single; [|done..]. auto.
Qed.

Lemma below_everything p : wf p -> m_strategy p <> Everything -> exists categories, ~ accepts p categories /\ Forall units categories.
Proof.
  intros Hp Hn. destruct (decide (m_strategy p = Nothing)) as [Hs|Hs].
  { exists [[]]. unfold accepts. rewrite Hs. split; [done | by repeat constructor]. }
  exists []. split; [|done]. unfold accepts. destruct (m_strategy p) eqn:Ep; try done; try set_solver.
  pose proof (wf_several p Hp (or_intror Ep)) as Hl. intros Ha.
  destruct (size_pos_elem_of (m_strings p)) as [s Hs']; [lia|]. by apply Ha, elem_of_nil in Hs'.
Qed.

(** [ExactMatch], [AnyOf] and [AllOf]: a category of the other pattern that is none of the strings. *)
Lemma below_strict_strings p q : wf p -> wf q ->
  (m_strategy p = ExactMatch \/ m_strategy p = AnyOf \/ m_strategy p = AllOf) ->
  m_strategy q <> Everything -> below p q ->
  separated p q.
Proof.
  intros Hp Hq Hs Hn Hb. pose proof (units_getString q) as Hg.
  destruct (m_strategy q) eqn:Eq; try done.
  - (* ExactMatch *) apply (strict_single p q (getString q)); try done; [|unfold accepts; rewrite Eq; set_solver].
    intros _. unfold below in Hb. destruct Hs as [Hs|[Hs|Hs]]; by rewrite Hs, Eq in Hb.
  - (* AnyOf *) destruct (decide (m_strategy p = AllOf)) as [Hl|Hl].
    + unfold below in Hb. rewrite Hl, Eq in Hb. destruct Hb as (s & _ & Hb).
      apply (strict_single p q s); try done; [|by intros Hu; apply Hu; set_solver]. unfold accepts. rewrite Eq. exists s. set_solver.
    + assert (m_strings p ⊂ m_strings q) as Hsub.
      { unfold below in Hb. destruct Hs as [Hs|[Hs|Hs]]; rewrite Hs, Eq in Hb; try done.
        rewrite (wf_single p Hp) by auto. pose proof (wf_several q Hq (or_introl Eq)) as Hsz.
        split; [set_solver|]. intros Hsq%subseteq_size. rewrite size_singleton in Hsq. lia. }
      destruct (set_choose_L (m_strings q ∖ m_strings p)) as [s Hsd]; [by apply non_empty_difference_L|].
      apply (strict_single p q s); try done; [set_solver| |by intros Hu; apply Hu; set_solver]. unfold accepts. rewrite Eq. exists s. set_solver.
  - (* AllOf *) assert (m_strategy p = AllOf) as Hl.
    { unfold below in Hb. destruct Hs as [Hs|[Hs|Hs]]; by rewrite Hs, Eq in Hb. }
    unfold below in Hb. rewrite Hl, Eq in Hb. exists (elements (m_strings q)). unfold accepts. rewrite Hl, Eq.
    split_and!; [intros s; by rewrite elem_of_elements| | apply units_elements]. 
    intros Ha. apply Hb. intros s Hsp%Ha. by apply elem_of_elements.
  - destruct (long_string (m_strings p) (getString q) []) as (u & Hu & Hu'). rewrite app_nil_r in Hu.
    apply (strict_single p q (getString q ++ u)); try done; [|intros Hq'; apply Forall_app; split; [by apply Hg | done]]. unfold accepts. rewrite Eq. eexists. split; [left | by exists u].
  - destruct (long_string (m_strings p) [] (getString q)) as (u & Hu & Hu'). simpl in Hu.
    apply (strict_single p q (u ++ getString q)); try done; [|intros Hq'; apply Forall_app; split; [done | by apply Hg]]. unfold accepts. rewrite Eq. eexists. split; [left | by exists u].
  - destruct (long_string (m_strings p) [] (getString q)) as (u & Hu & Hu'). simpl in Hu.
    apply (strict_single p q (u ++ getString q)); try done; [|intros Hq'; apply Forall_app; split; [done | by apply Hg]]. unfold accepts. rewrite Eq. eexists.
    split; [left | exists u, []; by rewrite app_nil_r].
  - unfold below in Hb. destruct Hs as [Hs|[Hs|Hs]]; by rewrite Hs, Eq in Hb.
Qed.

(** Another character. *)
Definition another (x : QChar) : QChar := if (x =? 97)%N then 98%N else 97%N.
Lemma another_ne x : another x <> x.
Proof. unfold another. destruct (N.eqb_spec x 97); [subst; lia | done]. Qed.
Lemma another_unit x : (another x < 65536)%N.
Proof. unfold another. destruct (x =? 97)%N; lia. Qed.

(** [StartsWith], [EndsWith] and [Contains]: the shorter string, or one with another first or
    last character. *)
Lemma below_strict_parts p q :
  (m_strategy p = StartsWith \/ m_strategy p = EndsWith \/ m_strategy p = Contains) ->
  ~ (anyCategory p /\ m_strategy q = Contains) -> m_strategy q <> Everything -> below p q ->
  separated p q.
Proof.
  intros Hs Hd Hn. pose proof (units_getString q) as Hg. unfold separated, below, accepts, anyCategory in *.
  destruct Hs as [Hs|[Hs|Hs]]; rewrite Hs in *; destruct (m_strategy q) eqn:Eq; try done.
  - intros [_ Hl]. exists [getString q]. split_and!; [eexists; split; [left | done] | | auto].
    intros (s & ->%list_elem_of_singleton & Hpre%prefix_infix%infix_length). lia.
  - intros Hpart. destruct (getString p) as [|x s]; [exfalso; auto|].
    exists [another x :: getString q]. split_and!; [eexists; split; [left | exists [another x], []; by rewrite app_nil_r] | |].
    2: { intros Hu. apply Forall_singleton, Forall_cons. split; [apply another_unit | by apply Hg]. }
    intros (v & ->%list_elem_of_singleton & [w Hw]). injection Hw as Hx _. by apply (another_ne x).
  - intros [_ Hl]. exists [getString q]. split_and!; [eexists; split; [left | done] | | auto].
    intros (s & ->%list_elem_of_singleton & Hsuf%suffix_infix%infix_length). lia.
  - intros Hpart. destruct (getString p) as [|x s _] using rev_ind; [exfalso; auto|].
    exists [getString q ++ [another x]]. split_and!; [eexists; split; [left | by exists [], [another x]] | |].
    2: { intros Hu. apply Forall_singleton, Forall_app. split; [by apply Hg | apply Forall_singleton, another_unit]. }
    intros (v & ->%list_elem_of_singleton & [w Hw]). rewrite app_assoc in Hw. apply app_inj_tail in Hw as [_ Hx].
    by apply (another_ne x).
  - intros [_ Hl]. exists [getString q]. split_and!; [eexists; split; [left | apply infix_refl] | | auto].
    intros (s & ->%list_elem_of_singleton & Hpart%infix_length). lia.
Qed.

Lemma below_strict p q : wf p -> wf q -> ~ (anyCategory p /\ m_strategy q = Contains) -> below p q ->
  separated p q.
Proof.
  intros Hp Hq Hd Hb.
  destruct (decide (m_strategy q = Everything)) as [He|He].
  { assert (m_strategy p <> Everything) as Hn by (intros Hn; unfold below in Hb; by rewrite Hn in Hb).
    destruct (below_everything p Hp Hn) as (categories & Ha & Hu). exists categories. split_and!; [|done..].
    unfold accepts. by rewrite He. }
  destruct (m_strategy p) eqn:Ep; try (apply below_strict_strings; auto; fail);
    try (apply below_strict_parts; auto; fail); unfold below in Hb; rewrite Ep in Hb; [done|].
  by destruct (m_strategy q).
Qed.

(** C38: A pattern that is a proper subset of another one matches no message the other one does not
    match, and some message less: unless the other one has no severities, or the categories are those
    with any prefix or suffix against those with any substring, which are the same.  The categories of that
    message have characters of 16 bits when the strings of the pattern have. *)
Theorem proper_subset_sound p q :
  isProperSubsetOf p q = true ->
  (forall m, match_ p m = true -> match_ q m = true) /\
  (m_severities q <> ∅ -> ~ (anyCategory p /\ m_strategy q = Contains) ->
   exists m, match_ q m = true /\ match_ p m = false /\ (unitStrings q -> Forall units (m_categories m))).
Proof.
  intros (Hp & Hq & Hs & Hb)%isProperSubsetOf_spec. split.
  - intros m. rewrite !match_spec by done. intros [Hm Ha]. split; [by apply Hs|].
    destruct (decide _) as [[E1 E2]|_]; [|exact (below_accepts p q _ Hp Hq Hb Ha)].
    unfold accepts, getString in *. by rewrite <- E1, <- E2.
  - intros Hne Hd. setoid_rewrite <- not_true_iff_false. setoid_rewrite (match_spec p _ Hp). setoid_rewrite (match_spec q _ Hq).
    destruct (decide _) as [[E1 E2]|_].
    + destruct (set_choose_L (m_severities q ∖ m_severities p)) as [s Hsd]; [by apply non_empty_difference_L|].
      destruct (accepts_some q Hq) as (categories & Ha & Hu). exists (mkStatusMessage categories s [] [] 0 []). simpl.
      set_solver.
    + destruct (below_strict p q Hp Hq Hd Hb) as (categories & Ha & Hn & Hu).
      destruct (set_choose_L _ Hne) as [s Hsq]. exists (mkStatusMessage categories s [] [] 0 []). simpl. tauto.
Qed.

(** ** The order of patterns *)

Lemma below_irrefl p q : m_strategy p = m_strategy q -> m_strings p = m_strings q -> ~ below p q.
Proof.
  intros E1 E2. unfold below. assert (getString p = getString q) as Eg by (unfold getString; by rewrite E2).
  rewrite <- E1, <- E2, <- Eg. destruct (m_strategy p); try tauto; try (intros [? Hn]; by apply Hn); intros [_ Hl]; lia.
Qed.

Lemma below_same_l p p' q : m_strategy p = m_strategy p' -> m_strings p = m_strings p' -> below p q -> below p' q.
Proof.
  intros E1 E2. unfold below. assert (getString p = getString p') as Eg by (unfold getString; by rewrite E2).
  by rewrite E1, E2, Eg.
Qed.
Lemma below_same_r p q q' : m_strategy q = m_strategy q' -> m_strings q = m_strings q' -> below p q -> below p q'.
Proof.
  intros E1 E2. unfold below. assert (getString q = getString q') as Eg by (unfold getString; by rewrite E2).
  by rewrite E1, E2, Eg.
Qed.

Lemma below_trans p q r : below p q -> below q r -> below p r.
Proof.
  unfold below. destruct (m_strategy p), (m_strategy q); try done; destruct (m_strategy r); try done; intros Hpq Hqr.
  all: parts.
Qed.

(** The relation by which patterns are sorted is a strict partial order: what sorting in
    topological order asks for. *)
Theorem isProperSubsetOf_strict : StrictOrder (fun p q => isProperSubsetOf p q = true).
Proof.
  split.
  - intros p (_ & _ & _ & Hb)%isProperSubsetOf_spec. rewrite decide_True in Hb by done. by destruct Hb as [_ ?].
  - intros p q r. rewrite !isProperSubsetOf_spec. intros (Hp & _ & Hs & Hb) (_ & Hr & Hs' & Hb').
    split_and!; [done..|by etrans|].
    destruct (decide (m_strategy p = _ /\ _)) as [[E1 E2]|Hn] in Hb;
      destruct (decide (m_strategy q = _ /\ _)) as [[E1' E2']|Hn'] in Hb'.
    + rewrite decide_True by (split; congruence). by etrans.
    + rewrite decide_False by naive_solver congruence. by eapply below_same_l.
    + rewrite decide_False by naive_solver congruence. by eapply below_same_r.
    + pose proof (below_trans p q r Hb Hb') as Ht. rewrite decide_False; [done|].
      intros [E1 E2]. by eapply below_irrefl.
Qed.

(** ** Round trip *)

Lemma severityBit (s x : StatusSeverity) : Z.testbit (Z.shiftl 1 (severityCode x)) (severityCode s) = true <-> s = x.
Proof. split; [by destruct s, x | intros ->; by destruct x]. Qed.

(** What is written to a stream or to DBus is read back to the same pattern. *)
Theorem pattern_roundtrip p : unmarshal (marshal p) = p.
Proof.
  unfold unmarshal, marshal. destruct p as [severities strategy strings]. simpl. f_equal.
  - set (bits := set_fold _ 0 severities).
    assert (Hbits : forall s : StatusSeverity, Z.testbit bits (severityCode s) = true <-> s ∈ severities).
    { intros s. unfold bits.
      apply (set_fold_ind_L (fun b X => Z.testbit b (severityCode s) = true <-> s ∈ X)).
      - rewrite Z.bits_0. set_solver.
      - intros x X b Hx Hb. rewrite Z.lor_spec, orb_true_iff, Hb, severityBit. set_solver. }
    apply set_eq. intros s. rewrite elem_of_list_to_set, list_elem_of_filter, <- Hbits.
    assert (Hall : s ∈ [SeverityDebug; SeverityInfo; SeverityWarning; SeverityError]) by (destruct s; set_solver).
    split.
    + intros [Hn _]. apply not_false_iff_true. intros E. destruct Hn. apply Z.bits_inj'. intros i Hi.
      rewrite Z.land_spec, Z.bits_0, Z.shiftl_1_l, Z.pow2_bits_eqb by (apply severityCode_range).
      destruct (Z.eqb_spec (severityCode s) i) as [<-|]; [by rewrite E | apply andb_false_r].
    + intros Hs. split; [|done]. intros Hz. apply (f_equal (fun z => Z.testbit z (severityCode s))) in Hz.
      rewrite Z.land_spec, Hs, Z.bits_0, (proj2 (severityBit s s) eq_refl) in Hz. done.
  - apply list_to_set_elements_L.
Qed.

Lemma proper_subset_sound_witness :
  isProperSubsetOf (exactMatch (lit "swift.fsd")) (startsWith (lit "swift.")) = true /\
  (forall m, match_ (exactMatch (lit "swift.fsd")) m = true -> match_ (startsWith (lit "swift.")) m = true) /\
  exists m, match_ (startsWith (lit "swift.")) m = true /\ match_ (exactMatch (lit "swift.fsd")) m = false /\
    Forall units (m_categories m).
Proof.
  assert (H : isProperSubsetOf (exactMatch (lit "swift.fsd")) (startsWith (lit "swift.")) = true)
    by (vm_compute; reflexivity).
  destruct (proper_subset_sound _ _ H) as [Hm Hs]. split_and!; [exact H | exact Hm|].
  destruct Hs as (m & H1 & H2 & H3); [| |exists m; split_and!; [exact H1 | exact H2 | apply H3]].
  - intros He%(f_equal size). vm_compute in He. discriminate He.
  - intros [_ Hd]. discriminate Hd.
  - intros s Hin. change (m_strings (startsWith (lit "swift."))) with ({[ lit "swift." ]} : gset QString) in Hin.
    apply elem_of_singleton in Hin as ->. repeat constructor.
Defined.

(** ** Examples *)

Definition messageIn (categories : list QString) : CStatusMessage :=
  mkStatusMessage categories SeverityInfo (lit "text") [] 0 [].

(** [allOf] makes a pattern of any of the categories. *)
Example all_of_is_any_of :
  match_ (allOf [lit "swift.fsd"; lit "swift.network"]) (messageIn [lit "swift.fsd"]) = true.
Proof. vm_compute. reflexivity. Qed.

(** A list with a category twice makes a pattern that is not well-formed, and matches every message. *)
Example any_of_twice_the_same :
  match_ (anyOf [lit "swift.fsd"; lit "swift.fsd"]) (messageIn [lit "swift.gui"]) = true.
Proof. vm_compute. reflexivity. Qed.

(** The degenerate case: the same messages, and yet a proper subset. *)
Example any_prefix_any_part :
  isProperSubsetOf (startsWith []) (contains []) = true /\
  forall m, match_ (contains []) m = true -> match_ (startsWith []) m = true.
Proof.
  split; [vm_compute; reflexivity|]. intros m. rewrite !match_spec by (vm_compute; reflexivity).
  intros [Hm (s & Hs & _)]. split; [done|]. exists s. split; [done|].
  replace (getString _) with (@nil QChar) by (vm_compute; reflexivity). apply prefix_nil.
Qed.
End patterns.
