(* ===== verification/LogHandler.v ===== *)
(** * The log handler (misc/loghandler.h, .cpp, misc/algorithm.h)

    All messages of a process go through the log handler.  It limits the rate of
    identical messages, passes a message to the handlers of the patterns it matches, and
    decides whether Qt's own handler prints it.  The handlers are kept in
    topological order, the more specific pattern first, so that it decides.

    Everything runs in the main thread; what other threads call is posted there.  A receiver
    of a message does not log itself.  Subscribers, handlers and receivers are numbers. *)

From S2P Require Import Prelude.
From S2P Require Export LogPattern.
From S2P Require TokenBucket.
From S2P Require Import QtReference.
Import CLogPattern (CLogPattern, isProperSubsetOf, match_, exactMatch, withSeverity).
Open Scope Z_scope.

(** ** Sorted insertion *)

(** After the last element that is less than the value.  The reverse iterator at the element
    found, as a forward iterator, points behind it. *)
Definition topologicallySortedInsert {A} (comparator : A -> A -> bool) (value : A) (container : list A) : list A :=
  let n := match list_find (fun lhs => comparator lhs value = true) (reverse container) with
           | Some (i, _) => (length container - i)%nat
           | None => 0%nat
           end in
  take n container ++ value :: drop n container.

(** ** The objects *)

(** Who is connected to a handler: a subscriber's slot, or another receiver. *)
Inductive Receiver := BySubscriber (subscriber : N) | Direct (receiver : N).
#[export] Instance Receiver_eq : EqDecision Receiver.
Proof. solve_decision. Defined.

Record CLogPatternHandler := mkPatternHandler {
  m_pattern : CLogPattern; m_inheritFallThrough : bool; ph_enableFallThrough : bool; m_isSubscribed : bool;
  m_subscriptionNeedsUpdate : bool; ph_receivers : list Receiver; ph_deleteLater : bool }.
Definition CLogPatternHandler_make (pattern : CLogPattern) : CLogPatternHandler :=
  mkPatternHandler pattern true true false false [] false.

Record CLogSubscriber := mkSubscriber {
  m_handler : option N; sub_inheritFallThrough : bool; sub_enableFallThrough : bool }.
Definition CLogSubscriber_make : CLogSubscriber := mkSubscriber None true true.

Record CLogHandler := mkLogHandler {
  m_enableFallThrough : bool; m_patternHandlers : list (CLogPattern * N);
  m_tokenBuckets : gmap MessageKey (TokenBucket.CTokenBucket * Z);
  handlers : gmap N CLogPatternHandler; subscribers : gmap N CLogSubscriber; nextHandler : N }.
Definition CLogHandler_init : CLogHandler := mkLogHandler true [] ∅ ∅ ∅ 0%N.

(** What the handler calls and emits. *)
Inductive LogOut :=
  | OldHandler (type : QtMsgType) (category message : QString)
  | MessageLogged (receiver : Receiver) (message : CStatusMessage)
  | LocalMessageLogged (message : CStatusMessage)
  | RemoteMessageLogged (message : CStatusMessage)
  | SubscriptionAdded (pattern : CLogPattern)
  | SubscriptionRemoved (pattern : CLogPattern).

Section handler.
Context `{QtConv} (isLocalDeveloperDebugBuild : bool).
Implicit Types (s : CLogHandler) (pattern : CLogPattern) (h i : N) (message : CStatusMessage).

(** ** Handlers by pattern *)

Definition moreSpecific (a b : CLogPattern * N) : bool := isProperSubsetOf a.1 b.1.

Definition handlerForPattern pattern s : N * CLogHandler :=
  match list_find (fun entry => entry.1 = pattern) (m_patternHandlers s) with
  | Some (_, entry) => (entry.2, s)
  | None =>
      let h := nextHandler s in
      (h, s <| handlers ::= <[h := CLogPatternHandler_make pattern]> |> <| nextHandler := N.succ h |>
            <| m_patternHandlers ::= topologicallySortedInsert moreSpecific (pattern, h) |>)
  end.

Definition handlersForMessage message s : list N :=
  map snd (filter (fun entry => match_ entry.1 message = true) (m_patternHandlers s)).

Fixpoint isFallThroughEnabled (hs : list N) s : bool :=
  match hs with
  | [] => m_enableFallThrough s
  | h :: hs =>
      match handlers s !! h with
      | Some handler => if negb (m_inheritFallThrough handler) then ph_enableFallThrough handler
                        else isFallThroughEnabled hs s
      | None => isFallThroughEnabled hs s
      end
  end.

(** The handler is also deleted, once control returns to the event loop ([deferredDelete]). *)
Definition removePatternHandler h s : CLogHandler :=
  match list_find (fun entry => entry.2 = h) (m_patternHandlers s) with
  | Some (n, _) => s <| handlers ::= alter (fun handler => handler <| ph_deleteLater := true |>) h |>
                     <| m_patternHandlers ::= fun l => take n l ++ drop (S n) l |>
  | None => s
  end.
Definition deferredDelete h s : CLogHandler :=
  match handlers s !! h with
  | Some handler => if ph_deleteLater handler then s <| handlers ::= delete h |> else s
  | None => s
  end.

Definition receiversOf h s : list Receiver :=
  match handlers s !! h with Some handler => ph_receivers handler | None => [] end.
Definition getAllSubscriptions s : list CLogPattern :=
  omap (fun entry => if bool_decide (receiversOf entry.2 s = []) then None else Some entry.1) (m_patternHandlers s).

(** ** Logging *)

(** [None] where the text of the message is not defined. *)
Definition logMessage message s : option (list LogOut) :=
  let hs := handlersForMessage message s in
  qt ← (if isFallThroughEnabled hs s
        then '(type, category, text) ← toQtLogTriple message; Some [OldHandler type category text]
        else Some []);
  Some (qt ++ concat (map (fun h => map (fun r => MessageLogged r message) (receiversOf h s)) hs)).

(** Messages of Qt that are less severe than Qt says. *)
Definition downgraded message : option CStatusMessage :=
  let message :=
    if negb isLocalDeveloperDebugBuild && match_ (withSeverity SeverityError CLogPattern.empty) message
    then setSeverity SeverityDebug message else message in
  if negb isLocalDeveloperDebugBuild && match_ (withSeverity SeverityWarning (exactMatch (lit "default"))) message
  then
    text ← getMessage message;
    Some (if QtCore.startsWith text (lit "libpng warning") then setSeverity SeverityDebug message
          else if QtCore.startsWith text (lit "QCommandLineParser: option not defined")
          then setSeverity SeverityDebug message else message)
  else Some message.

Definition identicalMessages (n : Z) : QString := lit " (+" ++ qt_number n ++ lit " identical messages)".

Definition newBucket (now : Z) : TokenBucket.CTokenBucket := TokenBucket.CTokenBucket_make now 5 1000 1.

Definition logLocalMessage (now : Z) message s : option (CLogHandler * list LogOut) :=
  message ← downgraded message;
  let '(bucket, suppressed) := default (newBucket now, 0) (m_tokenBuckets s !! compareKey message) in
  let '(ok, bucket) := TokenBucket.tryConsume now 1 (-1) bucket in
  if negb ok
  then Some (s <| m_tokenBuckets ::= <[compareKey message := (bucket, wrapS 32 (suppressed + 1))]> |>, [])
  else
    let s := s <| m_tokenBuckets ::= <[compareKey message := (bucket, if 0 <? suppressed then 0 else suppressed)]> |> in
    let message := if 0 <? suppressed then appendMessage (identicalMessages suppressed) message else message in
    o ← logMessage message s;
    Some (s, o ++ [LocalMessageLogged message]).

Definition logRemoteMessage message s : option (CLogHandler * list LogOut) :=
  o ← logMessage message s; Some (s, o ++ [RemoteMessageLogged message]).

Definition enableConsoleOutput (enable : bool) s : CLogHandler := s <| m_enableFallThrough := enable |>.

(** ** The handler of a pattern *)

Definition onHandler (f : CLogPatternHandler -> CLogPatternHandler) h s : CLogHandler := s <| handlers ::= alter f h |>.

Definition ph_enableConsoleOutput (enable : bool) : N -> CLogHandler -> CLogHandler :=
  onHandler (fun handler => handler <| m_inheritFallThrough := false |> <| ph_enableFallThrough := enable |>
                              <| m_subscriptionNeedsUpdate := true |>).
Definition ph_inheritConsoleOutput : N -> CLogHandler -> CLogHandler :=
  onHandler (fun handler => handler <| m_inheritFallThrough := true |> <| m_subscriptionNeedsUpdate := true |>).

(** Connecting a receiver notifies the handler ([connectNotify]).  So does the end of a
    receiver ([disconnectNotify]); but when a receiver is disconnected from all signals, Qt names none, and
    the handler does not take note of it. *)
Definition connectReceiver (r : Receiver) : N -> CLogHandler -> CLogHandler :=
  onHandler (fun handler => handler <| ph_receivers ::= fun l => l ++ [r] |> <| m_subscriptionNeedsUpdate := true |>).
Definition disconnectReceiver (r : Receiver) : N -> CLogHandler -> CLogHandler :=
  onHandler (fun handler => handler <| ph_receivers ::= filter (fun r' => r' <> r) |>).
Definition withoutDestroyed (r : Receiver) (handler : CLogPatternHandler) : CLogPatternHandler :=
  if decide (r ∈ ph_receivers handler)
  then handler <| ph_receivers ::= filter (fun r' => r' <> r) |> <| m_subscriptionNeedsUpdate := true |>
  else handler.
Definition receiverDestroyed (r : Receiver) s : CLogHandler := s <| handlers ::= fmap (withoutDestroyed r) |>.

(** The timer of a handler, every millisecond. *)
Definition updateSubscription h s : CLogHandler * list LogOut :=
  match handlers s !! h with
  | None => (s, [])
  | Some handler =>
      if m_subscriptionNeedsUpdate handler
      then
        let isSubscribed := negb (bool_decide (ph_receivers handler = [])) in
        let changed := negb (eqb isSubscribed (m_isSubscribed handler)) in
        let handler := handler <| m_subscriptionNeedsUpdate := false |> <| m_isSubscribed := isSubscribed |> in
        let s := s <| handlers ::= <[h := handler]> |> in
        (if m_inheritFallThrough handler && negb isSubscribed then removePatternHandler h s else s,
         if changed then [(if isSubscribed then SubscriptionAdded else SubscriptionRemoved) (m_pattern handler)] else [])
      else (s, [])
  end.

(** ** Subscribers *)

Definition subscriber i s : CLogSubscriber := default CLogSubscriber_make (subscribers s !! i).
(** The pointer is null once the handler is deleted. *)
Definition handlerOf i s : option N :=
  h ← m_handler (subscriber i s); if decide (is_Some (handlers s !! h)) then Some h else None.
Definition onSubscriber i (f : CLogSubscriber -> CLogSubscriber) s : CLogHandler :=
  s <| subscribers ::= <[i := f (subscriber i s)]> |>.

Definition unsubscribe i s : CLogHandler :=
  match handlerOf i s with
  | None => s
  | Some h =>
      let s := if negb (sub_inheritFallThrough (subscriber i s)) then ph_inheritConsoleOutput h s else s in
      disconnectReceiver (BySubscriber i) h s
  end.
Definition changeSubscription pattern i s : CLogHandler :=
  let s := unsubscribe i s in
  let '(h, s) := handlerForPattern pattern s in
  let s := onSubscriber i (fun sub => sub <| m_handler := Some h |>) s in
  let s := if negb (sub_inheritFallThrough (subscriber i s))
           then ph_enableConsoleOutput (sub_enableFallThrough (subscriber i s)) h s else s in
  connectReceiver (BySubscriber i) h s.
Definition sub_inheritConsoleOutput i s : CLogHandler :=
  let s := onSubscriber i (fun sub => sub <| sub_inheritFallThrough := true |>) s in
  match handlerOf i s with Some h => ph_inheritConsoleOutput h s | None => s end.
Definition sub_enableConsoleOutput (enable : bool) i s : CLogHandler :=
  let s := onSubscriber i (fun sub => sub <| sub_inheritFallThrough := false |> <| sub_enableFallThrough := enable |>) s in
  match handlerOf i s with Some h => ph_enableConsoleOutput enable h s | None => s end.

(** ** The handler as a machine *)

Inductive LogEvent :=
  | LogLocal (message : CStatusMessage)
  | LogRemote (message : CStatusMessage)
  | EnableConsole (enable : bool)
  | Subscribe (pattern : CLogPattern) (receiver : N)      (** handlerForPattern and subscribe *)
  | ReceiverDestroyed (r : Receiver)
  | HandlerConsole (pattern : CLogPattern) (enable : option bool) (** handlerForPattern; None to inherit *)
  | UpdateTimer (h : N)
  | DeferredDelete (h : N)
  | ChangeSubscription (pattern : CLogPattern) (i : N)
  | Unsubscribe (i : N)
  | SubscriberConsole (i : N) (enable : option bool).

Definition quietly s : option (CLogHandler * list LogOut) := Some (s, []).
Definition log_step (now : Z) (e : LogEvent) s : option (CLogHandler * list LogOut) :=
  match e with
  | LogLocal message => logLocalMessage now message s
  | LogRemote message => logRemoteMessage message s
  | EnableConsole enable => quietly (enableConsoleOutput enable s)
  | Subscribe pattern receiver => let '(h, s) := handlerForPattern pattern s in quietly (connectReceiver (Direct receiver) h s)
  | ReceiverDestroyed r => quietly (receiverDestroyed r s)
  | HandlerConsole pattern enable =>
      let '(h, s) := handlerForPattern pattern s in
      quietly (match enable with Some b => ph_enableConsoleOutput b h s | None => ph_inheritConsoleOutput h s end)
  | UpdateTimer h => Some (updateSubscription h s)
  | DeferredDelete h => quietly (deferredDelete h s)
  | ChangeSubscription pattern i => quietly (changeSubscription pattern i s)
  | Unsubscribe i => quietly (unsubscribe i s)
  | SubscriberConsole i enable =>
      quietly (match enable with Some b => sub_enableConsoleOutput b i s | None => sub_inheritConsoleOutput i s end)
  end.

(** A run, with what every event emits. *)
Fixpoint log_run (es : list (Z * LogEvent)) s : option (CLogHandler * list (list LogOut)) :=
  match es with
  | [] => Some (s, [])
  | (now, e) :: es => '(s, o) ← log_step now e s; '(s, os) ← log_run es s; Some (s, o :: os)
  end.
End handler.

(** ** Sorted insertion keeps the order *)

Section sorted_insert.
Context {A : Type} (cmp : A -> A -> bool) `{!StrictOrder (fun x y => cmp x y = true)}.
Implicit Types (x v : A) (l : list A).

(** No element is less than one in front of it. *)
Definition topoSorted l : Prop := StronglySorted (fun x y => cmp y x = false) l.

Lemma insert_split v l :
  exists l1 l2, l = l1 ++ l2 /\ topologicallySortedInsert cmp v l = l1 ++ v :: l2 /\
    Forall (fun y => cmp y v = false) l2 /\ (l1 = [] \/ exists l0 x, l1 = l0 ++ [x] /\ cmp x v = true).
Proof using Type.
  unfold topologicallySortedInsert. destruct (list_find _ _) as [[i x]|] eqn:E.
  - apply list_find_Some in E as (Hi & Hx & Hbefore).
    pose proof (lookup_lt_Some _ _ _ Hi) as Hlt. rewrite length_reverse in Hlt.
    rewrite reverse_lookup in Hi by done.
    set (n := (length l - i)%nat) in *. exists (take n l), (drop n l).
    split_and!; [by rewrite take_drop | done | |].
    + apply Forall_lookup. intros j y Hj. rewrite lookup_drop in Hj.
      pose proof (lookup_lt_Some _ _ _ Hj) as Hjl. apply not_true_iff_false.
      apply (Hbefore (length l - S (n + j))%nat y); [|lia].
      rewrite reverse_lookup by lia. rewrite <- Hj. f_equal. lia.
    + right. exists (take (length l - S i) l), x. split; [|done].
      replace n with (S (length l - S i)) by lia. by apply take_S_r.
  - apply list_find_None in E. exists [], l. split_and!; try done; [|by left].
    apply Forall_forall. intros y Hy. rewrite Forall_forall in E. apply not_true_iff_false, E. by apply elem_of_reverse.
Qed.

(** The assertion of the code: what comes before the value is not greater. *)
Lemma insert_no_cycle v l1 l2 :
  topoSorted (l1 ++ l2) -> (l1 = [] \/ exists l0 x, l1 = l0 ++ [x] /\ cmp x v = true) ->
  Forall (fun x => cmp v x = false) l1.
Proof using All.
  intros Hs [->|(l0 & x & -> & Hx)]; [done|]. apply Forall_forall. intros a Ha. apply not_true_iff_false. intros Hv.
  pose proof (StrictOrder_Transitive (R := fun x y => cmp x y = true) x v a Hx Hv) as Hxa.
  apply StronglySorted_app in Hs as (_ & Hs & _). apply StronglySorted_app in Hs as (Hl0 & _).
  apply elem_of_app in Ha as [Ha|Ha%list_elem_of_singleton].
  - specialize (Hl0 a x Ha (list_elem_of_here _ _)). congruence.
  - subst. by apply (StrictOrder_Irreflexive (R := fun x y => cmp x y = true) x).
Qed.

Lemma insert_sorted v l : topoSorted l -> topoSorted (topologicallySortedInsert cmp v l).
Proof using All.
  intros Hs. destruct (insert_split v l) as (l1 & l2 & -> & -> & Hafter & Hlast).
  pose proof (insert_no_cycle v l1 l2 Hs Hlast) as Hbefore.
  rewrite Forall_forall in Hbefore. apply StronglySorted_app in Hs as (H12 & H1 & H2). apply StronglySorted_app.
  split_and!; [|done|by constructor]. intros a b Ha [->|Hb]%elem_of_cons; [by apply Hbefore | by apply H12].
Qed.

Lemma insert_perm v l : topologicallySortedInsert cmp v l ≡ₚ v :: l.
Proof using Type. destruct (insert_split v l) as (l1 & l2 & -> & -> & _). by rewrite Permutation_middle. Qed.
End sorted_insert.

#[export] Instance moreSpecific_strict : StrictOrder (fun a b : CLogPattern * N => moreSpecific a b = true).
Proof.
  pose proof isProperSubsetOf_strict as [Hi Ht]. unfold moreSpecific. split.
  - intros [p h]. apply Hi.
  - intros [p h] [q i] [r j]. apply Ht.
Qed.

(** ** What holds in every state *)

Section invariant.
Context `{QtConv} (debug : bool).
Implicit Types (s : CLogHandler) (pattern : CLogPattern) (h i : N) (handler : CLogPatternHandler).

(** The list is in topological order and names the handlers that are not to be deleted, each
    with its pattern; those to be deleted have no receivers. *)
Record ListOk (l : list (CLogPattern * N)) (hs : gmap N CLogPatternHandler) (next : N) : Prop := {
  ok_sorted : topoSorted moreSpecific l;
  ok_ids : NoDup l.*2;
  ok_patterns : NoDup l.*1;
  ok_listed pattern h : (pattern, h) ∈ l ->
    exists handler, hs !! h = Some handler /\ m_pattern handler = pattern /\ ph_deleteLater handler = false;
  ok_alive h handler : hs !! h = Some handler -> ph_deleteLater handler = false -> (m_pattern handler, h) ∈ l;
  ok_leaving h handler : hs !! h = Some handler -> ph_deleteLater handler = true -> ph_receivers handler = [];
  ok_next h : is_Some (hs !! h) -> (h < next)%N }.
Definition LogOk s : Prop := ListOk (m_patternHandlers s) (handlers s) (nextHandler s).

Lemma init_ok : LogOk CLogHandler_init.
Proof using Type. split; simpl; try (constructor || set_solver). by intros h [? ?]. Qed.

(** Other members do not matter. *)
Lemma ok_same s s' : m_patternHandlers s' = m_patternHandlers s -> handlers s' = handlers s ->
  nextHandler s' = nextHandler s -> LogOk s -> LogOk s'.
Proof using Type. unfold LogOk. by intros -> -> ->. Qed.

(** A change of one handler that keeps its pattern. *)
Lemma onHandler_ok f h s :
  (forall handler, handlers s !! h = Some handler ->
     m_pattern (f handler) = m_pattern handler /\ ph_deleteLater (f handler) = ph_deleteLater handler /\
     (ph_deleteLater handler = true -> ph_receivers (f handler) = [])) ->
  LogOk s -> LogOk (onHandler f h s).
Proof using Type.
  intros Hf [Hs Hi Hp Hl Ha Hd Hn].
  change (LogOk (onHandler f h s)) with (ListOk (m_patternHandlers s) (alter f h (handlers s)) (nextHandler s)).
  split; try done.
  - intros p k Hk. destruct (Hl p k Hk) as (handler & Eh & Ep & Ed).
    destruct (decide (k = h)) as [->|Hne]; [|rewrite lookup_alter_ne by done; eauto].
    rewrite lookup_alter_eq, Eh. destruct (Hf handler Eh) as (F1 & F2 & _). eexists. split; [done|]. split; congruence.
  - intros k handler. destruct (decide (k = h)) as [->|Hne]; [|rewrite lookup_alter_ne by done; eauto].
    rewrite lookup_alter_eq. intros (handler' & Eh & ->)%fmap_Some. destruct (Hf handler' Eh) as (-> & -> & _). eauto.
  - intros k handler. destruct (decide (k = h)) as [->|Hne]; [|rewrite lookup_alter_ne by done; eauto].
    rewrite lookup_alter_eq. intros (handler' & Eh & ->)%fmap_Some. destruct (Hf handler' Eh) as (_ & -> & Hr). done.
  - intros k Hk. apply Hn. destruct (decide (k = h)) as [->|Hne]; [|by rewrite lookup_alter_ne in Hk].
    rewrite lookup_alter_eq in Hk. by destruct (handlers s !! h).
Qed.

(** The handler of a pattern: known or new, and in the list. *)
Lemma handlerForPattern_ok pattern s h s' :
  LogOk s -> handlerForPattern pattern s = (h, s') ->
  LogOk s' /\ (pattern, h) ∈ m_patternHandlers s' /\ subscribers s' = subscribers s.
Proof using Type.
  intros Hok. unfold handlerForPattern. destruct (list_find _ _) as [[n [p k]]|] eqn:E.
  { apply list_find_Some in E as (Hn & Hp & _). simpl in Hp. intros [= <- <-]. subst.
    split_and!; [done | by eapply list_elem_of_lookup_2 | done]. }
  apply list_find_None in E. rewrite Forall_forall in E. intros [= <- <-].
  destruct Hok as [Hs Hi Hp Hl Ha Hd Hn]. set (k := nextHandler s).
  assert (Hfresh : handlers s !! k = None).
  { destruct (handlers s !! k) eqn:Ek; [|done]. assert (k < nextHandler s)%N by (apply Hn; by eexists). unfold k in *. lia. }
  assert (Hnew : k ∉ (m_patternHandlers s).*2).
  { intros ([p j] & Ej & Hin)%list_elem_of_fmap. simpl in Ej. subst j.
    destruct (Hl p k Hin) as (handler & Eh & _). congruence. }
  pose proof (insert_perm moreSpecific (pattern, k) (m_patternHandlers s)) as Hperm.
  assert (Hin : forall x, x ∈ topologicallySortedInsert moreSpecific (pattern, k) (m_patternHandlers s) <->
                          x = (pattern, k) \/ x ∈ m_patternHandlers s).
  { intros x. rewrite Hperm. apply elem_of_cons. }
  split_and!; [|apply (proj2 (Hin _)); by left|done].
  match goal with |- LogOk ?s' =>
    change (LogOk s') with (ListOk (topologicallySortedInsert moreSpecific (pattern, k) (m_patternHandlers s))
      (<[k := CLogPatternHandler_make pattern]> (handlers s)) (N.succ k)) end.
  split.
  - by apply insert_sorted; [apply _|].
  - rewrite Hperm. by apply NoDup_cons.
  - rewrite Hperm. apply NoDup_cons. split; [|done]. intros (x & Ex & Hx)%list_elem_of_fmap. by apply (E x Hx).
  - intros p j [[= -> ->]|Hj]%Hin.
    + rewrite lookup_insert_eq. by eexists.
    + destruct (Hl p j Hj) as (handler & Eh & Hrest). exists handler. split; [|done].
      rewrite lookup_insert_ne; [done|]. intros <-. congruence.
  - intros j handler. destruct (decide (k = j)) as [<-|Hne].
    + rewrite lookup_insert_eq. intros [= <-] _. apply Hin. by left.
    + rewrite lookup_insert_ne by done. intros Eh Edl. apply Hin. right. by apply Ha.
  - intros j handler. destruct (decide (k = j)) as [<-|Hne]; [rewrite lookup_insert_eq; by intros [= <-]|].
    rewrite lookup_insert_ne by done. apply Hd.
  - intros j. destruct (decide (k = j)) as [<-|Hne]; [lia|]. rewrite lookup_insert_ne by done.
    intros Hj%Hn. lia.
Qed.

Lemma listed_alive pattern h s handler : LogOk s -> (pattern, h) ∈ m_patternHandlers s -> handlers s !! h = Some handler ->
  m_pattern handler = pattern /\ ph_deleteLater handler = false.
Proof using Type. intros Hok Hin Eh. destruct (ok_listed _ _ _ Hok _ _ Hin) as (handler' & Eh' & ?). by simplify_eq. Qed.

Lemma connectReceiver_ok r pattern h s :
  LogOk s -> (pattern, h) ∈ m_patternHandlers s -> LogOk (connectReceiver r h s).
Proof using Type.
  intros Hok Hin. apply onHandler_ok; [|done]. intros handler Eh. split_and!; [done..|].
  destruct (listed_alive _ _ _ _ Hok Hin Eh) as [_ ->]. done.
Qed.
Lemma ph_enableConsoleOutput_ok b h s : LogOk s -> LogOk (ph_enableConsoleOutput b h s).
Proof using Type. intros Hok. apply onHandler_ok; [|done]. intros handler Eh. split_and!; [done..|]. exact (ok_leaving _ _ _ Hok _ _ Eh). Qed.
Lemma ph_inheritConsoleOutput_ok h s : LogOk s -> LogOk (ph_inheritConsoleOutput h s).
Proof using Type. intros Hok. apply onHandler_ok; [|done]. intros handler Eh. split_and!; [done..|]. exact (ok_leaving _ _ _ Hok _ _ Eh). Qed.
Lemma disconnectReceiver_ok r h s : LogOk s -> LogOk (disconnectReceiver r h s).
Proof using Type.
  intros Hok. apply onHandler_ok; [|done]. intros handler Eh. split_and!; [done..|].
  intros Hd. change (filter (fun r' => r' <> r) (ph_receivers handler) = []).
  by rewrite (ok_leaving _ _ _ Hok _ _ Eh Hd).
Qed.
Lemma receiverDestroyed_ok r s : LogOk s -> LogOk (receiverDestroyed r s).
Proof using Type.
  assert (Hw : forall handler, m_pattern (withoutDestroyed r handler) = m_pattern handler /\
    ph_deleteLater (withoutDestroyed r handler) = ph_deleteLater handler /\
    (ph_receivers handler = [] -> ph_receivers (withoutDestroyed r handler) = [])).
  { intros handler. unfold withoutDestroyed. case_decide; [|done]. split_and!; [done..|].
    intros Hr. change (filter (fun r' => r' <> r) (ph_receivers handler) = []). by rewrite Hr. }
  intros [Hs Hi Hp Hl Ha Hd Hn].
  change (ListOk (m_patternHandlers s) (withoutDestroyed r <$> handlers s) (nextHandler s)). split; try done.
  - intros p k Hk. destruct (Hl p k Hk) as (handler & Eh & Ep & Ed). destruct (Hw handler) as (W1 & W2 & _).
    rewrite lookup_fmap, Eh. eexists. split; [done|]. split; congruence.
  - intros k handler. rewrite lookup_fmap. intros (handler' & Eh & ->)%fmap_Some.
    destruct (Hw handler') as (-> & -> & _). eauto.
  - intros k handler. rewrite lookup_fmap. intros (handler' & Eh & ->)%fmap_Some.
    destruct (Hw handler') as (_ & -> & Hr). eauto.
  - intros k. rewrite lookup_fmap, fmap_is_Some. apply Hn.
Qed.

Lemma removePatternHandler_ok h s :
  LogOk s -> receiversOf h s = [] -> LogOk (removePatternHandler h s).
Proof using Type.
  intros Hok Hr. unfold removePatternHandler. destruct (list_find _ _) as [[n [p k]]|] eqn:E; [|done].
  apply list_find_Some in E as (Hn & Hp & _). simpl in Hp. subst k.
  pose proof (take_drop_middle _ _ _ Hn) as Hsplit. set (l1 := take n _) in *. set (l2 := drop (S n) _) in *.
  destruct Hok as [Hs Hi Hpat Hl Ha Hd Hne]. unfold receiversOf in Hr.
  assert (Hin : forall x, x ∈ m_patternHandlers s <-> x = (p, h) \/ x ∈ l1 ++ l2).
  { intros x. rewrite <- Hsplit. set_solver. }
  assert (Hout : forall q, (q, h) ∉ l1 ++ l2).
  { intros q Hq. rewrite <- Hsplit, fmap_app, fmap_cons in Hi. apply NoDup_app in Hi as (_ & H1 & H2).
    apply NoDup_cons in H2 as [H2 _]. apply elem_of_app in Hq as [Hq|Hq].
    - apply (H1 h); [|by left]. apply list_elem_of_fmap. by exists (q, h).
    - apply H2. apply list_elem_of_fmap. by exists (q, h). }
  assert (Hsub : sublist (l1 ++ l2) (m_patternHandlers s)).
  { rewrite <- Hsplit. apply sublist_app; [done|]. by constructor. }
  match goal with |- LogOk ?s' =>
    change (LogOk s') with (ListOk (l1 ++ l2)
      (alter (fun handler => handler <| ph_deleteLater := true |>) h (handlers s)) (nextHandler s)) end.
  split.
  - unfold topoSorted in *. rewrite <- Hsplit in Hs. apply StronglySorted_app in Hs as (H12 & H1 & H2).
    apply StronglySorted_inv in H2 as [H2 _]. apply StronglySorted_app. split_and!; [|done..].
    intros a b Hina Hinb. apply H12; [done | by right].
  - exact (sublist_NoDup _ _ Hi (fmap_sublist snd _ _ Hsub)).
  - exact (sublist_NoDup _ _ Hpat (fmap_sublist fst _ _ Hsub)).
  - intros q k Hk. assert (k <> h) as Hkh by (intros ->; by apply (Hout q)).
    rewrite lookup_alter_ne by done. apply Hl, Hin. by right.
  - intros k handler. destruct (decide (k = h)) as [->|Hkh].
    + rewrite lookup_alter_eq. by intros (handler' & Eh & ->)%fmap_Some.
    + rewrite lookup_alter_ne by done. intros Eh Edl. specialize (Ha k handler Eh Edl). apply Hin in Ha as [[= _ ->]|]; done.
  - intros k handler. destruct (decide (k = h)) as [->|Hkh]; [|rewrite lookup_alter_ne by done; eauto].
    rewrite lookup_alter_eq. intros (handler' & Eh & ->)%fmap_Some _. simpl. by rewrite Eh in Hr.
  - intros k Hk. apply Hne. destruct (decide (k = h)) as [->|Hkh]; [|by rewrite lookup_alter_ne in Hk].
    rewrite lookup_alter_eq in Hk. by destruct (handlers s !! h).
Qed.

Lemma deferredDelete_ok h s : LogOk s -> LogOk (deferredDelete h s).
Proof using Type.
  intros Hok. unfold deferredDelete. destruct (handlers s !! h) as [handler|] eqn:Eh; [|done].
  destruct (ph_deleteLater handler) eqn:Ed; [|done]. destruct Hok as [Hs Hi Hp Hl Ha Hd Hn].
  match goal with |- LogOk ?s' =>
    change (LogOk s') with (ListOk (m_patternHandlers s) (delete h (handlers s)) (nextHandler s)) end.
  split; try done.
  - intros p k Hk. destruct (Hl p k Hk) as (handler' & Eh' & Ep & Ed').
    rewrite lookup_delete_ne by congruence. by eexists.
  - intros k handler' [_ Hk]%lookup_delete_Some. by apply Ha.
  - intros k handler' [_ Hk]%lookup_delete_Some. exact (Hd k handler' Hk).
  - intros k [handler' [_ Hk]%lookup_delete_Some]. apply Hn. by eexists.
Qed.

Lemma updateSubscription_ok h s : LogOk s -> LogOk (updateSubscription h s).1.
Proof using Type.
  intros Hok. unfold updateSubscription. destruct (handlers s !! h) as [handler|] eqn:Eh; [|done].
  destruct (m_subscriptionNeedsUpdate handler); [|done]. simpl fst.
  set (f := fun handler => handler <| m_subscriptionNeedsUpdate := false |>
                             <| m_isSubscribed := negb (bool_decide (ph_receivers handler = [])) |>).
  assert (Hset : LogOk (s <| handlers ::= <[h := f handler]> |>)).
  { apply (ok_same (onHandler f h s)); try done.
    - change (<[h := f handler]> (handlers s) = alter f h (handlers s)). apply map_eq. intros k.
      destruct (decide (h = k)) as [<-|Hne]; [by rewrite lookup_insert_eq, lookup_alter_eq, Eh|].
      by rewrite lookup_insert_ne, lookup_alter_ne by done.
    - apply onHandler_ok; [|done]. intros handler' Eh'. split_and!; [done..|]. exact (ok_leaving _ _ _ Hok _ _ Eh'). }
  change (LogOk (if m_inheritFallThrough handler && negb (negb (bool_decide (ph_receivers handler = [])))
                 then removePatternHandler h (s <| handlers ::= <[h := f handler]> |>)
                 else s <| handlers ::= <[h := f handler]> |>)).
  destruct (_ && negb _) eqn:Er; [|exact Hset].
  apply andb_true_iff in Er as [_ Er%negb_true_iff%negb_false_iff%bool_decide_eq_true].
  apply removePatternHandler_ok; [exact Hset|]. unfold receiversOf.
  change (match <[h := f handler]> (handlers s) !! h with Some handler => ph_receivers handler | None => [] end = []).
  by rewrite lookup_insert_eq.
Qed.

Lemma unsubscribe_ok i s : LogOk s -> LogOk (unsubscribe i s).
Proof using Type.
  intros Hok. unfold unsubscribe. destruct (handlerOf i s) as [h|]; [|done]. apply disconnectReceiver_ok.
  destruct (negb _); [by apply ph_inheritConsoleOutput_ok | done].
Qed.

Lemma onSubscriber_ok i f s : LogOk s -> LogOk (onSubscriber i f s).
Proof using Type. apply ok_same; done. Qed.

(** Once a subscription was changed, the handler is connected to the subscriber. *)
Lemma changeSubscription_ok pattern i s : LogOk s -> LogOk (changeSubscription pattern i s).
Proof using Type.
  intros Hok%(unsubscribe_ok i). unfold changeSubscription.
  destruct (handlerForPattern pattern (unsubscribe i s)) as [h s'] eqn:E.
  destruct (handlerForPattern_ok _ _ _ _ Hok E) as (Hok' & Hin & _).
  pose proof (onSubscriber_ok i (fun sub => sub <| m_handler := Some h |>) s' Hok') as Hok2.
  set (s2 := onSubscriber i _ s') in *. destruct (negb _).
  - apply (connectReceiver_ok _ pattern); [by apply ph_enableConsoleOutput_ok | done].
  - by apply (connectReceiver_ok _ pattern).
Qed.

Lemma logStep_ok now e s s' o : LogOk s -> log_step debug now e s = Some (s', o) -> LogOk s'.
Proof using Type.
  intros Hok. destruct e; simpl; unfold quietly.
  - unfold logLocalMessage. intros Hl. apply bind_Some in Hl as (m & _ & Hl).
    destruct (default _ _) as [bucket suppressed]. destruct (TokenBucket.tryConsume _ _ _ _) as [ok bucket'].
    destruct ok; simpl in Hl; [apply bind_Some in Hl as (? & _ & Hl)|]; injection Hl as <- _; by apply (ok_same s).
  - unfold logRemoteMessage. intros Hl. apply bind_Some in Hl as (? & _ & [= <- _]). done.
  - intros [= <- _]. by apply (ok_same s).
  - destruct (handlerForPattern pattern s) as [h s1] eqn:E. intros [= <- _].
    destruct (handlerForPattern_ok _ _ _ _ Hok E) as (Hok' & Hin & _). by apply (connectReceiver_ok _ pattern).
  - intros [= <- _]. by apply receiverDestroyed_ok.
  - destruct (handlerForPattern pattern s) as [h s1] eqn:E. intros [= <- _].
    destruct (handlerForPattern_ok _ _ _ _ Hok E) as (Hok' & _).
    destruct enable; [by apply ph_enableConsoleOutput_ok | by apply ph_inheritConsoleOutput_ok].
  - intros [= E]. pose proof (updateSubscription_ok h s Hok) as Hu. by rewrite E in Hu.
  - intros [= <- _]. by apply deferredDelete_ok.
  - intros [= <- _]. by apply changeSubscription_ok.
  - intros [= <- _]. by apply unsubscribe_ok.
  - intros [= <- _]. destruct enable; unfold sub_enableConsoleOutput, sub_inheritConsoleOutput;
      (destruct (handlerOf _ _); [|by apply onSubscriber_ok]);
      [apply ph_enableConsoleOutput_ok | apply ph_inheritConsoleOutput_ok]; by apply onSubscriber_ok.
Qed.

Definition logReachable s : Prop := exists es os, log_run debug es CLogHandler_init = Some (s, os).

Lemma logRun_ok es s s' os : LogOk s -> log_run debug es s = Some (s', os) -> LogOk s'.
Proof using Type.
  revert s os. induction es as [|[now e] es IH]; intros s os Hok; simpl; [by intros [= <- _]|].
  intros Hr. apply bind_Some in Hr as ([s1 o1] & E1 & Hr). apply bind_Some in Hr as ([s2 o2] & E2 & [= <- _]).
  eapply IH; [|exact E2]. by eapply logStep_ok.
Qed.
Lemma logReachable_ok s : logReachable s -> LogOk s.
Proof using Type. intros (es & os & Hr). eapply logRun_ok; [apply init_ok | exact Hr]. Qed.
End invariant.

(** ** Who receives a message, and what decides about the console *)

Section delivery.
Context `{QtConv} (debug : bool).
Implicit Types (s : CLogHandler) (pattern : CLogPattern) (h i : N) (handler : CLogPatternHandler) (r : Receiver).

(** [r] is connected to the handler of [pattern]. *)
Definition connected pattern r s : Prop :=
  exists h handler, handlers s !! h = Some handler /\ m_pattern handler = pattern /\ r ∈ ph_receivers handler.

Lemma elem_of_concat {A} (ls : list (list A)) x : x ∈ concat ls <-> exists l, l ∈ ls /\ x ∈ l.
Proof using Type. rewrite list_elem_of_In, in_concat. by setoid_rewrite list_elem_of_In. Qed.

Lemma handlersForMessage_spec message s h :
  h ∈ handlersForMessage message s <->
  exists pattern, (pattern, h) ∈ m_patternHandlers s /\ match_ pattern message = true.
Proof using Type.
  unfold handlersForMessage. rewrite list_elem_of_fmap. split.
  - intros ([p k] & -> & [Hm Hin]%list_elem_of_filter). by exists p.
  - intros (p & Hin & Hm). exists (p, h). split; [done|]. by apply list_elem_of_filter.
Qed.

Lemma logMessage_delivers message s o r message' : LogOk s -> logMessage message s = Some o ->
  MessageLogged r message' ∈ o <->
  message' = message /\ exists pattern, connected pattern r s /\ match_ pattern message = true.
Proof using Type.
  intros Hok. unfold logMessage. intros Hl. apply bind_Some in Hl as (qt & Hqt & [= <-]).
  assert (Hq : MessageLogged r message' ∉ qt).
  { destruct (isFallThroughEnabled _ _); [|injection Hqt as <-; by intros ?%elem_of_nil].
    apply bind_Some in Hqt as ([[type category] text] & _ & [= <-]). by intros ?%list_elem_of_singleton. }
  rewrite elem_of_app. split.
  - intros [|Hin]; [done|]. apply elem_of_concat in Hin as (l & (h & -> & Hh)%list_elem_of_fmap & Hin).
    apply list_elem_of_fmap in Hin as (r' & [= <- ->] & Hr). split; [done|].
    apply handlersForMessage_spec in Hh as (p & Hin & Hm). exists p. split; [|done].
    destruct (ok_listed _ _ _ Hok _ _ Hin) as (handler & Eh & Ep & _). unfold receiversOf in Hr. rewrite Eh in Hr.
    by exists h, handler.
  - intros (-> & p & (h & handler & Eh & Ep & Hr) & Hm). right.
    apply elem_of_concat. exists (map (fun r => MessageLogged r message) (receiversOf h s)). split.
    + apply list_elem_of_fmap. exists h. split; [done|]. apply handlersForMessage_spec. exists p. split; [|done].
      rewrite <- Ep. apply (ok_alive _ _ _ Hok); [done|].
      destruct (ph_deleteLater handler) eqn:Ed; [|done]. rewrite (ok_leaving _ _ _ Hok _ _ Eh Ed) in Hr. by apply elem_of_nil in Hr.
    + apply list_elem_of_fmap. exists r. split; [done|]. unfold receiversOf. by rewrite Eh.
Qed.

(** The handlers that set the console on their own, among those a message matches. *)
Definition decides pattern message b s : Prop :=
  exists h handler, (pattern, h) ∈ m_patternHandlers s /\ handlers s !! h = Some handler /\
    match_ pattern message = true /\ m_inheritFallThrough handler = false /\ ph_enableFallThrough handler = b.

Lemma fallThrough_spec message l s :
  (forall pattern h, (pattern, h) ∈ l -> (pattern, h) ∈ m_patternHandlers s /\ is_Some (handlers s !! h)) ->
  topoSorted moreSpecific l ->
  let hs := map snd (filter (fun entry => match_ entry.1 message = true) l) in
  (isFallThroughEnabled hs s = m_enableFallThrough s /\
   forall pattern h, (pattern, h) ∈ l -> match_ pattern message = true ->
     exists handler, handlers s !! h = Some handler /\ m_inheritFallThrough handler = true) \/
  exists pattern, decides pattern message (isFallThroughEnabled hs s) s /\
    forall pattern' h handler, (pattern', h) ∈ l -> match_ pattern' message = true -> handlers s !! h = Some handler ->
      m_inheritFallThrough handler = false -> isProperSubsetOf pattern' pattern = false.
Proof using Type.
  intros Hl Hs. induction l as [|[p h] l IH]; simpl.
  { left. split; [done|]. by intros ? ? ?%elem_of_nil. }
  apply StronglySorted_inv in Hs as [Hs Hp]. rewrite Forall_forall in Hp.
  specialize (IH (fun q k Hk => Hl q k (list_elem_of_further _ _ _ Hk)) Hs).
  destruct (Hl p h (list_elem_of_here _ _)) as [Hin [handler Eh]].
  rewrite filter_cons. simpl. destruct (decide (match_ p message = true)) as [Hm|Hm].
  2:{ destruct IH as [[E IH]|(q & Hd & IH)].
      - left. split; [done|]. intros q k [[= -> ->]|Hk]%elem_of_cons Hmq; [done | exact (IH q k Hk Hmq)].
      - right. exists q. split; [done|]. intros q' k handler' [[= -> ->]|Hk]%elem_of_cons Hmq; [done | by eapply IH]. }
  cbn [map isFallThroughEnabled]. change ((p, h).2) with h. rewrite Eh.
  destruct (m_inheritFallThrough handler) eqn:Ei; cbn [negb].
  - destruct IH as [[E IH]|(q & Hd & IH)].
    + left. split; [done|]. intros q k [[= -> ->]|Hk]%elem_of_cons Hmq; [by eexists | exact (IH q k Hk Hmq)].
    + right. exists q. split; [done|]. intros q' k handler' [[= -> ->]|Hk]%elem_of_cons Hmq Ek; [congruence | by eapply IH].
  - right. exists p. split; [by exists h, handler|].
    intros q' k handler' [[= -> ->]|Hk]%elem_of_cons Hmq Ek _; [|exact (Hp (q', k) Hk)].
    apply not_true_iff_false. pose proof isProperSubsetOf_strict as [Hirr _]. apply Hirr.
Qed.

(** C37: Whether the console shows a message is decided by a handler it matches that does not inherit the
    setting, and no handler of a more specific pattern that does so is passed over; when all
    inherit, by the setting of the log handler. *)
Theorem most_specific_decides message s :
  logReachable debug s ->
  let shown := isFallThroughEnabled (handlersForMessage message s) s in
  (shown = m_enableFallThrough s /\ forall pattern b, ~ decides pattern message b s) \/
  exists pattern, decides pattern message shown s /\
    forall pattern' b, decides pattern' message b s -> isProperSubsetOf pattern' pattern = false.
Proof using Type.
  intros Hok%logReachable_ok. cbv zeta.
  destruct (fallThrough_spec message (m_patternHandlers s) s) as [[E Hi]|(p & Hd & Hi)].
  - intros p h Hin. split; [done|]. destruct (ok_listed _ _ _ Hok _ _ Hin) as (handler & -> & _). by eexists.
  - apply Hok.
  - left. split; [exact E|]. intros p b (h & handler & Hin & Eh & Hm & Hn & _).
    destruct (Hi p h Hin Hm) as (handler' & Eh' & ?). congruence.
  - right. exists p. split; [exact Hd|]. intros q b (h & handler & Hin & Eh & Hm & Hn & _). by eapply Hi.
Qed.
End delivery.

(** ** Subscriptions *)

Section subscriptions.
Context `{QtConv} (debug : bool).
Implicit Types (s : CLogHandler) (pattern : CLogPattern) (h i : N) (handler : CLogPatternHandler) (r : Receiver).

(** What is connected to [r] stays connected. *)
Definition keeps r s s' : Prop := forall pattern, connected pattern r s -> connected pattern r s'.
Lemma keeps_trans r s s' s'' : keeps r s s' -> keeps r s' s'' -> keeps r s s''.
Proof using Type. unfold keeps. auto. Qed.
Lemma keeps_same r s s' : handlers s' = handlers s -> keeps r s s'.
Proof using Type. intros E pattern. unfold connected. by rewrite E. Qed.

Lemma onHandler_keeps r f h s :
  (forall handler, m_pattern (f handler) = m_pattern handler /\ (r ∈ ph_receivers handler -> r ∈ ph_receivers (f handler))) ->
  keeps r s (onHandler f h s).
Proof using Type.
  intros Hf p (k & handler & Eh & Ep & Hr). unfold connected.
  change (handlers (onHandler f h s)) with (alter f h (handlers s)). exists k.
  destruct (decide (h = k)) as [<-|Hne]; [|rewrite lookup_alter_ne by done; by exists handler].
  rewrite lookup_alter_eq, Eh. destruct (Hf handler) as [F1 F2]. eexists. split; [done|]. split; [congruence | auto].
Qed.

Lemma handlerForPattern_keeps r pattern s h s' : LogOk s -> handlerForPattern pattern s = (h, s') -> keeps r s s'.
Proof using Type.
  intros Hok. unfold handlerForPattern. destruct (list_find _ _) as [[n [p k]]|]; intros [= <- <-]; [by apply keeps_same|].
  intros p (k & handler & Eh & Ep & Hr). exists k, handler. split; [|done].
  match goal with |- handlers ?s' !! _ = _ =>
    change (handlers s') with (<[nextHandler s := CLogPatternHandler_make pattern]> (handlers s)) end.
  rewrite lookup_insert_ne; [done|]. intros <-.
  assert (nextHandler s < nextHandler s)%N as Hlt by (apply (ok_next _ _ _ Hok); by eexists). lia.
Qed.

Lemma removePatternHandler_keeps r h s : keeps r s (removePatternHandler h s).
Proof using Type.
  unfold removePatternHandler. destruct (list_find _ _) as [[n ?]|]; [|by apply keeps_same].
  set (f := fun handler => handler <| ph_deleteLater := true |>).
  eapply keeps_trans; [apply (onHandler_keeps r f h); by intros handler | by apply keeps_same].
Qed.

Lemma deferredDelete_keeps r h s : LogOk s -> keeps r s (deferredDelete h s).
Proof using Type.
  intros Hok. unfold deferredDelete. destruct (handlers s !! h) as [handler|] eqn:Eh; [|by apply keeps_same].
  destruct (ph_deleteLater handler) eqn:Ed; [|by apply keeps_same].
  intros p (k & handler' & Ek & Ep & Hr). exists k, handler'. split; [|done].
  change (delete h (handlers s) !! k = Some handler'). rewrite lookup_delete_ne; [done|]. intros <-. simplify_eq.
  rewrite (ok_leaving _ _ _ Hok _ _ Eh Ed) in Hr. by apply elem_of_nil in Hr.
Qed.

Lemma disconnectReceiver_keeps r r' h s : r <> r' -> keeps r s (disconnectReceiver r' h s).
Proof using Type.
  intros Hne. apply onHandler_keeps. intros handler. split; [done|].
  intros Hr. change (r ∈ filter (fun x => x <> r') (ph_receivers handler)). by apply list_elem_of_filter.
Qed.
Lemma receiverDestroyed_keeps r r' s : r <> r' -> keeps r s (receiverDestroyed r' s).
Proof using Type.
  intros Hne p (k & handler & Ek & Ep & Hr). exists k, (withoutDestroyed r' handler).
  split; [change ((withoutDestroyed r' <$> handlers s) !! k = Some (withoutDestroyed r' handler)); by rewrite lookup_fmap, Ek|].
  unfold withoutDestroyed. case_decide; [|done]. split; [done|].
  change (r ∈ filter (fun x => x <> r') (ph_receivers handler)). by apply list_elem_of_filter.
Qed.
Lemma connectReceiver_keeps r r' h s : keeps r s (connectReceiver r' h s).
Proof using Type.
  apply onHandler_keeps. intros handler. split; [done|]. intros Hr.
  change (r ∈ ph_receivers handler ++ [r']). apply elem_of_app. by left.
Qed.
Lemma console_keeps r b h s : keeps r s (ph_enableConsoleOutput b h s) /\ keeps r s (ph_inheritConsoleOutput h s).
Proof using Type. split; by apply onHandler_keeps. Qed.

Lemma updateSubscription_keeps r h s : keeps r s (updateSubscription h s).1.
Proof using Type.
  unfold updateSubscription. destruct (handlers s !! h) as [handler|] eqn:Eh; [|by apply keeps_same].
  destruct (m_subscriptionNeedsUpdate handler); [|by apply keeps_same].
  cbn [fst]. cbv zeta. set (s1 := s <| handlers ::= _ |>). apply (keeps_trans _ _ s1).
  - intros p (k & handler' & Ek & Ep & Hr). unfold connected. subst s1.
    match goal with |- context [handlers ?s' !! _] => change (handlers s') with (<[h := handler <| m_subscriptionNeedsUpdate := false |>
       <| m_isSubscribed := negb (bool_decide (ph_receivers handler = [])) |>]> (handlers s)) end.
    exists k. destruct (decide (h = k)) as [<-|Hne]; [|rewrite lookup_insert_ne by done; by exists handler'].
    rewrite lookup_insert_eq. simplify_eq. by eexists.
  - destruct (_ && _); [apply removePatternHandler_keeps | by apply keeps_same].
Qed.

Lemma unsubscribe_keeps r i s : r <> BySubscriber i -> keeps r s (unsubscribe i s).
Proof using Type.
  intros Hne. unfold unsubscribe. destruct (handlerOf i s); [|by apply keeps_same].
  eapply keeps_trans; [|by apply disconnectReceiver_keeps]. destruct (negb _); [apply (console_keeps r true) | by apply keeps_same].
Qed.

(** The last steps of [changeSubscription], on the handler of the pattern. *)
Lemma changeSubscription_keeps r pattern i s : LogOk s ->
  keeps r (unsubscribe i s) (changeSubscription pattern i s) /\ connected pattern (BySubscriber i) (changeSubscription pattern i s).
Proof using Type.
  intros Hok%(unsubscribe_ok i). unfold changeSubscription.
  destruct (handlerForPattern pattern (unsubscribe i s)) as [h s'] eqn:E.
  destruct (handlerForPattern_ok _ _ _ _ Hok E) as (Hok' & Hin & _).
  set (s2 := onSubscriber i _ s'). set (s3 := if negb _ then _ else _). split.
  - eapply keeps_trans; [by eapply handlerForPattern_keeps|]. eapply keeps_trans; [by apply (keeps_same r s' s2)|].
    eapply keeps_trans; [|apply connectReceiver_keeps]. unfold s3. destruct (negb _); [apply console_keeps | by apply keeps_same].
  - destruct (ok_listed _ _ _ Hok' _ _ Hin) as (handler & Eh & Ep & _).
    assert (exists handler', handlers s3 !! h = Some handler' /\ m_pattern handler' = pattern) as (handler' & Eh' & Ep').
    { unfold s3. destruct (negb _); [|by exists handler].
      unfold ph_enableConsoleOutput, onHandler. match goal with |- context [alter ?f h] => exists (f handler) end.
      match goal with |- handlers (s2 <| handlers ::= alter ?f h |>) !! _ = _ /\ _ =>
        change (alter f h (handlers s') !! h = Some (f handler) /\ m_pattern (f handler) = pattern) end.
      by rewrite lookup_alter_eq, Eh. }
    exists h, (handler' <| ph_receivers ::= fun l => l ++ [BySubscriber i] |> <| m_subscriptionNeedsUpdate := true |>).
    split; [|split; [done|]].
    + unfold connectReceiver, onHandler.
      match goal with |- handlers (s3 <| handlers ::= alter ?f h |>) !! _ = _ => change (alter f h (handlers s3) !! h = Some (f handler')) end.
      by rewrite lookup_alter_eq, Eh'.
    + change (BySubscriber i ∈ ph_receivers handler' ++ [BySubscriber i]). apply elem_of_app. right. by left.
Qed.

(** What ends the subscription of [i]. *)
Definition leavesAlone i (e : LogEvent) : Prop :=
  match e with
  | ReceiverDestroyed r => r <> BySubscriber i
  | ChangeSubscription _ j | Unsubscribe j => j <> i
  | _ => True
  end.

Lemma step_keeps now e i s s' o : LogOk s -> leavesAlone i e -> log_step debug now e s = Some (s', o) -> keeps (BySubscriber i) s s'.
Proof using Type.
  intros Hok He. destruct e; simpl in *; unfold quietly.
  - unfold logLocalMessage. intros Hl. apply bind_Some in Hl as (m & _ & Hl).
    destruct (default _ _) as [bucket suppressed]. destruct (TokenBucket.tryConsume _ _ _ _) as [ok bucket'].
    destruct ok; simpl in Hl; [apply bind_Some in Hl as (? & _ & Hl)|]; injection Hl as <- _; by apply keeps_same.
  - unfold logRemoteMessage. intros Hl. apply bind_Some in Hl as (? & _ & [= <- _]). by apply keeps_same.
  - intros [= <- _]. by apply keeps_same.
  - destruct (handlerForPattern pattern s) as [h s1] eqn:E. intros [= <- _].
    eapply keeps_trans; [by eapply handlerForPattern_keeps | apply connectReceiver_keeps].
  - intros [= <- _]. by apply receiverDestroyed_keeps.
  - destruct (handlerForPattern pattern s) as [h s1] eqn:E. intros [= <- _].
    eapply keeps_trans; [by eapply handlerForPattern_keeps|]. destruct enable; apply (console_keeps _ true) || apply console_keeps.
  - intros [= E]. pose proof (updateSubscription_keeps (BySubscriber i) h s) as Hu. by rewrite E in Hu.
  - intros [= <- _]. by apply deferredDelete_keeps.
  - intros [= <- _]. eapply keeps_trans; [|by apply changeSubscription_keeps]. apply unsubscribe_keeps. congruence.
  - intros [= <- _]. apply unsubscribe_keeps. congruence.
  - intros [= <- _]. destruct enable; unfold sub_enableConsoleOutput, sub_inheritConsoleOutput;
      match goal with |- context [onSubscriber ?j ?f s] =>
        apply (keeps_trans _ s (onSubscriber j f s)); [by apply keeps_same|] end;
      (destruct (handlerOf _ _); [|by apply keeps_same]); apply (console_keeps _ true) || apply console_keeps.
Qed.

Lemma logRun_keeps es i s s' os : LogOk s -> Forall (fun te => leavesAlone i te.2) es ->
  log_run debug es s = Some (s', os) -> LogOk s' /\ keeps (BySubscriber i) s s'.
Proof using Type.
  revert s os. induction es as [|[now e] es IH]; intros s os Hok Hes; simpl.
  { intros [= <- _]. split; [done | by apply keeps_same]. }
  apply Forall_cons in Hes as [He Hes]. intros Hr.
  apply bind_Some in Hr as ([s1 o1] & E1 & Hr). apply bind_Some in Hr as ([s2 o2] & E2 & [= <- _]).
  destruct (IH s1 o2 (logStep_ok _ _ _ _ _ _ Hok E1) Hes E2) as [Hok2 Hk]. split; [done|].
  eapply keeps_trans; [|exact Hk]. exact (step_keeps _ _ _ _ _ _ Hok He E1).
Qed.

(** What a subscriber of a pattern is to get of a step: a remote message as it is; a local message
    as Qt's severities are corrected, with the number of the identical messages held back
    before it, unless it is held back itself. *)
Definition delivered i pattern now e s o : Prop :=
  match e with
  | LogRemote message => match_ pattern message = true -> MessageLogged (BySubscriber i) message ∈ o
  | LogLocal message =>
      exists m, downgraded debug message = Some m /\
      (match_ pattern m = true ->
       let '(bucket, suppressed) := default (newBucket now, 0) (m_tokenBuckets s !! compareKey m) in
       if (TokenBucket.tryConsume now 1 (-1) bucket).1
       then MessageLogged (BySubscriber i) (if 0 <? suppressed then appendMessage (identicalMessages suppressed) m else m) ∈ o
       else o = [])
  | _ => True
  end.
Lemma step_delivers i pattern now e s s' o : LogOk s -> connected pattern (BySubscriber i) s ->
  log_step debug now e s = Some (s', o) -> delivered i pattern now e s o.
Proof using Type.
  intros Hok Hc. destruct e; simpl; try done.
  - unfold logLocalMessage. intros Hl. apply bind_Some in Hl as (m & Em & Hl). exists m. split; [done|]. intros Hm.
    destruct (default _ _) as [bucket suppressed]. destruct (TokenBucket.tryConsume _ _ _ _) as [ok bucket'].
    destruct ok; cbn [negb fst] in Hl |- *; [|by injection Hl as _ <-].
    apply bind_Some in Hl as (o' & Hl & [= _ <-]). apply elem_of_app. left.
    eapply (logMessage_delivers _ _ _ _ _); [|exact Hl|]; [by apply (ok_same s)|].
    split; [done|]. exists pattern. split; [exact Hc | by case_match].
  - unfold logRemoteMessage. intros Hl Hm. apply bind_Some in Hl as (o' & Hl & [= _ <-]). apply elem_of_app. left.
    apply (logMessage_delivers _ _ _ _ _ Hok Hl). split; [done|]. exists pattern. by split.
Qed.

(** C35: A subscription lasts.  Whatever others subscribe and unsubscribe, whatever handlers are updated and
    deleted, and whatever is set for the console, a subscriber that subscribed to a pattern
    receives, until it is destroyed or changes its subscription, every remote message of that pattern, and every
    local message of it that is not held back as one of too many identical ones, as it is
    shown: with the severity corrected, and the number of those held back before it. *)
Theorem subscription_lasts pattern i es s s1 os now e s2 o :
  logReachable debug s -> Forall (fun te => leavesAlone i te.2) es ->
  log_run debug es (changeSubscription pattern i s) = Some (s1, os) ->
  log_step debug now e s1 = Some (s2, o) -> delivered i pattern now e s1 o.
Proof using Type.
  intros Hok%logReachable_ok Hes Hr Hl. pose proof (changeSubscription_ok pattern i s Hok) as Hok'.
  destruct (logRun_keeps _ _ _ _ _ Hok' Hes Hr) as [Hok1 Hk].
  apply (step_delivers i pattern now e s1 s2 o Hok1); [|done].
  apply Hk. apply (changeSubscription_keeps (BySubscriber i)); done.
Qed.
End subscriptions.

(** ** Identical messages *)

Section identical.
Context `{QtConv} `{!QtConvLaws} (debug : bool).
Implicit Types (s : CLogHandler) (k : MessageKey) (m : CStatusMessage) (o : list LogOut).

(** What the log shows of a message: nothing, the message, or the message with the number of
    identical messages that were not shown. *)
Inductive Shown m : list LogOut -> Z -> Prop :=
  | shown_not : Shown m [] 0
  | shown_once o : Shown m (o ++ [LocalMessageLogged m]) 1
  | shown_several o n : 0 < n < 2 ^ 31 ->
      Shown m (o ++ [LocalMessageLogged (appendMessage (identicalMessages n) m)]) (1 + n).

Lemma appended_text n m : m_message (appendMessage (identicalMessages n) m) = m_message m ++ identicalMessages n.
Proof using Type. done. Qed.

(** The number can be read off what is shown. *)
Lemma Shown_unique m o w w' : Shown m o w -> Shown m o w' -> w = w'.
Proof using All.
  assert (Hn : forall n, appendMessage (identicalMessages n) m <> m).
  { intros n E%(f_equal m_message). rewrite appended_text in E. apply (f_equal length) in E.
    rewrite length_app in E. unfold identicalMessages in E. rewrite length_app in E. simpl in E. lia. }
  assert (Hinj : forall n n', 0 < n < 2 ^ 31 -> 0 < n' < 2 ^ 31 ->
    m_message m ++ identicalMessages n = m_message m ++ identicalMessages n' -> n = n').
  { intros n n' H1 H2 E%app_inv_head.
    unfold identicalMessages in E. apply app_inv_head, app_inv_tail in E.
    apply (f_equal qt_toInt) in E. rewrite !qt_toInt_number in E by (unfold inS; simpl; lia). by simplify_eq. }
  intros H1 H2. inversion H1 as [|o1 E1|o1 n1 Hn1 E1]; subst; inversion H2 as [E2|o2 E2|o2 n2 Hn2 E2]; try done;
    try (by destruct o1); try (by destruct o2); apply app_inj_tail in E2 as [_ E2]; injection E2 as E2; try done;
    try (by destruct (Hn _ E2)); try (by destruct (Hn _ (eq_sym E2))).
  f_equal. symmetry. exact (Hinj _ _ Hn2 Hn1 E2).
Qed.

(** The messages not shown yet. *)
Definition pendingOf k s : Z := snd (default (newBucket 0, 0) (m_tokenBuckets s !! k)).
Definition keyOf (e : LogEvent) : option MessageKey :=
  match e with LogLocal m => compareKey <$> downgraded debug m | _ => None end.
Definition reported (e : LogEvent) o (w : Z) : Prop :=
  match e with LogLocal m => exists m', downgraded debug m = Some m' /\ Shown m' o w | _ => w = 0 end.

Lemma other_buckets now e s s' o : (forall m, e <> LogLocal m) -> log_step debug now e s = Some (s', o) ->
  m_tokenBuckets s' = m_tokenBuckets s.
Proof using Type.
  assert (Hp : forall p s, m_tokenBuckets (handlerForPattern p s).2 = m_tokenBuckets s).
  { intros p s0. unfold handlerForPattern. by destruct (list_find _ _) as [[? ?]|]. }
  assert (Hu : forall i s, m_tokenBuckets (unsubscribe i s) = m_tokenBuckets s).
  { intros i s0. unfold unsubscribe. destruct (handlerOf i s0); [|done]. by destruct (negb _). }
  intros He. destruct e; simpl; unfold quietly; try (by intros [= <- _]).
  - by destruct (He message).
  - unfold logRemoteMessage. intros Hl. by apply bind_Some in Hl as (? & _ & [= <- _]).
  - specialize (Hp pattern s). destruct (handlerForPattern pattern s). by intros [= <- _].
  - specialize (Hp pattern s). destruct (handlerForPattern pattern s). intros [= <- _]. by destruct enable.
  - unfold updateSubscription. destruct (handlers s !! h); [|by intros [= <- _]].
    destruct (m_subscriptionNeedsUpdate _); [|by intros [= <- _]]. intros [= <- _]. destruct (_ && _); [|done].
    unfold removePatternHandler. by destruct (list_find _ _) as [[? ?]|].
  - intros [= <- _]. unfold deferredDelete. destruct (handlers s !! h); [|done]. by destruct (ph_deleteLater _).
  - intros [= <- _]. unfold changeSubscription. specialize (Hp pattern (unsubscribe i s)).
    destruct (handlerForPattern pattern (unsubscribe i s)) as [h s1]. simpl in Hp. rewrite <- (Hu i s), <- Hp. by destruct (negb _).
  - intros [= <- _]. destruct enable; unfold sub_enableConsoleOutput, sub_inheritConsoleOutput; by destruct (handlerOf _ _).
Qed.

(** One message: the count of its kind goes on, the bucket of its kind is asked. *)
Lemma logLocal_step now m s s' o :
  logLocalMessage debug now m s = Some (s', o) ->
  exists m', downgraded debug m = Some m' /\
    let k := compareKey m' in
    let '(bucket, n) := default (newBucket now, 0) (m_tokenBuckets s !! k) in
    let '(ok, bucket') := TokenBucket.tryConsume now 1 (-1) bucket in
    (exists n', m_tokenBuckets s' = <[k := (bucket', n')]> (m_tokenBuckets s)) /\
    (ok = true <-> o <> []) /\
    (0 <= n < 2 ^ 31 - 1 -> exists w, Shown m' o w /\ 0 <= w /\ 0 <= pendingOf k s' /\ w + pendingOf k s' = n + 1).
Proof using Type.
  unfold logLocalMessage. intros Hl. apply bind_Some in Hl as (m' & Em & Hl). exists m'. split; [done|]. cbv zeta.
  set (k := compareKey m') in *. unfold pendingOf.
  destruct (default _ _) as [bucket n]. destruct (TokenBucket.tryConsume now 1 (-1) bucket) as [ok bucket'].
  destruct ok; cbn [negb] in Hl.
  - apply bind_Some in Hl as (o' & _ & [= <- <-]). set (n' := if 0 <? n then 0 else n).
    split_and!; [by exists n' | split; [intros _ [_ Hnil]%app_eq_nil; discriminate Hnil | done] |]. intros Hn.
    change (m_tokenBuckets _) with (<[k := (bucket', n')]> (m_tokenBuckets s)). rewrite lookup_insert_eq. simpl.
    unfold n'. destruct (Z.ltb_spec 0 n).
    + exists (1 + n). split; [constructor|]; lia.
    + exists 1. split; [constructor | lia].
  - injection Hl as <- <-. split_and!; [by eexists | done|]. intros Hn. exists 0. split; [constructor|].
    change (m_tokenBuckets _) with (<[k := (bucket', wrapS 32 (n + 1))]> (m_tokenBuckets s)). rewrite lookup_insert_eq. simpl.
    rewrite wrapS_id; unfold inS; simpl; lia.
Qed.

(** Over a run: how many messages of a kind there were, and how many the log accounts for. *)
Fixpoint countOf k (es : list (Z * LogEvent)) : Z :=
  match es with [] => 0 | (_, e) :: es => (if decide (keyOf e = Some k) then 1 else 0) + countOf k es end.
Fixpoint totalOf k (es : list (Z * LogEvent)) (ws : list Z) : Z :=
  match es, ws with
  | (_, e) :: es, w :: ws => (if decide (keyOf e = Some k) then w else 0) + totalOf k es ws
  | _, _ => 0
  end.

Lemma counted_step now e s s' o :
  (forall k, 0 <= pendingOf k s < 2 ^ 31 - 1) -> log_step debug now e s = Some (s', o) ->
  exists w, reported e o w /\ forall k,
    0 <= pendingOf k s' <= pendingOf k s + (if decide (keyOf e = Some k) then 1 else 0) /\
    (if decide (keyOf e = Some k) then w else 0) + pendingOf k s' =
    (if decide (keyOf e = Some k) then 1 else 0) + pendingOf k s.
Proof using Type.
  intros Hp E1. assert ((exists m, e = LogLocal m) \/ forall m, e <> LogLocal m) as [[m ->]|He].
  { destruct e; [left; by eexists|right; by intros..]. }
  - destruct (logLocal_step _ _ _ _ _ E1) as (m' & Em & Hs). cbv zeta in Hs. unfold keyOf. rewrite Em. simpl.
    set (k0 := compareKey m') in *.
    assert (Hn : snd (default (newBucket now, 0) (m_tokenBuckets s !! k0)) = pendingOf k0 s)
      by (unfold pendingOf; by destruct (m_tokenBuckets s !! k0)).
    destruct (default _ _) as [bucket n]. destruct (TokenBucket.tryConsume _ _ _ _) as [ok bucket'].
    simpl in Hn. subst n. destruct Hs as ((n' & Eb) & _ & Hs). destruct (Hs (Hp k0)) as (w & Hw & Hw0 & Hw1 & Hw2).
    exists w. split; [by exists m'|]. intros k. destruct (decide (Some k0 = Some k)) as [[= <-]|Hne]; [lia|].
    specialize (Hp k). assert (pendingOf k s' = pendingOf k s) as ->; [|lia].
    unfold pendingOf. rewrite Eb, lookup_insert_ne; [done|]. congruence.
  - exists 0. split; [destruct e; try done; by destruct (He message)|]. intros k. specialize (Hp k).
    unfold pendingOf in *. rewrite (other_buckets _ _ _ _ _ He E1). case_decide; [|lia].
    destruct e; try done. by destruct (He message).
Qed.

Lemma counted_run es s s' os :
  (forall k, 0 <= pendingOf k s /\ pendingOf k s + Z.of_nat (length es) < 2 ^ 31) ->
  log_run debug es s = Some (s', os) ->
  exists ws, length ws = length es /\ Forall2 (fun '(te, o) w => reported te.2 o w) (zip es os) ws /\
    forall k, totalOf k es ws + pendingOf k s' = countOf k es + pendingOf k s.
Proof using Type.
  revert s os. induction es as [|[now e] es IH]; intros s os Hp; simpl.
  { intros [= <- <-]. exists []. split_and!; [done | constructor | lia]. }
  intros Hr. apply bind_Some in Hr as ([s1 o1] & E1 & Hr). apply bind_Some in Hr as ([s2 o2] & E2 & [= <- <-]).
  destruct (counted_step now e s s1 o1) as (w & Hw & Hk); [|exact E1|].
  { intros k. specialize (Hp k). simpl in Hp. lia. }
  destruct (IH s1 o2) as (ws & Hl & Hws & Ht); [|exact E2|].
  { intros k. specialize (Hk k). specialize (Hp k). simpl in Hp. case_decide; lia. }
  exists (w :: ws). split_and!; [simpl; lia | by constructor|]. intros k. specialize (Hk k). specialize (Ht k). lia.
Qed.

(** C36: No message is lost uncounted.  Each message of a kind is shown, or is counted in the text of a
    message of its kind that is shown later, or is still pending; the log shows nothing else. *)
Theorem messages_counted es s os :
  log_run debug es CLogHandler_init = Some (s, os) -> Z.of_nat (length es) < 2 ^ 31 ->
  exists ws, length ws = length es /\ Forall2 (fun '(te, o) w => reported te.2 o w) (zip es os) ws /\
    forall k, totalOf k es ws + pendingOf k s = countOf k es.
Proof using Type.
  intros Hr Hl. assert (Hp : forall k, pendingOf k CLogHandler_init = 0) by done.
  destruct (counted_run es CLogHandler_init s os) as (ws & Hw & Hf & Ht); [|exact Hr|].
  - intros k. rewrite Hp. lia.
  - exists ws. split_and!; [done..|]. intros k. rewrite Ht, Hp. lia.
Qed.

(** The times of the messages of a kind, as calls of its bucket, and how many of them are shown. *)
Fixpoint callsOf k (es : list (Z * LogEvent)) : list (Z * Z) :=
  match es with
  | [] => []
  | (now, e) :: es => if decide (keyOf e = Some k) then (1, now) :: callsOf k es else callsOf k es
  end.
Fixpoint shownOf k (es : list (Z * LogEvent)) (os : list (list LogOut)) : Z :=
  match es, os with
  | (_, e) :: es, o :: os =>
      (if decide (keyOf e = Some k) then if bool_decide (o = []) then 0 else 1 else 0) + shownOf k es os
  | _, _ => 0
  end.
Definition bucketOf k (calls : list (Z * Z)) s : TokenBucket.CTokenBucket :=
  match m_tokenBuckets s !! k with Some (bucket, _) => bucket
  | None => newBucket (match calls with (_, t) :: _ => t | [] => 0 end) end.

Lemma shown_run k es s s' os :
  log_run debug es s = Some (s', os) ->
  shownOf k es os = TokenBucket.consumed (bucketOf k (callsOf k es) s) (callsOf k es).
Proof using Type.
  revert s os. induction es as [|[now e] es IH]; intros s os; simpl; [by intros [= _ <-]|].
  intros Hr. apply bind_Some in Hr as ([s1 o1] & E1 & Hr). apply bind_Some in Hr as ([s2 o2] & E2 & [= <- <-]).
  specialize (IH s1 o2 E2). rewrite IH. clear IH.
  destruct (decide (keyOf e = Some k)) as [Ek|Ek].
  - destruct e; try done. simpl in Ek, E1. destruct (logLocal_step _ _ _ _ _ E1) as (m' & Em & Hs). cbv zeta in Hs.
    rewrite Em in Ek. injection Ek as Ek. rewrite Ek in Hs. cbn [TokenBucket.consumed]. unfold bucketOf at 2.
    assert (Hb : (default (newBucket now, 0) (m_tokenBuckets s !! k)).1 =
      match m_tokenBuckets s !! k with Some (bucket, _) => bucket | None => newBucket now end)
      by (by destruct (m_tokenBuckets s !! k) as [[? ?]|]).
    rewrite <- Hb. destruct (default _ _) as [bucket n]. cbn [fst].
    destruct (TokenBucket.tryConsume now 1 (-1) bucket) as [ok bucket'].
    destruct Hs as ((n' & Eb) & Hok & _). unfold bucketOf. rewrite Eb, lookup_insert_eq.
    case_bool_decide as Ho; destruct ok; try lia; exfalso; [by apply (proj1 Hok eq_refl) | by discriminate (proj2 Hok Ho)].
  - rewrite Z.add_0_l. f_equal. unfold bucketOf.
    assert (m_tokenBuckets s1 !! k = m_tokenBuckets s !! k) as ->; [|done].
    assert ((exists m, e = LogLocal m) \/ forall m, e <> LogLocal m) as [[m ->]|He].
    { destruct e; [left; by eexists|right; by intros..]. }
    + destruct (logLocal_step _ _ _ _ _ E1) as (m' & Em & Hs). cbv zeta in Hs. simpl in Ek. rewrite Em in Ek.
      destruct (default _ _) as [bucket n]. destruct (TokenBucket.tryConsume _ _ _ _) as [ok bucket'].
      destruct Hs as ((n' & ->) & _). rewrite lookup_insert_ne; [done|]. intros Hk. apply Ek. simpl. by rewrite Hk.
    + by rewrite (other_buckets _ _ _ _ _ He E1).
Qed.

(** However often a message is logged, of its kind at most ten are shown at once and one more each
    second. *)
Theorem identical_rate k es s os first calls stop :
  log_run debug es CLogHandler_init = Some (s, os) ->
  callsOf k es = (1, first) :: calls -> TokenBucket.ordered first stop (callsOf k es) -> stop - first < 2 ^ 31 * 1000 ->
  shownOf k es os <= 10 + (stop - first) / 1000.
Proof using Type.
  intros Hr Hc Ho Ht. rewrite (shown_run k es _ _ _ Hr). unfold bucketOf.
  change (m_tokenBuckets CLogHandler_init !! k) with (@None (TokenBucket.CTokenBucket * Z)).
  rewrite Hc in Ho |- *.
  assert (Hl : 1000 * TokenBucket.consumed (newBucket first) ((1, first) :: calls) <= 1000 * 10 + 1 * (stop - first)).
  { apply (TokenBucket.consumed_account _ (newBucket first) first stop);
      [unfold TokenBucket.bucketWf; simpl; lia | simpl; lia | exact Ho | simpl; lia]. }
  rewrite <- Z.div_add_l by lia. apply Z.div_le_lower_bound; lia.
Qed.
End identical.

(** ** Examples *)

Definition swiftAll : CLogPattern := CLogPattern.startsWith (lit "swift.").
Definition swiftFsd : CLogPattern := exactMatch (lit "swift.fsd").
Definition fsdMessage : CStatusMessage := mkStatusMessage [lit "swift.fsd"] SeverityInfo (lit "connected") [] 0 [].
Definition guiMessage : CStatusMessage := mkStatusMessage [lit "swift.gui"] SeverityInfo (lit "clicked") [] 0 [].

(** The result of a run that has one. *)
Definition resultOf (es : list (Z * LogEvent)) s : CLogHandler * list (list LogOut) :=
  default (s, []) (log_run false es s).
Definition runs (es : list (Z * LogEvent)) s : bool := match log_run false es s with Some _ => true | None => false end.
Lemma runs_result es s : runs es s = true -> log_run false es s = Some (resultOf es s).
Proof. unfold runs, resultOf. by destruct (log_run false es s). Qed.

Definition atOnce (es : list LogEvent) : list (Z * LogEvent) := map (fun e => (1000, e)) es.
Definition after (es : list LogEvent) : CLogHandler := (resultOf (atOnce es) CLogHandler_init).1.
Definition outputs (es : list LogEvent) : list (list LogOut) := (resultOf (atOnce es) CLogHandler_init).2.

Definition quietConsole : list LogEvent :=
  [HandlerConsole swiftAll (Some false); HandlerConsole swiftFsd (Some true)].

Lemma after_reachable es : runs (atOnce es) CLogHandler_init = true -> logReachable false (after es).
Proof.
  intros E%runs_result. unfold after. destruct (resultOf _ _) as [s os]. by exists (atOnce es), os.
Qed.

Lemma most_specific_decides_witness :
  let s := after quietConsole in
  isFallThroughEnabled (handlersForMessage fsdMessage s) s = true /\
  isFallThroughEnabled (handlersForMessage guiMessage s) s = false /\
  ((true = m_enableFallThrough s /\ forall pattern b, ~ decides pattern fsdMessage b s) \/
   exists pattern, decides pattern fsdMessage true s /\
     forall pattern' b, decides pattern' fsdMessage b s -> isProperSubsetOf pattern' pattern = false).
Proof.
  cbv zeta. assert (Hr : logReachable false (after quietConsole)) by (apply after_reachable; vm_compute; reflexivity).
  assert (E : isFallThroughEnabled (handlersForMessage fsdMessage (after quietConsole)) (after quietConsole) = true)
    by (vm_compute; reflexivity).
  split; [exact E|]. split; [vm_compute; reflexivity|].
  pose proof (most_specific_decides false fsdMessage _ Hr) as Hd. cbv zeta in Hd. rewrite E in Hd. exact Hd.
Defined.

Definition others : list LogEvent :=
  [ChangeSubscription swiftFsd 2; SubscriberConsole 2 (Some false); UpdateTimer 0; Unsubscribe 2; UpdateTimer 0; UpdateTimer 1].
Definition subscribed : CLogHandler := changeSubscription swiftFsd 1 CLogHandler_init.

Lemma subscription_lasts_witness :
  exists s os s' o, log_run false (atOnce others ++ replicate 13 (1000, LogLocal fsdMessage)) subscribed = Some (s, os) /\
    log_step false 3000 (LogLocal fsdMessage) s = Some (s', o) /\
    MessageLogged (BySubscriber 1) (appendMessage (identicalMessages 3) fsdMessage) ∈ o.
Proof.
  set (es := atOnce others ++ replicate 13 (1000, LogLocal fsdMessage)).
  assert (Er : log_run false es subscribed = Some (resultOf es subscribed)) by (apply runs_result; vm_compute; reflexivity).
  assert (El : bool_decide (log_step false 3000 (LogLocal fsdMessage) (resultOf es subscribed).1 ≫=
                              (fun so => Some so.2) = None) = false) by (vm_compute; reflexivity).
  assert (Ed : downgraded false fsdMessage = Some fsdMessage) by (vm_compute; reflexivity).
  assert (Eb : (fun p => ((TokenBucket.tryConsume 3000 1 (-1) p.1).1, p.2))
      (default (newBucket 3000, 0) (m_tokenBuckets (resultOf es subscribed).1 !! compareKey fsdMessage)) = (true, 3))
    by (vm_compute; reflexivity).
  destruct (resultOf es subscribed) as [s os]. simpl fst in El, Eb.
  destruct (log_step false 3000 (LogLocal fsdMessage) s) as [[s' o]|] eqn:Es; [|discriminate El].
  exists s, os, s', o. split; [exact Er|]. split; [exact Es|].
  destruct (subscription_lasts false swiftFsd 1 es CLogHandler_init s os 3000 (LogLocal fsdMessage) s' o) as (m & Em & Hm);
    [by exists [], [] | by repeat constructor | exact Er | exact Es |].
  rewrite Ed in Em. injection Em as <-. specialize (Hm ltac:(vm_compute; reflexivity)).
  destruct (default _ _) as [bucket n]. cbn [fst snd] in Eb. injection Eb as Eb ->. rewrite Eb in Hm. exact Hm.
Defined.

Definition burst : list (Z * LogEvent) := replicate 13 (1000, LogLocal fsdMessage) ++ [(3000, LogLocal fsdMessage)].

Lemma messages_counted_witness :
  exists s os, log_run false burst CLogHandler_init = Some (s, os) /\ pendingOf (compareKey fsdMessage) s = 0 /\
    exists ws, length ws = length burst /\ Forall2 (fun '(te, o) w => reported false te.2 o w) (zip burst os) ws /\
      forall k, totalOf false k burst ws + pendingOf k s = countOf false k burst.
Proof.
  assert (Er : log_run false burst CLogHandler_init = Some (resultOf burst CLogHandler_init))
    by (apply runs_result; vm_compute; reflexivity).
  assert (Ep : pendingOf (compareKey fsdMessage) (resultOf burst CLogHandler_init).1 = 0) by (vm_compute; reflexivity).
  destruct (resultOf burst CLogHandler_init) as [s os]. exists s, os. split; [exact Er|]. split; [exact Ep|].
  apply (messages_counted false _ s os); [exact Er | vm_compute; reflexivity].
Defined.

Lemma identical_rate_witness :
  exists s os, log_run false burst CLogHandler_init = Some (s, os) /\ shownOf false (compareKey fsdMessage) burst os = 11 /\
    shownOf false (compareKey fsdMessage) burst os <= 10 + (3000 - 1000) / 1000.
Proof.
  assert (Er : log_run false burst CLogHandler_init = Some (resultOf burst CLogHandler_init))
    by (apply runs_result; vm_compute; reflexivity).
  assert (Es : shownOf false (compareKey fsdMessage) burst (resultOf burst CLogHandler_init).2 = 11)
    by (vm_compute; reflexivity).
  destruct (resultOf burst CLogHandler_init) as [s os]. exists s, os. split; [exact Er|]. split; [exact Es|].
  apply (identical_rate false (compareKey fsdMessage) burst s os 1000 (replicate 12 (1, 1000) ++ [(1, 3000)]) 3000);
    [exact Er | vm_compute; reflexivity | vm_compute; intuition discriminate | vm_compute; reflexivity].
Defined.

(** A subscriber that unsubscribes is not noticed: nothing is emitted, and the handler is kept. *)
Example unsubscribed_unnoticed :
  outputs [ChangeSubscription swiftFsd 1; UpdateTimer 0; Unsubscribe 1; UpdateTimer 0] = [[]; [SubscriptionAdded swiftFsd]; []; []] /\
  let s := after [ChangeSubscription swiftFsd 1; UpdateTimer 0; Unsubscribe 1; UpdateTimer 0] in
  getAllSubscriptions s = [] /\ m_patternHandlers s = [(swiftFsd, 0%N)].
Proof. vm_compute. auto. Qed.

(** Two subscribers of one pattern share its console setting: when one of them unsubscribes, the setting
    of the other one is lost. *)
Example console_setting_lost :
  let both := [SubscriberConsole 1 (Some false); ChangeSubscription swiftFsd 1;
               SubscriberConsole 2 (Some false); ChangeSubscription swiftFsd 2] in
  let shown es := let s := after es in isFallThroughEnabled (handlersForMessage fsdMessage s) s in
  shown both = false /\ shown (both ++ [Unsubscribe 2]) = true /\
  m_handler (subscriber 1 (after (both ++ [Unsubscribe 2]))) = Some 0%N /\
  sub_enableFallThrough (subscriber 1 (after (both ++ [Unsubscribe 2]))) = false.
Proof. vm_compute. auto. Qed.
