(* ===== verification/CryptoChannel.v ===== *)
(** * The crypto channel of the voice client (core/afv/crypto/cryptodtochannel)

    Keys, the counter of sent sequence numbers, and the bounded history of
    received ones that rejects replays.  A key is a list of bytes; [clock] is
    [QDateTime::currentDateTimeUtc]. *)

From S2P Require Import Prelude.

Inductive CryptoDtoMode := Undefined | None_ | AEAD_ChaCha20Poly1305.
#[global] Instance CryptoDtoMode_eq_dec : EqDecision CryptoDtoMode.
Proof. solve_decision. Defined.

Abbreviation bytes := (list N) (only parsing).

(** crypto_aead_chacha20poly1305_IETF_KEYBYTES of libsodium. *)
Definition KEYBYTES : nat := 32.

Record CryptoDtoChannelConfigDto := mkConfig {
  channelTag : bytes; aeadTransmitKey : bytes; aeadReceiveKey : bytes; hmacKey : bytes }.

Record CCryptoDtoChannel := mkChannel {
  m_aeadTransmitKey : bytes; m_aeadReceiveKey : bytes; m_transmitSequence : Z;
  m_receiveSequenceHistory : list Z; m_receiveSequenceHistoryDepth : nat;
  m_receiveSequenceSizeMaxSize : nat; m_hmacKey : bytes; m_channelTag : bytes;
  m_LastTransmitUtc : option Z; m_lastReceiveUtc : option Z }.

(** The constructor; [None] is the exception it throws for a key of the wrong
    size.  The history has at least one slot. *)
Definition CCryptoDtoChannel_make (channelConfig : CryptoDtoChannelConfigDto)
    (receiveSequenceHistorySize : Z) : option CCryptoDtoChannel :=
  if negb (length (aeadTransmitKey channelConfig) =? KEYBYTES)%nat then None
  else if negb (length (aeadReceiveKey channelConfig) =? KEYBYTES)%nat then None
  else
    let size := Z.to_nat (Z.max receiveSequenceHistorySize 1) in
    Some (mkChannel (aeadTransmitKey channelConfig) (aeadReceiveKey channelConfig) 0
            (replicate size 0) 0 size (hmacKey channelConfig) (channelTag channelConfig)
            None None).

(** The wrong modes yield an empty key. *)
Definition getTransmitKey (mode : CryptoDtoMode) (c : CCryptoDtoChannel) : bytes :=
  match mode with AEAD_ChaCha20Poly1305 => m_aeadTransmitKey c | Undefined | None_ => [] end.
Definition getReceiveKey (mode : CryptoDtoMode) (c : CCryptoDtoChannel) : bytes :=
  match mode with AEAD_ChaCha20Poly1305 => m_aeadReceiveKey c | Undefined | None_ => [] end.

(** The overload that also hands out the next sequence number, a 32-bit
    counter. *)
Definition getTransmitKeySeq (clock : Z) (mode : CryptoDtoMode) (c : CCryptoDtoChannel) :
    bytes * Z * CCryptoDtoChannel :=
  let sequenceToSend := m_transmitSequence c in
  let c := mkChannel (m_aeadTransmitKey c) (m_aeadReceiveKey c)
             (wrapU 32 (m_transmitSequence c + 1)) (m_receiveSequenceHistory c)
             (m_receiveSequenceHistoryDepth c) (m_receiveSequenceSizeMaxSize c) (m_hmacKey c)
             (m_channelTag c) (Some clock) (m_lastReceiveUtc c) in
  (getTransmitKey mode c, sequenceToSend, c).

Definition getChannelTag (c : CCryptoDtoChannel) : bytes := m_channelTag c.

(** The slots in use. *)
Definition used (c : CCryptoDtoChannel) : list Z :=
  take (m_receiveSequenceHistoryDepth c) (m_receiveSequenceHistory c).

Definition contains (sequence : Z) (c : CCryptoDtoChannel) : bool :=
  existsb (fun s => s =? sequence) (used c).

(** The loop of [getMin] from slot [i] on, with the minimum so far. *)
Fixpoint getMin_loop (i : nat) (minValue : Z) (minIndex : Z) (l : list Z) : Z * Z :=
  match l with
  | [] => (minValue, minIndex)
  | s :: l => if s <=? minValue then getMin_loop (S i) s (Z.of_nat i) l
              else getMin_loop (S i) minValue minIndex l
  end.
Definition getMin (c : CCryptoDtoChannel) : Z * Z := getMin_loop 0 uint32_max (-1) (used c).

Definition withHistory (clock : Z) (h : list Z) (d : nat) (c : CCryptoDtoChannel) :
    CCryptoDtoChannel :=
  mkChannel (m_aeadTransmitKey c) (m_aeadReceiveKey c) (m_transmitSequence c) h d
            (m_receiveSequenceSizeMaxSize c) (m_hmacKey c) (m_channelTag c)
            (m_LastTransmitUtc c) (Some clock).

Definition checkReceivedSequence (clock sequenceReceived : Z) (c : CCryptoDtoChannel) :
    bool * CCryptoDtoChannel :=
  if contains sequenceReceived c then (false, c)
  else if (m_receiveSequenceHistoryDepth c <? m_receiveSequenceSizeMaxSize c)%nat
  then (true, withHistory clock
                (<[m_receiveSequenceHistoryDepth c := sequenceReceived]>
                   (m_receiveSequenceHistory c))
                (S (m_receiveSequenceHistoryDepth c)) c)
  else
    let '(minValue, minIndex) := getMin c in
    if sequenceReceived <? minValue then (false, c)
    else (true, withHistory clock
                  (<[Z.to_nat minIndex := sequenceReceived]> (m_receiveSequenceHistory c))
                  (m_receiveSequenceHistoryDepth c) c).

(** ** The history *)

Definition channelWf (c : CCryptoDtoChannel) : Prop :=
  length (m_receiveSequenceHistory c) = m_receiveSequenceSizeMaxSize c /\
  (1 <= m_receiveSequenceSizeMaxSize c)%nat /\
  (m_receiveSequenceHistoryDepth c <= m_receiveSequenceSizeMaxSize c)%nat /\
  NoDup (used c) /\ Forall (inU 32) (used c).

Lemma make_wf cfg n c : CCryptoDtoChannel_make cfg n = Some c -> channelWf c /\ used c = [].
Proof.
  unfold CCryptoDtoChannel_make.
  destruct (negb (length (aeadTransmitKey cfg) =? KEYBYTES)%nat); [done|].
  destruct (negb (length (aeadReceiveKey cfg) =? KEYBYTES)%nat); [done|]. intros [= <-].
  unfold channelWf, used. simpl. rewrite length_replicate, take_0.
  split_and!; try done; [lia | lia | constructor].
Qed.

Lemma length_used c : channelWf c -> length (used c) = m_receiveSequenceHistoryDepth c.
Proof. intros (Hl & _ & Hd & _). unfold used. rewrite length_take. lia. Qed.

Lemma contains_spec s c : contains s c = true <-> s ∈ used c.
Proof.
  unfold contains. rewrite existsb_exists. split.
  - intros (x & Hx & E%Z.eqb_eq). subst. by apply list_elem_of_In.
  - intros Hs. exists s. split; [by apply list_elem_of_In | apply Z.eqb_refl].
Qed.

Lemma getMin_loop_spec l : forall i v k,
  let '(v', k') := getMin_loop i v k l in
  v' <= v /\ Forall (fun s => v' <= s) l /\
  ((v' = v /\ k' = k /\ Forall (fun s => v < s) l) \/
   exists j, k' = Z.of_nat (i + j) /\ l !! j = Some v').
Proof.
  induction l as [|s l IH]; intros i v k; simpl; [split_and!; [lia | done | left; done]|].
  destruct (Z.leb_spec s v) as [Hs|Hs].
  - specialize (IH (S i) s (Z.of_nat i)). destruct (getMin_loop _ s _ l) as [v' k'].
    destruct IH as (Hv & Hall & [(-> & -> & _) | (j & -> & Hj)]).
    + split_and!; [lia | by constructor | right; exists 0%nat; split; [f_equal; lia | done]].
    + split_and!; [lia | by constructor | right; exists (S j); split; [f_equal; lia | done]].
  - specialize (IH (S i) v k). destruct (getMin_loop _ v _ l) as [v' k'].
    destruct IH as (Hv & Hall & [(-> & -> & Hf) | (j & -> & Hj)]).
    + split_and!; [lia | constructor; [lia|done] | left; split_and!; [done..|constructor; [lia|done]]].
    + split_and!; [lia | constructor; [lia | done] | right; exists (S j); split; [f_equal; lia | done]].
Qed.

(** In a non-empty history the minimum is found, at a slot in use. *)
Lemma getMin_spec c :
  channelWf c -> used c <> [] ->
  exists j, getMin c = (nth j (used c) 0, Z.of_nat j) /\ used c !! j = Some (nth j (used c) 0) /\
            Forall (fun s => nth j (used c) 0 <= s) (used c).
Proof.
  intros (_ & _ & _ & _ & Hu) Hne. unfold getMin.
  pose proof (getMin_loop_spec (used c) 0 uint32_max (-1)) as H.
  destruct (getMin_loop _ _ _ _) as [v k]. destruct H as (Hv & Hall & [(-> & -> & Hf) | (j & -> & Hj)]).
  - destruct (used c) as [|s l]; [done|]. inv Hf. inv Hu. unfold inU, uint32_max in *. lia.
  - exists j. pose proof (nth_lookup_Some _ _ 0 _ Hj) as Hn. rewrite Hn. simpl. auto.
Qed.

(** The shape of a successful check: the number is new, and either fills a free
    slot or evicts the smallest number, which is smaller. *)
Lemma check_step clock s c :
  channelWf c -> inU 32 s ->
  match checkReceivedSequence clock s c with
  | (false, c') => c' = c
  | (true, c') =>
      channelWf c' /\ (s ∉ used c) /\
      m_receiveSequenceSizeMaxSize c' = m_receiveSequenceSizeMaxSize c /\
      ((used c' = used c ++ [s] /\
        (m_receiveSequenceHistoryDepth c < m_receiveSequenceSizeMaxSize c)%nat) \/
       exists j m, used c !! j = Some m /\ used c' = <[j := s]> (used c) /\ m < s /\
                   Forall (fun x => m <= x) (used c) /\
                   m_receiveSequenceHistoryDepth c' = m_receiveSequenceSizeMaxSize c')
  end.
Proof.
  intros Hwf Hs. pose proof (length_used c Hwf) as Hlen.
  unfold checkReceivedSequence. destruct (contains s c) eqn:Ec; [done|].
  assert (Hnew : s ∉ used c) by (intros Hin; apply contains_spec in Hin; congruence).
  destruct (Nat.ltb_spec (m_receiveSequenceHistoryDepth c) (m_receiveSequenceSizeMaxSize c)) as [Hd|Hd].
  - destruct Hwf as (Hl & H1 & Hd' & Hnd & Hu).
    assert (used (withHistory clock
              (<[m_receiveSequenceHistoryDepth c:=s]> (m_receiveSequenceHistory c))
              (S (m_receiveSequenceHistoryDepth c)) c) = used c ++ [s]) as Hus.
    { unfold used. simpl.
      rewrite (take_S_r _ _ s) by (apply list_lookup_insert_eq; lia).
      by rewrite take_insert_ge by lia. }
    split_and!; [|done|done|left; by rewrite Hus].
    unfold channelWf. rewrite Hus. simpl. rewrite length_insert.
    split_and!; try done; try lia.
    + by apply NoDup_app_singleton.
    + apply Forall_app. split; [done | by apply Forall_singleton].
  - assert (Hne : used c <> []).
    { intros E. rewrite E in Hlen. destruct Hwf as (_ & ? & _). simpl in Hlen. lia. }
    destruct (getMin_spec c Hwf Hne) as (j & Hmin & Hj & Hall). rewrite Hmin.
    set (m := nth j (used c) 0) in *.
    destruct (Z.ltb_spec s m) as [Hlt|Hge]; [done|].
    assert (Hms : m < s).
    { destruct (decide (m = s)) as [E|]; [|lia].
      destruct Hnew. rewrite <- E. by eapply list_elem_of_lookup_2. }
    destruct Hwf as (Hl & H1 & Hd' & Hnd & Hu). rewrite Nat2Z.id.
    assert (Hjlt : (j < m_receiveSequenceHistoryDepth c)%nat)
      by (apply lookup_lt_Some in Hj; lia).
    assert (used (withHistory clock (<[j:=s]> (m_receiveSequenceHistory c))
              (m_receiveSequenceHistoryDepth c) c) = <[j := s]> (used c)) as Hus.
    { unfold used. simpl. by rewrite take_insert_lt by lia. }
    split_and!; [|done|done|right; exists j, m; rewrite Hus; simpl; split_and!; try done; lia].
    unfold channelWf. rewrite Hus. simpl. rewrite length_insert.
    split_and!; try done; try lia.
    + by apply NoDup_insert_fresh.
    + by apply Forall_insert.
Qed.

(** ** Replays *)

(** The numbers accepted over a series of checks. *)
Fixpoint accepted (c : CCryptoDtoChannel) (received : list (Z * Z)) : list Z :=
  match received with
  | [] => []
  | (clock, s) :: received =>
      let '(ok, c') := checkReceivedSequence clock s c in
      (if ok then [s] else []) ++ accepted c' received
  end.

(** Every number of [past] is in the history, or below everything in a full
    history: it will not be accepted again. *)
Definition remembers (past : list Z) (c : CCryptoDtoChannel) : Prop :=
  forall s, s ∈ past ->
    s ∈ used c \/
    (Forall (fun x => s < x) (used c) /\
     m_receiveSequenceHistoryDepth c = m_receiveSequenceSizeMaxSize c).

Lemma evicted_below l j m s :
  NoDup l -> l !! j = Some m -> Forall (fun x => m <= x) l -> m < s ->
  Forall (fun x => m < x) (<[j := s]> l).
Proof.
  intros Hnd Hj Hall Hm. pose proof (lookup_lt_Some _ _ _ Hj) as Hlt.
  apply Forall_lookup. intros i z Hz. destruct (decide (i = j)) as [->|Hij].
  - rewrite list_lookup_insert_eq in Hz by done. congruence.
  - rewrite list_lookup_insert_ne in Hz by done.
    rewrite Forall_lookup in Hall. specialize (Hall i z Hz).
    destruct (decide (m = z)) as [->|]; [|lia].
    destruct Hij. by eapply NoDup_lookup.
Qed.

Lemma remembers_step past clock s c :
  channelWf c -> inU 32 s -> remembers past c ->
  let '(ok, c') := checkReceivedSequence clock s c in
  channelWf c' /\ (ok = true -> s ∉ past) /\ remembers (if ok then s :: past else past) c'.
Proof.
  intros Hwf Hs Hr. pose proof (check_step clock s c Hwf Hs) as Hstep.
  destruct (checkReceivedSequence clock s c) as [[] c']; [|by subst].
  destruct Hstep as (Hwf' & Hnew & Hsize & Hcase). split; [done|]. split.
  - intros _ Hin. destruct (Hr s Hin) as [|[Hlt Hfull]]; [done|].
    destruct Hcase as [[_ ?] | (j & m & Hj & _ & Hm & _)]; [lia|].
    rewrite Forall_forall in Hlt.
    specialize (Hlt m (list_elem_of_lookup_2 _ _ _ Hj)). lia.
  - intros x Hx.
    destruct Hcase as [[Hus Hd] | (j & m & Hj & Hus & Hm & Hall & Hfull)]; rewrite Hus.
    + apply elem_of_cons in Hx as [-> | Hx]; [left; set_solver|].
      destruct (Hr x Hx) as [|[_ ?]]; [left; set_solver | lia].
    + pose proof (lookup_lt_Some _ _ _ Hj) as Hlt.
      assert (Hin : s ∈ <[j:=s]> (used c)).
      { eapply list_elem_of_lookup_2. by apply list_lookup_insert_eq. }
      apply elem_of_cons in Hx as [->|Hx]; [by left|].
      destruct Hwf as (_ & _ & _ & Hnd & _).
      destruct (Hr x Hx) as [Hxu | [Hlt' _]].
      * destruct (decide (x = m)) as [->|Hxm].
        -- right. split; [|done]. by apply evicted_below.
        -- left. apply list_elem_of_lookup in Hxu as [i Hi].
           eapply (list_elem_of_lookup_2 _ i). rewrite list_lookup_insert_ne; [done|]. congruence.
      * right. split; [|done]. apply Forall_insert; [done|].
        rewrite Forall_lookup in Hlt'. specialize (Hlt' j m Hj). lia.
Qed.

Lemma accepted_fresh received : forall past c,
  channelWf c -> Forall (fun e => inU 32 (e.2)) received -> remembers past c ->
  NoDup (accepted c received) /\ forall s, s ∈ accepted c received -> s ∉ past.
Proof.
  induction received as [|[clock s] received IH]; intros past c Hwf Hin Hr; simpl.
  { split; [constructor | set_solver]. }
  apply Forall_cons in Hin as [Hs Hin]. simpl in Hs.
  pose proof (remembers_step past clock s c Hwf Hs Hr) as Hstep.
  destruct (checkReceivedSequence clock s c) as [ok c']. destruct Hstep as (Hwf' & Hnew & Hr').
  destruct (IH _ c' Hwf' Hin Hr') as [Hnd Hfresh]. destruct ok; simpl in *.
  - split.
    + constructor; [|done]. intros Hs'. apply Hfresh in Hs'. set_solver.
    + intros x. rewrite elem_of_cons. intros [->|Hx]; [by apply Hnew|].
      apply Hfresh in Hx. set_solver.
  - split; [done|]. intros x Hx. by apply Hfresh.
Qed.

(** C32: no replay.  From the constructed channel on, whatever numbers arrive in
    whatever order, none is accepted twice. *)
Theorem no_replay cfg size c received :
  CCryptoDtoChannel_make cfg size = Some c ->
  Forall (fun e => inU 32 (e.2)) received ->
  NoDup (accepted c received).
Proof.
  intros Hc Hin. apply make_wf in Hc as [Hwf _].
  apply (accepted_fresh received [] c Hwf Hin). intros s Hs. set_solver.
Qed.

Definition example_config : CryptoDtoChannelConfigDto :=
  mkConfig [] (replicate 32 7%N) (replicate 32 9%N) [].
Definition example_received : list (Z * Z) :=
  [(0, 5); (1, 6); (2, 5); (3, 9); (4, 5); (5, 7); (6, 6); (7, 8); (8, 9)].

Lemma no_replay_witness :
  exists c, CCryptoDtoChannel_make example_config 2 = Some c /\
  accepted c example_received = [5; 6; 9; 7; 8] /\ NoDup (accepted c example_received).
Proof.
  eexists. split; [reflexivity|]. split; [vm_compute; reflexivity|].
  apply (no_replay example_config 2); [reflexivity|].
  repeat constructor; vm_compute; try discriminate; reflexivity.
Defined.

(** Numbers in the order they were sent are all accepted: a number above
    everything received before passes the check. *)
Theorem increasing_accepted clock s c :
  channelWf c -> inU 32 s -> Forall (fun x => x < s) (used c) ->
  fst (checkReceivedSequence clock s c) = true.
Proof.
  intros Hwf Hs Hlt. unfold checkReceivedSequence.
  destruct (contains s c) eqn:Ec.
  { apply contains_spec in Ec. rewrite Forall_forall in Hlt. apply Hlt in Ec. lia. }
  destruct (Nat.ltb_spec (m_receiveSequenceHistoryDepth c) (m_receiveSequenceSizeMaxSize c)); [done|].
  assert (Hne : used c <> []).
  { intros E. pose proof (length_used c Hwf) as Hl. rewrite E in Hl.
    destruct Hwf as (_ & ? & _). simpl in Hl. lia. }
  destruct (getMin_spec c Hwf Hne) as (j & -> & Hj & _).
  destruct (Z.ltb_spec s (nth j (used c) 0)); [|done].
  rewrite Forall_lookup in Hlt. apply Hlt in Hj. lia.
Qed.

Lemma increasing_accepted_witness :
  fst (checkReceivedSequence 4 10
         (mkChannel [] [] 0 [8; 9] 2 2 [] [] None None)) = true.
Proof.
  apply increasing_accepted.
  - unfold channelWf, used. simpl. split_and!; try lia; repeat constructor;
      try (unfold inU; lia); set_solver.
  - unfold inU. lia.
  - repeat constructor; lia.
Defined.

(** ** Sending *)

(** The sequence numbers of [n] transmissions. *)
Fixpoint transmitted (n : nat) (mode : CryptoDtoMode) (c : CCryptoDtoChannel) : list Z :=
  match n with
  | O => []
  | S n => let '(_, s, c') := getTransmitKeySeq 0 mode c in s :: transmitted n mode c'
  end.

Lemma transmitted_lookup n mode : forall c i,
  (i < n)%nat -> inU 32 (m_transmitSequence c) ->
  transmitted n mode c !! i = Some ((m_transmitSequence c + Z.of_nat i) mod 2 ^ 32).
Proof.
  induction n as [|n IH]; intros c i Hi Hc; [lia|]. cbn [transmitted getTransmitKeySeq].
  destruct i as [|i]; simpl.
  - f_equal. rewrite Z.add_0_r. symmetry. by apply Z.mod_small.
  - rewrite IH; [|lia|by apply wrapU_range]. cbn [m_transmitSequence]. f_equal. unfold wrapU.
    rewrite Zplus_mod_idemp_l. f_equal. lia.
Qed.

Lemma length_transmitted n mode : forall c, length (transmitted n mode c) = n.
Proof. induction n as [|n IH]; intros c; simpl; [done|]. by rewrite IH. Qed.

(** The sequence numbers of up to 2^32 consecutive transmissions are
    different; the next one repeats the first. *)
Theorem transmit_sequences n mode c :
  inU 32 (m_transmitSequence c) -> Z.of_nat n <= 2 ^ 32 ->
  NoDup (transmitted n mode c) /\
  (Z.of_nat n = 2 ^ 32 -> forall s, transmitted (S n) mode c !! 0%nat = Some s ->
     transmitted (S n) mode c !! n = Some s).
Proof.
  intros Hc Hn. split.
  - apply NoDup_alt. intros i j x Hi Hj.
    pose proof (lookup_lt_Some _ _ _ Hi) as Li. pose proof (lookup_lt_Some _ _ _ Hj) as Lj.
    rewrite length_transmitted in Li, Lj.
    rewrite transmitted_lookup in Hi, Hj by done.
    injection Hi as Hi. injection Hj as Hj.
    unfold inU in Hc.
    assert (E : (Z.of_nat i - Z.of_nat j) mod 2 ^ 32 = 0).
    { replace (Z.of_nat i - Z.of_nat j)
        with ((m_transmitSequence c + Z.of_nat i) - (m_transmitSequence c + Z.of_nat j)) by lia.
      rewrite Zminus_mod, Hi, Hj, Z.sub_diag. reflexivity. }
    apply Z.mod_divide in E as [k Hk]; [|lia].
    assert (k = 0) by nia. lia.
  - intros E s. rewrite !transmitted_lookup by (done || lia). intros <-.
    rewrite E, Z.add_0_r. f_equal.
    rewrite Zplus_mod, Z_mod_same_full, Z.add_0_r. apply Zmod_mod.
Qed.

Lemma transmit_sequences_witness :
  NoDup (transmitted 4 AEAD_ChaCha20Poly1305
           (mkChannel [] [] 4294967294 [] 0 1 [] [] None None)) /\
  transmitted 4 AEAD_ChaCha20Poly1305 (mkChannel [] [] 4294967294 [] 0 1 [] [] None None)
  = [4294967294; 4294967295; 0; 1].
Proof.
  split; [|vm_compute; reflexivity].
  apply (transmit_sequences 4 AEAD_ChaCha20Poly1305
           (mkChannel [] [] 4294967294 [] 0 1 [] [] None None)); [unfold inU; simpl; lia | lia].
Defined.
