(* ===== verification/CryptoSerializer.v ===== *)
(** * Packets of the voice server (core/afv/crypto/cryptodtoserializer.h, .cpp)

    A packet is the length of a header in two bytes, the header, and the encrypted
    payload: the name and the bytes of an object, each after its length.  The
    cipher of libsodium and msgpack are interfaces, with the documented laws.
    Numbers are written as they lie in memory, the lowest byte first.

    The constructor of the deserializer can end in three ways ([Outcome]): msgpack
    throws, the plain text does not fit the buffer it is decrypted into, or the
    members are filled.  The lengths are not initialised: what they hold before
    they are read is a parameter. *)

From S2P Require Export QtCore CryptoChannel.

Open Scope Z_scope.

(** ** Bytes *)

Fixpoint le (k : nat) (n : Z) : bytes :=
  match k with O => [] | S k => Z.to_N (n mod 256) :: le k (n / 256) end.
Fixpoint ofLe (l : bytes) : Z :=
  match l with [] => 0 | b :: l => Z.of_N b + 256 * ofLe l end.

(** QIODevice::read of a quint16: when the device has fewer bytes, the others keep
    what was there. *)
Definition readU16 (junk : Z) (l : bytes) : Z * bytes :=
  let n := take 2 l in (ofLe (n ++ drop (length n) (le 2 junk)), drop 2 l).
(** QIODevice::read: a negative length yields nothing. *)
Definition readBytes (n : Z) (l : bytes) : bytes * bytes := (take (Z.to_nat n) l, drop (Z.to_nat n) l).

Lemma length_le k n : length (le k n) = k.
Proof. revert n. induction k as [|k IH]; intros n; [done|]. simpl. by rewrite IH. Qed.
Lemma ofLe_le k n : 0 <= n < 256 ^ Z.of_nat k -> ofLe (le k n) = n.
Proof.
  revert n. induction k as [|k IH]; intros n Hn; [simpl in *; lia|].
  rewrite Nat2Z.inj_succ, Z.pow_succ_r in Hn by lia. cbn [le ofLe].
  assert (0 <= n mod 256 < 256) by (apply Z.mod_pos_bound; lia).
  rewrite Z2N.id by lia. rewrite IH by (split; [apply Z.div_pos | apply Z.div_lt_upper_bound]; lia).
  pose proof (Z.div_mod n 256). lia.
Qed.
Lemma readU16_le junk n l : inU 16 n -> readU16 junk (le 2 n ++ l) = (n, l).
Proof.
  intros Hn. unfold readU16. rewrite (take_app_length' (le 2 n)) by (by rewrite length_le).
  rewrite (drop_app_length' (le 2 n)) by (by rewrite length_le). rewrite length_le.
  rewrite drop_ge by (by rewrite length_le). rewrite app_nil_r, ofLe_le; [done|]. unfold inU in Hn. simpl in *. lia.
Qed.
Lemma readBytes_app l l' : readBytes (Z.of_nat (length l)) (l ++ l') = (l, l').
Proof. unfold readBytes. by rewrite Nat2Z.id, take_app_length, drop_app_length. Qed.
Lemma readBytes_all l : readBytes (Z.of_nat (length l)) l = (l, []).
Proof. rewrite <- (app_nil_r l) at 2. apply readBytes_app. Qed.
(** What a length was read from, when the bytes were there. *)
Lemma readU16_split junk l :
  (2 <= length l)%nat -> Forall (fun b => (b < 256)%N) (take 2 l) ->
  exists n, inU 16 n /\ l = le 2 n ++ drop 2 l /\ (readU16 junk l).1 = n.
Proof.
  destruct l as [|a [|b l]]; simpl; try lia. intros _ Hb.
  apply Forall_cons in Hb as [Ha [Hb _]%Forall_cons].
  exists (Z.of_N a + 256 * Z.of_N b). split_and!; [unfold inU; lia | | lia].
  f_equal; [|f_equal].
  - rewrite Z.mul_comm, Z_mod_plus_full, Z.mod_small by lia. by rewrite N2Z.id.
  - rewrite Z.mul_comm, Z_div_plus_full by lia. rewrite (Z.div_small (Z.of_N a)) by lia.
    rewrite Z.mod_small by lia. by rewrite Z.add_0_l, N2Z.id.
Qed.

(** ** Interfaces *)

(** crypto_aead_chacha20poly1305_ietf of libsodium, for a key, a nonce, the
    additional data and a text; [None] is a result other than zero.
    A cipher text is accepted only when it is the one of the text it yields. *)
Definition ABYTES : nat := 16.
Definition NPUBBYTES : nat := 12.
Class Aead := {
  aead_encrypt : bytes -> bytes -> bytes -> bytes -> option bytes;
  aead_decrypt : bytes -> bytes -> bytes -> bytes -> option bytes }.
Class AeadLaws `{Aead} := {
  aead_decrypt_iff k n ad m c : aead_decrypt k n ad c = Some m <-> aead_encrypt k n ad m = Some c;
  aead_encrypt_length k n ad m c : aead_encrypt k n ad m = Some c -> length c = (length m + ABYTES)%nat;
  aead_encrypt_defined k n ad m :
    length k = KEYBYTES -> length n = NPUBBYTES -> Z.of_nat (length m) < 2 ^ 32 ->
    is_Some (aead_encrypt k n ad m) }.

(** msgpack::pack, and msgpack::unpack with the conversion; [None] is the exception. *)
Class MsgPack (T : Type) := { msgpack_pack : T -> bytes; msgpack_unpack : bytes -> option T }.

(** The names of the objects, and the object without values. *)
Class Dto (T : Type) `{MsgPack T} := { getDtoName : bytes; getShortDtoName : bytes; dto_default : T }.

Record CryptoDtoHeaderDto := mkHeader { ChannelTag : bytes; Sequence : Z; Mode : CryptoDtoMode }.
(** Nothing is too short for a header. *)
Class HeaderLaws `{MsgPack CryptoDtoHeaderDto} := {
  unpack_header h : inU 64 (Sequence h) -> msgpack_unpack (msgpack_pack h) = Some h;
  unpack_nothing : msgpack_unpack (T := CryptoDtoHeaderDto) [] = None }.

(** ** Operations *)

Section serializer.
Context `{Aead} `{MP : MsgPack CryptoDtoHeaderDto}.
Implicit Types (c : CCryptoDtoChannel).

Definition nonceOf (sequence : Z) : bytes := le 4 0 ++ le 8 sequence.

(** The name and the object, as they are encrypted. *)
Definition aePayload {T} `{Dto T} (dto : T) : bytes :=
  let dtoShortName := getShortDtoName (T := T) in
  let dtoBuffer := msgpack_pack dto in
  le 2 (wrapU 16 (Z.of_nat (length dtoShortName))) ++ dtoShortName ++
  le 2 (wrapU 16 (Z.of_nat (length dtoBuffer))) ++ dtoBuffer.
Definition adPayload (header : CryptoDtoHeaderDto) : bytes :=
  let headerBuffer := msgpack_pack header in
  le 2 (wrapU 16 (Z.of_nat (length headerBuffer))) ++ headerBuffer.

Definition serialize {T} `{Dto T} (channelTag : bytes) (mode : CryptoDtoMode) (transmitKey : bytes)
    (sequenceToBeSent : Z) (dto : T) : bytes :=
  let header := mkHeader channelTag sequenceToBeSent mode in
  match mode with
  | AEAD_ChaCha20Poly1305 =>
      match aead_encrypt transmitKey (nonceOf (Sequence header)) (adPayload header) (aePayload dto) with
      | None => []
      | Some aeadPayload => adPayload header ++ aeadPayload
      end
  | Undefined | None_ => []
  end.
(** The overload that takes key and sequence number from the channel. *)
Definition serializeOn {T} `{Dto T} (clock : Z) (mode : CryptoDtoMode) (dto : T) c : bytes * CCryptoDtoChannel :=
  let '(transmitKey, sequenceToSend, c) := getTransmitKeySeq clock mode c in
  (serialize (getChannelTag c) mode transmitKey sequenceToSend dto, c).

Record Deserializer := mkDeserializer {
  m_headerLength : Z; m_header : CryptoDtoHeaderDto; m_dtoNameLength : Z; m_dtoNameBuffer : bytes;
  m_dataLength : Z; m_dataBuffer : bytes; m_verified : bool }.

Inductive Outcome (A : Type) := Threw | Overflow | Done (a : A).
Arguments Threw {A}.
Arguments Overflow {A}.
Arguments Done {A} a.

(** The size of the QByteArray a payload is decrypted into.  What is written past it counts as an
    overflow, also where the allocator has given the array some bytes more. *)
Definition decryptBufferSize : nat := 500.

(** The end of the constructor, on the plain text. *)
Definition readPayload (junk headerLength : Z) (header : CryptoDtoHeaderDto) (decryptedPayload : bytes) : Deserializer :=
  let '(dtoNameLength, payload) := readU16 junk decryptedPayload in
  let '(dtoNameBuffer, payload) := readBytes dtoNameLength payload in
  let '(dataLength, payload) := readU16 junk payload in
  let '(dataBuffer, _) := readBytes dataLength payload in
  mkDeserializer headerLength header dtoNameLength dtoNameBuffer dataLength dataBuffer true.

(** [junk]: what the lengths hold before they are read.  libsodium
    writes as many bytes as the cipher text has without its tag, zeros when it is
    not accepted. *)
Definition deserialize (junk : Z) c (bytes_ : bytes) (loopback : bool) : Outcome Deserializer :=
  let '(headerLength, buffer) := readU16 junk bytes_ in
  let '(headerBuffer, buffer) := readBytes headerLength buffer in
  match msgpack_unpack headerBuffer with
  | None => Threw
  | Some header =>
      let notVerified := mkDeserializer headerLength header junk [] junk [] false in
      match Mode header with
      | AEAD_ChaCha20Poly1305 =>
          let aeLength := Z.of_nat (length bytes_) - (2 + headerLength) in
          let '(aePayloadBuffer, _) := readBytes aeLength buffer in
          let adBuffer := take (Z.to_nat (2 + headerLength)) bytes_ in
          let nonce := nonceOf (Sequence header) in
          let key := if loopback then getTransmitKey AEAD_ChaCha20Poly1305 c
                     else getReceiveKey AEAD_ChaCha20Poly1305 c in
          if (decryptBufferSize + ABYTES <? length aePayloadBuffer)%nat then Overflow
          else
            match aead_decrypt key nonce adBuffer aePayloadBuffer with
            | None => Done notVerified
            | Some decryptedPayload => Done (readPayload junk headerLength header decryptedPayload)
            end
      | Undefined | None_ => Done notVerified
      end
  end.

Definition getDto T `{Dto T} (d : Deserializer) : Outcome T :=
  if negb (m_verified d) then Done dto_default
  else if bool_decide (m_dtoNameBuffer d = getDtoName (T := T)) ||
          bool_decide (m_dtoNameBuffer d = getShortDtoName (T := T))
  then match msgpack_unpack (m_dataBuffer d) with None => Threw | Some dto => Done dto end
  else Done dto_default.
End serializer.
Arguments Threw {A}.
Arguments Overflow {A}.
Arguments Done {A} a.

(** ** Round trip *)

Section roundtrip.
Context `{AeadLaws} `{MP : MsgPack CryptoDtoHeaderDto, HL : !HeaderLaws}.
Implicit Types (c : CCryptoDtoChannel).

Lemma length_nonceOf s : length (nonceOf s) = NPUBBYTES.
Proof using Type. unfold nonceOf. by rewrite length_app, !length_le. Qed.
Lemma wrapU16_small (l : bytes) : Z.of_nat (length l) < 65536 -> wrapU 16 (Z.of_nat (length l)) = Z.of_nat (length l).
Proof using Type. intros Hl. unfold wrapU. apply Z.mod_small. change (2 ^ 16) with 65536. lia. Qed.
Lemma inU16_length (l : bytes) : Z.of_nat (length l) < 65536 -> inU 16 (Z.of_nat (length l)).
Proof using Type. intros Hl. unfold inU. change (2 ^ 16) with 65536. lia. Qed.
Lemma length_aePayload {T} `{Dto T} (dto : T) :
  length (aePayload dto) = (4 + length (getShortDtoName (T := T)) + length (msgpack_pack dto))%nat.
Proof using Type. unfold aePayload. rewrite !length_app, !length_le. lia. Qed.

Definition keyOf c (loopback : bool) : bytes :=
  if loopback then getTransmitKey AEAD_ChaCha20Poly1305 c else getReceiveKey AEAD_ChaCha20Poly1305 c.

(** A packet with a whole header. *)
Lemma deserialize_packet junk c hb ct loopback :
  Z.of_nat (length hb) < 65536 ->
  let hl := Z.of_nat (length hb) in
  deserialize junk c (le 2 hl ++ hb ++ ct) loopback =
  match msgpack_unpack hb with
  | None => Threw
  | Some header =>
      if negb (bool_decide (Mode header = AEAD_ChaCha20Poly1305))
      then Done (mkDeserializer hl header junk [] junk [] false)
      else if (decryptBufferSize + ABYTES <? length ct)%nat then Overflow
      else match aead_decrypt (keyOf c loopback) (nonceOf (Sequence header)) (le 2 hl ++ hb) ct with
           | None => Done (mkDeserializer hl header junk [] junk [] false)
           | Some p => Done (readPayload junk hl header p)
           end
  end.
Proof using Type.
  intros Hh hl. unfold deserialize. rewrite readU16_le by by apply inU16_length. unfold hl. rewrite readBytes_app.
  destruct (msgpack_unpack hb) as [header|]; [|done].
  replace (Z.of_nat (length (le 2 (Z.of_nat (length hb)) ++ hb ++ ct)) - (2 + Z.of_nat (length hb)))
    with (Z.of_nat (length ct)) by (rewrite !length_app, length_le; lia).
  rewrite readBytes_all.
  replace (take (Z.to_nat (2 + Z.of_nat (length hb))) (le 2 (Z.of_nat (length hb)) ++ hb ++ ct))
    with (le 2 (Z.of_nat (length hb)) ++ hb)
    by (rewrite app_assoc, take_app_length'; [done | rewrite length_app, length_le; lia]).
  by destruct (Mode header).
Qed.

(** The name and the object, as they were written. *)
Lemma readPayload_written junk hl header name data :
  Z.of_nat (length name) < 65536 -> Z.of_nat (length data) < 65536 ->
  readPayload junk hl header (le 2 (Z.of_nat (length name)) ++ name ++ le 2 (Z.of_nat (length data)) ++ data) =
  mkDeserializer hl header (Z.of_nat (length name)) name (Z.of_nat (length data)) data true.
Proof using Type.
  intros Hn Hd. unfold readPayload. rewrite readU16_le by by apply inU16_length. rewrite readBytes_app.
  rewrite readU16_le by by apply inU16_length. by rewrite readBytes_all.
Qed.

(** C31: What is written is read.  A packet written with the key the receiver has,
    of an object that fits the buffer it is decrypted into, is verified, has the
    sequence number and the channel of the sender, and yields the object. *)
Theorem serialize_deserialize {T} `{Dto T} junk c tag key s (dto : T) :
  getReceiveKey AEAD_ChaCha20Poly1305 c = key -> length key = KEYBYTES -> inU 64 s ->
  let header := mkHeader tag s AEAD_ChaCha20Poly1305 in
  Z.of_nat (length (msgpack_pack header)) < 65536 -> (length (aePayload dto) <= decryptBufferSize)%nat ->
  msgpack_unpack (msgpack_pack dto) = Some dto ->
  exists d, deserialize junk c (serialize tag AEAD_ChaCha20Poly1305 key s dto) false = Done d /\
    m_verified d = true /\ m_header d = header /\ m_dtoNameBuffer d = getShortDtoName (T := T) /\
    getDto T d = Done dto.
Proof using Type*.
  intros Hk Hkl Hs header Hh Hp Hd. unfold decryptBufferSize in Hp. rewrite length_aePayload in Hp.
  destruct (aead_encrypt_defined key (nonceOf s) (adPayload header) (aePayload dto)) as [ct Hct];
    [done | apply length_nonceOf | rewrite length_aePayload; lia|].
  pose proof (aead_encrypt_length _ _ _ _ _ Hct) as Hcl. rewrite length_aePayload in Hcl.
  unfold serialize. cbv zeta. change (Sequence _) with s. fold header. rewrite Hct.
  apply aead_decrypt_iff in Hct. unfold adPayload in *. rewrite wrapU16_small in * by done.
  rewrite <- app_assoc, deserialize_packet by done. rewrite unpack_header by done.
  change (Mode header) with AEAD_ChaCha20Poly1305. rewrite bool_decide_true by done. cbn [negb].
  destruct (Nat.ltb_spec (decryptBufferSize + ABYTES) (length ct)) as [Hlt|_];
    [unfold decryptBufferSize, ABYTES in *; lia|].
  change (keyOf c false) with (getReceiveKey AEAD_ChaCha20Poly1305 c). change (Sequence header) with s.
  rewrite Hk, Hct. unfold aePayload. rewrite !wrapU16_small, readPayload_written by lia.
  eexists. split; [reflexivity|]. split_and!; [done..|].
  unfold getDto. cbn [m_verified negb m_dtoNameBuffer m_dataBuffer].
  rewrite (bool_decide_true (getShortDtoName = getShortDtoName)) by done. by rewrite orb_true_r, Hd.
Qed.

Lemma readU16_nonneg junk l : 0 <= (readU16 junk l).1.
Proof using Type.
  unfold readU16. cbn [fst]. generalize (take 2 l ++ drop (length (take 2 l)) (le 2 junk)) as l'.
  intros l'. induction l'; simpl; lia.
Qed.
(** Any datagram. *)
Lemma deserialize_eq junk c bs loopback :
  deserialize junk c bs loopback =
  let hl := (readU16 junk bs).1 in
  match msgpack_unpack (take (Z.to_nat hl) (drop 2 bs)) with
  | None => Threw
  | Some header =>
      let ct := drop (Z.to_nat hl) (drop 2 bs) in
      if negb (bool_decide (Mode header = AEAD_ChaCha20Poly1305))
      then Done (mkDeserializer hl header junk [] junk [] false)
      else if (decryptBufferSize + ABYTES <? length ct)%nat then Overflow
      else match aead_decrypt (keyOf c loopback) (nonceOf (Sequence header)) (take (Z.to_nat (2 + hl)) bs) ct with
           | None => Done (mkDeserializer hl header junk [] junk [] false)
           | Some p => Done (readPayload junk hl header p)
           end
  end.
Proof using Type.
  unfold deserialize. pose proof (readU16_nonneg junk bs) as Hhl.
  assert ((readU16 junk bs).2 = drop 2 bs) as Er by done.
  destruct (readU16 junk bs) as [hl rest]. cbn [fst snd] in *. subst rest. unfold readBytes at 1. cbv iota beta zeta.
  destruct (msgpack_unpack _) as [header|]; [|done]. unfold readBytes. cbv iota beta zeta.
  rewrite (take_ge (drop (Z.to_nat hl) (drop 2 bs))) by (rewrite !length_drop; lia).
  by destruct (Mode header).
Qed.

(** C39: What a datagram can do.  Whoever sends it, without a key: it throws exactly
    when its header cannot be read, as that of one of two bytes or less, and writes
    past the buffer exactly when more than 500 bytes and the tag follow a header
    that names the cipher. *)
Theorem deserialize_outcome junk c bs loopback :
  let headerLength := (readU16 junk bs).1 in
  let header := msgpack_unpack (T := CryptoDtoHeaderDto) (take (Z.to_nat headerLength) (drop 2 bs)) in
  (deserialize junk c bs loopback = Threw <-> header = None) /\
  ((length bs <= 2)%nat -> deserialize junk c bs loopback = Threw) /\
  (deserialize junk c bs loopback = Overflow <->
   exists h, header = Some h /\ Mode h = AEAD_ChaCha20Poly1305 /\ 2 + headerLength + 516 < Z.of_nat (length bs)).
Proof using Type*.
  rewrite deserialize_eq. cbv zeta. pose proof (readU16_nonneg junk bs) as Hhl. set (hl := (readU16 junk bs).1) in *.
  set (r := match msgpack_unpack _ with Some _ => _ | None => _ end).
  assert ((length bs <= 2)%nat -> r = Threw) as Hshort.
  { intros Hl. subst r. by rewrite (drop_ge bs), take_nil, unpack_nothing by done. }
  set (header := msgpack_unpack _) in *. split; [|split; [done|]].
  - subst r. destruct header as [h|]; [|done]. split; [|done]. by repeat case_match.
  - subst r. destruct header as [h|]; [|split; [done | by intros (? & ? & _)]].
    case_bool_decide as Em; cbn [negb]; [|split; [done | by intros (? & [= <-] & ? & _)]].
    rewrite !length_drop. unfold decryptBufferSize, ABYTES.
    destruct (Nat.ltb_spec (500 + 16) (length bs - 2 - Z.to_nat hl)).
    + split; [|done]. intros _. exists h. split_and!; [done..|lia].
    + split; [by destruct (aead_decrypt _ _ _ _) | intros (? & [= <-] & _ & ?); lia].
Qed.

(** What is verified was encrypted with the key.  A verified packet is a whole
    header and the cipher text, under the key in use, of some text, with the
    sequence number of the header in the nonce and the header as additional data;
    the members are read from this text. *)
Lemma verified_packet junk c bs loopback d :
  Forall (fun b => (b < 256)%N) bs -> deserialize junk c bs loopback = Done d -> m_verified d = true ->
  exists hb p ct, bs = (le 2 (Z.of_nat (length hb)) ++ hb) ++ ct /\ msgpack_unpack hb = Some (m_header d) /\
    Mode (m_header d) = AEAD_ChaCha20Poly1305 /\
    aead_encrypt (keyOf c loopback) (nonceOf (Sequence (m_header d))) (le 2 (Z.of_nat (length hb)) ++ hb) p = Some ct /\
    d = readPayload junk (Z.of_nat (length hb)) (m_header d) p.
Proof using Type*.
  intros Hb Hd Hv. rewrite deserialize_eq in Hd. cbv zeta in Hd.
  set (hl := (readU16 junk bs).1) in *. set (hb := take (Z.to_nat hl) (drop 2 bs)) in *.
  set (ct := drop (Z.to_nat hl) (drop 2 bs)) in *.
  destruct (msgpack_unpack hb) as [header|] eqn:Eh; [|done].
  case_bool_decide as Em; cbn [negb] in Hd; [|by simplify_eq]. case_match; [done|].
  destruct (aead_decrypt _ _ _ _) as [p|] eqn:Ep; [|by simplify_eq]. apply aead_decrypt_iff in Ep.
  injection Hd as <-. pose proof (aead_encrypt_length _ _ _ _ _ Ep) as Hlen. unfold ABYTES in Hlen.
  assert (m_header (readPayload junk hl header p) = header) as Ehd by (unfold readPayload; by repeat case_match).
  rewrite Ehd. subst ct. rewrite !length_drop in Hlen.
  destruct (readU16_split junk bs) as (n & Hu & Ebs & En); [lia | by apply Forall_take|]. fold hl in En. subst n.
  assert (0 <= hl) as Hhl by apply Hu.
  assert (Z.of_nat (length hb) = hl) as Ehb by (subst hb; rewrite length_take, length_drop; lia).
  assert (take (Z.to_nat (2 + hl)) bs = le 2 hl ++ hb) as Ead.
  { rewrite Ebs at 1. rewrite take_app, length_le, take_ge by (rewrite length_le; lia).
    do 2 f_equal. lia. }
  rewrite Ead in Ep. exists hb, p, (drop (Z.to_nat hl) (drop 2 bs)). rewrite Ehb. split_and!; try done.
  rewrite <- app_assoc. subst hb. by rewrite take_drop.
Qed.
End roundtrip.

(** ** Objects (core/afv/dto.h) *)

Record HeartbeatDto := mkHeartbeat { hb_callsign : bytes }.
Inductive HeartbeatAckDto := mkHeartbeatAck.
(** The transceivers with their id, frequency and the ratio of the distance as its 32 bits. *)
Record AudioRxOnTransceiversDto := mkAudioRx {
  rx_callsign : bytes; rx_sequenceCounter : Z; rx_audio : bytes; rx_lastPacket : bool;
  rx_transceivers : list (Z * Z * Z) }.

#[export] Instance HeartbeatDto_Dto `{MsgPack HeartbeatDto} : Dto HeartbeatDto :=
  {| getDtoName := lit "HeartbeatDto"; getShortDtoName := lit "H"; dto_default := mkHeartbeat [] |}.
#[export] Instance HeartbeatAckDto_Dto `{MsgPack HeartbeatAckDto} : Dto HeartbeatAckDto :=
  {| getDtoName := lit "HeartbeatAckDto"; getShortDtoName := lit "HA"; dto_default := mkHeartbeatAck |}.
#[export] Instance AudioRxOnTransceiversDto_Dto `{MsgPack AudioRxOnTransceiversDto} : Dto AudioRxOnTransceiversDto :=
  {| getDtoName := lit "AudioRxOnTransceiversDto"; getShortDtoName := lit "AR";
     dto_default := mkAudioRx [] 0 [] false [] |}.

(** ** A plain cipher and plain objects, for the witnesses *)

(** The text in the clear, and a tag of its sum. *)
Definition plainTag (k n ad m : bytes) : bytes := le ABYTES (ofLe n + foldr (fun b s => Z.of_N b + s) 0 (k ++ ad ++ m)).
#[local] Instance plainAead : Aead :=
  {| aead_encrypt k n ad m :=
       if ((length k =? KEYBYTES) && (length n =? NPUBBYTES))%nat then Some (m ++ plainTag k n ad m) else None;
     aead_decrypt k n ad c :=
       let m := take (length c - ABYTES) c in
       if ((length k =? KEYBYTES) && (length n =? NPUBBYTES))%nat && bool_decide (c = m ++ plainTag k n ad m)
       then Some m else None |}.
#[local] Instance plainAeadLaws : AeadLaws.
Proof.
  split; cbn [aead_encrypt aead_decrypt plainAead].
  - intros k n ad m c. destruct ((length k =? KEYBYTES)%nat && (length n =? NPUBBYTES)%nat); cbn [andb]; [|by split].
    assert (forall m, c = m ++ plainTag k n ad m -> take (length c - ABYTES) c = m) as Ht.
    { intros m' ->. rewrite length_app. unfold plainTag. rewrite length_le, Nat.add_sub. apply take_app_length. }
    case_bool_decide as Hc; (split; [intros [= E] | intros [= E]]).
    + by rewrite <- E, <- Hc.
    + f_equal. by apply Ht.
    + destruct Hc. by rewrite (Ht m).
  - intros k n ad m c. case_match; [|done]. intros [= <-]. unfold plainTag. by rewrite length_app, length_le.
  - intros k n ad m -> -> _. done.
Qed.

Definition plainMode (m : CryptoDtoMode) : N :=
  match m with Undefined => 0 | None_ => 1 | AEAD_ChaCha20Poly1305 => 2 end.
#[local] Instance plainHeader : MsgPack CryptoDtoHeaderDto :=
  {| msgpack_pack h := plainMode (Mode h) :: le 8 (Sequence h) ++ ChannelTag h;
     msgpack_unpack l :=
       match l with
       | [] => None
       | m :: l => Some (mkHeader (drop 8 l) (ofLe (take 8 l))
                     (match m with 2%N => AEAD_ChaCha20Poly1305 | 1%N => None_ | _ => Undefined end))
       end |}.
#[local] Instance plainHeaderLaws : HeaderLaws.
Proof.
  split; [|done]. intros [tag s mode] Hs. cbn [msgpack_pack msgpack_unpack plainHeader Mode Sequence ChannelTag].
  rewrite (take_app_length' (le 8 s)), (drop_app_length' (le 8 s)) by (by rewrite length_le).
  rewrite ofLe_le by (unfold inU in Hs; simpl in *; lia). by destruct mode.
Qed.
#[local] Instance plainHeartbeat : MsgPack HeartbeatDto :=
  {| msgpack_pack := hb_callsign; msgpack_unpack l := Some (mkHeartbeat l) |}.

Definition plainKey : bytes := replicate 32 9%N.
Definition plainChannel : CCryptoDtoChannel := mkChannel plainKey plainKey 0 [] 0 1 [] [] None None.
Definition plainPacket : bytes :=
  serialize (lit "voice") AEAD_ChaCha20Poly1305 plainKey 7 (mkHeartbeat (lit "DLH123")).

Lemma serialize_deserialize_witness :
  exists d, deserialize 0 plainChannel plainPacket false = Done d /\
    m_verified d = true /\ m_header d = mkHeader (lit "voice") 7 AEAD_ChaCha20Poly1305 /\
    m_dtoNameBuffer d = lit "H" /\ getDto HeartbeatDto d = Done (mkHeartbeat (lit "DLH123")).
Proof.
  destruct (serialize_deserialize 0 plainChannel (lit "voice") plainKey 7 (mkHeartbeat (lit "DLH123")))
    as (d & Hd & Hv & Hh & Hn & Ho); [..|exists d; split; [exact Hd | by split_and!]].
  - reflexivity.
  - reflexivity.
  - unfold inU. simpl. lia.
  - vm_compute. reflexivity.
  - apply Nat.leb_le. vm_compute. reflexivity.
  - reflexivity.
Defined.

Lemma deserialize_outcome_witness :
  deserialize 0 plainChannel [5%N] false = Threw /\
  deserialize 0 plainChannel (le 2 9 ++ 2%N :: le 8 1 ++ replicate 517 0%N) false = Overflow.
Proof.
  split.
  - apply (deserialize_outcome 0 plainChannel [5%N] false). simpl. lia.
  - apply (deserialize_outcome 0 plainChannel (le 2 9 ++ 2%N :: le 8 1 ++ replicate 517 0%N) false).
    eexists. split; [vm_compute; reflexivity|]. split; [reflexivity | vm_compute; reflexivity].
Defined.
