(* ===== verification/VoiceConnection.v ===== *)
(** * The connection to the voice server (core/afv/connection)

    clientconnection.h, .cpp and clientconnectiondata.h, .cpp: who is logged in, the
    channel with its keys, the heartbeat timer, and the packets written and received.
    The server of the API is a source of events: the answer to the
    authentication, and the answer to the request for a callsign, which is waited for
    in an event loop of its own, in which other events happen.  Times are milliseconds. *)

From S2P Require Export CryptoSerializer.
From coqutil Require Export Datatypes.RecordSetters.
Export TriangleBracketNotations.
#[global] Open Scope record_set.

Open Scope Z_scope.

(** ** State *)

(** PostCallsignResponseDto: the voice server and the keys of its channel. *)
Record PostCallsignResponseDto := mkTokens {
  addressIpV4 : QString; channelConfig : CryptoDtoChannelConfigDto; isValid : bool }.
Definition noTokens : PostCallsignResponseDto := mkTokens [] (mkConfig [] [] [] []) false.

Record CClientConnectionData := mkData {
  m_voiceCryptoChannel : option CCryptoDtoChannel; m_userName : QString; m_callsign : QString;
  m_tokens : PostCallsignResponseDto; m_authenticatedDateTimeUtc : option Z;
  m_lastVoiceServerHeartbeatAckUtc : option Z; m_lastDataServerHeartbeatAckUtc : option Z;
  m_receiveAudio : bool; m_connected : bool }.
Definition CClientConnectionData_init : CClientConnectionData :=
  mkData None [] [] noTokens None None None true false.

(** The connection, its timer, and the requests that have not been answered: the
    authentications, and the requests for a callsign with the callsign they are for. *)
Record CClientConnection := mkConnection {
  m_connection : CClientConnectionData; m_voiceServerTimer : bool;
  pendingAuthentications : nat; pendingCallsigns : list QString }.
Definition CClientConnection_init : CClientConnection := mkConnection CClientConnectionData_init false 0 [].

Definition ServerTimeoutSecs : Z := 10.
(** QDateTime::secsTo. *)
Definition secsTo (t t' : Z) : Z := Z.quot (t' - t) 1000.

Section data.
Implicit Types (d : CClientConnectionData) (now : Z).

Definition aliveAt (ack : option Z) now : bool :=
  match ack with None => false | Some t => Z.abs (secsTo t now) <? ServerTimeoutSecs end.
Definition isVoiceServerAlive now d : bool := aliveAt (m_lastVoiceServerHeartbeatAckUtc d) now.
Definition isDataServerAlive now d : bool := aliveAt (m_lastDataServerHeartbeatAckUtc d) now.
(** QDateTime::secsTo from no date is 0. *)
Definition secondsSinceAuthentication now d : Z :=
  match m_authenticatedDateTimeUtc d with None => 0 | Some t => secsTo t now end.
Definition voiceServerAlive now d : bool :=
  match m_authenticatedDateTimeUtc d with None => false | Some t => secsTo t now <? ServerTimeoutSecs end ||
  match m_lastVoiceServerHeartbeatAckUtc d with None => false | Some t => secsTo t now <? ServerTimeoutSecs end.
Definition setTsAuthenticatedToNow now d : CClientConnectionData := d <| m_authenticatedDateTimeUtc := Some now |>.
Definition setTsHeartbeatToNow now d : CClientConnectionData :=
  d <| m_lastVoiceServerHeartbeatAckUtc := Some now |> <| m_lastDataServerHeartbeatAckUtc := Some now |>.
(** With the size of the history the constructor has by default. *)
Definition createCryptoChannels d : CClientConnectionData :=
  if negb (isValid (m_tokens d)) then d
  else d <| m_voiceCryptoChannel := CCryptoDtoChannel_make (channelConfig (m_tokens d)) 10 |>.
Definition reset d : CClientConnectionData :=
  d <| m_userName := [] |> <| m_callsign := [] |> <| m_authenticatedDateTimeUtc := None |>
    <| m_lastVoiceServerHeartbeatAckUtc := None |> <| m_tokens := noTokens |>.
End data.

(** ** Operations *)

Inductive VoiceOut :=
  | ApiConnectTo (userName password client : QString)
  | ApiAddCallsign (callsign : QString)
  | ApiRemoveCallsign (callsign : QString)
  | ApiForceDisconnect
  | BindSocket | DisconnectSocket
  | WriteDatagram (data : bytes) (address : QString)
  | ConnectCallback (authenticated : bool)
  | audioReceived (dto : AudioRxOnTransceiversDto)
  | ReceivedUnknownData (dtoName : bytes).

(** The objects to write and the one to read. *)
Class VoiceObjects := {
  VoiceDto : Type;
  header_msgpack :: MsgPack CryptoDtoHeaderDto; audioRx_msgpack :: MsgPack AudioRxOnTransceiversDto;
  heartbeat_msgpack :: MsgPack HeartbeatDto; heartbeatAck_msgpack :: MsgPack HeartbeatAckDto;
  voice_msgpack :: MsgPack VoiceDto; voice_dto :: Dto VoiceDto }.

(** An exception, or bytes written past a buffer, end the run: [None]. *)
Definition Voice (A : Type) : Type := CClientConnection -> option (A * CClientConnection * list VoiceOut).
#[export] Instance Voice_ret : MRet Voice := fun A x c => Some (x, c, []).
#[export] Instance Voice_bind : MBind Voice := fun A B k m c =>
  '(x, c', o) ← m c; '(y, c'', o') ← k x c'; Some (y, c'', o ++ o').
Definition voice_get : Voice CClientConnection := fun c => Some (c, c, []).
Definition voice_modify (f : CClientConnection -> CClientConnection) : Voice unit := fun c => Some (tt, f c, []).
Definition voice_out (o : VoiceOut) : Voice unit := fun c => Some (tt, c, [o]).
Definition voice_when (b : bool) (x : Voice unit) : Voice unit := if b then x else mret tt.
(** The end of the run. *)
Definition voice_crash {A} : Voice A := fun _ => None.
Definition withData (f : CClientConnectionData -> CClientConnectionData) : Voice unit :=
  voice_modify (fun c => c <| m_connection ::= f |>).

Section connection.
Context `{Aead} `{VoiceObjects}.

Definition connectTo (userName password callsign client : QString) : Voice unit :=
  c ← voice_get;
  if m_connected (m_connection c) then mret tt
  else
    withData (fun d => d <| m_userName := userName |> <| m_callsign := callsign |>);;
    voice_modify (fun c => c <| pendingAuthentications ::= S |>);;
    voice_out (ApiConnectTo userName password client).

Definition connectToVoiceServer : Voice unit :=
  voice_out BindSocket;; voice_modify (fun c => c <| m_voiceServerTimer := true |>).
Definition disconnectFromVoiceServer : Voice unit :=
  voice_modify (fun c => c <| m_voiceServerTimer := false |>);; voice_out DisconnectSocket.

(** The callback of the authentication: up to the request for the callsign when
    authenticated, as a whole when not. *)
Definition authenticationFinished (authenticated : bool) : Voice unit :=
  c ← voice_get;
  match pendingAuthentications c with
  | O => mret tt
  | S n =>
      voice_modify (fun c => c <| pendingAuthentications := n |>);;
      if authenticated
      then
        let cs := m_callsign (m_connection c) in
        voice_modify (fun c => c <| pendingCallsigns ::= cons cs |>);;
        voice_out (ApiAddCallsign cs)
      else
        withData reset;;
        withData (fun d => d <| m_connected := false |>);;
        voice_out (ConnectCallback false)
  end.
(** The callback once the request for the callsign is answered; nested event loops end
    with the last one first. *)
Definition addCallsignFinished (now : Z) (tokens : PostCallsignResponseDto) : Voice unit :=
  c ← voice_get;
  match pendingCallsigns c with
  | [] => mret tt
  | _ :: rest =>
      voice_modify (fun c => c <| pendingCallsigns := rest |>);;
      withData (fun d => d <| m_tokens := tokens |>);;
      withData (setTsAuthenticatedToNow now);;
      withData createCryptoChannels;;
      withData (setTsHeartbeatToNow now);;
      connectToVoiceServer;;
      withData (fun d => d <| m_connected := true |>);;
      voice_out (ConnectCallback true)
  end.

Definition disconnectFrom : Voice unit :=
  c ← voice_get;
  if negb (m_connected (m_connection c)) then mret tt
  else
    withData (fun d => d <| m_connected := false |>);;
    voice_when (negb (isEmpty (m_callsign (m_connection c))))
      (voice_out (ApiRemoveCallsign (m_callsign (m_connection c))));;
    disconnectFromVoiceServer;;
    voice_out ApiForceDisconnect;;
    withData reset.

(** sendToVoiceServer, and the heartbeat. *)
Definition sendToVoiceServer {T} `{Dto T} (now : Z) (dto : T) : Voice unit :=
  c ← voice_get;
  match m_voiceCryptoChannel (m_connection c) with
  | None => mret tt
  | Some channel =>
      let '(dataBytes, channel) := serializeOn now AEAD_ChaCha20Poly1305 dto channel in
      withData (fun d => d <| m_voiceCryptoChannel := Some channel |>);;
      voice_out (WriteDatagram dataBytes (lit "udp://" ++ addressIpV4 (m_tokens (m_connection c))))
  end.
Definition voiceServerHeartbeat (now : Z) : Voice unit :=
  c ← voice_get;
  if negb (m_voiceServerTimer c) then mret tt
  else sendToVoiceServer now (mkHeartbeat (m_callsign (m_connection c))).

Definition processMessage (now junk : Z) (messageDdata : bytes) (loopback : bool) : Voice unit :=
  c ← voice_get;
  match m_voiceCryptoChannel (m_connection c) with
  | None => mret tt
  | Some channel =>
      match deserialize junk channel messageDdata loopback with
      | Threw | Overflow => voice_crash
      | Done deserializer =>
          if decide (m_dtoNameBuffer deserializer = getShortDtoName (T := AudioRxOnTransceiversDto))
          then
            match getDto AudioRxOnTransceiversDto deserializer with
            | Done dto => voice_when (m_receiveAudio (m_connection c) && m_connected (m_connection c))
                            (voice_out (audioReceived dto))
            | _ => voice_crash
            end
          else if decide (m_dtoNameBuffer deserializer = getShortDtoName (T := HeartbeatAckDto))
          then withData (setTsHeartbeatToNow now)
          else voice_out (ReceivedUnknownData (m_dtoNameBuffer deserializer))
      end
  end.

(** ** Runs *)

(** The heartbeat is an event of the timer, which fires while it runs. *)
Inductive VoiceEvent :=
  | ConnectTo (userName password callsign client : QString)
  | AuthenticationFinished (authenticated : bool)
  | AddCallsignFinished (tokens : PostCallsignResponseDto)
  | DisconnectFrom
  | SetReceiveAudio (value : bool)
  | SendToVoiceServer (dto : VoiceDto)
  | HeartbeatTimer
  | Datagram (junk : Z) (data : bytes).

Definition voiceEvent (now : Z) (e : VoiceEvent) : Voice unit :=
  match e with
  | ConnectTo userName password callsign client => connectTo userName password callsign client
  | AuthenticationFinished authenticated => authenticationFinished authenticated
  | AddCallsignFinished tokens => addCallsignFinished now tokens
  | DisconnectFrom => disconnectFrom
  | SetReceiveAudio value => withData (fun d => d <| m_receiveAudio := value |>)
  | SendToVoiceServer dto => sendToVoiceServer now dto
  | HeartbeatTimer => voiceServerHeartbeat now
  | Datagram junk data => processMessage now junk data false
  end.
Fixpoint voice_run (es : list (Z * VoiceEvent)) : Voice unit :=
  match es with [] => mret tt | (now, e) :: es => voiceEvent now e;; voice_run es end.
End connection.

(** ** Steps *)

(** What every successful run of a member function does, from one state to another
    with its outputs. *)
Section steps.
Implicit Types (R : CClientConnection -> CClientConnection -> list VoiceOut -> Prop).

Definition voice_sat {A} R (x : Voice A) : Prop := forall c a c' o, x c = Some (a, c', o) -> R c c' o.
Class Composes R : Prop := {
  composes_refl c : R c c [];
  composes_trans c c' c'' o o' : R c c' o -> R c' c'' o' -> R c c'' (o ++ o') }.

Context {R : CClientConnection -> CClientConnection -> list VoiceOut -> Prop} `{!Composes R}.
Lemma sat_ret {A} (x : A) : voice_sat R (mret x).
Proof using Type*. intros c a c' o [= <- <- <-]. apply composes_refl. Qed.
Lemma sat_bind {A B} (x : Voice A) (k : A -> Voice B) :
  voice_sat R x -> (forall a, voice_sat R (k a)) -> voice_sat R (x ≫= k).
Proof using Type*.
  intros Hx Hk c b c'' o Hb. unfold mbind, Voice_bind in Hb.
  destruct (x c) as [[[a c'] o1]|] eqn:E1; [|done]. simpl in Hb.
  destruct (k a c') as [[[b' c2] o2]|] eqn:E2; [|done]. simpl in Hb. simplify_eq.
  eapply composes_trans; [by eapply Hx | by eapply Hk].
Qed.
(** Where the state that is read matters. *)
Lemma sat_get {A} (k : CClientConnection -> Voice A) :
  (forall c a c' o, k c c = Some (a, c', o) -> R c c' o) -> voice_sat R (voice_get ≫= k).
Proof using Type.
  intros Hk c a c' o Ha. unfold mbind, Voice_bind, voice_get in Ha. simpl in Ha.
  destruct (k c c) as [[[b c2] o2]|] eqn:E; [|done]. simpl in Ha. simplify_eq. by eapply Hk.
Qed.
Lemma sat_read : (forall c, R c c []) -> voice_sat R voice_get.
Proof using Type. intros Hc c a c' o [= <- <- <-]. apply Hc. Qed.
Lemma sat_modify f : (forall c, R c (f c) []) -> voice_sat R (voice_modify f).
Proof using Type. intros Hf c a c' o [= <- <- <-]. apply Hf. Qed.
Lemma sat_out v : (forall c, R c c [v]) -> voice_sat R (voice_out v).
Proof using Type. intros Hv c a c' o [= <- <- <-]. apply Hv. Qed.
Lemma sat_when b x : voice_sat R x -> voice_sat R (voice_when b x).
Proof using Type*. intros Hx. destruct b; [done | apply sat_ret]. Qed.
Lemma sat_crash {A} : voice_sat R (voice_crash : Voice A).
Proof using Type. by intros c a c' o. Qed.
End steps.

Lemma sat_run `{Aead} `{VoiceObjects} R `{!Composes R} es :
  Forall (fun te => voice_sat R (voiceEvent te.1 te.2)) es -> voice_sat R (voice_run es).
Proof.
  intros Hes. induction Hes as [|[now e] es He Hes IH]; cbn [voice_run]; [by apply sat_ret|].
  apply sat_bind; [exact He | intros _; exact IH].
Qed.

(** ** Nonces *)

Section nonces.
Context `{Aead} `{VoiceObjects}.

Definition datagrams (o : list VoiceOut) : list bytes :=
  omap (fun v => match v with WriteDatagram data _ => Some data | _ => None end) o.
(** A packet written with a nonce: its header in the clear and the cipher text, or
    nothing when the cipher fails. *)
Definition packetWith (key nonce data : bytes) : Prop :=
  exists ad m, (aead_encrypt key nonce ad m = None /\ data = []) \/
               exists ct, aead_encrypt key nonce ad m = Some ct /\ data = ad ++ ct.

(** Packets written with sequence numbers one after the other. *)
Inductive writes (key : bytes) : Z -> list bytes -> Z -> Prop :=
  | writes_nil s : writes key s [] s
  | writes_cons s data l s' : packetWith key (nonceOf s) data -> writes key (wrapU 32 (s + 1)) l s' -> writes key s (data :: l) s'.
Lemma writes_app key s l s' l' s'' : writes key s l s' -> writes key s' l' s'' -> writes key s (l ++ l') s''.
Proof using Type. intros Hl Hl'. induction Hl; [done|]. simpl. constructor; [done | by apply IHHl]. Qed.

Definition sending (c c' : CClientConnection) (o : list VoiceOut) : Prop :=
  match m_voiceCryptoChannel (m_connection c) with
  | None => m_voiceCryptoChannel (m_connection c') = None /\ datagrams o = []
  | Some ch => exists ch', m_voiceCryptoChannel (m_connection c') = Some ch' /\
      m_aeadTransmitKey ch' = m_aeadTransmitKey ch /\
      writes (m_aeadTransmitKey ch) (m_transmitSequence ch) (datagrams o) (m_transmitSequence ch')
  end.
#[local] Instance sending_composes : Composes sending.
Proof using Type.
  split.
  - intros c. unfold sending. case_match; [|done]. eexists. by split_and!; [..|constructor].
  - intros c c' c'' o o' H1 H2. unfold sending in *. unfold datagrams in *. rewrite omap_app.
    destruct (m_voiceCryptoChannel (m_connection c)) as [ch|].
    + destruct H1 as (ch' & E & Ek & Hw). rewrite E in H2. destruct H2 as (ch'' & E' & Ek' & Hw').
      exists ch''. split_and!; [done | congruence|]. rewrite Ek in Hw'. by eapply writes_app.
    + destruct H1 as [E ->]. rewrite E in H2. exact H2.
Qed.
Lemma sending_same c c' o :
  m_voiceCryptoChannel (m_connection c') = m_voiceCryptoChannel (m_connection c) -> datagrams o = [] -> sending c c' o.
Proof using Type.
  intros E Eo. unfold sending. rewrite E, Eo. case_match; [|done]. eexists. by split_and!; [..|constructor].
Qed.

Lemma sending_send {T} `{Dto T} now (dto : T) : voice_sat sending (sendToVoiceServer now dto).
Proof using Type.
  apply sat_get. intros c a c' o Hs. destruct (m_voiceCryptoChannel (m_connection c)) as [ch|] eqn:E.
  - unfold serializeOn, getTransmitKeySeq in Hs. cbv zeta in Hs. injection Hs as <- <- <-.
    unfold sending. rewrite E. eexists. split_and!; [reflexivity..|].
    cbn [datagrams omap list_omap app m_transmitSequence]. econstructor; [|constructor].
    unfold packetWith. cbn [getTransmitKey m_aeadTransmitKey].
    unfold serialize. cbv zeta. cbn [Sequence].
    destruct (aead_encrypt _ _ _ _) as [ct|] eqn:Ec; eexists _, _; [right; eexists; split; [exact Ec | reflexivity] | by left].
  - injection Hs as <- <- <-. by apply sending_same.
Qed.

Ltac keeps := first [
    apply sat_ret | apply sat_crash | apply sending_send
  | apply sat_read; intros ?; apply sending_same; reflexivity
  | apply sat_modify; intros []; apply sending_same; reflexivity
  | apply sat_out; intros ?; apply sending_same; reflexivity
  | apply sat_when; keeps
  | apply sat_bind; [keeps | intros ?; keeps]
  | case_match; keeps ].
Lemma sending_event now e :
  (forall tokens, e <> AddCallsignFinished tokens) -> voice_sat sending (voiceEvent now e).
Proof using Type.
  intros He. destruct e; cbn [voiceEvent]; try (by destruct (He tokens)).
  all: try (unfold connectTo, authenticationFinished, disconnectFrom, disconnectFromVoiceServer, withData, processMessage, voiceServerHeartbeat; keeps).
Qed.

(** The nonces of [n] packets from a sequence number on. *)
Definition noncesFrom (s : Z) (n : nat) : list bytes := map (fun i => nonceOf (wrapU 32 (s + Z.of_nat i))) (seq 0 n).
Lemma le_inj k : forall m n, 0 <= m < 256 ^ Z.of_nat k -> 0 <= n < 256 ^ Z.of_nat k -> le k m = le k n -> m = n.
Proof using Type. intros m n Hm Hn E. rewrite <- (ofLe_le k m), <- (ofLe_le k n) by done. by rewrite E. Qed.
Lemma nonceOf_inj m n : inU 32 m -> inU 32 n -> nonceOf m = nonceOf n -> m = n.
Proof using Type.
  intros Hm Hn E. unfold nonceOf in E. apply app_inv_head in E.
  unfold inU in *. change (2 ^ 32) with 4294967296 in *. apply le_inj in E; [done | simpl; lia..].
Qed.
Lemma noncesFrom_NoDup s n : Z.of_nat n <= 2 ^ 32 -> NoDup (noncesFrom s n).
Proof using Type.
  intros Hn. unfold noncesFrom. apply NoDup_fmap_2_strong; [|apply NoDup_ListNoDup, seq_NoDup].
  intros i j Hi%elem_of_seq Hj%elem_of_seq E. apply nonceOf_inj in E; [|by apply wrapU_range..].
  unfold wrapU in E. change (2 ^ 32) with 4294967296 in *.
  pose proof (Z.div_mod (s + Z.of_nat i) 4294967296). pose proof (Z.div_mod (s + Z.of_nat j) 4294967296).
  nia.
Qed.
Lemma writes_nonces key s l s' :
  inU 32 s -> writes key s l s' -> Forall2 (packetWith key) (noncesFrom s (length l)) l.
Proof using Type.
  intros Hs Hw. unfold noncesFrom.
  induction Hw as [s|s data l s' Hp Hw IH]; [constructor|]. cbn [length seq map]. constructor.
  - rewrite Z.add_0_r. unfold wrapU. by rewrite Z.mod_small.
  - rewrite <- seq_shift, map_map. specialize (IH (wrapU_range 32 _ ltac:(lia))).
    erewrite map_ext; [exact IH|]. intros i. simpl. f_equal. unfold wrapU. rewrite Zplus_mod_idemp_l. f_equal. lia.
Qed.

(** C29: No nonce is used twice.  Until new keys come with another login, whatever
    happens in between, every packet written has been encrypted with the key of
    the channel and a nonce of its own, one sequence number after the other, for
    as many packets as there are sequence numbers. *)
Theorem nonces_used_once es c c' o ch :
  m_voiceCryptoChannel (m_connection c) = Some ch -> inU 32 (m_transmitSequence ch) ->
  Forall (fun te => forall tokens, te.2 <> AddCallsignFinished tokens) es ->
  voice_run es c = Some (tt, c', o) -> Z.of_nat (length (datagrams o)) <= 2 ^ 32 ->
  exists nonces, NoDup nonces /\ nonces = noncesFrom (m_transmitSequence ch) (length (datagrams o)) /\
    Forall2 (packetWith (m_aeadTransmitKey ch)) nonces (datagrams o).
Proof using Type.
  intros Hc Hs Hes Hr Hn. assert (sending c c' o) as Hw.
  { eapply (sat_run sending es); [|exact Hr]. eapply Forall_impl; [exact Hes|]. intros [now e] He. by apply sending_event. }
  unfold sending in Hw. rewrite Hc in Hw. destruct Hw as (ch' & _ & _ & Hw).
  exists (noncesFrom (m_transmitSequence ch) (length (datagrams o))).
  split_and!; [by apply noncesFrom_NoDup | done | by eapply writes_nonces].
Qed.
End nonces.

(** ** Data that comes in *)

Section received.
Context `{AeadLaws} `{VoiceObjects, HL : !HeaderLaws}.
Implicit Types (c : CClientConnection) (ch : CCryptoDtoChannel).

(** A packet that holds some text encrypted with the receive key of the channel, under
    a nonce with the sequence number of its header and with the header as additional data. *)
Definition authentic ch (data : bytes) : Prop :=
  exists hb header p ct, data = (le 2 (Z.of_nat (length hb)) ++ hb) ++ ct /\ msgpack_unpack hb = Some header /\
    aead_encrypt (m_aeadReceiveKey ch) (nonceOf (Sequence header)) (le 2 (Z.of_nat (length hb)) ++ hb) p = Some ct.
Definition isBytes (data : bytes) : Prop := Forall (fun b => (b < 256)%N) data.

Lemma unverified_name junk ch data loopback d :
  deserialize junk ch data loopback = Done d -> m_verified d = false -> m_dtoNameBuffer d = [].
Proof using Type.
  rewrite deserialize_eq. cbv zeta. destruct (msgpack_unpack _) as [h|]; [|done].
  case_match; [by intros [= <-]|]. case_match; [done|].
  destruct (aead_decrypt _ _ _ _) as [p|]; intros [= <-]; [|done]. unfold readPayload. by repeat case_match.
Qed.
Lemma named_authentic junk ch data d :
  isBytes data -> deserialize junk ch data false = Done d -> m_dtoNameBuffer d <> [] -> authentic ch data.
Proof using Type*.
  intros Hb Hd Hn. destruct (m_verified d) eqn:Hv; [|by apply unverified_name in Hd].
  destruct (verified_packet junk ch data false d Hb Hd Hv) as (hb & p & ct & E & Hu & _ & He & _).
  by exists hb, (m_header d), p, ct.
Qed.

(** C30: Only what was encrypted with the key is taken.  A datagram that changes
    the connection, or of which anything but an unknown name is told on, is a packet
    encrypted with the receive key; it never changes the keys, and one that is
    taken once is taken in the same way whenever it comes again. *)
Theorem only_authentic_data now junk data c c' o :
  isBytes data -> processMessage now junk data false c = Some (tt, c', o) ->
  m_voiceCryptoChannel (m_connection c') = m_voiceCryptoChannel (m_connection c) /\
  (forall now', exists c'', processMessage now' junk data false c' = Some (tt, c'', o)) /\
  ((c' = c /\ (o = [] \/ o = [ReceivedUnknownData []])) \/
   exists ch, m_voiceCryptoChannel (m_connection c) = Some ch /\ authentic ch data).
Proof using Type*.
  intros Hb Hr.
  assert (forall now' c1, m_voiceCryptoChannel (m_connection c1) = m_voiceCryptoChannel (m_connection c) ->
    m_receiveAudio (m_connection c1) = m_receiveAudio (m_connection c) ->
    m_connected (m_connection c1) = m_connected (m_connection c) ->
    exists c'', processMessage now' junk data false c1 = Some (tt, c'', o)) as Hagain.
  { intros now' c1 E1 E2 E3. revert Hr. unfold processMessage, mbind, Voice_bind, voice_get. simpl. rewrite E1, E2, E3.
    destruct (m_voiceCryptoChannel (m_connection c)) as [ch|]; [|intros [= <- <-]; by eexists].
    destruct (deserialize junk ch data false) as [| |d]; [done..|].
    case_decide; [|case_decide; intros [= <- <-]; by eexists].
    destruct (getDto _ d) as [| |dto]; [done..|]. destruct (_ && _); intros [= <- <-]; by eexists. }
  revert Hr. unfold processMessage, mbind, Voice_bind, voice_get. simpl.
  destruct (m_voiceCryptoChannel (m_connection c)) as [ch|] eqn:Ech.
  2: { intros [= <- <-]. split; [done|]. split; [by intros; apply Hagain; rewrite ?Ech|]. left. split; [done | by left]. }
  destruct (deserialize junk ch data false) as [| |d] eqn:Ed; [done..|].
  destruct (decide (m_dtoNameBuffer d = [])) as [En|En].
  - rewrite En. rewrite !decide_False by done. intros [= <- <-]. split; [done|].
    split; [by intros; apply Hagain; rewrite ?Ech|]. left. split; [done | by right].
  - pose proof (named_authentic junk ch data d Hb Ed En) as Ha. intros Hr.
    assert (m_voiceCryptoChannel (m_connection c') = Some ch /\ m_receiveAudio (m_connection c') = m_receiveAudio (m_connection c) /\
            m_connected (m_connection c') = m_connected (m_connection c)) as (E1 & E2 & E3).
    { revert Hr. case_decide; [|case_decide; by intros [= <- <-]].
      destruct (getDto _ d) as [| |dto]; [done..|]. by destruct (_ && _); intros [= <- <-]. }
    split; [done|]. split; [by intros; apply Hagain; rewrite ?Ech|]. right. by exists ch.
Qed.

(** *** The time of the last sign of the server *)

(** What counts as a sign: a login, or an acknowledgement encrypted with the key. *)
Definition isSign (e : VoiceEvent) : Prop :=
  match e with
  | AddCallsignFinished _ => True
  | Datagram _ data => exists ch, authentic ch data
  | _ => False
  end.
Definition lastSign c : option Z := m_lastVoiceServerHeartbeatAckUtc (m_connection c).
Definition signKept (t : Z) (sign : Prop) c c' (o : list VoiceOut) : Prop :=
  lastSign c' = lastSign c \/ lastSign c' = None \/ lastSign c' = Some t /\ sign.
#[local] Instance signKept_composes t sign : Composes (signKept t sign).
Proof using Type.
  split; [by left|]. unfold signKept. intros c c' c'' o o' [E|[E|[E Hs]]] [E'|[E'|[E' Hs']]]; rewrite ?E', ?E; auto.
Qed.
Ltac signs := first [
    apply sat_ret | apply sat_crash
  | apply sat_read; intros ?; by left
  | apply sat_modify; intros []; left; reflexivity
  | apply sat_modify; intros []; right; left; reflexivity
  | apply sat_modify; intros []; right; right; split; [reflexivity | by auto]
  | apply sat_out; intros ?; by left
  | apply sat_when; signs
  | apply sat_bind; [signs | intros ?; signs]
  | case_match; signs ].
Lemma sign_send {T} `{Dto T} t sign now (dto : T) : voice_sat (signKept t sign) (sendToVoiceServer now dto).
Proof using Type. unfold sendToVoiceServer, withData. signs. Qed.
Lemma sign_event now e :
  match e with Datagram _ data => isBytes data | _ => True end -> voice_sat (signKept now (isSign e)) (voiceEvent now e).
Proof using Type*.
  intros He. destruct e; cbn [voiceEvent isSign]; try apply sign_send.
  1,2,4,5: unfold connectTo, authenticationFinished, disconnectFrom, disconnectFromVoiceServer, withData; signs.
  - unfold addCallsignFinished, connectToVoiceServer, withData.
    apply sat_bind; [signs|]. intros c. case_match; [signs|].
    repeat (apply sat_bind; [|intros ?]); try signs.
    apply sat_modify. intros []. left. unfold createCryptoChannels, lastSign. simpl. by destruct (isValid _).
  - unfold voiceServerHeartbeat. apply sat_bind; [signs|]. intros c. case_match; [signs | apply sign_send].
  - unfold processMessage. apply sat_get. intros c a c' o Hr.
    destruct (m_voiceCryptoChannel (m_connection c)) as [ch|]; [|injection Hr as <- <- <-; by left].
    destruct (deserialize junk ch data false) as [| |d] eqn:Ed; [done..|].
    destruct (decide (m_dtoNameBuffer d = _)) as [En|En].
    + destruct (getDto _ d) as [| |dto]; [done..|]. revert Hr. destruct (m_receiveAudio _ && m_connected _); intros [= <- <- <-]; by left.
    + clear En. destruct (decide (m_dtoNameBuffer d = _)) as [En|En]; [|injection Hr as <- <- <-; by left].
      injection Hr as <- <- <-. right. right. split; [done|]. exists ch.
      eapply named_authentic; [done | exact Ed | by rewrite En].
Qed.

(** Who is alive was heard.  When the voice server counts as alive, a login or
    an acknowledgement encrypted with a key arrived within the last ten seconds. *)
Theorem alive_means_heard es c o now :
  Forall (fun te => match te.2 with Datagram _ data => isBytes data | _ => True end) es ->
  voice_run es CClientConnection_init = Some (tt, c, o) -> isVoiceServerAlive now (m_connection c) = true ->
  exists t e, (t, e) ∈ es /\ isSign e /\ Z.abs (secsTo t now) < 10.
Proof using Type*.
  intros Hes Hr Ha.
  assert (forall es c0 c o, Forall (fun te => match te.2 with Datagram _ data => isBytes data | _ => True end) es ->
    voice_run es c0 = Some (tt, c, o) -> forall t, lastSign c = Some t ->
    lastSign c0 = Some t \/ exists e, (t, e) ∈ es /\ isSign e) as Hrun.
  { clear es c o now Hes Hr Ha. intros es. induction es as [|[t0 e] es IH]; intros c0 c o Hes Hr t Ht.
    - injection Hr as <- <-. by left.
    - apply Forall_cons in Hes as [He Hes]. cbn [voice_run] in Hr. unfold mbind, Voice_bind in Hr.
      destruct (voiceEvent t0 e c0) as [[[[] c1] o1]|] eqn:E1; [|done]. simpl in Hr.
      destruct (voice_run es c1) as [[[[] c2] o2]|] eqn:E2; [|done]. simpl in Hr. injection Hr as <- <-.
      destruct (IH c1 c2 o2 Hes E2 t Ht) as [Hc1|(e' & He' & Hs)]; [|right; exists e'; split; [by right | done]].
      destruct (sign_event t0 e He c0 tt c1 o1 E1) as [E|[E|[E Hs]]]; [left; congruence | congruence|].
      right. exists e. assert (t = t0) as -> by congruence. split; [by left | done]. }
  unfold isVoiceServerAlive, aliveAt in Ha. destruct (m_lastVoiceServerHeartbeatAckUtc (m_connection c)) as [t|] eqn:Et; [|done].
  destruct (Hrun es _ c o Hes Hr t Et) as [|(e & He & Hs)]; [done|]. exists t, e. split_and!; [done..|]. unfold ServerTimeoutSecs in Ha. lia.
Qed.
End received.

(** ** Well-formed connections *)

Section wellformed.
Context `{Aead} `{VoiceObjects}.
Implicit Types (c : CClientConnection) (d : CClientConnectionData).

(** The keys of a channel have the size of the cipher, and its sequence number
    is one of 32 bits. *)
Definition channelFits (ch : CCryptoDtoChannel) : Prop :=
  length (m_aeadTransmitKey ch) = KEYBYTES /\ length (m_aeadReceiveKey ch) = KEYBYTES /\ inU 32 (m_transmitSequence ch).
Record connectionWf c : Prop := mkConnectionWf {
  wf_channel : forall ch, m_voiceCryptoChannel (m_connection c) = Some ch -> channelFits ch;
  wf_connected : m_connected (m_connection c) = true ->
    m_voiceServerTimer c = true /\ is_Some (m_authenticatedDateTimeUtc (m_connection c)) /\
    is_Some (m_lastVoiceServerHeartbeatAckUtc (m_connection c)) }.
Definition wfKept c c' (o : list VoiceOut) : Prop := connectionWf c -> connectionWf c'.
#[local] Instance wfKept_composes : Composes wfKept.
Proof using Type. split; unfold wfKept; auto. Qed.

Lemma make_fits config n ch : CCryptoDtoChannel_make config n = Some ch -> channelFits ch.
Proof using Type.
  unfold CCryptoDtoChannel_make. destruct (Nat.eqb_spec (length (aeadTransmitKey config)) KEYBYTES); [|done].
  destruct (Nat.eqb_spec (length (aeadReceiveKey config)) KEYBYTES); [|done]. intros [= <-]. split_and!; try done.
Qed.
(** An update that leaves the channel, and the rest of a connection that stays
    connected. *)
Lemma wf_update f :
  (forall c, m_voiceCryptoChannel (m_connection (f c)) = m_voiceCryptoChannel (m_connection c) /\
     (m_connected (m_connection (f c)) = true -> m_connected (m_connection c) = true /\
        (m_voiceServerTimer c = true -> m_voiceServerTimer (f c) = true) /\
        (is_Some (m_authenticatedDateTimeUtc (m_connection c)) -> is_Some (m_authenticatedDateTimeUtc (m_connection (f c)))) /\
        (is_Some (m_lastVoiceServerHeartbeatAckUtc (m_connection c)) ->
         is_Some (m_lastVoiceServerHeartbeatAckUtc (m_connection (f c)))))) ->
  voice_sat wfKept (voice_modify f).
Proof using Type.
  intros Hf. apply sat_modify. intros c [Hc Hd]. destruct (Hf c) as [E Hi]. constructor.
  - intros ch. rewrite E. apply Hc.
  - intros Hcon. destruct (Hi Hcon) as (Hcon' & Ht & Ha & Hl). destruct (Hd Hcon') as (? & ? & ?). auto.
Qed.
Ltac wf := first [
    apply sat_ret | apply sat_crash
  | apply sat_read; intros ? ?; assumption
  | apply sat_out; intros ? ?; assumption
  | apply wf_update; intros []; split; [reflexivity|]; simpl; try discriminate; intros; split_and!; intros; eauto; fail
  | apply sat_when; wf
  | apply sat_bind; [wf | intros ?; wf]
  | case_match; wf ].
Lemma wf_send {T} `{Dto T} now (dto : T) : voice_sat wfKept (sendToVoiceServer now dto).
Proof using Type.
  apply sat_get. intros c a c' o Hs [Hc Hd]. destruct (m_voiceCryptoChannel (m_connection c)) as [ch|] eqn:E.
  - unfold serializeOn, getTransmitKeySeq in Hs. cbv zeta in Hs. injection Hs as <- <- <-.
    destruct (Hc ch eq_refl) as (Ht & Hr & _). constructor; [|exact Hd].
    intros ch' [= <-]. split_and!; [done..|]. by apply wrapU_range.
  - injection Hs as <- <- <-. constructor; [by rewrite E | exact Hd].
Qed.
Lemma wf_event now e : voice_sat wfKept (voiceEvent now e).
Proof using Type.
  destruct e; cbn [voiceEvent]; try apply wf_send.
  - unfold connectTo, withData. wf.
  - (* [reset] and the end of the connection go together *)
    unfold authenticationFinished. apply sat_bind; [wf|]. intros c. case_match; [wf|].
    apply sat_bind; [wf|]. intros _. case_match; [wf|].
    intros c0 a c' o [= <- <- <-] [Hc Hd]. by constructor.
  - unfold addCallsignFinished. apply sat_bind; [wf|]. intros c. case_match; [wf|].
    apply sat_bind; [wf|]. intros _. intros c0 a c' o [= <- <- <-] [Hc Hd].
    destruct c0 as [[] ? ? ?], tokens as [? ? []]; constructor; try (intros _; split_and!; [reflexivity | eexists; reflexivity..]).
    + intros ch. apply make_fits.
    + exact Hc.
  - unfold disconnectFrom. apply sat_get. intros c a c' o Hr [Hc Hd]. revert Hr.
    destruct (m_connected (m_connection c)) eqn:E; [|intros [= <- <- <-]; constructor; [exact Hc | congruence]].
    destruct (isEmpty _); intros [= <- <- <-]; (constructor; [exact Hc | discriminate]).
  - unfold withData. wf.
  - unfold voiceServerHeartbeat. apply sat_bind; [wf|]. intros c. case_match; [wf | apply wf_send].
  - unfold processMessage, withData. wf.
Qed.

(** Well-formed connections.  In every state of the connection the keys of its
    channel have the size of the cipher and the sequence number has 32 bits; and
    while it is connected the timer of the heartbeat runs and both times are set. *)
Theorem connection_wf es c o : voice_run es CClientConnection_init = Some (tt, c, o) -> connectionWf c.
Proof using Type.
  intros Hr. eapply (sat_run wfKept es); [|exact Hr|by constructor].
  apply Forall_forall. intros [now e] _. apply wf_event.
Qed.
End wellformed.

(** ** Concrete runs *)

#[local] Existing Instances plainAead plainAeadLaws plainHeader plainHeaderLaws plainHeartbeat.
#[local] Instance plainAudio : MsgPack AudioRxOnTransceiversDto :=
  {| msgpack_pack := rx_callsign; msgpack_unpack l := Some (mkAudioRx l 0 [] false []) |}.
#[local] Instance plainAck : MsgPack HeartbeatAckDto :=
  {| msgpack_pack _ := []; msgpack_unpack _ := Some mkHeartbeatAck |}.
#[local] Instance plainObjects : VoiceObjects :=
  {| VoiceDto := HeartbeatDto; header_msgpack := plainHeader; audioRx_msgpack := plainAudio;
     heartbeat_msgpack := plainHeartbeat; heartbeatAck_msgpack := plainAck;
     voice_msgpack := plainHeartbeat; voice_dto := HeartbeatDto_Dto |}.

Definition plainTokens (valid : bool) (key : bytes) : PostCallsignResponseDto :=
  mkTokens (lit "[::1]:50000") (mkConfig (lit "voice") key key []) valid.
Definition loginAt (t : Z) (tokens : PostCallsignResponseDto) : list (Z * VoiceEvent) :=
  [ (t, ConnectTo (lit "user") (lit "secret") (lit "DLH123") (lit "swift"));
    (t + 10, AuthenticationFinished true); (t + 20, AddCallsignFinished tokens) ].
Definition plainAckPacket : bytes :=
  serialize (lit "voice") AEAD_ChaCha20Poly1305 plainKey 7 mkHeartbeatAck.
Definition plainSession : list (Z * VoiceEvent) :=
  loginAt 1000 (plainTokens true plainKey) ++ [(4020, HeartbeatTimer); (4100, Datagram 0 plainAckPacket); (7020, HeartbeatTimer)].

(** The state and the outputs a run ends with. *)
Definition ran (es : list (Z * VoiceEvent)) : CClientConnection * list VoiceOut :=
  match voice_run es CClientConnection_init with Some (_, c, o) => (c, o) | None => (CClientConnection_init, []) end.
Lemma voice_run_ran es : is_Some (voice_run es CClientConnection_init) ->
  voice_run es CClientConnection_init = Some (tt, (ran es).1, (ran es).2).
Proof. intros [[[[] c] o] E]. unfold ran. by rewrite E. Qed.

Definition plainLogin : CClientConnection := (ran (loginAt 1000 (plainTokens true plainKey))).1.
Definition plainHeartbeats : list (Z * VoiceEvent) :=
  [(4020, HeartbeatTimer); (4100, Datagram 0 plainAckPacket); (5000, SendToVoiceServer (mkHeartbeat (lit "X"))); (7020, HeartbeatTimer)].

Lemma nonces_used_once_witness :
  exists c' o, voice_run plainHeartbeats plainLogin = Some (tt, c', o) /\ length (datagrams o) = 3%nat /\
  exists nonces, NoDup nonces /\ nonces = noncesFrom 0 3 /\ Forall2 (packetWith plainKey) nonces (datagrams o).
Proof.
  destruct (voice_run plainHeartbeats plainLogin) as [[[[] c'] o]|] eqn:Er; [|by vm_compute in Er].
  exists c', o. split; [done|].
  assert (length (datagrams o) = 3%nat) as Hl by (vm_compute in Er; by injection Er as <- <-).
  split; [done|].
  destruct (nonces_used_once plainHeartbeats plainLogin c' o (mkChannel plainKey plainKey 0 (replicate 10 0) 0 10 [] (lit "voice") None None))
    as (nonces & Hn & En & Hf).
  - vm_compute. reflexivity.
  - unfold inU. simpl. lia.
  - repeat constructor; intros tokens; discriminate.
  - exact Er.
  - rewrite Hl. simpl. lia.
  - exists nonces. rewrite Hl in En. by split_and!.
Defined.

Lemma isBytes_dec (data : bytes) : forallb (fun b => (b <? 256)%N) data = true -> isBytes data.
Proof. intros Hb. apply Forall_forall. intros b Hin. rewrite List.forallb_forall in Hb. by apply N.ltb_lt, Hb, list_elem_of_In. Qed.

Lemma only_authentic_data_witness :
  exists c', processMessage 5000 0 plainAckPacket false plainLogin = Some (tt, c', []) /\
    (forall now', exists c'', processMessage now' 0 plainAckPacket false c' = Some (tt, c'', [])) /\
    exists ch, m_voiceCryptoChannel (m_connection plainLogin) = Some ch /\ authentic ch plainAckPacket.
Proof.
  destruct (processMessage 5000 0 plainAckPacket false plainLogin) as [[[[] c'] o]|] eqn:Er; [|by vm_compute in Er].
  assert (o = []) as -> by (vm_compute in Er; by injection Er as <- <-). exists c'. split; [done|].
  destruct (only_authentic_data 5000 0 plainAckPacket plainLogin c' []) as (_ & Hagain & Ho).
  - by apply isBytes_dec.
  - exact Er.
  - split; [exact Hagain|]. destruct Ho as [[-> _]|Ho]; [by vm_compute in Er | exact Ho].
Defined.

Lemma alive_means_heard_witness :
  isVoiceServerAlive 12000 (m_connection (ran plainSession).1) = true /\
  exists t e, (t, e) ∈ plainSession /\ isSign e /\ Z.abs (secsTo t 12000) < 10.
Proof.
  split; [by vm_compute|].
  apply (alive_means_heard plainSession (ran plainSession).1 (ran plainSession).2 12000).
  - repeat constructor; by apply isBytes_dec.
  - by vm_compute.
  - by vm_compute.
Defined.

Lemma connection_wf_witness : m_connected (m_connection (ran plainSession).1) = true /\ connectionWf (ran plainSession).1.
Proof.
  split; [by vm_compute|]. apply (connection_wf plainSession (ran plainSession).1 (ran plainSession).2). by vm_compute.
Defined.

(** *** What the protocol leaves open *)

(** Connected without a channel: with tokens that are not valid, or with keys of
    another size, no channel is made, but the connection counts as connected, and
    the heartbeat of the timer sends nothing. *)
Lemma connected_without_channel tokens :
  tokens = plainTokens false plainKey \/ tokens = plainTokens true (take 31 plainKey) ->
  let '(c, o) := ran (loginAt 1000 tokens ++ [(4020, HeartbeatTimer)]) in
  m_connected (m_connection c) = true /\ m_voiceServerTimer c = true /\
  m_voiceCryptoChannel (m_connection c) = None /\ last o = Some (ConnectCallback true).
Proof. intros [->| ->]; vm_compute; by split_and!. Qed.

(** A timer nobody stops: of two logins the first succeeds and the second fails. Not
    connected, the heartbeats go on, for no callsign and to no address, and
    disconnecting does nothing. *)
Definition twoLogins : list (Z * VoiceEvent) :=
  [ (0, ConnectTo (lit "user") (lit "secret") (lit "DLH123") (lit "swift"));
    (5, ConnectTo (lit "user") (lit "other") (lit "DLH123") (lit "swift"));
    (10, AuthenticationFinished true); (20, AddCallsignFinished (plainTokens true plainKey));
    (30, AuthenticationFinished false) ].
Lemma timer_left_running :
  let '(c, _) := ran (twoLogins ++ [(40, DisconnectFrom)]) in
  let '(_, o) := ran (twoLogins ++ [(40, DisconnectFrom); (3020, HeartbeatTimer)]) in
  m_connected (m_connection c) = false /\ m_voiceServerTimer c = true /\
  exists data, last o = Some (WriteDatagram data (lit "udp://")).
Proof. vm_compute. split_and!; [done..|]. by eexists. Qed.

(** The channel outlives the connection: after disconnecting, a datagram of the old
    session is still decrypted and sets the time of the last sign again. *)
Lemma disconnected_still_listening :
  let '(c, _) := ran (plainSession ++ [(8000, DisconnectFrom); (9000, Datagram 0 plainAckPacket)]) in
  m_connected (m_connection c) = false /\ isVoiceServerAlive 9500 (m_connection c) = true.
Proof. by vm_compute. Qed.
