(* ===== verification/ValueReplica.v ===== *)
(** * Replicas of a value

    The protocol that pages follow towards the cache of their process and caches
    follow towards the other processes, for one value: a hub holds the value that
    was announced last, and announces every change to all replicas; a
    replica applies a change of its own at once and sends it to the hub, counts
    it as pending until it comes back, and takes a change of another replica only
    while nothing is pending.  A replica is what the detailed states are projected
    to, key by key; its invariant is [Consistent]. *)

From S2P Require Export Prelude.

Open Scope Z_scope.

Section replica.
Context {V : Type}.

(** The value, the number of pending changes, the announcements to take in (with
    whether the change is the replica's own), and the changes on the way to the hub. *)
Record Replica := mkReplica { r_value : V; r_pending : Z; r_in : list (V * bool); r_out : list V }.

(** The replica's own changes that have not come back. *)
Definition owns (l : list (V * bool)) : list V := omap (fun vb => if vb.2 : bool then Some vb.1 else None) l.
Definition ownChanges (r : Replica) : list V := owns (r_in r) ++ r_out r.
Lemma owns_own v l : owns ((v, true) :: l) = v :: owns l.
Proof using Type. done. Qed.
Lemma owns_other v l : owns ((v, false) :: l) = owns l.
Proof using Type. done. Qed.
Lemma owns_app l l' : owns (l ++ l') = owns l ++ owns l'.
Proof using Type. apply omap_app. Qed.

(** [shown]: what a replica that has taken nothing shows of the hub.  [ok]: the
    values that may be announced. *)
Context (shown : V -> V) (ok : V -> Prop) (shown_ok : forall v, ok v -> shown v = v).
Implicit Types (r : Replica) (hub v : V).

Record Consistent hub r : Prop := mkConsistent {
  cons_pending : r_pending r = Z.of_nat (length (ownChanges r));
  cons_hub : match last (r_in r) with
             | Some vb => vb.1 = hub
             | None => r_out r = [] -> r_value r = shown hub
             end;
  cons_own v : last (ownChanges r) = Some v -> r_value r = v;
  cons_ok : Forall ok (map fst (r_in r)) /\ Forall ok (r_out r) }.

(** Nothing under way: the replica shows what the hub has. *)
Lemma consistent_quiescent hub r :
  Consistent hub r -> r_in r = [] -> r_out r = [] -> r_value r = shown hub /\ r_pending r = 0.
Proof using Type.
  intros [Hp Hh _ _] Hi Ho. unfold ownChanges in Hp. rewrite Hi, Ho in *. by split; [apply Hh|].
Qed.
Lemma consistent_init hub : Consistent hub (mkReplica (shown hub) 0 [] []).
Proof using Type. split; simpl; [done.. | by split]. Qed.
Lemma consistent_pending_nonneg hub r : Consistent hub r -> 0 <= r_pending r.
Proof using Type. intros [-> _ _ _]. lia. Qed.
(** An own change that comes back was counted. *)
Lemma consistent_own_positive hub r v l : Consistent hub r -> r_in r = (v, true) :: l -> 0 < r_pending r.
Proof using Type. intros [-> _ _ _] Hi. unfold ownChanges. rewrite Hi. simpl. lia. Qed.

(** The replica changes the value. *)
Lemma consistent_set hub r v :
  Consistent hub r -> ok v -> Consistent hub (mkReplica v (r_pending r + 1) (r_in r) (r_out r ++ [v])).
Proof using Type.
  intros [Hp Hh Ho [Hi Hr]] Hv. split; unfold ownChanges in *; simpl.
  - rewrite Hp, !length_app. simpl. lia.
  - destruct (last (r_in r)) as [vb|]; [done|]. by intros [_ ?]%app_nil.
  - intros v'. rewrite app_assoc, last_snoc. by intros [= ->].
  - split; [done|]. apply Forall_app_2; [done | by constructor].
Qed.
(** Its change reaches the hub, which announces it. *)
Lemma consistent_announce_own hub r v l :
  Consistent hub r -> r_out r = v :: l ->
  Consistent v (mkReplica (r_value r) (r_pending r) (r_in r ++ [(v, true)]) l).
Proof using Type.
  intros [Hp Hh Ho [Hi Hr]] E. rewrite E in *. apply Forall_cons in Hr as [Hv Hr].
  assert (ownChanges (mkReplica (r_value r) (r_pending r) (r_in r ++ [(v, true)]) l) = ownChanges r) as Eo.
  { unfold ownChanges. cbn [r_in r_out]. by rewrite owns_app, <- app_assoc, E. }
  split; rewrite ?Eo; simpl; [done | by rewrite last_snoc | done|].
  split; [|done]. rewrite map_app. apply Forall_app_2; [done | by constructor].
Qed.
(** The change of another is announced. *)
Lemma consistent_announce hub r v :
  Consistent hub r -> ok v ->
  Consistent v (mkReplica (r_value r) (r_pending r) (r_in r ++ [(v, false)]) (r_out r)).
Proof using Type.
  intros [Hp Hh Ho [Hi Hr]] Hv.
  assert (ownChanges (mkReplica (r_value r) (r_pending r) (r_in r ++ [(v, false)]) (r_out r)) = ownChanges r) as Eo.
  { unfold ownChanges. cbn [r_in r_out]. by rewrite owns_app, owns_other, app_nil_r. }
  split; rewrite ?Eo; simpl; [done | by rewrite last_snoc | done|].
  split; [|done]. rewrite map_app. apply Forall_app_2; [done | by constructor].
Qed.
(** An announcement is taken in. *)
Lemma consistent_take_own hub r v l :
  Consistent hub r -> r_in r = (v, true) :: l ->
  Consistent hub (mkReplica (r_value r) (r_pending r - 1) l (r_out r)).
Proof using shown_ok.
  intros [Hp Hh Ho [Hi Hr]] E. unfold ownChanges in *. rewrite E, owns_own in *. cbn [length app map] in *.
  apply Forall_cons in Hi as [Hv Hi]. split; unfold ownChanges; cbn [r_in r_out r_value r_pending]; [lia | | | done].
  - rewrite last_cons in Hh. destruct (last l) as [vb|] eqn:Ell; [exact Hh|]. apply last_None in Ell as ->.
    simpl in Hh. intros El. rewrite El in *. rewrite (Ho v) by done. subst v. by rewrite shown_ok.
  - intros v' Hl. apply Ho. by rewrite last_cons, Hl.
Qed.
Lemma consistent_take hub r v l :
  Consistent hub r -> r_in r = (v, false) :: l ->
  Consistent hub (mkReplica (if decide (r_pending r = 0) then v else r_value r) (r_pending r) l (r_out r)).
Proof using shown_ok.
  intros [Hp Hh Ho [Hi Hr]] E. unfold ownChanges in *. rewrite E, owns_other in *. cbn [map] in *.
  apply Forall_cons in Hi as [Hv Hi]. split; unfold ownChanges; cbn [r_in r_out r_value r_pending]; [done | | | done].
  - rewrite last_cons in Hh. destruct (last l) as [vb|] eqn:Ell; [exact Hh|]. apply last_None in Ell as ->.
    simpl in Hh. intros El. rewrite El in *. simpl in Hp.
    rewrite decide_True by done. subst v. by rewrite shown_ok.
  - intros v' Hl. case_decide as Hz; [|by apply Ho].
    destruct (owns l ++ r_out r); simpl in *; [done | lia].
Qed.
End replica.
Arguments Replica : clear implicits.

(** What is shown of the hub matters to a replica only before it takes anything. *)
Lemma consistent_refresh {V} (shown shown' : V -> V) ok hub v r_in r_out :
  Consistent shown ok hub (mkReplica v 0 r_in r_out) -> Consistent shown' ok hub (mkReplica (shown' hub) 0 r_in r_out).
Proof.
  intros [Hp Hh Ho Hok]. unfold ownChanges in *. simpl in *. split; unfold ownChanges; simpl; [done | | | done].
  - by destruct (last r_in).
  - destruct (owns r_in ++ r_out); simpl in *; [done | lia].
Qed.
