(* ===== verification/ValueCache.v ===== *)
(** * Cached values (misc/valuecache.h, .cpp, misc/valuecacheprivate.h)

    A cache of the process, and the pages of the objects that read and write its
    values in threads of their own.  An element of both counts the changes of its
    own that have not come back yet: a change of somebody else is taken only while
    there are none.

    A member function returns the new state with the signals it emits, in order.
    Maps of Qt are maps of stdpp; where the order of their keys shows, they are
    walked in it ([keysInOrder]).  Texts of status messages are left out. *)

From S2P Require Export Severity QtCore Json.
From coqutil Require Export Datatypes.RecordSetters.
Export TriangleBracketNotations.
#[global] Open Scope record_set.

Open Scope Z_scope.

(** ** Values *)

(** CVariant: no value, or a value of a type that QMetaType numbers. *)
Class VariantData := { VData : Type; VData_eq :: EqDecision VData }.
Inductive CVariant `{VariantData} := InvalidVariant | mkVariant (userType : Z) (data : VData).
#[export] Instance CVariant_eq `{VariantData} : EqDecision CVariant.
Proof. solve_decision. Defined.
Definition variant_isValid `{VariantData} (v : CVariant) : bool :=
  match v with InvalidVariant => false | mkVariant _ _ => true end.

(** The keys of a QMap, in the order of its iterators. *)
Fixpoint insertKeyInOrder (k : QString) (ks : list QString) : list QString :=
  match ks with [] => [k] | k' :: ks' => if keyLt k k' then k :: ks else k' :: insertKeyInOrder k ks' end.
Definition keysInOrder {A} (m : gmap QString A) : list QString :=
  foldr insertKeyInOrder [] (map fst (map_to_list m)).

Lemma elem_of_insertKeyInOrder k k' ks : k ∈ insertKeyInOrder k' ks <-> k = k' \/ k ∈ ks.
Proof. induction ks as [|k1 ks IH]; simpl; [set_solver|]. case_match; set_solver. Qed.
Lemma elem_of_keysInOrder {A} (m : gmap QString A) k : k ∈ keysInOrder m <-> is_Some (m !! k).
Proof.
  unfold keysInOrder. transitivity (k ∈ map fst (map_to_list m)).
  - generalize (map fst (map_to_list m)). intros ks. induction ks as [|k1 ks IH]; simpl; [set_solver|].
    rewrite elem_of_insertKeyInOrder, elem_of_cons. by rewrite IH.
  - rewrite list_elem_of_fmap. split.
    + intros ([k' a] & -> & Hin). apply elem_of_map_to_list in Hin. by exists a.
    + intros [a Ha]. exists (k, a). split; [done | by apply elem_of_map_to_list].
Qed.

(** ** Packets *)

Section packet.
Context `{VariantData}.

(** CValueCachePacket: values with timestamps; whether they are to be saved, and
    whether they have changed. *)
Record CValueCachePacket := mkPacket {
  packet_values : gmap QString (CVariant * Z); m_saved : bool; m_valuesChanged : bool }.
Implicit Types (p : CValueCachePacket).

Definition CValueCachePacket_make (values : gmap QString CVariant) (timestamp : Z) (saved valuesChanged : bool) :
    CValueCachePacket :=
  mkPacket ((fun v => (v, timestamp)) <$> values) saved valuesChanged.
Definition setSaved (saved : bool) p : CValueCachePacket := p <| m_saved := saved |>.
Definition packet_insert (key : QString) (value : CVariant) (timestamp : Z) p : CValueCachePacket :=
  p <| packet_values ::= <[key := (value, timestamp)]> |>.
(** Values of the map replace those of the packet. *)
Definition packet_insertMap (values : gmap QString CVariant) (timestamp : Z) p : CValueCachePacket :=
  p <| packet_values ::= fun m => ((fun v => (v, timestamp)) <$> values) ∪ m |>.
Definition packet_insertPacket (other : CValueCachePacket) p : CValueCachePacket :=
  p <| packet_values ::= fun m => packet_values other ∪ m |>.
Definition toVariantMap p : gmap QString CVariant := fst <$> packet_values p.
Definition toTimestampMap p : gmap QString Z := snd <$> packet_values p.
Definition setTimestamps (times : gmap QString Z) p : CValueCachePacket :=
  p <| packet_values ::= map_imap (fun k '(v, t) => Some (v, default t (times !! k))) |>.
(** The packet without the key, and one with the key alone. *)
Definition takeByKey (key : QString) p : CValueCachePacket * CValueCachePacket :=
  (p <| packet_values ::= delete key |>, p <| packet_values ::= filter (fun kv => kv.1 = key) |>).
End packet.
#[global] Arguments CValueCachePacket {_}.

(** ** The cache *)

Section cache.
Context `{VariantData} {PageId : Type}.

Record CacheElement := mkCacheElement {
  ce_value : CVariant; ce_pendingChanges : Z; ce_saved : bool; ce_timestamp : Z }.
Definition CacheElement_new : CacheElement := mkCacheElement InvalidVariant 0 false 0.

Record CValueCache := mkCache { cache_elements : gmap QString CacheElement; m_humanReadable : gmap QString QString }.
Definition CValueCache_init : CValueCache := mkCache ∅ ∅.
Implicit Types (c : CValueCache) (values : CValueCachePacket).

(** The signals; [changedBy] is the page that made the change. *)
Inductive CacheSignal :=
  | valuesChanged values (changedBy : option PageId)
  | valuesChangedByLocal values
  | valuesSaveRequested values.

(** An element that is not there is added. *)
Definition getElement (key : QString) c : CacheElement := default CacheElement_new (cache_elements c !! key).
Definition getValue (key : QString) c : CVariant * Z * bool * CValueCache :=
  let element := getElement key c in
  (ce_value element, ce_timestamp element, ce_saved element, c <| cache_elements ::= <[key := element]> |>).

(** The elements whose key is not before the prefix, and before the prefix with
    the last code unit behind it. *)
Definition LastValidCodePoint : QChar := 65535%N.
Definition keyStartsWith (keyPrefix key : QString) : bool :=
  negb (keyLt key keyPrefix) && keyLt key (keyPrefix ++ [LastValidCodePoint]).
Definition elementsStartingWith (keyPrefix : QString) c : gmap QString CacheElement :=
  filter (fun ke => keyStartsWith keyPrefix ke.1) (cache_elements c).

Definition getAllValues (keyPrefix : QString) c : gmap QString CVariant :=
  omap (fun e => if variant_isValid (ce_value e) then Some (ce_value e) else None) (elementsStartingWith keyPrefix c).
Definition getAllValuesOf (keys : list QString) c : gmap QString CVariant :=
  omap (fun e => if variant_isValid (ce_value e) then Some (ce_value e) else None)
    (filter (fun ke => ke.1 ∈ keys) (cache_elements c)).
Definition getAllValuesWithTimestamps (keyPrefix : QString) c : CValueCachePacket :=
  mkPacket (omap (fun e => if variant_isValid (ce_value e) then Some (ce_value e, ce_timestamp e) else None)
              (elementsStartingWith keyPrefix c)) false true.
Definition getAllUnsavedKeys (keyPrefix : QString) c : list QString :=
  keysInOrder (filter (fun ke => variant_isValid (ce_value ke.2) && negb (ce_saved ke.2)) (elementsStartingWith keyPrefix c)).

(** Every element of the packet, taken into the cache by a function that is given
    the element of the cache. *)
Definition mergeElements (f : CacheElement -> CVariant * Z -> CacheElement) (values : CValueCachePacket) c : CValueCache :=
  c <| cache_elements ::=
    fun m => merge (fun oe oi => match oi with
                                 | Some i => Some (f (default CacheElement_new oe) i)
                                 | None => oe
                                 end) m (packet_values values) |>.

(** [roundTrip]: the originator is this process. *)
Definition changeValuesFromRemote values (roundTrip : bool) c : CValueCache * list CacheSignal :=
  if bool_decide (packet_values values = ∅) then (c, [])
  else if negb (m_valuesChanged values)
  then (c, if m_saved values then [valuesSaveRequested values] else [])
  else if roundTrip
  then
    (mergeElements (fun e _ => e <| ce_pendingChanges ::= fun n => n - 1 |>) values c,
     if m_saved values then [valuesSaveRequested (mkPacket (packet_values values) (m_saved values) true)] else [])
  else
    let ratifiedChanges :=
      mkPacket (filter (fun kv => ce_pendingChanges (getElement kv.1 c) = 0) (packet_values values)) (m_saved values) true in
    (mergeElements (fun e i => if decide (ce_pendingChanges e = 0)
                               then e <| ce_value := i.1 |> <| ce_timestamp := i.2 |> <| ce_saved := m_saved values |>
                               else e) values c,
     if bool_decide (packet_values ratifiedChanges = ∅) then []
     else (if m_saved values then [valuesSaveRequested ratifiedChanges] else []) ++ [valuesChanged ratifiedChanges None]).

(** changeValues, up to what listens to [valuesChangedByLocal]; [sender] is the
    page whose signal the slot is called for. *)
Definition changeValues values (sender : option PageId) c : CValueCache * list CacheSignal :=
  if bool_decide (packet_values values = ∅) then (c, [])
  else
    (mergeElements (fun e i =>
       (if m_valuesChanged values
        then e <| ce_pendingChanges ::= fun n => n + 1 |> <| ce_value := i.1 |> <| ce_timestamp := i.2 |>
        else e) <| ce_saved := m_saved values |>) values c,
     (if m_valuesChanged values then [valuesChanged values sender] else []) ++ [valuesChangedByLocal values]).

Definition markAllAsSaved (keyPrefix : QString) c : CValueCache :=
  c <| cache_elements ::=
    map_imap (fun k e => Some (if keyStartsWith keyPrefix k then e <| ce_saved := true |> else e)) |>.
Definition markKeysAsSaved (keys : list QString) c : CValueCache :=
  foldl (fun c key => c <| cache_elements ::= <[key := (getElement key c) <| ce_saved := true |>]> |>) c keys.
(** What clearAllValues passes to changeValues. *)
Definition clearedValues (keyPrefix : QString) c : CValueCachePacket :=
  CValueCachePacket_make ((fun _ => InvalidVariant) <$> getAllValues keyPrefix c) 0 false true.

Definition getHumanReadableName (key : QString) c : QString := default key (m_humanReadable c !! key).
Definition getHumanReadableWithKey (key : QString) c : QString :=
  let hr := default [] (m_humanReadable c !! key) in
  if isEmpty hr then key else hr ++ lit " (" ++ key ++ lit ")".
Definition setHumanReadableName (key name : QString) c : CValueCache :=
  if decide (is_Some (m_humanReadable c !! key)) then c else c <| m_humanReadable ::= <[key := name]> |>.
End cache.
#[global] Arguments CacheElement {_}.
#[global] Arguments CValueCache {_}.
#[global] Arguments CacheSignal {_} _.

(** ** Pages *)

(** CStatusMessage: no message, those of validate, and those of setValue. *)
Inductive CacheStatus :=
  | NoStatus
  | EmptyCacheValue (severity : StatusSeverity)
  | UnexpectedType
  | NotValid (reason : QString)
  | NotSetSameTimestampAndValue
  | SetValueStatus.
#[export] Instance CacheStatus_eq : EqDecision CacheStatus.
Proof. solve_decision. Defined.
Definition getSeverity (s : CacheStatus) : StatusSeverity :=
  match s with
  | NoStatus => SeverityDebug
  | EmptyCacheValue severity => severity
  | UnexpectedType | NotValid _ => SeverityError
  | NotSetSameTimestampAndValue | SetValueStatus => SeverityInfo
  end.
Definition isFailure (s : CacheStatus) : bool := bool_decide (getSeverity s = SeverityError).
Definition isSuccess (s : CacheStatus) : bool := negb (isFailure s).

Section page.
Context `{VariantData}.

(** The functor that notifies the parent, and the member function it was made of, if any. *)
Record NotifySlot := mkNotifySlot { slot_functor : N; slot_member : option N }.
#[export] Instance NotifySlot_eq : EqDecision NotifySlot.
Proof. solve_decision. Defined.

(** The validator fills in a reason when it rejects. *)
Record PageElement := mkPageElement {
  pe_value : CVariant; pe_timestamp : Z; pe_metaType : Z; pe_validator : option (CVariant -> bool * QString);
  pe_default : CVariant; pe_notifySlot : option NotifySlot; pe_pendingChanges : Z; pe_saved : bool }.
Record CValuePage := mkPage {
  page_elements : gmap QString PageElement; m_batchMode : Z; m_batchedValues : gmap QString CVariant }.
Definition CValuePage_init : CValuePage := mkPage ∅ 0 ∅.
Implicit Types (e : PageElement) (pg : CValuePage) (values : CValueCachePacket).

Definition validate e (value : CVariant) (invalidSeverity : StatusSeverity) : CacheStatus :=
  match value with
  | InvalidVariant => EmptyCacheValue invalidSeverity
  | mkVariant userType _ =>
      if negb (userType =? pe_metaType e) then UnexpectedType
      else
        match pe_validator e with
        | Some validator => let '(ok, reason) := validator value in if ok then NoStatus else NotValid reason
        | None => NoStatus
        end
  end.

(** createElement, after the placeholders of the key have been replaced; the value
    comes from the cache. *)
Definition createElement (key : QString) (metaType : Z) (validator : option (CVariant -> bool * QString))
    (defaultValue : CVariant) (c : CValueCache) pg : CValuePage * CValueCache :=
  let '(value, timestamp, saved, c) := getValue key c in
  let element := mkPageElement value timestamp metaType validator defaultValue None 0 saved in
  let status := validate element value SeverityDebug in
  let element := if decide (status = NoStatus) then element else element <| pe_value := defaultValue |> in
  (pg <| page_elements ::= <[key := element]> |>, c).
Definition setNotifySlot (key : QString) (slot : NotifySlot) pg : CValuePage :=
  pg <| page_elements ::= alter (fun e => e <| pe_notifySlot := Some slot |>) key |>.

Definition isValid (typeId : Z) e : bool :=
  match pe_value e with InvalidVariant => false | mkVariant userType _ => userType =? typeId end.
Definition isSaved e : bool := pe_saved e && (pe_pendingChanges e =? 0).
Definition isSaving e : bool := pe_saved e && negb (pe_pendingChanges e =? 0).

(** setValue, on the element of a key the page has; the packets are those it wants in
    the cache. *)
Definition setValue (now : Z) (key : QString) (value : CVariant) (timestamp : Z) (save : bool) pg :
    CacheStatus * CValuePage * list CValueCachePacket :=
  match page_elements pg !! key with
  | None => (NoStatus, pg, [])
  | Some element =>
      let timestamp := if timestamp =? 0 then now else timestamp in
      let value := if variant_isValid value then value else pe_value element in
      let changed := negb (pe_timestamp element =? timestamp) || negb (bool_decide (pe_value element = value)) in
      if negb changed && negb save then (NotSetSameTimestampAndValue, pg, [])
      else
        let status := validate element value SeverityError in
        if isSuccess status
        then
          if negb changed
          then
            (SetValueStatus, pg <| page_elements ::= <[key := element <| pe_saved := save |>]> |>,
             [CValueCachePacket_make {[ key := value ]} 0 save false])
          else if m_batchMode pg >? 0
          then (SetValueStatus, pg <| m_batchedValues ::= <[key := value]> |>, [])
          else
            (SetValueStatus,
             pg <| page_elements ::= <[key := element <| pe_pendingChanges ::= fun n => n + 1 |> <| pe_saved := save |>
                                              <| pe_timestamp := timestamp |> <| pe_value := value |>]> |>,
             [CValueCachePacket_make {[ key := value ]} timestamp save true])
        else (status, pg, [])
  end.

(** What setValuesFromCache makes of an element, and whether it was taken. *)
Definition setElementFromCache values (changedByThis : bool) e (i : CVariant * Z) : PageElement * bool :=
  if changedByThis then (e <| pe_pendingChanges ::= fun n => n - 1 |>, false)
  else if decide (pe_pendingChanges e = 0)
  then
    if isSuccess (validate e i.1 SeverityError)
    then (e <| pe_value := i.1 |> <| pe_timestamp := i.2 |> <| pe_saved := m_saved values |>, true)
    else (e, false)
  else (e, false).
(** The slots to call: those of elements taken, a member function once. *)
Definition addNotifySlot (slots : list NotifySlot) (slot : option NotifySlot) : list NotifySlot :=
  match slot with
  | None => slots
  | Some slot =>
      match slot_member slot with
      | None => slots ++ [slot]
      | Some member => if existsb (fun s => bool_decide (slot_member s = Some member)) slots then slots else slots ++ [slot]
      end
  end.
Definition notifySlots values (changedByThis : bool) pg : list NotifySlot :=
  foldl (fun slots key =>
           match page_elements pg !! key, packet_values values !! key with
           | Some e, Some i => if (setElementFromCache values changedByThis e i).2 then addNotifySlot slots (pe_notifySlot e) else slots
           | _, _ => slots
           end) [] (keysInOrder (page_elements pg)).
Definition setValuesFromCache values (changedByThis : bool) pg : CValuePage * list NotifySlot :=
  (pg <| page_elements ::=
     map_imap (fun key e => Some match packet_values values !! key with
                                 | Some i => (setElementFromCache values changedByThis e i).1
                                 | None => e
                                 end) |>,
   notifySlots values changedByThis pg).

Definition beginBatch pg : CValuePage :=
  let pg := if m_batchMode pg <=? 0 then pg <| m_batchedValues := ∅ |> else pg in
  pg <| m_batchMode ::= fun n => n + 1 |>.
Definition abandonBatch pg : CValuePage := pg <| m_batchMode ::= fun n => n - 1 |>.
Definition endBatch (now : Z) pg : CValuePage * list CValueCachePacket :=
  let pg := pg <| m_batchMode ::= fun n => n - 1 |> in
  if (m_batchMode pg <=? 0) && negb (bool_decide (m_batchedValues pg = ∅))
  then
    (pg <| page_elements ::=
       map_imap (fun key e => Some match m_batchedValues pg !! key with
                                   | Some value => e <| pe_pendingChanges ::= fun n => n + 1 |> <| pe_value := value |>
                                                     <| pe_timestamp := now |> <| pe_saved := false |>
                                   | None => e
                                   end) |>,
     [CValueCachePacket_make (m_batchedValues pg) now false true])
  else (pg, []).
End page.
#[global] Arguments PageElement {_}.
#[global] Arguments CValuePage {_}.

(** ** Keys with a prefix *)

(** The keys between two bounds are those that start with the prefix, when they
    consist of code units, except the last code unit right behind it. *)
Theorem keyStartsWith_spec keyPrefix key :
  Forall (fun x => (x <= 65535)%N) key ->
  keyStartsWith keyPrefix key = true <->
  exists rest, key = keyPrefix ++ rest /\ head rest <> Some LastValidCodePoint.
Proof.
  unfold keyStartsWith, LastValidCodePoint. intros Hk. rewrite andb_true_iff, negb_true_iff. revert key Hk.
  induction keyPrefix as [|x keyPrefix IH]; intros key Hk; simpl.
  - assert (keyLt key [] = false) as -> by by destruct key.
    destruct Hk as [|y key Hy Hk]; simpl; [split; [intros _; by exists []|done]|].
    rewrite orb_true_iff, andb_true_iff, N.ltb_lt, N.eqb_eq. split.
    + intros [_ [Hlt|[_ Hn]]]; [|by destruct key]. exists (y :: key). split; [done|]. intros [= ->]. lia.
    + intros (rest & <- & Hh). split; [done|]. left. simpl in Hh. assert (y <> 65535%N) by congruence. lia.
  - destruct Hk as [|y key Hy Hk]; simpl; [split; [by intros [? _] | by intros (? & ? & _)]|].
    specialize (IH key Hk). destruct (N.lt_trichotomy y x) as [Hl|[->|Hl]].
    + apply N.ltb_lt in Hl as Hb. rewrite Hb. simpl. split; [by intros [? _]|]. intros (rest & [= -> _] & _). lia.
    + rewrite N.ltb_irrefl, N.eqb_refl. simpl. rewrite IH. split; intros (rest & E & Hh); exists rest; (split; [congruence | done]).
    + assert ((y <? x)%N = false) as -> by (apply N.ltb_ge; lia). assert ((y =? x)%N = false) as -> by (apply N.eqb_neq; lia).
      simpl. split; [by intros [_ ?]|]. intros (rest & [= -> _] & _). lia.
Qed.
