(* ===== verification/ValueProcess.v ===== *)
(** * A cache with its pages (misc/valuecache.cpp, misc/datacache.cpp)

    The cache of a process and the pages of its objects, with what is on the way
    between them.  A page lives in the thread of its owner: its changes wait in the
    event queue of the cache, and the changes of the cache wait in the queue of the
    page ([CDataPageQueue] for the data cache).  An event of [ProcessEvent] is a call of one thread.

    Draining a queue first moves it to a local list; a slot that is notified in
    between and drains again, or asks for one value of the queue, finds the queue
    without it ([draining] is the stack of these lists).

    [pages_follow_cache]: after orderly runs, when nothing is on the way, all pages show what the cache
    has; [overtaken_value] and [reentrant_slot] show why slots must not do so in between. *)

From S2P Require Export ValueCache ValueReplica.

Open Scope Z_scope.

Section process.
Context `{VariantData}.

Abbreviation PageId := N.
Abbreviation Announcement := (CValueCachePacket * option PageId)%type.

Record PageState := mkPageState {
  page : CValuePage; toCache : list CValueCachePacket; m_queue : list Announcement; draining : list (list Announcement) }.
Definition PageState_init : PageState := mkPageState CValuePage_init [] [] [].
Record Process := mkProcess { cache : CValueCache; pages : gmap PageId PageState }.
Definition Process_init : Process := mkProcess CValueCache_init ∅.

(** Who listens to [valuesChangedByLocal]: nobody, the data cache itself, or the
    communication between processes. *)
Inductive Distribution := Alone | DataCache | Distributed.

Inductive ProcessOut :=
  | ByLocal (values : CValueCachePacket)
  | SaveRequested (values : CValueCachePacket)
  | Notified (p : PageId) (slots : list NotifySlot)
  | Status (p : PageId) (status : CacheStatus).

Inductive ProcessEvent :=
  | NewPage (p : PageId)
  | CreateElement (p : PageId) (key : QString) (metaType : Z) (validator : option (CVariant -> bool * QString)) (defaultValue : CVariant)
  | SetNotifySlot (p : PageId) (key : QString) (slot : NotifySlot)
  | SetValue (p : PageId) (key : QString) (value : CVariant) (timestamp : Z) (save : bool)
  | BeginBatch (p : PageId) | AbandonBatch (p : PageId) | EndBatch (p : PageId)
  | ToCache (p : PageId)
  | StartDrain (p : PageId) | DrainStep (p : PageId) | SyncValue (p : PageId) (key : QString)
  | InsertValues (values : CValueCachePacket) | ClearAllValues (keyPrefix : QString)
  | FromRemote (values : CValueCachePacket) (roundTrip : bool).

Implicit Types (pr : Process) (s : PageState) (values : CValueCachePacket).

(** A signal of the cache reaches the queues of all pages. *)
Definition queueValuesFromCache values (changedBy : option PageId) s : PageState :=
  s <| m_queue ::= fun q => q ++ [(values, changedBy)] |>.
Definition emitSignal (sig : CacheSignal PageId) pr : Process * list ProcessOut :=
  match sig with
  | valuesChanged values changedBy => (pr <| pages ::= fmap (queueValuesFromCache values changedBy) |>, [])
  | valuesChangedByLocal values => (pr, [ByLocal values])
  | valuesSaveRequested values => (pr, [SaveRequested values])
  end.
Definition emitSignals (sigs : list (CacheSignal PageId)) pr : Process * list ProcessOut :=
  foldl (fun '(pr, o) sig => let '(pr, o') := emitSignal sig pr in (pr, o ++ o')) (pr, []) sigs.
(** A member function of the cache with its signals. *)
Definition onCache (f : CValueCache -> CValueCache * list (CacheSignal PageId)) pr : Process * list ProcessOut :=
  let '(c, sigs) := f (cache pr) in emitSignals sigs (pr <| cache := c |>).
Definition processChangeValues (d : Distribution) values (sender : option PageId) pr : Process * list ProcessOut :=
  let '(pr, o) := onCache (changeValues values sender) pr in
  match d with
  | Distributed => (pr, o)
  | Alone => let '(pr, o') := onCache (changeValuesFromRemote values true) pr in (pr, o ++ o')
  | DataCache => let '(pr, o') := onCache (changeValuesFromRemote (setSaved true values) true) pr in (pr, o ++ o')
  end.

Definition withPage (p : PageId) (f : PageState -> PageState * list ProcessOut) pr : Process * list ProcessOut :=
  match pages pr !! p with
  | None => (pr, [])
  | Some s => let '(s, o) := f s in (pr <| pages ::= <[p := s]> |>, o)
  end.
Definition sendToCache (packets : list CValueCachePacket) s : PageState := s <| toCache ::= fun l => l ++ packets |>.
(** A page takes an announcement. *)
Definition takeAnnouncement (p : PageId) (a : Announcement) s : PageState * list ProcessOut :=
  let '(pg, slots) := setValuesFromCache a.1 (bool_decide (a.2 = Some p)) (page s) in
  (s <| page := pg |>, [Notified p slots]).

(** setQueuedValuesFromCache. *)
Definition startDrain s : PageState := s <| draining ::= fun st => m_queue s :: st |> <| m_queue := [] |>.
Definition drainStep (p : PageId) s : PageState * list ProcessOut :=
  match draining s with
  | [] => (s, [])
  | [] :: stack => (s <| draining := stack |>, [])
  | (a :: l) :: stack => takeAnnouncement p a (s <| draining := l :: stack |>)
  end.
(** setQueuedValueFromCache. *)
Definition queueWithout (key : QString) (q : list Announcement) : list Announcement :=
  map (fun a => ((takeByKey key a.1).1, a.2)) q.
Definition queuedFor (key : QString) (q : list Announcement) : list Announcement :=
  omap (fun a => if decide (is_Some (packet_values a.1 !! key)) then Some ((takeByKey key a.1).2, a.2) else None) q.
Definition setQueuedValueFromCache (p : PageId) (key : QString) s : PageState * list ProcessOut :=
  foldl (fun '(s, o) a => let '(s, o') := takeAnnouncement p a s in (s, o ++ o'))
    (s <| m_queue ::= queueWithout key |>, []) (queuedFor key (m_queue s)).

Definition process_step (d : Distribution) (now : Z) (e : ProcessEvent) pr : Process * list ProcessOut :=
  match e with
  | NewPage p =>
      if decide (is_Some (pages pr !! p)) then (pr, []) else (pr <| pages ::= <[p := PageState_init]> |>, [])
  | CreateElement p key metaType validator defaultValue =>
      match pages pr !! p with
      | None => (pr, [])
      | Some s =>
          let '(pg, c) := createElement key metaType validator defaultValue (cache pr) (page s) in
          (pr <| cache := c |> <| pages ::= <[p := s <| page := pg |>]> |>, [])
      end
  | SetNotifySlot p key slot => withPage p (fun s => (s <| page ::= setNotifySlot key slot |>, [])) pr
  | SetValue p key value timestamp save =>
      withPage p (fun s =>
        let '(status, pg, packets) := setValue now key value timestamp save (page s) in
        (sendToCache packets (s <| page := pg |>), [Status p status])) pr
  | BeginBatch p => withPage p (fun s => (s <| page ::= beginBatch |>, [])) pr
  | AbandonBatch p => withPage p (fun s => (s <| page ::= abandonBatch |>, [])) pr
  | EndBatch p =>
      withPage p (fun s => let '(pg, packets) := endBatch now (page s) in (sendToCache packets (s <| page := pg |>), [])) pr
  | ToCache p =>
      match pages pr !! p with
      | None => (pr, [])
      | Some s =>
          match toCache s with
          | [] => (pr, [])
          | values :: l => processChangeValues d values (Some p) (pr <| pages ::= <[p := s <| toCache := l |>]> |>)
          end
      end
  | StartDrain p => withPage p (fun s => (startDrain s, [])) pr
  | DrainStep p => withPage p (drainStep p) pr
  | SyncValue p key => withPage p (setQueuedValueFromCache p key) pr
  | InsertValues values => processChangeValues d values None pr
  | ClearAllValues keyPrefix => processChangeValues d (clearedValues keyPrefix (cache pr)) None pr
  | FromRemote values roundTrip => onCache (changeValuesFromRemote values roundTrip) pr
  end.
Fixpoint process_run (d : Distribution) (es : list (Z * ProcessEvent)) pr : Process * list ProcessOut :=
  match es with
  | [] => (pr, [])
  | (now, e) :: es =>
      let '(pr, o) := process_step d now e pr in
      let '(pr, o') := process_run d es pr in (pr, o ++ o')
  end.
End process.

(** ** Every page follows the cache *)

Section consistency.
Context `{VariantData}.
Abbreviation PageId := N.
Abbreviation Announcement := (CValueCachePacket * option PageId)%type.
Implicit Types (c : CValueCache) (pg : CValuePage) (e : PageElement) (s : PageState) (pr : Process)
  (values : CValueCachePacket) (k key : QString) (p : PageId).

(** The objects that share a key share its type and its validator. *)
Context (accepts : QString -> CVariant -> bool).
Definition okValue k (i : CVariant * Z) : Prop := accepts k i.1 = true.
Definition packetOk values : Prop := map_Forall okValue (packet_values values).
Definition acceptedBy e (v : CVariant) : bool := bool_decide (validate e v SeverityError = NoStatus).

Lemma validate_error e v : isSuccess (validate e v SeverityError) = acceptedBy e v.
Proof using Type.
  unfold acceptedBy, validate. destruct v; [done|]. case_match; [done|].
  destruct (pe_validator e) as [f|]; [|done]. destruct (f _) as [[] reason]; done.
Qed.
Lemma validate_debug e v : validate e v SeverityDebug = NoStatus <-> acceptedBy e v = true.
Proof using Type. unfold acceptedBy. rewrite bool_decide_eq_true. by destruct v. Qed.

(** The projection to a replica of the value of a key: the hub is the cache. *)
Definition hub k c : CVariant * Z := (ce_value (getElement k c), ce_timestamp (getElement k c)).
Definition shownBy k e (i : CVariant * Z) : CVariant * Z := if accepts k i.1 then i else (pe_default e, i.2).
Definition announced k p (l : list Announcement) : list ((CVariant * Z) * bool) :=
  omap (fun a => (fun i => (i, bool_decide (a.2 = Some p))) <$> packet_values a.1 !! k) l.
Definition sent k (l : list CValueCachePacket) : list (CVariant * Z) :=
  omap (fun values => if m_valuesChanged values then packet_values values !! k else None) l.
Definition inbox s : list Announcement := concat (draining s) ++ m_queue s.
Definition replicaOf e l_in l_out : Replica (CVariant * Z) :=
  mkReplica (pe_value e, pe_timestamp e) (pe_pendingChanges e) l_in l_out.

Definition KeyOk k (h : CVariant * Z) pg l_in l_out : Prop :=
  match page_elements pg !! k with
  | Some e => (forall v, acceptedBy e v = accepts k v) /\ Consistent (shownBy k e) (okValue k) h (replicaOf e l_in l_out)
  | None => exists v, Consistent id (okValue k) h (mkReplica v 0 l_in l_out)
  end.
Definition batchOk pg : Prop :=
  forall k v, m_batchedValues pg !! k = Some v -> accepts k v = true /\ is_Some (page_elements pg !! k).
Definition PageOk p c s : Prop :=
  (forall k, KeyOk k (hub k c) (page s) (announced k p (inbox s)) (sent k (toCache s))) /\ batchOk (page s).
Definition ProcessOk pr : Prop := map_Forall (fun p s => PageOk p (cache pr) s) (pages pr).

Lemma shownBy_ok k e i : okValue k i -> shownBy k e i = i.
Proof using Type. unfold okValue, shownBy. by intros ->. Qed.
Lemma announced_app k p l l' : announced k p (l ++ l') = announced k p l ++ announced k p l'.
Proof using Type. apply omap_app. Qed.
Lemma sent_app k l l' : sent k (l ++ l') = sent k l ++ sent k l'.
Proof using Type. apply omap_app. Qed.
Lemma announced_cons k p a l :
  announced k p (a :: l) = from_option (fun i => [(i, bool_decide (a.2 = Some p))]) [] (packet_values a.1 !! k) ++ announced k p l.
Proof using Type. unfold announced. simpl. by destruct (packet_values a.1 !! k). Qed.
Lemma sent_cons k values l :
  sent k (values :: l) = from_option (fun i => [i]) [] (if m_valuesChanged values then packet_values values !! k else None) ++ sent k l.
Proof using Type. unfold sent. simpl. by destruct (if m_valuesChanged values then _ else _). Qed.

(** A property of the element, whichever way the page has it. *)
Lemma KeyOk_alter k h pg l_in l_out h' pg' l_in' l_out' :
  page_elements pg' !! k = page_elements pg !! k ->
  (forall shown v n, (forall i, okValue k i -> shown i = i) ->
     Consistent shown (okValue k) h (mkReplica v n l_in l_out) -> Consistent shown (okValue k) h' (mkReplica v n l_in' l_out')) ->
  KeyOk k h pg l_in l_out -> KeyOk k h' pg' l_in' l_out'.
Proof using Type.
  unfold KeyOk, replicaOf. intros -> Hc. destruct (page_elements pg !! k) as [e|].
  - intros [Ha Hr]. split; [done|]. apply Hc; [apply shownBy_ok | done].
  - intros [v Hr]. exists v. by apply Hc.
Qed.

(** *** Taking announcements *)

Lemma setValuesFromCache_lookup values own pg k :
  page_elements (setValuesFromCache values own pg).1 !! k =
  (fun e => match packet_values values !! k with Some i => (setElementFromCache values own e i).1 | None => e end) <$> page_elements pg !! k.
Proof using Type. destruct pg as [m b v]. simpl. rewrite map_lookup_imap. by destruct (m !! k). Qed.

Lemma take_key k h pg values own i l_in l_out :
  packet_values values !! k = Some i -> KeyOk k h pg ((i, own) :: l_in) l_out ->
  KeyOk k h (setValuesFromCache values own pg).1 l_in l_out.
Proof using Type.
  intros Hi. unfold KeyOk. rewrite setValuesFromCache_lookup, Hi.
  destruct (page_elements pg !! k) as [e|]; simpl.
  - intros [Ha Hr]. unfold setElementFromCache. destruct own; simpl.
    + split; [done|]. eapply (consistent_take_own _ _ (shownBy_ok k e)) in Hr; [exact Hr | reflexivity].
    + assert (okValue k i) as Hok by (destruct Hr as [_ _ _ [Hf _]]; by apply Forall_cons in Hf as [? _]).
      eapply (consistent_take _ _ (shownBy_ok k e)) in Hr; [|reflexivity]. simpl in Hr. case_decide as Hz; simpl.
      * rewrite validate_error, Ha. unfold okValue in Hok. rewrite Hok. simpl. split; [done|]. destruct i. exact Hr.
      * by split.
  - intros [v Hr]. destruct own.
    + apply consistent_own_positive with (v := i) (l := l_in) in Hr; [simpl in Hr; lia | done].
    + eapply (consistent_take _ _ (fun _ _ => eq_refl)) in Hr; [|reflexivity]. by eexists.
Qed.
Lemma take_none k h pg values own l_in l_out :
  packet_values values !! k = None -> KeyOk k h pg l_in l_out -> KeyOk k h (setValuesFromCache values own pg).1 l_in l_out.
Proof using Type.
  intros Hi. apply KeyOk_alter; [|by auto]. rewrite setValuesFromCache_lookup, Hi. by destruct (page_elements pg !! k).
Qed.
(** The head of the queue, of which the page may take the part of one key. *)
Lemma take_announcement k h p pg a l l_out :
  KeyOk k h pg (announced k p (a :: l)) l_out ->
  KeyOk k h (setValuesFromCache a.1 (bool_decide (a.2 = Some p)) pg).1 (announced k p l) l_out.
Proof using Type.
  rewrite announced_cons. destruct (packet_values a.1 !! k) as [i|] eqn:Hi; simpl; [by apply take_key | by apply take_none].
Qed.
Lemma setValuesFromCache_batchOk values own pg : batchOk pg -> batchOk (setValuesFromCache values own pg).1.
Proof using Type.
  intros Hb k v Hv. destruct (Hb k v Hv) as [? [e He]]. split; [done|]. rewrite setValuesFromCache_lookup, He. by eexists.
Qed.

(** *** Changes of a page *)

Lemma make_lookup (m : gmap QString CVariant) t saved ch k :
  packet_values (CValueCachePacket_make m t saved ch) !! k = (fun v => (v, t)) <$> m !! k.
Proof using Type. simpl. apply lookup_fmap. Qed.
Lemma sent_snoc k l values :
  m_valuesChanged values = true -> sent k (l ++ [values]) = sent k l ++ from_option (fun i => [i]) [] (packet_values values !! k).
Proof using Type. intros Hc. by rewrite sent_app, sent_cons, Hc, app_nil_r. Qed.
Lemma sent_unchanged k l values : m_valuesChanged values = false -> sent k (l ++ [values]) = sent k l.
Proof using Type. intros Hc. rewrite sent_app, sent_cons, Hc. apply app_nil_r. Qed.

(** A change of the page's own, pending and sent. *)
Lemma KeyOk_set k h pg pg' e e' i l_in l_out :
  page_elements pg !! k = Some e -> page_elements pg' !! k = Some e' ->
  pe_pendingChanges e' = pe_pendingChanges e + 1 -> (pe_value e', pe_timestamp e') = i ->
  pe_metaType e' = pe_metaType e -> pe_validator e' = pe_validator e -> pe_default e' = pe_default e ->
  okValue k i -> KeyOk k h pg l_in l_out -> KeyOk k h pg' l_in (l_out ++ [i]).
Proof using Type.
  intros He He' Hp Hv Hm Hf Hd Hok. unfold KeyOk. rewrite He, He'. intros [Ha Hr]. split.
  - intros v. rewrite <- Ha. unfold acceptedBy, validate. by rewrite Hm, Hf.
  - pose proof (consistent_set _ _ _ _ _ Hr Hok) as Hr'. unfold replicaOf in *. simpl in Hr'.
    rewrite Hp, Hv. unfold shownBy in *. by rewrite Hd.
Qed.

Section change.
Context (h : QString -> CVariant * Z) (l_in : QString -> list ((CVariant * Z) * bool)).
Definition PageKeysOk pg (tc : list CValueCachePacket) : Prop :=
  (forall k, KeyOk k (h k) pg (l_in k) (sent k tc)) /\ batchOk pg.

Lemma PageKeysOk_same pg pg' tc :
  (forall k, page_elements pg' !! k = page_elements pg !! k) -> batchOk pg' -> PageKeysOk pg tc -> PageKeysOk pg' tc.
Proof using Type. intros He Hb [Hk _]. split; [|done]. intros k. eapply KeyOk_alter; [apply He | by auto | apply Hk]. Qed.

Lemma setValue_ok now key value timestamp save pg tc :
  PageKeysOk pg tc ->
  let '(_, pg', packets) := setValue now key value timestamp save pg in PageKeysOk pg' (tc ++ packets).
Proof using Type.
  intros [Hk Hb]. unfold setValue. destruct (page_elements pg !! key) as [e|] eqn:He; [|by rewrite app_nil_r].
  set (ts := if timestamp =? 0 then now else timestamp). set (v := if variant_isValid value then value else pe_value e).
  set (changed := negb (pe_timestamp e =? ts) || negb (bool_decide (pe_value e = v))).
  destruct (negb changed && negb save); [by rewrite app_nil_r|].
  rewrite validate_error. destruct (acceptedBy e v) eqn:Ha; [|by rewrite app_nil_r].
  assert (accepts key v = true) as Hok.
  { specialize (Hk key). unfold KeyOk in Hk. rewrite He in Hk. destruct Hk as [<- _]. exact Ha. }
  destruct pg as [m b bv]. simpl in He. destruct changed; cbn [negb].
  - simpl. destruct (b >? 0); cbv zeta.
    + rewrite app_nil_r. apply (PageKeysOk_same (mkPage m b bv)); [done | | by split].
      intros k v'. simpl. intros [[<- <-]|[_ Hv]]%lookup_insert_Some; [|by apply Hb]. split; [done | by eexists].
    + split.
      * intros k. rewrite sent_snoc by done. rewrite make_lookup.
        destruct (decide (k = key)) as [->|Hne].
        -- rewrite lookup_singleton_eq. simpl.
           eapply (KeyOk_set key (h key) (mkPage m b bv)); simpl; [exact He | by rewrite lookup_insert_eq | done..|].
           apply Hk.
        -- rewrite lookup_singleton_ne by done. simpl. rewrite app_nil_r.
           eapply KeyOk_alter; [| |exact (Hk k)]; [by simpl; rewrite lookup_insert_ne | by auto].
      * intros k v' Hv. destruct (Hb k v' Hv) as [? Hs]. split; [done|]. simpl in *.
        destruct (decide (k = key)) as [->|Hne]; [rewrite lookup_insert_eq; by eexists | by rewrite lookup_insert_ne].
  - (* asked to save what it has *)
    simpl. split.
    + intros k. rewrite sent_unchanged by done. specialize (Hk k). destruct (decide (k = key)) as [->|Hne].
      * unfold KeyOk in *. simpl in *. rewrite lookup_insert_eq. rewrite He in Hk. exact Hk.
      * eapply KeyOk_alter; [| |exact Hk]; [by simpl; rewrite lookup_insert_ne | by auto].
    + intros k v' Hv. destruct (Hb k v' Hv) as [? Hs]. split; [done|]. simpl in *.
      destruct (decide (k = key)) as [->|Hne]; [rewrite lookup_insert_eq; by eexists | by rewrite lookup_insert_ne].
Qed.
Lemma endBatch_ok now pg tc :
  PageKeysOk pg tc -> let '(pg', packets) := endBatch now pg in PageKeysOk pg' (tc ++ packets).
Proof using Type.
  intros [Hk Hb]. unfold endBatch. destruct pg as [m b bv]. simpl.
  destruct (_ && _); [|rewrite app_nil_r; by apply (PageKeysOk_same (mkPage m b bv)); [| |split]].
  split.
  - intros k. rewrite sent_snoc by done. rewrite make_lookup. destruct (bv !! k) as [v|] eqn:Hv.
    + destruct (Hb k v Hv) as [Hok [e He]]. simpl in *.
      eapply (KeyOk_set k (h k) (mkPage m b bv)); simpl; [exact He | rewrite map_lookup_imap, He; simpl; by rewrite Hv | done..|].
      apply Hk.
    + simpl. rewrite app_nil_r. eapply KeyOk_alter; [| |exact (Hk k)]; [|by auto].
      simpl. rewrite map_lookup_imap. destruct (m !! k); simpl; [by rewrite Hv | done].
  - intros k v Hv. destruct (Hb k v Hv) as [? [e He]]. split; [done|]. simpl in *. rewrite map_lookup_imap, He. by eexists.
Qed.
End change.

(** *** Changes of the cache *)

Lemma getElement_merge f values c k :
  getElement k (mergeElements f values c) =
  match packet_values values !! k with Some i => f (getElement k c) i | None => getElement k c end.
Proof using Type.
  destruct c as [m hr]. unfold getElement, mergeElements. simpl. rewrite lookup_merge.
  destruct (m !! k), (packet_values values !! k); done.
Qed.
(** The value of the hub after a change that is announced. *)
Definition announcedHub values c c' : Prop :=
  forall k, hub k c' = from_option id (hub k c) (packet_values values !! k).
Lemma changed_hub values c sender :
  m_valuesChanged values = true -> announcedHub values c (changeValues (PageId := PageId) values sender c).1.
Proof using Type.
  intros Hc k. unfold changeValues. case_bool_decide as He; [by rewrite He, lookup_empty|].
  unfold hub. rewrite Hc. cbn [fst]. rewrite getElement_merge.
  destruct (packet_values values !! k) as [[v t]|]; [|done]. by destruct (getElement k c).
Qed.
Lemma unchanged_hub values c sender k :
  m_valuesChanged values = false -> hub k (changeValues (PageId := PageId) values sender c).1 = hub k c.
Proof using Type.
  intros Hc. unfold changeValues. case_bool_decide as He; [done|]. unfold hub. rewrite Hc. cbn [fst].
  rewrite getElement_merge. destruct (packet_values values !! k) as [[v t]|]; [|done]. by destruct (getElement k c).
Qed.
Lemma own_hub values c k : hub k (changeValuesFromRemote (PageId := PageId) values true c).1 = hub k c.
Proof using Type.
  unfold changeValuesFromRemote. case_bool_decide as He; [done|]. destruct (m_valuesChanged values); [|done].
  unfold hub. cbn [negb fst]. rewrite getElement_merge. destruct (packet_values values !! k); [|done]. by destruct (getElement k c).
Qed.

Lemma announce_other p values by_ c c' s :
  PageOk p c s -> announcedHub values c c' -> packetOk values -> by_ <> Some p ->
  PageOk p c' (queueValuesFromCache values by_ s).
Proof using Type.
  intros [Hk Hb] Hh Hok Hne. split; [|done]. intros k. specialize (Hk k). rewrite Hh.
  replace (inbox (queueValuesFromCache values by_ s)) with (inbox s ++ [(values, by_)])
    by (unfold inbox; simpl; by rewrite app_assoc).
  rewrite announced_app, announced_cons. simpl. rewrite bool_decide_false by done.
  destruct (packet_values values !! k) as [i|] eqn:Hi; simpl; rewrite ?app_nil_r; [|done].
  eapply KeyOk_alter; [done| |exact Hk]. intros shown v n _ Hr.
  exact (consistent_announce _ _ _ _ i Hr (Hok k i Hi)).
Qed.
Lemma announce_own p values l c c' s :
  PageOk p c s -> announcedHub values c c' -> toCache s = values :: l -> m_valuesChanged values = true ->
  PageOk p c' (queueValuesFromCache values (Some p) (s <| toCache := l |>)).
Proof using Type.
  intros [Hk Hb] Hh Ht Hc. split; [|done]. intros k. specialize (Hk k). rewrite Hh.
  replace (inbox (queueValuesFromCache values (Some p) (s <| toCache := l |>))) with (inbox s ++ [(values, Some p)])
    by (unfold inbox; simpl; by rewrite app_assoc).
  rewrite announced_app, announced_cons. simpl. rewrite bool_decide_true by done.
  rewrite Ht, sent_cons, Hc in Hk.
  destruct (packet_values values !! k) as [i|] eqn:Hi; simpl in *; rewrite ?app_nil_r; [|done].
  eapply KeyOk_alter; [done| |exact Hk]. intros shown v n _ Hr.
  eapply consistent_announce_own in Hr; [|reflexivity]. exact Hr.
Qed.
(** The packet on the way was of values the page's objects accept. *)
Lemma sent_ok p c s values l :
  PageOk p c s -> toCache s = values :: l -> m_valuesChanged values = true -> packetOk values.
Proof using Type.
  intros [Hk _] Ht Hc k i Hi. specialize (Hk k). rewrite Ht, sent_cons, Hc, Hi in Hk. simpl in Hk.
  unfold KeyOk in Hk. destruct (page_elements (page s) !! k) as [e|].
  - destruct Hk as [_ [_ _ _ [_ Hf]]]. by apply Forall_cons in Hf as [? _].
  - destruct Hk as [v [_ _ _ [_ Hf]]]. by apply Forall_cons in Hf as [? _].
Qed.
Lemma PageOk_hub p c c' s : (forall k, hub k c' = hub k c) -> PageOk p c s -> PageOk p c' s.
Proof using Type. intros Hh [Hk Hb]. split; [|done]. intros k. rewrite Hh. apply Hk. Qed.

(** What the signals of the two functions do. *)
Lemma onCache_changeValues values sender pr :
  onCache (changeValues values sender) pr =
  (mkProcess (changeValues (PageId := PageId) values sender (cache pr)).1
     (if bool_decide (packet_values values = ∅) || negb (m_valuesChanged values) then pages pr
      else queueValuesFromCache values sender <$> pages pr),
   if bool_decide (packet_values values = ∅) then [] else [ByLocal values]).
Proof using Type.
  destruct pr as [c m]. unfold onCache, changeValues. simpl. case_bool_decide; [done|].
  by destruct (m_valuesChanged values).
Qed.
Lemma onCache_own values pr :
  exists o, onCache (changeValuesFromRemote values true) pr =
    (mkProcess (changeValuesFromRemote (PageId := PageId) values true (cache pr)).1 (pages pr), o) /\
    forall v, ByLocal v ∉ o.
Proof using Type.
  destruct pr as [c m]. unfold onCache, changeValuesFromRemote. simpl.
  case_bool_decide; [eexists; split; [done | set_solver]|].
  destruct (m_valuesChanged values), (m_saved values); eexists; (split; [reflexivity | set_solver]).
Qed.

Lemma mkProcess_ok c m : map_Forall (fun p s => PageOk p c s) m -> ProcessOk (mkProcess c m).
Proof using Type. done. Qed.

(** changeValues for values of nobody's or a page's, which have left the page. *)
Lemma changeValues_ok values sender pr :
  match sender with
  | None => packetOk values /\ ProcessOk pr
  | Some p => exists s l, pages pr !! p = Some (s <| toCache := l |>) /\ toCache s = values :: l /\
                PageOk p (cache pr) s /\ forall p' s', p' <> p -> pages pr !! p' = Some s' -> PageOk p' (cache pr) s'
  end ->
  ProcessOk (onCache (changeValues values sender) pr).1.
Proof using Type.
  intros Hs. rewrite onCache_changeValues. cbn [fst]. apply mkProcess_ok.
  destruct (m_valuesChanged values) eqn:Hc.
  - (* announced to all *)
    pose proof (changed_hub values (cache pr) sender Hc) as Hh. rewrite orb_false_r. case_bool_decide as He.
    { intros p s Hp. apply (PageOk_hub p (cache pr)).
      { intros k. by rewrite Hh, He, lookup_empty. }
      destruct sender as [p0|]; [|by apply Hs].
      destruct Hs as (s0 & l & Hp0 & Ht & Hok & Hothers). destruct (decide (p = p0)) as [->|Hne]; [|by apply Hothers].
      rewrite Hp0 in Hp. injection Hp as <-. destruct Hok as [Hk Hb]. split; [|done]. intros k. specialize (Hk k).
      rewrite Ht, sent_cons, Hc, He, lookup_empty in Hk. exact Hk. }
    intros p s. rewrite lookup_fmap, fmap_Some. intros (s0 & Hp & ->).
    destruct sender as [p0|].
    + destruct Hs as (s1 & l & Hp0 & Ht & Hok & Hothers). destruct (decide (p = p0)) as [->|Hne].
      * rewrite Hp0 in Hp. injection Hp as <-. by eapply announce_own.
      * eapply announce_other; [by apply Hothers | exact Hh | by eapply sent_ok | congruence].
    + destruct Hs as [Hok Hpr]. eapply announce_other; [by apply Hpr | exact Hh | done | done].
  - rewrite orb_true_r. intros p s Hp. apply (PageOk_hub p (cache pr)); [intros k; by apply unchanged_hub|].
    destruct sender as [p0|]; [|by apply Hs].
    destruct Hs as (s1 & l & Hp0 & Ht & [Hk Hb] & Hothers). destruct (decide (p = p0)) as [->|Hne]; [|by apply Hothers].
    rewrite Hp0 in Hp. injection Hp as <-. split; [|done]. intros k. specialize (Hk k).
    rewrite Ht, sent_cons, Hc in Hk. exact Hk.
Qed.
Lemma own_ok values pr : ProcessOk pr -> ProcessOk (onCache (changeValuesFromRemote values true) pr).1.
Proof using Type.
  intros Hpr. destruct (onCache_own values pr) as (o & -> & _). cbn [fst]. apply mkProcess_ok. intros p s Hp.
  apply (PageOk_hub p (cache pr)); [intros k; apply own_hub | by apply Hpr].
Qed.
Lemma processChangeValues_ok d values sender pr :
  ProcessOk (onCache (changeValues values sender) pr).1 -> ProcessOk (processChangeValues d values sender pr).1.
Proof using Type.
  unfold processChangeValues. destruct (onCache (changeValues values sender) pr) as [pr1 o1]. cbn [fst].
  intros Hpr. destruct d; [| |done].
  - pose proof (own_ok values pr1 Hpr). by destruct (onCache _ pr1).
  - pose proof (own_ok (setSaved true values) pr1 Hpr). by destruct (onCache _ pr1).
Qed.

(** What is taken of a change of another process. *)
Definition ratified values c : CValueCachePacket :=
  mkPacket (filter (fun kv => ce_pendingChanges (getElement kv.1 c) = 0) (packet_values values)) (m_saved values) true.
Lemma ratified_lookup values c k :
  packet_values (ratified values c) !! k =
  if decide (ce_pendingChanges (getElement k c) = 0) then packet_values values !! k else None.
Proof using Type. unfold ratified. simpl. rewrite map_lookup_filter. simpl. destruct (packet_values values !! k); simpl; repeat case_guard; by repeat case_decide. Qed.
Lemma ratified_hub values c :
  m_valuesChanged values = true ->
  announcedHub (ratified values c) c (changeValuesFromRemote (PageId := PageId) values false c).1.
Proof using Type.
  intros Hc k. rewrite ratified_lookup. unfold changeValuesFromRemote. rewrite Hc. cbn [negb].
  case_bool_decide as He; [rewrite He, lookup_empty; by case_decide|].
  unfold hub. cbn [fst]. rewrite getElement_merge. destruct (packet_values values !! k) as [[v t]|]; [|by case_decide].
  case_decide; [|done]. by destruct (getElement k c).
Qed.
Lemma onCache_remote values pr :
  m_valuesChanged values = true ->
  exists o, onCache (changeValuesFromRemote values false) pr =
    (mkProcess (changeValuesFromRemote (PageId := PageId) values false (cache pr)).1
       (if bool_decide (packet_values (ratified values (cache pr)) = ∅) then pages pr
        else queueValuesFromCache (ratified values (cache pr)) None <$> pages pr), o) /\
    forall v, ByLocal v ∉ o.
Proof using Type.
  destruct pr as [c m]. intros Hc. unfold onCache, changeValuesFromRemote. rewrite Hc. simpl.
  case_bool_decide as He.
  { rewrite bool_decide_true by by rewrite He, map_filter_empty. eexists. split; [done | set_solver]. }
  fold (ratified values c). case_bool_decide; [eexists; split; [done | set_solver]|].
  destruct (m_saved values); simpl; eexists; (split; [reflexivity | set_solver]).
Qed.
Lemma remote_ok values roundTrip pr :
  packetOk values -> ProcessOk pr -> ProcessOk (onCache (changeValuesFromRemote values roundTrip) pr).1.
Proof using Type.
  intros Hok Hpr. destruct roundTrip; [by apply own_ok|]. destruct (m_valuesChanged values) eqn:Hc.
  - destruct (onCache_remote values pr Hc) as (o & -> & _). cbn [fst]. apply mkProcess_ok.
    pose proof (ratified_hub values (cache pr) Hc) as Hh. case_bool_decide as He.
    + intros p s Hp. apply (PageOk_hub p (cache pr)); [|by apply Hpr]. intros k. by rewrite Hh, He, lookup_empty.
    + intros p s. rewrite lookup_fmap, fmap_Some. intros (s0 & Hp & ->).
      eapply announce_other; [by apply Hpr | exact Hh | | done].
      intros k i. rewrite ratified_lookup. case_decide; [apply Hok | done].
  - destruct pr as [c m]. unfold onCache, changeValuesFromRemote. rewrite Hc. simpl. case_bool_decide; [done|].
    by destruct (m_saved values).
Qed.

(** *** Elements and queues *)

Lemma getValue_element key c k : getElement k (getValue key c).2 = getElement k c.
Proof using Type.
  destruct c as [m hr]. unfold getElement. simpl. destruct (decide (k = key)) as [->|Hne].
  - by rewrite lookup_insert_eq.
  - by rewrite lookup_insert_ne.
Qed.
Lemma getValue_hub key c k : hub k (getValue key c).2 = hub k c.
Proof using Type. unfold hub. by rewrite getValue_element. Qed.
(** The element as the page makes it has this type and this validator. *)
Definition elementAccepts metaType validator (v : CVariant) : bool :=
  acceptedBy (mkPageElement InvalidVariant 0 metaType validator InvalidVariant None 0 false) v.
Lemma createElement_ok p key metaType validator defaultValue c s :
  page_elements (page s) !! key = None -> (forall v, elementAccepts metaType validator v = accepts key v) ->
  PageOk p c s ->
  let '(pg, c') := createElement key metaType validator defaultValue c (page s) in
  PageOk p c' (s <| page := pg |>) /\ forall k, hub k c' = hub k c.
Proof using Type.
  intros Hnew Ha [Hk Hb]. unfold createElement. pose proof (getValue_hub key c) as Hh.
  destruct (getValue key c) as [[[value timestamp] saved] c'] eqn:Eg. simpl in Hh.
  assert (hub key c = (value, timestamp)) as Ehub by (unfold getValue in Eg; by injection Eg as <- <- <- _).
  split; [|done]. split.
  - intros k. rewrite Hh. specialize (Hk k). destruct s as [[m b bv] tc q st]. simpl in *.
    destruct (decide (k = key)) as [->|Hne].
    + unfold KeyOk in *. simpl in *. rewrite lookup_insert_eq. rewrite Hnew in Hk. destruct Hk as [v0 Hr].
      set (e0 := mkPageElement value timestamp metaType validator defaultValue None 0 saved).
      set (e := if decide _ then _ else _).
      assert (forall v, acceptedBy e v = accepts key v) as Hae by (intros v; subst e; case_decide; apply Ha).
      split; [exact Hae|]. apply (consistent_refresh _ (shownBy key e)) in Hr.
      replace (replicaOf e _ _) with (mkReplica (shownBy key e (hub key c)) 0 (announced key p (inbox (mkPageState (mkPage m b bv) tc q st))) (sent key tc)); [exact Hr|].
      assert (pe_default e = defaultValue) as Hd by (subst e; by case_decide).
      unfold shownBy, replicaOf. rewrite Ehub, Hd. simpl. subst e. rewrite <- Ha.
      destruct (decide (validate e0 value SeverityDebug = NoStatus)) as [Hv|Hv]; rewrite (validate_debug e0) in Hv.
      * assert (elementAccepts metaType validator value = true) as -> by exact Hv. done.
      * apply not_true_is_false in Hv. assert (elementAccepts metaType validator value = false) as -> by exact Hv. done.
    + eapply KeyOk_alter; [| |exact Hk]; [by simpl; rewrite lookup_insert_ne | by auto].
  - intros k v Hv. destruct (Hb k v Hv) as [? Hs]. split; [done|]. destruct s as [[m b bv] tc q st]. simpl in *.
    destruct (decide (k = key)) as [->|Hne]; [rewrite lookup_insert_eq; by eexists | by rewrite lookup_insert_ne].
Qed.

Lemma takeAnnouncement_eq p a pg tc q st :
  takeAnnouncement p a (mkPageState pg tc q st) =
  let r := setValuesFromCache a.1 (bool_decide (a.2 = Some p)) pg in (mkPageState r.1 tc q st, [Notified p r.2]).
Proof using Type. unfold takeAnnouncement. cbn [page]. by destruct (setValuesFromCache _ _ _). Qed.
(** Draining in order. *)
Lemma startDrain_ok p c s : draining s = [] -> PageOk p c s -> PageOk p c (startDrain s).
Proof using Type.
  intros Hd [Hk Hb]. split; [|done]. intros k. specialize (Hk k). unfold startDrain, inbox in *. destruct s. simpl in *.
  subst. simpl in *. by rewrite !app_nil_r.
Qed.
Lemma drainStep_ok p c s : PageOk p c s -> PageOk p c (drainStep p s).1.
Proof using Type.
  intros [Hk Hb]. destruct s as [pg tc q [|[|a l] st]]; unfold drainStep; [done.. |].
  cbn [draining]. change ((mkPageState pg tc q ((a :: l) :: st)) <| draining := l :: st |>) with (mkPageState pg tc q (l :: st)).
  rewrite takeAnnouncement_eq. cbn [fst].
  pose proof (setValuesFromCache_batchOk a.1 (bool_decide (a.2 = Some p)) pg Hb) as Hb'.
  assert (forall k, KeyOk k (hub k c) (setValuesFromCache a.1 (bool_decide (a.2 = Some p)) pg).1
            (announced k p (concat (l :: st) ++ q)) (sent k tc)) as Hk'.
  { intros k. specialize (Hk k). apply take_announcement. exact Hk. }
  by split.
Qed.

(** One value ahead of the queue. *)
Lemma queueWithout_other key k p q : k <> key -> announced k p (queueWithout key q) = announced k p q.
Proof using Type.
  intros Hne. induction q as [|a q IH]; [done|]. cbn [queueWithout map]. rewrite !announced_cons. fold (queueWithout key q).
  rewrite IH. f_equal. cbn [fst snd]. unfold takeByKey. destruct a as [[m sv ch] b]. simpl. by rewrite lookup_delete_ne.
Qed.
Lemma queueWithout_key key p q : announced key p (queueWithout key q) = [].
Proof using Type.
  induction q as [|a q IH]; [done|]. cbn [queueWithout map]. rewrite announced_cons. fold (queueWithout key q).
  rewrite IH. cbn [fst snd]. unfold takeByKey. destruct a as [[m sv ch] b]. simpl. by rewrite lookup_delete_eq.
Qed.
Lemma taken_lookup key k values :
  packet_values (takeByKey key values).2 !! k = if decide (k = key) then packet_values values !! k else None.
Proof using Type.
  destruct values as [m sv ch]. simpl. rewrite map_lookup_filter. simpl. destruct (m !! k); simpl; repeat case_guard; by repeat case_decide.
Qed.
Lemma queuedFor_key key p q : announced key p (queuedFor key q) = announced key p q.
Proof using Type.
  induction q as [|a q IH]; [done|]. cbn [queuedFor omap list_omap]. rewrite (announced_cons key p a).
  case_decide as Hs; [|fold (queuedFor key q); rewrite IH].
  - fold (queuedFor key q). rewrite announced_cons, IH. cbn [fst snd]. rewrite taken_lookup. by rewrite decide_True.
  - destruct (packet_values a.1 !! key) as [i|] eqn:Hi; [|done]. destruct Hs. by eexists.
Qed.
Lemma queuedFor_other key k p q : k <> key -> announced k p (queuedFor key q) = [].
Proof using Type.
  intros Hne. induction q as [|a q IH]; [done|]. cbn [queuedFor omap list_omap]. case_decide; [|exact IH].
  fold (queuedFor key q). rewrite announced_cons, IH. cbn [fst snd]. rewrite taken_lookup. by rewrite decide_False.
Qed.
Lemma takeAll_page p (l : list Announcement) s o :
  let r := foldl (fun '(s, o) a => let '(s, o') := takeAnnouncement p a s in (s, o ++ o')) (s, o) l in
  m_queue r.1 = m_queue s /\ toCache r.1 = toCache s /\ draining r.1 = draining s /\
  forall k h l_out l_in, (batchOk (page s) -> batchOk (page r.1)) /\
    (KeyOk k h (page s) (announced k p l ++ l_in) l_out -> KeyOk k h (page r.1) l_in l_out).
Proof using Type.
  revert s o. induction l as [|a l IH]; intros s o; cbv zeta; [by split_and!|].
  cbn [foldl]. destruct s as [pg0 tc q st]. rewrite takeAnnouncement_eq. cbv zeta.
  set (pg := (setValuesFromCache a.1 (bool_decide (a.2 = Some p)) pg0).1).
  specialize (IH (mkPageState pg tc q st) (o ++ [Notified p (setValuesFromCache a.1 (bool_decide (a.2 = Some p)) pg0).2])).
  cbv zeta in IH. destruct IH as (Hq & Ht & Hd & Hk). split_and!; [done..|]. intros k h l_out l_in.
  specialize (Hk k h l_out l_in) as [Hb Hk]. cbn [page] in *. split.
  - intros Hb0. by apply Hb, setValuesFromCache_batchOk.
  - rewrite announced_cons, <- app_assoc. intros Hr. apply Hk. destruct (packet_values a.1 !! k) eqn:Hi; [by eapply take_key | by apply take_none].
Qed.
Lemma syncValue_ok p key c s : draining s = [] -> PageOk p c s -> PageOk p c (setQueuedValueFromCache p key s).1.
Proof using Type.
  intros Hd [Hk Hb]. destruct s as [pg tc q st]. simpl in Hd. subst st. unfold setQueuedValueFromCache. cbn [m_queue].
  pose proof (takeAll_page p (queuedFor key q) (mkPageState pg tc (queueWithout key q) []) []) as Ha. cbv zeta in Ha.
  change ((mkPageState pg tc q []) <| m_queue ::= queueWithout key |>) with (mkPageState pg tc (queueWithout key q) []).
  destruct (foldl _ _ _) as [s' o]. cbn [fst] in *. destruct Ha as (Hq & Ht & Hd & Ha).
  split; [|apply (Ha [] (InvalidVariant, 0) [] []); exact Hb].
  intros k. unfold inbox. rewrite Hq, Ht, Hd. simpl. apply Ha. specialize (Hk k). unfold inbox in Hk. simpl in *.
  destruct (decide (k = key)) as [->|Hne].
  - by rewrite queueWithout_key, queuedFor_key, app_nil_r.
  - by rewrite queueWithout_other, queuedFor_other.
Qed.

(** *** Runs *)

(** What a run respects: the objects of a key agree on what they accept, and a page
    has at most one of them; what comes from outside is acceptable; and a slot
    that is notified while a queue is drained does not take from the queue itself. *)
Definition orderly (e : ProcessEvent) pr : Prop :=
  match e with
  | CreateElement p key metaType validator _ =>
      (forall v, elementAccepts metaType validator v = accepts key v) /\
      forall s, pages pr !! p = Some s -> page_elements (page s) !! key = None
  | StartDrain p | SyncValue p _ => forall s, pages pr !! p = Some s -> draining s = []
  | InsertValues values | FromRemote values _ => packetOk values
  | ClearAllValues keyPrefix => packetOk (clearedValues keyPrefix (cache pr))
  | _ => True
  end.
Inductive reachable (d : Distribution) : Process -> Prop :=
  | reachable_init : reachable d Process_init
  | reachable_step pr now (e : ProcessEvent) : reachable d pr -> orderly e pr -> reachable d (process_step d now e pr).1.

Lemma withPage_ok p f pr :
  (forall s, pages pr !! p = Some s -> PageOk p (cache pr) s -> PageOk p (cache pr) (f s).1) ->
  ProcessOk pr -> ProcessOk (withPage p f pr).1.
Proof using Type.
  intros Hf Hpr. unfold withPage. destruct (pages pr !! p) as [s|] eqn:Hp; [|done].
  specialize (Hf s eq_refl (Hpr p s Hp)). destruct (f s) as [s' o]. destruct pr as [c m]. simpl in *.
  apply mkProcess_ok, map_Forall_insert_2; done.
Qed.
(** An update of a page alone. *)
Lemma PageOk_page p c s pg packets :
  (PageKeysOk (fun k => hub k c) (fun k => announced k p (inbox s)) (page s) (toCache s) ->
   PageKeysOk (fun k => hub k c) (fun k => announced k p (inbox s)) pg (toCache s ++ packets)) ->
  PageOk p c s -> PageOk p c (sendToCache packets (s <| page := pg |>)).
Proof using Type. intros Hp Hok. apply Hp in Hok as [Hk Hb]. by split. Qed.
Lemma step_ok d now (e : ProcessEvent) pr : ProcessOk pr -> orderly e pr -> ProcessOk (process_step d now e pr).1.
Proof using Type.
  intros Hpr Ho. destruct e as [p|p key mt vd dv|p key slot|p key value ts save|p|p|p|p|p|p|p key|values|keyPrefix|values rt]; cbn [process_step].
  - case_decide as Hp; [done|]. destruct pr as [c m]. apply map_Forall_insert_2; [|done].
    split; [|by intros k v]. intros k. exists (hub k c). apply (consistent_init id).
  - destruct (pages pr !! p) as [s|] eqn:Hp; [|done]. destruct Ho as [Ha Hnew].
    pose proof (createElement_ok p key mt vd dv (cache pr) s (Hnew s Hp) Ha (Hpr p s Hp)) as Hc.
    destruct (createElement _ _ _ _ _ _) as [pg c']. destruct Hc as [Hok Hh]. destruct pr as [c m]. cbn [fst].
    apply mkProcess_ok, map_Forall_insert_2; [exact Hok|]. intros p' s' Hp'. eapply PageOk_hub; [exact Hh | by apply Hpr].
  - apply withPage_ok; [|done]. intros [[m b bv] tc q st] _ Hok. cbn [fst].
    destruct Hok as [Hk Hb]. split.
    + intros k. specialize (Hk k). unfold KeyOk in *. simpl in *. destruct (decide (k = key)) as [->|Hne].
      * rewrite lookup_alter_eq. by destruct (m !! key).
      * by rewrite lookup_alter_ne.
    + intros k v Hv. destruct (Hb k v Hv) as [? Hs]. split; [done|]. simpl in *. destruct (decide (k = key)) as [->|Hne].
      * rewrite lookup_alter_eq. by destruct (m !! key).
      * by rewrite lookup_alter_ne.
  - apply withPage_ok; [|done]. intros s _. pose proof (setValue_ok (fun k => hub k (cache pr)) (fun k => announced k p (inbox s)) now key value ts save (page s) (toCache s)) as Hs.
    destruct (setValue _ _ _ _ _ _) as [[status pg] packets]. cbn [fst]. by apply PageOk_page.
  - apply withPage_ok; [|done]. intros [[m b bv] tc q st] _ [Hk Hb]. cbn [fst]. unfold beginBatch. simpl.
    split; [|by destruct (b <=? 0)]. intros k. specialize (Hk k). by destruct (b <=? 0).
  - apply withPage_ok; [|done]. intros [[m b bv] tc q st] _ [Hk Hb]. by split.
  - apply withPage_ok; [|done]. intros s _. pose proof (endBatch_ok (fun k => hub k (cache pr)) (fun k => announced k p (inbox s)) now (page s) (toCache s)) as Hs.
    destruct (endBatch _ _) as [pg packets]. cbn [fst]. by apply PageOk_page.
  - destruct (pages pr !! p) as [s|] eqn:Hp; [|done]. destruct (toCache s) as [|values l] eqn:Ht; [done|].
    apply processChangeValues_ok, changeValues_ok. destruct pr as [c m]. exists s, l. simpl in *.
    split_and!; [by rewrite lookup_insert_eq | done | by apply Hpr|].
    intros p' s' Hne. rewrite lookup_insert_ne by done. apply Hpr.
  - apply withPage_ok; [|done]. intros s Hp. apply startDrain_ok, Ho, Hp.
  - apply withPage_ok; [|done]. intros s _. apply drainStep_ok.
  - apply withPage_ok; [|done]. intros s Hp. apply syncValue_ok, Ho, Hp.
  - by apply processChangeValues_ok, changeValues_ok.
  - by apply processChangeValues_ok, changeValues_ok.
  - by apply remote_ok.
Qed.
Lemma reachable_ok d pr : reachable d pr -> ProcessOk pr.
Proof using Type. induction 1; [apply map_Forall_empty | by apply step_ok]. Qed.

(** C27: A page follows the cache, after orderly runs.  Whatever the pages of a process change, in
    whatever order their changes and the announcements are delivered, when a page has one object of
    a key, all objects of a key accept the same values, values that are inserted, come
    from other processes or are left by clearing are accepted ones, and a page starts
    to take announcements, or synchronizes an object, only when it is not already taking some
    ([orderly]): a page for which nothing is on the way shows the
    value and the timestamp the cache has for every key (its default where the cache has none
    it accepts), and nothing counts as pending.  (Without these conditions: [overtaken_value],
    [reentrant_slot], [cleared_values_stay].) *)
Theorem pages_follow_cache d pr p s key e :
  reachable d pr -> pages pr !! p = Some s -> page_elements (page s) !! key = Some e ->
  toCache s = [] -> inbox s = [] ->
  pe_pendingChanges e = 0 /\
  let element := getElement key (cache pr) in
  pe_timestamp e = ce_timestamp element /\
  pe_value e = if accepts key (ce_value element) then ce_value element else pe_default e.
Proof using Type.
  intros Hr Hp He Ht Hi. apply reachable_ok in Hr. destruct (Hr p s Hp) as [Hk _]. specialize (Hk key).
  unfold KeyOk in Hk. rewrite He, Ht, Hi in Hk. destruct Hk as [_ Hc].
  apply consistent_quiescent in Hc as [Hv Hn]; [|done..]. split; [done|]. cbv zeta.
  unfold replicaOf, shownBy, hub in Hv. simpl in Hv. destruct (accepts key _); by injection Hv as -> ->.
Qed.

(** The count of pending changes.  At any time it is the number of changes of the
    element on the way to the cache or announced and not taken yet: it is never
    negative, and a change of the page's own that is taken has been counted. *)
Theorem pending_counts d pr p s key e :
  reachable d pr -> pages pr !! p = Some s -> page_elements (page s) !! key = Some e ->
  pe_pendingChanges e =
    Z.of_nat (length (owns (announced key p (inbox s))) + length (sent key (toCache s))).
Proof using Type.
  intros Hr Hp He. apply reachable_ok in Hr. destruct (Hr p s Hp) as [Hk _]. specialize (Hk key).
  unfold KeyOk in Hk. rewrite He in Hk. destruct Hk as [_ [Hc _ _ _]]. unfold ownChanges in Hc. simpl in Hc.
  by rewrite Hc, length_app.
Qed.
End consistency.

(** ** Slots that are called at once *)

(** A page that lives in the thread of the cache is connected directly: [setValue]
    runs the slots of the cache and of all pages before it returns.  A slot
    that is notified may set a value itself ([react]), in the middle of the delivery
    of the value it was notified of.  Nobody listens to [valuesChangedByLocal]. *)
Section direct.
Context `{VariantData} (now : Z) (react : N -> CValuePage -> option (QString * CVariant)).
Record Direct := mkDirect { d_cache : CValueCache; d_pages : list (N * CValuePage) }.

(** One delivery per page, in the order of their connections. *)
Fixpoint deliverDirect (fuel : nat) (values : CValueCachePacket) (changedBy : N) (ps : list N) (d : Direct) : option Direct :=
  match fuel with
  | O => None
  | S fuel =>
      foldl (fun od p =>
        d ← od;
        match list_find (fun q => q.1 = p) (d_pages d) with
        | None => Some d
        | Some (i, (_, pg)) =>
            let '(pg, slots) := setValuesFromCache values (bool_decide (p = changedBy)) pg in
            let d := d <| d_pages ::= <[i := (p, pg)]> |> in
            match slots, react p pg with
            | _ :: _, Some (key, value) =>
                let '(_, pg, packets) := setValue now key value 0 false pg in
                let d := d <| d_pages ::= <[i := (p, pg)]> |> in
                foldl (fun od packet => d ← od; changeDirect fuel packet p d) (Some d) packets
            | _, _ => Some d
            end
        end) (Some d) ps
  end
with changeDirect (fuel : nat) (values : CValueCachePacket) (sender : N) (d : Direct) : option Direct :=
  match fuel with
  | O => None
  | S fuel =>
      let '(c, _) := changeValues (PageId := N) values (Some sender) (d_cache d) in
      let d := d <| d_cache := c |> in
      d ← (if m_valuesChanged values then deliverDirect fuel values sender (map fst (d_pages d)) d else Some d);
      Some (d <| d_cache := (changeValuesFromRemote (PageId := N) values true (d_cache d)).1 |>)
  end.
Definition setDirect (fuel : nat) (p : N) (key : QString) (value : CVariant) (d : Direct) : option Direct :=
  match list_find (fun q => q.1 = p) (d_pages d) with
  | None => Some d
  | Some (i, (_, pg)) =>
      let '(_, pg, packets) := setValue now key value 0 false pg in
      foldl (fun od packet => d ← od; changeDirect fuel packet p d) (Some (d <| d_pages ::= <[i := (p, pg)]> |>)) packets
  end.
End direct.

(** ** Concrete runs *)

#[local] Instance plainData : VariantData := {| VData := Z |}.
Abbreviation plain := (mkVariant 2).
Definition keyA : QString := lit "a".
Definition keyB : QString := lit "b".
(** A page with the two values, each with a slot, 0 when there is none. *)
Definition plainPage (p : N) : list (Z * ProcessEvent) :=
  [(0, NewPage p); (0, CreateElement p keyA 2 None (plain 0)); (0, CreateElement p keyB 2 None (plain 0));
   (0, SetNotifySlot p keyA (mkNotifySlot 7 None)); (0, SetNotifySlot p keyB (mkNotifySlot 8 None))].
Definition ofType2 (k : QString) (v : CVariant) : bool :=
  match v with InvalidVariant => false | mkVariant t _ => t =? 2 end.
Definition runOf (d : Distribution) (es : list (Z * ProcessEvent)) : Process := (process_run d es Process_init).1.
(** What a page and what the cache has. *)
Definition pageValue (p : N) (key : QString) (pr : Process) : option CVariant :=
  s ← pages pr !! p; e ← page_elements (page s) !! key; Some (pe_value e).
Definition cacheValue (key : QString) (pr : Process) : CVariant := ce_value (getElement key (cache pr)).
Definition nothingOnTheWay (pr : Process) : bool :=
  forallb (fun ps => match toCache ps.2, inbox ps.2 with [], [] => true | _, _ => false end) (map_to_list (pages pr)).

(** Two pages set the same value at the same time. *)
Definition plainRace : list (Z * ProcessEvent) :=
  plainPage 1 ++ plainPage 2 ++
  [(5, SetValue 1 keyA (plain 99) 0 false); (6, SetValue 2 keyA (plain 100) 0 false);
   (7, ToCache 2); (8, ToCache 1);
   (9, StartDrain 1); (9, DrainStep 1); (9, DrainStep 1); (9, DrainStep 1);
   (9, StartDrain 2); (9, DrainStep 2); (9, DrainStep 2); (9, DrainStep 2)].

(** Orderly runs of objects of one type, decided. *)
Definition orderlyEvent (e : ProcessEvent) (pr : Process) : bool :=
  match e with
  | CreateElement p key metaType validator _ =>
      (metaType =? 2) && (match validator with None => true | Some _ => false end) &&
      (match pages pr !! p with Some s => bool_decide (page_elements (page s) !! key = None) | None => true end)
  | StartDrain p | SyncValue p _ => match pages pr !! p with Some s => bool_decide (draining s = []) | None => true end
  | InsertValues values | FromRemote values _ => bool_decide (map_Forall (fun k i => ofType2 k i.1 = true) (packet_values values))
  | ClearAllValues _ => false
  | _ => true
  end.
Fixpoint orderlyRun (d : Distribution) (es : list (Z * ProcessEvent)) (pr : Process) : bool :=
  match es with
  | [] => true
  | (now, e) :: es => orderlyEvent e pr && orderlyRun d es (process_step d now e pr).1
  end.
Lemma orderlyEvent_orderly e pr : orderlyEvent e pr = true -> orderly ofType2 e pr.
Proof.
  destruct e as [p|p key mt vd dv| | | | | | |p| |p key|values|keyPrefix|values rt]; try (intros _; exact I).
  - cbn [orderlyEvent]. intros [[->%Z.eqb_eq Hv]%andb_true_iff Hp]%andb_true_iff. destruct vd; [done|].
    split; [|intros s Hs; rewrite Hs in Hp; by apply bool_decide_eq_true in Hp].
    intros [|t x]; unfold elementAccepts, acceptedBy, ofType2; simpl; [done|]. by destruct (t =? 2).
  - intros Hd s Hs. cbn in Hd. rewrite Hs in Hd. by apply bool_decide_eq_true in Hd.
  - intros Hd s Hs. cbn in Hd. rewrite Hs in Hd. by apply bool_decide_eq_true in Hd.
  - apply bool_decide_eq_true.
  - discriminate.
  - apply bool_decide_eq_true.
Qed.
Lemma reachable_run d es pr :
  reachable ofType2 d pr -> orderlyRun d es pr = true -> reachable ofType2 d (process_run d es pr).1.
Proof.
  revert pr. induction es as [|[now e] es IH]; intros pr Hr; [done|].
  intros [Ho%orderlyEvent_orderly Hok]%andb_true_iff. cbn [process_run].
  specialize (IH _ (reachable_step ofType2 d pr now e Hr Ho) Hok). destruct (process_step d now e pr) as [pr1 o1]. simpl in *.
  by destruct (process_run d es pr1).
Qed.
Lemma plainRace_reachable d : reachable ofType2 d (runOf d plainRace).
Proof. apply reachable_run; [constructor|]. destruct d; by vm_compute. Qed.

Lemma pages_follow_cache_witness :
  nothingOnTheWay (runOf DataCache plainRace) = true /\ pageValue 1 keyA (runOf DataCache plainRace) = Some (plain 99) /\
  exists s e, pages (runOf DataCache plainRace) !! 2%N = Some s /\ page_elements (page s) !! keyA = Some e /\
    pe_pendingChanges e = 0 /\ pe_value e = cacheValue keyA (runOf DataCache plainRace).
Proof.
  split; [by vm_compute|]. split; [by vm_compute|].
  destruct (pages (runOf DataCache plainRace) !! 2%N) as [s|] eqn:Hp; [|by vm_compute in Hp].
  destruct (page_elements (page s) !! keyA) as [e|] eqn:He; [|vm_compute in Hp; injection Hp as <-; by vm_compute in He].
  exists s, e. split; [done|]. split; [done|].
  destruct (pages_follow_cache ofType2 DataCache (runOf DataCache plainRace) 2 s keyA e) as (Hn & _ & Hv).
  - apply plainRace_reachable.
  - exact Hp.
  - exact He.
  - vm_compute in Hp. by injection Hp as <-.
  - vm_compute in Hp. by injection Hp as <-.
  - split; [done|]. rewrite Hv. by vm_compute.
Defined.

(** After the changes, before anything is delivered. *)
Definition plainPending : list (Z * ProcessEvent) := take 12 plainRace.
Lemma pending_counts_witness :
  exists s e, pages (runOf Alone plainPending) !! 1%N = Some s /\ page_elements (page s) !! keyA = Some e /\
    pe_pendingChanges e = Z.of_nat (length (owns (announced keyA 1 (inbox s))) + length (sent keyA (toCache s))) /\
    pe_pendingChanges e = 1.
Proof.
  destruct (pages (runOf Alone plainPending) !! 1%N) as [s|] eqn:Hp; [|by vm_compute in Hp].
  destruct (page_elements (page s) !! keyA) as [e|] eqn:He; [|vm_compute in Hp; injection Hp as <-; by vm_compute in He].
  exists s, e. split; [done|]. split; [done|]. split.
  - apply (pending_counts ofType2 Alone (runOf Alone plainPending) 1%N); [|exact Hp | exact He].
    apply reachable_run; [constructor | by vm_compute].
  - vm_compute in Hp. injection Hp as <-. vm_compute in He. by injection He as <-.
Defined.

(** *** What slots must not do *)

(** A slot that asks for a value while the queue is drained is given a change that is
    newer than the one that is drained afterwards: with nothing on the way, the
    page keeps the older value. *)
Definition overtaking : list (Z * ProcessEvent) :=
  plainPage 1 ++ plainPage 2 ++
  [(1, SetValue 2 keyB (plain 1) 0 false); (1, ToCache 2); (2, SetValue 2 keyA (plain 1) 0 false); (2, ToCache 2);
   (3, StartDrain 1); (3, DrainStep 1);
   (4, SetValue 2 keyA (plain 2) 0 false); (4, ToCache 2);
   (5, SyncValue 1 keyA);
   (5, DrainStep 1); (5, DrainStep 1); (6, StartDrain 1); (6, DrainStep 1); (6, DrainStep 1);
   (7, StartDrain 2); (7, DrainStep 2); (7, DrainStep 2); (7, DrainStep 2); (7, DrainStep 2)].
Lemma overtaken_value :
  nothingOnTheWay (runOf DataCache overtaking) = true /\ cacheValue keyA (runOf DataCache overtaking) = plain 2 /\
  pageValue 1 keyA (runOf DataCache overtaking) = Some (plain 1).
Proof. by vm_compute. Qed.

(** Of three pages of one thread the second, notified of a value, sets another one:
    the third hears of the second value first, and keeps the first one. *)
Definition directPage : CValuePage :=
  setNotifySlot keyA (mkNotifySlot 7 None) (createElement keyA 2 None (plain 0) CValueCache_init CValuePage_init).1.
Definition directReact (p : N) (pg : CValuePage) : option (QString * CVariant) :=
  if decide (p = 2%N /\ (pe_value <$> page_elements pg !! keyA) = Some (plain 1)) then Some (keyA, plain 2) else None.
Lemma reentrant_slot :
  (fun d => (ce_value (getElement keyA (d_cache d)), map (fun q => pe_value <$> page_elements q.2 !! keyA) (d_pages d))) <$>
  setDirect 5 directReact 10 1 keyA (plain 1) (mkDirect CValueCache_init [(1, directPage); (2, directPage); (3, directPage)]%N)
  = Some (plain 2, [Some (plain 2); Some (plain 2); Some (plain 1)]).
Proof. by vm_compute. Qed.

(** Clearing the cache does not reach the pages: an empty value is not one they
    accept. *)
Definition clearing : list (Z * ProcessEvent) :=
  plainRace ++ [(10, ClearAllValues []); (11, StartDrain 1); (11, DrainStep 1); (11, DrainStep 1)].
Lemma cleared_values_stay :
  cacheValue keyA (runOf DataCache clearing) = InvalidVariant /\ pageValue 1 keyA (runOf DataCache clearing) = Some (plain 99).
Proof. by vm_compute. Qed.

(** A batch loses that a value was to be saved, and the time it was set with. *)
Lemma batch_loses_save :
  let '(_, o) := process_run Distributed
    (plainPage 1 ++ [(1, BeginBatch 1); (2, SetValue 1 keyA (plain 5) 77 true); (3, EndBatch 1); (4, ToCache 1)]) Process_init in
  last o = Some (ByLocal (CValueCachePacket_make {[ keyA := plain 5 ]} 3 false true)).
Proof. by vm_compute. Qed.
