(* ===== verification/ValueNetwork.v ===== *)
(** * Settings shared by processes (core/context/contextapplication.cpp, misc/valuecache.cpp)

    The caches of the settings of several processes.  The context of the application
    connects them: what a cache has changed is sent to the core, and the core
    announces it to all caches, its own and the one it came from included.  In the
    core process this happens at once.

    [all_pages_agree]: after orderly runs objects of different processes show the same value,
    where they accept it, once nothing is on the way to them. *)

From S2P Require Export ValueProcess.

Open Scope Z_scope.

Section network.
Context `{VariantData}.

Abbreviation ProcessId := N.
(** A process; what its cache has changed, on the way to the core; and what the core
    has announced, with the process it comes from. *)
Record NetProcess := mkNetProcess {
  process : Process; toCore : list CValueCachePacket; fromCore : list (CValueCachePacket * ProcessId) }.
(** The processes, and the values announced last, which nobody stores. *)
Record Network := mkNetwork { processes : gmap ProcessId NetProcess; announcedLast : gmap QString (CVariant * Z) }.
Definition Network_init (ns : gset ProcessId) : Network :=
  mkNetwork (gset_to_gmap (mkNetProcess Process_init [] []) ns) ∅.

(** A call in a process, the announcement of its next change, and the arrival of
    the next announcement. *)
Inductive NetEvent :=
  | Local (n : ProcessId) (now : Z) (e : ProcessEvent)
  | SettingsChanged (n : ProcessId)
  | ChangeFromRemote (n : ProcessId) (now : Z).

Definition byLocal (o : list ProcessOut) : list CValueCachePacket :=
  omap (fun v => match v with ByLocal values => Some values | _ => None end) o.
Lemma byLocal_app o o' : byLocal (o ++ o') = byLocal o ++ byLocal o'.
Proof using Type. apply omap_app. Qed.
Definition announceTo (values : CValueCachePacket) (n : ProcessId) (np : NetProcess) : NetProcess :=
  np <| fromCore ::= fun l => l ++ [(values, n)] |>.

Definition network_step (e : NetEvent) (net : Network) : Network :=
  match e with
  | Local n now e =>
      match processes net !! n with
      | None => net
      | Some np =>
          let '(pr, o) := process_step Distributed now e (process np) in
          net <| processes ::= <[n := np <| process := pr |> <| toCore ::= fun l => l ++ byLocal o |>]> |>
      end
  | SettingsChanged n =>
      match processes net !! n with
      | None => net
      | Some np =>
          match toCore np with
          | [] => net
          | values :: l =>
              mkNetwork (announceTo values n <$> <[n := np <| toCore := l |>]> (processes net))
                (if m_valuesChanged values then packet_values values ∪ announcedLast net else announcedLast net)
          end
      end
  | ChangeFromRemote n now =>
      match processes net !! n with
      | None => net
      | Some np =>
          match fromCore np with
          | [] => net
          | (values, m) :: l =>
              let '(pr, _) := process_step Distributed now (FromRemote values (bool_decide (m = n))) (process np) in
              net <| processes ::= <[n := np <| process := pr |> <| fromCore := l |>]> |>
          end
      end
  end.
Fixpoint network_run (es : list NetEvent) (net : Network) : Network :=
  match es with [] => net | e :: es => network_run es (network_step e net) end.
End network.

(** ** Caches as replicas *)

Section agreement.
Context `{VariantData} (accepts : QString -> CVariant -> bool).
Implicit Types (c : CValueCache) (pr : Process) (np : NetProcess) (net : Network) (values : CValueCachePacket)
  (k : QString) (n : N).

Definition received k n (l : list (CValueCachePacket * N)) : list ((CVariant * Z) * bool) :=
  omap (fun a => if m_valuesChanged a.1 then (fun i => (i, bool_decide (a.2 = n))) <$> packet_values a.1 !! k else None) l.
Definition lastAnnounced k net : CVariant * Z := default (InvalidVariant, 0) (announcedLast net !! k).
Definition cacheReplica k n np : Replica (CVariant * Z) :=
  mkReplica (hub k (cache (process np))) (ce_pendingChanges (getElement k (cache (process np))))
    (received k n (fromCore np)) (sent k (toCore np)).
Definition CacheOk n (last : QString -> CVariant * Z) np : Prop :=
  forall k, Consistent id (okValue accepts k) (last k) (cacheReplica k n np).
Definition NetworkOk net : Prop :=
  map_Forall (fun n np => CacheOk n (fun k => lastAnnounced k net) np /\ ProcessOk accepts (process np)) (processes net).

Lemma received_app k n l l' : received k n (l ++ l') = received k n l ++ received k n l'.
Proof using Type. apply omap_app. Qed.
Lemma received_cons k n a l :
  received k n (a :: l) =
  from_option (fun i => [(i, bool_decide (a.2 = n))]) [] (if m_valuesChanged a.1 then packet_values a.1 !! k else None) ++ received k n l.
Proof using Type. unfold received. simpl. destruct (m_valuesChanged a.1); simpl; [|done]. by destruct (packet_values a.1 !! k). Qed.

(** What an event of the process itself does to its cache. *)
Lemma changeValues_element values (sender : option N) c k :
  getElement k (changeValues values sender c).1 =
  match packet_values values !! k with
  | Some i => (if m_valuesChanged values
               then (getElement k c) <| ce_pendingChanges ::= fun x => x + 1 |> <| ce_value := i.1 |> <| ce_timestamp := i.2 |>
               else getElement k c) <| ce_saved := m_saved values |>
  | None => getElement k c
  end.
Proof using Type.
  unfold changeValues. case_bool_decide as He; [by rewrite He, lookup_empty|]. cbn [fst]. by rewrite getElement_merge.
Qed.
Definition localChange pr pr' (o : list ProcessOut) : Prop :=
  (forall k, getElement k (cache pr') = getElement k (cache pr)) /\ byLocal o = [] \/
  exists values (sender : option N), (m_valuesChanged values = true -> packetOk accepts values) /\
    cache pr' = (changeValues values sender (cache pr)).1 /\
    byLocal o = if bool_decide (packet_values values = ∅) then [] else [values].
Lemma local_step now (e : ProcessEvent) pr :
  ProcessOk accepts pr -> orderly accepts e pr -> (forall values rt, e <> FromRemote values rt) ->
  localChange pr (process_step Distributed now e pr).1 (process_step Distributed now e pr).2.
Proof using Type.
  intros Hpr Ho He.
  assert (forall p f, (forall s, pages pr !! p = Some s -> byLocal (f s).2 = []) -> localChange pr (withPage p f pr).1 (withPage p f pr).2) as Hpage.
  { intros p f Hf. unfold withPage. destruct (pages pr !! p) as [s|] eqn:Hp; [|by left]. specialize (Hf s eq_refl).
    destruct (f s) as [s' o']. left. by destruct pr. }
  destruct e as [p|p key mt vd dv|p key slot|p key value ts save|p|p|p|p|p|p|p key|values|keyPrefix|values rt]; cbn [process_step].
  - left. by case_decide; destruct pr.
  - left. destruct (pages pr !! p) as [s|]; [|done]. unfold createElement.
    pose proof (getValue_element key (cache pr)) as Hg. destruct (getValue key (cache pr)) as [[[value ts] sv] c'].
    simpl in Hg. by destruct pr.
  - by apply Hpage.
  - apply Hpage. intros s _. by destruct (setValue _ _ _ _ _ _) as [[? ?] ?].
  - by apply Hpage.
  - by apply Hpage.
  - apply Hpage. intros s _. by destruct (endBatch _ _).
  - destruct (pages pr !! p) as [s|] eqn:Hp; [|by left]. destruct (toCache s) as [|values l] eqn:Ht; [by left|].
    right. exists values, (Some p). unfold processChangeValues. rewrite onCache_changeValues. cbn [fst snd]. destruct pr as [c m].
    split; [intros Hc; by eapply sent_ok, Hc; [apply Hpr|]|]. split; [done|]. by case_bool_decide.
  - by apply Hpage.
  - apply Hpage. intros [pg tc q [|[|a l] st]] _; unfold drainStep; [done..|].
    cbn [draining]. change ((mkPageState pg tc q ((a :: l) :: st)) <| draining := l :: st |>) with (mkPageState pg tc q (l :: st)).
    by rewrite takeAnnouncement_eq.
  - apply Hpage. intros s _. unfold setQueuedValueFromCache.
    assert (forall l s o, byLocal o = [] ->
      byLocal (foldl (fun '(s, o) a => let '(s, o') := takeAnnouncement p a s in (s, o ++ o')) (s, o) l).2 = []) as Hl.
    { clear. intros l. induction l as [|a l IH]; intros s o Ho; [done|]. cbn [foldl]. destruct s as [pg tc q st].
      rewrite takeAnnouncement_eq. cbv zeta. apply IH. by rewrite byLocal_app, Ho. }
    by apply Hl.
  - right. exists values, None. unfold processChangeValues. rewrite onCache_changeValues. cbn [fst snd].
    split; [by intros _|]. split; [done|]. by case_bool_decide.
  - right. exists (clearedValues keyPrefix (cache pr)), None. unfold processChangeValues. rewrite onCache_changeValues. cbn [fst snd].
    split; [by intros _|]. split; [done|]. by case_bool_decide.
  - by destruct (He values rt).
Qed.

(** *** Steps *)

Lemma local_cache_ok n last np np' o :
  CacheOk n last np -> localChange (process np) (process np') o ->
  fromCore np' = fromCore np -> toCore np' = toCore np ++ byLocal o -> CacheOk n last np'.
Proof using Type.
  intros Hc Hl Hf Ht k. specialize (Hc k). unfold cacheReplica in *. rewrite Hf, Ht, sent_app.
  destruct Hl as [[Hg ->]|(values & sender & Hok & Eg & ->)].
  - unfold hub in *. rewrite Hg. simpl. by rewrite app_nil_r.
  - unfold hub in *. rewrite Eg, changeValues_element. case_bool_decide as He; [by rewrite He, lookup_empty, app_nil_r|].
    rewrite sent_cons. destruct (m_valuesChanged values) eqn:Hch; simpl; rewrite app_nil_r.
    + destruct (packet_values values !! k) as [i|] eqn:Hi; simpl; [|by rewrite app_nil_r].
      pose proof (consistent_set _ _ _ _ i Hc (Hok eq_refl k i Hi)) as Hs. simpl in Hs. destruct i. by destruct (getElement k _).
    + destruct (packet_values values !! k); [|done]. by destruct (getElement k _).
Qed.
Lemma announce_cache_own_ok n values l np last last' :
  CacheOk n last np -> toCore np = values :: l ->
  (forall k, last' k = from_option id (last k) (if m_valuesChanged values then packet_values values !! k else None)) ->
  CacheOk n last' (announceTo values n (np <| toCore := l |>)).
Proof using Type.
  intros Hc Ht Hl k. specialize (Hc k). rewrite Hl. unfold cacheReplica in *. destruct np as [pr tc fc]. simpl in *. subst tc.
  rewrite received_app, received_cons. rewrite sent_cons in Hc. simpl.
  destruct (m_valuesChanged values); simpl in *; [|by rewrite app_nil_r].
  destruct (packet_values values !! k) as [i|]; simpl in *; [|by rewrite app_nil_r].
  rewrite bool_decide_true by done. eapply consistent_announce_own in Hc; [|reflexivity]. exact Hc.
Qed.
Lemma announce_cache_ok n n' values np last last' :
  CacheOk n last np -> n <> n' -> (m_valuesChanged values = true -> packetOk accepts values) ->
  (forall k, last' k = from_option id (last k) (if m_valuesChanged values then packet_values values !! k else None)) ->
  CacheOk n last' (announceTo values n' np).
Proof using Type.
  intros Hc Hne Hok Hl k. specialize (Hc k). rewrite Hl. unfold cacheReplica in *. destruct np as [pr tc fc]. simpl in *.
  rewrite received_app, received_cons. simpl.
  destruct (m_valuesChanged values); simpl in *; [|by rewrite app_nil_r].
  destruct (packet_values values !! k) as [i|] eqn:Hi; simpl in *; [|by rewrite app_nil_r].
  rewrite bool_decide_false by done. exact (consistent_announce _ _ _ _ i Hc (Hok eq_refl k i Hi)).
Qed.
Lemma sent_packetOk n last np values l :
  CacheOk n last np -> toCore np = values :: l -> m_valuesChanged values = true -> packetOk accepts values.
Proof using Type.
  intros Hc Ht Hch k i Hi. specialize (Hc k). unfold cacheReplica in Hc. rewrite Ht, sent_cons, Hch, Hi in Hc.
  destruct Hc as [_ _ _ [_ Hf]]. by apply Forall_cons in Hf as [? _].
Qed.
Lemma received_packetOk n last np values m l :
  CacheOk n last np -> fromCore np = (values, m) :: l -> m_valuesChanged values = true -> packetOk accepts values.
Proof using Type.
  intros Hc Ht Hch k i Hi. specialize (Hc k). unfold cacheReplica in Hc. rewrite Ht, received_cons in Hc. simpl in Hc.
  rewrite Hch, Hi in Hc. destruct Hc as [_ _ _ [Hf _]]. by apply Forall_cons in Hf as [? _].
Qed.

(** What the arrival of an announcement does to the cache. *)
Lemma changeValuesFromRemote_element values rt c k :
  m_valuesChanged values = true ->
  getElement k (changeValuesFromRemote (PageId := N) values rt c).1 =
  match packet_values values !! k with
  | Some i => if rt then (getElement k c) <| ce_pendingChanges ::= fun x => x - 1 |>
              else if decide (ce_pendingChanges (getElement k c) = 0)
                   then (getElement k c) <| ce_value := i.1 |> <| ce_timestamp := i.2 |> <| ce_saved := m_saved values |>
                   else getElement k c
  | None => getElement k c
  end.
Proof using Type.
  intros Hc. unfold changeValuesFromRemote. rewrite Hc. cbn [negb]. case_bool_decide as He; [by rewrite He, lookup_empty|].
  destruct rt; cbn [fst]; by rewrite getElement_merge.
Qed.
Lemma onCache_cache values rt pr :
  cache (onCache (changeValuesFromRemote values rt) pr).1 = (changeValuesFromRemote (PageId := N) values rt (cache pr)).1.
Proof using Type.
  unfold onCache. destruct (changeValuesFromRemote values rt (cache pr)) as [c sigs]. cbn [fst].
  assert (forall sigs pr o, cache (foldl (fun '(pr, o) sig => let '(pr, o') := emitSignal sig pr in (pr, o ++ o')) (pr, o) sigs).1 = cache pr) as Hs.
  { clear. intros sigs. induction sigs as [|sig sigs IH]; intros pr o; [done|]. cbn [foldl].
    destruct sig; simpl; rewrite IH; by destruct pr. }
  unfold emitSignals. rewrite Hs. by destruct pr.
Qed.
Lemma unchanged_remote values rt pr :
  m_valuesChanged values = false -> (onCache (changeValuesFromRemote values rt) pr).1 = pr.
Proof using Type.
  intros Hc. destruct pr as [c m]. unfold onCache, changeValuesFromRemote. rewrite Hc. simpl. case_bool_decide; [done|].
  by destruct (m_saved values).
Qed.
Lemma receive_cache_ok n last np values m l :
  CacheOk n last np -> fromCore np = (values, m) :: l ->
  CacheOk n last (np <| process := (onCache (changeValuesFromRemote values (bool_decide (m = n))) (process np)).1 |> <| fromCore := l |>).
Proof using Type.
  intros Hc Hf k. pose proof (received_packetOk n last np values m l Hc Hf) as Hok. specialize (Hc k).
  unfold cacheReplica in *. rewrite Hf, received_cons in Hc. cbn [fst snd] in Hc.
  destruct (m_valuesChanged values) eqn:Hch; [|rewrite unchanged_remote by done; by destruct np].
  destruct np as [pr tc fc]. set (pr' := (onCache _ _).1).
  change ((mkNetProcess pr tc fc) <| process := pr' |> <| fromCore := l |>) with (mkNetProcess pr' tc l).
  unfold hub in *. cbn [process toCore fromCore] in *. subst pr'. rewrite onCache_cache, changeValuesFromRemote_element by done.
  destruct (packet_values values !! k) as [i|] eqn:Hi; simpl in Hc; [|exact Hc].
  destruct (bool_decide (m = n)); simpl.
  - eapply (consistent_take_own _ _ (fun _ _ => eq_refl)) in Hc; [|reflexivity]. simpl in Hc. by destruct (getElement k _).
  - eapply (consistent_take _ _ (fun _ _ => eq_refl)) in Hc; [|reflexivity]. simpl in Hc.
    case_decide; [|exact Hc]. destruct i. by destruct (getElement k _).
Qed.

(** *** Runs *)

(** What happens in a process respects what its pages respect; what comes from other
    processes comes from the core. *)
Definition netOrderly (e : NetEvent) net : Prop :=
  match e with
  | Local n _ e => (forall values rt, e <> FromRemote values rt) /\
                   forall np, processes net !! n = Some np -> orderly accepts e (process np)
  | SettingsChanged _ | ChangeFromRemote _ _ => True
  end.
Inductive netReachable (ns : gset N) : Network -> Prop :=
  | netReachable_init : netReachable ns (Network_init ns)
  | netReachable_step net e : netReachable ns net -> netOrderly e net -> netReachable ns (network_step e net).

Lemma NetworkOk_insert net n np :
  NetworkOk net -> CacheOk n (fun k => lastAnnounced k net) np -> ProcessOk accepts (process np) ->
  NetworkOk (net <| processes ::= <[n := np]> |>).
Proof using Type.
  intros Hnet Hc Hp. destruct net as [ps last]. apply map_Forall_insert_2; [by split | exact Hnet].
Qed.
Lemma network_step_ok e net : NetworkOk net -> netOrderly e net -> NetworkOk (network_step e net).
Proof using Type.
  intros Hnet Ho. destruct e as [n now e|n|n now]; cbn [network_step].
  - destruct Ho as [He Ho]. destruct (processes net !! n) as [np|] eqn:Hn; [|done]. specialize (Ho np eq_refl).
    destruct (Hnet n np Hn) as [Hc Hp]. pose proof (local_step now e (process np) Hp Ho He) as Hl.
    pose proof (step_ok accepts Distributed now e (process np) Hp Ho) as Hp'.
    destruct (process_step Distributed now e (process np)) as [pr o]. cbn [fst snd] in *. destruct np as [pr0 tc fc].
    apply NetworkOk_insert; [done | | exact Hp']. eapply local_cache_ok; [exact Hc | exact Hl | done..].
  - destruct (processes net !! n) as [np|] eqn:Hn; [|done]. destruct (toCore np) as [|values l] eqn:Ht; [done|].
    destruct (Hnet n np Hn) as [Hc Hp].
    set (last' := if m_valuesChanged values then packet_values values ∪ announcedLast net else announcedLast net).
    assert (forall k, default (InvalidVariant, 0) (last' !! k) =
      from_option id (lastAnnounced k net) (if m_valuesChanged values then packet_values values !! k else None)) as Hlast.
    { intros k. unfold last', lastAnnounced. destruct (m_valuesChanged values); [|done]. rewrite lookup_union.
      destruct (packet_values values !! k), (announcedLast net !! k); done. }
    intros n' np'. cbn [processes]. rewrite lookup_fmap, fmap_Some. intros (np0 & Hn' & ->).
    destruct (decide (n' = n)) as [->|Hne].
    + rewrite lookup_insert_eq in Hn'. injection Hn' as <-. split; [|by destruct np].
      eapply announce_cache_own_ok; [exact Hc | exact Ht | exact Hlast].
    + rewrite lookup_insert_ne in Hn' by done. destruct (Hnet n' np0 Hn') as [Hc0 Hp0]. split; [|by destruct np0].
      eapply announce_cache_ok; [exact Hc0 | done | exact (sent_packetOk n _ np values l Hc Ht) | exact Hlast].
  - destruct (processes net !! n) as [np|] eqn:Hn; [|done]. destruct (fromCore np) as [|[values m] l] eqn:Hf; [done|].
    destruct (Hnet n np Hn) as [Hc Hp]. pose proof (receive_cache_ok n _ np values m l Hc Hf) as Hc'. cbn [process_step].
    assert (ProcessOk accepts (onCache (changeValuesFromRemote values (bool_decide (m = n))) (process np)).1) as Hp'.
    { destruct (m_valuesChanged values) eqn:Hch; [|by rewrite unchanged_remote].
      apply remote_ok; [exact (received_packetOk n _ np values m l Hc Hf Hch) | done]. }
    destruct (onCache _ _) as [pr o]. cbn [fst] in *. by apply NetworkOk_insert; [| |destruct np].
Qed.
Lemma netReachable_ok ns net : netReachable ns net -> NetworkOk net.
Proof using Type.
  induction 1; [|by apply network_step_ok]. intros n np. cbn [Network_init processes].
  rewrite lookup_gset_to_gmap_Some. intros [_ <-]. split; [|apply map_Forall_empty].
  intros k. apply (consistent_init id).
Qed.

(** C26: Settings agree, after orderly runs.  Several processes share the settings from the start;
    their objects set values, and the changes are announced and arrive in whatever
    order.  A run is orderly ([netOrderly]) when a page has one object of a key, all objects of
    a key accept the same values, values that are inserted or left by clearing
    are accepted ones, and a page starts to take announcements, or synchronizes an object, only when
    it is not already taking some.  Then two caches nothing is on the way
    from or to have the same value and time of a key; and two pages of theirs, of any processes,
    nothing is on the way from or to, show the same value when their objects accept the one
    of the caches, and otherwise each its own default.  (Without these conditions:
    [overtaken_value], [reentrant_slot], [cleared_values_stay].) *)
Theorem all_pages_agree ns net key n1 n2 np1 np2 p1 p2 s1 s2 e1 e2 :
  netReachable ns net ->
  processes net !! n1 = Some np1 -> toCore np1 = [] -> fromCore np1 = [] ->
  processes net !! n2 = Some np2 -> toCore np2 = [] -> fromCore np2 = [] ->
  pages (process np1) !! p1 = Some s1 -> toCache s1 = [] -> inbox s1 = [] -> page_elements (page s1) !! key = Some e1 ->
  pages (process np2) !! p2 = Some s2 -> toCache s2 = [] -> inbox s2 = [] -> page_elements (page s2) !! key = Some e2 ->
  let c1 := getElement key (cache (process np1)) in
  let c2 := getElement key (cache (process np2)) in
  (ce_value c1, ce_timestamp c1) = (ce_value c2, ce_timestamp c2) /\
  pe_timestamp e1 = pe_timestamp e2 /\
  (accepts key (ce_value c1) = true -> pe_value e1 = pe_value e2) /\
  (accepts key (ce_value c1) = false -> pe_value e1 = pe_default e1 /\ pe_value e2 = pe_default e2).
Proof using Type.
  intros Hr Hn1 Ht1 Hf1 Hn2 Ht2 Hf2 Hp1 Hs1 Hi1 He1 Hp2 Hs2 Hi2 He2. cbv zeta. apply netReachable_ok in Hr.
  assert (forall n np p s e, processes net !! n = Some np -> toCore np = [] -> fromCore np = [] ->
    pages (process np) !! p = Some s -> toCache s = [] -> inbox s = [] -> page_elements (page s) !! key = Some e ->
    hub key (cache (process np)) = lastAnnounced key net /\
    (pe_value e, pe_timestamp e) = shownBy accepts key e (hub key (cache (process np)))) as Hq.
  { clear -Hr. intros n np p s e Hn Ht Hf Hp Hs Hi He. destruct (Hr n np Hn) as [Hc Hpr]. split.
    - specialize (Hc key). unfold cacheReplica in Hc. rewrite Ht, Hf in Hc.
      by apply consistent_quiescent in Hc as [Hv _].
    - destruct (Hpr p s Hp) as [Hk _]. specialize (Hk key). unfold KeyOk in Hk. rewrite He, Hs, Hi in Hk.
      destruct Hk as [_ Hk]. by apply consistent_quiescent in Hk as [Hv _]. }
  destruct (Hq n1 np1 p1 s1 e1) as [Eh1 Ev1]; [done..|]. destruct (Hq n2 np2 p2 s2 e2) as [Eh2 Ev2]; [done..|].
  rewrite <- Eh2 in Eh1. unfold shownBy in Ev1, Ev2. rewrite Eh1 in Ev1. unfold hub in *. split; [done|].
  injection Eh1 as Ea Et. rewrite Ea. destruct (accepts key _); injection Ev1 as -> ->; injection Ev2 as -> ->; (split; [done | by split]).
Qed.
End agreement.

(** ** A concrete network *)

#[local] Existing Instance plainData.
Definition orderlyNetEvent (e : NetEvent) (net : Network) : bool :=
  match e with
  | Local n _ e =>
      match e with FromRemote _ _ => false | _ => true end &&
      match processes net !! n with Some np => orderlyEvent e (process np) | None => true end
  | _ => true
  end.
Fixpoint orderlyNetRun (es : list NetEvent) (net : Network) : bool :=
  match es with [] => true | e :: es => orderlyNetEvent e net && orderlyNetRun es (network_step e net) end.
Lemma netReachable_run ns es net :
  netReachable ofType2 ns net -> orderlyNetRun es net = true -> netReachable ofType2 ns (network_run es net).
Proof.
  revert net. induction es as [|e es IH]; intros net Hr; [done|]. intros [Ho Hok]%andb_true_iff.
  apply (IH (network_step e net)); [|exact Hok]. constructor; [exact Hr|]. destruct e as [n now e|n|n now]; [|exact I..].
  cbn in Ho. apply andb_true_iff in Ho as [He Ho]. split; [by destruct e|].
  intros np Hn. rewrite Hn in Ho. by apply orderlyEvent_orderly.
Qed.

Definition inProcess (n : N) (es : list (Z * ProcessEvent)) : list NetEvent := map (fun te => Local n te.1 te.2) es.
(** Objects of two processes set the value at the same time; the change of the second is
    announced first. *)
Definition plainNetRun : list NetEvent :=
  inProcess 1 (plainPage 1) ++ inProcess 2 (plainPage 1) ++
  inProcess 1 [(5, SetValue 1 keyA (plain 99) 0 false); (5, ToCache 1)] ++
  inProcess 2 [(6, SetValue 1 keyA (plain 100) 0 false); (6, ToCache 1)] ++
  [SettingsChanged 2; SettingsChanged 1; ChangeFromRemote 1 7; ChangeFromRemote 2 7; ChangeFromRemote 2 8; ChangeFromRemote 1 8] ++
  inProcess 1 [(9, StartDrain 1); (9, DrainStep 1); (9, DrainStep 1); (9, DrainStep 1)] ++
  inProcess 2 [(9, StartDrain 1); (9, DrainStep 1); (9, DrainStep 1); (9, DrainStep 1)].
Definition plainNet : Network := network_run plainNetRun (Network_init {[ 1%N; 2%N ]}).
(** A page of a process, nothing on the way to either, and what it shows. *)
Definition quietPage (n p : N) (v : CVariant) : bool :=
  match processes plainNet !! n with
  | None => false
  | Some np =>
      match pages (process np) !! p with
      | None => false
      | Some s =>
          match page_elements (page s) !! keyA with
          | None => false
          | Some e => isEmpty (toCore np) && isEmpty (fromCore np) && isEmpty (toCache s) && isEmpty (inbox s) &&
                      bool_decide (pe_value e = v) && bool_decide (cacheValue keyA (process np) = v)
          end
      end
  end.
Lemma quietPage_spec n p v : quietPage n p v = true ->
  exists np s e, processes plainNet !! n = Some np /\ pages (process np) !! p = Some s /\
    page_elements (page s) !! keyA = Some e /\ toCore np = [] /\ fromCore np = [] /\ toCache s = [] /\ inbox s = [] /\
    pe_value e = v /\ cacheValue keyA (process np) = v.
Proof.
  unfold quietPage. destruct (processes plainNet !! n) as [np|]; [|discriminate].
  destruct (pages (process np) !! p) as [s|] eqn:Hp; [|discriminate].
  destruct (page_elements (page s) !! keyA) as [e|] eqn:He; [|discriminate].
  intros [[[[[H1 H2]%andb_true_iff H3]%andb_true_iff H4]%andb_true_iff H5%bool_decide_eq_true]%andb_true_iff H6%bool_decide_eq_true]%andb_true_iff.
  exists np, s, e. destruct (toCore np); [|discriminate]. destruct (fromCore np); [|discriminate].
  destruct (toCache s); [|discriminate]. destruct (inbox s); [|discriminate]. split_and!; auto.
Qed.
Definition lastValue : CVariant := plain 99.
Lemma plainNet_reachable : netReachable ofType2 {[ 1%N; 2%N ]} plainNet.
Proof. apply netReachable_run; [constructor | by vm_compute]. Qed.

Lemma all_pages_agree_witness :
  exists np1 np2 s1 s2 e1 e2, processes plainNet !! 1%N = Some np1 /\ processes plainNet !! 2%N = Some np2 /\
    pages (process np1) !! 1%N = Some s1 /\ pages (process np2) !! 1%N = Some s2 /\
    page_elements (page s1) !! keyA = Some e1 /\ page_elements (page s2) !! keyA = Some e2 /\
    pe_value e1 = lastValue /\ pe_value e1 = pe_value e2.
Proof.
  destruct (quietPage_spec 1 1 lastValue) as (np1 & s1 & e1 & Hn1 & Hp1 & He1 & Ht1 & Hf1 & Hs1 & Hi1 & Hv1 & Hc1); [by vm_compute|].
  destruct (quietPage_spec 2 1 lastValue) as (np2 & s2 & e2 & Hn2 & Hp2 & He2 & Ht2 & Hf2 & Hs2 & Hi2 & _ & _); [by vm_compute|].
  exists np1, np2, s1, s2, e1, e2. do 6 (split; [assumption|]). split; [exact Hv1|].
  destruct (all_pages_agree ofType2 {[ 1%N; 2%N ]} plainNet keyA 1 2 np1 np2 1 1 s1 s2 e1 e2
    plainNet_reachable Hn1 Ht1 Hf1 Hn2 Ht2 Hf2 Hp1 Hs1 Hi1 He1 Hp2 Hs2 Hi2 He2) as (_ & _ & Hv & _).
  apply Hv. unfold cacheValue in Hc1. rewrite Hc1. reflexivity.
Defined.
