(* ===== verification/DataRevision.v ===== *)
(** * The data cache on disk (misc/datacache.h, .cpp, the files of misc/valuecache.cpp)

    The processes of a user share their data through files: one per name space with the
    values, and a revision file with the timestamps.  Under the lock of the revision
    file a process compares the timestamps with those it has in memory
    ([beginUpdate]), reads what is newer ([loadFromStore]) and writes what it has
    changed ([saveToStore]).  The worker that does so runs alone, one
    call after the other; the lock makes its calls exclude those of other processes.

    Files are what they hold: a file that cannot be opened or parsed is [Unreadable];
    that a value in a file cannot be parsed is not modelled, nor backups.  The
    session file is the argument [session]: the identifier it gives. *)

From S2P Require Export ValueProcess.

Open Scope Z_scope.

(** ** Files *)

(** QUuid, of which only equality is used. *)
Abbreviation QUuid := N.

(** The revision file. *)
Record RevisionFile := mkRevisionFile {
  rf_uuid : QUuid; rf_timestamps : gmap QString Z; rf_ttl : gmap QString Z; rf_pins : gset QString;
  rf_deferrals : gset QString; rf_session : gmap QString QUuid }.
(** A file that is there may be empty (as the constructor of the cache makes it), have
    another form (without an identifier), or not be readable. *)
Inductive RevisionOnDisk :=
  | NoRevision | EmptyRevision | InvalidRevision | UnreadableRevision | Revision (file : RevisionFile).

Section files.
Context `{VariantData}.

(** A file of values: its object, and when it was modified. *)
Record ValueFile := mkValueFile { vf_values : gmap QString CVariant; vf_lastModified : Z }.
Record Disk := mkDisk { revisionFile : RevisionOnDisk; valueFiles : gmap QString ValueFile }.
Implicit Types (disk : Disk).

(** [key.section('/', 0, m_fileSplitDepth - 1)] for the depth of the data cache, 1. *)
Fixpoint firstSection (key : QString) : QString :=
  match key with [] => [] | x :: key => if decide (x = 47%N) then [] else x :: firstSection key end.
Definition filenameForKey (key : QString) : QString := firstSection key ++ lit ".json".
Definition storedValue disk (key : QString) : option (CVariant * Z) :=
  file ← valueFiles disk !! filenameForKey key; value ← vf_values file !! key; Some (value, vf_lastModified file).

(** saveToFiles: values are put into the objects of their files. *)
Definition putValue (now : Z) (key : QString) (value : CVariant) (fs : gmap QString ValueFile) : gmap QString ValueFile :=
  let file := default (mkValueFile ∅ now) (fs !! filenameForKey key) in
  <[filenameForKey key := mkValueFile (<[key := value]> (vf_values file)) now]> fs.
Definition saveToFiles (now : Z) (values : gmap QString CVariant) disk : Disk :=
  disk <| valueFiles ::= fun fs => map_fold (putValue now) fs values |>.
(** loadFromFiles for some keys: what the files have of them, less what is the same in
    memory, with the time of the file. *)
Definition loadFromFiles (keys : gset QString) (currentValues : gmap QString CVariant) disk : gmap QString (CVariant * Z) :=
  map_imap (fun key _ =>
    '(value, modified) ← storedValue disk key;
    if bool_decide (currentValues !! key = Some value) then None else Some (value, modified)) (gset_to_gmap tt keys).
(** For no keys: everything there is. *)
Definition loadKeysFromFiles disk : gmap QString Z :=
  map_fold (fun _ file m => ((fun _ => vf_lastModified file) <$> vf_values file) ∪ m) ∅ (valueFiles disk).
End files.
#[global] Arguments Disk {_}.
#[global] Arguments ValueFile {_}.

(** ** The revision *)

(** The clock; whether the lock can be taken and the revision file written; the
    identifier of the session; and the one of the process, CIdentifier::toUuid, which is made of
    a name space drawn once and of machine, process number and name: it is the same
    at every call. *)
Record Environment := mkEnvironment {
  now : Z; lockSucceeds : bool; canWrite : bool; session : QUuid; processUuid : QUuid }.

(** [m_promises] are numbered; [m_sessionValues] has the null identifier for a key
    that was only registered. *)
Definition nullUuid : QUuid := 0%N.
Record CDataCacheRevision := mkRevision {
  m_updateInProgress : bool; m_found : bool; m_pendingRead : bool; m_pendingWrite : bool; m_lockFile : bool;
  m_uuid : option QUuid; m_timestamps : gmap QString Z; m_originalTimestamps : gmap QString Z;
  m_timesToLive : gmap QString Z; m_pinnedValues : gset QString; m_deferredValues : gset QString;
  m_admittedValues : gset QString; m_admittedQueue : gset QString;
  m_sessionValues : gmap QString QUuid; m_promises : list N; m_session : QUuid }.
Definition CDataCacheRevision_init : CDataCacheRevision :=
  mkRevision false false false false false None ∅ ∅ ∅ ∅ ∅ ∅ ∅ ∅ [] 0%N.

Section revision.
Context `{VariantData}.
Implicit Types (env : Environment) (r : CDataCacheRevision) (disk : Disk) (timestamps : gmap QString Z) (key : QString).

Definition breakPromises r : CDataCacheRevision := r <| m_promises := [] |>.
Definition finishUpdate (keepPromises : bool) r : CDataCacheRevision :=
  let r := r <| m_updateInProgress := false |> <| m_pendingRead := false |> <| m_pendingWrite := false |> in
  let r := if keepPromises then r else breakPromises r in
  r <| m_lockFile := false |>.
Definition isPendingRead r : bool := negb (bool_decide (m_timestamps r = ∅)) || negb (m_found r).

(** A value of the file is newer than the one in memory and not too old. *)
Definition newerOnDisk env timestamps (ttl : gmap QString Z) (key : QString) (t : Z) : bool :=
  (default (-1) (timestamps !! key) <? t) &&
  ((default (-1) (ttl !! key) <? 0) || (now env <? t + default (-1) (ttl !! key))).

(** What beginUpdate returns: a guard, or none, when what it has begun is finished. *)
Definition noGuard r : bool * CDataCacheRevision := (false, finishUpdate false r).
(** Where a pending write makes it go on. *)
Definition guardIfPendingWrite r : bool * CDataCacheRevision := if m_pendingWrite r then (true, r) else noGuard r.

Definition beginUpdate env timestamps (updateUuid pinsOnly : bool) disk r : bool * CDataCacheRevision :=
  if negb (lockSucceeds env) then (false, r)
  else
    let r := r <| m_lockFile := true |> <| m_updateInProgress := true |> <| m_timestamps := ∅ |> <| m_originalTimestamps := ∅ |> in
    let done_ := fun r => (true, r <| m_pendingRead := true |>) in
    match revisionFile disk with
    | NoRevision => done_ (r <| m_found := false |>)
    | UnreadableRevision => noGuard (r <| m_found := true |>)
    | EmptyRevision => done_ (r <| m_found := false |>)
    | InvalidRevision => guardIfPendingWrite (r <| m_found := true |>)
    | Revision file =>
        let r := r <| m_found := true |> <| m_originalTimestamps := rf_timestamps file |> in
        if bool_decide (m_uuid r = Some (rf_uuid file)) && bool_decide (m_admittedQueue r = ∅) then guardIfPendingWrite r
        else
          let r := if updateUuid then r <| m_uuid := Some (rf_uuid file) |> else r in
          let newer := filter (fun kt => newerOnDisk env timestamps (rf_ttl file) kt.1 kt.2) (rf_timestamps file) in
          if bool_decide (newer = ∅) then guardIfPendingWrite r
          else
            let newer := if pinsOnly then filter (fun kt => kt.1 ∈ rf_pins file) newer else newer in
            let r := r <| m_admittedValues ::= fun s => s ∪ m_admittedQueue r |> in
            let r := if updateUuid then r <| m_admittedQueue := ∅ |>
                     else r <| m_admittedQueue ::= fun s => s ∩ dom newer |> in
            let newer := filter (fun kt => kt.1 ∈ rf_deferrals file -> kt.1 ∈ m_admittedValues r) newer in
            let ofSession := fun kt : QString * Z => rf_session file !! kt.1 = None \/ rf_session file !! kt.1 = Some (session env) in
            done_ (r <| m_session := session env |>
                     <| m_sessionValues ::= fun m => rf_session file ∪ m |>
                     <| m_timestamps := filter ofSession newer |>
                     <| m_originalTimestamps ::= filter ofSession |>)
    end.

(** The timestamps written: those of the file, with those given in their place. *)
Definition writtenTimestamps timestamps (excludeKeys : gset QString) r : gmap QString Z :=
  filter (fun kt => kt.1 ∉ excludeKeys) (filter (fun kt => kt.2 <> 0) timestamps ∪ m_originalTimestamps r).
Definition writeNewRevision env timestamps (excludeKeys : gset QString) r disk : CDataCacheRevision * Disk :=
  if negb (canWrite env) then (r, disk)
  else
    let written := writtenTimestamps timestamps excludeKeys r in
    let r := r <| m_uuid := Some (processUuid env) |>
               <| m_sessionValues ::= map_imap (fun key id => Some (if decide (is_Some (written !! key)) then m_session r else id)) |> in
    (r, disk <| revisionFile := Revision (mkRevisionFile (processUuid env) written (m_timesToLive r) (m_pinnedValues r)
                                            (m_deferredValues r) (m_sessionValues r)) |>).
Definition regenerate env timestamps r disk : CDataCacheRevision * Disk :=
  let r := r <| m_originalTimestamps := timestamps |> in writeNewRevision env timestamps ∅ r disk.
Definition notifyPendingWrite r : CDataCacheRevision := r <| m_pendingWrite := true |>.

(** Registration of values, while no update is in progress. *)
Definition setTimeToLive key (ttl : Z) r : CDataCacheRevision := r <| m_timesToLive ::= <[key := ttl]> |>.
Definition pinValue key r : CDataCacheRevision := r <| m_pinnedValues ::= fun s => {[ key ]} ∪ s |>.
Definition deferValue key r : CDataCacheRevision := r <| m_deferredValues ::= fun s => {[ key ]} ∪ s |>.
Definition admitValue key r : CDataCacheRevision := r <| m_admittedQueue ::= fun s => {[ key ]} ∪ s |>.
Definition sessionValue key r : CDataCacheRevision :=
  r <| m_sessionValues ::= fun m => <[key := default nullUuid (m !! key)]> m |>.
(** Only the timestamp of the file changes. *)
Definition overrideTimestamp env key (timestamp : Z) disk : Disk :=
  if negb (lockSucceeds env) then disk
  else match revisionFile disk with
       | Revision file => disk <| revisionFile := Revision (file <| rf_timestamps ::= <[key := timestamp]> |>) |>
       | EmptyRevision => disk <| revisionFile := InvalidRevision |>
       | _ => disk
       end.
Definition getTimestampOnDisk env key disk r : Z :=
  if m_lockFile r then default 0 (m_originalTimestamps r !! key)
  else if negb (lockSucceeds env) then 0
  else match revisionFile disk with Revision file => default 0 (rf_timestamps file !! key) | _ => 0 end.

(** A temporary guard that keeps the promises ends the update. *)
Definition isNewerValueAvailable env key (timestamp : Z) disk r : bool * CDataCacheRevision :=
  let has := fun r => bool_decide (is_Some (m_timestamps r !! key)) || bool_decide (key ∈ m_admittedQueue r) in
  if m_updateInProgress r || m_pendingWrite r then (has r, r)
  else
    let '(guard, r) := beginUpdate env {[ key := timestamp ]} false false disk r in
    if guard then (has r, finishUpdate true r) else (false, r).
Definition promiseLoadedValue env (promise : N) key (timestamp : Z) disk r : bool * CDataCacheRevision :=
  let '(available, r) := isNewerValueAvailable env key timestamp disk r in
  if available then (true, r <| m_promises ::= fun l => l ++ [promise] |>) else (false, r).
End revision.

(** ** The worker (CDataCacheSerializer) *)

Section serializer.
Context `{VariantData}.
Implicit Types (env : Environment) (r : CDataCacheRevision) (disk : Disk) (baseline : CValueCachePacket).

(** The members of the worker, with the revision of the cache it works for. *)
Record CDataCacheSerializer := mkSerializer { m_revision : CDataCacheRevision; m_deferredChanges : CValueCachePacket }.
Definition noChanges : CValueCachePacket := mkPacket ∅ false true.
Definition CDataCacheSerializer_init : CDataCacheSerializer := mkSerializer CDataCacheRevision_init noChanges.
Implicit Types (w : CDataCacheSerializer).

(** Values loaded for the cache, and promises kept. *)
Inductive StoreOut := ValuesLoadedFromStore (values : CValueCachePacket) | PromisesKept (promises : list N).

Definition applyDeferredChanges w : CDataCacheSerializer * list StoreOut :=
  if bool_decide (packet_values (m_deferredChanges w) = ∅) then (w, [])
  else
    (mkSerializer ((m_revision w) <| m_promises := [] |>) ((setSaved true (m_deferredChanges w)) <| packet_values := ∅ |>),
     [ValuesLoadedFromStore (setSaved true (m_deferredChanges w)); PromisesKept (m_promises (m_revision w))]).

(** What loadFromStore does between taking the lock and applying the changes. *)
Definition readFromStore env baseline disk w : CDataCacheSerializer * Disk :=
  let r := m_revision w in
  if negb (isPendingRead r) then (w, disk)
  else
    let '(r, disk) := if negb (m_found r) then regenerate env (loadKeysFromFiles disk) r disk else (r, disk) in
    let keys := dom (m_timestamps r) in
    let newValues := mkPacket (loadFromFiles keys (toVariantMap baseline) disk) false true in
    let newValues := setTimestamps (m_timestamps r) newValues in
    let missingKeys := keys ∖ dom (packet_values newValues) in
    let '(r, disk) := if bool_decide (missingKeys = ∅) then (r, disk) else writeNewRevision env ∅ missingKeys r disk in
    (mkSerializer r (packet_insertPacket newValues (m_deferredChanges w)), disk).
(** The guard that is returned is held by the caller. *)
Definition loadFromStore env baseline (defer pinsOnly : bool) disk w :
    bool * CDataCacheSerializer * Disk * list StoreOut :=
  let '(guard, r) := beginUpdate env (toTimestampMap baseline) (negb pinsOnly) pinsOnly disk (m_revision w) in
  let w := w <| m_revision := r |> in
  let '(w, disk) := if guard then readFromStore env baseline disk w else (w, disk) in
  let '(w, o) := if defer then (w, []) else applyDeferredChanges w in
  (guard, w, disk, o).
Definition endGuard (guard : bool) w : CDataCacheSerializer :=
  if guard then w <| m_revision ::= finishUpdate false |> else w.
(** Called for itself: the guard is dropped. *)
Definition loadFromStoreNow env baseline (pinsOnly : bool) disk w : CDataCacheSerializer * Disk * list StoreOut :=
  let '(guard, w, disk, o) := loadFromStore env baseline false pinsOnly disk w in
  (endGuard guard w, disk, o).
Definition saveToStore env (values : gmap QString CVariant) baseline disk w : CDataCacheSerializer * Disk * list StoreOut :=
  let w := w <| m_revision ::= notifyPendingWrite |> in
  let '(lock, w, disk, o) := loadFromStore env baseline true false disk w in
  let w := w <| m_deferredChanges ::= fun p => p <| packet_values ::= fun m => m ∖ ((fun v => (v, 0)) <$> values) |> |> in
  if negb lock then (w, disk, o)
  else
    let '(r, disk) := writeNewRevision env (toTimestampMap baseline) ∅ (m_revision w) disk in
    let disk := saveToFiles (now env) values disk in
    let '(w, o') := applyDeferredChanges (w <| m_revision := r |>) in
    (endGuard true w, disk, o ++ o').
End serializer.

(** ** The lock is released, and nothing is left over *)

Section released.
Context `{VariantData}.
Implicit Types (env : Environment) (r : CDataCacheRevision) (disk : Disk) (baseline : CValueCachePacket) (w : CDataCacheSerializer).

Definition released r : Prop := m_updateInProgress r = false /\ m_lockFile r = false.
Definition held r : Prop := m_updateInProgress r = true /\ m_lockFile r = true.
Definition atRest w : Prop := released (m_revision w) /\ packet_values (m_deferredChanges w) = ∅.

Lemma finishUpdate_released keep r : released (finishUpdate keep r).
Proof using Type. by destruct r, keep. Qed.
Lemma guardIfPendingWrite_released r : held r -> let '(guard, r') := guardIfPendingWrite r in if guard then held r' else released r'.
Proof using Type. intros Hr. unfold guardIfPendingWrite. destruct (m_pendingWrite r); [done | apply finishUpdate_released]. Qed.
Lemma beginUpdate_released env ts u p disk r :
  released r -> let '(guard, r') := beginUpdate env ts u p disk r in if guard then held r' else released r'.
Proof using Type.
  intros Hr. unfold beginUpdate. destruct (lockSucceeds env); [|done]. cbn [negb].
  set (r0 := r <| m_lockFile := true |> <| m_updateInProgress := true |> <| m_timestamps := ∅ |> <| m_originalTimestamps := ∅ |>).
  assert (held r0) as H0 by (by destruct r). clearbody r0. clear Hr r. cbv zeta.
  destruct (revisionFile disk) as [| | | |file]; [by destruct r0 | by destruct r0 | apply guardIfPendingWrite_released; by destruct r0
    | apply finishUpdate_released|].
  destruct (_ && _); [apply guardIfPendingWrite_released; by destruct r0|].
  case_bool_decide; [apply guardIfPendingWrite_released; by destruct r0, u|]. by destruct r0, u.
Qed.
Lemma writeNewRevision_held env ts ex r disk : held r -> held (writeNewRevision env ts ex r disk).1.
Proof using Type. unfold writeNewRevision. intros Hr. destruct (canWrite env); [|done]. by destruct r. Qed.
Lemma readFromStore_held env baseline disk w : held (m_revision w) -> held (m_revision (readFromStore env baseline disk w).1).
Proof using Type.
  intros Hr. unfold readFromStore. destruct (isPendingRead _); [|done]. cbn [negb].
  assert (held (if negb (m_found (m_revision w)) then regenerate env (loadKeysFromFiles disk) (m_revision w) disk else (m_revision w, disk)).1) as Hr1.
  { destruct (m_found _); [done|]. cbn [negb]. unfold regenerate. apply writeNewRevision_held. by destruct (m_revision w). }
  destruct (if negb _ then _ else _) as [r1 disk1]. cbn [fst] in Hr1. cbv zeta. case_bool_decide; [done|].
  pose proof (writeNewRevision_held env ∅ (dom (m_timestamps r1) ∖ dom (packet_values (setTimestamps (m_timestamps r1)
    (mkPacket (loadFromFiles (dom (m_timestamps r1)) (toVariantMap baseline) disk1) false true)))) r1 disk1 Hr1) as Hr2.
  destruct (writeNewRevision _ _ _ _ _) as [r2 disk2]. exact Hr2.
Qed.
Lemma applyDeferredChanges_rest w :
  packet_values (m_deferredChanges (applyDeferredChanges w).1) = ∅ /\
  m_updateInProgress (m_revision (applyDeferredChanges w).1) = m_updateInProgress (m_revision w) /\
  m_lockFile (m_revision (applyDeferredChanges w).1) = m_lockFile (m_revision w).
Proof using Type.
  unfold applyDeferredChanges. case_bool_decide; [done|]. by destruct w as [[] []].
Qed.

Lemma loadFromStore_rest env baseline defer pinsOnly disk w :
  atRest w ->
  let '(guard, w', _, _) := loadFromStore env baseline defer pinsOnly disk w in
  (if guard then held (m_revision w') else atRest w') /\ (defer = false -> packet_values (m_deferredChanges w') = ∅).
Proof using Type.
  intros [Hr Hd]. unfold loadFromStore. destruct w as [r d]. cbn [m_revision m_deferredChanges] in *.
  pose proof (beginUpdate_released env (toTimestampMap baseline) (negb pinsOnly) pinsOnly disk r Hr) as Hb.
  destruct (beginUpdate _ _ _ _ _ _) as [guard r']. change ((mkSerializer r d) <| m_revision := r' |>) with (mkSerializer r' d).
  destruct guard.
  - pose proof (readFromStore_held env baseline disk (mkSerializer r' d) Hb) as Hh.
    destruct (readFromStore _ _ _ _) as [w1 disk1]. cbn [fst] in Hh. destruct defer; [by split|].
    pose proof (applyDeferredChanges_rest w1) as (Ha & Hu & Hl). destruct (applyDeferredChanges w1) as [w2 o]. cbn [fst] in *.
    split; [|done]. unfold held in *. by rewrite Hu, Hl.
  - destruct defer; [by split|]. unfold applyDeferredChanges. cbn [m_deferredChanges]. rewrite bool_decide_true by done. by split.
Qed.

(** The lock is released.  After every call of the worker, whatever is on disk and
    whatever fails, no update is in progress, the lock of the revision file is not
    held, and no change that was read waits to be applied. *)
Theorem worker_at_rest env values baseline pinsOnly disk w :
  atRest w ->
  atRest (loadFromStoreNow env baseline pinsOnly disk w).1.1 /\ atRest (saveToStore env values baseline disk w).1.1.
Proof using Type.
  intros Hw. split.
  - unfold loadFromStoreNow. pose proof (loadFromStore_rest env baseline false pinsOnly disk w Hw) as Hl.
    destruct (loadFromStore _ _ _ _ _ _) as [[[guard w1] disk1] o]. cbn [fst]. destruct Hl as [Hg Hd].
    destruct guard; [|exact Hg]. destruct w1 as [r1 d1]. split; [apply (finishUpdate_released false r1) | by apply Hd].
  - unfold saveToStore. assert (atRest (w <| m_revision ::= notifyPendingWrite |>)) as Hw' by (by destruct w as [[] ?]).
    pose proof (loadFromStore_rest env baseline true false disk _ Hw') as Hl.
    destruct (loadFromStore _ _ _ _ _ _) as [[[lock w1] disk1] o]. destruct Hl as [Hg _].
    destruct lock; cbn [negb].
    + cbv zeta. destruct (writeNewRevision _ _ _ _ _) as [r2 disk2].
      match goal with |- context [applyDeferredChanges ?w2] => pose proof (applyDeferredChanges_rest w2) as (Ha & _ & _) end.
      destruct (applyDeferredChanges _) as [[r3 d3] o']. cbn [fst] in *.
      split; [apply (finishUpdate_released false r3) | exact Ha].
    + destruct Hg as [Hg Hd]. destruct w1 as [r1 [m1 s1 c1]]. simpl in Hd. subst m1. split; [exact Hg|]. cbn. apply map_empty_difference.
Qed.
End released.

(** ** What loading and saving do *)

Section store.
Context `{VariantData}.
Implicit Types (env : Environment) (r : CDataCacheRevision) (disk : Disk) (baseline : CValueCachePacket)
  (w : CDataCacheSerializer) (file : RevisionFile) (key : QString).

(** A value a load is to bring: newer than the one in memory, not expired, not deferred
    unless admitted, and of this session if it belongs to one. *)
Definition wanted env (timestamps : gmap QString Z) file r key (t : Z) : Prop :=
  rf_timestamps file !! key = Some t /\ newerOnDisk env timestamps (rf_ttl file) key t = true /\
  (key ∈ rf_deferrals file -> key ∈ m_admittedValues r ∪ m_admittedQueue r) /\
  (rf_session file !! key = None \/ rf_session file !! key = Some (session env)).
(** The revision is another one than the one read last, or something is admitted. *)
Definition otherRevision file r : Prop := ~ (m_uuid r = Some (rf_uuid file) /\ m_admittedQueue r = ∅).

Lemma beginUpdate_wanted env timestamps disk r file key t :
  lockSucceeds env = true -> revisionFile disk = Revision file -> otherRevision file r -> wanted env timestamps file r key t ->
  let '(guard, r') := beginUpdate env timestamps true false disk r in
  guard = true /\ m_found r' = true /\ m_timestamps r' !! key = Some t.
Proof using Type.
  intros Hl Hd Ho (Ht & Hn & Hdef & Hs). unfold beginUpdate. rewrite Hl, Hd. cbn [negb].
  destruct r as [up fo pr pw lo uu ts ots ttl pin def adv adq sess prom ses]. cbv zeta. simpl in *.
  destruct (bool_decide _ && bool_decide _) eqn:E.
  { apply andb_true_iff in E as [E1%bool_decide_eq_true E2%bool_decide_eq_true]. by destruct Ho. }
  assert (filter (fun kt : QString * Z => newerOnDisk env timestamps (rf_ttl file) kt.1 kt.2) (rf_timestamps file) !! key = Some t) as Hf.
  { apply map_lookup_filter_Some. split; [done|]. simpl. by rewrite Hn. }
  rewrite bool_decide_false by (intros Hem; by rewrite Hem, lookup_empty in Hf). split_and!; [done..|].
  apply map_lookup_filter_Some. split; [|exact Hs]. apply map_lookup_filter_Some. split; [exact Hf | exact Hdef].
Qed.

Lemma loadFromFiles_lookup keys current disk key :
  loadFromFiles keys current disk !! key =
  if decide (key ∈ keys)
  then match storedValue disk key with
       | Some (v, m) => if decide (current !! key = Some v) then None else Some (v, m)
       | None => None
       end
  else None.
Proof using Type.
  unfold loadFromFiles. rewrite map_lookup_imap. rewrite lookup_gset_to_gmap. case_decide as Hk.
  - rewrite option_guard_True by done. simpl. destruct (storedValue disk key) as [[v m]|]; [|done]. simpl.
    case_bool_decide; case_decide; done.
  - by rewrite option_guard_False.
Qed.
(** The values that are read, with the timestamps of the revision. *)
Lemma readFromStore_key env baseline disk w key t :
  m_found (m_revision w) = true -> m_timestamps (m_revision w) !! key = Some t ->
  let '(w', disk') := readFromStore env baseline disk w in
  match storedValue disk key with
  | Some (v, _) =>
      if decide (toVariantMap baseline !! key = Some v)
      then canWrite env = true -> exists file', revisionFile disk' = Revision file' /\ rf_timestamps file' !! key = None
      else packet_values (m_deferredChanges w') !! key = Some (v, t)
  | None => canWrite env = true -> exists file', revisionFile disk' = Revision file' /\ rf_timestamps file' !! key = None
  end.
Proof using Type.
  intros Hf Ht. destruct w as [r d]. cbn [m_revision] in *. unfold readFromStore. cbn [m_revision m_deferredChanges].
  assert (isPendingRead r = true) as ->.
  { unfold isPendingRead. rewrite bool_decide_false; [done|]. intros He. by rewrite He, lookup_empty in Ht. }
  rewrite Hf. cbn [negb]. set (lf := loadFromFiles _ _ _). cbv zeta.
  set (missing := dom (m_timestamps r) ∖ _).
  assert (key ∈ dom (m_timestamps r)) as Hdom by (apply elem_of_dom; by eexists).
  assert (lf !! key = match storedValue disk key with
                      | Some (v, m) => if decide (toVariantMap baseline !! key = Some v) then None else Some (v, m)
                      | None => None end) as Hlf by (unfold lf; rewrite loadFromFiles_lookup; by rewrite decide_True).
  assert (packet_values (setTimestamps (m_timestamps r) (mkPacket lf false true)) !! key = (fun i => (i.1, t)) <$> lf !! key) as Hst.
  { simpl. rewrite map_lookup_imap. destruct (lf !! key) as [[v m]|]; [|done]. simpl. by rewrite Ht. }
  assert (forall v m, lf !! key = Some (v, m) -> packet_values (packet_insertPacket (setTimestamps (m_timestamps r) (mkPacket lf false true)) d) !! key = Some (v, t)) as Hload.
  { intros v m Hv. destruct d. simpl in *. apply lookup_union_Some_l. by rewrite Hst, Hv. }
  assert (lf !! key = None -> canWrite env = true ->
    exists file', revisionFile (if bool_decide (missing = ∅) then (r, disk) else writeNewRevision env ∅ missing r disk).2 = Revision file' /\
      rf_timestamps file' !! key = None) as Hmiss.
  { intros Hn Hw. assert (key ∈ missing) as Hin by (unfold missing; apply elem_of_difference; split; [done|]; apply not_elem_of_dom; by rewrite Hst, Hn).
    rewrite bool_decide_false by set_solver. unfold writeNewRevision. rewrite Hw. cbn [negb snd]. destruct disk. simpl. eexists. split; [reflexivity|].
    simpl. unfold writtenTimestamps. apply map_lookup_filter_None. right. intros t' _ Hnot. by apply Hnot. }
  destruct (if bool_decide (missing = ∅) then _ else _) as [r' disk']. cbn [snd m_deferredChanges] in *.
  destruct (storedValue disk key) as [[v m]|]; [|by apply Hmiss]. case_decide; [by apply Hmiss | by eapply Hload].
Qed.
Lemma applyDeferredChanges_loaded w key i :
  packet_values (m_deferredChanges w) !! key = Some i ->
  exists values, ValuesLoadedFromStore values ∈ (applyDeferredChanges w).2 /\ packet_values values !! key = Some i.
Proof using Type.
  intros Hi. unfold applyDeferredChanges. case_bool_decide as He; [by rewrite He, lookup_empty in Hi|].
  eexists. split; [by left|]. by destruct (m_deferredChanges w).
Qed.

(** A load brings what is newer.  When the revision is not the one read last, a value that
    is wanted and that differs from the one in memory is handed to the cache, with
    the timestamp of the revision; one that is the same as in memory, or missing,
    disappears from the revision. *)
Theorem load_brings_newer env baseline disk w file key t :
  lockSucceeds env = true -> revisionFile disk = Revision file -> otherRevision file (m_revision w) ->
  wanted env (toTimestampMap baseline) file (m_revision w) key t ->
  let '(_, disk', o) := loadFromStoreNow env baseline false disk w in
  match storedValue disk key with
  | Some (v, _) =>
      if decide (toVariantMap baseline !! key = Some v)
      then canWrite env = true -> exists file', revisionFile disk' = Revision file' /\ rf_timestamps file' !! key = None
      else exists values, ValuesLoadedFromStore values ∈ o /\ packet_values values !! key = Some (v, t)
  | None => canWrite env = true -> exists file', revisionFile disk' = Revision file' /\ rf_timestamps file' !! key = None
  end.
Proof using Type.
  intros Hl Hd Ho Hw. unfold loadFromStoreNow, loadFromStore. cbn [negb].
  pose proof (beginUpdate_wanted env (toTimestampMap baseline) disk (m_revision w) file key t Hl Hd Ho Hw) as Hb.
  destruct (beginUpdate _ _ _ _ _ _) as [guard r']. destruct Hb as (-> & Hf & Ht).
  pose proof (readFromStore_key env baseline disk (w <| m_revision := r' |>) key t) as Hr.
  assert (m_revision (w <| m_revision := r' |>) = r') as Er by (by destruct w). rewrite Er in Hr. specialize (Hr Hf Ht).
  destruct (readFromStore _ _ _ _) as [w1 disk1].
  pose proof (applyDeferredChanges_loaded w1 key) as Ha. destruct (applyDeferredChanges w1) as [w2 o]. cbn [snd] in Ha.
  destruct (storedValue disk key) as [[v m]|]; [|done]. case_decide; [done|]. by apply Ha.
Qed.

(** One revision is read once.  While the revision file has the identifier read last
    and nothing is admitted, a load does nothing, whatever the file and the values
    have become. *)
Theorem same_revision_ignored env baseline pinsOnly disk w file :
  atRest w -> m_pendingWrite (m_revision w) = false ->
  revisionFile disk = Revision file -> m_uuid (m_revision w) = Some (rf_uuid file) -> m_admittedQueue (m_revision w) = ∅ ->
  let '(w', disk', o) := loadFromStoreNow env baseline pinsOnly disk w in
  disk' = disk /\ o = [] /\ m_uuid (m_revision w') = m_uuid (m_revision w).
Proof using Type.
  intros [_ Hdef] Hp Hd Hu Ha. unfold loadFromStoreNow, loadFromStore, beginUpdate, guardIfPendingWrite. destruct w as [r d].
  cbn [m_revision m_deferredChanges] in *. destruct (lockSucceeds env); cbn [negb].
  - rewrite Hd. destruct r as [up fo pr pw lo uu ts ots ttl pin def adv adq sess prom ses]. simpl in *.
    rewrite !bool_decide_true by done. simpl. rewrite Hp. simpl. unfold applyDeferredChanges. simpl. by rewrite bool_decide_true.
  - unfold applyDeferredChanges. simpl. by rewrite bool_decide_true.
Qed.

(** *** Saving *)

Lemma storedValue_saved now0 values disk key v :
  values !! key = Some v -> storedValue (saveToFiles now0 values disk) key = Some (v, now0).
Proof using Type.
  intros Hv. unfold storedValue, saveToFiles. destruct disk as [rev fs]. simpl.
  enough (exists vf, map_fold (putValue now0) fs values !! filenameForKey key = Some vf /\
      vf_values vf !! key = Some v /\ vf_lastModified vf = now0) as (vf & -> & Hf & Hm).
  { simpl. rewrite Hf. simpl. by rewrite Hm. }
  revert v Hv. revert key. apply (map_fold_weak_ind (fun fs' m => forall key v, m !! key = Some v ->
    exists vf, fs' !! filenameForKey key = Some vf /\ vf_values vf !! key = Some v /\ vf_lastModified vf = now0)).
  - intros key v. by rewrite lookup_empty.
  - intros k x m fs' Hk IH key v. unfold putValue. intros [[<- <-]|[Hne Hm]]%lookup_insert_Some.
    + eexists. split; [by rewrite lookup_insert_eq|]. simpl. by rewrite lookup_insert_eq.
    + destruct (IH key v Hm) as (vf & Hfile & Hval & Hmod). destruct (decide (filenameForKey k = filenameForKey key)) as [E|E].
      * eexists. rewrite E, lookup_insert_eq. split; [reflexivity|]. rewrite Hfile. simpl. by rewrite lookup_insert_ne.
      * exists vf. by rewrite lookup_insert_ne.
Qed.

(** What of the revision a load leaves alone. *)
Definition sameRegistrations r r' : Prop :=
  m_timesToLive r' = m_timesToLive r /\ m_deferredValues r' = m_deferredValues r.
(** No session owns the key, in memory or in the file. *)
Definition ofNoSession key r disk : Prop :=
  m_sessionValues r !! key = None /\
  match revisionFile disk with Revision file => rf_session file !! key = None | _ => True end.

Lemma writeNewRevision_same env ts ex r disk key :
  let '(r', disk') := writeNewRevision env ts ex r disk in
  sameRegistrations r r' /\ (ofNoSession key r disk -> ofNoSession key r' disk').
Proof using Type.
  unfold writeNewRevision. destruct (canWrite env); [|done]. cbn [negb]. destruct r as [up fo pr pw lo uu tm ots ttl pin def adv adq sess prom ses].
  split; [done|]. intros [Hs _]. unfold ofNoSession. simpl in *. by rewrite map_lookup_imap, Hs.
Qed.
Lemma beginUpdate_pendingWrite env ts disk r key :
  lockSucceeds env = true -> revisionFile disk <> UnreadableRevision -> m_pendingWrite r = true ->
  let '(guard, r') := beginUpdate env ts true false disk r in
  guard = true /\ sameRegistrations r r' /\ (ofNoSession key r disk -> ofNoSession key r' disk).
Proof using Type.
  intros Hl Hu Hp. unfold beginUpdate, guardIfPendingWrite. rewrite Hl. cbn [negb].
  destruct r as [up fo pr pw lo uu tm ots ttl pin def adv adq sess prom ses]. simpl in Hp. subst pw. cbv zeta. unfold ofNoSession.
  destruct (revisionFile disk) as [| | | |file]; simpl; [by split_and! .. | done |].
  destruct (_ && _); [by split_and!|]. case_bool_decide; [by split_and!|]. split_and!; [done | done|].
  intros [Hs Hf]. split; [|exact Hf]. apply lookup_union_None. by split.
Qed.
Lemma readFromStore_same env baseline disk w key :
  let '(w', disk') := readFromStore env baseline disk w in
  sameRegistrations (m_revision w) (m_revision w') /\ (ofNoSession key (m_revision w) disk -> ofNoSession key (m_revision w') disk').
Proof using Type.
  destruct w as [r d]. unfold readFromStore. cbn [m_revision]. destruct (isPendingRead r); [|done]. cbn [negb].
  assert (let '(r1, disk1) := if negb (m_found r) then regenerate env (loadKeysFromFiles disk) r disk else (r, disk) in
          sameRegistrations r r1 /\ (ofNoSession key r disk -> ofNoSession key r1 disk1)) as H1.
  { destruct (m_found r); [done|]. cbn [negb]. unfold regenerate.
    pose proof (writeNewRevision_same env (loadKeysFromFiles disk) ∅ (r <| m_originalTimestamps := loadKeysFromFiles disk |>) disk key) as Hw.
    destruct (writeNewRevision _ _ _ _ _) as [r1 disk1]. by destruct r. }
  destruct (if negb (m_found r) then _ else _) as [r1 disk1]. destruct H1 as [[E1 E2] Hs1]. cbv zeta. case_bool_decide; [done|].
  match goal with |- context [writeNewRevision env ∅ ?ms r1 disk1] => pose proof (writeNewRevision_same env ∅ ms r1 disk1 key) as Hw end.
  destruct (writeNewRevision _ _ _ _ _) as [r2 disk2]. destruct Hw as [[E3 E4] Hs2]. cbn [m_revision].
  unfold sameRegistrations. rewrite E3, E4. split; [done|]. auto.
Qed.

Lemma saveToStore_saved env values baseline disk w :
  lockSucceeds env = true -> canWrite env = true -> revisionFile disk <> UnreadableRevision ->
  let '(_, disk', _) := saveToStore env values baseline disk w in
  (forall key v, values !! key = Some v -> storedValue disk' key = Some (v, now env)) /\
  exists file, revisionFile disk' = Revision file /\ rf_uuid file = processUuid env /\
    rf_ttl file = m_timesToLive (m_revision w) /\ rf_deferrals file = m_deferredValues (m_revision w) /\
    (forall key t, toTimestampMap baseline !! key = Some t -> t <> 0 -> rf_timestamps file !! key = Some t) /\
    (forall key, ofNoSession key (m_revision w) disk -> rf_session file !! key = None).
Proof using Type.
  intros Hl Hw Hu. unfold saveToStore, loadFromStore. destruct w as [r d].
  change ((mkSerializer r d) <| m_revision ::= notifyPendingWrite |>) with (mkSerializer (notifyPendingWrite r) d). cbn [m_revision].
  assert (forall key, let '(guard, r') := beginUpdate env (toTimestampMap baseline) true false disk (notifyPendingWrite r) in
    guard = true /\ sameRegistrations (notifyPendingWrite r) r' /\ (ofNoSession key (notifyPendingWrite r) disk -> ofNoSession key r' disk)) as Hb.
  { intros key. apply beginUpdate_pendingWrite; [done..|]. by destruct r. }
  cbn [negb]. destruct (beginUpdate _ _ _ _ _ _) as [guard r1].
  change ((mkSerializer (notifyPendingWrite r) d) <| m_revision := r1 |>) with (mkSerializer r1 d).
  destruct (Hb []) as (-> & [E1 E2] & _). pose proof (readFromStore_same env baseline disk (mkSerializer r1 d)) as Hr.
  destruct (readFromStore _ _ _ _) as [[r2 d2] disk2]. cbn [m_revision] in Hr.
  change ((mkSerializer r2 d2) <| m_deferredChanges ::= _ |>) with (mkSerializer r2 (d2 <| packet_values ::= fun m => m ∖ ((fun v => (v, 0)) <$> values) |>)).
  cbn [m_revision negb]. unfold writeNewRevision. rewrite Hw. cbn [negb].
  destruct (applyDeferredChanges _) as [w3 o3]. split.
  - intros key v. apply storedValue_saved.
  - destruct disk2 as [rev2 fs2]. simpl. eexists. split; [reflexivity|]. simpl.
    destruct (Hr []) as [[E3 E4] _]. destruct r as [up fo pr pw lo uu tm ots ttl pin def adv adq sess prom ses]. simpl in *.
    destruct r2 as [up2 fo2 pr2 pw2 lo2 uu2 tm2 ots2 ttl2 pin2 def2 adv2 adq2 sess2 prom2 ses2]. simpl in *.
    split_and!; [done | congruence | congruence | |].
    + intros key t Ht Hnz. unfold writtenTimestamps. simpl. apply map_lookup_filter_Some. split; [|set_solver].
      apply lookup_union_Some_l, map_lookup_filter_Some. by split.
    + intros key Hs. destruct (Hb key) as (_ & _ & Hs1). destruct (Hr key) as [_ Hs2].
      assert (sess2 !! key = None) as Hn by (by destruct (Hs2 (Hs1 Hs)) as [? _]). by rewrite map_lookup_imap, Hn.
Qed.

(** C28: A change reaches another process that loads next.  One process saves a value it has
    set, and another one loads the files as that save left them; both get the lock of the
    revision file, and it can be read and written.  The cache of the other process
    is handed the value with its time, when the time is not zero and newer than the
    one that process has, the value is different from the one it has, is neither deferred nor of a session nor
    expired, and the revision it read last is not by the first process.
    (Otherwise a change can be missed: [same_revision_ignored],
    [time_rolled_back], [renewed_value_forgotten].) *)
Theorem change_reaches_others envA envB values baselineA baselineB disk wA wB key v t :
  lockSucceeds envA = true -> canWrite envA = true -> lockSucceeds envB = true ->
  revisionFile disk <> UnreadableRevision ->
  values !! key = Some v -> toTimestampMap baselineA !! key = Some t -> t <> 0 ->
  key ∉ m_deferredValues (m_revision wA) -> ofNoSession key (m_revision wA) disk ->
  m_uuid (m_revision wB) <> Some (processUuid envA) ->
  newerOnDisk envB (toTimestampMap baselineB) (m_timesToLive (m_revision wA)) key t = true ->
  toVariantMap baselineB !! key <> Some v ->
  let '(_, disk', _) := saveToStore envA values baselineA disk wA in
  let '(_, _, o) := loadFromStoreNow envB baselineB false disk' wB in
  exists loaded, ValuesLoadedFromStore loaded ∈ o /\ packet_values loaded !! key = Some (v, t).
Proof using Type.
  intros HlA HcA HlB Hu Hv Ht Hnz Hdef Hs Huuid Hn Hne.
  pose proof (saveToStore_saved envA values baselineA disk wA HlA HcA Hu) as Hsave.
  destruct (saveToStore _ _ _ _ _) as [[wA' disk'] oA]. destruct Hsave as (Hstored & file & Hf & Eu & Ettl & Ed & Hts & Hses).
  pose proof (load_brings_newer envB baselineB disk' wB file key t HlB Hf) as Hload.
  destruct (loadFromStoreNow _ _ _ _ _) as [[wB' disk''] oB].
  rewrite (Hstored key v Hv), decide_False in Hload by done. apply Hload.
  - intros [E _]. congruence.
  - split_and!; [by apply Hts | by rewrite Ettl | by rewrite Ed | left; by apply Hses].
Qed.
End store.

(** ** Concrete processes *)

#[local] Existing Instance plainData.
Definition environmentOf (process : QUuid) (t : Z) : Environment := mkEnvironment t true true 7 process.
Definition plainFive : CVariant := plain 5.
Definition plainDisk : Disk := mkDisk EmptyRevision ∅.
Definition memory (l : list (QString * (Z * Z))) : CValueCachePacket :=
  mkPacket (list_to_map (map (fun kv => (kv.1, (plain kv.2.1, kv.2.2))) l)) false true.
Definition plainWorker : CDataCacheSerializer := CDataCacheSerializer_init.
(** The first process has set the value and saves it. *)
Definition savedOnce : CDataCacheSerializer * Disk * list StoreOut :=
  saveToStore (environmentOf 1 1000) {[ keyA := plain 5 ]} (memory [(keyA, (5, 999))]) plainDisk plainWorker.
(** The second one has another value of old, and loads. *)
Definition loadedOnce : CDataCacheSerializer * Disk * list StoreOut :=
  loadFromStoreNow (environmentOf 2 1010) (memory [(keyA, (4, 10))]) false savedOnce.1.2 plainWorker.
(** The first one changes the value again. *)
Definition savedTwice : CDataCacheSerializer * Disk * list StoreOut :=
  saveToStore (environmentOf 1 2000) {[ keyA := plain 6 ]} (memory [(keyA, (6, 1999))]) loadedOnce.1.2 savedOnce.1.1.
Definition plainRevision (p : CDataCacheSerializer * Disk * list StoreOut) : RevisionFile :=
  match revisionFile p.1.2 with Revision file => file | _ => mkRevisionFile 0 ∅ ∅ ∅ ∅ ∅ end.

Lemma plainWorker_rest : atRest plainWorker.
Proof. by vm_compute. Qed.
Lemma worker_at_rest_witness :
  atRest loadedOnce.1.1 /\ atRest savedOnce.1.1.
Proof.
  split.
  - exact (proj1 (worker_at_rest (environmentOf 2 1010) ∅ (memory [(keyA, (4, 10))]) false savedOnce.1.2 plainWorker plainWorker_rest)).
  - exact (proj2 (worker_at_rest (environmentOf 1 1000) {[ keyA := plain 5 ]} (memory [(keyA, (5, 999))]) false plainDisk plainWorker plainWorker_rest)).
Defined.

Lemma load_brings_newer_witness :
  exists values, ValuesLoadedFromStore values ∈ loadedOnce.2 /\ packet_values values !! keyA = Some (plain 5, 999).
Proof.
  pose proof (load_brings_newer (environmentOf 2 1010) (memory [(keyA, (4, 10))]) savedOnce.1.2 plainWorker (plainRevision savedOnce) keyA 999) as Hl.
  assert (wanted (environmentOf 2 1010) (toTimestampMap (memory [(keyA, (4, 10))])) (plainRevision savedOnce) (m_revision plainWorker) keyA 999) as Hw.
  { split; [by vm_compute|]. split; [by vm_compute|]. split; [|left; by vm_compute]. intros Hd. by vm_compute in Hd. }
  assert (otherRevision (plainRevision savedOnce) (m_revision plainWorker)) as Ho by (intros [Hu _]; by vm_compute in Hu).
  specialize (Hl eq_refl ltac:(by vm_compute) Ho Hw). unfold loadedOnce.
  assert (storedValue savedOnce.1.2 keyA = Some (plain 5, 1000)) as Hs by by vm_compute. rewrite Hs in Hl.
  assert (toVariantMap (memory [(keyA, (4, 10))]) !! keyA <> Some (plain 5)) as Hne by by vm_compute.
  destruct (loadFromStoreNow _ _ _ _ _) as [[w' disk'] o]. rewrite decide_False in Hl by exact Hne. exact Hl.
Defined.

Lemma change_reaches_others_witness :
  exists loaded, ValuesLoadedFromStore loaded ∈ loadedOnce.2 /\ packet_values loaded !! keyA = Some (plain 5, 999).
Proof.
  assert (let '(_, disk', _) := saveToStore (environmentOf 1 1000) {[ keyA := plain 5 ]} (memory [(keyA, (5, 999))]) plainDisk plainWorker in
    let '(_, _, o) := loadFromStoreNow (environmentOf 2 1010) (memory [(keyA, (4, 10))]) false disk' plainWorker in
    exists loaded, ValuesLoadedFromStore loaded ∈ o /\ packet_values loaded !! keyA = Some (plain 5, 999)) as Hc.
  { apply (change_reaches_others (environmentOf 1 1000) (environmentOf 2 1010) {[ keyA := plainFive ]} (memory [(keyA, (5, 999))])
      (memory [(keyA, (4, 10))]) plainDisk plainWorker plainWorker keyA plainFive 999).
    - reflexivity.
    - reflexivity.
    - reflexivity.
    - discriminate.
    - by vm_compute.
    - by vm_compute.
    - discriminate.
    - intros Hd. by vm_compute in Hd.
    - split; [by vm_compute | exact I].
    - discriminate.
    - by vm_compute.
    - by vm_compute. }
  unfold loadedOnce, savedOnce. destruct (saveToStore _ _ _ _ _) as [[w1 d1] o1]. cbn [fst snd].
  destruct (loadFromStoreNow _ _ _ _ _) as [[w2 d2] o2]. exact Hc.
Defined.

(** The second change of the first process stays unseen: the identifier of the revision
    is that of the process, which the second one has read before. *)
Definition loadedTwice : CDataCacheSerializer * Disk * list StoreOut :=
  loadFromStoreNow (environmentOf 2 2010) (memory [(keyA, (5, 999))]) false savedTwice.1.2 loadedOnce.1.1.
Lemma same_revision_ignored_witness :
  storedValue savedTwice.1.2 keyA = Some (plain 6, 2000) /\ loadedTwice.2 = [].
Proof.
  split; [by vm_compute|].
  assert (atRest loadedOnce.1.1) as H1 by by vm_compute.
  assert (m_pendingWrite (m_revision loadedOnce.1.1) = false) as H2 by by vm_compute.
  assert (revisionFile savedTwice.1.2 = Revision (plainRevision savedTwice)) as H3 by by vm_compute.
  assert (m_uuid (m_revision loadedOnce.1.1) = Some (rf_uuid (plainRevision savedTwice))) as H4 by by vm_compute.
  assert (m_admittedQueue (m_revision loadedOnce.1.1) = ∅) as H5 by by vm_compute.
  pose proof (same_revision_ignored (environmentOf 2 2010) (memory [(keyA, (5, 999))]) false savedTwice.1.2 loadedOnce.1.1
    (plainRevision savedTwice) H1 H2 H3 H4 H5) as Hs.
  unfold loadedTwice. destruct (loadFromStoreNow _ _ _ _ _) as [[w2 d2] o2]. by destruct Hs as (_ & -> & _).
Defined.

(** A value set again without being changed is forgotten: the other process, which has the
    same value with an older time, takes it off the revision, and a third one that
    starts then finds nothing to load. *)
Lemma renewed_value_forgotten :
  let load := loadFromStoreNow (environmentOf 2 1010) (memory [(keyA, (5, 10))]) false savedOnce.1.2 plainWorker in
  rf_timestamps (plainRevision savedOnce) !! keyA = Some 999 /\
  rf_timestamps (plainRevision load) !! keyA = None /\
  (loadFromStoreNow (environmentOf 3 1020) (memory []) false load.1.2 plainWorker).2 = [].
Proof. by vm_compute. Qed.

(** Saving another value writes the old time of a value that another process has changed:
    a third process with a time in between does not load it. *)
Lemma time_rolled_back :
  let save := saveToStore (environmentOf 2 1010) {[ keyB := plain 8 ]} (memory [(keyA, (4, 10)); (keyB, (8, 1009))]) savedOnce.1.2 plainWorker in
  storedValue save.1.2 keyA = Some (plain 5, 1000) /\ rf_timestamps (plainRevision save) !! keyA = Some 10 /\
  (loadFromStoreNow (environmentOf 3 1020) (memory [(keyA, (3, 50)); (keyB, (8, 1009))]) false save.1.2 plainWorker).2 = [].
Proof. by vm_compute. Qed.

(** Asking for one value breaks the promises made for others: the update that finds nothing
    newer ends without keeping them. *)
Lemma promises_broken :
  let r := (m_revision loadedOnce.1.1) <| m_promises := [1%N] |> in
  (isNewerValueAvailable (environmentOf 2 1020) keyB 0 loadedOnce.1.2 r).1 = false /\
  m_promises (isNewerValueAvailable (environmentOf 2 1020) keyB 0 loadedOnce.1.2 r).2 = [].
Proof. by vm_compute. Qed.
