(* ===== verification/DigestSignal.v ===== *)
(** * Digest signals (misc/digestsignal.h, misc/digestsignal.cpp)

    Collects input signals and resends one signal, a delay after the last input
    or once [m_maxInputsPerDigest] inputs have come.  The single-shot timer is
    the time at which it fires, when it is running. *)

From S2P Require Import Prelude.

Record CDigestSignal := mkDigest {
  m_timer : option Z; m_interval : Z; m_maxInputsPerDigest : Z; m_inputsCount : Z }.

Definition CDigestSignal_make (maxDelay maxInputsPerDigest : Z) : CDigestSignal :=
  mkDigest None maxDelay maxInputsPerDigest 0.

(** Stops the timer, resets the count and emits [digestSignal]. *)
Definition timerTimeout (d : CDigestSignal) : CDigestSignal :=
  mkDigest None (m_interval d) (m_maxInputsPerDigest d) 0.

(** The boolean: [digestSignal] was emitted. *)
Definition inputSignal (now : Z) (d : CDigestSignal) : CDigestSignal * bool :=
  let d := mkDigest (Some (now + m_interval d)) (m_interval d) (m_maxInputsPerDigest d)
                    (m_inputsCount d + 1) in
  if m_inputsCount d >=? m_maxInputsPerDigest d then (timerTimeout d, true) else (d, false).

(** ** Behaviour over time

    A step is an input at some time, or the expiry of the running timer.  The
    last argument is the number of inputs of the digest emitted, if any. *)

Inductive digest_step : CDigestSignal -> Z -> bool -> CDigestSignal -> list Z -> Prop :=
  | step_input d now d' emitted :
      inputSignal now d = (d', emitted) ->
      digest_step d now true d' (if emitted then [m_inputsCount d + 1] else [])
  | step_timeout d now deadline :
      m_timer d = Some deadline -> deadline <= now ->
      digest_step d now false (timerTimeout d) [m_inputsCount d].

(** A run: its inputs (times) and its digests (sizes). *)
Inductive digest_run : CDigestSignal -> list Z -> CDigestSignal -> list Z -> Prop :=
  | run_nil d : digest_run d [] d []
  | run_snoc d ins d' outs now is_input d'' outs' :
      digest_run d ins d' outs -> digest_step d' now is_input d'' outs' ->
      digest_run d (ins ++ if is_input then [now] else []) d'' (outs ++ outs').

(** The timer runs exactly while inputs are pending, and fewer than the maximum
    are. *)
Definition digestWf (d : CDigestSignal) : Prop :=
  0 < m_maxInputsPerDigest d /\ 0 <= m_inputsCount d < m_maxInputsPerDigest d /\
  (m_timer d = None <-> m_inputsCount d = 0).

Definition sum (l : list Z) : Z := fold_right Z.add 0 l.

Lemma sum_app l l' : sum (l ++ l') = sum l + sum l'.
Proof. induction l as [|x l IH]; simpl; [done|]. unfold sum in *. simpl. lia. Qed.

Lemma step_wf d now i d' outs :
  digestWf d -> digest_step d now i d' outs ->
  digestWf d' /\ m_maxInputsPerDigest d' = m_maxInputsPerDigest d /\
  Forall (fun n => 1 <= n <= m_maxInputsPerDigest d) outs /\
  sum outs + m_inputsCount d' = m_inputsCount d + if i then 1 else 0.
Proof.
  intros (Hmax & Hc & Ht) Hs. destruct Hs as [d now d' emitted E | d now deadline E Hd].
  - unfold inputSignal in E. simpl in E.
    destruct (Z.geb_spec (m_inputsCount d + 1) (m_maxInputsPerDigest d));
      injection E as <- <-; unfold digestWf; cbn -[Z.add].
    + split_and!; try done; try lia. repeat constructor; lia.
    + split_and!; try done; try lia. split; [done | lia].
  - assert (m_inputsCount d <> 0) by (intros E'; apply Ht in E'; congruence).
    unfold digestWf; simpl. split_and!; try done; try lia.
    repeat constructor; lia.
Qed.

(** No input is lost.  In every run of a fresh digest signal the inputs are
    those of the digests emitted and fewer than the maximum that are pending,
    for which the timer is running; a digest stands for at least one input and
    at most the maximum. *)
Theorem digest_conserves maxDelay max ins d outs :
  0 < max -> digest_run (CDigestSignal_make maxDelay max) ins d outs ->
  Z.of_nat (length ins) = sum outs + m_inputsCount d /\
  Forall (fun n => 1 <= n <= max) outs /\ 0 <= m_inputsCount d < max /\
  (m_timer d = None <-> m_inputsCount d = 0).
Proof.
  intros Hmax Hrun.
  assert (digestWf d /\ m_maxInputsPerDigest d = max /\ Forall (fun n => 1 <= n <= max) outs /\
          Z.of_nat (length ins) = sum outs + m_inputsCount d) as ((H1 & H2 & H3) & <- & Hf & Hn);
    [|tauto].
  remember (CDigestSignal_make maxDelay max) as d0 eqn:E0.
  induction Hrun as [d | d ins d' outs now i d'' outs' Hrun IH Hs]; subst.
  { unfold digestWf; simpl. split_and!; try done; lia. }
  destruct (IH eq_refl) as (Hwf & Hm & Hf & Hn).
  destruct (step_wf _ _ _ _ _ Hwf Hs) as (Hwf' & Hm' & Hf' & Hn').
  rewrite Hm in *. split_and!; try done.
  - by apply Forall_app.
  - rewrite length_app, sum_app. destruct i; simpl; lia.
Qed.

Lemma digest_conserves_witness :
  let d := fst (inputSignal 20 (fst (inputSignal 10 (CDigestSignal_make 250 2)))) in
  Z.of_nat (length [10; 20]) = sum [2] + m_inputsCount d /\
  Forall (fun n => 1 <= n <= 2) [2] /\ 0 <= m_inputsCount d < 2 /\
  (m_timer d = None <-> m_inputsCount d = 0).
Proof.
  apply (digest_conserves 250 2 [10; 20]); [lia|].
  apply (run_snoc _ [10] (fst (inputSignal 10 (CDigestSignal_make 250 2))) [] 20 true _ [2]).
  - apply (run_snoc _ [] (CDigestSignal_make 250 2) [] 10 true _ []); [constructor|].
    apply (step_input (CDigestSignal_make 250 2) 10 _ false). reflexivity.
  - apply (step_input (fst (inputSignal 10 (CDigestSignal_make 250 2))) 20 _ true). reflexivity.
Defined.
