(* ===== verification/Transponder.v ===== *)
(** * Transponders (misc/aviation/transponder.h, misc/aviation/transponder.cpp)

    Code and mode of a transponder, the texts of the modes, and the check of a
    code: up to four octal digits.  [None] of a mode's text is the program's
    abort on a mode without text. *)

From S2P Require Import QtCore QtReference Serializer.
Import TransponderMode.

Record CTransponder := mkTransponder { m_transponderCode : Z; m_transponderMode : TransponderMode.t }.

Definition CTransponder_default : CTransponder := mkTransponder 0 StateStandby.

Definition isInNormalSendingMode (t : CTransponder) : bool :=
  match m_transponderMode t with
  | ModeA | ModeC | ModeMil1 | ModeMil2 | ModeMil3 | ModeMil4 | ModeMil5 => true
  | StateIdent | StateStandby | ModeS => false
  end.
Definition isInStandby (t : CTransponder) : bool := bool_decide (StateStandby = m_transponderMode t).
Definition isIdentifying (t : CTransponder) : bool := bool_decide (StateIdent = m_transponderMode t).

(** The boolean: the mode was changed. *)
Definition setTransponderMode (mode : TransponderMode.t) (t : CTransponder) : bool * CTransponder :=
  if decide (mode = m_transponderMode t) then (false, t)
  else (true, mkTransponder (m_transponderCode t) mode).

Definition toggleTransponderMode (t : CTransponder) : CTransponder :=
  if bool_decide (m_transponderMode t = StateIdent) || isInNormalSendingMode t
  then (setTransponderMode StateStandby t).2
  else (setTransponderMode ModeC t).2.

Definition modeAsString (mode : TransponderMode.t) : option QString :=
  match mode with
  | StateIdent => Some (lit "Ident") | StateStandby => Some (lit "Standby")
  | ModeC => Some (lit "Mode C") | ModeS => Some (lit "Mode S")
  | ModeMil1 => Some (lit "Mil.Mode 1") | ModeMil2 => Some (lit "Mil.Mode 2")
  | ModeMil3 => Some (lit "Mil.Mode 3") | ModeMil4 => Some (lit "Mil.Mode 4")
  | ModeMil5 => Some (lit "Mil.Mode 5") | ModeA => None
  end.
Definition modeAsShortString (mode : TransponderMode.t) : option QString :=
  match mode with
  | StateIdent => Some (lit "I") | StateStandby => Some (lit "S")
  | ModeC => Some (lit "C") | ModeS => Some (lit "S")
  | ModeMil1 => Some (lit "1") | ModeMil2 => Some (lit "2") | ModeMil3 => Some (lit "3")
  | ModeMil4 => Some (lit "4") | ModeMil5 => Some (lit "5") | ModeA => None
  end.

Definition octalChar (c : QChar) : bool := ((48 <=? c) && (c <=? 55))%N.

(** The regular expression [^[0-7]{1,4}$]; its end also matches before a final
    line feed. *)
Definition octalText (s : QString) : bool :=
  (0 <? length s)%nat && (length s <=? 4)%nat && forallb octalChar s.
Definition matchesOctal (s : QString) : bool :=
  octalText s ||
  (bool_decide (last s = Some 10%N) && octalText (take (length s - 1) s)).

Section with_qt.
Context `{QtConv}.

Definition modeFromString (modeString : QString) : TransponderMode.t :=
  if startsWithCI modeString (lit "I") then StateIdent
  else if startsWithCI modeString (lit "S") then StateStandby
  else if startsWithCI modeString (lit "Mode C") then ModeC
  else if startsWithCI modeString (lit "C") then ModeC
  else if startsWithCI modeString (lit "Mode S") then ModeS
  else if containsCI modeString (lit "1") then ModeMil1
  else if containsCI modeString (lit "2") then ModeMil2
  else if containsCI modeString (lit "3") then ModeMil3
  else if containsCI modeString (lit "4") then ModeMil4
  else if containsCI modeString (lit "5") then ModeMil5
  else StateStandby.

Definition setModeAsString (mode : QString) (t : CTransponder) : CTransponder :=
  (setTransponderMode (modeFromString mode) t).2.

(** The constructors from texts; a code that is no number becomes -1. *)
Definition CTransponder_makeModeText (code : Z) (mode : QString) : CTransponder :=
  setModeAsString mode (mkTransponder code StateStandby).
Definition CTransponder_makeCodeText (code : QString) (mode : TransponderMode.t) : CTransponder :=
  mkTransponder (default (-1) (qt_toInt code)) mode.
Definition CTransponder_makeTexts (code mode : QString) : CTransponder :=
  setModeAsString mode (mkTransponder (default (-1) (qt_toInt code)) StateStandby).

Definition isValidTransponderCodeText (transponderCode : QString) : bool :=
  if isEmpty transponderCode || (4 <? length transponderCode)%nat then false
  else match qt_toInt transponderCode with
       | None => false
       | Some tc => if (tc <? 0) || (7777 <? tc) then false else matchesOctal transponderCode
       end.

Definition isValidTransponderCode (transponderCode : Z) : bool :=
  if (transponderCode <? 0) || (7777 <? transponderCode) then false
  else isValidTransponderCodeText (qt_number transponderCode).

Definition validValues (t : CTransponder) : bool := isValidTransponderCode (m_transponderCode t).

(** An illegal text changes nothing (it is an assertion in debug builds). *)
Definition setTransponderCodeText (transponderCode : QString) (t : CTransponder) : CTransponder :=
  if isValidTransponderCodeText transponderCode
  then mkTransponder (toInt transponderCode) (m_transponderMode t) else t.

Definition getTransponderCodeFormatted (t : CTransponder) : QString :=
  right (lit "0000" ++ qt_number (m_transponderCode t)) 4.
Definition getTransponderCodeAndModeFormatted (t : CTransponder) : option QString :=
  s ← modeAsString (m_transponderMode t);
  Some (getTransponderCodeFormatted t ++ lit " " ++ s).
End with_qt.

(** ** The decimal digits of a code *)

Definition dec4 (n : Z) : QString :=
  map Z.to_N [48 + n / 1000; 48 + n / 100 mod 10; 48 + n / 10 mod 10; 48 + n mod 10].
Definition leading (n : Z) : nat :=
  if n <? 10 then 3 else if n <? 100 then 2 else if n <? 1000 then 1 else 0.

#[local] Ltac Zify.zify_post_hook ::= Z.div_mod_to_equations.

Section laws.
Context `{QtConvLaws}.

Lemma qt_number4 n : 0 <= n < 10000 -> qt_number n = drop (leading n) (dec4 n).
Proof.
  intros Hn. unfold leading, dec4.
  assert (D : forall k, 0 < k -> 0 <= n / k) by (intros; apply Z.div_pos; lia).
  pose proof (D 10 ltac:(lia)). pose proof (D 100 ltac:(lia)). pose proof (D 1000 ltac:(lia)).
  assert (n / 100 = n / 10 / 10) as E2 by (rewrite Z.div_div by lia; done).
  assert (n / 1000 = n / 10 / 10 / 10) as E3 by (rewrite !Z.div_div by lia; done).
  destruct (n <? 10) eqn:L1; bool_hyps.
  { rewrite qt_number_small by lia. simpl. by rewrite (Z.mod_small n 10) by lia. }
  rewrite qt_number_digit by lia.
  destruct (n <? 100) eqn:L2; bool_hyps.
  { rewrite qt_number_small by lia. simpl. by rewrite (Z.mod_small (n / 10) 10) by lia. }
  rewrite (qt_number_digit (n / 10)) by lia.
  destruct (n <? 1000) eqn:L3; bool_hyps.
  { rewrite qt_number_small by lia. simpl. by rewrite E2, (Z.mod_small (n / 10 / 10) 10) by lia. }
  rewrite (qt_number_digit (n / 10 / 10)), qt_number_small by lia. simpl. by rewrite E2, E3.
Qed.

(** The four characters shown for a code. *)
Lemma formatted_dec4 t :
  0 <= m_transponderCode t < 10000 -> getTransponderCodeFormatted t = dec4 (m_transponderCode t).
Proof.
  intros Hn. unfold getTransponderCodeFormatted. rewrite qt_number4 by done.
  unfold right. set (n := m_transponderCode t) in *. unfold leading.
  assert (Hz : forall k, 0 <= n < k -> n / k = 0) by (intros; apply Z.div_small; lia).
  destruct (n <? 10) eqn:L1; [|destruct (n <? 100) eqn:L2; [|destruct (n <? 1000) eqn:L3]]; bool_hyps.
  - unfold dec4. rewrite (Hz 1000), (Hz 100), (Hz 10) by lia. reflexivity.
  - unfold dec4. rewrite (Hz 1000), (Hz 100) by lia. reflexivity.
  - unfold dec4. rewrite (Hz 1000) by lia. reflexivity.
  - reflexivity.
Qed.
End laws.

Definition octal4 (n : Z) : bool :=
  (n / 1000 <=? 7) && (n / 100 mod 10 <=? 7) && (n / 10 mod 10 <=? 7) && (n mod 10 <=? 7).

Lemma octal_check :
  forall n, 0 <= n < 7778 -> Bool.eqb (matchesOctal (drop (leading n) (dec4 n))) (octal4 n) = true.
Proof. apply (Zrange_forall_spec 0 (Z.to_nat 7778)). vm_compute. reflexivity. Qed.

(** The codes that pass the check are exactly the numbers of four octal
    digits, read as decimal digits, and such a code is shown as these four
    digits. *)
Theorem valid_code_iff `{QtConvLaws} n mode :
  (isValidTransponderCode n = true <->
   exists a b c d, 0 <= a <= 7 /\ 0 <= b <= 7 /\ 0 <= c <= 7 /\ 0 <= d <= 7 /\
                   n = a * 1000 + b * 100 + c * 10 + d) /\
  (isValidTransponderCode n = true ->
   getTransponderCodeFormatted (mkTransponder n mode) = dec4 n /\
   Forall (fun c => octalChar c = true) (dec4 n)).
Proof.
  assert (Hn : isValidTransponderCode n = true <-> 0 <= n <= 7777 /\ octal4 n = true).
  { unfold isValidTransponderCode. destruct ((n <? 0) || (7777 <? n)) eqn:E.
    { split; [done|]. apply orb_true_iff in E as [E|E]; lia. }
    bool_hyps. unfold isValidTransponderCodeText.
    rewrite qt_toInt_number by (unfold inS; lia). rewrite qt_number4 by lia.
    pose proof (octal_check n ltac:(lia)) as Ho. apply Bool.eqb_prop in Ho. rewrite Ho.
    replace (isEmpty _ || _) with false
      by (unfold leading; destruct (n <? 10), (n <? 100), (n <? 1000); reflexivity).
    replace ((n <? 0) || (7777 <? n)) with false by lia. intuition lia. }
  split.
  - rewrite Hn. unfold octal4. split.
    + intros [Hr Ho]. bool_hyps.
      exists (n / 1000), (n / 100 mod 10), (n / 10 mod 10), (n mod 10).
      split_and!; lia.
    + intros (a & b & c & d & ? & ? & ? & ? & ->). split; [lia|].
      assert ((a * 1000 + b * 100 + c * 10 + d) / 1000 = a) as ->
        by (symmetry; apply (Z.div_unique_pos _ _ _ (b * 100 + c * 10 + d)); lia).
      assert ((a * 1000 + b * 100 + c * 10 + d) / 100 = a * 10 + b) as ->
        by (symmetry; apply (Z.div_unique_pos _ _ _ (c * 10 + d)); lia).
      assert ((a * 1000 + b * 100 + c * 10 + d) / 10 = a * 100 + b * 10 + c) as ->
        by (symmetry; apply (Z.div_unique_pos _ _ _ d); lia).
      assert ((a * 10 + b) mod 10 = b) as -> by (symmetry; apply (Z.mod_unique_pos _ _ a); lia).
      assert ((a * 100 + b * 10 + c) mod 10 = c) as ->
        by (symmetry; apply (Z.mod_unique_pos _ _ (a * 10 + b)); lia).
      assert ((a * 1000 + b * 100 + c * 10 + d) mod 10 = d) as ->
        by (symmetry; apply (Z.mod_unique_pos _ _ (a * 100 + b * 10 + c)); lia).
      lia.
  - rewrite Hn. intros [Hr Ho]. split; [apply (formatted_dec4 (mkTransponder n mode)); simpl; lia|].
    unfold octal4, octalChar, dec4 in *. bool_hyps.
    simpl. repeat apply Forall_cons_2; try apply Forall_nil_2;
      apply andb_true_iff; split; apply N.leb_le; lia.
Qed.

Lemma valid_code_iff_witness :
  getTransponderCodeFormatted (mkTransponder 1234 ModeC) = dec4 1234 /\
  Forall (fun c => octalChar c = true) (dec4 1234).
Proof. apply (proj2 (valid_code_iff 1234 ModeC)). vm_compute. reflexivity. Defined.

(** ** The texts of the modes *)

Lemma startsWithCI_ascii `{QtConvLaws} s p :
  ascii s -> ascii p -> startsWithCI s p = startsWith (map asciiLower s) (map asciiLower p).
Proof. intros. unfold startsWithCI. by rewrite !foldCase_ascii. Qed.
Lemma containsCI_ascii `{QtConvLaws} s p :
  ascii s -> ascii p -> containsCI s p = containsSub (map asciiLower s) (map asciiLower p).
Proof. intros. unfold containsCI. by rewrite !foldCase_ascii. Qed.

(** The long text of a mode determines it; of the short texts exactly the
    one of [ModeS] is read as another mode. *)
Theorem mode_texts `{QtConvLaws} :
  (forall m s, modeAsString m = Some s -> modeFromString s = m) /\
  (forall m s, modeAsShortString m = Some s -> (modeFromString s = m <-> m <> ModeS)).
Proof.
  split; intros m s Hs; destruct m; try discriminate Hs; injection Hs as <-;
    unfold modeFromString; repeat rewrite ?startsWithCI_ascii, ?containsCI_ascii
      by (apply (bool_decide_unpack _); vm_compute; exact I);
    vm_compute; naive_solver.
Qed.

Lemma mode_texts_witness :
  modeFromString (lit "Mil.Mode 4") = ModeMil4.
Proof. apply (proj1 mode_texts). reflexivity. Defined.

(** Toggling goes from standby to mode C and from every sending mode and
    the ident state to standby, so twice is standby or mode C; mode S is not
    taken for a sending mode, and toggled to mode C. *)
Theorem toggle_modes t :
  m_transponderCode (toggleTransponderMode t) = m_transponderCode t /\
  m_transponderMode (toggleTransponderMode t) =
    (if decide (m_transponderMode t = StateStandby \/ m_transponderMode t = ModeS)
     then ModeC else StateStandby).
Proof. destruct t as [n []]; split; reflexivity. Qed.
