(* ===== verification/Callsign.v ===== *)
(** * Callsigns (misc/aviation/callsign.h, misc/aviation/callsign.cpp)

    The normalised form of a callsign, its suffix, the airline part, and the
    classification as ATC, observer or aircraft. *)

From S2P Require Import QtCore QtReference FsdBase.

Inductive TypeHint := NoHint | Aircraft | Atc.
#[global] Instance TypeHint_eq_dec : EqDecision TypeHint.
Proof. solve_decision. Defined.

Record CCallsign := mkCallsign {
  m_callsignAsSet : QString; m_callsign : QString; m_telephonyDesignator : QString;
  m_typeHint : TypeHint }.
#[global] Instance CCallsign_eq_dec : EqDecision CCallsign.
Proof. solve_decision. Defined.

Definition CCallsign_default : CCallsign := mkCallsign [] [] [] NoHint.

Abbreviation underscore := 95%N.
Abbreviation hyphen := 45%N.

(** [removeChars]: the characters for which the predicate does not hold. *)
Definition removeChars (s : QString) (predicate : QChar -> bool) : QString :=
  filter (fun c => predicate c = false) s.

Definition atcCallsignSuffixes : QStringList :=
  [lit "APP"; lit "GND"; lit "DEP"; lit "TWR"; lit "DEL"; lit "CTR"].
Definition atcAlikeCallsignSuffixes : QStringList :=
  [lit "ATIS"; lit "APP"; lit "GND"; lit "OBS"; lit "DEP"; lit "TWR"; lit "DEL"; lit "CTR";
   lit "SUP"; lit "FSS"; lit "INS"].

Definition suffixToSortOrder (suffix : QString) : Z :=
  if eqs suffix "FSS" then 1 else if eqs suffix "CTR" then 2 else if eqs suffix "APP" then 3
  else if eqs suffix "DEP" then 4 else if eqs suffix "TWR" then 5 else if eqs suffix "GND" then 6
  else if eqs suffix "DEL" then 7 else if eqs suffix "ATIS" then 8
  else if eqs suffix "SUP" then 9 else if eqs suffix "OBS" then 10
  else if eqs suffix "INS" then 11 else if eqs suffix "ADM" then 12
  else if eqs suffix "VATGOV" then 13 else if eqs suffix "VATSIM" then 14
  else if eqs suffix "EXAM" then 15 else int32_max.

(** The longest prefix of characters satisfying a test, and the rest. *)
Fixpoint spanChars (p : QChar -> bool) (s : QString) : QString * QString :=
  match s with
  | c :: s' => if p c then let '(a, b) := spanChars p s' in (c :: a, b) else ([], s)
  | [] => ([], [])
  end.
Definition isAZ (c : QChar) : bool := ((65 <=? c) && (c <=? 90))%N.
Definition is09 (c : QChar) : bool := ((48 <=? c) && (c <=? 57))%N.

(** The captures of the regular expression [(^[A-Z]{3,})(\d+)]. *)
Definition airlineMatch (s : QString) : option (QString * QString) :=
  let '(letters, rest) := spanChars isAZ s in
  let '(number, _) := spanChars is09 rest in
  if (3 <=? length letters)%nat && negb (isEmpty number) then Some (letters, number) else None.

(** Position of the last occurrence, [QString::lastIndexOf]. *)
Definition lastIndexOf (c : QChar) (s : QString) : nat :=
  match indexOf c (rev s) with Some i => length s - 1 - i | None => 0 end.

Section with_qt.
Context `{QtConv}.

Definition looksLikeAtcCallsign (callsign : QString) : bool :=
  if negb (containsChar callsign underscore) then false
  else let uc := qt_toUpper callsign in
       existsb (fun r => endsWith uc r) atcAlikeCallsignSuffixes.

Definition atcIllegal (c : QChar) : bool :=
  negb (qt_isLetterOrNumber c) && negb (c =? underscore)%N && negb (c =? hyphen)%N.
Definition aircraftIllegal (c : QChar) : bool :=
  negb (qt_isLetterOrNumber c) && negb (c =? underscore)%N.

Definition unifyCallsign (callsign : QString) (hint : TypeHint) : QString :=
  let ucCallsign := qt_toUpper (trimmed callsign) in
  match hint with
  | Atc => removeChars ucCallsign atcIllegal
  | Aircraft => removeChars ucCallsign aircraftIllegal
  | NoHint => if looksLikeAtcCallsign ucCallsign then removeChars ucCallsign atcIllegal
              else removeChars ucCallsign aircraftIllegal
  end.

Definition CCallsign_make (callsign : QString) (hint : TypeHint) : CCallsign :=
  mkCallsign (trimmed callsign) (unifyCallsign callsign hint) [] hint.
Definition CCallsign_makeTelephony (callsign telephonyDesignator : QString) (hint : TypeHint) :
    CCallsign :=
  mkCallsign (trimmed callsign) (unifyCallsign callsign hint) (trimmed telephonyDesignator) hint.

Definition callsignEmpty (c : CCallsign) : bool := isEmpty (m_callsignAsSet c).
Definition asString (c : CCallsign) : QString := m_callsign c.
Definition getStringAsSet (c : CCallsign) : QString := m_callsignAsSet c.
(** Comparison and hashing go by the unified string, without case. *)
Definition callsignEqual (c d : CCallsign) : bool := equalsCI (m_callsign c) (m_callsign d).
Definition equalsString (s : QString) (c : CCallsign) : bool :=
  callsignEqual (CCallsign_make s NoHint) c.

Definition hasSuffix (c : CCallsign) : bool := containsChar (getStringAsSet c) underscore.
Definition getSuffix (c : CCallsign) : QString :=
  if hasSuffix c then qt_toUpper (default [] (last (split underscore (getStringAsSet c)))) else [].
Definition listContainsCI (l : QStringList) (s : QString) : bool := existsb (fun x => equalsCI x s) l.

Definition isAtcCallsign (c : CCallsign) : bool :=
  if decide (m_typeHint c = Atc) then true
  else if negb (hasSuffix c) then false
  else listContainsCI atcCallsignSuffixes (getSuffix c).
Definition isAtcAlikeCallsign (c : CCallsign) : bool :=
  if decide (m_typeHint c = Aircraft) then false
  else if negb (hasSuffix c) then false
  else listContainsCI atcAlikeCallsignSuffixes (getSuffix c).
Definition isObserverCallsign (c : CCallsign) : bool := endsWithCI (m_callsignAsSet c) (lit "_OBS").
Definition isSupervisorCallsign (c : CCallsign) : bool :=
  if decide (m_typeHint c = Aircraft) then false else endsWith (m_callsign c) (lit "SUP").
Definition isBroadcastCallsign (c : CCallsign) : bool :=
  eqs (m_callsignAsSet c) "*" || eqs (m_callsign c) "*" || eqs (m_callsignAsSet c) "BROADCAST".
Definition markAsBroadcastCallsign (c : CCallsign) : CCallsign :=
  mkCallsign (lit "BROADCAST") (lit "BROADCAST") (m_telephonyDesignator c) (m_typeHint c).
Definition markAsWallopCallsign (c : CCallsign) : CCallsign :=
  mkCallsign (lit "SUP") (lit "SUP") (m_telephonyDesignator c) (m_typeHint c).

Definition isMaybeCopilotCallsign (pilotCallsign c : CCallsign) : bool :=
  startsWith (m_callsign c) (asString pilotCallsign) &&
  (length (m_callsign c) =? length (asString pilotCallsign) + 1)%nat &&
  match last (m_callsign c) with Some x => isAZ x | None => false end.

(** A leading star (cross coupled ATC) is kept. *)
Definition getFsdCallsignString (c : CCallsign) : QString :=
  if startsWith (m_callsignAsSet c) (lit "*") then getStringAsSet c else asString c.
Definition isSameAsSet (c : CCallsign) : bool := bool_decide (m_callsign c = m_callsignAsSet c).

Definition getIcaoCode (c : CCallsign) : QString :=
  if isAtcCallsign c && (4 <=? length (m_callsign c))%nat then qt_toUpper (left (m_callsign c) 4)
  else [].

Definition getAsObserverCallsignString (c : CCallsign) : QString :=
  if callsignEmpty c then []
  else let obs := getStringAsSet c in
       if endsWithCI obs (lit "_OBS") then obs
       else let obs := if containsChar obs underscore then left obs (lastIndexOf underscore obs)
                       else obs in
            qt_toUpper (obs ++ lit "_OBS").

(** The airline, the flight number and the flight identification. *)
Definition getAirlinePrefix (c : CCallsign) : QString * QString * QString :=
  if (length (m_callsign c) <? 3)%nat then ([], [], [])
  else if isAtcCallsign c then ([], [], [])
  else match airlineMatch (m_callsign c) with
       | None => ([], [], [])
       | Some (airline, flightNumber) =>
           if (length airline =? 3)%nat
           then (airline, flightNumber,
                 if (3 <? length (m_callsign c))%nat then mid (m_callsign c) 3 else [])
           else if (length airline =? 4)%nat && startsWith airline (lit "V")
           then (airline, flightNumber,
                 if (4 <? length (m_callsign c))%nat then mid (m_callsign c) 4 else [])
           else if (1 <=? length flightNumber)%nat && (length airline =? 4)%nat
           then (left airline 3, flightNumber, mid (m_callsign c) 3)
           else ([], flightNumber, [])
       end.

Definition getFlightIndentification (c : CCallsign) : QString :=
  if isAtcCallsign c then []
  else let '(airline, _, identification) := getAirlinePrefix c in
       if isEmpty airline then [] else identification.
Definition getFlightNumber (c : CCallsign) : QString :=
  if isAtcCallsign c then []
  else let '(airline, flightNumber, _) := getAirlinePrefix c in
       if isEmpty airline then [] else flightNumber.
Definition getFlightNumberInt (c : CCallsign) : Z :=
  if isAtcCallsign c then -1 else default (-1) (qt_toInt (getFlightNumber c)).

Definition hasAtcSuffix (c : CCallsign) : bool :=
  let s := getSuffix c in negb (isEmpty s) && bool_decide (s ∈ atcCallsignSuffixes).
Definition getSuffixSortOrder (c : CCallsign) : Z := suffixToSortOrder (getSuffix c).

Definition isValidAircraftCallsign (callsign : QString) : bool :=
  if (length callsign <? 2)%nat || (10 <? length callsign)%nat then false
  else negb (existsb (fun c => negb (qt_isUpper c) && negb (qt_isDigit c)) callsign).
Definition isValidAtcCallsign (callsign : QString) : bool :=
  if (length callsign <? 2)%nat || (10 <? length callsign)%nat then false
  else negb (existsb (fun c => negb (c =? hyphen)%N && negb (c =? underscore)%N &&
                               negb (qt_isUpper c) && negb (qt_isDigit c)) callsign).
Definition callsignValid (c : CCallsign) : bool :=
  match m_typeHint c with
  | Atc => isValidAtcCallsign (asString c)
  | Aircraft => isValidAircraftCallsign (asString c)
  | NoHint => negb (callsignEmpty c)
  end.
Lemma callsignEqual_refl cs : callsignEqual cs cs = true.
Proof using Type. by apply bool_decide_eq_true. Qed.
End with_qt.

(** ** The unified form *)

(** What may occur in a unified callsign of ASCII characters. *)
Definition callsignChar (c : QChar) : bool :=
  bool_decide ((48 <= c <= 57)%N \/ (65 <= c <= 90)%N \/ c = underscore \/ c = hyphen).

Lemma asciiUpper_idemp s : map asciiUpper (map asciiUpper s) = map asciiUpper s.
Proof.
  rewrite map_map. apply map_ext. intros c. unfold asciiUpper.
  destruct (decide (97 <= c <= 122)%N) as [Hc|Hc].
  - rewrite (bool_decide_eq_true_2 _ Hc), bool_decide_eq_false_2; [done | lia].
  - by rewrite !(bool_decide_eq_false_2 _ Hc).
Qed.

Lemma asciiUpper_id s : Forall (fun c => callsignChar c = true) s -> map asciiUpper s = s.
Proof.
  induction 1 as [|c s Hc _ IH]; simpl; [done|]. rewrite IH. f_equal.
  unfold callsignChar in Hc. apply bool_decide_eq_true in Hc. unfold asciiUpper.
  rewrite bool_decide_eq_false_2; [done | lia].
Qed.

Lemma ascii_asciiUpper s : ascii s -> ascii (map asciiUpper s).
Proof.
  intros Hs. apply Forall_map. eapply Forall_impl; [exact Hs|]. simpl. intros c Hc.
  unfold asciiUpper. case_bool_decide; lia.
Qed.

Lemma callsignChar_ascii s : Forall (fun c => callsignChar c = true) s -> ascii s.
Proof.
  intros Hs. eapply Forall_impl; [exact Hs|]. simpl. intros c Hc.
  unfold callsignChar in Hc. apply bool_decide_eq_true in Hc. lia.
Qed.

Lemma dropSpaces_Forall (P : QChar -> Prop) sp s : Forall P s -> Forall P (dropSpaces sp s).
Proof. induction 1; simpl; [constructor|]. destruct (sp x); [done | by constructor]. Qed.
Lemma trimWith_Forall (P : QChar -> Prop) sp s : Forall P s -> Forall P (trimWith sp s).
Proof. intros. unfold trimWith. by apply Forall_rev, dropSpaces_Forall, Forall_rev, dropSpaces_Forall. Qed.

Lemma removeChars_id s p : Forall (fun c => p c = false) s -> removeChars s p = s.
Proof.
  unfold removeChars. induction 1 as [|c s Hc _ IH]; [done|].
  rewrite filter_cons_True by done. by rewrite IH.
Qed.

(** Removing characters keeps an ending none of whose characters go. *)
Lemma removeChars_endsWith s t p :
  Forall (fun c => p c = false) t -> endsWith s t = true -> endsWith (removeChars s p) t = true.
Proof.
  intros Ht [q ->]%endsWith_spec. apply endsWith_spec. exists (removeChars q p).
  unfold removeChars. rewrite filter_app. f_equal. by apply removeChars_id.
Qed.

Section laws.
Context `{QtConvLaws}.

Lemma upperChars_legal s :
  ascii s ->
  Forall (fun c => callsignChar c = true) (removeChars (map asciiUpper s) atcIllegal) /\
  Forall (fun c => callsignChar c = true) (removeChars (map asciiUpper s) aircraftIllegal).
Proof.
  unfold ascii. intros Hs.
  assert (Hl : forall c, (c < 128)%N -> qt_isLetterOrNumber (asciiUpper c) = true ->
                    callsignChar (asciiUpper c) = true).
  { intros c Hc. rewrite qt_isLetterOrNumber_ascii by (unfold asciiUpper; case_bool_decide; lia).
    rewrite bool_decide_eq_true. unfold callsignChar. rewrite bool_decide_eq_true.
    unfold asciiUpper. case_bool_decide; lia. }
  split; apply Forall_forall; intros c Hc; unfold removeChars in Hc;
    apply list_elem_of_filter in Hc as [Hf Hin]; apply list_elem_of_fmap in Hin as (x & -> & Hx);
    rewrite Forall_forall in Hs; specialize (Hs x Hx);
    unfold atcIllegal, aircraftIllegal in Hf;
    destruct (qt_isLetterOrNumber (asciiUpper x)) eqn:E; try (by apply Hl);
    simpl in Hf; unfold callsignChar; apply bool_decide_eq_true;
    repeat match goal with
      | H : _ && _ = false |- _ => apply andb_false_iff in H as [H|H]
      | H : negb _ = false |- _ => apply negb_false_iff, N.eqb_eq in H
      end; lia.
Qed.

(** On unified characters trimming and upper-casing do nothing. *)
Lemma unify_prefix_id s :
  Forall (fun c => callsignChar c = true) s -> qt_toUpper (trimmed s) = s.
Proof.
  intros Hs. unfold trimmed. rewrite trimWith_id.
  - rewrite qt_toUpper_ascii by (by apply callsignChar_ascii). by apply asciiUpper_id.
  - assert (Hsp : forall x, x ∈ s -> qt_isSpace x = false).
    { intros x Hx. rewrite Forall_forall in Hs. specialize (Hs x Hx).
      unfold callsignChar in Hs. apply bool_decide_eq_true in Hs.
      rewrite qt_isSpace_ascii by lia. apply bool_decide_eq_false. lia. }
    split; intros x Hx; apply Hsp.
    + destruct s; [done|]. injection Hx as ->. set_solver.
    + by eapply last_Some_elem_of.
Qed.

Lemma callsignChar_legal s :
  Forall (fun c => callsignChar c = true) s -> Forall (fun c => atcIllegal c = false) s.
Proof.
  intros Hs. eapply Forall_impl; [exact Hs|]. simpl. intros c Hc. unfold callsignChar in Hc.
  apply bool_decide_eq_true in Hc. unfold atcIllegal.
  destruct Hc as [Hc|[Hc|[->| ->]]]; [| |by rewrite andb_false_r..].
  - rewrite qt_isLetterOrNumber_ascii by lia. rewrite bool_decide_eq_true_2; [done|lia].
  - rewrite qt_isLetterOrNumber_ascii by lia. rewrite bool_decide_eq_true_2; [done|lia].
Qed.

Lemma removeChars_idemp s p : removeChars (removeChars s p) p = removeChars s p.
Proof.
  apply removeChars_id. unfold removeChars. apply Forall_forall. intros c.
  rewrite list_elem_of_filter. tauto.
Qed.

Lemma suffix_legal r :
  r ∈ atcAlikeCallsignSuffixes -> Forall (fun c => callsignChar c = true) r.
Proof.
  intros Hr.
  assert (Hf : Forall (Forall (fun c => callsignChar c = true)) atcAlikeCallsignSuffixes)
    by (apply (bool_decide_unpack _); vm_compute; exact I).
  rewrite Forall_forall in Hf. by apply Hf.
Qed.

(** What looks like an ATC callsign still does after the clean-up. *)
Lemma looksLike_removed s :
  looksLikeAtcCallsign (map asciiUpper s) = true -> ascii s ->
  looksLikeAtcCallsign (removeChars (map asciiUpper s) atcIllegal) = true.
Proof.
  intros Hl Hs. destruct (upperChars_legal s Hs) as [Hc _].
  unfold looksLikeAtcCallsign in *.
  destruct (containsChar (map asciiUpper s) underscore) eqn:E; [|done].
  assert (containsChar (removeChars (map asciiUpper s) atcIllegal) underscore = true) as ->.
  { unfold containsChar, removeChars in *. rewrite bool_decide_eq_true in *.
    apply list_elem_of_filter. split; [|done]. unfold atcIllegal.
    by destruct (qt_isLetterOrNumber underscore). }
  cbn [negb] in *. apply existsb_exists in Hl as (r & Hr & He). apply existsb_exists.
  exists r. split; [done|].
  rewrite qt_toUpper_ascii, asciiUpper_idemp in He by (by apply ascii_asciiUpper).
  rewrite qt_toUpper_ascii, asciiUpper_id by (done || by apply callsignChar_ascii).
  apply removeChars_endsWith; [|done]. by apply callsignChar_legal, suffix_legal, list_elem_of_In.
Qed.
End laws.

(** Unifying an ASCII callsign, under any hint, yields only upper case
    letters, digits, underscores and hyphens, and unifying again changes
    nothing. *)
Theorem unify_idempotent `{QtConvLaws} s hint :
  ascii s ->
  unifyCallsign (unifyCallsign s hint) hint = unifyCallsign s hint /\
  Forall (fun c => callsignChar c = true) (unifyCallsign s hint).
Proof.
  intros Hs. assert (Ht : ascii (trimmed s)) by (by apply trimWith_Forall).
  destruct (upperChars_legal _ Ht) as [Ha Hc].
  unfold unifyCallsign. rewrite (qt_toUpper_ascii (trimmed s)) by done.
  set (u := map asciiUpper (trimmed s)) in *.
  destruct hint.
  - destruct (looksLikeAtcCallsign u) eqn:E.
    + split; [|done]. rewrite unify_prefix_id by done.
      unfold u in *. rewrite looksLike_removed by done. apply removeChars_idemp.
    + split; [|done]. rewrite unify_prefix_id by done.
      destruct (looksLikeAtcCallsign (removeChars u aircraftIllegal)).
      * by apply removeChars_id, callsignChar_legal.
      * apply removeChars_idemp.
  - split; [|done]. rewrite unify_prefix_id by done. apply removeChars_idemp.
  - split; [|done]. rewrite unify_prefix_id by done. apply removeChars_idemp.
Qed.

Lemma unify_idempotent_witness :
  unifyCallsign (unifyCallsign (lit " ml-sno_c tr ") NoHint) NoHint
  = unifyCallsign (lit " ml-sno_c tr ") NoHint /\
  Forall (fun c => callsignChar c = true) (unifyCallsign (lit " ml-sno_c tr ") NoHint).
Proof. apply unify_idempotent. apply (bool_decide_unpack _). vm_compute. exact I. Defined.

(** Whatever the text, the unified callsign contains no field separator, so
    it can be put in a message; a callsign that is not cross coupled is sent in
    that form. *)
Theorem callsign_no_colon `{QtConvLaws} s hint :
  noColon (unifyCallsign s hint) /\
  (startsWith (trimmed s) (lit "*") = false ->
   noColon (getFsdCallsignString (CCallsign_make s hint))).
Proof.
  assert (Hn : noColon (unifyCallsign s hint)).
  { assert (Hl : qt_isLetterOrNumber colon = false) by (by rewrite qt_isLetterOrNumber_ascii).
    unfold unifyCallsign, noColon. cases; unfold removeChars; rewrite list_elem_of_filter;
      unfold atcIllegal, aircraftIllegal; rewrite Hl; simpl; naive_solver. }
  split; [done|]. intros Hstar. unfold getFsdCallsignString. simpl. by rewrite Hstar.
Qed.

Lemma callsign_no_colon_witness :
  noColon (getFsdCallsignString (CCallsign_make (lit "D:LH 1a") Aircraft)).
Proof. apply callsign_no_colon. vm_compute. reflexivity. Defined.

(** ** The airline part *)

Lemma spanChars_app p s : let '(a, b) := spanChars p s in s = a ++ b.
Proof.
  induction s as [|c s IH]; simpl; [done|].
  destruct (p c); [|done]. destruct (spanChars p s) as [a b]. simpl. by rewrite IH.
Qed.

Lemma airlineMatch_prefix s a n :
  airlineMatch s = Some (a, n) -> exists rest, s = a ++ n ++ rest /\ (3 <= length a)%nat /\ n <> [].
Proof.
  unfold airlineMatch. pose proof (spanChars_app isAZ s) as H1.
  destruct (spanChars isAZ s) as [l r]. pose proof (spanChars_app is09 r) as H2.
  destruct (spanChars is09 r) as [m r'].
  destruct ((3 <=? length l)%nat && negb (isEmpty m)) eqn:E; [|done].
  intros [= <- <-]. bool_hyps.
  exists r'. subst. split_and!; try done.
  - by apply Nat.leb_le.
  - by destruct m.
Qed.

(** When an airline is found, it and the flight identification make up the
    callsign, and the flight number follows the letters; the airline has three
    letters, or four and a leading V. *)
Theorem airline_split `{QtConv} c a n i :
  getAirlinePrefix c = (a, n, i) -> a <> [] ->
  m_callsign c = a ++ i /\ n <> [] /\
  (length a = 3 \/ (length a = 4 /\ exists r, a = lit "V" ++ r))%nat /\
  getFlightNumber c = n /\ getFlightIndentification c = i.
Proof.
  intros Hg Ha. unfold getFlightNumber, getFlightIndentification. rewrite Hg.
  assert (isEmpty a = false) as -> by (by destruct a).
  unfold getAirlinePrefix in Hg.
  destruct (length (m_callsign c) <? 3)%nat; [congruence|].
  destruct (isAtcCallsign c); [congruence|].
  destruct (airlineMatch (m_callsign c)) as [[air num]|] eqn:E; [|congruence].
  apply airlineMatch_prefix in E as (rest & E & Hl & Hn).
  destruct (length air =? 3)%nat eqn:E3.
  { apply Nat.eqb_eq in E3. injection Hg as <- <- <-. rewrite E.
    destruct (Nat.ltb_spec 3 (length (air ++ num ++ rest))) as [_|Hlt].
    - destruct air as [|? [|? [|? [|]]]]; try discriminate. simpl. auto 10.
    - rewrite !length_app in Hlt. destruct num; [done|]. simpl in Hlt. lia. }
  destruct ((length air =? 4)%nat && startsWith air (lit "V")) eqn:E4.
  { apply andb_true_iff in E4 as [E4 Hv]. apply Nat.eqb_eq in E4. apply startsWith_spec in Hv.
    injection Hg as <- <- <-. rewrite E.
    destruct (Nat.ltb_spec 4 (length (air ++ num ++ rest))) as [_|Hlt].
    - destruct air as [|? [|? [|? [|? [|]]]]]; try discriminate. simpl in *. auto 10.
    - rewrite !length_app in Hlt. destruct num; [done|]. simpl in Hlt. lia. }
  destruct ((1 <=? length num)%nat && (length air =? 4)%nat) eqn:E5; [|congruence].
  apply andb_true_iff in E5 as [_ E5]. apply Nat.eqb_eq in E5. injection Hg as <- <- <-.
  rewrite E. destruct air as [|? [|? [|? [|? [|]]]]]; try discriminate. simpl. auto 10.
Qed.

Lemma airline_split_witness :
  m_callsign (CCallsign_make (lit "UPSE123") NoHint) = lit "UPS" ++ lit "E123" /\
  lit "123" <> [] /\
  (length (lit "UPS") = 3 \/ (length (lit "UPS") = 4 /\ exists r, lit "UPS" = lit "V" ++ r))%nat /\
  getFlightNumber (CCallsign_make (lit "UPSE123") NoHint) = lit "123" /\
  getFlightIndentification (CCallsign_make (lit "UPSE123") NoHint) = lit "E123".
Proof. apply airline_split; [vm_compute; reflexivity | discriminate]. Defined.

(** The observer form of an ASCII callsign is an observer callsign, and its
    own observer form. *)
Theorem observer_form `{QtConvLaws} s hint :
  ascii s -> trimmed s <> [] ->
  let o := getAsObserverCallsignString (CCallsign_make s hint) in
  isObserverCallsign (mkCallsign o o [] NoHint) = true /\
  getAsObserverCallsignString (mkCallsign o o [] NoHint) = o.
Proof.
  intros Hs Hne o.
  assert (Ht : ascii (trimmed s)) by (by apply trimWith_Forall).
  assert (Ho : endsWithCI o (lit "_OBS") = true /\ o <> []).
  { unfold o, getAsObserverCallsignString, callsignEmpty, CCallsign_make, getStringAsSet. simpl.
    destruct (isEmpty (trimmed s)) eqn:E; [by destruct (trimmed s)|].
    destruct (endsWithCI (trimmed s) (lit "_OBS")) eqn:E2; [done|].
    set (b := if containsChar (trimmed s) underscore then _ else _).
    assert (Hb : ascii b).
    { unfold b. destruct (containsChar _ _); [|done]. unfold left. by apply Forall_take. }
    rewrite qt_toUpper_ascii by (apply Forall_app; split; [done | apply (bool_decide_unpack _); vm_compute; exact I]).
    rewrite map_app. split; [|by destruct b].
    unfold endsWithCI. apply endsWith_spec.
    exists (map qt_foldCase (map asciiUpper b)). rewrite map_app. f_equal. }
  destruct Ho as [Ho Hoe]. split; [exact Ho|].
  unfold getAsObserverCallsignString, callsignEmpty, getStringAsSet. cbn [m_callsignAsSet].
  rewrite Ho. by destruct o.
Qed.

Lemma observer_form_witness :
  let o := getAsObserverCallsignString (CCallsign_make (lit "eddf_twr") Atc) in
  isObserverCallsign (mkCallsign o o [] NoHint) = true /\
  getAsObserverCallsignString (mkCallsign o o [] NoHint) = o.
Proof.
  apply observer_form; [apply (bool_decide_unpack _); vm_compute; exact I | vm_compute; discriminate].
Defined.
