(* ===== verification/ComSystem.v ===== *)
(** * Frequencies of the radios (misc/aviation/comsystem.cpp, misc/aviation/modulator.cpp)

    Frequencies in kHz.  The channels of the 8.33 kHz spacing are the multiples
    of 5 kHz but those that end in 20, 45, 70 and 95.  A frequency is [None]
    when it is null; the remainder is that of C++. *)

From S2P Require Export Prelude.

Definition isValidCivilAviationFrequency (f : option Z) : bool :=
  match f with Some fr => (118000 <=? fr) && (fr <=? 136990) | None => false end.
Definition isValidMilitaryFrequency (f : option Z) : bool :=
  match f with Some fr => (220000 <=? fr) && (fr <=? 399950) | None => false end.
Definition isValidComFrequency (f : option Z) : bool :=
  isValidCivilAviationFrequency f || isValidMilitaryFrequency f.

Definition isValid8_33kHzChannel (fKHz : Z) : bool :=
  let lastDigits := Z.rem fKHz 100 in
  (Z.rem fKHz 5 =? 0) && negb (lastDigits =? 20) && negb (lastDigits =? 45)
  && negb (lastDigits =? 70) && negb (lastDigits =? 95).

(** [std::clamp]. *)
Definition clamp (x lo hi : Z) : Z := if x <? lo then lo else if hi <? x then hi else x.

(** [None]: an assertion fails. *)
Definition round8_33kHzChannel (fKHz : Z) : option Z :=
  if isValid8_33kHzChannel fKHz then Some fKHz
  else
    let diff := Z.rem fKHz 5 in
    let lower := fKHz - diff in
    let lower := if isValid8_33kHzChannel lower then lower else lower - 5 in
    let upper := fKHz + (5 - diff) in
    let upper := if isValid8_33kHzChannel upper then upper else upper + 5 in
    if negb (isValid8_33kHzChannel lower) || negb (isValid8_33kHzChannel upper) then None
    else Some (clamp (if Z.abs (fKHz - lower) <? Z.abs (fKHz - upper) then lower else upper) 118000 136990).

Definition isWithin25kHzChannel (freqKHz : Z) : bool :=
  let e := Z.rem freqKHz 100 in (e =? 0) || (e =? 25) || (e =? 50) || (e =? 75).
Definition isExclusiveWithin8_33kHzChannel (freqKHz : Z) : bool :=
  if (freqKHz <? 118000) || (137000 <=? freqKHz) || negb (isValid8_33kHzChannel freqKHz) then false
  else negb (isWithin25kHzChannel freqKHz).

(** Frequencies that end in 20 and 70 stand for those that end in 25 and 75. *)
Definition normalizeFrequency (freq : Z) : Z :=
  let freq_end := Z.rem freq 100 in if (freq_end =? 20) || (freq_end =? 70) then freq + 5 else freq.
Definition isSameFrequency (freq1 freq2 : option Z) : bool :=
  match freq1, freq2 with
  | Some f1, Some f2 => normalizeFrequency f1 =? normalizeFrequency f2
  | _, _ => false
  end.

(** ** A unit with an active and a standby frequency *)

Record CModulator := mkModulator { m_frequencyActive : Z; m_frequencyStandby : Z }.
Definition toggleActiveStandby (m : CModulator) : CModulator :=
  mkModulator (m_frequencyStandby m) (m_frequencyActive m).
(** The frequencies are rounded to the channels of 8.33 kHz, the spacing a unit
    has unless another one is set. *)
Definition setFrequencyActive (frequency : Z) (m : CModulator) : option CModulator :=
  if frequency =? m_frequencyActive m then Some m
  else (fun f => mkModulator f (m_frequencyStandby m)) <$> round8_33kHzChannel frequency.
Definition setFrequencyStandby (frequency : Z) (m : CModulator) : option CModulator :=
  if frequency =? m_frequencyStandby m then Some m
  else (fun f => mkModulator (m_frequencyActive m) f) <$> round8_33kHzChannel frequency.
Definition FrequencyUnicom : Z := 122800.
Definition setActiveUnicom (m : CModulator) : option CModulator :=
  setFrequencyActive FrequencyUnicom (toggleActiveStandby m).
Definition isActiveFrequencySameFrequency (m : CModulator) (comFrequency : option Z) : bool :=
  isSameFrequency (Some (m_frequencyActive m)) comFrequency.

(** ** Rounding *)

(** A channel than which no other is nearer. *)
Definition nearestChannel (f c : Z) : Prop :=
  isValid8_33kHzChannel c = true /\
  forall c', 0 <= c' -> isValid8_33kHzChannel c' = true -> Z.abs (f - c) <= Z.abs (f - c').

Lemma channel_multiple e : isValid8_33kHzChannel e = true -> 0 <= e -> exists q, e = 5 * q.
Proof.
  unfold isValid8_33kHzChannel. intros He H0. bool_hyps. exists (e / 5).
  rewrite Z.rem_mod_nonneg in * by lia. pose proof (Z.div_mod e 5 ltac:(lia)). lia.
Qed.

(** What the rounding does depends on the last two digits, up to the clamp. *)
Definition roundResidue (r : Z) : Z :=
  if isValid8_33kHzChannel r then r
  else
    let lower := r - Z.rem r 5 in
    let lower := if isValid8_33kHzChannel lower then lower else lower - 5 in
    let upper := r + (5 - Z.rem r 5) in
    let upper := if isValid8_33kHzChannel upper then upper else upper + 5 in
    if Z.abs (r - lower) <? Z.abs (r - upper) then lower else upper.

Lemma channel_shift k r : 0 <= k -> 0 <= r -> isValid8_33kHzChannel (100 * k + r) = isValid8_33kHzChannel r.
Proof.
  intros Hk Hr. unfold isValid8_33kHzChannel.
  rewrite !Z.rem_mod_nonneg by lia.
  replace ((100 * k + r) mod 5) with (r mod 5) by
    (rewrite Z.add_comm; replace (100 * k) with (20 * k * 5) by lia; by rewrite Z_mod_plus_full).
  replace ((100 * k + r) mod 100) with (r mod 100) by
    (rewrite Z.add_comm; replace (100 * k) with (k * 100) by lia; by rewrite Z_mod_plus_full).
  done.
Qed.

(** A residue from 100 to 199, so that the neighbours of it are none below zero. *)
Definition residueOk (r : Z) : bool :=
  let lower := r - Z.rem r 5 in
  let lower := if isValid8_33kHzChannel lower then lower else lower - 5 in
  let upper := r + (5 - Z.rem r 5) in
  let upper := if isValid8_33kHzChannel upper then upper else upper + 5 in
  isValid8_33kHzChannel lower && isValid8_33kHzChannel upper &&
  isValid8_33kHzChannel (roundResidue r) &&
  forallb (fun d => negb (isValid8_33kHzChannel (r + Z.of_nat d - 12)) ||
                    (Z.abs (r - roundResidue r) <=? Z.abs (12 - Z.of_nat d))) (seq 0 25) &&
  (Z.abs (r - roundResidue r) <=? 5).
Lemma residues_ok r : 100 <= r < 200 -> residueOk r = true.
Proof. intros Hr. apply (Zrange_forall_spec 100 100 residueOk); [vm_compute; reflexivity | lia]. Qed.

Lemma roundResidue_spec r :
  100 <= r < 200 ->
  isValid8_33kHzChannel (roundResidue r) = true /\ Z.abs (r - roundResidue r) <= 5 /\
  forall d, -12 <= d <= 12 -> isValid8_33kHzChannel (r + d) = true -> Z.abs (r - roundResidue r) <= Z.abs d.
Proof.
  intros Hr. pose proof (residues_ok r Hr) as Hok. unfold residueOk in Hok. cbv zeta in Hok.
  apply andb_true_iff in Hok as [Hok H5]. apply andb_true_iff in Hok as [Hok Hall].
  apply andb_true_iff in Hok as [_ Hv]. apply Z.leb_le in H5. split_and!; [done | done |].
  intros d Hd Hrd. rewrite forallb_forall in Hall.
  assert (Hin : In (Z.to_nat (d + 12)) (seq 0 25)) by (apply in_seq; lia).
  specialize (Hall _ Hin). rewrite Z2Nat.id in Hall by lia.
  replace (r + (d + 12) - 12) with (r + d) in Hall by lia. rewrite Hrd in Hall.
  apply Z.leb_le in Hall. lia.
Qed.

Lemma decompose f : 100 <= f -> exists k r, f = 100 * k + r /\ 0 <= k /\ 100 <= r < 200.
Proof.
  intros Hf. exists (f / 100 - 1), (f mod 100 + 100).
  pose proof (Z.div_mod f 100 ltac:(lia)). pose proof (Z.mod_pos_bound f 100 ltac:(lia)).
  pose proof (Z.div_le_lower_bound f 100 1 ltac:(lia) ltac:(lia)). lia.
Qed.

Lemma round_shift k r :
  0 <= k -> 100 <= r < 200 -> isValid8_33kHzChannel (100 * k + r) = false ->
  round8_33kHzChannel (100 * k + r) = Some (clamp (100 * k + roundResidue r) 118000 136990).
Proof.
  intros Hk Hr Hv. unfold round8_33kHzChannel. rewrite Hv.
  pose proof (residues_ok r Hr) as Hok. unfold residueOk in Hok. bool_hyps.
  assert (Hrem : Z.rem (100 * k + r) 5 = Z.rem r 5).
  { rewrite !Z.rem_mod_nonneg by lia. rewrite Z.add_comm. replace (100 * k) with (20 * k * 5) by lia.
    by rewrite Z_mod_plus_full. }
  assert (Hb : 0 <= Z.rem r 5 < 5) by (rewrite Z.rem_mod_nonneg by lia; apply Z.mod_pos_bound; lia).
  rewrite Hrem.
  replace (100 * k + r - Z.rem r 5) with (100 * k + (r - Z.rem r 5)) by lia.
  replace (100 * k + r + (5 - Z.rem r 5)) with (100 * k + (r + (5 - Z.rem r 5))) by lia.
  rewrite !channel_shift by lia. rewrite channel_shift in Hv by lia.
  set (lower := if isValid8_33kHzChannel (r - Z.rem r 5) then r - Z.rem r 5 else r - Z.rem r 5 - 5) in *.
  set (upper := if isValid8_33kHzChannel (r + (5 - Z.rem r 5)) then r + (5 - Z.rem r 5)
                else r + (5 - Z.rem r 5) + 5) in *.
  assert (El : (if isValid8_33kHzChannel (r - Z.rem r 5) then 100 * k + (r - Z.rem r 5)
                else 100 * k + (r - Z.rem r 5) - 5) = 100 * k + lower) by (subst lower; destruct (isValid8_33kHzChannel (r - Z.rem r 5)); lia).
  assert (Eu : (if isValid8_33kHzChannel (r + (5 - Z.rem r 5)) then 100 * k + (r + (5 - Z.rem r 5))
                else 100 * k + (r + (5 - Z.rem r 5)) + 5) = 100 * k + upper) by (subst upper; destruct (isValid8_33kHzChannel (r + (5 - Z.rem r 5))); lia).
  assert (Hl : 0 <= lower) by (subst lower; destruct (isValid8_33kHzChannel (r - Z.rem r 5)); lia).
  assert (Hu : 0 <= upper) by (subst upper; destruct (isValid8_33kHzChannel (r + (5 - Z.rem r 5))); lia).
  rewrite El, Eu, !channel_shift by done.
  repeat match goal with H : isValid8_33kHzChannel _ = true |- _ => rewrite H end. simpl.
  unfold roundResidue. rewrite Hv. fold lower upper. do 2 f_equal.
  replace (100 * k + r - (100 * k + lower)) with (r - lower) by lia.
  replace (100 * k + r - (100 * k + upper)) with (r - upper) by lia.
  by destruct (_ <? _).
Qed.

(** Rounding a frequency of the civil band gives a channel of the band, the
    nearest one there is, and a channel is rounded to itself; neither of the two
    assertions of the code can fail. *)
Theorem round8_33_nearest f :
  118000 <= f <= 136990 ->
  exists c, round8_33kHzChannel f = Some c /\ 118000 <= c <= 136990 /\ nearestChannel f c /\
            round8_33kHzChannel c = Some c.
Proof.
  intros Hf. destruct (isValid8_33kHzChannel f) eqn:Hv.
  { exists f. unfold round8_33kHzChannel. rewrite Hv. split_and!; try done; try lia.
    split; [done|]. intros. lia. }
  destruct (decompose f) as (k & r & -> & Hk & Hr); [lia|].
  destruct (roundResidue_spec r Hr) as (Hrv & Hr5 & Hmin). set (c := 100 * k + roundResidue r).
  assert (Hcv : isValid8_33kHzChannel c = true) by (unfold c; rewrite channel_shift by lia; done).
  assert (Hc : 118000 <= c <= 136990).
  { destruct (channel_multiple c Hcv ltac:(unfold c; lia)) as [q Hq].
    destruct (decide (c < 118000)), (decide (136990 < c)); try lia; exfalso.
    - assert (c = 117995) as E by (unfold c in *; lia). by rewrite E in Hcv.
    - assert (c = 136995) as E by (unfold c in *; lia). by rewrite E in Hcv. }
  exists c. rewrite round_shift by done. fold c.
  assert (clamp c 118000 136990 = c) as -> by (unfold clamp; cases; bool_hyps; lia).
  split_and!; [done | lia | lia | | by unfold round8_33kHzChannel; rewrite Hcv].
  split; [done|]. intros c' Hc' Hv'.
  destruct (decide (Z.abs (100 * k + r - c') <= 12)) as [Hd|]; [|unfold c; lia].
  assert (Hle : Z.abs (r - roundResidue r) <= Z.abs (c' - (100 * k + r))); [|unfold c; lia].
  apply Hmin; [lia|]. rewrite <- (channel_shift k) by lia.
  by replace (100 * k + (r + (c' - (100 * k + r)))) with c' by lia.
Qed.

Lemma round8_33_nearest_witness :
  118000 <= 118023 <= 136990 /\ round8_33kHzChannel 118023 = Some 118025 /\
  exists c, round8_33kHzChannel 118023 = Some c /\ 118000 <= c <= 136990 /\ nearestChannel 118023 c /\
            round8_33kHzChannel c = Some c.
Proof.
  split; [lia|]. split; [vm_compute; reflexivity|]. apply round8_33_nearest. lia.
Defined.

(** *** Frequencies that count as the same *)

Lemma isSameFrequency_refl f : isSameFrequency (Some f) (Some f) = true.
Proof. apply Z.eqb_refl. Qed.
Lemma isSameFrequency_sym f g : isSameFrequency f g = isSameFrequency g f.
Proof. destruct f, g; try done. apply Z.eqb_sym. Qed.
Lemma isSameFrequency_trans f g h :
  isSameFrequency f g = true -> isSameFrequency g h = true -> isSameFrequency f h = true.
Proof. destruct f, g, h; simpl; try done. rewrite !Z.eqb_eq. congruence. Qed.
