(* ===== verification/OnGround.v ===== *)
(** * Situations of remote aircraft (misc/aviation/ongroundinfo, aircraftsituation, aircraftsituationlist)

    What the provider of remote aircraft does with a situation: its times, the
    knowledge whether it is on ground, and the transfer of ground elevations.
    Position, attitude and speeds of a situation, and what is computed from
    them, are the interface [FlightGeometry]. *)

From S2P Require Export TimestampList Callsign AircraftParts PhysicalQuantity.
From S2P Require Import QtReference.
From Stdlib Require Import Floats.SpecFloat.
From coqutil Require Export Datatypes.RecordSetters.
Export TriangleBracketNotations.
#[global] Open Scope record_set.

Open Scope Z_scope.

(** ** COnGroundInfo *)

Inductive IsOnGround := NotOnGround | OnGround | OnGroundSituationUnknown.
Inductive OnGroundDetails :=
  | NotSetGroundDetails | OnGroundByInterpolation | OnGroundByElevationAndCG | OnGroundByGuessing
  | InFromNetwork | InFromParts | OutOnGroundOwnAircraft.
#[export] Instance OnGroundDetails_eq_dec : EqDecision OnGroundDetails.
Proof. solve_decision. Defined.
#[export] Instance IsOnGround_eq_dec : EqDecision IsOnGround.
Proof. solve_decision. Defined.

Record COnGroundInfo := mkOnGroundInfo { m_onGroundDetails : OnGroundDetails; m_onGroundFactor : double }.
Definition f64_one : double := f64_of_Z 1.
Definition f64_minusOne : double := f64_of_Z (-1).
Definition epsilonEqual (v1 v2 epsilon : double) : bool := f64_le (f64_abs (f64_sub v1 v2)) epsilon.

Definition COnGroundInfo_default : COnGroundInfo := mkOnGroundInfo NotSetGroundDetails f64_minusOne.
Definition COnGroundInfo_make (onGround : IsOnGround) (details : OnGroundDetails) : COnGroundInfo :=
  mkOnGroundInfo details
    (match onGround with
     | OnGroundSituationUnknown => f64_minusOne | OnGround => f64_one | NotOnGround => f64_zero end).
(** From an interpolated factor, small and large ones clipped. *)
Definition COnGroundInfo_ofFactor (interpolatedGndFactor : double) : COnGroundInfo :=
  mkOnGroundInfo OnGroundByInterpolation
    (if f64_lt interpolatedGndFactor (f64_opp (f64_frac 1 10)) then f64_minusOne
     else if f64_lt interpolatedGndFactor (f64_frac 1 1000) then f64_zero
     else if f64_lt (f64_frac 999 1000) interpolatedGndFactor then f64_one
     else interpolatedGndFactor).
(** From the centre of gravity and the distance to the ground, by the outcomes of the
    comparisons of lengths: the assignments one after the other. *)
Definition COnGroundInfo_ofDistance (distanceNull negative nearGround cgNull withinCG : bool) : COnGroundInfo :=
  let m_onGroundFactor := f64_minusOne in
  let m_onGroundFactor :=
    if distanceNull then f64_minusOne
    else if negative then f64_one
    else if nearGround then f64_one
    else if negb cgNull then (if withinCG then f64_one else m_onGroundFactor) else m_onGroundFactor in
  let m_onGroundFactor := f64_zero in
  mkOnGroundInfo OnGroundByElevationAndCG m_onGroundFactor.

Definition groundFactorThreshold : double := f64_frac 95 100.
Definition factor_isOnGround (i : COnGroundInfo) : bool :=
  match m_onGroundDetails i with
  | OnGroundByInterpolation => f64_lt groundFactorThreshold (m_onGroundFactor i)
  | _ => epsilonEqual (m_onGroundFactor i) f64_one (f64_frac 1 1000000)
  end.
Definition getOnGround (i : COnGroundInfo) : IsOnGround :=
  if f64_lt (m_onGroundFactor i) f64_zero then OnGroundSituationUnknown
  else if factor_isOnGround i then OnGround else NotOnGround.
Definition setOnGroundDetails_info (details : OnGroundDetails) (i : COnGroundInfo) : COnGroundInfo :=
  mkOnGroundInfo details (m_onGroundFactor i).

(** ** CAircraftSituation *)

Inductive GndElevationInfo :=
  | NoElevationInfo | Test | SituationChange | Extrapolated | Average | Interpolated | FromCache | FromProvider.
#[export] Instance GndElevationInfo_eq_dec : EqDecision GndElevationInfo.
Proof. solve_decision. Defined.

(** Position, altitude, attitude, speeds and centre of gravity of a situation,
    and an offset of its altitude; a model of an aircraft with its centre of
    gravity; whether a situation lies in the radius of an elevation, and the elevation in
    the units of a situation; and what
    CAircraftSituationChange::guessOnGround sets for the null change, from the
    situation and its elevation.  Further whether a situation lies in the radius of
    an elevation or the minimum radius, the elevation with the distance to the
    situation as its radius, what guessOnGround sets for the change of a list
    of situations, and the text of a model. *)
Class FlightGeometry := {
  FlightState : Type; ElevationPlane : Type; CAircraftModel : Type;
  FlightState_null : FlightState; isPositionNull : FlightState -> bool;
  flightCG : FlightState -> CLength; withAltitudeOffset : CLength -> FlightState -> FlightState;
  CAircraftModel_default : CAircraftModel; modelCG : CAircraftModel -> CLength;
  withModelCG : CLength -> CAircraftModel -> CAircraftModel;
  inElevationRadius : ElevationPlane -> FlightState -> bool;
  elevationInUnitsOf : FlightState -> ElevationPlane -> ElevationPlane;
  guessedOnGround : FlightState -> option ElevationPlane -> CAircraftModel -> COnGroundInfo;
  inRadiusOrMinimumRadius : ElevationPlane -> FlightState -> bool;
  withDistanceAsRadius : FlightState -> ElevationPlane -> ElevationPlane;
  guessedByChange : list (FlightState * COnGroundInfo) -> FlightState -> option ElevationPlane -> CAircraftModel -> COnGroundInfo;
  textOfModel : CAircraftModel -> QString; withTextOfModel : QString -> CAircraftModel -> CAircraftModel }.

Record RemoteSituation `{FlightGeometry} := mkRemoteSituation {
  m_correspondingCallsign : CCallsign; rs_time : Timestamp; m_flight : FlightState;
  m_hasVelocity : bool; m_groundElevationPlane : option ElevationPlane; m_elvInfo : GndElevationInfo;
  m_isElvInfoTransferred : bool; m_onGroundInfo : COnGroundInfo }.

Arguments mkRemoteSituation {_} _ _ _ _ _ _ _ _.

(** Parts with the times they inherit. *)
Record TimedParts := mkTimedParts { tp_parts : CAircraftParts; tp_time : Timestamp }.
Definition TimedParts_default : TimedParts := mkTimedParts CAircraftParts_default (mkTimestamp (-1) 0).

#[export] Instance TimedParts_TimestampBased : TimestampBased TimedParts :=
  {| getMSecsSinceEpoch p := getMSecsSinceEpoch (tp_time p);
     setMSecsSinceEpoch t p := mkTimedParts (tp_parts p) (setMSecsSinceEpoch t (tp_time p));
     getTimeOffsetMs p := getTimeOffsetMs (tp_time p);
     setTimeOffsetMs t p := mkTimedParts (tp_parts p) (setTimeOffsetMs t (tp_time p));
     OBJ_default := TimedParts_default |}.
#[export] Instance TimedParts_Laws : TimestampBasedLaws TimedParts.
Proof. split; try done. by intros [? []]. Qed.

Section situation.
Context `{FlightGeometry}.

Definition RemoteSituation_null : RemoteSituation :=
  mkRemoteSituation CCallsign_default (mkTimestamp (-1) 0) FlightState_null false None NoElevationInfo false
    COnGroundInfo_default.
#[export] Instance RemoteSituation_TimestampBased : TimestampBased RemoteSituation :=
  {| getMSecsSinceEpoch s := getMSecsSinceEpoch (rs_time s);
     setMSecsSinceEpoch t s := s <| rs_time ::= setMSecsSinceEpoch t |>;
     getTimeOffsetMs s := getTimeOffsetMs (rs_time s);
     setTimeOffsetMs t s := s <| rs_time ::= setTimeOffsetMs t |>;
     OBJ_default := RemoteSituation_null |}.
#[export] Instance RemoteSituation_Laws : TimestampBasedLaws RemoteSituation.
Proof. split; try done. by intros [? []]. Qed.

Implicit Types s : RemoteSituation.

Definition situation_isNull s : bool := isPositionNull (m_flight s).
Definition getGroundDetails s : OnGroundDetails := m_onGroundDetails (m_onGroundInfo s).
Definition situation_isOnGround s : bool := bool_decide (getOnGround (m_onGroundInfo s) = OnGround).
Definition hasInboundGroundDetails s : bool :=
  match getGroundDetails s with InFromParts | InFromNetwork => true | _ => false end.
Definition isOnGroundFromParts s : bool := situation_isOnGround s && bool_decide (getGroundDetails s = InFromParts).
Definition isOnGroundFromNetwork s : bool := situation_isOnGround s && bool_decide (getGroundDetails s = InFromNetwork).
Definition isOnGroundInfoAvailable s : bool :=
  if hasInboundGroundDetails s then true
  else negb (bool_decide (getOnGround (m_onGroundInfo s) = OnGroundSituationUnknown)) &&
       negb (bool_decide (getGroundDetails s = NotSetGroundDetails)).
Definition shouldGuessOnGround s : bool := negb (hasInboundGroundDetails s).
Definition setOnGroundDetails (details : OnGroundDetails) s : RemoteSituation :=
  s <| m_onGroundInfo ::= setOnGroundDetails_info details |>.
Definition setOnGroundInfo (info : COnGroundInfo) s : RemoteSituation := s <| m_onGroundInfo := info |>.
Definition situation_withAltitudeOffset (offset : CLength) s : RemoteSituation :=
  if PQ.isNull offset then s else s <| m_flight ::= withAltitudeOffset offset |>.
Definition hasCG s : bool := negb (PQ.isNull (flightCG (m_flight s))).

Definition hasGroundElevation s : bool := match m_groundElevationPlane s with None => false | Some _ => true end.
Definition getGroundElevationInfo s : GndElevationInfo :=
  if hasGroundElevation s then m_elvInfo s else NoElevationInfo.
Definition elvInfoRank (i : GndElevationInfo) : Z :=
  match i with NoElevationInfo => 0 | Test => 1 | SituationChange => 2 | Extrapolated => 3 | Average => 4
  | Interpolated => 5 | FromCache => 6 | FromProvider => 7 end.
Definition isOtherElevationInfoBetter (otherInfo : GndElevationInfo) (transferred : bool) s : bool :=
  if bool_decide (otherInfo = NoElevationInfo) || bool_decide (otherInfo = Test) then false
  else if elvInfoRank (m_elvInfo s) <? elvInfoRank otherInfo then true
  else if elvInfoRank otherInfo =? elvInfoRank (m_elvInfo s)
       then (if eqb (m_isElvInfoTransferred s) transferred then false else negb transferred)
  else false.
Definition setGroundElevation (elevationPlane : option ElevationPlane) (info : GndElevationInfo)
    (transferred : bool) s : RemoteSituation :=
  match elevationPlane with
  | None => s <| m_groundElevationPlane := None |> <| m_isElvInfoTransferred := false |>
              <| m_elvInfo := NoElevationInfo |>
  | Some p => s <| m_groundElevationPlane := Some (elevationInUnitsOf (m_flight s) p) |>
                <| m_isElvInfoTransferred := transferred |> <| m_elvInfo := info |>
  end.
(** Only an elevation that is near enough, and better than the one there is. *)
Definition setGroundElevationChecked (elevationPlane : option ElevationPlane) (info : GndElevationInfo)
    (transferred : bool) s : bool * RemoteSituation :=
  match elevationPlane with
  | None => (false, s)
  | Some plane =>
      if negb (inRadiusOrMinimumRadius plane (m_flight s)) then (false, s)
      else if negb (hasGroundElevation s) || isOtherElevationInfoBetter info transferred s
      then (true, (setGroundElevation elevationPlane info transferred s)
                    <| m_groundElevationPlane ::= fmap (withDistanceAsRadius (m_flight s)) |>)
      else (false, s)
  end.
Definition resetGroundElevation s : RemoteSituation :=
  s <| m_groundElevationPlane := None |> <| m_elvInfo := NoElevationInfo |>.
Definition within (plane : option ElevationPlane) (flight : FlightState) : bool :=
  match plane with Some p => inElevationRadius p flight | None => false end.
Definition canTransferGroundElevation (from to : RemoteSituation) : bool :=
  if negb (hasGroundElevation from) then false
  else if bool_decide (getGroundElevationInfo to = FromProvider) then false
  else if negb (bool_decide (getGroundElevationInfo from = FromProvider)) &&
          bool_decide (getGroundElevationInfo to = FromCache) then false
  else within (m_groundElevationPlane from) (m_flight to).
Definition transferGroundElevationToMe (from to : RemoteSituation) : bool * RemoteSituation :=
  if negb (canTransferGroundElevation from to) then (false, to)
  else (true, setGroundElevation (m_groundElevationPlane from) (getGroundElevationInfo from) true to).

(** Whether parts count for a situation: not newer, or newer by a share of the
    offset only (compared in doubles). *)
Definition partsTimeDifference (parts : TimedParts) s : Z :=
  getAdjustedTimeDifferenceMs (getAdjustedMSecsSinceEpoch parts) s.
Definition isCandidate (timeDeviationFactor : double) s (parts : TimedParts) : bool :=
  let d := partsTimeDifference parts s in
  (0 <=? d) || f64_lt (f64_of_Z (Z.abs d)) (f64_mul timeDeviationFactor (f64_of_Z (getTimeOffsetMs parts))).
Definition groundInfoOf (parts : TimedParts) : COnGroundInfo :=
  COnGroundInfo_make (if m_isOnGround (tp_parts parts) then OnGround else NotOnGround) InFromParts.
Definition adjustGroundFlag (parts : TimedParts) (alwaysSetDetails : bool) (timeDeviationFactor : double) s :
    bool * RemoteSituation :=
  if bool_decide (getGroundDetails s = InFromNetwork) then (false, s)
  else
    let s := if alwaysSetDetails then setOnGroundDetails InFromParts s else s in
    if negb (isCandidate timeDeviationFactor s parts) then (false, s)
    else (true, setOnGroundInfo (groundInfoOf parts) s).

(** The loop over a list of parts, with the best distance and parts so far. *)
Fixpoint bestPartsLoop (timeDeviationFactor : double) s (bestDistance : Z) (best : option TimedParts)
    (partsList : list TimedParts) : option TimedParts :=
  match partsList with
  | [] => best
  | parts :: partsList =>
      let posD := Z.abs (partsTimeDifference parts s) in
      if negb (isCandidate timeDeviationFactor s parts) || (bestDistance <=? posD)
      then bestPartsLoop timeDeviationFactor s bestDistance best partsList
      else if posD =? 0 then Some parts
      else bestPartsLoop timeDeviationFactor s posD (Some parts) partsList
  end.
Definition adjustGroundFlagFromList (partsList : list TimedParts) (alwaysSetDetails : bool)
    (timeDeviationFactor : double) s : bool * RemoteSituation :=
  if bool_decide (getGroundDetails s = InFromNetwork) then (false, s)
  else
    let s := if alwaysSetDetails then setOnGroundDetails InFromParts s else s in
    match bestPartsLoop timeDeviationFactor s int64_max None partsList with
    | None => (false, s)
    | Some bestParts => (true, setOnGroundInfo (groundInfoOf bestParts) s)
    end.

(** guessOnGround of the null change. *)
Definition guessOnGround (model : CAircraftModel) s : RemoteSituation :=
  if negb (shouldGuessOnGround s) then s
  else setOnGroundInfo (guessedOnGround (m_flight s) (m_groundElevationPlane s) model) s.

(** guessOnGround of the change of a list of situations, which is null for fewer than two. *)
Definition guessOnGroundByChange (situations : list RemoteSituation) (model : CAircraftModel) s : RemoteSituation :=
  if (length situations <? 2)%nat then guessOnGround model s
  else if negb (shouldGuessOnGround s) then s
  else setOnGroundInfo (guessedByChange (map (fun s => (m_flight s, m_onGroundInfo s)) situations)
                          (m_flight s) (m_groundElevationPlane s) model) s.

(** ** CAircraftSituationList *)

Implicit Types l : list RemoteSituation.

Definition frontOrNull l : RemoteSituation := default RemoteSituation_null (head l).
Definition backOrNull l : RemoteSituation := default RemoteSituation_null (last l).
Definition indexOrNull (index : nat) l : RemoteSituation := default RemoteSituation_null (l !! index).
Definition list_setOnGroundDetails (details : OnGroundDetails) l : list RemoteSituation :=
  map (setOnGroundDetails details) l.
Definition list_setOnGroundInfo (info : COnGroundInfo) l : list RemoteSituation := map (setOnGroundInfo info) l.
Definition timeDeviationFactor : double := f64_frac 1 10.
(** Every situation is marked as set from parts before it is adjusted. *)
Definition list_adjustGroundFlag (parts : TimedParts) l : Z * list RemoteSituation :=
  let adjusted := map (fun s => adjustGroundFlag parts true timeDeviationFactor (setOnGroundDetails InFromParts s)) l in
  (Z.of_nat (length (filter (fun r => r.1 = true) adjusted)), map snd adjusted).
Definition countOnGround (og : IsOnGround) l : nat :=
  length (filter (fun s => getOnGround (m_onGroundInfo s) = og) l).
Definition containsOnGroundDetails (details : OnGroundDetails) l : bool :=
  existsb (fun s => bool_decide (getGroundDetails s = details)) l.
Definition areAllOnGroundDetailsSame (details : OnGroundDetails) l : bool :=
  forallb (fun s => bool_decide (getGroundDetails s = details)) l.
(** With the list sorted, the latest first. *)
Definition isJustTakingOff l : bool :=
  if (length l <? 2)%nat then false
  else if bool_decide (getOnGround (m_onGroundInfo (frontOrNull l)) = NotOnGround)
       then (length l - 1 =? countOnGround OnGround l)%nat else false.
Definition isJustTouchingDown l : bool :=
  if (length l <? 2)%nat then false
  else if bool_decide (getOnGround (m_onGroundInfo (frontOrNull l)) = OnGround)
       then (length l - 1 =? countOnGround NotOnGround l)%nat else false.
Fixpoint transferElevationForward l : nat * list RemoteSituation :=
  match l with
  | newSituation :: (oldSituation :: _) as rest =>
      let '(set, new) := transferGroundElevationToMe oldSituation newSituation in
      let '(c, rest) := transferElevationForward rest in
      ((if set then S c else c), new :: rest)
  | _ => (0%nat, l)
  end.
Definition withoutFrontSituation l : list RemoteSituation := tail l.

(** The loop over the flags: whether it gets to the end, once the flag has
    changed from the one in front, with the flag at the back. *)
Fixpoint gndFlagLoop (f t : IsOnGround) (changed : bool) l : bool :=
  match l with
  | [] => changed
  | s :: l =>
      let og := getOnGround (m_onGroundInfo s) in
      if negb changed && bool_decide (og = f) then gndFlagLoop f t changed l
      else if negb changed then gndFlagLoop f t true l
      else if negb (bool_decide (og = t)) then false else gndFlagLoop f t changed l
  end.
Definition isGndFlagStableChanging l : bool * IsOnGround :=
  if (length l <? 2)%nat then (false, OnGroundSituationUnknown)
  else
    let f := getOnGround (m_onGroundInfo (frontOrNull l)) in
    let t := getOnGround (m_onGroundInfo (backOrNull l)) in
    if bool_decide (f = t) then (false, f) else (gndFlagLoop f t false l, f).
End situation.

(** ** What the code does to the flag *)

(** Whatever the distance: the last assignment of the constructor is not
    conditional. *)
Lemma ofDistance_not_on_ground distanceNull negative nearGround cgNull withinCG :
  getOnGround (COnGroundInfo_ofDistance distanceNull negative nearGround cgNull withinCG) = NotOnGround.
Proof. vm_compute. reflexivity. Qed.

(** Every situation of a list is marked as set from parts, also one whose flag
    came from the network, which is then adjusted like the others. *)
Lemma list_adjust_marks_all `{FlightGeometry} parts l :
  areAllOnGroundDetailsSame InFromParts (snd (list_adjustGroundFlag parts l)) = true.
Proof.
  unfold areAllOnGroundDetailsSame, list_adjustGroundFlag. cbn [snd].
  induction l as [|s l IH]; [done|]. cbn [map forallb]. rewrite IH, andb_true_r. apply bool_decide_eq_true.
  unfold adjustGroundFlag. case_match; [done|]. cbv zeta. by case_match.
Qed.

Section closest.
Context `{FlightGeometry}.
Implicit Types s : RemoteSituation.

Definition distanceTo s (parts : TimedParts) : Z := Z.abs (partsTimeDifference parts s).

Lemma bestPartsLoop_spec factor s l : forall d best,
  0 <= d -> (forall p, best = Some p -> distanceTo s p = d) ->
  match bestPartsLoop factor s d best l with
  | None => best = None /\ forall p, p ∈ l -> isCandidate factor s p = true -> d <= distanceTo s p
  | Some b => (best = Some b \/ b ∈ l /\ isCandidate factor s b = true) /\
              distanceTo s b <= d /\ forall p, p ∈ l -> isCandidate factor s p = true -> distanceTo s b <= distanceTo s p
  end.
Proof using Type.
  induction l as [|x l IH]; intros d best Hd Hb; cbn [bestPartsLoop].
  { destruct best as [b|]; [|split; [done | by intros ? ?%not_elem_of_nil]].
    split_and!; [by left | by rewrite (Hb b) | by intros ? ?%not_elem_of_nil]. }
  fold (distanceTo s x). destruct (isCandidate factor s x) eqn:Ex; cbn [negb orb].
  - destruct (Z.leb_spec d (distanceTo s x)) as [Hle|Hlt].
    + specialize (IH d best Hd Hb). destruct (bestPartsLoop _ _ _ _ _) as [b|].
      * destruct IH as (Hin & Hbd & Hall). split_and!; [|done|].
        -- destruct Hin as [->|[Hin Hc]]; [by left | right; split; [by right | done]].
        -- intros p [->|Hp]%elem_of_cons Hc; [lia | by apply Hall].
      * destruct IH as (-> & Hall). split; [done|]. intros p [->|Hp]%elem_of_cons Hc; [done | by apply Hall].
    + destruct (Z.eqb_spec (distanceTo s x) 0) as [E0|E0].
      * split_and!; [right; split; [left | done] | lia|]. intros p _ _. rewrite E0. unfold distanceTo. lia.
      * assert (0 <= distanceTo s x) as Hx by (unfold distanceTo; lia).
        specialize (IH (distanceTo s x) (Some x) Hx). destruct (bestPartsLoop _ _ _ _ _) as [b|].
        -- destruct IH as (Hin & Hbd & Hall); [by intros p [= <-]|]. split_and!; [| lia |].
           ++ right. destruct Hin as [[= <-]|[Hin Hc]]; [by split; [left|] | by split; [right|]].
           ++ intros p [->|Hp]%elem_of_cons Hc; [done | by apply Hall].
        -- destruct IH as [? _]; [by intros p [= <-] | done].
  - specialize (IH d best Hd Hb). destruct (bestPartsLoop _ _ _ _ _) as [b|].
    + destruct IH as (Hin & Hbd & Hall). split_and!; [|done|].
      * destruct Hin as [->|[Hin Hc]]; [by left | right; split; [by right | done]].
      * intros p [->|Hp]%elem_of_cons Hc; [congruence | by apply Hall].
    + destruct IH as (-> & Hall). split; [done|]. intros p [->|Hp]%elem_of_cons Hc; [congruence | by apply Hall].
Qed.

(** The flag of a situation comes from the parts nearest in time of those that
    count for it, and stays as it is when none of them does, or when it came from
    the network. *)
Theorem ground_flag_of_nearest_parts factor l s :
  (forall p, p ∈ l -> distanceTo s p < int64_max) ->
  let '(adjusted, s') := adjustGroundFlagFromList l true factor s in
  if bool_decide (getGroundDetails s = InFromNetwork) then adjusted = false /\ s' = s
  else if adjusted
  then exists b, b ∈ l /\ isCandidate factor s b = true /\
       (forall p, p ∈ l -> isCandidate factor s p = true -> distanceTo s b <= distanceTo s p) /\
       s' = setOnGroundInfo (groundInfoOf b) s
  else (forall p, p ∈ l -> isCandidate factor s p = false) /\ s' = setOnGroundDetails InFromParts s.
Proof using Type.
  intros Hl. unfold adjustGroundFlagFromList. case_bool_decide; [done|]. cbv zeta.
  set (s1 := setOnGroundDetails InFromParts s).
  assert (forall p, distanceTo s1 p = distanceTo s p) as Ed by done.
  assert (forall p, isCandidate factor s1 p = isCandidate factor s p) as Ec by done.
  pose proof (bestPartsLoop_spec factor s1 l int64_max None) as Hb.
  destruct (bestPartsLoop _ _ _ _ _) as [b|].
  - destruct Hb as ([?|[Hin Hc]] & _ & Hall); [done | by intros ? ? | done|]. exists b. by split_and!.
  - destruct Hb as [_ Hall]; [done | by intros ? ?|]. split; [|done]. intros p Hp.
    destruct (isCandidate factor s p) eqn:E; [|done]. specialize (Hall p Hp E). specialize (Hl p Hp).
    rewrite Ed in Hall. lia.
Qed.
End closest.

(** ** A plain geometry, for the witnesses *)

(** Altitudes only: a situation on ground is one at most five above its elevation. *)
Definition plainGeometry : FlightGeometry :=
  {| FlightState := Z; ElevationPlane := Z; CAircraftModel := unit; FlightState_null := 0;
     isPositionNull _ := false; flightCG _ := PQ.null; withAltitudeOffset _ f := f;
     CAircraftModel_default := tt; modelCG _ := PQ.null; withModelCG _ m := m;
     inElevationRadius _ _ := true;
     elevationInUnitsOf _ p := p;
     guessedOnGround f p _ :=
       COnGroundInfo_make (match p with Some p => if f - p <=? 5 then OnGround else NotOnGround
                           | None => OnGroundSituationUnknown end) OnGroundByGuessing;
     inRadiusOrMinimumRadius _ _ := true; withDistanceAsRadius _ p := p;
     guessedByChange _ f p _ :=
       COnGroundInfo_make (match p with Some p => if f - p <=? 5 then OnGround else NotOnGround
                           | None => OnGroundSituationUnknown end) OnGroundByGuessing;
     textOfModel _ := []; withTextOfModel _ m := m |}.
Definition plainCallsign : CCallsign := CCallsign_make (lit "DLH123") Aircraft.
Definition plainDLH123 : QString := asString plainCallsign.
Definition plainSituation (t offset altitude : Z) (velocity : bool) : RemoteSituation (H := plainGeometry) :=
  mkRemoteSituation (H := plainGeometry) plainCallsign (mkTimestamp t offset) altitude velocity None NoElevationInfo false
    COnGroundInfo_default.
Definition plainParts (t offset : Z) : TimedParts := mkTimedParts CAircraftParts_default (mkTimestamp t offset).

Lemma ground_flag_of_nearest_parts_witness :
  let l := [mkTimedParts (CAircraftParts_default <| m_isOnGround := true |>) (mkTimestamp 9000 5000); plainParts 1000 5000] in
  getOnGround (m_onGroundInfo (snd (adjustGroundFlagFromList (H := plainGeometry) l true timeDeviationFactor
    (plainSituation 8000 5000 0 false)))) = NotOnGround.
Proof.
  cbv zeta.
  pose proof (@ground_flag_of_nearest_parts plainGeometry timeDeviationFactor
    [mkTimedParts (CAircraftParts_default <| m_isOnGround := true |>) (mkTimestamp 9000 5000); plainParts 1000 5000]
    (plainSituation 8000 5000 0 false)) as Hp.
  destruct (adjustGroundFlagFromList _ _ _ _) as [adjusted s'] eqn:E. cbv zeta in Hp. cbn [snd].
  assert (adjusted = true) as ->.
  { revert E. vm_compute. by intros [= <- _]. }
  destruct Hp as (b & Hb & Hc & _ & ->).
  - intros p Hp. apply elem_of_cons in Hp as [-> | Hp]; [vm_compute; reflexivity|].
    apply list_elem_of_singleton in Hp as ->. vm_compute. reflexivity.
  - apply elem_of_cons in Hb as [-> | Hb]; [revert Hc; vm_compute; discriminate|].
    apply list_elem_of_singleton in Hb as ->. vm_compute. reflexivity.
Defined.
