(* ===== verification/RemoteAircraft.v ===== *)
(** * The provider of remote aircraft (misc/simulation/remoteaircraftprovider.h, .cpp)

    The aircraft in range, with the latest situations, parts and changes of each
    callsign.  Maps are keyed by the unified string of a callsign, by which
    callsigns compare and hash.  A member function changes the state and emits
    signals; the sections under a lock are the steps of threads in [RemoteUpdates]. *)

From S2P Require Export OnGround.

Open Scope Z_scope.

Definition MaxSituationsPerCallsign : nat := 50.
Definition MaxPartsPerCallsign : nat := 50.
Definition MaxPartsAgePerCallsignSecs : Z := 60.

Record CSimulatedAircraft `{FlightGeometry} := mkAircraft {
  ac_callsign : CCallsign; ac_model : CAircraftModel; ac_networkModel : CAircraftModel; ac_situation : RemoteSituation; ac_parts : TimedParts;
  m_enabled : bool; m_rendered : bool; m_partsSynchronized : bool; m_fastPositionUpdates : bool;
  m_supportsGndFlag : bool; m_relativeDistance : CLength }.
Arguments mkAircraft {_} _ _ _ _ _ _ _ _ _ _ _.

(** CAircraftSituationChange: its callsign, times and count; the null change
    has the count -1. *)
Record CAircraftSituationChange := mkChange {
  ch_callsign : CCallsign; ch_time : Timestamp; m_situationsCount : Z;
  m_oldestTimestampMSecsSinceEpoch : Z; m_oldestAdjustedTimestampMSecsSinceEpoch : Z;
  m_latestAdjustedTimestampMSecsSinceEpoch : Z; m_justTakeoff : bool; m_justTouchdown : bool }.
Definition CAircraftSituationChange_null : CAircraftSituationChange :=
  mkChange CCallsign_default (mkTimestamp (-1) 0) (-1) (-1) (-1) (-1) false false.
#[export] Instance Change_TimestampBased : TimestampBased CAircraftSituationChange :=
  {| getMSecsSinceEpoch c := getMSecsSinceEpoch (ch_time c);
     setMSecsSinceEpoch t c := c <| ch_time ::= setMSecsSinceEpoch t |>;
     getTimeOffsetMs c := getTimeOffsetMs (ch_time c);
     setTimeOffsetMs t c := c <| ch_time ::= setTimeOffsetMs t |>;
     OBJ_default := CAircraftSituationChange_null |}.

(** Flags. *)
Definition RevLogDisabled : Z := 0.
Definition RevLogEnabled : Z := 1.
Definition RevLogSimplifiedInfo : Z := 2.

Record CRemoteAircraftProvider `{FlightGeometry} := mkProvider {
  m_situationsByCallsign : gmap QString (CONTAINER RemoteSituation);
  m_latestSituationByCallsign : gmap QString RemoteSituation;
  m_latestOnGroundProviderElevation : gmap QString RemoteSituation;
  m_partsByCallsign : gmap QString (CONTAINER TimedParts);
  m_changesByCallsign : gmap QString (CONTAINER CAircraftSituationChange);
  m_aircraftWithParts : gset QString; m_situationsAdded : Z; m_partsAdded : Z;
  m_enableReverseLookupMsgs : Z; m_aircraftInRange : gmap QString CSimulatedAircraft;
  m_reverseLookupMessages : gmap QString (list QString); m_aircraftPartsMessages : gmap QString (list QJsonObject);
  m_situationsLastModified : gmap QString Z; m_partsLastModified : gmap QString Z;
  m_dbCGPerCallsign : gmap QString CLength; m_dbCGPerModelString : gmap QString CLength;
  m_enableAircraftPartsHistory : bool; m_testOffset : gmap QString CLength }.
Arguments mkProvider {_} _ _ _ _ _ _ _ _ _ _ _ _ _ _ _ _ _ _.

Inductive ProviderSignal `{FlightGeometry} :=
  | addedAircraft (aircraft : CSimulatedAircraft) | changedAircraftInRange
  | addedAircraftParts (callsign : CCallsign) (parts : TimedParts)
  | addedAircraftSituation (situation : RemoteSituation) | removedAircraft (callsign : CCallsign).

(** IRemoteAircraftProvider::removeOutdatedParts *)
Definition removeOutdatedParts (c : CONTAINER TimedParts) : CONTAINER TimedParts :=
  if decide (items c = []) then c
  else snd (removeBefore (latestTimestampMsecsSinceEpoch c - MaxPartsAgePerCallsignSecs * 1000) c).

Section provider.
Context `{FlightGeometry} `{QtConv} `{StdSort}.
Implicit Types (s : CRemoteAircraftProvider) (callsign : CCallsign) (a : CSimulatedAircraft).

Definition CRemoteAircraftProvider_init : CRemoteAircraftProvider :=
  mkProvider ∅ ∅ ∅ ∅ ∅ ∅ 0 0 RevLogSimplifiedInfo ∅ ∅ ∅ ∅ ∅ ∅ ∅ true ∅.
Definition CSimulatedAircraft_default : CSimulatedAircraft :=
  mkAircraft CCallsign_default CAircraftModel_default CAircraftModel_default RemoteSituation_null TimedParts_default
    true false false false false PQ.null.

(** *** CSimulatedAircraft *)

Definition hasValidCallsign a : bool := isValidAircraftCallsign (asString (ac_callsign a)).
Definition setEnabled (enabled : bool) a : bool * CSimulatedAircraft :=
  if eqb (m_enabled a) enabled then (false, a) else (true, a <| m_enabled := enabled |>).
Definition setRendered (rendered : bool) a : bool * CSimulatedAircraft :=
  if eqb (m_rendered a) rendered then (false, a) else (true, a <| m_rendered := rendered |>).
Definition setFastPositionUpdates (useFastPositions : bool) a : bool * CSimulatedAircraft :=
  if eqb (m_fastPositionUpdates a) useFastPositions then (false, a)
  else (true, a <| m_fastPositionUpdates := useFastPositions |>).
Definition setModelCG (cg : CLength) (model : CAircraftModel) : CAircraftModel :=
  if PQ.equals (modelCG model) cg then model else withModelCG cg model.
Definition setCG (cg : CLength) a : CSimulatedAircraft :=
  if PQ.isNull cg then a else a <| ac_model ::= setModelCG cg |> <| ac_networkModel ::= setModelCG cg |>.
Definition setParts (parts : TimedParts) a : CSimulatedAircraft :=
  a <| ac_parts := parts |> <| m_partsSynchronized := true |>.

(** *** Reading *)

Definition getAircraftInRange s : list CSimulatedAircraft := map snd (map_to_list (m_aircraftInRange s)).
Definition getAircraftInRangeCallsigns s : list QString := map fst (map_to_list (m_aircraftInRange s)).
(** Searches the values for the callsign. *)
Definition getAircraftInRangeForCallsign callsign s : CSimulatedAircraft :=
  default CSimulatedAircraft_default
    (head (filter (fun a => asString (ac_callsign a) = asString callsign) (getAircraftInRange s))).
Definition getAircraftInRangeModelForCallsign callsign s : CAircraftModel :=
  ac_model (getAircraftInRangeForCallsign callsign s).
Definition getAircraftInRangeCount s : nat := size (m_aircraftInRange s).
Definition isAircraftInRange callsign s : bool :=
  if callsignEmpty callsign then false else bool_decide (is_Some (m_aircraftInRange s !! asString callsign)).
Definition remoteAircraftSituations callsign s : CONTAINER RemoteSituation :=
  default (ofSequence []) (m_situationsByCallsign s !! asString callsign).
Definition remoteAircraftSituation callsign (index : Z) s : RemoteSituation :=
  let l := items (remoteAircraftSituations callsign s) in
  if (index <? 0) || (Z.of_nat (length l) <=? index) then RemoteSituation_null
  else default RemoteSituation_null (l !! Z.to_nat index).
Definition remoteAircraftSituationsCount callsign s : Z :=
  match m_situationsByCallsign s !! asString callsign with None => -1 | Some c => Z.of_nat (length (items c)) end.
Definition remoteAircraftParts callsign s : CONTAINER TimedParts :=
  default (ofSequence []) (m_partsByCallsign s !! asString callsign).
Definition remoteAircraftPartsCount callsign s : Z :=
  match m_partsByCallsign s !! asString callsign with None => -1 | Some c => Z.of_nat (length (items c)) end.
Definition isRemoteAircraftSupportingParts callsign s : bool :=
  bool_decide (asString callsign ∈ m_aircraftWithParts s).
Definition getRemoteAircraftSupportingPartsCount s : nat := size (m_aircraftWithParts s).
Definition remoteAircraftSituationChanges callsign s : CONTAINER CAircraftSituationChange :=
  default (ofSequence []) (m_changesByCallsign s !! asString callsign).
Definition remoteAircraftSituationChangesCount callsign s : nat :=
  length (items (remoteAircraftSituationChanges callsign s)).
Definition getLatestAircraftParts callsign s : TimedParts :=
  let parts := remoteAircraftParts callsign s in
  if decide (items parts = []) then TimedParts_default else latestObject parts.
Definition situationsLastModified callsign s : Z := default (-1) (m_situationsLastModified s !! asString callsign).
Definition partsLastModified callsign s : Z := default (-1) (m_partsLastModified s !! asString callsign).

Definition latestOnGroundProviderElevations s : list RemoteSituation :=
  map snd (map_to_list (m_latestOnGroundProviderElevation s)).

(** *** Aircraft in range *)

Definition addNewAircraftInRange a s : bool * CRemoteAircraftProvider * list ProviderSignal :=
  if isAircraftInRange (ac_callsign a) s then (false, s, [])
  else (true, s <| m_aircraftInRange ::= insert (asString (ac_callsign a)) a |>,
        [addedAircraft a; changedAircraftInRange]).

(** A change of one aircraft in range, which says whether it changed anything. *)
Definition updateAircraft (f : CSimulatedAircraft -> bool * CSimulatedAircraft) callsign s :
    bool * CRemoteAircraftProvider :=
  match m_aircraftInRange s !! asString callsign with
  | None => (false, s)
  | Some a => let '(changed, a) := f a in
              (changed, s <| m_aircraftInRange ::= insert (asString callsign) a |>)
  end.
Definition setAircraftEnabledFlag callsign (enabledForRendering : bool) s := updateAircraft (setEnabled enabledForRendering) callsign s.
Definition updateAircraftEnabled callsign (enabledForRendering : bool) s := setAircraftEnabledFlag callsign enabledForRendering s.
Definition updateFastPositionEnabled callsign (enable : bool) s := updateAircraft (setFastPositionUpdates enable) callsign s.
Definition updateAircraftRendered callsign (rendered : bool) s := updateAircraft (setRendered rendered) callsign s.
(** Bearings are not part of the model. *)
Definition updateAircraftInRangeDistanceBearing callsign (situation : RemoteSituation) (distance : CLength) s :=
  updateAircraft (fun a => (true, a <| ac_situation := situation |>
                                    <| m_relativeDistance ::= fun d => if PQ.isNull distance then d else distance |>))
    callsign s.
Fixpoint updateMultiple (f : CSimulatedAircraft -> bool * CSimulatedAircraft) (callsigns : list CCallsign) s :
    Z * CRemoteAircraftProvider :=
  match callsigns with
  | [] => (0, s)
  | cs :: callsigns =>
      let '(changed, s) := updateAircraft f cs s in
      let '(c, s) := updateMultiple f callsigns s in ((if changed : bool then c + 1 else c), s)
  end.
Definition updateMultipleAircraftEnabled (callsigns : list CCallsign) (enabledForRendering : bool) s :=
  updateMultiple (setEnabled enabledForRendering) callsigns s.
Definition updateMultipleAircraftRendered (callsigns : list CCallsign) (rendered : bool) s :=
  updateMultiple (setRendered rendered) callsigns s.

(** With the callsigns read before the lock is taken; [operator[]] of the map
    inserts a default aircraft for a key that is missing. *)
Definition markedAsNotRendered (callsigns : list QString) (m : gmap QString CSimulatedAircraft) :
    gmap QString CSimulatedAircraft :=
  foldl (fun m cs => <[cs := snd (setRendered false (default CSimulatedAircraft_default (m !! cs)))]> m) m callsigns.
Definition markAsNotRendered (callsigns : list QString) s : CRemoteAircraftProvider :=
  s <| m_aircraftInRange ::= markedAsNotRendered callsigns |>.
Definition updateMarkAllAsNotRendered s : CRemoteAircraftProvider :=
  markAsNotRendered (getAircraftInRangeCallsigns s) s.

Definition removeAircraft callsign s : bool * CRemoteAircraftProvider :=
  let cs := asString callsign in
  (bool_decide (is_Some (m_aircraftInRange s !! cs)),
   s <| m_partsByCallsign ::= delete cs |> <| m_aircraftWithParts ::= fun w => w ∖ {[cs]} |>
     <| m_partsLastModified ::= delete cs |> <| m_situationsByCallsign ::= delete cs |>
     <| m_latestSituationByCallsign ::= delete cs |> <| m_latestOnGroundProviderElevation ::= delete cs |>
     <| m_situationsLastModified ::= delete cs |>
     <| m_aircraftPartsMessages ::= delete cs |> <| m_dbCGPerCallsign ::= delete cs |>
     <| m_aircraftInRange ::= delete cs |>).

Definition removeAllAircraft s : CRemoteAircraftProvider * list ProviderSignal :=
  (s <| m_partsByCallsign := ∅ |> <| m_aircraftWithParts := ∅ |> <| m_partsAdded := 0 |>
     <| m_partsLastModified := ∅ |> <| m_situationsByCallsign := ∅ |> <| m_latestSituationByCallsign := ∅ |>
     <| m_latestOnGroundProviderElevation := ∅ |> <| m_situationsAdded := 0 |> <| m_situationsLastModified := ∅ |> <| m_changesByCallsign := ∅ |>
     <| m_aircraftPartsMessages := ∅ |> <| m_reverseLookupMessages := ∅ |> <| m_aircraftInRange := ∅ |>
     <| m_dbCGPerCallsign := ∅ |> <| m_testOffset := ∅ |>,
   map (fun a => removedAircraft (ac_callsign a)) (getAircraftInRange s)).

(** *** Centres of gravity *)

Definition getCGFromDB callsign s : CLength := default PQ.null (m_dbCGPerCallsign s !! asString callsign).
(** The overload for a model string makes a callsign of the model string. *)
Definition getCGFromDBForModel (modelString : QString) s : CLength :=
  default PQ.null (m_dbCGPerCallsign s !! asString (CCallsign_make modelString NoHint)).
Definition rememberCGFromDB (cgFromDB : CLength) callsign s : CRemoteAircraftProvider :=
  s <| m_dbCGPerCallsign ::= insert (asString callsign) cgFromDB |>.
Definition rememberCGFromDBForModel (cgFromDB : CLength) (modelString : QString) s : CRemoteAircraftProvider :=
  s <| m_dbCGPerModelString ::= insert modelString cgFromDB |>.

Definition updateCG callsign (cg : CLength) s : bool * CRemoteAircraftProvider :=
  updateAircraft (fun a => (true, setCG cg a)) callsign s.

Definition setModelString (modelString : QString) a : CSimulatedAircraft := a <| ac_model ::= withTextOfModel modelString |>.
Definition updateCGAndModelString callsign (cg : CLength) (modelString : QString) s : bool * CRemoteAircraftProvider :=
  updateAircraft (fun a =>
    let a := if PQ.isNull cg then a else setCG cg a in
    (true, if isEmpty modelString then a else setModelString modelString a)) callsign s.
(** The aircraft whose model has the text, with their callsigns. *)
Definition hasModelText (modelString : QString) a : bool := equalsCI (textOfModel (ac_model a)) modelString.
Definition updateCGForModel (modelString : QString) (cg : CLength) s : gset QString * CRemoteAircraftProvider :=
  if isEmpty modelString then (∅, s)
  else
    (list_to_set (map (fun a => asString (ac_callsign a)) (filter (fun a => hasModelText modelString a = true) (getAircraftInRange s))),
     s <| m_aircraftInRange ::= fmap (fun a => if hasModelText modelString a then setCG cg a else a) |>).

(** *** Offsets of altitudes, for tests *)

Definition testAltitudeOffsetCallsign : CCallsign := CCallsign_make (lit "ZZZZ") NoHint.
Definition testAddAltitudeOffset callsign (offset : CLength) s : bool * CRemoteAircraftProvider :=
  if PQ.isNull offset || PQ.isZeroEpsilonConsidered offset
  then (false, s <| m_testOffset ::= delete (asString callsign) |>)
  else (true, s <| m_testOffset ::= insert (asString callsign) offset |>).
Definition hasTestAltitudeOffset callsign s : bool :=
  if callsignEmpty callsign then false else bool_decide (is_Some (m_testOffset s !! asString callsign)).
Definition hasTestAltitudeOffsetGlobalValue s : bool :=
  bool_decide (is_Some (m_testOffset s !! asString testAltitudeOffsetCallsign)).
Definition addTestAltitudeOffsetToSituation (situation : RemoteSituation) s : RemoteSituation :=
  let cs := m_correspondingCallsign situation in
  if negb (hasTestAltitudeOffsetGlobalValue s) && negb (hasTestAltitudeOffset cs s) then situation
  else
    let os := match m_testOffset s !! asString cs with
              | Some o => o
              | None => default PQ.null (m_testOffset s !! asString testAltitudeOffsetCallsign)
              end in
    if PQ.isNull os || PQ.isZeroEpsilonConsidered os then situation
    else situation_withAltitudeOffset os situation.

(** *** Messages *)

Definition enableReverseLookupMessages (enable : Z) s : CRemoteAircraftProvider :=
  s <| m_enableReverseLookupMsgs := enable |>.
Definition getReverseLookupMessages callsign s : list QString :=
  default [] (m_reverseLookupMessages s !! asString callsign).
Definition removeReverseLookupMessages callsign s : CRemoteAircraftProvider :=
  s <| m_reverseLookupMessages ::= delete (asString callsign) |>.
Definition addReverseLookupMessages callsign (messages : list QString) s : CRemoteAircraftProvider :=
  if callsignEmpty callsign then s
  else if decide (messages = []) then s
  else if m_enableReverseLookupMsgs s =? RevLogDisabled then s
  else s <| m_reverseLookupMessages ::=
         insert (asString callsign) (getReverseLookupMessages callsign s ++ messages) |>.
Definition addReverseLookupMessage callsign (message : QString) s : CRemoteAircraftProvider :=
  if callsignEmpty callsign then s
  else if isEmpty message then s else addReverseLookupMessages callsign [message] s.
Definition enableAircraftPartsHistory (enabled : bool) s : CRemoteAircraftProvider :=
  s <| m_enableAircraftPartsHistory := enabled |>.
Definition getAircraftPartsHistory callsign s : list QJsonObject :=
  default [] (m_aircraftPartsMessages s !! asString callsign).

(** *** Situations *)

Definition change_make (l : list RemoteSituation) : CAircraftSituationChange :=
  match l with
  | latest :: _ :: _ =>
      let oldest := default RemoteSituation_null (last l) in
      mkChange (m_correspondingCallsign latest) (rs_time latest) (Z.of_nat (length l))
        (getMSecsSinceEpoch oldest) (getAdjustedMSecsSinceEpoch oldest) (getAdjustedMSecsSinceEpoch latest)
        (isJustTakingOff l) (isJustTouchingDown l)
  | _ => CAircraftSituationChange_null
  end.
Definition storeChange (change : CAircraftSituationChange) s : CRemoteAircraftProvider :=
  let cs := asString (ch_callsign change) in
  s <| m_changesByCallsign ::= insert cs
         (push_frontKeepLatestAdjustedFirst change true (Z.of_nat MaxSituationsPerCallsign)
            (default (ofSequence []) (m_changesByCallsign s !! cs))) |>.

(** What becomes of the list of a callsign; [None] when the situation has no
    velocity and the one in front has. *)
Definition storeInList (situation : RemoteSituation) (c : CONTAINER RemoteSituation) :
    option (CONTAINER RemoteSituation) :=
  let c := setAdjustedSortHint AdjustedTimestampLatestFirst c in
  match items c with
  | [] => Some (prefillLatestAdjustedFirst situation MaxSituationsPerCallsign (-1) c)
  | front :: _ =>
      if negb (m_hasVelocity situation) && m_hasVelocity front then None
      else
        let c := push MaxSituationsPerCallsign c situation in
        let c := setAdjustedSortHint AdjustedTimestampLatestFirst c in
        let c := withItems (fun l => snd (transferElevationForward l)) c in
        Some (if hasInboundGroundDetails situation
              then withItems (list_setOnGroundDetails (getGroundDetails situation)) c else c)
  end.
Definition guessFront (model : CAircraftModel) (l : list RemoteSituation) : list RemoteSituation :=
  match l with [] => [] | front :: rest => guessOnGround model front :: rest end.

(** The parts under the locks one after the other. *)
Definition storeAircraftSituation (now : Z) (situation : RemoteSituation) (allowTestAltitudeOffset : bool) s :
    CRemoteAircraftProvider * list ProviderSignal :=
  let callsign := m_correspondingCallsign situation in
  let cs := asString callsign in
  if callsignEmpty callsign then (s, [])
  else
    let situationCorrected :=
      if allowTestAltitudeOffset then addTestAltitudeOffsetToSituation situation s else situation in
    let model := getAircraftInRangeModelForCallsign callsign s in
    let cg := flightCG (m_flight situation) in
    let s := if hasCG situation && negb (PQ.equals (modelCG model) cg) then snd (updateCG callsign cg s) else s in
    let s := s <| m_situationsAdded ::= Z.succ |> <| m_situationsLastModified ::= insert cs now |> in
    let list := default (ofSequence []) (m_situationsByCallsign s !! cs) in
    match storeInList situationCorrected list with
    | None => (s <| m_situationsByCallsign ::=
                 insert cs (setAdjustedSortHint AdjustedTimestampLatestFirst list) |>, [])
    | Some c =>
        let c := if hasInboundGroundDetails situation then c else withItems (guessFront model) c in
        let s := s <| m_situationsByCallsign ::= insert cs c |>
                   <| m_latestSituationByCallsign ::= insert cs situationCorrected |> in
        (storeChange (change_make (items c)) s, [addedAircraftSituation situationCorrected])
    end.

(** *** Elevations *)

(** The loop over the situations from the latest on, with the situations as they were: how
    many got the elevation, and whether one on ground has. *)
Fixpoint elevateSituations (elevationPlane : option ElevationPlane) (info : GndElevationInfo) (model : CAircraftModel)
    (before : list RemoteSituation) (latest : bool) (situations : list RemoteSituation) : Z * bool * list RemoteSituation :=
  match situations with
  | [] => (0, false, [])
  | x :: situations =>
      let '(set, x) := setGroundElevationChecked elevationPlane info false x in
      let x := if set then (if latest then guessOnGroundByChange before model x else guessOnGround model x) else x in
      let '(c, forOnGround, situations) := elevateSituations elevationPlane info model before false situations in
      (if set then c + 1 else c, set && hasInboundGroundDetails x && situation_isOnGround x || forOnGround, x :: situations)
  end.
Definition setGroundElevationCheckedAndGuessGround (elevationPlane : option ElevationPlane) (info : GndElevationInfo)
    (model : CAircraftModel) (situations : list RemoteSituation) :
    Z * bool * CAircraftSituationChange * list RemoteSituation :=
  match elevationPlane with
  | None => (0, false, CAircraftSituationChange_null, situations)
  | Some _ =>
      if decide (situations = []) then (0, false, CAircraftSituationChange_null, situations)
      else
        let '(c, forOnGround, l) := elevateSituations elevationPlane info model situations true situations in
        (c, forOnGround, change_make l, l)
  end.
Definition change_isNull (change : CAircraftSituationChange) : bool := m_situationsCount change <? 2.
Definition elevateAircraft (elevation : option ElevationPlane) (info : GndElevationInfo) a : CSimulatedAircraft :=
  a <| ac_situation ::= fun x => snd (setGroundElevationChecked elevation info false x) |>.
(** The number of situations that changed, and whether one is on ground; [operator[]]
    of the map inserts an empty list for a callsign that has none. *)
Definition updateAircraftGroundElevation (now : Z) callsign (elevation : option ElevationPlane) (info : GndElevationInfo) s :
    Z * bool * CRemoteAircraftProvider :=
  let cs := asString callsign in
  if negb (isAircraftInRange callsign s) then (0, false, s)
  else
    let model := getAircraftInRangeModelForCallsign callsign s in
    let situations := remoteAircraftSituations callsign s in
    let '(updated, forOnGround, change, l) :=
      setGroundElevationCheckedAndGuessGround elevation info model (items situations) in
    let s := s <| m_situationsByCallsign ::= insert cs (withItems (fun _ => l) situations) |> in
    if updated <? 1 then (0, false, s)
    else
      let s := s <| m_situationsLastModified ::= insert cs now |> in
      let latestSituation := frontOrNull l in
      let s := if bool_decide (info = FromProvider) && situation_isOnGround latestSituation
               then s <| m_latestOnGroundProviderElevation ::= insert cs latestSituation |> else s in
      let s := if change_isNull change then s else storeChange change s in
      (updated, forOnGround, snd (updateAircraft (fun a => (true, elevateAircraft elevation info a)) callsign s)).

(** *** Parts *)

Definition storeParts callsign (ts : Z) (parts : TimedParts) (removeOutdated : bool) s :
    CRemoteAircraftProvider * list ProviderSignal :=
  let cs := asString callsign in
  if callsignEmpty callsign then (s, [])
  else
    let c := push MaxPartsPerCallsign (remoteAircraftParts callsign s) parts in
    let c := setAdjustedSortHint AdjustedTimestampLatestFirst c in
    let c := if removeOutdated then removeOutdatedParts c else c in
    let s := s <| m_partsAdded ::= Z.succ |> <| m_partsLastModified ::= insert cs ts |>
               <| m_partsByCallsign ::= insert cs c |> in
    let s :=
      if decide (items c = []) then s
      else
        let situations := remoteAircraftSituations callsign s in
        let '(n, l) := list_adjustGroundFlag parts (items situations) in
        let s := s <| m_situationsByCallsign ::= insert cs (withItems (fun _ => l) situations) |> in
        if 0 <? n then s <| m_situationsLastModified ::= insert cs ts |> else s in
    let s := snd (updateAircraft (fun a => (true, setParts parts a)) callsign s) in
    (s <| m_aircraftWithParts ::= fun w => w ∪ {[cs]} |>, [addedAircraftParts callsign parts]).

(** The overload for the JSON of a configuration; parts as converted in
    [AircraftParts.storeAircraftParts].  The first clock is read for the time of the
    parts, the second when they are stored. *)
Definition storeJson `{BuildConfig} callsign (now ts : Z) (jsonObject : QJsonObject) (currentOffsetMs : Z) s :
    CRemoteAircraftProvider * list ProviderSignal :=
  let remoteAircraft := getAircraftInRangeForCallsign callsign s in
  let latest := default TimedParts_default (head (items (remoteAircraftParts callsign s))) in
  match AircraftParts.storeAircraftParts (hasValidCallsign remoteAircraft) (m_partsSynchronized remoteAircraft)
          (tp_parts latest) jsonObject with
  | None => (s, [])
  | Some p =>
      let '(s, signals) := storeParts callsign ts (mkTimedParts p (mkTimestamp now currentOffsetMs)) false s in
      (if m_enableAircraftPartsHistory s
       then s <| m_aircraftPartsMessages ::=
              insert (asString callsign) (getAircraftPartsHistory callsign s ++ [jsonObject]) |>
       else s, signals)
  end.
End provider.

(** ** Runs *)

Section run.
Context `{FlightGeometry} `{QtConv} `{StdSort} `{BuildConfig}.

(** A call from outside, with the clock where it is read. *)
Inductive ProviderEvent :=
  | AddAircraft (a : CSimulatedAircraft)
  | SetEnabled (callsign : CCallsign) (enabled : bool)
  | SetFastPositions (callsign : CCallsign) (enable : bool)
  | SetRendered (callsign : CCallsign) (rendered : bool)
  | SetMultipleEnabled (callsigns : list CCallsign) (enabled : bool)
  | SetMultipleRendered (callsigns : list CCallsign) (rendered : bool)
  | MarkAllAsNotRendered
  | RemoveAircraft (callsign : CCallsign)
  | RemoveAllAircraft
  | RememberCG (cg : CLength) (callsign : CCallsign)
  | RememberCGForModel (cg : CLength) (modelString : QString)
  | EnableMessages (enable : Z)
  | AddMessages (callsign : CCallsign) (messages : list QString)
  | RemoveMessages (callsign : CCallsign)
  | EnablePartsHistory (enabled : bool)
  | AddTestOffset (callsign : CCallsign) (offset : CLength)
  | UpdateCG (callsign : CCallsign) (cg : CLength)
  | UpdateCGAndModelString (callsign : CCallsign) (cg : CLength) (modelString : QString)
  | UpdateCGForModel (modelString : QString) (cg : CLength)
  | UpdateGroundElevation (now : Z) (callsign : CCallsign) (elevation : option ElevationPlane) (info : GndElevationInfo)
  | StoreSituation (now : Z) (situation : RemoteSituation) (allowTestAltitudeOffset : bool)
  | StoreParts (callsign : CCallsign) (ts : Z) (parts : TimedParts) (removeOutdated : bool)
  | StoreJson (callsign : CCallsign) (now ts : Z) (jsonObject : QJsonObject) (currentOffsetMs : Z).

Definition providerStep (s : CRemoteAircraftProvider) (e : ProviderEvent) : CRemoteAircraftProvider :=
  match e with
  | AddAircraft a => (addNewAircraftInRange a s).1.2
  | SetEnabled cs b => (updateAircraftEnabled cs b s).2
  | SetFastPositions cs b => (updateFastPositionEnabled cs b s).2
  | SetRendered cs b => (updateAircraftRendered cs b s).2
  | SetMultipleEnabled l b => (updateMultipleAircraftEnabled l b s).2
  | SetMultipleRendered l b => (updateMultipleAircraftRendered l b s).2
  | MarkAllAsNotRendered => updateMarkAllAsNotRendered s
  | RemoveAircraft cs => (removeAircraft cs s).2
  | RemoveAllAircraft => (removeAllAircraft s).1
  | RememberCG cg cs => rememberCGFromDB cg cs s
  | RememberCGForModel cg model => rememberCGFromDBForModel cg model s
  | EnableMessages enable => enableReverseLookupMessages enable s
  | AddMessages cs l => addReverseLookupMessages cs l s
  | RemoveMessages cs => removeReverseLookupMessages cs s
  | EnablePartsHistory b => enableAircraftPartsHistory b s
  | AddTestOffset cs offset => (testAddAltitudeOffset cs offset s).2
  | UpdateCG cs cg => (updateCG cs cg s).2
  | UpdateCGAndModelString cs cg model => (updateCGAndModelString cs cg model s).2
  | UpdateCGForModel model cg => (updateCGForModel model cg s).2
  | UpdateGroundElevation now cs elevation info => (updateAircraftGroundElevation now cs elevation info s).2
  | StoreSituation now x allow => (storeAircraftSituation now x allow s).1
  | StoreParts cs ts p b => (storeParts cs ts p b s).1
  | StoreJson cs now ts j os => (storeJson cs now ts j os s).1
  end.
Definition provider_run (s : CRemoteAircraftProvider) (es : list ProviderEvent) : CRemoteAircraftProvider :=
  run providerStep s es.
End run.
