(* ===== verification/RemoteInvariant.v ===== *)
(** * What the provider of remote aircraft keeps

    The lists it holds are bounded, its situations and parts sorted, its maps agree with
    each other ([provider_invariant]).  The history of the situations is in [RemoteHistory],
    what single operations do in [RemoteUpdates]. *)

From S2P Require Import QtReference RemoteAircraft.

Open Scope Z_scope.

(** ** Times *)

Section times.
Context `{FlightGeometry}.
Implicit Types (l : list RemoteSituation).

Definition times l : list Timestamp := map rs_time l.

Lemma times_length l l' : times l = times l' -> length l = length l'.
Proof using Type. intros E%(f_equal length). unfold times in E. by rewrite !length_map in E. Qed.
Lemma times_descending l l' :
  times l = times l' -> descending getMSecsSinceEpoch l -> descending getMSecsSinceEpoch l'.
Proof using Type.
  intros E. apply descending_times. unfold times in E. apply (f_equal (map getMSecsSinceEpoch)) in E.
  by rewrite !map_map in E.
Qed.

Lemma times_setOnGroundDetails d l : times (list_setOnGroundDetails d l) = times l.
Proof using Type. unfold times, list_setOnGroundDetails. by rewrite map_map. Qed.
Lemma time_transfer from to : rs_time (snd (transferGroundElevationToMe from to)) = rs_time to.
Proof using Type.
  unfold transferGroundElevationToMe, setGroundElevation. case_match; [done|]. by case_match.
Qed.
Lemma times_transfer l : times (snd (transferElevationForward l)) = times l.
Proof using Type.
  induction l as [|a [|b l] IH]; [done..|]. cbn [transferElevationForward].
  pose proof (time_transfer b a) as Ht. destruct (transferGroundElevationToMe b a) as [set a'].
  change (match l with [] => _ | _ => _ end) with (transferElevationForward (b :: l)).
  destruct (transferElevationForward (b :: l)) as [c r] eqn:E. unfold times in *. simpl in *. by rewrite Ht, IH.
Qed.
Lemma times_guessFront m l : times (guessFront m l) = times l.
Proof using Type. destruct l as [|a l]; [done|]. simpl. unfold guessOnGround. by case_match. Qed.
Lemma times_adjustGroundFlag p l : times (snd (list_adjustGroundFlag p l)) = times l.
Proof using Type.
  unfold times, list_adjustGroundFlag. cbn [snd]. rewrite !map_map. apply map_ext. intros a.
  unfold adjustGroundFlag. case_match; [done|]. cbv zeta. by case_match.
Qed.
(** An elevation changes neither the times nor the velocities. *)
Lemma elevate_situation plane info b x :
  let x' := (setGroundElevationChecked plane info b x).2 in
  rs_time x' = rs_time x /\ m_hasVelocity x' = m_hasVelocity x.
Proof using Type.
  unfold setGroundElevationChecked, setGroundElevation. destruct plane; [|done]. by repeat case_match.
Qed.
Lemma guess_situation model x :
  rs_time (guessOnGround model x) = rs_time x /\ m_hasVelocity (guessOnGround model x) = m_hasVelocity x.
Proof using Type. unfold guessOnGround. by case_match. Qed.
Lemma guessByChange_situation l model x :
  rs_time (guessOnGroundByChange l model x) = rs_time x /\
  m_hasVelocity (guessOnGroundByChange l model x) = m_hasVelocity x.
Proof using Type. unfold guessOnGroundByChange. case_match; [apply guess_situation | by case_match]. Qed.
Lemma elevate_times plane info model before latest l :
  let l' := (elevateSituations plane info model before latest l).2 in
  times l' = times l /\ map m_hasVelocity l' = map m_hasVelocity l.
Proof using Type.
  cbv zeta. revert latest. induction l as [|x l IH]; intros latest; [done|]. cbn [elevateSituations].
  pose proof (elevate_situation plane info false x) as [Ht Hv]. destruct (setGroundElevationChecked _ _ _ x) as [set x1].
  cbn [snd] in Ht, Hv. specialize (IH false). destruct (elevateSituations _ _ _ _ false l) as [[c b] l1].
  destruct IH as [IHt IHv]. cbn [snd] in *. unfold times in *. cbn [map].
  set (x2 := if set then _ else _). assert (rs_time x2 = rs_time x /\ m_hasVelocity x2 = m_hasVelocity x) as [-> ->].
  { subst x2. destruct set, latest; try (split; congruence).
    - destruct (guessByChange_situation before model x1) as [-> ->]. by split.
    - destruct (guess_situation model x1) as [-> ->]. by split. }
  by rewrite IHt, IHv.
Qed.
Lemma elevateAll_times plane info model l :
  let l' := (setGroundElevationCheckedAndGuessGround plane info model l).2 in
  times l' = times l /\ map m_hasVelocity l' = map m_hasVelocity l.
Proof using Type.
  cbv zeta. unfold setGroundElevationCheckedAndGuessGround. destruct plane as [p|]; [|done]. case_decide; [done|].
  pose proof (elevate_times (Some p) info model l true l) as Hl. by destruct (elevateSituations _ _ _ _ _ _) as [[c b] l'].
Qed.
End times.

(** ** The invariant *)

Definition boundedLatestFirst {OBJ} `{TimestampBased OBJ} (n : nat) (c : CONTAINER OBJ) : Prop :=
  descending getMSecsSinceEpoch (items c) /\ (length (items c) <= n)%nat.

Record providerWf `{FlightGeometry} (s : CRemoteAircraftProvider) : Prop := mkProviderWf {
  wf_key : map_Forall (fun cs a => asString (ac_callsign a) = cs) (m_aircraftInRange s);
  wf_situations : map_Forall (fun _ => boundedLatestFirst MaxSituationsPerCallsign) (m_situationsByCallsign s);
  wf_parts : map_Forall (fun _ => boundedLatestFirst MaxPartsPerCallsign) (m_partsByCallsign s);
  wf_changes : map_Forall (fun _ c => (length (items c) <= MaxSituationsPerCallsign)%nat) (m_changesByCallsign s);
  wf_supporting : m_aircraftWithParts s = dom (m_partsByCallsign s);
  wf_partsModified : dom (m_partsLastModified s) = dom (m_partsByCallsign s);
  wf_latest : dom (m_latestSituationByCallsign s) ⊆ dom (m_situationsByCallsign s);
  wf_situationsModified : dom (m_situationsLastModified s) ⊆ dom (m_situationsByCallsign s) }.

Section inRange.
Context `{FlightGeometry}.
Implicit Types (s : CRemoteAircraftProvider).

(** Updating an aircraft in range under its key. *)
Lemma updateAircraft_spec f cs s :
  (forall a, ac_callsign (f a).2 = ac_callsign a) ->
  exists m, (updateAircraft f cs s).2 = s <| m_aircraftInRange := m |> /\ dom m = dom (m_aircraftInRange s) /\
    (map_Forall (fun k a => asString (ac_callsign a) = k) (m_aircraftInRange s) ->
     map_Forall (fun k a => asString (ac_callsign a) = k) m).
Proof using Type.
  intros Hf. unfold updateAircraft. destruct (m_aircraftInRange s !! asString cs) as [a|] eqn:E.
  - specialize (Hf a). destruct (f a) as [b a']. simpl in *.
    exists (<[asString cs := a']> (m_aircraftInRange s)). split; [reflexivity|]. split.
    + rewrite dom_insert_L. apply elem_of_dom_2 in E. set_solver.
    + intros Hm. apply map_Forall_insert_2; [|done]. rewrite Hf. by apply (Hm (asString cs)).
  - exists (m_aircraftInRange s). split; [by destruct s | done].
Qed.

Lemma wf_inRange s m :
  map_Forall (fun k a => asString (ac_callsign a) = k) m -> providerWf s ->
  providerWf (s <| m_aircraftInRange := m |>).
Proof using Type. intros Hm []. by constructor. Qed.

Lemma wf_updateAircraft f cs s :
  (forall a, ac_callsign (f a).2 = ac_callsign a) -> providerWf s -> providerWf (updateAircraft f cs s).2.
Proof using Type.
  intros Hf Hs. destruct (updateAircraft_spec f cs s Hf) as (m & -> & _ & Hm).
  apply wf_inRange; [apply Hm, Hs | done].
Qed.
Lemma wf_updateMultiple f l s :
  (forall a, ac_callsign (f a).2 = ac_callsign a) -> providerWf s -> providerWf (updateMultiple f l s).2.
Proof using Type.
  intros Hf. revert s. induction l as [|cs l IH]; intros s Hs; simpl; [done|].
  pose proof (wf_updateAircraft f cs s Hf Hs) as H'. destruct (updateAircraft f cs s) as [b s']. simpl in H'.
  specialize (IH s' H'). by destruct (updateMultiple f l s') as [c s''].
Qed.

Lemma setEnabled_callsign b a : ac_callsign (setEnabled b a).2 = ac_callsign a.
Proof using Type. unfold setEnabled. by case_match. Qed.
Lemma setFast_callsign b a : ac_callsign (setFastPositionUpdates b a).2 = ac_callsign a.
Proof using Type. unfold setFastPositionUpdates. by case_match. Qed.
Lemma setRendered_callsign b a : ac_callsign (setRendered b a).2 = ac_callsign a.
Proof using Type. unfold setRendered. by case_match. Qed.

(** Marking callsigns, of which only those in range keep the keys right. *)
Lemma markedAsNotRendered_keys l m :
  Forall (fun cs => is_Some (m !! cs)) l ->
  map_Forall (fun k a => asString (ac_callsign a) = k) m ->
  map_Forall (fun k a => asString (ac_callsign a) = k) (markedAsNotRendered l m).
Proof using Type.
  revert m. induction l as [|cs l IH]; intros m Hl Hm; simpl; [done|].
  inversion_clear Hl as [|? ? [a Ha] Hl']. rewrite Ha. simpl. apply IH.
  - eapply Forall_impl; [exact Hl'|]. intros k Hk. apply lookup_insert_is_Some'. by right.
  - apply map_Forall_insert_2; [|done]. rewrite setRendered_callsign. by apply (Hm cs).
Qed.

Lemma wf_remove cs s : providerWf s -> providerWf (removeAircraft cs s).2.
Proof using Type.
  intros Hs. unfold removeAircraft. cbn [snd]. destruct s, Hs. cbn in *. subst.
  constructor; cbn; try done; try by apply map_Forall_delete.
  - by rewrite dom_delete_L.
  - rewrite !dom_delete_L. set_solver.
  - rewrite !dom_delete_L. set_solver.
  - rewrite !dom_delete_L. set_solver.
Qed.

End inRange.

Section invariant.
Context `{FlightGeometry} `{QtConv} `{StdSortLaws} `{BuildConfig}.
Implicit Types (s : CRemoteAircraftProvider).

Lemma bounded_empty {OBJ} `{TimestampBased OBJ} n : boundedLatestFirst n (ofSequence (OBJ := OBJ) []).
Proof using Type. split; simpl; [constructor | lia]. Qed.
Lemma bounded_default {OBJ} `{TimestampBased OBJ} (n : nat) (m : gmap QString (CONTAINER OBJ)) cs :
  map_Forall (fun _ => boundedLatestFirst n) m -> boundedLatestFirst n (default (ofSequence []) (m !! cs)).
Proof using Type.
  intros Hm. destruct (m !! cs) as [c|] eqn:E; [by apply (Hm cs) | apply bounded_empty].
Qed.
Lemma bounded_push {OBJ} `{TimestampBasedLaws OBJ} n c (value : OBJ) :
  (1 < n)%nat -> boundedLatestFirst n c -> boundedLatestFirst n (push n c value).
Proof using Type*. intros Hn [Hs Hl]. by apply push_ok. Qed.
Lemma bounded_items {OBJ} `{TimestampBased OBJ} n (c c' : CONTAINER OBJ) :
  items c = items c' -> boundedLatestFirst n c -> boundedLatestFirst n c'.
Proof using Type. unfold boundedLatestFirst. by intros ->. Qed.
Lemma bounded_times n (c c' : CONTAINER RemoteSituation) :
  times (items c') = times (items c) -> boundedLatestFirst n c -> boundedLatestFirst n c'.
Proof using Type.
  intros E [Hs Hl]. split; [by eapply times_descending | by rewrite (times_length _ _ E)].
Qed.

Lemma storeInList_bounded x c c' :
  boundedLatestFirst MaxSituationsPerCallsign c -> storeInList x c = Some c' ->
  boundedLatestFirst MaxSituationsPerCallsign c'.
Proof using Type*.
  intros Hc. unfold storeInList. cbn [setAdjustedSortHint items].
  destruct (items c) as [|f r] eqn:E.
  - intros [= <-].
    destruct (prefill_ok x MaxSituationsPerCallsign (-1) (setAdjustedSortHint AdjustedTimestampLatestFirst c))
      as [Hs Hl]; [unfold MaxSituationsPerCallsign; lia|]. split; [done | by rewrite Hl].
  - destruct (negb (m_hasVelocity x) && m_hasVelocity f); [done|]. intros [= <-].
    set (c0 := setAdjustedSortHint AdjustedTimestampLatestFirst (push _ _ _)).
    assert (boundedLatestFirst MaxSituationsPerCallsign c0) as Hc0.
    { apply (bounded_items _ (push MaxSituationsPerCallsign (setAdjustedSortHint AdjustedTimestampLatestFirst c) x));
        [done|]. apply bounded_push; [unfold MaxSituationsPerCallsign; lia | by apply (bounded_items _ c)]. }
    case_match; (eapply bounded_times; [|exact Hc0]); cbn [withItems items];
      rewrite ?times_setOnGroundDetails; apply times_transfer.
Qed.

Lemma removeOutdated_bounded n c : boundedLatestFirst n c -> boundedLatestFirst n (removeOutdatedParts c).
Proof using Type.
  intros [Hs Hl]. unfold removeOutdatedParts. case_decide; [done|]. unfold removeBefore, removeIf.
  cbn [snd withItems]. split; cbn [items].
  - clear -Hs. induction Hs as [|a l Hs IH Ha]; [constructor|]. rewrite filter_cons.
    case_decide; [|done]. constructor; [done|]. rewrite Forall_forall in *.
    intros x [_ Hx]%list_elem_of_filter. by apply Ha.
  - etransitivity; [apply length_filter | done].
Qed.

Lemma wf_storeChange ch s : providerWf s -> providerWf (storeChange ch s).
Proof using Type*.
  intros []. constructor; cbn; try done. apply map_Forall_insert_2; [|done].
  unfold push_frontKeepLatestAdjustedFirst, truncateTo, truncate. cbn [withItems items].
  assert (forall cs, length (items (default (ofSequence []) (m_changesByCallsign s !! cs))) <= 50)%nat as Hl.
  { intros cs. destruct (_ !! cs) as [c|] eqn:E; [by apply (wf_changes0 cs) | simpl; lia]. }
  specialize (Hl (asString (ch_callsign ch))). destruct (items _) as [|f r]; simpl in *; [unfold MaxSituationsPerCallsign; lia|].
  case_match; [simpl; rewrite length_take; unfold MaxSituationsPerCallsign; lia|].
  case_match.
  - unfold sortAdjustedLatestFirst, sortAdjustedOldestFirst. rewrite length_rev.
    rewrite (Permutation_length (std_sort_perm _ _)). simpl. rewrite length_take. unfold MaxSituationsPerCallsign. lia.
  - simpl. rewrite length_take. unfold MaxSituationsPerCallsign. lia.
Qed.

Lemma setCG_callsign cg a : ac_callsign (setCG cg a) = ac_callsign a.
Proof using Type. unfold setCG. by case_match. Qed.

Lemma wf_storeSituation now x allow s : providerWf s -> providerWf (storeAircraftSituation now x allow s).1.
Proof using Type*.
  intros Hs. unfold storeAircraftSituation. case_match; [done|].
  set (cs := asString (m_correspondingCallsign x)). set (model := getAircraftInRangeModelForCallsign _ _).
  set (y := if allow then addTestAltitudeOffsetToSituation x s else x).
  clearbody model y. cbv zeta. revert Hs.
  assert (providerWf s -> providerWf (if hasCG x && negb (PQ.equals (modelCG model) (flightCG (m_flight x)))
    then (updateCG (m_correspondingCallsign x) (flightCG (m_flight x)) s).2 else s)) as Hcg.
  { intros Hs. case_match; [|done]. apply wf_updateAircraft; [|done]. apply setCG_callsign. }
  intros Hs. specialize (Hcg Hs). clear Hs. revert Hcg.
  generalize (if hasCG x && negb (PQ.equals (modelCG model) (flightCG (m_flight x)))
    then (updateCG (m_correspondingCallsign x) (flightCG (m_flight x)) s).2 else s) as s'. clear s. intros s Hs.
  change (m_situationsByCallsign (s <| m_situationsAdded ::= Z.succ |> <| m_situationsLastModified ::= insert cs now |>))
    with (m_situationsByCallsign s).
  assert (boundedLatestFirst MaxSituationsPerCallsign (default (ofSequence []) (m_situationsByCallsign s !! cs))) as Hc.
  { apply bounded_default, Hs. }
  destruct (storeInList y _) as [c|] eqn:E.
  - cbn [fst]. apply wf_storeChange. destruct s, Hs. constructor; cbn in *; try done.
    + apply map_Forall_insert_2; [|done]. apply storeInList_bounded in E; [|done].
      case_match; [done|]. eapply bounded_times; [|exact E]. apply times_guessFront.
    + rewrite !dom_insert_L. set_solver.
    + rewrite !dom_insert_L. set_solver.
  - cbn [fst]. destruct s, Hs. constructor; cbn in *; try done.
    + apply map_Forall_insert_2; [by eapply bounded_items; [|exact Hc] | done].
    + rewrite dom_insert_L. set_solver.
    + rewrite !dom_insert_L. set_solver.
Qed.

Lemma wf_storeParts cs ts p b s : providerWf s -> providerWf (storeParts cs ts p b s).1.
Proof using Type*.
  intros Hs. unfold storeParts. case_match; [done|]. cbv zeta.
  set (c := if b then _ else _). set (s1 := s <| m_partsAdded ::= Z.succ |> <| m_partsLastModified ::= _ |> <| m_partsByCallsign ::= _ |>).
  assert (boundedLatestFirst MaxPartsPerCallsign c) as Hc.
  { assert (boundedLatestFirst MaxPartsPerCallsign (push MaxPartsPerCallsign (remoteAircraftParts cs s) p)) as Hp.
    { apply bounded_push; [unfold MaxPartsPerCallsign; lia|]. apply bounded_default, Hs. }
    subst c. destruct b; [apply removeOutdated_bounded|]; by eapply bounded_items; [|exact Hp]. }
  set (s2 := if decide _ then s1 else _).
  assert (exists m t, s2 = s1 <| m_situationsByCallsign := m |> <| m_situationsLastModified := t |> /\
    map_Forall (fun _ => boundedLatestFirst MaxSituationsPerCallsign) m /\
    dom (m_latestSituationByCallsign s) ⊆ dom m /\ dom t ⊆ dom m) as (m & t & E & Hm & Hd & Ht).
  { subst s2. case_decide.
    - exists (m_situationsByCallsign s), (m_situationsLastModified s). split_and!; [done | apply Hs..].
    - assert (boundedLatestFirst MaxSituationsPerCallsign (remoteAircraftSituations cs s1)) as Hr.
      { apply (bounded_default _ (m_situationsByCallsign s)), Hs. }
      pose proof (times_adjustGroundFlag p (items (remoteAircraftSituations cs s1))) as El.
      destruct (list_adjustGroundFlag p _) as [n l]. cbn [snd] in El.
      exists (<[asString cs := withItems (fun _ => l) (remoteAircraftSituations cs s1)]> (m_situationsByCallsign s)),
        (if 0 <? n then <[asString cs := ts]> (m_situationsLastModified s) else m_situationsLastModified s).
      split_and!.
      + case_match; done.
      + apply map_Forall_insert_2; [by eapply bounded_times; [|exact Hr] | apply Hs].
      + rewrite dom_insert_L. pose proof (wf_latest s Hs). set_solver.
      + pose proof (wf_situationsModified s Hs). case_match; rewrite ?dom_insert_L; set_solver. }
  clearbody s2. subst s2.
  destruct (updateAircraft_spec (fun a => (true, setParts p a)) cs
    (s1 <| m_situationsByCallsign := m |> <| m_situationsLastModified := t |>)) as (a & Ea & _ & Ha); [done|].
  rewrite Ea. subst s1. clear Ea. destruct s, Hs. cbn in *. subst. constructor; cbn in *; try done.
  - by apply Ha.
  - by apply map_Forall_insert_2.
  - rewrite dom_insert_L. set_solver.
  - rewrite !dom_insert_L. set_solver.
Qed.

Lemma wf_storeJson cs now ts j os s : providerWf s -> providerWf (storeJson cs now ts j os s).1.
Proof using Type*.
  intros Hs. unfold storeJson. cbv zeta. destruct (AircraftParts.storeAircraftParts _ _ _ _) as [p|]; [|done].
  pose proof (wf_storeParts cs ts (mkTimedParts p (mkTimestamp now os)) false s Hs) as Hw.
  destruct (storeParts _ _ _ _ _) as [s' signals]. cbn [fst] in *. case_match; [|done].
  destruct Hw. by constructor.
Qed.

Lemma wf_setSituations cs c s :
  boundedLatestFirst MaxSituationsPerCallsign c -> providerWf s -> providerWf (s <| m_situationsByCallsign ::= insert cs c |>).
Proof using All.
  intros Hc []. constructor; cbn; try done.
  - by apply map_Forall_insert_2.
  - rewrite dom_insert_L. set_solver.
  - rewrite dom_insert_L. set_solver.
Qed.
Lemma wf_updateGroundElevation now callsign elevation info s :
  providerWf s -> providerWf (updateAircraftGroundElevation now callsign elevation info s).2.
Proof using All.
  intros Hs. unfold updateAircraftGroundElevation. case_match; [done|]. cbv zeta.
  set (c := remoteAircraftSituations callsign s). set (model := getAircraftInRangeModelForCallsign callsign s).
  pose proof (elevateAll_times elevation info model (items c)) as [Ht _].
  destruct (setGroundElevationCheckedAndGuessGround elevation info model (items c)) as [[[n b] change] l]. cbn [snd] in Ht.
  assert (boundedLatestFirst MaxSituationsPerCallsign (withItems (fun _ => l) c)) as Hb.
  { apply (bounded_times _ c); [done|]. apply bounded_default, Hs. }
  pose proof (wf_setSituations (asString callsign) _ s Hb Hs) as Hw1. clear Ht.
  destruct (n <? 1); [done|]. cbn [snd]. apply wf_updateAircraft; [done|].
  set (s1 := s <| m_situationsByCallsign ::= _ |>) in *. set (s2 := s1 <| m_situationsLastModified ::= _ |>).
  assert (asString callsign ∈ dom (m_situationsByCallsign s1)) as Hin.
  { change (asString callsign ∈ dom (<[asString callsign := withItems (fun _ => l) c]> (m_situationsByCallsign s))).
    rewrite dom_insert_L. set_solver. }
  assert (providerWf s2) as Hw2.
  { clearbody s1. destruct Hw1. constructor; cbn; try done. rewrite dom_insert_L. set_solver. }
  clearbody s2. assert (providerWf (if bool_decide (info = FromProvider) && situation_isOnGround (frontOrNull l)
    then s2 <| m_latestOnGroundProviderElevation ::= insert (asString callsign) (frontOrNull l) |> else s2)) as Hw3.
  { case_match; [|done]. by destruct Hw2; constructor. }
  destruct (change_isNull change); [done | by apply wf_storeChange].
Qed.
Lemma wf_updateCGForModel model cg s : providerWf s -> providerWf (updateCGForModel model cg s).2.
Proof using Type.
  intros Hs. unfold updateCGForModel. case_match; [done|]. cbn [snd].
  change (providerWf (s <| m_aircraftInRange := (fun a => if hasModelText model a then setCG cg a else a) <$> m_aircraftInRange s |>)).
  apply wf_inRange; [|done]. apply map_Forall_fmap. intros k a Ha. simpl. pose proof (wf_key _ Hs k a Ha) as Hk. simpl in Hk.
  case_match; by rewrite ?setCG_callsign.
Qed.
Lemma setCGAndModelString_callsign cg (modelString : QString) a :
  ac_callsign ((fun a => let a := if PQ.isNull cg then a else setCG cg a in
    (true, if isEmpty modelString then a else setModelString modelString a)) a).2 = ac_callsign a.
Proof using Type. cbv zeta. cbn [snd]. unfold setModelString, setCG. repeat case_match; done. Qed.

Lemma wf_step s e : providerWf s -> providerWf (providerStep s e).
Proof using Type*.
  intros Hs. destruct e; simpl.
  - unfold addNewAircraftInRange. case_match; [done|]. cbn [fst snd].
    change (providerWf (s <| m_aircraftInRange := <[asString (ac_callsign a) := a]> (m_aircraftInRange s) |>)).
    apply wf_inRange; [|done]. apply map_Forall_insert_2; [done | apply Hs].
  - apply wf_updateAircraft; [apply setEnabled_callsign | done].
  - apply wf_updateAircraft; [apply setFast_callsign | done].
  - apply wf_updateAircraft; [apply setRendered_callsign | done].
  - apply wf_updateMultiple; [apply setEnabled_callsign | done].
  - apply wf_updateMultiple; [apply setRendered_callsign | done].
  - unfold updateMarkAllAsNotRendered. unfold markAsNotRendered.
    apply (wf_inRange s (markedAsNotRendered (getAircraftInRangeCallsigns s) (m_aircraftInRange s))); [|done].
    apply markedAsNotRendered_keys; [|apply Hs].
    apply Forall_forall. intros cs Hcs. unfold getAircraftInRangeCallsigns in Hcs.
    apply list_elem_of_fmap in Hcs as ([k a] & -> & Hka). apply elem_of_map_to_list in Hka. by exists a.
  - by apply wf_remove.
  - constructor; cbn; try done; by rewrite ?dom_empty_L.
  - by destruct Hs; constructor.
  - by destruct Hs; constructor.
  - by destruct Hs; constructor.
  - unfold addReverseLookupMessages. repeat (case_match || case_decide); try done; by destruct Hs; constructor.
  - by destruct Hs; constructor.
  - by destruct Hs; constructor.
  - unfold testAddAltitudeOffset. case_match; by destruct Hs; constructor.
  - apply wf_updateAircraft; [|done]. apply setCG_callsign.
  - apply wf_updateAircraft; [|done]. apply setCGAndModelString_callsign.
  - by apply wf_updateCGForModel.
  - by apply wf_updateGroundElevation.
  - by apply wf_storeSituation.
  - by apply wf_storeParts.
  - by apply wf_storeJson.
Qed.

Lemma provider_invariant_init : providerWf CRemoteAircraftProvider_init.
Proof using Type. constructor; cbn; try done; by rewrite ?dom_empty_L. Qed.

(** C16: Over every run of the operations of the provider, elevations included, each
    carried out as a whole, with whatever times in whatever order: the situations and
    the parts of a callsign are at most fifty, the latest first, and its changes at
    most fifty; aircraft are kept under their own callsign, the callsigns that support
    parts are those with parts, a time of modification of parts is kept of exactly those
    with parts, and the latest situation and a time of modification of situations
    only of those with situations.  (The order of the changes is no part of it, nor
    are operations of two threads that overlap, which [RemoteUpdates] treats.) *)
Theorem provider_invariant es : providerWf (provider_run CRemoteAircraftProvider_init es).
Proof using Type*.
  unfold provider_run. apply (run_invariant providerStep providerWf); [intros s e; apply wf_step | apply provider_invariant_init].
Qed.
End invariant.

(** ** A plain run, for the witnesses *)

Definition plainBuild : BuildConfig :=
  {| versionMajor := 1; versionMinor := 0; localDeveloperDebugBuild := false |}.
Definition plainAircraft : CSimulatedAircraft (H := plainGeometry) :=
  CSimulatedAircraft_default (H := plainGeometry) <| ac_callsign := plainCallsign |>.
Definition plainEvents : list (ProviderEvent (H := plainGeometry)) :=
  [AddAircraft plainAircraft; StoreSituation 9 (plainSituation 1000 5000 300 false) true;
   StoreParts plainCallsign 9 (plainParts 1500 5000) true;
   StoreSituation 9 (plainSituation 6000 5000 200 false) false;
   StoreSituation 9 (plainSituation 11000 2000 100 false) false;
   UpdateGroundElevation (H := plainGeometry) 12 plainCallsign (Some (98 : @ElevationPlane plainGeometry)) FromProvider].

Lemma provider_invariant_witness :
  providerWf (@provider_run plainGeometry refQt merge_StdSort plainBuild
    (@CRemoteAircraftProvider_init plainGeometry) plainEvents).
Proof. exact (@provider_invariant plainGeometry refQt merge_StdSort merge_StdSortLaws plainBuild plainEvents). Defined.
