(* ===== verification/RemoteHistory.v ===== *)
(** * The situations of a callsign are its history

    A run of the provider, seen through the times of the situations of one
    callsign, is a simple machine: the first situation fills the list with copies
    one offset apart, every later one is pushed in front ([abs_store]).  The run
    is related to it step by step, and to what [history_refines] says of it
    ([situations_history]). *)

From S2P Require Import QtReference RemoteAircraft RemoteInvariant.

Open Scope Z_scope.

(** ** The machine of the times *)

Definition prefilled (t : Timestamp) : list Timestamp :=
  items (prefillLatestAdjustedFirst t MaxSituationsPerCallsign (-1) (ofSequence [])).
Definition abs_store `{StdSort} (l : list Timestamp) (t : Timestamp) : list Timestamp :=
  match l with [] => prefilled t | _ => items (push MaxSituationsPerCallsign (ofSequence l) t) end.

(** The arrivals, with the copies as if they had arrived before the first. *)
Definition arrivals (ts : list Timestamp) : list Timestamp :=
  match ts with [] => [] | t :: ts => rev (prefilled t) ++ ts end.

Lemma prefilled_strict t :
  m_timeOffsetMs t <> 0 ->
  strictly_descending getMSecsSinceEpoch (prefilled t) /\
  strictly_descending getAdjustedMSecsSinceEpoch (prefilled t).
Proof.
  intros Ht. change MaxSituationsPerCallsign with (S 49). apply (prefill_strict t 49 (-1)).
  destruct (Z.ltb_spec (-1) 0); [exact Ht | lia].
Qed.

Section machine.
Context `{StdSortLaws}.
Implicit Types (l ts : list Timestamp) (t : Timestamp).

Lemma push_not_empty n c t : items (push n c t) <> [].
Proof using Type*.
  unfold push, push_frontKeepLatestFirstAdjustOffset, push_frontKeepLatestFirst. cbn [withItems items].
  assert (forall l : list Timestamp, l <> [] -> adjustFront l <> []) as Ha.
  { intros [|a [|b l]]; simpl; [done..|]. intros _. by case_match. }
  apply Ha. destruct (items c) as [|f r]; [done|]. case_match.
  - unfold truncateTo, truncate. destruct (Z.ltb_spec 0 (Z.of_nat n)); [|done].
    destruct (Z.to_nat (Z.of_nat n)) eqn:E; [lia | done].
  - case_match; [|done]. intros E. apply (f_equal length) in E.
    unfold sortLatestFirst, sortOldestFirst in E. rewrite length_rev, (Permutation_length (std_sort_perm _ _)) in E. done.
Qed.

Lemma push_head n c t :
  (0 < n)%nat -> (forall f, head (items c) = Some f -> getMSecsSinceEpoch f <= getMSecsSinceEpoch t) ->
  option_map getMSecsSinceEpoch (head (items (push n c t))) = Some (getMSecsSinceEpoch t).
Proof using Type*. intros Hn Hf. by destruct (push_front n c t Hn Hf) as [k ->]. Qed.

Lemma fold_abs_store t ts :
  m_timeOffsetMs t <> 0 ->
  foldl abs_store [] (t :: ts) = items (foldl (push MaxSituationsPerCallsign) (ofSequence []) (arrivals (t :: ts))).
Proof using Type*.
  intros Ht. unfold arrivals. rewrite foldl_app.
  assert (items (foldl (push MaxSituationsPerCallsign) (ofSequence []) (rev (prefilled t))) = prefilled t) as E.
  { destruct (prefilled_strict t Ht) as [Hs Ha].
    apply push_rev; [unfold MaxSituationsPerCallsign; lia | | done..].
    destruct (prefill_ok t MaxSituationsPerCallsign (-1) (ofSequence [])) as [_ Hl];
      [unfold MaxSituationsPerCallsign; lia|]. unfold prefilled. lia. }
  revert E. generalize (foldl (push MaxSituationsPerCallsign) (ofSequence []) (rev (prefilled t))) as c.
  cbn [foldl]. intros c. change (abs_store [] t) with (prefilled t).
  assert (prefilled t <> []) as Hne by done. revert Hne. generalize (prefilled t) as l. revert c.
  induction ts as [|x ts IH]; intros c l Hne E; cbn [foldl]; [done|]. apply IH.
  - unfold abs_store. destruct l; [done|]. apply push_not_empty.
  - unfold abs_store. destruct l as [|a l]; [done|].
    unfold push, push_frontKeepLatestFirstAdjustOffset, push_frontKeepLatestFirst. cbn [withItems items ofSequence].
    by rewrite E.
Qed.

Lemma abs_history t ts :
  m_timeOffsetMs t <> 0 -> StronglySorted (fun a b => getMSecsSinceEpoch a <= getMSecsSinceEpoch b) (t :: ts) ->
  let l := foldl abs_store [] (t :: ts) in
  exists h, strictly_descending getMSecsSinceEpoch h /\ (forall x, x ∈ h <-> lastOfTime (arrivals (t :: ts)) x) /\
    Forall2 raised (take MaxSituationsPerCallsign h) l /\ strictly_descending getAdjustedMSecsSinceEpoch l.
Proof using Type*.
  intros Ht Hs. cbv zeta. rewrite fold_abs_store by done.
  apply history_refines; [unfold MaxSituationsPerCallsign; lia|]. unfold arrivals.
  destruct (prefilled_strict t Ht) as [Hp _]. apply StronglySorted_app. split_and!.
  - intros a b Ha%list_elem_of_In%in_rev%list_elem_of_In Hb.
    inversion_clear Hs as [|? ? _ Hts]. rewrite Forall_forall in Hts. specialize (Hts b Hb).
    assert (getMSecsSinceEpoch a <= getMSecsSinceEpoch t); [|lia].
    unfold prefilled, prefillLatestAdjustedFirst in Ha, Hp. cbn [items] in Ha.
    apply elem_of_cons in Ha as [-> | Ha]; [done|]. inversion_clear Hp as [|? ? _ Hall].
    rewrite Forall_forall in Hall. specialize (Hall a Ha). simpl in *. lia.
  - pose proof (StronglySorted_rev _ _ (strictly_weak _ _ Hp)) as Hr. exact Hr.
  - by inversion Hs.
Qed.
End machine.

(** ** A run seen through the times of one callsign *)

Section history.
Context `{FlightGeometry} `{QtConv} `{StdSortLaws} `{BuildConfig}.
Implicit Types (s : CRemoteAircraftProvider).

Definition situationsUnder (cs : QString) s : list RemoteSituation :=
  items (default (ofSequence []) (m_situationsByCallsign s !! cs)).
Definition situationTimes (cs : QString) s : list Timestamp := times (situationsUnder cs s).

Definition keepsSituations (cs : QString) (e : ProviderEvent) : bool :=
  match e with
  | RemoveAircraft callsign => negb (bool_decide (asString callsign = cs))
  | RemoveAllAircraft => false
  | _ => true
  end.
(** The situations stored for a callsign. *)
Definition situationOf (cs : QString) (e : ProviderEvent) : option RemoteSituation :=
  match e with
  | StoreSituation _ x _ =>
      if callsignEmpty (m_correspondingCallsign x) then None
      else if decide (asString (m_correspondingCallsign x) = cs) then Some x else None
  | _ => None
  end.

(** The list of a callsign stays within what it was, but for the times and the
    velocity of the situations, which are the same. *)
Definition sameSituations (l l' : list RemoteSituation) : Prop :=
  times l' = times l /\ map m_hasVelocity l' = map m_hasVelocity l.
#[local] Instance sameSituations_equiv : Equivalence sameSituations.
Proof.
  split.
  - by intros l.
  - intros l l' [E1 E2]. by split.
  - intros l l' l'' [E1 E2] [E3 E4]. split; congruence.
Qed.

Lemma same_map f l :
  (forall x, rs_time (f x) = rs_time x /\ m_hasVelocity (f x) = m_hasVelocity x) -> sameSituations l (map f l).
Proof using Type.
  intros Hf. unfold sameSituations, times. rewrite !map_map. split; apply map_ext; apply Hf.
Qed.
Lemma same_adjust p l : sameSituations l (snd (list_adjustGroundFlag p l)).
Proof using Type.
  unfold list_adjustGroundFlag. cbn [snd]. rewrite map_map. apply same_map. intros x.
  unfold adjustGroundFlag. case_match; [done|]. cbv zeta. by case_match.
Qed.
Lemma same_guess m l : sameSituations l (guessFront m l).
Proof using Type. destruct l as [|a l]; [done|]. simpl. unfold guessOnGround. by case_match. Qed.
Lemma velocity_transfer l : map m_hasVelocity (snd (transferElevationForward l)) = map m_hasVelocity l.
Proof using Type.
  induction l as [|a [|b l] IH]; [done..|]. cbn [transferElevationForward].
  assert (m_hasVelocity (snd (transferGroundElevationToMe b a)) = m_hasVelocity a) as Hv.
  { unfold transferGroundElevationToMe, setGroundElevation. case_match; [done|]. by case_match. }
  destruct (transferGroundElevationToMe b a) as [set a'].
  change (match l with [] => _ | _ => _ end) with (transferElevationForward (b :: l)).
  destruct (transferElevationForward (b :: l)) as [c r] eqn:E. simpl in *. by rewrite Hv, IH.
Qed.
Lemma same_transfer l : sameSituations l (snd (transferElevationForward l)).
Proof using Type. split; [apply times_transfer | apply velocity_transfer]. Qed.

Lemma storeParts_situations cs p ts b s cs' :
  sameSituations (situationsUnder cs' s) (situationsUnder cs' (storeParts cs ts p b s).1).
Proof using Type*.
  unfold storeParts. case_match; [done|]. cbv zeta. cbn [fst].
  set (c := if b then _ else _). set (s1 := s <| m_partsAdded ::= _ |> <| m_partsLastModified ::= _ |> <| m_partsByCallsign ::= _ |>).
  set (s2 := if decide _ then s1 else _).
  assert (sameSituations (situationsUnder cs' s) (situationsUnder cs' s2)) as Hs.
  { subst s2. case_decide; [done|]. unfold situationsUnder at 2.
    pose proof (same_adjust p (items (remoteAircraftSituations cs s1))) as Ha.
    destruct (list_adjustGroundFlag p _) as [n l]. cbn [snd] in Ha.
    assert (forall (s' : CRemoteAircraftProvider) m t, s' = s1 <| m_situationsByCallsign := m |> <| m_situationsLastModified := t |> ->
              m_situationsByCallsign s' = m) as Hm by (by intros ? ? ? ->).
    rewrite (Hm _ (<[asString cs := withItems (fun _ => l) (remoteAircraftSituations cs s1)]> (m_situationsByCallsign s))
      (if 0 <? n then <[asString cs := ts]> (m_situationsLastModified s) else m_situationsLastModified s));
      [|by case_match].
    destruct (decide (asString cs = cs')) as [<-|Hne]; [by rewrite lookup_insert_eq | by rewrite lookup_insert_ne]. }
  clearbody s2. destruct (updateAircraft_spec (fun a => (true, setParts p a)) cs s2) as (a & Ea & _); [done|].
  rewrite Ea. exact Hs.
Qed.

Lemma storeJson_situations cs now ts j os s cs' :
  sameSituations (situationsUnder cs' s) (situationsUnder cs' (storeJson cs now ts j os s).1).
Proof using Type*.
  unfold storeJson. cbv zeta. destruct (AircraftParts.storeAircraftParts _ _ _ _) as [p|]; [|done].
  pose proof (storeParts_situations cs (mkTimedParts p (mkTimestamp now os)) ts false s cs') as Hw.
  destruct (storeParts _ _ _ _ _) as [s' signals]. cbn [fst] in *. by case_match.
Qed.

Lemma updateMultiple_situations f l s :
  (forall a, ac_callsign (f a).2 = ac_callsign a) ->
  m_situationsByCallsign (updateMultiple f l s).2 = m_situationsByCallsign s.
Proof using Type.
  intros Hf. revert s. induction l as [|cs l IH]; intros s; simpl; [done|].
  destruct (updateAircraft_spec f cs s Hf) as (m & E & _).
  destruct (updateAircraft f cs s) as [b s']. simpl in E. subst s'.
  specialize (IH (s <| m_aircraftInRange := m |>)). by destruct (updateMultiple f l _) as [c s''].
Qed.
Lemma updateAircraft_situations f cs s :
  (forall a, ac_callsign (f a).2 = ac_callsign a) ->
  m_situationsByCallsign (updateAircraft f cs s).2 = m_situationsByCallsign s.
Proof using Type. intros Hf. by destruct (updateAircraft_spec f cs s Hf) as (m & -> & _). Qed.

(** The offset of the altitude leaves the rest of a situation as it is. *)
Lemma corrected x s (allow : bool) :
  let y := if allow then addTestAltitudeOffsetToSituation x s else x in
  rs_time y = rs_time x /\ m_hasVelocity y = m_hasVelocity x.
Proof using Type.
  destruct allow; cbv zeta; [|done]. unfold addTestAltitudeOffsetToSituation, situation_withAltitudeOffset.
  by repeat case_match.
Qed.

Lemma storeSituation_map now x allow s :
  callsignEmpty (m_correspondingCallsign x) = false ->
  let cs := asString (m_correspondingCallsign x) in
  let c := default (ofSequence []) (m_situationsByCallsign s !! cs) in
  exists y c', rs_time y = rs_time x /\ m_hasVelocity y = m_hasVelocity x /\
    m_situationsByCallsign (storeAircraftSituation now x allow s).1 = <[cs := c']> (m_situationsByCallsign s) /\
    match storeInList y c with
    | None => items c' = items c
    | Some d => sameSituations (items d) (items c')
    end.
Proof using Type*.
  intros Hx. unfold storeAircraftSituation. rewrite Hx. cbv zeta.
  destruct (corrected x s allow) as [Et Ev].
  set (y := if allow then addTestAltitudeOffsetToSituation x s else x) in *.
  set (model := getAircraftInRangeModelForCallsign _ _). clearbody y model.
  set (s1 := if hasCG x && _ then _ else s).
  assert (m_situationsByCallsign s1 = m_situationsByCallsign s) as Es.
  { subst s1. case_match; [|done]. unfold updateCG. by rewrite updateAircraft_situations by apply setCG_callsign. }
  clearbody s1. rewrite <- Es. clear s Es. exists y.
  change (m_situationsByCallsign (s1 <| m_situationsAdded ::= Z.succ |> <| m_situationsLastModified ::= _ |>))
    with (m_situationsByCallsign s1).
  destruct (storeInList y _) as [d|]; cbn [fst].
  - eexists. split_and!; [done | done | reflexivity |]. case_match; [done | apply same_guess].
  - eexists. split_and!; [done | done | reflexivity | done].
Qed.

(** An elevation leaves the times and the velocities. *)
Lemma elevation_situations cs now callsign elevation info s :
  sameSituations (situationsUnder cs s) (situationsUnder cs (updateAircraftGroundElevation now callsign elevation info s).2).
Proof using Type.
  unfold updateAircraftGroundElevation. case_match; [done|]. cbv zeta. set (c := remoteAircraftSituations callsign s).
  set (model := getAircraftInRangeModelForCallsign callsign s).
  pose proof (elevateAll_times elevation info model (items c)) as Hl.
  destruct (setGroundElevationCheckedAndGuessGround elevation info model (items c)) as [[[n b] change] l]. cbn [snd] in Hl.
  set (s1 := s <| m_situationsByCallsign ::= _ |>).
  assert (sameSituations (situationsUnder cs s) (situationsUnder cs s1)) as Hs1.
  { unfold situationsUnder. change (m_situationsByCallsign s1) with
      (<[asString callsign := withItems (fun _ => l) c]> (m_situationsByCallsign s)).
    destruct (decide (asString callsign = cs)) as [<-|Hne]; [|by rewrite lookup_insert_ne].
    rewrite lookup_insert_eq. exact Hl. }
  clearbody s1. destruct (n <? 1); [done|]. cbn [snd]. unfold situationsUnder in *.
  rewrite updateAircraft_situations by done. by destruct (bool_decide _ && _), (change_isNull change).
Qed.

(** Events that store no situation of a callsign leave its times alone. *)
Lemma step_other cs s e :
  keepsSituations cs e = true -> situationOf cs e = None ->
  sameSituations (situationsUnder cs s) (situationsUnder cs (providerStep s e)).
Proof using Type*.
  intros Hk He. unfold situationsUnder at 2. destruct e; try done; cbn [providerStep].
  - unfold addNewAircraftInRange. by case_match.
  - unfold updateAircraftEnabled, setAircraftEnabledFlag. by rewrite updateAircraft_situations by apply setEnabled_callsign.
  - unfold updateFastPositionEnabled. by rewrite updateAircraft_situations by apply setFast_callsign.
  - unfold updateAircraftRendered. by rewrite updateAircraft_situations by apply setRendered_callsign.
  - unfold updateMultipleAircraftEnabled. by rewrite updateMultiple_situations by apply setEnabled_callsign.
  - unfold updateMultipleAircraftRendered. by rewrite updateMultiple_situations by apply setRendered_callsign.
  - apply negb_true_iff, bool_decide_eq_false in Hk. unfold removeAircraft. cbn [snd].
    change (sameSituations (situationsUnder cs s)
      (items (default (ofSequence []) (delete (asString callsign) (m_situationsByCallsign s) !! cs)))).
    by rewrite lookup_delete_ne.
  - unfold addReverseLookupMessages. by repeat (case_match || case_decide).
  - unfold testAddAltitudeOffset. by case_match.
  - unfold updateCG. by rewrite updateAircraft_situations by apply setCG_callsign.
  - unfold updateCGAndModelString. by rewrite updateAircraft_situations by apply setCGAndModelString_callsign.
  - unfold updateCGForModel. by case_match.
  - apply elevation_situations.
  - cbn [situationOf] in He. destruct (callsignEmpty _) eqn:Ex.
    + unfold storeAircraftSituation. by rewrite Ex.
    + case_decide as Hcs; [done|].
      destruct (storeSituation_map now situation allowTestAltitudeOffset s Ex) as (y & c' & _ & _ & -> & _).
      by rewrite lookup_insert_ne.
  - apply storeParts_situations.
  - apply storeJson_situations.
Qed.

(** A situation pushed is pushed as its times. *)
Lemma push_times n c x :
  (0 < n)%nat -> (forall f, head (items c) = Some f -> getMSecsSinceEpoch f <= getMSecsSinceEpoch x) ->
  times (items (push n c x)) = items (push n (ofSequence (times (items c))) (rs_time x)) /\
  (forall v, Forall (fun y => m_hasVelocity y = v) (items c) -> m_hasVelocity x = v ->
             Forall (fun y => m_hasVelocity y = v) (items (push n c x))).
Proof using Type*.
  intros Hn Hf. unfold push, push_frontKeepLatestFirstAdjustOffset, push_frontKeepLatestFirst. cbn [withItems items ofSequence].
  assert (forall l, times (adjustFront l) = adjustFront (times l)) as Ha.
  { intros [|a [|b l]]; [done..|]. simpl. unfold isNewerThanAdjusted.
    change (getAdjustedMSecsSinceEpoch (rs_time b)) with (getAdjustedMSecsSinceEpoch b).
    change (getAdjustedMSecsSinceEpoch (rs_time a)) with (getAdjustedMSecsSinceEpoch a). by case_match. }
  assert (forall v l, Forall (fun y => m_hasVelocity y = v) l -> Forall (fun y => m_hasVelocity y = v) (adjustFront l)) as Hv.
  { intros v [|a [|b l]] Hl; [done..|]. simpl. case_match; [done|].
    apply Forall_cons in Hl as [? Hl]. by constructor. }
  rewrite Ha. destruct (items c) as [|f r]; [split; [done|]; intros v _ Hx; simpl; by repeat constructor|].
  specialize (Hf f eq_refl). cbn [times map].
  change (getMSecsSinceEpoch (rs_time f)) with (getMSecsSinceEpoch f).
  change (getMSecsSinceEpoch (rs_time x)) with (getMSecsSinceEpoch x).
  unfold truncateTo, truncate. destruct (Z.ltb_spec 0 (Z.of_nat n)); [|lia]. cbn [andb].
  destruct (getMSecsSinceEpoch f =? getMSecsSinceEpoch x).
  - split; [f_equal; symmetry; exact (firstn_map rs_time _ (x :: r))|].
    intros v Hl Hx. apply Hv, Forall_take. apply Forall_cons in Hl as [_ Hl]. by constructor.
  - assert (forall (k : nat), (match take k (f :: r) with [] => false
              | front :: _ => isOlderThan (getMSecsSinceEpoch front) x end) = false) as ->.
    { intros [|k]; [done|]. apply Z.ltb_ge. exact Hf. }
    assert (forall (k : nat), (match take k (rs_time f :: map rs_time r) with [] => false
              | front :: _ => isOlderThan (getMSecsSinceEpoch front) (rs_time x) end) = false) as ->.
    { intros [|k]; [done|]. apply Z.ltb_ge. exact Hf. }
    split.
    + f_equal. unfold times. cbn [map]. f_equal. symmetry. exact (firstn_map rs_time _ (f :: r)).
    + intros v Hl Hx. apply Hv. constructor; [done|]. by apply Forall_take.
Qed.

Definition sameVelocity (v : bool) (l : list RemoteSituation) : Prop := Forall (fun y => m_hasVelocity y = v) l.

Lemma sameVelocity_same v l l' : sameSituations l l' -> sameVelocity v l -> sameVelocity v l'.
Proof using Type.
  unfold sameVelocity. intros [_ E]. rewrite <- !(Forall_map m_hasVelocity (fun b => b = v)). by rewrite E.
Qed.

Lemma storeInList_times x c :
  sameVelocity (m_hasVelocity x) (items c) ->
  (forall f, head (items c) = Some f -> getMSecsSinceEpoch f <= getMSecsSinceEpoch x) ->
  exists d, storeInList x c = Some d /\ times (items d) = abs_store (times (items c)) (rs_time x) /\
            sameVelocity (m_hasVelocity x) (items d).
Proof using Type*.
  intros Hv Hf. unfold storeInList. cbn [setAdjustedSortHint items].
  destruct (items c) as [|f r] eqn:E.
  - eexists. split; [reflexivity|]. split.
    + unfold times, abs_store, prefilled, prefillLatestAdjustedFirst. cbn [items map]. by rewrite map_map.
    + unfold prefillLatestAdjustedFirst, sameVelocity. cbn [items]. constructor; [done|].
      apply Forall_map, Forall_forall. by intros i _.
  - assert (m_hasVelocity f = m_hasVelocity x) as Hfx by (by apply Forall_cons in Hv as [? _]).
    rewrite Hfx. rewrite andb_negb_l. eexists. split; [reflexivity|].
    set (c0 := setAdjustedSortHint AdjustedTimestampLatestFirst c).
    destruct (push_times MaxSituationsPerCallsign c0 x) as [Ht Hpv];
      [unfold MaxSituationsPerCallsign; lia | subst c0; cbn; by rewrite E|].
    assert (items c0 = f :: r) as E0 by done. rewrite E0 in *. specialize (Hpv (m_hasVelocity x) Hv eq_refl).
    set (l := items (push MaxSituationsPerCallsign c0 x)) in *.
    assert (sameSituations l (snd (transferElevationForward l))) as Hs by apply same_transfer.
    match goal with |- context [if ?b then ?c1 else ?c2] => set (d := if b then c1 else c2) end.
    assert (sameSituations l (items d)) as Hd.
    { subst d. case_match; cbn [withItems items]; [|exact Hs]. etransitivity; [exact Hs|]. by apply same_map. }
    split; [destruct Hd as [-> _]; exact Ht | by eapply sameVelocity_same].
Qed.

Definition heldBy (cs : QString) (v : bool) (xs : list RemoteSituation) s : Prop :=
  situationTimes cs s = foldl abs_store [] (map rs_time xs) /\ sameVelocity v (situationsUnder cs s) /\
  option_map getMSecsSinceEpoch (head (situationTimes cs s)) = option_map getMSecsSinceEpoch (last xs).

Lemma abs_store_head l t :
  (forall f, head l = Some f -> getMSecsSinceEpoch f <= getMSecsSinceEpoch t) ->
  option_map getMSecsSinceEpoch (head (abs_store l t)) = Some (getMSecsSinceEpoch t).
Proof using Type*.
  intros Hf. unfold abs_store. destruct l as [|a l]; [done|].
  apply push_head; [unfold MaxSituationsPerCallsign; lia | done].
Qed.

Lemma run_held cs v s0 es :
  situationsUnder cs s0 = [] -> forallb (keepsSituations cs) es = true ->
  let xs := omap (situationOf cs) es in
  sameVelocity v xs -> StronglySorted (fun a b => getMSecsSinceEpoch a <= getMSecsSinceEpoch b) xs ->
  heldBy cs v xs (provider_run s0 es).
Proof using Type*.
  intros Hnone. induction es as [|e es IH] using rev_ind; intros Hk; cbv zeta.
  { intros _ _. unfold heldBy, situationTimes. change (provider_run s0 []) with s0. rewrite Hnone.
    split_and!; [done | constructor | done]. }
  rewrite forallb_app in Hk. apply andb_true_iff in Hk as [Hk He]. simpl in He. rewrite andb_true_r in He.
  rewrite omap_app. unfold sameVelocity. rewrite Forall_app. intros [Hv Hve] (Hle & Hs & _)%StronglySorted_app.
  destruct (IH Hk Hv Hs) as (Ht & Hvel & Hh). clear IH.
  unfold provider_run in *. rewrite run_app. set (s := run providerStep _ es) in *. cbn [run].
  cbn [omap list_omap] in *. destruct (situationOf cs e) as [x|] eqn:Ex.
  - destruct e; try done. cbn [situationOf providerStep] in *.
    destruct (callsignEmpty _) eqn:Ec; [done|]. case_decide as Ecs; [|done]. injection Ex as ->.
    destruct (storeSituation_map now x allowTestAltitudeOffset s Ec) as (y & c' & Ety & Evy & Em & Hc'). rewrite Ecs in *.
    apply Forall_cons in Hve as [Ev _]. subst v.
    assert (forall f, head (situationsUnder cs s) = Some f -> getMSecsSinceEpoch f <= getMSecsSinceEpoch x) as Hf.
    { intros f E. unfold situationTimes, times in Hh.
      destruct (situationsUnder cs s) as [|f' r]; [done|]. injection E as ->. simpl in Hh.
      destruct (last (omap (situationOf cs) es)) as [z|] eqn:El; [|done]. injection Hh as Hh.
      change (getMSecsSinceEpoch f = getMSecsSinceEpoch z) in Hh. rewrite Hh.
      apply last_Some_elem_of in El. by apply (Hle z x El); left. }
    assert (forall f, head (situationsUnder cs s) = Some f -> getMSecsSinceEpoch f <= getMSecsSinceEpoch y) as Hfy.
    { intros f E. specialize (Hf f E). change (getMSecsSinceEpoch y) with (getMSecsSinceEpoch (rs_time y)).
      by rewrite Ety. }
    rewrite <- Evy in Hvel |- *. destruct (storeInList_times y _ Hvel Hfy) as (d & Ed & Hdt & Hdv). rewrite Ed in Hc'.
    rewrite Ety in Hdt.
    assert (situationsUnder cs (storeAircraftSituation now x allowTestAltitudeOffset s).1 = items c') as Eu.
    { unfold situationsUnder. by rewrite Em, lookup_insert_eq. }
    assert (times (items c') = foldl abs_store [] (map rs_time (omap (situationOf cs) es ++ [x]))) as Htt.
    { destruct Hc' as [-> _]. rewrite Hdt, map_app, foldl_app. simpl. f_equal. exact Ht. }
    unfold heldBy, situationTimes. rewrite Eu. split_and!; [exact Htt | by eapply sameVelocity_same|].
    rewrite last_snoc, Htt, map_app, foldl_app, <- Ht. cbn [foldl map]. apply abs_store_head.
    intros f Hff. unfold situationTimes, times in Hff. destruct (situationsUnder cs s) as [|f' r]; [done|].
    injection Hff as <-. exact (Hf f' eq_refl).
  - destruct (step_other cs s e He Ex) as [E1 E2]. rewrite app_nil_r. unfold heldBy, situationTimes in *.
    rewrite E1. split_and!; [done | by eapply sameVelocity_same; [split|] | done].
Qed.

Lemma removed_empty cs s : situationsUnder (asString cs) (removeAircraft cs s).2 = [].
Proof using Type.
  unfold removeAircraft. cbn [snd].
  change (items (default (ofSequence []) (delete (asString cs) (m_situationsByCallsign s) !! asString cs)) = []).
  by rewrite lookup_delete_eq.
Qed.

End history.

(** After a flight of the same callsign that was removed. *)
Definition plainFormer : CRemoteAircraftProvider (H := plainGeometry) :=
  (@removeAircraft plainGeometry plainCallsign
    (@provider_run plainGeometry refQt merge_StdSort plainBuild
      (@CRemoteAircraftProvider_init plainGeometry)
      [AddAircraft plainAircraft; StoreSituation 9 (plainSituation 900 700 10 true) false])).2.

