(* ===== verification/RemoteUpdates.v ===== *)
(** * What the operations of the provider do

    Removing an aircraft and what is left of it ([removeAircraft_result]);
    outdated parts ([outdated_parts]); a receiver that follows the stream of
    configurations of a sender ([configurations_followed]); and what two threads
    can do to each other ([marked_consistent_iff]). *)

From S2P Require Import QtReference RemoteAircraft RemoteInvariant.

Open Scope Z_scope.

(** ** Removing *)

Section removing.
Context `{FlightGeometry} `{StdSort}.
Implicit Types (s : CRemoteAircraftProvider).

(** All that is kept under a callsign, but for what removing it leaves. *)
Definition keptUnder (cs : QString) s :=
  (m_partsByCallsign s !! cs, bool_decide (cs ∈ m_aircraftWithParts s), m_partsLastModified s !! cs,
   m_situationsByCallsign s !! cs, m_latestSituationByCallsign s !! cs, m_situationsLastModified s !! cs,
   m_aircraftPartsMessages s !! cs, m_dbCGPerCallsign s !! cs, m_aircraftInRange s !! cs).
Definition leftOver s :=
  (m_changesByCallsign s, m_reverseLookupMessages s, m_testOffset s, m_dbCGPerModelString s).

(** Removing an aircraft says whether it was in range, removes all that is
    kept under its callsign and nothing under another one; but its changes, its
    messages and its offset for tests stay, to be found by the next aircraft of the
    callsign.  Removing all aircraft leaves nothing under any callsign, and
    only the centres of gravity of the models. *)
Theorem removeAircraft_result cs s :
  let '(removed, s') := removeAircraft cs s in
  (removed = true <-> asString cs ∈ dom (m_aircraftInRange s)) /\
  keptUnder (asString cs) s' = (None, false, None, None, None, None, None, None, None) /\
  (forall cs', cs' <> asString cs -> keptUnder cs' s' = keptUnder cs' s) /\ leftOver s' = leftOver s /\
  let '(s'', _) := removeAllAircraft s in
  (forall cs', keptUnder cs' s'' = (None, false, None, None, None, None, None, None, None)) /\
  leftOver s'' = (∅, ∅, ∅, m_dbCGPerModelString s).
Proof using Type.
  unfold removeAircraft, removeAllAircraft. destruct s. cbn. unfold keptUnder, leftOver. cbn. split_and!.
  - by rewrite bool_decide_eq_true, elem_of_dom.
  - rewrite !lookup_delete_eq, bool_decide_false; [done | set_solver].
  - intros cs' Hne. rewrite !lookup_delete_ne by done. do 7 f_equal. f_equal. apply bool_decide_ext. set_solver.
  - done.
  - intros cs'. rewrite bool_decide_false by set_solver. reflexivity.
  - done.
Qed.
End removing.

(** ** Outdated parts *)

(** Of parts with a time, exactly those of the last sixty seconds before the
    latest are kept, in their order; the latest ones are always among them. *)
Theorem outdated_parts c p :
  p ∈ items c -> Forall (fun q => getMSecsSinceEpoch q <= getMSecsSinceEpoch p) (items c) ->
  0 <= getMSecsSinceEpoch p ->
  let c' := removeOutdatedParts c in
  items c' = filter (fun q => getMSecsSinceEpoch p - 60000 <= getMSecsSinceEpoch q) (items c) /\ p ∈ items c' /\
  removeOutdatedParts c' = c'.
Proof.
  assert (Hkeep : forall c p, p ∈ items c -> Forall (fun q => getMSecsSinceEpoch q <= getMSecsSinceEpoch p) (items c) ->
    0 <= getMSecsSinceEpoch p ->
    items (removeOutdatedParts c) = filter (fun q => getMSecsSinceEpoch p - 60000 <= getMSecsSinceEpoch q) (items c)).
  { clear. intros c p Hp Hall Ht. unfold removeOutdatedParts. rewrite decide_False by (intros E; rewrite E in Hp; set_solver).
    unfold latestTimestampMsecsSinceEpoch, latestTimestamp, latestObject.
    rewrite decide_False by (intros E; rewrite E in Hp; set_solver).
    pose proof (max_element_spec getMSecsSinceEpoch (items c)) as Hm.
    destruct (max_element _ _) as [m|]; [|rewrite Hm in Hp; set_solver]. destruct Hm as [Hm Hmax].
    rewrite Forall_forall in Hall, Hmax. pose proof (Hall m Hm). pose proof (Hmax p Hp). change (default OBJ_default (Some m)) with m.
    assert (getMSecsSinceEpoch m = getMSecsSinceEpoch p) as E by lia.
    unfold getUtcTimestamp. rewrite E. destruct (Z.ltb_spec (getMSecsSinceEpoch p) 0); [lia|].
    change (default (-1) (Some (getMSecsSinceEpoch p))) with (getMSecsSinceEpoch p).
    unfold removeBefore, removeIf. cbn [snd withItems items].
    apply list_filter_iff. intros q. unfold isOlderThan, MaxPartsAgePerCallsignSecs. rewrite Z.ltb_ge. lia. }
  intros Hp Hall Ht. cbv zeta. pose proof (Hkeep c p Hp Hall Ht) as E.
  assert (p ∈ items (removeOutdatedParts c)) as Hp'.
  { rewrite E. apply list_elem_of_filter. split; [lia | done]. }
  split_and!; [done | done|].
  assert (items (removeOutdatedParts (removeOutdatedParts c)) = items (removeOutdatedParts c)) as Ei.
  { rewrite (Hkeep _ p); [|done| |done].
    - rewrite E at 2. rewrite E. apply list_filter_filter_l. auto.
    - rewrite Forall_forall in *. intros q Hq. rewrite E in Hq. apply list_elem_of_filter in Hq as [_ Hq]. auto. }
  revert Ei. generalize (removeOutdatedParts c). clear. intros c. unfold removeOutdatedParts. case_decide; [done|].
  unfold removeBefore, removeIf, withItems. cbn [snd items]. intros ->. by destruct c.
Qed.

Lemma outdated_parts_witness :
  items (removeOutdatedParts (ofSequence [plainParts 100000 0; plainParts 70000 0; plainParts 39999 0]))
  = [plainParts 100000 0; plainParts 70000 0].
Proof.
  destruct (outdated_parts (ofSequence [plainParts 100000 0; plainParts 70000 0; plainParts 39999 0]) (plainParts 100000 0))
    as (E & _ & _);
    [left | repeat constructor; discriminate | discriminate | rewrite E; reflexivity].
Defined.

(** ** Following the configurations of a sender *)

Section following.
Context `{FlightGeometry} `{QtConvLaws} `{StdSortLaws} `{BuildConfig}.
Implicit Types (s : CRemoteAircraftProvider) (o : option CAircraftParts).

(** What a sender sends: a full configuration first, then the differences. *)
Definition configurationOf o (q : CAircraftParts) : QJsonObject :=
  match o with None => toFullJson q | Some p => getIncrementalObject (parts_toJson p) (parts_toJson q) end.
Definition enginesKept o (q : CAircraftParts) : Prop :=
  match o with
  | None => True
  | Some p => partsWf p /\ forall e, e ∈ m_engines p -> exists e', e' ∈ m_engines q /\ m_number e' = m_number e
  end.
Definition leavesParts (cs : QString) (e : ProviderEvent) : bool :=
  match e with
  | RemoveAircraft callsign | StoreParts callsign _ _ _ | StoreJson callsign _ _ _ _ =>
      negb (bool_decide (asString callsign = cs))
  | AddAircraft a => negb (callsignEmpty (ac_callsign a))
  | RemoveAllAircraft => false
  | _ => true
  end.

(** The events of a run of the provider that hold the configurations of one
    sender in their order, with whatever happens in between; with the parts sent
    last and their time. *)
Inductive stream (cs : QString) : option CAircraftParts -> Z -> list ProviderEvent -> option CAircraftParts -> Z -> Prop :=
  | stream_nil o t : stream cs o t [] o t
  | stream_other o t e es o' t' :
      leavesParts cs e = true -> stream cs o t es o' t' -> stream cs o t (e :: es) o' t'
  | stream_config o t callsign now ts q os es o' t' :
      asString callsign = cs -> callsignEmpty callsign = false -> t <= now -> partsWf q -> enginesKept o q ->
      stream cs (Some q) now es o' t' ->
      stream cs o t (StoreJson callsign now ts (configurationOf o q) os :: es) o' t'.

Definition showsParts (a : CSimulatedAircraft) (l : list TimedParts) o : Prop :=
  forall p, o = Some p -> m_partsSynchronized a = true /\ parts_toJson (tp_parts (ac_parts a)) = parts_toJson p /\
    exists x, head l = Some x /\ parts_toJson (tp_parts x) = parts_toJson p.
Definition partsUnder (cs : QString) s : list TimedParts := items (default (ofSequence []) (m_partsByCallsign s !! cs)).
Definition follows (cs : QString) o (t : Z) s : Prop :=
  exists a, m_aircraftInRange s !! cs = Some a /\ showsParts a (partsUnder cs s) o /\
    forall x, head (partsUnder cs s) = Some x -> getMSecsSinceEpoch x <= t.

(** A callsign whose aircraft, if any, shows the same parts afterwards. *)
Definition sameParts (cs : QString) s s' : Prop :=
  m_partsByCallsign s' !! cs = m_partsByCallsign s !! cs /\
  forall a, m_aircraftInRange s !! cs = Some a ->
    exists a', m_aircraftInRange s' !! cs = Some a' /\ ac_parts a' = ac_parts a /\
      m_partsSynchronized a' = m_partsSynchronized a.
Lemma sameParts_refl cs s s' :
  m_partsByCallsign s' = m_partsByCallsign s -> m_aircraftInRange s' = m_aircraftInRange s -> sameParts cs s s'.
Proof using Type. intros E1 E2. split; [by rewrite E1|]. intros a Ha. exists a. by rewrite E2. Qed.
Lemma sameParts_trans cs s1 s2 s3 : sameParts cs s1 s2 -> sameParts cs s2 s3 -> sameParts cs s1 s3.
Proof using Type.
  intros [E12 H12] [E23 H23]. split; [congruence|]. intros a Ha.
  destruct (H12 _ Ha) as (b & Hb & ? & ?). destruct (H23 _ Hb) as (c & Hc & ? & ?).
  exists c. split_and!; [done | congruence..].
Qed.
Lemma follows_same cs o t s s' : sameParts cs s s' -> follows cs o t s -> follows cs o t s'.
Proof using Type.
  intros [Hp Hm] (a & Ha & Hsh & Ht). destruct (Hm _ Ha) as (a' & Ha' & E1 & E2). exists a'.
  unfold partsUnder in *. rewrite Hp. split_and!; [done | | done]. intros p Ep. rewrite E1, E2. by apply Hsh.
Qed.
Lemma sameParts_aircraft cs cs' a s m :
  m = <[cs' := a]> (m_aircraftInRange s) ->
  (cs' = cs -> forall b, m_aircraftInRange s !! cs = Some b ->
    ac_parts a = ac_parts b /\ m_partsSynchronized a = m_partsSynchronized b) ->
  sameParts cs s (s <| m_aircraftInRange := m |>).
Proof using Type.
  intros -> Ha. split; [done|]. intros b Hb.
  change (exists a', <[cs' := a]> (m_aircraftInRange s) !! cs = Some a' /\ ac_parts a' = ac_parts b /\
            m_partsSynchronized a' = m_partsSynchronized b).
  destruct (decide (cs' = cs)) as [->|Hne].
  - rewrite lookup_insert_eq. exists a. split; [done | by apply Ha].
  - rewrite lookup_insert_ne by done. by exists b.
Qed.
Lemma updateAircraft_parts f cs' cs s :
  (asString cs' = cs -> forall a, ac_parts (f a).2 = ac_parts a /\ m_partsSynchronized (f a).2 = m_partsSynchronized a) ->
  sameParts cs s (updateAircraft f cs' s).2.
Proof using Type.
  intros Hf. unfold updateAircraft. destruct (m_aircraftInRange s !! asString cs') as [a|] eqn:E.
  - destruct (f a) as [b a'] eqn:Ef.
    apply (sameParts_aircraft cs (asString cs') a'); [done|]. intros <- c Hc.
    destruct (Hf eq_refl a) as [E1 E2]. rewrite Ef in *. simpl in *. by simplify_eq.
  - by apply sameParts_refl.
Qed.
Lemma updateMultiple_parts f l cs s :
  (forall a, ac_parts (f a).2 = ac_parts a /\ m_partsSynchronized (f a).2 = m_partsSynchronized a) ->
  sameParts cs s (updateMultiple f l s).2.
Proof using Type.
  intros Hf. revert s. induction l as [|cs' l IH]; intros s; simpl; [by apply sameParts_refl|].
  pose proof (updateAircraft_parts f cs' cs s (fun _ => Hf)) as Hfst. destruct (updateAircraft f cs' s) as [b s'].
  specialize (IH s'). destruct (updateMultiple f l s') as [c s'']. by eapply sameParts_trans.
Qed.
Lemma marked_parts cs l s : sameParts cs s (markAsNotRendered l s).
Proof using Type.
  unfold markAsNotRendered. revert s. induction l as [|cs' l IH]; intros s; [by apply sameParts_refl|].
  set (s1 := s <| m_aircraftInRange ::=
    fun m => <[cs' := snd (setRendered false (default CSimulatedAircraft_default (m !! cs')))]> m |>).
  apply (sameParts_trans _ _ s1); [|exact (IH s1)].
  apply (sameParts_aircraft cs cs' (snd (setRendered false (default CSimulatedAircraft_default (m_aircraftInRange s !! cs')))));
    [done|].
  intros -> b ->. simpl. unfold setRendered. by case_match.
Qed.
Lemma storeParts_other callsign ts p b cs s :
  asString callsign <> cs -> sameParts cs s (storeParts callsign ts p b s).1.
Proof using Type.
  intros Hne. unfold storeParts. case_match; [by apply sameParts_refl|]. cbv zeta. cbn [fst].
  set (c := if b then _ else _). set (s1 := s <| m_partsAdded ::= _ |> <| m_partsLastModified ::= _ |> <| m_partsByCallsign ::= _ |>).
  set (s2 := if decide _ then s1 else _).
  assert (sameParts cs s s2) as Hsnd.
  { assert (sameParts cs s s1) as Hfst.
    { split; [exact (lookup_insert_ne _ _ _ _ Hne)|]. intros a Ha. by exists a. }
    subst s2. case_decide; [done|]. destruct (list_adjustGroundFlag p _) as [n l].
    eapply sameParts_trans; [exact Hfst|]. by case_match; apply sameParts_refl. }
  clearbody s2. eapply sameParts_trans; [exact Hsnd|].
  pose proof (updateAircraft_parts (fun a => (true, setParts p a)) callsign cs s2) as Hu.
  eapply sameParts_trans; [apply Hu; by intros ?|]. by apply sameParts_refl.
Qed.
Lemma storeJson_other callsign now ts j os cs s :
  asString callsign <> cs -> sameParts cs s (storeJson callsign now ts j os s).1.
Proof using Type.
  intros Hne. unfold storeJson. cbv zeta. destruct (AircraftParts.storeAircraftParts _ _ _ _) as [p|]; [|by apply sameParts_refl].
  pose proof (storeParts_other callsign ts (mkTimedParts p (mkTimestamp now os)) false cs s Hne) as Hp.
  destruct (storeParts _ _ _ _ _) as [s' signals]. cbn [fst] in *. case_match; [|done].
  eapply sameParts_trans; [exact Hp | by apply sameParts_refl].
Qed.
Lemma storeSituation_parts now x allow cs s : sameParts cs s (storeAircraftSituation now x allow s).1.
Proof using Type.
  unfold storeAircraftSituation. case_match; [by apply sameParts_refl|]. cbv zeta.
  set (y := if allow then _ else x). set (s1 := if hasCG x && _ then _ else s).
  assert (sameParts cs s s1) as Hfst.
  { subst s1. case_match; [|by apply sameParts_refl]. apply updateAircraft_parts. intros _ a. unfold setCG.
    cbn [snd]. by case_match. }
  clearbody s1. eapply sameParts_trans; [exact Hfst|]. by destruct (storeInList y _); apply sameParts_refl.
Qed.

Lemma updateCGForModel_parts model cg cs s : sameParts cs s (updateCGForModel model cg s).2.
Proof using Type.
  unfold updateCGForModel. case_match; [by apply sameParts_refl|]. split; [done|]. intros a Ha.
  exists (if hasModelText model a then setCG cg a else a). split_and!.
  - change (((fun a => if hasModelText model a then setCG cg a else a) <$> m_aircraftInRange s) !! cs =
            Some (if hasModelText model a then setCG cg a else a)). by rewrite lookup_fmap, Ha.
  - unfold setCG. by repeat case_match.
  - unfold setCG. by repeat case_match.
Qed.
Lemma elevation_parts now callsign elevation info cs s :
  sameParts cs s (updateAircraftGroundElevation now callsign elevation info s).2.
Proof using Type.
  unfold updateAircraftGroundElevation. case_match; [by apply sameParts_refl|]. cbv zeta.
  destruct (setGroundElevationCheckedAndGuessGround _ _ _ _) as [[[n b] change] l].
  destruct (n <? 1); [by apply sameParts_refl|]. cbn [snd].
  eapply sameParts_trans; [|by apply updateAircraft_parts].
  destruct (bool_decide _ && _), (change_isNull change); by apply sameParts_refl.
Qed.

Lemma removeAircraft_other callsign cs s :
  asString callsign <> cs -> sameParts cs s (removeAircraft callsign s).2.
Proof using Type.
  intros Hne. unfold removeAircraft. cbn [snd]. destruct s.
  split; [exact (lookup_delete_ne _ _ _ Hne)|]. intros a Ha. exists a. split; [|done].
  etransitivity; [exact (lookup_delete_ne _ _ _ Hne) | exact Ha].
Qed.

Lemma step_leavesParts cs s e : leavesParts cs e = true -> sameParts cs s (providerStep s e).
Proof using Type.
  intros He. destruct e; cbn [leavesParts providerStep] in *; try apply negb_true_iff in He;
    try (apply bool_decide_eq_false in He); try (by apply sameParts_refl).
  - unfold addNewAircraftInRange, isAircraftInRange. rewrite He. case_bool_decide as Hc; [by apply sameParts_refl|].
    apply (sameParts_aircraft cs (asString (ac_callsign a)) a); [done|]. intros <- b Hb. destruct Hc. by exists b.
  - apply updateAircraft_parts. intros _ a. unfold setEnabled. by case_match.
  - apply updateAircraft_parts. intros _ a. unfold setFastPositionUpdates. by case_match.
  - apply updateAircraft_parts. intros _ a. unfold setRendered. by case_match.
  - apply updateMultiple_parts. intros a. unfold setEnabled. by case_match.
  - apply updateMultiple_parts. intros a. unfold setRendered. by case_match.
  - apply marked_parts.
  - by apply removeAircraft_other.
  - unfold addReverseLookupMessages. repeat (case_match || case_decide); by apply sameParts_refl.
  - unfold testAddAltitudeOffset. by case_match; apply sameParts_refl.
  - apply updateAircraft_parts. intros _ a. unfold setCG. cbn [snd]. by case_match.
  - apply updateAircraft_parts. intros _ a. cbv zeta. unfold setModelString, setCG. cbn [snd]. repeat case_match; done.
  - apply updateCGForModel_parts.
  - apply elevation_parts.
  - apply storeSituation_parts.
  - by apply storeParts_other.
  - by apply storeJson_other.
Qed.

Lemma getAircraft_lookup callsign s a :
  map_Forall (fun cs a => asString (ac_callsign a) = cs) (m_aircraftInRange s) ->
  m_aircraftInRange s !! asString callsign = Some a -> getAircraftInRangeForCallsign callsign s = a.
Proof using Type.
  intros Hk Ha. unfold getAircraftInRangeForCallsign, getAircraftInRange.
  assert (forall b, b ∈ map snd (map_to_list (m_aircraftInRange s)) -> asString (ac_callsign b) = asString callsign ->
            b = a) as Hu.
  { intros b Hb E. apply list_elem_of_fmap in Hb as ([cs b'] & -> & Hb). apply elem_of_map_to_list in Hb. cbn [snd] in *.
    pose proof (Hk _ _ Hb) as Ek. simpl in Ek. congruence. }
  assert (a ∈ filter (fun b => asString (ac_callsign b) = asString callsign)
                (map snd (map_to_list (m_aircraftInRange s)))) as Hin.
  { apply list_elem_of_filter. split; [exact (Hk _ _ Ha)|]. apply list_elem_of_fmap. exists (asString callsign, a).
    split; [done|]. by apply elem_of_map_to_list. }
  destruct (filter _ _) as [|b l] eqn:E; [by apply not_elem_of_nil in Hin|].
  assert (b ∈ filter (fun b => asString (ac_callsign b) = asString callsign)
                (map snd (map_to_list (m_aircraftInRange s)))) as [Eb Hb]%list_elem_of_filter by (rewrite E; left).
  by apply Hu.
Qed.

Lemma storeParts_result callsign ts p s a :
  callsignEmpty callsign = false -> m_aircraftInRange s !! asString callsign = Some a ->
  let s' := (storeParts callsign ts p false s).1 in
  m_aircraftInRange s' !! asString callsign = Some (setParts p a) /\
  partsUnder (asString callsign) s' = items (push MaxPartsPerCallsign (remoteAircraftParts callsign s) p) /\
  (storeParts callsign ts p false s).2 = [addedAircraftParts callsign p].
Proof using Type*.
  intros Hc Ha. unfold storeParts. rewrite Hc. cbv zeta.
  set (c := setAdjustedSortHint _ _). set (s1 := s <| m_partsAdded ::= _ |> <| m_partsLastModified ::= _ |> <| m_partsByCallsign ::= _ |>).
  set (s2 := if decide _ then s1 else _).
  assert (m_aircraftInRange s2 = m_aircraftInRange s /\
          m_partsByCallsign s2 = <[asString callsign := c]> (m_partsByCallsign s)) as [E1 E2].
  { subst s2. case_decide; [done|]. destruct (list_adjustGroundFlag p _) as [n l]. by case_match. }
  clearbody s2. cbn [fst snd]. unfold updateAircraft. rewrite E1, Ha. cbn [snd].
  split_and!; [exact (lookup_insert_eq _ _ _) | | done].
  unfold partsUnder.
  match goal with |- items (default _ (m_partsByCallsign ?st !! _)) = _ =>
    assert (m_partsByCallsign st = <[asString callsign := c]> (m_partsByCallsign s)) as -> by exact E2 end.
  by rewrite lookup_insert_eq.
Qed.
Lemma storeJson_result callsign now ts j os s a x :
  map_Forall (fun cs a => asString (ac_callsign a) = cs) (m_aircraftInRange s) ->
  callsignEmpty callsign = false -> m_aircraftInRange s !! asString callsign = Some a ->
  default TimedParts_default (head (partsUnder (asString callsign) s)) = x ->
  match AircraftParts.storeAircraftParts (isValidAircraftCallsign (asString callsign)) (m_partsSynchronized a) (tp_parts x) j with
  | None => storeJson callsign now ts j os s = (s, [])
  | Some p =>
      let s' := (storeJson callsign now ts j os s).1 in
      let tp := mkTimedParts p (mkTimestamp now os) in
      m_aircraftInRange s' !! asString callsign = Some (setParts tp a) /\
      partsUnder (asString callsign) s' = items (push MaxPartsPerCallsign (remoteAircraftParts callsign s) tp) /\
      (storeJson callsign now ts j os s).2 = [addedAircraftParts callsign tp]
  end.
Proof using Type*.
  intros Hk Hc Ha Hx. unfold storeJson. cbv zeta. rewrite (getAircraft_lookup callsign s a Hk Ha).
  unfold hasValidCallsign. rewrite (Hk _ _ Ha : asString (ac_callsign a) = asString callsign).
  change (items (remoteAircraftParts callsign s)) with (partsUnder (asString callsign) s). rewrite Hx.
  destruct (AircraftParts.storeAircraftParts _ _ _ _) as [p|]; [|done].
  destruct (storeParts_result callsign ts (mkTimedParts p (mkTimestamp now os)) s a Hc Ha) as (E1 & E2 & E3).
  destruct (storeParts _ _ _ _ _) as [s' signals]. cbn [fst snd] in *. by case_match.
Qed.

Lemma step_configuration callsign now ts o q os t s :
  map_Forall (fun cs a => asString (ac_callsign a) = cs) (m_aircraftInRange s) ->
  callsignEmpty callsign = false -> isValidAircraftCallsign (asString callsign) = true ->
  t <= now -> partsWf q -> enginesKept o q -> follows (asString callsign) o t s ->
  follows (asString callsign) (Some q) now (providerStep s (StoreJson callsign now ts (configurationOf o q) os)).
Proof using Type*.
  intros Hk Hc Hv Ht Hq He (a & Ha & Hsh & Hle). cbn [providerStep].
  pose proof (storeJson_result callsign now ts (configurationOf o q) os s a _ Hk Hc Ha eq_refl) as Hr.
  rewrite Hv in Hr.
  assert (exists r, AircraftParts.storeAircraftParts true (m_partsSynchronized a)
            (tp_parts (default TimedParts_default (head (partsUnder (asString callsign) s)))) (configurationOf o q) = Some r /\
            parts_toJson r = parts_toJson q) as (r & Er & Ej).
  { destruct o as [p|]; cbn [configurationOf].
    - destruct (Hsh p eq_refl) as (-> & _ & x & -> & Ex). destruct He as [Hp He].
      destruct (storeAircraftParts_follows p q (tp_parts x) Hp Hq Ex He) as (r & ? & ? & _). by exists r.
    - destruct (storeAircraftParts_full q
        (tp_parts (default TimedParts_default (head (partsUnder (asString callsign) s)))) (m_partsSynchronized a) Hq)
        as (r & ? & ? & _). by exists r. }
  rewrite Er in Hr. cbv zeta in Hr. destruct Hr as (Ea & Ep & _).
  destruct (push_front MaxPartsPerCallsign (remoteAircraftParts callsign s) (mkTimedParts r (mkTimestamp now os)))
    as [k Eh]; [unfold MaxPartsPerCallsign; lia | |].
  { intros f Hf. etransitivity; [by apply Hle | exact Ht]. }
  exists (setParts (mkTimedParts r (mkTimestamp now os)) a). rewrite Ep. split; [done|]. rewrite Eh. split.
  - intros p [= <-]. split_and!; [done | exact Ej|]. eexists. split; [done | exact Ej].
  - intros x [= <-]. simpl. lia.
Qed.

Lemma stream_follows cs o t es o' t' :
  stream cs o t es o' t' -> isValidAircraftCallsign cs = true -> forall s, providerWf s -> follows cs o t s ->
  follows cs o' t' (provider_run s es).
Proof using Type*.
  intros Hstream Hv. induction Hstream as [o t|o t e es o' t' He _ IH|o t callsign now ts q os es o' t' Hcs Hc Ht Hq Hen _ IH];
    intros s Hs Hf; [done|..].
  - apply IH; [by apply wf_step|]. eapply follows_same; [by apply step_leavesParts | done].
  - apply IH; [by apply wf_step|]. subst cs. apply step_configuration with (t := t); [apply Hs | done..].
Qed.

End following.

Definition flyingParts : CAircraftParts :=
  mkParts CAircraftLights_default (initEngines 2 true) NotSet 0 false false false.
Definition landedParts : CAircraftParts :=
  mkParts (setAllOn CAircraftLights_default) (initEngines 2 false) NotSet 40 true true true.
Definition plainInRange : CRemoteAircraftProvider (H := plainGeometry) :=
  @provider_run plainGeometry refQt merge_StdSort plainBuild (@CRemoteAircraftProvider_init plainGeometry)
    [AddAircraft plainAircraft].
Definition plainStream : list (ProviderEvent (H := plainGeometry)) :=
  [StoreJson plainCallsign 1000 1000 (@configurationOf refQt None flyingParts) 5000; MarkAllAsNotRendered;
   StoreSituation 9 (plainSituation 1000 5000 300 false) true;
   StoreJson plainCallsign 2000 2000 (@configurationOf refQt (Some flyingParts) landedParts) 5000].

Lemma plain_partsWf p :
  m_engines p = initEngines 2 true \/ m_engines p = initEngines 2 false -> m_flapsPercentage p = 0 \/ m_flapsPercentage p = 40 ->
  @partsWf refQt p.
Proof.
  intros He Hf. split.
  - destruct He as [-> | ->]; (split; [repeat constructor; vm_compute; congruence | vm_compute; reflexivity]).
  - destruct Hf as [-> | ->]; split; vm_compute; congruence.
Qed.


(** ** Two threads *)

(** [updateMarkAllAsNotRendered] reads the callsigns under one lock and marks the
    aircraft under another; what other threads do in between is a run. *)
Section Interleaving.
Context `{FlightGeometry} `{QtConv} `{StdSortLaws} `{BuildConfig}.
Implicit Types (s : CRemoteAircraftProvider).

Definition interleavedMark (between : list ProviderEvent) s : CRemoteAircraftProvider :=
  markAsNotRendered (getAircraftInRangeCallsigns s) (provider_run s between).

Lemma marked_lookup l m cs :
  markedAsNotRendered l m !! cs =
  if decide (cs ∈ l) then Some (snd (setRendered false (default CSimulatedAircraft_default (m !! cs)))) else m !! cs.
Proof using Type*.
  revert m. induction l as [|c l IH]; intros m; simpl; [done|]. rewrite IH.
  assert (forall a, snd (setRendered false (snd (setRendered false a))) = snd (setRendered false a)) as Hi.
  { intros a. unfold setRendered. destruct (m_rendered a) eqn:E; simpl; [done|]. by rewrite E. }
  destruct (decide (c = cs)) as [<-|Hne].
  - rewrite lookup_insert_eq. cbn [default from_option id]. rewrite Hi.
    rewrite (decide_True (P := c ∈ c :: l)) by left. by case_decide.
  - rewrite lookup_insert_ne by done. destruct (decide (cs ∈ l)) as [Hc|Hc].
    + by rewrite decide_True by by right.
    + rewrite decide_False; [done|]. intros [E|E]%elem_of_cons; [by destruct Hne | done].
Qed.
Lemma inRangeCallsigns_dom s cs : cs ∈ getAircraftInRangeCallsigns s <-> cs ∈ dom (m_aircraftInRange s).
Proof using Type*.
  unfold getAircraftInRangeCallsigns. rewrite list_elem_of_fmap, elem_of_dom. split.
  - intros ([k a] & -> & Hka%elem_of_map_to_list). by exists a.
  - intros [a Ha]. exists (cs, a). split; [done|]. by apply elem_of_map_to_list.
Qed.
Lemma setRendered_default : snd (setRendered false CSimulatedAircraft_default) = CSimulatedAircraft_default.
Proof using Type. reflexivity. Qed.

(** An aircraft marked under its callsign, or the one added for a callsign that is gone. *)
Lemma interleaved_aircraft between s cs a :
  providerWf (provider_run s between) -> m_aircraftInRange (interleavedMark between s) !! cs = Some a ->
  asString (ac_callsign a) = cs \/
  (a = CSimulatedAircraft_default /\ cs ∈ dom (m_aircraftInRange s) /\
   cs ∉ dom (m_aircraftInRange (provider_run s between))).
Proof using Type*.
  intros Hr Ha. change (markedAsNotRendered (getAircraftInRangeCallsigns s)
    (m_aircraftInRange (provider_run s between)) !! cs = Some a) in Ha.
  rewrite marked_lookup in Ha. destruct (_ !! cs) as [b|] eqn:E.
  - left. pose proof (wf_key _ Hr _ _ E) as Hk. simpl in Hk. rewrite <- Hk.
    case_decide; simplify_eq; [|done]. simpl. by rewrite setRendered_callsign.
  - right. case_decide as Hc; [|done]. simplify_eq. split; [done|].
    by rewrite <- inRangeCallsigns_dom, not_elem_of_dom.
Qed.

(** The provider is consistent after marking all aircraft as not rendered
    exactly when no other thread has removed one of them for good in between: for a
    callsign that is gone the marking adds an aircraft without callsign, which is
    in range, but not found by its callsign. *)
Theorem marked_consistent_iff between s :
  providerWf s -> [] ∉ dom (m_aircraftInRange s) ->
  let s' := interleavedMark between s in
  (providerWf s' <-> dom (m_aircraftInRange s) ⊆ dom (m_aircraftInRange (provider_run s between))) /\
  forall cs, cs ∈ dom (m_aircraftInRange s) -> cs ∉ dom (m_aircraftInRange (provider_run s between)) ->
    m_aircraftInRange s' !! cs = Some CSimulatedAircraft_default /\
    forall callsign, asString callsign = cs -> getAircraftInRangeForCallsign callsign s' = CSimulatedAircraft_default.
Proof using Type*.
  intros Hs Hempty. cbv zeta.
  assert (providerWf (provider_run s between)) as Hr.
  { apply (run_invariant providerStep providerWf); [intros; by apply wf_step | done]. }
  assert (forall cs, cs ∈ dom (m_aircraftInRange s) -> cs ∉ dom (m_aircraftInRange (provider_run s between)) ->
    m_aircraftInRange (interleavedMark between s) !! cs = Some CSimulatedAircraft_default) as Hgone.
  { intros cs Hin Hout. change (markedAsNotRendered (getAircraftInRangeCallsigns s)
      (m_aircraftInRange (provider_run s between)) !! cs = Some CSimulatedAircraft_default).
    rewrite marked_lookup, decide_True by by apply inRangeCallsigns_dom.
    apply not_elem_of_dom in Hout. by rewrite Hout. }
  split; [split|].
  - intros Hw cs Hin. destruct (decide (cs ∈ dom (m_aircraftInRange (provider_run s between)))) as [|Hout]; [done|].
    pose proof (wf_key _ Hw _ _ (Hgone cs Hin Hout)) as Hk. simpl in Hk. by subst cs.
  - intros Hsub. apply (wf_inRange (provider_run s between)
      (markedAsNotRendered (getAircraftInRangeCallsigns s) (m_aircraftInRange (provider_run s between)))); [|done].
    apply markedAsNotRendered_keys; [|apply Hr]. apply Forall_forall. intros cs Hcs%inRangeCallsigns_dom.
    by apply elem_of_dom, Hsub.
  - intros cs Hin Hout. split; [by apply Hgone|]. intros callsign Ecs. unfold getAircraftInRangeForCallsign.
    destruct (filter _ _) as [|a l] eqn:E; [done|].
    assert (a ∈ filter (fun a => asString (ac_callsign a) = asString callsign)
      (getAircraftInRange (interleavedMark between s))) as [Ea Ha]%list_elem_of_filter by (rewrite E; left).
    unfold getAircraftInRange in Ha. apply list_elem_of_fmap in Ha as ([k b] & Eb & Hb%elem_of_map_to_list).
    cbn [snd] in Eb. subst b. destruct (interleaved_aircraft _ _ _ _ Hr Hb) as [Ek | (-> & _)].
    + assert (k = cs) as -> by congruence. rewrite Hgone in Hb by done. by injection Hb as <-.
    + done.
Qed.
End Interleaving.

Lemma marked_consistent_iff_witness :
  ~ providerWf (@interleavedMark plainGeometry refQt merge_StdSort plainBuild [RemoveAircraft plainCallsign] plainInRange).
Proof.
  destruct (@marked_consistent_iff plainGeometry refQt merge_StdSort merge_StdSortLaws plainBuild
    [RemoveAircraft plainCallsign] plainInRange) as [[Hw _] _].
  - apply (@provider_invariant plainGeometry refQt merge_StdSort merge_StdSortLaws plainBuild).
  - apply (bool_decide_unpack _). vm_compute. exact I.
  - intros H. specialize (Hw H). revert Hw. apply (bool_decide_unpack _). vm_compute. exact I.
Defined.

(** What is remembered for a model is never read: the getter reads the map of the callsigns. *)
Lemma model_cg_not_read `{FlightGeometry} cg model model' s :
  getCGFromDBForModel model (rememberCGFromDBForModel cg model' s) = getCGFromDBForModel model s.
Proof. reflexivity. Qed.
