(* ===== verification/AirspaceSnapshot.v ===== *)
(** * The snapshot of the airspace (misc/simulation/airspaceaircraftsnapshot, simulatedaircraftlist)

    The aircraft in range, which of them are rendered when the number or the
    distance of rendered aircraft is limited, and the order by distance in which
    the limits count them.  A set of callsigns is ordered by callsign, not by the
    order of insertion: it is a [gset]. *)

From S2P Require Export RemoteAircraft.
From S2P Require Import QtReference.

Open Scope Z_scope.

(** ** std::sort with a comparison *)

(** What std::sort asks of a comparison, for the elements it sorts. *)
Record strictWeak {A} (lt : A -> A -> bool) (l : list A) : Prop := {
  sw_irrefl x : x ∈ l -> lt x x = false;
  sw_trans x y z : x ∈ l -> y ∈ l -> z ∈ l -> lt x y = true -> lt y z = true -> lt x z = true;
  sw_cotrans x y z : x ∈ l -> y ∈ l -> z ∈ l -> lt x z = true -> lt x y = true \/ lt y z = true }.
Class StdSortBy := { std_sort_by : forall {A : Type}, (A -> A -> bool) -> list A -> list A }.
Class StdSortByLaws `{StdSortBy} := {
  std_sort_by_perm {A} (lt : A -> A -> bool) l : strictWeak lt l -> Permutation (std_sort_by lt l) l;
  std_sort_by_sorted {A} (lt : A -> A -> bool) l : strictWeak lt l ->
    StronglySorted (fun a b => lt b a = false) (std_sort_by lt l) }.

(** Insertion sort is one. *)
Section insertion.
Context {A : Type} (lt : A -> A -> bool).
Fixpoint insertBy (x : A) (l : list A) : list A :=
  match l with [] => [x] | y :: l' => if lt y x then y :: insertBy x l' else x :: l end.
Fixpoint insertionSort (l : list A) : list A :=
  match l with [] => [] | x :: l => insertBy x (insertionSort l) end.

Lemma insertBy_perm x l : Permutation (insertBy x l) (x :: l).
Proof using Type. induction l as [|y l IH]; simpl; [done|]. case_match; [|done]. rewrite IH. constructor. Qed.
Lemma insertionSort_perm l : Permutation (insertionSort l) l.
Proof using Type. induction l as [|x l IH]; simpl; [done|]. by rewrite insertBy_perm, IH. Qed.
Lemma strictWeak_perm l l' : Permutation l l' -> strictWeak lt l -> strictWeak lt l'.
Proof using Type.
  intros Hp []. split; intros *; rewrite <-Hp; eauto.
Qed.
Lemma strictWeak_cons x l : strictWeak lt (x :: l) -> strictWeak lt l.
Proof using Type. intros []. split; intros; [eauto using list_elem_of_further..]. Qed.
Lemma insertBy_sorted x l : strictWeak lt (x :: l) -> StronglySorted (fun a b => lt b a = false) l ->
  StronglySorted (fun a b => lt b a = false) (insertBy x l).
Proof using Type.
  intros Hw Hs. induction Hs as [|y l Hs IH Hy]; simpl; [repeat constructor|].
  assert (x ∈ x :: y :: l /\ y ∈ x :: y :: l) as [Hx Hy'] by (split; set_solver).
  destruct (lt y x) eqn:E.
  - constructor; [apply IH; by eapply strictWeak_cons, strictWeak_perm; [apply perm_swap|]|].
    rewrite insertBy_perm. constructor; [|done].
    destruct (lt x y) eqn:E'; [|done]. rewrite <-(sw_irrefl _ _ Hw x Hx). symmetry. by eapply sw_trans.
  - constructor; [by constructor|]. constructor; [done|].
    apply Forall_forall. intros z Hz. rewrite Forall_forall in Hy. specialize (Hy z Hz).
    destruct (lt z x) eqn:E'; [|done]. destruct (sw_cotrans _ _ Hw z y x); [set_solver|done..| |]; congruence.
Qed.
Lemma insertionSort_sorted l : strictWeak lt l -> StronglySorted (fun a b => lt b a = false) (insertionSort l).
Proof using Type.
  induction l as [|x l IH]; simpl; intros Hw; [constructor|]. apply insertBy_sorted.
  - eapply strictWeak_perm; [|exact Hw]. by rewrite insertionSort_perm.
  - by apply IH, (strictWeak_cons x).
Qed.
End insertion.
#[export] Instance insertion_StdSortBy : StdSortBy := {| std_sort_by := @insertionSort |}.
#[export] Instance insertion_StdSortByLaws : StdSortByLaws.
Proof. split; intros A lt l Hw; [apply insertionSort_perm | by apply insertionSort_sorted]. Qed.

(** ** CSimulatedAircraftList *)

(** Whether a model takes off vertically. *)
Class AircraftKind `{FlightGeometry} := { model_isVtol : CAircraftModel -> bool }.

Section list.
Context {FG : FlightGeometry} {AK : AircraftKind} {SB : StdSortBy}.
Implicit Types (a b : CSimulatedAircraft) (l aircraft : list CSimulatedAircraft).

Definition isVtol a : bool := model_isVtol (ac_model a).
Definition callsignOf a : QString := asString (ac_callsign a).
(** The comparison: the distance, the rendered first, the callsign. *)
Definition before a b : bool :=
  if negb (PQ.equals (m_relativeDistance a) (m_relativeDistance b))
  then PQ.lessThan (m_relativeDistance a) (m_relativeDistance b)
  else if negb (eqb (m_rendered a) (m_rendered b)) then m_rendered a
  else keyLt (callsignOf a) (callsignOf b).
Definition sortByDistanceToReferencePositionRenderedCallsign l : list CSimulatedAircraft := std_sort_by before l.
Definition findByEnabled (enabled : bool) l : list CSimulatedAircraft := filter (fun a => m_enabled a = enabled) l.
Definition findByVtol (vtol : bool) l : list CSimulatedAircraft := filter (fun a => isVtol a = vtol) l.
Definition getCallsigns l : gset QString := list_to_set (map callsignOf l).

(** ** CAirspaceAircraftSnapshot *)

Record CAirspaceAircraftSnapshot := mkSnapshot {
  m_timestampMsSinceEpoch : Z; m_restricted : bool; m_renderingEnabled : bool; m_restrictionChanged : bool;
  m_aircraftCallsignsByDistance : gset QString; m_enabledAircraftCallsignsByDistance : gset QString;
  m_disabledAircraftCallsignsByDistance : gset QString; m_vtolAircraftCallsignsByDistance : gset QString;
  m_enabledVtolAircraftCallsignsByDistance : gset QString }.
Definition CAirspaceAircraftSnapshot_default : CAirspaceAircraftSnapshot :=
  mkSnapshot (-1) false true false ∅ ∅ ∅ ∅ ∅.

(** The loop over the sorted aircraft, from a number of enabled ones on. *)
Fixpoint restrictTo (maxAircraft : Z) (maxRenderedDistance : CLength) (count : Z) aircraft
    (s : CAirspaceAircraftSnapshot) : CAirspaceAircraftSnapshot :=
  match aircraft with
  | [] => s
  | currentAircraft :: aircraft =>
      let cs := callsignOf currentAircraft in
      let disable s := s <| m_disabledAircraftCallsignsByDistance ::= fun c => {[cs]} ∪ c |> in
      if m_enabled currentAircraft
      then
        let distance := m_relativeDistance currentAircraft in
        if (maxAircraft <=? count)
           || (negb (PQ.isNull maxRenderedDistance) && PQ.greaterEqual distance maxRenderedDistance)
        then restrictTo maxAircraft maxRenderedDistance count aircraft (disable s)
        else
          let s := s <| m_enabledAircraftCallsignsByDistance ::= fun c => {[cs]} ∪ c |> in
          let s := if isVtol currentAircraft
                   then s <| m_enabledVtolAircraftCallsignsByDistance ::= fun c => {[cs]} ∪ c |> else s in
          restrictTo maxAircraft maxRenderedDistance (count + 1) aircraft s
      else restrictTo maxAircraft maxRenderedDistance count aircraft (disable s)
  end.

Definition CAirspaceAircraftSnapshot_make (now : Z) (allAircraft : list CSimulatedAircraft)
    (restricted renderingEnabled : bool) (maxAircraft : Z) (maxRenderedDistance : CLength) :
    CAirspaceAircraftSnapshot :=
  let s := mkSnapshot now restricted renderingEnabled false ∅ ∅ ∅ ∅ ∅ in
  if decide (allAircraft = []) then s
  else
    let aircraft := sortByDistanceToReferencePositionRenderedCallsign allAircraft in
    let vtolAircraft := findByVtol true aircraft in
    let s := s <| m_aircraftCallsignsByDistance := getCallsigns aircraft |>
               <| m_vtolAircraftCallsignsByDistance := getCallsigns vtolAircraft |> in
    if negb restricted
    then s <| m_enabledAircraftCallsignsByDistance := getCallsigns (findByEnabled true aircraft) |>
           <| m_disabledAircraftCallsignsByDistance := getCallsigns (findByEnabled false aircraft) |>
           <| m_enabledVtolAircraftCallsignsByDistance := getCallsigns (findByEnabled true vtolAircraft) |>
    else if negb (m_renderingEnabled s)
    then s <| m_disabledAircraftCallsignsByDistance := getCallsigns aircraft |>
    else restrictTo maxAircraft maxRenderedDistance 0 aircraft s.

Definition isValidSnapshot (s : CAirspaceAircraftSnapshot) : bool := 0 <? m_timestampMsSinceEpoch s.
Definition setRestrictionChanged (snapshot s : CAirspaceAircraftSnapshot) : CAirspaceAircraftSnapshot :=
  s <| m_restrictionChanged :=
    if eqb (isValidSnapshot s) (isValidSnapshot snapshot)
    then negb (eqb (m_restricted snapshot) (m_restricted s))
         || negb (eqb (m_renderingEnabled snapshot) (m_renderingEnabled s))
    else true |>.

(** ** What the loop selects *)

(** An aircraft the limit of the distance does not exclude. *)
Definition eligible (maxRenderedDistance : CLength) a : Prop :=
  m_enabled a = true /\
  (PQ.isNull maxRenderedDistance = false -> PQ.greaterEqual (m_relativeDistance a) maxRenderedDistance = false).
#[export] Instance eligible_dec d a : Decision (eligible d a).
Proof. unfold eligible. apply _. Defined.
(** The first of the eligible aircraft, as many as are allowed. *)
Definition selected (maxAircraft : Z) (maxRenderedDistance : CLength) l : list CSimulatedAircraft :=
  take (Z.to_nat maxAircraft) (filter (eligible maxRenderedDistance) l).
End list.
Arguments getCallsigns {_} _ : simpl never.

Section selection.
Context {FG : FlightGeometry} {AK : AircraftKind} {SB : StdSortBy}.
Implicit Types (a b : CSimulatedAircraft) (l aircraft : list CSimulatedAircraft).

Lemma getCallsigns_cons a l : getCallsigns (a :: l) = {[callsignOf a]} ∪ getCallsigns l.
Proof using Type. done. Qed.
Lemma getCallsigns_perm l l' : Permutation l l' -> getCallsigns l = getCallsigns l'.
Proof using Type. intros Hp. unfold getCallsigns. by rewrite Hp. Qed.
Lemma getCallsigns_app l l' : getCallsigns (l ++ l') = getCallsigns l ∪ getCallsigns l'.
Proof using Type. unfold getCallsigns. by rewrite map_app, list_to_set_app_L. Qed.
Lemma elem_of_getCallsigns cs l : cs ∈ getCallsigns l <-> exists a, callsignOf a = cs /\ a ∈ l.
Proof using Type. unfold getCallsigns. rewrite elem_of_list_to_set, list_elem_of_fmap. naive_solver. Qed.

Lemma eligible_test d a : m_enabled a = true ->
  eligible d a <-> negb (PQ.isNull d) && PQ.greaterEqual (m_relativeDistance a) d = false.
Proof using Type.
  intros He. unfold eligible. destruct (PQ.isNull d), (PQ.greaterEqual (m_relativeDistance a) d); naive_solver.
Qed.

(** From a count on, the loop enables the selected aircraft and disables the others. *)
Lemma restrictTo_selected maxAircraft d count l s : 0 <= count ->
  let sel := take (Z.to_nat (maxAircraft - count)) (filter (eligible d) l) in
  exists rest, Permutation l (sel ++ rest) /\
    restrictTo maxAircraft d count l s =
      s <| m_enabledAircraftCallsignsByDistance ::= fun c => getCallsigns sel ∪ c |>
        <| m_disabledAircraftCallsignsByDistance ::= fun c => getCallsigns rest ∪ c |>
        <| m_enabledVtolAircraftCallsignsByDistance ::= fun c => getCallsigns (findByVtol true sel) ∪ c |>.
Proof using Type.
  revert count s. induction l as [|a l IH]; intros count s Hc.
  { exists []. rewrite filter_nil, take_nil. split; [done|]. destruct s. cbn. unfold getCallsigns; simpl.
    by rewrite !union_empty_l_L. }
  cbn [restrictTo]. rewrite filter_cons.
  assert (Hdis : forall sel rest, Permutation l (sel ++ rest) -> Permutation (a :: l) (sel ++ a :: rest))
    by (intros sel rest ->; apply Permutation_middle).
  destruct (m_enabled a) eqn:Ha.
  - pose proof (eligible_test d a Ha) as Ht. destruct (negb (PQ.isNull d) && _) eqn:E.
    + rewrite decide_False by by rewrite Ht. rewrite orb_true_r.
      destruct (IH count (s <| m_disabledAircraftCallsignsByDistance ::= fun c => {[callsignOf a]} ∪ c |>) Hc)
        as (rest & Hp & ->).
      exists (a :: rest). split; [by apply Hdis|]. destruct s. cbn. f_equal. rewrite getCallsigns_cons. set_solver.
    + rewrite decide_True by by rewrite Ht. rewrite orb_false_r.
      destruct (maxAircraft <=? count) eqn:El.
      * apply Z.leb_le in El. replace (Z.to_nat (maxAircraft - count)) with 0%nat by lia.
        destruct (IH count (s <| m_disabledAircraftCallsignsByDistance ::= fun c => {[callsignOf a]} ∪ c |>) Hc)
          as (rest & Hp & ->).
        replace (Z.to_nat (maxAircraft - count)) with 0%nat in * by lia. rewrite take_0 in *.
        exists (a :: rest). split; [by apply (Hdis [])|]. destruct s. cbn. f_equal. rewrite getCallsigns_cons. set_solver.
      * apply Z.leb_gt in El. replace (Z.to_nat (maxAircraft - count)) with (S (Z.to_nat (maxAircraft - (count + 1)))) by lia.
        cbn [take].
        match goal with |- context [restrictTo _ _ (count + 1) l ?s'] =>
          destruct (IH (count + 1) s' ltac:(lia)) as (rest & Hp & ->) end.
        exists rest. split; [exact (perm_skip a Hp)|]. unfold findByVtol. rewrite filter_cons, getCallsigns_cons.
        destruct s. cbn. destruct (isVtol a) eqn:Ev; cbn.
        -- rewrite decide_True by done. rewrite getCallsigns_cons. f_equal; set_solver.
        -- rewrite decide_False by done. f_equal; set_solver.
  - rewrite decide_False by (unfold eligible; rewrite Ha; naive_solver).
    destruct (IH count (s <| m_disabledAircraftCallsignsByDistance ::= fun c => {[callsignOf a]} ∪ c |>) Hc)
      as (rest & Hp & ->).
    exists (a :: rest). split; [by apply Hdis|]. destruct s. cbn. f_equal. rewrite getCallsigns_cons. set_solver.
Qed.
End selection.

Section snapshot.
Context {FG : FlightGeometry} {AK : AircraftKind} `{StdSortByLaws}.
Implicit Types (a b : CSimulatedAircraft) (l aircraft : list CSimulatedAircraft).

(** Distinct callsigns, and distances that can be sorted. *)
Definition sortable l : Prop := NoDup (map callsignOf l) /\ strictWeak before l.

Lemma sort_perm l : sortable l -> Permutation (sortByDistanceToReferencePositionRenderedCallsign l) l.
Proof using All. intros [_ Hw]. by apply std_sort_by_perm. Qed.
Lemma callsign_unique l a b : NoDup (map callsignOf l) -> a ∈ l -> b ∈ l -> callsignOf a = callsignOf b -> a = b.
Proof using Type. apply NoDup_map_inj. Qed.
Lemma callsign_of_member l l' a : NoDup (map callsignOf l) -> l' ⊆ l -> a ∈ l ->
  callsignOf a ∈ getCallsigns l' <-> a ∈ l'.
Proof using Type.
  intros Hn Hsub Ha. rewrite elem_of_getCallsigns. split.
  - intros (b & Hb & Hin). by rewrite <-(callsign_unique l b a) by (done || by apply Hsub).
  - intros Hin. by exists a.
Qed.
Lemma parts_disjoint l l1 l2 : NoDup (map callsignOf l) -> Permutation l (l1 ++ l2) ->
  getCallsigns l1 ∪ getCallsigns l2 = getCallsigns l /\ getCallsigns l1 ## getCallsigns l2.
Proof using Type.
  intros Hn Hp. rewrite (getCallsigns_perm l _ Hp), getCallsigns_app. split; [done|].
  rewrite Hp, map_app in Hn. apply NoDup_app in Hn as (_ & Hd & _).
  intros cs H1 H2. apply elem_of_getCallsigns in H1 as (a & <- & Ha), H2 as (b & Hb & Hin).
  apply (Hd (callsignOf a)); rewrite list_elem_of_fmap; [by exists a | by exists b].
Qed.
Lemma filter_enabled_perm l : Permutation l (findByEnabled true l ++ findByEnabled false l).
Proof using Type.
  unfold findByEnabled. induction l as [|a l IH]; [done|]. rewrite !filter_cons. destruct (m_enabled a) eqn:E.
  - rewrite decide_True, decide_False by done. simpl. by constructor.
  - rewrite decide_False, decide_True by done. rewrite <-Permutation_middle. by constructor.
Qed.

(** Every aircraft is in one of the two sets of a snapshot, enabled or disabled, and in only one. *)
Lemma snapshot_partition now l restricted renderingEnabled maxAircraft d : sortable l ->
  let s := CAirspaceAircraftSnapshot_make now l restricted renderingEnabled maxAircraft d in
  m_enabledAircraftCallsignsByDistance s ∪ m_disabledAircraftCallsignsByDistance s = getCallsigns l /\
  m_enabledAircraftCallsignsByDistance s ## m_disabledAircraftCallsignsByDistance s.
Proof using All.
  intros Hs s. subst s. unfold CAirspaceAircraftSnapshot_make. case_decide as He.
  { subst l. cbn. set_solver. }
  pose proof (sort_perm l Hs) as Hp. destruct Hs as [Hn _].
  set (sorted := sortByDistanceToReferencePositionRenderedCallsign l) in *.
  assert (NoDup (map callsignOf sorted)) as Hns by by rewrite Hp.
  rewrite <-(getCallsigns_perm _ _ Hp). destruct restricted; cbn [negb].
  - cbn. destruct renderingEnabled; cbn.
    + match goal with |- context [restrictTo _ _ 0 _ ?s0] =>
        destruct (restrictTo_selected maxAircraft d 0 sorted s0 ltac:(lia)) as (rest & Hr & ->) end.
      cbn. rewrite !union_empty_r_L. by apply parts_disjoint.
    + rewrite union_empty_l_L. split; [done|]. set_solver.
  - cbn. by apply parts_disjoint, filter_enabled_perm.
Qed.

Lemma restricted_enabled now l maxAircraft d : sortable l ->
  m_enabledAircraftCallsignsByDistance (CAirspaceAircraftSnapshot_make now l true true maxAircraft d) =
  getCallsigns (selected maxAircraft d (sortByDistanceToReferencePositionRenderedCallsign l)).
Proof using All.
  intros Hs. unfold CAirspaceAircraftSnapshot_make. case_decide as He.
  { subst l. pose proof (sort_perm [] Hs) as Hp. apply Permutation_nil_r in Hp. rewrite Hp.
    unfold selected. by rewrite filter_nil, take_nil. }
  cbn. set (sorted := sortByDistanceToReferencePositionRenderedCallsign l).
  match goal with |- context [restrictTo _ _ 0 _ ?s0] =>
    destruct (restrictTo_selected maxAircraft d 0 sorted s0 ltac:(lia)) as (rest & _ & ->) end.
  cbn. by rewrite union_empty_r_L, Z.sub_0_r.
Qed.
End snapshot.

Section members.
Context {FG : FlightGeometry}.
Implicit Types (a b : CSimulatedAircraft) (l : list CSimulatedAircraft).

Lemma sorted_take_drop l n a b : StronglySorted (fun a b => before b a = false) l ->
  a ∈ take n l -> b ∈ drop n l -> before b a = false.
Proof using Type.
  revert n. induction l as [|c l IH]; intros n Hs Ha Hb; [rewrite take_nil in Ha; set_solver|].
  apply StronglySorted_inv in Hs as [Hs Hc]. destruct n as [|n]; [simpl in Ha; set_solver|]. simpl in Ha, Hb.
  apply elem_of_cons in Ha as [->|Ha]; [|by eapply IH].
  rewrite Forall_forall in Hc. apply Hc. rewrite <-(take_drop n l). set_solver.
Qed.
Lemma StronglySorted_filter {A} (R : A -> A -> Prop) (P : A -> Prop) `{!forall x, Decision (P x)} (l : list A) :
  StronglySorted R l -> StronglySorted R (filter P l).
Proof using Type.
  induction 1 as [|x l Hs IH Hx]; [constructor|]. rewrite filter_cons. case_decide; [|done].
  constructor; [done|]. apply Forall_forall. intros y [_ Hy]%list_elem_of_filter. rewrite Forall_forall in Hx. auto.
Qed.
Lemma size_callsigns l : NoDup (map callsignOf l) -> size (getCallsigns l) = length l.
Proof using Type. intros Hn. unfold getCallsigns. by rewrite size_list_to_set, length_map. Qed.
End members.

Section limits.
Context {FG : FlightGeometry} {AK : AircraftKind} `{StdSortByLaws}.
Implicit Types (a b : CSimulatedAircraft) (l aircraft : list CSimulatedAircraft).

(** With restrictions the places are filled: as many aircraft are enabled as are
    allowed or as there are eligible ones, all of them eligible, and no aircraft
    without a place is in front of one that has a place. *)
Lemma restricted_snapshot now l maxAircraft d : sortable l ->
  exists places,
  m_enabledAircraftCallsignsByDistance (CAirspaceAircraftSnapshot_make now l true true maxAircraft d) = getCallsigns places /\
  NoDup (map callsignOf places) /\
  length places = Nat.min (Z.to_nat maxAircraft) (length (filter (eligible d) l)) /\
  (forall a, a ∈ places -> a ∈ l /\ eligible d a) /\
  (forall a b, a ∈ l -> eligible d a -> a ∉ places -> b ∈ places -> before a b = false).
Proof using All.
  intros Hs. rewrite restricted_enabled by done. eexists. split; [reflexivity|].
  pose proof (sort_perm l Hs) as Hp. destruct Hs as [Hn Hw].
  assert (Hsort := std_sort_by_sorted before l Hw).
  unfold sortByDistanceToReferencePositionRenderedCallsign in *. set (sorted := std_sort_by before l) in *.
  unfold selected. set (f := filter (eligible d) sorted). set (n := Z.to_nat maxAircraft).
  assert (Permutation (filter (eligible d) l) f) as Hpf by (unfold f; by rewrite Hp).
  assert (forall a, a ∈ take n f -> a ∈ f) as Ht by (intros a Ha; rewrite <-(take_drop n f); set_solver).
  split_and!.
  - apply (sublist_NoDup _ (map callsignOf f)); [|apply (fmap_sublist callsignOf), sublist_take].
    apply (sublist_NoDup _ (map callsignOf sorted)); [by rewrite Hp | apply (fmap_sublist callsignOf), sublist_filter].
  - by rewrite length_take, Hpf.
  - intros a [He Ha]%Ht%list_elem_of_filter. by rewrite <-Hp.
  - intros a b Ha He Hna Hb. apply (sorted_take_drop f n); [by apply StronglySorted_filter | done |].
    assert (a ∈ f) as Haf by (apply list_elem_of_filter; by rewrite Hp).
    rewrite <-(take_drop n f) in Haf. set_solver.
Qed.
(** What is not in front is not nearer. *)
Lemma before_distance a b : before a b = false ->
  PQ.equals (m_relativeDistance a) (m_relativeDistance b) = true \/
  PQ.lessThan (m_relativeDistance a) (m_relativeDistance b) = false.
Proof using Type. unfold before. destruct (PQ.equals _ _); [by left | by right]. Qed.
End limits.

(** ** Distances that can be sorted *)

Section weak.
Context {A : Type}.
Implicit Types (lt : A -> A -> bool) (l : list A).

(** One comparison, and another one where it does not decide. *)
Definition lexicographic (lt1 lt2 : A -> A -> bool) (a b : A) : bool := lt1 a b || (negb (lt1 b a) && lt2 a b).
Lemma lexicographic_weak lt1 lt2 l : strictWeak lt1 l -> strictWeak lt2 l -> strictWeak (lexicographic lt1 lt2) l.
Proof using Type.
  intros H1 H2.
  assert (Hasym : forall x y, x ∈ l -> y ∈ l -> lt1 x y = true -> lt1 y x = false).
  { intros x y Hx Hy Hxy. destruct (lt1 y x) eqn:E; [|done].
    rewrite <-(sw_irrefl _ _ H1 x Hx). symmetry. by eapply sw_trans. }
  unfold lexicographic. split; intros x.
  - intros Hx. by rewrite (sw_irrefl _ _ H1), (sw_irrefl _ _ H2).
  - intros y z Hx Hy Hz. rewrite !orb_true_iff, !andb_true_iff, !negb_true_iff. intros Hxy Hyz.
    destruct (lt1 x z) eqn:E; [by left|right].
    assert (lt1 x y = true -> False) as Nxy.
    { intros Hl. destruct (sw_cotrans _ _ H1 x z y Hx Hz Hy Hl) as [|Hzy]; [congruence|].
      destruct Hyz as [Hyz|[Hyz _]]; [|congruence]. rewrite (Hasym z y) in Hyz; done. }
    assert (lt1 y z = true -> False) as Nyz.
    { intros Hl. destruct (sw_cotrans _ _ H1 y x z Hy Hx Hz Hl) as [Hyx|]; [|congruence].
      destruct Hxy as [?|[Hyx' _]]; [done|congruence]. }
    destruct Hxy as [|[Hyx Hxy]]; [by exfalso; auto|]. destruct Hyz as [|[Hzy Hyz]]; [by exfalso; auto|].
    split; [|exact (sw_trans _ _ H2 x y z Hx Hy Hz Hxy Hyz)].
    destruct (lt1 z x) eqn:E'; [|done]. destruct (sw_cotrans _ _ H1 z y x Hz Hy Hx E'); congruence.
  - intros y z Hx Hy Hz. rewrite !orb_true_iff, !andb_true_iff, !negb_true_iff.
    destruct (lt1 x y) eqn:Exy; [by left; left|]. destruct (lt1 y z) eqn:Eyz; [by right; left|].
    intros [Hxz|[Hzx Hxz]]; [destruct (sw_cotrans _ _ H1 x y z Hx Hy Hz Hxz); congruence|].
    destruct (lt1 y x) eqn:Eyx.
    { destruct (sw_cotrans _ _ H1 y z x Hy Hz Hx Eyx); congruence. }
    destruct (lt1 z y) eqn:Ezy.
    { destruct (sw_cotrans _ _ H1 z x y Hz Hx Hy Ezy); congruence. }
    destruct (sw_cotrans _ _ H2 x y z Hx Hy Hz Hxz); tauto.
Qed.
Lemma strictWeak_ext lt lt' l : (forall a b, a ∈ l -> b ∈ l -> lt a b = lt' a b) -> strictWeak lt l -> strictWeak lt' l.
Proof using Type.
  intros He []. split; intros *; intros; rewrite <-?He in *; eauto.
Qed.
(** A total order of keys. *)
Lemma strictWeak_total {B} (lt : B -> B -> bool) (f : A -> B) l :
  (forall x, lt x x = false) -> (forall x y z, lt x y = true -> lt y z = true -> lt x z = true) ->
  (forall x y, x <> y -> lt x y = false -> lt y x = true) -> EqDecision B ->
  strictWeak (fun a b => lt (f a) (f b)) l.
Proof using Type.
  intros Hi Ht Hto HB. split; [auto|eauto|]. intros x y z _ _ _ Hxz.
  destruct (decide (f x = f y)) as [<-|Hn]; [by right|].
  destruct (lt (f x) (f y)) eqn:E; [by left|]. right. apply (Ht _ (f x)); auto.
Qed.
End weak.

Section clear.
Context {FG : FlightGeometry}.
Implicit Types (a b : CSimulatedAircraft) (l : list CSimulatedAircraft).

(** Distances of one unit, of which two are the same or further apart than epsilon. *)
Definition clearDistances (u : CLengthUnit) l : Prop :=
  (forall a, a ∈ l -> pq_unit (m_relativeDistance a) = Some u /\ proper (m_relativeDistance a)) /\
  (forall a b, a ∈ l -> b ∈ l -> PQ.equals (m_relativeDistance a) (m_relativeDistance b) = true ->
     f64_lt (pq_value (m_relativeDistance a)) (pq_value (m_relativeDistance b)) = false).

Definition renderedFirst a b : bool := m_rendered a && negb (m_rendered b).
Definition nearer a b : bool := f64_lt (pq_value (m_relativeDistance a)) (pq_value (m_relativeDistance b)).
Definition byRenderedCallsign : CSimulatedAircraft -> CSimulatedAircraft -> bool :=
  lexicographic renderedFirst (fun a b => keyLt (callsignOf a) (callsignOf b)).

Lemma byRenderedCallsign_weak l : strictWeak byRenderedCallsign l.
Proof using Type.
  apply lexicographic_weak.
  - unfold renderedFirst. split; intros *; [by destruct (m_rendered x)|..]; destruct (m_rendered x), (m_rendered y), (m_rendered z); auto.
  - apply (strictWeak_total keyLt callsignOf); [apply keyLt_irrefl | apply keyLt_trans | apply keyLt_total | apply _].
Qed.
Lemma nearer_weak u l : clearDistances u l -> strictWeak nearer l.
Proof using Type.
  intros [Hu _]. unfold nearer. split; intros *.
  - intros _. destruct (f64_lt _ _) eqn:E; [|done]. by rewrite (lt_asym _ _ E) in E.
  - intros _ _ _. apply lt_trans.
  - intros _ [_ Hy]%Hu _. by apply lt_cotrans.
Qed.
Lemma before_clear u l a b : clearDistances u l -> a ∈ l -> b ∈ l ->
  lexicographic nearer byRenderedCallsign a b = before a b.
Proof using Type.
  intros [Hu Hc] Ha Hb. destruct (Hu a Ha) as [Hua Hpa], (Hu b Hb) as [Hub Hpb].
  assert (pq_unit (m_relativeDistance a) = pq_unit (m_relativeDistance b)) as Hab by congruence.
  assert (PQ.isNull (m_relativeDistance b) = false) as Hn by (unfold PQ.isNull; rewrite Hub; by destruct u).
  pose proof (Hc a b Ha Hb) as H1. pose proof (Hc b a Hb Ha) as H2. rewrite (equals_sym_same _ _ (eq_sym Hab)) in H2.
  unfold before, lexicographic, nearer. rewrite lessThan_same by done.
  destruct (PQ.equals (m_relativeDistance a) (m_relativeDistance b)) eqn:E; cbn [negb andb].
  - rewrite H1, H2 by done. unfold byRenderedCallsign, lexicographic, renderedFirst.
    by destruct (m_rendered a), (m_rendered b).
  - destruct (lt_trichotomy _ _ Hpa Hpb) as [Hl|[Hl|Hl]].
    + by rewrite Hl.
    + by rewrite Hl, (lt_asym _ _ Hl).
    + rewrite equals_same, Hl, Hub in E by done. destruct u; vm_compute in E; discriminate.
Qed.
Lemma clear_sortable u l : clearDistances u l -> NoDup (map callsignOf l) -> sortable l.
Proof using Type.
  intros Hc Hn. split; [done|]. eapply strictWeak_ext; [intros a b; by apply (before_clear u)|].
  apply lexicographic_weak; [by eapply nearer_weak | apply byRenderedCallsign_weak].
Qed.
End clear.

(** ** Concrete aircraft *)

Definition plainKind : @AircraftKind plainGeometry := {| model_isVtol _ := false |}.
#[local] Existing Instances plainGeometry plainKind refQt.
Definition aircraftAt (callsign : string) (distance : CLength) : CSimulatedAircraft :=
  (CSimulatedAircraft_default <| ac_callsign := CCallsign_make (lit callsign) Aircraft |>)
    <| m_relativeDistance := distance |>.
Definition metres (n : Z) : CLength := mkQuantity (f64_of_Z n) (Some LengthUnit_m).
Definition threeAircraft : list CSimulatedAircraft :=
  [aircraftAt "DLH1" (metres 9000); aircraftAt "BAW2" (metres 500); aircraftAt "AFR3" (metres 7000)].
Ltac members H :=
  first [by apply elem_of_nil in H | apply elem_of_cons in H as [->|H]; [|members H]].
Lemma threeAircraft_sortable : sortable threeAircraft.
Proof.
  apply (clear_sortable LengthUnit_m); [split|].
  - intros a Ha. members Ha; vm_compute; repeat constructor.
  - intros a b Ha Hb. members Ha; members Hb; vm_compute; done.
  - apply (bool_decide_unpack _). vm_compute. done.
Qed.

(** One place, and a distance of 8 km. *)
Lemma restricted_snapshot_witness :
  m_enabledAircraftCallsignsByDistance
    (CAirspaceAircraftSnapshot_make 1000 threeAircraft true true 1 (metres 8000)) = {[lit "BAW2"]} /\
  exists places, length places = 1%nat /\ getCallsigns places = {[lit "BAW2"]}.
Proof.
  assert (E : m_enabledAircraftCallsignsByDistance
    (CAirspaceAircraftSnapshot_make 1000 threeAircraft true true 1 (metres 8000)) = {[lit "BAW2"]}) by by vm_compute.
  split; [exact E|].
  destruct (restricted_snapshot 1000 threeAircraft 1 (metres 8000) threeAircraft_sortable) as (places & H1 & _ & H2 & _).
  exists places. split; [rewrite H2; by vm_compute | by rewrite <-H1].
Defined.

(** Distances closer than epsilon: each aircraft goes before the next one, in a cycle. *)
Example before_cycle :
  let a := aircraftAt "DLH3" (nanoMetres 0) in
  let b := aircraftAt "DLH2" (nanoMetres 8) in
  let c := aircraftAt "DLH1" (nanoMetres 16) in
  before b a = true /\ before c b = true /\ before a c = true.
Proof. by vm_compute. Qed.
