(* ===== verification/InterpolationSetup.v ===== *)
(** * Set-ups of interpolation and rendering
    (misc/simulation/interpolation/interpolationrenderingsetup.h, .cpp, interpolationsetupprovider.h, .cpp)

    The global set-up holds the restrictions of rendering; a callsign may have a
    set-up of its own, kept only while it differs from the global one.  The
    provider tells when it changed something. *)

From S2P Require Export AirspaceSnapshot.
From S2P Require Import QtReference.

Open Scope Z_scope.

Abbreviation CAngle := (CPhysicalQuantity CAngleUnit).

(** ** The values *)

(** The modes, as the integer they are kept as. *)
Definition Spline : Z := 0.
Definition Linear : Z := 1.
Record CInterpolationAndRenderingSetupBase := mkSetupBase {
  m_logInterpolation : bool; m_simulatorDebugMessages : bool; m_forceFullInterpolation : bool;
  m_enabledAircraftParts : bool; m_sendGndToSim : bool; m_fixSceneryOffset : bool;
  m_interpolatorMode : Z; m_pitchOnGround : CAngle }.
Definition CInterpolationAndRenderingSetupBase_default : CInterpolationAndRenderingSetupBase :=
  mkSetupBase false false false true true false Spline PQ.null.

Definition InfiniteAircraft : Z := 100.
Record CInterpolationAndRenderingSetupGlobal := mkGlobal {
  globalBase : CInterpolationAndRenderingSetupBase; m_maxRenderedAircraft : Z; m_maxRenderedDistance : CLength }.
Definition CInterpolationAndRenderingSetupGlobal_default : CInterpolationAndRenderingSetupGlobal :=
  mkGlobal CInterpolationAndRenderingSetupBase_default InfiniteAircraft PQ.null.
Record CInterpolationAndRenderingSetupPerCallsign := mkPerCallsign {
  callsignBase : CInterpolationAndRenderingSetupBase; setup_callsign : CCallsign }.

(** The members a set-up of a callsign is compared by with the global one. *)
Inductive ColumnIndex :=
  | IndexLogInterpolation | IndexSimulatorDebugMessages | IndexForceFullInterpolation | IndexEnabledAircraftParts
  | IndexSendGndFlagToSimulator | IndexFixSceneryOffset | IndexPitchOnGround.

Section base.
Context `{QtConv}.
Implicit Types setup : CInterpolationAndRenderingSetupBase.

(** The setters that tell whether they changed the value. *)
Definition setSendingGndFlagToSimulator (sendFlag : bool) setup : bool * CInterpolationAndRenderingSetupBase :=
  if eqb sendFlag (m_sendGndToSim setup) then (false, setup) else (true, setup <| m_sendGndToSim := sendFlag |>).
Definition setPitchOnGround (pitchOnGround : CAngle) setup : bool * CInterpolationAndRenderingSetupBase :=
  if PQ.equals pitchOnGround (m_pitchOnGround setup) then (false, setup)
  else (true, setup <| m_pitchOnGround := pitchOnGround |>).
Definition setLogInterpolation_setup (log : bool) setup : bool * CInterpolationAndRenderingSetupBase :=
  if eqb (m_logInterpolation setup) log then (false, setup) else (true, setup <| m_logInterpolation := log |>).
Definition setEnabledAircraftParts (enabled : bool) setup : bool * CInterpolationAndRenderingSetupBase :=
  if eqb (m_enabledAircraftParts setup) enabled then (false, setup)
  else (true, setup <| m_enabledAircraftParts := enabled |>).
Definition maskEnabledAircraftParts (mask : bool) setup : bool * CInterpolationAndRenderingSetupBase :=
  setEnabledAircraftParts (mask && m_enabledAircraftParts setup) setup.
(** With what the client is capable of. *)
Definition consolidateWithClient (hasAircraftPartsCapability : bool) setup : CInterpolationAndRenderingSetupBase :=
  setup <| m_enabledAircraftParts ::= fun b => b && hasAircraftPartsCapability |>.
Definition setInterpolatorMode_int (mode : Z) setup : bool * CInterpolationAndRenderingSetupBase :=
  if m_interpolatorMode setup =? mode then (false, setup) else (true, setup <| m_interpolatorMode := mode |>).
Definition setInterpolatorMode (mode : QString) setup : bool * CInterpolationAndRenderingSetupBase :=
  if containsCI mode (lit "spline") then setInterpolatorMode_int Spline setup
  else if containsCI mode (lit "linear") then setInterpolatorMode_int Linear setup
  else (false, setup).
Definition modeToString (mode : Z) : QString := if mode =? Linear then lit "linear" else lit "spline".

(** The comparison by members. *)
Definition base_eqb setup setup' : bool :=
  eqb (m_logInterpolation setup) (m_logInterpolation setup')
  && eqb (m_simulatorDebugMessages setup) (m_simulatorDebugMessages setup')
  && eqb (m_forceFullInterpolation setup) (m_forceFullInterpolation setup')
  && eqb (m_sendGndToSim setup) (m_sendGndToSim setup')
  && eqb (m_enabledAircraftParts setup) (m_enabledAircraftParts setup')
  && eqb (m_fixSceneryOffset setup) (m_fixSceneryOffset setup')
  && (m_interpolatorMode setup =? m_interpolatorMode setup')
  && PQ.equals (m_pitchOnGround setup) (m_pitchOnGround setup').
End base.

Section global.
Implicit Types setup : CInterpolationAndRenderingSetupGlobal.
Definition isMaxAircraftRestricted setup : bool := m_maxRenderedAircraft setup <? InfiniteAircraft.
Definition isMaxDistanceRestricted setup : bool := negb (PQ.isNull (m_maxRenderedDistance setup)).
Definition isRenderingEnabled setup : bool :=
  if m_maxRenderedAircraft setup <? 1 then false
  else if negb (isMaxDistanceRestricted setup) then true
  else PQ.isPositiveWithEpsilonConsidered (m_maxRenderedDistance setup).
Definition isRenderingRestricted setup : bool :=
  isRenderingEnabled setup && (isMaxAircraftRestricted setup || isMaxDistanceRestricted setup).
Definition getMaxRenderedAircraft setup : Z :=
  if m_maxRenderedAircraft setup <=? InfiniteAircraft then m_maxRenderedAircraft setup else InfiniteAircraft.
Definition disableRendering setup : CInterpolationAndRenderingSetupGlobal :=
  setup <| m_maxRenderedAircraft := 0 |> <| m_maxRenderedDistance := mkQuantity f64_zero (Some LengthUnit_NM) |>.
Definition clearAllRenderingRestrictions setup : CInterpolationAndRenderingSetupGlobal :=
  setup <| m_maxRenderedDistance := PQ.null |> <| m_maxRenderedAircraft := InfiniteAircraft |>.
Definition setMaxRenderedAircraft (maxRenderedAircraft : Z) setup : bool * CInterpolationAndRenderingSetupGlobal :=
  if maxRenderedAircraft =? m_maxRenderedAircraft setup then (false, setup)
  else (true, if maxRenderedAircraft <? 1 then disableRendering setup
              else if InfiniteAircraft <=? maxRenderedAircraft
                   then setup <| m_maxRenderedAircraft := InfiniteAircraft |>
                   else setup <| m_maxRenderedAircraft := maxRenderedAircraft |>).
Definition setMaxRenderedDistance (distance : CLength) setup : bool * CInterpolationAndRenderingSetupGlobal :=
  if PQ.equals distance (m_maxRenderedDistance setup) then (false, setup)
  else (true, if PQ.isNull distance || PQ.isNegativeWithEpsilonConsidered distance
              then setup <| m_maxRenderedDistance := PQ.null |>
              else if PQ.isZeroEpsilonConsidered distance then disableRendering setup
              else setup <| m_maxRenderedDistance := distance |>).
Definition clearMaxRenderedDistance setup : CInterpolationAndRenderingSetupGlobal :=
  snd (setMaxRenderedDistance PQ.null setup).
Definition setBaseValues (baseValues : CInterpolationAndRenderingSetupBase) setup : CInterpolationAndRenderingSetupGlobal :=
  setup <| globalBase := baseValues |>.
Definition global_eqb setup setup' : bool :=
  base_eqb (globalBase setup) (globalBase setup') && (m_maxRenderedAircraft setup =? m_maxRenderedAircraft setup')
  && PQ.equals (m_maxRenderedDistance setup) (m_maxRenderedDistance setup').

(** A set-up of a callsign made from the global one. *)
Definition perCallsignOf (callsign : CCallsign) setup : CInterpolationAndRenderingSetupPerCallsign :=
  mkPerCallsign (globalBase setup) callsign.
End global.

Section callsign.
Implicit Types (setup : CInterpolationAndRenderingSetupPerCallsign) (globalSetup : CInterpolationAndRenderingSetupGlobal).
(** The mode of the interpolator is not among them. *)
Definition unequalToGlobal setup globalSetup : list ColumnIndex :=
  let own := callsignBase setup in
  let global := globalBase globalSetup in
  let differ (b b' : bool) (index : ColumnIndex) := if eqb b b' then [] else [index] in
  differ (m_logInterpolation own) (m_logInterpolation global) IndexLogInterpolation
  ++ differ (m_simulatorDebugMessages own) (m_simulatorDebugMessages global) IndexSimulatorDebugMessages
  ++ differ (m_forceFullInterpolation own) (m_forceFullInterpolation global) IndexForceFullInterpolation
  ++ differ (m_enabledAircraftParts own) (m_enabledAircraftParts global) IndexEnabledAircraftParts
  ++ differ (m_sendGndToSim own) (m_sendGndToSim global) IndexSendGndFlagToSimulator
  ++ differ (m_fixSceneryOffset own) (m_fixSceneryOffset global) IndexFixSceneryOffset
  ++ if PQ.equals (m_pitchOnGround own) (m_pitchOnGround global) then [] else [IndexPitchOnGround].
Definition isEqualToGlobal setup globalSetup : bool :=
  match unequalToGlobal setup globalSetup with [] => true | _ => false end.
End callsign.

(** ** The provider *)

Record SetupProvider := mkSetupProvider {
  m_globalSetup : CInterpolationAndRenderingSetupGlobal;
  m_setupsPerCallsign : gmap QString CInterpolationAndRenderingSetupPerCallsign }.
Definition SetupProvider_init : SetupProvider := mkSetupProvider CInterpolationAndRenderingSetupGlobal_default ∅.

(** What an operation returns, the provider after it, and whether it called
    [emitInterpolationSetupChanged]. *)
Section provider.
Context `{QtConv}.
Implicit Types (s : SetupProvider) (callsign : CCallsign).

Definition getInterpolationSetupPerCallsignOrDefault callsign s : CInterpolationAndRenderingSetupPerCallsign :=
  match m_setupsPerCallsign s !! asString callsign with
  | None => perCallsignOf callsign (m_globalSetup s)
  | Some setup => setup
  end.
Definition hasSetupsPerCallsign s : bool := negb (bool_decide (m_setupsPerCallsign s = ∅)).
Definition setInterpolationSetupsPerCallsign (setups : list CInterpolationAndRenderingSetupPerCallsign)
    (ignoreSameAsGlobal : bool) s : bool * SetupProvider * bool :=
  let setupsPerCs := foldl (fun m setup =>
      if ignoreSameAsGlobal && isEqualToGlobal setup (m_globalSetup s) then m
      else <[asString (setup_callsign setup) := setup]> m) ∅ setups in
  if bool_decide (m_setupsPerCallsign s = ∅) && bool_decide (setupsPerCs = ∅) then (false, s, false)
  else (true, s <| m_setupsPerCallsign := setupsPerCs |>, true).
Definition logInterpolation (setup : CInterpolationAndRenderingSetupPerCallsign) : bool :=
  m_logInterpolation (callsignBase setup).
Definition getLogCallsigns s : gset QString :=
  dom (filter (fun kv => logInterpolation kv.2 = true) (m_setupsPerCallsign s)).
Definition isLogCallsign callsign s : bool :=
  match m_setupsPerCallsign s !! asString callsign with None => false | Some setup => logInterpolation setup end.
Definition logAnyCallsign s : bool := existsb (fun kv => logInterpolation kv.2) (map_to_list (m_setupsPerCallsign s)).
Definition setInterpolationSetupGlobal (setup : CInterpolationAndRenderingSetupGlobal) s : bool * SetupProvider * bool :=
  if global_eqb (m_globalSetup s) setup then (false, s, false) else (true, s <| m_globalSetup := setup |>, true).
Definition setInterpolationSetupPerCallsign (setup : CInterpolationAndRenderingSetupPerCallsign) callsign
    (removeGlobalSetup : bool) s : bool * SetupProvider * bool :=
  if removeGlobalSetup && isEqualToGlobal setup (m_globalSetup s)
  then (false, s <| m_setupsPerCallsign ::= delete (asString callsign) |>, false)
  else (true, s <| m_setupsPerCallsign ::= insert (asString callsign) setup |>, true).
Definition onBase {A} (f : CInterpolationAndRenderingSetupBase -> A * CInterpolationAndRenderingSetupBase)
    (setup : CInterpolationAndRenderingSetupPerCallsign) : A * CInterpolationAndRenderingSetupPerCallsign :=
  let '(a, base) := f (callsignBase setup) in (a, setup <| callsignBase := base |>).
Definition setInterpolationMode (modeAsString : QString) callsign s : bool * SetupProvider * bool :=
  match onBase (setInterpolatorMode modeAsString) (getInterpolationSetupPerCallsignOrDefault callsign s) with
  | (false, _) => (false, s, false)
  | (true, setup) => setInterpolationSetupPerCallsign setup callsign true s
  end.
Definition setLogInterpolation (log : bool) callsign s : bool * SetupProvider * bool :=
  match onBase (setLogInterpolation_setup log) (getInterpolationSetupPerCallsignOrDefault callsign s) with
  | (false, _) => (false, s, false)
  | (true, setup) => setInterpolationSetupPerCallsign setup callsign true s
  end.
Definition setLogCallsign (log : bool) callsign s : SetupProvider * bool :=
  let setup := getInterpolationSetupPerCallsignOrDefault callsign s in
  if eqb (logInterpolation setup) log then (s, false)
  else let '(_, s, emitted) := setInterpolationSetupPerCallsign (snd (onBase (setLogInterpolation_setup log) setup))
                                 callsign true s in (s, emitted).
Definition removeInterpolationSetupPerCallsign callsign s : bool * SetupProvider * bool :=
  let removed := bool_decide (is_Some (m_setupsPerCallsign s !! asString callsign)) in
  (removed, s <| m_setupsPerCallsign ::= delete (asString callsign) |>, removed).
Definition clearInterpolationLogCallsigns s : SetupProvider * bool :=
  if bool_decide (m_setupsPerCallsign s = ∅) then (s, false)
  else
    let withoutLog := (fun setup => snd (onBase (setLogInterpolation_setup false) setup)) <$> m_setupsPerCallsign s in
    (s <| m_setupsPerCallsign := filter (fun kv => isEqualToGlobal kv.2 (m_globalSetup s) = false) withoutLog |>, true).
Definition clearInterpolationSetupsPerCallsign s : Z * SetupProvider * bool :=
  let r := Z.of_nat (size (m_setupsPerCallsign s)) in
  (r, s <| m_setupsPerCallsign := ∅ |>, 0 <? r).
End provider.

(** ** The set-up in force *)

(** The members the comparison with the global set-up looks at are the same. *)
Definition sameButMode (setup setup' : CInterpolationAndRenderingSetupBase) : Prop :=
  m_logInterpolation setup = m_logInterpolation setup'
  /\ m_simulatorDebugMessages setup = m_simulatorDebugMessages setup'
  /\ m_forceFullInterpolation setup = m_forceFullInterpolation setup'
  /\ m_enabledAircraftParts setup = m_enabledAircraftParts setup'
  /\ m_sendGndToSim setup = m_sendGndToSim setup' /\ m_fixSceneryOffset setup = m_fixSceneryOffset setup'
  /\ PQ.equals (m_pitchOnGround setup) (m_pitchOnGround setup') = true.

Lemma isEqualToGlobal_spec setup globalSetup :
  isEqualToGlobal setup globalSetup = true <-> sameButMode (callsignBase setup) (globalBase globalSetup).
Proof.
  destruct setup as [[l d f e g o m p] cs], globalSetup as [[l' d' f' e' g' o' m' p'] n r].
  transitivity (unequalToGlobal (mkPerCallsign (mkSetupBase l d f e g o m p) cs)
                  (mkGlobal (mkSetupBase l' d' f' e' g' o' m' p') n r) = []).
  { unfold isEqualToGlobal. by destruct (unequalToGlobal _ _). }
  assert (Hd : forall (b b' : bool) (i : ColumnIndex), (if eqb b b' then [] else [i]) = [] <-> b = b')
    by (intros [] [] i; cbn; split; congruence).
  unfold unequalToGlobal, sameButMode; cbn [callsignBase globalBase m_logInterpolation m_simulatorDebugMessages
    m_forceFullInterpolation m_enabledAircraftParts m_sendGndToSim m_fixSceneryOffset m_pitchOnGround].
  assert (Hp : (if PQ.equals p p' then [] else [IndexPitchOnGround]) = [] <-> PQ.equals p p' = true)
    by (destruct (PQ.equals p p'); split; congruence).
  by rewrite !app_nil, !Hd, Hp.
Qed.

Section inForce.
Context `{QtConv}.
Implicit Types (s : SetupProvider) (callsign : CCallsign).

Lemma perCallsign_set setup callsign s r s' emitted :
  setInterpolationSetupPerCallsign setup callsign true s = (r, s', emitted) ->
  m_globalSetup s' = m_globalSetup s /\
  callsignBase (getInterpolationSetupPerCallsignOrDefault callsign s') =
    (if isEqualToGlobal setup (m_globalSetup s) then globalBase (m_globalSetup s) else callsignBase setup) /\
  forall callsign', asString callsign' <> asString callsign ->
    getInterpolationSetupPerCallsignOrDefault callsign' s' = getInterpolationSetupPerCallsignOrDefault callsign' s.
Proof using Type.
  unfold setInterpolationSetupPerCallsign. cbn [andb]. unfold getInterpolationSetupPerCallsignOrDefault.
  destruct (isEqualToGlobal _ _) eqn:E; intros [= <- <- <-]; split; try by destruct s.
  - split; [change (m_setupsPerCallsign _) with (delete (asString callsign) (m_setupsPerCallsign s));
            by rewrite lookup_delete_eq|].
    intros callsign' Hn. change (m_setupsPerCallsign _) with (delete (asString callsign) (m_setupsPerCallsign s)) at 1.
    by rewrite lookup_delete_ne by congruence.
  - split; [change (m_setupsPerCallsign _) with (<[asString callsign := setup]> (m_setupsPerCallsign s));
            by rewrite lookup_insert_eq|].
    intros callsign' Hn. change (m_setupsPerCallsign _) with (<[asString callsign := setup]> (m_setupsPerCallsign s)) at 1.
    by rewrite lookup_insert_ne by congruence.
Qed.

(** Setting the set-up of a callsign leaves in force what was set but for the
    mode of the interpolator, which is lost when nothing else differs from the
    global set-up; other callsigns keep theirs. *)
Theorem setup_in_force setup callsign s r s' emitted :
  PQ.equals (m_pitchOnGround (callsignBase setup)) (m_pitchOnGround (callsignBase setup)) = true ->
  setInterpolationSetupPerCallsign setup callsign true s = (r, s', emitted) ->
  let now := callsignBase (getInterpolationSetupPerCallsignOrDefault callsign s') in
  sameButMode (callsignBase setup) now /\
  (~ sameButMode (callsignBase setup) (globalBase (m_globalSetup s)) -> now = callsignBase setup) /\
  (sameButMode (callsignBase setup) (globalBase (m_globalSetup s)) -> now = globalBase (m_globalSetup s)) /\
  forall callsign', asString callsign' <> asString callsign ->
    getInterpolationSetupPerCallsignOrDefault callsign' s' = getInterpolationSetupPerCallsignOrDefault callsign' s.
Proof using Type.
  intros Hp Hset. apply perCallsign_set in Hset as (_ & Hb & Ho). cbv zeta. rewrite Hb.
  destruct (isEqualToGlobal _ _) eqn:E.
  - apply isEqualToGlobal_spec in E. split_and!; auto. contradiction.
  - assert (~ sameButMode (callsignBase setup) (globalBase (m_globalSetup s))) as Hn.
    { intros Hs%isEqualToGlobal_spec. congruence. }
    split_and!; auto; [|contradiction]. by unfold sameButMode.
Qed.

(** The log of a callsign is as it was set; nothing else of its set-up and no
    other callsign is touched. *)
Lemma setLogCallsign_result log callsign s s' emitted :
  setLogCallsign log callsign s = (s', emitted) ->
  logInterpolation (getInterpolationSetupPerCallsignOrDefault callsign s') = log /\
  forall callsign', asString callsign' <> asString callsign ->
    getInterpolationSetupPerCallsignOrDefault callsign' s' = getInterpolationSetupPerCallsignOrDefault callsign' s.
Proof using Type.
  unfold setLogCallsign, onBase, setLogInterpolation_setup. unfold logInterpolation at 1.
  destruct (eqb _ log) eqn:E; [intros [= <- <-]; apply eqb_prop in E; auto|]. cbn [snd].
  destruct (setInterpolationSetupPerCallsign _ _ _ _) as [[r s1] e1] eqn:Hset. intros [= <- <-].
  apply perCallsign_set in Hset as (_ & Hb & Ho). split; [|done]. unfold logInterpolation. rewrite Hb.
  destruct (isEqualToGlobal _ _) eqn:E'; [|done]. apply isEqualToGlobal_spec in E' as [<- _]. done.
Qed.
(** The mode of the interpolator cannot be set for a callsign alone. *)
Lemma mode_of_callsign_lost mode callsign s :
  PQ.equals (m_pitchOnGround (globalBase (m_globalSetup s))) (m_pitchOnGround (globalBase (m_globalSetup s))) = true ->
  m_setupsPerCallsign s !! asString callsign = None ->
  setInterpolationMode mode callsign s = (false, s, false).
Proof using Type.
  intros Hp Hn. unfold setInterpolationMode, getInterpolationSetupPerCallsignOrDefault. rewrite Hn.
  unfold onBase, setInterpolatorMode, setInterpolatorMode_int. cbn [perCallsignOf callsignBase].
  assert (Hset : forall m, setInterpolationSetupPerCallsign
            ((perCallsignOf callsign (m_globalSetup s)) <| callsignBase := (globalBase (m_globalSetup s)) <| m_interpolatorMode := m |> |>)
            callsign true s = (false, s, false)).
  { intros m. unfold setInterpolationSetupPerCallsign. cbn [andb].
    rewrite (proj2 (isEqualToGlobal_spec _ _)) by by destruct (m_globalSetup s) as [[] ? ?].
    f_equal. f_equal. destruct s as [g per]. change (mkSetupProvider g (delete (asString callsign) per) = mkSetupProvider g per).
    by rewrite delete_id. }
  repeat case_match; simplify_eq; try done; apply Hset.
Qed.
End inForce.

(** ** The restrictions of rendering *)

(** What the operations leave: a number of aircraft in the limits, and a distance
    that is null, above zero, or the zero of a disabled rendering. *)
Definition restrictionsOk (setup : CInterpolationAndRenderingSetupGlobal) : Prop :=
  0 <= m_maxRenderedAircraft setup <= InfiniteAircraft /\
  (m_maxRenderedDistance setup = PQ.null \/ m_maxRenderedDistance setup = mkQuantity f64_zero (Some LengthUnit_NM)
   \/ PQ.isNull (m_maxRenderedDistance setup) = false
      /\ PQ.isNegativeWithEpsilonConsidered (m_maxRenderedDistance setup) = false
      /\ PQ.isZeroEpsilonConsidered (m_maxRenderedDistance setup) = false).
Inductive SetupOperation :=
  | SetMaxRenderedAircraft (maxRenderedAircraft : Z) | SetMaxRenderedDistance (distance : CLength)
  | ClearMaxRenderedDistance | ClearAllRenderingRestrictions | DisableRendering
  | SetBaseValues (baseValues : CInterpolationAndRenderingSetupBase).
Definition setup_step (setup : CInterpolationAndRenderingSetupGlobal) (op : SetupOperation) : CInterpolationAndRenderingSetupGlobal :=
  match op with
  | SetMaxRenderedAircraft n => snd (setMaxRenderedAircraft n setup)
  | SetMaxRenderedDistance d => snd (setMaxRenderedDistance d setup)
  | ClearMaxRenderedDistance => clearMaxRenderedDistance setup
  | ClearAllRenderingRestrictions => clearAllRenderingRestrictions setup
  | DisableRendering => disableRendering setup
  | SetBaseValues baseValues => setBaseValues baseValues setup
  end.

Lemma restrictions_step setup op : restrictionsOk setup -> restrictionsOk (setup_step setup op).
Proof.
  destruct setup as [base n d]. unfold restrictionsOk, InfiniteAircraft. cbn [m_maxRenderedAircraft m_maxRenderedDistance].
  intros [Hn Hd].
  assert (Hdist : forall d', restrictionsOk (snd (setMaxRenderedDistance d' (mkGlobal base n d)))).
  { intros d'. unfold setMaxRenderedDistance, restrictionsOk. destruct (PQ.equals _ _); [done|].
    destruct (PQ.isNull d') eqn:E1; [cbn; unfold constant; auto|]. cbn [orb].
    destruct (PQ.isNegativeWithEpsilonConsidered d') eqn:E2; [cbn; unfold constant; auto|].
    destruct (PQ.isZeroEpsilonConsidered d') eqn:E3; cbn; unfold InfiniteAircraft, constant; (split; [lia | auto 10]). }
  destruct op as [m|d'| | | |base']; cbn [setup_step];
    try (cbn; unfold InfiniteAircraft, constant; split; [lia | by auto 10]); try apply Hdist.
  unfold setMaxRenderedAircraft, InfiniteAircraft. cbn [m_maxRenderedAircraft].
  destruct (Z.eqb_spec m n); [done|]. cbn [snd].
  destruct (Z.ltb_spec m 1); [cbn; unfold InfiniteAircraft, constant; split; [lia | auto]|].
  destruct (Z.leb_spec 100 m); cbn; unfold InfiniteAircraft, constant; (split; [lia | auto]).
Qed.

Lemma positive_unless_nan (d : CLength) : PQ.isNull d = false ->
  PQ.isNegativeWithEpsilonConsidered d = false -> PQ.isZeroEpsilonConsidered d = false ->
  PQ.isPositiveWithEpsilonConsidered d = false <-> pq_value d = S754_nan.
Proof.
  unfold PQ.isNegativeWithEpsilonConsidered, PQ.isPositiveWithEpsilonConsidered. intros Hnull Hneg Hzero.
  rewrite Hzero in *. cbn [negb andb] in *. destruct d as [v u]; cbn [pq_value] in *.
  unfold PQ.isZeroEpsilonConsidered, isEpsilon in Hzero. cbn [pq_value pq_unit] in Hzero.
  unfold PQ.isNull in Hnull. cbn [pq_unit] in Hnull. rewrite Hnull in Hzero.
  destruct v as [s|[]| |[] m e]; [by destruct s; vm_compute in Hzero|..]; done.
Qed.

(** C40: Whatever is set: rendering is disabled exactly when there are no aircraft or
    no distance to be rendered, which is also so for a distance that is not a
    number; and it is unrestricted exactly when it is disabled or neither is
    limited. *)
Theorem rendering_restrictions ops :
  let setup := foldl setup_step CInterpolationAndRenderingSetupGlobal_default ops in
  0 <= getMaxRenderedAircraft setup <= InfiniteAircraft /\
  (isRenderingEnabled setup = false <->
     m_maxRenderedAircraft setup = 0 \/ m_maxRenderedDistance setup = mkQuantity f64_zero (Some LengthUnit_NM)
     \/ pq_value (m_maxRenderedDistance setup) = S754_nan) /\
  (isRenderingRestricted setup = false <->
     isRenderingEnabled setup = false \/
     m_maxRenderedAircraft setup = InfiniteAircraft /\ m_maxRenderedDistance setup = PQ.null).
Proof.
  cbv zeta. assert (Hok : restrictionsOk (foldl setup_step CInterpolationAndRenderingSetupGlobal_default ops)).
  { assert (H0 : restrictionsOk CInterpolationAndRenderingSetupGlobal_default) by (split; [done | by left]).
    revert H0. generalize CInterpolationAndRenderingSetupGlobal_default. induction ops as [|op ops IH]; [done|].
    intros setup H0. apply IH, restrictions_step, H0. }
  destruct (foldl _ _ _) as [base n d], Hok as [Hn Hd]. cbn in Hn, Hd.
  unfold getMaxRenderedAircraft, isRenderingRestricted, isRenderingEnabled, isMaxAircraftRestricted, isMaxDistanceRestricted.
  cbn [m_maxRenderedAircraft m_maxRenderedDistance]. unfold InfiniteAircraft in *.
  split; [case_match; lia|].
  destruct (Z.ltb_spec n 1) as [Hlt|Hge].
  { split; split; auto. left. lia. }
  destruct Hd as [-> | [-> | (Hnull & Hneg & Hzero)]].
  - split; [split; [discriminate | intros [? | [? | ?]]; [lia | discriminate | discriminate]]|].
    cbn [negb PQ.isNull andb orb]. rewrite orb_false_r. destruct (Z.ltb_spec n 100); split; try discriminate; auto.
    + intros [? | [? _]]; [discriminate | lia].
    + intros _. right. split; [lia | done].
  - split; [split; [auto | intros _; by vm_compute]|]. split; [auto|]. intros _. by vm_compute.
  - rewrite Hnull. cbn [negb orb]. rewrite orb_true_r, andb_true_r.
    rewrite (positive_unless_nan d Hnull Hneg Hzero). split; split; auto.
    + intros [? | [-> | ?]]; [lia | by vm_compute in Hzero | done].
    + intros [? | [_ ->]]; [done | discriminate].
Qed.

(** ** Examples *)

#[local] Existing Instance refQt.
Definition plainSetupCallsign : CCallsign := mkCallsign (lit "DLH123") (lit "DLH123") [] NoHint.
Definition loggedSetup : CInterpolationAndRenderingSetupPerCallsign :=
  mkPerCallsign (CInterpolationAndRenderingSetupBase_default <| m_logInterpolation := true |> <| m_interpolatorMode := Linear |>)
    plainSetupCallsign.
Lemma setup_in_force_witness :
  let s' := (setInterpolationSetupPerCallsign loggedSetup plainSetupCallsign true SetupProvider_init).1.2 in
  let now := callsignBase (getInterpolationSetupPerCallsignOrDefault plainSetupCallsign s') in
  sameButMode (callsignBase loggedSetup) now /\ m_interpolatorMode now = Linear.
Proof.
  cbv zeta. split; [|by vm_compute].
  refine (proj1 (setup_in_force loggedSetup plainSetupCallsign SetupProvider_init true _ true _ _)).
  - by vm_compute.
  - reflexivity.
Defined.

(** ".drv linear DLH123" reports that nothing changed, and nothing has; with the
    log of the callsign switched on before it works, until the log is switched
    off. *)
Example mode_of_callsign :
  setInterpolationMode (lit "linear") plainSetupCallsign SetupProvider_init = (false, SetupProvider_init, false) /\
  let s := fst (setLogCallsign true plainSetupCallsign SetupProvider_init) in
  let '(r, s, _) := setInterpolationMode (lit "linear") plainSetupCallsign s in
  let mode s := m_interpolatorMode (callsignBase (getInterpolationSetupPerCallsignOrDefault plainSetupCallsign s)) in
  r = true /\ mode s = Linear /\ mode (fst (setLogCallsign false plainSetupCallsign s)) = Spline.
Proof. by vm_compute. Qed.

(** The log switched on for all callsigns is not that of any. *)
Example global_log_logs_no_callsign :
  let global := CInterpolationAndRenderingSetupGlobal_default
                  <| globalBase := CInterpolationAndRenderingSetupBase_default <| m_logInterpolation := true |> |> in
  let s := (setInterpolationSetupGlobal global SetupProvider_init).1.2 in
  logInterpolation (getInterpolationSetupPerCallsignOrDefault plainSetupCallsign s) = true /\
  isLogCallsign plainSetupCallsign (fst (setLogCallsign true plainSetupCallsign s)) = false.
Proof. by vm_compute. Qed.

(** A number of aircraft set after the rendering was disabled enables nothing: the
    distance is left at zero. *)
Example number_does_not_enable :
  let setup := snd (setMaxRenderedAircraft 50 (disableRendering CInterpolationAndRenderingSetupGlobal_default)) in
  m_maxRenderedAircraft setup = 50 /\ isRenderingEnabled setup = false.
Proof. by vm_compute. Qed.
