(* ===== verification/SimulatorDriver.v ===== *)
(** * Simulator drivers (core/simulator.h, .cpp)

    The base class of the drivers keeps the aircraft in the simulator equal to the
    aircraft the network has in range.  Without restrictions an aircraft is added
    and removed at once; with restrictions the snapshots of the analyzer decide.
    What a driver does in its simulator is the class [SimulatorDriver], with the
    laws [SimulatorDriverLaws]; it shares the provider of remote aircraft. *)

From S2P Require Export InterpolationSetup.
From S2P Require TokenBucket.
From S2P Require Import QtReference.

Open Scope Z_scope.

(** What the drivers ask of models and situations. *)
Class SimulatorGeometry `{FlightGeometry} := {
  hasModelString : CAircraftModel -> bool; model_isCallsignEmpty : CAircraftModel -> bool;
  equalPbhVectorAltitudeElevation : RemoteSituation -> RemoteSituation -> bool }.

(** ** ISimulator *)

(** The flags of the status, and the closures of the timers. *)
Record SimulatorStatus := mkStatus { Disconnected : bool; Connected : bool; Simulating : bool; Paused : bool }.
#[export] Instance SimulatorStatus_eq_dec : EqDecision SimulatorStatus.
Proof. solve_decision. Defined.
Inductive SimTimer `{FlightGeometry} :=
  | ReAddAircraft (callsign : CCallsign) | ChangeEnabledLater (aircraft : CSimulatedAircraft)
  | EmitStatus (newStatus : SimulatorStatus) | EmitSetupChanged.

(** The state of the base class with the provider it shares, and that of the driver. *)
Record ISimulator `{FlightGeometry} (D : Type) := mkSimulator {
  rap : CRemoteAircraftProvider; driver : D; setups : SetupProvider;
  m_lastSentSituations : gmap QString RemoteSituation; m_lastSentParts : gmap QString CAircraftParts;
  m_loopbackSituations : gmap QString (CONTAINER RemoteSituation);
  m_addAgainAircraftWhenRemoved : list CSimulatedAircraft; m_callsignsToBeRendered : gset QString;
  m_updateRemoteAircraftInProgress : bool; m_updateAllRemoteAircraftUntil : Z;
  m_statsUpdateAircraftRuns : Z; m_statsUpdateAircraftLimited : Z; m_statsUpdateAircraftTimeAvgMs : double;
  m_statsUpdateAircraftTimeTotalMs : Z; m_statsCurrentUpdateTimeMs : Z; m_statsMaxUpdateTimeMs : Z;
  m_statsLastUpdateAircraftRequestedMs : Z; m_statsUpdateAircraftRequestedDeltaMs : Z;
  m_statsPhysicallyAddedAircraft : Z; m_statsPhysicallyRemovedAircraft : Z;
  m_averageFps : double; m_simTimeRatio : double; m_trackMilesShort : double; m_minutesLate : double;
  m_limitUpdateAircraft : bool; m_limitUpdateAircraftBucket : TokenBucket.CTokenBucket;
  m_networkConnected : bool; m_test : bool; sim_isShuttingDown : bool;
  m_remoteAircraftProviderConnected : bool; sim_timers : list (Z * SimTimer) }.
Arguments mkSimulator {_ D}.
Arguments rap {_ D} _.
Arguments driver {_ D} _.
Arguments setups {_ D} _.
Arguments m_lastSentSituations {_ D} _.
Arguments m_lastSentParts {_ D} _.
Arguments m_loopbackSituations {_ D} _.
Arguments m_addAgainAircraftWhenRemoved {_ D} _.
Arguments m_callsignsToBeRendered {_ D} _.
Arguments m_updateRemoteAircraftInProgress {_ D} _.
Arguments m_updateAllRemoteAircraftUntil {_ D} _.
Arguments m_statsUpdateAircraftRuns {_ D} _.
Arguments m_statsUpdateAircraftLimited {_ D} _.
Arguments m_statsUpdateAircraftTimeAvgMs {_ D} _.
Arguments m_statsUpdateAircraftTimeTotalMs {_ D} _.
Arguments m_statsCurrentUpdateTimeMs {_ D} _.
Arguments m_statsMaxUpdateTimeMs {_ D} _.
Arguments m_statsLastUpdateAircraftRequestedMs {_ D} _.
Arguments m_statsUpdateAircraftRequestedDeltaMs {_ D} _.
Arguments m_statsPhysicallyAddedAircraft {_ D} _.
Arguments m_statsPhysicallyRemovedAircraft {_ D} _.
Arguments m_averageFps {_ D} _.
Arguments m_simTimeRatio {_ D} _.
Arguments m_trackMilesShort {_ D} _.
Arguments m_minutesLate {_ D} _.
Arguments m_limitUpdateAircraft {_ D} _.
Arguments m_limitUpdateAircraftBucket {_ D} _.
Arguments m_networkConnected {_ D} _.
Arguments m_test {_ D} _.
Arguments sim_isShuttingDown {_ D} _.
Arguments m_remoteAircraftProviderConnected {_ D} _.
Arguments sim_timers {_ D} _.

Inductive SimOut `{FlightGeometry} :=
  | simulatorStatusChanged (status : SimulatorStatus)
  | renderRestrictionsChanged (restricted enabled : bool) (maxAircraft : Z) (maxRenderedDistance : CLength)
  | interpolationAndRenderingSetupChanged
  | aircraftRenderingChanged (aircraft : CSimulatedAircraft)
  | airspaceSnapshotHandled.

Definition Sim `{FlightGeometry} (D A : Type) : Type := ISimulator D -> A * ISimulator D * list SimOut.

Section monad.
Context `{FlightGeometry} {D : Type}.
#[export] Instance Sim_ret : MRet (Sim D) := fun A x s => (x, s, []).
#[export] Instance Sim_bind : MBind (Sim D) := fun A B k x s =>
  let '(a, s', o) := x s in let '(b, s'', o') := k a s' in (b, s'', o ++ o').
Definition sim_get : Sim D (ISimulator D) := fun s => (s, s, []).
Definition sim_set (f : ISimulator D -> ISimulator D) : Sim D unit := fun s => (tt, f s, []).
Definition sim_emit (o : SimOut) : Sim D unit := fun s => (tt, s, [o]).
Definition sim_when (b : bool) (x : Sim D unit) : Sim D unit := if b then x else mret tt.
Fixpoint sim_forEach {A} (f : A -> Sim D unit) (l : list A) : Sim D unit :=
  match l with [] => mret tt | x :: l => f x;; sim_forEach f l end.
Definition sim_singleShot (due : Z) (closure : SimTimer) : Sim D unit :=
  sim_set (fun s => s <| sim_timers ::= fun l => l ++ [(due, closure)] |>).
(** A member function of the provider. *)
Definition withRap {A} (f : CRemoteAircraftProvider -> A * CRemoteAircraftProvider) : Sim D A :=
  fun s => let '(a, p) := f (rap s) in (a, s <| rap := p |>, []).
End monad.

(** The callsign of a key. *)
Definition callsignOfKey (key : QString) : CCallsign := mkCallsign key key [] NoHint.

(** What a driver implements; for the aircraft it renders, their callsigns. *)
Class SimulatorDriver `{FlightGeometry} (D : Type) := {
  physicallyAddRemoteAircraft : CSimulatedAircraft -> Sim D bool;
  physicallyRemoveRemoteAircraft : CCallsign -> Sim D bool;
  physicallyRenderedAircraft : D -> gset QString;
  isPhysicallyRenderedAircraft : CCallsign -> D -> bool;
  isConnected : D -> bool; isPaused : D -> bool; isSimulating : D -> bool }.
(** The virtual functions of the base class a driver may override. *)
Class SimulatorOverrides `{FlightGeometry} (D : Type) := {
  virtual_disconnectFrom : Sim D bool; virtual_changeRemoteAircraftModel : Z -> CSimulatedAircraft -> Sim D bool }.

Section simulator.
Context {FG : FlightGeometry} {QC : QtConv} {SS : StdSort} {SG : SimulatorGeometry} {D : Type} {SD : SimulatorDriver D}.
Implicit Types (callsign : CCallsign) (aircraft : CSimulatedAircraft) (now : Z).
Notation "m !- f" := (sim_set (fun s => s <| m ::= f |>)) (at level 60, only parsing).

Definition getSimulatorStatus (s : ISimulator D) : SimulatorStatus :=
  if negb (isConnected (driver s)) then mkStatus true false false false
  else mkStatus false true (isSimulating (driver s)) (isPaused (driver s)).
Definition isAnyConnectedStatus (status : SimulatorStatus) : bool := Connected status || Simulating status || Paused status.
Definition isMyAircraftInRange callsign (s : ISimulator D) : bool := isAircraftInRange callsign (rap s).

(** *** Set-ups *)

Definition emitInterpolationSetupChanged now : Sim D unit := sim_singleShot (now + 5) EmitSetupChanged.
(** An operation of the provider of set-ups, with the signal it asks for. *)
Definition onSetups {A} now (f : SetupProvider -> A * SetupProvider * bool) : Sim D A :=
  s ← sim_get;
  let '(a, p, emitted) := f (setups s) in
  sim_set (fun s => s <| setups := p |>);; sim_when emitted (emitInterpolationSetupChanged now);; mret a.
Definition sim_setInterpolationSetupGlobal now (setup : CInterpolationAndRenderingSetupGlobal) : Sim D bool :=
  changed ← onSetups now (setInterpolationSetupGlobal setup);
  if negb changed then mret false
  else sim_emit (renderRestrictionsChanged (isRenderingRestricted setup) (isRenderingEnabled setup)
                   (getMaxRenderedAircraft setup) (m_maxRenderedDistance setup));; mret true.

(** *** What was sent last *)

Definition resetLastSentValues : Sim D unit :=
  sim_set (fun s => s <| m_lastSentParts := ∅ |> <| m_lastSentSituations := ∅ |>).
Definition resetLastSentValuesOf callsign : Sim D unit :=
  sim_set (fun s => s <| m_lastSentParts ::= delete (asString callsign) |>
                      <| m_lastSentSituations ::= delete (asString callsign) |>).
Definition isEqualLastSent (compare : RemoteSituation) (s : ISimulator D) : bool :=
  match m_lastSentSituations s !! asString (m_correspondingCallsign compare) with
  | None => false
  | Some sent => if situation_isNull compare then false else equalPbhVectorAltitudeElevation compare sent
  end.
Definition isEqualLastSentParts (compare : CAircraftParts) callsign (s : ISimulator D) : bool :=
  if isEmpty (asString callsign) then false
  else match m_lastSentParts s !! asString callsign with None => false | Some sent => parts_eqb sent compare end.
Definition rememberLastSent (sent : RemoteSituation) : Sim D unit :=
  if isEmpty (asString (m_correspondingCallsign sent)) then mret tt
  else sim_set (fun s => s <| m_lastSentSituations ::= insert (asString (m_correspondingCallsign sent)) sent |>).
Definition rememberLastSentParts (sent : CAircraftParts) callsign : Sim D unit :=
  if isEmpty (asString callsign) then mret tt
  else sim_set (fun s => s <| m_lastSentParts ::= insert (asString callsign) sent |>).
Definition addLoopbackSituation (situation : RemoteSituation) : Sim D bool :=
  s ← sim_get;
  let cs := m_correspondingCallsign situation in
  if negb (isLogCallsign cs (setups s)) then mret false
  else
    sim_set (fun s => s <| m_loopbackSituations ::= fun m =>
      <[asString cs := push_frontKeepLatestAdjustedFirst situation true 10
                         (default (ofSequence [])
                            (m !! asString cs))]> m |>);; mret true.

(** *** Updating all aircraft *)

Definition isUpdateAllRemoteAircraft now (s : ISimulator D) : bool :=
  if m_updateAllRemoteAircraftUntil s <? 1 then false else now <? m_updateAllRemoteAircraftUntil s.
Definition setUpdateAllRemoteAircraft now (forMs : Z) : Sim D unit :=
  let forMs := if forMs <? 0 then 10 * 1000 else forMs in
  sim_set (fun s => s <| m_updateAllRemoteAircraftUntil := now + forMs |>);; resetLastSentValues.
Definition recalculateAllAircraft now : Sim D unit := setUpdateAllRemoteAircraft now (-1).
Definition resetUpdateAllRemoteAircraft : Sim D unit :=
  sim_set (fun s => s <| m_updateAllRemoteAircraftUntil := -1 |>).
Definition resetAircraftStatistics : Sim D unit :=
  sim_set (fun s => s <| m_statsUpdateAircraftRuns := 0 |> <| m_statsUpdateAircraftTimeAvgMs := f64_zero |>
    <| m_statsUpdateAircraftTimeTotalMs := 0 |> <| m_statsMaxUpdateTimeMs := 0 |> <| m_statsCurrentUpdateTimeMs := 0 |>
    <| m_statsPhysicallyAddedAircraft := 0 |> <| m_statsPhysicallyRemovedAircraft := 0 |>
    <| m_statsUpdateAircraftLimited := 0 |> <| m_statsLastUpdateAircraftRequestedMs := 0 |>
    <| m_statsUpdateAircraftRequestedDeltaMs := 0 |>).
Definition finishUpdateRemoteAircraftAndSetStatistics now (startTime : Z) (limited : bool) : Sim D unit :=
  let dt := now - startTime in
  sim_set (fun s => s <| m_statsCurrentUpdateTimeMs := dt |> <| m_statsUpdateAircraftTimeTotalMs ::= Z.add dt |>
    <| m_statsUpdateAircraftRuns ::= Z.succ |>);;
  sim_set (fun s => s <| m_statsUpdateAircraftTimeAvgMs :=
      f64_div (f64_of_Z (m_statsUpdateAircraftTimeTotalMs s)) (f64_of_Z (m_statsUpdateAircraftRuns s)) |>
    <| m_updateRemoteAircraftInProgress := false |> <| m_statsLastUpdateAircraftRequestedMs := startTime |>);;
  s ← sim_get;
  sim_when (negb (isUpdateAllRemoteAircraft startTime s)) resetUpdateAllRemoteAircraft;;
  sim_set (fun s => s <| m_statsMaxUpdateTimeMs ::= Z.max dt |>);;
  sim_set (fun s => if 0 <? m_statsLastUpdateAircraftRequestedMs s
                    then s <| m_statsUpdateAircraftRequestedDeltaMs := startTime - m_statsLastUpdateAircraftRequestedMs s |>
                    else s);;
  sim_when limited (sim_set (fun s => s <| m_statsUpdateAircraftLimited ::= Z.succ |>)).

(** *** The limit of updates *)

Definition isUpdateAircraftLimited now (timestamp : Z) : Sim D bool :=
  s ← sim_get;
  if negb (m_limitUpdateAircraft s) then mret false
  else
    let '(hasToken, bucket) := TokenBucket.tryConsume now 1 timestamp (m_limitUpdateAircraftBucket s) in
    sim_set (fun s => s <| m_limitUpdateAircraftBucket := bucket |>);; mret (negb hasToken).
(** [qRound] of what is not negative. *)
Definition qRound (d : double) : Z := f64_trunc (f64_add d (f64_frac 1 2)).
Definition tokensAndInterval (numberPerSecond : Z) : Z * Z :=
  let n := f64_of_Z numberPerSecond in
  let tokens := qRound (f64_mul (f64_frac 1 10) n) in
  if 3 <=? tokens then (tokens, 100)
  else
    let tokens := qRound (f64_mul (f64_frac 1 4) n) in
    if 3 <=? tokens then (tokens, 250)
    else
      let tokens := qRound (f64_mul (f64_frac 1 2) n) in
      if 3 <=? tokens then (tokens, 500) else (numberPerSecond, 1000).
Definition limitToUpdatesPerSecond (numberPerSecond : Z) : Sim D bool :=
  if numberPerSecond <? 1 then sim_set (fun s => s <| m_limitUpdateAircraft := false |>);; mret false
  else
    let '(tokens, interval) := tokensAndInterval numberPerSecond in
    sim_set (fun s => s <| m_limitUpdateAircraftBucket ::= fun b =>
        TokenBucket.setCapacityAndTokensToRefill tokens (TokenBucket.setInterval interval b) |>
      <| m_limitUpdateAircraft := true |>);; mret true.
End simulator.

(** *** Aircraft, logically and physically *)

Section aircraft.
Context {FG : FlightGeometry} {QC : QtConv} {SS : StdSort} {SG : SimulatorGeometry} {D : Type} {SD : SimulatorDriver D}.
Implicit Types (callsign : CCallsign) (aircraft : CSimulatedAircraft) (now : Z).

Definition clearData now callsign : Sim D unit :=
  sim_set (fun s => s <| m_statsPhysicallyRemovedAircraft ::= Z.succ |> <| m_lastSentParts ::= delete (asString callsign) |>
    <| m_lastSentSituations ::= delete (asString callsign) |> <| m_loopbackSituations := ∅ |>);;
  onSetups now (removeInterpolationSetupPerCallsign callsign);; mret tt.
Definition clearAllRemoteAircraftData now : Sim D unit :=
  sim_set (fun s => s <| m_addAgainAircraftWhenRemoved := [] |> <| m_callsignsToBeRendered := ∅ |>);;
  resetLastSentValues;;
  sim_set (fun s => s <| m_updateRemoteAircraftInProgress := false |>);;
  onSetups now clearInterpolationSetupsPerCallsign;;
  resetAircraftStatistics.
Definition resetTimes : Sim D unit :=
  sim_set (fun s => s <| m_averageFps := f64_of_Z (-1) |> <| m_simTimeRatio := f64_of_Z 1 |>
    <| m_trackMilesShort := f64_zero |> <| m_minutesLate := f64_zero |>).
Definition reset now : Sim D unit := clearAllRemoteAircraftData now;; resetTimes.
Definition disconnectFrom : Sim D bool := resetTimes;; mret true.
(** What a driver calls from its own removal. *)
Definition removedInBase callsign : Sim D bool := resetLastSentValuesOf callsign;; mret true.

Definition callPhysicallyAddRemoteAircraft aircraft : Sim D unit :=
  sim_set (fun s => s <| m_statsPhysicallyAddedAircraft ::= Z.succ |>);;
  physicallyAddRemoteAircraft aircraft;; mret tt.
Definition callPhysicallyRemoveRemoteAircraft now callsign : Sim D unit :=
  clearData now callsign;; physicallyRemoveRemoteAircraft callsign;; mret tt.

Definition validateModelOfAircraft aircraft : bool :=
  if isEmpty (asString (ac_callsign aircraft)) then false
  else if negb (hasModelString (ac_model aircraft)) then false
  else negb (model_isCallsignEmpty (ac_model aircraft)).
Definition renderingRestricted (s : ISimulator D) : bool := isRenderingRestricted (m_globalSetup (setups s)).
Definition logicallyAddRemoteAircraft aircraft : Sim D bool :=
  if negb (validateModelOfAircraft aircraft)
  then
    withRap (updateAircraftEnabled (ac_callsign aircraft) false);;
    withRap (updateAircraftRendered (ac_callsign aircraft) false);; mret false
  else
    s ← sim_get;
    if negb (m_enabled aircraft) then mret false
    else if negb (renderingRestricted s) then callPhysicallyAddRemoteAircraft aircraft;; mret true
    else mret false.
Definition logicallyRemoveRemoteAircraft now callsign : Sim D bool :=
  s ← sim_get;
  if negb (renderingRestricted s)
  then
    sim_set (fun s => s <| m_statsPhysicallyAddedAircraft ::= Z.succ |>);;
    callPhysicallyRemoveRemoteAircraft now callsign;; mret true
  else mret false.
Definition resetAircraftFromProvider now callsign : Sim D unit :=
  s ← sim_get;
  let aircraft := getAircraftInRangeForCallsign callsign (rap s) in
  if m_enabled aircraft
  then sim_when (negb (isPhysicallyRenderedAircraft callsign (driver s))) (callPhysicallyAddRemoteAircraft aircraft)
  else callPhysicallyRemoveRemoteAircraft now callsign.
Definition logicallyReAddRemoteAircraft now callsign : Sim D bool :=
  s ← sim_get;
  if sim_isShuttingDown s then mret false
  else if isEmpty (asString callsign) then mret false
  else
    logicallyRemoveRemoteAircraft now callsign;;
    s ← sim_get;
    if negb (isMyAircraftInRange callsign s) then mret false
    else sim_singleShot (now + 2500) (ReAddAircraft callsign);; mret true.
Definition readdTimeout callsign : Sim D unit :=
  s ← sim_get;
  if sim_isShuttingDown s then mret tt
  else if negb (isMyAircraftInRange callsign s) then mret tt
  else
    let aircraft := getAircraftInRangeForCallsign callsign (rap s) in
    sim_when (m_enabled aircraft && hasModelString (ac_model aircraft)) (logicallyAddRemoteAircraft aircraft;; mret tt).
Definition changeRemoteAircraftEnabled aircraft : Sim D bool :=
  s ← sim_get;
  if sim_isShuttingDown s then mret false
  else if m_enabled aircraft then physicallyAddRemoteAircraft aircraft
  else physicallyRemoveRemoteAircraft (ac_callsign aircraft).
Definition changeRemoteAircraftModel now aircraft : Sim D bool :=
  s ← sim_get;
  if sim_isShuttingDown s then mret false
  else if negb (isPhysicallyRenderedAircraft (ac_callsign aircraft) (driver s)) then mret false
  else
    physicallyRemoveRemoteAircraft (ac_callsign aircraft);;
    sim_singleShot (now + 1000) (ChangeEnabledLater aircraft);; mret true.
Definition changeTimeout aircraft : Sim D unit :=
  s ← sim_get;
  sim_when (isMyAircraftInRange (ac_callsign aircraft) s) (changeRemoteAircraftEnabled aircraft;; mret tt).

(** *** Snapshots *)

(** The callsigns of a set, in the order of its elements. *)
Definition physicallyRemoveMultipleRemoteAircraft now (callsigns : gset QString) : Sim D Z :=
  sim_forEach (fun key => callPhysicallyRemoveRemoteAircraft now (callsignOfKey key)) (elements callsigns);;
  mret (Z.of_nat (size callsigns)).
Definition physicallyRemoveAllRemoteAircraft now : Sim D Z :=
  s ← sim_get;
  r ← physicallyRemoveMultipleRemoteAircraft now (list_to_set (getAircraftInRangeCallsigns (rap s)));
  clearAllRemoteAircraftData now;; mret r.
Definition findByCallsigns (callsigns : gset QString) (l : list CSimulatedAircraft) : list CSimulatedAircraft :=
  filter (fun a => callsignOf a ∈ callsigns) l.
Definition onRecalculatedRenderedAircraft now (snapshot : CAirspaceAircraftSnapshot) : Sim D unit :=
  if negb (isValidSnapshot snapshot) then mret tt
  else if negb (m_restricted snapshot) && negb (m_restrictionChanged snapshot) then mret tt
  else
    s ← sim_get;
    changed ←
      (if m_renderingEnabled snapshot
       then
         let callsignsInRange := list_to_set (getAircraftInRangeCallsigns (rap s)) in
         let callsignsEnabledAndStillInRange := m_enabledAircraftCallsignsByDistance snapshot ∩ callsignsInRange in
         let callsignsInSimulator := physicallyRenderedAircraft (driver s) in
         let callsignsToBeRemoved := callsignsInSimulator ∖ callsignsEnabledAndStillInRange in
         let callsignsToBeAdded := callsignsEnabledAndStillInRange ∖ callsignsInSimulator in
         r ← physicallyRemoveMultipleRemoteAircraft now callsignsToBeRemoved;
         s ← sim_get;
         let aircraftToBeAdded := findByCallsigns callsignsToBeAdded (getAircraftInRange (rap s)) in
         sim_forEach callPhysicallyAddRemoteAircraft aircraftToBeAdded;;
         mret ((0 <? r) || negb (bool_decide (aircraftToBeAdded = [])))
       else r ← physicallyRemoveAllRemoteAircraft now; mret (0 <? r));
    sim_when changed (sim_emit airspaceSnapshotHandled).
Definition rapOnRecalculatedRenderedAircraft now (snapshot : CAirspaceAircraftSnapshot) : Sim D unit :=
  s ← sim_get;
  if negb (m_remoteAircraftProviderConnected s) then mret tt
  else if negb (isConnected (driver s)) then mret tt
  else if sim_isShuttingDown s then mret tt
  else onRecalculatedRenderedAircraft now snapshot.
End aircraft.

(** *** Status, and what reaches a driver *)

Section events.
Context {FG : FlightGeometry} {QC : QtConv} {SS : StdSort} {SG : SimulatorGeometry} {D : Type} {SD : SimulatorDriver D} {SO : SimulatorOverrides D}.
Implicit Types (callsign : CCallsign) (aircraft : CSimulatedAircraft) (now : Z).

Definition emitSimulatorCombinedStatus now (oldStatus : SimulatorStatus) : Sim D unit :=
  s ← sim_get;
  let newStatus := getSimulatorStatus s in
  sim_when (negb (bool_decide (oldStatus = newStatus))) (sim_singleShot now (EmitStatus newStatus)).
Definition statusTimeout now (newStatus : SimulatorStatus) : Sim D unit :=
  s ← sim_get;
  if sim_isShuttingDown s then mret tt
  else sim_when (Simulating newStatus) (setUpdateAllRemoteAircraft now (-1));; sim_emit (simulatorStatusChanged newStatus).
Definition unload : Sim D unit :=
  virtual_disconnectFrom;; sim_set (fun s => s <| m_remoteAircraftProviderConnected := false |>).
Definition setFlightNetworkConnected (connected : bool) : Sim D unit :=
  sim_set (fun s => s <| m_networkConnected := connected |>).
Definition setTestMode (test : bool) : Sim D unit := sim_set (fun s => s <| m_test := test |>).
Definition isAircraftInRangeOrTestMode callsign (s : ISimulator D) : bool := m_test s || isMyAircraftInRange callsign s.

Definition runSimTimer now (t : SimTimer) : Sim D unit :=
  match t with
  | ReAddAircraft callsign => readdTimeout callsign
  | ChangeEnabledLater aircraft => changeTimeout aircraft
  | EmitStatus newStatus => statusTimeout now newStatus
  | EmitSetupChanged => sim_emit interpolationAndRenderingSetupChanged
  end.

(** The calls of the context, the snapshots of the analyzer, a timer that is due,
    the changes of the provider by others, and those of the simulator itself,
    after which the driver asks for the status to be told. *)
Inductive SimEvent :=
  | LogicallyAdd aircraft | LogicallyRemove callsign | LogicallyReAdd callsign | ResetFromProvider callsign
  | ChangeEnabled aircraft | ChangeModel aircraft | SetupGlobal (setup : CInterpolationAndRenderingSetupGlobal)
  | SnapshotTaken (snapshot : CAirspaceAircraftSnapshot) | SimTimerDue (i : nat)
  | ProviderChanged (f : CRemoteAircraftProvider -> CRemoteAircraftProvider) | DriverChanged (f : D -> D)
  | PhysicallyRemoveAll | Recalculate | Reset | Unload.
Definition sim_event now (e : SimEvent) : Sim D unit :=
  match e with
  | LogicallyAdd aircraft => logicallyAddRemoteAircraft aircraft;; mret tt
  | LogicallyRemove callsign => logicallyRemoveRemoteAircraft now callsign;; mret tt
  | LogicallyReAdd callsign => logicallyReAddRemoteAircraft now callsign;; mret tt
  | ResetFromProvider callsign => resetAircraftFromProvider now callsign
  | ChangeEnabled aircraft => changeRemoteAircraftEnabled aircraft;; mret tt
  | ChangeModel aircraft => virtual_changeRemoteAircraftModel now aircraft;; mret tt
  | SetupGlobal setup => sim_setInterpolationSetupGlobal now setup;; mret tt
  | SnapshotTaken snapshot => rapOnRecalculatedRenderedAircraft now snapshot
  | SimTimerDue i =>
      s ← sim_get;
      match sim_timers s !! i with
      | Some (due, t) => if due <=? now then sim_set (fun s => s <| sim_timers ::= delete i |>);; runSimTimer now t
                         else mret tt
      | None => mret tt
      end
  | ProviderChanged f => sim_set (fun s => s <| rap ::= f |>)
  | DriverChanged f =>
      s ← sim_get;
      let oldStatus := getSimulatorStatus s in
      sim_set (fun s => s <| driver ::= f |>);; emitSimulatorCombinedStatus now oldStatus
  | PhysicallyRemoveAll => physicallyRemoveAllRemoteAircraft now;; mret tt
  | Recalculate => recalculateAllAircraft now
  | Reset => reset now
  | Unload => unload
  end.
Fixpoint simulator_run (s : ISimulator D) (es : list (Z * SimEvent)) : ISimulator D * list SimOut :=
  match es with
  | [] => (s, [])
  | (now, e) :: es =>
      let '(_, s, o) := sim_event now e s in
      let '(s, o') := simulator_run s es in (s, o ++ o')
  end.
Definition ISimulator_make (now : Z) (p : CRemoteAircraftProvider) (d : D) : ISimulator D :=
  mkSimulator p d SetupProvider_init ∅ ∅ ∅ [] ∅ false 0 0 0 f64_zero 0 0 0 0 0 0 0 (f64_of_Z (-1)) (f64_of_Z 1)
    f64_zero f64_zero false (TokenBucket.CTokenBucket_make now 5 100 5) false false false true [].
End events.
Arguments SimEvent {_} D.

(** ** The listener *)

(** Calls from another thread are sent on by a timer; here they are in its own.
    [startImpl], [stopImpl] and [checkImpl] are the driver's, and are recorded. *)
Record ISimulatorListener := mkListener { m_isRunning : bool; m_aboutToShutdown : bool }.
Inductive ListenerCall := startImpl | stopImpl | checkImpl.
Definition listener_isShuttingDown (appShuttingDown : bool) (l : ISimulatorListener) : bool :=
  appShuttingDown || m_aboutToShutdown l.
Definition listener_start (l : ISimulatorListener) : ISimulatorListener * list ListenerCall :=
  if m_isRunning l then (l, []) else (l <| m_isRunning := true |>, [startImpl]).
Definition listener_stop (l : ISimulatorListener) : ISimulatorListener * list ListenerCall :=
  if negb (m_isRunning l) then (l, []) else (l <| m_isRunning := false |>, [stopImpl]).
Definition listener_check (l : ISimulatorListener) : ISimulatorListener * list ListenerCall :=
  if negb (m_isRunning l) then (l, []) else (l, [checkImpl]).
Definition onAboutToShutdown (l : ISimulatorListener) : ISimulatorListener * list ListenerCall :=
  if negb (m_aboutToShutdown l) then (l, []) else listener_stop (l <| m_aboutToShutdown := true |>).
