(* ===== verification/SimulatorEmulated.v ===== *)
(** * The emulated driver (plugins/simulator/emulated/simulatoremulated.h, .cpp)

    A driver whose simulator is a list of aircraft: what it is told to render is in
    the list at once, with an interpolator each.  The window that shows its calls,
    the own aircraft and the settings are not part of the model. *)

From S2P Require Export SimulatorDriver.

Open Scope Z_scope.

Record CSimulatorEmulated `{FlightGeometry} := mkEmulated {
  m_renderedAircraft : list CSimulatedAircraft; m_interpolators : gset QString;
  m_paused : bool; m_connected : bool; m_simulating : bool;
  m_interpolatorFetchTimer : option Z; m_countInterpolatedSituations : Z; m_countInterpolatedParts : Z }.
Arguments mkEmulated {_}.
Definition CSimulatorEmulated_init `{FlightGeometry} : CSimulatorEmulated := mkEmulated [] ∅ false true true None 0 0.

Section emulated.
Context {FG : FlightGeometry}.
Implicit Types (callsign : CCallsign) (aircraft : CSimulatedAircraft) (now : Z).

Definition onDriver (f : CSimulatorEmulated -> CSimulatorEmulated) : Sim CSimulatorEmulated unit :=
  sim_set (fun s => s <| driver ::= f |>).
(** ICallsignObjectList on the rendered aircraft. *)
Definition containsCallsign callsign (l : list CSimulatedAircraft) : bool :=
  existsb (fun a => bool_decide (callsignOf a = asString callsign)) l.
Definition removeByCallsign callsign (l : list CSimulatedAircraft) : list CSimulatedAircraft :=
  filter (fun a => callsignOf a <> asString callsign) l.

Definition emulated_physicallyAddRemoteAircraft (remoteAircraft : CSimulatedAircraft) : Sim CSimulatorEmulated bool :=
  let aircraft := remoteAircraft <| m_rendered := true |> in
  onDriver (fun d => d <| m_interpolators ::= fun i => {[callsignOf aircraft]} ∪ i |>
                       <| m_renderedAircraft ::= fun l => l ++ [aircraft] |>);;
  withRap (updateAircraftRendered (ac_callsign aircraft) true);;
  sim_emit (aircraftRenderingChanged aircraft);;
  mret true.
Definition emulated_physicallyRemoveRemoteAircraft callsign : Sim CSimulatorEmulated bool :=
  s ← sim_get;
  let c := containsCallsign callsign (m_renderedAircraft (driver s)) in
  onDriver (fun d => d <| m_interpolators ::= fun i => i ∖ {[asString callsign]} |>
                       <| m_renderedAircraft ::= removeByCallsign callsign |>);;
  withRap (updateAircraftRendered callsign false);;
  removedInBase callsign;;
  mret c.
#[export] Instance CSimulatorEmulated_driver : SimulatorDriver CSimulatorEmulated := {|
  physicallyAddRemoteAircraft := emulated_physicallyAddRemoteAircraft;
  physicallyRemoveRemoteAircraft := emulated_physicallyRemoveRemoteAircraft;
  physicallyRenderedAircraft d := getCallsigns (m_renderedAircraft d);
  isPhysicallyRenderedAircraft callsign d := containsCallsign callsign (m_renderedAircraft d);
  isConnected := m_connected; isPaused := m_paused; isSimulating := m_simulating |}.

(** The old status is left unspecified, so the new one is always told. *)
Definition setCombinedStatus (connected simulating paused : bool) now : Sim CSimulatorEmulated unit :=
  onDriver (fun d => d <| m_connected := connected |> <| m_simulating := simulating |> <| m_paused := paused |>);;
  emitSimulatorCombinedStatus now (mkStatus false false false false).
Definition emulated_disconnectFrom : Sim CSimulatorEmulated bool :=
  onDriver (fun d => d <| m_renderedAircraft := [] |>);; disconnectFrom.
Definition setInterpolatorFetchTime (timeMs : Z) : Sim CSimulatorEmulated bool :=
  onDriver (fun d => d <| m_interpolatorFetchTimer := if timeMs <? 1 then None else Some timeMs |>);;
  mret (negb (timeMs <? 1)).
(** The parts and situations of aircraft that are interpolated are counted only. *)
Definition updateRemoteAircraft now (finished : Z) : Sim CSimulatorEmulated unit :=
  onDriver (fun d =>
    let interpolated := Z.of_nat (length (filter (fun a => callsignOf a ∈ m_interpolators d) (m_renderedAircraft d))) in
    d <| m_countInterpolatedParts ::= Z.add interpolated |> <| m_countInterpolatedSituations ::= Z.add interpolated |>);;
  finishUpdateRemoteAircraftAndSetStatistics finished now false.
(** Changing the model calls the function of the base class that enables. *)
Definition emulated_changeRemoteAircraftModel aircraft : Sim CSimulatorEmulated bool := changeRemoteAircraftEnabled aircraft.
#[export] Instance CSimulatorEmulated_overrides : SimulatorOverrides CSimulatorEmulated := {|
  virtual_disconnectFrom := emulated_disconnectFrom;
  virtual_changeRemoteAircraftModel _ aircraft := emulated_changeRemoteAircraftModel aircraft |}.
End emulated.
