(* ===== verification/FsdTypes.v ===== *)
(** * The data the FSD client handles

    The value objects of src/src/misc the client builds, reads and passes on,
    with the members it uses; what it emits ([Out]); and [World], what the
    client asks other objects during one event: the clock, the sockets, the own
    aircraft, the JSON and codec functions of Qt. *)

From S2P Require Export QtCore QtReference Serializer Pbh FsdBase.
From S2P Require Export MsgSession MsgQuery MsgPosition.
From S2P Require Export Json AircraftParts DigestSignal Transponder Callsign.

Open Scope Z_scope.

(** ** misc/network *)

(** CConnectionStatus. *)
Inductive ConnectionStatus := Connected | Connecting | Disconnecting | Disconnected.
#[global] Instance ConnectionStatus_eq_dec : EqDecision ConnectionStatus.
Proof. solve_decision. Defined.

(** CLoginMode. *)
Inductive LoginMode := Pilot | Observer.
#[global] Instance LoginMode_eq_dec : EqDecision LoginMode.
Proof. solve_decision. Defined.

(** CFsdSetup: the flags SendReceiveDetails and the text codec. *)
Record CFsdSetup := mkSetup {
  sendAircraftParts : bool; receiveAircraftParts : bool; sendInterimPositions : bool;
  receiveInterimPositions : bool; sendVisualPositions : bool; receiveEuroscopeSimData : bool;
  sendFplWithIcaoEquipment : bool; force3LetterAirlineCodes : bool; setupTextCodec : QString }.

Definition c_positionTimeOffsetMsec : Z := 6000.
Definition c_interimPositionTimeOffsetMsec : Z := 1500.

(** CServer and its CUser; [timestamp] is -1 unless connected. *)
Record CServer := mkServer {
  server_name : QString; server_address : QString; server_port : Z; transport : QString;
  webSocketPath : QString; isVatsimServer : bool; ecosystem : Z; fsdSetup : CFsdSetup;
  server_timestamp : Z;
  userId : QString; userPassword : QString; realName : QString; realNameAndHomeBase : QString;
  userCallsign : CCallsign; isAcceptingConnections : bool }.
Definition usesWebSocket (s : CServer) : bool := eqs (transport s) "ws" || eqs (transport s) "wss".
Definition usesSecureWebSocket (s : CServer) : bool := eqs (transport s) "wss".

(** CNetworkConfig; a URL is its text (CUrl::getFullUrl). *)
Record ReconnectConfig := mkReconnect {
  m_reconnectEnabled : bool; m_reconnectMaxAttempts : Z; m_reconnectInitialDelaySec : Z;
  m_reconnectBackoffMultiplier : double; m_reconnectMaxDelaySec : Z;
  m_reconnectAppendAttemptToCallsign : bool }.
(** The flags of the FSD section and the members the client does not use. *)
Record ConfigFlags := mkConfigFlags {
  m_sendAircraftParts : bool; m_receiveAircraftParts : bool; m_sendInterimPositions : bool;
  m_receiveInterimPositions : bool; m_sendGndFlag : bool; m_receiveGndFlag : bool;
  m_sendVisualPositions : bool; m_sendFplIcaoEquipment : bool; m_receiveEuroscopeSimData : bool;
  m_force3LetterAirlineIcao : bool }.
Record ConfigServices := mkConfigServices {
  m_networkDescription : QString; m_version : Z; m_networkDataUrl : QString; m_metarUrl : QString;
  m_dataPollingIntervalSec : Z; m_maxRangeNm : Z; m_voiceEnabled : bool; m_voiceApiUrl : QString;
  m_voiceMapUrl : QString }.
Record CNetworkConfig := mkNetworkConfig {
  networkName : QString; fsdServersUrl : QString; fsdProtocol : QString; fsdChallenge : bool;
  fsdAuth : QString; fsdAuthUrl : QString; loadBalancingUrl : QString; fsdTextCodec : QString;
  configReconnect : ReconnectConfig; configFlags : ConfigFlags; configServices : ConfigServices }.
(** The members as the class initialises them; the sections of a file that
    names none of them. *)
Definition ReconnectConfig_default : ReconnectConfig :=
  mkReconnect false 0 5 (f64_of_Z 2) 60 false.
Definition ConfigFlags_default : ConfigFlags :=
  mkConfigFlags true true false false true true false false false false.
Definition ConfigServices_default : ConfigServices := mkConfigServices [] 1 [] [] 120 (-1) false [] [].
Definition config_isValid (c : CNetworkConfig) : bool :=
  negb (isEmpty (networkName c)) && negb (isEmpty (fsdServersUrl c)).
Definition getFsdProtocolRevision (c : CNetworkConfig) : Z :=
  if eqs (fsdProtocol c) "vatsim-velocity" then 101 else 9.
Definition usesVatsimAtisMessages (c : CNetworkConfig) : bool := eqs (fsdProtocol c) "vatsim-velocity".
Definition useJwt (c : CNetworkConfig) : bool := eqs (fsdAuth c) "jwt".

(** CTextMessage; the frequency in kHz, [None] when null. *)
Record CTextMessage := mkTextMessage {
  tm_message : QString; tm_sender : CCallsign; tm_recipient : CCallsign;
  tm_frequencykHz : option Z; tm_timestamp : Z; tm_wasSent : bool; tm_relayedMessage : bool }.

(** [QString::simplified]: runs of spaces become one blank, ends trimmed. *)
Fixpoint squeeze (isSpace : QChar -> bool) (pending : bool) (s : QString) : QString :=
  match s with
  | [] => []
  | c :: s' => if isSpace c then squeeze isSpace true s'
               else (if pending then [32%N] else []) ++ c :: squeeze isSpace false s'
  end.
Definition simplified `{QtConv} (s : QString) : QString := squeeze qt_isSpace false (trimmed s).

Definition privateMessage `{QtConv} (message : QString) (sender recipient : CCallsign) (utc : Z) :
    CTextMessage :=
  mkTextMessage (trimmed (simplified message)) sender recipient None utc false false.
Definition radioMessage `{QtConv} (message : QString) (freqkHz : Z) (sender : CCallsign) (utc : Z) :
    CTextMessage :=
  mkTextMessage (trimmed (simplified message)) sender CCallsign_default (Some freqkHz) utc false false.

(** CComSystem::isValidCivilAviationFrequency. *)
Definition tm_isRadio (m : CTextMessage) : bool :=
  match tm_frequencykHz m with Some f => (118000 <=? f) && (f <=? 136990) | None => false end.
Definition tm_isPrivate (m : CTextMessage) : bool :=
  negb (callsignEmpty (tm_sender m)) && negb (callsignEmpty (tm_recipient m)).
Definition tm_isSupervisor (m : CTextMessage) : bool :=
  if isBroadcastCallsign (tm_recipient m) then false else isSupervisorCallsign (tm_sender m).

Section textmessages.
Context `{QtConv}.
Definition canBeAppended (m textMessage : CTextMessage) : bool :=
  if isEmpty (tm_message textMessage) then false
  else if negb (callsignEqual (tm_sender m) (tm_sender textMessage)) then false
  else if tm_isRadio m && tm_isRadio textMessage
  then bool_decide (tm_frequencykHz m = tm_frequencykHz textMessage)
  else if tm_isPrivate m && tm_isPrivate textMessage
  then callsignEqual (tm_recipient m) (tm_recipient textMessage)
  else false.
(** [None]: not appended. *)
Definition appendIfPossible (m textMessage : CTextMessage) : option CTextMessage :=
  if isEmpty (tm_message textMessage) then None
  else if negb (canBeAppended m textMessage) then None
  else Some (mkTextMessage (tm_message m ++ lit " " ++ tm_message textMessage) (tm_sender m)
               (tm_recipient m) (tm_frequencykHz m) (tm_timestamp m) (tm_wasSent m)
               (tm_relayedMessage m)).
Fixpoint appendOrPush (l : list CTextMessage) (message : CTextMessage) : list CTextMessage :=
  match l with
  | [] => [message]
  | tm :: l => match appendIfPossible tm message with
               | Some tm' => tm' :: l
               | None => tm :: appendOrPush l message
               end
  end.
Definition addConsolidatedTextMessage (l : list CTextMessage) (message : CTextMessage) :
    list CTextMessage :=
  if isEmpty (tm_message message) then l else appendOrPush l message.
End textmessages.

(** ** misc/aviation and misc/simulation *)

(** CAtcStation: the members the client sets; the range in NM. *)
Record CAtcStation := mkAtcStation {
  atc_callsign : CCallsign; atc_frequencykHz : Z; atc_latitude : double; atc_longitude : double;
  atc_rangeNM : Z }.

(** CAircraftSituation, as the handlers fill it; angles in degrees, altitude in
    feet, speed in knots. *)
Record CAircraftSituation := mkSituation {
  sit_callsign : CCallsign; sit_latitude : double; sit_longitude : double; sit_altitude : double;
  sit_heading : double; sit_pitch : double; sit_bank : double; sit_groundSpeed : Z;
  sit_pressureAltitude : option Z; sit_onGround : bool; sit_timestamp : Z;
  sit_timeOffsetMs : Z }.

(** CFlightPlan: what handleFlightPlan hands on. *)
Inductive FlightRules := FP_VFR | FP_IFR | FP_SVFR | FP_DVFR | FP_UNKNOWN.
Record CFlightPlan := mkFlightPlan {
  fpl_callsign : CCallsign; fpl_aircraft : QString; fpl_origin : QString; fpl_destination : QString;
  fpl_alternate : QString; fpl_takeoffPlanned : QString; fpl_takeoffActual : QString;
  fpl_enrouteMin : Z; fpl_fuelMin : Z; fpl_cruiseAlt : QString; fpl_tasKts : Z;
  fpl_rules : FlightRules; fpl_route : QString; fpl_remarks : QString }.

(** CClient::Capabilities. *)
Record ClientCaps := mkCaps {
  FsdAtisCanBeReceived : bool; FsdWithInterimPositions : bool; FsdWithVisualPositions : bool;
  FsdWithIcaoCodes : bool; FsdWithAircraftConfig : bool }.

(** The own aircraft as the provider gives it, in the units the client asks
    for: degrees, feet, knots, metres and radians per second, MHz. *)
Record OwnAircraft := mkOwn {
  own_latitude : double; own_longitude : double; own_altitudeFt : double; own_altitudeFtInt : Z;
  own_pressureAltitudeFtInt : Z; own_groundElevationFt : double; own_groundSpeedKts : Z;
  own_pitch : double; own_bank : double; own_heading360 : double; own_onGround : bool;
  own_velocity : double * double * double; own_rotation : double * double * double;
  own_transponder : CTransponder; own_com1MHz : double;
  own_modelString : QString; own_livery : QString; own_airlineDesignator : QString;
  own_airlineVDesignator : QString; own_aircraftDesignator : QString; own_combinedType : QString }.

(** ** JSON (Qt) *)

(** QJsonDocument: [fromJson] with [object], and [toJson(Compact)]. *)
Class QtJson := {
  json_parse : QString -> option QJsonObject;
  json_compact : QJsonObject -> QString
}.

(** ** What the client emits *)

Inductive Severity := Debug | Info | Warning_ | Error.

Inductive Signal :=
  | atcDataUpdateReceived (callsign : CCallsign) (freqkHz : Z) (latitude longitude : double) (rangeNM : Z)
  | deleteAtcReceived (cid : QString)
  | deletePilotReceived (cid : QString)
  | pilotDataUpdateReceived (situation : CAircraftSituation) (transponder : CTransponder)
  | pongReceived (sender : QString) (elapsedTimeMs : Z)
  | flightPlanReceived (callsign : CCallsign) (flightPlan : CFlightPlan)
  | textMessagesReceived (messages : list CTextMessage)
  | aircraftConfigReceived (sender : QString) (config : QJsonObject) (currentOffsetTimeMs : Z)
  | validAtcResponseReceived (callsign : QString) (isValidAtc : bool)
  | capabilityResponseReceived (sender : CCallsign) (capabilities : ClientCaps)
  | com1FrequencyResponseReceived (sender : QString) (frequencyMHz : double)
  | realNameResponseReceived (sender : QString) (realName : QString)
  | serverResponseReceived (sender : QString) (hostName : QString)
  | planeInformationReceived (sender aircraft airline livery : QString)
  | customPilotPacketReceived (sender : QString) (data : QStringList)
  | interimPilotDataUpdatedReceived (situation : CAircraftSituation)
  | euroscopeSimDataUpdatedReceived (situation : CAircraftSituation) (lights : CAircraftLights)
      (gearDown onGround : bool) (currentOffsetTimeMs : Z) (model livery : QString)
  | rawFsdMessage (message : QString)
  | planeInformationFsinnReceived (callsign : CCallsign)
      (airline aircraft combinedType modelString : QString)
  | muteRequestReceived (mute : bool)
  | atisReplyReceived (callsign : CCallsign) (atis : QString)
  | atisLogoffTimeReplyReceived (callsign : CCallsign) (zuluTime : QString)
  | textMessageSent (sentMessage : CTextMessage)
  | connectionStatusChanged (oldStatus newStatus : ConnectionStatus)
  | severeNetworkError (errorMessage : QString)
  | killRequestReceived (reason : QString).

(** Signals, writes to the transport, log entries (severity and text before the
    substitution of arguments), and the calls to the sockets, the providers of
    the ecosystem and of the own aircraft, and the network access manager. *)
Inductive Out :=
  | Emit (s : Signal)
  | WriteTransport (data : list N)
  | CloseTransport
  | ConnectToHost (host : QString) (port : Z)
  | RehostConnectToHost (host : QString) (port : Z)
  | OpenWebSocket (secure : bool) (host : QString) (port : Z) (path : QString)
  | RequestLoadBalancing (url : QString)
  | RequestJwtToken (cid password authUrl : QString)
  | SetEcosystem (last current : option Z)
  | UpdateOwnCallsign (callsign : CCallsign)
  | UpdateOwnIcaoCodes (aircraft airline : QString)
  | SaveStatistics (server : QString)
  | Log (severity : Severity) (text : string).

(** ** What the client asks during one event *)

Class World := {
  now : Z;                            (** QDateTime::currentMSecsSinceEpoch *)
  knownCodec : QString -> bool;       (** QStringDecoder::encodingForName has a value *)
  encode : QString -> QString -> list N;         (** QStringEncoder of a codec *)
  decode : QString -> list N -> QString;         (** QStringDecoder of a codec *)
  tcpIsOpen : bool;                   (** m_socket->isOpen *)
  tcpIsConnected : bool;              (** m_socket->state() == ConnectedState *)
  wsIsUnconnected : bool;             (** m_webSocket->state() == UnconnectedState *)
  wsIsValid : bool;                   (** m_webSocket->isValid *)
  wsCloseReason : QString;
  socketErrorString : QString;
  localAddress : QString;
  peerPort : Z;
  isHostAddress : QString -> bool;    (** !QHostAddress(host).isNull() *)
  simulatorNameAndVersion : QString;
  own : OwnAircraft;
  ownParts : CAircraftParts;          (** getOwnAircraftParts *)
  inRange : CCallsign -> bool;        (** isAircraftInRange *)
  closestStation : list CAtcStation -> CAtcStation;  (** the station closest to the own aircraft *)
  comActive : Z -> option Z           (** a frequency in kHz, rounded to 8.33 kHz spacing, when
                                          it is the active one of COM1 or COM2 *)
}.
