(* ===== verification/AirspaceAnalyzer.v ===== *)
(** * The watchdog of the airspace (core/airspaceanalyzer.h, .cpp)

    The server does not say when a client crashed.  The analyzer remembers when it
    last heard of each callsign, and a timer lets it report those it has not
    heard of for too long; the same timer takes the snapshot of the aircraft in
    range.  Callsigns are their unified strings. *)

From S2P Require Export AirspaceSnapshot FsdTypes.
From S2P Require Import QtReference.

Open Scope Z_scope.

Definition updateInterval : Z := 7500.
Definition callThresholdMs : Z := 11250.
Definition m_timeoutAircraft : Z := 15 * 1000.
Definition m_timeoutAtc : Z := 50 * 1000.

Record CAirspaceAnalyzer := mkAnalyzer {
  m_aircraftCallsignTimestamps : gmap QString Z; m_atcCallsignTimestamps : gmap QString Z;
  m_lastWatchdogCallMsSinceEpoch : Z; m_doNotRunAgainBefore : Z; m_enabledWatchdog : bool;
  updateTimerActive : bool; worker_isEnabled : bool; m_latestAircraftSnapshot : CAirspaceAircraftSnapshot;
  m_simulatorRenderedAircraftRestricted : bool; m_simulatorRenderingEnabled : bool;
  m_simulatorMaxRenderedAircraft : Z; m_simulatorMaxRenderedDistance : CLength }.

Inductive AnalyzerSignal :=
  | timeoutAircraft (callsign : QString) | timeoutAtc (callsign : QString)
  | airspaceAircraftSnapshot (snapshot : CAirspaceAircraftSnapshot).

Definition CAirspaceAnalyzer_make (now : Z) : CAirspaceAnalyzer :=
  mkAnalyzer ∅ ∅ now (-1) true true true CAirspaceAircraftSnapshot_default false true (-1) PQ.null.

Section analyzer.
Implicit Types (s : CAirspaceAnalyzer) (callsign : QString) (now : Z).

Definition setSimulatorRenderRestrictionsChanged (restricted enabled : bool) (maxAircraft : Z)
    (maxRenderedDistance : CLength) s : CAirspaceAnalyzer :=
  s <| m_simulatorRenderedAircraftRestricted := restricted |> <| m_simulatorRenderingEnabled := enabled |>
    <| m_simulatorMaxRenderedAircraft := maxAircraft |> <| m_simulatorMaxRenderedDistance := maxRenderedDistance |>.
Definition setEnabledWatchdog (enabled : bool) s : CAirspaceAnalyzer := s <| m_enabledWatchdog := enabled |>.
Definition watchdogTouchAircraftCallsign now callsign s : CAirspaceAnalyzer :=
  s <| m_aircraftCallsignTimestamps ::= insert callsign now |>.
Definition watchdogTouchAtcCallsign now callsign s : CAirspaceAnalyzer :=
  s <| m_atcCallsignTimestamps ::= insert callsign now |>.
Definition watchdogRemoveAircraftCallsign callsign s : CAirspaceAnalyzer :=
  s <| m_aircraftCallsignTimestamps ::= delete callsign |>.
Definition watchdogRemoveAtcCallsign callsign s : CAirspaceAnalyzer :=
  s <| m_atcCallsignTimestamps ::= delete callsign |>.
Definition clear s : CAirspaceAnalyzer :=
  s <| m_aircraftCallsignTimestamps := ∅ |> <| m_atcCallsignTimestamps := ∅ |>
    <| m_latestAircraftSnapshot := CAirspaceAircraftSnapshot_default |>.
Definition onConnectionStatusChanged (newStatus : ConnectionStatus) s : CAirspaceAnalyzer :=
  match newStatus with
  | Disconnected => (clear s) <| updateTimerActive := false |>
  | Connected => s <| updateTimerActive := true |>
  | _ => s
  end.

(** One callsign of the loop over the aircraft, with the watchdog enabled or not. *)
Definition checkAircraft (enabled : bool) (timeoutAircraftEpochMs : Z) (acc : CAirspaceAnalyzer * list AnalyzerSignal)
    callsign : CAirspaceAnalyzer * list AnalyzerSignal :=
  let '(s, signals) := acc in
  let s := if enabled then s
           else s <| m_aircraftCallsignTimestamps ::= insert callsign (timeoutAircraftEpochMs + 1000) |> in
  let tsv := default 0 (m_aircraftCallsignTimestamps s !! callsign) in
  if timeoutAircraftEpochMs <? tsv then (s, signals)
  else (watchdogRemoveAircraftCallsign callsign s, signals ++ [timeoutAircraft callsign]).
(** And of the loop over ATC, which writes its fake values to the aircraft too. *)
Definition checkAtc (enabled : bool) (timeoutAtcEpochMs : Z) (acc : CAirspaceAnalyzer * list AnalyzerSignal)
    callsign : CAirspaceAnalyzer * list AnalyzerSignal :=
  let '(s, signals) := acc in
  let s := if enabled then s
           else s <| m_aircraftCallsignTimestamps ::= insert callsign (timeoutAtcEpochMs + 1000) |> in
  let tsv := default 0 (m_atcCallsignTimestamps s !! callsign) in
  if timeoutAtcEpochMs <? tsv then (s, signals)
  else (watchdogRemoveAtcCallsign callsign s, signals ++ [timeoutAtc callsign]).

Definition keys (m : gmap QString Z) : list QString := map fst (map_to_list m).
Definition watchdogCheckTimeouts (currentTimeMsEpoch : Z) s : CAirspaceAnalyzer * list AnalyzerSignal :=
  let callDiffMs := currentTimeMsEpoch - m_lastWatchdogCallMsSinceEpoch s in
  let s := s <| m_lastWatchdogCallMsSinceEpoch := currentTimeMsEpoch |> in
  if callThresholdMs <? callDiffMs
  then (s <| m_doNotRunAgainBefore := currentTimeMsEpoch + 2 * callThresholdMs |>, [])
  else if currentTimeMsEpoch <? m_doNotRunAgainBefore s then (s, [])
  else
    let s := s <| m_doNotRunAgainBefore := -1 |> in
    let enabled := m_enabledWatchdog s in
    let acc := foldl (checkAircraft enabled (currentTimeMsEpoch - m_timeoutAircraft)) (s, [])
                 (keys (m_aircraftCallsignTimestamps s)) in
    foldl (checkAtc enabled (currentTimeMsEpoch - m_timeoutAtc)) acc (keys (m_atcCallsignTimestamps (fst acc))).
End analyzer.

Section airspace.
Context {FG : FlightGeometry} {AK : AircraftKind} {SB : StdSortBy}.
Implicit Types (s : CAirspaceAnalyzer) (callsign : QString) (now : Z).

(** With the aircraft the provider has in range. *)
Definition analyzeAirspace now (aircraftInRange : list CSimulatedAircraft) s :
    CAirspaceAnalyzer * list AnalyzerSignal :=
  let snapshot := CAirspaceAircraftSnapshot_make now aircraftInRange (m_simulatorRenderedAircraftRestricted s)
    (m_simulatorRenderingEnabled s) (m_simulatorMaxRenderedAircraft s) (m_simulatorMaxRenderedDistance s) in
  let wasValid := isValidSnapshot (m_latestAircraftSnapshot s) in
  let snapshot := if wasValid then setRestrictionChanged (m_latestAircraftSnapshot s) snapshot else snapshot in
  (s <| m_latestAircraftSnapshot := snapshot |>, if wasValid then [airspaceAircraftSnapshot snapshot] else []).

(** The clock is read for the snapshot, and again for the timeouts. *)
Definition onTimeout (snapshotTime : Z) now (aircraftInRange : list CSimulatedAircraft) s :
    CAirspaceAnalyzer * list AnalyzerSignal :=
  if negb (worker_isEnabled s) then (s, [])
  else
    let '(s, signals) := analyzeAirspace snapshotTime aircraftInRange s in
    let '(s, signals') := watchdogCheckTimeouts now s in (s, signals ++ signals').

(** What reaches the analyzer: the signals it is connected to, its timer, and the
    calls of its owner. *)
Inductive AnalyzerEvent :=
  | PilotDataUpdate (callsign : QString) | AtcDataUpdate (callsign : QString)
  | AddedAircraftSituation (callsign : QString) | RemovedAircraft (callsign : QString)
  | AtcStationDisconnected (callsign : QString) | ConnectionStatusChanged (newStatus : ConnectionStatus)
  | UpdateTimer (snapshotTime : Z) (aircraftInRange : list CSimulatedAircraft)
  | RenderRestrictionsChanged (restricted enabled : bool) (maxAircraft : Z) (maxRenderedDistance : CLength)
  | SetEnabledWatchdog (enabled : bool).

Definition onEvent now (e : AnalyzerEvent) s : CAirspaceAnalyzer * list AnalyzerSignal :=
  match e with
  | PilotDataUpdate cs | AddedAircraftSituation cs => (watchdogTouchAircraftCallsign now cs s, [])
  | AtcDataUpdate cs => (watchdogTouchAtcCallsign now cs s, [])
  | RemovedAircraft cs => (watchdogRemoveAircraftCallsign cs s, [])
  | AtcStationDisconnected cs => (watchdogRemoveAtcCallsign cs s, [])
  | ConnectionStatusChanged newStatus => (onConnectionStatusChanged newStatus s, [])
  | UpdateTimer snapshotTime aircraftInRange => onTimeout snapshotTime now aircraftInRange s
  | RenderRestrictionsChanged restricted enabled maxAircraft d =>
      (setSimulatorRenderRestrictionsChanged restricted enabled maxAircraft d s, [])
  | SetEnabledWatchdog enabled => (setEnabledWatchdog enabled s, [])
  end.
Definition analyzer_run s (events : list (Z * AnalyzerEvent)) : CAirspaceAnalyzer :=
  foldl (fun s te => fst (onEvent (fst te) (snd te) s)) s events.
(** The signals, with the time of the event that emits them. *)
Fixpoint analyzer_signals s (events : list (Z * AnalyzerEvent)) : list (Z * AnalyzerSignal) :=
  match events with
  | [] => []
  | (t, e) :: events =>
      map (pair t) (snd (onEvent t e s)) ++ analyzer_signals (fst (onEvent t e s)) events
  end.
End airspace.

(** ** One run of the watchdog *)

(** The callsigns of a map not heard of since a time, in the order of its keys. *)
Definition expired (timeoutEpochMs : Z) (m : gmap QString Z) : list QString :=
  map fst (filter (fun kv => kv.2 <= timeoutEpochMs) (map_to_list m)).
Definition unexpired (timeoutEpochMs : Z) (m : gmap QString Z) : gmap QString Z :=
  filter (fun kv => timeoutEpochMs < kv.2) m.

Section loops.
Implicit Types (s : CAirspaceAnalyzer) (signals : list AnalyzerSignal) (m : gmap QString Z) (T : Z).

Lemma elem_of_expired T m cs : cs ∈ expired T m <-> exists ts, m !! cs = Some ts /\ ts <= T.
Proof.
  unfold expired. rewrite list_elem_of_fmap. split.
  - intros ([k v] & -> & [Hv Hm]%list_elem_of_filter). exists v. by apply elem_of_map_to_list in Hm.
  - intros (ts & Hm & Hle). exists (cs, ts). split; [done|]. apply list_elem_of_filter. by rewrite elem_of_map_to_list.
Qed.

(** One callsign of a loop on the map alone, and the whole loop. *)
Definition sweep (T : Z) (acc : gmap QString Z * list QString) (cs : QString) : gmap QString Z * list QString :=
  if T <? default 0 (acc.1 !! cs) then acc else (delete cs acc.1, acc.2 ++ [cs]).
Lemma sweep_loop T (l : list (QString * Z)) m out :
  NoDup l.*1 -> (forall k v, (k, v) ∈ l -> m !! k = Some v) ->
  foldl (sweep T) (m, out) l.*1 =
    (foldr delete m (filter (fun kv => kv.2 <= T) l).*1, out ++ (filter (fun kv => kv.2 <= T) l).*1).
Proof using Type.
  revert m out. induction l as [|[k v] l IH]; intros m out Hn Hl; [cbn; by rewrite app_nil_r|].
  apply NoDup_cons in Hn as [Hk Hn]. cbn [fmap list_fmap foldl fst]. unfold sweep at 2. cbn [fst snd].
  rewrite (Hl k v) by left. cbn [default from_option id]. rewrite filter_cons.
  assert (forall k' v', (k', v') ∈ l -> k' <> k) as Hne.
  { intros k' v' Hin ->. apply Hk, list_elem_of_fmap. by exists (k, v'). }
  destruct (T <? v) eqn:E.
  - apply Z.ltb_lt in E. rewrite decide_False by (cbn; lia). apply IH; [done|]. intros k' v' Hin. apply Hl. by right.
  - apply Z.ltb_ge in E. rewrite decide_True by (cbn; lia). cbn [fmap list_fmap map foldr fst].
    rewrite IH; [|done|].
    + f_equal; [|by rewrite <-app_assoc].
      generalize (filter (fun kv : QString * Z => kv.2 <= T) l).*1 as ks. intros ks.
      induction ks as [|k1 ks IHk]; [done|]. cbn. by rewrite IHk, delete_delete.
    + intros k' v' Hin. rewrite lookup_delete_ne by by intros <-; eapply Hne. apply Hl. by right.
Qed.
Lemma foldr_delete_lookup m (ks : list QString) k :
  foldr delete m ks !! k = if decide (k ∈ ks) then None else m !! k.
Proof using Type.
  induction ks as [|k' ks IH]; simpl; [done|].
  destruct (decide (k = k')) as [->|Hn]; [rewrite lookup_delete_eq, decide_True; [done|left]|].
  rewrite lookup_delete_ne, IH by done. case_decide; case_decide; set_solver.
Qed.
Lemma sweep_all T m : foldl (sweep T) (m, []) (keys m) = (unexpired T m, expired T m).
Proof using Type.
  unfold keys. change (map fst (map_to_list m)) with (map_to_list m).*1.
  rewrite (sweep_loop T (map_to_list m) m []).
  - f_equal. apply map_eq. intros k. rewrite foldr_delete_lookup. fold (expired T m).
    unfold unexpired. rewrite map_lookup_filter. case_decide as Hd.
    + apply elem_of_expired in Hd as (ts & -> & Hle). simpl. by rewrite option_guard_False by (cbn; lia).
    + destruct (m !! k) as [ts|] eqn:E; [|done]. simpl. rewrite option_guard_True; [done|]. cbn.
      destruct (decide (ts <= T)); [|lia]. exfalso. apply Hd, elem_of_expired. eauto.
  - apply NoDup_fst_map_to_list.
  - intros k v. apply elem_of_map_to_list.
Qed.

(** A loop on the analyzer that sweeps one of its maps. *)
Lemma sweep_lift T (get : CAirspaceAnalyzer -> gmap QString Z) (set : gmap QString Z -> CAirspaceAnalyzer -> CAirspaceAnalyzer)
    (signal : QString -> AnalyzerSignal) (step : CAirspaceAnalyzer * list AnalyzerSignal -> QString -> CAirspaceAnalyzer * list AnalyzerSignal)
    (Hget : forall m s, get (set m s) = m) (Hset : forall m m' s, set m (set m' s) = set m s) (Hid : forall s, set (get s) s = s)
    (Hstep : forall s signals cs, step (s, signals) cs =
       (set (sweep T (get s, []) cs).1 s, signals ++ map signal (sweep T (get s, []) cs).2)) s signals :
  foldl step (s, signals) (keys (get s)) =
    (set (unexpired T (get s)) s, signals ++ map signal (expired T (get s))).
Proof using Type.
  assert (Hl : forall l s signals out, foldl step (s, signals ++ map signal out) l =
            (set (foldl (sweep T) (get s, out) l).1 s, signals ++ map signal (foldl (sweep T) (get s, out) l).2)).
  { clear s signals. induction l as [|cs l IH]; intros s signals out; cbn [foldl]; [cbn; by rewrite Hid|].
    rewrite Hstep. unfold sweep at 1 2 4 6. cbn [fst snd]. case_match; cbn [fst snd].
    - rewrite Hid, app_nil_r. apply IH.
    - rewrite <-app_assoc, <-map_app, app_nil_l, IH, !Hget. by rewrite Hset. }
  specialize (Hl (keys (get s)) s signals []). rewrite app_nil_r in Hl. by rewrite Hl, sweep_all.
Qed.
End loops.

(** *** What a call of the watchdog does *)

Section watchdog.
Implicit Types (s : CAirspaceAnalyzer) (now : Z) (callsign : QString).

(** The call checks: it is not too late after the one before, and not in the time after a late one. *)
Definition checks now s : Prop :=
  now - m_lastWatchdogCallMsSinceEpoch s <= callThresholdMs /\ m_doNotRunAgainBefore s <= now.
#[export] Instance checks_dec now s : Decision (checks now s).
Proof. unfold checks. apply _. Defined.

Lemma aircraft_loop T s signals :
  foldl (checkAircraft true T) (s, signals) (keys (m_aircraftCallsignTimestamps s)) =
    (s <| m_aircraftCallsignTimestamps ::= unexpired T |>,
     signals ++ map timeoutAircraft (expired T (m_aircraftCallsignTimestamps s))).
Proof using Type.
  etransitivity.
  - apply (sweep_lift T m_aircraftCallsignTimestamps (fun m s => s <| m_aircraftCallsignTimestamps := m |>) timeoutAircraft (checkAircraft true T)); try done; [by intros []|].
    intros s' signals' cs. unfold checkAircraft, sweep. cbn [fst snd]. case_match; [|done].
    destruct s'. cbn. by rewrite app_nil_r.
  - by destruct s.
Qed.
Lemma atc_loop T s signals :
  foldl (checkAtc true T) (s, signals) (keys (m_atcCallsignTimestamps s)) =
    (s <| m_atcCallsignTimestamps ::= unexpired T |>,
     signals ++ map timeoutAtc (expired T (m_atcCallsignTimestamps s))).
Proof using Type.
  etransitivity.
  - apply (sweep_lift T m_atcCallsignTimestamps (fun m s => s <| m_atcCallsignTimestamps := m |>) timeoutAtc (checkAtc true T)); try done; [by intros []|].
    intros s' signals' cs. unfold checkAtc, sweep. cbn [fst snd]. case_match; [|done].
    destruct s'. cbn. by rewrite app_nil_r.
  - by destruct s.
Qed.

(** An enabled watchdog reports the callsigns not heard of for the time of their
    kind and forgets them; it does neither when it is called late, and for a time after. *)
Lemma watchdog_result now s : m_enabledWatchdog s = true ->
  watchdogCheckTimeouts now s =
    if decide (checks now s)
    then (s <| m_lastWatchdogCallMsSinceEpoch := now |> <| m_doNotRunAgainBefore := -1 |>
            <| m_aircraftCallsignTimestamps ::= unexpired (now - m_timeoutAircraft) |>
            <| m_atcCallsignTimestamps ::= unexpired (now - m_timeoutAtc) |>,
          map timeoutAircraft (expired (now - m_timeoutAircraft) (m_aircraftCallsignTimestamps s)) ++
          map timeoutAtc (expired (now - m_timeoutAtc) (m_atcCallsignTimestamps s)))
    else (s <| m_lastWatchdogCallMsSinceEpoch := now |>
            <| m_doNotRunAgainBefore ::= fun t =>
                 if callThresholdMs <? now - m_lastWatchdogCallMsSinceEpoch s then now + 2 * callThresholdMs else t |>, []).
Proof using Type.
  intros He. unfold watchdogCheckTimeouts, checks. cbv zeta.
  destruct (callThresholdMs <? now - m_lastWatchdogCallMsSinceEpoch s) eqn:E1.
  { apply Z.ltb_lt in E1. rewrite decide_False by lia. by destruct s. }
  apply Z.ltb_ge in E1. change (m_doNotRunAgainBefore (s <| m_lastWatchdogCallMsSinceEpoch := now |>))
    with (m_doNotRunAgainBefore s). destruct (now <? m_doNotRunAgainBefore s) eqn:E2.
  { apply Z.ltb_lt in E2. rewrite decide_False by lia. by destruct s. }
  apply Z.ltb_ge in E2. rewrite decide_True by lia.
  set (s2 := s <| m_lastWatchdogCallMsSinceEpoch := now |> <| m_doNotRunAgainBefore := -1 |>).
  change (m_enabledWatchdog s2) with (m_enabledWatchdog s). rewrite He, aircraft_loop. cbn [fst].
  rewrite atc_loop. by destruct s.
Qed.
End watchdog.

(** ** Runs *)

Section runs.
Context {FG : FlightGeometry} {AK : AircraftKind} {SB : StdSortBy}.
Implicit Types (s : CAirspaceAnalyzer) (callsign : QString) (now t : Z) (e : AnalyzerEvent)
  (events : list (Z * AnalyzerEvent)).

Definition hears callsign e : Prop := e = PilotDataUpdate callsign \/ e = AddedAircraftSituation callsign.
Definition hearsAtc callsign e : Prop := e = AtcDataUpdate callsign.
(** Nobody disables the watchdog. *)
Definition watching events : Prop := Forall (fun te => snd te <> SetEnabledWatchdog false) events.

Lemma run_snoc s events t e : analyzer_run s (events ++ [(t, e)]) = fst (onEvent t e (analyzer_run s events)).
Proof using Type. unfold analyzer_run. by rewrite foldl_app. Qed.
Lemma analyze_frame now l s :
  let s' := fst (analyzeAirspace now l s) in
  m_aircraftCallsignTimestamps s' = m_aircraftCallsignTimestamps s /\
  m_atcCallsignTimestamps s' = m_atcCallsignTimestamps s /\
  m_lastWatchdogCallMsSinceEpoch s' = m_lastWatchdogCallMsSinceEpoch s /\
  m_doNotRunAgainBefore s' = m_doNotRunAgainBefore s /\ m_enabledWatchdog s' = m_enabledWatchdog s /\
  worker_isEnabled s' = worker_isEnabled s.
Proof using Type. by destruct s. Qed.
Lemma analyze_signals now l s cs :
  timeoutAircraft cs ∉ snd (analyzeAirspace now l s) /\ timeoutAtc cs ∉ snd (analyzeAirspace now l s).
Proof using Type. unfold analyzeAirspace. cbn [snd]. case_match; split; (by intros ?%list_elem_of_singleton) || set_solver. Qed.

(** The timer, with an enabled watchdog. *)
Lemma tick_result ts t l s : worker_isEnabled s = true ->
  exists s1 signals, (s1, signals) = analyzeAirspace ts l s /\
    onTimeout ts t l s = (fst (watchdogCheckTimeouts t s1), signals ++ snd (watchdogCheckTimeouts t s1)).
Proof using Type.
  intros Hw. unfold onTimeout. rewrite Hw. cbn [negb]. destruct (analyzeAirspace ts l s) as [s1 signals].
  exists s1, signals. split; [done|]. by destruct (watchdogCheckTimeouts t s1).
Qed.

(** What an event does to the time of a callsign. *)
Definition timeKept callsign (get : CAirspaceAnalyzer -> gmap QString Z) (heard : AnalyzerEvent -> Prop) : Prop :=
  forall t e s, m_enabledWatchdog s = true -> e <> SetEnabledWatchdog false ->
    (forall ts, get (fst (onEvent t e s)) !! callsign = Some ts -> get s !! callsign = Some ts \/ ts = t) /\
    (heard e -> get (fst (onEvent t e s)) !! callsign = Some t).
Lemma enabled_kept t e s : m_enabledWatchdog s = true -> e <> SetEnabledWatchdog false ->
  m_enabledWatchdog (fst (onEvent t e s)) = true.
Proof using Type.
  intros He Hn. destruct e; try (by destruct s); [by destruct newStatus, s| |by destruct enabled].
  cbn [onEvent]. destruct (worker_isEnabled s) eqn:Hw; [|unfold onTimeout; by rewrite Hw].
  destruct (tick_result snapshotTime t aircraftInRange s Hw) as (s1 & signals & Ha & ->). cbn [fst].
  pose proof (analyze_frame snapshotTime aircraftInRange s) as (_ & _ & _ & _ & He1 & _). rewrite <-Ha in He1. cbn in He1.
  rewrite watchdog_result by congruence. case_decide; cbn [fst]; rewrite <-He, <-He1; by destruct s1.
Qed.
Lemma aircraft_timeKept callsign : timeKept callsign m_aircraftCallsignTimestamps (hears callsign).
Proof using Type.
  intros t e s He Hn. split; [intros ts|intros [->| ->]; apply lookup_insert_eq].
  destruct e; cbn [onEvent fst]; try by left.
  - cbn. rewrite lookup_insert_Some. naive_solver.
  - cbn. rewrite lookup_insert_Some. naive_solver.
  - cbn. rewrite lookup_delete_Some. naive_solver.
  - destruct newStatus; [by left..|]. intros Hts. by apply (lookup_empty_Some (M := gmap QString) callsign ts) in Hts.
  - destruct (worker_isEnabled s) eqn:Hw; [|unfold onTimeout; rewrite Hw; by left].
    destruct (tick_result snapshotTime t aircraftInRange s Hw) as (s1 & signals & Ha & ->). cbn [fst].
    pose proof (analyze_frame snapshotTime aircraftInRange s) as (Hm & _ & _ & _ & He1 & _).
    rewrite <-Ha in Hm, He1. cbn in Hm, He1. rewrite watchdog_result by congruence. rewrite <-Hm.
    case_decide; cbn [fst]; [|by left]. unfold unexpired. cbn. rewrite map_lookup_filter_Some. tauto.
Qed.
Lemma atc_timeKept callsign : timeKept callsign m_atcCallsignTimestamps (hearsAtc callsign).
Proof using Type.
  intros t e s He Hn. split; [intros ts|intros ->; apply lookup_insert_eq].
  destruct e; cbn [onEvent fst]; try by left.
  - cbn. rewrite lookup_insert_Some. naive_solver.
  - cbn. rewrite lookup_delete_Some. naive_solver.
  - destruct newStatus; [by left..|]. intros Hts. by apply (lookup_empty_Some (M := gmap QString) callsign ts) in Hts.
  - destruct (worker_isEnabled s) eqn:Hw; [|unfold onTimeout; rewrite Hw; by left].
    destruct (tick_result snapshotTime t aircraftInRange s Hw) as (s1 & signals & Ha & ->). cbn [fst].
    pose proof (analyze_frame snapshotTime aircraftInRange s) as (_ & Hm & _ & _ & He1 & _).
    rewrite <-Ha in Hm, He1. cbn in Hm, He1. rewrite watchdog_result by congruence. rewrite <-Hm.
    case_decide; cbn [fst]; [|by left]. unfold unexpired. cbn. rewrite map_lookup_filter_Some. tauto.
Qed.

(** When the timer reports a callsign. *)
Lemma checks_analyze now ts l s : checks now (fst (analyzeAirspace ts l s)) <-> checks now s.
Proof using Type. unfold checks. pose proof (analyze_frame ts l s) as (_ & _ & Hl & Hd & _). cbv zeta in Hl, Hd. by rewrite Hl, Hd. Qed.
Lemma tick_reports ts t l s cs : worker_isEnabled s = true -> m_enabledWatchdog s = true ->
  (timeoutAircraft cs ∈ snd (onTimeout ts t l s) <->
     checks t s /\ exists t0, m_aircraftCallsignTimestamps s !! cs = Some t0 /\ t0 <= t - m_timeoutAircraft) /\
  (timeoutAtc cs ∈ snd (onTimeout ts t l s) <->
     checks t s /\ exists t0, m_atcCallsignTimestamps s !! cs = Some t0 /\ t0 <= t - m_timeoutAtc).
Proof using Type.
  intros Hw He. destruct (tick_result ts t l s Hw) as (s1 & signals & Ha & ->). cbn [snd].
  pose proof (analyze_frame ts l s) as (Hm & Hm' & _ & _ & He1 & _). pose proof (checks_analyze t ts l s) as Hc.
  pose proof (analyze_signals ts l s cs) as [Hs1 Hs2]. rewrite <-Ha in *. cbn [fst snd] in *.
  rewrite watchdog_result by congruence. rewrite !elem_of_app.
  case_decide as Hd; cbn [snd]; rewrite <-Hc, <-Hm, <-Hm'; [|set_solver].
  rewrite !elem_of_app, !list_elem_of_fmap. rewrite <-!elem_of_expired. naive_solver.
Qed.
Lemma reports_tick t e s cs : m_enabledWatchdog s = true ->
  timeoutAircraft cs ∈ snd (onEvent t e s) \/ timeoutAtc cs ∈ snd (onEvent t e s) ->
  exists ts l, e = UpdateTimer ts l /\ worker_isEnabled s = true.
Proof using Type.
  intros He. destruct e; cbn; try set_solver. unfold onTimeout. destruct (worker_isEnabled s) eqn:Hw; [eauto|].
  cbn. set_solver.
Qed.

Lemma watching_enabled t0 events : watching events ->
  m_enabledWatchdog (analyzer_run (CAirspaceAnalyzer_make t0) events) = true.
Proof using Type.
  induction events as [|[t e] events IH] using rev_ind; [done|]. intros [Hw Hn]%Forall_app. rewrite run_snoc.
  apply Forall_cons in Hn as [Hn _]. by apply enabled_kept; [apply IH|].
Qed.
(** The time kept of a callsign is not before that of any event that heard it. *)
Lemma time_of_heard callsign get heard t0 events t' e' : timeKept callsign get heard ->
  watching events -> StronglySorted Z.le (map fst events) -> (t', e') ∈ events -> heard e' ->
  forall ts, get (analyzer_run (CAirspaceAnalyzer_make t0) events) !! callsign = Some ts -> t' <= ts.
Proof using Type.
  intros Hk. induction events as [|[t e] events IH] using rev_ind; [set_solver|].
  unfold watching. intros [Hw Hn]%Forall_app Hs Hin Hh ts. apply Forall_cons in Hn as [Hn _]. cbn in Hn.
  rewrite run_snoc. destruct (Hk t e _ (watching_enabled t0 events Hw) Hn) as [Ha Ha'].
  rewrite map_app in Hs. apply elem_of_app in Hin as [Hin|Hin].
  - apply StronglySorted_app in Hs as (Hle & Hs & _). intros [Hts| ->]%Ha; [by eapply IH|].
    apply Hle; [|left]. apply list_elem_of_fmap. by exists (t', e').
  - apply list_elem_of_singleton in Hin as [= -> ->]. rewrite (Ha' Hh). intros [= ->]. lia.
Qed.

(** C9: A watchdog nobody disables reports a callsign only after it has not been heard
    of for the time of its kind. *)
Lemma timeout_means_silence t0 events t e cs t' e' :
  watching events -> StronglySorted Z.le (map fst events) -> (t', e') ∈ events ->
  let s := analyzer_run (CAirspaceAnalyzer_make t0) events in
  (hears cs e' -> timeoutAircraft cs ∈ snd (onEvent t e s) -> t' <= t - m_timeoutAircraft) /\
  (hearsAtc cs e' -> timeoutAtc cs ∈ snd (onEvent t e s) -> t' <= t - m_timeoutAtc).
Proof using Type.
  intros Hw Hs Hin s. pose proof (watching_enabled t0 events Hw) as He. fold s in He.
  split; intros Hh Hr; (destruct (reports_tick t e s cs He) as (ts & l & -> & Hwk); [by (left + right)|]);
    cbn [onEvent] in Hr; apply (tick_reports ts t l s cs Hwk He) in Hr as (_ & ts0 & Hts & Hle).
  - pose proof (time_of_heard cs _ _ t0 events t' e' (aircraft_timeKept cs) Hw Hs Hin Hh ts0 Hts). lia.
  - pose proof (time_of_heard cs _ _ t0 events t' e' (atc_timeKept cs) Hw Hs Hin Hh ts0 Hts). lia.
Qed.

(** The timer fires in time: each call of the watchdog comes soon enough after the one before. *)
Fixpoint regular (last : Z) events : Prop :=
  match events with
  | [] => True
  | (t, UpdateTimer _ _) :: events => last <= t <= last + callThresholdMs /\ regular t events
  | _ :: events => regular last events
  end.
(** Nothing is heard of a callsign, it is not removed, and the connection stays. *)
Definition silent callsign events : Prop :=
  Forall (fun te => ~ hears callsign (snd te) /\ snd te <> RemovedAircraft callsign /\
                    snd te <> ConnectionStatusChanged Disconnected) events.
Definition hasTickFrom (t : Z) events : Prop := exists t' ts l, (t', UpdateTimer ts l) ∈ events /\ t <= t'.

(** What such an event leaves as it was. *)
Lemma silent_event callsign t e s : m_enabledWatchdog s = true -> e <> SetEnabledWatchdog false ->
  ~ hears callsign e -> e <> RemovedAircraft callsign -> e <> ConnectionStatusChanged Disconnected ->
  (forall ts l, e <> UpdateTimer ts l) ->
  let s' := fst (onEvent t e s) in
  m_aircraftCallsignTimestamps s' !! callsign = m_aircraftCallsignTimestamps s !! callsign /\
  m_lastWatchdogCallMsSinceEpoch s' = m_lastWatchdogCallMsSinceEpoch s /\
  m_doNotRunAgainBefore s' = m_doNotRunAgainBefore s /\ worker_isEnabled s' = worker_isEnabled s.
Proof using Type.
  intros He Hw Hh Hr Hd Ht. unfold hears in Hh. destruct e as [cs|cs|cs|cs|cs|st|ts l|r en n d|en]; cbn [onEvent fst]; try done.
  - split; [|done]. apply lookup_insert_ne. intros ->. by apply Hh; left.
  - split; [|done]. apply lookup_insert_ne. intros ->. by apply Hh; right.
  - split; [|done]. apply lookup_delete_ne. by intros ->.
  - by destruct st.
  - by destruct (Ht ts l).
Qed.

(** C10: A callsign that falls silent is reported, within the time of its kind and one interval of the timer. *)
Lemma silent_reported t0 events callsign s :
  m_enabledWatchdog s = true -> worker_isEnabled s = true ->
  m_aircraftCallsignTimestamps s !! callsign = Some t0 ->
  0 <= m_lastWatchdogCallMsSinceEpoch s < t0 + m_timeoutAircraft ->
  m_doNotRunAgainBefore s <= m_lastWatchdogCallMsSinceEpoch s ->
  watching events -> silent callsign events -> regular (m_lastWatchdogCallMsSinceEpoch s) events ->
  hasTickFrom (t0 + m_timeoutAircraft) events ->
  exists t, (t, timeoutAircraft callsign) ∈ analyzer_signals s events /\
    t0 + m_timeoutAircraft <= t < t0 + m_timeoutAircraft + callThresholdMs.
Proof using Type.
  revert s. induction events as [|[t e] events IH]; intros s He Hwk Hm Hl Hd Hw Hq Hreg Htick.
  { destruct Htick as (? & ? & ? & Hin & _). set_solver. }
  apply Forall_cons in Hw as [Hn Hw], Hq as [(Hh & Hr & Hc) Hq]. cbn [snd] in *. cbn [analyzer_signals].
  setoid_rewrite elem_of_app.
  assert (Hother : (forall ts l, e <> UpdateTimer ts l) -> exists t1, (t1, timeoutAircraft callsign) ∈
            analyzer_signals (fst (onEvent t e s)) events /\
            t0 + m_timeoutAircraft <= t1 < t0 + m_timeoutAircraft + callThresholdMs).
  { intros Ht. destruct (silent_event callsign t e s He Hn Hh Hr Hc Ht) as (E1 & E2 & E3 & E4).
    apply IH; rewrite ?E1, ?E2, ?E3, ?E4; try done; [by apply enabled_kept| |].
    - destruct e; try done. by destruct (Ht snapshotTime aircraftInRange).
    - destruct Htick as (t' & ts & l & [[= -> <-]|Hin]%elem_of_cons & Hle); [by destruct (Ht ts l)|]. by exists t', ts, l. }
  destruct e as [cs|cs|cs|cs|cs|st|ts l|r en n d|en]; try (destruct Hother as (t1 & Hin & Hb); [done|]; by exists t1; split; [right|]).
  cbn [regular] in Hreg. destruct Hreg as [Hlt Hreg]. cbn [onEvent].
  assert (checks t s) as Hck by (unfold checks; lia).
  destruct (decide (t0 + m_timeoutAircraft <= t)).
  - exists t. split; [left|lia]. apply list_elem_of_fmap. exists (timeoutAircraft callsign). split; [done|].
    apply (tick_reports ts t l s callsign Hwk He). split; [done|]. exists t0. split; [done|lia].
  - pose proof (enabled_kept t (UpdateTimer ts l) s He ltac:(done)) as He'. cbn [onEvent] in He'.
    destruct (tick_result ts t l s Hwk) as (s1 & signals & Ha & Eo). rewrite Eo in *. cbn [fst snd] in *.
    pose proof (analyze_frame ts l s) as (F1 & _ & F3 & F4 & F5 & F6). pose proof (checks_analyze t ts l s) as Hc'.
    rewrite <-Ha in F1, F3, F4, F5, F6, Hc'. cbn [fst] in F1, F3, F4, F5, F6, Hc'.
    assert (m_enabledWatchdog s1 = true) as He1 by congruence.
    rewrite watchdog_result in He' |- * by done. rewrite decide_True in He' |- * by by apply Hc'. cbn [fst snd] in *.
    edestruct IH as (t1 & Hin & Hb); [exact He'| | | | |done|done| | |exists t1; split; [right; exact Hin|exact Hb]].
    + by rewrite <-Hwk, <-F6; destruct s1.
    + destruct s1. cbn in F1 |- *. unfold unexpired. apply map_lookup_filter_Some. rewrite F1. split; [done|cbn; lia].
    + change (0 <= t < t0 + m_timeoutAircraft). lia.
    + change (-1 <= t). lia.
    + exact Hreg.
    + destruct Htick as (t' & ts' & l' & [[= -> _ _]|Hin]%elem_of_cons & Hle); [lia|]. by exists t', ts', l'.
Qed.

Definition isTimeout (signal : AnalyzerSignal) : bool :=
  match signal with timeoutAircraft _ | timeoutAtc _ => true | airspaceAircraftSnapshot _ => false end.
Lemma event_noRun D t e s : m_enabledWatchdog s = true -> e <> SetEnabledWatchdog false ->
  D <= m_doNotRunAgainBefore s -> D - 2 * callThresholdMs <= t < D ->
  D <= m_doNotRunAgainBefore (fst (onEvent t e s)) /\ Forall (fun x => isTimeout x = false) (snd (onEvent t e s)).
Proof using Type.
  intros He Hn HD Ht. destruct e; cbn [onEvent fst snd]; try (by split; [|constructor]).
  { by destruct newStatus. }
  destruct (worker_isEnabled s) eqn:Hwk; [|unfold onTimeout; rewrite Hwk; by split; [|constructor]].
  destruct (tick_result snapshotTime t aircraftInRange s Hwk) as (s1 & signals & Ha & ->).
  pose proof (analyze_frame snapshotTime aircraftInRange s) as (_ & _ & _ & F4 & F5 & _).
  rewrite <-Ha in F4, F5. cbn [fst snd] in *. rewrite watchdog_result by congruence.
  rewrite decide_False by (unfold checks; lia). cbn [fst snd]. rewrite app_nil_r. split.
  - change (D <= (if callThresholdMs <? t - m_lastWatchdogCallMsSinceEpoch s1
                  then t + 2 * callThresholdMs else m_doNotRunAgainBefore s1)). case_match; lia.
  - unfold analyzeAirspace in Ha. injection Ha as _ ->. case_match; by repeat constructor.
Qed.

(** A late call of the watchdog, as after the computer slept, reports nothing, and
    nothing is reported for three more intervals of the timer. *)
Lemma late_call_forgives now events s : m_enabledWatchdog s = true ->
  callThresholdMs < now - m_lastWatchdogCallMsSinceEpoch s ->
  watching events -> Forall (fun te => now <= fst te < now + 2 * callThresholdMs) events ->
  let '(s', signals) := watchdogCheckTimeouts now s in
  signals = [] /\ Forall (fun x => isTimeout (snd x) = false) (analyzer_signals s' events).
Proof using Type.
  intros He Hl Hw Ht. rewrite watchdog_result, decide_False by (done || unfold checks; lia). split; [done|].
  match goal with |- context [analyzer_signals ?x events] => set (s' := x) end.
  assert (m_enabledWatchdog s' = true /\ now + 2 * callThresholdMs <= m_doNotRunAgainBefore s') as [He' HD].
  { split; [exact He|]. unfold s'. cbn. rewrite (proj2 (Z.ltb_lt _ _)); [done|exact Hl]. }
  clearbody s'. clear He Hl s. revert s' He' HD.
  induction events as [|[t e] events IH]; intros s He HD; cbn [analyzer_signals]; [constructor|].
  apply Forall_cons in Hw as [Hn Hw], Ht as [Hte Ht]. cbn [fst snd] in *.
  destruct (event_noRun (now + 2 * callThresholdMs) t e s He Hn HD ltac:(lia)) as [HD' Hs].
  apply Forall_app. split; [|apply IH; [done|done|by apply enabled_kept|done]].
  apply Forall_fmap. eapply Forall_impl; [exact Hs|]. done.
Qed.
End runs.

(** ** Concrete runs *)

Section examples.
#[local] Existing Instances plainGeometry plainKind.

Definition DLH1 : QString := lit "DLH1".
Definition tick (t : Z) : Z * AnalyzerEvent := (t, UpdateTimer t []).
Definition fallsSilent : list (Z * AnalyzerEvent) :=
  [tick 7500; (8000, PilotDataUpdate DLH1); tick 15000; tick 22500; tick 30000].

Lemma timeout_means_silence_witness :
  timeoutAircraft DLH1 ∈ snd (onEvent 30000 (UpdateTimer 30000 []) (analyzer_run (CAirspaceAnalyzer_make 0) (take 4 fallsSilent))) /\
  8000 <= 30000 - m_timeoutAircraft.
Proof.
  assert (timeoutAircraft DLH1 ∈ snd (onEvent 30000 (UpdateTimer 30000 [])
    (analyzer_run (CAirspaceAnalyzer_make 0) (take 4 fallsSilent)))) as H by (vm_compute; right; left).
  split; [exact H|].
  apply (timeout_means_silence 0 (take 4 fallsSilent) 30000 (UpdateTimer 30000 []) DLH1 8000 (PilotDataUpdate DLH1)).
  - repeat constructor; discriminate.
  - repeat constructor; discriminate.
  - right. left.
  - by left.
  - exact H.
Defined.

Lemma silent_reported_witness :
  exists t, (t, timeoutAircraft DLH1) ∈
      analyzer_signals (analyzer_run (CAirspaceAnalyzer_make 0) (take 2 fallsSilent)) (drop 2 fallsSilent) /\
    23000 <= t < 34250.
Proof.
  apply (silent_reported 8000 (drop 2 fallsSilent) DLH1); try reflexivity.
  - split; [discriminate|reflexivity].
  - discriminate.
  - repeat constructor; discriminate.
  - repeat constructor; try discriminate; intros [|]; discriminate.
  - repeat split; discriminate.
  - exists 30000, 30000, []. split; [right; right; left | discriminate].
Defined.

Lemma late_call_forgives_witness :
  Forall (fun x => isTimeout (snd x) = false)
    (analyzer_signals (fst (watchdogCheckTimeouts 100000 (analyzer_run (CAirspaceAnalyzer_make 0) (take 2 fallsSilent))))
       [tick 107500; tick 115000; tick 122499]).
Proof.
  pose proof (late_call_forgives 100000 [tick 107500; tick 115000; tick 122499]
    (analyzer_run (CAirspaceAnalyzer_make 0) (take 2 fallsSilent)) eq_refl ltac:(reflexivity)
    ltac:(repeat constructor; discriminate) ltac:(repeat constructor; discriminate)) as H.
  exact (proj2 H).
Defined.

(** With the watchdog disabled an ATC station times out all the same, and becomes an aircraft. *)
Definition disabledRun : CAirspaceAnalyzer :=
  (CAirspaceAnalyzer_make 100000) <| m_enabledWatchdog := false |>
    <| m_atcCallsignTimestamps := {[lit "EDDF_TWR" := 40000]} |>.
Example disabled_watchdog_atc :
  snd (watchdogCheckTimeouts 107500 disabledRun) = [timeoutAtc (lit "EDDF_TWR")] /\
  m_aircraftCallsignTimestamps (fst (watchdogCheckTimeouts 107500 disabledRun)) !! lit "EDDF_TWR" = Some 58500.
Proof. split; by vm_compute. Qed.

(** The fake time lies 14 s back: an aircraft heard of 100 ms before the watchdog
    is enabled again is reported by its next call. *)
Definition reenabledRun : list (Z * AnalyzerEvent) :=
  [(100, SetEnabledWatchdog false); (7400, PilotDataUpdate DLH1); tick 7500; (7501, SetEnabledWatchdog true); tick 15000].
Example reenabled_watchdog :
  analyzer_signals (CAirspaceAnalyzer_make 0) reenabledRun !! 1%nat = Some (15000, timeoutAircraft DLH1).
Proof. by vm_compute. Qed.
End examples.
