(* ===== verification/SimulatorRendering.v ===== *)
(** * What a simulator renders (core/simulator.cpp, core/airspaceanalyzer.cpp, plugins/simulator/emulated/simulatoremulated.cpp)

    The theorems on the drivers: after a snapshot the simulator has exactly the
    aircraft the snapshot enables that are still in range, and without
    restrictions exactly those added and not removed.  They are proved against
    [SimulatorDriverLaws], which the emulated driver discharges. *)

From S2P Require Export SimulatorEmulated.
From S2P Require Import RemoteInvariant AirspaceAnalyzer QtReference.

Open Scope Z_scope.

(** ** What a driver leaves alone *)

Section frame.
Context {FG : FlightGeometry} {D : Type} {SD : SimulatorDriver D}.
Implicit Types s : ISimulator D.

(** Which aircraft are in range and whether they are enabled; what is marked as
    rendered may change. *)
Definition rangeView (p : CRemoteAircraftProvider) : gmap QString (QString * bool) :=
  (fun a => (callsignOf a, m_enabled a)) <$> m_aircraftInRange p.
Definition rendered s : gset QString := physicallyRenderedAircraft (driver s).
Record frame s s' : Prop := mkFrame {
  frame_range : rangeView (rap s') = rangeView (rap s);
  frame_global : m_globalSetup (setups s') = m_globalSetup (setups s);
  frame_connected : isConnected (driver s') = isConnected (driver s);
  frame_provider : m_remoteAircraftProviderConnected s' = m_remoteAircraftProviderConnected s;
  frame_shutdown : sim_isShuttingDown s' = sim_isShuttingDown s }.
#[export] Instance frame_preorder : PreOrder frame.
Proof. split; [by intros s | intros s1 s2 s3 [] []; split; congruence]. Qed.

(** A call that changes the set of what is rendered by [f] and leaves the rest. *)
Definition renders {A : Type} (f : gset QString -> gset QString) (x : Sim D A) : Prop :=
  forall s a s' o, x s = (a, s', o) -> frame s s' /\ rendered s' = f (rendered s).
End frame.

(** The driver adds and removes at once, and touches nothing but the marks. *)
Class SimulatorDriverLaws {FG : FlightGeometry} (D : Type) {SD : SimulatorDriver D} := {
  add_renders aircraft : renders (fun r => {[callsignOf aircraft]} ∪ r) (physicallyAddRemoteAircraft aircraft);
  remove_renders callsign : renders (fun r => r ∖ {[asString callsign]}) (physicallyRemoveRemoteAircraft callsign);
  rendered_test callsign d : isPhysicallyRenderedAircraft callsign d = bool_decide (asString callsign ∈ physicallyRenderedAircraft d) }.

Section calls.
Context {FG : FlightGeometry} {D : Type} {SD : SimulatorDriver D}.
Implicit Types s : ISimulator D.

Lemma run_bind {A B : Type} (x : Sim D A) (k : A -> Sim D B) s :
  (x ≫= k) s = let '(a, s', o) := x s in let '(b, s'', o') := k a s' in (b, s'', o ++ o').
Proof. done. Qed.
Lemma run_bind_inv {A B : Type} (x : Sim D A) (k : A -> Sim D B) s b s'' o :
  (x ≫= k) s = (b, s'', o) -> exists a s' o1 o2, x s = (a, s', o1) /\ k a s' = (b, s'', o2) /\ o = o1 ++ o2.
Proof.
  rewrite run_bind. destruct (x s) as [[a s'] o1]. destruct (k a s') as [[b' s2] o2] eqn:E.
  intros [= <- <- <-]. by exists a, s', o1, o2.
Qed.
Lemma run_get {A : Type} (k : ISimulator D -> Sim D A) s : (sim_get ≫= k) s = k s s.
Proof. rewrite run_bind. unfold sim_get. by destruct (k s s) as [[? ?] ?]. Qed.
Lemma run_set {A : Type} (g : ISimulator D -> ISimulator D) (k : unit -> Sim D A) s :
  (sim_set g ≫= k) s = k tt (g s).
Proof. rewrite run_bind. unfold sim_set. by destruct (k tt (g s)) as [[? ?] ?]. Qed.
Lemma renders_ret {A : Type} (a : A) : renders (D := D) id (mret a).
Proof. intros s b s' o [= <- <- <-]. done. Qed.
Lemma renders_bind {A B : Type} f g (x : Sim D A) (k : A -> Sim D B) :
  renders f x -> (forall a, renders g (k a)) -> renders (fun r => g (f r)) (x ≫= k).
Proof.
  intros Hx Hk s b s'' o (a & s' & o1 & o2 & E1 & E2 & ->)%run_bind_inv.
  apply Hx in E1 as [F1 R1]. apply Hk in E2 as [F2 R2]. split; [by etransitivity | by rewrite R2, R1].
Qed.
Lemma renders_ext {A : Type} f g (x : Sim D A) : (forall r, f r = g r) -> renders f x -> renders g x.
Proof. intros Hfg Hx s a s' o Hrun. apply Hx in Hrun as [HF HR]. by rewrite <-Hfg. Qed.
(** Reading the state, and a change of it that keeps what the frame keeps. *)
Lemma renders_get {A : Type} f (k : ISimulator D -> Sim D A) :
  (forall s a s' o, k s s = (a, s', o) -> frame s s' /\ rendered s' = f (rendered s)) -> renders f (sim_get ≫= k).
Proof.
  intros Hk s a s' o Hrun. rewrite run_get in Hrun. by eapply Hk.
Qed.
Lemma renders_set (g : ISimulator D -> ISimulator D) :
  (forall s, frame s (g s) /\ rendered (g s) = rendered s) -> renders id (sim_set g).
Proof. intros Hg s a s' o [= <- <- <-]. apply Hg. Qed.
Lemma renders_emit (out : SimOut) : renders (D := D) id (sim_emit out).
Proof. intros s a s' o [= <- <- <-]. done. Qed.
Lemma renders_when (b : bool) (x : Sim D unit) : renders id x -> renders id (sim_when b x).
Proof. intros Hx. destruct b; [done | apply renders_ret]. Qed.
Lemma renders_forEach {A : Type} (f : A -> gset QString -> gset QString) (x : A -> Sim D unit) l :
  (forall a, renders (f a) (x a)) -> renders (fun r => foldl (fun r a => f a r) r l) (sim_forEach x l).
Proof.
  intros Hx. induction l as [|a l IH]; [apply renders_ret|]. cbn [sim_forEach foldl].
  by apply (renders_bind (f a) (fun r => foldl (fun r a => f a r) r l)).
Qed.
End calls.

Lemma removed_one_by_one (l : list QString) (r : gset QString) : foldl (fun r k => r ∖ {[k]}) r l = r ∖ list_to_set l.
Proof. revert r. induction l as [|k l IH]; intros r; simpl; [set_solver|]. rewrite IH. set_solver. Qed.
Lemma set_updated (enabled inRange shown : gset QString) :
  (enabled ∩ inRange) ∖ shown ∩ inRange ∪ shown ∖ (shown ∖ (enabled ∩ inRange)) = enabled ∩ inRange.
Proof.
  apply set_eq. intros k. rewrite !elem_of_union, !elem_of_difference, !elem_of_intersection, !elem_of_difference, !elem_of_intersection.
  destruct (decide (k ∈ shown)), (decide (k ∈ enabled)), (decide (k ∈ inRange)); tauto.
Qed.
Lemma inRange_keys `{FlightGeometry} (p : CRemoteAircraftProvider) :
  list_to_set (getAircraftInRangeCallsigns p) =@{gset QString} dom (m_aircraftInRange p).
Proof.
  unfold getAircraftInRangeCallsigns. apply set_eq. intros k. rewrite elem_of_list_to_set, elem_of_dom, list_elem_of_fmap.
  split.
  - intros ([k' a] & -> & Hin%elem_of_map_to_list). by exists a.
  - intros [a Ha]. exists (k, a). by rewrite elem_of_map_to_list.
Qed.

(** ** The calls of the base class *)

#[local] Ltac same := intros s0; destruct s0; split; [by constructor | done].

Section base.
Context {FG : FlightGeometry} {QC : QtConv} {SS : StdSort} {SG : SimulatorGeometry} {D : Type} {SD : SimulatorDriver D} {SL : SimulatorDriverLaws D}.
Implicit Types (callsign : CCallsign) (aircraft : CSimulatedAircraft) (now : Z) (s : ISimulator D).

Lemma onSetups_renders {A : Type} now (f : SetupProvider -> A * SetupProvider * bool) :
  (forall p, m_globalSetup (f p).1.2 = m_globalSetup p) -> renders (D := D) id (onSetups now f).
Proof using Type.
  intros Hf. apply renders_get. intros s a s' o Hrun.
  specialize (Hf (setups s)). destruct (f (setups s)) as [[a1 p] emitted]. cbn in Hf.
  assert (HS : renders (D := D) id (sim_when emitted (emitInterpolationSetupChanged now);; mret a1)).
  { apply (renders_bind id id); [|intros; apply renders_ret]. apply renders_when, renders_set. same. }
  rewrite run_set in Hrun. apply HS in Hrun as [F2 R2]. split; [|by rewrite R2; destruct s].
  etransitivity; [|exact F2]. destruct s; by constructor.
Qed.
Lemma clearData_renders now callsign : renders (D := D) id (clearData now callsign).
Proof using Type.
  apply (renders_bind id id); [apply renders_set; same|]. intros _.
  apply (renders_bind id id); [|intros; apply renders_ret]. by apply onSetups_renders.
Qed.
Lemma clearAll_renders now : renders (D := D) id (clearAllRemoteAircraftData now).
Proof using Type.
  unfold clearAllRemoteAircraftData, resetLastSentValues, resetAircraftStatistics.
  apply (renders_bind id id); [apply renders_set; same|]. intros _.
  apply (renders_bind id id); [apply renders_set; same|]. intros _.
  apply (renders_bind id id); [apply renders_set; same|]. intros _.
  apply (renders_bind id id); [by apply onSetups_renders|]. intros _. apply renders_set; same.
Qed.

Lemma callAdd_renders aircraft : renders (fun r => {[callsignOf aircraft]} ∪ r) (callPhysicallyAddRemoteAircraft (D := D) aircraft).
Proof using SL.
  apply (renders_bind id (fun r => {[callsignOf aircraft]} ∪ r)); [apply renders_set; same|]. intros _.
  apply (renders_bind (fun r => {[callsignOf aircraft]} ∪ r) id); [apply add_renders | intros; apply renders_ret].
Qed.
Lemma callRemove_renders now callsign : renders (fun r => r ∖ {[asString callsign]}) (callPhysicallyRemoveRemoteAircraft (D := D) now callsign).
Proof using SL.
  apply (renders_bind id (fun r => r ∖ {[asString callsign]})); [apply clearData_renders|]. intros _.
  apply (renders_bind (fun r => r ∖ {[asString callsign]}) id); [apply remove_renders | intros; apply renders_ret].
Qed.
Lemma removeMultiple_renders now (callsigns : gset QString) :
  renders (fun r => r ∖ callsigns) (physicallyRemoveMultipleRemoteAircraft (D := D) now callsigns).
Proof using SL.
  apply (renders_bind (fun r => r ∖ callsigns) id); [|intros; apply renders_ret].
  eapply renders_ext; [|apply (renders_forEach (fun k r => r ∖ {[k]})); intros k; apply (callRemove_renders now (callsignOfKey k))].
  intros r. etransitivity; [apply removed_one_by_one|]. by rewrite list_to_set_elements_L.
Qed.
Lemma addAll_renders l : renders (fun r => getCallsigns l ∪ r) (sim_forEach (callPhysicallyAddRemoteAircraft (D := D)) l).
Proof using SL.
  eapply renders_ext; [|apply (renders_forEach (fun a r => {[callsignOf a]} ∪ r)); apply callAdd_renders].
  intros r. revert r. induction l as [|a l IH]; intros r; simpl; [unfold getCallsigns; set_solver|].
  rewrite IH, getCallsigns_cons. set_solver.
Qed.
Lemma removeAll_renders now s r s' o : physicallyRemoveAllRemoteAircraft now s = (r, s', o) ->
  frame s s' /\ rendered s' = rendered s ∖ dom (m_aircraftInRange (rap s)).
Proof using SL.
  intros Hrun. unfold physicallyRemoveAllRemoteAircraft in Hrun. rewrite <-inRange_keys. rewrite run_get in Hrun.
  pose (f := fun r : gset QString => r ∖ list_to_set (getAircraftInRangeCallsigns (rap s))).
  eapply (renders_bind f id); [apply removeMultiple_renders| |exact Hrun].
  intros a. apply (renders_bind id id); [apply clearAll_renders | intros; apply renders_ret].
Qed.
End base.

(** ** Snapshots *)

Section snapshots.
Context {FG : FlightGeometry} {QC : QtConv} {SS : StdSort} {SG : SimulatorGeometry} {D : Type} {SD : SimulatorDriver D} {SL : SimulatorDriverLaws D}.
Implicit Types (snapshot : CAirspaceAircraftSnapshot) (now : Z) (s : ISimulator D) (p : CRemoteAircraftProvider).

(** Aircraft lie under their own callsigns, as in every state of the provider. *)
Definition ownCallsigns p : Prop := map_Forall (fun k a => callsignOf a = k) (m_aircraftInRange p).

Lemma ownCallsigns_view p p' : rangeView p = rangeView p' -> ownCallsigns p -> ownCallsigns p'.
Proof using Type.
  intros Hv Hp k a Ha. assert (rangeView p !! k = Some (callsignOf a, m_enabled a)) as Hk
    by (rewrite Hv; unfold rangeView; by rewrite lookup_fmap, Ha).
  unfold rangeView in Hk. rewrite lookup_fmap in Hk. destruct (m_aircraftInRange p !! k) as [a'|] eqn:E; [|done].
  injection Hk as Hc _. rewrite <-Hc. by apply Hp.
Qed.
Lemma dom_view p p' : rangeView p = rangeView p' -> dom (m_aircraftInRange p) = dom (m_aircraftInRange p').
Proof using Type.
  intros Hv. assert (Hd : forall q, dom (rangeView q) = dom (m_aircraftInRange q)) by (intros q; apply dom_fmap_L).
  by rewrite <-!Hd, Hv.
Qed.
Lemma found_callsigns p (callsigns : gset QString) : ownCallsigns p ->
  getCallsigns (findByCallsigns callsigns (getAircraftInRange p)) = callsigns ∩ dom (m_aircraftInRange p).
Proof using Type.
  intros Hp. apply set_eq. intros k. rewrite elem_of_getCallsigns, elem_of_intersection, elem_of_dom.
  unfold findByCallsigns, getAircraftInRange. split.
  - intros (a & <- & [Ha Hin]%list_elem_of_filter). apply list_elem_of_fmap in Hin as ([k a'] & -> & Hm%elem_of_map_to_list).
    cbn in *. rewrite (Hp _ _ Hm) in *. split; [done | by exists a'].
  - intros [Hk [a Ha]]. exists a. pose proof (Hp _ _ Ha) as Hc. split; [done|]. apply list_elem_of_filter.
    split; [by rewrite Hc|]. apply list_elem_of_fmap. exists (k, a). by rewrite elem_of_map_to_list.
Qed.

(** A snapshot that is handled. *)
Definition handled snapshot s : Prop :=
  isValidSnapshot snapshot = true /\ m_restricted snapshot || m_restrictionChanged snapshot = true /\
  m_remoteAircraftProviderConnected s = true /\ isConnected (driver s) = true /\ sim_isShuttingDown s = false.
Lemma handled_run snapshot now s : handled snapshot s ->
  rapOnRecalculatedRenderedAircraft now snapshot s = onRecalculatedRenderedAircraft now snapshot s.
Proof using Type.
  intros (_ & _ & H1 & H2 & H3). unfold rapOnRecalculatedRenderedAircraft. rewrite run_get. by rewrite H1, H2, H3.
Qed.

Definition shown snapshot p : gset QString :=
  m_enabledAircraftCallsignsByDistance snapshot ∩ dom (m_aircraftInRange p).

(** The simulator has what the snapshot enables and is still in range; when the
    snapshot is of a disabled rendering, nothing that is in range. *)
Theorem snapshot_rendered snapshot now s s' o :
  ownCallsigns (rap s) -> handled snapshot s ->
  rapOnRecalculatedRenderedAircraft now snapshot s = (tt, s', o) ->
  frame s s' /\
  rendered s' = if m_renderingEnabled snapshot then shown snapshot (rap s)
                else rendered s ∖ dom (m_aircraftInRange (rap s)).
Proof using SL.
  intros Hp Hh Hrun. rewrite (handled_run _ _ _ Hh) in Hrun. destruct Hh as (Hv & Hr & _).
  unfold onRecalculatedRenderedAircraft in Hrun. rewrite Hv in Hrun. cbn [negb] in Hrun.
  rewrite <-negb_orb, Hr in Hrun. cbn [negb] in Hrun. rewrite run_get in Hrun.
  apply run_bind_inv in Hrun as (changed & s1 & o1 & o2 & E & E2 & ->).
  apply (renders_when changed (sim_emit airspaceSnapshotHandled)) in E2 as [F2 ->]; [|apply renders_emit]. cbn [id].
  assert (frame s s1 /\ rendered s1 = if m_renderingEnabled snapshot then shown snapshot (rap s)
            else rendered s ∖ dom (m_aircraftInRange (rap s))) as [F1 R1]; [|split; [by etransitivity | done]].
  clear s' o2 F2. destruct (m_renderingEnabled snapshot); apply run_bind_inv in E as (r & s2 & o2 & o3 & E2 & E & ->).
  - apply removeMultiple_renders in E2 as [F2 R2]. rewrite run_get in E.
    apply run_bind_inv in E as ([] & s3 & o4 & o5 & E3 & E & ->). injection E as _ <- _.
    apply addAll_renders in E3 as [F3 R3]. split; [by etransitivity|].
    rewrite R3, R2, inRange_keys, found_callsigns by (eapply ownCallsigns_view; [symmetry; apply F2 | done]).
    rewrite (dom_view _ _ (frame_range _ _ F2)). apply set_updated.
  - injection E as _ <- _. by apply (removeAll_renders now s r s2 o2).
Qed.

(** What has been handled is handled: the same snapshot changes nothing more and
    says nothing while no aircraft of it leaves or comes into range. *)
Lemma snapshot_settled snapshot now s : handled snapshot s -> m_renderingEnabled snapshot = true ->
  rendered s = shown snapshot (rap s) ->
  rapOnRecalculatedRenderedAircraft now snapshot s = (tt, s, []).
Proof using SL.
  intros Hh He Hs. rewrite (handled_run _ _ _ Hh). destruct Hh as (Hv & Hr & _).
  unfold onRecalculatedRenderedAircraft. rewrite Hv. cbn [negb]. rewrite <-negb_orb, Hr. cbn [negb].
  rewrite run_get, He. cbv zeta. rewrite inRange_keys.
  change (physicallyRenderedAircraft (driver s)) with (rendered s). rewrite Hs. fold (shown snapshot (rap s)).
  rewrite difference_diag_L.
  assert (Hn : findByCallsigns ∅ (getAircraftInRange (rap s)) = []).
  { unfold findByCallsigns. apply filter_nil_iff || (induction (getAircraftInRange (rap s)) as [|a l IH]; [done|];
      rewrite filter_cons, decide_False by set_solver; exact IH). }
  unfold physicallyRemoveMultipleRemoteAircraft. rewrite elements_empty, size_empty. cbn [sim_forEach].
  unfold mbind, Sim_bind, mret, Sim_ret, sim_get. cbn [Z.of_nat Z.ltb Z.compare orb fst snd app]. rewrite Hn.
  by rewrite bool_decide_eq_true_2.
Qed.
End snapshots.

(** ** From the provider over the analyzer to the simulator *)

Section attributes.
Context {FG : FlightGeometry} {AK : AircraftKind} {SB : StdSortBy}.
Lemma restrictTo_attributes maxAircraft d l : forall count s,
  let s' := restrictTo maxAircraft d count l s in
  m_timestampMsSinceEpoch s' = m_timestampMsSinceEpoch s /\ m_restricted s' = m_restricted s /\
  m_renderingEnabled s' = m_renderingEnabled s.
Proof using Type.
  induction l as [|a l IH]; intros count s; [done|]. cbn [restrictTo]. cbv zeta in IH |- *.
  repeat case_match; match goal with |- context [restrictTo _ _ ?n l ?s1] => destruct (IH n s1) as (-> & -> & ->) end;
    by destruct s.
Qed.
Lemma snapshot_attributes now l restricted renderingEnabled maxAircraft d :
  let s := CAirspaceAircraftSnapshot_make now l restricted renderingEnabled maxAircraft d in
  m_timestampMsSinceEpoch s = now /\ m_restricted s = restricted /\ m_renderingEnabled s = renderingEnabled.
Proof using Type.
  cbv zeta. unfold CAirspaceAircraftSnapshot_make. case_decide; [done|]. repeat case_match; try done.
  match goal with |- context [restrictTo ?m ?d ?n ?l ?s1] => destruct (restrictTo_attributes m d l n s1) as (-> & -> & ->) end.
  done.
Qed.
End attributes.

Section limits.
Context {FG : FlightGeometry} {QC : QtConv} {SS : StdSort} {AK : AircraftKind} `{StdSortByLaws}.
Context {SG : SimulatorGeometry} {D : Type} {SD : SimulatorDriver D} {SL : SimulatorDriverLaws D}.
Implicit Types (now : Z) (s : ISimulator D) (p : CRemoteAircraftProvider) (a : CSimulatedAircraft).

(** The restrictions the driver has announced have reached the analyzer. *)
Definition restrictionsOf (setup : CInterpolationAndRenderingSetupGlobal) (analyzer : CAirspaceAnalyzer) : Prop :=
  m_simulatorRenderedAircraftRestricted analyzer = isRenderingRestricted setup /\
  m_simulatorRenderingEnabled analyzer = isRenderingEnabled setup /\
  m_simulatorMaxRenderedAircraft analyzer = getMaxRenderedAircraft setup /\
  m_simulatorMaxRenderedDistance analyzer = m_maxRenderedDistance setup.

End limits.

(** ** Without restrictions *)

Section unrestricted.
Context {FG : FlightGeometry} {QC : QtConv} {SS : StdSort} {SG : SimulatorGeometry} {D : Type} {SD : SimulatorDriver D} {SL : SimulatorDriverLaws D}.
Implicit Types (now : Z) (s : ISimulator D) (a : CSimulatedAircraft).

(** An aircraft is added when its model is valid, it is enabled and nothing is
    restricted, which the result tells; nothing else is rendered or no longer. *)
Lemma logicallyAdd_result a s r s' o : logicallyAddRemoteAircraft a s = (r, s', o) ->
  r = validateModelOfAircraft a && m_enabled a && negb (renderingRestricted s) /\
  rendered s' = if r then {[callsignOf a]} ∪ rendered s else rendered s.
Proof using SL.
  unfold logicallyAddRemoteAircraft. destruct (validateModelOfAircraft a); cbn [negb andb].
  - rewrite run_get. destruct (m_enabled a); cbn [negb andb]; [|by intros [= <- <- <-]].
    destruct (renderingRestricted s); cbn [negb]; [by intros [= <- <- <-]|].
    intros ([] & s1 & o1 & o2 & [_ H1]%callAdd_renders & [= <- <- <-] & ->)%run_bind_inv. done.
  - intros (b1 & s1 & o1 & o2 & E1 & (b2 & s2 & o3 & o4 & E2 & [= <- <- <-] & ->)%run_bind_inv & ->)%run_bind_inv.
    split; [done|]. unfold withRap in E1, E2. case_match; case_match; simplify_eq. by destruct s.
Qed.
Lemma logicallyRemove_result now cs s r s' o : logicallyRemoveRemoteAircraft now cs s = (r, s', o) ->
  r = negb (renderingRestricted s) /\ rendered s' = if r then rendered s ∖ {[asString cs]} else rendered s.
Proof using SL.
  unfold logicallyRemoveRemoteAircraft. rewrite run_get. destruct (renderingRestricted s); cbn [negb]; [by intros [= <- <- <-]|].
  rewrite run_set. intros ([] & s1 & o1 & o2 & [_ H1]%callRemove_renders & [= <- <- <-] & ->)%run_bind_inv.
  split; [done|]. rewrite H1. by destruct s.
Qed.
(** The interval between two requests is computed after the time of the last one
    has been replaced. *)
Lemma requested_delta now startTime limited s u s' o : 0 < startTime ->
  finishUpdateRemoteAircraftAndSetStatistics now startTime limited s = (u, s', o) ->
  m_statsUpdateAircraftRequestedDeltaMs s' = 0.
Proof using Type.
  intros Hs. unfold finishUpdateRemoteAircraftAndSetStatistics. rewrite !run_set, run_get.
  intros ([] & s1 & o1 & o2 & E & Hrun & ->)%run_bind_inv. rewrite !run_set in Hrun.
  assert (m_statsLastUpdateAircraftRequestedMs s1 = startTime) as Hl
    by (destruct (isUpdateAllRemoteAircraft _ _) in E; injection E as <- _; by destruct s).
  assert (Hz : m_statsUpdateAircraftRequestedDeltaMs
            (s1 <| m_statsUpdateAircraftRequestedDeltaMs := startTime - m_statsLastUpdateAircraftRequestedMs s1 |>) = 0)
    by (rewrite Hl; destruct s1; cbn; unfold constant; lia).
  destruct s1 as [? ? ? ? ? ? ? ? ? ? ? ? ? ? ? ? last ? ? ? ? ? ? ? ? ? ? ? ? ? ?]. cbn in Hl. subst last.
  cbn in Hrun. rewrite (proj2 (Z.ltb_lt 0 startTime) Hs) in Hrun. destruct limited; cbn in Hrun; injection Hrun as _ <- _; cbn;
    unfold constant; lia.
Qed.
End unrestricted.

(** ** The emulated driver *)

Section emulated.
Context {FG : FlightGeometry}.
Implicit Types (callsign : CCallsign) (aircraft : CSimulatedAircraft).

Lemma getCallsigns_snoc l a : getCallsigns (l ++ [a]) = {[callsignOf a]} ∪ getCallsigns l.
Proof using Type. rewrite getCallsigns_app, getCallsigns_cons. unfold getCallsigns at 2. simpl. set_solver. Qed.
Lemma getCallsigns_removed callsign l : getCallsigns (removeByCallsign callsign l) = getCallsigns l ∖ {[asString callsign]}.
Proof using Type.
  unfold removeByCallsign. induction l as [|a l IH]; [unfold getCallsigns; simpl; set_solver|].
  rewrite filter_cons, getCallsigns_cons. case_decide; [rewrite getCallsigns_cons|]; rewrite IH; set_solver.
Qed.
Lemma contains_callsign callsign l : containsCallsign callsign l = bool_decide (asString callsign ∈ getCallsigns l).
Proof using Type.
  apply eq_true_iff_eq. unfold containsCallsign. rewrite existsb_exists, bool_decide_eq_true, elem_of_getCallsigns.
  split; intros (a & H1 & H2); exists a; rewrite list_elem_of_In, ?bool_decide_eq_true in *; auto.
Qed.
(** Marking an aircraft as rendered changes nothing the view has. *)
Lemma rendered_view cs b p : rangeView (updateAircraftRendered cs b p).2 = rangeView p.
Proof using Type.
  unfold updateAircraftRendered, updateAircraft. destruct (m_aircraftInRange p !! asString cs) as [a|] eqn:E; [|done].
  assert (Hv : callsignOf (setRendered b a).2 = callsignOf a /\ m_enabled (setRendered b a).2 = m_enabled a)
    by (unfold setRendered; case_match; by destruct a).
  destruct (setRendered b a) as [changed a']. cbn in Hv. destruct Hv as [H1 H2]. unfold rangeView.
  transitivity ((fun a => (callsignOf a, m_enabled a)) <$> <[asString cs := a']> (m_aircraftInRange p)); [by destruct p|].
  rewrite fmap_insert, H1, H2. apply insert_id. by rewrite lookup_fmap, E.
Qed.
#[export] Instance CSimulatorEmulated_laws : SimulatorDriverLaws CSimulatorEmulated.
Proof using Type.
  split.
  - intros a s r s' o Hrun. cbn in Hrun. unfold emulated_physicallyAddRemoteAircraft in Hrun. unfold onDriver in Hrun.
    rewrite run_set in Hrun.
    apply run_bind_inv in Hrun as (b & s1 & o1 & o2 & E & Hrun & ->).
    apply run_bind_inv in Hrun as ([] & s2 & o3 & o4 & [= <- <-] & [= <- <- <-] & ->).
    unfold withRap in E. pose proof (rendered_view (ac_callsign a) true (rap s)) as Hv.
    destruct s as [p d]. cbn in E, Hv |- *. destruct (updateAircraftRendered _ _ _) as [b' p']. injection E as _ <- _.
    split; [by constructor|]. etransitivity; [apply (getCallsigns_snoc (m_renderedAircraft d))|]. by destruct a.
  - intros cs s r s' o Hrun. cbn in Hrun. unfold emulated_physicallyRemoveRemoteAircraft, onDriver in Hrun.
    rewrite run_get, run_set in Hrun.
    apply run_bind_inv in Hrun as (b & s1 & o1 & o2 & E & Hrun & ->).
    apply run_bind_inv in Hrun as (b2 & s2 & o3 & o4 & [= <- <- <-] & [= <- <- <-] & ->).
    unfold withRap in E. pose proof (rendered_view cs false (rap s)) as Hv.
    destruct s as [p d]. cbn in E, Hv |- *. destruct (updateAircraftRendered _ _ _) as [b' p']. injection E as _ <- _.
    split; [by constructor|]. unfold rendered. cbn. apply getCallsigns_removed.
  - intros cs d. apply contains_callsign.
Qed.
End emulated.

(** ** Examples *)

#[local] Existing Instances plainGeometry plainKind refQt.
#[local] Instance plainSimulator : SimulatorGeometry := {|
  hasModelString _ := true; model_isCallsignEmpty _ := false; equalPbhVectorAltitudeElevation _ _ := true |}.

(** Three aircraft in range, a driver with nothing rendered and the limits of one
    aircraft within 8 km, and the analyzer with a first snapshot. *)
Definition limitedSetup : CInterpolationAndRenderingSetupGlobal :=
  snd (setMaxRenderedDistance (metres 8000) (snd (setMaxRenderedAircraft 1 CInterpolationAndRenderingSetupGlobal_default))).
Definition threeInRange : CRemoteAircraftProvider :=
  foldl (fun p a => (addNewAircraftInRange a p).1.2) CRemoteAircraftProvider_init threeAircraft.
Definition emulatedSimulator : ISimulator CSimulatorEmulated := ISimulator_make 0 threeInRange CSimulatorEmulated_init.
Definition watchingAnalyzer : CAirspaceAnalyzer :=
  fst (analyzeAirspace 1000 (getAircraftInRange threeInRange)
    (setSimulatorRenderRestrictionsChanged (isRenderingRestricted limitedSetup) (isRenderingEnabled limitedSetup)
       (getMaxRenderedAircraft limitedSetup) (m_maxRenderedDistance limitedSetup) (CAirspaceAnalyzer_make 0))).
Definition limitedSnapshot : CAirspaceAircraftSnapshot :=
  m_latestAircraftSnapshot (fst (analyzeAirspace 8500 (getAircraftInRange threeInRange) watchingAnalyzer)).
Definition afterSnapshot : ISimulator CSimulatorEmulated :=
  (rapOnRecalculatedRenderedAircraft 8600 limitedSnapshot emulatedSimulator).1.2.

Lemma threeInRange_sortable : sortable (getAircraftInRange threeInRange).
Proof.
  assert (E : getAircraftInRange threeInRange =
            [aircraftAt "AFR3" (metres 7000); aircraftAt "BAW2" (metres 500); aircraftAt "DLH1" (metres 9000)])
    by vm_cast_no_check (eq_refl (getAircraftInRange threeInRange)).
  rewrite E. clear E. apply (clear_sortable LengthUnit_m); [split|].
  - intros a Ha. members Ha; vm_compute; repeat constructor.
  - intros a b Ha Hb. members Ha; members Hb; vm_compute; done.
  - apply (bool_decide_unpack _). vm_compute. done.
Qed.
Lemma threeInRange_own : ownCallsigns threeInRange.
Proof. apply (bool_decide_unpack _). by vm_compute. Qed.


Lemma snapshot_rendered_witness :
  frame emulatedSimulator afterSnapshot /\ rendered afterSnapshot = shown limitedSnapshot threeInRange.
Proof.
  refine (snapshot_rendered limitedSnapshot 8600 emulatedSimulator afterSnapshot
    (rapOnRecalculatedRenderedAircraft 8600 limitedSnapshot emulatedSimulator).2 threeInRange_own _ _).
  - split_and!; vm_compute; reflexivity.
  - vm_compute. reflexivity.
Defined.

(** *** Where the restrictions leak *)

Definition simulatorWith (setup : CInterpolationAndRenderingSetupGlobal) : ISimulator CSimulatorEmulated :=
  (sim_setInterpolationSetupGlobal 0 setup emulatedSimulator).1.2.
(** What is rendered, as it can be compared. *)
Definition renderedCallsigns (s : ISimulator CSimulatorEmulated) : list QString := elements (rendered s).
Definition dlh1 : CSimulatedAircraft := aircraftAt "DLH1" (metres 9000).

(** A rendering that is disabled counts as one without restrictions: an aircraft
    that comes into range is rendered all the same, and the snapshots that follow,
    which are not restricted, leave it. *)
Example disabled_rendering_adds :
  let setup := disableRendering CInterpolationAndRenderingSetupGlobal_default in
  let analyzer := setSimulatorRenderRestrictionsChanged (isRenderingRestricted setup) (isRenderingEnabled setup)
                    (getMaxRenderedAircraft setup) (m_maxRenderedDistance setup) (CAirspaceAnalyzer_make 0) in
  let snapshot n := m_latestAircraftSnapshot
    (foldl (fun a t => fst (analyzeAirspace t (getAircraftInRange threeInRange) a)) analyzer (take n [7500; 15000; 22500])) in
  isRenderingEnabled setup = false /\
  renderedCallsigns (fst (simulator_run (simulatorWith setup)
    [(1, LogicallyAdd dlh1); (15001, SnapshotTaken (snapshot 2%nat)); (22501, SnapshotTaken (snapshot 3%nat))])) = [lit "DLH1"].
Proof. by vm_compute. Qed.

(** With restrictions an aircraft is neither removed nor added again by a re-add,
    which reports success. *)
Example readd_without_effect :
  let s := fst (simulator_run (simulatorWith limitedSetup) [(8600, SnapshotTaken limitedSnapshot)]) in
  let '(r, s', _) := logicallyReAddRemoteAircraft 9000 (CCallsign_make (lit "DLH1") Aircraft) s in
  r = true /\ renderedCallsigns s' = renderedCallsigns s /\ fst <$> sim_timers s' !! 1%nat = Some 11500 /\
  renderedCallsigns (fst (simulator_run s' [(11500, SimTimerDue 1%nat)])) = renderedCallsigns s.
Proof. by vm_compute. Qed.

(** Removing all aircraft asks the provider which there are: one that has left the
    range stays. *)
Example remove_all_leaves_one :
  let s := fst (simulator_run emulatedSimulator
    [(1, LogicallyAdd dlh1);
     (2, ProviderChanged (fun p => (removeAircraft (ac_callsign dlh1) p).2)); (3, PhysicallyRemoveAll)]) in
  renderedCallsigns s = [lit "DLH1"].
Proof. by vm_compute. Qed.

(** A removal is counted as an addition as well. *)
Example removal_counted_twice :
  let s := fst (simulator_run emulatedSimulator [(1, LogicallyAdd dlh1); (2, LogicallyRemove (ac_callsign dlh1))]) in
  m_statsPhysicallyAddedAircraft s = 2 /\ m_statsPhysicallyRemovedAircraft s = 1.
Proof. by vm_compute. Qed.

(** Clearing the data of one callsign clears the situations of all. *)
Example loopback_of_all_cleared (situation : RemoteSituation) (s : ISimulator CSimulatorEmulated) :
  m_loopbackSituations (clearData 0 (CCallsign_make (lit "BAW2") Aircraft)
    (s <| m_loopbackSituations ::= insert (lit "DLH1") (ofSequence [situation]) |>)).1.2 = ∅.
Proof.
  unfold clearData. rewrite run_set, run_bind. destruct (onSetups _ _ _) as [[b s1] o1] eqn:E. cbn.
  unfold onSetups in E. rewrite run_get in E. destruct (removeInterpolationSetupPerCallsign _ _) as [[b1 p] e].
  rewrite run_set, run_bind in E. destruct e; cbn in E; injection E as <- <- <-; by destruct s.
Qed.

(** Twenty-five updates a second become thirty, and one a second is a bucket from
    which no token can be taken by the condition its own function asserts. *)
Example limits : tokensAndInterval 25 = (3, 100) /\ tokensAndInterval 12 = (3, 250) /\ tokensAndInterval 1 = (1, 1000).
Proof. by vm_compute. Qed.

(** The flag of the shutdown is never set, as it is asked for before. *)
Lemma listener_never_shuts_down running :
  onAboutToShutdown (mkListener running false) = (mkListener running false, []).
Proof. done. Qed.
