(* ===== verification/TextMessages.v ===== *)
(** * Text messages (misc/network/textmessage.cpp, textmessagelist.cpp,
    misc/aviation/atcstationlist.cpp)

    What the client and the context ask of a message and of lists of messages,
    and the form of a message that is relayed to a partner. *)

From S2P Require Export ComSystem FsdTypes.

Open Scope Z_scope.

(** ** Single messages *)

Definition swiftRelayMessage : QString := lit "swift relayed: ".
Abbreviation semicolon := 59%N.

(** [QString::remove] of a string. *)
Fixpoint removeWith (fuel : nat) (s sub : QString) : QString :=
  match fuel, s with
  | O, _ | _, [] => s
  | S fuel, c :: s' => if startsWith s sub && negb (isEmpty sub)
                       then removeWith fuel (drop (length sub) s) sub
                       else c :: removeWith fuel s' sub
  end.
Definition removeSub (s sub : QString) : QString := removeWith (length s) s sub.

Section messages.
Context `{QtConv}.

Definition tm_isEmpty (m : CTextMessage) : bool := isEmpty (tm_message m).
Definition isRelayedMessage (m : CTextMessage) : bool :=
  tm_relayedMessage m || startsWith (tm_message m) swiftRelayMessage.
Definition markAsSent (now : Z) (m : CTextMessage) : CTextMessage :=
  mkTextMessage (tm_message m) (tm_sender m) (tm_recipient m) (tm_frequencykHz m)
    (if tm_timestamp m <? 0 then now else tm_timestamp m) true (tm_relayedMessage m).

Definition setTypeHint (h : TypeHint) (c : CCallsign) : CCallsign :=
  mkCallsign (m_callsignAsSet c) (m_callsign c) (m_telephonyDesignator c) h.

Definition makeRelayedMessage (partnerCallsign : CCallsign) (m : CTextMessage) : CTextMessage :=
  if startsWith (tm_message m) swiftRelayMessage then m
  else mkTextMessage
         (swiftRelayMessage ++ asString (tm_sender m) ++ lit " " ++ asString (tm_recipient m)
          ++ lit ";" ++ tm_message m)
         (tm_sender m) (setTypeHint Aircraft partnerCallsign) (tm_frequencykHz m) (tm_timestamp m)
         (tm_wasSent m) true.

(** The message with the original sender and recipient; [None] when it is left
    as it is. *)
Definition relayedMessageToPrivateMessage (m : CTextMessage) : option CTextMessage :=
  if negb (isRelayedMessage m) then None
  else match indexOf semicolon (tm_message m) with
       | None => None
       | Some index =>
           if (index <? length swiftRelayMessage)%nat then None
           else if (length (tm_message m) <=? index + 1)%nat then None
           else
             match split 32%N (trimmed (removeSub (left (tm_message m) index) swiftRelayMessage)) with
             | [originalSender; originalRecipient] =>
                 Some (mkTextMessage (mid (tm_message m) (index + 1))
                         (CCallsign_make originalSender NoHint) (CCallsign_make originalRecipient NoHint)
                         (tm_frequencykHz m) (tm_timestamp m) (tm_wasSent m) (tm_relayedMessage m))
             | _ => None
             end
       end.

Definition isServerMessage (m : CTextMessage) : bool :=
  tm_isPrivate m && startsWithCI (asString (tm_sender m)) (lit "SERVER").
Definition isBroadcastMessage (m : CTextMessage) : bool := isBroadcastCallsign (tm_recipient m).
Definition isWallopMessage (m : CTextMessage) : bool := eqs (getStringAsSet (tm_recipient m)) "*S".
Definition toggleSenderRecipient (m : CTextMessage) : CTextMessage :=
  mkTextMessage (tm_message m) (tm_recipient m) (tm_sender m) (tm_frequencykHz m) (tm_timestamp m)
    (tm_wasSent m) (tm_relayedMessage m).
Definition mentionsCallsign (callsign : CCallsign) (m : CTextMessage) : bool :=
  if callsignEmpty callsign then false
  else if (length (tm_message m) <? length (asString callsign))%nat then false
  else containsCI (tm_message m) (asString callsign).

(** ** Lists *)

Definition getPrivateMessages (l : list CTextMessage) : list CTextMessage := filter tm_isPrivate l.
Definition containsPrivateMessages (l : list CTextMessage) : bool := existsb tm_isPrivate l.
Definition getSupervisorMessages (l : list CTextMessage) : list CTextMessage := filter tm_isSupervisor l.
Definition getRadioMessages (l : list CTextMessage) : list CTextMessage := filter tm_isRadio l.
Definition findBySender (sender : CCallsign) (l : list CTextMessage) : list CTextMessage :=
  filter (fun m => callsignEqual (tm_sender m) sender) l.
Definition findByRecipient (recipient : CCallsign) (l : list CTextMessage) : list CTextMessage :=
  filter (fun m => callsignEqual (tm_recipient m) recipient) l.
Definition findByNotForRecipient (recipient : CCallsign) (l : list CTextMessage) : list CTextMessage :=
  if callsignEmpty recipient then []
  else filter (fun m => negb (callsignEmpty (tm_recipient m)) &&
                        negb (callsignEqual (tm_recipient m) recipient)) l.
Definition withRelayedToPrivateMessages (l : list CTextMessage) : list CTextMessage :=
  map (fun m => default m (relayedMessageToPrivateMessage m)) l.
Definition withRemovedPrivateMessagesFromCallsign (callsign : CCallsign) (l : list CTextMessage) :
    list CTextMessage :=
  if callsignEmpty callsign then l
  else filter (fun m => negb (tm_isPrivate m && callsignEqual (tm_sender m) callsign)) l.
Definition markedAsSent (now : Z) (l : list CTextMessage) : list CTextMessage := map (markAsSent now) l.
End messages.

(** The ATC stations on a frequency. *)
Definition findIfFrequencyIsWithinSpacing (frequency : option Z) (l : list CAtcStation) :
    list CAtcStation :=
  match frequency with
  | None => []
  | _ => filter (fun s => isSameFrequency frequency (Some (atc_frequencykHz s))) l
  end.
