(* ===== verification/NetworkConfig.v ===== *)
(** * The configuration of a network (misc/network/networkconfig.h, .cpp; url.cpp)

    What an operator publishes as fsd-configuration.json: how it is read, and
    the rules for connecting again after a lost connection: the delay before an
    attempt and the callsign of an attempt.  The members of the class are in
    [FsdTypes].  QUrl and [std::pow] are parameters. *)

From S2P Require Export FsdTypes.

Open Scope Z_scope.

(** ** URLs (misc/network/url.h, .cpp) *)

(** The components of a QUrl; the port is -1 when there is none. *)
Record QUrl := mkQUrl {
  q_scheme : QString; q_host : QString; q_port : Z; q_path : QString; q_query : QString;
  q_fragment : QString }.
Class QtUrl := { qt_url : QString -> QUrl }.

Record CUrl := mkUrl {
  m_scheme : QString; m_host : QString; m_port : Z; m_path : QString; m_query : QString;
  m_fragment : QString }.

(** [QString::replace] of a string, from left to right without overlap. *)
Fixpoint replaceWith (fuel : nat) (s before after : QString) : QString :=
  match fuel, s with
  | O, _ | _, [] => s
  | S fuel, c :: s' =>
      if startsWith s before && negb (isEmpty before)
      then after ++ replaceWith fuel (drop (length before) s) before after
      else c :: replaceWith fuel s' before after
  end.
Definition replaceAll (s before after : QString) : QString := replaceWith (length s) s before after.

Section url.
Context `{QtConv, U : QtUrl}.

Definition stripQueryString (query : QString) : QString :=
  let q := trimmed query in
  let q := if startsWith q (lit "?") || startsWith q (lit "&") then mid q 1 else q in
  if endsWith q (lit "?") || endsWith q (lit "&") then left q (length q - 1) else q.

Definition protocolToDefaultPort (protocol : QString) : Z :=
  let p := qt_toLower (trimmed protocol) in
  if eqs p "ftp" then 20 else if eqs p "https" then 443 else if eqs p "http" then 80 else -1.
Definition isDefaultPort (protocol : QString) (port : Z) : bool :=
  let p := protocolToDefaultPort protocol in if p <? 0 then false else port =? p.

Definition setQUrl (url : QUrl) : CUrl :=
  mkUrl (replaceAll (qt_toLower (trimmed (q_scheme url))) (lit "://") []) (trimmed (q_host url))
    (q_port url) (simplified (q_path url)) (stripQueryString (q_query url)) (q_fragment url).

(** The slashes are merged in what stands before the path or the fragment, too. *)
Definition getFullUrl (u : CUrl) : QString :=
  if isEmpty (m_host u) then []
  else
    let qn := m_host u in
    let qn := if negb (isDefaultPort (m_scheme u) (m_port u)) && (0 <=? m_port u)
              then qn ++ lit ":" ++ qt_number (m_port u) else qn in
    let qn := if negb (isEmpty (m_path u)) then replaceAll (qn ++ lit "/" ++ m_path u) (lit "//") (lit "/")
              else qn in
    let qn := if negb (isEmpty (m_fragment u))
              then replaceAll (qn ++ lit "#" ++ m_fragment u) (lit "//") (lit "/") else qn in
    let qn := if negb (isEmpty (m_query u)) then qn ++ lit "?" ++ m_query u else qn in
    if negb (isEmpty (m_scheme u)) then m_scheme u ++ lit "://" ++ qn else qn.

(** A URL that is set from a text and read back as one. *)
Definition setFullUrl (fullUrl : QString) : QString := getFullUrl (setQUrl (qt_url fullUrl)).
End url.

(** ** Reading the file *)

Section config.
Context `{QtConv, U : QtUrl}.

(** A URL is set when the member is a string that is not empty. *)
Definition urlMember (v : option QJsonValue) : QString :=
  match v with Some (JString s) => if isEmpty s then [] else setFullUrl s | _ => [] end.

Definition reconnectFromJson (reconnect : QJsonObject) : ReconnectConfig :=
  let multiplier := doubleOr (f64_of_Z 2) (value (lit "backoff_multiplier") reconnect) in
  mkReconnect (boolOr false (value (lit "enabled") reconnect))
    (Z.max 0 (intOr 0 (value (lit "max_attempts") reconnect)))
    (Z.max 0 (intOr 5 (value (lit "initial_delay_sec") reconnect)))
    (if SFltb multiplier (f64_of_Z 1) then f64_of_Z 1 else multiplier)
    (Z.max 0 (intOr 60 (value (lit "max_delay_sec") reconnect)))
    (boolOr false (value (lit "append_attempt_to_callsign") reconnect)).

Definition flagsFromJson (fsd : QJsonObject) : ConfigFlags :=
  let pair k := toObject (value (lit k) fsd) in
  mkConfigFlags (boolOr true (value (lit "send") (pair "aircraft_parts")))
    (boolOr true (value (lit "receive") (pair "aircraft_parts")))
    (boolOr false (value (lit "send") (pair "interim_positions")))
    (boolOr false (value (lit "receive") (pair "interim_positions")))
    (boolOr true (value (lit "send") (pair "gnd_flag")))
    (boolOr true (value (lit "receive") (pair "gnd_flag")))
    (boolOr false (value (lit "send_visual_positions") fsd))
    (boolOr false (value (lit "send_fpl_icao_equipment") fsd))
    (boolOr false (value (lit "receive_euroscope_simdata") fsd))
    (boolOr false (value (lit "force_3_letter_airline_icao") fsd)).

Definition servicesFromJson (json : QJsonObject) : ConfigServices :=
  let net := toObject (value (lit "network") json) in
  let data := toObject (value (lit "data") json) in
  let voice := toObject (value (lit "voice") json) in
  mkConfigServices (stringOr [] (value (lit "description") net)) (intOr 1 (value (lit "version") json))
    (urlMember (value (lit "network_data_url") data)) (urlMember (value (lit "metar_url") data))
    (intOr 120 (value (lit "data_polling_interval_sec") data)) (intOr (-1) (value (lit "max_range_nm") data))
    (boolOr false (value (lit "enabled") voice)) (urlMember (value (lit "api_url") voice))
    (urlMember (value (lit "map_url") voice)).

Definition fromJson (json : QJsonObject) : CNetworkConfig :=
  let net := toObject (value (lit "network") json) in
  let fsd := toObject (value (lit "fsd") json) in
  mkNetworkConfig (stringOr [] (value (lit "name") net)) (urlMember (value (lit "servers_url") fsd))
    (stringOr (lit "classic") (value (lit "protocol") fsd)) (boolOr false (value (lit "challenge") fsd))
    (stringOr (lit "plain") (value (lit "auth") fsd)) (urlMember (value (lit "auth_url") fsd))
    (urlMember (value (lit "load_balancing_url") fsd))
    (stringOr (lit "UTF-8") (value (lit "text_codec") fsd))
    (reconnectFromJson (toObject (value (lit "reconnect") fsd))) (flagsFromJson fsd)
    (servicesFromJson json).

Definition CNetworkConfig_default : CNetworkConfig :=
  mkNetworkConfig [] [] (lit "classic") false (lit "plain") [] [] (lit "UTF-8")
    ReconnectConfig_default ConfigFlags_default ConfigServices_default.
End config.

(** The part of [toFsdSetup] the client reads; the flags for the ground are
    not members of the model of CFsdSetup. *)
Definition toFsdSetup (c : CNetworkConfig) : CFsdSetup :=
  let f := configFlags c in
  mkSetup (m_sendAircraftParts f) (m_receiveAircraftParts f) (m_sendInterimPositions f)
    (m_receiveInterimPositions f) (m_sendVisualPositions f) (m_receiveEuroscopeSimData f)
    (m_sendFplIcaoEquipment f) (m_force3LetterAirlineIcao f) (fsdTextCodec c).

(** ** Connecting again *)

Definition isReconnectEnabled (c : CNetworkConfig) : bool :=
  m_reconnectEnabled (configReconnect c) && (0 <? m_reconnectMaxAttempts (configReconnect c)).
Definition getReconnectMaxAttempts (c : CNetworkConfig) : Z := m_reconnectMaxAttempts (configReconnect c).

(** [std::pow] with an integer exponent; exact where the result is a double. *)
Class CMath := { c_pow : double -> Z -> double }.
Definition pow2 (n : Z) : double := S754_finite false (2 ^ 52) (n - 52).
Class CMathLaws `{CMath} := {
  c_pow_two n : 0 <= n < 1024 -> c_pow (f64_of_Z 2) n = pow2 n
}.

(** [std::min], [std::round], and the conversion to [int], undefined for what
    is no [int]. *)
Definition std_min (a b : double) : double := if SFltb b a then b else a.
Definition std_round (x : double) : option Z :=
  match x with
  | S754_zero _ => Some 0
  | S754_finite s m e =>
      let a := if 0 <=? e then Z.shiftl (Z.pos m) e
               else Z.shiftr (Z.pos m + Z.shiftl 1 (- e - 1)) (- e) in
      Some (if s then - a else a)
  | _ => None
  end.
Definition toIntChecked (x : option Z) : option Z :=
  match x with Some n => if decide (inS 32 n) then Some n else None | None => None end.

Section delay.
Context `{QtConv, M : CMath}.

Definition reconnectDelayMsForAttempt (c : CNetworkConfig) (attempt : Z) : option Z :=
  if attempt <=? 0 then Some 0
  else
    let r := configReconnect c in
    let delaySec := f64_mul (f64_of_Z (m_reconnectInitialDelaySec r))
                      (c_pow (m_reconnectBackoffMultiplier r) (attempt - 1)) in
    let cappedDelaySec := std_min delaySec (f64_of_Z (m_reconnectMaxDelaySec r)) in
    toIntChecked (std_round (f64_mul cappedDelaySec (f64_of_Z 1000))).

Definition reconnectCallsignForAttempt (c : CNetworkConfig) (baseCallsign : QString) (attempt : Z) :
    QString :=
  if negb (m_reconnectAppendAttemptToCallsign (configReconnect c)) || (attempt <=? 0) then baseCallsign
  else baseCallsign ++ qt_number attempt.
End delay.

(** ** The network of the user (misc/network/network.h, .cpp) *)

Record CNetwork := mkNetwork {
  net_config : CNetworkConfig; m_isConfigLoaded : bool; m_userReconnectExplicit : bool;
  m_userReconnectEnabled : bool }.
Definition hasLoadedConfig (n : CNetwork) : bool := m_isConfigLoaded n || config_isValid (net_config n).
Definition isReconnectSupported (n : CNetwork) : bool := isReconnectEnabled (net_config n).
Definition getUserReconnectEnabled (n : CNetwork) : bool :=
  if negb (isReconnectSupported n) then false
  else if negb (m_userReconnectExplicit n) then true else m_userReconnectEnabled n.
Definition setUserReconnectEnabled (enabled : bool) (n : CNetwork) : CNetwork :=
  mkNetwork (net_config n) (m_isConfigLoaded n) true enabled.
Definition copyUserReconnectPreferenceFrom (other n : CNetwork) : CNetwork :=
  mkNetwork (net_config n) (m_isConfigLoaded n) (m_userReconnectExplicit other)
    (m_userReconnectEnabled other).

(** ** What is read is in order *)

(** The rules for connecting again that the rest of the program works with. *)
Definition reconnectOk (r : ReconnectConfig) : Prop :=
  0 <= m_reconnectMaxAttempts r <= int32_max /\ 0 <= m_reconnectInitialDelaySec r <= int32_max /\
  0 <= m_reconnectMaxDelaySec r <= int32_max /\
  SFltb (m_reconnectBackoffMultiplier r) (f64_of_Z 1) = false.

Lemma intOr_range d v : inS 32 d -> inS 32 (intOr d v).
Proof. intros Hd. unfold intOr. by cases. Qed.

(** Whatever the file holds, missing members, wrong types and negative numbers
    included, the rules that are read from it are in order. *)
Theorem fromJson_reconnect_ok `{QtConv, U : QtUrl} json : reconnectOk (configReconnect (fromJson json)).
Proof.
  unfold fromJson, reconnectFromJson. simpl. set (r := toObject _).
  assert (Hi : forall d k, inS 32 d -> 0 <= Z.max 0 (intOr d (value (lit k) r)) <= int32_max).
  { intros d k Hd. apply (intOr_range d (value (lit k) r)) in Hd. unfold inS, int32_max in *. lia. }
  split_and!; simpl; try (apply Hi; unfold inS; lia).
  match goal with |- context [if ?b then _ else _] => destruct b eqn:E end; [reflexivity | exact E].
Qed.

(** *** Delays *)

(** With the documented defaults (five seconds, doubled for every attempt, at
    most a minute) the delays are 5, 10, 20, 40 and then 60 seconds. *)
Definition defaultDelays (n : Z) : bool :=
  let r := ReconnectConfig_default in
  let delaySec := f64_mul (f64_of_Z (m_reconnectInitialDelaySec r)) (pow2 (n - 1)) in
  bool_decide (toIntChecked (std_round (f64_mul (std_min delaySec (f64_of_Z (m_reconnectMaxDelaySec r)))
                                          (f64_of_Z 1000)))
               = Some (1000 * Z.min (5 * 2 ^ (n - 1)) 60)).
Lemma defaultDelays_all n : 1 <= n <= 1024 -> defaultDelays n = true.
Proof.
  intros Hn. apply (Zrange_forall_spec 1 1024 defaultDelays); [vm_compute; reflexivity | lia].
Qed.

(** The delays of the default configuration: five seconds, doubled with each
    attempt, at most a minute. *)
Theorem default_delays `{CMathLaws} c n :
  configReconnect c = ReconnectConfig_default -> 1 <= n <= 1024 ->
  reconnectDelayMsForAttempt c n = Some (1000 * Z.min (5 * 2 ^ (n - 1)) 60).
Proof.
  intros Hc Hn. unfold reconnectDelayMsForAttempt. rewrite Hc.
  destruct (Z.leb_spec n 0) as [|_]; [lia|].
  change (m_reconnectBackoffMultiplier ReconnectConfig_default) with (f64_of_Z 2).
  rewrite c_pow_two by lia. pose proof (defaultDelays_all n Hn) as Hd.
  by apply bool_decide_eq_true in Hd.
Qed.

(** A concrete power: repeated multiplication. *)
#[export] Instance refMath : CMath :=
  {| c_pow x n := Z.iter n (fun y => f64_mul y x) (f64_of_Z 1) |}.

(** The cap of the file is not bounded: with a large one the milliseconds are no
    [int], and the conversion is undefined. *)
Example delay_overflow :
  let r := mkReconnect true 3 3000000 (f64_of_Z 2) 3000000 false in
  reconnectDelayMsForAttempt (mkNetworkConfig [] [] [] false [] [] [] [] r ConfigFlags_default
    ConfigServices_default) 1 = None.
Proof. vm_compute. reflexivity. Qed.

(** *** Callsigns *)

(** The attempts of one base callsign have different callsigns. *)
Theorem reconnect_callsigns_differ `{QtConvLaws} c base m n :
  m_reconnectAppendAttemptToCallsign (configReconnect c) = true ->
  0 <= m <= int32_max -> 0 <= n <= int32_max ->
  reconnectCallsignForAttempt c base m = reconnectCallsignForAttempt c base n -> m = n.
Proof.
  intros Ha Hm Hn. unfold reconnectCallsignForAttempt. rewrite Ha. simpl.
  assert (Hne : forall k, base <> base ++ qt_number k).
  { intros k Hk. rewrite <- (app_nil_r base) in Hk at 1. apply app_inv_head in Hk.
    symmetry in Hk. by apply qt_number_nonempty in Hk. }
  destruct (Z.leb_spec m 0), (Z.leb_spec n 0); intros E; try lia; try (by apply Hne in E);
    try (by symmetry in E; apply Hne in E).
  apply app_inv_head, (f_equal toInt) in E.
  rewrite !toInt_number in E by (unfold inS, int32_max in *; lia). exact E.
Qed.

Lemma default_delays_witness :
  let L := {| c_pow x n := pow2 n |} in
  map (reconnectDelayMsForAttempt CNetworkConfig_default) [1; 2; 3; 4; 5; 6]
  = map Some [5000; 10000; 20000; 40000; 60000; 60000].
Proof.
  intros L. assert (LL : CMathLaws) by (split; intros; reflexivity).
  assert (E : forall n, 1 <= n <= 1024 ->
            reconnectDelayMsForAttempt CNetworkConfig_default n = Some (1000 * Z.min (5 * 2 ^ (n - 1)) 60))
    by (intros n Hn; exact (default_delays CNetworkConfig_default n eq_refl Hn)).
  simpl map. rewrite !E by lia. reflexivity.
Defined.
