(* ===== verification/Dispatch.v ===== *)
(** * Recognising a received line (core/fsd/fsdclient.cpp, parseMessage)

    The table of command prefixes and the split of a line in command, payload
    and tokens.  The table is a QHash, iterated in no particular order: what is
    recognised does not depend on it. *)

From S2P Require Export FsdTypes.

Module MessageType.
Inductive t :=
  | Unknown | AddAtc | AddPilot | AtcDataUpdate | AuthChallenge | AuthResponse
  | ClientIdentification | ClientQuery | ClientResponse | DeleteATC | DeletePilot
  | EuroscopeSimData | FlightPlan | ProController | FsdIdentification | KillRequest
  | PilotDataUpdate | VisualPilotDataUpdate | VisualPilotDataPeriodic | VisualPilotDataStopped
  | VisualPilotDataToggle | Ping | Pong | ServerError | ServerHeartbeat | TextMessage
  | PilotClientCom | Rehost | Mute.
#[global] Instance eq_dec : EqDecision t.
Proof. solve_decision. Defined.
End MessageType.

(** [initializeMessageTypes]. *)
Definition m_messageTypeMapping : list (QString * MessageType.t) :=
  [(lit "#AA", MessageType.AddAtc); (lit "#AP", MessageType.AddPilot);
   (lit "%", MessageType.AtcDataUpdate); (lit "$ZC", MessageType.AuthChallenge);
   (lit "$ZR", MessageType.AuthResponse); (lit "$ID", MessageType.ClientIdentification);
   (lit "$CQ", MessageType.ClientQuery); (lit "$CR", MessageType.ClientResponse);
   (lit "#DA", MessageType.DeleteATC); (lit "#DP", MessageType.DeletePilot);
   (lit "$FP", MessageType.FlightPlan); (lit "#PC", MessageType.ProController);
   (lit "$DI", MessageType.FsdIdentification); (lit "$!!", MessageType.KillRequest);
   (lit "@", MessageType.PilotDataUpdate); (lit "^", MessageType.VisualPilotDataUpdate);
   (lit "#SL", MessageType.VisualPilotDataPeriodic);
   (lit "#ST", MessageType.VisualPilotDataStopped);
   (lit "$SF", MessageType.VisualPilotDataToggle); (lit "$PI", MessageType.Ping);
   (lit "$PO", MessageType.Pong); (lit "$ER", MessageType.ServerError);
   (lit "#DL", MessageType.ServerHeartbeat); (lit "#TM", MessageType.TextMessage);
   (lit "#SB", MessageType.PilotClientCom); (lit "$XX", MessageType.Rehost);
   (lit "#MU", MessageType.Mute); (lit "SIMDATA", MessageType.EuroscopeSimData)].

(** The first key in the order of iteration that the line starts with. *)
Fixpoint findCommand (keys : list (QString * MessageType.t)) (line : QString) :
    QString * MessageType.t :=
  match keys with
  | [] => ([], MessageType.Unknown)
  | (str, ty) :: keys => if startsWith line str then (str, ty) else findCommand keys line
  end.

(** [messageTypeToString]: the key of a type, or nothing. *)
Definition messageTypeToString (mt : MessageType.t) : QString :=
  match list_find (fun k => k.2 = mt) m_messageTypeMapping with
  | Some (_, (key, _)) => key
  | None => []
  end.

(** A line as [parseMessage] takes it apart. *)
Inductive ParsedLine :=
  | UnknownLine (line : QString)
  | EmptyPayload (messageType : MessageType.t)
  | Message (messageType : MessageType.t) (tokens : QStringList).

Definition splitLine `{QtConv} (keys : list (QString * MessageType.t)) (lineRaw : QString) :
    ParsedLine :=
  let line := trimmed lineRaw in
  let '(cmd, messageType) := findCommand keys line in
  if decide (messageType = MessageType.Unknown) then UnknownLine line
  else let payload := trimmed (mid line (length cmd)) in
       if isEmpty payload then EmptyPayload messageType
       else Message messageType (split colon payload).

(** ** The table *)

(** No key is a prefix of another one. *)
Lemma keys_prefix_free k1 k2 :
  k1 ∈ m_messageTypeMapping -> k2 ∈ m_messageTypeMapping -> startsWith k1.1 k2.1 = true -> k1 = k2.
Proof.
  assert (Hf : Forall (fun k1 => Forall (fun k2 => startsWith k1.1 k2.1 = true -> k1 = k2)
                 m_messageTypeMapping) m_messageTypeMapping)
    by (apply (bool_decide_unpack _); vm_compute; exact I).
  rewrite Forall_forall in Hf. intros H1 H2. specialize (Hf k1 H1).
  rewrite Forall_forall in Hf. by apply Hf.
Qed.

(** Two prefixes of one line: one is a prefix of the other. *)
Lemma prefixes_comparable (s p q : QString) :
  startsWith s p = true -> startsWith s q = true -> startsWith p q = true \/ startsWith q p = true.
Proof.
  intros [t Ht]%startsWith_spec [u Hu]%startsWith_spec. rewrite Ht in Hu.
  apply app_eq_app in Hu as [r [[-> _]|[-> _]]]; [left | right]; apply startsWith_app.
Qed.

(** The same keys in another order. *)
Lemma same_keys (keys keys' : list (QString * MessageType.t)) k :
  keys ≡ₚ keys' -> k ∈ keys -> k ∈ keys'.
Proof. intros Hp Hk. by rewrite <- Hp. Qed.

Lemma findCommand_spec keys line :
  (forall k, k ∈ keys -> startsWith line k.1 = false) /\ findCommand keys line = ([], MessageType.Unknown)
  \/ findCommand keys line ∈ keys /\ startsWith line (findCommand keys line).1 = true.
Proof.
  induction keys as [|[str ty] keys IH]; simpl; [left; split; [set_solver | done]|].
  destruct (startsWith line str) eqn:E; [right; set_solver|].
  destruct IH as [[Hk Hf] | [Hin Hs]]; [left | right; set_solver].
  split; [|done]. intros k. rewrite elem_of_cons. intros [-> | Hin]; [done | auto].
Qed.

(** The command of a line is the unique key it starts with. *)
Lemma findCommand_unique keys line k :
  keys ≡ₚ m_messageTypeMapping -> k ∈ m_messageTypeMapping -> startsWith line k.1 = true ->
  findCommand keys line = k.
Proof.
  intros Hp Hk Hs. destruct (findCommand_spec keys line) as [[Hn _] | [Hin Hs']].
  - rewrite <- Hp in Hk. rewrite (Hn k Hk) in Hs. done.
  - apply (same_keys _ _ _ Hp) in Hin.
    destruct (prefixes_comparable _ _ _ Hs Hs') as [H|H];
      [symmetry|]; by apply keys_prefix_free.
Qed.

(** Whatever the order in which the hash table of commands is iterated, a
    line is recognised as the same command and split in the same tokens. *)
Theorem dispatch_order_irrelevant `{QtConv} keys lineRaw :
  keys ≡ₚ m_messageTypeMapping -> splitLine keys lineRaw = splitLine m_messageTypeMapping lineRaw.
Proof.
  intros Hp. unfold splitLine.
  assert (findCommand keys (trimmed lineRaw) = findCommand m_messageTypeMapping (trimmed lineRaw)) as ->;
    [|done].
  destruct (findCommand_spec m_messageTypeMapping (trimmed lineRaw)) as [[Hn ->] | [Hin Hs]].
  - destruct (findCommand_spec keys (trimmed lineRaw)) as [[_ ->] | [Hin Hs]]; [done|].
    apply (same_keys _ _ _ Hp) in Hin. by rewrite (Hn _ Hin) in Hs.
  - by apply findCommand_unique.
Qed.

Lemma dispatch_order_irrelevant_witness :
  splitLine (rev m_messageTypeMapping) (lit "#DPABCD:1234567") =
  splitLine m_messageTypeMapping (lit "#DPABCD:1234567").
Proof. apply dispatch_order_irrelevant. rewrite rev_alt. apply reverse_Permutation. Defined.

(** ** Messages sent by one client and received by another *)

(** A message whose text the receiver's trimming leaves alone. *)
Definition trimSafe `{QtConv} (payload : QString) : Prop :=
  payload <> [] /\ trimmedP qt_isSpace payload.

Lemma trimmed_app_head `{QtConvLaws} c s :
  qt_isSpace c = false -> trimmedP qt_isSpace s -> s <> [] -> trimmedP qt_isSpace (c :: s).
Proof.
  intros Hc [_ Hl] Hne. split; simpl; [by intros x [= <-]|].
  destruct s; [done|]. exact Hl.
Qed.

Lemma trimmedP_app `{QtConvLaws} p s :
  p <> [] -> (forall x, head p = Some x -> qt_isSpace x = false) ->
  s <> [] -> trimmedP qt_isSpace s -> trimmedP qt_isSpace (p ++ s).
Proof.
  intros Hp Hh Hs [_ Hl]. split.
  - destruct p; [done|]. exact Hh.
  - rewrite last_app. destruct (last s) as [x|] eqn:E; [exact Hl|].
    apply last_None in E. by subst.
Qed.

Lemma keys_head `{QtConvLaws} k :
  k ∈ m_messageTypeMapping -> k.1 <> [] /\ k.2 <> MessageType.Unknown /\
  forall x, head k.1 = Some x -> qt_isSpace x = false.
Proof.
  intros Hk.
  assert (Hf : forallb (fun k => match head k.1 with
                                 | Some x => (33 <=? x)%N && (x <? 128)%N
                                 | None => false end && bool_decide (k.2 <> MessageType.Unknown))
                       m_messageTypeMapping = true) by (vm_compute; reflexivity).
  rewrite forallb_forall in Hf. apply list_elem_of_In, Hf in Hk. apply andb_true_iff in Hk as [H1 H2].
  destruct k as [[|x key] ty]; simpl in *; [done|].
  apply andb_true_iff in H1 as [Ha Hb]. apply bool_decide_eq_true in H2.
  apply N.leb_le in Ha. apply N.ltb_lt in Hb.
  split_and!; try done. intros y [= <-].
  rewrite qt_isSpace_ascii by done. apply bool_decide_eq_false. lia.
Qed.

(** The line of a message is split in its command and its fields. *)
Lemma splitLine_message `{QtConvLaws} k payload :
  k ∈ m_messageTypeMapping -> trimSafe payload ->
  splitLine m_messageTypeMapping (k.1 ++ payload ++ crlf) = Message k.2 (split colon payload).
Proof.
  intros Hk [Hne Ht]. destruct (keys_head k Hk) as (Hk1 & Hk2 & Hh).
  assert (Hline : trimmed (k.1 ++ payload ++ crlf) = k.1 ++ payload).
  { rewrite app_assoc. unfold trimmed. apply trimWith_app_spaces.
    - by apply trimmedP_app.
    - by destruct k.1.
    - repeat constructor; rewrite qt_isSpace_ascii by lia; by apply bool_decide_eq_true_2; lia. }
  unfold splitLine. rewrite Hline, (findCommand_unique _ _ k) by (done || apply startsWith_app).
  destruct k as [key ty]. simpl in *. rewrite decide_False by done.
  unfold mid. rewrite drop_app_length. unfold trimmed. rewrite trimWith_id by done.
  by destruct payload.
Qed.

(** C4: end to end.  A well-formed message of any class, put on the wire and
    read by a client, is recognised as its command and parsed back to itself,
    provided the receiver's trimming leaves its fields alone. *)
Theorem message_end_to_end `{QtConvLaws, FsdWire M} (m : M) ty :
  (pdu (M := M), ty) ∈ m_messageTypeMapping ->
  m_isValid (msg_base m) = true -> wf m -> trimSafe (join [colon] (toTokens m)) ->
  exists tokens,
    splitLine m_messageTypeMapping (messageToFSDString m) = Message ty tokens /\
    fromTokens tokens = Some m.
Proof.
  intros Hk Hv Hwf Ht. unfold messageToFSDString. rewrite Hv.
  exists (retokenize (toTokens m)). split.
  - by apply (splitLine_message (pdu (M := M), ty)).
  - by apply wire_roundtrip.
Qed.

Definition example_flightplan : FlightPlan.t :=
  FlightPlan.make (lit "ABCD") (lit "SERVER") FlightType.VFR (lit "B744") 420 (lit "EGLL") 1530 1535
    (lit "FL350") (lit "KORD") 8 15 9 30 (lit "NONE") (lit "Unit Test") (lit "EGLL.KORD").

Lemma message_end_to_end_witness :
  exists tokens,
    splitLine m_messageTypeMapping (messageToFSDString example_flightplan)
      = Message MessageType.FlightPlan tokens /\
    fromTokens tokens = Some example_flightplan.
Proof.
  apply message_end_to_end.
  - apply (bool_decide_unpack _). vm_compute. exact I.
  - reflexivity.
  - apply (bool_decide_unpack _). vm_compute. exact I.
  - split; [vm_compute; discriminate|].
    split; intros x Hx; vm_compute in Hx; injection Hx as <-; vm_compute; reflexivity.
Defined.
