(* ===== verification/FsdState.v ===== *)
(** * The state of the FSD client and its command monad (core/fsd/fsdclient.h)

    [CFSDClient] holds the members in three records: what is set before
    connecting ([Presets]), what [clearState] resets ([Session]), and the rest.
    A member function is a [Cmd]: it changes the state, emits a list of [Out],
    and fails ([None]) where the code indexes a list out of range. *)

From coqutil Require Export Datatypes.RecordSetters.
From S2P Require TokenBucket.
From S2P Require Export TextMessages.
Export TriangleBracketNotations.
#[global] Open Scope record_set.
Arguments constant {E} newValue _ /.
Arguments apply_update {R E} u : simpl nomatch.

Record Presets := mkPresets {
  m_server : CServer; m_networkConfig : CNetworkConfig; m_loginMode : LoginMode;
  m_simType : SimType.t; m_pilotRating : PilotRating.t; m_atcRating : AtcRating.t;
  m_clientName : QString; m_hostApplication : QString; m_versionMajor : Z; m_versionMinor : Z;
  m_protocolRevision : Z; m_isVatsimServerType : bool; m_capabilities : Z;
  m_ownCallsign : CCallsign; m_partnerCallsign : CCallsign; m_ownAircraftIcaoCode : QString;
  m_ownAirlineIcaoCode : QString; m_ownLivery : QString; m_ownModelString : QString;
  m_sendLiveryString : bool; m_sendModelString : bool;
  m_codec : QString }.

(** PendingAtisQuery and AtisMessage. *)
Record PendingAtisQuery := mkPendingAtis { m_queryTime : Z; m_atisMessage : QStringList }.
Record AtisMessage := mkAtis {
  m_voiceRoom : QString; m_textLines : QStringList; m_zuluLogoff : QString; m_lineCount : Z }.

(** Maps keyed by a callsign are keyed by its unified string, by which
    callsigns compare and hash. *)
Record Session := mkSession {
  m_rehosting : bool; m_stoppedSendingVisualPositions : bool; m_serverWantsVisualPositions : bool;
  m_visualPositionUpdateSentCount : Z; m_textMessagesToConsolidate : list CTextMessage;
  m_pendingAtisQueries : gmap QString PendingAtisQuery; m_lastPositionUpdate : gmap QString Z;
  m_lastOffsetTimes : gmap QString (list Z); m_atcStations : list CAtcStation;
  m_queuedFsdMessages : list QString; m_sentAircraftConfig : CAircraftParts;
  m_loginSince : Z }.

(** Which of the repeating timers run. *)
Record Timers := mkTimers {
  m_positionUpdateTimer : bool; m_interimPositionUpdateTimer : bool;
  m_visualPositionUpdateTimer : bool; m_scheduledConfigUpdate : bool;
  m_fsdSendMessageTimer : bool }.

(** [m_socketLines]: the lines in the receive buffer of the TCP socket. *)
Record CFSDClient := mkClient {
  presets : Presets; session : Session; timers : Timers; m_connectionStatus : ConnectionStatus;
  m_interimPositionReceivers : list CCallsign; m_mapAtisMessages : gmap QString AtisMessage;
  m_dsSendTextMessage : CDigestSignal; m_webSocketReadBuffer : list N;
  m_socketLines : list (list N);
  m_filterPasswordFromLogin : bool; m_rawFsdMessagesEnabled : bool; m_unitTestMode : bool;
  m_additionalOffsetTime : Z; m_statistics : bool; m_callStatistics : gmap QString Z;
  m_callByTime : list (Z * QString); pendingTimeoutChecks : list Z;
  m_tokenBucket : TokenBucket.CTokenBucket }.

Definition Session_cleared : Session :=
  mkSession false false false 0 [] ∅ ∅ ∅ [] [] CAircraftParts_null (-1).
Definition Timers_stopped : Timers := mkTimers false false false false false.

(** A client as constructed at the time [created], with the presets given. *)
Definition CFSDClient_init (created : Z) (p : Presets) (statistics rawEnabled : bool) : CFSDClient :=
  mkClient p Session_cleared Timers_stopped Disconnected [] ∅ (CDigestSignal_make 250 10) [] []
    false rawEnabled false 0 statistics ∅ [] [] 
    (TokenBucket.CTokenBucket_make created 10 5000 1).

(** ** Commands *)

Definition Cmd (A : Type) : Type := CFSDClient -> option (A * CFSDClient * list Out).

#[export] Instance Cmd_ret : MRet Cmd := fun A x c => Some (x, c, []).
#[export] Instance Cmd_bind : MBind Cmd := fun A B k m c =>
  match m c with
  | None => None
  | Some (x, c', o) => match k x c' with
                       | None => None
                       | Some (y, c'', o') => Some (y, c'', o ++ o')
                       end
  end.

Definition get : Cmd CFSDClient := fun c => Some (c, c, []).
Definition modify (f : CFSDClient -> CFSDClient) : Cmd unit := fun c => Some (tt, f c, []).
Definition output (o : Out) : Cmd unit := fun c => Some (tt, c, [o]).
Definition emit (s : Signal) : Cmd unit := output (Emit s).
Definition log (severity : Severity) (text : string) : Cmd unit := output (Log severity text).
Definition when (b : bool) (m : Cmd unit) : Cmd unit := if b then m else mret tt.
(** A result that is absent is undefined behaviour. *)
Definition defined {A} (x : option A) : Cmd A := fun c => match x with Some x => Some (x, c, []) | None => None end.
Fixpoint forEach {A} (f : A -> Cmd unit) (l : list A) : Cmd unit :=
  match l with [] => mret tt | x :: l => f x;; forEach f l end.

Definition setSession (f : Session -> Session) : Cmd unit :=
  modify (fun c => c <| session ::= f |>).
Definition setPresets (f : Presets -> Presets) : Cmd unit :=
  modify (fun c => c <| presets ::= f |>).
Arguments log severity text%_string.

(** ** Compositional reasoning

    A relation between the state before, the outputs and the state after, that
    holds of doing nothing and of one thing after another; and the commands
    all of whose runs satisfy it. *)

Class Compositional (R : CFSDClient -> list Out -> CFSDClient -> Prop) : Prop := {
  comp_refl c : R c [] c;
  comp_trans c o c' o' c'' : R c o c' -> R c' o' c'' -> R c (o ++ o') c''
}.

Definition satisfies (R : CFSDClient -> list Out -> CFSDClient -> Prop) {A} (m : Cmd A) : Prop :=
  forall c x c' o, m c = Some (x, c', o) -> R c o c'.

Section rules.
Context (R : CFSDClient -> list Out -> CFSDClient -> Prop) `{!Compositional R}.

Lemma satisfies_ret {A} (x : A) : satisfies R (mret x).
Proof using Compositional0. intros c y c' o [= <- <- <-]. apply comp_refl. Qed.
Lemma satisfies_get : satisfies R get.
Proof using Compositional0. intros c y c' o [= <- <- <-]. apply comp_refl. Qed.
Lemma satisfies_defined {A} (x : option A) : satisfies R (defined x).
Proof using Compositional0.
  intros c y c' o. unfold defined. destruct x; intros [= <- <- <-]. apply comp_refl.
Qed.
Lemma satisfies_bind {A B} (m : Cmd A) (k : A -> Cmd B) :
  satisfies R m -> (forall x, satisfies R (k x)) -> satisfies R (m ≫= k).
Proof using Compositional0.
  intros Hm Hk c y c' o. unfold mbind, Cmd_bind.
  destruct (m c) as [[[x c1] o1]|] eqn:E1; [|done].
  destruct (k x c1) as [[[z c2] o2]|] eqn:E2; [|done]. intros [= <- <- <-].
  eapply comp_trans; [by eapply Hm | by eapply Hk].
Qed.
Lemma satisfies_when b m : satisfies R m -> satisfies R (when b m).
Proof using Compositional0. destruct b; [done | intros _; apply satisfies_ret]. Qed.
Lemma satisfies_forEach {A} (f : A -> Cmd unit) l :
  (forall x, satisfies R (f x)) -> satisfies R (forEach f l).
Proof using Compositional0.
  intros Hf. induction l; simpl; [apply satisfies_ret | by apply satisfies_bind].
Qed.
Lemma satisfies_modify f : (forall c, R c [] (f c)) -> satisfies R (modify f).
Proof. intros Hf c x c' o [= <- <- <-]. apply Hf. Qed.
Lemma satisfies_output o : (forall c, R c [o] c) -> satisfies R (output o).
Proof. intros Ho c x c' o' [= <- <- <-]. apply Ho. Qed.
End rules.

Create HintDb fsd discriminated.

(** Walk through a command: binds, branches and matches; what is left are the
    updates and outputs. *)
Ltac walk_step :=
  match goal with
  | |- satisfies _ (mret _) => apply satisfies_ret; exact _
  | |- satisfies _ get => apply satisfies_get; exact _
  | |- satisfies _ (defined _) => apply satisfies_defined; exact _
  | |- satisfies _ (mbind _ _) => apply satisfies_bind; [exact _ | | intros ?]
  | |- satisfies _ (when _ _) => apply satisfies_when; [exact _ |]
  | |- satisfies _ (forEach _ _) => apply satisfies_forEach; [exact _ | intros ?]
  | |- satisfies _ (let _ := _ in _) => cbv zeta
  | |- satisfies _ (if ?b then _ else _) => destruct b
  | |- satisfies _ (match ?x with _ => _ end) => destruct x
  end.
Ltac walk := repeat (cbv beta; first [ solve [ eauto with fsd nocore ] | walk_step ]).
