(* ===== verification/FsdCore.v ===== *)
(** * The core of the FSD client (core/fsd/fsdclient.cpp)

    Statistics, raw message log, the send queue, timers, the connection status
    and connecting and disconnecting.  The program is modelled in the thread of
    the client (the calls that only move to that thread are left out) and in
    the build without the closed VATSIM authentication library. *)

From S2P Require Export FsdState.

Section core.
Context `{QtConv} {W : World}.

(** ** Small functions *)

Definition noColons (input : QString) : QString :=
  if negb (containsChar input colon) then input else removeChar input colon.

(** [convertToUnicodeEscaped]: four hexadecimal digits at least. *)
Definition convertToUnicodeEscaped (str : QString) : QString :=
  concat (map (fun code => if (code <? 128)%N then [code]
                           else lit "\u" ++ (let h := qt_number16 (Z.of_N code) in
                                             replicate (4 - length h) 48%N ++ h)) str).

Definition getFlightType (flightRules : FlightRules) : FlightType.t :=
  match flightRules with
  | FP_IFR => FlightType.IFR | FP_VFR => FlightType.VFR | FP_SVFR => FlightType.SVFR
  | FP_DVFR => FlightType.DVFR | FP_UNKNOWN => FlightType.IFR
  end.

(** Ranges in NM; [None] is the null length. *)
Definition maxOrNotNull (l1 l2 : option Z) : option Z :=
  match l1, l2 with
  | None, _ => l2
  | _, None => l1
  | Some a, Some b => Some (if b >? a then b else a)
  end.
Definition fixAtcRange (networkRange : option Z) (cs : CCallsign) : option Z :=
  let suffix := getSuffix cs in
  if containsCI suffix (lit "ATIS") then maxOrNotNull networkRange (Some 150)
  else if containsCI suffix (lit "GND") then maxOrNotNull networkRange (Some 10)
  else if containsCI suffix (lit "TWR") then maxOrNotNull networkRange (Some 25)
  else if containsCI suffix (lit "DEP") then maxOrNotNull networkRange (Some 150)
  else if containsCI suffix (lit "APP") then maxOrNotNull networkRange (Some 150)
  else if containsCI suffix (lit "CTR") then maxOrNotNull networkRange (Some 300)
  else if containsCI suffix (lit "FSS") then maxOrNotNull networkRange (Some 1500)
  else networkRange.

Definition getOwnCallsignAsString (c : CFSDClient) : QString := asString (m_ownCallsign (presets c)).
Definition getServer (c : CFSDClient) : CServer := m_server (presets c).
Definition isPendingConnection (c : CFSDClient) : bool :=
  bool_decide (m_connectionStatus c = Connecting) || bool_decide (m_connectionStatus c = Disconnecting).

(** ** Statistics *)

Definition MaxTimeValues : nat := 50.

(** A counter and the last calls, newest first.  The counter is an int of the code, whose
    overflow is undefined; here it has no bound: a client does not make 2^31 calls of one kind. *)
Definition increaseStatistics (identifier appendix : QString) (c : CFSDClient) : CFSDClient :=
  if isEmpty identifier || negb (m_statistics c) then c
  else let i := if isEmpty appendix then identifier else identifier ++ lit "." ++ appendix in
       let v := default 0 (m_callStatistics c !! i) + 1 in
       let l := (now, i) :: m_callByTime c in
       c <| m_callStatistics := <[i := v]> (m_callStatistics c) |>
         <| m_callByTime := if (MaxTimeValues <? length l)%nat then removelast l else l |>.
Definition increaseStatisticsValue (identifier : string) (appendix : QString) : Cmd unit :=
  modify (increaseStatistics (lit identifier) appendix).
Definition clearStatistics : Cmd unit :=
  modify (fun c => c <| m_callStatistics := ∅ |> <| m_callByTime := [] |>).

(** ** Raw messages *)

Definition isWordChar (c : QChar) : bool :=
  is09 c || isAZ c || ((97 <=? c) && (c <=? 122))%N || (c =? underscore)%N.
Definition digitsText (s : QString) : bool := negb (isEmpty s) && forallb is09 s.

(** The replacement by the regular expression
    [^(#AP\w+:SERVER:\d+:)[^:]+(:\d+:\d+:\d+:.+)$]. *)
Definition filterPassword (message : QString) : QString :=
  match split colon message with
  | t0 :: t1 :: t2 :: t3 :: t4 :: t5 :: t6 :: rest =>
      if startsWith t0 (lit "#AP") && negb (isEmpty (drop 3 t0)) && forallb isWordChar (drop 3 t0)
         && eqs t1 "SERVER" && digitsText t2 && negb (isEmpty t3) && digitsText t4
         && digitsText t5 && digitsText t6 && negb (isEmpty (join [colon] rest))
         && negb (bool_decide (10%N ∈ join [colon] rest))
      then join [colon] (t0 :: t1 :: t2 :: lit "<password>" :: t4 :: t5 :: t6 :: rest)
      else message
  | _ => message
  end.

(** The log file is left out. *)
Definition emitRawFsdMessage (fsdMessage : QString) (isSent : bool) : Cmd unit :=
  c ← get;
  if negb (m_unitTestMode c) && negb (m_rawFsdMessagesEnabled c) then mret tt
  else
    let login := m_filterPasswordFromLogin c && startsWith fsdMessage (lit "#AP") in
    let fsdMessageFiltered := if login then filterPassword fsdMessage else fsdMessage in
    when login (modify (fun c => c <| m_filterPasswordFromLogin := false |>));;
    emit (rawFsdMessage ((if isSent then lit "FSD Sent=>" else lit "FSD Recv=>") ++ fsdMessageFiltered)).

(** ** Sending *)

Definition sendMessageString (message : QString) : Cmd unit :=
  if isEmpty message then mret tt
  else c ← get;
       when (negb (m_unitTestMode c)) (output (WriteTransport (encode (m_codec (presets c)) message)));;
       emitRawFsdMessage (trimmed message) true.

Definition sendDirectMessage {M} `{FsdMessage M} (message : M) : Cmd unit :=
  if negb (m_isValid (msg_base message)) then mret tt
  else sendMessageString (messageToFSDString message).

Definition enqueue (message : QString) : Cmd unit :=
  setSession (fun s => s <| m_queuedFsdMessages ::= fun q => q ++ [message] |>).

(** The overload for a message. *)
Definition queueMessage {M} `{FsdMessage M} (message : M) : Cmd unit :=
  if negb (m_isValid (msg_base message)) then mret tt
  else c ← get;
       if m_unitTestMode c then sendDirectMessage message else enqueue (messageToFSDString message).

(** [QQueue::dequeue]: undefined for an empty queue. *)
Definition dequeueAndSend : Cmd unit :=
  c ← get;
  match m_queuedFsdMessages (session c) with
  | [] => defined None
  | m :: q => setSession (fun s => s <| m_queuedFsdMessages := q |>);; sendMessageString m
  end.
Fixpoint times (n : nat) (m : Cmd unit) : Cmd unit :=
  match n with O => mret tt | S n => m;; times n m end.

(** The overload for the timer. *)
Definition sendQueuedMessage : Cmd unit :=
  c ← get;
  let s := Z.of_nat (length (m_queuedFsdMessages (session c))) in
  if s =? 0 then mret tt
  else
    dequeueAndSend;;
    when (s >? 5) dequeueAndSend;;
    when (s >? 10) dequeueAndSend;;
    when (s >? 20) dequeueAndSend;;
    when (s >? 30) dequeueAndSend;;
    when (s >? 50)
      (log (if s >? 75 then Warning_ else Info) "Too many queued messages (%1), bulk send!";;
       times (if s >? 100 then 30 else if s >? 75 then 20 else 10) dequeueAndSend).

(** ** Timers and state *)

Definition isInterimPositionSendingEnabledForServer (c : CFSDClient) : bool :=
  sendInterimPositions (fsdSetup (getServer c)).
Definition isInterimPositionReceivingEnabledForServer (c : CFSDClient) : bool :=
  receiveInterimPositions (fsdSetup (getServer c)).
Definition isVisualPositionSendingEnabledForServer (c : CFSDClient) : bool :=
  sendVisualPositions (fsdSetup (getServer c)).

Definition startPositionTimers : Cmd unit :=
  modify (fun c => c <| timers := mkTimers true (isInterimPositionSendingEnabledForServer c)
                                    (isVisualPositionSendingEnabledForServer c) true true |>
                     <| session -> m_queuedFsdMessages := [] |>).
Definition stopPositionTimers : Cmd unit := modify (fun c => c <| timers := Timers_stopped |>).

Definition clearState : Cmd unit := modify (fun c => c <| session := Session_cleared |>).

(** [clearState(callsign)]. *)
Definition clearStateFor (callsign : CCallsign) : Cmd unit :=
  if callsignEmpty callsign then mret tt
  else
    setSession (fun s => s <| m_pendingAtisQueries ::= base.delete (asString callsign) |>
                           <| m_lastPositionUpdate ::= base.delete (asString callsign) |>
                           <| m_lastOffsetTimes ::= base.delete (asString callsign) |>);;
    modify (fun c => c <| m_interimPositionReceivers ::=
                            filter (fun x => callsignEqual x callsign = false) |>).

(** CEcosystem::NoSystem. *)
Definition NoSystem : Z := 1.

Definition saveNetworkStatistics (server : QString) : Cmd unit :=
  c ← get;
  when (negb (bool_decide (m_callStatistics c = ∅))) (output (SaveStatistics server)).

Definition updateConnectionStatus (newStatus : ConnectionStatus) : Cmd unit :=
  c ← get;
  if decide (m_connectionStatus c = newStatus) then mret tt
  else
    (if decide (newStatus = Connected)
     then modify (fun c => c <| presets -> m_server -> server_timestamp := now |>);;
          output (SetEcosystem None (Some (ecosystem (getServer c))))
     else modify (fun c => c <| presets -> m_server -> server_timestamp := -1 |>));;
    when (bool_decide (newStatus = Disconnected))
      (stopPositionTimers;; clearState;;
       output (SetEcosystem (Some (ecosystem (getServer c))) (Some NoSystem));;
       saveNetworkStatistics (server_name (getServer c)));;
    c ← get;
    let oldStatus := m_connectionStatus c in
    modify (fun c => c <| m_connectionStatus := newStatus |>);;
    emit (connectionStatusChanged oldStatus newStatus).

(** ** Transport *)

Definition isTransportOpen (c : CFSDClient) : bool :=
  if usesWebSocket (getServer c) then negb wsIsUnconnected else tcpIsOpen.
Definition isTransportConnected (c : CFSDClient) : bool :=
  if usesWebSocket (getServer c) then wsIsValid else tcpIsConnected.
(** Closing the TCP socket discards what it has received. *)
Definition closeTransport : Cmd unit :=
  c ← get;
  output CloseTransport;;
  modify (fun c => if usesWebSocket (getServer c) then c <| m_webSocketReadBuffer := [] |>
                   else c <| m_socketLines := [] |>).

Definition initiateWebSocketConnection : Cmd unit :=
  c ← get;
  let server := getServer c in
  log Info "Connecting to FSD over WebSocket at '%1'";;
  output (OpenWebSocket (usesSecureWebSocket server) (server_address server)
            (wrapU 16 (server_port server)) (webSocketPath server)).

(** What happens once the host is known; [rehosting] is the socket used. *)
Definition connectResolved (rehosting : bool) (host : QString) (port : Z) : Cmd unit :=
  if rehosting then output (RehostConnectToHost host port)
  else output (ConnectToHost host port);; startPositionTimers.

(** The reply of the load balancer comes as a later event. *)
Definition resolveLoadBalancing (rehosting : bool) (host : QString) (port : Z) : Cmd unit :=
  c ← get;
  let url := loadBalancingUrl (m_networkConfig (presets c)) in
  if negb (isHostAddress host) && negb (isEmpty url) &&
     (eqs (server_name (getServer c)) "AUTOMATIC" || m_rehosting (session c))
  then output (RequestLoadBalancing url)
  else connectResolved rehosting host port.

(** [rehostingHost] when there is a rehosting socket. *)
Definition initiateConnection (rehostingHost : option QString) : Cmd unit :=
  c ← get;
  let server := getServer c in
  match rehostingHost with
  | None => if usesWebSocket server then initiateWebSocketConnection;; startPositionTimers
            else resolveLoadBalancing false (server_address server) (wrapU 16 (server_port server))
  | Some host => resolveLoadBalancing true host peerPort
  end.

(** ** Connecting and disconnecting *)

Definition PendingConnectionTimeoutMs : Z := 7500.

Definition connectToServer : Cmd unit :=
  c ← get;
  if isTransportOpen c then mret tt
  else
    when (isEmpty (m_hostApplication (presets c)))
      (setPresets (fun p => p <| m_hostApplication :=
         map (fun x => if decide (x = colon) then 32%N else x) simulatorNameAndVersion |>));;
    clearState;;
    modify (fun c => c <| m_filterPasswordFromLogin := true |>
                       <| session -> m_loginSince := now |>
                       <| pendingTimeoutChecks ::= cons (now + 9375) |>);;
    updateConnectionStatus Connecting;;
    initiateConnection None.

Definition sendDeletePilot : Cmd unit :=
  c ← get;
  queueMessage (DeletePilot.make (getFsdCallsignString (m_ownCallsign (presets c)))
                  (userId (getServer c))).
Definition sendDeleteAtc : Cmd unit :=
  c ← get;
  queueMessage (DeleteAtc.make (getOwnCallsignAsString c) (userId (getServer c))).

Definition disconnectFromServer : Cmd unit :=
  stopPositionTimers;;
  updateConnectionStatus Disconnecting;;
  c ← get;
  when (isTransportConnected c)
    (match m_loginMode (presets c) with
     | Pilot => sendDeletePilot
     | Observer => sendDeleteAtc
     end);;
  closeTransport;;
  updateConnectionStatus Disconnected;;
  clearState.

Definition pendingTimeoutCheck : Cmd unit :=
  c ← get;
  if negb (isPendingConnection c) then mret tt
  else if now - m_loginSince (session c) <? PendingConnectionTimeoutMs then mret tt
  else log Warning_ "Timeout on pending connection to '%1'";; disconnectFromServer.

(** ** Text messages *)

Definition emitConsolidatedTextMessages : Cmd unit :=
  c ← get;
  emit (textMessagesReceived (m_textMessagesToConsolidate (session c)));;
  setSession (fun s => s <| m_textMessagesToConsolidate := [] |>).

Definition consolidateTextMessage (textMessage : CTextMessage) : Cmd unit :=
  if tm_isSupervisor textMessage then emit (textMessagesReceived [textMessage])
  else
    setSession (fun s => s <| m_textMessagesToConsolidate ::=
                                fun l => addConsolidatedTextMessage l textMessage |>);;
    c ← get;
    let '(d, digest) := inputSignal now (m_dsSendTextMessage c) in
    modify (fun c => c <| m_dsSendTextMessage := d |>);;
    when digest emitConsolidatedTextMessages.

(** The timer of the digest signal. *)
Definition digestTimeout : Cmd unit :=
  modify (fun c => c <| m_dsSendTextMessage ::= timerTimeout |>);; emitConsolidatedTextMessages.

(** ** Presets *)

Definition PROTOCOL_REVISION_CLASSIC : Z := 9.
Definition PROTOCOL_REVISION_VATSIM_VELOCITY : Z := 101.

(** The codec of the encoder and the decoder; UTF-8 for a name Qt does not know. *)
Definition codecFor (config : CNetworkConfig) (server : CServer) : QString :=
  let codecName := if config_isValid config && negb (isEmpty (fsdTextCodec config))
                   then fsdTextCodec config else setupTextCodec (fsdSetup server) in
  if knownCodec codecName then codecName else lit "UTF-8".
Definition setServer (server : CServer) : Cmd unit :=
  setPresets (fun p =>
    p <| m_server := server |>
      <| m_protocolRevision :=
           if config_isValid (m_networkConfig p) then getFsdProtocolRevision (m_networkConfig p)
           else if isVatsimServer server then PROTOCOL_REVISION_VATSIM_VELOCITY
           else PROTOCOL_REVISION_CLASSIC |>
      <| m_codec := codecFor (m_networkConfig p) server |>).
Definition setCallsign (callsign : CCallsign) : Cmd unit :=
  output (UpdateOwnCallsign callsign);;
  setPresets (fun p => p <| m_ownCallsign := callsign |>).
Definition setIcaoCodes (aircraft airline : QString) : Cmd unit :=
  output (UpdateOwnIcaoCodes aircraft airline);;
  setPresets (fun p => p <| m_ownAircraftIcaoCode := aircraft |> <| m_ownAirlineIcaoCode := airline |>).
Definition setLiveryAndModelString (livery : QString) (sendLiveryString : bool)
    (modelString : QString) (sendModelString : bool) : Cmd unit :=
  setPresets (fun p => p <| m_ownLivery := livery |> <| m_ownModelString := modelString |>
                         <| m_sendLiveryString := sendLiveryString |>
                         <| m_sendModelString := sendModelString |>).

(** CSimulatorInfo::Simulator: a single simulator or something else. *)
Inductive Simulator := Sim_FSX | Sim_P3D | Sim_FS9 | Sim_FG | Sim_XPLANE | Sim_MSFS | Sim_MSFS2024 | Sim_other.
Definition simTypeOf (simulator : Simulator) : SimType.t :=
  match simulator with
  | Sim_FSX => SimType.MSFSX | Sim_P3D => SimType.P3Dv4 | Sim_FS9 => SimType.MSFS2004
  | Sim_FG => SimType.FlightGear | Sim_XPLANE => SimType.XPLANE11 | Sim_MSFS => SimType.MSFS
  | Sim_MSFS2024 => SimType.MSFS2024 | Sim_other => SimType.Unknown
  end.
Definition setSimType (simulator : Simulator) : Cmd unit :=
  setPresets (fun p => p <| m_simType := simTypeOf simulator |>).
Definition getPresetValues (c : CFSDClient) : QStringList :=
  let p := presets c in
  [m_ownModelString p; m_ownLivery p; m_ownAircraftIcaoCode p; m_ownAirlineIcaoCode p;
   asString (m_ownCallsign p); asString (m_partnerCallsign p)].
Definition setInterimPositionReceivers (l : list CCallsign) : Cmd unit :=
  modify (fun c => c <| m_interimPositionReceivers := l |>).
End core.
