(* ===== verification/FsdSend.v ===== *)
(** * What the FSD client sends (core/fsd/fsdclient.cpp, the send functions) *)

From S2P Require Export FsdCore.

Section send.
Context `{QtConv} {J : QtJson} {W : World}.

(** ** Login *)

(** [sendClientQuery], by query type; the ATIS query is remembered unless the
    server type is VATSIM, which no code sets. *)
Definition sendClientQuery (queryType : ClientQueryType.t) (receiver : CCallsign)
    (queryData : QStringList) : Cmd unit :=
  c ← get;
  let me := getOwnCallsignAsString c in
  let receiverCallsign := getFsdCallsignString receiver in
  let count := increaseStatisticsValue "sendClientQuery" (ClientQueryType.toQString queryType) in
  let query to data := queueMessage (ClientQuery.make me to queryType data) in
  match queryType with
  | ClientQueryType.Unknown => mret tt
  | ClientQueryType.IsValidATC => query SERVER queryData;; count
  | ClientQueryType.Capabilities => query receiverCallsign [];; count
  | ClientQueryType.Com1Freq => query receiverCallsign [];; count
  | ClientQueryType.RealName => query receiverCallsign [];; count
  | ClientQueryType.Server => query receiverCallsign [];; count
  | ClientQueryType.ATIS =>
      query receiverCallsign [];;
      when (negb (m_isVatsimServerType (presets c)))
        (setSession (fun s => s <| m_pendingAtisQueries ::=
                                     <[asString receiver := mkPendingAtis now []]> |>));;
      count
  | ClientQueryType.PublicIP => query receiverCallsign [];; count
  | ClientQueryType.INF => query receiverCallsign [];; count
  | ClientQueryType.FP => if isEmpty queryData then mret tt else query SERVER queryData;; count
  | ClientQueryType.AircraftConfig =>
      if isEmpty queryData then mret tt else query receiverCallsign queryData;; count
  | ClientQueryType.EuroscopeSimData => query (lit "@94835") [lit "1"];; count
  end.

Definition sendClientQueryIsValidAtc (callsign : CCallsign) : Cmd unit :=
  sendClientQuery ClientQueryType.IsValidATC CCallsign_default [asString callsign].
Definition sendClientQueryCapabilities (callsign : CCallsign) : Cmd unit :=
  sendClientQuery ClientQueryType.Capabilities callsign [].
Definition sendClientQueryCom1Freq (callsign : CCallsign) : Cmd unit :=
  sendClientQuery ClientQueryType.Com1Freq callsign [].
Definition sendClientQueryRealName (callsign : CCallsign) : Cmd unit :=
  sendClientQuery ClientQueryType.RealName callsign [].
Definition sendClientQueryServer (callsign : CCallsign) : Cmd unit :=
  sendClientQuery ClientQueryType.Server callsign [].
Definition sendClientQueryAtis (callsign : CCallsign) : Cmd unit :=
  sendClientQuery ClientQueryType.ATIS callsign [].
Definition sendClientQueryFlightPlan (callsign : CCallsign) : Cmd unit :=
  sendClientQuery ClientQueryType.FP CCallsign_default [asString callsign].

Definition aircraftConfigRequest : QJsonObject := objectOf [("request", JString (lit "full"))].
Definition sendClientQueryAircraftConfig (callsign : CCallsign) : Cmd unit :=
  sendClientQuery ClientQueryType.AircraftConfig callsign
    [convertToUnicodeEscaped (json_compact aircraftConfigRequest)].

(** An empty token is no token. *)
Definition sendLogin (token : QString) : Cmd unit :=
  c ← get;
  let p := presets c in
  let s := getServer c in
  let cid := userId s in
  let password := if isEmpty token then userPassword s else token in
  let name := realNameAndHomeBase s in
  let callsign := asString (m_ownCallsign p) in
  (match m_loginMode p with
   | Pilot =>
       queueMessage (AddPilot.make callsign cid password (m_pilotRating p) (m_protocolRevision p)
                       (m_simType p) name);;
       log Info "Sending login as '%1' '%2' '%3' '%4' '%5' '%6'"
   | Observer =>
       queueMessage (AddAtc.make callsign name cid password (m_atcRating p) (m_protocolRevision p));;
       log Info "Sending OBS login as '%1' '%2' '%3' '%4' '%5'"
   end);;
  when (receiveEuroscopeSimData (fsdSetup s))
    (sendClientQuery ClientQueryType.EuroscopeSimData CCallsign_default []).

(** Without the VATSIM library the challenge is not answered, only logged in. *)
Definition sendClientIdentification : Cmd unit :=
  c ← get;
  let s := getServer c in
  let config := m_networkConfig (presets c) in
  (if useJwt config
   then output (RequestJwtToken (userId s) (userPassword s) (fsdAuthUrl config))
   else sendLogin [];; updateConnectionStatus Connected);;
  increaseStatisticsValue "sendClientIdentification" [].

(** The replies of the token endpoint. *)
Definition jwtTokenReceived (token : QString) : Cmd unit :=
  sendLogin token;; updateConnectionStatus Connected.
Definition jwtTokenFailed : Cmd unit :=
  log Error "JWT auth token endpoint: %1";; disconnectFromServer.

(** ** Positions *)

Definition isDisconnectedHere (c : CFSDClient) : bool :=
  bool_decide (m_connectionStatus c = Disconnected).

Definition sendAtcDataUpdate (latitude longitude : double) : Cmd unit :=
  c ← get;
  queueMessage (AtcDataUpdate.make (getOwnCallsignAsString c) 199998 FacilityType.OBS 300
                  AtcRating.Observer latitude longitude 0).

Definition minVelocity : double := f64_div (f64_of_Z 5) (f64_of_Z 100000).
Definition belowMin (x : double) : bool := SFltb (SFabs x) minVelocity.
Definition isMoving (a : OwnAircraft) : bool :=
  let '(x, y, z) := own_velocity a in
  let '(p, r, h) := own_rotation a in
  negb (belowMin x && belowMin y && belowMin z && belowMin p && belowMin r && belowMin h).

Definition visualPilotDataUpdate (c : CFSDClient) : VisualPilotDataUpdate.t :=
  let '(x, y, z) := own_velocity own in
  let '(p, r, h) := own_rotation own in
  VisualPilotDataUpdate.make (getOwnCallsignAsString c) (own_latitude own) (own_longitude own)
    (own_altitudeFt own) (f64_sub (own_altitudeFt own) (own_groundElevationFt own))
    (own_pitch own) (own_bank own) (own_heading360 own) x y z p r h f64_zero.

(** The part of the visual update that decides whether to send. *)
Definition visualUpdateGate (slowUpdate : bool) : Cmd bool :=
  c ← get;
  if slowUpdate then mret true
  else if negb (isMoving own) && m_stoppedSendingVisualPositions (session c) then mret false
  else
    setSession (fun s =>
      if isMoving own then s <| m_stoppedSendingVisualPositions := false |>
      else s <| m_stoppedSendingVisualPositions := true |>
             <| m_visualPositionUpdateSentCount := 0 |>);;
    c ← get;
    mret (m_serverWantsVisualPositions (session c)).

Definition sendVisualPilotDataUpdate (slowUpdate : bool) : Cmd unit :=
  c ← get;
  if isDisconnectedHere c && negb (m_unitTestMode c) then mret tt
  else if bool_decide (m_loginMode (presets c) = Observer)
          || negb (isVisualPositionSendingEnabledForServer c) then mret tt
  else
    go ← visualUpdateGate slowUpdate;
    when go
      (c ← get;
       if m_stoppedSendingVisualPositions (session c)
       then queueMessage (update_toStopped (visualPilotDataUpdate c))
       else
         let n := m_visualPositionUpdateSentCount (session c) in
         setSession (fun s => s <| m_visualPositionUpdateSentCount := wrapU 32 (n + 1) |>);;
         if n mod 25 =? 0 then queueMessage (update_toPeriodic (visualPilotDataUpdate c))
         else queueMessage (visualPilotDataUpdate c)).

Definition sendPilotDataUpdate : Cmd unit :=
  c ← get;
  if isDisconnectedHere c && negb (m_unitTestMode c) then mret tt
  else match m_loginMode (presets c) with
       | Observer => sendAtcDataUpdate (own_latitude own) (own_longitude own)
       | Pilot =>
           when (isVisualPositionSendingEnabledForServer c) (sendVisualPilotDataUpdate true);;
           queueMessage (PilotDataUpdate.make
             (Transponder.m_transponderMode (own_transponder own)) (getOwnCallsignAsString c)
             (wrapS 16 (Transponder.m_transponderCode (own_transponder own)))
             (m_pilotRating (presets c)) (own_latitude own) (own_longitude own)
             (own_altitudeFtInt own) (own_pressureAltitudeFtInt own) (own_groundSpeedKts own)
             (own_pitch own) (own_bank own) (own_heading360 own) (own_onGround own))
       end.

Definition sendInterimPilotDataUpdate : Cmd unit :=
  c ← get;
  if isDisconnectedHere c then mret tt
  else forEach (fun receiver =>
         queueMessage (InterimPilotDataUpdate.make (getOwnCallsignAsString c) (asString receiver)
           (own_latitude own) (own_longitude own) (own_altitudeFtInt own) (own_groundSpeedKts own)
           (own_pitch own) (own_bank own) (own_heading360 own) (own_onGround own)))
         (m_interimPositionReceivers c).

(** ** Pings, text messages, flight plans *)

Definition sendPing (receiver : QString) : Cmd unit :=
  c ← get;
  queueMessage (Ping.make (getOwnCallsignAsString c) receiver (qt_number now));;
  increaseStatisticsValue "sendPing" [].
Definition sendPong (receiver timestamp : QString) : Cmd unit :=
  c ← get;
  queueMessage (Pong.make (getOwnCallsignAsString c) receiver timestamp);;
  increaseStatisticsValue "sendPong" [].

Inductive TextMessageGroups := AllClients | AllAtcClients | AllPilotClients | AllSups.
Definition groupReceiver (g : TextMessageGroups) : QString :=
  match g with
  | AllClients => lit "*" | AllAtcClients => lit "*A" | AllPilotClients => lit "*P"
  | AllSups => lit "*S"
  end.
Definition sendTextMessageGroup (receiverGroup : TextMessageGroups) (message : QString) : Cmd unit :=
  if isEmpty message then mret tt
  else
    c ← get;
    let me := getOwnCallsignAsString c in
    let receiver := groupReceiver receiverGroup in
    queueMessage (TextMessage.make me receiver message);;
    when (eqs receiver "*S")
      (emit (textMessageSent (privateMessage message (CCallsign_make me NoHint)
                                (CCallsign_make receiver NoHint) now)));;
    increaseStatisticsValue "sendTextMessages" [].

Definition sendRadioMessage (frequencieskHz : list Z) (message : QString) : Cmd unit :=
  c ← get;
  queueMessage (TextMessage.make (getOwnCallsignAsString c)
                  (TextMessage.radioReceiver frequencieskHz) message);;
  increaseStatisticsValue "sendTextMessages" [].

(** A list of messages: the private ones, then those for a frequency, each for
    the frequency of the closest station that uses it. *)
Definition sendPrivate (message : CTextMessage) : Cmd unit :=
  c ← get;
  if callsignEmpty (tm_recipient message) then mret tt
  else
    queueMessage (TextMessage.make (getOwnCallsignAsString c) (getFsdCallsignString (tm_recipient message))
                    (tm_message message));;
    increaseStatisticsValue "sendTextMessages.PM" [];;
    emit (textMessageSent message).
Definition sendRadio (message : CTextMessage) : Cmd unit :=
  c ← get;
  let stations := findIfFrequencyIsWithinSpacing (tm_frequencykHz message) (m_atcStations (session c)) in
  let freqkHz := if isEmpty stations then default 0 (tm_frequencykHz message)
                 else atc_frequencykHz (closestStation stations) in
  sendRadioMessage [freqkHz] (tm_message message);;
  increaseStatisticsValue "sendTextMessages.FREQ" [];;
  emit (textMessageSent message).
Definition sendTextMessages (messages : list CTextMessage) : Cmd unit :=
  if isEmpty messages then mret tt
  else forEach sendPrivate (markedAsSent now (getPrivateMessages messages));;
       forEach sendRadio (markedAsSent now (getRadioMessages messages)).

(** ** Plane information *)

Definition noModelString : QString := lit "swift empty string".
Definition getConfiguredModelString (c : CFSDClient) : QString :=
  let p := presets c in
  if negb (m_sendModelString p) then noModelString
  else let ms := if isEmpty (m_ownModelString p) then own_modelString own else m_ownModelString p in
       if isEmpty ms then noModelString else ms.
Definition getConfiguredLiveryString (c : CFSDClient) : QString :=
  let p := presets c in
  if negb (m_sendLiveryString p) then []
  else if isEmpty (m_ownLivery p) then own_livery own else m_ownLivery p.

Definition sendPlaneInfoRequest (receiver : CCallsign) : Cmd unit :=
  c ← get;
  queueMessage (PlaneInfoRequest.make (getOwnCallsignAsString c) (asString receiver));;
  increaseStatisticsValue "sendPlaneInfoRequest" [].
Definition sendPlaneInfoRequestFsinn (callsign : CCallsign) : Cmd unit :=
  c ← get;
  if negb (bool_decide (m_connectionStatus c = Connected)) then mret tt
  else
    queueMessage (PlaneInfoRequestFsinn.make (getOwnCallsignAsString c) (asString callsign)
                    (own_airlineDesignator own) (own_aircraftDesignator own)
                    (own_combinedType own) (getConfiguredModelString c));;
    increaseStatisticsValue "sendPlaneInfoRequestFsinn" [].
Definition sendPlaneInformation (receiver aircraft airline livery : QString) : Cmd unit :=
  c ← get;
  queueMessage (PlaneInformation.make (getOwnCallsignAsString c) receiver aircraft airline livery);;
  increaseStatisticsValue "sendPlaneInformation" [].
Definition sendPlaneInformationFsinn (callsign : CCallsign) : Cmd unit :=
  c ← get;
  if isDisconnectedHere c && negb (m_unitTestMode c) then mret tt
  else
    queueMessage (PlaneInformationFsinn.make (getOwnCallsignAsString c) (asString callsign)
                    (own_airlineDesignator own) (own_aircraftDesignator own)
                    (own_combinedType own) (getConfiguredModelString c));;
    increaseStatisticsValue "sendPlaneInformationFsinn" [].

Definition sendAircraftConfiguration (receiver aircraftConfigJson : QString) : Cmd unit :=
  if isEmpty aircraftConfigJson then mret tt
  else c ← get;
       queueMessage (ClientQuery.make (getOwnCallsignAsString c) receiver
                       ClientQueryType.AircraftConfig [aircraftConfigJson]).

(** The parts of the own aircraft, as the difference to those sent before, when
    they have changed and the token bucket allows it. *)
Definition configPacket (config : QJsonObject) : QJsonObject := objectOf [("config", JObject config)].
Definition sendIncrementalAircraftConfig : Cmd unit :=
  c ← get;
  if negb (m_unitTestMode c) &&
     (negb (bool_decide (m_connectionStatus c = Connected)) ||
      negb (sendAircraftParts (fsdSetup (getServer c)))) then mret tt
  else
    let currentParts := ownParts in
    let sent := m_sentAircraftConfig (session c) in
    if parts_eqb sent currentParts then mret tt
    else
      let '(ok, bucket) := TokenBucket.tryConsume now 1 (-1) (m_tokenBucket c) in
      modify (fun c => c <| m_tokenBucket := bucket |>);;
      when ok
        (let incrementalConfig := getIncrementalObject (parts_toJson sent) (parts_toJson currentParts) in
         sendAircraftConfiguration (lit "@94836")
           (convertToUnicodeEscaped (json_compact (configPacket incrementalConfig)));;
         setSession (fun s => s <| m_sentAircraftConfig := currentParts |>)).

(** ** Client responses *)

Definition handleIllegalFsdState : Cmd unit := log Warning_ "illegal FSD state".

(** The flags in the order of the code. *)
Definition capabilityFlags : list Capabilities.t :=
  [Capabilities.AtcInfo; Capabilities.SecondaryPos; Capabilities.AircraftInfo;
   Capabilities.OngoingCoord; Capabilities.InterminPos; Capabilities.FastPos; Capabilities.VisPos;
   Capabilities.Stealth; Capabilities.AircraftConfig; Capabilities.IcaoEquipment].
Definition capabilitiesResponse (capabilities : Z) : QStringList :=
  concat (map (fun f => if Capabilities.has capabilities f
                        then [Capabilities.toQString f ++ lit "=1"] else []) capabilityFlags).

(** The system identifier is empty without the VATSIM library. *)
Definition userInfo (c : CFSDClient) : QString :=
  let s := getServer c in
  let p := presets c in
  lit "CID=" ++ userId s ++ lit " " ++ m_clientName p ++ lit " IP=" ++ localAddress ++
  lit " SYS_UID=" ++ lit " FSVER=" ++ m_hostApplication p ++ lit " LT=" ++
  qt_numberG (own_latitude own) ++ lit " LO=" ++ qt_numberG (own_longitude own) ++ lit " AL=" ++
  qt_number (own_altitudeFtInt own) ++ lit " " ++ realName s.

Definition sendClientResponse (queryType : ClientQueryType.t) (receiver : QString) : Cmd unit :=
  c ← get;
  let me := getOwnCallsignAsString c in
  let p := presets c in
  let count := increaseStatisticsValue "sendClientResponse" (ClientQueryType.toQString queryType) in
  let respond data := queueMessage (ClientResponse.make me receiver queryType data) in
  match queryType with
  | ClientQueryType.Unknown => mret tt
  | ClientQueryType.IsValidATC => handleIllegalFsdState
  | ClientQueryType.Capabilities => count;; respond (capabilitiesResponse (m_capabilities p))
  | ClientQueryType.Com1Freq => count;; respond [qt_numberF (own_com1MHz own) 3]
  | ClientQueryType.RealName =>
      count;;
      respond [realNameAndHomeBase (getServer c); [];
               match m_loginMode p with
               | Observer => AtcRating.toQString (m_atcRating p)
               | Pilot => PilotRating.toQString (m_pilotRating p)
               end]
  | ClientQueryType.Server => count;; respond [server_address (getServer c)]
  | ClientQueryType.ATIS | ClientQueryType.PublicIP | ClientQueryType.FP
  | ClientQueryType.AircraftConfig => count;; handleIllegalFsdState
  | ClientQueryType.INF => count;; queueMessage (TextMessage.make me receiver (userInfo c))
  | ClientQueryType.EuroscopeSimData => count
  end.
End send.
