(* ===== verification/FsdReceive.v ===== *)
(** * What the FSD client receives (core/fsd/fsdclient.cpp, the handlers) *)

From S2P Require Export FsdSend Dispatch.

Section receive.
Context `{QtConv, BC : BuildConfig} {J : QtJson} {W : World}.

(** ** Offset times *)

Definition c_maxOffsetTimes : nat := 6.

Definition insertLatestOffsetTime (callsign : QString) (offsetMs : Z) (s : Session) : Session :=
  let offsets := offsetMs :: default [] (m_lastOffsetTimes s !! callsign) in
  s <| m_lastOffsetTimes ::=
         <[callsign := if (c_maxOffsetTimes <? length offsets)%nat then removelast offsets
                       else offsets]> |>.

(** The loop of [averageOffsetTimeMs]: it stops once the count exceeds the
    maximum. *)
Fixpoint offsetSum (maxLastValues count sum : Z) (offsets : list Z) : Z * Z :=
  match offsets with
  | [] => (count, sum)
  | v :: offsets =>
      if count + 1 >? maxLastValues then (count + 1, sum + v)
      else offsetSum maxLastValues (count + 1) (sum + v) offsets
  end.
(** [qRound(double(sum) / count)], halves away from zero: the average and the
    count, which stays as it was for no values. *)
Definition averageOffsetTimeMs (callsign : QString) (count maxLastValues : Z) (s : Session) : Z * Z :=
  match default [] (m_lastOffsetTimes s !! callsign) with
  | [] => (-1, count)
  | offsets => let '(count, sum) := offsetSum maxLastValues 0 0 offsets in
               (Z.sgn sum * ((2 * Z.abs sum + count) / (2 * count)), count)
  end.

Definition receivedPositionFixTsAndGetOffsetTime (callsign : CCallsign) (markerTs : Z) : Cmd Z :=
  let key := asString callsign in
  let markerTs := if markerTs <? 0 then now else markerTs in
  c ← get;
  match m_lastPositionUpdate (session c) !! key with
  | None =>
      setSession (fun s => s <| m_lastPositionUpdate ::= <[key := markerTs]> |>);;
      mret c_positionTimeOffsetMsec
  | Some oldTs =>
      setSession (fun s => s <| m_lastPositionUpdate ::= <[key := markerTs]> |>);;
      setSession (insertLatestOffsetTime key (Z.abs (markerTs - oldTs)));;
      c ← get;
      let '(avgTimeMs, count) := averageOffsetTimeMs key 0 3 (session c) in
      let offsetTime := if (avgTimeMs <? c_interimPositionTimeOffsetMsec) && (count >=? 3)
                        then c_interimPositionTimeOffsetMsec else c_positionTimeOffsetMsec in
      mret (m_additionalOffsetTime c + offsetTime)
  end.

Definition currentOffsetTime (callsign : CCallsign) (c : CFSDClient) : Z :=
  match default [] (m_lastOffsetTimes (session c) !! asString callsign) with
  | [] => c_positionTimeOffsetMsec
  | t :: _ => t
  end.

(** ** ATC *)

Definition removeByCallsign (cs : CCallsign) (l : list CAtcStation) : list CAtcStation :=
  filter (fun s => callsignEqual (atc_callsign s) cs = false) l.
Definition replaceOrAddObjectByCallsign (s : CAtcStation) (l : list CAtcStation) : list CAtcStation :=
  if callsignEmpty (atc_callsign s) then l else removeByCallsign (atc_callsign s) l ++ [s].

Definition handleAtcDataUpdate (tokens : QStringList) : Cmd unit :=
  m ← defined (AtcDataUpdate.fromTokens tokens);
  let senderCs := m_sender (AtcDataUpdate.base m) in
  let cs := CCallsign_make senderCs Atc in
  if bool_decide (AtcDataUpdate.m_facility m = FacilityType.Unknown) && negb (isObserverCallsign cs)
  then mret tt
  else if bool_decide (AtcDataUpdate.m_facility m = FacilityType.OBS) && negb (hasSuffix cs)
  then mret tt
  else
    let freq := AtcDataUpdate.m_frequencykHz m in
    let range := default 0 (fixAtcRange (Some (AtcDataUpdate.m_visibleRange m)) cs) in
    emit (atcDataUpdateReceived cs freq (AtcDataUpdate.m_latitude m) (AtcDataUpdate.m_longitude m) range);;
    setSession (fun s => s <| m_atcStations ::= replaceOrAddObjectByCallsign
      (mkAtcStation cs freq (AtcDataUpdate.m_latitude m) (AtcDataUpdate.m_longitude m) range) |>).

(** The station is looked up by the CID, converted to a callsign. *)
Definition handleDeleteATC (tokens : QStringList) : Cmd unit :=
  m ← defined (DeleteAtc.fromTokens tokens);
  emit (deleteAtcReceived (DeleteAtc.m_cid m));;
  setSession (fun s => s <| m_atcStations ::=
                              removeByCallsign (CCallsign_make (DeleteAtc.m_cid m) NoHint) |>).

Definition handleDeletePilot (tokens : QStringList) : Cmd unit :=
  m ← defined (DeletePilot.fromTokens tokens);
  clearStateFor (CCallsign_make (m_sender (DeletePilot.base m)) Aircraft);;
  emit (deletePilotReceived (DeletePilot.m_cid m)).

(** ** Text messages and ATIS *)

(** Lines joined by line feeds, the way appendMessage is called. *)
Definition appendLine (atis line : QString) : QString :=
  if isEmpty atis then line else (atis ++ [10%N]) ++ line.

(** The regular expression [^\d{0,4}z$]. *)
Definition isLogoffLine (message : QString) : bool :=
  let body s := match last s with
                | Some c => (c =? 122)%N && (length s <=? 5)%nat && forallb is09 (removelast s)
                | None => false
                end in
  body message || (bool_decide (last message = Some 10%N) && body (removelast message)).

Definition maybeHandleAtisReply (sender receiver : CCallsign) (message : QString) : Cmd unit :=
  let key := asString sender in
  c ← get;
  q ← defined (m_pendingAtisQueries (session c) !! key);
  let lines := m_atisMessage q ++ [message] in
  setSession (fun s => s <| m_pendingAtisQueries ::=
                              <[key := mkPendingAtis (m_queryTime q) lines]> |>);;
  if Z.quot (now - m_queryTime q) 1000 >? 5
  then consolidateTextMessage (privateMessage (join [10%N] lines) sender receiver now);;
       setSession (fun s => s <| m_pendingAtisQueries ::= base.delete key |>)
  else
    when (isLogoffLine message)
      (emit (atisLogoffTimeReplyReceived sender message);;
       emit (atisReplyReceived (CCallsign_make (asString sender) Atc)
               (fold_left appendLine lines []));;
       setSession (fun s => s <| m_pendingAtisQueries ::= base.delete key |>)).

Definition handleTextMessage (tokens : QStringList) : Cmd unit :=
  m ← defined (TextMessage.fromTokens tokens);
  let sender := CCallsign_make (m_sender (TextMessage.base m)) NoHint in
  let receiver := CCallsign_make (m_receiver (TextMessage.base m)) NoHint in
  c ← get;
  match TextMessage.m_type m with
  | TextMessage.PrivateMessage =>
      if negb (usesVatsimAtisMessages (m_networkConfig (presets c))) &&
         bool_decide (getOwnCallsignAsString c = m_receiver (TextMessage.base m)) &&
         bool_decide (is_Some (m_pendingAtisQueries (session c) !! asString sender))
      then maybeHandleAtisReply sender receiver (TextMessage.m_message m)
      else consolidateTextMessage (privateMessage (TextMessage.m_message m) sender receiver now)
  | TextMessage.RadioMessage =>
      let frequencies := omap comActive (TextMessage.m_frequencies m) in
      if isEmpty frequencies then mret tt
      else emit (textMessagesReceived
                   (map (fun f => radioMessage (TextMessage.m_message m) f sender now) frequencies))
  end.

(** One line of the loop over the ATIS text; [None] is the early return on a
    placeholder such as "z" or "z1". *)
Definition atisLine (atis : option QString) (tm : QString) : option QString :=
  atis ← atis;
  let fixed := trimmed tm in
  if isEmpty fixed then Some atis
  else let test := filter (fun c => c <> 10%N /\ c <> 9%N /\ c <> 13%N) (qt_toLower fixed) in
       if eqs test "z" then None
       else if startsWith test (lit "z") && (length test =? 2)%nat then None
       else if (length test =? 1)%nat then None
       else Some (appendLine atis fixed).

Definition AtisMessage_empty : AtisMessage := mkAtis [] [] [] 0.
Definition updateAtisMap (callsign : QString) (type : AtisLineType.t) (line : QString) : Cmd unit :=
  c ← get;
  let found := m_mapAtisMessages c !! callsign in
  let a := default AtisMessage_empty found in
  let store a := modify (fun c => c <| m_mapAtisMessages ::= <[callsign := a]> |>) in
  match type with
  | AtisLineType.VoiceRoom => store (mkAtis line (m_textLines a) (m_zuluLogoff a) (m_lineCount a + 1))
  | AtisLineType.TextMessage =>
      store (mkAtis (m_voiceRoom a) (m_textLines a ++ [line]) (m_zuluLogoff a) (m_lineCount a + 1))
  | AtisLineType.ZuluLogoff => store (mkAtis (m_voiceRoom a) (m_textLines a) line (m_lineCount a + 1))
  | AtisLineType.LineCount | AtisLineType.Unknown =>
      match found with
      | None => mret tt
      | Some a =>
          store (mkAtis (m_voiceRoom a) (m_textLines a) (m_zuluLogoff a) (m_lineCount a + 1));;
          let cs := CCallsign_make callsign Atc in
          emit (atisLogoffTimeReplyReceived cs (m_zuluLogoff a));;
          match fold_left atisLine (m_textLines a) (Some []) with
          | None => mret tt
          | Some atis =>
              emit (atisReplyReceived cs atis);;
              modify (fun c => c <| m_mapAtisMessages ::= base.delete callsign |>)
          end
      end
  end.

(** ** Positions *)

Definition handlePilotDataUpdate (tokens : QStringList) : Cmd unit :=
  m ← defined (PilotDataUpdate.fromTokens tokens);
  let callsign := CCallsign_make (m_sender (PilotDataUpdate.base m)) Aircraft in
  offsetTimeMs ← receivedPositionFixTsAndGetOffsetTime callsign now;
  let situation := mkSituation callsign (PilotDataUpdate.m_latitude m) (PilotDataUpdate.m_longitude m)
    (f64_of_Z (PilotDataUpdate.m_altitudeTrue m)) (PilotDataUpdate.m_heading m)
    (PilotDataUpdate.m_pitch m) (PilotDataUpdate.m_bank m) (PilotDataUpdate.m_groundSpeed m)
    (Some (PilotDataUpdate.m_altitudePressure m)) (PilotDataUpdate.m_onGround m) now offsetTimeMs in
  emit (pilotDataUpdateReceived situation
    (if isValidTransponderCode (PilotDataUpdate.m_transponderCode m)
     then mkTransponder (PilotDataUpdate.m_transponderCode m) (PilotDataUpdate.m_transponderMode m)
     else mkTransponder 2000 TransponderMode.StateStandby)).

Definition handleEuroscopeSimData (tokens : QStringList) : Cmd unit :=
  m ← defined (EuroscopeSimData.fromTokens tokens);
  let sender := m_sender (EuroscopeSimData.base m) in
  let callsign := CCallsign_make sender Aircraft in
  offsetTimeMs ← receivedPositionFixTsAndGetOffsetTime callsign now;
  c ← get;
  let situation := mkSituation callsign (EuroscopeSimData.m_latitude m) (EuroscopeSimData.m_longitude m)
    (EuroscopeSimData.m_altitude m) (EuroscopeSimData.m_heading m)
    (f64_of_Z (- EuroscopeSimData.m_pitch m)) (f64_of_Z (- EuroscopeSimData.m_bank m))
    (EuroscopeSimData.m_groundSpeed m) None (EuroscopeSimData.m_onGround m) now offsetTimeMs in
  emit (euroscopeSimDataUpdatedReceived situation (EuroscopeSimData.m_lights m)
    (negb (EuroscopeSimData.m_gearPercent m =? 0)) (EuroscopeSimData.m_onGround m)
    (currentOffsetTime (CCallsign_make sender NoHint) c) (EuroscopeSimData.m_model m)
    (EuroscopeSimData.m_livery m)).

(** The body is disabled in the source. *)
Definition handleVisualPilotDataUpdate (tokens : QStringList) (messageType : MessageType.t) : Cmd unit :=
  mret tt.

Definition handleVisualPilotDataToggle (tokens : QStringList) : Cmd unit :=
  m ← defined (VisualPilotDataToggle.fromTokens tokens);
  setSession (fun s => s <| m_serverWantsVisualPositions := VisualPilotDataToggle.m_active m |>).

(** ** Session *)

Definition handlePing (tokens : QStringList) : Cmd unit :=
  m ← defined (Ping.fromTokens tokens);
  sendPong (m_sender (Ping.base m)) (Ping.m_timestamp m).
Definition handlePong (tokens : QStringList) : Cmd unit :=
  m ← defined (Pong.fromTokens tokens);
  emit (pongReceived (m_sender (Pong.base m)) (now - toLongLong (Pong.m_timestamp m))).
Definition handleKillRequest (tokens : QStringList) : Cmd unit :=
  m ← defined (KillRequest.fromTokens tokens);
  emit (killRequestReceived (KillRequest.m_reason m));; disconnectFromServer.
Definition handleMute (tokens : QStringList) : Cmd unit :=
  m ← defined (Mute.fromTokens tokens);
  c ← get;
  when (bool_decide (m_receiver (Mute.base m) = getOwnCallsignAsString c))
    (emit (muteRequestReceived (Mute.m_mute m))).

(** The log entry of a server error, when the number is a known one. *)
Definition serverErrorLog (errorNumber : Z) : Cmd unit :=
  match ServerErrorCode.ofInt errorNumber with
  | Some ServerErrorCode.NoError | Some ServerErrorCode.InvalidSrcCallsign
  | Some ServerErrorCode.NoSuchCallsign | Some ServerErrorCode.NoFlightPlan
  | Some ServerErrorCode.NoWeatherProfile => log Info "server error"
  | Some ServerErrorCode.AlreadyRegistered | Some ServerErrorCode.InvalidCtrl
  | Some ServerErrorCode.Unknown | Some ServerErrorCode.AuthTimeout => log Warning_ "server error"
  | Some _ => log Error "server error"
  | None => mret tt
  end.
Definition handleServerError (tokens : QStringList) : Cmd unit :=
  m ← defined (ServerError.fromTokens tokens);
  serverErrorLog (ServerError.m_errorNumber m);;
  when (ServerError.isFatalError m) disconnectFromServer.

Definition handleRehost (tokens : QStringList) : Cmd unit :=
  m ← defined (Rehost.fromTokens tokens);
  log Info "Server requested we switch server to %1";;
  c ← get;
  if usesWebSocket (getServer c) then log Warning_ "Ignoring rehost request over WebSocket"
  else setSession (fun s => s <| m_rehosting := true |>);;
       initiateConnection (Some (Rehost.m_hostname m)).

(** ** Flight plans *)

Definition is09OnlyString (s : QString) : bool := forallb is09 s.

(** The cruise altitude as text for the altitude parser. *)
Definition cruiseAltText (rules : FlightRules) (cruiseAlt : QString) : QString :=
  let s := trimmed cruiseAlt in
  if negb (isEmpty s) && is09OnlyString s
  then let ca := toInt s in
       match rules with
       | FP_IFR => if ca >=? 1000 then lit "FL" ++ qt_number (Z.quot ca 100) else lit "FL" ++ s
       | _ => if ca >=? 5000 then lit "FL" ++ qt_number (Z.quot ca 100) else s ++ lit "ft"
       end
  else s.
Definition flightRulesOf (f : FlightType.t) : FlightRules :=
  match f with
  | FlightType.VFR => FP_VFR | FlightType.IFR => FP_IFR | FlightType.DVFR => FP_DVFR
  | FlightType.SVFR => FP_SVFR
  end.

Definition handleFlightPlan (tokens : QStringList) : Cmd unit :=
  m ← defined (FlightPlan.fromTokens tokens);
  let rules := flightRulesOf (FlightPlan.m_flightType m) in
  let hhmm n := right (lit "0000" ++ qt_number n) 4 in
  let callsign := CCallsign_make (m_sender (FlightPlan.base m)) Aircraft in
  emit (flightPlanReceived callsign
    (mkFlightPlan callsign (FlightPlan.m_aircraftIcaoType m) (FlightPlan.m_depAirport m)
       (FlightPlan.m_destAirport m) (FlightPlan.m_altAirport m)
       (hhmm (FlightPlan.m_estimatedDepTime m)) (hhmm (FlightPlan.m_actualDepTime m))
       (wrapS 32 (FlightPlan.m_hoursEnroute m * 60 + FlightPlan.m_minutesEnroute m))
       (wrapS 32 (FlightPlan.m_fuelAvailHours m * 60 + FlightPlan.m_fuelAvailMinutes m))
       (cruiseAltText rules (FlightPlan.m_cruiseAlt m)) (FlightPlan.m_trueCruisingSpeed m) rules
       (FlightPlan.m_route m) (FlightPlan.m_remarks m))).

(** ** Client queries and responses *)

Definition handleClientQuery (tokens : QStringList) : Cmd unit :=
  m ← defined (ClientQuery.fromTokens tokens);
  let sender := m_sender (ClientQuery.base m) in
  match ClientQuery.m_queryType m with
  | ClientQueryType.Unknown => mret tt
  | ClientQueryType.Capabilities => sendClientResponse ClientQueryType.Capabilities sender
  | ClientQueryType.Com1Freq => sendClientResponse ClientQueryType.Com1Freq sender
  | ClientQueryType.RealName => sendClientResponse ClientQueryType.RealName sender
  | ClientQueryType.Server => sendClientResponse ClientQueryType.Server sender
  | ClientQueryType.INF => sendClientResponse ClientQueryType.INF sender
  | ClientQueryType.IsValidATC | ClientQueryType.ATIS | ClientQueryType.PublicIP
  | ClientQueryType.FP | ClientQueryType.EuroscopeSimData => mret tt
  | ClientQueryType.AircraftConfig =>
      let callsign := CCallsign_make sender Aircraft in
      match json_parse (join [colon] (mid tokens 3)) with
      | None => log Warning_ "Failed to parse aircraft config packet: '%1' packet: '%2'"
      | Some packet =>
          if bool_decide (packet = aircraftConfigRequest)
          then let config := insertKey (lit attributeNameIsFullJson) (JBool true)
                               (parts_toJson ownParts) in
               sendAircraftConfiguration sender
                 (convertToUnicodeEscaped (json_compact (configPacket config)))
          else if negb (inRange callsign) then mret tt
          else
            c ← get;
            if negb (receiveAircraftParts (fsdSetup (getServer c))) then mret tt
            else let config := toObject (value (lit "config") packet) in
                 if bool_decide (config = []) then mret tt
                 else emit (aircraftConfigReceived sender config (currentOffsetTime callsign c))
      end
  end.

Definition equalsSign : QChar := 61%N.
Definition addCapability (capabilities : Z) (keyValuePair : QString) : Z :=
  if negb (countChar keyValuePair equalsSign =? 1)%nat then capabilities
  else match split equalsSign keyValuePair with
       | key :: value :: _ =>
           if eqs value "1" then Capabilities.or capabilities (Capabilities.value (Capabilities.fromQString key))
           else capabilities
       | _ => capabilities
       end.
Definition parseCapabilities (responseData : QStringList) : Z :=
  fold_left addCapability responseData (Capabilities.value Capabilities.None).
Definition clientCaps (capabilities : Z) : ClientCaps :=
  mkCaps (Capabilities.has capabilities Capabilities.AtcInfo)
         (Capabilities.has capabilities Capabilities.FastPos)
         (Capabilities.has capabilities Capabilities.VisPos)
         (Capabilities.has capabilities Capabilities.AircraftInfo)
         (Capabilities.has capabilities Capabilities.AircraftConfig).

Definition handleClientResponse (tokens : QStringList) : Cmd unit :=
  m ← defined (ClientResponse.fromTokens tokens);
  if ClientResponse.isUnknownQuery m then mret tt
  else
    let sender := m_sender (ClientResponse.base m) in
    let responseData := ClientResponse.m_responseData m in
    let responseData1 := default [] (responseData !! 0%nat) in
    let responseData2 := default [] (responseData !! 1%nat) in
    match ClientResponse.m_queryType m with
    | ClientQueryType.IsValidATC =>
        emit (validAtcResponseReceived responseData2 (eqs responseData1 "Y"))
    | ClientQueryType.Capabilities =>
        emit (capabilityResponseReceived (CCallsign_make sender NoHint)
                (clientCaps (parseCapabilities responseData)))
    | ClientQueryType.Com1Freq =>
        if isEmpty responseData1 then mret tt
        else match qt_toDouble responseData1 with
             | None => mret tt
             | Some freqMHz => emit (com1FrequencyResponseReceived sender freqMHz)
             end
    | ClientQueryType.RealName => emit (realNameResponseReceived sender responseData1)
    | ClientQueryType.Server => emit (serverResponseReceived sender responseData1)
    | ClientQueryType.ATIS => updateAtisMap sender (AtisLineType.fromQString responseData1) responseData2
    | _ => mret tt
    end.

(** ** Custom pilot packets *)

Definition handleCustomPilotPacket (tokens : QStringList) : Cmd unit :=
  subType ← defined (tokens !! 2%nat);
  if eqs subType "PIR" then
    m ← defined (PlaneInfoRequest.fromTokens tokens);
    c ← get;
    sendPlaneInformation (m_sender (PlaneInfoRequest.base m)) (own_aircraftDesignator own)
      (if force3LetterAirlineCodes (fsdSetup (getServer c)) then own_airlineDesignator own
       else own_airlineVDesignator own)
      (getConfiguredLiveryString c)
  else if eqs subType "PI" then
    if (6 <? length tokens)%nat && eqs (default [] (tokens !! 3%nat)) "X" then mret tt
    else when ((4 <? length tokens)%nat && eqs (default [] (tokens !! 3%nat)) "GEN")
      (m ← defined (PlaneInformation.fromTokens tokens);
       emit (planeInformationReceived (m_sender (PlaneInformation.base m))
               (PlaneInformation.m_aircraft m) (PlaneInformation.m_airline m)
               (PlaneInformation.m_livery m)))
  else if eqs subType "I" then mret tt
  else if eqs subType "VI" then
    c ← get;
    if negb (isInterimPositionReceivingEnabledForServer c) then mret tt
    else
      m ← defined (InterimPilotDataUpdate.fromTokens tokens);
      let callsign := CCallsign_make (m_sender (InterimPilotDataUpdate.base m)) Aircraft in
      offsetTimeMs ← receivedPositionFixTsAndGetOffsetTime callsign now;
      emit (interimPilotDataUpdatedReceived
        (mkSituation callsign (InterimPilotDataUpdate.m_latitude m)
           (InterimPilotDataUpdate.m_longitude m) (f64_of_Z (InterimPilotDataUpdate.m_altitudeTrue m))
           (InterimPilotDataUpdate.m_heading m) (InterimPilotDataUpdate.m_pitch m)
           (InterimPilotDataUpdate.m_bank m) (InterimPilotDataUpdate.m_groundSpeed m) None
           (InterimPilotDataUpdate.m_onGround m) now offsetTimeMs))
  else if eqs subType "FSIPI" then
    m ← defined (PlaneInformationFsinn.fromTokens tokens);
    emit (planeInformationFsinnReceived
      (CCallsign_make (m_sender (PlaneInformationFsinn.base m)) NoHint)
      (PlaneInformationFsinn.m_airlineIcao m) (PlaneInformationFsinn.m_aircraftIcao m)
      (PlaneInformationFsinn.m_aircraftIcaoCombinedType m) (PlaneInformationFsinn.m_sendMModelString m))
  else if eqs subType "FSIPIR" then
    m ← defined (PlaneInfoRequestFsinn.fromTokens tokens);
    let cs := CCallsign_make (m_sender (PlaneInfoRequestFsinn.base m)) NoHint in
    sendPlaneInformationFsinn cs;;
    emit (planeInformationFsinnReceived cs
      (PlaneInfoRequestFsinn.m_airlineIcao m) (PlaneInfoRequestFsinn.m_aircraftIcao m)
      (PlaneInfoRequestFsinn.m_aircraftIcaoCombinedType m) (PlaneInfoRequestFsinn.m_sendMModelString m))
  else
    sender ← defined (tokens !! 0%nat);
    emit (customPilotPacketReceived sender (mid tokens 3)).

(** ** Lines *)

Definition handleUnknownPacket : Cmd unit := log Warning_ "FSD unknown packet: '%1'".

(** The handlers by message type; the three messages of the VATSIM
    authentication have no handler in this build. *)
Definition handleMessage (messageType : MessageType.t) (tokens : QStringList) : Cmd unit :=
  match messageType with
  | MessageType.AddAtc | MessageType.AddPilot | MessageType.ServerHeartbeat
  | MessageType.ProController | MessageType.ClientIdentification => mret tt
  | MessageType.AtcDataUpdate => handleAtcDataUpdate tokens
  | MessageType.ClientQuery => handleClientQuery tokens
  | MessageType.ClientResponse => handleClientResponse tokens
  | MessageType.DeleteATC => handleDeleteATC tokens
  | MessageType.DeletePilot => handleDeletePilot tokens
  | MessageType.FlightPlan => handleFlightPlan tokens
  | MessageType.KillRequest => handleKillRequest tokens
  | MessageType.PilotDataUpdate => handlePilotDataUpdate tokens
  | MessageType.Ping => handlePing tokens
  | MessageType.Pong => handlePong tokens
  | MessageType.ServerError => handleServerError tokens
  | MessageType.TextMessage => handleTextMessage tokens
  | MessageType.PilotClientCom => handleCustomPilotPacket tokens
  | MessageType.VisualPilotDataUpdate | MessageType.VisualPilotDataPeriodic
  | MessageType.VisualPilotDataStopped => handleVisualPilotDataUpdate tokens messageType
  | MessageType.VisualPilotDataToggle => handleVisualPilotDataToggle tokens
  | MessageType.EuroscopeSimData => handleEuroscopeSimData tokens
  | MessageType.Rehost => handleRehost tokens
  | MessageType.Mute => handleMute tokens
  | MessageType.Unknown | MessageType.AuthChallenge | MessageType.AuthResponse
  | MessageType.FsdIdentification => handleUnknownPacket
  end.

Definition parseMessage (lineRaw : QString) : Cmd unit :=
  emitRawFsdMessage (trimmed lineRaw) false;;
  let parsed := splitLine m_messageTypeMapping lineRaw in
  increaseStatisticsValue "parseMessage"
    (messageTypeToString (match parsed with
                          | UnknownLine _ => MessageType.Unknown
                          | EmptyPayload ty | Message ty _ => ty
                          end));;
  match parsed with
  | UnknownLine _ => handleUnknownPacket
  | EmptyPayload _ => mret tt
  | Message messageType tokens => handleMessage messageType tokens
  end.

(** ** Reading *)

Definition newline : N := 10%N.
(** QByteArray::trimmed removes what isspace() accepts. *)
Definition isByteSpace (b : N) : bool := bool_decide ((9 <= b <= 13)%N \/ b = 32%N).

Fixpoint readWebSocketLines (fuel : nat) : Cmd unit :=
  match fuel with
  | O => mret tt
  | S fuel =>
      c ← get;
      match indexOf newline (m_webSocketReadBuffer c) with
      | None => mret tt
      | Some i =>
          let dataEncoded := take (i + 1) (m_webSocketReadBuffer c) in
          modify (fun c => c <| m_webSocketReadBuffer ::= drop (i + 1) |>);;
          when (negb (isEmpty (trimWith isByteSpace dataEncoded))) (parseMessage (decode (m_codec (presets c)) dataEncoded));;
          readWebSocketLines fuel
      end
  end.
(** A line takes at least one byte, so as many turns as bytes are enough. *)
Definition readDataFromWebSocket (message : list N) : Cmd unit :=
  if isEmpty message then mret tt
  else
    modify (fun c => c <| m_webSocketReadBuffer ::= fun b => b ++ message |>);;
    c ← get;
    readWebSocketLines (length (m_webSocketReadBuffer c)).

Definition MaxLines : Z := 74.
(** [qRound(1.2 * lines)] of an int. *)
Definition moreLines (lines : Z) : Z := (12 * lines + 5) / 10.

(** Reads lines of the TCP socket; the result is the maximum for the next call
    that is due in 10 ms. *)
Fixpoint readSocketLines (fuel : nat) (lines maxLines : Z) : Cmd (option Z) :=
  match fuel with
  | O => mret None
  | S fuel =>
      c ← get;
      match m_socketLines c with
      | [] => mret None
      | dataEncoded :: rest =>
          modify (fun c => c <| m_socketLines := rest |>);;
          if isEmpty dataEncoded then readSocketLines fuel lines maxLines
          else
            parseMessage (decode (m_codec (presets c)) dataEncoded);;
            let lines := lines + 1 in
            let maxLines := if maxLines <? 0 then MaxLines else maxLines in
            if lines >? maxLines
            then log Debug "ReadDataFromSocket has too many lines (>%1), will read again in %2ms";;
                 mret (Some (moreLines lines))
            else readSocketLines fuel lines maxLines
      end
  end.
Definition readDataFromSocketMaxLines (maxLines : Z) : Cmd (option Z) :=
  c ← get; readSocketLines (length (m_socketLines c)) 0 maxLines.

(** ** Socket events *)

Inductive SocketError := RemoteHostClosedError | OtherSocketError.

Definition printSocketError : Cmd unit :=
  c ← get; when (negb (m_rehosting (session c))) (log Error "FSD socket error: %1").
Definition handleSocketError (socketError : SocketError) : Cmd unit :=
  c ← get;
  if m_rehosting (session c) then mret tt
  else match socketError with
       | RemoteHostClosedError => emit (severeNetworkError socketErrorString);; disconnectFromServer
       | OtherSocketError => mret tt
       end.
Definition handleSocketConnected : Cmd unit :=
  c ← get;
  when (m_protocolRevision (presets c) =? PROTOCOL_REVISION_CLASSIC)
    (sendLogin [];; updateConnectionStatus Connected).
Definition handleWebSocketDisconnected : Cmd unit :=
  c ← get;
  if m_rehosting (session c) || bool_decide (m_connectionStatus c = Disconnected)
     || bool_decide (m_connectionStatus c = Disconnecting) then mret tt
  else emit (severeNetworkError (if isEmpty wsCloseReason then lit "WebSocket connection closed"
                                 else wsCloseReason));;
       disconnectFromServer.

(** The callbacks of the rehosting socket; the first reads what both sockets
    still hold. *)
Definition rehostConnected (newSocketLines : list (list N)) : Cmd unit :=
  _ ← readDataFromSocketMaxLines (-1);
  log Debug "Successfully switched server";;
  modify (fun c => c <| m_socketLines := newSocketLines |> <| session -> m_rehosting := false |>);;
  _ ← readDataFromSocketMaxLines (-1); mret tt.
Definition rehostFailed : Cmd unit :=
  log Warning_ "Failed to switch server: %1";;
  setSession (fun s => s <| m_rehosting := false |>);;
  when (negb tcpIsConnected) (updateConnectionStatus Disconnected).
End receive.
