(* ===== verification/AirspaceMonitor.v ===== *)
(** * The airspace monitor (core/airspacemonitor.h, .cpp, misc/network/clientprovider.h, .cpp)

    The receiver of the signals of the FSD client: it keeps the aircraft in range
    (it is the provider of remote aircraft), the clients and the ATC stations, asks
    the client for what it does not know, and says when an aircraft is ready for
    the matching of its model.  A slot is a [Mon]: it changes the state and emits
    a list of [MonOut].  Closures started with QTimer::singleShot are the [timers]
    of the state, with the time they are due at.

    Elevations and the lookup of models are the interface [MonitorEnv]; texts of
    messages stand for the texts before the substitution of arguments. *)

From S2P Require Export RemoteAircraft FsdReceive.

Open Scope Z_scope.

(** ** State *)

(** CClient; the capability of the ground flag beside the others. *)
Record CClient := mkCClient {
  cl_callsign : CCallsign; cl_capabilities : ClientCaps; cl_groundFlag : bool; cl_server : QString;
  cl_modelString : QString; cl_swift : bool }.

(** MatchingReadinessFlag and QFlags. *)
Definition NotReady : Z := 0.
Definition ReceivedIcaoCodes : Z := 1.
Definition ReceivedFsInnPacket : Z := 2.
Definition ReadyForMatchingSent : Z := 4.
Definition RecursiveCall : Z := 8.
Definition ReceivedAll : Z := 3.
Definition Verified : Z := 16.
Definition testFlag (i f : Z) : bool := (Z.land i f =? f) && (negb (f =? 0) || (i =? f)).

Record Readiness := mkReadiness { rd_ts : Z; rd_readyness : Z }.
Definition Readiness_default : Readiness := mkReadiness (-1) NotReady.
Definition addFlag (t flag : Z) (r : Readiness) : Readiness :=
  if flag =? RecursiveCall then r
  else mkReadiness (if rd_ts r <? 0 then t else rd_ts r) (Z.lor (rd_readyness r) flag).
Definition setFlag (t flag : Z) (r : Readiness) : Readiness :=
  if flag =? RecursiveCall then r else addFlag t flag (mkReadiness (rd_ts r) NotReady).
Definition receivedAll (r : Readiness) : bool :=
  testFlag (rd_readyness r) ReceivedIcaoCodes && testFlag (rd_readyness r) ReceivedFsInnPacket.
Definition receivedIcaoCodes (r : Readiness) : bool := testFlag (rd_readyness r) ReceivedIcaoCodes.
Definition wasMatchingSent (r : Readiness) : bool := testFlag (rd_readyness r) ReadyForMatchingSent.
Definition wasVerified (r : Readiness) : bool := testFlag (rd_readyness r) Verified.
Definition getAgeMs (t : Z) (r : Readiness) : Z := if rd_ts r <? 0 then -1 else t - rd_ts r.

Definition MMCheckAgainMs : Z := 2000.
Definition MMMaxAgeMs : Z := MMCheckAgainMs * 3.
Definition MMMaxAgeThresholdMs : Z := MMCheckAgainMs * 10.
Definition MMVerifyMs : Z := MMCheckAgainMs * 12.

Record FsInnPacket := mkFsInn {
  fi_aircraftIcaoDesignator : QString; fi_airlineIcaoDesignator : QString; fi_combinedCode : QString;
  fi_modelString : QString }.
Definition FsInnPacket_make `{QtConv} (aircraft airline combinedCode modelString : QString) : FsInnPacket :=
  mkFsInn (qt_toUpper (trimmed aircraft)) (qt_toUpper (trimmed airline)) (qt_toUpper (trimmed combinedCode))
    (trimmed modelString).

(** CAircraftModel::ModelType, as far as the monitor names it. *)
Inductive ModelType := TypeFSInnData | TypeQueriedFromNetwork.

(** The closures started with a timer. *)
Inductive MonTimer `{FlightGeometry} :=
  | CheckAgain (callsign : CCallsign) (rf : Z)
  | VerifyIcaoData (callsign : CCallsign)
  | ReInitialize (aircraft : CSimulatedAircraft) (readyForModelMatching : bool).

(** [connected]: the client is connected, and the application is not shutting
    down.  Maps are keyed by the unified string of a callsign. *)
Record CAirspaceMonitor `{FlightGeometry} := mkMonitor {
  provider : CRemoteAircraftProvider; m_clients : gmap QString CClient; m_atcStationsOnline : list CAtcStation;
  m_tempFsInnPackets : gmap QString FsInnPacket; m_flightPlanCache : gmap QString (CFlightPlan * Z);
  m_readiness : gmap QString Readiness; m_queryAtis : list CCallsign; m_queryPilot : list CCallsign;
  m_maxDistanceNM : Z; m_maxDistanceNMHysteresis : Z; connected : bool; mon_timers : list (Z * MonTimer) }.
Arguments mkMonitor {_} _ _ _ _ _ _ _ _ _ _ _ _.

Inductive FsdRequest :=
  | PlaneInfoRequest | PlaneInfoRequestFsinn | QueryCom1Freq | QueryRealName | QueryCapabilities | QueryServer
  | QueryAtis | QueryAircraftConfig.

(** Signals of the monitor and of its provider, and calls of the client. *)
Inductive MonOut `{FlightGeometry} :=
  | FromProvider_ (s : ProviderSignal)
  | Request (r : FsdRequest) (callsign : CCallsign)
  | changedAtcStationsOnline
  | atcStationDisconnected (station : CAtcStation)
  | requestedNewAircraft (callsign : CCallsign) (aircraftDesignator airlineDesignator livery : QString)
  | readyForModelMatching (remoteAircraft : CSimulatedAircraft).

(** The own aircraft: whether the login is that of an observer, its callsign,
    and the distance of a situation from it; the settings of the matching and what
    the matcher and the database know of models; ground elevations; situations of
    the FSD client. *)
Class MonitorEnv `{FlightGeometry} := {
  loginObserver : bool; ownCallsign : CCallsign; distanceToOwnAircraftNM : FlightState -> Z;
  distanceToOwnAircraft : FlightState -> CLength;
  isReverseLookupModelString : bool; isKnownModelString : QString -> CCallsign -> bool;
  hasAnyId : QString -> bool;
  reverseLookupModel : CCallsign -> QString -> QString -> QString -> QString -> ModelType ->
                       option CFlightPlan -> CAircraftModel;
  updateMissingPartsOfModel : CAircraftModel -> CAircraftModel -> CAircraftModel;
  hasModelString : CAircraftModel -> bool; getModelString : CAircraftModel -> QString;
  hasValidDbKey : CAircraftModel -> bool; hasAircraftDesignator : CAircraftModel -> bool;
  aircraftIcaoCodeDesignator : CAircraftModel -> QString; cgOfModelString : QString -> CLength;
  getSimulatorOrDbCG : CCallsign -> CLength -> CLength;
  withCG : CLength -> FlightState -> FlightState;
  groundElevated : CRemoteAircraftProvider -> RemoteSituation -> RemoteSituation;
  withGroundSpeedOf : FlightState -> FlightState -> FlightState;
  samePosition : FlightState -> FlightState -> bool;
  flightOf : CAircraftSituation -> FlightState;
  sameStation : CAtcStation -> CAtcStation -> bool }.

(** ** Slots *)

Definition Mon `{FlightGeometry} (A : Type) : Type := CAirspaceMonitor -> A * CAirspaceMonitor * list MonOut.

Section monad.
Context `{FlightGeometry}.
#[export] Instance Mon_ret : MRet Mon := fun A x m => (x, m, []).
#[export] Instance Mon_bind : MBind Mon := fun A B k x m =>
  let '(a, m', o) := x m in let '(b, m'', o') := k a m' in (b, m'', o ++ o').
Definition mon_get : Mon CAirspaceMonitor := fun m => (m, m, []).
Definition mon_set (f : CAirspaceMonitor -> CAirspaceMonitor) : Mon unit := fun m => (tt, f m, []).
Definition mon_emit (o : MonOut) : Mon unit := fun m => (tt, m, [o]).
Definition mon_when (b : bool) (x : Mon unit) : Mon unit := if b then x else mret tt.
Fixpoint mon_forEach {A} (f : A -> Mon unit) (l : list A) : Mon unit :=
  match l with [] => mret tt | x :: l => f x;; mon_forEach f l end.
Definition request (r : FsdRequest) (callsign : CCallsign) : Mon unit := mon_emit (Request r callsign).
Definition singleShot (due : Z) (closure : MonTimer) : Mon unit :=
  mon_set (fun m => m <| mon_timers ::= fun l => l ++ [(due, closure)] |>).

(** A member function of the provider: its result, and its signals. *)
Definition ofProvider {A} (f : CRemoteAircraftProvider -> A * CRemoteAircraftProvider * list ProviderSignal) : Mon A :=
  fun m => let '(a, p, signals) := f (provider m) in (a, m <| provider := p |>, map FromProvider_ signals).
Definition updateProvider (f : CRemoteAircraftProvider -> CRemoteAircraftProvider) : Mon unit :=
  ofProvider (fun p => (tt, f p, [])).
End monad.

(** ** Clients (CClientProvider) *)

Definition ClientCaps_none : ClientCaps := mkCaps false false false false false.
Definition CClient_default : CClient := mkCClient CCallsign_default ClientCaps_none false [] [] false.
Definition CClient_make (callsign : CCallsign) : CClient := CClient_default <| cl_callsign := callsign |>.
Definition client_isValid (c : CClient) : bool := negb (callsignEmpty (cl_callsign c)).

Section clients.
Implicit Types (clients : gmap QString CClient) (callsign : CCallsign).

Definition getClients clients : list CClient := map snd (map_to_list clients).
Definition getClientOrDefaultForCallsign callsign clients : CClient :=
  if callsignEmpty callsign then CClient_default else default CClient_default (clients !! asString callsign).
Definition hasClientInfo callsign clients : bool :=
  if callsignEmpty callsign then false else bool_decide (is_Some (clients !! asString callsign)).
Definition setOtherClient (client : CClient) clients : bool * gmap QString CClient :=
  if callsignEmpty (cl_callsign client) then (false, clients)
  else (true, <[asString (cl_callsign client) := client]> clients).
Definition addNewClient (client : CClient) clients : bool * gmap QString CClient :=
  if callsignEmpty (cl_callsign client) then (false, clients)
  else if hasClientInfo (cl_callsign client) clients then (false, clients)
  else (true, <[asString (cl_callsign client) := client]> clients).
(** The map of properties as the change it makes to a client. *)
Definition updateOrAddClient callsign (vm : CClient -> CClient) clients : gmap QString CClient :=
  if callsignEmpty callsign then clients
  else match clients !! asString callsign with
       | Some client => <[asString callsign := vm client]> clients
       | None => <[asString callsign := vm (CClient_make callsign)]> clients
       end.
Definition removeClient callsign clients : gmap QString CClient := delete (asString callsign) clients.
Definition setClientGndCapability callsign (supportGndFlag : bool) clients : bool * gmap QString CClient :=
  if callsignEmpty callsign then (false, clients)
  else
    let client := getClientOrDefaultForCallsign callsign clients in
    if negb (client_isValid client) then (false, clients)
    else if eqb (cl_groundFlag client) supportGndFlag then (true, clients)
    else (true, <[asString callsign := client <| cl_groundFlag := supportGndFlag |>]> clients).
Definition addClientGndCapability callsign clients : bool * gmap QString CClient :=
  setClientGndCapability callsign true clients.
Definition autoAdjustCientGndCapability `{FlightGeometry} (situation : RemoteSituation) clients :
    bool * gmap QString CClient :=
  if callsignEmpty (m_correspondingCallsign situation) then (false, clients)
  else if negb (situation_isOnGround situation) then (false, clients)
  else if negb (bool_decide (getGroundDetails situation = InFromNetwork)) then (false, clients)
  else addClientGndCapability (m_correspondingCallsign situation) clients.
Definition markAsSwiftClient callsign clients : gmap QString CClient :=
  if callsignEmpty callsign then clients
  else match clients !! asString callsign with
       | None => clients
       | Some client => <[asString callsign := client <| cl_swift := true |>]> clients
       end.
End clients.

Section monitor.
Context {FG : FlightGeometry} {ME : MonitorEnv} `{QtConv} `{StdSort} `{BuildConfig}.
Implicit Types (t : Z) (callsign : CCallsign) (situation : RemoteSituation).

Definition CAirspaceMonitor_init : CAirspaceMonitor :=
  mkMonitor CRemoteAircraftProvider_init ∅ [] ∅ ∅ ∅ [] [] 125 138 false [].

Definition setClients (f : gmap QString CClient -> gmap QString CClient) : Mon unit :=
  mon_set (fun m => m <| m_clients ::= f |>).
Definition mon_isAircraftInRange callsign : Mon bool :=
  m ← mon_get; mret (isAircraftInRange callsign (provider m)).
(** A message of the reverse lookup. *)
Definition reverseLog callsign (text : QString) : Mon unit :=
  updateProvider (addReverseLookupMessage callsign text).

(** *** Clearing *)

Definition mon_removeAllOnlineAtcStations : Mon unit :=
  mon_set (fun m => m <| m_atcStationsOnline := [] |> <| m_queryAtis := [] |>).
Definition mon_removeAllAircraft : Mon unit :=
  ofProvider (fun p => let '(p, signals) := removeAllAircraft p in (tt, p, signals));;
  mon_set (fun m => m <| m_flightPlanCache := ∅ |> <| m_readiness := ∅ |> <| m_queryPilot := [] |>).
Definition clear : Mon unit :=
  mon_set (fun m => m <| m_flightPlanCache := ∅ |> <| m_tempFsInnPackets := ∅ |> <| m_readiness := ∅ |>);;
  mon_removeAllOnlineAtcStations;;
  mon_removeAllAircraft;;
  setClients (fun _ => ∅).
Definition removeFromAircraftCachesAndLogs callsign : Mon unit :=
  if callsignEmpty callsign then mret tt
  else
    mon_set (fun m => m <| m_flightPlanCache ::= delete (asString callsign) |>
                        <| m_readiness ::= delete (asString callsign) |>);;
    updateProvider (removeReverseLookupMessages callsign).

(** *** Queries *)

Definition sendInitialAtcQueries callsign : Mon unit :=
  m ← mon_get;
  mon_when (connected m)
    (request QueryRealName callsign;; request QueryAtis callsign;; request QueryCapabilities callsign;;
     request QueryServer callsign).
Definition sendInitialPilotQueries callsign (withIcaoQuery withFsInn : bool) : Mon unit :=
  m ← mon_get;
  mon_when (connected m)
    (mon_when withIcaoQuery (request PlaneInfoRequest callsign);;
     mon_when withFsInn (request PlaneInfoRequestFsinn callsign);;
     request QueryCom1Freq callsign;; request QueryRealName callsign;; request QueryCapabilities callsign;;
     request QueryServer callsign).
Definition queryAllOnlineAtcStations : Mon unit :=
  m ← mon_get;
  mon_when (connected m)
    (mon_forEach (fun station =>
       if callsignEmpty (atc_callsign station) then mret tt else request QueryRealName (atc_callsign station))
       (m_atcStationsOnline m)).
Definition containsCallsign callsign (l : list CAtcStation) : bool :=
  existsb (fun s => callsignEqual (atc_callsign s) callsign) l.
Definition queueContains callsign (l : list CCallsign) : bool := existsb (fun c => callsignEqual c callsign) l.
Definition enqueueNew callsign (l : list CCallsign) : list CCallsign :=
  if queueContains callsign l then l else l ++ [callsign].
Definition requestAircraftDataUpdates : Mon unit :=
  m ← mon_get;
  mon_when (connected m)
    (mon_forEach (fun a => mon_set (fun m => m <| m_queryPilot ::= enqueueNew (ac_callsign a) |>))
       (getAircraftInRange (provider m))).
Definition requestAtisUpdates : Mon unit :=
  m ← mon_get;
  mon_when (connected m)
    (mon_forEach (fun s => mon_set (fun m => m <| m_queryAtis ::= enqueueNew (atc_callsign s) |>))
       (m_atcStationsOnline m)).
Definition sendNextStaggeredAtisQuery : Mon bool :=
  m ← mon_get;
  match m_queryAtis m with
  | [] => mret false
  | cs :: rest =>
      if negb (connected m) then mret false
      else
        mon_set (fun m => m <| m_queryAtis := rest |>);;
        if negb (containsCallsign cs (m_atcStationsOnline m)) then mret false
        else request QueryAtis cs;; mret true
  end.
Definition sendNextStaggeredPilotDataQuery : Mon bool :=
  m ← mon_get;
  match m_queryPilot m with
  | [] => mret false
  | cs :: rest =>
      if negb (connected m) then mret false
      else
        mon_set (fun m => m <| m_queryPilot := rest |>);;
        if negb (isAircraftInRange cs (provider m)) then mret false
        else
          request QueryCom1Freq cs;;
          mon_when (negb (hasAircraftDesignator (ac_model (getAircraftInRangeForCallsign cs (provider m)))))
            (request PlaneInfoRequest cs);;
          mret true
  end.
Definition fastProcessing : Mon unit :=
  m ← mon_get;
  mon_when (connected m)
    (send ← sendNextStaggeredAtisQuery;
     if send : bool then mret tt else sendNextStaggeredPilotDataQuery;; mret tt).
Definition slowProcessing : Mon unit := m ← mon_get; mon_when (connected m) queryAllOnlineAtcStations.

(** *** Range *)

(** The range in whole NM, none when null, zero or negative; [qRound(1.1 r)]. *)
Definition setMaxRange (range : option Z) : Mon unit :=
  match range with
  | None => mon_set (fun m => m <| m_maxDistanceNM := -1 |> <| m_maxDistanceNMHysteresis := -1 |>)
  | Some rIntNM => mon_set (fun m => m <| m_maxDistanceNM := rIntNM |>
                                       <| m_maxDistanceNMHysteresis := (rIntNM * 11 + 5) / 10 |>)
  end.
Definition handleMaxRange situation : Mon bool :=
  m ← mon_get;
  if situation_isNull situation then mret false
  else if m_maxDistanceNM m <? 0 then mret true
  else
    let distanceNM := distanceToOwnAircraftNM (m_flight situation) in
    if m_maxDistanceNMHysteresis m <? distanceNM
    then updateProvider (fun p => snd (removeAircraft (m_correspondingCallsign situation) p));; mret false
    else mret (distanceNM <=? m_maxDistanceNM m).
Definition isCopilotAircraft callsign : bool := loginObserver && isMaybeCopilotCallsign callsign ownCallsign.

(** *** Matching *)

Definition addMatchingReadinessFlag t callsign (mrf : Z) : Mon Readiness :=
  m ← mon_get;
  let readiness := addFlag t mrf (default Readiness_default (m_readiness m !! asString callsign)) in
  mon_set (fun m => m <| m_readiness ::= insert (asString callsign) readiness |>);;
  mret readiness.

Definition sendReadyForModelMatching t callsign (rf : Z) : Mon unit :=
  m ← mon_get;
  if negb (connected m) then mret tt
  else
    readiness ← addMatchingReadinessFlag t callsign rf;
    let ageMs := getAgeMs t readiness in
    if wasMatchingSent readiness && (ageMs <? MMMaxAgeThresholdMs) then mret tt
    else
      let remoteAircraft := getAircraftInRangeForCallsign callsign (provider m) in
      let validRemoteCs := hasValidCallsign remoteAircraft in
      let minSituations := 1 <? remoteAircraftSituationsCount callsign (provider m) in
      let complete := validRemoteCs && minSituations &&
                      (receivedAll readiness || hasModelString (ac_model remoteAircraft)) in
      if negb (rf =? Verified) && validRemoteCs && (ageMs <=? MMMaxAgeMs) && negb complete
      then
        mon_when (Z.land (m_enableReverseLookupMsgs (provider m)) RevLogSimplifiedInfo =? 0)
          (reverseLog callsign (lit "Wait for further data, '%1' age: %2ms ts: %3"));;
        singleShot (t + MMCheckAgainMs) (CheckAgain callsign rf)
      else if validRemoteCs
      then
        mon_set (fun m => m <| m_readiness ::= insert (asString callsign) (setFlag t ReadyForMatchingSent readiness) |>);;
        reverseLog callsign (lit "Ready (%1) for matching callsign '%2' with model type '%3', ICAO: '%4' '%5'");;
        mon_emit (readyForModelMatching remoteAircraft)
      else
        reverseLog callsign
          (lit "Ignoring this aircraft, not found in range list, disconnected, or no callsign");;
        mon_set (fun m => m <| m_readiness ::= delete (asString callsign) |>).

Definition verifyReceivedIcaoData t callsign : Mon unit :=
  m ← mon_get;
  if callsignEmpty callsign || negb (isAircraftInRange callsign (provider m)) then mret tt
  else
    let readiness := default Readiness_default (m_readiness m !! asString callsign) in
    mon_set (fun m => m <| m_readiness ::= insert (asString callsign) readiness |>);;
    if wasMatchingSent readiness then mret tt
    else if wasVerified readiness then sendReadyForModelMatching t callsign Verified
    else
      readiness ← addMatchingReadinessFlag t callsign Verified;
      if negb (receivedIcaoCodes readiness)
      then sendInitialPilotQueries callsign true true;; singleShot (t + MMVerifyMs) (VerifyIcaoData callsign)
      else sendReadyForModelMatching t callsign Verified.

(** The model of the aircraft and the one from the network. *)
Definition updateAircraftModels callsign (model : CAircraftModel) : Mon unit :=
  updateProvider (fun p => snd (updateAircraft
    (fun a => (true, a <| ac_model := model |> <| ac_networkModel := model |>)) callsign p)).
Definition reverseLookupModelWithFlightplanData callsign (aircraftIcao airlineIcao livery modelString : QString)
    (type : ModelType) : Mon CAircraftModel :=
  mon_when (hasAnyId livery) (setClients (markAsSwiftClient callsign));;
  m ← mon_get;
  mret (reverseLookupModel callsign aircraftIcao airlineIcao livery modelString type
          (fst <$> m_flightPlanCache m !! asString callsign)).
Definition addOrUpdateAircraftInRange callsign (aircraftIcao airlineIcao livery modelString : QString)
    (modelType : ModelType) : Mon unit :=
  m ← mon_get;
  let aircraft := getAircraftInRangeForCallsign callsign (provider m) in
  if hasValidCallsign aircraft && negb (hasValidDbKey (ac_model aircraft))
  then
    model ← reverseLookupModelWithFlightplanData callsign aircraftIcao airlineIcao livery modelString modelType;
    updateAircraftModels callsign (updateMissingPartsOfModel model (ac_model aircraft))
  else mret tt.

(** The designators are stored as they come and read back in the same order. *)
Definition onCustomFSInnPacketReceived t callsign
    (airlineIcaoDesignator aircraftIcaoDesignator combinedAircraftType modelString : QString) : Mon unit :=
  m ← mon_get;
  if negb (callsignValid callsign) then mret tt
  else if negb (connected m) then mret tt
  else
    let isAircraft := isAircraftInRange callsign (provider m) in
    let isAtc := containsCallsign callsign (m_atcStationsOnline m) in
    if negb isAircraft && negb isAtc
    then
      let fsInn := FsInnPacket_make aircraftIcaoDesignator airlineIcaoDesignator combinedAircraftType modelString in
      mon_set (fun m => m <| m_tempFsInnPackets ::= insert (asString callsign) fsInn |>)
    else
      setClients (updateOrAddClient callsign (fun c => c <| cl_modelString := modelString |>));;
      mon_when isAircraft
        (addMatchingReadinessFlag t callsign ReceivedFsInnPacket;;
         let usedModelString :=
           if negb (isEmpty modelString) && negb isReverseLookupModelString then []
           else if negb (isKnownModelString modelString callsign) then [] else modelString in
         mon_when (negb (isEmpty usedModelString))
           (addOrUpdateAircraftInRange callsign aircraftIcaoDesignator airlineIcaoDesignator [] usedModelString
              TypeFSInnData);;
         sendReadyForModelMatching t callsign ReceivedFsInnPacket).
Definition recallFsInnPacket t callsign : Mon bool :=
  m ← mon_get;
  match m_tempFsInnPackets m !! asString callsign with
  | None => mret false
  | Some packet =>
      mon_set (fun m => m <| m_tempFsInnPackets ::= delete (asString callsign) |>);;
      onCustomFSInnPacketReceived t callsign (fi_airlineIcaoDesignator packet) (fi_aircraftIcaoDesignator packet)
        (fi_combinedCode packet) (fi_modelString packet);;
      mret true
  end.

(** The closure of [sendReadyForModelMatching]. *)
Definition checkAgain t callsign (rf : Z) : Mon unit :=
  inRange ← mon_isAircraftInRange callsign;
  if negb inRange then reverseLog callsign (lit "No longer in range")
  else
    recalled ← (if negb (rf =? ReceivedFsInnPacket) then recallFsInnPacket t callsign else mret false);
    if recalled : bool then mret tt else sendReadyForModelMatching t callsign RecursiveCall.

Definition onIcaoCodesReceived t callsign (aircraftIcaoDesignator airlineIcaoDesignator livery : QString) : Mon unit :=
  m ← mon_get;
  if negb (connected m) then mret tt
  else if negb (callsignValid callsign) then mret tt
  else if negb (isAircraftInRange callsign (provider m)) then mret tt
  else
    let client := getClientOrDefaultForCallsign callsign (m_clients m) in
    addOrUpdateAircraftInRange callsign aircraftIcaoDesignator airlineIcaoDesignator livery (cl_modelString client)
      TypeQueriedFromNetwork;;
    sendReadyForModelMatching t callsign ReceivedIcaoCodes;;
    mon_emit (requestedNewAircraft callsign aircraftIcaoDesignator airlineIcaoDesignator livery).

(** *** Aircraft in range *)

(** Not rendered, and with the distance from the own aircraft. *)
Definition asNewAircraft (aircraft : CSimulatedAircraft) : CSimulatedAircraft :=
  (snd (setRendered false aircraft))
    <| m_relativeDistance := distanceToOwnAircraft (m_flight (ac_situation aircraft)) |>.
Definition mon_addNewAircraftInRange t (aircraft : CSimulatedAircraft) : Mon bool :=
  let callsign := ac_callsign aircraft in
  added ← ofProvider (addNewAircraftInRange (asNewAircraft aircraft));
  mon_when added
    (singleShot (t + MMVerifyMs) (VerifyIcaoData callsign);;
     mon_when (hasModelString (ac_model aircraft))
       (let modelString := getModelString (ac_model aircraft) in
        let cg := cgOfModelString modelString in
        updateProvider (rememberCGFromDBForModel cg modelString);;
        updateProvider (rememberCGFromDB cg callsign)));;
  mret added.

(** The closures of asyncReInitializeAllAircraft, and the closure itself. *)
Definition asyncReInitializeAllAircraft t (aircraft : list CSimulatedAircraft) (readyForModelMatching : bool) : Mon unit :=
  mon_forEach (fun ca => singleShot (t + Z.of_nat (fst ca) * 25) (ReInitialize (snd ca) readyForModelMatching))
    (combine (seq 1 (length aircraft)) aircraft).
Definition reInitialize t (ac : CSimulatedAircraft) (ready : bool) : Mon unit :=
  mon_addNewAircraftInRange t ac;;
  mon_when ready
    (mon_set (fun m => m <| m_readiness ::= delete (asString (ac_callsign ac)) |>);;
     sendReadyForModelMatching t (ac_callsign ac) ReceivedAll).
Definition reInitializeAllAircraft t : Mon unit :=
  m ← mon_get;
  let aircraft := getAircraftInRange (provider m) in
  ofProvider (fun p => let '(p, signals) := removeAllAircraft p in (tt, p, signals));;
  asyncReInitializeAllAircraft t aircraft true.

(** *** ATC *)

(** Frequency, position and range of a station that is there already, with the
    number of stations that change. *)
Definition applyIfCallsign callsign (vm : CAtcStation -> CAtcStation) (l : list CAtcStation) : Z * list CAtcStation :=
  (Z.of_nat (length (filter (fun s => callsignEqual (atc_callsign s) callsign && negb (sameStation s (vm s)) = true) l)),
   map (fun s => if callsignEqual (atc_callsign s) callsign then vm s else s) l).
Definition onAtcPositionUpdate callsign (frequencykHz : Z) (latitude longitude : double) (rangeNM : Z) : Mon unit :=
  m ← mon_get;
  if negb (connected m) then mret tt
  else if negb (containsCallsign callsign (m_atcStationsOnline m))
  then
    mon_set (fun m => m <| m_atcStationsOnline ::=
      fun l => l ++ [mkAtcStation callsign frequencykHz latitude longitude rangeNM] |>);;
    sendInitialAtcQueries callsign;;
    mon_emit changedAtcStationsOnline
  else
    let '(changed, l) := applyIfCallsign callsign
      (fun s => mkAtcStation (atc_callsign s) frequencykHz latitude longitude rangeNM) (m_atcStationsOnline m) in
    mon_set (fun m => m <| m_atcStationsOnline := l |>);;
    mon_when (0 <? changed) (mon_emit changedAtcStationsOnline).
Definition onAtcControllerDisconnected callsign : Mon unit :=
  m ← mon_get;
  if negb (connected m) then mret tt
  else
    setClients (removeClient callsign);;
    match filter (fun s => callsignEqual (atc_callsign s) callsign = true) (m_atcStationsOnline m) with
    | [] => mret tt
    | removedStation :: _ =>
        mon_set (fun m => m <| m_atcStationsOnline ::= removeByCallsign callsign |>);;
        mon_emit changedAtcStationsOnline;;
        mon_emit (atcStationDisconnected removedStation)
    end.

(** *** Clients *)

Definition onCapabilitiesReplyReceived callsign (clientCaps : ClientCaps) : Mon unit :=
  m ← mon_get;
  if negb (connected m) || callsignEmpty callsign then mret tt
  else
    setClients (updateOrAddClient callsign
      (fun c => c <| cl_capabilities := clientCaps |> <| cl_groundFlag := false |>));;
    mon_when (FsdWithAircraftConfig clientCaps) (request QueryAircraftConfig callsign).
Definition onServerReplyReceived callsign (server : QString) : Mon unit :=
  m ← mon_get;
  if negb (connected m) || callsignEmpty callsign || isEmpty server then mret tt
  else setClients (updateOrAddClient callsign (fun c => c <| cl_server := server |>)).
Definition onFlightPlanReceived t callsign (flightPlan : CFlightPlan) : Mon unit :=
  m ← mon_get;
  if negb (connected m) || callsignEmpty callsign then mret tt
  else mon_set (fun m => m <| m_flightPlanCache ::= insert (asString callsign) (flightPlan, t) |>).
Definition onPilotDisconnected callsign : Mon unit :=
  removeFromAircraftCachesAndLogs callsign;;
  removed ← ofProvider (fun p => (removeAircraft callsign p, []));
  setClients (removeClient callsign);;
  mon_when removed (mon_emit (FromProvider_ (removedAircraft callsign))).
Definition onAircraftConfigReceived t callsign (jsonObject : QJsonObject) (currentOffsetMs : Z) : Mon unit :=
  if callsignEmpty callsign then mret tt
  else
    ofProvider (fun p => let '(p, signals) := storeJson callsign t t jsonObject currentOffsetMs p in (tt, p, signals));;
    m ← mon_get;
    let client := (getClientOrDefaultForCallsign callsign (m_clients m)) <| cl_callsign := callsign |> in
    if FsdWithAircraftConfig (cl_capabilities client) then mret tt
    else
      let caps := cl_capabilities client in
      let client := client <| cl_capabilities := mkCaps (FsdAtisCanBeReceived caps) (FsdWithInterimPositions caps)
                                (FsdWithVisualPositions caps) (FsdWithIcaoCodes caps) true |> in
      setClients (fun clients => snd (setOtherClient client clients)).

(** *** Positions *)

Definition setSituationCG (cg : CLength) situation : RemoteSituation :=
  situation <| m_flight ::= withCG cg |>.
(** Without the requests for elevations that the simulator gets afterwards. *)
Definition mon_storeAircraftSituation t situation (allowTestOffset : bool) : Mon unit :=
  let callsign := m_correspondingCallsign situation in
  if callsignEmpty callsign then mret tt
  else
    m ← mon_get;
    let p := provider m in
    let corrected := if allowTestOffset then addTestAltitudeOffsetToSituation situation p else situation in
    let corrected := groundElevated p corrected in
    let corrected :=
      if bool_decide (getGroundDetails situation = NotSetGroundDetails)
      then
        let client := getClientOrDefaultForCallsign callsign (m_clients m) in
        if cl_groundFlag client then setOnGroundDetails InFromNetwork corrected
        else if FsdWithAircraftConfig (cl_capabilities client)
        then
          let parts := items (remoteAircraftParts callsign p) in
          if decide (parts = []) then corrected
          else snd (adjustGroundFlagFromList parts true timeDeviationFactor corrected)
        else corrected
      else corrected in
    let cg := getSimulatorOrDbCG callsign (getCGFromDB callsign p) in
    let corrected := if PQ.isNull cg then corrected else setSituationCG cg corrected in
    ofProvider (fun p => let '(p, signals) := storeAircraftSituation t corrected false p in (tt, p, signals)).
Definition updateSituation callsign situation : Mon unit :=
  updateProvider (fun p => snd (updateAircraft (fun a =>
    (true, a <| ac_situation := situation |>
             <| m_relativeDistance := distanceToOwnAircraft (m_flight situation) |>)) callsign p)).
Definition updateDistanceBearing callsign situation : Mon unit :=
  updateProvider (fun p =>
    snd (updateAircraftInRangeDistanceBearing callsign situation (distanceToOwnAircraft (m_flight situation)) p)).

(** The transponder of an aircraft is not part of the model. *)
Definition onAircraftUpdateReceived t situation : Mon unit :=
  m ← mon_get;
  let callsign := m_correspondingCallsign situation in
  if negb (connected m) then mret tt
  else if isCopilotAircraft callsign then mret tt
  else
    validMaxRange ← handleMaxRange situation;
    existsInRange ← mon_isAircraftInRange callsign;
    if negb validMaxRange && negb existsInRange then mret tt
    else
      setClients (fun clients => snd (autoAdjustCientGndCapability situation clients));;
      mon_storeAircraftSituation t situation true;;
      if negb existsInRange && validMaxRange
      then
        m ← mon_get;
        let hasFsInnPacket := bool_decide (is_Some (m_tempFsInnPackets m !! asString callsign)) in
        mon_addNewAircraftInRange t
          (CSimulatedAircraft_default <| ac_callsign := callsign |> <| ac_situation := situation |>);;
        sendInitialPilotQueries callsign true (negb hasFsInnPacket);;
        setClients (fun clients => snd (addNewClient (CClient_make callsign) clients))
      else updateSituation callsign situation.

(** Interim and visual updates: with the time of their arrival and the ground
    speed of the latest situation. *)
Definition onAircraftInterimUpdateReceived t situation : Mon unit :=
  m ← mon_get;
  let callsign := m_correspondingCallsign situation in
  if negb (connected m) then mret tt
  else if isCopilotAircraft callsign then mret tt
  else if negb (isAircraftInRange callsign (provider m)) then mret tt
  else
    let history := remoteAircraftSituations callsign (provider m) in
    if decide (items history = []) then mret tt
    else
      let lastSituation := latestObject history in
      let interimSituation := setCurrentUtcTime t situation in
      let interimSituation := interimSituation <| m_flight ::= withGroundSpeedOf (m_flight lastSituation) |> in
      mon_storeAircraftSituation t interimSituation true;;
      if samePosition (m_flight lastSituation) (m_flight interimSituation) then mret tt
      else updateDistanceBearing callsign interimSituation.
Definition onAircraftVisualUpdateReceived t situation : Mon unit := onAircraftInterimUpdateReceived t situation.
Definition onAircraftSimDataUpdateReceived t situation (parts : CAircraftParts) (currentOffsetMs : Z)
    (aircraftIcao airlineIcao : QString) : Mon unit :=
  let callsign := m_correspondingCallsign situation in
  onAircraftUpdateReceived t situation;;
  m ← mon_get;
  let aircraft := getAircraftInRangeForCallsign callsign (provider m) in
  mon_when (negb (bool_decide (aircraftIcaoCodeDesignator (ac_networkModel aircraft) = aircraftIcao)))
    (onIcaoCodesReceived t callsign aircraftIcao airlineIcao airlineIcao);;
  onAircraftConfigReceived t callsign (toFullJson parts) currentOffsetMs.

(** *** Connection *)

(** [maxRangeNm]: of the network configuration of the client. *)
Definition onConnectionStatusChanged (maxRangeNm : Z) (newStatus : ConnectionStatus) : Mon unit :=
  mon_when (bool_decide (newStatus = Connecting)) (setMaxRange (if 0 <? maxRangeNm then Some maxRangeNm else None));;
  mon_when (bool_decide (newStatus = Disconnected)) clear.

(** ** The slots connected to the signals of the client *)

Definition receivedSituation (s : CAircraftSituation) : RemoteSituation :=
  mkRemoteSituation (sit_callsign s) (mkTimestamp (sit_timestamp s) (sit_timeOffsetMs s)) (flightOf s) false None
    NoElevationInfo false (COnGroundInfo_make (if sit_onGround s then OnGround else NotOnGround) NotSetGroundDetails).
Definition ofQString (s : QString) : CCallsign := CCallsign_make s NoHint.

(** Names, frequencies and ATIS are not part of the model. *)
Definition onSignal t (maxRangeNm : Z) (s : Signal) : Mon unit :=
  match s with
  | atcDataUpdateReceived cs freqkHz latitude longitude rangeNM => onAtcPositionUpdate cs freqkHz latitude longitude rangeNM
  | deleteAtcReceived cid => onAtcControllerDisconnected (ofQString cid)
  | deletePilotReceived cid => onPilotDisconnected (ofQString cid)
  | pilotDataUpdateReceived situation _ => onAircraftUpdateReceived t (receivedSituation situation)
  | interimPilotDataUpdatedReceived situation => onAircraftInterimUpdateReceived t (receivedSituation situation)
  | euroscopeSimDataUpdatedReceived situation lights gearDown onGround os model livery =>
      onAircraftSimDataUpdateReceived t (receivedSituation situation)
        (CAircraftParts_default <| m_lights := lights |> <| m_gearDown := gearDown |> <| m_isOnGround := onGround |>)
        os model livery
  | flightPlanReceived cs plan => onFlightPlanReceived t cs plan
  | planeInformationReceived sender aircraft airline livery =>
      onIcaoCodesReceived t (ofQString sender) aircraft airline livery
  | planeInformationFsinnReceived cs airline aircraft combinedType modelString =>
      onCustomFSInnPacketReceived t cs airline aircraft combinedType modelString
  | capabilityResponseReceived cs caps => onCapabilitiesReplyReceived cs caps
  | serverResponseReceived sender hostName => onServerReplyReceived (ofQString sender) hostName
  | aircraftConfigReceived sender config os => onAircraftConfigReceived t (ofQString sender) config os
  | connectionStatusChanged _ newStatus => onConnectionStatusChanged maxRangeNm newStatus
  | _ => mret tt
  end.

(** ** Runs *)

(** What happens to the monitor, at a time: a signal of the client, a timer, or a
    call from outside.  The client changes its status before its signal arrives. *)
Inductive MonEvent :=
  | ClientSignal (maxRangeNm : Z) (s : Signal)
  | VisualUpdate (situation : RemoteSituation)
  | ClientStatus (isConnected : bool)
  | FastTimer | SlowTimer
  | TimerFires (n : nat)
  | RequestAircraftDataUpdates | RequestAtisUpdates | ReInitializeAllAircraft
  | SetMaxRange (range : option Z)
  | ProviderCall (e : ProviderEvent).

Definition runTimer t (closure : MonTimer) : Mon unit :=
  match closure with
  | CheckAgain cs rf => checkAgain t cs rf
  | VerifyIcaoData cs => verifyReceivedIcaoData t cs
  | ReInitialize ac ready => reInitialize t ac ready
  end.
(** The [n]-th of the closures that wait, when it is due. *)
Definition timerFires t (n : nat) : Mon unit :=
  m ← mon_get;
  match mon_timers m !! n with
  | None => mret tt
  | Some (due, closure) =>
      if t <? due then mret tt
      else mon_set (fun m => m <| mon_timers ::= delete n |>);; runTimer t closure
  end.
(** The members of the provider that others may call. *)
Definition isPublicCall (e : ProviderEvent) : bool :=
  match e with
  | AddAircraft _ | RemoveAircraft _ | RemoveAllAircraft | StoreSituation _ _ _ | StoreParts _ _ _ _ | StoreJson _ _ _ _ _ => false
  | _ => true
  end.
Definition onEvent t (e : MonEvent) : Mon unit :=
  match e with
  | ClientSignal maxRangeNm s => onSignal t maxRangeNm s
  | VisualUpdate situation => onAircraftVisualUpdateReceived t situation
  | ClientStatus b => mon_set (fun m => m <| connected := b |>)
  | FastTimer => fastProcessing
  | SlowTimer => slowProcessing
  | TimerFires n => timerFires t n
  | RequestAircraftDataUpdates => requestAircraftDataUpdates
  | RequestAtisUpdates => requestAtisUpdates
  | ReInitializeAllAircraft => reInitializeAllAircraft t
  | SetMaxRange range => setMaxRange range
  | ProviderCall e => mon_when (isPublicCall e) (updateProvider (fun p => providerStep p e))
  end.
Definition monitorStep (m : CAirspaceMonitor) (te : Z * MonEvent) : CAirspaceMonitor := (onEvent te.1 te.2 m).1.2.
Definition monitor_run (m : CAirspaceMonitor) (es : list (Z * MonEvent)) : CAirspaceMonitor := run monitorStep m es.
End monitor.
