(* ===== verification/MonitorReadiness.v ===== *)
(** * No aircraft is forgotten

    The matching of an aircraft waits for data that may never come, over timers
    that call the monitor back.  What is marked as sent has been announced by the
    signal ([honest]); while the client is connected every aircraft in range with a
    valid callsign is marked as sent, or a timer of its own waits ([keeps]); what a
    timer does at the latest is [verification_sends] and [recheck_ends].  Together
    [no_aircraft_forgotten]. *)

From S2P Require Import AirspaceMonitor RemoteInvariant RemoteUpdates QtReference.

Open Scope Z_scope.

(** ** Flags *)

Lemma testFlag_bit i n : 0 <= n -> testFlag i (2 ^ n) = Z.testbit i n.
Proof.
  intros Hn. unfold testFlag. rewrite (proj2 (Z.eqb_neq (2 ^ n) 0)) by (apply Z.pow_nonzero; lia).
  cbn [negb orb]. rewrite andb_true_r. apply eq_bool_prop_intro.
  rewrite !Is_true_true, Z.eqb_eq. split.
  - intros E. assert (Z.testbit (Z.land i (2 ^ n)) n = Z.testbit (2 ^ n) n) as Ht by by rewrite E.
    rewrite Z.land_spec, Z.pow2_bits_true, andb_true_r in Ht by done. done.
  - intros Ht. apply Z.bits_inj'. intros k Hk. rewrite Z.land_spec. destruct (decide (k = n)) as [->|Hne].
    + by rewrite Ht.
    + by rewrite Z.pow2_bits_false, andb_false_r by done.
Qed.
Lemma sent_bit r : wasMatchingSent r = Z.testbit (rd_readyness r) 2.
Proof. unfold wasMatchingSent. by apply (testFlag_bit _ 2). Qed.
Lemma sent_addFlag t f r : wasMatchingSent r = true -> wasMatchingSent (addFlag t f r) = true.
Proof.
  rewrite !sent_bit. intros Hr. unfold addFlag. case_match; [done|]. cbn [rd_readyness]. by rewrite Z.lor_spec, Hr.
Qed.
Lemma sent_setFlag t r : wasMatchingSent (setFlag t ReadyForMatchingSent r) = true.
Proof. reflexivity. Qed.

(** ** What is kept of the aircraft in range *)

Section kept.
Context {FG : FlightGeometry} {ME : MonitorEnv} `{QtConv} `{StdSortLaws} `{BuildConfig}.
Implicit Types (p : CRemoteAircraftProvider) (m : CAirspaceMonitor) (callsign : CCallsign).

(** The aircraft in range are still the same callsigns, or fewer. *)
Definition inRangeSub p p' : Prop :=
  forall k a', m_aircraftInRange p' !! k = Some a' ->
    exists a, m_aircraftInRange p !! k = Some a /\ ac_callsign a' = ac_callsign a.
Lemma inRangeSub_refl p p' : m_aircraftInRange p' = m_aircraftInRange p -> inRangeSub p p'.
Proof using Type. intros E k a Ha. exists a. by rewrite <- E. Qed.
Lemma inRangeSub_trans p1 p2 p3 : inRangeSub p1 p2 -> inRangeSub p2 p3 -> inRangeSub p1 p3.
Proof using Type.
  intros Hs12 Hs23 k a Ha. destruct (Hs23 _ _ Ha) as (b & Hb & ->). by apply Hs12.
Qed.
Lemma inRangeSub_insert p p' k a b :
  m_aircraftInRange p' = <[k := b]> (m_aircraftInRange p) -> m_aircraftInRange p !! k = Some a ->
  ac_callsign b = ac_callsign a -> inRangeSub p p'.
Proof using Type.
  intros E Ha Hb k' c Hc. rewrite E in Hc. destruct (decide (k = k')) as [<-|Hne].
  - rewrite lookup_insert_eq in Hc. simplify_eq. exists a. by split.
  - rewrite lookup_insert_ne in Hc by done. by exists c.
Qed.
Lemma inRangeSub_update f cs p :
  (forall a, ac_callsign (f a).2 = ac_callsign a) -> inRangeSub p (updateAircraft f cs p).2.
Proof using Type.
  intros Hf. unfold updateAircraft. destruct (m_aircraftInRange p !! asString cs) as [a|] eqn:E.
  - specialize (Hf a). destruct (f a) as [b a']. by apply (inRangeSub_insert _ _ (asString cs) a a').
  - by apply inRangeSub_refl.
Qed.
Lemma inRangeSub_multiple f l p :
  (forall a, ac_callsign (f a).2 = ac_callsign a) -> inRangeSub p (updateMultiple f l p).2.
Proof using Type.
  intros Hf. revert p. induction l as [|cs l IH]; intros p; simpl; [by apply inRangeSub_refl|].
  pose proof (inRangeSub_update f cs p Hf) as Hu. destruct (updateAircraft f cs p) as [b p'].
  specialize (IH p'). destruct (updateMultiple f l p') as [c p'']. by eapply inRangeSub_trans.
Qed.
Lemma inRangeSub_mark p : inRangeSub p (updateMarkAllAsNotRendered p).
Proof using Type*.
  intros k a Ha. change (markedAsNotRendered (getAircraftInRangeCallsigns p) (m_aircraftInRange p) !! k = Some a) in Ha.
  rewrite marked_lookup in Ha. case_decide as Hk; [|by exists a].
  apply inRangeCallsigns_dom, elem_of_dom in Hk as [b Hb]. rewrite Hb in Ha. simpl in Ha. simplify_eq.
  exists b. split; [done | apply setRendered_callsign].
Qed.
Lemma inRangeSub_remove cs p : inRangeSub p (removeAircraft cs p).2.
Proof using Type.
  intros k a Ha. change (delete (asString cs) (m_aircraftInRange p) !! k = Some a) in Ha.
  apply lookup_delete_Some in Ha as [_ Ha]. by exists a.
Qed.
Lemma inRangeSub_removeAll p : inRangeSub p (removeAllAircraft p).1.
Proof using Type. intros k a Ha. change ((∅ : gmap QString CSimulatedAircraft) !! k = Some a) in Ha. done. Qed.
Lemma inRangeSub_storeParts callsign ts tp b p : inRangeSub p (storeParts callsign ts tp b p).1.
Proof using Type*.
  unfold storeParts. case_match; [by apply inRangeSub_refl|]. cbv zeta. cbn [fst].
  set (c := if b then _ else _). set (s1 := p <| m_partsAdded ::= _ |> <| m_partsLastModified ::= _ |> <| m_partsByCallsign ::= _ |>).
  set (s2 := if decide _ then s1 else _).
  assert (inRangeSub p s2) as Hs2.
  { subst s2. case_decide; [by apply inRangeSub_refl|]. destruct (list_adjustGroundFlag tp _) as [n l].
    by case_match; apply inRangeSub_refl. }
  clearbody s2. eapply inRangeSub_trans; [exact Hs2|].
  eapply inRangeSub_trans; [by apply (inRangeSub_update (fun a => (true, setParts tp a)) callsign)|].
  by apply inRangeSub_refl.
Qed.
Lemma inRangeSub_storeJson callsign now ts j os p : inRangeSub p (storeJson callsign now ts j os p).1.
Proof using Type*.
  unfold storeJson. cbv zeta. destruct (AircraftParts.storeAircraftParts _ _ _ _) as [r|]; [|by apply inRangeSub_refl].
  pose proof (inRangeSub_storeParts callsign ts (mkTimedParts r (mkTimestamp now os)) false p) as Hp.
  destruct (storeParts _ _ _ _ _) as [p' signals]. cbn [fst] in *. case_match; [|done].
  eapply inRangeSub_trans; [exact Hp | by apply inRangeSub_refl].
Qed.
Lemma inRangeSub_storeSituation now x allow p : inRangeSub p (storeAircraftSituation now x allow p).1.
Proof using Type*.
  unfold storeAircraftSituation. case_match; [by apply inRangeSub_refl|]. cbv zeta.
  set (y := if allow then _ else x). set (s1 := if hasCG x && _ then _ else p).
  assert (inRangeSub p s1) as Hs1.
  { subst s1. case_match; [|by apply inRangeSub_refl]. apply inRangeSub_update. intros a. apply setCG_callsign. }
  clearbody s1. eapply inRangeSub_trans; [exact Hs1|].
  by destruct (storeInList y _); apply inRangeSub_refl.
Qed.

Lemma inRangeSub_cgForModel model cg p : inRangeSub p (updateCGForModel model cg p).2.
Proof using Type.
  unfold updateCGForModel. case_match; [by apply inRangeSub_refl|]. intros k a Ha.
  change (((fun a => if hasModelText model a then setCG cg a else a) <$> m_aircraftInRange p) !! k = Some a) in Ha.
  rewrite lookup_fmap in Ha. apply fmap_Some in Ha as (b & Hb & ->). exists b. split; [done|].
  case_match; [apply setCG_callsign | done].
Qed.
Lemma inRangeSub_elevation now callsign elevation info p :
  inRangeSub p (updateAircraftGroundElevation now callsign elevation info p).2.
Proof using Type.
  unfold updateAircraftGroundElevation. case_match; [by apply inRangeSub_refl|]. cbv zeta.
  destruct (setGroundElevationCheckedAndGuessGround _ _ _ _) as [[[n b] change] l].
  destruct (n <? 1); [by apply inRangeSub_refl|]. cbn [snd].
  eapply inRangeSub_trans; [|by apply inRangeSub_update].
  destruct (bool_decide _ && _), (change_isNull change); by apply inRangeSub_refl.
Qed.
Lemma inRangeSub_public e p : isPublicCall e = true -> inRangeSub p (providerStep p e).
Proof using Type*.
  intros He. destruct e; cbn [isPublicCall providerStep] in *; try done; try (by apply inRangeSub_refl).
  - apply inRangeSub_update, setEnabled_callsign.
  - apply inRangeSub_update, setFast_callsign.
  - apply inRangeSub_update, setRendered_callsign.
  - apply inRangeSub_multiple, setEnabled_callsign.
  - apply inRangeSub_multiple, setRendered_callsign.
  - apply inRangeSub_mark.
  - unfold addReverseLookupMessages. by repeat (case_match || case_decide); apply inRangeSub_refl.
  - unfold testAddAltitudeOffset. by case_match; apply inRangeSub_refl.
  - apply inRangeSub_update. intros a. apply setCG_callsign.
  - apply inRangeSub_update. intros a. apply setCGAndModelString_callsign.
  - apply inRangeSub_cgForModel.
  - apply inRangeSub_elevation.
Qed.
End kept.

(** ** Covered callsigns *)

Section covered.
Context {FG : FlightGeometry} {ME : MonitorEnv} `{QtConv} `{StdSortLaws} `{BuildConfig}.
Implicit Types (m : CAirspaceMonitor) (callsign : CCallsign).

Definition isSent m (cs : QString) : Prop := exists r, m_readiness m !! cs = Some r /\ wasMatchingSent r = true.
Definition concerns (cs : QString) (c : MonTimer) : Prop :=
  match c with
  | CheckAgain callsign _ | VerifyIcaoData callsign => asString callsign = cs /\ callsignEmpty callsign = false
  | ReInitialize _ _ => False
  end.
Definition waits m (cs : QString) : Prop := exists due c, (due, c) ∈ mon_timers m /\ concerns cs c.
Definition covered m (cs : QString) : Prop :=
  is_Some (m_aircraftInRange (provider m) !! cs) -> isValidAircraftCallsign cs = true -> isSent m cs \/ waits m cs.

(** A connected monitor whose provider is consistent and whose aircraft have a callsign. *)
Record monitorOk m : Prop := mkMonitorOk {
  mo_provider : providerWf (provider m); mo_connected : connected m = true;
  mo_named : map_Forall (fun _ a => callsignEmpty (ac_callsign a) = false) (m_aircraftInRange (provider m));
  mo_timers : forall due a ready, (due, ReInitialize a ready) ∈ mon_timers m -> callsignEmpty (ac_callsign a) = false }.

(** Slots that keep a monitor so, and the callsigns covered. *)
Definition keeps {A} (x : Mon A) : Prop :=
  forall m, monitorOk m -> monitorOk (x m).1.2 /\ forall cs, covered m cs -> covered (x m).1.2 cs.

Lemma keeps_ret {A} (a : A) : keeps (mret a).
Proof using Type. by intros m Hm. Qed.
Lemma keeps_get : keeps mon_get.
Proof using Type. by intros m Hm. Qed.
Lemma keeps_emit o : keeps (mon_emit o).
Proof using Type. by intros m Hm. Qed.
Lemma bind_state {A B} (x : Mon A) (k : A -> Mon B) m : ((x ≫= k) m).1.2 = (k (x m).1.1 (x m).1.2).1.2.
Proof using Type.
  unfold mbind, Mon_bind. destruct (x m) as [[a m'] o]. cbn [fst snd]. by destruct (k a m') as [[b m''] o'].
Qed.
Lemma keeps_bind {A B} (x : Mon A) (k : A -> Mon B) : keeps x -> (forall a, keeps (k a)) -> keeps (x ≫= k).
Proof using Type.
  intros Hx Hk m Hm. rewrite bind_state. destruct (Hx m Hm) as [Hm' Hc].
  destruct (Hk (x m).1.1 _ Hm') as [Hm'' Hc']. split; [done|]. auto.
Qed.
Lemma keeps_when b x : keeps x -> keeps (mon_when b x).
Proof using Type. destruct b; [done | intros _; apply keeps_ret]. Qed.
Lemma keeps_forEach {A} (f : A -> Mon unit) l : (forall a, keeps (f a)) -> keeps (mon_forEach f l).
Proof using Type. intros Hf. induction l; simpl; [apply keeps_ret | by apply keeps_bind]. Qed.

(** A change of members that do not matter here. *)
Lemma keeps_set f :
  (forall m, provider (f m) = provider m /\ connected (f m) = connected m /\ mon_timers (f m) = mon_timers m /\
             m_readiness (f m) = m_readiness m) -> keeps (mon_set f).
Proof using Type.
  intros Hf m Hm. destruct (Hf m) as (E1 & E2 & E3 & E4). cbn [mon_set fst snd]. split.
  - destruct Hm. constructor; rewrite ?E1, ?E2, ?E3; done.
  - intros cs. unfold covered, isSent, waits. by rewrite E1, E3, E4.
Qed.
Lemma keeps_singleShot due c :
  (forall a ready, c = ReInitialize a ready -> callsignEmpty (ac_callsign a) = false) -> keeps (singleShot due c).
Proof using Type.
  intros Hc m Hm. cbn [singleShot mon_set fst snd]. destruct m, Hm. cbn in *. split.
  - constructor; cbn; [done..|]. intros d a ready [Ht|Ht]%elem_of_app; [by eapply mo_timers0|].
    apply list_elem_of_singleton in Ht. simplify_eq. by eapply Hc.
  - intros cs Hcs Ha Hv. destruct (Hcs Ha Hv) as [Hs|(d & c' & Ht & Hcc)]; [by left|]. right.
    exists d, c'. cbn in *. split; [|done]. apply elem_of_app. by left.
Qed.
Lemma keeps_provider {A} (f : CRemoteAircraftProvider -> A * CRemoteAircraftProvider * list ProviderSignal) :
  (forall p, providerWf p -> providerWf (f p).1.2) -> (forall p, inRangeSub p (f p).1.2) -> keeps (ofProvider f).
Proof using Type.
  intros Hwf Hsub m Hm. unfold ofProvider. specialize (Hwf (provider m)). specialize (Hsub (provider m)).
  destruct (f (provider m)) as [[a p] signals]. cbn [fst snd] in *. destruct m, Hm. cbn in *. split.
  - constructor; cbn; [by apply Hwf | done | | done]. intros k a' Ha'. destruct (Hsub _ _ Ha') as (b & Hb & ->).
    by apply (mo_named0 k).
  - intros cs Hcs [a' Ha'] Hv. cbn in Ha'. destruct (Hsub _ _ Ha') as (b & Hb & _). apply Hcs; [by exists b | done].
Qed.
Lemma keeps_updateProvider f :
  (forall p, providerWf p -> providerWf (f p)) -> (forall p, inRangeSub p (f p)) -> keeps (updateProvider f).
Proof using Type. intros Hwf Hsub. by apply keeps_provider. Qed.

(** Another readiness for a callsign that is sent if it was. *)
Lemma set_readiness m cs r :
  monitorOk m -> (isSent m cs -> wasMatchingSent r = true) ->
  let m' := m <| m_readiness ::= insert cs r |> in
  monitorOk m' /\ forall cs', covered m cs' -> covered m' cs'.
Proof using Type.
  intros Hm Hr. cbv zeta. destruct m, Hm. cbn in *. split; [by constructor|].
  intros cs' Hcs Ha Hv. destruct (Hcs Ha Hv) as [(r' & Hr' & Hs)|Hw]; [left | by right]. cbn in *.
  unfold isSent. cbn. destruct (decide (cs = cs')) as [->|Hne].
  - exists r. rewrite lookup_insert_eq. split; [done|]. apply Hr. by exists r'.
  - exists r'. by rewrite lookup_insert_ne.
Qed.
Lemma addMatchingReadinessFlag_state t callsign f m :
  let r := addFlag t f (default Readiness_default (m_readiness m !! asString callsign)) in
  addMatchingReadinessFlag t callsign f m = (r, m <| m_readiness ::= insert (asString callsign) r |>, []).
Proof using Type. reflexivity. Qed.
Lemma keeps_addFlag t callsign f : keeps (addMatchingReadinessFlag t callsign f).
Proof using Type.
  intros m Hm. rewrite addMatchingReadinessFlag_state. cbn [fst snd]. apply set_readiness; [done|].
  intros (r & -> & Hs). by apply sent_addFlag.
Qed.
Lemma keeps_reverseLog callsign text : keeps (reverseLog callsign text).
Proof using All.
  apply keeps_updateProvider; intros p.
  - intros Hp. unfold addReverseLookupMessage. repeat case_match; [done..|]. by apply (wf_step p (AddMessages callsign [text])).
  - unfold addReverseLookupMessage. repeat case_match; try by apply inRangeSub_refl.
    by apply (inRangeSub_public (AddMessages callsign [text])).
Qed.
End covered.

(** A slot as its parts, down to those that are known to keep the monitor, to
    which more are added below. *)
Ltac keeps_part := fail.
Ltac keeping :=
  repeat first
    [ keeps_part
    | lazymatch goal with
      | |- keeps (mret _) => apply keeps_ret
      | |- keeps mon_get => apply keeps_get
      | |- keeps (mon_emit _) => apply keeps_emit
      | |- keeps (addMatchingReadinessFlag _ _ _) => apply keeps_addFlag
      | |- keeps (reverseLog _ _) => apply keeps_reverseLog
      | |- keeps (mbind _ _) => apply keeps_bind; [|intros ?]
      | |- keeps (mon_when _ _) => apply keeps_when
      | |- keeps (mon_forEach _ _) => apply keeps_forEach; intros ?
      | |- keeps (mon_set _) => apply keeps_set; by intros []
      | |- keeps (singleShot _ _) => by apply keeps_singleShot
      | |- keeps (match _ with _ => _ end) => case_match
      | |- keeps (let _ := _ in _) => cbv zeta
      end ].

Section slots.
Context {FG : FlightGeometry} {ME : MonitorEnv} `{QtConv} `{StdSortLaws} `{BuildConfig}.
Implicit Types (m : CAirspaceMonitor) (callsign : CCallsign).

Lemma keeps_setClients f : keeps (setClients f).
Proof using Type. apply keeps_set. by intros []. Qed.
Ltac keeps_part ::= apply keeps_setClients.

(** *** Queries *)

Lemma keeps_sendInitialAtcQueries callsign : keeps (sendInitialAtcQueries callsign).
Proof using Type. unfold sendInitialAtcQueries, request. keeping. Qed.
Lemma keeps_sendInitialPilotQueries callsign b b' : keeps (sendInitialPilotQueries callsign b b').
Proof using Type. unfold sendInitialPilotQueries, request. keeping. Qed.
Lemma keeps_queryAll : keeps queryAllOnlineAtcStations.
Proof using Type. unfold queryAllOnlineAtcStations, request. keeping. Qed.
Lemma keeps_requestAircraft : keeps requestAircraftDataUpdates.
Proof using Type. unfold requestAircraftDataUpdates. keeping. Qed.
Lemma keeps_requestAtis : keeps requestAtisUpdates.
Proof using Type. unfold requestAtisUpdates. keeping. Qed.
Lemma keeps_fastProcessing : keeps fastProcessing.
Proof using Type. unfold fastProcessing, sendNextStaggeredAtisQuery, sendNextStaggeredPilotDataQuery, request. keeping. Qed.

(** *** Matching *)

(** An aircraft in range with a valid callsign is found to be so. *)
Lemma notValid_notCovered callsign p :
  providerWf p -> hasValidCallsign (getAircraftInRangeForCallsign callsign p) = false ->
  is_Some (m_aircraftInRange p !! asString callsign) -> isValidAircraftCallsign (asString callsign) = false.
Proof using All.
  intros Hp Ev [a Ha]. pose proof (wf_key _ Hp _ _ Ha) as Hk. simpl in Hk.
  rewrite (getAircraft_lookup callsign p a) in Ev; [|apply Hp | done].
  unfold hasValidCallsign in Ev. by rewrite Hk in Ev.
Qed.
Lemma reverseLog_inRange callsign text m :
  m_aircraftInRange (provider (reverseLog callsign text m).1.2) = m_aircraftInRange (provider m).
Proof using Type.
  unfold reverseLog, updateProvider, ofProvider, addReverseLookupMessage, addReverseLookupMessages. cbn [fst snd].
  by repeat (case_match || case_decide).
Qed.
Lemma delete_readiness callsign m :
  monitorOk m ->
  (is_Some (m_aircraftInRange (provider m) !! asString callsign) -> isValidAircraftCallsign (asString callsign) = false) ->
  let m' := m <| m_readiness ::= delete (asString callsign) |> in
  monitorOk m' /\ (forall cs, covered m cs -> covered m' cs) /\ covered m' (asString callsign).
Proof using Type.
  intros Hm Hout. cbv zeta. split_and!.
  - destruct m, Hm. by constructor.
  - intros cs Hcs Ha Hv. change (is_Some (m_aircraftInRange (provider m) !! cs)) in Ha.
    destruct (Hcs Ha Hv) as [(r & Hr & Hs)|Hw]; [|by right]. left. exists r. split; [|done].
    change (delete (asString callsign) (m_readiness m) !! cs = Some r). rewrite lookup_delete_ne; [done|].
    intros <-. by rewrite Hout in Hv.
  - intros Ha Hv. change (is_Some (m_aircraftInRange (provider m) !! asString callsign)) in Ha. by rewrite Hout in Hv.
Qed.
(** The two ways to cover a callsign. *)
Lemma readiness_sent t callsign r m :
  monitorOk m ->
  let m' := m <| m_readiness ::= insert (asString callsign) (setFlag t ReadyForMatchingSent r) |> in
  monitorOk m' /\ (forall cs, covered m cs -> covered m' cs) /\ covered m' (asString callsign).
Proof using Type.
  intros Hm. cbv zeta. destruct (set_readiness m (asString callsign) (setFlag t ReadyForMatchingSent r) Hm) as [Hm' Hc];
    [by intros _; apply sent_setFlag|]. split_and!; [done..|].
  intros _ _. left. eexists. split; [exact (lookup_insert_eq _ _ _) | apply sent_setFlag].
Qed.
Lemma singleShot_covers due c cs m : concerns cs c -> covered (singleShot due c m).1.2 cs.
Proof using Type.
  intros Hc _ _. right. exists due, c. split; [|done]. cbn [singleShot mon_set fst snd]. destruct m. cbn.
  apply elem_of_app. right. by apply list_elem_of_singleton.
Qed.

Lemma sendReady_spec t callsign rf m :
  monitorOk m ->
  let m' := (sendReadyForModelMatching t callsign rf m).1.2 in
  monitorOk m' /\ (forall cs, covered m cs -> covered m' cs) /\
  (callsignEmpty callsign = false -> covered m' (asString callsign)).
Proof using All.
  intros Hm. cbv zeta. unfold sendReadyForModelMatching. rewrite bind_state. cbn [mon_get fst snd].
  rewrite (mo_connected m Hm). cbn [negb]. rewrite bind_state, addMatchingReadinessFlag_state. cbn [fst snd].
  set (r := addFlag t rf _). set (m1 := m <| m_readiness ::= insert (asString callsign) r |>).
  destruct (set_readiness m (asString callsign) r Hm) as [Hm1 Hc1].
  { intros (r' & E & Hs). subst r. rewrite E. by apply sent_addFlag. }
  fold m1 in Hm1, Hc1. change (provider m) with (provider m1).
  assert (wasMatchingSent r = true -> covered m1 (asString callsign)) as Hsent.
  { intros Hs _ _. left. exists r. split; [exact (lookup_insert_eq _ _ _) | done]. }
  clearbody m1 r.
  destruct (wasMatchingSent r && _) eqn:Es.
  { apply andb_true_iff in Es as [Es _]. split_and!; [done | auto | auto]. }
  destruct (negb (rf =? Verified) && _ && _ && _).
  { rewrite bind_state. set (m2 := (mon_when _ _ m1).1.2).
    assert (monitorOk m2 /\ forall cs, covered m1 cs -> covered m2 cs) as [Hm2 Hc2].
    { assert (keeps (mon_when (Z.land (m_enableReverseLookupMsgs (provider m1)) RevLogSimplifiedInfo =? 0)
        (reverseLog callsign (lit "Wait for further data, '%1' age: %2ms ts: %3")))) as Hk by keeping.
      by apply Hk. }
    clearbody m2.
    destruct (keeps_singleShot (t + MMCheckAgainMs) (CheckAgain callsign rf)) with (m := m2) as [Hm3 Hc3]; [done..|].
    split_and!; [done | auto|]. intros He. by apply singleShot_covers. }
  destruct (hasValidCallsign _) eqn:Ev.
  { rewrite bind_state. cbn [mon_set fst snd]. destruct (readiness_sent t callsign r m1 Hm1) as (Hm2 & Hc2 & Hcov).
    set (m2 := m1 <| m_readiness ::= _ |>) in *. clearbody m2.
    assert (keeps (reverseLog callsign (lit "Ready (%1) for matching callsign '%2' with model type '%3', ICAO: '%4' '%5'");;
      mon_emit (readyForModelMatching (getAircraftInRangeForCallsign callsign (provider m1))))) as Hk by keeping.
    destruct (Hk m2 Hm2) as [Hok Hcs]. split_and!; [exact Hok | auto | auto]. }
  rewrite bind_state. cbn [mon_set fst snd]. match goal with |- context [reverseLog ?cs ?text m1] =>
    destruct (keeps_reverseLog cs text m1 Hm1) as [Hm2 Hc2]; pose proof (reverseLog_inRange cs text m1) as Ein end.
  set (m2 := (reverseLog _ _ m1).1.2) in *. clearbody m2.
  destruct (delete_readiness callsign m2 Hm2) as (Hm3 & Hc3 & Hcov);
    [rewrite Ein; apply notValid_notCovered; [apply Hm1 | done]|]. split_and!; auto.
Qed.
Lemma keeps_sendReady t callsign rf : keeps (sendReadyForModelMatching t callsign rf).
Proof using All. intros m Hm. destruct (sendReady_spec t callsign rf m Hm) as (? & ? & _). by split. Qed.
Lemma sendReady_covers t callsign rf m :
  monitorOk m -> callsignEmpty callsign = false ->
  covered (sendReadyForModelMatching t callsign rf m).1.2 (asString callsign).
Proof using All. intros Hm Hc. by apply sendReady_spec. Qed.

Ltac keeps_part ::= first [apply keeps_setClients | apply keeps_sendReady].

Lemma keeps_addOrUpdate callsign a b l s type : keeps (addOrUpdateAircraftInRange callsign a b l s type).
Proof using All.
  unfold addOrUpdateAircraftInRange, reverseLookupModelWithFlightplanData, updateAircraftModels. keeping.
  apply keeps_updateProvider.
  - intros p Hp. by apply wf_updateAircraft.
  - intros p. by apply inRangeSub_update.
Qed.

Ltac keeps_part ::= first [apply keeps_setClients | apply keeps_sendReady | apply keeps_addOrUpdate].

Lemma keeps_onCustomFSInn t callsign a b c s : keeps (onCustomFSInnPacketReceived t callsign a b c s).
Proof using All. unfold onCustomFSInnPacketReceived. keeping. Qed.
Ltac keeps_part ::=
  first [apply keeps_setClients | apply keeps_sendReady | apply keeps_addOrUpdate | apply keeps_onCustomFSInn].
Lemma keeps_recall t callsign : keeps (recallFsInnPacket t callsign).
Proof using All. unfold recallFsInnPacket. keeping. Qed.
Ltac keeps_part ::=
  first [ apply keeps_setClients | apply keeps_sendReady | apply keeps_addOrUpdate | apply keeps_onCustomFSInn
        | apply keeps_recall | apply keeps_sendInitialPilotQueries ].
Lemma keeps_checkAgain t callsign rf : keeps (checkAgain t callsign rf).
Proof using All. unfold checkAgain, mon_isAircraftInRange. keeping. Qed.
Lemma keeps_onIcaoCodes t callsign a b l : keeps (onIcaoCodesReceived t callsign a b l).
Proof using All. unfold onIcaoCodesReceived. keeping. Qed.
Lemma keeps_verify t callsign : keeps (verifyReceivedIcaoData t callsign).
Proof using All.
  intros m Hm. unfold verifyReceivedIcaoData. rewrite bind_state. cbn [mon_get fst snd].
  destruct (callsignEmpty callsign || _); [by apply keeps_ret|]. cbv zeta.
  rewrite bind_state. cbn [mon_set fst snd].
  destruct (set_readiness m (asString callsign) (default Readiness_default (m_readiness m !! asString callsign)) Hm)
    as [Hm1 Hc1]; [by intros (r & -> & Hs)|]. set (m1 := m <| m_readiness ::= _ |>) in *.
  assert (forall x : Mon unit, keeps x -> monitorOk (x m1).1.2 /\ forall cs, covered m cs -> covered (x m1).1.2 cs) as Hx.
  { intros x Hx. destruct (Hx m1 Hm1). auto. }
  repeat case_match; apply Hx; keeping.
Qed.

(** *** Providers *)

Lemma keeps_handleMaxRange situation : keeps (handleMaxRange situation).
Proof using Type.
  unfold handleMaxRange. keeping. apply keeps_updateProvider.
  - intros p. apply wf_remove.
  - intros p. apply inRangeSub_remove.
Qed.
Lemma keeps_setMaxRange range : keeps (setMaxRange range).
Proof using Type. unfold setMaxRange. keeping. Qed.
Lemma keeps_storeSituation t situation allow : keeps (mon_storeAircraftSituation t situation allow).
Proof using All.
  unfold mon_storeAircraftSituation. keeping. apply keeps_provider.
  - intros p Hp. match goal with |- context [storeAircraftSituation t ?x false p] =>
      pose proof (wf_storeSituation t x false p Hp) as Hw end. by destruct (storeAircraftSituation _ _ _ _) as [p' signals].
  - intros p. match goal with |- context [storeAircraftSituation t ?x false p] =>
      pose proof (inRangeSub_storeSituation t x false p) as Hw end. by destruct (storeAircraftSituation _ _ _ _) as [p' signals].
Qed.
Lemma keeps_updateSituation callsign situation : keeps (updateSituation callsign situation).
Proof using Type.
  apply keeps_updateProvider; intros p; [intros Hp; by apply wf_updateAircraft | by apply inRangeSub_update].
Qed.
Lemma keeps_updateDistanceBearing callsign situation : keeps (updateDistanceBearing callsign situation).
Proof using Type.
  unfold updateDistanceBearing, updateAircraftInRangeDistanceBearing.
  apply keeps_updateProvider; intros p; [intros Hp; by apply wf_updateAircraft | by apply inRangeSub_update].
Qed.
Lemma keeps_onInterim t situation : keeps (onAircraftInterimUpdateReceived t situation).
Proof using All.
  unfold onAircraftInterimUpdateReceived. keeping; [apply keeps_storeSituation | apply keeps_updateDistanceBearing].
Qed.
Lemma keeps_onConfig t callsign j os : keeps (onAircraftConfigReceived t callsign j os).
Proof using All.
  unfold onAircraftConfigReceived. keeping. apply keeps_provider; intros p.
  - intros Hp. pose proof (wf_storeJson callsign t t j os p Hp) as Hw. by destruct (storeJson _ _ _ _ _ _) as [p' signals].
  - pose proof (inRangeSub_storeJson callsign t t j os p) as Hw. by destruct (storeJson _ _ _ _ _ _) as [p' signals].
Qed.

(** *** Aircraft that come and go *)

Lemma keeps_change m m' :
  monitorOk m -> providerWf (provider m') -> inRangeSub (provider m) (provider m') ->
  connected m' = connected m -> mon_timers m' = mon_timers m ->
  (forall cs, is_Some (m_aircraftInRange (provider m') !! cs) -> m_readiness m' !! cs = m_readiness m !! cs) ->
  monitorOk m' /\ forall cs, covered m cs -> covered m' cs.
Proof using Type.
  intros Hm Hwf Hsub Hc Ht Hr. split.
  - destruct Hm. constructor; [done | congruence | | by rewrite Ht].
    intros k a Ha. destruct (Hsub _ _ Ha) as (b & Hb & ->). by apply (mo_named0 k).
  - intros cs Hcs Ha Hv. pose proof (Hr cs Ha) as E. destruct Ha as [a Ha]. destruct (Hsub _ _ Ha) as (b & Hb & _).
    destruct (Hcs (mk_is_Some _ _ Hb) Hv) as [Hs|Hw]; [left | right].
    + unfold isSent. by rewrite E.
    + unfold waits. by rewrite Ht.
Qed.

Lemma keeps_removeAll_state m m' :
  monitorOk m -> provider m' = (removeAllAircraft (provider m)).1 ->
  connected m' = connected m -> mon_timers m' = mon_timers m -> monitorOk m' /\ forall cs, covered m cs -> covered m' cs.
Proof using All.
  intros Hm Ep Hc Ht. apply keeps_change; [done | | | done | done |].
  - rewrite Ep. apply (wf_step (provider m) RemoveAllAircraft), Hm.
  - rewrite Ep. apply inRangeSub_removeAll.
  - intros cs [a Ha]. exfalso. rewrite Ep in Ha.
    change ((∅ : gmap QString CSimulatedAircraft) !! cs = Some a) in Ha. done.
Qed.
Lemma keeps_clear : keeps clear.
Proof using All. intros m Hm. by apply keeps_removeAll_state. Qed.
Lemma keeps_onConnectionStatusChanged r status : keeps (onConnectionStatusChanged r status).
Proof using All. unfold onConnectionStatusChanged. keeping; [apply keeps_setMaxRange | apply keeps_clear]. Qed.

Lemma removeFromCaches_state callsign m :
  providerWf (provider m) ->
  let m' := (removeFromAircraftCachesAndLogs callsign m).1.2 in
  m_aircraftInRange (provider m') = m_aircraftInRange (provider m) /\ providerWf (provider m') /\
  connected m' = connected m /\ mon_timers m' = mon_timers m /\
  forall cs, cs <> asString callsign -> m_readiness m' !! cs = m_readiness m !! cs.
Proof using All.
  intros Hwf. unfold removeFromAircraftCachesAndLogs. destruct (callsignEmpty callsign); [done|]. split_and!; [done | | done | done |].
  - by apply (wf_step (provider m) (RemoveMessages callsign)).
  - intros cs Hne. by apply lookup_delete_ne.
Qed.
Lemma onPilotDisconnected_state callsign m :
  let m1 := (removeFromAircraftCachesAndLogs callsign m).1.2 in
  let m' := (onPilotDisconnected callsign m).1.2 in
  provider m' = (removeAircraft callsign (provider m1)).2 /\ m_readiness m' = m_readiness m1 /\
  connected m' = connected m1 /\ mon_timers m' = mon_timers m1.
Proof using Type.
  cbv zeta. unfold onPilotDisconnected. rewrite !bind_state.
  set (m1 := (removeFromAircraftCachesAndLogs callsign m).1.2). unfold mon_when. by case_match.
Qed.
Lemma keeps_onPilotDisconnected callsign : keeps (onPilotDisconnected callsign).
Proof using All.
  intros m Hm. destruct (removeFromCaches_state callsign m) as (Ea & Hwf & Hc & Ht & Hr); [apply Hm|].
  destruct (onPilotDisconnected_state callsign m) as (E1 & E2 & E3 & E4).
  set (m1 := (removeFromAircraftCachesAndLogs callsign m).1.2) in *. clearbody m1.
  set (m' := (onPilotDisconnected callsign m).1.2) in *. clearbody m'.
  assert (m_aircraftInRange (provider m') = delete (asString callsign) (m_aircraftInRange (provider m))) as Ed.
  { by rewrite E1, <- Ea. }
  apply keeps_change; [done | rewrite E1; by apply wf_remove | | congruence | congruence |].
  - intros k a Ha. rewrite Ed in Ha. apply lookup_delete_Some in Ha as [_ Ha]. by exists a.
  - intros cs Hcs. rewrite E2. apply Hr. intros ->. rewrite Ed, lookup_delete_eq in Hcs. by destruct Hcs.
Qed.

(** *** Aircraft that are new *)

Lemma asNewAircraft_callsign aircraft : ac_callsign (asNewAircraft aircraft) = ac_callsign aircraft.
Proof using Type. exact (setRendered_callsign false aircraft). Qed.
Lemma add_spec t aircraft : callsignEmpty (ac_callsign aircraft) = false -> keeps (mon_addNewAircraftInRange t aircraft).
Proof using All.
  intros Hne m Hm. unfold mon_addNewAircraftInRange. rewrite bind_state. unfold ofProvider, addNewAircraftInRange.
  rewrite asNewAircraft_callsign. unfold isAircraftInRange. rewrite Hne. case_bool_decide as Hin; cbn [fst snd].
  { destruct m. by split. }
  set (p1 := (provider m) <| m_aircraftInRange ::= insert (asString (ac_callsign aircraft)) (asNewAircraft aircraft) |>).
  set (m1 := m <| provider := p1 |>). rewrite bind_state. cbn [mon_when]. rewrite bind_state.
  set (m2 := (singleShot (t + MMVerifyMs) (VerifyIcaoData (ac_callsign aircraft)) m1).1.2).
  assert (monitorOk m2 /\ forall cs, covered m cs -> covered m2 cs) as [Hm2 Hc2].
  { split.
    - constructor.
      + change (providerWf ((provider m) <| m_aircraftInRange :=
          <[asString (ac_callsign aircraft) := asNewAircraft aircraft]> (m_aircraftInRange (provider m)) |>)).
        apply wf_inRange; [|apply Hm].
        apply map_Forall_insert_2; [by rewrite asNewAircraft_callsign | apply Hm].
      + apply Hm.
      + change (map_Forall (fun _ a => callsignEmpty (ac_callsign a) = false)
          (<[asString (ac_callsign aircraft) := asNewAircraft aircraft]> (m_aircraftInRange (provider m)))).
        apply map_Forall_insert_2; [by rewrite asNewAircraft_callsign | apply Hm].
      + intros d a ready Ht. change ((d, ReInitialize a ready) ∈ mon_timers m ++
          [(t + MMVerifyMs, VerifyIcaoData (ac_callsign aircraft))]) in Ht.
        apply elem_of_app in Ht as [Ht|Ht]; [by eapply (mo_timers _ Hm)|]. by apply list_elem_of_singleton in Ht.
    - intros cs Hcs. destruct (decide (cs = asString (ac_callsign aircraft))) as [->|Hn]; [by apply singleShot_covers|].
      intros [a Ha] Hv. change (<[asString (ac_callsign aircraft) := asNewAircraft aircraft]>
        (m_aircraftInRange (provider m)) !! cs = Some a) in Ha.
      rewrite lookup_insert_ne in Ha by done. destruct (Hcs (mk_is_Some _ _ Ha) Hv) as [Hs|(d & c & Ht & Hcc)]; [by left|].
      right. exists d, c. split; [|done].
      change ((d, c) ∈ mon_timers m ++ [(t + MMVerifyMs, VerifyIcaoData (ac_callsign aircraft))]). apply elem_of_app. by left. }
  clearbody m2. cbn [mret Mon_ret fst snd].
  assert (forall x : Mon unit, keeps x -> monitorOk (x m2).1.2 /\ forall cs, covered m cs -> covered (x m2).1.2 cs) as Hx.
  { intros x Hx. destruct (Hx m2 Hm2). auto. }
  apply Hx. keeping; apply keeps_updateProvider; intros p;
    first [by apply inRangeSub_refl | by intros []].
Qed.

Lemma keeps_onAircraftUpdate t situation :
  callsignEmpty (m_correspondingCallsign situation) = false -> keeps (onAircraftUpdateReceived t situation).
Proof using All.
  intros Hne. unfold onAircraftUpdateReceived, mon_isAircraftInRange. keeping;
    first [apply keeps_handleMaxRange | apply keeps_storeSituation | by apply add_spec | apply keeps_updateSituation].
Qed.
Lemma keeps_onSimData t situation parts os a b :
  callsignEmpty (m_correspondingCallsign situation) = false ->
  keeps (onAircraftSimDataUpdateReceived t situation parts os a b).
Proof using All.
  intros Hne. unfold onAircraftSimDataUpdateReceived. keeping;
    first [by apply keeps_onAircraftUpdate | apply keeps_onIcaoCodes | apply keeps_onConfig].
Qed.
Lemma keeps_atc callsign f la lo r : keeps (onAtcPositionUpdate callsign f la lo r).
Proof using All.
  unfold onAtcPositionUpdate. keeping. apply keeps_sendInitialAtcQueries.
Qed.
Lemma keeps_atcGone callsign : keeps (onAtcControllerDisconnected callsign).
Proof using All. unfold onAtcControllerDisconnected. keeping. Qed.

(** The assertions of the slots: a position has a callsign. *)
Definition signalNamed (s : Signal) : Prop :=
  match s with
  | pilotDataUpdateReceived situation _ | euroscopeSimDataUpdatedReceived situation _ _ _ _ _ _ =>
      callsignEmpty (sit_callsign situation) = false
  | _ => True
  end.
Lemma keeps_onSignal t r s : signalNamed s -> keeps (onSignal t r s).
Proof using All.
  intros Hs. destruct s; cbn [onSignal signalNamed] in *; keeping; try apply keeps_ret;
    first [ apply keeps_atc | apply keeps_atcGone | apply keeps_onPilotDisconnected | by apply keeps_onAircraftUpdate
          | apply keeps_onConfig | apply keeps_onIcaoCodes | apply keeps_onInterim | by apply keeps_onSimData
          | apply keeps_onConnectionStatusChanged
          | unfold onFlightPlanReceived, onCapabilitiesReplyReceived, onServerReplyReceived, request; keeping ].
Qed.

(** *** Timers *)

Lemma existsb_implied {A} (f g : A -> bool) l :
  (forall x, g x = true -> f x = true) -> existsb f l = false -> existsb g l = false.
Proof using Type.
  intros Hfg. induction l as [|x l IH]; [done|]. cbn [existsb]. rewrite !orb_false_iff. intros [Hx Hl].
  split; [|by apply IH]. destruct (g x) eqn:E; [|done]. by rewrite (Hfg x E) in Hx.
Qed.
Lemma valid_whatever_hint callsign :
  callsignEmpty callsign = false -> isValidAircraftCallsign (asString callsign) = true -> callsignValid callsign = true.
Proof using Type.
  intros Hne Hv. unfold callsignValid. destruct (m_typeHint callsign); [by rewrite Hne | done |].
  revert Hv. unfold isValidAircraftCallsign, isValidAtcCallsign. case_match; [done|]. rewrite !negb_true_iff.
  apply existsb_implied. intros c. rewrite !andb_true_iff. tauto.
Qed.

Lemma inRange_iff callsign p :
  callsignEmpty callsign = false ->
  isAircraftInRange callsign p = bool_decide (is_Some (m_aircraftInRange p !! asString callsign)).
Proof using Type. intros Hne. unfold isAircraftInRange. by rewrite Hne. Qed.

(** Only an aircraft in range with a valid callsign has to be covered. *)
Lemma covers_if {A} (x : Mon A) m cs :
  monitorOk m -> keeps x ->
  (is_Some (m_aircraftInRange (provider m) !! cs) -> isValidAircraftCallsign cs = true -> covered (x m).1.2 cs) ->
  covered (x m).1.2 cs.
Proof using Type.
  intros Hm Hx Hc. destruct (decide (is_Some (m_aircraftInRange (provider m) !! cs))) as [Hin|Hout];
    [|by apply Hx; [done | intros ?]].
  destruct (isValidAircraftCallsign cs) eqn:Hv; [by apply Hc|]. intros _ Hv'. congruence.
Qed.
Lemma onCustomFSInn_covers t callsign a b c s m :
  monitorOk m -> callsignEmpty callsign = false ->
  covered (onCustomFSInnPacketReceived t callsign a b c s m).1.2 (asString callsign).
Proof using All.
  intros Hm Hne. apply covers_if; [done | apply keeps_onCustomFSInn|]. intros Hin Hv.
  unfold onCustomFSInnPacketReceived. rewrite bind_state. cbn [mon_get fst snd].
  rewrite (valid_whatever_hint callsign) by done. rewrite (mo_connected m Hm). cbn [negb]. cbv zeta.
  rewrite inRange_iff, bool_decide_eq_true_2 by done. cbn [negb andb].
  rewrite bind_state. cbn [setClients mon_set fst snd mon_when].
  set (m1 := m <| m_clients ::= _ |>). assert (monitorOk m1) as Hm1 by by destruct m, Hm. clearbody m1.
  rewrite bind_state. destruct (keeps_addFlag t callsign ReceivedFsInnPacket m1 Hm1) as [Hm2 _].
  set (m2 := (addMatchingReadinessFlag _ _ _ m1).1.2) in *. clearbody m2.
  rewrite bind_state. match goal with |- covered ((sendReadyForModelMatching _ _ _) ?x).1.2 _ => set (m3 := x) end.
  assert (monitorOk m3) as Hm3.
  { subst m3. match goal with |- monitorOk (?x m2).1.2 => assert (keeps x) as Hk by keeping end. by apply Hk. }
  by apply sendReady_covers.
Qed.

Lemma isAircraftInRange_eq callsign m :
  mon_isAircraftInRange callsign m = (isAircraftInRange callsign (provider m), m, []).
Proof using Type. reflexivity. Qed.
Lemma recall_eq t callsign m :
  recallFsInnPacket t callsign m =
  match m_tempFsInnPackets m !! asString callsign with
  | None => (false, m, [])
  | Some packet =>
      let '(_, m', o) := onCustomFSInnPacketReceived t callsign (fi_airlineIcaoDesignator packet)
        (fi_aircraftIcaoDesignator packet) (fi_combinedCode packet) (fi_modelString packet)
        (m <| m_tempFsInnPackets ::= delete (asString callsign) |>) in (true, m', o)
  end.
Proof using Type.
  unfold recallFsInnPacket, mbind, Mon_bind. cbn [mon_get]. destruct (m_tempFsInnPackets m !! asString callsign); [|done].
  cbn [mon_set]. destruct (onCustomFSInnPacketReceived _ _ _ _ _ _ _) as [[u m'] o]. cbn. by rewrite app_nil_r.
Qed.

Lemma checkAgain_covers t callsign rf m :
  monitorOk m -> callsignEmpty callsign = false -> covered (checkAgain t callsign rf m).1.2 (asString callsign).
Proof using All.
  intros Hm Hne. apply covers_if; [done | apply keeps_checkAgain|]. intros Hin Hv.
  unfold checkAgain. rewrite bind_state, isAircraftInRange_eq. cbn [fst snd].
  rewrite inRange_iff, bool_decide_eq_true_2 by done. cbn [negb].
  rewrite bind_state. destruct (rf =? ReceivedFsInnPacket); cbn [negb]; [by apply sendReady_covers|].
  rewrite recall_eq. destruct (m_tempFsInnPackets m !! asString callsign) as [packet|]; [|by apply sendReady_covers].
  set (m1 := m <| m_tempFsInnPackets ::= delete (asString callsign) |>).
  assert (monitorOk m1) as Hm1 by by destruct m, Hm.
  pose proof (onCustomFSInn_covers t callsign (fi_airlineIcaoDesignator packet) (fi_aircraftIcaoDesignator packet)
    (fi_combinedCode packet) (fi_modelString packet) m1 Hm1 Hne) as Hc.
  by destruct (onCustomFSInnPacketReceived _ _ _ _ _ _ m1) as [[u m2] o].
Qed.

Lemma verify_covers t callsign m :
  monitorOk m -> callsignEmpty callsign = false -> covered (verifyReceivedIcaoData t callsign m).1.2 (asString callsign).
Proof using All.
  intros Hm Hne. apply covers_if; [done | apply keeps_verify|]. intros Hin Hv.
  unfold verifyReceivedIcaoData. rewrite bind_state. cbn [mon_get fst snd]. rewrite Hne, inRange_iff by done.
  rewrite bool_decide_eq_true_2 by done. cbn [negb orb]. cbv zeta. rewrite bind_state. cbn [mon_set fst snd].
  set (r := default Readiness_default (m_readiness m !! asString callsign)).
  destruct (set_readiness m (asString callsign) r Hm) as [Hm1 _]; [by subst r; intros (r' & -> & Hs)|].
  set (m1 := m <| m_readiness ::= _ |>) in *.
  assert (m_readiness m1 !! asString callsign = Some r) as Hr by exact (lookup_insert_eq _ _ _).
  clearbody m1 r. destruct (wasMatchingSent r) eqn:Es; [intros _ _; left; by exists r|].
  destruct (wasVerified r); [by apply sendReady_covers|].
  rewrite bind_state. destruct (keeps_addFlag t callsign Verified m1 Hm1) as [Hm2 _].
  set (m2 := (addMatchingReadinessFlag _ _ _ m1).1.2) in *. destruct (negb (receivedIcaoCodes _)).
  - rewrite bind_state. by apply singleShot_covers.
  - by apply sendReady_covers.
Qed.

Lemma reInitialize_keeps t ac ready : callsignEmpty (ac_callsign ac) = false -> keeps (reInitialize t ac ready).
Proof using All.
  intros Hne m Hm. unfold reInitialize. rewrite bind_state. destruct (add_spec t ac Hne m Hm) as [Hm1 Hc1].
  set (m1 := (mon_addNewAircraftInRange t ac m).1.2) in *. clearbody m1. destruct ready; cbn [mon_when]; [|by split; auto].
  rewrite bind_state. cbn [mon_set fst snd]. set (m2 := m1 <| m_readiness ::= delete (asString (ac_callsign ac)) |>).
  assert (monitorOk m2) as Hm2 by by destruct m1, Hm1.
  destruct (sendReady_spec t (ac_callsign ac) ReceivedAll m2 Hm2) as (Hm3 & Hc3 & Hcov). split; [done|].
  intros cs Hcs. destruct (decide (cs = asString (ac_callsign ac))) as [->|Hn]; [by apply Hcov|].
  apply Hc3. intros Ha Hv. destruct (Hc1 cs Hcs Ha Hv) as [(r & Hr & Hs)|Hw]; [left | by right].
  exists r. split; [|done]. change (delete (asString (ac_callsign ac)) (m_readiness m1) !! cs = Some r).
  by rewrite lookup_delete_ne.
Qed.
End slots.

(** ** What is marked as sent has been announced *)

Section honest.
Context {FG : FlightGeometry} {ME : MonitorEnv} `{QtConv} `{StdSortLaws} `{BuildConfig}.
Implicit Types (m : CAirspaceMonitor) (callsign : CCallsign) (cs : QString).

(** The signal for an aircraft of a callsign is among the outputs. *)
Definition announced (o : list MonOut) cs : Prop :=
  exists a, readyForModelMatching a ∈ o /\ asString (ac_callsign a) = cs.
Lemma announced_outputs o o' cs : announced (o ++ o') cs <-> announced o cs \/ announced o' cs.
Proof using Type. unfold announced. setoid_rewrite elem_of_app. naive_solver. Qed.

(** Slots that mark no callsign as sent, and slots that announce the callsigns
    they mark. *)
Definition calm {A} (x : Mon A) : Prop := forall m cs, isSent (x m).1.2 cs -> isSent m cs.
Definition honest {A} (x : Mon A) : Prop :=
  forall m, monitorOk m -> forall cs, isSent (x m).1.2 cs -> isSent m cs \/ announced (x m).2 cs.

Lemma calm_honest {A} (x : Mon A) : calm x -> honest x.
Proof using Type. intros Hx m _ cs Hs. left. by apply Hx. Qed.
Lemma calm_same {A} (x : Mon A) : (forall m, m_readiness (x m).1.2 = m_readiness m) -> calm x.
Proof using Type. intros Hx m cs. unfold isSent. by rewrite Hx. Qed.
Lemma calm_bind {A B} (x : Mon A) (k : A -> Mon B) : calm x -> (forall a, calm (k a)) -> calm (x ≫= k).
Proof using Type. intros Hx Hk m cs. rewrite bind_state. intros Hs. by apply Hk, Hx in Hs. Qed.
Lemma bind_outputs {A B} (x : Mon A) (k : A -> Mon B) m :
  ((x ≫= k) m).2 = (x m).2 ++ (k (x m).1.1 (x m).1.2).2.
Proof using Type.
  unfold mbind, Mon_bind. destruct (x m) as [[a m'] o]. cbn [fst snd]. by destruct (k a m') as [[b m''] o'].
Qed.
Lemma honest_bind {A B} (x : Mon A) (k : A -> Mon B) :
  keeps x -> honest x -> (forall a, honest (k a)) -> honest (x ≫= k).
Proof using Type.
  intros Hok Hx Hk m Hm cs. rewrite bind_state, bind_outputs, announced_outputs. intros Hs.
  destruct (Hk _ _ (proj1 (Hok m Hm)) _ Hs) as [Hs'|]; [|tauto]. destruct (Hx m Hm cs Hs'); tauto.
Qed.
Lemma calm_when b x : calm x -> calm (mon_when b x).
Proof using Type. destruct b; [done | intros _; by apply calm_same]. Qed.
Lemma calm_forEach {A} (f : A -> Mon unit) l : (forall a, calm (f a)) -> calm (mon_forEach f l).
Proof using Type. intros Hf. induction l; simpl; [by apply calm_same | by apply calm_bind]. Qed.
Lemma calm_provider {A} (f : CRemoteAircraftProvider -> A * CRemoteAircraftProvider * list ProviderSignal) :
  calm (ofProvider f).
Proof using Type. apply calm_same. intros m. unfold ofProvider. by destruct (f (provider m)) as [[a p] signals]. Qed.
(** A readiness is changed without the mark, or removed. *)
Lemma isSent_insert m cs r cs' :
  isSent (m <| m_readiness ::= insert cs r |>) cs' -> cs' = cs /\ wasMatchingSent r = true \/ cs' <> cs /\ isSent m cs'.
Proof using Type.
  intros (r' & Hr & Hs). change (<[cs := r]> (m_readiness m) !! cs' = Some r') in Hr.
  destruct (decide (cs' = cs)) as [->|Hne]; [left | right].
  - rewrite lookup_insert_eq in Hr. by simplify_eq.
  - rewrite lookup_insert_ne in Hr by done. split; [done|]. by exists r'.
Qed.
Lemma calm_delete cs : calm (mon_set (fun m => m <| m_readiness ::= delete cs |>)).
Proof using Type.
  intros m cs' (r & Hr & Hs). change (delete cs (m_readiness m) !! cs' = Some r) in Hr.
  apply lookup_delete_Some in Hr as [_ Hr]. by exists r.
Qed.
Lemma sent_addFlag_only t f r : Z.testbit f 2 = false -> wasMatchingSent (addFlag t f r) = true -> wasMatchingSent r = true.
Proof using Type.
  intros Hf. rewrite !sent_bit. unfold addFlag. case_match; [done|]. cbn [rd_readyness].
  by rewrite Z.lor_spec, Hf, orb_false_r.
Qed.
Lemma sent_default m cs : wasMatchingSent (default Readiness_default (m_readiness m !! cs)) = true -> isSent m cs.
Proof using Type. destruct (m_readiness m !! cs) as [r|] eqn:E; [|done]. intros Hs. by exists r. Qed.
Lemma calm_addFlag t callsign f : Z.testbit f 2 = false -> calm (addMatchingReadinessFlag t callsign f).
Proof using Type.
  intros Hf m cs. rewrite addMatchingReadinessFlag_state. cbn [fst snd]. intros [[-> Hs]|[_ Hs]]%isSent_insert; [|done].
  by apply sent_default, (sent_addFlag_only t f).
Qed.
End honest.

(** The slots by their parts, as with [keeping]: first those that mark nothing. *)
Ltac calm_part := fail.
Ltac calming :=
  repeat first
    [ calm_part
    | lazymatch goal with
      | |- calm (mbind _ _) => apply calm_bind; [|intros ?]
      | |- calm (mon_when _ _) => apply calm_when
      | |- calm (mon_forEach _ _) => apply calm_forEach; intros ?
      | |- calm (ofProvider _) => apply calm_provider
      | |- calm (updateProvider _) => apply calm_provider
      | |- calm (addMatchingReadinessFlag _ _ _) => by apply calm_addFlag
      | |- calm (mon_set (fun m => m <| m_readiness ::= delete _ |>)) => apply calm_delete
      | |- calm (reverseLog _ _) => apply calm_provider
      | |- calm (match _ with _ => _ end) => case_match
      | |- calm (let _ := _ in _) => cbv zeta
      | |- calm _ => apply calm_same; reflexivity
      end ].

Section announces.
Context {FG : FlightGeometry} {ME : MonitorEnv} `{QtConv} `{StdSortLaws} `{BuildConfig}.
Implicit Types (m : CAirspaceMonitor) (callsign : CCallsign) (cs : QString).

(** What is found under a callsign and valid has that callsign. *)
Lemma callsign_found callsign p :
  hasValidCallsign (getAircraftInRangeForCallsign callsign p) = true ->
  asString (ac_callsign (getAircraftInRangeForCallsign callsign p)) = asString callsign.
Proof using Type.
  unfold getAircraftInRangeForCallsign. destruct (filter _ _) as [|a l] eqn:E; [done|]. intros _.
  assert (a ∈ a :: l) as Ha by by left. rewrite <- E in Ha. by apply list_elem_of_filter in Ha as [Ha _].
Qed.
Lemma honest_sendReady t callsign rf : Z.testbit rf 2 = false -> honest (sendReadyForModelMatching t callsign rf).
Proof using All.
  intros Hrf m Hm cs. unfold sendReadyForModelMatching. rewrite bind_state, bind_outputs. cbn [mon_get fst snd app].
  rewrite (mo_connected m Hm). cbn [negb]. rewrite bind_state, bind_outputs, addMatchingReadinessFlag_state. cbn [fst snd app].
  set (r := addFlag t rf _). set (m1 := m <| m_readiness ::= insert (asString callsign) r |>).
  assert (forall cs, isSent m1 cs -> isSent m cs) as Hback.
  { intros cs' [[-> Hs]|[_ Hs]]%isSent_insert; [|done]. by apply sent_default, (sent_addFlag_only t rf). }
  change (provider m) with (provider m1). assert (providerWf (provider m1)) as Hwf by apply Hm. clearbody m1 r.
  destruct (wasMatchingSent r && _); [by left; apply Hback|].
  destruct (negb (rf =? Verified) && _ && _ && _).
  { intros Hs. left. apply Hback. revert Hs.
    match goal with |- isSent (?x m1).1.2 cs -> _ => assert (calm x) as Hx by calming end. apply Hx. }
  destruct (hasValidCallsign _) eqn:Ev.
  - rewrite bind_state, bind_outputs. cbn [mon_set fst snd app]. intros Hs.
    match type of Hs with isSent ((?x;; ?y) ?m2).1.2 cs => change (isSent m2 cs) in Hs end.
    apply isSent_insert in Hs as [[-> _]|[_ Hs]]; [right | by left; apply Hback].
    eexists. split; [apply elem_of_app; right; by left|]. by apply callsign_found.
  - intros Hs. left. apply Hback. revert Hs.
    match goal with |- isSent (?x m1).1.2 cs -> _ => assert (calm x) as Hx by calming end. apply Hx.
Qed.
Lemma honest_when b x : honest x -> honest (mon_when b x).
Proof using Type. destruct b; [done | intros _; by apply calm_honest, calm_same]. Qed.
End announces.

Ltac honest_part := fail.
Ltac telling :=
  repeat first
    [ honest_part
    | solve [apply calm_honest; calming]
    | lazymatch goal with
      | |- honest (sendReadyForModelMatching _ _ _) => by apply honest_sendReady
      | |- honest (mbind _ _) => apply honest_bind; [solve [keeping] | | intros ?]
      | |- honest (mon_when _ _) => apply honest_when
      | |- honest (match _ with _ => _ end) => case_match
      | |- honest (let _ := _ in _) => cbv zeta
      end ].

Section tellers.
Context {FG : FlightGeometry} {ME : MonitorEnv} `{QtConv} `{StdSortLaws} `{BuildConfig}.
Implicit Types (m : CAirspaceMonitor) (callsign : CCallsign) (cs : QString).

Ltac keeps_part ::=
  first [ apply keeps_setClients | apply keeps_sendReady | apply keeps_addOrUpdate | apply keeps_onCustomFSInn
        | apply keeps_recall | apply keeps_sendInitialPilotQueries ].
Lemma calm_initialPilotQueries callsign b b' : calm (sendInitialPilotQueries callsign b b').
Proof using Type. unfold sendInitialPilotQueries, request. calming. Qed.
Lemma calm_addOrUpdate callsign a b l s type : calm (addOrUpdateAircraftInRange callsign a b l s type).
Proof using Type.
  unfold addOrUpdateAircraftInRange, reverseLookupModelWithFlightplanData, updateAircraftModels. calming.
Qed.
Ltac calm_part ::= first [apply calm_addOrUpdate | apply calm_initialPilotQueries].
Lemma honest_onCustomFSInn t callsign a b c s : honest (onCustomFSInnPacketReceived t callsign a b c s).
Proof using All. unfold onCustomFSInnPacketReceived. telling. Qed.
Ltac honest_part ::= apply honest_onCustomFSInn.
Lemma honest_recall t callsign : honest (recallFsInnPacket t callsign).
Proof using All. unfold recallFsInnPacket. telling. Qed.
Ltac honest_part ::= first [apply honest_onCustomFSInn | apply honest_recall].
Lemma honest_checkAgain t callsign rf : honest (checkAgain t callsign rf).
Proof using All. unfold checkAgain, mon_isAircraftInRange. telling. Qed.
Lemma honest_onIcaoCodes t callsign a b l : honest (onIcaoCodesReceived t callsign a b l).
Proof using All. unfold onIcaoCodesReceived. telling. Qed.
Lemma honest_verify t callsign : honest (verifyReceivedIcaoData t callsign).
Proof using All.
  intros m Hm cs. unfold verifyReceivedIcaoData. rewrite bind_state, bind_outputs. cbn [mon_get fst snd app].
  destruct (callsignEmpty callsign || _); [by left|]. cbv zeta.
  rewrite bind_state, bind_outputs. cbn [mon_set fst snd app].
  destruct (set_readiness m (asString callsign) (default Readiness_default (m_readiness m !! asString callsign)) Hm)
    as [Hm1 _]; [by intros (r & -> & Hs)|]. set (m1 := m <| m_readiness ::= _ |>) in *.
  assert (isSent m1 cs -> isSent m cs) as Hback by (intros [[-> Hs]|[_ Hs]]%isSent_insert; [by apply sent_default | done]).
  assert (forall x : Mon unit, honest x -> isSent (x m1).1.2 cs -> isSent m cs \/ announced (x m1).2 cs) as Hx.
  { intros x Hx Hs. destruct (Hx m1 Hm1 cs Hs); auto. }
  repeat case_match; apply Hx; telling.
Qed.
Lemma calm_handleMaxRange situation : calm (handleMaxRange situation).
Proof using Type. unfold handleMaxRange. calming. Qed.
Lemma calm_storeSituation t situation allow : calm (mon_storeAircraftSituation t situation allow).
Proof using Type. unfold mon_storeAircraftSituation. calming. Qed.
Lemma calm_add t aircraft : calm (mon_addNewAircraftInRange t aircraft).
Proof using Type. unfold mon_addNewAircraftInRange. calming. Qed.
Ltac calm_part ::= first [apply calm_initialPilotQueries | apply calm_storeSituation | apply calm_handleMaxRange | apply calm_add].
Lemma calm_onAircraftUpdate t situation : calm (onAircraftUpdateReceived t situation).
Proof using Type. unfold onAircraftUpdateReceived, mon_isAircraftInRange, updateSituation. calming. Qed.
Lemma calm_onInterim t situation : calm (onAircraftInterimUpdateReceived t situation).
Proof using Type. unfold onAircraftInterimUpdateReceived, updateDistanceBearing. calming. Qed.
Lemma calm_onConfig t callsign j os : calm (onAircraftConfigReceived t callsign j os).
Proof using Type. unfold onAircraftConfigReceived. calming. Qed.
Lemma calm_clear : calm clear.
Proof using Type. intros m cs (r & Hr & _). change ((∅ : gmap QString Readiness) !! cs = Some r) in Hr. done. Qed.
Lemma calm_onPilotDisconnected callsign : calm (onPilotDisconnected callsign).
Proof using Type.
  unfold onPilotDisconnected, removeFromAircraftCachesAndLogs. calming.
  intros m cs Hs. by apply (calm_delete (asString callsign) m cs).
Qed.
Lemma honest_reInitialize t ac ready : callsignEmpty (ac_callsign ac) = false -> honest (reInitialize t ac ready).
Proof using All.
  intros Hne m Hm. unfold reInitialize. revert m Hm.
  apply (honest_bind (mon_addNewAircraftInRange t ac)); [by apply add_spec | apply calm_honest, calm_add|]. intros _.
  destruct ready; cbn [mon_when]; [|by apply calm_honest, calm_same].
  intros m Hm cs. rewrite bind_state, bind_outputs. cbn [mon_set fst snd app]. intros Hs.
  set (m1 := m <| m_readiness ::= delete (asString (ac_callsign ac)) |>) in *.
  assert (monitorOk m1) as Hm1 by by destruct m, Hm.
  destruct (honest_sendReady t (ac_callsign ac) ReceivedAll eq_refl m1 Hm1 cs Hs) as [Hs'|]; [left | by right].
  by apply (calm_delete (asString (ac_callsign ac)) m cs).
Qed.
Lemma honest_onSimData t situation parts os a b :
  callsignEmpty (m_correspondingCallsign situation) = false ->
  honest (onAircraftSimDataUpdateReceived t situation parts os a b).
Proof using All.
  intros Hne. unfold onAircraftSimDataUpdateReceived.
  apply honest_bind; [by apply keeps_onAircraftUpdate | apply calm_honest, calm_onAircraftUpdate|]. intros _.
  apply honest_bind; [apply keeps_get | by apply calm_honest, calm_same|]. intros m. cbv zeta.
  apply honest_bind; [apply keeps_when, keeps_onIcaoCodes | apply honest_when, honest_onIcaoCodes|]. intros _.
  apply calm_honest, calm_onConfig.
Qed.
Lemma honest_onSignal t r s : signalNamed s -> honest (onSignal t r s).
Proof using All.
  intros Hs. destruct s; cbn [onSignal signalNamed] in *; try (apply calm_honest; by apply calm_same);
    first [ apply honest_onCustomFSInn | apply honest_onIcaoCodes | by apply honest_onSimData | apply calm_honest ];
    first [ apply calm_onAircraftUpdate | apply calm_onInterim | apply calm_onConfig | apply calm_onPilotDisconnected | idtac ].
  all: unfold onAtcPositionUpdate, sendInitialAtcQueries, onAtcControllerDisconnected, onFlightPlanReceived,
    onCapabilitiesReplyReceived, onServerReplyReceived, onConnectionStatusChanged, setMaxRange, request.
  all: calming; apply calm_clear.
Qed.
End tellers.

(** ** Runs *)

Section runs.
Context {FG : FlightGeometry} {ME : MonitorEnv} `{QtConv} `{StdSortLaws} `{BuildConfig}.
Implicit Types (m : CAirspaceMonitor) (callsign : CCallsign).

Lemma keeps_forEach_in {A} (f : A -> Mon unit) l : (forall a, a ∈ l -> keeps (f a)) -> keeps (mon_forEach f l).
Proof using Type.
  induction l as [|a l IH]; intros Hf; simpl; [apply keeps_ret|]. apply keeps_bind; [apply Hf; left|].
  intros _. apply IH. intros b Hb. apply Hf. by right.
Qed.
Lemma keeps_asyncReInitialize t l ready :
  Forall (fun a => callsignEmpty (ac_callsign a) = false) l -> keeps (asyncReInitializeAllAircraft t l ready).
Proof using Type.
  intros Hl. unfold asyncReInitializeAllAircraft. apply keeps_forEach_in. intros [c a] Ha. apply keeps_singleShot.
  intros a' r [= <- <-]. rewrite Forall_forall in Hl. apply Hl. cbn [snd].
  apply list_elem_of_In, in_combine_r in Ha. by apply list_elem_of_In.
Qed.
Lemma keeps_reInitializeAll t : keeps (reInitializeAllAircraft t).
Proof using All.
  intros m Hm. unfold reInitializeAllAircraft. rewrite bind_state. cbn [mon_get fst snd].
  rewrite bind_state. set (m1 := (ofProvider _ m).1.2).
  destruct (keeps_removeAll_state m m1 Hm) as [Hm1 Hc1]; [done..|]. clearbody m1.
  destruct (keeps_asyncReInitialize t (getAircraftInRange (provider m)) true) with (m := m1) as [Hm2 Hc2]; [|done|].
  - apply Forall_forall. intros a Ha. unfold getAircraftInRange in Ha.
    apply list_elem_of_fmap in Ha as ([k a'] & -> & Ha%elem_of_map_to_list). by apply (mo_named _ Hm k).
  - split; [done | auto].
Qed.

(** The events of a run in which the client stays connected and the assertions
    of the slots hold. *)
Definition eventOk (e : MonEvent) : Prop :=
  match e with ClientSignal _ s => signalNamed s | ClientStatus b => b = true | _ => True end.

Lemma runTimer_keeps t c : 
  (forall a ready, c = ReInitialize a ready -> callsignEmpty (ac_callsign a) = false) -> keeps (runTimer t c).
Proof using All.
  intros Hc. destruct c; cbn [runTimer]; [apply keeps_checkAgain | apply keeps_verify |].
  apply reInitialize_keeps. by eapply Hc.
Qed.
Lemma keeps_timerFires t n : keeps (timerFires t n).
Proof using All.
  intros m Hm. unfold timerFires. rewrite bind_state. cbn [mon_get fst snd].
  destruct (mon_timers m !! n) as [[due c]|] eqn:En; [|by apply keeps_ret].
  destruct (t <? due); [by apply keeps_ret|]. rewrite bind_state. cbn [mon_set fst snd].
  set (m1 := m <| mon_timers ::= delete n |>).
  assert (forall x, x ∈ mon_timers m1 -> x ∈ mon_timers m) as Hsub.
  { intros x Hx. change (x ∈ delete n (mon_timers m)) in Hx. rewrite delete_take_drop in Hx.
    rewrite <- (take_drop_middle _ _ _ En). set_solver. }
  assert (forall x, x ∈ mon_timers m -> x = (due, c) \/ x ∈ mon_timers m1) as Hsup.
  { intros x Hx. rewrite <- (take_drop_middle _ _ _ En) in Hx. change (x = (due, c) \/ x ∈ delete n (mon_timers m)).
    rewrite delete_take_drop. set_solver. }
  assert (monitorOk m1) as Hm1.
  { constructor; [apply Hm.. |]. intros d a ready Hx. eapply (mo_timers _ Hm), Hsub, Hx. }
  assert (forall a ready, c = ReInitialize a ready -> callsignEmpty (ac_callsign a) = false) as Hnamed.
  { intros a ready ->. eapply (mo_timers _ Hm). by eapply list_elem_of_lookup_2. }
  assert (forall cs, covered m cs -> ~ concerns cs c -> covered m1 cs) as Hc1.
  { intros cs Hcs Hn Ha Hv. destruct (Hcs Ha Hv) as [Hs|(d & c' & Hx & Hcc)]; [by left|]. right.
    destruct (Hsup _ Hx) as [[= -> ->]|Hx']; [done|]. by exists d, c'. }
  assert (forall cs, concerns cs c -> covered (runTimer t c m1).1.2 cs) as Hcov.
  { intros cs Hcc. destruct c as [callsign rf|callsign|]; [..|done]; destruct Hcc as [<- Hne].
    - by apply checkAgain_covers.
    - by apply verify_covers. }
  clearbody m1. destruct (runTimer_keeps t c Hnamed m1 Hm1) as [Hok Hk]. split; [done|].
  intros cs Hcs. assert (concerns cs c \/ ~ concerns cs c) as [Hcc|Hcc].
  { destruct c as [c ?|c|]; cbn [concerns]; [..|tauto];
      destruct (decide (asString c = cs /\ callsignEmpty c = false)); (by left) || (by right). }
  - by apply Hcov.
  - apply Hk. by apply Hc1.
Qed.

Lemma keeps_onEvent t e : eventOk e -> keeps (onEvent t e).
Proof using All.
  intros He. destruct e; cbn [onEvent eventOk] in *.
  - by apply keeps_onSignal.
  - apply keeps_onInterim.
  - subst. intros m Hm. destruct m, Hm. by split.
  - apply keeps_fastProcessing.
  - unfold slowProcessing. apply keeps_bind; [apply keeps_get|]. intros m. apply keeps_when, keeps_queryAll.
  - apply keeps_timerFires.
  - apply keeps_requestAircraft.
  - apply keeps_requestAtis.
  - apply keeps_reInitializeAll.
  - apply keeps_setMaxRange.
  - destruct (isPublicCall e) eqn:Ee; [|apply keeps_ret]. apply keeps_updateProvider; intros p.
    + intros Hp. by apply wf_step.
    + by apply inRangeSub_public.
Qed.

Lemma run_keeps es : Forall (fun te => eventOk te.2) es -> forall m, monitorOk m ->
  monitorOk (monitor_run m es) /\ forall cs, covered m cs -> covered (monitor_run m es) cs.
Proof using All.
  unfold monitor_run. induction 1 as [|[t e] es He _ IH]; intros m Hm; [done|].
  cbn [run]. destruct (keeps_onEvent t e He m Hm) as [Hm' Hc]. destruct (IH _ Hm') as [Hm'' Hc'].
  split; [done|]. auto.
Qed.

Definition connectedMonitor : CAirspaceMonitor := CAirspaceMonitor_init <| connected := true |>.
Lemma connectedMonitor_ok : monitorOk connectedMonitor.
Proof using All.
  constructor; [|done..|].
  - apply (provider_invariant_init).
  - intros d a ready Hx. by apply not_elem_of_nil in Hx.
Qed.

(** The outputs of a run. *)
Fixpoint monitor_outputs m (es : list (Z * MonEvent)) : list MonOut :=
  match es with [] => [] | te :: es => (onEvent te.1 te.2 m).2 ++ monitor_outputs (monitorStep m te) es end.
Lemma monitor_outputs_app m es es' :
  monitor_outputs m (es ++ es') = monitor_outputs m es ++ monitor_outputs (monitor_run m es) es'.
Proof using Type.
  revert m. induction es as [|te es IH]; intros m; [done|]. cbn [app monitor_outputs]. rewrite IH. by rewrite app_assoc.
Qed.

Lemma honest_timerFires t n : honest (timerFires t n).
Proof using All.
  intros m Hm cs. unfold timerFires. rewrite bind_state, bind_outputs. cbn [mon_get fst snd app].
  destruct (mon_timers m !! n) as [[due c]|] eqn:En; [|by left]. destruct (t <? due); [by left|].
  rewrite bind_state, bind_outputs. cbn [mon_set fst snd app]. set (m1 := m <| mon_timers ::= delete n |>).
  assert (monitorOk m1) as Hm1.
  { constructor; [apply Hm.. |]. intros d a ready Hx. eapply (mo_timers _ Hm d a ready).
    change ((d, ReInitialize a ready) ∈ delete n (mon_timers m)) in Hx.
    rewrite delete_take_drop in Hx. rewrite <- (take_drop_middle _ _ _ En). set_solver. }
  apply list_elem_of_lookup_2 in En. assert (honest (runTimer t c)) as Hh.
  { destruct c; cbn [runTimer]; [apply honest_checkAgain | apply honest_verify |].
    apply honest_reInitialize. by eapply (mo_timers _ Hm). }
  intros Hs. destruct (Hh m1 Hm1 cs Hs) as [Hs'|]; [by left | by right].
Qed.
Lemma honest_onEvent t e : eventOk e -> honest (onEvent t e).
Proof using All.
  intros He. destruct e; cbn [onEvent eventOk] in *;
    [by apply honest_onSignal | apply calm_honest, calm_onInterim | by apply calm_honest, calm_same | | | by apply honest_timerFires | ..].
  all: apply calm_honest; unfold fastProcessing, sendNextStaggeredAtisQuery, sendNextStaggeredPilotDataQuery, slowProcessing,
    queryAllOnlineAtcStations, requestAircraftDataUpdates, requestAtisUpdates, reInitializeAllAircraft,
    asyncReInitializeAllAircraft, setMaxRange, request.
  all: calming.
Qed.
Lemma run_honest es : Forall (fun te => eventOk te.2) es -> forall m, monitorOk m -> forall cs,
  isSent (monitor_run m es) cs -> isSent m cs \/ announced (monitor_outputs m es) cs.
Proof using All.
  unfold monitor_run. induction 1 as [|[t e] es He _ IH]; intros m Hm cs Hs; [by left|].
  cbn [run monitor_outputs] in *. rewrite announced_outputs.
  destruct (IH _ (proj1 (keeps_onEvent t e He m Hm)) cs Hs) as [Hs'|]; [|tauto].
  destruct (honest_onEvent t e He m Hm cs Hs'); tauto.
Qed.
End runs.

(** ** What a timer does at the latest *)

Section latest.
Context {FG : FlightGeometry} {ME : MonitorEnv} `{QtConv} `{StdSortLaws} `{BuildConfig}.
Implicit Types (m : CAirspaceMonitor) (callsign : CCallsign).

Lemma valid_in_range callsign p :
  providerWf p -> is_Some (m_aircraftInRange p !! asString callsign) -> isValidAircraftCallsign (asString callsign) = true ->
  hasValidCallsign (getAircraftInRangeForCallsign callsign p) = true.
Proof using All.
  intros Hp Hin Hv. destruct (hasValidCallsign _) eqn:E; [done|]. pose proof (notValid_notCovered callsign p Hp E Hin). congruence.
Qed.
Lemma reverseLog_keeps callsign text m :
  m_readiness (reverseLog callsign text m).1.2 = m_readiness m /\ mon_timers (reverseLog callsign text m).1.2 = mon_timers m.
Proof using Type. done. Qed.

(** Once nothing more is waited for, the aircraft is sent at once, unless it
    has been sent before. *)
Lemma sendReady_at_once t callsign rf m :
  monitorOk m -> is_Some (m_aircraftInRange (provider m) !! asString callsign) ->
  isValidAircraftCallsign (asString callsign) = true ->
  let r := addFlag t rf (default Readiness_default (m_readiness m !! asString callsign)) in
  rf = Verified \/ MMMaxAgeMs < getAgeMs t r ->
  let m' := (sendReadyForModelMatching t callsign rf m).1.2 in
  isSent m' (asString callsign) /\ mon_timers m' = mon_timers m.
Proof using All.
  intros Hm Hin Hv. cbv zeta. intros Hage. unfold sendReadyForModelMatching. rewrite bind_state. cbn [mon_get fst snd].
  rewrite (mo_connected m Hm). cbn [negb]. rewrite bind_state, addMatchingReadinessFlag_state. cbn [fst snd].
  set (r := addFlag t rf _) in *. rewrite (valid_in_range callsign (provider m)) by (done || apply Hm).
  destruct (wasMatchingSent r && _) eqn:Es.
  { apply andb_true_iff in Es as [Es _]. split; [|done]. exists r. split; [exact (lookup_insert_eq _ _ _) | done]. }
  assert (negb (rf =? Verified) && true && (getAgeMs t r <=? MMMaxAgeMs) = false) as ->.
  { destruct Hage as [-> | Hage]; [done|]. destruct (Z.leb_spec (getAgeMs t r) MMMaxAgeMs); [lia|]. apply andb_false_r. }
  cbn [andb]. split; [|done]. eexists. split; [exact (lookup_insert_eq _ _ _) | apply sent_setFlag].
Qed.

(** Waiting ends.  A re-check of an aircraft in range more than six seconds
    after its first data starts no further re-check: the aircraft is sent to the
    matching as it is. *)
Theorem recheck_ends t callsign rf m r :
  monitorOk m -> is_Some (m_aircraftInRange (provider m) !! asString callsign) ->
  isValidAircraftCallsign (asString callsign) = true -> callsignEmpty callsign = false ->
  m_tempFsInnPackets m !! asString callsign = None ->
  m_readiness m !! asString callsign = Some r -> 0 <= rd_ts r -> rd_ts r + MMMaxAgeMs < t ->
  let m' := (checkAgain t callsign rf m).1.2 in
  isSent m' (asString callsign) /\ mon_timers m' = mon_timers m.
Proof using All.
  intros Hm Hin Hv Hne Hp Hr Hts Ht. cbv zeta. unfold checkAgain. rewrite bind_state, isAircraftInRange_eq. cbn [fst snd].
  rewrite inRange_iff, bool_decide_eq_true_2 by done. cbn [negb]. rewrite bind_state.
  assert (forall b : bool, (if b then recallFsInnPacket t callsign else mret false) m = (false, m, [])) as ->.
  { intros []; [|done]. by rewrite recall_eq, Hp. }
  apply sendReady_at_once; [done..|]. right. rewrite Hr. unfold getAgeMs.
  change (addFlag t RecursiveCall (default Readiness_default (Some r))) with r.
  destruct (Z.ltb_spec (rd_ts r) 0); lia.
Qed.

Lemma verified_addFlag t r : wasVerified (addFlag t Verified r) = true.
Proof using Type.
  unfold wasVerified. change Verified with (2 ^ 4). rewrite testFlag_bit by done. unfold addFlag.
  change ((2 ^ 4) =? RecursiveCall) with false. cbn [rd_readyness]. rewrite Z.lor_spec. apply orb_true_r.
Qed.

(** The second verification sends.  The verification of an aircraft in range,
    24 seconds after it was added, either finds it sent or sends it, or asks for
    its data again and comes back 24 seconds later; then it is sent, whatever has
    been received. *)
Theorem verification_sends t callsign m :
  monitorOk m -> is_Some (m_aircraftInRange (provider m) !! asString callsign) ->
  isValidAircraftCallsign (asString callsign) = true -> callsignEmpty callsign = false ->
  let r := default Readiness_default (m_readiness m !! asString callsign) in
  let m' := (verifyReceivedIcaoData t callsign m).1.2 in
  if wasMatchingSent r || wasVerified r || receivedIcaoCodes (addFlag t Verified r)
  then isSent m' (asString callsign) /\ mon_timers m' = mon_timers m
  else mon_timers m' = mon_timers m ++ [(t + MMVerifyMs, VerifyIcaoData callsign)] /\
       exists r', m_readiness m' !! asString callsign = Some r' /\ wasVerified r' = true.
Proof using All.
  intros Hm Hin Hv Hne. cbv zeta. unfold verifyReceivedIcaoData. rewrite bind_state. cbn [mon_get fst snd].
  rewrite Hne, inRange_iff by done. rewrite bool_decide_eq_true_2 by done. cbn [negb orb]. cbv zeta. rewrite bind_state.
  cbn [mon_set fst snd]. set (r := default Readiness_default (m_readiness m !! asString callsign)).
  destruct (set_readiness m (asString callsign) r Hm) as [Hm1 _]; [by subst r; intros (r' & -> & Hs)|].
  set (m1 := m <| m_readiness ::= _ |>) in *.
  assert (m_readiness m1 !! asString callsign = Some r) as Hr by exact (lookup_insert_eq _ _ _).
  assert (mon_timers m1 = mon_timers m) as Et by done. change (provider m) with (provider m1) in Hin.
  rewrite <- Et. clearbody m1 r. destruct (wasMatchingSent r) eqn:Es; cbn [orb].
  { split; [by exists r | done]. }
  destruct (wasVerified r) eqn:Ev; cbn [orb].
  { apply sendReady_at_once; [done..|]. by left. }
  rewrite bind_state, addMatchingReadinessFlag_state, Hr. cbn [fst snd default from_option id].
  destruct (keeps_addFlag t callsign Verified m1 Hm1) as [Hm2 _].
  rewrite addMatchingReadinessFlag_state, Hr in Hm2. cbn [fst snd] in Hm2.
  set (m2 := m1 <| m_readiness ::= _ |>) in *. destruct (receivedIcaoCodes _); cbn [negb].
  - apply (sendReady_at_once t callsign Verified m2); [done..|]. by left.
  - rewrite bind_state.
    assert ((sendInitialPilotQueries callsign true true m2).1.2 = m2) as ->.
    { unfold sendInitialPilotQueries. rewrite bind_state. cbn [mon_get fst snd]. by destruct (connected m2). }
    split; [done|]. eexists. split; [exact (lookup_insert_eq _ _ _) | apply verified_addFlag].
Qed.

(** The verification of a callsign as the timer that fires. *)
Lemma timer_verifies t n due callsign m :
  mon_timers m !! n = Some (due, VerifyIcaoData callsign) -> due <= t ->
  (timerFires t n m).1.2 = (verifyReceivedIcaoData t callsign (m <| mon_timers ::= delete n |>)).1.2.
Proof using Type.
  intros En Hd. unfold timerFires. rewrite bind_state. cbn [mon_get fst snd]. rewrite En.
  destruct (Z.ltb_spec t due); [lia|]. by rewrite bind_state.
Qed.
Definition isVerified m (cs : QString) : bool := wasVerified (default Readiness_default (m_readiness m !! cs)).

(** C2: No aircraft is forgotten.  The client is connected, and the aircraft its signals
    are about have a callsign; [es] leads to a state in
    which a callsign is not marked as sent to the matching, as at the start, or after
    the network has removed its aircraft ([deleted_not_sent]).  Then whatever arrives in
    whatever order and whenever timers fire: if an aircraft with that callsign is in
    range, its callsign valid, the signal that it is ready for matching has been emitted
    since, or a timer of its own waits.  When the timer of a verification fires, the
    signal has been emitted then, or this was the first verification and the
    second one waits.  (The mark of an aircraft that leaves the maximum range stays:
    [left_and_back].) *)
Theorem no_aircraft_forgotten es es' cs :
  Forall (fun te => eventOk te.2) (es ++ es') -> isValidAircraftCallsign cs = true ->
  let m := monitor_run connectedMonitor es in
  let m' := monitor_run m es' in
  ~ isSent m cs -> is_Some (m_aircraftInRange (provider m') !! cs) ->
  (announced (monitor_outputs m es') cs \/ waits m' cs) /\
  (forall t n due callsign,
     mon_timers m' !! n = Some (due, VerifyIcaoData callsign) -> asString callsign = cs -> callsignEmpty callsign = false ->
     due <= t ->
     let m'' := monitorStep m' (t, TimerFires n) in
     announced (monitor_outputs m (es' ++ [(t, TimerFires n)])) cs \/
     (isVerified m' cs = false /\ isVerified m'' cs = true /\ (t + MMVerifyMs, VerifyIcaoData callsign) ∈ mon_timers m'')).
Proof using All.
  intros [Hes Hes']%Forall_app Hv. cbv zeta. intros Hn Hin.
  destruct (run_keeps es Hes connectedMonitor connectedMonitor_ok) as [Hm Hc0].
  set (m := monitor_run connectedMonitor es) in *. destruct (run_keeps es' Hes' m Hm) as [Hm' Hc].
  assert (Hcov : covered (monitor_run m es') cs).
  { apply Hc, Hc0. intros [a Ha]. change ((∅ : gmap QString CSimulatedAircraft) !! cs = Some a) in Ha. done. }
  split.
  - destruct (Hcov Hin Hv) as [Hs|Hw]; [left | by right]. by destruct (run_honest es' Hes' m Hm cs Hs).
  - intros t n due callsign En Ecs Hne Hd. subst cs. set (m' := monitor_run m es') in *.
    assert (Hfire : Forall (fun te => eventOk te.2) (es' ++ [(t, TimerFires n)])) by (apply Forall_app; split; repeat (done || constructor)).
    assert (Hrun : monitorStep m' (t, TimerFires n) = monitor_run m (es' ++ [(t, TimerFires n)])) by (unfold monitor_run; by rewrite run_app).
    assert (Hann : isSent (monitorStep m' (t, TimerFires n)) (asString callsign) ->
                   announced (monitor_outputs m (es' ++ [(t, TimerFires n)])) (asString callsign)).
    { rewrite Hrun. intros Hs. by destruct (run_honest _ Hfire m Hm _ Hs). }
    revert Hann. unfold monitorStep. cbn [fst snd onEvent]. rewrite (timer_verifies t n due callsign) by done.
    set (m1 := m' <| mon_timers ::= delete n |>). assert (monitorOk m1) as Hm1.
    { constructor; [apply Hm'.. |]. intros d a ready Hx. eapply (mo_timers _ Hm' d a ready).
      change ((d, ReInitialize a ready) ∈ delete n (mon_timers m')) in Hx.
      rewrite delete_take_drop in Hx. rewrite <- (take_drop_middle _ _ _ En). set_solver. }
    pose proof (verification_sends t callsign m1 Hm1 Hin Hv Hne) as Hver. cbv zeta in Hver.
    change (m_readiness m1) with (m_readiness m') in Hver. unfold isVerified.
    destruct (wasMatchingSent _ || _ || _) eqn:Eb; intros Hann; [left; apply Hann; tauto | right].
    destruct Hver as [Ht (r' & Hr' & Hw)]. apply orb_false_iff in Eb as [[_ Eb]%orb_false_iff _].
    split_and!; [done | by rewrite Hr' | rewrite Ht; apply elem_of_app; right; by left].
Qed.
(** What the network removes is not marked any more. *)
Lemma deleted_not_sent callsign m : callsignEmpty callsign = false ->
  ~ isSent (onPilotDisconnected callsign m).1.2 (asString callsign).
Proof using All.
  intros Hne (r & Hr & _). destruct (onPilotDisconnected_state callsign m) as (_ & E & _). rewrite E in Hr.
  unfold removeFromAircraftCachesAndLogs in Hr. rewrite Hne in Hr.
  change (delete (asString callsign) (m_readiness m) !! asString callsign = Some r) in Hr. by rewrite lookup_delete_eq in Hr.
Qed.
End latest.

(** ** A plain environment *)

Definition plainEnv : @MonitorEnv plainGeometry :=
  @Build_MonitorEnv plainGeometry false (CCallsign_make (lit "OWN1") Aircraft) (fun altitude => altitude)
    (fun altitude => mkQuantity (f64_of_Z altitude) (Some LengthUnit_NM))
    false (fun _ _ => false) (fun _ => false) (fun _ _ _ _ _ _ _ => tt) (fun m _ => m) (fun _ => false) (fun _ => [])
    (fun _ => false) (fun _ => false) (fun _ => []) (fun _ => PQ.null) (fun _ cg => cg) (fun _ f => f)
    (fun _ s => s) (fun _ f => f) (fun a b => a =? b) (fun s => sit_timestamp s) (fun _ _ => false).
#[local] Existing Instances plainGeometry plainEnv plainBuild refQt merge_StdSort.

(** A position report, with the altitude as the time so that the aircraft climbs. *)
Definition plainReport (t : Z) : Z * MonEvent :=
  (t, ClientSignal 125 (pilotDataUpdateReceived
    (mkSituation plainCallsign f64_zero f64_zero f64_zero f64_zero f64_zero f64_zero 200 None false t 5000) CTransponder_default)).

Lemma no_aircraft_forgotten_witness :
  let es := [plainReport 10; plainReport 20; (2000, FastTimer); (24010, TimerFires 0)] in
  announced (monitor_outputs connectedMonitor (es ++ [(48010, TimerFires 0)])) plainDLH123.
Proof.
  destruct (no_aircraft_forgotten [] [plainReport 10; plainReport 20; (2000, FastTimer); (24010, TimerFires 0)] plainDLH123
    ltac:(repeat constructor) eq_refl) as [_ Hv]; [by intros (r & Hr & _) | vm_compute; by eexists |].
  destruct (Hv 48010 0%nat 48010 plainCallsign) as [Ha|[Hf _]];
    [vm_compute; reflexivity | reflexivity | reflexivity | reflexivity | exact Ha | vm_compute in Hf; discriminate].
Defined.

Definition plainMonitor : CAirspaceMonitor := monitor_run connectedMonitor [plainReport 10; plainReport 20].
Definition plainWaiting : CAirspaceMonitor :=
  plainMonitor <| m_readiness := {[plainDLH123 := mkReadiness 30 ReceivedIcaoCodes]} |>.
Lemma plainMonitor_ok : monitorOk plainMonitor.
Proof. apply run_keeps; [repeat constructor | apply connectedMonitor_ok]. Qed.

Lemma recheck_ends_witness :
  isSent (checkAgain 7000 plainCallsign RecursiveCall plainWaiting).1.2 plainDLH123.
Proof.
  destruct (recheck_ends 7000 plainCallsign RecursiveCall plainWaiting (mkReadiness 30 ReceivedIcaoCodes)) as [Hs _];
    [| vm_compute; by eexists | reflexivity | reflexivity | vm_compute; reflexivity | vm_compute; reflexivity
     | simpl; lia | reflexivity | exact Hs].
  pose proof plainMonitor_ok as []. by constructor.
Defined.

Lemma verification_sends_witness :
  let m' := (verifyReceivedIcaoData 24010 plainCallsign plainMonitor).1.2 in
  exists r', m_readiness m' !! plainDLH123 = Some r' /\ wasVerified r' = true.
Proof.
  pose proof (verification_sends 24010 plainCallsign plainMonitor plainMonitor_ok) as Hv.
  specialize (Hv ltac:(vm_compute; by eexists) eq_refl eq_refl). cbv zeta in Hv.
  match type of Hv with if ?b then _ else _ => assert (b = false) as Eb by (vm_compute; reflexivity) end.
  rewrite Eb in Hv. exact (proj2 Hv).
Defined.

(** ** Where it goes wrong *)

(** Once the readiness of a callsign is removed while a re-check waits, as when the
    aircraft leaves and comes back, a re-check sees no time stamp, and starts
    the next one however late it is. *)
Lemma recheck_without_timestamp t :
  let m := plainMonitor <| mon_timers := [] |> in
  mon_timers (checkAgain t plainCallsign RecursiveCall m).1.2 = [(t + 2000, CheckAgain plainCallsign RecursiveCall)].
Proof. vm_compute. reflexivity. Qed.

(** An aircraft that leaves the maximum range and comes back is still marked as
    sent: its verification does nothing. *)
Definition leftAndBack : CAirspaceMonitor :=
  monitor_run connectedMonitor
    [plainReport 10; plainReport 20;
     (1000, ClientSignal 0 (planeInformationReceived plainDLH123 (lit "A320") (lit "DLH") []));
     (24010, TimerFires 0); (25000, TimerFires 0); plainReport 26030; (26040, SetMaxRange (Some 100000)); plainReport 26050].
Lemma left_and_back :
  isAircraftInRange plainCallsign (provider leftAndBack) = true /\
  mon_timers leftAndBack = [(50050, VerifyIcaoData plainCallsign)] /\
  (onEvent 60000 (TimerFires 0) leftAndBack).2 = [].
Proof. split_and!; vm_compute; reflexivity. Qed.
