(* ===== verification/MonitorSlots.v ===== *)
(** * The lists of the airspace monitor

    Clients, stations and queues are consistent in every state of the monitor,
    connected or not ([monitor_lists]); what is left of a pilot who disconnects
    ([onPilotDisconnected_result]). *)

From S2P Require Import AirspaceMonitor RemoteInvariant RemoteUpdates QtReference MonitorReadiness.

Open Scope Z_scope.

(** ** Lists without a callsign twice *)

Definition distinctCallsigns `{QtConv} (l : list CCallsign) : Prop :=
  StronglySorted (fun a b => callsignEqual a b = false) l.

Section distinct.
Context `{QtConv}.
Lemma distinct_snoc l cs :
  distinctCallsigns l -> existsb (fun c => callsignEqual c cs) l = false -> distinctCallsigns (l ++ [cs]).
Proof using Type.
  intros Hl He. apply StronglySorted_app. split_and!; [|done | repeat constructor].
  intros a b Ha Hb%list_elem_of_singleton. subst b. destruct (callsignEqual a cs) eqn:E; [|done].
  assert (existsb (fun c => callsignEqual c cs) l = true) as Ht; [|congruence].
  apply existsb_exists. exists a. split; [by apply list_elem_of_In | done].
Qed.
Lemma distinct_enqueue cs l : distinctCallsigns l -> distinctCallsigns (enqueueNew cs l).
Proof using Type. intros Hl. unfold enqueueNew, queueContains. case_match; [done | by apply distinct_snoc]. Qed.
Lemma distinct_tail c l : distinctCallsigns (c :: l) -> distinctCallsigns l.
Proof using Type. by inversion 1. Qed.
Lemma distinct_filter {A} (f : A -> CCallsign) (P : A -> Prop) `{!forall x, Decision (P x)} l :
  distinctCallsigns (map f l) -> distinctCallsigns (map f (filter P l)).
Proof using Type.
  unfold distinctCallsigns. induction l as [|a l IH]; [done|]. cbn [map]. intros Hs. inversion_clear Hs as [|? ? Hs' Hall].
  rewrite filter_cons. case_decide; [|by apply IH]. cbn [map]. constructor; [by apply IH|].
  rewrite Forall_forall in *. intros x Hx. apply Hall. apply list_elem_of_fmap in Hx as (y & -> & Hy).
  apply list_elem_of_filter in Hy as [_ Hy]. by apply list_elem_of_fmap_2.
Qed.
End distinct.

(** ** The invariant *)

(** Under their own callsign, and none with the capability of the ground flag. *)
Definition clientsWf (cl : gmap QString CClient) : Prop :=
  map_Forall (fun cs c => asString (cl_callsign c) = cs /\ cl_groundFlag c = false) cl.
Record monitorLists `{QtConv} `{FlightGeometry} (m : CAirspaceMonitor) : Prop := mkMonitorLists {
  ml_clients : clientsWf (m_clients m);
  ml_pilots : distinctCallsigns (m_queryPilot m);
  ml_atis : distinctCallsigns (m_queryAtis m);
  ml_stations : distinctCallsigns (map atc_callsign (m_atcStationsOnline m)) }.

Section lists.
Context {FG : FlightGeometry} {ME : MonitorEnv} `{QtConv} `{StdSortLaws} `{BuildConfig}.
Implicit Types (m : CAirspaceMonitor) (callsign : CCallsign).

Definition keepsLists {A} (x : Mon A) : Prop := forall m, monitorLists m -> monitorLists (x m).1.2.

Lemma lists_ret {A} (a : A) : keepsLists (mret a).
Proof using Type. by intros m Hm. Qed.
Lemma lists_get : keepsLists mon_get.
Proof using Type. by intros m Hm. Qed.
Lemma lists_emit o : keepsLists (mon_emit o).
Proof using Type. by intros m Hm. Qed.
Lemma lists_bind {A B} (x : Mon A) (k : A -> Mon B) :
  keepsLists x -> (forall a, keepsLists (k a)) -> keepsLists (x ≫= k).
Proof using Type. intros Hx Hk m Hm. rewrite bind_state. apply Hk. by apply Hx. Qed.
Lemma lists_when b x : keepsLists x -> keepsLists (mon_when b x).
Proof using Type. destruct b; [done | intros _; apply lists_ret]. Qed.
Lemma lists_forEach {A} (f : A -> Mon unit) l : (forall a, keepsLists (f a)) -> keepsLists (mon_forEach f l).
Proof using Type. intros Hf. induction l; simpl; [apply lists_ret | by apply lists_bind]. Qed.
Lemma lists_set f : (forall m, monitorLists m -> monitorLists (f m)) -> keepsLists (mon_set f).
Proof using Type. intros Hf m Hm. by apply Hf. Qed.
Lemma lists_provider {A} (f : CRemoteAircraftProvider -> A * CRemoteAircraftProvider * list ProviderSignal) :
  keepsLists (ofProvider f).
Proof using Type.
  intros m Hm. unfold ofProvider. destruct (f (provider m)) as [[a p] s]. destruct m, Hm. by constructor.
Qed.
Lemma lists_clients f :
  (forall cl, clientsWf cl ->
     clientsWf (f cl)) ->
  keepsLists (setClients f).
Proof using Type. intros Hf m []. constructor; [by apply Hf | done..]. Qed.

Lemma clients_default callsign cl :
  clientsWf cl ->
  cl_groundFlag (getClientOrDefaultForCallsign callsign cl) = false.
Proof using Type.
  intros Hcl. unfold getClientOrDefaultForCallsign. case_match; [done|].
  destruct (cl !! asString callsign) as [c|] eqn:E; [by apply (Hcl _ _ E) | done].
Qed.
Lemma clients_update callsign vm cl :
  (forall c, cl_callsign (vm c) = cl_callsign c) ->
  (forall c, cl_groundFlag c = false -> cl_groundFlag (vm c) = false) ->
  clientsWf cl ->
  clientsWf (updateOrAddClient callsign vm cl).
Proof using Type.
  intros Hc Hg Hcl. unfold updateOrAddClient. case_match; [done|].
  destruct (cl !! asString callsign) as [c|] eqn:E; apply map_Forall_insert_2; try done; rewrite Hc.
  - destruct (Hcl _ _ E). auto.
  - split; [done | by apply Hg].
Qed.
Lemma clients_swift callsign cl :
  clientsWf cl ->
  clientsWf (markAsSwiftClient callsign cl).
Proof using Type.
  intros Hcl. unfold markAsSwiftClient. case_match; [done|]. destruct (cl !! asString callsign) as [c|] eqn:E; [|done].
  apply map_Forall_insert_2; [apply (Hcl _ _ E) | done].
Qed.
Lemma clients_remove callsign cl :
  clientsWf cl ->
  clientsWf (removeClient callsign cl).
Proof using Type. intros Hcl. by apply map_Forall_delete. Qed.
Lemma clients_set (c : CClient) cl :
  cl_groundFlag c = false ->
  clientsWf cl ->
  clientsWf (snd (setOtherClient c cl)) /\
  clientsWf (snd (addNewClient c cl)).
Proof using Type.
  intros Hg Hcl. unfold setOtherClient, addNewClient. repeat case_match; cbn [snd]; split; try done; by apply map_Forall_insert_2.
Qed.
End lists.

(** A slot as its parts. *)
Ltac lists_part := fail.
Ltac listing :=
  repeat first
    [ lists_part
    | lazymatch goal with
      | |- keepsLists (mret _) => apply lists_ret
      | |- keepsLists mon_get => apply lists_get
      | |- keepsLists (mon_emit _) => apply lists_emit
      | |- keepsLists (ofProvider _) => apply lists_provider
      | |- keepsLists (updateProvider _) => apply lists_provider
      | |- keepsLists (reverseLog _ _) => apply lists_provider
      | |- keepsLists (setClients _) => apply lists_clients; intros ? ?
      | |- keepsLists (mbind _ _) => apply lists_bind; [|intros ?]
      | |- keepsLists (mon_when _ _) => apply lists_when
      | |- keepsLists (mon_forEach _ _) => apply lists_forEach; intros ?
      | |- keepsLists (singleShot _ _) => apply lists_set; by intros [] []; constructor
      | |- keepsLists (mon_set _) => apply lists_set; by intros [] []; constructor
      | |- keepsLists (match _ with _ => _ end) => case_match
      | |- keepsLists (let _ := _ in _) => cbv zeta
      end ].

Section slots.
Context {FG : FlightGeometry} {ME : MonitorEnv} `{QtConv} `{StdSortLaws} `{BuildConfig}.
Implicit Types (m : CAirspaceMonitor) (callsign : CCallsign).

Lemma lists_stations f :
  (forall l, distinctCallsigns (map atc_callsign l) -> distinctCallsigns (map atc_callsign (f l))) ->
  keepsLists (mon_set (fun m => m <| m_atcStationsOnline ::= f |>)).
Proof using Type. intros Hf m []. constructor; [done.. | by apply Hf]. Qed.

Lemma lists_atcQueries callsign : keepsLists (sendInitialAtcQueries callsign).
Proof using Type. unfold sendInitialAtcQueries, request. listing. Qed.
Lemma lists_pilotQueries callsign b b' : keepsLists (sendInitialPilotQueries callsign b b').
Proof using Type. unfold sendInitialPilotQueries, request. listing. Qed.
Lemma lists_queryAll : keepsLists queryAllOnlineAtcStations.
Proof using Type. unfold queryAllOnlineAtcStations, request. listing. Qed.
Lemma lists_requestAircraft : keepsLists requestAircraftDataUpdates.
Proof using Type.
  unfold requestAircraftDataUpdates. listing. intros m []. constructor; [done | by apply distinct_enqueue | done..].
Qed.
Lemma lists_requestAtis : keepsLists requestAtisUpdates.
Proof using Type.
  unfold requestAtisUpdates. listing. intros m []. constructor; [done.. | by apply distinct_enqueue | done].
Qed.
Lemma lists_fastProcessing : keepsLists fastProcessing.
Proof using Type.
  unfold fastProcessing. listing.
  - intros m Hm. unfold sendNextStaggeredAtisQuery. rewrite bind_state. cbn [mon_get fst snd].
    destruct (m_queryAtis m) as [|cs rest] eqn:E; [done|]. destruct (negb (connected m)); [done|].
    rewrite bind_state. cbn [mon_set fst snd].
    assert (monitorLists (m <| m_queryAtis := rest |>)) as Hm'.
    { destruct Hm. constructor; [done.. | | done]. rewrite E in ml_atis0. by eapply distinct_tail. }
    by destruct (negb _).
  - intros m Hm. unfold sendNextStaggeredPilotDataQuery. rewrite bind_state. cbn [mon_get fst snd].
    destruct (m_queryPilot m) as [|cs rest] eqn:E; [done|]. destruct (negb (connected m)); [done|].
    rewrite bind_state. cbn [mon_set fst snd].
    assert (monitorLists (m <| m_queryPilot := rest |>)) as Hm'.
    { destruct Hm. constructor; [done | | done..]. rewrite E in ml_pilots0. by eapply distinct_tail. }
    destruct (negb _); [done|]. unfold mon_when. by case_match.
Qed.

Lemma lists_sendReady t callsign rf : keepsLists (sendReadyForModelMatching t callsign rf).
Proof using Type. unfold sendReadyForModelMatching, addMatchingReadinessFlag. listing. Qed.
Lemma lists_addOrUpdate callsign a b l s type : keepsLists (addOrUpdateAircraftInRange callsign a b l s type).
Proof using Type.
  unfold addOrUpdateAircraftInRange, reverseLookupModelWithFlightplanData, updateAircraftModels. listing.
  by apply clients_swift.
Qed.
Ltac lists_part ::= first [apply lists_sendReady | apply lists_addOrUpdate | apply lists_pilotQueries].
Lemma lists_onCustomFSInn t callsign a b c s : keepsLists (onCustomFSInnPacketReceived t callsign a b c s).
Proof using Type.
  unfold onCustomFSInnPacketReceived, addMatchingReadinessFlag. listing. by apply clients_update.
Qed.
Lemma lists_verify t callsign : keepsLists (verifyReceivedIcaoData t callsign).
Proof using Type. unfold verifyReceivedIcaoData, addMatchingReadinessFlag. listing. Qed.
Lemma lists_onIcaoCodes t callsign a b l : keepsLists (onIcaoCodesReceived t callsign a b l).
Proof using Type. unfold onIcaoCodesReceived. listing. Qed.
Lemma lists_checkAgain t callsign rf : keepsLists (checkAgain t callsign rf).
Proof using Type.
  unfold checkAgain, mon_isAircraftInRange, recallFsInnPacket. listing. apply lists_onCustomFSInn.
Qed.

Lemma lists_clear : keepsLists clear.
Proof using Type.
  unfold clear, mon_removeAllOnlineAtcStations, mon_removeAllAircraft. listing.
  - intros m []. constructor; [done | done | apply SSorted_nil | apply SSorted_nil].
  - intros m []. constructor; [done | apply SSorted_nil | done..].
  - apply map_Forall_empty.
Qed.
Lemma lists_config t callsign j os : keepsLists (onAircraftConfigReceived t callsign j os).
Proof using Type.
  intros m Hm. unfold onAircraftConfigReceived. case_match; [done|]. rewrite bind_state.
  set (m1 := (ofProvider _ m).1.2). assert (monitorLists m1) as Hm1 by by apply lists_provider. clearbody m1.
  rewrite bind_state. cbn [mon_get fst snd]. cbv zeta. destruct (FsdWithAircraftConfig _); [done|].
  revert m1 Hm1. intros m1 Hm1. apply lists_clients; [|done]. intros cl Hcl. apply clients_set; [|done].
  apply (clients_default callsign (m_clients m1)), Hm1.
Qed.
Lemma lists_storeSituation t situation allow : keepsLists (mon_storeAircraftSituation t situation allow).
Proof using Type. unfold mon_storeAircraftSituation. listing. Qed.
Lemma lists_add t aircraft : keepsLists (mon_addNewAircraftInRange t aircraft).
Proof using Type. unfold mon_addNewAircraftInRange. listing. Qed.
(** The ground flag of a situation of the client is never marked as from the network. *)
Lemma received_no_capability s cl : snd (autoAdjustCientGndCapability (receivedSituation s) cl) = cl.
Proof using Type. unfold autoAdjustCientGndCapability. by repeat case_match. Qed.
Lemma lists_aircraftUpdate t s : keepsLists (onAircraftUpdateReceived t (receivedSituation s)).
Proof using Type.
  unfold onAircraftUpdateReceived, mon_isAircraftInRange, handleMaxRange, updateSituation. listing.
  - by rewrite received_no_capability.
  - apply lists_storeSituation.
  - apply lists_add.
  - by apply clients_set.
Qed.
Lemma lists_interim t situation : keepsLists (onAircraftInterimUpdateReceived t situation).
Proof using Type. unfold onAircraftInterimUpdateReceived, updateDistanceBearing. listing. apply lists_storeSituation. Qed.
Lemma lists_maxRange range : keepsLists (setMaxRange range).
Proof using Type. unfold setMaxRange. listing. Qed.

Lemma lists_atc callsign f la lo r : keepsLists (onAtcPositionUpdate callsign f la lo r).
Proof using Type.
  intros m Hm. unfold onAtcPositionUpdate. rewrite bind_state. cbn [mon_get fst snd].
  destruct (negb (connected m)); [done|]. destruct (containsCallsign callsign (m_atcStationsOnline m)) eqn:Ec; cbn [negb].
  - unfold applyIfCallsign. rewrite bind_state. cbn [mon_set fst snd]. unfold mon_when.
    assert (monitorLists (m <| m_atcStationsOnline := map (fun s => if callsignEqual (atc_callsign s) callsign
      then mkAtcStation (atc_callsign s) f la lo r else s) (m_atcStationsOnline m) |>)) as Hm'; [|by case_match].
    destruct Hm. constructor; [done..|].
    change (distinctCallsigns (map atc_callsign (map (fun s => if callsignEqual (atc_callsign s) callsign
      then mkAtcStation (atc_callsign s) f la lo r else s) (m_atcStationsOnline m)))).
    rewrite map_map. erewrite map_ext; [exact ml_stations0|]. intros s. by case_match.
  - rewrite bind_state. cbn [mon_set fst snd]. match goal with |- monitorLists (?x ?m1).1.2 =>
      assert (keepsLists x) as Hx by (listing; apply lists_atcQueries); apply Hx end.
    destruct Hm. constructor; [done..|].
    change (distinctCallsigns (map atc_callsign (m_atcStationsOnline m ++ [mkAtcStation callsign f la lo r]))).
    rewrite map_app. apply distinct_snoc; [done|].
    unfold containsCallsign in Ec. rewrite <- Ec. generalize (m_atcStationsOnline m) as stations.
    induction stations as [|s stations IH]; [done|]. cbn [map existsb]. by rewrite IH.
Qed.
Lemma lists_atcGone callsign : keepsLists (onAtcControllerDisconnected callsign).
Proof using Type.
  unfold onAtcControllerDisconnected. listing.
  - by apply clients_remove.
  - apply lists_stations. intros stations Hl. unfold removeByCallsign. by apply distinct_filter.
Qed.
Lemma lists_pilotGone callsign : keepsLists (onPilotDisconnected callsign).
Proof using Type. unfold onPilotDisconnected, removeFromAircraftCachesAndLogs. listing. by apply clients_remove. Qed.
Lemma lists_signal t r s : keepsLists (onSignal t r s).
Proof using Type.
  destruct s; cbn [onSignal]; try apply lists_ret;
    first [ apply lists_atc | apply lists_atcGone | apply lists_pilotGone | apply lists_aircraftUpdate
          | apply lists_config | apply lists_onIcaoCodes | apply lists_onCustomFSInn | apply lists_interim | idtac ].
  - unfold onFlightPlanReceived. listing.
  - unfold onCapabilitiesReplyReceived, request. listing. by apply clients_update.
  - unfold onServerReplyReceived. listing. by apply clients_update.
  - unfold onAircraftSimDataUpdateReceived. listing;
      [apply lists_aircraftUpdate | apply lists_onIcaoCodes | apply lists_config].
  - unfold onConnectionStatusChanged. listing; [apply lists_maxRange | apply lists_clear].
Qed.

Lemma lists_event t e : keepsLists (onEvent t e).
Proof using Type.
  destruct e; cbn [onEvent].
  - apply lists_signal.
  - apply lists_interim.
  - listing.
  - apply lists_fastProcessing.
  - unfold slowProcessing. listing. apply lists_queryAll.
  - unfold timerFires. listing. unfold runTimer. case_match.
    + apply lists_checkAgain.
    + apply lists_verify.
    + unfold reInitialize. listing. apply lists_add.
  - apply lists_requestAircraft.
  - apply lists_requestAtis.
  - unfold reInitializeAllAircraft, asyncReInitializeAllAircraft. listing.
  - apply lists_maxRange.
  - listing.
Qed.

(** In every state of the monitor, connected or not, every client is kept under
    its own callsign, no station is there twice, and no callsign waits twice in a
    queue of queries.  And no client ever has the capability of the ground flag,
    which only a position marked as such by the network could give it: no position
    of the FSD client is, so the ground flag of positions is never relied on. *)
Theorem monitor_lists es : monitorLists (monitor_run CAirspaceMonitor_init es).
Proof using Type.
  unfold monitor_run. apply (run_invariant monitorStep monitorLists).
  - intros m [t e] Hm. by apply lists_event.
  - constructor; [apply map_Forall_empty | constructor..].
Qed.
End slots.

(** ** A pilot who disconnects *)

Section gone.
Context {FG : FlightGeometry} {ME : MonitorEnv} `{QtConv} `{StdSort} `{BuildConfig}.
Implicit Types (m : CAirspaceMonitor) (callsign : CCallsign).

(** What the monitor itself keeps under a callsign. *)
Definition monitorKeeps (cs : QString) m :=
  (m_flightPlanCache m !! cs, m_readiness m !! cs, m_clients m !! cs, m_reverseLookupMessages (provider m) !! cs).

Lemma delete_same {A} (k : QString) (mp : gmap QString A) : delete k mp !! k = None.
Proof using Type. apply lookup_delete_eq. Qed.

(** When a pilot disconnects, the monitor forgets the flight plan, the
    readiness, the client and the messages of the callsign, and the provider its
    aircraft, and says so once if the aircraft was in range; other callsigns are
    left alone.  A packet that waits for the aircraft, its queued queries and
    timers stay. *)
Theorem onPilotDisconnected_result callsign m :
  callsignEmpty callsign = false ->
  let '(_, m', out) := onPilotDisconnected callsign m in
  let cs := asString callsign in
  monitorKeeps cs m' = (None, None, None, None) /\
  keptUnder cs (provider m') = (None, false, None, None, None, None, None, None, None) /\
  (forall cs', cs' <> cs -> monitorKeeps cs' m' = monitorKeeps cs' m /\ keptUnder cs' (provider m') = keptUnder cs' (provider m)) /\
  (m_tempFsInnPackets m', m_queryPilot m', mon_timers m', m_atcStationsOnline m', connected m') =
  (m_tempFsInnPackets m, m_queryPilot m, mon_timers m, m_atcStationsOnline m, connected m) /\
  out = (if bool_decide (is_Some (m_aircraftInRange (provider m) !! cs)) then [FromProvider_ (removedAircraft callsign)] else []).
Proof using Type.
  intros Hne. unfold onPilotDisconnected, removeFromAircraftCachesAndLogs. rewrite Hne. unfold mbind, Mon_bind, updateProvider, ofProvider.
  cbn [mon_set fst snd setClients removeAircraft]. destruct m as [p clients stations packets plans ready qa qp d h c ts].
  destruct p. unfold removeReverseLookupMessages, removeAircraft, removeClient, monitorKeeps, keptUnder. cbn.
  case_bool_decide as Hin; cbn; (split_and!; [by rewrite !delete_same | | | done | done]);
    [rewrite !delete_same, bool_decide_false; [done | set_solver] | | rewrite !delete_same, bool_decide_false; [done | set_solver] |].
  all: intros cs' Hcs; rewrite !lookup_delete_ne by done; split; [done|]; repeat f_equal; apply bool_decide_ext; set_solver.
Qed.
End gone.

#[local] Existing Instances plainGeometry plainEnv plainBuild refQt merge_StdSort.
Lemma onPilotDisconnected_result_witness :
  (onPilotDisconnected plainCallsign plainMonitor).2 = [FromProvider_ (removedAircraft plainCallsign)].
Proof.
  pose proof (onPilotDisconnected_result plainCallsign plainMonitor eq_refl) as Hr.
  destruct (onPilotDisconnected plainCallsign plainMonitor) as [[u m'] out]. destruct Hr as (_ & _ & _ & _ & ->).
  vm_compute. reflexivity.
Defined.
