(* ===== verification/FsdRun.v ===== *)
(** * The FSD client as a machine that handles events

    [Event] lists what calls into the client: the user, the timers, the sockets
    and the replies of the network; [handle] is the member function called.
    The invariants of the client hold over every run. *)

From S2P Require Export FsdReceive.

Section events.
Context `{QtConv, BC : BuildConfig} {J : QtJson}.

Inductive Event :=
  | EvConnect | EvDisconnect
  | EvSocketConnected | EvWebSocketDisconnected | EvSocketError (e : SocketError)
  | EvWebSocketData (message : list N) | EvSocketLines (lines : list (list N))
  | EvReadAgain (maxLines : Z)
  | EvSendTimer | EvPositionTimer | EvInterimTimer | EvVisualTimer | EvDigestTimer
  | EvPendingTimeout | EvConfigTimer
  | EvLoadBalancing (rehosting : bool) (host : QString) (port : Z)
  | EvJwtToken (token : QString) | EvJwtFailed
  | EvRehostConnected (lines : list (list N)) | EvRehostFailed
  | EvClientQuery (queryType : ClientQueryType.t) (receiver : CCallsign) (data : QStringList)
  | EvTextGroup (g : TextMessageGroups) (message : QString)
  | EvTextMessages (messages : list CTextMessage)
  | EvRadio (frequencieskHz : list Z) (message : QString)
  | EvPing (receiver : QString)
  | EvPlaneInfoRequest (receiver : CCallsign) | EvPlaneInfoRequestFsinn (receiver : CCallsign)
  | EvSetServer (server : CServer) | EvSetCallsign (callsign : CCallsign)
  | EvSetIcaoCodes (aircraft airline : QString)
  | EvSetLiveryAndModelString (livery : QString) (sendLivery : bool) (modelString : QString)
      (sendModelString : bool)
  | EvSetSimType (simulator : Simulator) | EvSetInterimReceivers (l : list CCallsign)
  | EvClearStatistics.

Definition handle {W : World} (e : Event) : Cmd unit :=
  match e with
  | EvConnect => connectToServer
  | EvDisconnect => disconnectFromServer
  | EvSocketConnected => handleSocketConnected
  | EvWebSocketDisconnected => handleWebSocketDisconnected
  | EvSocketError e => printSocketError;; handleSocketError e
  | EvWebSocketData message => readDataFromWebSocket message
  | EvSocketLines lines =>
      modify (fun c => c <| m_socketLines ::= fun l => l ++ lines |>);;
      _ ← readDataFromSocketMaxLines (-1); mret tt
  | EvReadAgain maxLines => _ ← readDataFromSocketMaxLines maxLines; mret tt
  | EvSendTimer => sendQueuedMessage
  | EvPositionTimer => sendPilotDataUpdate
  | EvInterimTimer => sendInterimPilotDataUpdate
  | EvVisualTimer => sendVisualPilotDataUpdate false
  | EvDigestTimer => digestTimeout
  | EvPendingTimeout => pendingTimeoutCheck
  | EvConfigTimer => sendIncrementalAircraftConfig
  | EvLoadBalancing rehosting host port => connectResolved rehosting host port
  | EvJwtToken token => jwtTokenReceived token
  | EvJwtFailed => jwtTokenFailed
  | EvRehostConnected lines => rehostConnected lines
  | EvRehostFailed => rehostFailed
  | EvClientQuery ty receiver data => sendClientQuery ty receiver data
  | EvTextGroup g message => sendTextMessageGroup g message
  | EvTextMessages messages => sendTextMessages messages
  | EvRadio frequencies message => sendRadioMessage frequencies message
  | EvPing receiver => sendPing receiver
  | EvPlaneInfoRequest receiver => sendPlaneInfoRequest receiver
  | EvPlaneInfoRequestFsinn receiver => sendPlaneInfoRequestFsinn receiver
  | EvSetServer server => setServer server
  | EvSetCallsign callsign => FsdCore.setCallsign callsign
  | EvSetIcaoCodes aircraft airline => setIcaoCodes aircraft airline
  | EvSetLiveryAndModelString livery sendLivery modelString sendModelString =>
      setLiveryAndModelString livery sendLivery modelString sendModelString
  | EvSetSimType simulator => setSimType simulator
  | EvSetInterimReceivers l => setInterimPositionReceivers l
  | EvClearStatistics => clearStatistics
  end.

(** A run: each event with the world it happens in. *)
Inductive client_run : CFSDClient -> list (World * Event) -> list Out -> CFSDClient -> Prop :=
  | client_nil c : client_run c [] [] c
  | client_step c w e es c' c'' o o' :
      handle (W := w) e c = Some (tt, c', o) -> client_run c' es o' c'' ->
      client_run c ((w, e) :: es) (o ++ o') c''.

(** The run as a function. *)
Fixpoint runEvents (c : CFSDClient) (es : list (World * Event)) : option (list Out * CFSDClient) :=
  match es with
  | [] => Some ([], c)
  | (w, e) :: es =>
      match handle (W := w) e c with
      | Some (_, c', o) =>
          match runEvents c' es with Some (o', c'') => Some (o ++ o', c'') | None => None end
      | None => None
      end
  end.

Lemma runEvents_run c es o c' : runEvents c es = Some (o, c') <-> client_run c es o c'.
Proof.
  split.
  - revert c o. induction es as [|[w e] es IH]; intros c o; simpl; [intros [= <- <-]; constructor|].
    destruct (handle e c) as [[[[] c1] o1]|] eqn:E1; [|done].
    destruct (runEvents c1 es) as [[o2 c2]|] eqn:E2; [|done]. intros [= <- <-].
    econstructor; eauto.
  - induction 1 as [c | c w e es c1 c2 o1 o2 Hs _ IH]; simpl; [done|]. by rewrite Hs, IH.
Qed.

Lemma client_run_satisfies R `{!Compositional R} :
  (forall w e, satisfies R (handle (W := w) e)) ->
  forall c es o c', client_run c es o c' -> R c o c'.
Proof.
  intros Hh c es o c' Hr. induction Hr as [c | c w e es c' c'' o o' Hs _ IH].
  - apply comp_refl.
  - eapply comp_trans; [by eapply Hh | exact IH].
Qed.
End events.

(** ** A relation established for the updates and outputs holds of every command

    [Leaves Allow R] is what must be shown of a relation: one case for each kind
    of state update the client makes, one for the outputs, and one for the change
    to a connection status that is allowed, with its signal.  Only the call to
    connect changes the status to Connecting. *)

(** An output that is not a change of the connection status. *)
Definition plainOut (o : Out) : Prop :=
  match o with Emit (connectionStatusChanged _ _) => False | _ => True end.

(** What [clearState(callsign)] removes from the session. *)
Definition forgetCallsign (k : QString) (s : Session) : Session :=
  s <| m_pendingAtisQueries ::= base.delete k |>
    <| m_lastPositionUpdate ::= base.delete k |>
    <| m_lastOffsetTimes ::= base.delete k |>.

Record Leaves `{QtConv} (Allow : ConnectionStatus -> Prop) (R : CFSDClient -> list Out -> CFSDClient -> Prop) :
    Prop := {
  leaf_allowed s : s <> Connecting -> Allow s;
  leaf_output o c : plainOut o -> R c [o] c;
  leaf_presets f c : (forall p, m_networkConfig (f p) = m_networkConfig p) -> R c [] (c <| presets ::= f |>);
  leaf_timers t c : R c [] (c <| timers := t |>);
  leaf_flag b c : R c [] (c <| m_filterPasswordFromLogin := b |>);
  leaf_wsbuffer f c : R c [] (c <| m_webSocketReadBuffer ::= f |>);
  leaf_lines f c : R c [] (c <| m_socketLines ::= f |>);
  leaf_receivers f c : R c [] (c <| m_interimPositionReceivers ::= f |>);
  leaf_atismap f c : R c [] (c <| m_mapAtisMessages ::= f |>);
  leaf_bucket b c : R c [] (c <| m_tokenBucket := b |>);
  leaf_checks f c : R c [] (c <| pendingTimeoutChecks ::= f |>);
  leaf_cleared c : R c [] (c <| session := Session_cleared |>);
  leaf_session f c :
    (forall s, m_lastOffsetTimes (f s) = m_lastOffsetTimes s) ->
    (forall s, m_lastPositionUpdate (f s) = m_lastPositionUpdate s) ->
    (forall s, m_atcStations (f s) = m_atcStations s) ->
    R c [] (c <| session ::= f |>);
  leaf_position k t c : R c [] (c <| session -> m_lastPositionUpdate ::= <[k := t]> |>);
  leaf_offset k v c :
    0 <= v -> is_Some (m_lastPositionUpdate (session c) !! k) ->
    R c [] (c <| session ::= insertLatestOffsetTime k v |>);
  leaf_forget k c : R c [] (c <| session ::= forgetCallsign k |>);
  leaf_station s c :
    R c [] (c <| session -> m_atcStations ::= replaceOrAddObjectByCallsign s |>);
  leaf_station_remove cs c :
    R c [] (c <| session -> m_atcStations ::= removeByCallsign cs |>);
  leaf_digest_input t c :
    R c [] (c <| m_dsSendTextMessage := (inputSignal t (m_dsSendTextMessage c)).1 |>);
  leaf_digest_timeout c : R c [] (c <| m_dsSendTextMessage ::= timerTimeout |>);
  leaf_statistics {W : World} i a c : R c [] (increaseStatistics i a c);
  leaf_clearStatistics c : R c [] (c <| m_callStatistics := ∅ |> <| m_callByTime := [] |>);
  leaf_status s c : Allow s -> m_connectionStatus c <> s ->
    R c [Emit (connectionStatusChanged (m_connectionStatus c) s)] (c <| m_connectionStatus := s |>)
}.

Section walk.
Context `{QtConv, BC : BuildConfig} {J : QtJson}.
Context (R : CFSDClient -> list Out -> CFSDClient -> Prop) `{!Compositional R}
  (Allow : ConnectionStatus -> Prop) (L : Leaves Allow R).

Lemma comp_silent c c' c'' : R c [] c' -> R c' [] c'' -> R c [] c''.
Proof using Compositional0. intros H1 H2. exact (comp_trans c [] c' [] c'' H1 H2). Qed.

(** A plain output, a state update: what the walk leaves. *)
Lemma satisfies_plain o : plainOut o -> satisfies R (output o).
Proof using L. intros Ho. apply satisfies_output. intros c. by apply (leaf_output Allow R L). Qed.
Lemma satisfies_setPresets f :
  (forall p, m_networkConfig (f p) = m_networkConfig p) -> satisfies R (setPresets f).
Proof using L. intros Hf. apply satisfies_modify. intros c. by apply (leaf_presets Allow R L). Qed.
Lemma satisfies_setSession f :
  (forall s, m_lastOffsetTimes (f s) = m_lastOffsetTimes s) ->
  (forall s, m_lastPositionUpdate (f s) = m_lastPositionUpdate s) ->
  (forall s, m_atcStations (f s) = m_atcStations s) -> satisfies R (setSession f).
Proof using L. intros H1 H2 H3. apply satisfies_modify. intros c. by apply (leaf_session Allow R L). Qed.
#[local] Hint Extern 2 (satisfies _ (setPresets _)) => apply satisfies_setPresets; reflexivity : fsd.
#[local] Hint Extern 2 (satisfies _ (setSession _)) =>
  apply satisfies_setSession; intros []; repeat case_match; reflexivity : fsd.
#[local] Hint Extern 2 (satisfies _ (output _)) => apply satisfies_plain; exact I : fsd.
#[local] Hint Extern 2 (satisfies _ (emit _)) => apply satisfies_plain; exact I : fsd.
#[local] Hint Extern 2 (satisfies _ (log _ _)) => apply satisfies_plain; exact I : fsd.

Context {W : World}.

Lemma satisfies_statistics i a : satisfies R (increaseStatisticsValue i a).
Proof using L. apply satisfies_modify. intros c. apply (leaf_statistics Allow R L). Qed.
#[local] Hint Resolve satisfies_statistics : fsd.
Lemma satisfies_raw m b : satisfies R (emitRawFsdMessage m b).
Proof using L Compositional0.
  unfold emitRawFsdMessage. walk. apply satisfies_modify. intros c. apply (leaf_flag Allow R L).
Qed.
#[local] Hint Resolve satisfies_raw : fsd.
Lemma satisfies_sendString m : satisfies R (sendMessageString m).
Proof using L Compositional0. unfold sendMessageString. walk. Qed.
#[local] Hint Resolve satisfies_sendString : fsd.
Lemma satisfies_queueMessage {M} `{FsdMessage M} (m : M) : satisfies R (queueMessage m).
Proof using L Compositional0. unfold queueMessage, sendDirectMessage, enqueue. walk. Qed.
#[local] Hint Resolve satisfies_queueMessage : fsd.
Lemma satisfies_dequeueAndSend : satisfies R dequeueAndSend.
Proof using L Compositional0. unfold dequeueAndSend. walk. Qed.
#[local] Hint Resolve satisfies_dequeueAndSend : fsd.
Lemma satisfies_times n m : satisfies R m -> satisfies R (times n m).
Proof using Compositional0. intros Hm. induction n; simpl; walk. Qed.
#[local] Hint Resolve satisfies_times : fsd.
Lemma satisfies_sendQueuedMessage : satisfies R sendQueuedMessage.
Proof using L Compositional0. unfold sendQueuedMessage. walk. Qed.

(** ** Connecting and disconnecting *)

Lemma satisfies_startPositionTimers : satisfies R startPositionTimers.
Proof using L Compositional0.
  apply satisfies_modify. intros c. eapply comp_silent; [apply (leaf_timers Allow R L)|].
  apply (leaf_session Allow R L); by intros [].
Qed.
Lemma satisfies_stopPositionTimers : satisfies R stopPositionTimers.
Proof using L. apply satisfies_modify. intros c. apply (leaf_timers Allow R L). Qed.
Lemma satisfies_clearState : satisfies R clearState.
Proof using L. apply satisfies_modify. intros c. apply (leaf_cleared Allow R L). Qed.
Lemma satisfies_clearStateFor cs : satisfies R (clearStateFor cs).
Proof using L Compositional0.
  unfold clearStateFor. walk; apply satisfies_modify; intros c.
  - apply (leaf_forget Allow R L).
  - apply (leaf_receivers Allow R L).
Qed.
#[local] Hint Resolve satisfies_startPositionTimers satisfies_stopPositionTimers
  satisfies_clearState satisfies_clearStateFor : fsd.

Lemma bind_get {B} (k : CFSDClient -> Cmd B) c : (get ≫= k) c = k c c.
Proof using Type. unfold mbind, Cmd_bind, get. by destruct (k c c) as [[[??]?]|]. Qed.

(** What follows a command that keeps a condition may use the condition. *)
Lemma satisfies_then {A B} (P : CFSDClient -> Prop) (m : Cmd A) (k : A -> Cmd B) :
  satisfies R m -> satisfies (fun c _ c' => P c -> P c') m ->
  (forall x c y c' o, P c -> k x c = Some (y, c', o) -> R c o c') ->
  forall c y c' o, P c -> (m ≫= k) c = Some (y, c', o) -> R c o c'.
Proof using Compositional0.
  intros Hm HP Hk c y c' o Hc. unfold mbind, Cmd_bind.
  destruct (m c) as [[[x c1] o1]|] eqn:E1; [|done].
  destruct (k x c1) as [[[z c2] o2]|] eqn:E2; [|done]. intros [= <- <- <-].
  eapply comp_trans; [by eapply Hm | eapply Hk; [by eapply HP | exact E2]].
Qed.

Lemma satisfies_updateConnectionStatus s : Allow s -> satisfies R (updateConnectionStatus s).
Proof using L Compositional0.
  intros Hallow. unfold updateConnectionStatus. intros c x c' o. rewrite bind_get.
  destruct (decide (m_connectionStatus c = s)) as [|Hs]; [intros [= _ <- <-]; apply comp_refl|].
  set (P := fun c => m_connectionStatus c <> s).
  intros Hrun. eapply (satisfies_then P); [| | |exact Hs | exact Hrun].
  - walk; (apply satisfies_modify; intros ?; by apply (leaf_presets Allow R L)).
  - case_decide; intros ? ? ? ? [= _ <- _]; done.
  - clear Hrun. intros x1 c1 y1 c1' o1 Hs1 Hrun.
    eapply (satisfies_then P); [| | |exact Hs1 | exact Hrun].
    + unfold saveNetworkStatistics. walk.
    + unfold saveNetworkStatistics. clear.
      assert (Compositional (fun c (_ : list Out) c' => P c -> P c')) by (split; naive_solver).
      walk; intros ? ? ? ? [= _ <- _]; done.
    + clear Hrun Hs Hs1. intros x3 c3 y3 c3' o3 Hs. cbv beta. rewrite bind_get. intros [= _ <- <-].
      by apply (leaf_status Allow R L).
Qed.
#[local] Hint Extern 2 (satisfies _ (updateConnectionStatus _)) =>
  apply satisfies_updateConnectionStatus; (assumption || (apply (leaf_allowed Allow R L); discriminate)) : fsd.
Lemma satisfies_closeTransport : satisfies R closeTransport.
Proof using L Compositional0.
  unfold closeTransport. walk. apply satisfies_modify. intros c'.
  destruct (usesWebSocket _); [apply (leaf_wsbuffer Allow R L) | apply (leaf_lines Allow R L)].
Qed.
#[local] Hint Resolve satisfies_closeTransport : fsd.
Lemma satisfies_connectResolved b h p : satisfies R (connectResolved b h p).
Proof using L Compositional0. unfold connectResolved. walk. Qed.
#[local] Hint Resolve satisfies_connectResolved : fsd.
Lemma satisfies_initiateConnection h : satisfies R (initiateConnection h).
Proof using L Compositional0.
  unfold initiateConnection, resolveLoadBalancing, initiateWebSocketConnection. walk.
Qed.
#[local] Hint Resolve satisfies_initiateConnection : fsd.
Lemma satisfies_connectToServer : Allow Connecting -> satisfies R connectToServer.
Proof using L Compositional0.
  intros Hallow. unfold connectToServer. walk. apply satisfies_modify. intros c.
  eapply comp_silent; [apply (leaf_flag Allow R L)|].
  eapply comp_silent; [|apply (leaf_checks Allow R L)]. apply (leaf_session Allow R L); by intros [].
Qed.
Lemma satisfies_disconnectFromServer : satisfies R disconnectFromServer.
Proof using L Compositional0. unfold disconnectFromServer, sendDeletePilot, sendDeleteAtc. walk. Qed.
#[local] Hint Resolve satisfies_disconnectFromServer : fsd.
Lemma satisfies_pendingTimeoutCheck : satisfies R pendingTimeoutCheck.
Proof using L Compositional0. unfold pendingTimeoutCheck. walk. Qed.

(** ** Text messages *)

Lemma satisfies_emitConsolidated : satisfies R emitConsolidatedTextMessages.
Proof using L Compositional0. unfold emitConsolidatedTextMessages. walk. Qed.
#[local] Hint Resolve satisfies_emitConsolidated : fsd.
Lemma satisfies_digestInput {B} (k : bool -> Cmd B) :
  (forall b, satisfies R (k b)) ->
  satisfies R (c ← get; let '(d, digest) := inputSignal now (m_dsSendTextMessage c) in
               modify (fun c => c <| m_dsSendTextMessage := d |>);; k digest).
Proof using L Compositional0.
  intros Hk c x c' o. rewrite bind_get.
  pose proof (leaf_digest_input Allow R L now c) as HL. revert HL.
  destruct (inputSignal _ _) as [d b]. intros HL. unfold mbind, Cmd_bind, modify.
  destruct (k b _) as [[[y c1] o1]|] eqn:E; [|done]. intros [= _ <- <-].
  apply (comp_trans _ [] _ o1 _ HL). by eapply Hk.
Qed.
Lemma satisfies_consolidate m : satisfies R (consolidateTextMessage m).
Proof using L Compositional0.
  unfold consolidateTextMessage. destruct (tm_isSupervisor m); [walk|].
  apply satisfies_bind; [exact _ | walk | intros _].
  apply (satisfies_digestInput (fun digest => when digest emitConsolidatedTextMessages)).
  intros b. walk.
Qed.
#[local] Hint Resolve satisfies_consolidate : fsd.
Lemma satisfies_digestTimeout : satisfies R digestTimeout.
Proof using L Compositional0.
  unfold digestTimeout. walk. apply satisfies_modify. intros c. apply (leaf_digest_timeout Allow R L).
Qed.

(** ** What is sent *)

Lemma satisfies_sendClientQuery t r d : satisfies R (sendClientQuery t r d).
Proof using L Compositional0. unfold sendClientQuery. walk. Qed.
#[local] Hint Resolve satisfies_sendClientQuery : fsd.
Lemma satisfies_sendLogin t : satisfies R (sendLogin t).
Proof using L Compositional0. unfold sendLogin. walk. Qed.
#[local] Hint Resolve satisfies_sendLogin : fsd.
Lemma satisfies_visual b : satisfies R (sendVisualPilotDataUpdate b).
Proof using L Compositional0. unfold sendVisualPilotDataUpdate, visualUpdateGate. walk. Qed.
#[local] Hint Resolve satisfies_visual : fsd.
Lemma satisfies_sendPilotDataUpdate : satisfies R sendPilotDataUpdate.
Proof using L Compositional0. unfold sendPilotDataUpdate, sendAtcDataUpdate. walk. Qed.
Lemma satisfies_sendInterim : satisfies R sendInterimPilotDataUpdate.
Proof using L Compositional0. unfold sendInterimPilotDataUpdate. walk. Qed.
Lemma satisfies_sendPing r : satisfies R (sendPing r).
Proof using L Compositional0. unfold sendPing. walk. Qed.
Lemma satisfies_sendPong r t : satisfies R (sendPong r t).
Proof using L Compositional0. unfold sendPong. walk. Qed.
Lemma satisfies_sendTextGroup g m : satisfies R (sendTextMessageGroup g m).
Proof using L Compositional0. unfold sendTextMessageGroup. walk. Qed.
Lemma satisfies_sendRadio f m : satisfies R (sendRadioMessage f m).
Proof using L Compositional0. unfold sendRadioMessage. walk. Qed.
#[local] Hint Resolve satisfies_sendRadio : fsd.
Lemma satisfies_sendTextMessages l : satisfies R (sendTextMessages l).
Proof using L Compositional0. unfold sendTextMessages, sendPrivate, sendRadio. walk. Qed.
Lemma satisfies_planeInfoRequest r : satisfies R (sendPlaneInfoRequest r).
Proof using L Compositional0. unfold sendPlaneInfoRequest. walk. Qed.
Lemma satisfies_planeInfoRequestFsinn r : satisfies R (sendPlaneInfoRequestFsinn r).
Proof using L Compositional0. unfold sendPlaneInfoRequestFsinn. walk. Qed.
Lemma satisfies_planeInformation r a b l : satisfies R (sendPlaneInformation r a b l).
Proof using L Compositional0. unfold sendPlaneInformation. walk. Qed.
Lemma satisfies_planeInformationFsinn cs : satisfies R (sendPlaneInformationFsinn cs).
Proof using L Compositional0. unfold sendPlaneInformationFsinn. walk. Qed.
Lemma satisfies_aircraftConfiguration r j : satisfies R (sendAircraftConfiguration r j).
Proof using L Compositional0. unfold sendAircraftConfiguration. walk. Qed.
Lemma satisfies_sendClientResponse t r : satisfies R (sendClientResponse t r).
Proof using L Compositional0. unfold sendClientResponse, handleIllegalFsdState. walk. Qed.
#[local] Hint Resolve satisfies_sendPing satisfies_sendPong satisfies_planeInformation
  satisfies_planeInformationFsinn satisfies_aircraftConfiguration satisfies_sendClientResponse : fsd.

(** ** What is received *)

Lemma satisfies_offsetUpdate {B} key t v (k : Cmd B) :
  0 <= v -> satisfies R k ->
  satisfies R (setSession (fun s => s <| m_lastPositionUpdate ::= <[key := t]> |>);;
               setSession (insertLatestOffsetTime key v);; k).
Proof using L Compositional0.
  intros Hv Hk c x c' o. unfold setSession, modify, mbind, Cmd_bind.
  destruct (k _) as [[[y c1] o1]|] eqn:E; [|done]. intros [= _ <- <-].
  apply (comp_trans _ [] _ o1 _ (leaf_position Allow R L key t c)).
  refine (comp_trans _ [] _ o1 _ (leaf_offset Allow R L key v _ Hv _) _); [|by eapply Hk].
  destruct c as [? s']; destruct s'; simpl. rewrite lookup_insert_eq. by eexists.
Qed.
Lemma satisfies_receivedPosition cs t : satisfies R (receivedPositionFixTsAndGetOffsetTime cs t).
Proof using L Compositional0.
  unfold receivedPositionFixTsAndGetOffsetTime. cbv zeta.
  apply satisfies_bind; [exact _ | walk | intros c].
  destruct (m_lastPositionUpdate (session c) !! asString cs) as [t0|].
  - apply satisfies_offsetUpdate; [lia | walk].
  - walk. apply satisfies_modify. intros ?. apply (leaf_position Allow R L).
Qed.
#[local] Hint Resolve satisfies_receivedPosition : fsd.
Lemma satisfies_handleAtcDataUpdate l : satisfies R (handleAtcDataUpdate l).
Proof using L Compositional0.
  unfold handleAtcDataUpdate. walk. apply satisfies_modify. intros c. apply (leaf_station Allow R L).
Qed.
Lemma satisfies_handleDeleteATC l : satisfies R (handleDeleteATC l).
Proof using L Compositional0.
  unfold handleDeleteATC. walk. apply satisfies_modify. intros c. apply (leaf_station_remove Allow R L).
Qed.
Lemma satisfies_handleDeletePilot l : satisfies R (handleDeletePilot l).
Proof using L Compositional0. unfold handleDeletePilot. walk. Qed.
Lemma satisfies_handleTextMessage l : satisfies R (handleTextMessage l).
Proof using L Compositional0. unfold handleTextMessage, maybeHandleAtisReply. walk. Qed.
Lemma satisfies_updateAtisMap cs t l : satisfies R (updateAtisMap cs t l).
Proof using L Compositional0.
  unfold updateAtisMap. walk; (apply satisfies_modify; intros ?; apply (leaf_atismap Allow R L)).
Qed.
#[local] Hint Resolve satisfies_handleAtcDataUpdate satisfies_handleDeleteATC
  satisfies_handleDeletePilot satisfies_handleTextMessage satisfies_updateAtisMap : fsd.
Lemma satisfies_handlePilotDataUpdate l : satisfies R (handlePilotDataUpdate l).
Proof using L Compositional0. unfold handlePilotDataUpdate. walk. Qed.
Lemma satisfies_handleEuroscopeSimData l : satisfies R (handleEuroscopeSimData l).
Proof using L Compositional0. unfold handleEuroscopeSimData. walk. Qed.
Lemma satisfies_handleServerError l : satisfies R (handleServerError l).
Proof using L Compositional0. unfold handleServerError, serverErrorLog. walk. Qed.
Lemma satisfies_handleClientQuery l : satisfies R (handleClientQuery l).
Proof using L Compositional0. unfold handleClientQuery. walk. Qed.
Lemma satisfies_handleClientResponse l : satisfies R (handleClientResponse l).
Proof using L Compositional0. unfold handleClientResponse. walk. Qed.
Lemma satisfies_handleCustomPilotPacket l : satisfies R (handleCustomPilotPacket l).
Proof using L Compositional0. unfold handleCustomPilotPacket. walk. Qed.
#[local] Hint Resolve satisfies_handlePilotDataUpdate satisfies_handleEuroscopeSimData
  satisfies_handleServerError satisfies_handleClientQuery satisfies_handleClientResponse
  satisfies_handleCustomPilotPacket : fsd.
Lemma satisfies_handleMessage t l : satisfies R (handleMessage t l).
Proof using L Compositional0.
  unfold handleMessage, handleUnknownPacket, handleFlightPlan, handleKillRequest, handlePing,
    handlePong, handleVisualPilotDataUpdate, handleVisualPilotDataToggle, handleRehost, handleMute.
  walk.
Qed.
#[local] Hint Resolve satisfies_handleMessage : fsd.
Lemma satisfies_parseMessage s : satisfies R (parseMessage s).
Proof using L Compositional0. unfold parseMessage, handleUnknownPacket. walk. Qed.
#[local] Hint Resolve satisfies_parseMessage : fsd.

(** ** Reading and the sockets *)

Lemma satisfies_wsBuffer f : satisfies R (modify (fun c => c <| m_webSocketReadBuffer ::= f |>)).
Proof using L. apply satisfies_modify. intros c. apply (leaf_wsbuffer Allow R L). Qed.
Lemma satisfies_socketLines f : satisfies R (modify (fun c => c <| m_socketLines ::= f |>)).
Proof using L. apply satisfies_modify. intros c. apply (leaf_lines Allow R L). Qed.
Lemma satisfies_socketLines' l : satisfies R (modify (fun c => c <| m_socketLines := l |>)).
Proof using L. exact (satisfies_socketLines (fun _ => l)). Qed.
#[local] Hint Resolve satisfies_wsBuffer satisfies_socketLines satisfies_socketLines' : fsd.
Lemma satisfies_readWebSocketLines n : satisfies R (readWebSocketLines n).
Proof using L Compositional0. induction n; simpl readWebSocketLines; walk. Qed.
#[local] Hint Resolve satisfies_readWebSocketLines : fsd.
Lemma satisfies_readDataFromWebSocket m : satisfies R (readDataFromWebSocket m).
Proof using L Compositional0. unfold readDataFromWebSocket. walk. Qed.
Lemma satisfies_readSocketLines n l m : satisfies R (readSocketLines n l m).
Proof using L Compositional0. revert l m. induction n; intros l m; simpl readSocketLines; walk. Qed.
#[local] Hint Resolve satisfies_readSocketLines : fsd.
Lemma satisfies_readDataFromSocket m : satisfies R (readDataFromSocketMaxLines m).
Proof using L Compositional0. unfold readDataFromSocketMaxLines. walk. Qed.
#[local] Hint Resolve satisfies_readDataFromSocket : fsd.
Lemma satisfies_rehostConnected l : satisfies R (rehostConnected l).
Proof using L Compositional0.
  unfold rehostConnected. walk. apply satisfies_modify. intros c.
  eapply comp_silent; [apply (leaf_lines Allow R L (fun _ => l)) | apply (leaf_session Allow R L); by intros []].
Qed.
Lemma satisfies_receivers l : satisfies R (setInterimPositionReceivers l).
Proof using L. apply satisfies_modify. intros c. apply (leaf_receivers Allow R L (fun _ => l)). Qed.
Lemma satisfies_clearStatistics : satisfies R clearStatistics.
Proof using L. apply satisfies_modify. intros c. apply (leaf_clearStatistics Allow R L). Qed.
Lemma satisfies_incrementalConfig : satisfies R sendIncrementalAircraftConfig.
Proof using L Compositional0.
  unfold sendIncrementalAircraftConfig. walk. apply satisfies_modify. intros c1.
  apply (leaf_bucket Allow R L).
Qed.
#[local] Hint Resolve satisfies_incrementalConfig satisfies_readDataFromWebSocket satisfies_rehostConnected satisfies_receivers
  satisfies_clearStatistics satisfies_pendingTimeoutCheck
  satisfies_sendQueuedMessage satisfies_digestTimeout satisfies_sendPilotDataUpdate
  satisfies_sendInterim satisfies_sendTextGroup satisfies_sendTextMessages satisfies_planeInfoRequest
  satisfies_planeInfoRequestFsinn : fsd.

Theorem satisfies_handle e : (e = EvConnect -> Allow Connecting) -> satisfies R (handle e).
Proof using L Compositional0.
  intros Hconnect. destruct e; [by apply satisfies_connectToServer, Hconnect|..]; clear Hconnect;
    unfold handle, printSocketError, handleSocketError, handleSocketConnected,
    handleWebSocketDisconnected, rehostFailed, jwtTokenReceived, jwtTokenFailed, setServer,
    FsdCore.setCallsign, setIcaoCodes, setLiveryAndModelString, setSimType; walk.
Qed.
End walk.
