(* ===== verification/FsdReference.v ===== *)
(** * A concrete world for the FSD client

    An instance of the interfaces [QtJson], [BuildConfig] and [World], on which
    the properties of the client are evaluated. *)

From S2P Require Export FsdRun.

(** ** JSON text

    Objects, booleans, integers and texts without quotes, written compactly;
    enough to evaluate the configurations of aircraft. *)

Definition quote : QChar := 34%N.
Fixpoint jsonText (v : QJsonValue) : QString :=
  match v with
  | JBool b => lit (if b then "true" else "false")
  | JInteger n => qt_number n
  | JString s => quote :: s ++ [quote]
  | JObject o =>
      lit "{" ++
      join (lit ",") (map (fun kv => quote :: kv.1 ++ quote :: colon :: jsonText kv.2) o) ++ lit "}"
  | _ => lit "null"
  end.

Fixpoint untilQuote (s : QString) : QString * QString :=
  match s with
  | [] => ([], [])
  | c :: s => if (c =? quote)%N then ([], s) else let '(a, b) := untilQuote s in (c :: a, b)
  end.
Fixpoint spanNumber (s : QString) : QString * QString :=
  match s with
  | [] => ([], [])
  | c :: s' => if is09 c || (c =? 45)%N then let '(a, b) := spanNumber s' in (c :: a, b) else ([], s)
  end.
(** [parseMembers] reads members up to the closing brace. *)
Fixpoint parseValue (fuel : nat) (s : QString) : option (QJsonValue * QString) :=
  match fuel with
  | O => None
  | S fuel =>
      let parseMembers := fix parseMembers (n : nat) (s : QString) (o : QJsonObject) :=
        match n with
        | O => None
        | S n =>
            match s with
            | 125%N :: s => Some (JObject o, s)
            | 44%N :: s => parseMembers n s o
            | 34%N :: s =>
                let '(k, s) := untilQuote s in
                match parseValue fuel (drop 1 s) with
                | Some (v, s) => parseMembers n s (insertKey k v o)
                | None => None
                end
            | _ => None
            end
        end in
      match s with
      | 123%N :: s => parseMembers (length s) s []
      | 34%N :: s => let '(a, s) := untilQuote s in Some (JString a, s)
      | 116%N :: _ => Some (JBool true, drop 4 s)
      | 102%N :: _ => Some (JBool false, drop 5 s)
      | _ => let '(a, s) := spanNumber s in
             match qt_toInt a with Some n => Some (JInteger n, s) | None => None end
      end
  end.
#[export] Instance refJson : QtJson := {|
  json_parse s := match parseValue 8 s with Some (JObject o, []) => Some o | _ => None end;
  json_compact o := jsonText (JObject o)
|}.

#[export] Instance refBuild : BuildConfig :=
  {| versionMajor := 1; versionMinor := 0; localDeveloperDebugBuild := false |}.

Definition refOwn : OwnAircraft :=
  mkOwn (f64_of_Z 48) (f64_of_Z 11) (f64_of_Z 3000) 3000 3010 (f64_of_Z 1500) 120
    (f64_of_Z 2) (f64_of_Z 0) (f64_of_Z 90) false
    (f64_of_Z 1, f64_zero, f64_zero) (f64_zero, f64_zero, f64_zero)
    (mkTransponder 7000 TransponderMode.ModeC) (f64_of_Z 122)
    (lit "FLEXTRA") (lit "swift") (lit "DLH") (lit "DLH") (lit "A320") (lit "L2J").

Definition refLights : CAircraftLights := CAircraftLights_make8 true false true true true false false false.
Definition refParts : CAircraftParts := mkParts refLights (initEngines 2 true) NotSet 10 true false false.

(** A world in which it is [t] and the TCP socket is connected or not. *)
Definition partsWorld (t : Z) (connected : bool) (p : CAircraftParts) : World := {|
  now := t;
  knownCodec codec := eqs codec "UTF-8";
  encode _ := id;
  decode _ := id;
  tcpIsOpen := connected;
  tcpIsConnected := connected;
  wsIsUnconnected := negb connected;
  wsIsValid := connected;
  wsCloseReason := [];
  socketErrorString := lit "The remote host closed the connection";
  localAddress := lit "127.0.0.1";
  peerPort := 6809;
  isHostAddress h := forallb (fun x => is09 x || (x =? 46)%N) h;
  simulatorNameAndVersion := lit "X-Plane";
  own := refOwn;
  ownParts := p;
  inRange _ := true;
  closestStation l := default (mkAtcStation CCallsign_default 0 f64_zero f64_zero 0) (head l);
  comActive f := if 118000 <=? f then Some f else None
|}.

Definition refWorld (t : Z) (connected : bool) : World := partsWorld t connected refParts.

Definition refSetup : CFsdSetup :=
  mkSetup true true true true true false false false (lit "UTF-8").
Definition refServer : CServer :=
  mkServer (lit "Test") (lit "192.168.0.1") 6809 [] (lit "/fsd") false 2 refSetup (-1)
    (lit "1234567") (lit "geheim") (lit "Kermit") (lit "Kermit EDDM")
    (CCallsign_make (lit "DLH123") Aircraft) true.
Definition refConfig : CNetworkConfig := 
  mkNetworkConfig [] [] [] false [] [] [] [] ReconnectConfig_default ConfigFlags_default
    ConfigServices_default.
Definition refPresets (mode : LoginMode) : Presets :=
  mkPresets refServer refConfig mode SimType.XPLANE11 PilotRating.Student AtcRating.Observer
    (lit "swift") (lit "X-Plane") 1 0 9 false 0
    (CCallsign_make (lit "DLH123") Aircraft) CCallsign_default
    (lit "A320") (lit "DLH") [] [] true true (lit "UTF-8").
Definition refClient (mode : LoginMode) : CFSDClient := CFSDClient_init 0 (refPresets mode) true true.
