(* ===== verification/FsdInvariant.v ===== *)
(** * What holds over every run of the client

    The signals of the connection status form one chain, and the data the
    client keeps stays bounded and consistent. *)

From S2P Require Export FsdReference.

(** ** The chain of connection states *)

Section chain.
Context `{QtConv, BC : BuildConfig} {J : QtJson}.

Definition statusChange (o : Out) : option (ConnectionStatus * ConnectionStatus) :=
  match o with Emit (connectionStatusChanged old new) => Some (old, new) | _ => None end.

(** Each change starts at the state the one before led to, and changes it. *)
Fixpoint statusChain (s : ConnectionStatus) (l : list (ConnectionStatus * ConnectionStatus))
    (s' : ConnectionStatus) : Prop :=
  match l with
  | [] => s = s'
  | (old, new) :: l => old = s /\ old <> new /\ statusChain new l s'
  end.

Definition chained (c : CFSDClient) (o : list Out) (c' : CFSDClient) : Prop :=
  statusChain (m_connectionStatus c) (omap statusChange o) (m_connectionStatus c').

Lemma statusChain_app s l s' l' s'' :
  statusChain s l s' -> statusChain s' l' s'' -> statusChain s (l ++ l') s''.
Proof using Type.
  revert s. induction l as [|[a b] l IH]; intros s; simpl; [by intros ->|].
  intros (-> & Hab & Hl) Hl'. eauto.
Qed.

#[export] Instance chained_compositional : Compositional chained.
Proof using Type.
  split; [done|]. intros c o c' o' c'' H1 H2. unfold chained. rewrite omap_app.
  by eapply statusChain_app.
Qed.

Lemma increaseStatistics_status {W : World} i a c :
  m_connectionStatus (increaseStatistics i a c) = m_connectionStatus c.
Proof using Type. unfold increaseStatistics. by case_match. Qed.

Lemma chained_leaves : Leaves (fun _ => True) chained.
Proof using Type.
  split; intros; try reflexivity.
  - unfold chained. simpl. destruct o as [[]| | | | | | | | | | | |]; done.
  - symmetry. apply increaseStatistics_status.
  - unfold chained. simpl. split_and!; done.
Qed.

(** C5: the status signals of a run form a chain.  Whatever happens to the
    client, each [connectionStatusChanged] starts from the status the one
    before announced (at first, the status the run starts in), names two
    different states, and the last one names the status the client is in. *)
Theorem status_chain c es o c' :
  client_run c es o c' ->
  statusChain (m_connectionStatus c) (omap statusChange o) (m_connectionStatus c').
Proof.
  apply (client_run_satisfies chained). intros w e. by apply (satisfies_handle _ _ chained_leaves).
Qed.
End chain.

(** Connects, logs in, and is disconnected by the user. *)
Definition exampleSession : list (World * Event) :=
  [(refWorld 1000 false, EvConnect); (refWorld 1100 true, EvSocketConnected);
   (refWorld 9000 true, EvDisconnect)].

Definition exampleChanges : list (ConnectionStatus * ConnectionStatus) :=
  [(Disconnected, Connecting); (Connecting, Connected); (Connected, Disconnecting);
   (Disconnecting, Disconnected)].

Lemma exampleSession_runs :
  exists o c', client_run (refClient Pilot) exampleSession o c' /\
               omap statusChange o = exampleChanges.
Proof.
  assert (H : match runEvents (refClient Pilot) exampleSession with
              | Some (o, _) => bool_decide (omap statusChange o = exampleChanges)
              | None => false
              end = true) by (vm_compute; reflexivity).
  destruct (runEvents _ _) as [[o c']|] eqn:E; [|done]. exists o, c'.
  split; [by apply runEvents_run | by apply bool_decide_eq_true in H].
Qed.

Lemma status_chain_witness :
  exists c', statusChain (m_connectionStatus (refClient Pilot)) exampleChanges (m_connectionStatus c').
Proof.
  destruct exampleSession_runs as (o & c' & Hrun & <-).
  exists c'. exact (status_chain _ _ _ _ Hrun).
Defined.

(** ** The data of the client *)

Section invariant.
Context `{QtConv, BC : BuildConfig} {J : QtJson}.

Definition stationKey (s : CAtcStation) : QString := map qt_foldCase (m_callsign (atc_callsign s)).

(** The offset times of a callsign: some, at most six, none negative, and only
    for callsigns with a known last position. *)
Definition offsetsOk (s : Session) : Prop :=
  map_Forall (fun k l => (1 <= length l <= c_maxOffsetTimes)%nat /\ Forall (fun t => 0 <= t) l /\
                         is_Some (m_lastPositionUpdate s !! k)) (m_lastOffsetTimes s).
(** The ATC stations: at most one per callsign. *)
Definition stationsOk (s : Session) : Prop := NoDup (stationKey <$> (m_atcStations s)).
(** The statistics: at most fifty calls are kept, each of them counted. *)
Definition statisticsOk (c : CFSDClient) : Prop :=
  (length (m_callByTime c) <= MaxTimeValues)%nat /\
  map_Forall (fun _ n => 1 <= n) (m_callStatistics c) /\
  Forall (fun e => is_Some (m_callStatistics c !! e.2)) (m_callByTime c).
(** The digest of text messages: fewer than ten are pending, with the timer. *)
Definition digestOk (d : CDigestSignal) : Prop :=
  digestWf d /\ m_interval d = 250 /\ m_maxInputsPerDigest d = 10.

Definition clientOk (c : CFSDClient) : Prop :=
  offsetsOk (session c) /\ stationsOk (session c) /\ statisticsOk c /\
  digestOk (m_dsSendTextMessage c).

(** *** The updates keep it *)

Lemma insertLatest_session k v s :
  let offsets := v :: default [] (m_lastOffsetTimes s !! k) in
  m_lastOffsetTimes (insertLatestOffsetTime k v s) =
    <[k := if (c_maxOffsetTimes <? length offsets)%nat then removelast offsets else offsets]>
      (m_lastOffsetTimes s) /\
  m_lastPositionUpdate (insertLatestOffsetTime k v s) = m_lastPositionUpdate s.
Proof using Type. by destruct s. Qed.

Lemma offsets_insert k v s :
  0 <= v -> is_Some (m_lastPositionUpdate s !! k) -> offsetsOk s ->
  offsetsOk (insertLatestOffsetTime k v s).
Proof using Type.
  intros Hv Hk Hs k' l'.
  destruct (insertLatest_session k v s) as [-> ->]. rewrite lookup_insert_Some. intros [[<- <-] | [_ Hl]]; [|exact (Hs _ _ Hl)].
  assert (Hd : (length (default [] (m_lastOffsetTimes s !! k)) <= c_maxOffsetTimes)%nat /\
               Forall (fun t => 0 <= t) (default [] (m_lastOffsetTimes s !! k))).
  { destruct (m_lastOffsetTimes s !! k) as [l|] eqn:E; simpl; [|by split; [lia | constructor]].
    destruct (Hs _ _ E) as (Hl1 & Hl2 & _). split; [lia | done]. }
  destruct Hd as [Hd1 Hd2]. set (l := default _ _) in *.
  destruct (Nat.ltb_spec c_maxOffsetTimes (length (v :: l))) as [Hn|Hn]; simpl length in Hn.
  - assert (length (removelast (v :: l)) = length l) as Hlen.
    { rewrite removelast_firstn_len. simpl length. rewrite length_take. simpl. lia. }
    split_and!; try done.
    + rewrite Hlen. unfold c_maxOffsetTimes in *. lia.
    + rewrite Hlen. lia.
    + rewrite removelast_firstn_len. apply Forall_take. by constructor.
  - split_and!; try done; [simpl; lia | by constructor].
Qed.

Lemma offsets_position k t s :
  offsetsOk s -> offsetsOk (s <| m_lastPositionUpdate ::= <[k := t]> |>).
Proof using Type.
  intros Hs k' l' Hl. destruct s; simpl in *. destruct (Hs _ _ Hl) as (H1 & H2 & H3).
  refine (conj H1 (conj H2 _)). destruct (decide (k = k')) as [->|].
  - rewrite lookup_insert_eq. by eexists.
  - by rewrite lookup_insert_ne.
Qed.

Lemma offsets_forget k s : offsetsOk s -> offsetsOk (forgetCallsign k s).
Proof using Type.
  intros Hs k' l' Hl. destruct s; simpl in *. rewrite lookup_delete_Some in Hl.
  destruct Hl as [Hk Hl]. destruct (Hs _ _ Hl) as (H1 & H2 & H3).
  refine (conj H1 (conj H2 _)). by rewrite lookup_delete_ne.
Qed.

Lemma stations_remove cs l :
  NoDup (stationKey <$> l) -> NoDup (stationKey <$> (removeByCallsign cs l)).
Proof using Type.
  induction l as [|s l IH]; [done|]. rewrite fmap_cons. intros [Hs Hl]%NoDup_cons.
  unfold removeByCallsign in *. rewrite filter_cons. case_decide; [|auto].
  rewrite fmap_cons. apply NoDup_cons. split; [|auto].
  intros (t & Ht & [_ Hin]%list_elem_of_filter)%list_elem_of_fmap. apply Hs.
  rewrite Ht. by apply list_elem_of_fmap_2.
Qed.

Lemma stations_replace s l :
  NoDup (stationKey <$> l) -> NoDup (stationKey <$> (replaceOrAddObjectByCallsign s l)).
Proof using Type.
  intros Hl. unfold replaceOrAddObjectByCallsign. destruct (callsignEmpty _); [done|].
  rewrite fmap_app. simpl. apply NoDup_app_singleton; [by apply stations_remove|].
  intros (t & Ht & [Hne _]%list_elem_of_filter)%list_elem_of_fmap.
  unfold callsignEqual, equalsCI in Hne. apply bool_decide_eq_false in Hne. by apply Hne.
Qed.

Lemma increase_statistics {W : World} i a c :
  let k := if isEmpty a then i else i ++ lit "." ++ a in
  let l := (now, k) :: m_callByTime c in
  increaseStatistics i a c = c \/
  m_callStatistics (increaseStatistics i a c)
    = <[k := default 0 (m_callStatistics c !! k) + 1]> (m_callStatistics c) /\
  m_callByTime (increaseStatistics i a c)
    = if (MaxTimeValues <? length l)%nat then removelast l else l.
Proof using Type. unfold increaseStatistics. destruct (_ || _); [by left | right; by destruct c]. Qed.

Lemma statistics_increase {W : World} i a c :
  statisticsOk c -> statisticsOk (increaseStatistics i a c).
Proof using Type.
  intros (Hl & Hn & Hc). destruct (increase_statistics i a c) as [-> | [E1 E2]]; [done|].
  unfold statisticsOk. rewrite E1, E2. set (k := if isEmpty a then _ else _) in *.
  assert (Hc' : Forall (fun e => is_Some (<[k := default 0 (m_callStatistics c !! k) + 1]>
                  (m_callStatistics c) !! e.2)) ((now, k) :: m_callByTime c)).
  { constructor; simpl; [rewrite lookup_insert_eq; by eexists|].
    eapply Forall_impl; [exact Hc|]. intros [t k'] Hk; simpl in *.
    destruct (decide (k = k')) as [->|]; [rewrite lookup_insert_eq; by eexists | by rewrite lookup_insert_ne]. }
  split_and!.
  - destruct (Nat.ltb_spec MaxTimeValues (length ((now, k) :: m_callByTime c))); [|lia].
    rewrite removelast_firstn_len, length_take. simpl. lia.
  - apply map_Forall_insert_2; [|done]. destruct (_ !! k) as [n|] eqn:E; simpl; [|lia].
    specialize (Hn _ _ E). simpl in Hn. lia.
  - destruct (_ <? _)%nat; [|done]. rewrite removelast_firstn_len. by apply Forall_take.
Qed.

Lemma digest_input t d : digestOk d -> digestOk (inputSignal t d).1.
Proof using Type.
  intros (Hd & Hi & Hm).
  destruct (step_wf d t true _ _ Hd (step_input d t _ _ (surjective_pairing _))) as (H1 & H2 & _).
  split_and!; [done | | congruence]. rewrite <- Hi. unfold inputSignal. by case_match.
Qed.
Lemma digest_timeout d : digestOk d -> digestOk (timerTimeout d).
Proof using Type.
  intros ((Hd & _) & Hi & Hm). unfold digestOk, digestWf, timerTimeout. simpl.
  split_and!; try done; lia.
Qed.

(** The parts of the state the invariant is about; the updates of other parts
    leave them alone. *)
Lemma clientOk_same c c' :
  session c' = session c -> m_callByTime c' = m_callByTime c ->
  m_callStatistics c' = m_callStatistics c -> m_dsSendTextMessage c' = m_dsSendTextMessage c ->
  clientOk c -> clientOk c'.
Proof using Type. unfold clientOk, statisticsOk. by intros -> -> -> ->. Qed.

(** An update of the session alone. *)
Lemma clientOk_session f c :
  (offsetsOk (session c) -> offsetsOk (f (session c))) ->
  (stationsOk (session c) -> stationsOk (f (session c))) -> clientOk c -> clientOk (c <| session ::= f |>).
Proof using Type.
  intros H1 H2 (H3 & H4 & H5 & H6). destruct c. split_and!; simpl in *; auto; apply H5.
Qed.

Definition keeps (P : CFSDClient -> Prop) (c : CFSDClient) (_ : list Out) (c' : CFSDClient) : Prop :=
  P c -> P c'.
#[export] Instance keeps_compositional P : Compositional (keeps P).
Proof using Type. split; unfold keeps; auto. Qed.

Lemma clientOk_leaves : Leaves (fun _ => True) (keeps clientOk).
Proof using Type.
  split; intros; [done|..]; unfold keeps; try (by apply clientOk_same; destruct c).
  - apply (clientOk_session (fun _ => Session_cleared)); intros _; [done | constructor].
  - apply clientOk_session; unfold offsetsOk, stationsOk; [rewrite H0, H1 | rewrite H2]; done.
  - apply clientOk_session; [apply offsets_position | by destruct (session c)].
  - apply clientOk_session; [by apply offsets_insert | by destruct (session c)].
  - apply clientOk_session; [apply offsets_forget | by destruct (session c)].
  - apply clientOk_session; destruct (session c); [done | apply stations_replace].
  - apply clientOk_session; destruct (session c); [done | apply stations_remove].
  - intros (H1 & H2 & H3 & H4). destruct c. split_and!; try done; [apply H3..|]. by apply digest_input.
  - intros (H1 & H2 & H3 & H4). destruct c. split_and!; try done; [apply H3..|]. by apply digest_timeout.
  - intros (H1 & H2 & H3 & H4). split_and!; try (by unfold increaseStatistics; case_match; destruct c).
    by apply statistics_increase.
  - intros (H1 & H2 & H3 & H4). destruct c. split_and!; try done.
    split_and!; [simpl; unfold MaxTimeValues; lia | done..].
Qed.

Lemma clientOk_init t p st raw : clientOk (CFSDClient_init t p st raw).
Proof using Type.
  unfold clientOk, digestOk, digestWf, statisticsOk. simpl. split_and!; try done; try lia.
  constructor.
Qed.

(** C1: the client's data stays bounded and consistent.  In every state that a
    constructed client reaches, whatever its users, timers and peers do: a
    callsign has between one and six offset times, none negative, and a last
    position with them; the ATC stations have different callsigns; at most
    fifty calls are logged, each with its counter; and fewer than ten text
    messages are pending in the digest, exactly while its timer runs. *)
Theorem client_invariant t p st raw es o c :
  client_run (CFSDClient_init t p st raw) es o c -> clientOk c.
Proof using Type.
  intros Hrun. refine (client_run_satisfies (keeps clientOk) _ _ _ _ _ Hrun (clientOk_init t p st raw)).
  intros w e. by apply (satisfies_handle _ _ clientOk_leaves).
Qed.
End invariant.

(** Logs in, and receives two positions, an ATC station and a text message. *)
Definition exampleTraffic : list (World * Event) :=
  [(refWorld 1000 false, EvConnect); (refWorld 1100 true, EvSocketConnected);
   (refWorld 2000 true, EvSocketLines [lit "@N:BAW2:1200:1:48.3:11.6:12000:420:4261416196:-25"]);
   (refWorld 3500 true, EvSocketLines [lit "@N:BAW2:1200:1:48.4:11.6:12000:420:4261416196:-25";
                                       lit "%EDDM_TWR:18700:4:50:3:48.3:11.8:0:0"]);
   (refWorld 4000 true, EvSocketLines [lit "#TMBAW2:DLH123:hello"])].

Lemma exampleTraffic_runs :
  exists o c, client_run (refClient Pilot) exampleTraffic o c /\
    m_lastOffsetTimes (session c) !! lit "BAW2" = Some [1500] /\
    length (m_atcStations (session c)) = 1%nat /\ m_inputsCount (m_dsSendTextMessage c) = 1.
Proof.
  assert (H : match runEvents (refClient Pilot) exampleTraffic with
              | Some (_, c) =>
                  bool_decide (m_lastOffsetTimes (session c) !! lit "BAW2" = Some [1500])
                  && (length (m_atcStations (session c)) =? 1)%nat
                  && (m_inputsCount (m_dsSendTextMessage c) =? 1)
              | None => false
              end = true) by (vm_compute; reflexivity).
  destruct (runEvents _ _) as [[o c]|] eqn:E; [|done]. exists o, c.
  apply runEvents_run in E. bool_hyps. apply Nat.eqb_eq in H1. done.
Qed.

Lemma client_invariant_witness :
  exists c, clientOk c /\ m_lastOffsetTimes (session c) !! lit "BAW2" = Some [1500].
Proof.
  destruct exampleTraffic_runs as (o & c & Hrun & Ho & _). exists c.
  split; [|exact Ho]. exact (client_invariant 0 (refPresets Pilot) true true _ _ _ Hrun).
Defined.
