(* ===== verification/FsdLine.v ===== *)
(** * Lines: which of them the client can handle

    Where the code indexes a list out of range, the model has no result.  This
    file determines the lines on which that happens. *)

From S2P Require Export FsdReference.

(** ** Parsing of tokens *)

Section parsers.
Context `{QtConv, BC : BuildConfig}.

Definition parsesAll {M} (fromTokens : QStringList -> option M) : Prop :=
  forall tokens, is_Some (fromTokens tokens).

Ltac lookups :=
  repeat match goal with
  | |- context [?l !! ?i] =>
      destruct (lookup_lt_is_Some_2 l i ltac:(lia)) as [? ->]; cbn [mbind option_bind]
  end.
Tactic Notation "parses" reference(f) :=
  intros tokens; unfold f;
  repeat match goal with
  | |- context [(length tokens <? ?n)%nat] => destruct (Nat.ltb_spec (length tokens) n)
  | |- context [(?n <? length tokens)%nat] => destruct (Nat.ltb_spec n (length tokens))
  | |- context [(length tokens =? ?n)%nat] => destruct (Nat.eqb_spec (length tokens) n)
  end; cbn [negb]; cbv zeta; lookups; eexists; reflexivity.

Lemma AddAtc_parses : parsesAll AddAtc.fromTokens. Proof using Type. parses AddAtc.fromTokens. Qed.
Lemma ClientIdentification_parses : parsesAll ClientIdentification.fromTokens.
Proof using Type. parses ClientIdentification.fromTokens. Qed.
Lemma FSDIdentification_parses : parsesAll FSDIdentification.fromTokens.
Proof using Type. parses FSDIdentification.fromTokens. Qed.
Lemma AuthChallenge_parses : parsesAll AuthChallenge.fromTokens. Proof using Type. parses AuthChallenge.fromTokens. Qed.
Lemma AuthResponse_parses : parsesAll AuthResponse.fromTokens. Proof using Type. parses AuthResponse.fromTokens. Qed.
Lemma Ping_parses : parsesAll Ping.fromTokens. Proof using Type. parses Ping.fromTokens. Qed.
Lemma Pong_parses : parsesAll Pong.fromTokens. Proof using Type. parses Pong.fromTokens. Qed.
Lemma KillRequest_parses : parsesAll KillRequest.fromTokens. Proof using Type. parses KillRequest.fromTokens. Qed.
Lemma Rehost_parses : parsesAll Rehost.fromTokens. Proof using Type. parses Rehost.fromTokens. Qed.
Lemma Mute_parses : parsesAll Mute.fromTokens. Proof using Type. parses Mute.fromTokens. Qed.
Lemma VisualPilotDataToggle_parses : parsesAll VisualPilotDataToggle.fromTokens.
Proof using Type. parses VisualPilotDataToggle.fromTokens. Qed.
Lemma ServerError_parses : parsesAll ServerError.fromTokens. Proof using Type. parses ServerError.fromTokens. Qed.
Lemma ClientQuery_parses : parsesAll ClientQuery.fromTokens. Proof using Type. parses ClientQuery.fromTokens. Qed.
Lemma ClientResponse_parses : parsesAll ClientResponse.fromTokens. Proof using Type. parses ClientResponse.fromTokens. Qed.
Lemma FlightPlan_parses : parsesAll FlightPlan.fromTokens. Proof using Type. parses FlightPlan.fromTokens. Qed.
Lemma TextMessage_parses : parsesAll TextMessage.fromTokens. Proof using Type. parses TextMessage.fromTokens. Qed.
Lemma PlaneInfoRequest_parses : parsesAll PlaneInfoRequest.fromTokens.
Proof using Type. parses PlaneInfoRequest.fromTokens. Qed.
Lemma PlaneInfoRequestFsinn_parses : parsesAll PlaneInfoRequestFsinn.fromTokens.
Proof using Type. parses PlaneInfoRequestFsinn.fromTokens. Qed.
Lemma PlaneInformationFsinn_parses : parsesAll PlaneInformationFsinn.fromTokens.
Proof using Type. parses PlaneInformationFsinn.fromTokens. Qed.
Lemma PilotDataUpdate_parses : parsesAll PilotDataUpdate.fromTokens. Proof using Type. parses PilotDataUpdate.fromTokens. Qed.
Lemma InterimPilotDataUpdate_parses : parsesAll InterimPilotDataUpdate.fromTokens.
Proof using Type. parses InterimPilotDataUpdate.fromTokens. Qed.
Lemma VisualPilotDataUpdate_parses : parsesAll VisualPilotDataUpdate.fromTokens.
Proof using Type. parses VisualPilotDataUpdate.fromTokens. Qed.
Lemma VisualPilotDataPeriodic_parses : parsesAll VisualPilotDataPeriodic.fromTokens.
Proof using Type. parses VisualPilotDataPeriodic.fromTokens. Qed.
Lemma VisualPilotDataStopped_parses : parsesAll VisualPilotDataStopped.fromTokens.
Proof using Type. parses VisualPilotDataStopped.fromTokens. Qed.
Lemma EuroscopeSimData_parses : parsesAll EuroscopeSimData.fromTokens.
Proof using Type. parses EuroscopeSimData.fromTokens. Qed.
Lemma PlaneInformation_parses : parsesAll PlaneInformation.fromTokens.
Proof using Type.
  intros tokens. unfold PlaneInformation.fromTokens.
  destruct (Nat.ltb_spec (length tokens) 5); [by eexists|].
  destruct (fold_left _ _ _) as [[a b] l]. lookups. by eexists.
Qed.
Lemma DeleteAtc_parses : parsesAll DeleteAtc.fromTokens.
Proof using Type. intros [|t0 [|t1 tokens]]; simpl; by eexists. Qed.
Lemma DeletePilot_parses : parsesAll DeletePilot.fromTokens.
Proof using Type. intros [|t0 [|t1 tokens]]; simpl; by eexists. Qed.

(** The guard of these two is too weak for the tokens they read. *)
Lemma AddPilot_undefined tokens :
  AddPilot.fromTokens tokens = None <-> (6 <= length tokens <= 7)%nat.
Proof using Type.
  unfold AddPilot.fromTokens. destruct (Nat.ltb_spec (length tokens) 6); [split; [done | lia]|].
  destruct (decide (length tokens <= 7)%nat) as [Hl|Hl].
  - split; [lia|]. intros _. rewrite (lookup_ge_None_2 tokens 7) by lia.
    repeat match goal with
    | |- context [tokens !! ?i] => destruct (tokens !! i); cbn [mbind option_bind]; try done
    end; done.
  - lookups. split; [done | lia].
Qed.
Lemma AtcDataUpdate_undefined tokens :
  AtcDataUpdate.fromTokens tokens = None <-> length tokens = 7%nat.
Proof using Type.
  unfold AtcDataUpdate.fromTokens. destruct (Nat.ltb_spec (length tokens) 7); [split; [done | lia]|].
  destruct (decide (length tokens = 7)%nat) as [Hl|Hl].
  - split; [done|]. intros _. rewrite (lookup_ge_None_2 tokens 7) by lia.
    repeat match goal with
    | |- context [tokens !! ?i] => destruct (tokens !! i); cbn [mbind option_bind]; try done
    end; done.
  - lookups. split; [done | lia].
Qed.

(** Parsing is defined.  The static [fromTokens] of every message class has
    a result for every list of tokens, however short or long, but for
    [AddPilot] on six or seven tokens and [AtcDataUpdate] on exactly seven: the
    guards of these two accept lists shorter than the tokens they read. *)
Theorem fromTokens_defined :
  parsesAll AddAtc.fromTokens /\ parsesAll ClientIdentification.fromTokens /\
  parsesAll FSDIdentification.fromTokens /\ parsesAll AuthChallenge.fromTokens /\
  parsesAll AuthResponse.fromTokens /\ parsesAll Ping.fromTokens /\ parsesAll Pong.fromTokens /\
  parsesAll KillRequest.fromTokens /\ parsesAll Rehost.fromTokens /\ parsesAll Mute.fromTokens /\
  parsesAll VisualPilotDataToggle.fromTokens /\ parsesAll ServerError.fromTokens /\
  parsesAll ClientQuery.fromTokens /\ parsesAll ClientResponse.fromTokens /\
  parsesAll FlightPlan.fromTokens /\ parsesAll TextMessage.fromTokens /\
  parsesAll PlaneInfoRequest.fromTokens /\ parsesAll PlaneInfoRequestFsinn.fromTokens /\
  parsesAll PlaneInformationFsinn.fromTokens /\ parsesAll PilotDataUpdate.fromTokens /\
  parsesAll InterimPilotDataUpdate.fromTokens /\ parsesAll VisualPilotDataUpdate.fromTokens /\
  parsesAll VisualPilotDataPeriodic.fromTokens /\ parsesAll VisualPilotDataStopped.fromTokens /\
  parsesAll EuroscopeSimData.fromTokens /\ parsesAll PlaneInformation.fromTokens /\
  parsesAll DeleteAtc.fromTokens /\ parsesAll DeletePilot.fromTokens /\
  (forall tokens, AddPilot.fromTokens tokens = None <-> (6 <= length tokens <= 7)%nat) /\
  (forall tokens, AtcDataUpdate.fromTokens tokens = None <-> length tokens = 7%nat).
Proof using Type.
  split_and!; auto using AddAtc_parses, ClientIdentification_parses, FSDIdentification_parses, AuthChallenge_parses, AuthResponse_parses, Ping_parses, Pong_parses, KillRequest_parses, Rehost_parses, Mute_parses, VisualPilotDataToggle_parses, ServerError_parses, ClientQuery_parses, ClientResponse_parses, FlightPlan_parses, TextMessage_parses, PlaneInfoRequest_parses, PlaneInfoRequestFsinn_parses, PlaneInformationFsinn_parses, PilotDataUpdate_parses, InterimPilotDataUpdate_parses, VisualPilotDataUpdate_parses, VisualPilotDataPeriodic_parses, VisualPilotDataStopped_parses, EuroscopeSimData_parses, PlaneInformation_parses, DeleteAtc_parses, DeletePilot_parses,
    AddPilot_undefined, AtcDataUpdate_undefined.
Qed.
End parsers.

(** ** Commands that always have a result *)

Section total.
Context {J : QtJson}.

Definition total {A} (m : Cmd A) : Prop := forall c, is_Some (m c).

Lemma total_ret {A} (x : A) : total (mret x). Proof using Type. by eexists. Qed.
Lemma total_get : total get. Proof using Type. by eexists. Qed.
Lemma total_modify f : total (modify f). Proof using Type. by eexists. Qed.
Lemma total_output o : total (output o). Proof using Type. by eexists. Qed.
Lemma total_defined {A} (x : option A) : is_Some x -> total (defined x).
Proof using Type. intros [y ->] c. by eexists. Qed.
Lemma total_bind {A B} (m : Cmd A) (k : A -> Cmd B) :
  total m -> (forall x, total (k x)) -> total (m ≫= k).
Proof using Type.
  intros Hm Hk c. destruct (Hm c) as [[[x c'] o] E]. destruct (Hk x c') as [[[y c''] o'] E'].
  unfold mbind, Cmd_bind. rewrite E, E'. by eexists.
Qed.
Lemma total_when b m : total m -> total (when b m).
Proof using Type. destruct b; [done | intros _; apply total_ret]. Qed.
Lemma total_forEach {A} (f : A -> Cmd unit) l : (forall x, total (f x)) -> total (forEach f l).
Proof using Type. intros Hf. induction l; simpl; [apply total_ret | by apply total_bind]. Qed.

Lemma get_bind {B} (k : CFSDClient -> Cmd B) c : (get ≫= k) c = k c c.
Proof using Type. unfold mbind, Cmd_bind, get. by destruct (k c c) as [[[??]?]|]. Qed.

Lemma defined_bind {A B} (x : A) (k : A -> Cmd B) c : (defined (Some x) ≫= k) c = k x c.
Proof using Type. unfold mbind, Cmd_bind, defined. by destruct (k x c) as [[[??]?]|]. Qed.

Lemma bind_run {B} (m : Cmd unit) (k : Cmd B) c c1 o1 :
  m c = Some (tt, c1, o1) ->
  (m;; k) c = match k c1 with Some (y, c2, o2) => Some (y, c2, o1 ++ o2) | None => None end.
Proof using Type. unfold mbind, Cmd_bind. by intros ->. Qed.

(** Only an absent result is undefined before a command that always has one. *)
Lemma total_not_None {A} (m : Cmd A) c : total m -> m c <> None.
Proof using Type. intros Hm. destruct (Hm c) as [x ->]. done. Qed.
Lemma defined_bind_undefined {A B} (x : option A) (k : A -> Cmd B) c :
  (forall y, total (k y)) -> (defined x ≫= k) c = None <-> x = None.
Proof using Type.
  intros Hk. destruct x as [y|]; [|done]. split; [|done].
  by intros []%total_not_None; apply total_bind; [apply total_defined; eexists|].
Qed.

(** A command that fails after one that does not. *)
Lemma bind_undefined {A B} (m : Cmd A) (k : A -> Cmd B) (P : Prop) c :
  total m -> (forall x c', k x c' = None <-> P) -> (m ≫= k) c = None <-> P.
Proof using Type.
  intros Hm Hk. destruct (Hm c) as [[[x c'] o] E]. unfold mbind, Cmd_bind. rewrite E.
  rewrite <- (Hk x c'). by destruct (k x c') as [[[??]?]|].
Qed.
End total.

Create HintDb total discriminated.
Ltac total_step :=
  match goal with
  | |- total (mret _) => apply total_ret
  | |- total get => apply total_get
  | |- total (modify _) => apply total_modify
  | |- total (output _) => apply total_output
  | |- total (emit _) => apply total_output
  | |- total (log _ _) => apply total_output
  | |- total (setSession _) => apply total_modify
  | |- total (setPresets _) => apply total_modify
  | |- total (enqueue _) => apply total_modify
  | |- total (increaseStatisticsValue _ _) => apply total_modify
  | |- total (mbind _ _) => apply total_bind; [| intros ?]
  | |- total (when _ _) => apply total_when
  | |- total (forEach _ _) => apply total_forEach; intros ?
  | |- total (let _ := _ in _) => cbv zeta
  | |- total (if ?b then _ else _) => destruct b
  | |- total (match ?x with _ => _ end) => destruct x
  end.
Ltac totals := repeat (cbv beta; first [ solve [ eauto with total nocore ] | total_step ]).

Section client.
Context `{QtConv, BC : BuildConfig} {J : QtJson} {W : World}.

Lemma total_raw m b : total (emitRawFsdMessage m b).
Proof using Type. unfold emitRawFsdMessage. totals. Qed.
#[local] Hint Resolve total_raw : total.
Lemma total_sendString m : total (sendMessageString m).
Proof using Type. unfold sendMessageString. totals. Qed.
#[local] Hint Resolve total_sendString : total.
Lemma total_queueMessage {M} `{FsdMessage M} (m : M) : total (queueMessage m).
Proof using Type. unfold queueMessage, sendDirectMessage. totals. Qed.
#[local] Hint Resolve total_queueMessage : total.
Lemma total_updateConnectionStatus s : total (updateConnectionStatus s).
Proof using Type.
  unfold updateConnectionStatus, stopPositionTimers, clearState, saveNetworkStatistics. totals.
Qed.
#[local] Hint Resolve total_updateConnectionStatus : total.
Lemma total_disconnectFromServer : total disconnectFromServer.
Proof using Type.
  unfold disconnectFromServer, stopPositionTimers, closeTransport, clearState, sendDeletePilot,
    sendDeleteAtc. totals.
Qed.
#[local] Hint Resolve total_disconnectFromServer : total.
Lemma total_initiateConnection h : total (initiateConnection h).
Proof using Type.
  unfold initiateConnection, resolveLoadBalancing, initiateWebSocketConnection, connectResolved,
    startPositionTimers. totals.
Qed.
#[local] Hint Resolve total_initiateConnection : total.
Lemma total_consolidate m : total (consolidateTextMessage m).
Proof using Type. unfold consolidateTextMessage, emitConsolidatedTextMessages. totals. Qed.
#[local] Hint Resolve total_consolidate : total.
Lemma total_receivedPosition cs t : total (receivedPositionFixTsAndGetOffsetTime cs t).
Proof using Type. unfold receivedPositionFixTsAndGetOffsetTime. totals. Qed.
#[local] Hint Resolve total_receivedPosition : total.
Lemma total_sendClientResponse t r : total (sendClientResponse t r).
Proof using Type. unfold sendClientResponse, handleIllegalFsdState. totals. Qed.
#[local] Hint Resolve total_sendClientResponse : total.
Lemma total_updateAtisMap cs t l : total (updateAtisMap cs t l).
Proof using Type. unfold updateAtisMap. totals. Qed.
#[local] Hint Resolve total_updateAtisMap : total.

(** The handlers. *)
#[local] Hint Extern 1 (total (defined _)) => apply total_defined; solve
  [ apply TextMessage_parses | apply DeleteAtc_parses | apply DeletePilot_parses
  | apply PilotDataUpdate_parses | apply EuroscopeSimData_parses | apply VisualPilotDataToggle_parses
  | apply Ping_parses | apply Pong_parses | apply KillRequest_parses | apply Mute_parses
  | apply ServerError_parses | apply Rehost_parses | apply FlightPlan_parses
  | apply ClientQuery_parses | apply ClientResponse_parses | apply PlaneInfoRequest_parses
  | apply PlaneInformation_parses | apply InterimPilotDataUpdate_parses
  | apply PlaneInformationFsinn_parses | apply PlaneInfoRequestFsinn_parses ] : total.

(** A pending ATIS query is looked up only when there is one. *)
Lemma maybeHandleAtisReply_defined sender receiver message c :
  is_Some (m_pendingAtisQueries (session c) !! asString sender) ->
  is_Some (maybeHandleAtisReply sender receiver message c).
Proof using Type.
  intros Hp. unfold maybeHandleAtisReply. cbv zeta. rewrite get_bind.
  refine (total_bind _ _ (total_defined _ Hp) _ c). intros q. totals.
Qed.
Lemma total_handleTextMessage tokens : total (handleTextMessage tokens).
Proof using Type.
  unfold handleTextMessage. apply total_bind; [totals|]. intros m c. cbv zeta. rewrite get_bind.
  destruct (TextMessage.m_type m).
  - match goal with |- context [if ?b then _ else _] => destruct b eqn:E end.
    + apply andb_true_iff in E as [_ E%bool_decide_eq_true].
      by apply maybeHandleAtisReply_defined.
    + apply total_consolidate.
  - assert (total (if isEmpty (omap comActive (TextMessage.m_frequencies m)) then mret ()
        else emit (textMessagesReceived (map (fun f => radioMessage (TextMessage.m_message m) f
                (CCallsign_make (m_sender (TextMessage.base m)) NoHint) now)
                (omap comActive (TextMessage.m_frequencies m)))))) as Ht by totals.
    apply Ht.
Qed.
#[local] Hint Resolve total_handleTextMessage : total.
Lemma total_handleDeletePilot tokens : total (handleDeletePilot tokens).
Proof using Type. unfold handleDeletePilot, clearStateFor. totals. Qed.
Lemma total_handleServerError tokens : total (handleServerError tokens).
Proof using Type. unfold handleServerError, serverErrorLog. totals. Qed.
Lemma total_handleClientQuery tokens : total (handleClientQuery tokens).
Proof using Type. unfold handleClientQuery, sendAircraftConfiguration. totals. Qed.
Lemma total_handleClientResponse tokens : total (handleClientResponse tokens).
Proof using Type. unfold handleClientResponse. totals. Qed.
#[local] Hint Resolve total_handleDeletePilot total_handleServerError total_handleClientQuery
  total_handleClientResponse : total.

Lemma handleAtcDataUpdate_undefined tokens c :
  handleAtcDataUpdate tokens c = None <-> length tokens = 7%nat.
Proof using Type.
  unfold handleAtcDataUpdate. rewrite <- AtcDataUpdate_undefined.
  apply defined_bind_undefined. intros m. totals.
Qed.

Lemma handleCustomPilotPacket_undefined tokens c :
  handleCustomPilotPacket tokens c = None <-> (length tokens < 3)%nat.
Proof using Type.
  unfold handleCustomPilotPacket.
  destruct (tokens !! 2%nat) as [subType|] eqn:E.
  - split; [|apply lookup_lt_Some in E; lia]. intros []%total_not_None.
    assert (is_Some (tokens !! 0%nat)).
    { apply lookup_lt_is_Some_2. apply lookup_lt_Some in E. lia. }
    apply total_bind; [by apply total_defined; eexists|]. intros s.
    unfold sendPlaneInformation, sendPlaneInformationFsinn. totals. by apply total_defined.
  - apply lookup_ge_None_1 in E. by split; [lia|].
Qed.

(** Which messages no handler is defined on. *)
Definition outOfRange (messageType : MessageType.t) (tokens : QStringList) : Prop :=
  match messageType with
  | MessageType.AtcDataUpdate => length tokens = 7%nat
  | MessageType.PilotClientCom => (length tokens < 3)%nat
  | _ => False
  end.

Lemma handleMessage_undefined ty tokens c :
  handleMessage ty tokens c = None <-> outOfRange ty tokens.
Proof using Type.
  destruct ty; simpl; try apply handleAtcDataUpdate_undefined;
    try apply handleCustomPilotPacket_undefined;
    (split; [|done]; intros []%total_not_None); try solve [totals];
    unfold handleDeleteATC, handleEuroscopeSimData, handleFlightPlan, handleKillRequest,
      handlePilotDataUpdate, handlePing, handlePong, sendPong, handleMute, handleRehost,
      handleVisualPilotDataToggle, handleVisualPilotDataUpdate, handleUnknownPacket; totals.
Qed.

(** C3: every line of the server is handled, but for those whose tokens the
    code reads past the end of: an ATC position of exactly seven fields, and a
    custom pilot packet of fewer than three.  On all others, known or unknown,
    complete or not, [parseMessage] runs to its end. *)
Theorem parseMessage_defined lineRaw c :
  parseMessage lineRaw c = None <->
  exists ty tokens, splitLine m_messageTypeMapping lineRaw = Message ty tokens /\
                    outOfRange ty tokens.
Proof using Type.
  unfold parseMessage. destruct (splitLine _ _) as [line | ty | ty tokens] eqn:E.
  3: { transitivity (outOfRange ty tokens); [|naive_solver].
       apply bind_undefined; [totals | intros _ c1].
       apply bind_undefined; [totals | intros _ c2]. apply handleMessage_undefined. }
  all: split; [intros []%total_not_None; unfold handleUnknownPacket; totals | naive_solver].
Qed.
End client.
