(* ===== verification/FsdFraming.v ===== *)
(** * The WebSocket stream

    However the bytes of the server are cut into WebSocket messages, the client
    handles the same lines.  A command that does not close the transport neither
    reads nor changes the bytes that wait in the read buffer ([framed]). *)

From S2P Require Export FsdLine.

Section framed.
Context {J : QtJson}.

(** The client with more bytes at the end of the buffer. *)
Definition ext (b : list N) (c : CFSDClient) : CFSDClient :=
  c <| m_webSocketReadBuffer ::= fun x => x ++ b |>.

(** A run never adds to the buffer; one that leaves the transport open leaves
    the buffer as it is, and runs alike with more bytes waiting. *)
Definition framed {A} (m : Cmd A) : Prop :=
  forall b c x c' o, m c = Some (x, c', o) ->
  (length (m_webSocketReadBuffer c') <= length (m_webSocketReadBuffer c))%nat /\
  (CloseTransport ∈ o \/ m_webSocketReadBuffer c' = m_webSocketReadBuffer c /\
                         m (ext b c) = Some (x, ext b c', o)).

Lemma framed_ret {A} (x : A) : framed (mret x).
Proof using Type. intros b c y c' o [= <- <- <-]. split; [done | by right]. Qed.
Lemma framed_modify f :
  (forall b c, m_webSocketReadBuffer (f c) = m_webSocketReadBuffer c /\ f (ext b c) = ext b (f c)) ->
  framed (modify f).
Proof using Type.
  intros Hf b c y c' o [= <- <- <-]. unfold modify. destruct (Hf b c) as [-> ->].
  split; [done | by right].
Qed.
Lemma framed_output o : framed (output o).
Proof using Type. intros b c y c' o' [= <- <- <-]. split; [done | by right]. Qed.
Lemma framed_defined {A} (x : option A) : framed (defined x).
Proof using Type.
  intros b c y c' o'. unfold defined. destruct x; intros [= <- <- <-]. split; [done | by right].
Qed.
Lemma framed_bind {A B} (m : Cmd A) (k : A -> Cmd B) :
  framed m -> (forall x, framed (k x)) -> framed (m ≫= k).
Proof using Type.
  intros Hm Hk b c y c' o. unfold mbind, Cmd_bind.
  destruct (m c) as [[[x c1] o1]|] eqn:E1; [|done].
  destruct (k x c1) as [[[z c2] o2]|] eqn:E2; [|done]. intros [= <- <- <-].
  destruct (Hm b _ _ _ _ E1) as [H1 Hm'], (Hk x b _ _ _ _ E2) as [H2 Hk'].
  split; [lia|].
  destruct Hm' as [Hc | [<- ->]]; [left; set_solver|].
  destruct Hk' as [Hc | [<- ->]]; [left; set_solver | by right].
Qed.
(** What reads the state reads it apart from the buffer. *)
Lemma framed_get {B} (k : CFSDClient -> Cmd B) :
  (forall b c, k (ext b c) = k c) -> (forall x, framed (k x)) -> framed (get ≫= k).
Proof using Type. intros Hk Hf b c y c' o. rewrite !get_bind, Hk. apply Hf. Qed.
Lemma framed_when b m : framed m -> framed (when b m).
Proof using Type. destruct b; [done | intros _; apply framed_ret]. Qed.
Lemma framed_forEach {A} (f : A -> Cmd unit) l : (forall x, framed (f x)) -> framed (forEach f l).
Proof using Type. intros Hf. induction l; simpl; [apply framed_ret | by apply framed_bind]. Qed.
End framed.

Create HintDb framed discriminated.
Ltac same_state := let b := fresh in let c := fresh in intros b c; destruct c; try split; reflexivity.
Ltac framed_step :=
  match goal with
  | |- framed (mret _) => apply framed_ret
  | |- framed (defined _) => apply framed_defined
  | |- framed (modify _) => apply framed_modify; same_state
  | |- framed (output _) => apply framed_output
  | |- framed (emit _) => apply framed_output
  | |- framed (log _ _) => apply framed_output
  | |- framed (setSession _) => apply framed_modify; same_state
  | |- framed (setPresets _) => apply framed_modify; same_state
  | |- framed (enqueue _) => apply framed_modify; same_state
  | |- framed (mbind _ get) => apply framed_get; [same_state | intros ?]
  | |- framed (mbind _ _) => apply framed_bind; [| intros ?]
  | |- framed (when _ _) => apply framed_when
  | |- framed (forEach _ _) => apply framed_forEach; intros ?
  | |- framed (let _ := _ in _) => cbv zeta
  | |- framed (if ?b then _ else _) => destruct b
  | |- framed (match ?x with _ => _ end) => destruct x
  end.
Ltac frames := repeat (cbv beta; first [ solve [ eauto with framed nocore ] | framed_step ]).

Section client.
Context `{QtConv, BC : BuildConfig} {J : QtJson} {W : World}.

Lemma framed_statistics i a : framed (increaseStatisticsValue i a).
Proof using Type.
  apply framed_modify. intros b c. unfold increaseStatistics. destruct c; simpl. by case_match; split.
Qed.
#[local] Hint Resolve framed_statistics : framed.
Lemma framed_raw m b : framed (emitRawFsdMessage m b).
Proof using Type. unfold emitRawFsdMessage. frames. Qed.
#[local] Hint Resolve framed_raw : framed.
Lemma framed_sendString m : framed (sendMessageString m).
Proof using Type. unfold sendMessageString. frames. Qed.
#[local] Hint Resolve framed_sendString : framed.
Lemma framed_queueMessage {M} `{FsdMessage M} (m : M) : framed (queueMessage m).
Proof using Type. unfold queueMessage, sendDirectMessage. frames. Qed.
#[local] Hint Resolve framed_queueMessage : framed.
Lemma framed_updateConnectionStatus s : framed (updateConnectionStatus s).
Proof using Type.
  unfold updateConnectionStatus, stopPositionTimers, clearState, saveNetworkStatistics. frames.
Qed.
#[local] Hint Resolve framed_updateConnectionStatus : framed.
(** Closing the transport empties the buffer. *)
Lemma framed_closeTransport : framed closeTransport.
Proof using Type.
  unfold closeTransport. apply framed_get; [same_state|].
  intros x b c y c' o [= _ <- <-]. split; [|left; set_solver].
  destruct (usesWebSocket _); destruct c; simpl; lia.
Qed.
#[local] Hint Resolve framed_closeTransport : framed.
Lemma framed_disconnectFromServer : framed disconnectFromServer.
Proof using Type.
  unfold disconnectFromServer, stopPositionTimers, clearState, sendDeletePilot, sendDeleteAtc. frames.
Qed.
#[local] Hint Resolve framed_disconnectFromServer : framed.
Lemma framed_initiateConnection h : framed (initiateConnection h).
Proof using Type.
  unfold initiateConnection, resolveLoadBalancing, initiateWebSocketConnection, connectResolved,
    startPositionTimers. frames.
Qed.
#[local] Hint Resolve framed_initiateConnection : framed.
Lemma framed_consolidate m : framed (consolidateTextMessage m).
Proof using Type. unfold consolidateTextMessage, emitConsolidatedTextMessages. frames. Qed.
#[local] Hint Resolve framed_consolidate : framed.
Lemma framed_receivedPosition cs t : framed (receivedPositionFixTsAndGetOffsetTime cs t).
Proof using Type. unfold receivedPositionFixTsAndGetOffsetTime. frames. Qed.
#[local] Hint Resolve framed_receivedPosition : framed.
Lemma framed_sendClientResponse t r : framed (sendClientResponse t r).
Proof using Type. unfold sendClientResponse, handleIllegalFsdState. frames. Qed.
#[local] Hint Resolve framed_sendClientResponse : framed.
Lemma framed_updateAtisMap cs t l : framed (updateAtisMap cs t l).
Proof using Type. unfold updateAtisMap. frames. Qed.
#[local] Hint Resolve framed_updateAtisMap : framed.
Lemma framed_handleTextMessage tokens : framed (handleTextMessage tokens).
Proof using Type. unfold handleTextMessage, maybeHandleAtisReply. frames. Qed.
Lemma framed_handleClientQuery tokens : framed (handleClientQuery tokens).
Proof using Type. unfold handleClientQuery, sendAircraftConfiguration. frames. Qed.
Lemma framed_handleClientResponse tokens : framed (handleClientResponse tokens).
Proof using Type. unfold handleClientResponse. frames. Qed.
Lemma framed_handleCustomPilotPacket tokens : framed (handleCustomPilotPacket tokens).
Proof using Type.
  unfold handleCustomPilotPacket, sendPlaneInformation, sendPlaneInformationFsinn. frames.
Qed.
#[local] Hint Resolve framed_handleTextMessage framed_handleClientQuery framed_handleClientResponse
  framed_handleCustomPilotPacket : framed.
Lemma framed_handleMessage ty tokens : framed (handleMessage ty tokens).
Proof using Type.
  unfold handleMessage, handleAtcDataUpdate, handleDeleteATC, handleDeletePilot, clearStateFor,
    handleEuroscopeSimData, handleFlightPlan, handleKillRequest, handlePilotDataUpdate, handlePing,
    handlePong, sendPong, handleMute, handleRehost, handleServerError, serverErrorLog,
    handleVisualPilotDataToggle, handleVisualPilotDataUpdate, handleUnknownPacket.
  frames.
Qed.
#[local] Hint Resolve framed_handleMessage : framed.
Lemma framed_parseMessage s : framed (parseMessage s).
Proof using Type. unfold parseMessage, handleUnknownPacket. frames. Qed.
End client.

(** ** Lines out of chunks *)

Section chunks.
Context `{QtConv, BC : BuildConfig} {J : QtJson} {W : World}.

Lemma ext_buffer b c : m_webSocketReadBuffer (ext b c) = m_webSocketReadBuffer c ++ b.
Proof using Type. by destruct c. Qed.

(** One line taken from the buffer and handled. *)
Definition readLine (codec : QString) (i : nat) (buffer : list N) : Cmd unit :=
  modify (fun c => c <| m_webSocketReadBuffer ::= drop (i + 1) |>);;
  when (negb (isEmpty (trimWith isByteSpace (take (i + 1) buffer))))
    (parseMessage (decode codec (take (i + 1) buffer))).

Lemma readWebSocketLines_step fuel c :
  readWebSocketLines (S fuel) c =
  match indexOf newline (m_webSocketReadBuffer c) with
  | None => Some (tt, c, [])
  | Some i => (readLine (m_codec (presets c)) i (m_webSocketReadBuffer c);; readWebSocketLines fuel) c
  end.
Proof using Type.
  simpl. rewrite get_bind. destruct (indexOf _ _) as [i|]; [|done].
  unfold readLine, mbind, Cmd_bind, modify. simpl.
  destruct (when _ _ _) as [[[x c1] o1]|]; [|done].
  by destruct (readWebSocketLines fuel c1) as [[[??]?]|].
Qed.

(** A line of the first chunk is handled alike when the next has come. *)
Lemma readLine_ext codec i b c c1 o1 :
  indexOf newline (m_webSocketReadBuffer c) = Some i ->
  readLine codec i (m_webSocketReadBuffer c) c = Some (tt, c1, o1) ->
  (length (m_webSocketReadBuffer c1) < length (m_webSocketReadBuffer c))%nat /\
  (CloseTransport ∈ o1 \/
   readLine codec i (m_webSocketReadBuffer (ext b c)) (ext b c) = Some (tt, ext b c1, o1)).
Proof using Type.
  intros Hi. pose proof (indexOf_lt _ _ _ Hi) as Hlt. unfold readLine.
  rewrite ext_buffer, take_app_le by lia.
  set (line := take (i + 1) (m_webSocketReadBuffer c)).
  set (k := when _ _ : Cmd unit).
  assert (Hk : framed k) by (apply framed_when, framed_parseMessage).
  unfold mbind, Cmd_bind, modify. destruct (k _) as [[[x c2] o2]|] eqn:E; [|done].
  intros [= -> <- <-]. destruct (Hk b _ _ _ _ E) as [Hl Hk']. split.
  { revert Hl. destruct c; simpl. rewrite length_drop. simpl in *. lia. }
  destruct Hk' as [Hc | [_ Hk']]; [by left | right].
  replace (_ <| m_webSocketReadBuffer ::= _ |>) with
    (ext b (c <| m_webSocketReadBuffer ::= drop (i + 1) |>)); [by rewrite Hk'|].
  destruct c; unfold ext; simpl in *. by rewrite drop_app_le by lia.
Qed.

#[local] Abbreviation pending c := (length (m_webSocketReadBuffer c)).

(** Handling the next line, then the rest. *)
Lemma lines_step n c i c1 o1 :
  indexOf newline (m_webSocketReadBuffer c) = Some i ->
  readLine (m_codec (presets c)) i (m_webSocketReadBuffer c) c = Some (tt, c1, o1) ->
  readWebSocketLines (S n) c =
  match readWebSocketLines n c1 with Some (y, c2, o2) => Some (y, c2, o1 ++ o2) | None => None end.
Proof using Type. intros Hi Hr. rewrite readWebSocketLines_step, Hi. by apply bind_run. Qed.

(** As many turns as bytes are enough. *)
Lemma lines_fuel n m c :
  (pending c <= n)%nat -> (pending c <= m)%nat -> readWebSocketLines n c = readWebSocketLines m c.
Proof using Type.
  revert m c. induction n as [|n IH]; intros [|m] c Hn Hm; [done| | |].
  1,2: rewrite readWebSocketLines_step; destruct (indexOf _ _) eqn:E; [|done];
       apply indexOf_lt in E; lia.
  rewrite !readWebSocketLines_step. destruct (indexOf _ _) as [i|] eqn:E; [|done].
  unfold mbind, Cmd_bind. destruct (readLine _ _ _ c) as [[[[] c1] o1]|] eqn:Er; [|done].
  destruct (readLine_ext _ _ [] _ _ _ E Er) as [Hl _]. rewrite (IH m) by lia. done.
Qed.

Lemma lines_chunk n b c c1 o1 :
  (pending c <= n)%nat -> readWebSocketLines n c = Some (tt, c1, o1) ->
  (pending c1 <= pending c)%nat /\
  (CloseTransport ∈ o1 \/
   forall m, (pending c + length b <= m)%nat ->
   readWebSocketLines m (ext b c) =
   match readWebSocketLines m (ext b c1) with
   | Some (y, c2, o2) => Some (y, c2, o1 ++ o2) | None => None
   end).
Proof using Type.
  revert c c1 o1. induction n as [|n IH]; intros c c1 o1 Hn.
  - intros [= <- <-]. split; [done|right]. intros m _.
    by destruct (readWebSocketLines m _) as [[[??]?]|].
  - destruct (indexOf newline (m_webSocketReadBuffer c)) as [i|] eqn:Ei.
    2: { rewrite readWebSocketLines_step, Ei. intros [= <- <-]. split; [done|right]. intros m _.
         by destruct (readWebSocketLines m _) as [[[??]?]|]. }
    destruct (readLine (m_codec (presets c)) i (m_webSocketReadBuffer c) c) as [[[[] c2] o2]|] eqn:Er.
    2: { rewrite readWebSocketLines_step, Ei. unfold mbind, Cmd_bind. by rewrite Er. }
    rewrite (lines_step _ _ _ _ _ Ei Er).
    destruct (readWebSocketLines n c2) as [[[[] c3] o3]|] eqn:E2; [|done]. intros [= <- <-].
    destruct (readLine_ext _ _ b _ _ _ Ei Er) as [Hl Hr].
    destruct (IH c2 c3 o3 ltac:(lia) E2) as [Hl' HIH]. split; [lia|].
    destruct Hr as [Hr|Hr]; [left; set_solver|]. destruct HIH as [HIH|HIH]; [left; set_solver|].
    right. intros [|m] Hm; [apply indexOf_lt in Ei; lia|].
    assert (Ei' : indexOf newline (m_webSocketReadBuffer (ext b c)) = Some i)
      by (rewrite ext_buffer; by apply indexOf_app).
    rewrite (lines_step _ _ _ _ _ Ei' Hr), (HIH m) by lia.
    rewrite (lines_fuel m (S m)) by (rewrite ext_buffer, length_app; lia).
    destruct (readWebSocketLines (S m) _) as [[[??]?]|]; [|done]. by rewrite app_assoc.
Qed.

Lemma readDataFromWebSocket_eq a c :
  a <> [] -> readDataFromWebSocket a c = readWebSocketLines (pending c + length a) (ext a c).
Proof using Type.
  intros Ha. destruct a as [|x a]; [done|]. unfold readDataFromWebSocket.
  change (isEmpty (x :: a)) with false. cbv iota.
  rewrite (bind_run _ _ c (ext (x :: a) c) []) by done.
  rewrite get_bind, ext_buffer, length_app. by destruct (readWebSocketLines _ _) as [[[??]?]|].
Qed.
Lemma ext_ext a b c : ext b (ext a c) = ext (a ++ b) c.
Proof using Type. destruct c; unfold ext; simpl. by rewrite app_assoc. Qed.

(** C25: the stream of a WebSocket server is independent of its chunks.  Two
    messages one after the other have the same effect on the client, and the
    same outputs, as one message with the bytes of both, provided that the
    first does not make the client close the connection. *)
Theorem websocket_chunks a b c c1 o1 :
  a <> [] -> readDataFromWebSocket a c = Some (tt, c1, o1) -> CloseTransport ∉ o1 ->
  readDataFromWebSocket (a ++ b) c = (readDataFromWebSocket a;; readDataFromWebSocket b) c.
Proof using Type.
  intros Ha Hrun Hc. rewrite (bind_run _ _ _ _ _ Hrun).
  destruct (decide (b = [])) as [->|Hb]; [by rewrite app_nil_r, Hrun; simpl; rewrite app_nil_r|].
  rewrite readDataFromWebSocket_eq by (by destruct a). rewrite (readDataFromWebSocket_eq b) by done.
  rewrite readDataFromWebSocket_eq in Hrun by done. rewrite <- ext_ext.
  assert (Hp : pending (ext a c) = (pending c + length a)%nat) by (by rewrite ext_buffer, length_app).
  destruct (lines_chunk _ b _ _ _ (Nat.eq_le_incl _ _ Hp) Hrun) as [Hl [Hm|Hm]]; [done|].
  rewrite Hm by (rewrite length_app; lia).
  rewrite (lines_fuel _ (pending c1 + length b)) by (rewrite ext_buffer, !length_app; lia). done.
Qed.
End chunks.

(** A text message cut in two. *)
Definition refWebSocketClient : CFSDClient :=
  (refClient Pilot) <| presets -> m_server := mkServer (lit "Test") (lit "host") 443 (lit "wss")
    (lit "/fsd") false 2 refSetup (-1) (lit "1234567") (lit "geheim") (lit "Kermit")
    (lit "Kermit EDDM") CCallsign_default true |>.

Lemma websocket_chunks_witness :
  let W := refWorld 1000 true in
  let a := lit "$PISERVER:DLH" in let b := lit "123:17" ++ [13; 10]%N in
  readDataFromWebSocket (a ++ b) refWebSocketClient =
    (readDataFromWebSocket a;; readDataFromWebSocket b) refWebSocketClient /\
  option_map (fun r => length (m_queuedFsdMessages (session r.1.2)))
    (readDataFromWebSocket (a ++ b) refWebSocketClient) = Some 1%nat.
Proof.
  split; [|vm_compute; reflexivity].
  eapply websocket_chunks; [discriminate | vm_compute; reflexivity | by intros ?%not_elem_of_nil].
Defined.
