(* ===== verification/FsdQueue.v ===== *)
(** * The send queue and what is written

    How many of the queued messages the timer sends, in which order; and what of
    the login the raw message log shows. *)

From S2P Require Export FsdLine.

Section queue.
Context `{QtConv} {J : QtJson} {W : World}.

Definition written (o : Out) : option (list N) :=
  match o with WriteTransport d => Some d | _ => None end.
(** What the transport gets for a list of messages: an empty one is not sent. *)
Definition onWire (c : CFSDClient) (l : list QString) : list (list N) :=
  encode (m_codec (presets c)) <$> filter (fun m => m <> []) l.
Definition queue (c : CFSDClient) : list QString := m_queuedFsdMessages (session c).

Definition enqueued (message : QString) (s : Session) : Session :=
  s <| m_queuedFsdMessages ::= fun q => q ++ [message] |>.

Lemma queueMessage_run {M} `{FsdMessage M} (m : M) c :
  m_unitTestMode c = false -> m_isValid (msg_base m) = true ->
  queueMessage m c = Some (tt, c <| session ::= enqueued (messageToFSDString m) |>, []).
Proof using Type.
  intros Hu Hv. unfold queueMessage. rewrite Hv. cbn [negb]. by rewrite get_bind, Hu.
Qed.

(** A command that sends the first [k] queued messages, if there are so many. *)
Definition drains (k : nat) (m : Cmd unit) : Prop :=
  forall c, m_unitTestMode c = false -> (k <= length (queue c))%nat ->
  exists c' o, m c = Some (tt, c', o) /\ m_unitTestMode c' = false /\ presets c' = presets c /\
               queue c' = drop k (queue c) /\ omap written o = onWire c (take k (queue c)).

Lemma drains_bind j k m m' : drains j m -> drains k m' -> drains (j + k) (m;; m').
Proof using Type.
  intros Hm Hm' c Hu Hl. destruct (Hm c Hu ltac:(lia)) as (c1 & o1 & E1 & Hu1 & Hp1 & Hq1 & Ho1).
  destruct (Hm' c1 Hu1) as (c2 & o2 & E2 & Hu2 & Hp2 & Hq2 & Ho2).
  { rewrite Hq1, length_drop. lia. }
  exists c2, (o1 ++ o2). unfold mbind, Cmd_bind. rewrite E1, E2. split_and!; [done | done | congruence | |].
  - by rewrite Hq2, Hq1, drop_drop.
  - rewrite omap_app, Ho1, Ho2, Hq1. unfold onWire. rewrite Hp1.
    by rewrite <- fmap_app, <- filter_app, take_take_drop.
Qed.
Lemma drains_times n k m : drains k m -> drains (n * k) (times n m).
Proof using Type.
  intros Hm. induction n as [|n IH]; simpl; [|by apply drains_bind].
  intros c Hu _. by exists c, [].
Qed.
Lemma drains_when (b : bool) k m : drains k m -> drains (if b then k else 0) (when b m).
Proof using Type. destruct b; [done|]. intros _ c Hu _. by exists c, []. Qed.
Lemma drains_log s t : drains 0 (log s t).
Proof using Type. intros c Hu _. by exists c, [Log s t]. Qed.

(** The raw message log writes nothing to the transport. *)
Lemma emitRaw_run m b c :
  exists c' o, emitRawFsdMessage m b c = Some (tt, c', o) /\
    m_unitTestMode c' = m_unitTestMode c /\ presets c' = presets c /\ queue c' = queue c /\
    omap written o = [].
Proof using Type.
  unfold emitRawFsdMessage. rewrite get_bind. destruct (_ && _); [by exists c, []|].
  destruct (m_filterPasswordFromLogin c && _); eexists _, _; split_and!; try reflexivity; by destruct c.
Qed.

Lemma sendMessageString_run m c :
  m_unitTestMode c = false ->
  exists c' o, sendMessageString m c = Some (tt, c', o) /\ m_unitTestMode c' = false /\
               presets c' = presets c /\ queue c' = queue c /\ omap written o = onWire c [m].
Proof using Type.
  intros Hu. unfold sendMessageString. destruct m as [|x m]; [by exists c, []|].
  change (isEmpty (x :: m)) with false. cbv iota. rewrite get_bind, Hu.
  destruct (emitRaw_run (trimmed (x :: m)) true c) as (c' & o & E & Hu' & Hp & Hq & Ho).
  exists c', (WriteTransport (encode (m_codec (presets c)) (x :: m)) :: o).
  unfold mbind, Cmd_bind. simpl. rewrite E. split_and!; try congruence.
  transitivity (encode (m_codec (presets c)) (x :: m) :: []); [exact (f_equal (cons _) Ho)|].
  unfold onWire. by rewrite filter_cons_True.
Qed.

Lemma drains_dequeue : drains 1 dequeueAndSend.
Proof using Type.
  intros c Hu Hl. unfold dequeueAndSend. rewrite get_bind. fold (queue c).
  destruct (queue c) as [|m q] eqn:Eq; simpl in Hl; [lia|].
  assert (E1 : setSession (fun s => s <| m_queuedFsdMessages := q |>) c =
               Some (tt, c <| session -> m_queuedFsdMessages := q |>, [])) by done.
  unfold mbind, Cmd_bind. rewrite E1.
  destruct (sendMessageString_run m (c <| session -> m_queuedFsdMessages := q |>))
    as (c' & o & E & Hu' & Hp & Hq & Ho); [exact Hu|].
  rewrite E. exists c', o. split_and!; try done; by rewrite Hq.
Qed.

(** The number of messages sent at once for a queue of [n]. *)
Definition burst (n : nat) : nat :=
  (let over k := if k <? n then 1 else 0 in
   if n =? 0 then 0
   else 1 + over 5 + over 10 + over 20 + over 30 +
        (if 50 <? n then if 100 <? n then 30 else if 75 <? n then 20 else 10 else 0))%nat.

Lemma burst_le n : (burst n <= n)%nat.
Proof using Type.
  unfold burst.
  repeat match goal with |- context [(?k <? n)%nat] => destruct (Nat.ltb_spec k n) end;
    destruct (Nat.eqb_spec n 0); lia.
Qed.

Lemma over_nat (n k : nat) z : z = Z.of_nat k -> (Z.of_nat n >? z) = (k <? n)%nat.
Proof using Type. intros ->. destruct (Z.gtb_spec (Z.of_nat n) (Z.of_nat k)), (Nat.ltb_spec k n); lia. Qed.

(** C24: the send timer.  At every tick the client takes the [burst] first
    messages off a queue of [n] messages - one, and more the longer the queue
    is, never more than it holds - and writes them to the transport in the order
    in which they were queued; the queue keeps the others in their order. *)
Theorem sendQueuedMessage_fifo c :
  m_unitTestMode c = false ->
  exists c' o, sendQueuedMessage c = Some (tt, c', o) /\
    queue c' = drop (burst (length (queue c))) (queue c) /\
    omap written o = onWire c (take (burst (length (queue c))) (queue c)).
Proof using Type.
  intros Hu. unfold sendQueuedMessage. rewrite get_bind. fold (queue c). cbv zeta.
  destruct (queue c) as [|m q] eqn:Eq; [exists c, []; by rewrite Eq|]. rewrite <- Eq.
  set (n := length (queue c)). assert (Hn : (0 < n)%nat) by (subst n; rewrite Eq; simpl; lia).
  assert (Hd : drains (burst n) (
    dequeueAndSend;; when (Z.of_nat n >? 5) dequeueAndSend;; when (Z.of_nat n >? 10) dequeueAndSend;;
    when (Z.of_nat n >? 20) dequeueAndSend;; when (Z.of_nat n >? 30) dequeueAndSend;;
    when (Z.of_nat n >? 50)
      (log (if Z.of_nat n >? 75 then Warning_ else Info) "Too many queued messages (%1), bulk send!";;
       times (if Z.of_nat n >? 100 then 30 else if Z.of_nat n >? 75 then 20 else 10) dequeueAndSend))).
  { assert (burst n = (1 + ((if 5 <? n then 1 else 0) + ((if 10 <? n then 1 else 0) +
      ((if 20 <? n then 1 else 0) + ((if 30 <? n then 1 else 0) + (if 50 <? n
       then 0 + (if 100 <? n then 30 else if 75 <? n then 20 else 10) * 1 else 0))))))%nat) as ->.
    { unfold burst. destruct (Nat.eqb_spec n 0); [lia|]. repeat case_match; lia. }
    rewrite (over_nat n 5 5), (over_nat n 10 10), (over_nat n 20 20), (over_nat n 30 30),
      (over_nat n 50 50), (over_nat n 75 75), (over_nat n 100 100) by done.
    repeat apply drains_bind; try (apply drains_when); try apply drains_dequeue.
    apply drains_bind; [apply drains_log | apply drains_times, drains_dequeue]. }
  destruct (Z.eqb_spec (Z.of_nat n) 0); [lia|].
  destruct (Hd c Hu (burst_le n)) as (c' & o & E & _ & _ & Hq & Ho). eauto.
Qed.
End queue.

(** A queue of twelve. *)
Definition refQueue : list QString := map (fun n => lit "$AX" ++ qt_number (Z.of_nat n)) (seq 1 12).
Definition refQueueClient : CFSDClient :=
  (refClient Pilot) <| session -> m_queuedFsdMessages := refQueue |>.
Lemma sendQueuedMessage_fifo_witness :
  let W := refWorld 1000 true in
  burst 12 = 3%nat /\
  exists c' o, sendQueuedMessage refQueueClient = Some (tt, c', o) /\
    queue c' = drop (burst (length (queue refQueueClient))) (queue refQueueClient) /\
    omap written o = onWire refQueueClient (take (burst (length (queue refQueueClient))) (queue refQueueClient)).
Proof. split; [reflexivity|]. apply (sendQueuedMessage_fifo refQueueClient). reflexivity. Defined.

(** ** The password in the raw message log *)

Section password.
Context `{QtConvLaws} {J : QtJson} {W : World}.

Lemma qt_number_digits n : 0 <= n -> digitsText (qt_number n) = true.
Proof using All.
  intros Hn. revert n Hn.
  apply (Zlt_0_ind (fun n => digitsText (qt_number n) = true)). intros n IH Hn.
  destruct (decide (n < 10)) as [Hs|Hs].
  - rewrite qt_number_small by lia. unfold digitsText, is09. simpl. rewrite andb_true_r.
    apply andb_true_iff; split; apply N.leb_le; lia.
  - rewrite qt_number_digit by lia. pose proof (IH (n / 10)) as IHn. unfold digitsText in *.
    pose proof (Z.div_mod n 10). pose proof (Z.mod_pos_bound n 10).
    rewrite forallb_app. specialize (IHn ltac:(lia)). apply andb_true_iff in IHn as [Hne ->].
    destruct (qt_number (n / 10)); [done|]. simpl. rewrite andb_true_r.
    apply andb_true_iff; split; apply N.leb_le; lia.
Qed.

Lemma split_join_last c l s :
  Forall (fun t => c ∉ t) l -> split c (join [c] (l ++ [s])) = l ++ split c s.
Proof using Type.
  induction 1 as [|x l Hx _ IH]; [done|].
  transitivity (split c (x ++ c :: join [c] (l ++ [s]))); [f_equal; by destruct l|].
  by rewrite split_app, IH.
Qed.
Lemma join_split_last c l s : join [c] (l ++ split c s) = join [c] (l ++ [s]).
Proof using Type.
  induction l as [|x l IH]; [apply join_split|].
  transitivity (x ++ [c] ++ join [c] (l ++ split c s)).
  - simpl. pose proof (split_nonempty c s) as Hne. by destruct l, (split c s).
  - rewrite IH. simpl. by destruct l.
Qed.
Lemma app_join p c x l : p ++ join [c] (x :: l) = join [c] ((p ++ x) :: l).
Proof using Type. destruct l; simpl; [done | by rewrite app_assoc]. Qed.

(** A login whose fields are of the form the filter looks for. *)
Definition loginFields (callsign cid password realName : QString) (protocolRevision : Z) : Prop :=
  callsign <> [] /\ forallb isWordChar callsign = true /\ digitsText cid = true /\
  password <> [] /\ (colon ∉ password) /\ 0 <= protocolRevision /\
  realName <> [] /\ 10%N ∉ realName.

Lemma digits_no_colon s : digitsText s = true -> colon ∉ s.
Proof using Type.
  unfold digitsText. intros [_ Hs]%andb_true_iff Hc. rewrite forallb_forall in Hs.
  apply list_elem_of_In, Hs in Hc. by vm_compute in Hc.
Qed.
Lemma wordChars_no_colon s : forallb isWordChar s = true -> colon ∉ s.
Proof using Type.
  intros Hs Hc. rewrite forallb_forall in Hs. apply list_elem_of_In, Hs in Hc. by vm_compute in Hc.
Qed.
Lemma rating_digits (r : PilotRating.t) : digitsText (PilotRating.toQString r) = true.
Proof using Type. by destruct r. Qed.
Lemma simType_digits (t : SimType.t) : digitsText (SimType.toQString t) = true.
Proof using Type. by destruct t. Qed.

Lemma filterPassword_fields callsign cid password t4 t5 t6 name :
  loginFields callsign cid password name 0 ->
  digitsText t4 = true -> digitsText t5 = true -> digitsText t6 = true ->
  filterPassword (join [colon] ([lit "#AP" ++ callsign; SERVER; cid; password; t4; t5; t6] ++ [name])) =
  join [colon] ([lit "#AP" ++ callsign; SERVER; cid; lit "<password>"; t4; t5; t6] ++ [name]).
Proof using Type.
  intros (Hcs & Hcsw & Hcid & Hpw & Hpwc & _ & Hn & Hnl) H4 H5 H6. unfold filterPassword.
  assert (Hs : startsWith (lit "#AP" ++ callsign) (lit "#AP") = true) by apply startsWith_app.
  assert (Hd : drop 3 (lit "#AP" ++ callsign) = callsign) by done.
  assert (Hc : colon ∉ lit "#AP" ++ callsign).
  { apply not_elem_of_app. split; [apply (bool_decide_unpack _); by vm_compute|].
    by apply wordChars_no_colon. }
  set (t0 := lit "#AP" ++ callsign) in *. clearbody t0.
  rewrite split_join_last by (repeat constructor; auto using digits_no_colon, noColon_SERVER).
  cbn [app]. rewrite Hs, Hd, Hcsw, Hcid, H4, H5, H6, join_split.
  rewrite (bool_decide_eq_false_2 (10%N ∈ name)) by done.
  destruct callsign; [done|]. destruct password; [done|]. destruct name as [|x name]; [done|].
  change (eqs SERVER "SERVER") with true. simpl negb. cbv iota. simpl andb. cbv iota.
  exact (join_split_last colon [t0; SERVER; cid; lit "<password>"; t4; t5; t6] (x :: name)).
Qed.

(** The text of a login, without its line end. *)
Definition loginLine {M} `{FsdMessage M} (m : M) : QString := pdu (M := M) ++ join [colon] (toTokens m).

(** The password in the raw message log.  The first pilot login the client
    logs after connecting shows "<password>" in place of the password, all its
    other fields as they are, and ends the filtering; the login of an observer
    is logged with its password. *)
Theorem login_password_logged callsign cid password rating rev sim name atcRating c :
  loginFields callsign cid password name rev ->
  m_rawFsdMessagesEnabled c = true -> m_filterPasswordFromLogin c = true ->
  let pilot password := loginLine (AddPilot.make callsign cid password rating rev sim name) in
  let observer := loginLine (AddAtc.make callsign name cid password atcRating rev) in
  emitRawFsdMessage (pilot password) true c =
    Some (tt, c <| m_filterPasswordFromLogin := false |>,
          [Emit (rawFsdMessage (lit "FSD Sent=>" ++ pilot (lit "<password>")))]) /\
  emitRawFsdMessage observer true c =
    Some (tt, c, [Emit (rawFsdMessage (lit "FSD Sent=>" ++ observer))]).
Proof using All.
  intros Hf Hraw Hflag pilot observer.
  assert (Hpilot : filterPassword (pilot password) = pilot (lit "<password>")).
  { subst pilot. unfold loginLine. simpl toTokens. unfold AddPilot.toTokens. rewrite !app_join.
    destruct Hf as (? & ? & ? & ? & ? & ? & ? & ?).
    assert (loginFields callsign cid password name 0) by (unfold loginFields; split_and!; (done || lia)).
    apply (filterPassword_fields callsign cid password);
      auto using rating_digits, simType_digits, qt_number_digits. }
  assert (Hp : startsWith (pilot password) (lit "#AP") = true) by apply startsWith_app.
  assert (Ho : startsWith observer (lit "#AP") = false) by done.
  clearbody pilot observer. unfold emitRawFsdMessage. rewrite !get_bind, Hraw, Hflag, Hp, Ho, andb_false_r.
  unfold when. simpl. by rewrite Hpilot.
Qed.
End password.

Lemma login_password_logged_witness :
  let W := refWorld 1000 true in
  let c := (refClient Pilot) <| m_filterPasswordFromLogin := true |> in
  let pilot password := loginLine (AddPilot.make (lit "DLH123") (lit "1234567") password
                          PilotRating.Student 101 SimType.XPLANE11 (lit "Kermit EDDM")) in
  let observer := loginLine (AddAtc.make (lit "DLH123") (lit "Kermit EDDM") (lit "1234567")
                               (lit "geheim") AtcRating.Observer 101) in
  emitRawFsdMessage (pilot (lit "geheim")) true c =
    Some (tt, c <| m_filterPasswordFromLogin := false |>,
          [Emit (rawFsdMessage (lit "FSD Sent=>" ++ pilot (lit "<password>")))]) /\
  emitRawFsdMessage observer true c =
    Some (tt, c, [Emit (rawFsdMessage (lit "FSD Sent=>" ++ observer))]).
Proof.
  intros W c pilot observer.
  apply (login_password_logged (lit "DLH123") (lit "1234567") (lit "geheim") PilotRating.Student 101
           SimType.XPLANE11 (lit "Kermit EDDM") AtcRating.Observer c); [|reflexivity..].
  unfold loginFields. split_and!; try (vm_compute; congruence);
    apply (bool_decide_unpack _); vm_compute; exact I.
Defined.
