(* ===== verification/FsdConnection.v ===== *)
(** * Ending a connection

    What [disconnectFromServer] leaves behind, and the three ways the client
    gets there by itself: a pending connection that takes too long, a fatal
    error of the server, and a kill request. *)

From S2P Require Export FsdQueue FsdInvariant.

Section connection.
Context `{QtConv, BC : BuildConfig} {J : QtJson} {W : World}.

(** The signals of a run. *)
Definition emitted (o : Out) : option Signal := match o with Emit s => Some s | _ => None end.

(** Closing the transport. *)
Definition closing (o : Out) : option unit := match o with CloseTransport => Some tt | _ => None end.

(** The client when it is disconnected: the session is cleared, the timers are
    stopped, and what the transport had received is dropped. *)
Definition disconnected (c : CFSDClient) : CFSDClient :=
  let c := c <| presets -> m_server -> server_timestamp := -1 |> <| session := Session_cleared |>
             <| timers := Timers_stopped |> <| m_connectionStatus := Disconnected |> in
  if usesWebSocket (getServer c) then c <| m_webSocketReadBuffer := [] |>
  else c <| m_socketLines := [] |>.

(** The steps of [updateConnectionStatus] for the two states. *)
Lemma update_disconnecting c :
  m_connectionStatus c <> Disconnecting ->
  updateConnectionStatus Disconnecting c =
  Some (tt, c <| presets -> m_server -> server_timestamp := -1 |> <| m_connectionStatus := Disconnecting |>,
        [Emit (connectionStatusChanged (m_connectionStatus c) Disconnecting)]).
Proof using Type.
  intros Hs. unfold updateConnectionStatus. rewrite get_bind, decide_False by done.
  by destruct c as [[[]]].
Qed.
Lemma update_disconnected c :
  m_connectionStatus c <> Disconnected ->
  exists o, updateConnectionStatus Disconnected c =
    Some (tt, c <| presets -> m_server -> server_timestamp := -1 |> <| timers := Timers_stopped |>
                <| session := Session_cleared |> <| m_connectionStatus := Disconnected |>, o) /\
    omap statusChange o = [(m_connectionStatus c, Disconnected)] /\ omap written o = [] /\
    omap closing o = [].
Proof using Type.
  intros Hs. unfold updateConnectionStatus. rewrite get_bind, decide_False by done.
  unfold saveNetworkStatistics, stopPositionTimers, clearState, when, modify, output, emit, mbind,
    Cmd_bind, get.
  destruct (bool_decide (m_callStatistics c = ∅)) eqn:E; destruct c as [[[]]]; simpl in *; rewrite E;
    eexists; split_and!; reflexivity.
Qed.


Lemma goodbye_run c :
  m_unitTestMode c = false ->
  exists c', when (isTransportConnected c)
      (match m_loginMode (presets c) with Pilot => sendDeletePilot | Observer => sendDeleteAtc end) c
    = Some (tt, c', []) /\
    disconnected c' = disconnected c /\ m_connectionStatus c' = m_connectionStatus c /\
    usesWebSocket (getServer c') = usesWebSocket (getServer c).
Proof using Type.
  intros Hu. destruct (isTransportConnected c); [|by exists c].
  destruct (m_loginMode (presets c)); unfold when, sendDeletePilot, sendDeleteAtc, queueMessage;
    rewrite get_bind;
    match goal with |- context [negb ?b] => change (negb b) with false end; cbv iota;
    rewrite get_bind, Hu; eexists; split_and!;
    try reflexivity; by destruct c as [[[]] []].
Qed.

Lemma closeTransport_run c :
  closeTransport c = Some (tt, if usesWebSocket (getServer c) then c <| m_webSocketReadBuffer := [] |>
                               else c <| m_socketLines := [] |>, [CloseTransport]).
Proof using Type. unfold closeTransport. by rewrite get_bind. Qed.

Lemma disconnect_run c :
  m_unitTestMode c = false ->
  exists o, disconnectFromServer c = Some (tt, disconnected c, o) /\
    omap written o = [] /\ omap closing o = [tt] /\
    omap statusChange o =
      (if decide (m_connectionStatus c = Disconnecting) then []
       else [(m_connectionStatus c, Disconnecting)]) ++ [(Disconnecting, Disconnected)].
Proof using Type.
  intros Hu. set (c1 := c <| timers := Timers_stopped |>).
  assert (E1 : exists c2 o2, updateConnectionStatus Disconnecting c1 = Some (tt, c2, o2) /\
    disconnected c2 = disconnected c /\ m_connectionStatus c2 = Disconnecting /\
    m_unitTestMode c2 = false /\ omap written o2 = [] /\ omap closing o2 = [] /\
    omap statusChange o2 = (if decide (m_connectionStatus c = Disconnecting) then []
                            else [(m_connectionStatus c, Disconnecting)])).
  { destruct (decide (m_connectionStatus c = Disconnecting)) as [Hs|Hs].
    - exists c1, []. unfold updateConnectionStatus. rewrite get_bind, decide_True by done.
      split_and!; try done; by destruct c as [[[]]].
    - rewrite update_disconnecting by done. eexists _, _. split_and!; try done; by destruct c as [[[]]]. }
  destruct E1 as (c2 & o2 & E2 & Hd2 & Hs2 & Hu2 & Hw2 & Hc2 & Hch2).
  destruct (goodbye_run c2 Hu2) as (c3 & E3 & Hd3 & Hs3 & Hws3).
  set (c4 := if usesWebSocket (getServer c3) then c3 <| m_webSocketReadBuffer := [] |>
             else c3 <| m_socketLines := [] |>).
  assert (Hs4 : m_connectionStatus c4 = Disconnecting)
    by (subst c4; destruct (usesWebSocket _), c3; simpl in *; congruence).
  destruct (update_disconnected c4) as (o5 & E5 & Hch5 & Hw5 & Hc5); [by rewrite Hs4|].
  exists ([] ++ o2 ++ [] ++ [CloseTransport] ++ o5 ++ []). split_and!.
  - unfold disconnectFromServer. rewrite (bind_run _ _ c c1 []) by done.
    rewrite (bind_run _ _ _ _ _ E2), get_bind, (bind_run _ _ _ _ _ E3).
    rewrite (bind_run _ _ c3 c4 [CloseTransport]) by apply closeTransport_run.
    rewrite (bind_run _ _ _ _ _ E5). unfold clearState, modify. f_equal. f_equal. f_equal.
    rewrite <- Hd2, <- Hd3. clear. subst c4. unfold disconnected.
    destruct (usesWebSocket (getServer c3)) eqn:E; destruct c3 as [[[]]];
      unfold usesWebSocket, getServer in *; simpl in *; by rewrite E.
  - rewrite !omap_app, Hw2, Hw5. done.
  - rewrite !omap_app, Hc2, Hc5. done.
  - rewrite !omap_app, Hch2, Hch5, Hs4. done.
Qed.

(** Disconnecting.  From every state, [disconnectFromServer] runs to its end
    and leaves the client disconnected: session cleared, send queue included,
    timers stopped, receive buffer empty; it closes the transport once and
    announces at most the change to Disconnecting and the one to Disconnected.
    Nothing is written before the transport is closed, so the delete message it
    queues for the server when connected is never sent. *)
Theorem disconnectFromServer_result c :
  m_unitTestMode c = false ->
  exists o, disconnectFromServer c = Some (tt, disconnected c, o) /\
    omap written o = [] /\ omap closing o = [tt] /\
    omap statusChange o =
      (if decide (m_connectionStatus c = Disconnecting) then []
       else [(m_connectionStatus c, Disconnecting)]) ++ [(Disconnecting, Disconnected)].
Proof using Type. apply disconnect_run. Qed.

(** ** A fatal error of the server *)

(** A log entry. *)
Definition isLog (o : Out) : Prop := match o with Log _ _ => True | _ => False end.

(** Errors of the server.  A server error the client takes as fatal
    disconnects it; any other, known or unknown, is logged at most and leaves
    the client as it is. *)
Theorem handleServerError_result tokens m c :
  m_unitTestMode c = false -> ServerError.fromTokens tokens = Some m ->
  exists o, handleServerError tokens c =
              Some (tt, if ServerError.isFatalError m then disconnected c else c, o) /\
            (ServerError.isFatalError m = false -> Forall isLog o).
Proof using Type.
  intros Hu Hm. unfold handleServerError. rewrite Hm.
  assert (exists o, serverErrorLog (ServerError.m_errorNumber m) c = Some (tt, c, o) /\ Forall isLog o)
    as (o1 & E1 & Ho1).
  { unfold serverErrorLog. destruct (ServerErrorCode.ofInt _) as [[]|]; eexists; split;
      try reflexivity; repeat constructor. }
  destruct (disconnect_run c Hu) as (o2 & E2 & _).
  rewrite defined_bind, (bind_run _ _ _ _ _ E1).
  destruct (ServerError.isFatalError m); simpl; [rewrite E2; by eexists|].
  eexists. split; [done|]. intros _. by rewrite app_nil_r.
Qed.

(** ** A pending connection *)

Definition keepsLogin (c : CFSDClient) (_ : list Out) (c' : CFSDClient) : Prop :=
  m_connectionStatus c' = m_connectionStatus c /\
  m_loginSince (session c') = m_loginSince (session c) /\
  pendingTimeoutChecks c' = pendingTimeoutChecks c.
#[export] Instance keepsLogin_compositional : Compositional keepsLogin.
Proof using Type. split; unfold keepsLogin; [done | intuition congruence]. Qed.

Lemma initiateConnection_keeps h : satisfies keepsLogin (initiateConnection h).
Proof using Type.
  unfold initiateConnection, resolveLoadBalancing, initiateWebSocketConnection, connectResolved,
    startPositionTimers.
  walk; intros [? []] ? ? ? [= _ <- _]; done.
Qed.

Lemma updateConnecting_run c :
  exists c' o, updateConnectionStatus Connecting c = Some (tt, c', o) /\
    m_connectionStatus c' = Connecting /\ m_loginSince (session c') = m_loginSince (session c) /\
    pendingTimeoutChecks c' = pendingTimeoutChecks c.
Proof using Type.
  unfold updateConnectionStatus. rewrite get_bind. case_decide; [by exists c, []|].
  eexists _, _. split_and!; reflexivity.
Qed.

Lemma connectToServer_run c :
  isTransportOpen c = false ->
  exists c' o, connectToServer c = Some (tt, c', o) /\ m_connectionStatus c' = Connecting /\
    m_loginSince (session c') = now /\ pendingTimeoutChecks c' = (now + 9375) :: pendingTimeoutChecks c.
Proof using Type.
  intros Hopen. unfold connectToServer. rewrite get_bind, Hopen.
  set (c1 := if isEmpty (m_hostApplication (presets c)) then
    c <| presets ::= fun p => p <| m_hostApplication :=
           map (fun x => if decide (x = colon) then 32%N else x) simulatorNameAndVersion |> |> else c).
  rewrite (bind_run _ _ c c1 []) by (subst c1; by destruct (isEmpty _)).
  rewrite (bind_run _ _ c1 (c1 <| session := Session_cleared |>) []) by done.
  set (c3 := c1 <| session := Session_cleared |> <| m_filterPasswordFromLogin := true |>
                <| session -> m_loginSince := now |> <| pendingTimeoutChecks ::= cons (now + 9375) |>).
  rewrite (bind_run _ _ _ c3 []) by done.
  assert (Hc3 : m_loginSince (session c3) = now /\
                pendingTimeoutChecks c3 = (now + 9375) :: pendingTimeoutChecks c).
  { subst c3 c1. by destruct (isEmpty _), c. }
  destruct (updateConnecting_run c3) as (c4 & o4 & E4 & Hs4 & Hl4 & Hp4).
  rewrite (bind_run _ _ _ _ _ E4).
  destruct (total_initiateConnection None c4) as [[[[] c5] o5] E5]. rewrite E5.
  destruct (initiateConnection_keeps None _ _ _ _ E5) as (Hs5 & Hl5 & Hp5).
  eexists _, _. split_and!; [done|..]; intuition congruence.
Qed.
End connection.

(** A connection that stays pending is given up.  Connecting, with the
    transport not open, makes the client Connecting and schedules a check; when
    that check finds the client still pending on the same attempt it disconnects,
    since the time of the check is past the timeout.  A check that finds the
    client connected or disconnected, or pending for less than the timeout, does
    nothing. *)
Theorem pending_connection_given_up `{QtConv} {J : QtJson} {W1 W2 : World} c c1 o1 c2 :
  connectToServer (W := W1) c = Some (tt, c1, o1) -> isTransportOpen (W := W1) c = false ->
  m_unitTestMode c2 = false ->
  m_connectionStatus c1 = Connecting /\
  head (pendingTimeoutChecks c1) = Some (@now W1 + 9375) /\
  (m_loginSince (session c2) = m_loginSince (session c1) ->
   isPendingConnection c2 = true -> @now W1 + 9375 <= @now W2 ->
   exists o, pendingTimeoutCheck (W := W2) c2 = Some (tt, disconnected c2, o)) /\
  (isPendingConnection c2 = false \/ @now W2 - m_loginSince (session c2) < PendingConnectionTimeoutMs ->
   pendingTimeoutCheck (W := W2) c2 = Some (tt, c2, [])).
Proof.
  intros Hrun Hopen Hu. destruct (connectToServer_run c Hopen) as (c' & o & E & Hs & Hl & Hp).
  rewrite Hrun in E. injection E as <- <-. split_and!; [done | by rewrite Hp | |].
  - intros Hsame Hpend Ht. destruct (disconnect_run (W := W2) c2 Hu) as (o2 & E2 & _).
    unfold pendingTimeoutCheck. rewrite get_bind, Hpend.
    change (negb true) with false. cbv iota zeta.
    destruct (Z.ltb_spec (now - m_loginSince (session c2)) PendingConnectionTimeoutMs) as [Hlt|_].
    + rewrite Hsame, Hl in Hlt. unfold PendingConnectionTimeoutMs in Hlt. lia.
    + rewrite (bind_run _ _ c2 c2 [Log Warning_ "Timeout on pending connection to '%1'"]) by done.
      rewrite E2. by eexists.
  - intros Hc. unfold pendingTimeoutCheck. rewrite get_bind.
    destruct (isPendingConnection c2); [|done]. change (negb true) with false. cbv iota.
    destruct (Z.ltb_spec (now - m_loginSince (session c2)) PendingConnectionTimeoutMs); [done|].
    destruct Hc; [done | lia].
Qed.

(** ** Examples *)

Definition refConnected : CFSDClient :=
  (refClient Pilot) <| m_connectionStatus := Connected |> <| timers := mkTimers true true true true true |>
                    <| session -> m_queuedFsdMessages := [lit "$AXDLH123:SERVER:METAR:EDDM"] |>.

Lemma disconnectFromServer_result_witness :
  let W := refWorld 9000 true in
  isTransportConnected refConnected = true /\
  exists o, disconnectFromServer refConnected = Some (tt, disconnected refConnected, o) /\
    omap written o = [] /\ omap closing o = [tt] /\
    omap statusChange o = [(Connected, Disconnecting); (Disconnecting, Disconnected)].
Proof.
  split; [vm_compute; reflexivity|]. apply (disconnectFromServer_result refConnected). reflexivity.
Defined.

Lemma handleServerError_result_witness :
  let W := refWorld 9000 true in
  let m := ServerError.make (lit "SERVER") (lit "DLH123") 6 [] (lit "Invalid CID/password") in
  exists o, handleServerError (ServerError.toTokens m) refConnected =
              Some (tt, if ServerError.isFatalError m then disconnected refConnected else refConnected, o) /\
            (ServerError.isFatalError m = false -> Forall isLog o).
Proof. apply handleServerError_result; [reflexivity | vm_compute; reflexivity]. Defined.

(** Connecting at one second; nothing answers. *)
Definition refPending : CFSDClient :=
  match connectToServer (W := refWorld 1000 false) (refClient Pilot) with
  | Some (_, c, _) => c | None => refClient Pilot
  end.
Lemma refPending_run :
  exists o, connectToServer (W := refWorld 1000 false) (refClient Pilot) = Some (tt, refPending, o).
Proof.
  unfold refPending. destruct (connectToServer_run (W := refWorld 1000 false) (refClient Pilot) eq_refl)
    as (c' & o & E & _). rewrite E. by exists o.
Qed.
Lemma refPending_state :
  m_unitTestMode refPending = false /\ m_loginSince (session refPending) = 1000 /\
  isPendingConnection refPending = true.
Proof. vm_compute. done. Qed.

Lemma pending_connection_given_up_witness :
  exists o, pendingTimeoutCheck (W := refWorld 10375 false) refPending =
            Some (tt, disconnected refPending, o).
Proof.
  destruct refPending_run as [o E]. destruct refPending_state as (Hu & _ & Hp).
  destruct (pending_connection_given_up (W1 := refWorld 1000 false) (W2 := refWorld 10375 false)
              _ _ _ refPending E eq_refl Hu) as (_ & _ & Hc & _).
  apply Hc; [reflexivity | exact Hp | simpl; lia].
Defined.
