(* ===== verification/FsdPeers.v ===== *)
(** * What the client and its peers agree on

    Capabilities, radio messages, pings, the offset times of other aircraft and
    the ATC stations. *)

From S2P Require Export FsdQueue FsdInvariant.

(** ** Capabilities *)

Section capabilities.
Context `{QtConv} {J : QtJson} {W : World}.

Lemma addCapability_flag capabilities f :
  addCapability capabilities (Capabilities.toQString f ++ lit "=1") =
  Capabilities.or capabilities (Capabilities.value f).
Proof using Type. destruct f; reflexivity. Qed.

Lemma has_fold f g l c :
  Capabilities.has (fold_left addCapability
    (concat (map (fun h => if f h : bool then [Capabilities.toQString h ++ lit "=1"] else []) l)) c) g =
  Capabilities.has c g || existsb (fun h => f h && bool_decide (h = g)) l.
Proof using Type.
  revert c. induction l as [|h l IH]; intros c; simpl; [by rewrite orb_false_r|].
  rewrite fold_left_app, IH. destruct (f h); simpl; [|done].
  by rewrite addCapability_flag, Capabilities.has_or, Capabilities.has_value, orb_assoc.
Qed.

(** The capabilities a client announces are the ones its peer understands:
    parsing the response to a capability query gives back every flag of the
    announced set, and no other, so the peer's view of the client is the one of
    the set itself. *)
Theorem capabilities_understood capabilities :
  (forall f, f <> Capabilities.None ->
     Capabilities.has (parseCapabilities (capabilitiesResponse capabilities)) f =
     Capabilities.has capabilities f) /\
  clientCaps (parseCapabilities (capabilitiesResponse capabilities)) = clientCaps capabilities.
Proof using Type.
  assert (Hf : forall f, f <> Capabilities.None ->
     Capabilities.has (parseCapabilities (capabilitiesResponse capabilities)) f =
     Capabilities.has capabilities f).
  { intros f Hf. unfold parseCapabilities, capabilitiesResponse. rewrite has_fold.
    rewrite Capabilities.has_value, bool_decide_eq_false_2 by congruence. simpl orb.
    destruct f; try done; simpl; rewrite ?andb_false_r, ?andb_true_r, ?orb_false_r; done. }
  split; [exact Hf|]. unfold clientCaps. by rewrite !Hf.
Qed.
End capabilities.

(** ** Radio messages *)

Lemma noColon_radioReceiver `{QtConvLaws} fs : noColon (TextMessage.radioReceiver fs).
Proof.
  destruct noColon_numbers as (Hn & _). unfold TextMessage.radioReceiver, noColon in *.
  induction fs as [|f fs IH]; simpl; [apply not_elem_of_nil|].
  assert (Hf : colon ∉ TextMessage.atSign :: qt_number (f - 100000))
    by (apply not_elem_of_cons; split; [by vm_compute | apply Hn]).
  destruct fs as [|f' fs]; [exact Hf|]. simpl in *.
  change (colon ∉ (TextMessage.atSign :: qt_number (f - 100000)) ++
          [TextMessage.ampersand] ++ join [TextMessage.ampersand]
            ((TextMessage.atSign :: qt_number (f' - 100000)) ::
             map (fun f => TextMessage.atSign :: qt_number (f - 100000)) fs)).
  rewrite !not_elem_of_app. split_and!; [done | | done]. apply (bool_decide_unpack _). by vm_compute.
Qed.

(** C34: a radio message reaches the other client as one, end to end: written on
    the frequencies [fs], it is recognised as a text message and read as a radio
    message on exactly these frequencies, in their order, with its text. *)
Theorem radio_message_understood `{QtConvLaws} {J : QtJson} sender fs text :
  noColon sender -> fs <> [] -> Forall (fun f => inS 32 f /\ inS 32 (f - 100000)) fs ->
  let m := TextMessage.make sender (TextMessage.radioReceiver fs) text in
  trimSafe (join [colon] (TextMessage.toTokens m)) ->
  exists tokens,
    splitLine m_messageTypeMapping (messageToFSDString m) = Message MessageType.TextMessage tokens /\
    TextMessage.fromTokens tokens =
      Some (TextMessage.mk (MessageBase_make sender (TextMessage.radioReceiver fs)) text
              TextMessage.RadioMessage fs).
Proof.
  intros Hs Hne Hfs m Ht. exists (retokenize (TextMessage.toTokens m)).
  assert (Hm : m = TextMessage.mk (MessageBase_make sender (TextMessage.radioReceiver fs)) text
                     TextMessage.RadioMessage fs).
  { subst m. unfold TextMessage.make. rewrite TextMessage.frequencies_radioReceiver by done.
    assert (startsWith (TextMessage.radioReceiver fs) [TextMessage.atSign] = true) as ->; [|done].
    destruct fs as [|f [|f' fs]]; done. }
  split.
  - unfold messageToFSDString. rewrite Hm at 1. simpl m_isValid. cbv iota.
    by apply (splitLine_message (lit "#TM", MessageType.TextMessage));
      [apply (bool_decide_unpack _); vm_compute|].
  - rewrite <- Hm. refine (wire_roundtrip (M := TextMessage.t) m _).
    change (TextMessage.wf m). rewrite Hm. split_and!; simpl; [|done|by apply noColon_radioReceiver].
    rewrite <- Hm. by subst m.
Qed.

Lemma radio_message_understood_witness :
  let m := TextMessage.make (lit "DLH123") (TextMessage.radioReceiver [118000; 121500]) (lit "hello: all") in
  exists tokens,
    splitLine m_messageTypeMapping (messageToFSDString m) = Message MessageType.TextMessage tokens /\
    TextMessage.fromTokens tokens =
      Some (TextMessage.mk (MessageBase_make (lit "DLH123") (TextMessage.radioReceiver [118000; 121500]))
              (lit "hello: all") TextMessage.RadioMessage [118000; 121500]).
Proof.
  apply radio_message_understood.
  - apply (bool_decide_unpack _). vm_compute. exact I.
  - discriminate.
  - repeat constructor; vm_compute; congruence.
  - split; [vm_compute; discriminate|].
    split; intros x Hx; vm_compute in Hx; injection Hx as <-; vm_compute; reflexivity.
Defined.

(** ** Offset times *)

Section offsets.
Context `{QtConv, BC : BuildConfig} {J : QtJson} {W : World}.

Definition offsetsOf (key : QString) (c : CFSDClient) : list Z :=
  default [] (m_lastOffsetTimes (session c) !! key).

Definition zsum (l : list Z) : Z := foldr Z.add 0 l.

(** The loop sums the first four values and counts them. *)
Lemma offsetSum_take l count sum maxv :
  0 <= maxv - count ->
  offsetSum maxv count sum l =
  (count + Z.of_nat (length (take (Z.to_nat (maxv - count) + 1) l)),
   sum + zsum (take (Z.to_nat (maxv - count) + 1) l)).
Proof using Type.
  revert count sum. induction l as [|v l IH]; intros count sum Hc; simpl offsetSum.
  { rewrite take_nil. simpl. f_equal; lia. }
  destruct (Z.gtb_spec (count + 1) maxv).
  - replace (maxv - count) with 0 by lia. simpl. f_equal; lia.
  - rewrite IH by lia. replace (Z.to_nat (maxv - count)) with (S (Z.to_nat (maxv - (count + 1)))) by lia.
    simpl. rewrite Nat.add_1_r. f_equal; lia.
Qed.

Lemma average_below l n :
  0 <= zsum l -> (0 < n)%Z ->
  (Z.sgn (zsum l) * ((2 * Z.abs (zsum l) + n) / (2 * n)) <? 1500) = (2 * zsum l <? 2999 * n).
Proof using Type.
  intros Hs Hn. apply Bool.eq_iff_eq_true. rewrite !Z.ltb_lt.
  destruct (Z.eq_dec (zsum l) 0) as [->|Hz]; [simpl; lia|].
  rewrite Z.sgn_pos, Z.abs_eq, Z.mul_1_l by lia.
  split; intros Hlt.
  - assert (2 * zsum l + n < 2 * n * 1500); [|lia]. apply Z.nle_gt. intros Hle.
    apply Z.div_le_lower_bound in Hle; lia.
  - apply Z.div_lt_upper_bound; lia.
Qed.

Lemma average_eq key count s times :
  m_lastOffsetTimes s !! key = Some times -> times <> [] ->
  let sum := zsum (take 4 times) in let n := Z.of_nat (length (take 4 times)) in
  averageOffsetTimeMs key count 3 s = (Z.sgn sum * ((2 * Z.abs sum + n) / (2 * n)), n).
Proof using Type.
  intros Hs Hne sum n. unfold averageOffsetTimeMs. rewrite Hs. destruct times as [|t l]; [done|].
  unfold default. cbn [from_option id]. rewrite offsetSum_take by lia.
  change (Z.to_nat (3 - 0) + 1)%nat with 4%nat. by rewrite !Z.add_0_l.
Qed.

Lemma zsum_nonneg l : Forall (fun t => 0 <= t) l -> 0 <= zsum l.
Proof using Type. induction 1; simpl; lia. Qed.

Lemma removelast_take {A} (x : A) l n :
  (length l <= n)%nat ->
  (if (n <? length (x :: l))%nat then removelast (x :: l) else x :: l) = take n (x :: l).
Proof using Type.
  intros Hl. destruct (Nat.ltb_spec n (length (x :: l))) as [Hn|Hn]; simpl in Hn.
  - rewrite removelast_firstn_len. f_equal. simpl. lia.
  - rewrite take_ge by (simpl; lia). done.
Qed.

(** The offset time of an aircraft.  Its first position gets the offset of
    the full position updates.  Every later one stores the time since the one
    before as the newest of at most six, and gets the short offset of the
    interim updates exactly when at least three times are known and the last
    four (or three) have a mean below 1499.5 ms. *)
Theorem offset_time cs ts c :
  0 <= ts -> offsetsOk (session c) ->
  let key := asString cs in
  exists c' r, receivedPositionFixTsAndGetOffsetTime cs ts c = Some (r, c', []) /\
    m_lastPositionUpdate (session c') !! key = Some ts /\
    match m_lastPositionUpdate (session c) !! key with
    | None => r = 6000 /\ offsetsOf key c' = offsetsOf key c
    | Some oldTs =>
        let times := take 6 (Z.abs (ts - oldTs) :: offsetsOf key c) in
        offsetsOf key c' = times /\
        r = m_additionalOffsetTime c +
            (if (3 <=? length times)%nat &&
                (2 * zsum (take 4 times) <? 2999 * Z.of_nat (length (take 4 times)))
             then 1500 else 6000)
    end.
Proof using Type.
  intros Hts Hok key. unfold receivedPositionFixTsAndGetOffsetTime. cbv zeta. fold key.
  destruct (Z.ltb_spec ts 0); [lia|]. rewrite get_bind.
  destruct (m_lastPositionUpdate (session c) !! key) as [oldTs|] eqn:Eold.
  2: { eexists _, _. split; [reflexivity|]. destruct c as [? []]. unfold offsetsOf; simpl.
       rewrite lookup_insert_eq. done. }
  set (c1 := c <| session -> m_lastPositionUpdate ::= <[key := ts]> |>).
  set (c2 := c1 <| session ::= insertLatestOffsetTime key (Z.abs (ts - oldTs)) |>).
  rewrite (bind_run _ _ c c1 []), (bind_run _ _ c1 c2 []), get_bind by done.
  assert (Hoff : offsetsOf key c = default [] (m_lastOffsetTimes (session c1) !! key))
    by (subst c1; by destruct c as [? []]).
  assert (Hlen : (length (offsetsOf key c) <= 6)%nat /\ Forall (fun t => 0 <= t) (offsetsOf key c)).
  { unfold offsetsOf. destruct (m_lastOffsetTimes (session c) !! key) as [l|] eqn:E; simpl;
      [|by split; [lia | constructor]]. destruct (Hok _ _ E) as (Hl & Hf & _).
    unfold c_maxOffsetTimes in Hl. split; [lia | done]. }
  destruct Hlen as [Hlen Hpos].
  destruct (insertLatest_session key (Z.abs (ts - oldTs)) (session c1)) as [Hl Hp].
  rewrite <- Hoff in Hl. unfold c_maxOffsetTimes in Hl. rewrite removelast_take in Hl by done.
  set (times := take 6 (Z.abs (ts - oldTs) :: offsetsOf key c)) in *.
  assert (Ht : m_lastOffsetTimes (session c2) !! key = Some times).
  { transitivity (m_lastOffsetTimes (insertLatestOffsetTime key (Z.abs (ts - oldTs)) (session c1)) !! key);
      [by destruct c1 | rewrite Hl; apply lookup_insert_eq]. }
  assert (Hc2 : m_additionalOffsetTime c2 = m_additionalOffsetTime c /\
                m_lastPositionUpdate (session c2) !! key = Some ts).
  { subst c2 c1. destruct c as [? []]; simpl. by rewrite lookup_insert_eq. }
  clearbody c2. clear Hl Hp.
  assert (Hne : exists t l, times = t :: l) by (subst times; simpl; eauto).
  destruct Hne as (t & l & Hcons).
  rewrite (average_eq key 0 (session c2) times Ht) by (by rewrite Hcons). cbv zeta.
  set (n := Z.of_nat (length (take 4 times))).
  assert (Hn : 0 < n) by (subst n; rewrite Hcons; simpl; lia).
  eexists c2, _. split; [reflexivity|]. destruct Hc2 as [Ha Hp]. split; [exact Hp|].
  split; [unfold offsetsOf; by rewrite Ht|].
  rewrite Ha, average_below; [|by apply zsum_nonneg, Forall_take, Forall_take; constructor; [lia|]|done].
  f_equal. rewrite andb_comm.
  assert ((n >=? 3) = (3 <=? length times)%nat) as ->; [|done]. subst n. rewrite length_take.
  destruct (Z.geb_spec (Z.of_nat (4 `min` length times)) 3), (Nat.leb_spec 3 (length times)); lia.
Qed.
End offsets.

(** Three positions a second apart, at the rate of the interim updates. *)
Definition refTracked : CFSDClient :=
  (refClient Pilot) <| session -> m_lastPositionUpdate := {[lit "BAW2" := 3000]} |>
                    <| session -> m_lastOffsetTimes := {[lit "BAW2" := [1000; 1000]]} |>.

Lemma offset_time_witness :
  let W := refWorld 4000 true in
  let cs := CCallsign_make (lit "BAW2") Aircraft in
  exists c' r, receivedPositionFixTsAndGetOffsetTime cs 4000 refTracked = Some (r, c', []) /\
    m_lastPositionUpdate (session c') !! lit "BAW2" = Some 4000 /\
    offsetsOf (lit "BAW2") c' = [1000; 1000; 1000] /\ r = 1500.
Proof.
  destruct (offset_time (W := refWorld 4000 true) (CCallsign_make (lit "BAW2") Aircraft) 4000 refTracked)
    as (c' & r & E & Hp & Ho).
  - lia.
  - intros k l Hl. change (({[lit "BAW2" := [1000; 1000]]} : gmap QString (list Z)) !! k = Some l) in Hl.
    apply lookup_singleton_Some in Hl as [<- <-]. split; [simpl; unfold c_maxOffsetTimes; lia|].
    split; [repeat constructor; lia|]. vm_compute. by eexists.
  - exists c', r. split; [exact E|]. split; [exact Hp | exact Ho].
Defined.

(** ** ATC stations *)

Section stations.
Context `{QtConv, BC : BuildConfig} {J : QtJson} {W : World}.

Definition sameStation (cs : CCallsign) (s : CAtcStation) : Prop :=
  callsignEqual (atc_callsign s) cs = true.
#[export] Instance sameStation_dec cs s : Decision (sameStation cs s).
Proof using Type. unfold sameStation. apply _. Defined.

(** The positions the client takes: of a known facility, or of an observer;
    an observer facility only with a suffix. *)
Definition stationAccepted (m : AtcDataUpdate.t) : bool :=
  let cs := CCallsign_make (m_sender (AtcDataUpdate.base m)) Atc in
  negb (bool_decide (AtcDataUpdate.m_facility m = FacilityType.Unknown) && negb (isObserverCallsign cs)) &&
  negb (bool_decide (AtcDataUpdate.m_facility m = FacilityType.OBS) && negb (hasSuffix cs)).

Lemma fixAtcRange_max n cs : exists r, fixAtcRange (Some n) cs = Some r /\ n <= r.
Proof using Type.
  unfold fixAtcRange, maxOrNotNull.
  repeat match goal with |- context [if containsCI ?a ?b then _ else _] => destruct (containsCI a b) end;
    eexists; split; try reflexivity; try lia; cases; bool_hyps; lia.
Qed.

Lemma remove_same cs l : filter (sameStation cs) (removeByCallsign cs l) = [].
Proof using Type.
  induction l as [|s l IH]; [done|]. unfold removeByCallsign in *. rewrite filter_cons.
  case_decide as Hs; [|done]. rewrite filter_cons_False; [done|]. unfold sameStation. congruence.
Qed.
Lemma remove_others cs l :
  filter (fun s => ~ sameStation cs s) (removeByCallsign cs l) = filter (fun s => ~ sameStation cs s) l.
Proof using Type.
  induction l as [|s l IH]; [done|]. unfold removeByCallsign in *. rewrite !filter_cons.
  destruct (decide (callsignEqual (atc_callsign s) cs = false)) as [Hs|Hs].
  - rewrite filter_cons, IH. done.
  - rewrite IH. case_decide as Hn; [|done]. exfalso. apply Hn. unfold sameStation.
    by destruct (callsignEqual _ _).
Qed.

(** The position of an ATC station.  An accepted update leaves exactly one
    station with the callsign of the sender, the one received, with a range
    that is at least the one the network gives; all others stay as they were;
    and the update is announced.  A rejected one changes and announces nothing. *)
Theorem atc_station_updated tokens m c :
  AtcDataUpdate.fromTokens tokens = Some m ->
  trimmed (m_sender (AtcDataUpdate.base m)) <> [] ->
  let cs := CCallsign_make (m_sender (AtcDataUpdate.base m)) Atc in
  if stationAccepted m then
    exists range c',
      let s := mkAtcStation cs (AtcDataUpdate.m_frequencykHz m) (AtcDataUpdate.m_latitude m)
                 (AtcDataUpdate.m_longitude m) range in
      handleAtcDataUpdate tokens c =
        Some (tt, c', [Emit (atcDataUpdateReceived cs (AtcDataUpdate.m_frequencykHz m)
                               (AtcDataUpdate.m_latitude m) (AtcDataUpdate.m_longitude m) range)]) /\
      AtcDataUpdate.m_visibleRange m <= range /\
      filter (sameStation cs) (m_atcStations (session c')) = [s] /\
      filter (fun s => ~ sameStation cs s) (m_atcStations (session c')) =
        filter (fun s => ~ sameStation cs s) (m_atcStations (session c))
  else handleAtcDataUpdate tokens c = Some (tt, c, []).
Proof using Type.
  intros Hm Hne cs. unfold stationAccepted, handleAtcDataUpdate. rewrite Hm, defined_bind.
  cbv zeta. fold cs.
  destruct (bool_decide (AtcDataUpdate.m_facility m = FacilityType.Unknown) && _); [done|].
  destruct (bool_decide (AtcDataUpdate.m_facility m = FacilityType.OBS) && _); [done|].
  cbn [negb andb].
  destruct (fixAtcRange_max (AtcDataUpdate.m_visibleRange m) cs) as (range & -> & Hr).
  exists range. set (s := mkAtcStation cs _ _ _ _).
  exists (c <| session -> m_atcStations ::= replaceOrAddObjectByCallsign s |>).
  split; [done|]. split; [exact Hr|].
  assert (Hst : m_atcStations (session (c <| session -> m_atcStations ::= replaceOrAddObjectByCallsign s |>))
                = removeByCallsign cs (m_atcStations (session c)) ++ [s]).
  { destruct c as [? []]; simpl. unfold replaceOrAddObjectByCallsign, callsignEmpty. simpl.
    by destruct (trimmed _). }
  rewrite Hst, !filter_app. assert (Hs : sameStation cs s) by apply callsignEqual_refl.
  rewrite (filter_cons_True _ s) by done. rewrite (filter_cons_False _ s) by (intros Hn; by apply Hn).
  rewrite remove_same, remove_others, app_nil_r. done.
Qed.

(** A station that goes offline stays in the list.  The deletion removes the
    stations whose callsign equals the user id of the sender; the station of the
    sender itself is kept unless its callsign is that id, and the deletion is
    announced for the id. *)
Theorem atc_station_deleted sender cid c :
  exists c', handleDeleteATC (DeleteAtc.toTokens (DeleteAtc.make sender cid)) c =
               Some (tt, c', [Emit (deleteAtcReceived cid)]) /\
    forall s, s ∈ m_atcStations (session c') <->
              s ∈ m_atcStations (session c) /\
              callsignEqual (atc_callsign s) (CCallsign_make cid NoHint) = false.
Proof using Type.
  exists (c <| session -> m_atcStations ::= removeByCallsign (CCallsign_make cid NoHint) |>).
  split; [done|]. intros s.
  transitivity (s ∈ removeByCallsign (CCallsign_make cid NoHint) (m_atcStations (session c)));
    [by destruct c as [? []]|].
  unfold removeByCallsign. rewrite list_elem_of_filter. tauto.
Qed.
End stations.

Definition refTower : AtcDataUpdate.t :=
  AtcDataUpdate.make (lit "EDDM_TWR") 118700 FacilityType.TWR 20 (AtcRating.fromQString (lit "3"))
    (toDouble (lit "48.3")) (toDouble (lit "11.8")) 0.
Definition refTowerTokens : QStringList := split colon (lit "EDDM_TWR:18700:4:20:3:48.3:11.8:0").

Lemma atc_station_updated_witness :
  let cs := CCallsign_make (m_sender (AtcDataUpdate.base refTower)) Atc in
  exists range c',
    let s := mkAtcStation cs (AtcDataUpdate.m_frequencykHz refTower) (AtcDataUpdate.m_latitude refTower)
               (AtcDataUpdate.m_longitude refTower) range in
    handleAtcDataUpdate refTowerTokens (refClient Pilot) =
      Some (tt, c', [Emit (atcDataUpdateReceived cs (AtcDataUpdate.m_frequencykHz refTower)
              (AtcDataUpdate.m_latitude refTower) (AtcDataUpdate.m_longitude refTower) range)]) /\
    AtcDataUpdate.m_visibleRange refTower <= range /\
    filter (sameStation cs) (m_atcStations (session c')) = [s] /\
    filter (fun s => ~ sameStation cs s) (m_atcStations (session c')) =
      filter (fun s => ~ sameStation cs s) (m_atcStations (session (refClient Pilot))).
Proof.
  assert (Hm : AtcDataUpdate.fromTokens refTowerTokens = Some refTower) by (vm_compute; reflexivity).
  assert (Hne : trimmed (m_sender (AtcDataUpdate.base refTower)) <> []) by (vm_compute; discriminate).
  assert (Ha : stationAccepted refTower = true) by (vm_compute; reflexivity).
  pose proof (atc_station_updated refTowerTokens refTower (refClient Pilot) Hm Hne) as Hc.
  cbv zeta in Hc. rewrite Ha in Hc. exact Hc.
Defined.

(** ** Ping and pong *)

(** A ping measures the round trip.  The client that receives a ping queues
    one pong, to its sender and with its time stamp; the client that receives
    that pong reports the time since the ping was sent. *)
Theorem ping_measures `{QtConvLaws, BC : BuildConfig} {J : QtJson} {W1 W2 : World} sent me peer c1 c2 :
  inS 64 sent -> m_unitTestMode c1 = false ->
  let ping := Ping.make me peer (qt_number sent) in
  let pong := Pong.make (getOwnCallsignAsString c1) me (qt_number sent) in
  (exists c1', handlePing (W := W1) (Ping.toTokens ping) c1 = Some (tt, c1', []) /\
               queue c1' = queue c1 ++ [messageToFSDString pong]) /\
  handlePong (W := W2) (Pong.toTokens pong) c2 =
    Some (tt, c2, [Emit (pongReceived (getOwnCallsignAsString c1) (@now W2 - sent))]).
Proof.
  intros Hs Hu ping pong. split.
  - unfold handlePing. change (Ping.fromTokens (Ping.toTokens ping)) with (Some ping).
    rewrite defined_bind. unfold sendPong. rewrite get_bind.
    eexists. split.
    + rewrite (bind_run _ _ c1 (c1 <| session ::= enqueued (messageToFSDString pong) |>) [])
        by (by rewrite queueMessage_run).
      reflexivity.
    + unfold increaseStatistics. case_match; by destruct c1 as [? []].
  - unfold handlePong. change (Pong.fromTokens (Pong.toTokens pong)) with (Some pong).
    rewrite defined_bind. unfold emit, output. do 4 f_equal.
    simpl. unfold toLongLong. by rewrite qt_toLongLong_number.
Qed.

Lemma ping_measures_witness :
  let ping := Ping.make (lit "BAW2") (lit "DLH123") (qt_number 1700000000000) in
  let pong := Pong.make (lit "DLH123") (lit "BAW2") (qt_number 1700000000000) in
  (exists c1', handlePing (W := refWorld 5 true) (Ping.toTokens ping) (refClient Pilot) = Some (tt, c1', []) /\
               queue c1' = [messageToFSDString pong]) /\
  handlePong (W := refWorld 1700000000120 true) (Pong.toTokens pong) (refClient Observer) =
    Some (tt, refClient Observer, [Emit (pongReceived (lit "DLH123") 120)]).
Proof.
  apply (ping_measures (W1 := refWorld 5 true) (W2 := refWorld 1700000000120 true) 1700000000000
           (lit "BAW2") (lit "DLH123") (refClient Pilot) (refClient Observer));
    [vm_compute; split; congruence | reflexivity].
Defined.
