(* ===== verification/FsdConfig.v ===== *)
(** * Aircraft configurations between two clients

    A client broadcasts the parts of its aircraft as the difference to the parts
    it sent before; the others put the difference over the parts they have. *)

From S2P Require Export FsdQueue FsdConnection.

Section config.
Context `{QtConvLaws, BC : BuildConfig} {J : QtJson}.

(** The difference a client is about to send, the text of its packet, and the
    message that carries it. *)
Definition nextConfig {W : World} (c : CFSDClient) : QJsonObject :=
  getIncrementalObject (parts_toJson (m_sentAircraftConfig (session c))) (parts_toJson ownParts).
Definition configText {W : World} (c : CFSDClient) : QString :=
  convertToUnicodeEscaped (json_compact (configPacket (nextConfig c))).
Definition configQuery {W : World} (c : CFSDClient) : ClientQuery.t :=
  ClientQuery.make (getOwnCallsignAsString c) (lit "@94836") ClientQueryType.AircraftConfig
    [configText c].

(** The timer of a connected client whose parts have changed, with a token left. *)
Definition configDue {W : World} (c : CFSDClient) : Prop :=
  m_unitTestMode c = false /\ m_connectionStatus c = Connected /\
  sendAircraftParts (fsdSetup (getServer c)) = true /\
  parts_eqb (m_sentAircraftConfig (session c)) ownParts = false /\
  fst (TokenBucket.tryConsume now 1 (-1) (m_tokenBucket c)) = true.

Lemma sendAircraftConfiguration_run {W : World} r text c :
  m_unitTestMode c = false -> text <> [] ->
  sendAircraftConfiguration r text c =
    Some (tt, c <| session ::= enqueued (messageToFSDString (ClientQuery.make
                     (getOwnCallsignAsString c) r ClientQueryType.AircraftConfig [text])) |>, []).
Proof using Type.
  intros Hu Hne. unfold sendAircraftConfiguration. destruct text as [|x text]; [done|].
  change (isEmpty (x :: text)) with false. cbv iota. rewrite get_bind. by apply queueMessage_run.
Qed.

#[local] Opaque getIncrementalObject parts_toJson convertToUnicodeEscaped.

Lemma sendIncrementalAircraftConfig_run {W : World} c :
  configDue c -> configText c <> [] ->
  exists c', sendIncrementalAircraftConfig c = Some (tt, c', []) /\
    queue c' = queue c ++ [messageToFSDString (configQuery c)] /\
    m_sentAircraftConfig (session c') = ownParts.
Proof using Type.
  intros (Hu & Hc & Hs & He & Ht) Htext. unfold sendIncrementalAircraftConfig.
  rewrite get_bind, Hu, Hs, Hc. cbn [negb andb orb]. rewrite bool_decide_true by done.
  cbn [negb andb orb]. rewrite He.
  destruct (TokenBucket.tryConsume _ _ _ _) as [ok bucket]. simpl in Ht. subst ok. cbn [when].
  set (c1 := c <| m_tokenBucket := bucket |>).
  eexists. rewrite (bind_run _ _ c c1 []) by done.
  erewrite bind_run by (apply sendAircraftConfiguration_run; [by destruct c | exact Htext]).
  split; [reflexivity|]. unfold configQuery, configText, nextConfig. subst c1. by destruct c.
Qed.

Lemma configPacket_value config : toObject (value (lit "config") (configPacket config)) = config.
Proof using Type. done. Qed.
Lemma configPacket_request config : configPacket config <> aircraftConfigRequest.
Proof using Type. discriminate. Qed.

(** The receiver of the message hands the difference on. *)
Lemma handleClientQuery_config {W1 W2 : World} c d :
  noColon (getOwnCallsignAsString c) -> nextConfig (W := W1) c <> [] ->
  json_parse (configText (W := W1) c) = Some (configPacket (nextConfig (W := W1) c)) ->
  inRange (World := W2) (CCallsign_make (getOwnCallsignAsString c) Aircraft) = true ->
  receiveAircraftParts (fsdSetup (getServer d)) = true ->
  let me := getOwnCallsignAsString c in
  handleClientQuery (W := W2) (split colon (join [colon] (ClientQuery.toTokens (configQuery (W := W1) c)))) d =
    Some (tt, d, [Emit (aircraftConfigReceived me (nextConfig (W := W1) c)
                          (currentOffsetTime (CCallsign_make me Aircraft) d))]).
Proof using Type.
  intros Hme Hne Hparse Hrange Hrecv me.
  assert (split colon (join [colon] (ClientQuery.toTokens (configQuery (W := W1) c))) =
          [me; lit "@94836"; lit "ACC"] ++ split colon (configText (W := W1) c)) as ->.
  { apply (split_join_last colon [me; lit "@94836"; lit "ACC"]).
    repeat constructor; [exact Hme | |]; apply (bool_decide_unpack _); vm_compute; exact I. }
  assert (Hq : ClientQuery.fromTokens ([me; lit "@94836"; lit "ACC"] ++ split colon (configText (W := W1) c)) =
               Some (ClientQuery.make me (lit "@94836") ClientQueryType.AircraftConfig
                       (split colon (configText (W := W1) c)))).
  { destruct (split colon _) eqn:E; [by apply split_nonempty in E | reflexivity]. }
  unfold handleClientQuery. rewrite Hq, defined_bind.
  cbn [ClientQuery.m_queryType ClientQuery.make ClientQuery.base MessageBase_make m_sender]. cbv zeta.
  change (mid ([me; lit "@94836"; lit "ACC"] ++ ?l) 3) with l.
  rewrite join_split, Hparse, bool_decide_false by apply configPacket_request.
  subst me. rewrite Hrange. cbn [negb]. rewrite get_bind, Hrecv. cbn [negb].
  rewrite configPacket_value, bool_decide_false by done. reflexivity.
Qed.

End config.

(** A connected client that has sent its parts with the gear up and two engines
    running; the gear is down now. *)
Definition sentParts : CAircraftParts :=
  mkParts refLights (initEngines 2 true) NotSet 10 false false false.
Definition refSender : CFSDClient :=
  (refClient Pilot) <| m_connectionStatus := Connected |>
                    <| session -> m_sentAircraftConfig := sentParts |>.


(** The answer to a request holds the parts of the moment, not those sent
    before: parts that change between the two and back, while no token is left,
    stay with the client that asked.  [asked] gets the gear down; back to the
    parts sent before, the client has nothing to send. *)
Example config_out_of_sync :
  let W := partsWorld 9000 true sentParts in
  option_map parts_toJson (storeAircraftParts true false CAircraftParts_null (toFullJson refParts)) =
    Some (parts_toJson refParts) /\
  sendIncrementalAircraftConfig (W := W) refSender = Some (tt, refSender, []) /\
  parts_toJson refParts <> parts_toJson sentParts.
Proof.
  split; [vm_compute; reflexivity|]. split; [reflexivity|].
  apply (bool_decide_unpack _). vm_compute. exact I.
Qed.
