(* ===== verification/FsdOwn.v ===== *)
(** * The visual updates of the own aircraft

    Which updates the fast timer queues while the aircraft moves, stops and
    stands. *)

From S2P Require Export FsdPeers.

Section visual.
Context `{QtConv} {J : QtJson} {W : World}.

(** Visual updates are sent at all: logged in as a pilot, to a server that takes
    them. *)
Definition visualEnabled (c : CFSDClient) : Prop :=
  m_connectionStatus c <> Disconnected /\ m_loginMode (presets c) = Pilot /\
  isVisualPositionSendingEnabledForServer c = true.

(** The messages the own aircraft gives rise to. *)
Definition periodicText (c : CFSDClient) : QString :=
  messageToFSDString (update_toPeriodic (visualPilotDataUpdate c)).
Definition updateText (c : CFSDClient) : QString := messageToFSDString (visualPilotDataUpdate c).
Definition stoppedText (c : CFSDClient) : QString :=
  messageToFSDString (update_toStopped (visualPilotDataUpdate c)).

(** The message for the [n]th update since the last stop. *)
Definition nthText (c : CFSDClient) (n : Z) : QString :=
  if n mod 25 =? 0 then periodicText c else updateText c.

(** One tick of a moving aircraft. *)
Definition movedOn (c : CFSDClient) : CFSDClient :=
  let n := m_visualPositionUpdateSentCount (session c) in
  c <| session -> m_stoppedSendingVisualPositions := false |>
    <| session -> m_visualPositionUpdateSentCount := wrapU 32 (n + 1) |>
    <| session ::= enqueued (nthText c n) |>.

Lemma visual_enter b c :
  visualEnabled c -> sendVisualPilotDataUpdate b c =
    (go ← visualUpdateGate b;
     when go
      (c ← get;
       if m_stoppedSendingVisualPositions (session c)
       then queueMessage (update_toStopped (visualPilotDataUpdate c))
       else
         let n := m_visualPositionUpdateSentCount (session c) in
         setSession (fun s => s <| m_visualPositionUpdateSentCount := wrapU 32 (n + 1) |>);;
         if n mod 25 =? 0 then queueMessage (update_toPeriodic (visualPilotDataUpdate c))
         else queueMessage (visualPilotDataUpdate c))) c.
Proof using Type.
  intros (Hs & Hm & Hv). unfold sendVisualPilotDataUpdate. rewrite get_bind.
  unfold isDisconnectedHere. rewrite bool_decide_eq_false_2 by done. cbn [andb].
  by rewrite Hm, Hv.
Qed.

Lemma bind_value {A B} (m : Cmd A) (k : A -> Cmd B) c x c1 :
  m c = Some (x, c1, []) -> (m ≫= k) c = k x c1.
Proof using Type. intros E. unfold mbind, Cmd_bind. rewrite E. by destruct (k x c1) as [[[??]?]|]. Qed.

(** The gate: whether to go on, and the state then. *)
Lemma gate_moving c :
  isMoving own = true ->
  visualUpdateGate false c = Some (m_serverWantsVisualPositions (session c),
    c <| session -> m_stoppedSendingVisualPositions := false |>, []).
Proof using Type.
  intros Hm. unfold visualUpdateGate. rewrite get_bind, Hm. cbn [negb andb].
  rewrite (bind_value _ _ c tt (c <| session -> m_stoppedSendingVisualPositions := false |>)) by done.
  rewrite get_bind. by destruct c as [? []].
Qed.
Lemma gate_stopping c :
  isMoving own = false -> m_stoppedSendingVisualPositions (session c) = false ->
  visualUpdateGate false c = Some (m_serverWantsVisualPositions (session c),
    c <| session -> m_stoppedSendingVisualPositions := true |>
      <| session -> m_visualPositionUpdateSentCount := 0 |>, []).
Proof using Type.
  intros Hm Hs. unfold visualUpdateGate. rewrite get_bind, Hm, Hs. cbn [negb andb].
  rewrite (bind_value _ _ c tt (c <| session -> m_stoppedSendingVisualPositions := true |>
             <| session -> m_visualPositionUpdateSentCount := 0 |>)) by (by destruct c as [? []]).
  rewrite get_bind. by destruct c as [? []].
Qed.
Lemma gate_standing c :
  isMoving own = false -> m_stoppedSendingVisualPositions (session c) = true ->
  visualUpdateGate false c = Some (false, c, []).
Proof using Type.
  intros Hm Hs. unfold visualUpdateGate. by rewrite get_bind, Hm, Hs.
Qed.

Lemma visual_valid c :
  m_isValid (msg_base (visualPilotDataUpdate c)) = true /\
  m_isValid (msg_base (update_toPeriodic (visualPilotDataUpdate c))) = true /\
  m_isValid (msg_base (update_toStopped (visualPilotDataUpdate c))) = true.
Proof using Type.
  unfold visualPilotDataUpdate. by destruct (own_velocity own) as [[]], (own_rotation own) as [[]].
Qed.

Lemma tick_moving c :
  visualEnabled c -> m_unitTestMode c = false -> isMoving own = true ->
  m_serverWantsVisualPositions (session c) = true ->
  sendVisualPilotDataUpdate false c = Some (tt, movedOn c, []).
Proof using Type.
  intros He Hu Hm Hw. rewrite visual_enter by done.
  rewrite (bind_value _ _ _ _ _ (gate_moving c Hm)), Hw. unfold when. rewrite get_bind.
  set (n := m_visualPositionUpdateSentCount (session c)).
  set (c1 := c <| session -> m_stoppedSendingVisualPositions := false |>).
  set (c2 := c1 <| session -> m_visualPositionUpdateSentCount := wrapU 32 (n + 1) |>).
  assert (H1 : m_stoppedSendingVisualPositions (session c1) = false /\
               m_visualPositionUpdateSentCount (session c1) = n /\ m_unitTestMode c2 = false /\
               visualPilotDataUpdate c1 = visualPilotDataUpdate c)
    by (subst c2 c1 n; by destruct c as [? []]).
  destruct H1 as (-> & -> & Hu2 & ->). cbv iota zeta.
  rewrite (bind_value _ _ c1 tt c2) by done. unfold movedOn, nthText. fold n c1 c2.
  destruct (visual_valid c) as (? & ? & _). destruct (n mod 25 =? 0); by rewrite queueMessage_run.
Qed.

(** The cadence of the visual updates.  While the aircraft moves and the
    server wants them, each tick of the timer queues one update; it is a full
    periodic one for the first after a stop and for every twenty-fifth after
    that, a short one for the others. *)
Theorem visual_cadence k c :
  visualEnabled c -> m_unitTestMode c = false -> isMoving own = true ->
  m_serverWantsVisualPositions (session c) = true ->
  0 <= m_visualPositionUpdateSentCount (session c) ->
  m_visualPositionUpdateSentCount (session c) + Z.of_nat k < 2 ^ 32 ->
  exists c', times k (sendVisualPilotDataUpdate false) c = Some (tt, c', []) /\
    queue c' = queue c ++ map (nthText c) (seqZ (m_visualPositionUpdateSentCount (session c)) (Z.of_nat k)) /\
    m_visualPositionUpdateSentCount (session c') = m_visualPositionUpdateSentCount (session c) + Z.of_nat k.
Proof using Type.
  revert c. induction k as [|k IH]; intros c He Hu Hm Hw Hn Hk.
  { exists c. split_and!; [done | by rewrite app_nil_r | lia]. }
  cbn [times]. rewrite (bind_value _ _ _ _ _ (tick_moving c He Hu Hm Hw)).
  set (n := m_visualPositionUpdateSentCount (session c)) in *.
  assert (Hc : visualEnabled (movedOn c) /\ m_unitTestMode (movedOn c) = false /\
    m_serverWantsVisualPositions (session (movedOn c)) = true /\
    m_visualPositionUpdateSentCount (session (movedOn c)) = n + 1 /\
    queue (movedOn c) = queue c ++ [nthText c n] /\ nthText (movedOn c) = nthText c).
  { assert (Hwr : wrapU 32 (n + 1) = n + 1) by (apply wrapU_id; unfold inU; lia).
    rewrite <- Hwr. subst n. by destruct c as [? []]. }
  destruct Hc as (He' & Hu' & Hw' & Hn' & Hq & Ht).
  destruct (IH (movedOn c)) as (c' & E & Hq' & Hk'); try done; rewrite ?Hn' in *; try lia.
  exists c'. split; [exact E|]. split; [|lia].
  rewrite Hq', Hq, Ht, <- app_assoc. f_equal. rewrite (seqZ_cons n) by lia.
  replace (Z.succ n) with (n + 1) by lia.
  by replace (Z.pred (Z.of_nat (S k))) with (Z.of_nat k) by lia.
Qed.

(** An aircraft that stands.  The first tick after it moved queues one
    message that it has stopped, when the server wants visual updates, and the
    next update of the moving aircraft will be a periodic one; further ticks
    queue nothing and change nothing. *)
Theorem visual_stop k c :
  visualEnabled c -> m_unitTestMode c = false -> isMoving own = false ->
  m_stoppedSendingVisualPositions (session c) = false ->
  exists c', times (S k) (sendVisualPilotDataUpdate false) c = Some (tt, c', []) /\
    queue c' = queue c ++ (if m_serverWantsVisualPositions (session c) then [stoppedText c] else []) /\
    m_visualPositionUpdateSentCount (session c') = 0 /\
    m_stoppedSendingVisualPositions (session c') = true.
Proof using Type.
  intros He Hu Hm Hs.
  set (c1 := c <| session -> m_stoppedSendingVisualPositions := true |>
               <| session -> m_visualPositionUpdateSentCount := 0 |>).
  set (c2 := if m_serverWantsVisualPositions (session c)
             then c1 <| session ::= enqueued (stoppedText c) |> else c1).
  assert (E1 : sendVisualPilotDataUpdate false c = Some (tt, c2, [])).
  { rewrite visual_enter by done. rewrite (bind_value _ _ _ _ _ (gate_stopping c Hm Hs)). fold c1.
    subst c2. destruct (m_serverWantsVisualPositions (session c)); [|done]. unfold when. rewrite get_bind.
    assert (H1 : m_stoppedSendingVisualPositions (session c1) = true /\ m_unitTestMode c1 = false /\
                 visualPilotDataUpdate c1 = visualPilotDataUpdate c)
      by (subst c1; by destruct c as [? []]).
    destruct H1 as (-> & Hu1 & ->). destruct (visual_valid c) as (_ & _ & ?). by rewrite queueMessage_run. }
  assert (Hc2 : visualEnabled c2 /\ m_stoppedSendingVisualPositions (session c2) = true /\
    m_visualPositionUpdateSentCount (session c2) = 0 /\
    queue c2 = queue c ++ (if m_serverWantsVisualPositions (session c) then [stoppedText c] else [])).
  { subst c2 c1. destruct c as [? []]. simpl in *. destruct m_serverWantsVisualPositions; simpl;
      rewrite ?app_nil_r; done. }
  destruct Hc2 as (He2 & Hs2 & Hn2 & Hq2). exists c2. split_and!; try done.
  assert (Hk : forall k, times k (sendVisualPilotDataUpdate false) c2 = Some (tt, c2, [])).
  { clear k. intros k. induction k as [|k IH]; [done|]. cbn [times].
    assert (E2 : sendVisualPilotDataUpdate false c2 = Some (tt, c2, [])).
    { rewrite visual_enter by done. by rewrite (bind_value _ _ _ _ _ (gate_standing c2 Hm Hs2)). }
    by rewrite (bind_value _ _ _ _ _ E2). }
  cbn [times]. rewrite (bind_value _ _ _ _ _ E1). apply Hk.
Qed.
End visual.

(** ** Examples: the reference aircraft moves *)

Definition refVisual (count : Z) : CFSDClient :=
  (refClient Pilot) <| m_connectionStatus := Connected |>
                    <| session -> m_serverWantsVisualPositions := true |>
                    <| session -> m_visualPositionUpdateSentCount := count |>.

Lemma refVisual_enabled count : visualEnabled (refVisual count).
Proof. done. Qed.

Lemma visual_cadence_witness :
  let W := refWorld 1000 true in
  exists c', times 3 (sendVisualPilotDataUpdate false) (refVisual 24) = Some (tt, c', []) /\
    queue c' = [updateText (refVisual 24); periodicText (refVisual 24); updateText (refVisual 24)].
Proof.
  intros W. destruct (visual_cadence 3 (refVisual 24)) as (c' & E & Hq & _);
    [apply refVisual_enabled | reflexivity | vm_compute; reflexivity | reflexivity
    | simpl; lia | simpl; lia |].
  exists c'. split; [exact E | exact Hq].
Defined.

(** The same world with the aircraft at rest. *)
Definition restWorld : World :=
  let W := refWorld 1000 true in
  {| now := @now W; knownCodec := @knownCodec W; encode := @encode W; decode := @decode W; tcpIsOpen := @tcpIsOpen W;
     tcpIsConnected := @tcpIsConnected W; wsIsUnconnected := @wsIsUnconnected W;
     wsIsValid := @wsIsValid W; wsCloseReason := @wsCloseReason W;
     socketErrorString := @socketErrorString W; localAddress := @localAddress W;
     peerPort := @peerPort W; isHostAddress := @isHostAddress W;
     simulatorNameAndVersion := @simulatorNameAndVersion W;
     own := mkOwn (f64_of_Z 48) (f64_of_Z 11) (f64_of_Z 1500) 1500 1510 (f64_of_Z 1500) 0
       f64_zero f64_zero (f64_of_Z 90) true (f64_zero, f64_zero, f64_zero)
       (f64_zero, f64_zero, f64_zero) (mkTransponder 7000 TransponderMode.ModeC) (f64_of_Z 122)
       (lit "FLEXTRA") (lit "swift") (lit "DLH") (lit "DLH") (lit "A320") (lit "L2J");
     ownParts := @ownParts W; inRange := @inRange W;
     closestStation := @closestStation W; comActive := @comActive W |}.

Lemma visual_stop_witness :
  exists c', times 4 (sendVisualPilotDataUpdate (W := restWorld) false) (refVisual 7) = Some (tt, c', []) /\
    queue c' = [stoppedText (W := restWorld) (refVisual 7)] /\
    m_visualPositionUpdateSentCount (session c') = 0.
Proof.
  destruct (visual_stop (W := restWorld) 3 (refVisual 7)) as (c' & E & Hq & Hn & _);
    [apply refVisual_enabled | reflexivity | vm_compute; reflexivity | reflexivity |].
  exists c'. split; [exact E|]. split; [exact Hq | exact Hn].
Defined.
