(* ===== verification/TextRelay.v ===== *)
(** * Text messages and the partner (misc/network/textmessage.cpp,
    textmessagelist.cpp, core/context/contextnetworkimpl.cpp)

    Two pilots who fly together set each other as partner: what one of them
    receives or sends privately is relayed to the other one, as a private
    message whose text names the original sender and recipient.  The context
    decodes such messages, hides what the partner relays from the ordinary
    messages, and does not relay again what comes from the partner. *)

From S2P Require Export FsdConnection.

Open Scope Z_scope.

Section messages.
Context `{QtConv}.

(** ** The context *)

(** What the slots of the context emit, and the relay they schedule: after ten
    milliseconds the context sends these messages. *)
Inductive TextOut :=
  | TextReceived (messages : list CTextMessage)
  | TextSent (message : CTextMessage)
  | SupervisorTextReceived (message : CTextMessage)
  | RelayMessages (messages : list CTextMessage).

Definition isValidPartnerCallsign (ownCallsign partnerCallsign : CCallsign) : bool :=
  if callsignEmpty partnerCallsign then false
  else if callsignEqual ownCallsign partnerCallsign then false else true.

(** What is appended to the relayed messages. *)
Definition createRelayMessageToPartnerCallsign (partnerCallsign : CCallsign) (textMessage : CTextMessage) :
    list CTextMessage :=
  if tm_isEmpty textMessage then []
  else if callsignEmpty partnerCallsign then []
  else if callsignEqual (tm_sender textMessage) partnerCallsign then []
  else [makeRelayedMessage partnerCallsign textMessage].

Definition whenNotEmpty {A} (l : list A) (o : list TextOut) : list TextOut := if isEmpty l then [] else o.

Definition onTextMessagesReceived (now : Z) (partnerCallsign ownCallsign : CCallsign)
    (messages : list CTextMessage) : list TextOut :=
  if isEmpty messages then []
  else
    let textMessages := withRelayedToPrivateMessages messages in
    let fromPartner := findBySender partnerCallsign textMessages in
    let '(relayedSentMessages, partnerMessages, textMessages) :=
      if callsignEmpty partnerCallsign then ([], [], textMessages)
      else (markedAsSent now (findByNotForRecipient ownCallsign fromPartner),
            findByRecipient ownCallsign fromPartner,
            withRemovedPrivateMessagesFromCallsign partnerCallsign textMessages) in
    map TextSent relayedSentMessages ++
    whenNotEmpty textMessages [TextReceived textMessages] ++
    whenNotEmpty partnerMessages [TextReceived partnerMessages] ++
    (if containsPrivateMessages textMessages
     then map SupervisorTextReceived (getSupervisorMessages messages) ++
          (if callsignEmpty partnerCallsign then []
           else let relayed := concat (map (createRelayMessageToPartnerCallsign partnerCallsign)
                                         (getPrivateMessages messages)) in
                whenNotEmpty relayed [RelayMessages relayed])
     else []).

Definition onTextMessageSent (partnerCallsign : CCallsign) (message : CTextMessage) : list TextOut :=
  if tm_isEmpty message then []
  else if isRelayedMessage message then []
  else
    (if tm_isPrivate message && negb (callsignEmpty partnerCallsign) &&
        negb (callsignEqual (tm_recipient message) partnerCallsign)
     then let relayed := createRelayMessageToPartnerCallsign partnerCallsign message in
          whenNotEmpty relayed [RelayMessages relayed]
     else []) ++ [TextSent message].
End messages.
