(* ===== verification/TextPartner.v ===== *)
(** * Partners: what is relayed arrives, and is relayed once

    The relay of [TextRelay] as two contexts and the server between them: the
    text of a relayed message is read back to the message it was made from,
    the partner sees the conversation, and no relay causes another one.  Anybody can
    forge a relay, which can go on for ever ([forged_relay_echoes]). *)

From S2P Require Export TextRelay.

Open Scope Z_scope.

(** ** The text of a relayed message *)

(** A callsign whose unified string is read back from its own text. *)
Definition plainCallsign `{QtConv} (c : CCallsign) : Prop :=
  asString c <> [] /\ Forall (fun x => callsignChar x = true) (asString c) /\
  unifyCallsign (asString c) NoHint = asString c.

(** The text of a message: not empty, and simplified already. *)
Definition plainText `{QtConv} (s : QString) : Prop :=
  s <> [] /\ trimmed s = s /\ squeeze qt_isSpace false s = s.

Definition relayText (s r : CCallsign) (text : QString) : QString :=
  swiftRelayMessage ++ asString s ++ lit " " ++ asString r ++ lit ";" ++ text.

Lemma removeWith_absent fuel s c sub : c ∉ s -> removeWith fuel s (c :: sub) = s.
Proof.
  revert s. induction fuel as [|fuel IH]; intros [|x s] Hc; simpl; try done.
  apply not_elem_of_cons in Hc as [Hx Hs]. unfold startsWith. simpl.
  rewrite bool_decide_eq_false_2 by congruence. simpl. by rewrite IH.
Qed.
Lemma removeSub_prefix c sub s : c ∉ s -> removeSub ((c :: sub) ++ s) (c :: sub) = s.
Proof.
  intros Hs. unfold removeSub. simpl length.
  change ((c :: sub) ++ s) with (c :: (sub ++ s)). cbn [removeWith].
  change (c :: sub ++ s) with ((c :: sub) ++ s). rewrite startsWith_app. cbn [negb isEmpty andb].
  rewrite drop_app_length. by apply removeWith_absent.
Qed.

Lemma indexOf_absent c s t : c ∉ s -> indexOf c (s ++ c :: t) = Some (length s).
Proof.
  induction s as [|x s IH]; simpl; [by rewrite decide_True|].
  intros [Hx Hs]%not_elem_of_cons. rewrite decide_False by congruence. by rewrite IH.
Qed.

Lemma callsignChars_absent s x : Forall (fun x => callsignChar x = true) s -> callsignChar x = false -> x ∉ s.
Proof. intros Hs Hx Hin. rewrite Forall_forall in Hs. specialize (Hs _ Hin). congruence. Qed.

Section relay.
Context `{QtConvLaws}.

Lemma callsignChars_noSpace s : Forall (fun x => callsignChar x = true) s -> forall x, x ∈ s -> qt_isSpace x = false.
Proof using All.
  intros Hs x Hx. rewrite Forall_forall in Hs. specialize (Hs x Hx).
  unfold callsignChar in Hs. apply bool_decide_eq_true in Hs.
  rewrite qt_isSpace_ascii by lia. apply bool_decide_eq_false. lia.
Qed.

Lemma trimmed_pair s r :
  s <> [] -> r <> [] -> Forall (fun x => callsignChar x = true) s -> Forall (fun x => callsignChar x = true) r ->
  trimmed (s ++ lit " " ++ r) = s ++ lit " " ++ r.
Proof using All.
  intros Hs Hr Hsc Hrc. apply trimWith_id. split; intros x Hx.
  - apply (callsignChars_noSpace s Hsc). destruct s; [done|]. injection Hx as ->. apply list_elem_of_here.
  - apply (callsignChars_noSpace r Hrc). apply last_Some in Hx as [l Hl].
    destruct r as [|y r _] using rev_ind; [done|]. rewrite !app_assoc in Hl.
    apply app_inj_tail in Hl as [_ ->]. set_solver.
Qed.

(** Reading back: the fields are found whatever the text holds. *)
Lemma decode_relay s r text m :
  plainCallsign s -> plainCallsign r -> text <> [] -> tm_message m = relayText s r text ->
  relayedMessageToPrivateMessage m =
    Some (mkTextMessage text (CCallsign_make (asString s) NoHint) (CCallsign_make (asString r) NoHint)
            (tm_frequencykHz m) (tm_timestamp m) (tm_wasSent m) (tm_relayedMessage m)).
Proof using All.
  intros (Hs & Hsc & _) (Hr & Hrc & _) Ht Hm. unfold relayedMessageToPrivateMessage, isRelayedMessage.
  rewrite Hm. unfold relayText at 1. rewrite startsWith_app, orb_true_r. cbn [negb].
  set (names := asString s ++ lit " " ++ asString r).
  assert (E : relayText s r text = (swiftRelayMessage ++ names) ++ semicolon :: text)
    by (unfold relayText, names; rewrite <- !app_assoc; reflexivity).
  rewrite E.
  assert (Hsemi : semicolon ∉ swiftRelayMessage ++ names).
  { unfold names. rewrite !not_elem_of_app. split_and!; try (by apply (callsignChars_absent _ semicolon));
      apply (bool_decide_unpack _); vm_compute; exact I. }
  rewrite indexOf_absent by done.
  assert (Hlen : (length swiftRelayMessage <= length (swiftRelayMessage ++ names))%nat)
    by (rewrite length_app; lia).
  destruct (Nat.ltb_spec (length (swiftRelayMessage ++ names)) (length swiftRelayMessage)); [lia|].
  destruct (Nat.leb_spec (length ((swiftRelayMessage ++ names) ++ semicolon :: text))
              (length (swiftRelayMessage ++ names) + 1)) as [Hle|_].
  { rewrite length_app in Hle. destruct text; [done|]. simpl in Hle. lia. }
  unfold left, mid. rewrite take_app_length.
  assert (Hrem : removeSub (swiftRelayMessage ++ names) swiftRelayMessage = names).
  { apply (removeSub_prefix 115%N). unfold names. rewrite !not_elem_of_app.
    split_and!; try (by apply (callsignChars_absent _ 115%N));
      apply (bool_decide_unpack _); vm_compute; exact I. }
  rewrite Hrem. unfold names. rewrite trimmed_pair by done.
  change (asString s ++ lit " " ++ asString r) with (asString s ++ 32%N :: asString r).
  rewrite split_app, split_no_sep by (by apply (callsignChars_absent _ 32%N)).
  rewrite Nat.add_1_r, drop_app_ge by lia.
  replace (S _ - _)%nat with 1%nat by lia. reflexivity.
Qed.

Lemma plain_equal c hint : plainCallsign c -> callsignEqual (CCallsign_make (asString c) NoHint) (setTypeHint hint c) = true.
Proof using All.
  intros (_ & _ & Hu). unfold callsignEqual, equalsCI, CCallsign_make, setTypeHint. cbn [m_callsign].
  rewrite Hu. by apply bool_decide_eq_true.
Qed.
Lemma plain_same c : plainCallsign c -> callsignEqual (CCallsign_make (asString c) NoHint) c = true.
Proof using All. apply (plain_equal c (m_typeHint c)). Qed.

(** A relayed message is read back.  A private message between two
    callsigns, relayed to whatever partner, is turned back into the message it
    was made from: the same text, whatever characters it holds, and callsigns
    equal to the original sender and recipient.  Only a text that starts with
    the words of a relay itself is not relayed but left as it is. *)
Theorem relay_roundtrip partner m :
  plainCallsign (tm_sender m) -> plainCallsign (tm_recipient m) -> tm_isEmpty m = false ->
  if startsWith (tm_message m) swiftRelayMessage then makeRelayedMessage partner m = m
  else exists m', relayedMessageToPrivateMessage (makeRelayedMessage partner m) = Some m' /\
         tm_message m' = tm_message m /\
         callsignEqual (tm_sender m') (tm_sender m) = true /\
         callsignEqual (tm_recipient m') (tm_recipient m) = true /\
         tm_timestamp m' = tm_timestamp m.
Proof using All.
  intros Hs Hr Ht. unfold makeRelayedMessage. destruct (startsWith _ _); [done|].
  rewrite (decode_relay (tm_sender m) (tm_recipient m) (tm_message m)); try done.
  - eexists. split; [reflexivity|]. cbn. split_and!; [done | by apply plain_same | by apply plain_same | done].
  - unfold tm_isEmpty in Ht. by destruct (tm_message m).
Qed.
End relay.

Lemma relay_roundtrip_witness :
  let m := mkTextMessage (lit "a; b swift relayed: c") (CCallsign_make (lit "EDDF_TWR") NoHint)
             (CCallsign_make (lit "dlh123") NoHint) None 5 false false in
  exists m', relayedMessageToPrivateMessage (makeRelayedMessage (CCallsign_make (lit "BAW1") NoHint) m) = Some m' /\
    tm_message m' = tm_message m /\ callsignEqual (tm_sender m') (tm_sender m) = true /\
    callsignEqual (tm_recipient m') (tm_recipient m) = true /\ tm_timestamp m' = tm_timestamp m.
Proof.
  intros m.
  assert (Hs : plainCallsign (tm_sender m)) by (apply (bool_decide_unpack _); vm_compute; exact I).
  assert (Hr : plainCallsign (tm_recipient m)) by (apply (bool_decide_unpack _); vm_compute; exact I).
  exact (relay_roundtrip (CCallsign_make (lit "BAW1") NoHint) m Hs Hr eq_refl).
Defined.

(** ** Over the wire *)

Lemma squeeze_noSpace sp s : (forall x, x ∈ s -> sp x = false) -> squeeze sp false s = s.
Proof.
  induction s as [|x s IH]; [done|]. intros Hs. simpl. rewrite (Hs x) by set_solver. simpl.
  by rewrite IH by set_solver.
Qed.
Lemma squeeze_word sp u w :
  (forall x, x ∈ u -> sp x = false) -> sp 32%N = true -> (exists y, head w = Some y /\ sp y = false) ->
  squeeze sp false (u ++ 32%N :: w) = u ++ 32%N :: squeeze sp false w.
Proof.
  intros Hu Hb (y & Hy & Hsp). destruct w as [|y' w]; [done|]. injection Hy as ->.
  induction u as [|x u IH]; simpl; [by rewrite Hb, Hsp|].
  rewrite (Hu x) by set_solver. simpl. simpl in IH. by rewrite IH by set_solver.
Qed.
Lemma squeeze_start sp u v : (forall x, x ∈ u -> sp x = false) -> squeeze sp false (u ++ v) = u ++ squeeze sp false v.
Proof.
  intros Hu. induction u as [|x u IH]; simpl; [done|]. rewrite (Hu x) by set_solver. simpl.
  by rewrite IH by set_solver.
Qed.

(** What a client makes of a private message another client has sent: the text
    is trimmed and simplified. *)
Definition delivered `{QtConv} (utc : Z) (sender recipient : CCallsign) (text : QString) : CTextMessage :=
  privateMessage text (CCallsign_make (asString sender) NoHint)
    (CCallsign_make (getFsdCallsignString recipient) NoHint) utc.

(** What the relays among the outputs send. *)
Definition relaysOf (o : list TextOut) : list CTextMessage :=
  concat (map (fun x => match x with RelayMessages l => l | _ => [] end) o).

Lemma relaysOf_app o o' : relaysOf (o ++ o') = relaysOf o ++ relaysOf o'.
Proof. unfold relaysOf. by rewrite map_app, concat_app. Qed.

Section wire.
Context `{QtConvLaws}.

Lemma plainText_last text x : plainText text -> last text = Some x -> qt_isSpace x = false.
Proof using All.
  intros (Hne & Ht & _) Hx. unfold trimmed, trimWith in Ht. rewrite <- Ht in Hx.
  apply (dropSpaces_head qt_isSpace (rev (dropSpaces qt_isSpace text))).
  set (d := dropSpaces _ (rev _)) in *. destruct d as [|y d]; [done|]. simpl in Hx.
  by rewrite last_snoc in Hx.
Qed.

Lemma callsign_head s t : asString s <> [] -> Forall (fun x => callsignChar x = true) (asString s) ->
  exists y, head (asString s ++ t) = Some y /\ qt_isSpace y = false.
Proof using All.
  intros Hs Hc. destruct (asString s) as [|y v] eqn:E; [done|]. exists y. split; [done|].
  apply (callsignChars_noSpace (y :: v) Hc). apply list_elem_of_here.
Qed.

(** The text of a relay survives the receiver's clean-up. *)
Lemma relayText_simplified s r text :
  plainCallsign s -> plainCallsign r -> plainText text ->
  trimmed (simplified (relayText s r text)) = relayText s r text.
Proof using All.
  intros (Hs & Hsc & _) (Hr & Hrc & _) Ht.
  assert (Htr : trimmed (relayText s r text) = relayText s r text).
  { apply trimWith_id. split; intros x Hx.
    - injection Hx as <-. rewrite qt_isSpace_ascii by lia. by apply bool_decide_eq_false; lia.
    - unfold relayText in Hx. rewrite !app_assoc in Hx. destruct Ht as (Hne & Ht).
      apply (plainText_last text x); [done|]. destruct text as [|y l _] using rev_ind; [done|].
      rewrite app_assoc, last_snoc in Hx. by rewrite last_snoc. }
  unfold simplified. rewrite Htr.
  assert (Hsp : qt_isSpace 32%N = true) by (rewrite qt_isSpace_ascii by lia; by apply bool_decide_eq_true; lia).
  assert (Hlow : forall l, forallb (fun x => (97 <=? x) && (x <=? 122) || (x =? 58) || (x =? 59))%N l = true ->
                      forall x, x ∈ l -> qt_isSpace x = false).
  { intros l Hl x Hx. rewrite forallb_forall in Hl. apply list_elem_of_In, Hl in Hx.
    assert ((97 <= x <= 122)%N \/ x = 58%N \/ x = 59%N) by
      (apply orb_true_iff in Hx as [[Hx|Hx]%orb_true_iff|Hx];
       [apply andb_true_iff in Hx as [?%N.leb_le ?%N.leb_le] | apply N.eqb_eq in Hx.. ]; lia).
    rewrite qt_isSpace_ascii by lia. apply bool_decide_eq_false. lia. }
  assert (E : squeeze qt_isSpace false (relayText s r text) = relayText s r text); [|by rewrite E].
  change (relayText s r text) with
    (lit "swift" ++ 32%N :: (lit "relayed:" ++ 32%N :: (asString s ++ 32%N :: (asString r ++ lit ";" ++ text)))).
  rewrite squeeze_word by (done || (apply Hlow; reflexivity) || (exists 114%N; split; [done | apply (Hlow [114%N]); [done | set_solver]])).
  rewrite squeeze_word by (done || (apply Hlow; reflexivity) || by apply callsign_head).
  rewrite squeeze_word by (done || (by apply callsignChars_noSpace) || by apply callsign_head).
  rewrite squeeze_start by (by apply callsignChars_noSpace).
  rewrite squeeze_start by (apply Hlow; reflexivity). do 4 f_equal. destruct Ht as (_ & _ & ->). done.
Qed.
End wire.

(** [delivered] is what the client makes of the message of another client, unless
    it waits for an ATIS of the sender: it joins it to the digest. *)
Lemma handle_delivered `{QtConvLaws} {W : World} sender recipient text c :
  plainCallsign sender -> noColon (getFsdCallsignString recipient) ->
  startsWith (getFsdCallsignString recipient) [TextMessage.atSign] = false ->
  m_pendingAtisQueries (session c) !! asString (CCallsign_make (asString sender) NoHint) = None ->
  let m := TextMessage.make (asString sender) (getFsdCallsignString recipient) text in
  handleTextMessage (retokenize (TextMessage.toTokens m)) c =
    consolidateTextMessage (delivered now sender recipient text) c.
Proof.
  intros (_ & Hs & _) Hr Hat Hp m.
  assert (Hm : m = TextMessage.mk (MessageBase_make (asString sender) (getFsdCallsignString recipient)) text
                     TextMessage.PrivateMessage []) by (unfold m, TextMessage.make; by rewrite Hat).
  assert (Hwf : TextMessage.wf m).
  { rewrite Hm. split_and!; [unfold TextMessage.make; cbn [TextMessage.base m_sender m_receiver
      TextMessage.m_message MessageBase_make]; by rewrite Hat | | done].
    unfold noColon. cbn. by apply (callsignChars_absent _ colon). }
  pose proof (wire_roundtrip (M := TextMessage.t) m Hwf) as Hrt.
  cbn [FsdBase.fromTokens FsdBase.toTokens TextMessage.message] in Hrt.
  unfold handleTextMessage. rewrite Hrt, defined_bind, get_bind, Hm.
  cbn [TextMessage.m_type TextMessage.base TextMessage.m_message m_sender m_receiver MessageBase_make].
  assert (Hn : bool_decide (is_Some (m_pendingAtisQueries (session c) !!
                 asString (CCallsign_make (asString sender) NoHint))) = false)
    by (rewrite Hp; apply bool_decide_eq_false; by intros [? ?]).
  rewrite Hn, andb_false_r. done.
Qed.

(** ** Two partners *)

(** The callsign of a pilot who has a partner: plain, without the star of
    cross-coupled ATC, and no supervisor's. *)
Definition partnerOk `{QtConv} (c : CCallsign) : Prop :=
  plainCallsign c /\ callsignEmpty c = false /\ startsWith (m_callsignAsSet c) (lit "*") = false /\
  endsWith (asString c) (lit "SUP") = false.

(** A private message that is no relay. *)
Definition ordinary `{QtConv} (m : CTextMessage) : Prop :=
  plainCallsign (tm_sender m) /\ plainCallsign (tm_recipient m) /\ plainText (tm_message m) /\
  tm_isPrivate m = true /\ isRelayedMessage m = false.

(** The message as it was: text and callsigns. *)
Definition sameMessage `{QtConv} (m' m : CTextMessage) : Prop :=
  tm_message m' = tm_message m /\ callsignEqual (tm_sender m') (tm_sender m) = true /\
  callsignEqual (tm_recipient m') (tm_recipient m) = true.

Lemma filter_bool_single {A} (f : A -> bool) x : filter (fun y => f y) [x] = if f x then [x] else [].
Proof. rewrite filter_cons. simpl. by destruct (f x). Qed.

Section partners.
Context `{QtConvLaws}.

Lemma callsignEqual_spec c d : callsignEqual c d = true <-> map qt_foldCase (asString c) = map qt_foldCase (asString d).
Proof using Type. apply bool_decide_eq_true. Qed.
Lemma callsignEqual_sym c d : callsignEqual c d = callsignEqual d c.
Proof using Type. unfold callsignEqual, equalsCI. apply bool_decide_ext. naive_solver. Qed.
Lemma callsignEqual_subst c d e : callsignEqual c d = true -> callsignEqual c e = callsignEqual d e.
Proof using Type.
  rewrite callsignEqual_spec. unfold callsignEqual, equalsCI, asString. by intros ->.
Qed.

Lemma made_nonempty c hint : plainCallsign c -> callsignEmpty (CCallsign_make (asString c) hint) = false.
Proof using All.
  intros (Hs & Hc & _). unfold callsignEmpty, CCallsign_make. cbn [m_callsignAsSet].
  unfold trimmed. rewrite trimWith_id; [by destruct (asString c)|]. split; intros x Hx.
  - apply (callsignChars_noSpace _ Hc). destruct (asString c); [done|]. injection Hx as ->. apply list_elem_of_here.
  - apply (callsignChars_noSpace _ Hc). by eapply last_Some_elem_of.
Qed.

Lemma fsdString_partner hint c : partnerOk c -> getFsdCallsignString (setTypeHint hint c) = asString c.
Proof using Type. intros (_ & _ & Hs & _). unfold getFsdCallsignString. cbn [m_callsignAsSet setTypeHint]. by rewrite Hs. Qed.

(** The relay of a message as its addressee gets it. *)
Lemma delivered_relay now a b s r text :
  partnerOk a -> partnerOk b -> plainCallsign s -> plainCallsign r -> plainText text ->
  delivered now a (setTypeHint Aircraft b) (relayText s r text) =
  mkTextMessage (relayText s r text) (CCallsign_make (asString a) NoHint) (CCallsign_make (asString b) NoHint)
    None now false false.
Proof using All.
  intros Ha Hb Hs Hr Ht. unfold delivered, privateMessage. by rewrite fsdString_partner, relayText_simplified.
Qed.

(** What the partner shows: a message the other pilot sent as if sent here, any
    other as if received here, and it relays nothing. *)
Lemma relay_shown now a b s r text :
  partnerOk a -> partnerOk b -> plainCallsign s -> plainCallsign r -> plainText text ->
  let w := delivered now a (setTypeHint Aircraft b) (relayText s r text) in
  let m' := mkTextMessage text (CCallsign_make (asString s) NoHint) (CCallsign_make (asString r) NoHint)
              None now false false in
  onTextMessagesReceived now a b [w] =
    if callsignEqual s a then
      if callsignEqual r b then [TextReceived [m']] else [TextSent (markAsSent now m')]
    else [TextReceived [m']].
Proof using All.
  intros Ha Hb Hs Hr Ht w m'. subst w. rewrite delivered_relay by done.
  set (w := mkTextMessage _ _ _ _ _ _ _).
  assert (Hdec : relayedMessageToPrivateMessage w = Some m').
  { rewrite (decode_relay s r text w); [done | done | done | by destruct Ht | done]. }
  assert (Hw : tm_isSupervisor w = false).
  { unfold tm_isSupervisor. cbn [tm_sender w]. destruct (isBroadcastCallsign _); [done|].
    unfold isSupervisorCallsign. cbn [m_typeHint CCallsign_make m_callsign]. case_decide; [done|].
    destruct Ha as ((_ & _ & ->) & _ & _ & Hsup). exact Hsup. }
  assert (Hpriv : tm_isPrivate w = true /\ tm_isPrivate m' = true).
  { unfold tm_isPrivate, w, m'. cbn [tm_sender tm_recipient].
    rewrite !made_nonempty by (done || apply Ha || apply Hb). done. }
  unfold onTextMessagesReceived. cbn [isEmpty withRelayedToPrivateMessages map]. rewrite Hdec.
  change (default w (Some m')) with m'.
  assert (Hws : callsignEqual (tm_sender w) a = true) by (apply plain_same, Ha).
  assert (Hms : callsignEqual (tm_sender m') a = callsignEqual s a)
    by (apply callsignEqual_subst, plain_same, Hs).
  assert (Hmr : callsignEqual (tm_recipient m') b = callsignEqual r b)
    by (apply callsignEqual_subst, plain_same, Hr).
  destruct Ha as (Hap & Hae & _), Hb as (Hbp & Hbe & _).
  assert (Hrel : createRelayMessageToPartnerCallsign a w = []).
  { unfold createRelayMessageToPartnerCallsign. rewrite Hws, Hae. by destruct (tm_isEmpty w). }
  unfold findBySender, findByNotForRecipient, findByRecipient, withRemovedPrivateMessagesFromCallsign,
    getSupervisorMessages, getPrivateMessages.
  rewrite !filter_bool_single. cbv beta. rewrite Hae, Hbe, Hms, Hw, (proj1 Hpriv), (proj2 Hpriv).
  destruct (callsignEqual s a); cbn [andb negb]; rewrite ?filter_bool_single; cbv beta; rewrite ?Hmr.
  - destruct Hpriv as [_ Hp]. unfold tm_isPrivate in Hp. apply andb_true_iff in Hp as [_ Hp].
    rewrite Hp. by destruct (callsignEqual r b).
  - unfold whenNotEmpty. cbn [map app isEmpty containsPrivateMessages existsb orb].
    rewrite (proj2 Hpriv). cbn [orb map app concat]. by rewrite Hrel.
Qed.

Lemma makeRelayed_ordinary b m :
  ordinary m -> makeRelayedMessage b m =
    mkTextMessage (relayText (tm_sender m) (tm_recipient m) (tm_message m)) (tm_sender m)
      (setTypeHint Aircraft b) (tm_frequencykHz m) (tm_timestamp m) (tm_wasSent m) true.
Proof using Type.
  intros (_ & _ & _ & _ & Hr). unfold makeRelayedMessage. unfold isRelayedMessage in Hr.
  apply orb_false_iff in Hr as [_ ->]. done.
Qed.

(** What the context relays of the messages it receives: all or nothing of what
    [createRelayMessageToPartnerCallsign] makes of the private ones. *)
Definition shownHere (b : CCallsign) (l : list CTextMessage) : list CTextMessage :=
  let textMessages := withRelayedToPrivateMessages l in
  if callsignEmpty b then textMessages else withRemovedPrivateMessagesFromCallsign b textMessages.
Lemma relays_received now a b l :
  relaysOf (onTextMessagesReceived now b a l) =
    if containsPrivateMessages (shownHere b l)
    then concat (map (createRelayMessageToPartnerCallsign b) (getPrivateMessages l)) else [].
Proof using Type.
  unfold onTextMessagesReceived, shownHere. destruct l as [|m l].
  { unfold withRemovedPrivateMessagesFromCallsign. by destruct (callsignEmpty b). }
  set (ms := m :: l). change (isEmpty ms) with false. cbv iota.
  set (relayed := concat _).
  assert (Hsent : forall l, relaysOf (map TextSent l) = []) by (intros l'; by induction l').
  assert (Hsup : forall l, relaysOf (map SupervisorTextReceived l) = []) by (intros l'; by induction l').
  assert (Hrec : forall x y : list CTextMessage, relaysOf (whenNotEmpty x [TextReceived y]) = [])
    by (intros [|? ?] ?; done).
  assert (Hrel : relaysOf (whenNotEmpty relayed [RelayMessages relayed]) = relayed)
    by (destruct relayed; [done|]; unfold relaysOf; simpl; by rewrite app_nil_r).
  destruct (callsignEmpty b) eqn:Eb; rewrite !relaysOf_app, Hsent, !Hrec; cbn [app];
    destruct (containsPrivateMessages _); rewrite ?relaysOf_app, ?Hsup, ?Hrel; try done.
  assert (relayed = []) as ->; [|done]. clear Hrel. subst relayed.
  unfold createRelayMessageToPartnerCallsign. rewrite Eb.
  induction (getPrivateMessages ms) as [|x l' IH]; [done|]. simpl. rewrite IH. by destruct (tm_isEmpty x).
Qed.

(** Nothing of the partner's is relayed. *)
Lemma relays_partner now a b l :
  Forall (fun m => callsignEqual (tm_sender m) b = true) l -> relaysOf (onTextMessagesReceived now b a l) = [].
Proof using Type.
  intros Hl. rewrite relays_received. destruct (containsPrivateMessages _); [|done].
  unfold getPrivateMessages. induction Hl as [|m l Hm _ IH]; [done|]. rewrite filter_cons.
  case_decide; [|done]. simpl. rewrite IH. unfold createRelayMessageToPartnerCallsign. rewrite Hm.
  by destruct (tm_isEmpty m), (callsignEmpty b).
Qed.

(** One message that is no relay. *)
Lemma relays_one now a b m :
  callsignEmpty b = false -> isRelayedMessage m = false -> tm_isPrivate m = true -> tm_isEmpty m = false ->
  callsignEqual (tm_sender m) b = false ->
  relaysOf (onTextMessagesReceived now b a [m]) = [makeRelayedMessage b m].
Proof using Type.
  intros Hb Hr Hp He Hs. rewrite relays_received. unfold shownHere, withRelayedToPrivateMessages. cbn [map].
  unfold relayedMessageToPrivateMessage. rewrite Hr. cbn [negb]. change (default m None) with m. rewrite Hb.
  unfold withRemovedPrivateMessagesFromCallsign, getPrivateMessages. rewrite !filter_bool_single, Hb.
  cbv beta. rewrite Hp, Hs. cbn [negb andb]. unfold containsPrivateMessages. cbn [existsb map concat app]. rewrite Hp.
  unfold createRelayMessageToPartnerCallsign. by rewrite He, Hb, Hs.
Qed.

Lemma relays_sent b m :
  callsignEmpty b = false -> isRelayedMessage m = false -> tm_isPrivate m = true -> tm_isEmpty m = false ->
  callsignEqual (tm_recipient m) b = false -> callsignEqual (tm_sender m) b = false ->
  relaysOf (onTextMessageSent b m) = [makeRelayedMessage b m].
Proof using Type.
  intros Hb Hr Hp He Hrec Hs. unfold onTextMessageSent. rewrite He, Hr, Hp, Hb, Hrec. cbn [negb andb].
  unfold createRelayMessageToPartnerCallsign. by rewrite He, Hb, Hs.
Qed.

(** The message a relay is decoded to is the message relayed. *)
Lemma decoded_same now m :
  plainCallsign (tm_sender m) -> plainCallsign (tm_recipient m) ->
  sameMessage (mkTextMessage (tm_message m) (CCallsign_make (asString (tm_sender m)) NoHint)
                 (CCallsign_make (asString (tm_recipient m)) NoHint) None now false false) m.
Proof using All. intros Hs Hr. split_and!; [done | by apply plain_same | by apply plain_same]. Qed.

(** C11: The partner sees the conversation.  A private message a pilot gets from
    anybody but the partner is relayed once, and shown to the partner as the
    message it was, received from the original sender; a private message the
    pilot sends to anybody but the partner is relayed once, too, and shown to
    the partner as one sent by the pilot. *)
Theorem relay_conversation now now' a b m :
  partnerOk a -> partnerOk b -> callsignEqual a b = false -> ordinary m ->
  (callsignEqual (tm_sender m) a = false -> callsignEqual (tm_sender m) b = false ->
   exists r m', relaysOf (onTextMessagesReceived now b a [m]) = [r] /\
     onTextMessagesReceived now' a b [delivered now' a (tm_recipient r) (tm_message r)] = [TextReceived [m']] /\
     sameMessage m' m) /\
  (callsignEqual (tm_sender m) a = true -> callsignEqual (tm_recipient m) b = false ->
   exists r m', relaysOf (onTextMessageSent b m) = [r] /\
     onTextMessagesReceived now' a b [delivered now' a (tm_recipient r) (tm_message r)] = [TextSent m'] /\
     sameMessage m' m).
Proof using All.
  intros Ha Hb Hab Hm. pose proof Hm as (Hs & Hr & Ht & Hp & Hrel).
  assert (He : tm_isEmpty m = false) by (unfold tm_isEmpty; destruct Ht as (Hne & _); by destruct (tm_message m)).
  pose proof (makeRelayed_ordinary b m Hm) as Emk. split; intros H1 H2.
  - eexists _, _. split; [|split].
    + rewrite relays_one by (done || apply Hb). by rewrite Emk.
    + cbn [tm_recipient tm_message]. rewrite relay_shown by done. by rewrite H1.
    + by apply decoded_same.
  - eexists _, _. split; [|split].
    + rewrite relays_sent; [by rewrite Emk | apply Hb | done | done | done | done |].
      rewrite <- Hab. by apply callsignEqual_subst.
    + cbn [tm_recipient tm_message]. rewrite relay_shown by done. by rewrite H1, H2.
    + pose proof (decoded_same now' m Hs Hr) as Hd. exact Hd.
Qed.

(** ** No relay causes another one *)

(** The packets under way to the two partners ([true] is the first), and what
    a delivery sends on: the relays, to whom they are addressed. *)
Definition pilot (a b : CCallsign) (n : bool) : CCallsign := if n then a else b.
Definition addressee (a b : CCallsign) (w : CTextMessage) : list (bool * CTextMessage) :=
  if callsignEqual (tm_recipient w) a then [(true, w)]
  else if callsignEqual (tm_recipient w) b then [(false, w)] else [].
Definition sentOn (utc : Z) (a b : CCallsign) (n : bool) (r : CTextMessage) : list (bool * CTextMessage) :=
  addressee a b (delivered utc (pilot a b n) (tm_recipient r) (tm_message r)).
Definition reaction (utc : Z) (a b : CCallsign) (p : bool * CTextMessage) : list (bool * CTextMessage) :=
  concat (map (sentOn utc a b p.1)
    (relaysOf (onTextMessagesReceived utc (pilot a b (negb p.1)) (pilot a b p.1) [p.2]))).

(** Packets are delivered one by one, in any order. *)
Inductive exchange (utc : Z) (a b : CCallsign) :
    list (bool * CTextMessage) -> nat -> list (bool * CTextMessage) -> Prop :=
  | exchange_none l : exchange utc a b l 0 l
  | exchange_deliver l1 p l2 k l :
      exchange utc a b (l1 ++ l2 ++ reaction utc a b p) k l -> exchange utc a b (l1 ++ p :: l2) (S k) l.

(** Every packet is from the partner, or no relay. *)
Definition fromPartner (a b : CCallsign) (p : bool * CTextMessage) : bool :=
  callsignEqual (tm_sender p.2) (pilot a b (negb p.1)).
Definition outside (a b : CCallsign) (p : bool * CTextMessage) : Prop :=
  fromPartner a b p = true \/ ordinary p.2.
Definition weight (a b : CCallsign) (p : bool * CTextMessage) : nat := if fromPartner a b p then 1 else 2.

Lemma reaction_partner utc a b p : fromPartner a b p = true -> reaction utc a b p = [].
Proof using Type.
  intros Hp. unfold reaction. rewrite relays_partner; [done|]. by constructor.
Qed.

(** The relay of an ordinary message is one packet, to the partner and from it. *)
Lemma reaction_ordinary utc a b p :
  partnerOk a -> partnerOk b -> callsignEqual a b = false -> ordinary p.2 -> fromPartner a b p = false ->
  exists w, reaction utc a b p = [w] /\ fromPartner a b w = true.
Proof using All.
  intros Ha Hb Hab Hm Hp. destruct p as [n m]. unfold fromPartner in Hp. cbn [fst snd] in *.
  pose proof Hm as (Hs & Hr & Ht & Hpr & Hrel).
  assert (He : tm_isEmpty m = false) by (unfold tm_isEmpty; destruct Ht as (Hne & _); by destruct (tm_message m)).
  assert (Hn : partnerOk (pilot a b n) /\ partnerOk (pilot a b (negb n)) /\
               callsignEqual (pilot a b (negb n)) (pilot a b n) = false).
  { destruct n; split_and!; try done. by rewrite callsignEqual_sym. }
  destruct Hn as (Hn & Hn' & Hne). unfold reaction. cbn [fst snd].
  rewrite relays_one by (done || apply Hn'). rewrite makeRelayed_ordinary by done.
  cbn [map concat app]. unfold sentOn. cbn [tm_recipient tm_message]. rewrite delivered_relay by done.
  set (w := mkTextMessage _ _ _ _ _ _ _).
  assert (Hws : callsignEqual (tm_sender w) (pilot a b n) = true) by (apply plain_same, Hn).
  assert (Hwr : forall c, callsignEqual (tm_recipient w) c = callsignEqual (pilot a b (negb n)) c)
    by (intros c; apply callsignEqual_subst, plain_same, Hn').
  exists (negb n, w). unfold addressee, fromPartner. rewrite !Hwr. cbn [fst snd].
  rewrite negb_involutive. destruct n; cbn [pilot negb] in *.
  - rewrite Hne. unfold callsignEqual at 1, equalsCI. rewrite bool_decide_true by done. by rewrite app_nil_r.
  - unfold callsignEqual at 1, equalsCI. rewrite bool_decide_true by done. by rewrite app_nil_r.
Qed.

Lemma exchange_weight utc a b l k l' :
  partnerOk a -> partnerOk b -> callsignEqual a b = false ->
  exchange utc a b l k l' -> Forall (outside a b) l ->
  (k + sum_list_with (weight a b) l' <= sum_list_with (weight a b) l)%nat.
Proof using All.
  intros Ha Hb Hab. induction 1 as [l | l1 p l2 k l Hx IH]; intros Hl; [lia|].
  apply Forall_app in Hl as [Hl1 Hl2]. apply Forall_cons in Hl2 as [Hp Hl2].
  assert (Hr : Forall (outside a b) (reaction utc a b p) /\
               (S (sum_list_with (weight a b) (reaction utc a b p)) <= weight a b p)%nat).
  { unfold weight at 2. destruct (fromPartner a b p) eqn:Ep.
    - rewrite reaction_partner by done. split; [constructor | simpl; lia].
    - destruct Hp as [Hp|Hp]; [congruence|].
      destruct (reaction_ordinary utc a b p Ha Hb Hab Hp Ep) as (w & -> & Hw).
      split; [by repeat constructor|]. simpl. unfold weight. rewrite Hw. lia. }
  destruct Hr as [Hr1 Hr2]. specialize (IH ltac:(by rewrite !Forall_app)).
  rewrite !sum_list_with_app in *. simpl. lia.
Qed.

(** C12: Relaying comes to an end, when nobody forges a relay.  Two pilots whose callsigns differ
    are each other's partner; every packet under way to one of them is sent by its partner, or is an
    ordinary private message that is no relay.  In whatever order the packets are
    delivered, a message that is relayed causes no further message: there are at most two
    deliveries for each packet.  (With a forged relay the pilots can go on for ever:
    [forged_relay_echoes].) *)
Theorem relays_end utc a b l k l' :
  partnerOk a -> partnerOk b -> callsignEqual a b = false -> Forall (outside a b) l ->
  exchange utc a b l k l' -> (k <= 2 * length l)%nat.
Proof using All.
  intros Ha Hb Hab Hl Hx. pose proof (exchange_weight utc a b l k l' Ha Hb Hab Hx Hl) as Hw.
  assert (Hle : (sum_list_with (weight a b) l <= 2 * length l)%nat); [|lia].
  clear. induction l as [|p l IH]; [done|]. simpl. unfold weight at 1. destruct (fromPartner a b p); lia.
Qed.
End partners.

(** ** Examples *)

Definition refA : CCallsign := CCallsign_make (lit "DLH123") NoHint.
Definition refB : CCallsign := CCallsign_make (lit "DLH123B") NoHint.
Definition refThird : CCallsign := CCallsign_make (lit "EDDF_TWR") NoHint.
Definition refMessage (s r : CCallsign) (text : string) : CTextMessage :=
  mkTextMessage (lit text) s r None 5 false false.
Arguments refMessage s r text%_string.

Lemma refPartners : partnerOk refA /\ partnerOk refB /\ callsignEqual refA refB = false.
Proof. split_and!; apply (bool_decide_unpack _); vm_compute; exact I. Qed.
Lemma refOrdinary : ordinary (refMessage refThird refA "line up; wait") /\
                    ordinary (refMessage refA refThird "ready").
Proof. split; apply (bool_decide_unpack _); vm_compute; exact I. Qed.

Lemma relay_conversation_witness :
  (exists r m', relaysOf (onTextMessagesReceived 9 refB refA [refMessage refThird refA "line up; wait"]) = [r] /\
     onTextMessagesReceived 20 refA refB [delivered 20 refA (tm_recipient r) (tm_message r)] = [TextReceived [m']] /\
     sameMessage m' (refMessage refThird refA "line up; wait")) /\
  (exists r m', relaysOf (onTextMessageSent refB (refMessage refA refThird "ready")) = [r] /\
     onTextMessagesReceived 20 refA refB [delivered 20 refA (tm_recipient r) (tm_message r)] = [TextSent m'] /\
     sameMessage m' (refMessage refA refThird "ready")).
Proof.
  destruct refPartners as (Ha & Hb & Hab), refOrdinary as [H1 H2]. split.
  - apply (relay_conversation 9 20 refA refB _ Ha Hb Hab H1); vm_compute; reflexivity.
  - apply (relay_conversation 9 20 refA refB _ Ha Hb Hab H2); vm_compute; reflexivity.
Defined.

Lemma relays_end_witness :
  exists p, exchange 9 refA refB [(true, refMessage refThird refA "line up; wait")] 2 [] /\
    fromPartner refA refB p = true /\ (2 <= 2 * length [p])%nat.
Proof.
  destruct refPartners as (Ha & Hb & Hab), refOrdinary as [H1 _].
  set (p := (true, refMessage refThird refA "line up; wait")).
  destruct (reaction_ordinary 9 refA refB p Ha Hb Hab H1 ltac:(vm_compute; reflexivity)) as (w & Er & Hw).
  assert (Hx : exchange 9 refA refB [p] 2 []).
  { apply (exchange_deliver _ _ _ [] p []). simpl app. rewrite Er.
    apply (exchange_deliver _ _ _ [] w []). simpl app. rewrite reaction_partner by done. constructor. }
  exists w. split; [exact Hx|]. split; [exact Hw|].
  assert (Hout : Forall (outside refA refB) [p]) by (constructor; [right; exact H1 | constructor]).
  exact (relays_end 9 refA refB [p] 2 [] Ha Hb Hab Hout Hx).
Defined.

(** Any pilot can speak in the name of any callsign: the words of a relay are
    decoded whoever sends them, also without a partner. *)
Example forged_sender :
  onTextMessagesReceived 9 CCallsign_default refA
    [refMessage (CCallsign_make (lit "BAW2") NoHint) refA "swift relayed: EDDF_TWR DLH123;cleared to land"]
  = [TextReceived [refMessage refThird refA "cleared to land"]].
Proof. vm_compute. reflexivity. Qed.

(** With a partner set, such a message is sent on unchanged, its recipient
    included: to the own callsign.  When the server delivers it, the same
    happens again, and so on. *)
Example forged_relay_echoes :
  let w := (true, delivered 9 (CCallsign_make (lit "BAW2") NoHint) refA
                    (lit "swift relayed: EDDF_TWR DLH123;cleared to land")) in
  let own := (true, delivered 9 refA refA (lit "swift relayed: EDDF_TWR DLH123;cleared to land")) in
  reaction 9 refA refB w = [own] /\ reaction 9 refA refB own = [own].
Proof. vm_compute. split; reflexivity. Qed.

(** Two relays of the partner that arrive within one digest are joined before
    they are decoded: the second one becomes part of the text of the first. *)
Example relays_joined :
  let relay n := delivered n refA refB (relayText refThird refA (lit "line up")) in
  let relay' n := delivered n refA refB (relayText refA refThird (lit "ready")) in
  onTextMessagesReceived 9 refA refB (addConsolidatedTextMessage (addConsolidatedTextMessage [] (relay 9)) (relay' 9))
  = [TextReceived [mkTextMessage (lit "line up swift relayed: DLH123 EDDF_TWR;ready") refThird refA None 9 false false]].
Proof. vm_compute. reflexivity. Qed.
