(* ===== verification/NetworkContext.v ===== *)
(** * The network context (core/context/contextnetworkimpl.h, .cpp)

    Connecting, disconnecting and connecting again.  The context runs in the
    main thread, the FSD client in its own: a call of [connectToServer] or
    [disconnectFromServer] is posted to the client ([toFsd]), the signals of the
    client are queued for the context ([toCtx]), the presets are set directly
    under a lock.  [connectToNetwork] tests the server in a nested event loop:
    everything else can happen before it goes on ([frames]). *)

From S2P Require Export TextRelay NetworkConfig.

Open Scope Z_scope.

(** ** Users and servers (misc/network/user.h, server.cpp) *)

Record CUser := mkUser {
  user_id : QString; user_password : QString; user_realName : QString;
  user_realNameAndHomeBase : QString; user_callsign : CCallsign }.
Definition getUser (s : CServer) : CUser :=
  mkUser (userId s) (userPassword s) (realName s) (realNameAndHomeBase s) (userCallsign s).
Definition setUser (u : CUser) (s : CServer) : CServer :=
  s <| userId := user_id u |> <| userPassword := user_password u |> <| realName := user_realName u |>
    <| realNameAndHomeBase := user_realNameAndHomeBase u |> <| userCallsign := user_callsign u |>.
(** The home base, which the callsign of an ATC station sets when there is none,
    is not kept apart. *)
Definition setUserCallsign (c : CCallsign) (u : CUser) : CUser :=
  if callsignEqual (user_callsign u) c then u
  else mkUser (user_id u) (user_password u) (user_realName u) (user_realNameAndHomeBase u) c.
Definition userEqual (u v : CUser) : bool :=
  bool_decide (user_id u = user_id v) && bool_decide (user_password u = user_password v)
  && bool_decide (user_realName u = user_realName v)
  && bool_decide (user_realNameAndHomeBase u = user_realNameAndHomeBase v)
  && callsignEqual (user_callsign u) (user_callsign v).

Definition hasCredentials (u : CUser) : bool :=
  negb (isEmpty (user_realName u) && isEmpty (user_id u)) && negb (isEmpty (user_password u)).
Definition hasAddressAndPort (s : CServer) : bool := (0 <? server_port s) && negb (isEmpty (server_address s)).
Definition isValidForLogin (s : CServer) : bool :=
  hasCredentials (getUser s) && hasAddressAndPort s && isAcceptingConnections s.

(** ** The own aircraft (misc/simulation/simulatedaircraft.cpp,
    core/context/contextownaircraftimpl.cpp) *)

Record OwnState := mkOwnState { oa_callsign : CCallsign; oa_pilot : CUser }.

(** The pilot has the callsign of the aircraft, whatever the user says. *)
Definition setPilot (user : CUser) (a : OwnState) : OwnState :=
  mkOwnState (oa_callsign a) (setUserCallsign (oa_callsign a) user).
Definition setAircraftCallsign (callsign : CCallsign) (a : OwnState) : OwnState :=
  mkOwnState callsign (setUserCallsign callsign (oa_pilot a)).

(** ** The state of the context *)

(** The arguments of [connectToNetwork]. *)
Record LoginArgs := mkLogin {
  la_server : CServer; extraLiveryString : QString; sendLivery : bool; extraModelString : QString;
  sendModelString : bool; partnerCallsign : CCallsign; la_mode : LoginMode }.
(** ReconnectLoginSnapshot. *)
Record Snapshot := mkSnapshot { rl_login : LoginArgs; originalCallsign : CCallsign }.
Definition snapshotValid (s : Snapshot) : bool :=
  isValidForLogin (la_server (rl_login s)) && negb (callsignEmpty (originalCallsign s)).

(** [m_reconnectTimer]: the delay the single-shot timer was started with, when
    it runs. *)
Record CContextNetwork := mkContext {
  m_currentMode : LoginMode; m_reconnectLogin : Snapshot; m_reconnectTimer : option Z;
  m_reconnectAttempt : Z; m_reconnectInProgress : bool; m_userDisconnectRequested : bool;
  m_kickedDisconnectRequested : bool; m_unexpectedDisconnectPending : bool }.

(** A call of [connectToNetwork] in the event loop of [canConnect]: its
    arguments, the value of [automaticReconnect], and whether it was called by
    [reconnectToNetwork]. *)
Record Frame := mkFrame { fr_args : LoginArgs; fr_automatic : bool; fr_reconnect : bool }.

(** [relayTimers]: the single-shot timers that send relayed messages. *)
Record Sys := mkSys {
  ctx : CContextNetwork; fsd : CFSDClient; ownAircraft : OwnState; toFsd : list Event;
  toCtx : list Signal; frames : list Frame; relayTimers : list (list CTextMessage) }.

Inductive CtxOut :=
  | ClearAirspace
  | Kicked (reason : QString)
  | ConnectedServerChanged (server : CServer)
  | CtxStatusChanged (from to : ConnectionStatus)
  | ChangedCallsign (callsign : CCallsign)
  | ChangedPilot (user : CUser)
  | Forwarded (s : Signal)
  | TextOutput (o : TextOut)
  | CtxLog (severity : Severity) (text : string).

(** What the context asks during one event: the application, the simulator, the
    network of the user, the version, the texts of the own model. *)
Class CtxWorld := {
  isShuttingDown : bool;
  isSimulatorSimulating : bool;
  simulatorInfo : Simulator;
  lastNetwork : CNetwork;                  (** m_networkSetup.getLastNetwork *)
  swiftVersionChar : QString;
  swiftLiveryString : Simulator -> QString (** ownAircraft.getModel().getSwiftLiveryString *)
}.

Definition Ctx (A : Type) : Type := Sys -> option (A * Sys * list CtxOut).
#[export] Instance Ctx_ret : MRet Ctx := fun A x s => Some (x, s, []).
#[export] Instance Ctx_bind : MBind Ctx := fun A B k m s =>
  match m s with
  | None => None
  | Some (x, s', o) => match k x s' with
                       | None => None
                       | Some (y, s'', o') => Some (y, s'', o ++ o')
                       end
  end.
Definition getS : Ctx Sys := fun s => Some (s, s, []).
Definition modifyC (f : CContextNetwork -> CContextNetwork) : Ctx unit :=
  fun s => Some (tt, s <| ctx ::= f |>, []).
Definition modifyS (f : Sys -> Sys) : Ctx unit := fun s => Some (tt, f s, []).
Definition outC (o : CtxOut) : Ctx unit := fun s => Some (tt, s, [o]).
Definition logC (severity : Severity) (text : string) : Ctx unit := outC (CtxLog severity text).
Arguments logC severity text%_string.
Definition whenC (b : bool) (m : Ctx unit) : Ctx unit := if b then m else mret tt.
Definition definedC {A} (x : option A) : Ctx A := fun s => match x with Some x => Some (x, s, []) | None => None end.

(** Calls of the client from the main thread. *)
Definition post (e : Event) : Ctx unit := modifyS (fun s => s <| toFsd ::= fun q => q ++ [e] |>).
Definition preset (f : Presets -> Presets) : Ctx unit := modifyS (fun s => s <| fsd -> presets ::= f |>).

Section context.
Context `{QtConv, BC : BuildConfig} {J : QtJson} {M : CMath}.

Definition updateOwnAircraftPilot (user : CUser) : Ctx unit :=
  s ← getS;
  if userEqual (oa_pilot (ownAircraft s)) user then mret tt
  else modifyS (fun s => s <| ownAircraft ::= setPilot user |>);; outC (ChangedPilot user).
Definition updateOwnCallsign (callsign : CCallsign) : Ctx unit :=
  s ← getS;
  if callsignEqual (oa_callsign (ownAircraft s)) callsign then mret tt
  else modifyS (fun s => s <| ownAircraft ::= setAircraftCallsign callsign |>);;
       outC (ChangedCallsign callsign).

Definition canUseFsd {CW : CtxWorld} : bool := negb isShuttingDown.

Definition cancelReconnect : Ctx unit :=
  modifyC (fun c => c <| m_reconnectTimer := None |> <| m_reconnectInProgress := false |>).
Definition clearDisconnectFlags : CContextNetwork -> CContextNetwork :=
  fun c => c <| m_userDisconnectRequested := false |> <| m_kickedDisconnectRequested := false |>
             <| m_unexpectedDisconnectPending := false |>.
Definition resetAttempt : Ctx unit := modifyC (fun c => c <| m_reconnectAttempt := 0 |>).

(** ** Connecting *)

(** The status messages [connectToNetwork] returns; the last one and the first
    one are no errors. *)
Inductive ConnectResult :=
  | InvalidFsdState | InvalidCredentials | InvalidIcaoData | ConnectionFailed | AlreadyConnected
  | PendingConnection | ConnectionPending.
#[export] Instance ConnectResult_eq_dec : EqDecision ConnectResult.
Proof. solve_decision. Defined.
Definition isSuccess (r : ConnectResult) : bool :=
  match r with InvalidFsdState | ConnectionPending => true | _ => false end.

(** Up to the test of the server: [None] when it is to be made. *)
Definition connectChecks {W : World} {CW : CtxWorld} (a : LoginArgs) (automaticReconnect : bool) :
    Ctx (option ConnectResult) :=
  whenC (negb automaticReconnect) (cancelReconnect;; resetAttempt;; modifyC clearDisconnectFlags);;
  mret (if negb canUseFsd then Some InvalidFsdState
        else if negb (hasCredentials (getUser (la_server a))) then Some InvalidCredentials
        else if isEmpty (own_aircraftDesignator own) then Some InvalidIcaoData
        else None).

Definition clientCapabilities : Z :=
  foldl Capabilities.or (Capabilities.value Capabilities.AircraftInfo)
    (map Capabilities.value [Capabilities.FastPos; Capabilities.VisPos; Capabilities.AtcInfo;
                             Capabilities.AircraftConfig; Capabilities.IcaoEquipment]).

(** The presets of a login, in the order of the code; [setServer] of the client
    chooses the protocol and the codec by the network configuration. *)
Definition setLogin {W : World} {CW : CtxWorld} (a : LoginArgs) (mode : LoginMode)
    (ownCallsign : CCallsign) : Ctx unit :=
  let sim := simulatorInfo in
  let l := if isEmpty (extraLiveryString a) then swiftLiveryString sim else extraLiveryString a in
  let m := if isEmpty (extraModelString a) then own_modelString own else extraModelString a in
  modifyC (fun c => c <| m_currentMode := mode |>);;
  preset (fun p => p <| m_loginMode := mode |>);;
  updateOwnCallsign ownCallsign;;
  preset (fun p =>
    p <| m_ownCallsign := ownCallsign |> <| m_simType := simTypeOf sim |>
      <| m_ownAircraftIcaoCode := own_aircraftDesignator own |>
      <| m_ownAirlineIcaoCode := own_airlineVDesignator own |>
      <| m_ownLivery := l |> <| m_ownModelString := m |> <| m_sendLiveryString := sendLivery a |>
      <| m_sendModelString := sendModelString a |> <| m_clientName := swiftVersionChar |>
      <| m_versionMajor := versionMajor |> <| m_versionMinor := versionMinor |>
      <| m_capabilities := clientCapabilities |>);;
  whenC (hasLoadedConfig lastNetwork) (preset (fun p => p <| m_networkConfig := net_config lastNetwork |>));;
  preset (fun p =>
    p <| m_server := la_server a |>
      <| m_protocolRevision :=
           if config_isValid (m_networkConfig p) then getFsdProtocolRevision (m_networkConfig p)
           else if isVatsimServer (la_server a) then PROTOCOL_REVISION_VATSIM_VELOCITY
           else PROTOCOL_REVISION_CLASSIC |>
      <| m_codec := codecFor (m_networkConfig p) (la_server a) |>);;
  preset (fun p => p <| m_pilotRating := PilotRating.Student |> <| m_atcRating := AtcRating.Observer |>).

(** From the test on; [reachable] is its result. *)
Definition connectProceed {W : World} {CW : CtxWorld} (a : LoginArgs) (automaticReconnect reachable : bool) :
    Ctx ConnectResult :=
  s ← getS;
  if negb reachable then mret ConnectionFailed
  else if bool_decide (m_connectionStatus (fsd s) = Connected) then mret AlreadyConnected
  else if isPendingConnection (fsd s) then mret PendingConnection
  else
    updateOwnAircraftPilot (getUser (la_server a));;
    s ← getS;
    let ownCallsign := oa_callsign (ownAircraft s) in
    preset (fun p => p <| m_partnerCallsign :=
                            if isValidPartnerCallsign ownCallsign (partnerCallsign a) then partnerCallsign a
                            else CCallsign_default |>);;
    let fallback := negb localDeveloperDebugBuild && negb isSimulatorSimulating in
    whenC fallback (logC Info "Falling back to observer mode");;
    let mode := if fallback then Observer else la_mode a in
    let sendModel := match simulatorInfo with
                     | Sim_FG => if isEmpty (extraModelString a) then false else sendModelString a
                     | _ => sendModelString a
                     end in
    let a := mkLogin (la_server a) (extraLiveryString a) (sendLivery a) (extraModelString a) sendModel
               (partnerCallsign a) mode in
    setLogin a mode ownCallsign;;
    whenC (negb automaticReconnect) (modifyC (fun c => c <| m_reconnectLogin := mkSnapshot a ownCallsign |>));;
    post EvConnect;;
    mret ConnectionPending.

(** ** Disconnecting *)

Inductive DisconnectResult := DisconnectInvalidState | ConnectionTerminating | AlreadyDisconnected.

Definition disconnectFromNetwork {CW : CtxWorld} : Ctx DisconnectResult :=
  if negb canUseFsd then mret DisconnectInvalidState
  else
    modifyC (fun c => c <| m_userDisconnectRequested := true |> <| m_unexpectedDisconnectPending := false |>);;
    cancelReconnect;;
    s ← getS;
    if bool_decide (m_connectionStatus (fsd s) = Connected) || isPendingConnection (fsd s)
    then post EvDisconnect;; mret ConnectionTerminating
    else mret AlreadyDisconnected.

(** ** Connecting again *)

Definition scheduleReconnect {CW : CtxWorld} : Ctx unit :=
  if isShuttingDown then mret tt
  else
    s ← getS;
    let config := m_networkConfig (presets (fsd s)) in
    if negb (isReconnectEnabled config) then resetAttempt
    else if negb (getUserReconnectEnabled lastNetwork) then resetAttempt
    else if negb (snapshotValid (m_reconnectLogin (ctx s))) then
      logC Warning_ "Automatic reconnect skipped: no previous login data";; resetAttempt
    else if getReconnectMaxAttempts config <=? m_reconnectAttempt (ctx s) then
      logC Warning_ "Automatic reconnect stopped after %1 attempt(s)";; resetAttempt
    else
      let attempt := m_reconnectAttempt (ctx s) + 1 in
      modifyC (fun c => c <| m_reconnectAttempt := attempt |>);;
      delayMs ← definedC (reconnectDelayMsForAttempt config attempt);
      logC Info "Scheduling automatic reconnect attempt %1/%2 in %3s as '%4'";;
      modifyC (fun c => c <| m_reconnectTimer := Some delayMs |>).

(** The end of a call of [connectToNetwork]: [reconnectToNetwork] goes on, the
    user's call returns. *)
Definition connectReturns {CW : CtxWorld} (reconnect : bool) (r : ConnectResult) : Ctx unit :=
  if reconnect
  then modifyC (fun c => c <| m_reconnectInProgress := false |>);;
       whenC (negb (isSuccess r)) scheduleReconnect
  else mret tt.

(** A call of [connectToNetwork]: it returns, or waits in the event loop. *)
Definition connectToNetwork {W : World} {CW : CtxWorld} (a : LoginArgs) (reconnect : bool) : Ctx unit :=
  s ← getS;
  let automaticReconnect := m_reconnectInProgress (ctx s) in
  early ← connectChecks a automaticReconnect;
  match early with
  | Some r => connectReturns reconnect r
  | None => modifyS (fun s => s <| frames ::= cons (mkFrame a automaticReconnect reconnect) |>)
  end.

(** The event loop of the innermost call ends. *)
Definition canConnectReturns {W : World} {CW : CtxWorld} (reachable : bool) : Ctx unit :=
  s ← getS;
  match frames s with
  | [] => mret tt
  | f :: fs =>
      modifyS (fun s => s <| frames := fs |>);;
      r ← connectProceed (fr_args f) (fr_automatic f) reachable;
      connectReturns (fr_reconnect f) r
  end.

(** The callsign of the user changes with the attempt. *)
Definition reconnectServer (config : CNetworkConfig) (l : Snapshot) (attempt : Z) : CServer :=
  let server := la_server (rl_login l) in
  setUser (setUserCallsign
             (CCallsign_make (reconnectCallsignForAttempt config (asString (originalCallsign l)) attempt) Aircraft)
             (getUser server)) server.

Definition reconnectToNetwork {W : World} {CW : CtxWorld} : Ctx unit :=
  s ← getS;
  let c := ctx s in
  if negb canUseFsd then mret tt
  else if negb (snapshotValid (m_reconnectLogin c)) then mret tt
  else if m_userDisconnectRequested c || m_kickedDisconnectRequested c then mret tt
  else if bool_decide (m_connectionStatus (fsd s) = Connected) || isPendingConnection (fsd s) then mret tt
  else
    let config := m_networkConfig (presets (fsd s)) in
    if negb (isReconnectEnabled config) then resetAttempt
    else if negb (getUserReconnectEnabled lastNetwork) then resetAttempt
    else
      modifyC (fun c => clearDisconnectFlags (c <| m_reconnectInProgress := true |>));;
      let l := rl_login (m_reconnectLogin c) in
      connectToNetwork
        (mkLogin (reconnectServer config (m_reconnectLogin c) (m_reconnectAttempt c)) (extraLiveryString l)
           (sendLivery l) (extraModelString l) (sendModelString l) (partnerCallsign l) (la_mode l)) true.

(** The timeout of the single-shot timer. *)
Definition reconnectTimeout {W : World} {CW : CtxWorld} : Ctx unit :=
  modifyC (fun c => c <| m_reconnectTimer := None |>);; reconnectToNetwork.

(** ** The slots *)

Definition onKicked (reason : QString) : Ctx unit :=
  modifyC (fun c => c <| m_kickedDisconnectRequested := true |> <| m_unexpectedDisconnectPending := false |>);;
  cancelReconnect;;
  outC (Kicked reason).

Definition isLive (s : ConnectionStatus) : bool :=
  bool_decide (s = Connected) || bool_decide (s = Connecting).

Definition onFsdConnectionStatusChanged {CW : CtxWorld} (from to : ConnectionStatus) : Ctx unit :=
  whenC (bool_decide (to = Disconnecting))
    (modifyC (fun c => c <| m_unexpectedDisconnectPending :=
       isLive from && negb (m_userDisconnectRequested c) && negb (m_kickedDisconnectRequested c) |>));;
  whenC (bool_decide (to = Disconnected))
    (outC ClearAirspace;;
     s ← getS;
     let c := ctx s in
     let reconnect := (m_unexpectedDisconnectPending c || isLive from)
                      && negb (m_userDisconnectRequested c) && negb (m_kickedDisconnectRequested c) in
     modifyC clearDisconnectFlags;;
     whenC reconnect scheduleReconnect);;
  whenC (bool_decide (to = Connected))
    (logC Info "Connected, own aircraft %1";;
     resetAttempt;;
     modifyC clearDisconnectFlags;;
     cancelReconnect;;
     s ← getS;
     outC (ConnectedServerChanged (getServer (fsd s))));;
  logC Info "Connection status changed from '%1' to '%2'";;
  outC (CtxStatusChanged from to).

(** The outputs of the text slots; a relay starts a timer. *)
Definition textOutput (o : TextOut) : Ctx unit :=
  match o with
  | RelayMessages l => modifyS (fun s => s <| relayTimers ::= fun q => q ++ [l] |>)
  | _ => outC (TextOutput o)
  end.
Fixpoint outputsOf (l : list TextOut) : Ctx unit :=
  match l with [] => mret tt | o :: l => textOutput o;; outputsOf l end.

(** The slot a queued signal calls; other signals of the client have no slot of
    the context. *)
Definition handleSignal {W : World} {CW : CtxWorld} (s : Signal) : Ctx unit :=
  match s with
  | connectionStatusChanged from to => onFsdConnectionStatusChanged from to
  | killRequestReceived reason => onKicked reason
  | textMessagesReceived messages =>
      sys ← getS;
      outputsOf (onTextMessagesReceived now (m_partnerCallsign (presets (fsd sys)))
                   (oa_callsign (ownAircraft sys)) messages)
  | textMessageSent message =>
      sys ← getS; outputsOf (onTextMessageSent (m_partnerCallsign (presets (fsd sys))) message)
  | severeNetworkError _ | muteRequestReceived _ => outC (Forwarded s)
  | _ => mret tt
  end.

(** ** The two threads *)

(** The signals of the client the context is connected to. *)
Definition contextSignal (o : Out) : option Signal :=
  match o with
  | Emit s =>
      match s with
      | connectionStatusChanged _ _ | killRequestReceived _ | textMessagesReceived _ | textMessageSent _
      | severeNetworkError _ | muteRequestReceived _ => Some s
      | _ => None
      end
  | _ => None
  end.

(** One event in the thread of the client. *)
Definition clientStep {W : World} (e : Event) : Ctx unit := fun s =>
  match handle e (fsd s) with
  | Some (_, c, o) => Some (tt, s <| fsd := c |> <| toCtx ::= fun q => q ++ omap contextSignal o |>, [])
  | None => None
  end.

(** What the client does by itself: everything but the calls of the context. *)
Definition ownEvent (e : Event) : bool :=
  match e with
  | EvConnect | EvDisconnect | EvSetServer _ | EvSetCallsign _ | EvSetIcaoCodes _ _
  | EvSetLiveryAndModelString _ _ _ _ | EvSetSimType _ => false
  | _ => true
  end.

(** Events of the whole: calls of the user, the end of the innermost test of a
    server, the timers, the delivery of the first queued signal or the first
    posted call, and the events of the client. *)
Inductive SysEvent :=
  | UserConnect (a : LoginArgs)
  | UserDisconnect
  | UserTexts (messages : list CTextMessage)
  | RelayTimer
  | TestReturns (reachable : bool)
  | ReconnectTimer
  | DeliverSignal
  | DeliverCall
  | ClientEvent (e : Event).

Definition sysStep {W : World} {CW : CtxWorld} (e : SysEvent) : Ctx unit :=
  s ← getS;
  match e with
  | UserConnect a => connectToNetwork a false
  | UserDisconnect => _ ← disconnectFromNetwork; mret tt
  | UserTexts messages => post (EvTextMessages messages)
  | RelayTimer =>
      match relayTimers s with
      | [] => definedC None
      | l :: q => modifyS (fun s => s <| relayTimers := q |>);; post (EvTextMessages l)
      end
  | TestReturns b => match frames s with [] => definedC None | _ => canConnectReturns b end
  | ReconnectTimer => match m_reconnectTimer (ctx s) with None => definedC None | Some _ => reconnectTimeout end
  | DeliverSignal =>
      match toCtx s with
      | [] => definedC None
      | sig :: q => modifyS (fun s => s <| toCtx := q |>);; handleSignal sig
      end
  | DeliverCall =>
      match toFsd s with
      | [] => definedC None
      | call :: q => modifyS (fun s => s <| toFsd := q |>);; whenC (negb isShuttingDown) (clientStep call)
      end
  | ClientEvent e => if ownEvent e then clientStep e else definedC None
  end.

(** A run; an event that cannot happen in a state has no step. *)
Inductive sys_run : Sys -> list (World * CtxWorld * SysEvent) -> list CtxOut -> Sys -> Prop :=
  | sys_nil s : sys_run s [] [] s
  | sys_cons s W CW e es s' s'' o o' :
      sysStep (W := W) (CW := CW) e s = Some (tt, s', o) -> sys_run s' es o' s'' ->
      sys_run s ((W, CW, e) :: es) (o ++ o') s''.

Fixpoint runSys (s : Sys) (es : list (World * CtxWorld * SysEvent)) : option (list CtxOut * Sys) :=
  match es with
  | [] => Some ([], s)
  | (W, CW, e) :: es =>
      match sysStep (W := W) (CW := CW) e s with
      | Some (_, s', o) => match runSys s' es with Some (o', s'') => Some (o ++ o', s'') | None => None end
      | None => None
      end
  end.

Lemma runSys_run s es o s' : runSys s es = Some (o, s') <-> sys_run s es o s'.
Proof using Type.
  split.
  - revert s o. induction es as [|[[W CW] e] es IH]; intros s o; simpl; [intros [= <- <-]; constructor|].
    destruct (sysStep e s) as [[[[] s1] o1]|] eqn:E1; [|done].
    destruct (runSys s1 es) as [[o2 s2]|] eqn:E2; [|done]. intros [= <- <-]. econstructor; eauto.
  - induction 1 as [s | s W CW e es s1 s2 o1 o2 Hs _ IH]; simpl; [done|]. by rewrite Hs, IH.
Qed.
End context.

(** The context as constructed. *)
Definition CServer_default : CServer :=
  mkServer [] [] (-1) (lit "tcp") [] false 1
    (mkSetup true true true true true false false false (lit "UTF-8")) (-1) [] [] [] []
    CCallsign_default true.
Definition CContextNetwork_init : CContextNetwork :=
  mkContext Pilot (mkSnapshot (mkLogin CServer_default [] false [] false CCallsign_default Pilot)
                     CCallsign_default) None 0 false false false false.
