(* ===== verification/NetworkReconnect.v ===== *)
(** * Connecting again, over every interleaving

    The automatic reconnect of the context ([NetworkContext]) against the client
    it runs beside.  At any time at most one attempt is under way: a running
    timer, a server under test, a posted call, an announced connection, or a
    lost connection still to be handled ([credit]).  The attempts after a lost
    connection are bounded by the configuration, and a disconnect by the user
    or the server ends them, unless it comes while an attempt is under way: the examples
    at the end show that such an attempt can go on. *)

From S2P Require Export NetworkContext FsdInvariant.

Open Scope Z_scope.

(** ** What the client announces *)

Section announces.
Context `{QtConv, BC : BuildConfig} {J : QtJson}.

(** The announcements of a new connection. *)
Definition announcesConnecting (l : list (ConnectionStatus * ConnectionStatus)) : Z :=
  Z.of_nat (length (filter (fun ch => ch.2 = Connecting) l)).
Lemma announces_nonneg l : 0 <= announcesConnecting l.
Proof using Type. unfold announcesConnecting. lia. Qed.
Lemma announces_app l l' : announcesConnecting (l ++ l') = announcesConnecting l + announcesConnecting l'.
Proof using Type. unfold announcesConnecting. rewrite filter_app, length_app. lia. Qed.
Lemma announces_cons ch l :
  announcesConnecting (ch :: l) = Z.b2z (bool_decide (ch.2 = Connecting)) + announcesConnecting l.
Proof using Type.
  change (ch :: l) with ([ch] ++ l). rewrite announces_app. f_equal. unfold announcesConnecting.
  rewrite filter_cons, filter_nil. case_decide as Hd; case_bool_decide; done.
Qed.

(** A step that announces at most [n] connections and keeps the configuration. *)
Definition atMost (n : Z) (c : CFSDClient) (o : list Out) (c' : CFSDClient) : Prop :=
  announcesConnecting (omap statusChange o) <= n
  /\ m_networkConfig (presets c') = m_networkConfig (presets c).
#[export] Instance atMost_compositional : Compositional (atMost 0).
Proof using Type.
  split; [by split|]. intros c o c' o' c'' [H1 E1] [H2 E2]. split; [|congruence].
  rewrite omap_app, announces_app. lia.
Qed.

Lemma increaseStatistics_presets {W : World} i a c : presets (increaseStatistics i a c) = presets c.
Proof using Type. unfold increaseStatistics. by case_match. Qed.

Lemma atMost_leaves : Leaves (fun s => s <> Connecting) (atMost 0).
Proof using Type.
  split; intros; try done; try (split; [done | by destruct c]).
  - split; [|done]. simpl. destruct o as [[]| | | | | | | | | | | |]; done.
  - split; [done|]. simpl. auto.
  - split; [done|]. by rewrite increaseStatistics_presets.
  - split; [|by destruct c]. simpl. rewrite announces_cons. simpl. by rewrite bool_decide_false.
Qed.

Lemma atMost_bind {A B} m n (c : Cmd A) (k : A -> Cmd B) :
  satisfies (atMost m) c -> (forall x, satisfies (atMost n) (k x)) -> satisfies (atMost (m + n)) (c ≫= k).
Proof using Type.
  intros Hc Hk s y s' o. unfold mbind, Cmd_bind.
  destruct (c s) as [[[x s1] o1]|] eqn:E1; [|done].
  destruct (k x s1) as [[[z s2] o2]|] eqn:E2; [|done]. intros [= <- <- <-].
  destruct (Hc _ _ _ _ E1) as [H1 P1], (Hk _ _ _ _ _ E2) as [H2 P2]. split; [|congruence].
  rewrite omap_app, announces_app. lia.
Qed.

Lemma atMost_connecting {W : World} : satisfies (atMost 1) (updateConnectionStatus Connecting).
Proof using Type.
  unfold updateConnectionStatus. intros c x c' o. rewrite bind_get.
  destruct (decide _); [by intros [= _ <- <-]|]. cbn. by intros [= _ <- <-].
Qed.

(** Only the call to connect announces a new connection, and only one. *)
Lemma handle_announces {W : World} e :
  satisfies (atMost (Z.b2z (if e is EvConnect then true else false))) (handle e).
Proof using Type.
  assert (Hother : e <> EvConnect -> satisfies (atMost 0) (handle e)).
  { intros He. by apply (satisfies_handle _ _ atMost_leaves). }
  destruct e; try by apply Hother. clear Hother.
  assert (L := atMost_leaves).
  unfold handle, connectToServer. apply (atMost_bind 0 1); [apply satisfies_get; exact _ | intros c].
  destruct (isTransportOpen c).
  { intros ? ? ? ? [= _ <- <-]. by split. }
  apply (atMost_bind 0 1); [apply satisfies_when; [exact _|]; by apply (satisfies_setPresets _ _ L)|].
  intros _. apply (atMost_bind 0 1); [by apply (satisfies_clearState _ _ L) | intros _].
  apply (atMost_bind 0 1); [apply satisfies_modify; intros []; by split | intros _].
  apply (atMost_bind 1 0); [apply atMost_connecting | intros _].
  by apply (satisfies_initiateConnection _ _ L).
Qed.
End announces.

(** ** The credit *)

Section credit.
Context `{QtConv, BC : BuildConfig} {J : QtJson} {M : CMath}.

Definition sigStatus (s : Signal) : option (ConnectionStatus * ConnectionStatus) :=
  match s with connectionStatusChanged from to => Some (from, to) | _ => None end.
(** The changes of the status the context has not handled yet. *)
Definition statuses (s : Sys) : list (ConnectionStatus * ConnectionStatus) := omap sigStatus (toCtx s).
Lemma contextSignal_status (o : list Out) : omap sigStatus (omap contextSignal o) = omap statusChange o.
Proof using Type.
  induction o as [|x o IH]; [done|]. destruct x as [[]| | | | | | | | | | | |]; cbn; (exact IH || (f_equal; exact IH)).
Qed.

Definition connectCalls (l : list Event) : Z :=
  Z.of_nat (length (List.filter (fun e => if e is EvConnect then true else false) l)).
Lemma connectCalls_app l l' : connectCalls (l ++ l') = connectCalls l + connectCalls l'.
Proof using Type. unfold connectCalls. rewrite List.filter_app, length_app. lia. Qed.
Lemma connectCalls_cons e l :
  connectCalls (e :: l) = Z.b2z (if e is EvConnect then true else false) + connectCalls l.
Proof using Type.
  change (e :: l) with ([e] ++ l). rewrite connectCalls_app. f_equal. by destruct e.
Qed.
Lemma connectCalls_other e l :
  (if e is EvConnect then false else true) = true -> connectCalls (l ++ [e]) = connectCalls l.
Proof using Type.
  intros He. rewrite connectCalls_app. destruct e; simpl in He; (discriminate He || apply Z.add_0_r).
Qed.
Lemma connectCalls_nonneg l : 0 <= connectCalls l.
Proof using Type. unfold connectCalls. lia. Qed.

Definition running (t : option Z) : Z := if t is Some _ then 1 else 0.
(** A lost connection for which the context will start a timer; [d] is the last
    status it handled. *)
Definition lost (d : ConnectionStatus) (c : CContextNetwork) : bool :=
  (isLive d || m_unexpectedDisconnectPending c)
  && negb (m_userDisconnectRequested c) && negb (m_kickedDisconnectRequested c).

(** What can still lead to another attempt. *)
Definition credit (d : ConnectionStatus) (s : Sys) : Z :=
  running (m_reconnectTimer (ctx s)) + Z.of_nat (length (frames s)) + connectCalls (toFsd s)
  + announcesConnecting (statuses s) + Z.b2z (lost d (ctx s)).
(** The attempts that were started. *)
Definition started (s : Sys) : Z := m_reconnectAttempt (ctx s) - running (m_reconnectTimer (ctx s)).

Record accounted (N : Z) (d : ConnectionStatus) (s : Sys) : Prop := {
  ac_chain : statusChain d (statuses s) (m_connectionStatus (fsd s));
  ac_credit : credit d s <= 1;
  ac_attempt : 0 <= m_reconnectAttempt (ctx s) <= N;
  ac_config : getReconnectMaxAttempts (m_networkConfig (presets (fsd s))) <= N
}.

(** A step that starts [n] attempts. *)
Record advances (N n : Z) (d : ConnectionStatus) (s : Sys) (d' : ConnectionStatus) (s' : Sys) : Prop := {
  ad_accounted : accounted N d' s';
  ad_credit : credit d' s' <= credit d s;
  ad_started : 0 < credit d' s' -> started s + n <= started s'
}.
Lemma advances_trans N m n d s d1 s1 d2 s2 :
  advances N m d s d1 s1 -> advances N n d1 s1 d2 s2 -> advances N (m + n) d s d2 s2.
Proof using Type. intros [? ? H1] [? ? H2]. split; [done | lia | lia]. Qed.

Lemma b2z_range b : 0 <= Z.b2z b <= 1.
Proof using Type. destruct b; simpl; lia. Qed.
Lemma running_range t : 0 <= running t <= 1.
Proof using Type. destruct t; simpl; lia. Qed.

(** The connections the context announces. *)
Definition noConnected (o : list CtxOut) : Prop := forall from, CtxStatusChanged from Connected ∉ o.

Lemma bindC_inv {A B} (m : Ctx A) (k : A -> Ctx B) s y s' o :
  (m ≫= k) s = Some (y, s', o) ->
  exists x s1 o1 o2, m s = Some (x, s1, o1) /\ k x s1 = Some (y, s', o2) /\ o = o1 ++ o2.
Proof using Type.
  unfold mbind, Ctx_bind. destruct (m s) as [[[x s1] o1]|]; [|done].
  destruct (k x s1) as [[[z s2] o2]|] eqn:E2; [|done]. intros [= <- <- <-]. eauto 10.
Qed.

Lemma modifyC_inv f s x s' o : modifyC f s = Some (x, s', o) -> s' = s <| ctx ::= f |> /\ o = [].
Proof using Type. by intros [= _ <- <-]. Qed.
Lemma modifyS_inv f s x s' o : modifyS f s = Some (x, s', o) -> s' = f s /\ o = [].
Proof using Type. by intros [= _ <- <-]. Qed.

(** Run a command in a hypothesis. *)
Ltac run_step :=
  match goal with
  | H : (_ ≫= _) _ = Some _ |- _ =>
      let x := fresh "x" in let s1 := fresh "s" in let o1 := fresh "o" in let o2 := fresh "o" in
      let H1 := fresh "H" in
      apply bindC_inv in H as (x & s1 & o1 & o2 & H1 & H & ->); cbv beta in H
  | H : getS _ = Some _ |- _ => injection H as <- <- <-
  | H : mret _ _ = Some _ |- _ => injection H as <- <- <-
  | H : modifyC _ _ = Some _ |- _ => apply modifyC_inv in H as [-> ->]
  | H : modifyS _ _ = Some _ |- _ => apply modifyS_inv in H as [-> ->]; cbv beta in *
  | H : outC _ _ = Some _ |- _ => injection H as <- <- <-
  | H : logC _ _ _ = Some _ |- _ => injection H as <- <- <-
  | H : whenC true _ _ = Some _ |- _ => unfold whenC in H
  | H : whenC false _ _ = Some _ |- _ => unfold whenC in H
  | H : whenC ?b _ _ = Some _ |- _ => destruct b eqn:?; unfold whenC in H
  | H : (if ?b then _ else _) _ = Some _ |- _ => destruct b eqn:?
  | H : (let _ := _ in _) _ = Some _ |- _ => cbv zeta in H
  | H : definedC ?x _ = Some _ |- _ =>
      unfold definedC in H; destruct x eqn:?; [injection H as <- <- <- | discriminate H]
  end.
Ltac run := repeat run_step; rewrite ?app_nil_l, ?app_nil_r in *.

(** *** The operations *)

(** A timer is started, for the next attempt, or the counting starts over. *)
Inductive scheduled (N : Z) (s : Sys) : Sys -> Prop :=
  | scheduled_not : scheduled N s s
  | scheduled_over : scheduled N s (s <| ctx ::= fun c => c <| m_reconnectAttempt := 0 |> |>)
  | scheduled_timer delay :
      m_reconnectAttempt (ctx s) + 1 <= N ->
      scheduled N s (s <| ctx ::= fun c => c <| m_reconnectAttempt := m_reconnectAttempt (ctx s) + 1 |>
                                             <| m_reconnectTimer := Some delay |> |>).

Lemma scheduleReconnect_scheduled {CW : CtxWorld} N s u s' o :
  getReconnectMaxAttempts (m_networkConfig (presets (fsd s))) <= N ->
  scheduleReconnect s = Some (u, s', o) -> scheduled N s s'.
Proof using Type.
  intros HN Hrun. unfold scheduleReconnect, resetAttempt in Hrun.
  run; first [apply scheduled_not | apply scheduled_over | eapply (scheduled_timer N s); lia].
Qed.

(** What changes neither the account nor the queues. *)
Record sameAccount (N : Z) (s s' : Sys) : Prop := {
  sa_timer : m_reconnectTimer (ctx s') = m_reconnectTimer (ctx s);
  sa_attempt : m_reconnectAttempt (ctx s') = m_reconnectAttempt (ctx s);
  sa_lost d : lost d (ctx s') = lost d (ctx s);
  sa_frames : frames s' = frames s;
  sa_toCtx : toCtx s' = toCtx s;
  sa_toFsd : toFsd s' = toFsd s;
  sa_status : m_connectionStatus (fsd s') = m_connectionStatus (fsd s);
  sa_config : getReconnectMaxAttempts (m_networkConfig (presets (fsd s))) <= N ->
              getReconnectMaxAttempts (m_networkConfig (presets (fsd s'))) <= N
}.
Definition keepsAccount (N : Z) {A} (m : Ctx A) : Prop :=
  forall s x s' o, m s = Some (x, s', o) -> sameAccount N s s'.
#[local] Instance sameAccount_preorder N : PreOrder (sameAccount N).
Proof using Type.
  split; [by split|]. intros s1 s2 s3 [] []. split; auto; intros; etransitivity; eauto.
Qed.

Lemma keepsAccount_bind N {A B} (m : Ctx A) (k : A -> Ctx B) :
  keepsAccount N m -> (forall x, keepsAccount N (k x)) -> keepsAccount N (m ≫= k).
Proof using Type.
  intros Hm Hk s y s' o Hrun. apply bindC_inv in Hrun as (x & s1 & o1 & o2 & H1 & H2 & _).
  etransitivity; [by eapply Hm | by eapply Hk].
Qed.
Lemma keepsAccount_ret N {A} (x : A) : keepsAccount N (mret x).
Proof using Type. by intros s y s' o [= _ <- _]. Qed.
Lemma keepsAccount_get N : keepsAccount N getS.
Proof using Type. by intros s y s' o [= _ <- _]. Qed.
Lemma keepsAccount_out N x : keepsAccount N (outC x).
Proof using Type. by intros s y s' o [= _ <- _]. Qed.
Lemma keepsAccount_modifyS N f : (forall s, sameAccount N s (f s)) -> keepsAccount N (modifyS f).
Proof using Type. intros Hf s y s' o [= _ <- _]. apply Hf. Qed.
Lemma keepsAccount_modifyC N f :
  (forall s, sameAccount N s (s <| ctx ::= f |>)) -> keepsAccount N (modifyC f).
Proof using Type. intros Hf s y s' o [= _ <- _]. apply Hf. Qed.
Lemma keepsAccount_preset N f :
  (forall p, getReconnectMaxAttempts (m_networkConfig p) <= N ->
             getReconnectMaxAttempts (m_networkConfig (f p)) <= N) -> keepsAccount N (preset f).
Proof using Type. intros Hf. apply keepsAccount_modifyS. intros [? []]. split; try done. apply Hf. Qed.

Ltac keep_account :=
  repeat match goal with
  | |- keepsAccount _ (mret _) => apply keepsAccount_ret
  | |- keepsAccount _ getS => apply keepsAccount_get
  | |- keepsAccount _ (outC _) => apply keepsAccount_out
  | |- keepsAccount _ (logC _ _) => apply keepsAccount_out
  | |- keepsAccount _ (_ ≫= _) => apply keepsAccount_bind; [|intros ?]
  | |- keepsAccount _ (whenC ?b _) => destruct b; unfold whenC
  | |- keepsAccount _ (if ?b then _ else _) => destruct b
  | |- keepsAccount _ (preset _) => apply keepsAccount_preset; intros []; simpl; (done || tauto)
  | |- keepsAccount _ (modifyS _) => apply keepsAccount_modifyS; intros [[] ]; by split
  | |- keepsAccount _ (modifyC _) => apply keepsAccount_modifyC; intros [[] ]; by split
  end.

Lemma setLogin_account {W : World} {CW : CtxWorld} N a mode callsign :
  getReconnectMaxAttempts (net_config lastNetwork) <= N -> keepsAccount N (setLogin a mode callsign).
Proof using Type. intros HN. unfold setLogin, updateOwnCallsign. cbv zeta. keep_account. Qed.

(** A command that keeps the account, at the front of a run. *)
Lemma keepsAccount_step N {A B} (m : Ctx A) (k : A -> Ctx B) s s0 y s' o :
  keepsAccount N m -> sameAccount N s s0 -> (m ≫= k) s0 = Some (y, s', o) ->
  exists x s1 o1, sameAccount N s s1 /\ k x s1 = Some (y, s', o1).
Proof using Type.
  intros Hm Hs Hrun. apply bindC_inv in Hrun as (x & s1 & o1 & o2 & H1 & H2 & _).
  exists x, s1, o2. split; [|done]. etransitivity; [done | by eapply Hm].
Qed.
Ltac keep_step K H :=
  eapply keepsAccount_step in H; [| |exact K]; [clear K; destruct H as (? & ? & ? & K & H); cbv beta zeta in H
                                            | solve [keep_account; by apply setLogin_account]].

(** Going on after the test of the server: an error leaves the account as it
    was, success posts the call. *)
Definition proceeded (N : Z) (s : Sys) (r : ConnectResult) (s' : Sys) : Prop :=
  exists s0, sameAccount N s s0
    /\ s' = (if isSuccess r then s0 <| toFsd ::= fun q => q ++ [EvConnect] |> else s0).

Lemma connectProceed_proceeded {W : World} {CW : CtxWorld} N a auto reachable s r s' o :
  getReconnectMaxAttempts (net_config lastNetwork) <= N ->
  connectProceed a auto reachable s = Some (r, s', o) -> proceeded N s r s'.
Proof using Type.
  intros HN Hrun. unfold connectProceed in Hrun.
  apply bindC_inv in Hrun as (? & ? & ? & ? & [= <- <- <-] & Hrun & _). cbv beta zeta in Hrun.
  repeat (match type of Hrun with (if ?b then _ else _) _ = _ => destruct b end;
          [injection Hrun as <- <- _; by exists s|]).
  assert (K0 : sameAccount N s s) by reflexivity. revert K0 Hrun. generalize s at 2 3. intros s0 K0 Hrun.
  unfold updateOwnAircraftPilot in Hrun. do 6 keep_step K0 Hrun.
  injection Hrun as <- <- _. eexists. split; [exact K0 | reflexivity].
Qed.

Lemma credit_nonneg d s : 0 <= credit d s.
Proof using Type.
  unfold credit. pose proof (running_range (m_reconnectTimer (ctx s))).
  pose proof (b2z_range (lost d (ctx s))). pose proof (connectCalls_nonneg (toFsd s)).
  pose proof (announces_nonneg (statuses s)). lia.
Qed.
Lemma sameAccount_credit N d s s' : sameAccount N s s' ->
  credit d s' = credit d s /\ started s' = started s /\ statuses s' = statuses s.
Proof using Type.
  intros [E1 E2 E3 E4 E5 E6 _ _]. unfold credit, started, statuses. by rewrite E1, E2, E3, E4, E5, E6.
Qed.
Lemma sameAccount_accounted N d s s' : sameAccount N s s' -> accounted N d s -> accounted N d s'.
Proof using Type.
  intros Hs []. destruct (sameAccount_credit N d _ _ Hs) as (E1 & E2 & E3). destruct Hs.
  split; try congruence; try lia; by auto.
Qed.

(** A lost connection, or an attempt that failed: one credit is used up. *)
Lemma scheduled_advances N d s s' :
  accounted N d s -> credit d s <= 0 -> scheduled N s s' ->
  accounted N d s' /\ (0 < credit d s' -> started s' = started s).
Proof using Type.
  intros [Hc _ Ha HN] H0 Hs.
  pose proof (running_range (m_reconnectTimer (ctx s))). pose proof (b2z_range (lost d (ctx s))).
  pose proof (connectCalls_nonneg (toFsd s)). pose proof (announces_nonneg (statuses s)).
  destruct Hs as [ | |delay Hd]; destruct s as [[] ]; unfold credit, started, statuses, lost in *; simpl in *;
    (split; [split|]); unfold credit, started, statuses, lost; simpl; try done; lia.
Qed.

(** An event of the client: only a call to connect can use the credit it was
    posted with for an announcement. *)
Lemma client_accounted {W : World} N d e s u s' o :
  clientStep e s = Some (u, s', o) ->
  statusChain d (statuses s) (m_connectionStatus (fsd s)) ->
  getReconnectMaxAttempts (m_networkConfig (presets (fsd s))) <= N ->
  ctx s' = ctx s /\ frames s' = frames s /\ toFsd s' = toFsd s
  /\ statusChain d (statuses s') (m_connectionStatus (fsd s'))
  /\ announcesConnecting (statuses s')
     <= announcesConnecting (statuses s) + Z.b2z (if e is EvConnect then true else false)
  /\ getReconnectMaxAttempts (m_networkConfig (presets (fsd s'))) <= N.
Proof using Type.
  unfold clientStep. destruct (handle e (fsd s)) as [[[[] c] o1]|] eqn:Eh; [|done].
  intros [= _ <- _] Hc HN. pose proof (handle_announces e _ _ _ _ Eh) as [Ha Hn].
  assert (Hchain : chained (fsd s) o1 c).
  { by apply (satisfies_handle _ _ chained_leaves e (fun _ => I) _ tt). }
  destruct s as [cx f oa tf tc fr rt]. unfold statuses in *. simpl in *.
  rewrite omap_app, contextSignal_status, announces_app. rewrite Hn. split_and!; try done; [|lia].
  by eapply statusChain_app.
Qed.

Ltac account := unfold credit, started, statuses, lost, running in *; simpl in *.
Ltac open_sys s :=
  destruct s as [[mode login timer attempt inProgress user kicked unexpected]
                 client oa calls signals fr rt]; account.

(** *** The events *)

Lemma called_credit d s : let s' := s <| toFsd ::= fun q => q ++ [EvConnect] |> in
  credit d s' = credit d s + 1 /\ started s' = started s.
Proof using Type.
  open_sys s. rewrite connectCalls_app. change (connectCalls [EvConnect]) with 1. lia.
Qed.
Lemma called_accounted N d s : accounted N d s -> credit d s <= 0 ->
  accounted N d (s <| toFsd ::= fun q => q ++ [EvConnect] |>).
Proof using Type.
  intros [] H0. destruct (called_credit d s) as [Hc _].
  split; [by destruct s | rewrite Hc; lia | by destruct s | by destruct s].
Qed.

Lemma post_advances N d e s :
  accounted N d s -> (if e is EvConnect then false else true) = true ->
  advances N 0 d s d (s <| toFsd ::= fun q => q ++ [e] |>).
Proof using Type.
  intros [] He. open_sys s. pose proof (connectCalls_other e calls He) as E.
  split; [split| |]; account; rewrite ?E; done || lia.
Qed.

Lemma disconnect_advances {CW : CtxWorld} N d s u s' o :
  accounted N d s -> disconnectFromNetwork s = Some (u, s', o) -> advances N 0 d s d s'.
Proof using Type.
  intros [] Hrun. unfold disconnectFromNetwork, cancelReconnect, post in Hrun.
  run; open_sys s; (split; [split| |]); account;
    rewrite ?(connectCalls_other EvDisconnect) by done; try done;
    destruct (isLive d), unexpected, kicked, user, timer; simpl in *; lia.
Qed.

(** The end of a call: one that failed has used up its credit. *)
Lemma connectReturns_advances {CW : CtxWorld} N d s r b u s' o :
  accounted N d s -> (isSuccess r = false -> credit d s <= 0) ->
  connectReturns b r s = Some (u, s', o) ->
  accounted N d s' /\ (isSuccess r = true -> credit d s' = credit d s)
  /\ (0 < credit d s' -> started s' = started s).
Proof using Type.
  intros A H0 Hrun. unfold connectReturns in Hrun. destruct b; [|run; by split_and!].
  assert (K : sameAccount N s s) by reflexivity.
  keep_step K Hrun. destruct (sameAccount_credit N d _ _ K) as (Ec & Es & _).
  pose proof (sameAccount_accounted N d _ _ K A) as A1.
  run; [|by rewrite Ec, Es].
  apply negb_true_iff in Heqb.
  apply (scheduleReconnect_scheduled N) in Hrun; [|apply A1].
  apply (scheduled_advances N d) in Hrun as [? Hst]; [|done|rewrite Ec; by apply H0].
  split_and!; [done | congruence | intros Hpos; rewrite <- Es; auto].
Qed.

Lemma testReturns_advances {W : World} {CW : CtxWorld} N d s reachable u s' o :
  accounted N d s -> getReconnectMaxAttempts (net_config lastNetwork) <= N -> frames s <> [] ->
  canConnectReturns reachable s = Some (u, s', o) -> advances N 0 d s d s'.
Proof using Type.
  intros A HW Hne Hrun. unfold canConnectReturns in Hrun.
  apply bindC_inv in Hrun as (? & ? & ? & ? & [= <- <- _] & Hrun & _). cbv beta in Hrun.
  destruct (frames s) as [|fm fs] eqn:Ef; [done|].
  apply bindC_inv in Hrun as (? & s0 & ? & ? & [= _ Es0 _] & Hrun & _). cbv beta in Hrun.
  assert (E : credit d s0 = credit d s - 1 /\ started s0 = started s /\ accounted N d s0).
  { rewrite <- Es0. destruct A. open_sys s. subst fr. simpl in *.
    split_and!; [lia | done | split; account; try done; lia]. }
  destruct E as (Ec0 & Est0 & A0). clear Es0.
  apply bindC_inv in Hrun as (res & s1 & ? & ? & Hp & Hrun & _). cbv beta in Hrun.
  apply (connectProceed_proceeded N) in Hp as (s2 & K & ->); [|done].
  destruct (sameAccount_credit N d _ _ K) as (Ec & Es & _).
  pose proof (sameAccount_accounted N d _ _ K A0) as A2.
  pose proof (credit_nonneg d s0). pose proof (ac_credit _ _ _ A).
  set (s3 := if isSuccess res then _ else _) in Hrun.
  assert (E : credit d s3 = credit d s2 + Z.b2z (isSuccess res) /\ started s3 = started s2
              /\ accounted N d s3).
  { unfold s3. destruct (isSuccess res); [|simpl; by rewrite Z.add_0_r].
    destruct (called_credit d s2) as [Hc1 Hc2]. split_and!; [done..|].
    apply called_accounted; [done | lia]. }
  destruct E as (E1 & E2 & A3). clearbody s3.
  apply (connectReturns_advances N d) in Hrun as (A4 & Hok & Hst); [|done|].
  - pose proof (ac_credit _ _ _ A4). split; [done| |intros Hpos; specialize (Hst Hpos); lia].
    destruct (isSuccess res); simpl in E1; [rewrite Hok by done|]; lia.
  - intros Er. rewrite Er in E1. simpl in E1. lia.
Qed.

(** An automatic call of [connectToNetwork]. *)
Lemma automatic_advances {W : World} {CW : CtxWorld} N d a s u s' o :
  accounted N d s -> credit d s <= 0 -> m_reconnectInProgress (ctx s) = true ->
  connectToNetwork a true s = Some (u, s', o) ->
  accounted N d s' /\ (0 < credit d s' -> started s' = started s).
Proof using Type.
  intros A1 H0 Eauto Hrun. unfold connectToNetwork in Hrun.
  apply bindC_inv in Hrun as (? & ? & ? & ? & [= <- <- <-] & Hrun & _). cbv beta zeta in Hrun.
  rewrite Eauto in Hrun. unfold connectChecks in Hrun. simpl negb in Hrun. unfold whenC in Hrun.
  apply bindC_inv in Hrun as (early & s2 & ? & ? & Hearly & Hrun & _). cbv beta zeta in Hrun.
  injection Hearly as Eearly <- _. destruct early as [r|].
  - by apply (connectReturns_advances N d) in Hrun as (A4 & _ & Hst).
  - apply modifyS_inv in Hrun as [-> _].
    match goal with |- context [s <| frames ::= ?f |>] => set (s3 := s <| frames ::= f |>) end.
    assert (E : credit d s3 = credit d s + 1 /\ started s3 = started s)
      by (unfold s3; open_sys s; rewrite Nat2Z.inj_succ; lia).
    destruct E. split; [|done]. destruct A1. unfold s3 in *. split; [by destruct s | lia | by destruct s..].
Qed.

(** The timer: the attempt starts, and its credit passes on to the test of the
    server. *)
Lemma timeout_advances {W : World} {CW : CtxWorld} N d s u s' o :
  accounted N d s -> is_Some (m_reconnectTimer (ctx s)) ->
  reconnectTimeout s = Some (u, s', o) -> advances N 1 d s d s'.
Proof using Type.
  intros A Ht Hrun. unfold reconnectTimeout in Hrun.
  apply bindC_inv in Hrun as (? & s0 & ? & ? & [= _ Es0 _] & Hrun & _). cbv beta in Hrun.
  assert (E : credit d s0 = credit d s - 1 /\ started s0 = started s + 1 /\ accounted N d s0).
  { rewrite <- Es0. destruct A, Ht as [t Ht]. open_sys s. subst timer. simpl in *.
    split_and!; [lia.. | split; account; try done; lia]. }
  destruct E as (Ec0 & Est0 & A0). clear Es0. pose proof (ac_credit _ _ _ A) as H1.
  assert (Hdone : forall s', credit d s' <= credit d s0 -> accounted N d s' -> advances N 1 d s d s').
  { intros s1 Hs1 A1. split; [done | lia | lia]. }
  unfold reconnectToNetwork in Hrun.
  apply bindC_inv in Hrun as (? & ? & ? & ? & [= <- <- <-] & Hrun & _). cbv beta zeta in Hrun.
  do 2 (match type of Hrun with (if ?b then _ else _) _ = _ => destruct b end;
        [injection Hrun as _ <- _; by apply Hdone|]).
  match type of Hrun with (if ?b then _ else _) _ = _ => destruct b eqn:Eflags end;
    [injection Hrun as _ <- _; by apply Hdone|].
  apply orb_false_iff in Eflags as [Euser Ekicked].
  match type of Hrun with (if ?b then _ else _) _ = _ => destruct b end;
    [injection Hrun as _ <- _; by apply Hdone|].
  do 2 (match type of Hrun with (if ?b then _ else _) _ = _ => destruct b end;
        [injection Hrun as _ <- _; apply Hdone; [by open_sys s0 | destruct A0; open_sys s0; split; account; try done; lia]|]).
  apply bindC_inv in Hrun as (? & s1 & ? & ? & Hs1 & Hrun & _). apply modifyC_inv in Hs1 as [Es1 _].
  assert (E : credit d s1 <= credit d s0 /\ started s1 = started s0 /\ accounted N d s1
              /\ m_reconnectInProgress (ctx s1) = true).
  { rewrite Es1. destruct A0. open_sys s0. subst user kicked. simpl in *.
    assert (Z.b2z ((isLive d || false) && true && true) <= Z.b2z ((isLive d || unexpected) && true && true))
      by (destruct (isLive d), unexpected; simpl; lia).
    split_and!; [lia | done | split; account; try done; lia | done]. }
  destruct E as (Ec1 & Est1 & A1 & Eauto). clear Es1. cbv beta in Hrun.
  apply (automatic_advances N d) in Hrun as [A2 Hst]; [|done|lia|done].
  pose proof (ac_credit _ _ _ A2). pose proof (credit_nonneg d s0).
  split; [done | lia | intros Hpos; specialize (Hst Hpos); lia].
Qed.

Ltac decide_status H :=
  repeat match type of H with
  | context [bool_decide (?a = ?b)] =>
      let v := eval vm_compute in (bool_decide (a = b)) in
      match v with true => idtac | false => idtac end;
      change (bool_decide (a = b)) with v in H
  end.

(** A change of the status leaves the queue. *)
Lemma popped_status N d s from to q :
  toCtx s = connectionStatusChanged from to :: q -> accounted N d s ->
  let s0 := s <| toCtx := q |> in
  d = from /\ statusChain to (statuses s0) (m_connectionStatus (fsd s0))
  /\ credit d s = credit d s0 + Z.b2z (bool_decide (to = Connecting)) /\ started s = started s0
  /\ getReconnectMaxAttempts (m_networkConfig (presets (fsd s0))) <= N
  /\ 0 <= m_reconnectAttempt (ctx s0) <= N.
Proof using Type.
  intros Eq [Hc _ Ha HN] s0.
  assert (E : statuses s = (from, to) :: statuses s0) by (unfold statuses; rewrite Eq; by destruct s).
  rewrite E in Hc. destruct Hc as (-> & _ & Hc). unfold credit. rewrite E, announces_cons. simpl.
  destruct s. simpl in *. split_and!; done || lia.
Qed.

(** A handled change of the status. *)
Lemma status_advances {CW : CtxWorld} N d s from to q u s' o :
  toCtx s = connectionStatusChanged from to :: q -> accounted N d s -> noConnected o ->
  onFsdConnectionStatusChanged from to (s <| toCtx := q |>) = Some (u, s', o) ->
  advances N 0 d s to s'.
Proof using Type.
  intros Eq A Ho Hrun. pose proof (ac_credit _ _ _ A) as H1.
  destruct (popped_status N d s from to q Eq A) as (-> & Hc & Ec & Es & HN & Ha). clear A Eq.
  revert Hrun Hc Ec Es HN Ha. generalize (s <| toCtx := q |>). intros s0 Hrun Hc Ec Es HN Ha.
  unfold onFsdConnectionStatusChanged, resetAttempt, cancelReconnect in Hrun.
  destruct to; decide_status Hrun; rewrite ?bool_decide_false, ?bool_decide_true in Ec by done; simpl in Ec.
  - exfalso. run. eapply (Ho from). rewrite !elem_of_app. set_solver.
  - run. pose proof (b2z_range (lost Connecting (ctx s0))). pose proof (b2z_range (lost from (ctx s0))).
    unfold credit in *. (split; [split| |]); unfold credit; try done; lia.
  - run. rewrite Ec in H1. (split; [split| |]); rewrite ?Ec, ?Es; clear Ec Es; open_sys s0; try done;
      destruct (isLive from), unexpected, user, kicked; simpl in *; lia.
  - set (sc := s0 <| ctx ::= clearDisconnectFlags |>).
    assert (E : credit Disconnected sc = credit from s0 - Z.b2z (lost from (ctx s0))
                /\ started sc = started s0 /\ accounted N Disconnected sc).
    { unfold sc, clearDisconnectFlags. rewrite Ec in H1. clear Ec Es Hrun.
      pose proof (b2z_range (lost from (ctx s0))).
      open_sys s0. split_and!; [lia | done | split; account; try done; lia]. }
    destruct E as (E1 & E2 & A1). pose proof (credit_nonneg Disconnected sc).
    run.
    + assert (Hl : lost from (ctx s0) = true)
        by (unfold lost; by rewrite (orb_comm (isLive from))). rewrite Hl in E1. simpl in E1.
      match goal with H : scheduleReconnect _ = Some (_, ?s2, _) |- _ =>
        assert (Hs : scheduled N sc s2)
          by (eapply (scheduleReconnect_scheduled N sc); [apply A1 | exact H]) end.
      apply (scheduled_advances N Disconnected) in Hs as [A2 Hst]; [|done|lia].
      pose proof (ac_credit _ _ _ A2). split; [done | lia | intros Hpos; specialize (Hst Hpos); lia].
    + change (advances N 0 from s Disconnected sc).
      pose proof (b2z_range (lost from (ctx s0))). split; [done | lia | lia].
Qed.

Lemma sameAccount_advances N d s s' : accounted N d s -> sameAccount N s s' -> advances N 0 d s d s'.
Proof using Type.
  intros A K. destruct (sameAccount_credit N d _ _ K) as (E1 & E2 & _).
  split; [by eapply sameAccount_accounted | lia | lia].
Qed.
Lemma outputsOf_account N l : keepsAccount N (outputsOf l).
Proof using Type.
  induction l as [|o l IH]; simpl; [keep_account|].
  apply keepsAccount_bind; [|done]. destruct o; simpl; keep_account.
Qed.
Lemma kicked_advances N d s reason u s' o :
  accounted N d s -> onKicked reason s = Some (u, s', o) -> advances N 0 d s d s'.
Proof using Type.
  intros [] Hrun. unfold onKicked, cancelReconnect in Hrun. run. open_sys s.
  split; [split| |]; account; try done;
    destruct (isLive d), unexpected, user, kicked, timer; simpl in *; lia.
Qed.

(** Any other signal. *)
Lemma popped_other N d s sig q :
  toCtx s = sig :: q -> sigStatus sig = None -> accounted N d s -> advances N 0 d s d (s <| toCtx := q |>).
Proof using Type.
  intros Eq En [Hc H1 Ha HN].
  assert (E : statuses (s <| toCtx := q |>) = statuses s)
    by (unfold statuses; rewrite Eq; simpl; rewrite En; by destruct s).
  assert (Ec : credit d (s <| toCtx := q |>) = credit d s) by (unfold credit; rewrite E; by destruct s).
  split; [split; rewrite ?E, ?Ec; by destruct s | lia | by destruct s; unfold started; simpl; lia].
Qed.

Lemma signal_advances {W : World} {CW : CtxWorld} N d s sig q u s' o :
  toCtx s = sig :: q -> accounted N d s -> noConnected o ->
  handleSignal sig (s <| toCtx := q |>) = Some (u, s', o) -> exists d', advances N 0 d s d' s'.
Proof using Type.
  intros Eq A Ho Hrun. destruct (sigStatus sig) as [[from to]|] eqn:En.
  - destruct sig; try discriminate En. injection En as -> ->. exists to. by eapply status_advances.
  - exists d. pose proof (popped_other N d s sig q Eq En A) as Hp. pose proof (ad_accounted _ _ _ _ _ _ Hp) as A0.
    apply (advances_trans _ 0 0 _ _ _ _ _ _ Hp).
    assert (K : forall (m : Ctx unit), keepsAccount N m -> m (s <| toCtx := q |>) = Some (u, s', o) ->
              advances N 0 d (s <| toCtx := q |>) d s').
    { intros m Hm Hmrun. eapply sameAccount_advances; [done | by eapply Hm]. }
    destruct sig; try discriminate En; unfold handleSignal in Hrun;
      try (by eapply K; [|exact Hrun]; keep_account; apply outputsOf_account).
    by eapply kicked_advances.
Qed.

(** The events of the client. *)
Lemma client_advances {W : World} N d e s u s' o :
  accounted N d s -> credit d s + Z.b2z (if e is EvConnect then true else false) <= 1 ->
  clientStep e s = Some (u, s', o) ->
  accounted N d s' /\ credit d s' <= credit d s + Z.b2z (if e is EvConnect then true else false)
  /\ started s' = started s.
Proof using Type.
  intros [Hc H1 Ha HN] He Hrun.
  destruct (client_accounted N d e s u s' o Hrun Hc HN) as (E1 & E2 & E3 & Hc' & Hs & HN').
  assert (Ecr : credit d s' <= credit d s + Z.b2z (if e is EvConnect then true else false))
    by (unfold credit in *; rewrite E1, E2, E3; lia).
  split_and!; [|done | unfold started; by rewrite E1].
  split; [done | lia | by rewrite E1 | done].
Qed.
Lemma call_advances {W : World} {CW : CtxWorld} N d call q s u s' o :
  toFsd s = call :: q -> accounted N d s ->
  whenC (negb isShuttingDown) (clientStep call) (s <| toFsd := q |>) = Some (u, s', o) ->
  advances N 0 d s d s'.
Proof using Type.
  intros Eq A Hrun. pose proof (ac_credit _ _ _ A) as H1. set (s1 := s <| toFsd := q |>) in *.
  set (n := Z.b2z (if call is EvConnect then true else false)).
  assert (Hn : 0 <= n <= 1) by apply b2z_range.
  assert (E : credit d s = credit d s1 + n /\ started s1 = started s /\ accounted N d s1).
  { assert (Ec : credit d s = credit d s1 + n)
      by (unfold credit; rewrite Eq, connectCalls_cons; unfold s1, n; destruct s; simpl; unfold statuses; simpl; lia).
    split_and!; [done | by destruct s|]. destruct A. unfold s1 in *. split; [by destruct s | lia | by destruct s..]. }
  destruct E as (Ec & Es & A1). clearbody s1. unfold whenC in Hrun. destruct (negb isShuttingDown).
  - apply (client_advances N d call) in Hrun as (A2 & Hcr & Hst); [|done|fold n; lia].
    fold n in Hcr. split; [done | lia | lia].
  - injection Hrun as _ <- _. split; [done | lia | lia].
Qed.

(** *** Every step *)

Definition isUserConnect (e : SysEvent) : bool := match e with UserConnect _ => true | _ => false end.
Definition isReconnectTimer (e : SysEvent) : bool := match e with ReconnectTimer => true | _ => false end.

Lemma step_advances {W : World} {CW : CtxWorld} N d e s s' o :
  accounted N d s -> getReconnectMaxAttempts (net_config lastNetwork) <= N ->
  isUserConnect e = false -> noConnected o -> sysStep e s = Some (tt, s', o) ->
  exists d', advances N (Z.b2z (isReconnectTimer e)) d s d' s'.
Proof using Type.
  intros A HN He Ho Hrun. unfold sysStep in Hrun.
  apply bindC_inv in Hrun as (? & ? & ? & ? & [= <- <- <-] & Hrun & ->). cbv beta in Hrun. simpl in Ho.
  destruct e; try discriminate He; simpl isReconnectTimer.
  - apply bindC_inv in Hrun as (? & s1 & ? & ? & H1 & [= <- _] & _). exists d. by eapply disconnect_advances.
  - apply modifyS_inv in Hrun as [-> _]. exists d. by apply post_advances.
  - destruct (relayTimers s) as [|l q]; [done|].
    apply bindC_inv in Hrun as (? & s1 & ? & ? & H1 & Hrun & _).
    apply modifyS_inv in H1 as [-> _]. apply modifyS_inv in Hrun as [-> _]. exists d.
    set (s1 := s <| relayTimers := q |>).
    assert (A1 : advances N 0 d s d s1) by (apply sameAccount_advances; [done | by split; destruct s]).
    apply (advances_trans _ 0 0 _ _ _ _ _ _ A1). apply post_advances; [apply A1 | reflexivity].
  - destruct (frames s) as [|fm fs] eqn:Ef; [done|]. exists d.
    by eapply testReturns_advances; rewrite ?Ef.
  - destruct (m_reconnectTimer (ctx s)) eqn:Et; [|done]. exists d.
    by eapply timeout_advances; rewrite ?Et.
  - destruct (toCtx s) as [|sig q] eqn:Eq; [done|].
    apply bindC_inv in Hrun as (? & s1 & ? & ? & H1 & Hrun & ->). apply modifyS_inv in H1 as [-> ->].
    by eapply signal_advances.
  - destruct (toFsd s) as [|call q] eqn:Eq; [done|]. exists d.
    apply bindC_inv in Hrun as (? & s1 & ? & ? & H1 & Hrun & _). apply modifyS_inv in H1 as [-> _].
    by eapply call_advances.
  - destruct (ownEvent e) eqn:Eown; [|done]. exists d.
    assert (En : Z.b2z (if e is EvConnect then true else false) = 0) by by destruct e.
    apply (client_advances N d e) in Hrun as (A1 & Hcr & Hst); rewrite ?En in *; try lia; try done.
    + split; [done | lia | simpl; lia].
    + pose proof (ac_credit _ _ _ A). lia.
Qed.

(** ** The attempts are bounded, and end with the session *)

Definition eventOf (x : World * CtxWorld * SysEvent) : SysEvent := x.2.
(** The attempts made in a run. *)
Definition attempts (es : list (World * CtxWorld * SysEvent)) : Z :=
  Z.of_nat (length (List.filter (fun x => isReconnectTimer (eventOf x)) es)).
Definition noUserConnect (es : list (World * CtxWorld * SysEvent)) : Prop :=
  Forall (fun x => isUserConnect (eventOf x) = false) es.
(** In every configuration of the run at most [N] attempts are allowed. *)
Definition allowed (N : Z) (s : Sys) (es : list (World * CtxWorld * SysEvent)) : Prop :=
  getReconnectMaxAttempts (m_networkConfig (presets (fsd s))) <= N /\
  Forall (fun x => getReconnectMaxAttempts (net_config (@lastNetwork x.1.2)) <= N) es.

Lemma attempts_cons x es : attempts (x :: es) = Z.b2z (isReconnectTimer (eventOf x)) + attempts es.
Proof using Type. unfold attempts. simpl. destruct (isReconnectTimer _); simpl; lia. Qed.

(** Nothing of a connection is left to be done. *)
Definition idle (s : Sys) : Prop :=
  m_reconnectTimer (ctx s) = None /\ frames s = [] /\ connectCalls (toFsd s) = 0
  /\ announcesConnecting (statuses s) = 0.
Lemma credit_idle d s : credit d s <= 0 -> idle s.
Proof using Type.
  intros H0. unfold credit in H0. pose proof (running_range (m_reconnectTimer (ctx s))).
  pose proof (b2z_range (lost d (ctx s))). pose proof (connectCalls_nonneg (toFsd s)).
  pose proof (announces_nonneg (statuses s)). unfold idle. split_and!; try lia.
  - destruct (m_reconnectTimer (ctx s)); simpl in *; [lia | done].
  - apply length_zero_iff_nil. lia.
Qed.

Definition budget (N : Z) (d : ConnectionStatus) (s : Sys) : Z :=
  if decide (credit d s <= 0) then 0 else N - started s.

Lemma noConnected_app o o' : noConnected (o ++ o') -> noConnected o /\ noConnected o'.
Proof using Type. intros Ho. split; intros from Hin; apply (Ho from), elem_of_app; auto. Qed.

Lemma step_budget {W : World} {CW : CtxWorld} N d e s s' o d' :
  accounted N d s -> sysStep e s = Some (tt, s', o) ->
  advances N (Z.b2z (isReconnectTimer e)) d s d' s' ->
  Z.b2z (isReconnectTimer e) + budget N d' s' <= budget N d s.
Proof using Type.
  intros A Hrun [_ Hcr Hst].
  assert (Ht : isReconnectTimer e = true -> running (m_reconnectTimer (ctx s)) = 1).
  { destruct e; try discriminate. intros _. unfold sysStep in Hrun.
    apply bindC_inv in Hrun as (? & ? & ? & ? & [= <- <- <-] & Hrun & _). cbv beta in Hrun.
    by destruct (m_reconnectTimer (ctx s)). }
  pose proof (ac_attempt _ _ _ A). pose proof (running_range (m_reconnectTimer (ctx s))).
  unfold budget. destruct (decide (credit d' s' <= 0)) as [|Hpos].
  - destruct (decide (credit d s <= 0)) as [Hz|].
    + apply credit_idle in Hz as [Hz _]. rewrite Hz in Ht. destruct (isReconnectTimer e); simpl in *; [|lia].
      by specialize (Ht eq_refl).
    + unfold started. destruct (isReconnectTimer e); simpl; [rewrite Ht by done|]; lia.
  - rewrite decide_False by lia. specialize (Hst ltac:(lia)). lia.
Qed.

Lemma run_budget N d s es o s' :
  accounted N d s -> sys_run s es o s' -> noUserConnect es ->
  Forall (fun x => getReconnectMaxAttempts (net_config (@lastNetwork x.1.2)) <= N) es -> noConnected o ->
  exists d', accounted N d' s' /\ credit d' s' <= credit d s /\ attempts es <= budget N d s.
Proof using Type.
  intros A Hrun. revert d A. induction Hrun as [s | s W CW e es s1 s2 o1 o2 Hs _ IH]; intros d A Hu HN Ho.
  - exists d. split_and!; [done | lia |]. pose proof (ac_attempt _ _ _ A). unfold budget, started, attempts.
    pose proof (running_range (m_reconnectTimer (ctx s))). simpl. case_decide; lia.
  - apply Forall_cons in Hu as [Hu1 Hu]. apply Forall_cons in HN as [HN1 HN].
    apply noConnected_app in Ho as [Ho1 Ho].
    destruct (step_advances N d e s s1 o1 A HN1 Hu1 Ho1 Hs) as [d1 Hadv].
    pose proof (step_budget N d e s s1 o1 d1 A Hs Hadv) as Hb. destruct Hadv as [A1 Hcr _].
    destruct (IH d1 A1 Hu HN Ho) as (d' & A' & Hcr' & Hn). exists d'.
    rewrite attempts_cons. unfold eventOf. simpl. split_and!; [done | lia | lia].
Qed.

(** C8: Whatever the user, the timers, the network and the queues of the two
    threads do: after the context has handled what the client announced, at
    most as many attempts are made as the configurations allow, until a
    connection is established or the user logs in again. *)
Theorem reconnects_bounded N s es o s' :
  idle s -> toCtx s = [] -> m_reconnectAttempt (ctx s) = 0 -> 0 <= N -> allowed N s es ->
  sys_run s es o s' -> noUserConnect es -> noConnected o ->
  attempts es <= N.
Proof using Type.
  intros (E1 & E2 & E3 & E4) Eq Ea HN [Hs Hes] Hrun Hu Ho.
  set (d := m_connectionStatus (fsd s)).
  assert (A : accounted N d s).
  { split; [by unfold statuses; rewrite Eq | | lia | done].
    unfold credit. rewrite E1, E2, E3, E4. pose proof (b2z_range (lost d (ctx s))). simpl. lia. }
  destruct (run_budget N d s es o s' A Hrun Hu Hes Ho) as (_ & _ & _ & Hn).
  unfold budget, started in Hn. rewrite E1, Ea in Hn. simpl in Hn. case_decide; lia.
Qed.

(** The disconnect of the user, or by the server. *)
Definition endsSession {CW : CtxWorld} (s : Sys) (e : SysEvent) : Prop :=
  (e = UserDisconnect /\ isShuttingDown = false)
  \/ (e = DeliverSignal /\ exists reason q, toCtx s = killRequestReceived reason :: q).

(** Nothing under way but, perhaps, a running timer or a lost connection. *)
Definition betweenAttempts (d : ConnectionStatus) (s : Sys) : Prop :=
  statusChain d (statuses s) (m_connectionStatus (fsd s)) /\ frames s = []
  /\ connectCalls (toFsd s) = 0 /\ announcesConnecting (statuses s) = 0
  /\ 0 <= m_reconnectAttempt (ctx s).

Lemma disconnect_no_credit {CW : CtxWorld} d s u s' o :
  betweenAttempts d s -> isShuttingDown = false -> disconnectFromNetwork s = Some (u, s', o) ->
  credit d s' = 0 /\ betweenAttempts d s'.
Proof using Type.
  intros (Hc & Hf & Hcalls & Ha & Hn) Hsd Hrun.
  unfold disconnectFromNetwork, canUseFsd, cancelReconnect, post in Hrun. rewrite Hsd in Hrun. simpl in Hrun.
  run; unfold betweenAttempts; open_sys s; rewrite ?(connectCalls_other EvDisconnect) by done;
    subst fr; rewrite Hcalls, Ha; simpl; rewrite andb_false_r; done.
Qed.
Lemma kicked_no_credit {CW : CtxWorld} d s reason u s' o :
  betweenAttempts d s -> onKicked reason s = Some (u, s', o) ->
  credit d s' = 0 /\ betweenAttempts d s'.
Proof using Type.
  intros (Hc & Hf & Hcalls & Ha & Hn) Hrun. unfold onKicked, cancelReconnect in Hrun. run.
  unfold betweenAttempts. open_sys s. subst fr. rewrite Hcalls, Ha. simpl. by rewrite !andb_false_r.
Qed.

Lemma endsSession_no_credit {W : World} {CW : CtxWorld} d s e s' o :
  betweenAttempts d s -> endsSession s e -> sysStep e s = Some (tt, s', o) ->
  credit d s' = 0 /\ betweenAttempts d s'.
Proof using Type.
  intros Hb [[-> Hsd] | (-> & reason & q & Eq)] Hrun; unfold sysStep in Hrun;
    apply bindC_inv in Hrun as (? & ? & ? & ? & [= <- <- <-] & Hrun & _); cbv beta in Hrun.
  - apply bindC_inv in Hrun as (? & s1 & ? & ? & H1 & [= <- _] & _). by eapply disconnect_no_credit.
  - rewrite Eq in Hrun. apply bindC_inv in Hrun as (? & s1 & ? & ? & H1 & Hrun & _).
    apply modifyS_inv in H1 as [-> _]. unfold handleSignal in Hrun.
    eapply kicked_no_credit; [|exact Hrun].
    destruct Hb as (Hc & Hf & Hcalls & Ha & Hn). unfold betweenAttempts, statuses in *. rewrite Eq in *.
    by destruct s.
Qed.

(** A number that allows what the configurations of a run allow. *)
Lemma allowed_exists s es : exists N, m_reconnectAttempt (ctx s) <= N /\ allowed N s es.
Proof using Type.
  unfold allowed. induction es as [|x es (N & H1 & H2 & H3)].
  - exists (Z.max (m_reconnectAttempt (ctx s)) (getReconnectMaxAttempts (m_networkConfig (presets (fsd s))))).
    split_and!; [lia.. | constructor].
  - exists (Z.max N (getReconnectMaxAttempts (net_config (@lastNetwork x.1.2)))).
    split_and!; [lia.. |]. constructor; [lia|]. eapply Forall_impl; [exact H3|]. simpl. intros y ?. lia.
Qed.

(** C7: After the user disconnects while the context is not shutting down, or the server throws
    the client out, and no attempt is under way then (no test of a server, no call to connect and no
    connection being established; a session, a timer between two attempts
    or a lost connection may be): whatever happens next, no attempt is made and none is left to be
    made, until the user logs in again or a connection is announced that was on its way.  (During an
    attempt it can be otherwise: [disconnect_during_test], [disconnect_overtaken].) *)
Theorem disconnect_is_final {W : World} {CW : CtxWorld} d s e es o s' :
  betweenAttempts d s -> endsSession s e ->
  sys_run s ((W, CW, e) :: es) o s' -> noUserConnect es -> noConnected o ->
  attempts es = 0 /\ idle s'.
Proof using Type.
  intros Hb He Hrun Hu Ho.
  inversion Hrun as [|? ? ? ? ? s1 ? o1 o2 Hs Hrest]; subst.
  apply noConnected_app in Ho as [_ Ho].
  destruct (endsSession_no_credit d s e s1 o1 Hb He Hs) as [H0 Hb1].
  destruct (allowed_exists s1 es) as (N & Ha & HN & HNs).
  assert (A : accounted N d s1).
  { destruct Hb1 as (Hc & _ & _ & _ & Hn). split; [done | lia | lia | done]. }
  destruct (run_budget N d s1 es o2 s' A Hrest Hu HNs Ho) as (d' & _ & Hcr & Hn).
  split; [|apply (credit_idle d'); lia].
  unfold budget in Hn. rewrite decide_True in Hn by lia. unfold attempts in *. lia.
Qed.

(** ** What a login is made of *)

Lemma if_or {A} (b : bool) (x y : A) :
  (if b then x else y) = x \/ (if b then x else y) = y.
Proof using Type. destruct b; auto. Qed.

(** What the steps of a login change. *)
Definition View : Type := Presets * OwnState * list Event * CContextNetwork.
Definition view (s : Sys) : View :=
  (presets (fsd s), ownAircraft s, toFsd s, ctx s).
Definition onView (f : View -> View) {A} (m : Ctx A) : Prop :=
  forall s x s' o, m s = Some (x, s', o) -> view s' = f (view s).
Lemma view_preset f : onView (fun '(p, a, q, c) => (f p, a, q, c)) (preset f).
Proof using Type. by intros s x s' o [= _ <- _]. Qed.
Lemma view_modifyC f : onView (fun '(p, a, q, c) => (p, a, q, f c)) (modifyC f).
Proof using Type. by intros s x s' o [= _ <- _]. Qed.
Lemma view_pilot u :
  onView (fun '(p, a, q, c) => (p, if userEqual (oa_pilot a) u then a else setPilot u a, q, c))
         (updateOwnAircraftPilot u).
Proof using Type.
  intros s x s' o Hrun. unfold updateOwnAircraftPilot in Hrun.
  apply bindC_inv in Hrun as (? & ? & ? & ? & [= <- <- <-] & Hrun & _). unfold view. revert Hrun.
  destruct (userEqual _ _); intros [= _ <- _]; done.
Qed.
Lemma view_post e : onView (fun '(p, a, q, c) => (p, a, q ++ [e], c)) (post e).
Proof using Type. by intros s x s' o [= _ <- _]. Qed.
Lemma view_get : onView id getS.
Proof using Type. by intros s x s' o [= _ <- _]. Qed.
Lemma view_log sev t : onView id (logC sev t).
Proof using Type. by intros s x s' o [= _ <- _]. Qed.
Lemma view_callsign cs :
  onView (fun '(p, a, q, c) =>
            (p, if callsignEqual (oa_callsign a) cs then a else setAircraftCallsign cs a, q, c))
         (updateOwnCallsign cs).
Proof using Type.
  intros s x s' o Hrun. unfold updateOwnCallsign in Hrun.
  apply bindC_inv in Hrun as (? & ? & ? & ? & [= <- <- <-] & Hrun & _). unfold view. revert Hrun.
  destruct (callsignEqual _ _); intros [= _ <- _]; done.
Qed.
Lemma view_when (b : bool) (f : View -> View) (m : Ctx unit) : onView f m -> onView (fun v => if b then f v else v) (whenC b m).
Proof using Type. intros Hm s x s' o. destruct b; [by apply Hm | by intros [= _ <- _]]. Qed.
Lemma view_bind {A B} f (m : Ctx A) (k : A -> Ctx B) s V y s' o :
  onView f m -> view s = V -> (m ≫= k) s = Some (y, s', o) ->
  exists x s1 o1, m s = Some (x, s1, o1) /\ view s1 = f V /\ exists o2, k x s1 = Some (y, s', o2).
Proof using Type.
  intros Hm <- Hrun. apply bindC_inv in Hrun as (x & s1 & o1 & o2 & H1 & H2 & _). eauto 10.
Qed.

Ltac on_view := cbv beta zeta;
  first [apply view_preset | apply view_modifyC | apply view_pilot | apply view_post | apply view_get
        | apply view_log | apply view_callsign | apply view_when; on_view].
Ltac view_step V H :=
  eapply view_bind in H; [| on_view | exact V]; clear V;
  destruct H as (? & ? & ? & _ & V & ? & H); cbv beta zeta in H; cbv beta iota in V.

Lemma setLogin_view {W : World} {CW : CtxWorld} a mode callsign s x s' o :
  callsign = oa_callsign (ownAircraft s) -> setLogin a mode callsign s = Some (x, s', o) ->
  m_server (presets (fsd s')) = la_server a /\ m_ownCallsign (presets (fsd s')) = callsign
  /\ m_partnerCallsign (presets (fsd s')) = m_partnerCallsign (presets (fsd s))
  /\ ownAircraft s' = ownAircraft s /\ toFsd s' = toFsd s
  /\ ctx s' = (ctx s) <| m_currentMode := mode |>.
Proof using Type.
  intros -> Hrun. unfold setLogin in Hrun. cbv zeta in Hrun.
  assert (V : view s = (presets (fsd s), ownAircraft s, toFsd s, ctx s)) by reflexivity.
  do 6 view_step V Hrun. apply view_preset in Hrun. rewrite V in Hrun. clear V.
  rewrite callsignEqual_refl in Hrun. revert Hrun.
  destruct (hasLoadedConfig lastNetwork); unfold id, view; intros [= -> -> -> ->]; split_and!; reflexivity.
Qed.

(** What [connectProceed] leaves in the presets, and with whom the context
    remembers to log in again. *)
Definition loginDone (a : LoginArgs) (auto : bool) (s s' : Sys) : Prop :=
  let p := presets (fsd s') in let callsign := oa_callsign (ownAircraft s) in
  m_server p = la_server a /\ m_ownCallsign p = callsign
  /\ oa_callsign (ownAircraft s') = callsign
  /\ (m_partnerCallsign p = partnerCallsign a \/ m_partnerCallsign p = CCallsign_default)
  /\ toFsd s' = toFsd s ++ [EvConnect]
  /\ (if auto then m_reconnectLogin (ctx s') = m_reconnectLogin (ctx s)
      else originalCallsign (m_reconnectLogin (ctx s')) = callsign
           /\ la_server (rl_login (m_reconnectLogin (ctx s'))) = la_server a
           /\ partnerCallsign (rl_login (m_reconnectLogin (ctx s'))) = partnerCallsign a).

Lemma view_fallback (b : bool) (v : View) : (if b then id v else v) = v.
Proof using Type. by destruct b. Qed.
Lemma login_view {W : World} {CW : CtxWorld} a auto s r s' o :
  m_connectionStatus (fsd s) <> Connected -> isPendingConnection (fsd s) = false ->
  connectProceed a auto true s = Some (r, s', o) -> r = ConnectionPending /\ loginDone a auto s s'.
Proof using Type.
  intros Hst Hp Hrun. unfold connectProceed in Hrun.
  apply bindC_inv in Hrun as (? & ? & ? & ? & [= <- <- <-] & Hrun & ->). cbv beta zeta in Hrun.
  simpl negb in Hrun. cbv iota in Hrun. rewrite bool_decide_false, Hp in Hrun by done.
  assert (V : view s = (presets (fsd s), ownAircraft s, toFsd s, ctx s)) by reflexivity.
  view_step V Hrun.
  apply bindC_inv in Hrun as (? & ? & ? & ? & [= <- <- <-] & Hrun & _). cbv beta zeta in Hrun.
  pose proof V as V0. injection V0 as _ Hpilot _ _.
  assert (Hown : oa_callsign (ownAircraft x0) = oa_callsign (ownAircraft s))
    by (rewrite Hpilot; by destruct (userEqual _ _)). clear Hpilot.
  view_step V Hrun. view_step V Hrun. rewrite view_fallback in V. injection V as P1 P2 P3 P4.
  match type of P2 with ownAircraft ?t = _ =>
    assert (Hown2 : oa_callsign (ownAircraft t) = oa_callsign (ownAircraft s))
      by (rewrite P2; by destruct (userEqual _ _)) end. clear P2.
  apply bindC_inv in Hrun as (? & s1 & ? & ? & Hlogin & Hrun & _). cbv beta zeta in Hrun.
  apply setLogin_view in Hlogin as (E1 & E2 & E3 & E4 & E5 & E6); [|by rewrite Hown2, Hown].
  rewrite P1 in E3. apply (f_equal oa_callsign) in E4. rewrite Hown2 in E4. rewrite P3 in E5. rewrite P4 in E6. rewrite Hown in *.
  assert (V1 : view s1 = (presets (fsd s1), ownAircraft s1, toFsd s1, ctx s1)) by reflexivity.
  do 2 view_step V1 Hrun. injection Hrun as <- <- _. split; [done|].
  destruct auto; injection V1 as Q1 Q2 Q3 Q4; unfold loginDone; rewrite Q1, Q2, Q3, Q4, E4, E5, E6.
  - split_and!; try done. rewrite E3. apply if_or.
  - split_and!; try done. rewrite E3. apply if_or.
Qed.

(** From the test of the server on, a call of [connectToNetwork] either returns
    an error and has changed nothing, or the login of the arguments is set up
    and the call of the client posted.  The callsign is the one of the own
    aircraft, whatever callsign the user of the server has: the callsign of an
    attempt to connect again is not used.  Only the login of a user is
    remembered. *)
Theorem connectProceed_result {W : World} {CW : CtxWorld} a auto reachable s r s' o :
  connectProceed a auto reachable s = Some (r, s', o) ->
  (s' = s /\ o = []
   /\ ((r = ConnectionFailed /\ reachable = false)
       \/ (r = AlreadyConnected /\ m_connectionStatus (fsd s) = Connected)
       \/ (r = PendingConnection /\ isPendingConnection (fsd s) = true)))
  \/ (r = ConnectionPending /\ reachable = true /\ m_connectionStatus (fsd s) <> Connected
      /\ isPendingConnection (fsd s) = false /\ loginDone a auto s s').
Proof using Type.
  intros Hrun. pose proof Hrun as Hrun0. unfold connectProceed in Hrun.
  apply bindC_inv in Hrun as (? & ? & ? & ? & [= <- <- <-] & Hrun & ->). cbv beta zeta in Hrun.
  destruct reachable; simpl in Hrun; [|injection Hrun as <- <- <-; left; auto].
  case_bool_decide as Hst; [injection Hrun as <- <- <-; left; auto 10|].
  destruct (isPendingConnection (fsd s)) eqn:Hp; [injection Hrun as <- <- <-; left; auto 10|].
  right. destruct (login_view a auto s r s' _ Hst Hp Hrun0) as [-> Hl]. done.
Qed.
End credit.

(** ** A session that is lost, on concrete data *)

Definition demoConfig (maxAttempts : Z) : CNetworkConfig :=
  mkNetworkConfig (lit "Test") [] [] false [] [] [] [] (mkReconnect true maxAttempts 5 (f64_of_Z 2) 60 true)
    ConfigFlags_default ConfigServices_default.
#[local] Instance demoCtxWorld : CtxWorld := {|
  isShuttingDown := false;
  isSimulatorSimulating := true;
  simulatorInfo := Sim_XPLANE;
  lastNetwork := mkNetwork (demoConfig 2) true false false;
  swiftVersionChar := lit "swift";
  swiftLiveryString _ := []
|}.
Definition demoLogin : LoginArgs :=
  mkLogin refServer [] true [] true CCallsign_default Pilot.
Definition demoSys : Sys :=
  mkSys CContextNetwork_init (refClient Pilot)
    (mkOwnState (CCallsign_make (lit "DLH123") Aircraft) (getUser refServer)) [] [] [] [].
Definition at_ (t : Z) (connected : bool) (e : SysEvent) : World * CtxWorld * SysEvent :=
  (refWorld t connected, demoCtxWorld, e).

(** The user logs in; the context learns that the client is connected. *)
Definition demoLoginRun : list (World * CtxWorld * SysEvent) :=
  [at_ 0 false (UserConnect demoLogin); at_ 1 false (TestReturns true); at_ 2 false DeliverCall;
   at_ 3 true (ClientEvent EvSocketConnected); at_ 4 true DeliverSignal; at_ 5 true DeliverSignal].
Definition after (s : Sys) (es : list (World * CtxWorld * SysEvent)) : Sys :=
  match runSys s es with Some (_, s') => s' | None => s end.
Definition demoConnected : Sys := after demoSys demoLoginRun.

(** The network fails; the first attempt does not reach the server, the second
    one is not answered. *)
Definition demoOutage : list (World * CtxWorld * SysEvent) :=
  let lost := ClientEvent (EvSocketError RemoteHostClosedError) in
  [at_ 10000 true lost; at_ 10001 false DeliverSignal; at_ 10001 false DeliverSignal;
   at_ 10001 false DeliverSignal; at_ 15001 false ReconnectTimer; at_ 15100 false (TestReturns false);
   at_ 25100 false ReconnectTimer; at_ 25200 false (TestReturns true); at_ 25201 false DeliverCall;
   at_ 25202 false DeliverSignal; at_ 40000 false (ClientEvent EvPendingTimeout);
   at_ 40001 false DeliverSignal; at_ 40001 false DeliverSignal].

Definition noConnectedb (o : list CtxOut) : bool :=
  forallb (fun x => match x with CtxStatusChanged _ to => negb (bool_decide (to = Connected)) | _ => true end) o.
Lemma noConnectedb_spec o : noConnectedb o = true -> noConnected o.
Proof.
  intros Ho from Hin. unfold noConnectedb in Ho. rewrite forallb_forall in Ho.
  apply list_elem_of_In in Hin. by apply Ho in Hin.
Qed.

(** What the example shows: the state after the run, and that no connection was
    announced in it. *)
Definition runShows (s : Sys) (es : list (World * CtxWorld * SysEvent)) (check : Sys -> bool) : bool :=
  match runSys s es with Some (o, s') => noConnectedb o && check s' | None => false end.
Lemma runShows_spec s es check : runShows s es check = true ->
  exists o s', sys_run s es o s' /\ noConnected o /\ check s' = true.
Proof.
  unfold runShows. destruct (runSys s es) as [[o s']|] eqn:E; [|done]. intros H. bool_hyps.
  exists o, s'. split_and!; [by apply runSys_run | by apply noConnectedb_spec | done].
Qed.

Lemma demoOutage_runs : exists o s', sys_run demoConnected demoOutage o s' /\ noConnected o
  /\ (bool_decide (m_reconnectTimer (ctx s') = None) && (m_reconnectAttempt (ctx s') =? 0)) = true.
Proof. apply runShows_spec. vm_compute. reflexivity. Qed.

(** Two attempts are allowed, two are made. *)
Lemma reconnects_bounded_witness : attempts demoOutage = 2 /\ attempts demoOutage <= 2.
Proof.
  split; [reflexivity|]. destruct demoOutage_runs as (o & s' & Hrun & Ho & _).
  refine (reconnects_bounded 2 demoConnected demoOutage o s' _ _ _ _ _ Hrun _ Ho).
  - vm_compute. split_and!; reflexivity.
  - vm_compute. reflexivity.
  - vm_compute. reflexivity.
  - lia.
  - split; [vm_compute; discriminate|]. repeat constructor; vm_compute; discriminate.
  - repeat constructor.
Defined.

(** The user disconnects while the timer runs for the second attempt. *)
Definition demoWaiting : Sys := after demoConnected (take 6 demoOutage).
Definition demoQuits : list (World * CtxWorld * SysEvent) :=
  [at_ 20000 false UserDisconnect; at_ 20001 false (ClientEvent EvPendingTimeout)].
Lemma disconnect_is_final_witness :
  m_reconnectTimer (ctx demoWaiting) = Some 10000 /\
  exists s', idle s' /\ attempts (drop 1 demoQuits) = 0.
Proof.
  split; [vm_compute; reflexivity|].
  assert (E : exists o s', sys_run demoWaiting demoQuits o s' /\ noConnected o /\ true = true)
    by (apply (runShows_spec _ _ (fun _ => true)); vm_compute; reflexivity).
  destruct E as (o & s' & Hrun & Ho & _). exists s'. apply and_comm.
  refine (disconnect_is_final Disconnected demoWaiting UserDisconnect _ o s' _ _ Hrun _ Ho).
  - vm_compute. split_and!; try reflexivity. discriminate.
  - left. by split.
  - repeat constructor.
Defined.

(** A login while an attempt of the client is pending is refused; before the
    first one it is set up. *)
Lemma connectProceed_result_witness :
  exists s', loginDone demoLogin false demoSys s' /\ toFsd s' = [EvConnect].
Proof.
  pose (W := refWorld 0 false).
  assert (E : match connectProceed demoLogin false true demoSys with
              | Some (ConnectionPending, _, _) => true | _ => false end = true)
    by (vm_compute; reflexivity).
  destruct (connectProceed demoLogin false true demoSys) as [[[r s'] o]|] eqn:Hrun; [|discriminate E].
  destruct (connectProceed_result demoLogin false true demoSys r s' o Hrun)
    as [(_ & _ & Hr) | (_ & _ & _ & _ & Hl)].
  - destruct r; try discriminate E. destruct Hr as [[Hr _]|[[Hr _]|[Hr _]]]; discriminate Hr.
  - exists s'. split; [exact Hl|]. apply Hl.
Defined.

(** *** What the guards do not cover *)

(** The operator guide lets "SKY123" come back as "SKY1231"; the user of the
    server gets the callsign of the attempt, the client the one of the own
    aircraft. *)
Example attempt_callsign_not_used :
  let s := after demoConnected (take 9 demoOutage) in
  let p := presets (fsd s) in
  (asString (user_callsign (getUser (m_server p))), getFsdCallsignString (m_ownCallsign p))
  = (lit "DLH1232", lit "DLH123").
Proof. vm_compute. reflexivity. Qed.

(** A disconnect of the user while an automatic attempt tests the server does
    not end the attempt. *)
Example disconnect_during_test :
  m_connectionStatus (fsd (after demoConnected (take 7 demoOutage ++
    [at_ 25150 false UserDisconnect; at_ 25200 false (TestReturns true); at_ 25201 false DeliverCall])))
  = Connecting.
Proof. vm_compute. reflexivity. Qed.

(** A disconnect of the user during the login, which the client handles after it
    has connected: the context takes the end of the session for an unexpected
    one, and connects again. *)
Example disconnect_overtaken :
  m_reconnectTimer (ctx (after demoSys
    [at_ 0 false (UserConnect demoLogin); at_ 1 false (TestReturns true); at_ 2 false DeliverCall;
     at_ 3 true UserDisconnect; at_ 4 true (ClientEvent EvSocketConnected); at_ 5 true DeliverSignal;
     at_ 6 true DeliverSignal; at_ 7 true DeliverCall; at_ 8 false DeliverSignal; at_ 9 false DeliverSignal]))
  = Some 5000.
Proof. vm_compute. reflexivity. Qed.

(** A first login that is refused is repeated, too. *)
Example first_login_repeated :
  m_reconnectTimer (ctx (after demoSys
    [at_ 0 false (UserConnect demoLogin); at_ 1 false (TestReturns true); at_ 2 false DeliverCall;
     at_ 10000 false (ClientEvent EvPendingTimeout); at_ 10001 false DeliverSignal;
     at_ 10002 false DeliverSignal; at_ 10003 false DeliverSignal]))
  = Some 5000.
Proof. vm_compute. reflexivity. Qed.
