(* ===== verification/AircraftCodes.v ===== *)
(** * Codes of aircraft and airlines, categories, liveries (misc/aviation, misc/rgbcolor.cpp)

    The value objects a model of an aircraft is described with, their tests, and the
    scores by which two of them are compared.  Left out are the texts, countries and
    descriptions the matching does not read, and the messages of the scores. *)

From stdpp Require Import base list.
From Stdlib Require Import SpecFloat.
From S2P Require Import Prelude QtCore QtReference PhysicalQuantity.

(** Members of QChar that only the codes use. *)
Class QtChars := {
  qt_isLetter : QChar -> bool;   (** isLetter *)
  qt_digitValue : QChar -> Z;    (** digitValue, -1 for no digit *)
  qt_charUpper : QChar -> QChar  (** toUpper *)
}.
#[export] Instance refChars : QtChars := {|
  qt_isLetter := fun c => bool_decide ((65 <= c <= 90)%N \/ (97 <= c <= 122)%N);
  qt_digitValue := fun c => if bool_decide (48 <= c <= 57)%N then Z.of_N c - 48 else -1;
  qt_charUpper := asciiUpper
|}.

(** Case-insensitive equality (misc/stringutils.cpp). *)
Definition caseInsensitiveStringCompare `{QtConv} (c1 c2 : QString) : bool :=
  bool_decide (length c1 = length c2) && startsWithCI c1 c2.

Definition qRound (d : double) : Z := f64_trunc (f64_add d (f64_frac 1 2)).

(** ** IDatastoreObjectWithIntegerKey (misc/db/datastore.h) *)

Definition hasValidDbKey (dbKey : Z) : bool := 0 <=? dbKey.
Definition isLoadedFromDb (dbKey : Z) : bool := hasValidDbKey dbKey.
Definition isDbEqual (dbKey other : Z) : bool := isLoadedFromDb other && isLoadedFromDb dbKey && (other =? dbKey).

(** ** CRgbColor *)

Record CRgbColor := mkRgbColor { m_r : Z; m_g : Z; m_b : Z }.
#[export] Instance CRgbColor_eq : EqDecision CRgbColor.
Proof. solve_decision. Defined.

Module RgbColor.
Implicit Types c color : CRgbColor.
Definition default : CRgbColor := mkRgbColor (-1) (-1) (-1).
Definition isValid c : bool := (0 <=? m_r c) && (0 <=? m_g c) && (0 <=? m_b c).
Definition colorRange c : Z :=
  if negb (isValid c) then 255
  else if (m_b c <? 256) && (m_g c <? 256) && (m_r c <? 256) then 255
  else if (m_b c <? 4096) && (m_g c <? 4096) && (m_r c <? 4096) then 4095
  else 65535.
Definition normalized (channel : CRgbColor -> Z) c : double := f64_div (f64_of_Z (channel c)) (f64_of_Z (colorRange c)).
Definition colorDistance c color : double :=
  if negb (isValid c) && negb (isValid color) then f64_zero
  else if negb (isValid c) || negb (isValid color) then f64_of_Z 1
  else if bool_decide (c = color) then f64_zero
  else
    let rd := f64_sub (normalized m_r c) (normalized m_r color) in
    let bd := f64_sub (normalized m_b c) (normalized m_b color) in
    let gd := f64_sub (normalized m_g c) (normalized m_g color) in
    f64_div (f64_add (f64_add (f64_mul rd rd) (f64_mul bd bd)) (f64_mul gd gd)) (f64_of_Z 3).
End RgbColor.

(** ** CAircraftCategory *)

Record CAircraftCategory := mkCategory {
  cat_dbKey : Z; cat_timestampMSecsSinceEpoch : Z; cat_name : QString; cat_description : QString; cat_path : QString;
  m_assignable : bool; m_l1 : Z; m_l2 : Z; m_l3 : Z }.
#[export] Instance CAircraftCategory_eq : EqDecision CAircraftCategory.
Proof. solve_decision. Defined.

Module AircraftCategory.
Implicit Types c category : CAircraftCategory.
Definition null : CAircraftCategory := mkCategory (-1) (-1) [] [] [] true 0 0 0.
Definition isNull c : bool := isEmpty (cat_name c) && isEmpty (cat_description c).
Definition matchesName `{QtConv} (name : QString) c : bool := caseInsensitiveStringCompare name (cat_name c).
Definition isLevel3 (l1 l2 l3 : Z) c : bool := (l1 =? m_l1 c) && (l2 =? m_l2 c) && (l3 =? m_l3 c).
Definition isLevel (level : list Z) c : bool :=
  match level with [l1; l2; l3] => (m_l1 c =? l1) && (m_l2 c =? l2) && (m_l3 c =? l3) | _ => false end.
Definition getLevel c : list Z := filter (fun l => 0 < l) [m_l1 c; m_l2 c; m_l3 c].
Definition isFirstLevel c : bool := (m_l3 c =? 0) && (m_l2 c =? 0) && (0 <? m_l1 c).
Definition getDepth c : Z :=
  if isFirstLevel c then 1 else if (m_l3 c =? 0) && (0 <? m_l2 c) && (0 <? m_l1 c) then 2 else 3.
Definition matchesLevel3 (l1 l2 l3 : Z) c : bool :=
  negb (negb (l1 =? m_l1 c)) && negb ((0 <? l2) && negb (l2 =? m_l2 c)) && negb ((0 <? l3) && negb (l3 =? m_l3 c)).
Definition matchesLevel (level : list Z) c : bool :=
  match level with
  | [] => false
  | l1 :: rest => matchesLevel3 l1 (nth 0 rest 0) (nth 1 rest 0) c
  end.
Definition compareByLevel c category : comparison :=
  match m_l1 c ?= m_l1 category with
  | Eq => match m_l2 c ?= m_l2 category with Eq => m_l3 c ?= m_l3 category | o => o end
  | o => o
  end.
End AircraftCategory.

(** ** CAircraftIcaoCode *)

Record CAircraftIcaoCode := mkAircraftIcaoCode {
  icao_dbKey : Z; icao_designator : QString; icao_family : QString; icao_combinedType : QString;
  icao_manufacturer : QString; icao_military : bool; icao_rank : Z; icao_category : CAircraftCategory }.
#[export] Instance CAircraftIcaoCode_eq : EqDecision CAircraftIcaoCode.
Proof. solve_decision. Defined.

Module AircraftIcao.
Section icao.
Context `{QtConv} `{QtChars}.
Implicit Types (icao other otherCode : CAircraftIcaoCode) (designator combinedType manufacturer : QString).

Definition null : CAircraftIcaoCode := mkAircraftIcaoCode (-1) [] [] [] [] false 10 AircraftCategory.null.
Definition DesignatorMinLength : nat := 2.
Definition DesignatorMaxLength : nat := 5.
Definition isValidDesignator designator : bool :=
  if (length designator <? DesignatorMinLength)%nat || (DesignatorMaxLength <? length designator)%nat then false
  else match designator with
       | [] => false
       | c :: _ => if negb (qt_isUpper c) then false
                   else negb (existsb (fun c => negb (qt_isUpper c) && negb (qt_isDigit c)) designator)
       end.
Definition isValidCombinedType combinedType : bool :=
  match combinedType with
  | [t; n; e] => QtCore.containsChar (lit "AGHSLT") t && qt_isDigit n && QtCore.containsChar (lit "EJPT-") e
  | _ => false
  end.

Definition hasDesignator icao : bool := negb (isEmpty (icao_designator icao)).
Definition hasValidDesignator icao : bool := isValidDesignator (icao_designator icao).
Definition hasFamily icao : bool := negb (isEmpty (icao_family icao)).
Definition hasManufacturer icao : bool := negb (isEmpty (icao_manufacturer icao)).
Definition hasCategory icao : bool := negb (AircraftCategory.isNull (icao_category icao)).
Definition hasValidCombinedType icao : bool := isValidCombinedType (icao_combinedType icao).

Definition getEngineType icao : QString :=
  if negb (length (icao_combinedType icao) =? 3)%nat then [] else right (icao_combinedType icao) 1.
Definition getEnginesCount icao : Z :=
  if (length (icao_combinedType icao) <? 2)%nat then -1
  else
    let c := left (mid (icao_combinedType icao) 1) 1 in
    if eqs c "-" then -1
    else match qt_toInt c with
         | Some ec => if (0 <=? ec) && (ec <? 10) then ec else -1
         | None => -1
         end.
Definition getAircraftType icao : QString :=
  let c := left (icao_combinedType icao) 1 in if eqs c "-" then [] else c.

(** The position of a wildcard is a space or a hyphen.  [at] of a text is reached with three
    characters: the callers pass trimmed text of that length. *)
Definition starred combinedType : QString :=
  map (fun c => if decide (c = 32%N \/ c = 45%N) then 42%N else c) (trimmed (qt_toUpper combinedType)).
Definition matchesCombinedType combinedType icao : bool :=
  let cc := starred combinedType in
  if negb (length combinedType =? 3)%nat then false
  else if bool_decide (cc = icao_combinedType icao) then true
  else if negb (QtCore.containsChar cc 42%N) then false
  else
    let at_ := nth 0 cc 0%N in let c := nth 1 cc 0%N in let et := nth 2 cc 0%N in
    if negb (at_ =? 42)%N &&
       match getAircraftType icao with [] => true | a :: _ => negb (a =? at_)%N end then false
    else if negb (c =? 42)%N && negb (getEnginesCount icao =? qt_digitValue c) then false
    else if (et =? 42)%N then true
    else match getEngineType icao with [e] => (e =? et)%N | _ => false end.
Definition matchesManufacturer manufacturer icao : bool :=
  if isEmpty manufacturer then false
  else (length manufacturer =? length (icao_manufacturer icao))%nat && startsWithCI (icao_manufacturer icao) manufacturer.
Definition matchesCombinedTypeAndManufacturer combinedType manufacturer icao : bool :=
  matchesCombinedType combinedType icao && matchesManufacturer manufacturer icao.
Definition matchesDesignator designator icao : bool :=
  if isEmpty designator then false else bool_decide (icao_designator icao = qt_toUpper (trimmed designator)).

Definition isVtol icao : bool :=
  ((length (icao_designator icao) =? 4)%nat &&
   (eqs (icao_designator icao) "BALL" || eqs (icao_designator icao) "SHIP" ||
    eqs (icao_designator icao) "GYRO" || eqs (icao_designator icao) "UHEL")) ||
  (negb (isEmpty (icao_combinedType icao)) &&
   (startsWith (icao_combinedType icao) (lit "H") || startsWith (icao_combinedType icao) (lit "T"))).

Definition isEPTEngineType (engineType : QChar) : bool :=
  let e := [qt_charUpper engineType] in eqs e "P" || eqs e "E" || eqs e "T".

(** The part of the score for the type: designator and rank, family, combined type or its parts. *)
Definition rankScore (rank : Z) : Z :=
  if rank =? 0 then 15 else if rank =? 1 then 12 else if rank <? 10 then 10 - rank else 0.
Definition enginesScore (eMy eOther : Z) : Z :=
  if (eMy =? eOther) && (0 <=? eMy) then 4
  else if (0 <? eMy) && (0 <? eOther) then
    let eDiff := Z.abs (eMy - eOther) in if eDiff =? 1 then 2 else if eDiff =? 2 then 1 else 0
  else 0.
Definition engineTypeScore (tMy tOther : QString) : Z :=
  if bool_decide (tMy = tOther) then 4
  else match tMy, tOther with
       | c :: _, d :: _ => if isEPTEngineType c && isEPTEngineType d then 2 else 0
       | _, _ => 0
       end.
Definition typeScore icao otherCode : Z :=
  if hasValidDesignator icao && bool_decide (icao_designator icao = icao_designator otherCode)
  then 50 + rankScore (icao_rank icao)
  else if hasFamily icao && bool_decide (icao_family icao = icao_family otherCode) then 40
  else if hasValidCombinedType icao && bool_decide (icao_combinedType otherCode = icao_combinedType icao) then 30
  else if hasValidCombinedType icao then
    enginesScore (getEnginesCount icao) (getEnginesCount otherCode) +
    engineTypeScore (getEngineType icao) (getEngineType icao) +
    (if bool_decide (getAircraftType icao = getAircraftType otherCode) then 7
     else if isVtol icao && isVtol otherCode then 4 else 0)
  else 0.
Definition manufacturerScore icao otherCode : Z :=
  if hasManufacturer icao && hasManufacturer otherCode then
    if matchesManufacturer (icao_manufacturer otherCode) icao then 10
    else if containsCI (icao_manufacturer icao) (icao_manufacturer otherCode) then 5 else 0
  else 0.
Definition flagScore icao otherCode : Z :=
  if hasCategory icao && hasCategory otherCode && bool_decide (icao_category icao = icao_category otherCode) then 8
  else if eqb (icao_military icao) (icao_military otherCode) then 8 else 0.
Definition calculateScore icao otherCode : Z :=
  if isDbEqual (icao_dbKey icao) (icao_dbKey otherCode) then 100
  else typeScore icao otherCode + manufacturerScore icao otherCode + flagScore icao otherCode.
End icao.
End AircraftIcao.

(** ** CAirlineIcaoCode *)

Record CAirlineIcaoCode := mkAirlineIcaoCode {
  al_dbKey : Z; al_designator : QString; al_name : QString; al_telephonyDesignator : QString;
  al_groupDesignator : QString; al_groupId : Z; al_isVa : bool; al_isMilitary : bool }.
#[export] Instance CAirlineIcaoCode_eq : EqDecision CAirlineIcaoCode.
Proof. solve_decision. Defined.

Module AirlineIcao.
Section airline.
Context `{QtConv} `{QtChars}.
Implicit Types (al otherCode : CAirlineIcaoCode) (designator candidate : QString).

Definition null : CAirlineIcaoCode := mkAirlineIcaoCode (-1) [] [] [] [] (-1) false false.
Definition setDesignator designator al : CAirlineIcaoCode :=
  let d := qt_toUpper (trimmed designator) in
  if (length d =? 4)%nat && startsWith d (lit "V")
  then mkAirlineIcaoCode (al_dbKey al) (right d 3) (al_name al) (al_telephonyDesignator al) (al_groupDesignator al)
         (al_groupId al) true (al_isMilitary al)
  else mkAirlineIcaoCode (al_dbKey al) d (al_name al) (al_telephonyDesignator al) (al_groupDesignator al)
         (al_groupId al) (al_isVa al) (al_isMilitary al).
Definition ofDesignator designator : CAirlineIcaoCode := setDesignator designator null.
Definition getVDesignator al : QString := if negb (al_isVa al) then al_designator al else lit "V" ++ al_designator al.
Definition isValidAirlineDesignator designator : bool :=
  if (length designator <? 2)%nat || (5 <? length designator)%nat then false
  else negb (existsb (fun c => negb (qt_isUpper c) && negb (qt_isDigit c)) designator).
Definition hasValidDesignator al : bool := isValidAirlineDesignator (al_designator al).
Definition hasName al : bool := negb (isEmpty (al_name al)).
Definition hasTelephonyDesignator al : bool := negb (isEmpty (al_telephonyDesignator al)).
Definition hasGroupMembership al : bool := (0 <=? al_groupId al) && negb (isEmpty (al_groupDesignator al)).

Definition simplifyNameForSearch (name : QString) : QString := filter (fun c => qt_isUpper c = true) (qt_toUpper name).
Definition getSimplifiedName al : QString := simplifyNameForSearch (al_name al).
Definition hasSimplifiedName al : bool := hasName al && negb (isEmpty (getSimplifiedName al)).
Definition isContainedInSimplifiedName candidate al : bool :=
  if isEmpty candidate || negb (hasName al) then false
  else containsSub (map qt_charUpper (filter (fun c => qt_isLetter c = true) (al_name al))) (map qt_charUpper candidate).
Definition matchesNamesOrTelephonyDesignator candidate al : bool :=
  let cand := trimmed (qt_toUpper candidate) in
  if containsCI (al_name al) cand || containsCI (al_telephonyDesignator al) cand then true
  else isContainedInSimplifiedName candidate al.

Definition calculateScore al otherCode : Z :=
  if isDbEqual (al_dbKey al) (al_dbKey otherCode) then 100
  else
    let bothFromDb := isLoadedFromDb (al_dbKey al) && isLoadedFromDb (al_dbKey otherCode) in
    (if hasValidDesignator otherCode && bool_decide (al_designator al = al_designator otherCode) then 60 else 0) +
    (if bothFromDb && eqb (al_isVa al) (al_isVa otherCode) then 20 else 0) +
    (if hasName al && bool_decide (al_name al = al_name otherCode) then 20
     else if hasTelephonyDesignator al && bool_decide (al_telephonyDesignator al = al_telephonyDesignator otherCode) then 15
     else if hasSimplifiedName al && bool_decide (getSimplifiedName al = getSimplifiedName otherCode) then 10
     else 0).
End airline.
End AirlineIcao.

(** ** CLivery *)

Record CLivery := mkLivery {
  lv_dbKey : Z; lv_airline : CAirlineIcaoCode; lv_combinedCode : QString; lv_description : QString;
  lv_colorFuselage : CRgbColor; lv_colorTail : CRgbColor; lv_military : bool }.
#[export] Instance CLivery_eq : EqDecision CLivery.
Proof. solve_decision. Defined.

Module Livery.
Section livery.
Context `{QtConv} `{QtChars}.
Implicit Types (l otherLivery : CLivery) (fuselage tail : CRgbColor).

Definition null : CLivery := mkLivery (-1) AirlineIcao.null [] [] RgbColor.default RgbColor.default false.
(** The constructor with code, airline and description. *)
Definition make (combinedCode : QString) (airline : CAirlineIcaoCode) (description : QString) : CLivery :=
  mkLivery (-1) airline (qt_toUpper (trimmed combinedCode)) (trimmed description) RgbColor.default RgbColor.default false.
Definition standardLiveryMarker : QString := lit "_STD".
Definition colorLiveryMarker : QString := lit "_CC".
Definition getStandardCode (airline : CAirlineIcaoCode) : QString :=
  let code := AirlineIcao.getVDesignator airline in
  if isEmpty code then [] else code ++ lit "." ++ standardLiveryMarker.
Definition isValidCombinedCode (candidate : QString) : bool :=
  if isEmpty candidate then false
  else if startsWith candidate colorLiveryMarker then (length colorLiveryMarker + 1 <? length candidate)%nat
  else if negb (countChar candidate 46%N =? 1)%nat then false
  else (2 <? length candidate)%nat.
Definition hasCombinedCode l : bool := negb (isEmpty (lv_combinedCode l)).
Definition matchesCombinedCode (candidate : QString) l : bool :=
  if isEmpty candidate || negb (hasCombinedCode l) then false
  else bool_decide (qt_toUpper (trimmed candidate) = lv_combinedCode l).
Definition isColorLivery l : bool := startsWith (lv_combinedCode l) colorLiveryMarker.
Definition isAirlineLivery l : bool := AirlineIcao.hasValidDesignator (lv_airline l).

Definition matchesColors fuselage tail l : bool :=
  bool_decide (lv_colorFuselage l = fuselage) && bool_decide (lv_colorTail l = tail).
Definition getColorDistance fuselage tail l : double :=
  if negb (RgbColor.isValid fuselage) || negb (RgbColor.isValid tail) then f64_of_Z 1
  else if RgbColor.isValid (lv_colorFuselage l) && RgbColor.isValid (lv_colorTail l) then
    if matchesColors fuselage tail l then f64_zero
    else
      let xDist := RgbColor.colorDistance (lv_colorFuselage l) fuselage in
      let yDist := RgbColor.colorDistance (lv_colorTail l) tail in
      f64_div (f64_add (f64_mul xDist xDist) (f64_mul yDist yDist)) (f64_of_Z 2)
  else f64_of_Z 1.

(** [score += factor * colorMultiplier] of an int. *)
Definition addColors (score factor : Z) (colorMultiplier : double) : Z :=
  f64_trunc (f64_add (f64_of_Z score) (f64_mul (f64_of_Z factor) colorMultiplier)).
Definition calculateScore (preferColorLiveries : bool) l otherLivery : Z :=
  if isDbEqual (lv_dbKey l) (lv_dbKey otherLivery) then 100
  else
    let colorMultiplier :=
      f64_sub (f64_of_Z 1) (getColorDistance (lv_colorFuselage otherLivery) (lv_colorTail otherLivery) l) in
    if isColorLivery l && isColorLivery otherLivery then addColors 25 60 colorMultiplier
    else if isAirlineLivery l && isAirlineLivery otherLivery then
      let score := qRound (f64_mul (f64_frac 1 2)
                             (f64_of_Z (AirlineIcao.calculateScore (lv_airline l) (lv_airline otherLivery)))) in
      addColors score 25 colorMultiplier + (if eqb (lv_military l) (lv_military otherLivery) then 10 else 0)
    else if (isColorLivery l && isAirlineLivery otherLivery) || (isColorLivery otherLivery && isAirlineLivery l)
    then addColors (if preferColorLiveries then 25 else 0) 25 colorMultiplier
    else 0.
End livery.
End Livery.
