(* ===== verification/AircraftModel.v ===== *)
(** * Models of aircraft and lists of them (misc/simulation/aircraftmodel.cpp, aircraftmodellist.cpp)

    A model is what the simulator can draw, described by its codes and its livery.  The
    lists filter models, replace and remove them by their text, and score them against
    a remote model.  Left out are the members the matching does not read: files,
    simulator, distributor, centre of gravity and descriptions. *)

From stdpp Require Import base list.
From S2P Require Import Prelude QtCore QtReference PhysicalQuantity.
From S2P Require Export Callsign AircraftCodes.
From coqutil Require Export Datatypes.RecordSetters.
Export TriangleBracketNotations.
#[global] Open Scope record_set.
Arguments constant {E} newValue _ /.
Arguments apply_update {R E} u : simpl nomatch.

Open Scope Z_scope.

(** ** CAircraftModel *)

Inductive ModelType := TypeUnknown | TypeQueriedFromNetwork | TypeFSInnData | TypeReverseLookup | TypeModelMatching
  | TypeModelMatchingDefaultModel | TypeDatabaseEntry | TypeManuallySet | TypeOwnSimulatorModel | TypeVPilotRuleBased
  | TypeTerrainProbe.
#[export] Instance ModelType_eq : EqDecision ModelType.
Proof. solve_decision. Defined.
Inductive ModelMode := Undefined | Include | Exclude | AllModes.
#[export] Instance ModelMode_eq : EqDecision ModelMode.
Proof. solve_decision. Defined.

Record CAircraftModel := mkAircraftModel {
  m_dbKey : Z; m_order : Z; m_modelCallsign : CCallsign; m_aircraftIcao : CAircraftIcaoCode; m_livery : CLivery;
  m_modelString : QString; m_modelStringAlias : QString; m_modelType : ModelType; m_modelMode : ModelMode }.
#[export] Instance CAircraftModel_eq : EqDecision CAircraftModel.
Proof. solve_decision. Defined.

Definition CAircraftModel_default : CAircraftModel :=
  mkAircraftModel (-1) (-1) CCallsign_default AircraftIcao.null Livery.null [] [] TypeUnknown Include.

Section model.
Context `{QtConv} `{QtChars}.
Implicit Types (model compareModel : CAircraftModel) (modelString : QString).

(** The constructor with text, type, codes and livery. *)
Definition CAircraftModel_make modelString (type : ModelType) (icao : CAircraftIcaoCode) (livery : CLivery) : CAircraftModel :=
  mkAircraftModel (-1) (-1) CCallsign_default icao livery (qt_toUpper (trimmed modelString)) [] type Include.

Definition getAirlineIcaoCode model : CAirlineIcaoCode := lv_airline (m_livery model).
Definition setCallsign (callsign : CCallsign) model : CAircraftModel :=
  (model) <| m_modelCallsign := mkCallsign (m_callsignAsSet callsign) (m_callsign callsign)
                                  (m_telephonyDesignator callsign) Aircraft |>.
Definition setModelType (type : ModelType) model : CAircraftModel := (model) <| m_modelType := type |>.
Definition setAircraftIcaoCode (icao : CAircraftIcaoCode) model : CAircraftModel := (model) <| m_aircraftIcao := icao |>.
Definition setLivery (livery : CLivery) model : CAircraftModel := (model) <| m_livery := livery |>.

Definition hasModelString model : bool := negb (isEmpty (m_modelString model)).
Definition hasManuallySetString model : bool := bool_decide (m_modelType model = TypeManuallySet) && hasModelString model.
Definition hasAircraftDesignator model : bool := AircraftIcao.hasDesignator (m_aircraftIcao model).
Definition hasAirlineDesignator model : bool := AirlineIcao.hasValidDesignator (getAirlineIcaoCode model).
Definition hasCategory model : bool := AircraftIcao.hasCategory (m_aircraftIcao model).
Definition isVtol model : bool := AircraftIcao.isVtol (m_aircraftIcao model).
Definition isMilitary model : bool := icao_military (m_aircraftIcao model) || lv_military (m_livery model).
Definition hasValidOrder model : bool := 0 <=? m_order model.

Definition matchesModelString modelString model : bool := caseInsensitiveStringCompare modelString (m_modelString model).
Definition matchesModelStringOrAlias modelString model : bool :=
  matchesModelString modelString model || caseInsensitiveStringCompare modelString (m_modelStringAlias model).
Definition calculateScore (preferColorLiveries : bool) compareModel model : Z :=
  let icaoScore := AircraftIcao.calculateScore (m_aircraftIcao model) (m_aircraftIcao compareModel) in
  let liveryScore := Livery.calculateScore preferColorLiveries (m_livery model) (m_livery compareModel) in
  qRound (f64_mul (f64_frac 1 2) (f64_of_Z (icaoScore + liveryScore))).

(** *** The livery as it is sent to other clients *)

Record DBTripleIds := mkTripleIds { id_model : Z; id_livery : Z; id_aircraft : Z }.
Definition DBTripleIds_default : DBTripleIds := mkTripleIds (-1) (-1) (-1).

Definition liveryStringPrefix : QString := lit "swift_".
Definition isSwiftLiveryString (liveryString : QString) : bool :=
  (length liveryStringPrefix <? length liveryString)%nat && startsWithCI liveryString liveryStringPrefix.
Definition idText (use : bool) (letter : string) (dbKey : Z) : QString :=
  if use && hasValidDbKey dbKey then lit letter ++ qt_number dbKey else [].
Definition getSwiftLiveryString (aircraftIcao livery useModel : bool) model : QString :=
  if negb aircraftIcao && negb livery && negb useModel then []
  else
    let l := idText livery "l" (lv_dbKey (m_livery model)) ++ idText aircraftIcao "a" (icao_dbKey (m_aircraftIcao model))
               ++ idText useModel "m" (m_dbKey model) in
    if isEmpty l then [] else liveryStringPrefix ++ l.

(** The loop over the text behind the prefix; a letter is followed by its digits.  The fuel is the
    number of characters, of which every turn takes at least one. *)
Fixpoint parseIds (fuel : nat) (ls : QString) (ids : DBTripleIds) : DBTripleIds :=
  match fuel, ls with
  | S fuel, m :: rest =>
      if bool_decide (m = 109%N \/ m = 97%N \/ m = 108%N) then
        let '(idString, behind) := spanChars qt_isDigit rest in
        if isEmpty idString then parseIds fuel rest ids
        else
          let id := toInt idString in
          parseIds fuel behind
            (if decide (m = 109%N) then (ids) <| id_model := id |>
             else if decide (m = 97%N) then (ids) <| id_aircraft := id |> else (ids) <| id_livery := id |>)
      else parseIds fuel rest ids
  | _, _ => ids
  end.
Definition parseNetworkLiveryString (liveryString : QString) : DBTripleIds :=
  if negb (isSwiftLiveryString liveryString) then DBTripleIds_default
  else
    let ls := qt_toLower (mid liveryString (length liveryStringPrefix)) in
    parseIds (length ls) ls DBTripleIds_default.
End model.

(** ** CAircraftModelList *)

Section list.
Context `{QtConv} `{QtChars}.
Implicit Types (model : CAircraftModel) (models : list CAircraftModel) (modelString combinedType : QString).

Definition findBy (p : CAircraftModel -> bool) models : list CAircraftModel := filter (fun model => p model = true) models.
Definition findFirstByOrDefault (p : CAircraftModel -> bool) models : CAircraftModel :=
  default CAircraftModel_default (head (findBy p models)).
Definition containsBy (p : CAircraftModel -> bool) models : bool := existsb p models.

Definition findFirstByModelStringOrDefault modelString models : CAircraftModel :=
  if isEmpty modelString then CAircraftModel_default else findFirstByOrDefault (matchesModelString modelString) models.
Definition findFirstByModelStringAliasOrDefault modelString models : CAircraftModel :=
  if isEmpty modelString then CAircraftModel_default else findFirstByOrDefault (matchesModelStringOrAlias modelString) models.

Definition findByIcaoDesignators (aircraft : CAircraftIcaoCode) (airline : CAirlineIcaoCode) models : list CAircraftModel :=
  let sameAircraft model := bool_decide (icao_designator (m_aircraftIcao model) = icao_designator aircraft) in
  let sameAirline model := bool_decide (al_designator (getAirlineIcaoCode model) = al_designator airline) in
  if isEmpty (al_designator airline) then findBy sameAircraft models
  else if isEmpty (icao_designator aircraft) then findBy sameAirline models
  else findBy (fun model => sameAirline model && sameAircraft model) models.
Definition findByAircraftDesignatorAndLiveryCombinedCode (aircraftDesignator combinedCode : QString) models
  : list CAircraftModel :=
  if isEmpty aircraftDesignator then []
  else findBy (fun model => AircraftIcao.matchesDesignator aircraftDesignator (m_aircraftIcao model) &&
                            Livery.matchesCombinedCode combinedCode (m_livery model)) models.
Definition findByAirlineGroup (airline : CAirlineIcaoCode) models : list CAircraftModel :=
  let id := al_groupId airline in
  if id <? 0 then [] else findBy (fun model => al_groupId (getAirlineIcaoCode model) =? id) models.
Definition findByAirlineNamesOrTelephonyDesignator (name : QString) models : list CAircraftModel :=
  findBy (fun model => if negb (hasAirlineDesignator model) || negb (hasValidDbKey (m_dbKey model)) then false
                       else AirlineIcao.matchesNamesOrTelephonyDesignator name (getAirlineIcaoCode model)) models.
Definition findByManufacturer (manufacturer : QString) models : list CAircraftModel :=
  if isEmpty manufacturer then []
  else findBy (fun model => bool_decide (icao_manufacturer (m_aircraftIcao model) = trimmed (qt_toUpper manufacturer))) models.
Definition findByFamily (family : QString) models : list CAircraftModel :=
  if isEmpty family then []
  else findBy (fun model => AircraftIcao.hasFamily (m_aircraftIcao model) &&
                            bool_decide (icao_family (m_aircraftIcao model) = trimmed (qt_toUpper family))) models.
Definition findByDesignatorsOrFamilyWithColorLivery (designators : QStringList) models : list CAircraftModel :=
  findBy (fun model =>
    if negb (Livery.isColorLivery (m_livery model)) then false
    else if bool_decide (icao_designator (m_aircraftIcao model) ∈ designators) then true
    else AircraftIcao.hasFamily (m_aircraftIcao model) && bool_decide (icao_family (m_aircraftIcao model) ∈ designators)) models.
Definition findByCombinedType combinedType models : list CAircraftModel :=
  if negb (length combinedType =? 3)%nat then []
  else findBy (fun model => AircraftIcao.matchesCombinedType (qt_toUpper (trimmed combinedType)) (m_aircraftIcao model)) models.
Definition findColorLiveries models : list CAircraftModel := findBy (fun model => Livery.isColorLivery (m_livery model)) models.
Definition findByCombinedTypeWithColorLivery combinedType models : list CAircraftModel :=
  findColorLiveries (findByCombinedType combinedType models).
Definition findByCombinedAndManufacturer (icao : CAircraftIcaoCode) models : list CAircraftModel :=
  let combinedType := icao_combinedType icao in let manufacturer := icao_manufacturer icao in
  if isEmpty manufacturer then findByCombinedType combinedType models
  else if isEmpty combinedType then findByManufacturer manufacturer models
  else findBy (fun model => AircraftIcao.matchesCombinedTypeAndManufacturer combinedType manufacturer (m_aircraftIcao model)) models.
Definition findByMilitaryFlag (military : bool) models : list CAircraftModel :=
  findBy (fun model => eqb (isMilitary model) military) models.
Definition findByVtolFlag (vtol : bool) models : list CAircraftModel := findBy (fun model => eqb (isVtol model) vtol) models.
Definition containsVtol models : bool := containsBy isVtol models.

Definition findByCategoryFirstLevel (firstLevel : Z) models : list CAircraftModel :=
  if firstLevel <? 0 then []
  else findBy (fun model => hasCategory model && (m_l1 (icao_category (m_aircraftIcao model)) =? firstLevel)) models.
Definition findByCategory (category : CAircraftCategory) models : list CAircraftModel :=
  if AircraftCategory.isNull category then []
  else findBy (fun model => hasCategory model && bool_decide (icao_category (m_aircraftIcao model) = category)) models.
Definition findByCategories (categories : list CAircraftCategory) models : list CAircraftModel :=
  if isEmpty categories then []
  else findBy (fun model => hasCategory model && bool_decide (icao_category (m_aircraftIcao model) ∈ categories)) models.

(** *** Removing and replacing by text *)

Definition getModelStringList models : QStringList := map m_modelString (findBy hasModelString models).
Definition containsString (modelStrings : QStringList) modelString : bool := existsb (equalsCI modelString) modelStrings.
Definition findByNotInModelStrings (modelStrings : QStringList) models : list CAircraftModel :=
  findBy (fun model => negb (containsString modelStrings (m_modelString model))) models.
Definition removeModelsWithString (modelStrings : QStringList) models : list CAircraftModel :=
  if isEmpty modelStrings then models else findByNotInModelStrings modelStrings models.
Definition replaceOrAddModelsWithString (addOrReplaceList models : list CAircraftModel) : list CAircraftModel :=
  if isEmpty addOrReplaceList then models
  else if isEmpty models then addOrReplaceList
  else removeModelsWithString (getModelStringList addOrReplaceList) models ++ addOrReplaceList.
Definition removeAllWithoutModelString models : list CAircraftModel := findBy hasModelString models.
Definition removeObjectsWithoutDbKey models : list CAircraftModel := findBy (fun model => hasValidDbKey (m_dbKey model)) models.
Definition removeIfExcluded models : list CAircraftModel := findBy (fun model => negb (bool_decide (m_modelMode model = Exclude))) models.

(** *** The order set by the user *)

Definition needsOrder models : bool := existsb (fun model => negb (hasValidOrder model)) models.
Definition minOrderOrDefault models : CAircraftModel :=
  match models with
  | [] => CAircraftModel_default
  | front :: _ => foldl (fun min model => if hasValidOrder model && (m_order model <? m_order min) then model else min) front models
  end.

(** *** Scores *)

(** A QMultiMap from scores to models: sorted by key, the latest entry of a key first. *)
Definition ScoredModels : Type := list (Z * CAircraftModel).
Fixpoint insertScored (score : Z) model (scores : ScoredModels) : ScoredModels :=
  match scores with
  | [] => [(score, model)]
  | (k, m) :: rest => if score <=? k then (score, model) :: scores else (k, m) :: insertScored score model rest
  end.
Definition lastKey (scores : ScoredModels) : option Z := fst <$> last scores.
Definition valuesOf (key : Z) (scores : list (Z * CAircraftModel)) : list CAircraftModel := map snd (filter (fun e => e.1 = key) scores).
Definition scoreFull (remoteModel : CAircraftModel) (preferColorLiveries ignoreZeroScores : bool) models : ScoredModels :=
  foldl (fun scoreMap model =>
           let score := calculateScore preferColorLiveries remoteModel model in
           if ignoreZeroScores && (score <? 1) then scoreMap else insertScored score model scoreMap) [] models.
End list.
