(* ===== verification/LiveryString.v ===== *)
(** * The livery of a swift aircraft as other clients read it

    A client tells the others the keys of its livery, aircraft and model in the text of the
    livery; what is parsed are the keys that were sent. *)

From stdpp Require Import base list.
From S2P Require Import Prelude QtCore QtReference.
From S2P Require Import AircraftModel.

Open Scope Z_scope.

(** QString::toLower on characters of ASCII. *)
Class QtLowerLaws `{QtConv} := {
  qt_toLower_ascii s : Forall (fun c => (c < 128)%N) s ->
    qt_toLower s = map (fun c => if bool_decide (65 <= c <= 90)%N then (c + 32)%N else c) s }.
#[export] Instance refLowerLaws : QtLowerLaws.
Proof. split. done. Qed.

Section roundtrip.
Context `{QtConvLaws} {LL : QtLowerLaws}.
Implicit Types (s rest : QString) (model : CAircraftModel) (ids : DBTripleIds).

(** Characters that are not changed by [toLower]: digits and small letters. *)
Definition lowChar (c : QChar) : Prop := (48 <= c <= 57)%N \/ (97 <= c <= 122)%N.
Lemma toLower_low s : Forall lowChar s -> qt_toLower s = s.
Proof.
  intros Hs. rewrite qt_toLower_ascii; [|eapply Forall_impl; [exact Hs|]; unfold lowChar; lia].
  induction Hs as [|c s Hc Hs IH]; [done|]. simpl. rewrite IH. rewrite bool_decide_eq_false_2; [done|]. unfold lowChar in Hc. lia.
Qed.
Lemma number_digits n : 0 <= n -> Forall (fun c => (48 <= c <= 57)%N) (qt_number n).
Proof.
  revert n. apply Zlt_0_ind. intros n IH Hn. destruct (Z.lt_ge_cases n 10).
  - rewrite qt_number_small by lia. constructor; [lia|constructor].
  - rewrite qt_number_digit by lia. apply Forall_app. split; [|constructor; [pose proof (Z.mod_pos_bound n 10); lia|constructor]].
    apply IH. split; [apply Z.div_pos; lia|]. apply Z.div_lt; lia.
Qed.

(** What may follow the digits of a key. *)
Definition endsDigits rest : Prop := match rest with [] => True | c :: _ => (97 <= c < 128)%N end.
Lemma span_digits s rest : Forall (fun c => (48 <= c <= 57)%N) s -> endsDigits rest ->
  spanChars qt_isDigit (s ++ rest) = (s, rest).
Proof.
  intros Hs Hr. induction Hs as [|c s Hc Hs IH]; simpl.
  - destruct rest as [|c rest]; [done|]. simpl in *. by rewrite qt_isDigit_ascii, bool_decide_eq_false_2 by lia.
  - by rewrite qt_isDigit_ascii, bool_decide_eq_true_2, IH by lia.
Qed.
Definition sentId (use : bool) (dbKey : Z) : Z := if use && hasValidDbKey dbKey then dbKey else -1.

(** A key that was written is read: the rest is parsed with enough fuel. *)
Lemma parse_key (letter : QChar) n rest fuel ids : letter = 109%N \/ letter = 97%N \/ letter = 108%N ->
  0 <= n -> inS 32 n -> endsDigits rest -> (length ([letter] ++ qt_number n ++ rest) <= fuel)%nat ->
  exists fuel', (length rest <= fuel')%nat /\ parseIds fuel ([letter] ++ qt_number n ++ rest) ids = parseIds fuel' rest
    (if decide (letter = 109%N) then (ids) <| id_model := n |>
     else if decide (letter = 97%N) then (ids) <| id_aircraft := n |> else (ids) <| id_livery := n |>).
Proof.
  intros Hl Hn H32 Hr Hf. simpl in *. destruct fuel as [|fuel]; [lia|]. exists fuel. rewrite length_app in Hf. split; [lia|].
  cbn [parseIds]. rewrite bool_decide_eq_true_2 by done. rewrite span_digits by auto using number_digits.
  pose proof (qt_number_nonempty n) as Hne. destruct (qt_number n) eqn:E; [done|]. simpl isEmpty. cbn iota. rewrite <- E.
  unfold toInt. by rewrite qt_toInt_number.
Qed.

(** A text with the keys of the model, as the parser goes over it. *)
Lemma idText_low use letter dbKey : Forall lowChar (lit letter) -> Forall lowChar (idText use letter dbKey).
Proof.
  intros Hl. unfold idText, hasValidDbKey. destruct (use && _) eqn:E; [|constructor]. apply andb_true_iff in E as [_ E].
  apply Forall_app. split; [done|]. eapply Forall_impl; [apply number_digits; lia|]. unfold lowChar. lia.
Qed.
Lemma idText_ends use letter c dbKey rest : lit letter = [c] -> (97 <= c < 128)%N -> endsDigits rest ->
  endsDigits (idText use letter dbKey ++ rest).
Proof. intros Hl Hc Hr. unfold idText. rewrite Hl. by destruct (use && _). Qed.
Lemma parse_idText use letter c dbKey rest fuel ids : lit letter = [c] -> c = 109%N \/ c = 97%N \/ c = 108%N ->
  inS 32 dbKey -> endsDigits rest -> (length (idText use letter dbKey ++ rest) <= fuel)%nat ->
  exists fuel', (length rest <= fuel')%nat /\ parseIds fuel (idText use letter dbKey ++ rest) ids = parseIds fuel' rest
    (if use && hasValidDbKey dbKey then
       if decide (c = 109%N) then (ids) <| id_model := dbKey |>
       else if decide (c = 97%N) then (ids) <| id_aircraft := dbKey |> else (ids) <| id_livery := dbKey |>
     else ids).
Proof.
  intros Hl Hc H32 Hr Hf. unfold idText in *. destruct (use && hasValidDbKey dbKey) eqn:E; [|by exists fuel].
  apply andb_true_iff in E as [_ E]. unfold hasValidDbKey in E. rewrite Hl, <- app_assoc in *. apply parse_key; [done|lia|done..].
Qed.

Lemma parse_keys aircraftIcao livery useModel model :
  inS 32 (lv_dbKey (m_livery model)) -> inS 32 (icao_dbKey (m_aircraftIcao model)) -> inS 32 (m_dbKey model) ->
  let l := idText livery "l" (lv_dbKey (m_livery model)) ++ idText aircraftIcao "a" (icao_dbKey (m_aircraftIcao model))
             ++ idText useModel "m" (m_dbKey model) in
  parseIds (length l) l DBTripleIds_default =
  mkTripleIds (sentId useModel (m_dbKey model)) (sentId livery (lv_dbKey (m_livery model)))
    (sentId aircraftIcao (icao_dbKey (m_aircraftIcao model))).
Proof.
  intros Hl Ha Hm. cbv zeta. set (aText := idText aircraftIcao "a" _). set (mText := idText useModel "m" _).
  assert (endsDigits mText) as Em
    by (rewrite <- (app_nil_r mText); apply (idText_ends _ _ 109%N); [reflexivity|lia|done]).
  assert (endsDigits (aText ++ mText)) as Ea by (apply (idText_ends _ _ 97%N); [reflexivity|lia|done]).
  edestruct (parse_idText livery "l" 108%N (lv_dbKey (m_livery model)) (aText ++ mText)) as (f1 & Hf1 & ->);
    [reflexivity|tauto|exact Hl|exact Ea|reflexivity|].
  edestruct (parse_idText aircraftIcao "a" 97%N (icao_dbKey (m_aircraftIcao model)) mText f1) as (f2 & Hf2 & ->);
    [reflexivity|tauto|exact Ha|exact Em|exact Hf1|].
  rewrite <- (app_nil_r mText) in Hf2 |- *.
  edestruct (parse_idText useModel "m" 109%N (m_dbKey model) [] f2) as (f3 & _ & ->);
    [reflexivity|tauto|exact Hm|done|exact Hf2|].
  unfold sentId. destruct (livery && _), (aircraftIcao && _), (useModel && _); by destruct f3.
Qed.

(** C22: The keys a client sends in the text of its livery are the keys the others read: those asked for and
    valid arrive, and the others are read as missing. *)
Theorem swiftLivery_roundtrip aircraftIcao livery useModel model :
  inS 32 (lv_dbKey (m_livery model)) -> inS 32 (icao_dbKey (m_aircraftIcao model)) -> inS 32 (m_dbKey model) ->
  parseNetworkLiveryString (getSwiftLiveryString aircraftIcao livery useModel model) =
  mkTripleIds (sentId useModel (m_dbKey model)) (sentId livery (lv_dbKey (m_livery model)))
    (sentId aircraftIcao (icao_dbKey (m_aircraftIcao model))).
Proof.
  intros Hl Ha Hm. unfold getSwiftLiveryString. destruct (negb aircraftIcao && _ && _) eqn:Eu.
  { apply andb_true_iff in Eu as [[Ea El]%andb_true_iff Em]. apply negb_true_iff in Ea, El, Em. by subst. }
  set (l := idText livery "l" _ ++ _).
  assert (qt_toLower l = l) as Hlow.
  { apply toLower_low. subst l. repeat (apply Forall_app; split); apply idText_low; repeat constructor; unfold lowChar; simpl; lia. }
  assert (parseIds (length l) l DBTripleIds_default =
    mkTripleIds (sentId useModel (m_dbKey model)) (sentId livery (lv_dbKey (m_livery model)))
      (sentId aircraftIcao (icao_dbKey (m_aircraftIcao model)))) as Hp by (by apply parse_keys).
  destruct l as [|c l]; [exact Hp|]. cbn [isEmpty]. unfold parseNetworkLiveryString.
  assert (isSwiftLiveryString (liveryStringPrefix ++ c :: l) = true) as ->.
  { unfold isSwiftLiveryString, startsWithCI, startsWith. rewrite length_app, map_app. apply andb_true_iff. split.
    - apply Nat.ltb_lt. simpl. lia.
    - apply bool_decide_eq_true_2. by rewrite take_app_length. }
  simpl negb. cbn iota. unfold mid. rewrite drop_app_length, Hlow. exact Hp.
Qed.
End roundtrip.

Definition demoModel : CAircraftModel :=
  (CAircraftModel_default) <| m_dbKey := 1234 |> <| m_livery := mkLivery 56 AirlineIcao.null [] [] RgbColor.default RgbColor.default false |>.
Lemma swiftLivery_roundtrip_witness :
  parseNetworkLiveryString (getSwiftLiveryString true true true demoModel) = mkTripleIds 1234 56 (-1).
Proof.
  apply (swiftLivery_roundtrip true true true demoModel); (split; [vm_compute; discriminate|reflexivity]).
Defined.
