(* ===== verification/AircraftMatcher.v ===== *)
(** * The aircraft matcher (core/aircraftmatcher.cpp, misc/simulation/categorymatcher.cpp,
    aircraftmatchersetup, matchingscript)

    The matcher finds, for a remote aircraft, the model of the user's model set by which
    the simulator shows it.  A model set by hand or an exact text decides at once; otherwise
    the set is reduced step by step, or scored, and one of the candidates is picked.  A
    reduction yields the models and whether it has reduced; [None] is an index out of
    range.  Whether a log is asked for is an argument, because one step depends on it;
    the messages themselves are left out. *)

From stdpp Require Import base list sorting.
From S2P Require Import Prelude QtCore QtReference.
From S2P Require Export AircraftModel.
From S2P Require AirspaceSnapshot.
Import AirspaceSnapshot(StdSortBy, std_sort_by).

Open Scope Z_scope.

(** ** CAircraftMatcherSetup *)

Inductive MatchingAlgorithm := MatchingScoreBased | MatchingStepwiseReducePlusScoreBased | MatchingStepwiseReduce.
#[export] Instance MatchingAlgorithm_eq : EqDecision MatchingAlgorithm.
Proof. solve_decision. Defined.
Inductive PickSimilarStrategy := PickFirst | PickRandom | PickByOrder.
#[export] Instance PickSimilarStrategy_eq : EqDecision PickSimilarStrategy.
Proof. solve_decision. Defined.

(** MatchingModeFlag. *)
Definition bit (n : Z) : Z := Z.shiftl 1 n.
Definition ByModelString := bit 0.
Definition ByIcaoData := bit 1.
Definition ByFamily := bit 2.
Definition ByLivery := bit 3.
Definition ByCombinedType := bit 4.
Definition ByManufacturer := bit 5.
Definition ByMilitary := bit 6.
Definition ByCivilian := bit 7.
Definition ByVtol := bit 8.
Definition ByIcaoOrderAircraftFirst := Z.lor (bit 9) ByIcaoData.
Definition ByIcaoOrderAirlineFirst := Z.lor (bit 10) ByIcaoData.
Definition ByAirlineGroupSameAsAirline := Z.lor (bit 11) ByIcaoData.
Definition ByAirlineGroupIfNoAirline := Z.lor (bit 12) ByIcaoData.
Definition ExcludeNoDbData := bit 13.
Definition ExcludeNoExcluded := bit 14.
Definition ModelSetRemoveFailedModel := bit 15.
Definition ByCategoryGlider := bit 20.
Definition ByCategoryMilitary := bit 21.
Definition ScoreIgnoreZeros := bit 28.
Definition ScorePreferColorLiveries := bit 29.

(** QFlags::testFlag *)
Definition testFlag (mode flag : Z) : bool := (Z.land mode flag =? flag) && (negb (flag =? 0) || (mode =? flag)).

Record CAircraftMatcherSetup := mkMatcherSetup {
  m_algorithm : MatchingAlgorithm; m_mode : Z; m_strategy : PickSimilarStrategy;
  m_msMatchingStageFile : QString; m_msMatchingEnabled : bool }.
#[export] Instance CAircraftMatcherSetup_eq : EqDecision CAircraftMatcherSetup.
Proof. solve_decision. Defined.
Definition useCategoryMatching (setup : CAircraftMatcherSetup) : bool :=
  testFlag (m_mode setup) ByCategoryGlider || testFlag (m_mode setup) ByCategoryMilitary.
Definition doRunMsMatchingStageScript (setup : CAircraftMatcherSetup) : bool :=
  m_msMatchingEnabled setup && negb (isEmpty (m_msMatchingStageFile setup)).

(** What is logged: MatchingLogFlag. *)
Definition MatchingLogNothing : Z := 0.
Definition MatchingLogStepwiseReduce : Z := bit 2.

(** What the matcher reads of a CSimulatedAircraft: the callsign and the current model. *)
Record RemoteAircraft := mkRemoteAircraft { r_callsign : CCallsign; r_model : CAircraftModel }.

(** ** CAircraftCategoryList *)

Section categories.
Context `{QtConv} `{StdSortBy}.
Implicit Types (category : CAircraftCategory) (categories : list CAircraftCategory) (level : list Z).

Definition findCategoriesByName (name : QString) categories : list CAircraftCategory :=
  filter (fun c => AircraftCategory.matchesName name c = true) categories.
Definition sortByLevel categories : list CAircraftCategory :=
  std_sort_by (fun a b => bool_decide (AircraftCategory.compareByLevel a b = Lt)) categories.
(** A CSetBuilder of ints: sorted, without duplicates, and without the zero that [removeOne] takes out. *)
Definition sortedLevels (levelOf : CAircraftCategory -> Z) categories : list Z :=
  filter (fun l => l <> 0) (merge_sort Z.le (remove_dups (map levelOf categories))).
Definition getFirstLevels categories : list Z := sortedLevels m_l1 categories.
Definition getSecondLevels categories : list Z := sortedLevels m_l2 categories.
Definition findByFirstLevel (level : Z) categories : list CAircraftCategory := filter (fun c => m_l1 c = level) categories.
Definition findFirstLevels categories : list CAircraftCategory :=
  filter (fun c => AircraftCategory.isFirstLevel c = true) categories.
Definition findByLevel level (noRootNode : bool) categories : list CAircraftCategory :=
  match level with
  | [] => []
  | _ => filter (fun c => negb (noRootNode && (Z.of_nat (length level) =? AircraftCategory.getDepth c)) &&
                          AircraftCategory.matchesLevel level c = true) categories
  end.
Definition findByFullLevel level categories : CAircraftCategory :=
  match level with
  | [l1; l2; l3] =>
      default AircraftCategory.null (head (filter (fun c => AircraftCategory.isLevel3 l1 l2 l3 c = true) categories))
  | _ => AircraftCategory.null
  end.
Definition findSiblings category categories : list CAircraftCategory :=
  let levels := AircraftCategory.getLevel category in
  let found := if (length levels <? 2)%nat then findFirstLevels categories
               else findByLevel (removelast levels) true categories in
  filter (fun c => c <> category) found.
Definition findInParallelBranch category categories : option (list CAircraftCategory) :=
  if AircraftCategory.isNull category || isEmpty categories then Some []
  else if AircraftCategory.isFirstLevel category then Some []
  else
    let isL2 := AircraftCategory.getDepth category =? 2 in
    match (if isL2 then getFirstLevels categories else getSecondLevels categories) with
    | [] => Some []
    | front :: rest =>
        let back := List.last rest front in
        let level := AircraftCategory.getLevel category in
        let i := if isL2 then 0%nat else 1%nat in
        if (length level <=? i)%nat then None
        else
          Some (foldl (fun result l =>
                         let level := <[i := l]> level in
                         if AircraftCategory.isLevel level category then result
                         else
                           let cat := findByFullLevel level categories in
                           if AircraftCategory.isNull cat then result else result ++ [cat])
                  [] (seqZ front (back - front + 1)))
    end.

(** ** CCategoryMatcher *)

Record CCategoryMatcher := mkCategoryMatcher {
  m_all : list CAircraftCategory; m_gliders : list CAircraftCategory;
  m_militaryWingAircraft : list CAircraftCategory; m_militaryRotorAircraft : list CAircraftCategory }.
Definition CCategoryMatcher_init : CCategoryMatcher := mkCategoryMatcher [] [] [] [].

(** The categories of the branch whose root has the name; the list is kept when there is no root. *)
Definition branchNamed (name : QString) categories (kept : list CAircraftCategory) : list CAircraftCategory :=
  match findFirstLevels (findCategoriesByName name categories) with
  | [] => kept
  | root :: _ => sortByLevel (findByFirstLevel (m_l1 root) categories)
  end.
Definition setCategories categories (cm : CCategoryMatcher) : CCategoryMatcher :=
  mkCategoryMatcher (sortByLevel categories)
    (branchNamed (lit "glider") categories (m_gliders cm))
    (branchNamed (lit "wing military") categories (m_militaryWingAircraft cm))
    (branchNamed (lit "rotor military") categories (m_militaryRotorAircraft cm)).
End categories.

Section matcher.
Context `{QtConv} `{QtChars} `{StdSortBy}.
Implicit Types (remoteAircraft : RemoteAircraft) (inList modelSet models : list CAircraftModel)
  (setup : CAircraftMatcherSetup) (cm : CCategoryMatcher) (reduced : bool).

Definition getAircraftIcao remoteAircraft : CAircraftIcaoCode := m_aircraftIcao (r_model remoteAircraft).
Definition getAirlineIcao remoteAircraft : CAirlineIcaoCode := getAirlineIcaoCode (r_model remoteAircraft).

Definition gliderFirstLevel cm : Z := match m_gliders cm with [] => -1 | c :: _ => m_l1 c end.
Definition isGlider (icao : CAircraftIcaoCode) cm : bool :=
  if eqs (icao_designator icao) "GLID" then true
  else
    let glider1st := gliderFirstLevel cm in
    if (0 <=? glider1st) && AircraftIcao.hasCategory icao then m_l1 (icao_category icao) =? glider1st else false.

(** Gliders of the whole set, when there are any. *)
Definition reduceToGliders (gliders : list CAircraftModel) modelSet remoteAircraft cm : option (list CAircraftModel) :=
  let category := icao_category (getAircraftIcao remoteAircraft) in
  match findByCategory category gliders with
  | (_ :: _) as sameGliders => Some sameGliders
  | [] =>
      otherBranches ← findInParallelBranch category (m_gliders cm);
      match findByCategories otherBranches gliders with
      | (_ :: _) as otherBranchGliders => Some otherBranchGliders
      | [] =>
          match findByCategories (findSiblings category (m_gliders cm)) modelSet with
          | (_ :: _) as siblingGliders => Some siblingGliders
          | [] => Some gliders
          end
      end
  end.
Definition substituteIcaos : QStringList := [lit "UHEL"; lit "GLID"; lit "ULAC"].
Definition reduceByCategories (alreadyMatchedModels modelSet : list CAircraftModel) setup remoteAircraft cm
  : option (list CAircraftModel * bool) :=
  if negb (useCategoryMatching setup) then Some (alreadyMatchedModels, false)
  else if isEmpty (m_all cm) then Some (alreadyMatchedModels, false)
  else if negb (AircraftIcao.hasCategory (getAircraftIcao remoteAircraft)) then Some (alreadyMatchedModels, false)
  else if negb (isEmpty (m_gliders cm)) && testFlag (m_mode setup) ByCategoryGlider && isGlider (getAircraftIcao remoteAircraft) cm
  then
    match findByCategoryFirstLevel (gliderFirstLevel cm) modelSet with
    | (_ :: _) as gliders => models ← reduceToGliders gliders modelSet remoteAircraft cm; Some (models, true)
    | [] =>
        match findByDesignatorsOrFamilyWithColorLivery substituteIcaos alreadyMatchedModels with
        | (_ :: _) as substitutes => Some (substitutes, true)
        | [] =>
            match findByCombinedType (lit "L1P") alreadyMatchedModels with
            | (_ :: _) as substitutes => Some (substitutes, true)
            | [] => Some (alreadyMatchedModels, false)
            end
        end
    end
  else Some (alreadyMatchedModels, false).

(** ** The reductions of CAircraftMatcher *)

(** What most reductions do: the models found, or the list as it was. *)
Definition found inList (outList : list CAircraftModel) : list CAircraftModel * bool :=
  if isEmpty outList then (inList, false) else (outList, true).

Definition ifPossibleReduceByLiveryAndAircraftIcaoCode remoteAircraft inList : list CAircraftModel * bool :=
  let livery := m_livery (r_model remoteAircraft) in
  if negb (Livery.hasCombinedCode livery) then (inList, false)
  else found inList (findByAircraftDesignatorAndLiveryCombinedCode (lv_combinedCode livery)
                       (icao_designator (getAircraftIcao remoteAircraft)) inList).

Definition ifPossibleReduceByFamilyOf remoteAircraft (family : QString) (allowPseudoFamily : bool) inList
  : list CAircraftModel * bool :=
  if isEmpty family && negb allowPseudoFamily then (inList, false)
  else if isEmpty inList then (inList, false)
  else
    let foundByFamily := findByFamily family inList in
    if isEmpty foundByFamily && negb allowPseudoFamily then (inList, false)
    else
      let foundByCM := if allowPseudoFamily then findByCombinedAndManufacturer (getAircraftIcao remoteAircraft) inList
                       else [] in
      if isEmpty foundByCM && isEmpty foundByFamily then (inList, false)
      else
        let foundByCM := if negb (isEmpty foundByFamily)
                         then removeModelsWithString (getModelStringList foundByFamily) foundByCM else foundByCM in
        (foundByFamily ++ foundByCM, true).
Definition ifPossibleReduceByFamily remoteAircraft (allowPseudoFamily : bool) inList : list CAircraftModel * bool :=
  let family := icao_family (getAircraftIcao remoteAircraft) in
  let asFamily := icao_designator (getAircraftIcao remoteAircraft) in
  if negb (isEmpty family) then
    let '(matchedModels, reduced) := ifPossibleReduceByFamilyOf remoteAircraft family allowPseudoFamily inList in
    if reduced then (matchedModels, true) else ifPossibleReduceByFamilyOf remoteAircraft asFamily allowPseudoFamily inList
  else ifPossibleReduceByFamilyOf remoteAircraft asFamily allowPseudoFamily inList.

Definition ifPossibleReduceByManufacturer remoteAircraft inList : list CAircraftModel * bool :=
  if isEmpty inList then (inList, false)
  else
    let m := icao_manufacturer (getAircraftIcao remoteAircraft) in
    if isEmpty m then (inList, false) else found inList (findByManufacturer m inList).

Definition ifPossibleReduceByAircraft remoteAircraft inList : list CAircraftModel * bool :=
  if isEmpty inList then (inList, false)
  else if negb (AircraftIcao.hasDesignator (getAircraftIcao remoteAircraft)) then (inList, false)
  else found inList (findByIcaoDesignators (getAircraftIcao remoteAircraft) AirlineIcao.null inList).

Definition UsePseudoFamily : bool := true.
Definition ifPossibleReduceByAircraftOrFamily remoteAircraft (allowPseudoFamily : bool) inList setup
  : list CAircraftModel * bool :=
  let '(outList, reduced) := ifPossibleReduceByAircraft remoteAircraft inList in
  if reduced || negb (testFlag (m_mode setup) ByFamily) then (outList, reduced)
  else ifPossibleReduceByFamily remoteAircraft allowPseudoFamily inList.

Definition ifPossibleReduceByAirline remoteAircraft inList setup : list CAircraftModel * bool :=
  let airline := getAirlineIcao remoteAircraft in
  if isEmpty inList then (inList, false)
  else if negb (AirlineIcao.hasValidDesignator airline) then (inList, false)
  else
    let mode := m_mode setup in
    let outList := findByIcaoDesignators AircraftIcao.null airline inList in
    let outList :=
      if (testFlag mode ByAirlineGroupSameAsAirline || (isEmpty outList || testFlag mode ByAirlineGroupIfNoAirline)) &&
         AirlineIcao.hasGroupMembership airline
      then replaceOrAddModelsWithString (findByAirlineGroup airline inList) outList
      else outList in
    found inList outList.

Definition ifPossibleReduceByIcaoData remoteAircraft inList setup reduced : list CAircraftModel * bool :=
  let mode := m_mode setup in
  if isEmpty inList then (inList, reduced)
  else if testFlag mode ByIcaoOrderAirlineFirst then
    let '(models, r1) := ifPossibleReduceByAirline remoteAircraft inList setup in
    let '(models, r2) := ifPossibleReduceByAircraftOrFamily remoteAircraft UsePseudoFamily models setup in
    if r1 || r2 then (models, true) else (inList, false)
  else if testFlag mode ByIcaoData then
    let '(models, r1) := ifPossibleReduceByAircraftOrFamily remoteAircraft UsePseudoFamily inList setup in
    let '(models, r2) := ifPossibleReduceByAirline remoteAircraft models setup in
    let '(models2nd, r3) :=
      if AirlineIcao.hasValidDesignator (getAirlineIcao remoteAircraft) && (negb r2 && testFlag mode ByFamily)
      then ifPossibleReduceByAirline remoteAircraft
             (ifPossibleReduceByFamily remoteAircraft UsePseudoFamily inList).1 setup
      else ([], false) in
    if r3 then (models2nd, false)
    else if r1 || r2 then (models, true) else (inList, false)
  else (inList, false).

Definition ifPossibleReduceByCombinedType remoteAircraft inList setup : list CAircraftModel * bool :=
  let icao := getAircraftIcao remoteAircraft in
  if negb (AircraftIcao.hasValidCombinedType icao) then (inList, false)
  else
    match findByCombinedType (icao_combinedType icao) inList with
    | [] => (inList, false)
    | [model] => ([model], false)
    | modelsByCombinedCode =>
        let '(models, _) := ifPossibleReduceByAirline remoteAircraft modelsByCombinedCode setup in
        ((ifPossibleReduceByManufacturer remoteAircraft models).1, true)
    end.

Definition ifPossibleReduceByMilitaryFlag remoteAircraft inList : list CAircraftModel * bool :=
  let byMilitaryFlag := findByMilitaryFlag (isMilitary (r_model remoteAircraft)) inList in
  if isEmpty byMilitaryFlag then (inList, false) else (byMilitaryFlag, false).

(** ** The two algorithms *)

(** What follows the reduction by ICAO data: categories, VTOL, military flag, combined type. *)
Definition reduceByKind modelSet setup cm remoteAircraft models reduced : option (list CAircraftModel) :=
  let mode := m_mode setup in
  let military := isMilitary (r_model remoteAircraft) in
  '(models, reduced) ← (if useCategoryMatching setup then reduceByCategories models modelSet setup remoteAircraft cm
                        else Some (models, reduced));
  let models := if negb reduced && isVtol (r_model remoteAircraft) && containsVtol models && testFlag mode ByVtol
                then findByVtolFlag true models else models in
  let models := if (testFlag mode ByMilitary && military) || (testFlag mode ByCivilian && negb military)
                then (ifPossibleReduceByMilitaryFlag remoteAircraft models).1 else models in
  Some (if testFlag mode ByCombinedType then (ifPossibleReduceByCombinedType remoteAircraft models setup).1 else models).

(** [reduceLog]: whether the steps are logged. *)
Definition getClosestMatchStepwiseReduceImplementation modelSet setup cm remoteAircraft (reduceLog : bool)
  : option (list CAircraftModel) :=
  let mode := m_mode setup in
  matchedModels ←
    (let '(models, reduced) :=
       if testFlag mode ByLivery then ifPossibleReduceByLiveryAndAircraftIcaoCode remoteAircraft modelSet
       else (modelSet, false) in
     if reduced then Some models
     else if testFlag mode ByIcaoData then
       let '(models, reduced) := ifPossibleReduceByIcaoData remoteAircraft models setup reduced in
       reduceByKind modelSet setup cm remoteAircraft models reduced
     else if reduceLog && testFlag mode ByFamily then
       let '(models, reduced) := ifPossibleReduceByFamily remoteAircraft UsePseudoFamily models in
       if reduced then Some models else reduceByKind modelSet setup cm remoteAircraft models reduced
     else reduceByKind modelSet setup cm remoteAircraft models reduced);
  Some (if (1 <? length matchedModels)%nat && testFlag mode ByManufacturer
        then (ifPossibleReduceByManufacturer remoteAircraft matchedModels).1 else matchedModels).

Definition getClosestMatchScoreImplementation modelSet setup remoteAircraft : list CAircraftModel :=
  let map := scoreFull (r_model remoteAircraft) (testFlag (m_mode setup) ScorePreferColorLiveries)
               (testFlag (m_mode setup) ScoreIgnoreZeros) modelSet in
  match lastKey map with
  | None => []
  | Some maxScore => valuesOf maxScore map
  end.

Definition getCombinedTypeDefaultModel modelSet remoteAircraft (defaultModel : CAircraftModel) : CAircraftModel :=
  let combinedType := icao_combinedType (getAircraftIcao remoteAircraft) in
  if isEmpty combinedType then defaultModel
  else if isEmpty modelSet then defaultModel
  else
    let matchedModels := findByCombinedTypeWithColorLivery combinedType modelSet in
    let matchedModels := if isEmpty matchedModels then findByCombinedType combinedType matchedModels else matchedModels in
    match matchedModels with [] => defaultModel | front :: _ => front end.

Definition matchByExactModelString remoteAircraft models : CAircraftModel :=
  let modelString := m_modelString (r_model remoteAircraft) in
  if isEmpty modelString then CAircraftModel_default
  else setCallsign (r_callsign remoteAircraft)
         (setModelType TypeModelMatching (findFirstByModelStringAliasOrDefault modelString models)).
End matcher.

(** ** Picking at random (misc/algorithm.h) *)

(** std::uniform_int_distribution on 0 .. bound, at a numbered draw. *)
Class UniformInt := { uniform_int : nat -> Z -> Z }.
Class UniformIntLaws `{UniformInt} := { uniform_int_range i bound : 0 <= bound -> 0 <= uniform_int i bound <= bound }.
#[export] Instance refUniform : UniformInt := {| uniform_int := fun _ bound => bound |}.
#[export] Instance refUniformLaws : UniformIntLaws.
Proof. split. simpl. lia. Qed.

Fixpoint copyRandomElements `{UniformInt} {A} (draw : nat) (l : list A) (n : Z) : list A :=
  match l with
  | [] => []
  | x :: rest =>
      if n <=? 0 then []
      else if uniform_int draw (Z.of_nat (length l) - 1) <? n then x :: copyRandomElements (S draw) rest (n - 1)
      else copyRandomElements (S draw) rest n
  end.
(** [front] of an empty container does not occur: the candidates are not empty. *)
Definition randomElement `{UniformInt} (models : list CAircraftModel) : CAircraftModel :=
  default CAircraftModel_default (head (copyRandomElements 0 models 1)).

(** ** The matching script *)

(** The properties of the object a script hands back that are read (MSInOutValues). *)
Record MSInOutValues := mkInOutValues {
  ms_aircraftIcao : QString; ms_airlineIcao : QString; ms_vAirlineIcao : QString; ms_modelString : QString;
  ms_dbAircraftIcaoId : Z; ms_dbAirlineIcaoId : Z; ms_dbLiveryId : Z; ms_dbModelId : Z;
  ms_modified : bool; ms_rerun : bool }.
(** An error; one of the objects of values it was handed; one of the other objects, the set or the
    web services; or no object. *)
Inductive ScriptResult := ScriptError | ScriptObject (values : MSInOutValues) | ScriptOtherObject | ScriptOther.

(** The JavaScript engine, which is handed the model of the network, the model matched so far, and the set. *)
Class ScriptEngine := {
  readFileToString : QString -> QString;
  evaluate : QString -> CAircraftModel -> CAircraftModel -> list CAircraftModel -> ScriptResult
}.
(** What the database of the web data services is asked. *)
Class AircraftDatabase := {
  getModelForDbKey : Z -> CAircraftModel;
  getModelForModelString : QString -> CAircraftModel;
  getAircraftIcaoCodeForDbKey : Z -> CAircraftIcaoCode;
  getAirlineIcaoCodeForDbKey : Z -> CAirlineIcaoCode;
  getAirlineIcaoCodeForUniqueDesignatorOrDefault : QString -> CAirlineIcaoCode;
  getLiveryForDbKey : Z -> CLivery;
  getStdLiveryForAirlineCode : CAirlineIcaoCode -> CLivery
}.

Record MatchingScriptReturnValues := mkReturnValues {
  rv_model : CAircraftModel; rv_modified : bool; rv_rerun : bool; rv_runScript : bool }.
Definition runScriptAndModified (rv : MatchingScriptReturnValues) : bool := rv_modified rv && rv_runScript rv.
Definition runScriptModifiedAndRerun (rv : MatchingScriptReturnValues) : bool :=
  rv_modified rv && rv_rerun rv && rv_runScript rv.

Section script.
Context `{QtConv} `{QtChars} `{ScriptEngine} `{AircraftDatabase}.
Implicit Types (values : MSInOutValues) (inModel matchedModel : CAircraftModel) (modelSet : list CAircraftModel).

Definition hasChangedAircraftIcao (icao : CAircraftIcaoCode) values : bool :=
  if hasValidDbKey (icao_dbKey icao) && negb (icao_dbKey icao =? ms_dbAircraftIcaoId values) then true
  else if AircraftIcao.hasDesignator icao && negb (bool_decide (icao_designator icao = ms_aircraftIcao values)) then true
  else true.
Definition hasChangedId (dbKey id : Z) : bool := if hasValidDbKey dbKey && (0 <=? id) then negb (id =? dbKey) else false.
Definition hasChangedAirlineIcao (airline : CAirlineIcaoCode) values : bool :=
  if hasValidDbKey (al_dbKey airline) && negb (al_dbKey airline =? ms_dbAirlineIcaoId values) then true
  else if AirlineIcao.hasValidDesignator airline && negb (bool_decide (al_designator airline = ms_airlineIcao values)) then true
  else if AirlineIcao.hasValidDesignator airline &&
          negb (bool_decide (AirlineIcao.getVDesignator airline = ms_vAirlineIcao values)) then true
  else false.
Definition hasChangedModelString (modelString : QString) values : bool :=
  negb (caseInsensitiveStringCompare (ms_modelString values) modelString).

Definition reverseLookupModelStringInSet (modelString : QString) (callsign : CCallsign) modelSet (useNonDbEntries : bool)
  : CAircraftModel :=
  if isEmpty modelString then CAircraftModel_default
  else if isEmpty modelSet then CAircraftModel_default
  else
    let model := findFirstByModelStringOrDefault modelString modelSet in
    if negb (hasModelString model) then CAircraftModel_default
    else
      let isDBModel := hasValidDbKey (m_dbKey model) in
      if negb isDBModel && negb useNonDbEntries then CAircraftModel_default
      else setModelType (if isDBModel then TypeReverseLookup else TypeOwnSimulatorModel) (setCallsign callsign model).

(** The codes and the livery the script has changed, when it has not changed the model as a whole. *)
Definition scriptedCodes values matchedModel (model : CAircraftModel) : CAircraftModel :=
  let matchedIcao := m_aircraftIcao matchedModel in
  let model :=
    if hasChangedAircraftIcao matchedIcao values then
      setAircraftIcaoCode
        (if hasChangedId (icao_dbKey matchedIcao) (ms_dbAircraftIcaoId values)
         then getAircraftIcaoCodeForDbKey (ms_dbAircraftIcaoId values)
         else mkAircraftIcaoCode (-1) (qt_toUpper (trimmed (ms_aircraftIcao values))) [] [] [] false 10 AircraftCategory.null)
        model
    else model in
  let airline := getAirlineIcaoCode matchedModel in
  if hasChangedId (lv_dbKey (m_livery matchedModel)) (ms_dbLiveryId values)
  then setLivery (getLiveryForDbKey (ms_dbLiveryId values)) model
  else if hasChangedAirlineIcao airline values
  then setLivery (getStdLiveryForAirlineCode
                    (if hasChangedId (al_dbKey airline) (ms_dbAirlineIcaoId values)
                     then getAirlineIcaoCodeForDbKey (ms_dbAirlineIcaoId values)
                     else getAirlineIcaoCodeForUniqueDesignatorOrDefault (ms_airlineIcao values))) model
  else model.

(** The model the script names by its key, or by its text, in the database or in the set. *)
Definition scriptedModel values inModel modelSet : option CAircraftModel :=
  let byKey := if hasChangedId (m_dbKey inModel) (ms_dbModelId values) then
                 let model := getModelForDbKey (ms_dbModelId values) in
                 if hasValidDbKey (m_dbKey model) then Some model else None
               else None in
  match byKey with
  | Some model => Some model
  | None =>
      if hasChangedModelString (m_modelString inModel) values then
        let model := getModelForModelString (ms_modelString values) in
        if hasValidDbKey (m_dbKey model) then Some model
        else
          let modelSetModel := reverseLookupModelStringInSet (ms_modelString values) (m_modelCallsign inModel) modelSet true in
          if hasModelString modelSetModel then Some modelSetModel else None
      else None
  end.

(** [None] when the object returned is not one of values: the null pointer the cast yields is
    dereferenced. *)
Definition matchingScript (js : QString) inModel matchedModel modelSet : option MatchingScriptReturnValues :=
  if isEmpty js then Some (mkReturnValues inModel false false false)
  else
    match evaluate js inModel matchedModel modelSet with
    | ScriptOtherObject => None
    | ScriptObject values => Some
        (if negb (ms_modified values) then mkReturnValues inModel false false true
         else
           match scriptedModel values inModel modelSet with
           | Some model => mkReturnValues model true (ms_rerun values) true
           | None => mkReturnValues (scriptedCodes values matchedModel inModel) true (ms_rerun values) true
           end)
    | _ => Some (mkReturnValues inModel false false true)
    end.
Definition matchingStageScript inModel matchedModel (setup : CAircraftMatcherSetup) modelSet :
    option MatchingScriptReturnValues :=
  if negb (doRunMsMatchingStageScript setup) then Some (mkReturnValues inModel false false false)
  else matchingScript (readFileToString (m_msMatchingStageFile setup)) inModel matchedModel modelSet.
End script.

(** ** CAircraftMatcher *)

Record CAircraftMatcher := mkAircraftMatcher {
  m_setup : CAircraftMatcherSetup; m_defaultModel : CAircraftModel; m_modelSet : list CAircraftModel;
  m_disabledModels : list CAircraftModel; m_simulator : Z; m_categoryMatcher : CCategoryMatcher }.

(** CSimulatorInfo::numberSimulators: the bits of the seven simulators. *)
Definition numberSimulators (simulator : Z) : nat := length (filter (fun n => testFlag simulator (bit n) = true) (seqZ 0 7)).
Definition isSingleSimulator (simulator : Z) : bool := (numberSimulators simulator =? 1)%nat.

Section matching.
Context `{QtConv} `{QtChars} `{StdSortBy} `{UniformInt} `{ScriptEngine} `{AircraftDatabase}.
Implicit Types (s : CAircraftMatcher) (remoteAircraft : RemoteAircraft) (models modelSet candidates : list CAircraftModel)
  (matchedModel : CAircraftModel).

Definition excludeModels (setup : CAircraftMatcherSetup) modelSet : list CAircraftModel :=
  let modelSet := removeAllWithoutModelString modelSet in
  let modelSet := if testFlag (m_mode setup) ExcludeNoDbData then removeObjectsWithoutDbKey modelSet else modelSet in
  if testFlag (m_mode setup) ExcludeNoExcluded then removeIfExcluded modelSet else modelSet.

Definition pickModel (strategy : PickSimilarStrategy) candidates : CAircraftModel :=
  let front := default CAircraftModel_default (head candidates) in
  match strategy with
  | PickRandom => randomElement candidates
  | PickByOrder => if negb (needsOrder candidates) then minOrderOrDefault candidates else front
  | PickFirst => front
  end.

Definition findCandidates s modelSet remoteAircraft (reduceLog : bool) : option (list CAircraftModel) :=
  let setup := m_setup s in
  match m_algorithm setup with
  | MatchingStepwiseReduce =>
      getClosestMatchStepwiseReduceImplementation modelSet setup (m_categoryMatcher s) remoteAircraft reduceLog
  | MatchingScoreBased => Some (getClosestMatchScoreImplementation modelSet setup remoteAircraft)
  | MatchingStepwiseReducePlusScoreBased =>
      candidates ← getClosestMatchStepwiseReduceImplementation modelSet setup (m_categoryMatcher s) remoteAircraft reduceLog;
      Some (getClosestMatchScoreImplementation candidates setup remoteAircraft)
  end.

(** The models decided at once: set by hand, no set, and the exact text. *)
Definition prephase s remoteAircraft : option CAircraftModel :=
  let model := r_model remoteAircraft in
  if hasManuallySetString model then Some model
  else if isEmpty (m_modelSet s) then Some (m_defaultModel s)
  else if hasModelString model && testFlag (m_mode (m_setup s)) ByModelString then
    let matchedModel := matchByExactModelString remoteAircraft (m_modelSet s) in
    if hasModelString matchedModel then Some matchedModel else None
  else None.

(** The model matched, and the set as it was left by the exclusions. *)
Definition matchInSet s remoteAircraft (reduceLog : bool) : option (CAircraftModel * list CAircraftModel) :=
  match prephase s remoteAircraft with
  | Some model => Some (model, m_modelSet s)
  | None =>
      let modelSet := excludeModels (m_setup s) (m_modelSet s) in
      candidates ← findCandidates s modelSet remoteAircraft reduceLog;
      Some (if isEmpty candidates then getCombinedTypeDefaultModel modelSet remoteAircraft (m_defaultModel s)
            else pickModel (m_strategy (m_setup s)) candidates, modelSet)
  end.

Definition asMatched remoteAircraft matchedModel : CAircraftModel :=
  setModelType TypeModelMatching (setCallsign (r_callsign remoteAircraft) matchedModel).
Definition orDefault s remoteAircraft matchedModel : CAircraftModel :=
  let matchedModel := asMatched remoteAircraft matchedModel in
  if hasModelString matchedModel then matchedModel
  else if hasModelString (m_defaultModel s) then setCallsign (r_callsign remoteAircraft) (m_defaultModel s)
  else matchedModel.

(** CSimulatedAircraft::setModel, as far as it is read. *)
Definition setModel (model : CAircraftModel) remoteAircraft : RemoteAircraft :=
  let callsign := if isValidAircraftCallsign (m_callsign (r_callsign remoteAircraft)) then r_callsign remoteAircraft
                  else m_modelCallsign model in
  mkRemoteAircraft callsign (setCallsign callsign model).

Definition getClosestMatchWithoutScript s remoteAircraft (reduceLog : bool) : option CAircraftModel :=
  '(matchedModel, _) ← matchInSet s remoteAircraft reduceLog; Some (orDefault s remoteAircraft matchedModel).

(** [log]: whether there is a list for messages. *)
Definition getClosestMatch s remoteAircraft (whatToLog : Z) (log useMatchingScript : bool) : option CAircraftModel :=
  let log := log && negb (whatToLog =? MatchingLogNothing) in
  let reduceLog := log && testFlag whatToLog MatchingLogStepwiseReduce in
  '(matchedModel, modelSet) ← matchInSet s remoteAircraft reduceLog;
  let matchedModel := asMatched remoteAircraft matchedModel in
  matchedModel ←
    (if useMatchingScript && doRunMsMatchingStageScript (m_setup s) then
       rv ← matchingStageScript (r_model remoteAircraft) matchedModel (m_setup s) modelSet;
       let matchedModelMs := if runScriptAndModified rv then rv_model rv else matchedModel in
       if runScriptModifiedAndRerun rv then
         matchedModelMs ← getClosestMatchWithoutScript s (setModel matchedModelMs remoteAircraft) reduceLog;
         let matchedModelMs := setCallsign (r_callsign remoteAircraft) matchedModelMs in
         Some (if hasModelString matchedModelMs then matchedModelMs else matchedModel)
       else Some matchedModel
     else Some matchedModel);
  Some (orDefault s remoteAircraft matchedModel).

(** *** The model set *)

Definition setSetup (setup : CAircraftMatcherSetup) s : bool * CAircraftMatcher :=
  if bool_decide (m_setup s = setup) then (false, s) else (true, (s) <| m_setup := setup |>).
Definition setDefaultModel (defaultModel : CAircraftModel) s : CAircraftMatcher :=
  (s) <| m_defaultModel := setModelType TypeModelMatchingDefaultModel defaultModel |>.

Definition setModelSet models (simulator : Z) (forced : bool) s : nat * CAircraftMatcher :=
  if negb (isSingleSimulator simulator) then (0%nat, s)
  else
    let modelsCleaned := removeIfExcluded (removeAllWithoutModelString models) in
    if negb forced && (m_simulator s =? simulator) && bool_decide (length (m_modelSet s) = length modelsCleaned)
    then (length (m_modelSet s), s)
    else (length models, (s) <| m_modelSet := modelsCleaned |> <| m_simulator := simulator |>).

Definition removeModels (removed models : list CAircraftModel) : list CAircraftModel :=
  if isEmpty removed then models else removeModelsWithString (getModelStringList removed) models.
Definition restoreDisabledModels s : CAircraftMatcher :=
  (s) <| m_modelSet ::= replaceOrAddModelsWithString (m_disabledModels s) |>.
Definition disableModelsForMatching (removedModels : list CAircraftModel) (incremental : bool) s : CAircraftMatcher :=
  if incremental
  then (s) <| m_modelSet ::= removeModels removedModels |> <| m_disabledModels ::= fun l => l ++ removedModels |>
  else
    let s := restoreDisabledModels s in
    (s) <| m_disabledModels := removedModels |> <| m_modelSet ::= removeModels removedModels |>.
Definition addingRemoteModelFailed remoteAircraft s : CAircraftMatcher :=
  if negb (testFlag (m_mode (m_setup s)) ModelSetRemoveFailedModel) then s
  else if negb (isEmpty (m_callsign (r_callsign remoteAircraft))) && hasModelString (r_model remoteAircraft)
  then disableModelsForMatching [r_model remoteAircraft] true s
  else s.
End matching.
