(* ===== verification/MatcherResult.v ===== *)
(** * What the matcher finds

    A reduction leaves some of the models it is given, and at least one when there was one; category levels with a gap are excluded, as is a
    script that returns another object, whose null pointer the code would follow.
    The model found is one of the set, unless it was set by hand or there is none to be
    found; the score picks the best of the candidates. *)

From stdpp Require Import base list sorting.
From S2P Require Import Prelude QtCore QtReference.
From S2P Require Import AircraftMatcher.
From S2P Require AirspaceSnapshot.
Import AirspaceSnapshot(StdSortBy, std_sort_by).

Open Scope Z_scope.

(** ** Filters leave some of the models *)

Section filters.
Context `{QtConv} `{QtChars}.
Implicit Types (l models : list CAircraftModel).

Lemma findBy_subset p l : findBy p l ⊆ l.
Proof. apply list_subseteq_filter. Qed.
Lemma elem_findBy p l m : m ∈ findBy p l <-> p m = true /\ m ∈ l.
Proof. unfold findBy. by rewrite list_elem_of_filter. Qed.

Create HintDb matching discriminated.
#[local] Hint Resolve findBy_subset list_subseteq_nil : matching.
#[local] Hint Extern 5 (_ ⊆ _) => reflexivity : matching.
Ltac subset_tac := repeat (case_match || case_decide); simpl in *; eauto with matching.

Lemma findByIcaoDesignators_subset icao al l : findByIcaoDesignators icao al l ⊆ l.
Proof. unfold findByIcaoDesignators. subset_tac. Qed.
Lemma findByLivery_subset d c l : findByAircraftDesignatorAndLiveryCombinedCode d c l ⊆ l.
Proof. unfold findByAircraftDesignatorAndLiveryCombinedCode. subset_tac. Qed.
Lemma findByAirlineGroup_subset al l : findByAirlineGroup al l ⊆ l.
Proof. unfold findByAirlineGroup. subset_tac. Qed.
Lemma findByManufacturer_subset m l : findByManufacturer m l ⊆ l.
Proof. unfold findByManufacturer. subset_tac. Qed.
Lemma findByFamily_subset f l : findByFamily f l ⊆ l.
Proof. unfold findByFamily. subset_tac. Qed.
Lemma findByCombinedType_subset c l : findByCombinedType c l ⊆ l.
Proof. unfold findByCombinedType. subset_tac. Qed.
Lemma findByCategory_subset c l : findByCategory c l ⊆ l.
Proof. unfold findByCategory. subset_tac. Qed.
Lemma findByCategories_subset c l : findByCategories c l ⊆ l.
Proof. unfold findByCategories. subset_tac. Qed.
Lemma findByCategoryFirstLevel_subset n l : findByCategoryFirstLevel n l ⊆ l.
Proof. unfold findByCategoryFirstLevel. subset_tac. Qed.
Lemma removeModelsWithString_subset s l : removeModelsWithString s l ⊆ l.
Proof. unfold removeModelsWithString, findByNotInModelStrings. subset_tac. Qed.
#[local] Hint Resolve findByManufacturer_subset findByCombinedType_subset removeModelsWithString_subset : matching.
Lemma findByCombinedAndManufacturer_subset icao l : findByCombinedAndManufacturer icao l ⊆ l.
Proof. unfold findByCombinedAndManufacturer. subset_tac. Qed.
Lemma findByCombinedTypeWithColorLivery_subset c l : findByCombinedTypeWithColorLivery c l ⊆ l.
Proof. unfold findByCombinedTypeWithColorLivery, findColorLiveries. etransitivity; [apply findBy_subset|auto with matching]. Qed.

Lemma subseteq_app l1 l2 l : l1 ⊆ l -> l2 ⊆ l -> l1 ++ l2 ⊆ l.
Proof. intros H1 H2 m [?|?]%elem_of_app; auto. Qed.
Lemma replaceOrAdd_subset l1 l2 l : l1 ⊆ l -> l2 ⊆ l -> replaceOrAddModelsWithString l1 l2 ⊆ l.
Proof.
  intros H1 H2. unfold replaceOrAddModelsWithString. repeat case_match; auto.
  apply subseteq_app; [etransitivity; [apply removeModelsWithString_subset|done]|done].
Qed.
Lemma excludeModels_subset setup l : excludeModels setup l ⊆ l.
Proof.
  unfold excludeModels, removeIfExcluded, removeObjectsWithoutDbKey, removeAllWithoutModelString.
  repeat case_match; repeat (etransitivity; [apply findBy_subset|]); done.
Qed.
Lemma excludeModels_string setup l m : m ∈ excludeModels setup l -> hasModelString m = true.
Proof.
  intros Hm. cut (m ∈ removeAllWithoutModelString l); [by intros [? _]%elem_findBy|]. revert Hm.
  unfold excludeModels, removeIfExcluded, removeObjectsWithoutDbKey.
  repeat case_match; rewrite ?elem_findBy; tauto.
Qed.

(** ** Reductions *)

Record reduction (inList outList : list CAircraftModel) : Prop := {
  reduction_subset : outList ⊆ inList;
  reduction_nonempty : inList <> [] -> outList <> [] }.

Lemma reduction_refl l : reduction l l.
Proof. by split. Qed.
Lemma reduction_trans l1 l2 l3 : reduction l1 l2 -> reduction l2 l3 -> reduction l1 l3.
Proof. intros [H1 H2] [H3 H4]. split; [by etransitivity|auto]. Qed.
Lemma reduction_found inList outList : outList ⊆ inList -> outList <> [] -> reduction inList outList.
Proof. by split. Qed.
Lemma isEmpty_nil {A} (l : list A) : isEmpty l = false -> l <> [].
Proof. by destruct l. Qed.
#[local] Hint Resolve reduction_refl reduction_found isEmpty_nil : matching.

Lemma found_reduction inList outList : outList ⊆ inList -> reduction inList (found inList outList).1.
Proof. unfold found. intros Hs. case_match; simpl; eauto with matching. Qed.
#[local] Hint Resolve found_reduction findByIcaoDesignators_subset findByLivery_subset findByAirlineGroup_subset
  findByFamily_subset findByCombinedAndManufacturer_subset replaceOrAdd_subset subseteq_app : matching.
Ltac reduce_tac := repeat case_match; simpl in *; simplify_eq; eauto with matching.

Lemma livery_reduction remote l : reduction l (ifPossibleReduceByLiveryAndAircraftIcaoCode remote l).1.
Proof. unfold ifPossibleReduceByLiveryAndAircraftIcaoCode. reduce_tac. Qed.
Lemma manufacturer_reduction remote l : reduction l (ifPossibleReduceByManufacturer remote l).1.
Proof. unfold ifPossibleReduceByManufacturer. reduce_tac. Qed.
Lemma aircraft_reduction remote l : reduction l (ifPossibleReduceByAircraft remote l).1.
Proof. unfold ifPossibleReduceByAircraft. reduce_tac. Qed.
Lemma military_reduction remote l : reduction l (ifPossibleReduceByMilitaryFlag remote l).1.
Proof. unfold ifPossibleReduceByMilitaryFlag, findByMilitaryFlag. reduce_tac. Qed.
Lemma airline_reduction remote l setup : reduction l (ifPossibleReduceByAirline remote l setup).1.
Proof. unfold ifPossibleReduceByAirline. case_match; [done|]. case_match; [done|]. apply found_reduction. case_match; auto with matching. Qed.

Lemma familyOf_reduction remote f pseudo l : reduction l (ifPossibleReduceByFamilyOf remote f pseudo l).1.
Proof.
  unfold ifPossibleReduceByFamilyOf. do 3 (case_match; [done|]). cbv zeta.
  destruct (isEmpty _ && isEmpty (findByFamily f l)) eqn:E; [done|]. simpl. apply andb_false_iff in E.
  assert (Hcm : (if pseudo then findByCombinedAndManufacturer (getAircraftIcao remote) l else []) ⊆ l)
    by (case_match; auto with matching).
  set (cm := if pseudo then _ else _) in *. clearbody cm.
  split.
  - apply subseteq_app; [auto with matching|]. case_match; [|done]. etransitivity; [apply removeModelsWithString_subset|done].
  - intros _. destruct (findByFamily f l); [|done]. simpl in *. by destruct E as [E|E]; [destruct cm|].
Qed.
Lemma family_reduction remote pseudo l : reduction l (ifPossibleReduceByFamily remote pseudo l).1.
Proof.
  unfold ifPossibleReduceByFamily. case_match; [|apply familyOf_reduction].
  pose proof (familyOf_reduction remote (icao_family (getAircraftIcao remote)) pseudo l) as Hf.
  destruct (ifPossibleReduceByFamilyOf _ _ _ _) as [models r]. destruct r; [done|apply familyOf_reduction].
Qed.
Lemma aircraftOrFamily_reduction remote pseudo l setup : reduction l (ifPossibleReduceByAircraftOrFamily remote pseudo l setup).1.
Proof.
  unfold ifPossibleReduceByAircraftOrFamily. pose proof (aircraft_reduction remote l) as Ha.
  destruct (ifPossibleReduceByAircraft remote l) as [models r]. case_match; [done|apply family_reduction].
Qed.
Lemma combinedType_reduction remote l setup : reduction l (ifPossibleReduceByCombinedType remote l setup).1.
Proof.
  unfold ifPossibleReduceByCombinedType. case_match; [done|].
  assert (Hs : findByCombinedType (icao_combinedType (getAircraftIcao remote)) l ⊆ l) by auto with matching.
  destruct (findByCombinedType _ l) as [|m [|m' ms]] eqn:E; [done|by apply reduction_found|].
  pose proof (airline_reduction remote (m :: m' :: ms) setup) as Ha.
  destruct (ifPossibleReduceByAirline _ _ _) as [models r]. simpl in *.
  eapply reduction_trans; [by apply reduction_found|]. eapply reduction_trans; [exact Ha|apply manufacturer_reduction].
Qed.
Lemma icaoData_reduction remote l setup r : reduction l (ifPossibleReduceByIcaoData remote l setup r).1.
Proof.
  unfold ifPossibleReduceByIcaoData. case_match; [done|]. case_match.
  - pose proof (airline_reduction remote l setup) as Ha. destruct (ifPossibleReduceByAirline _ _ _) as [models r1].
    pose proof (aircraftOrFamily_reduction remote UsePseudoFamily models setup) as Hf.
    destruct (ifPossibleReduceByAircraftOrFamily _ _ _ _) as [models' r2]. case_match; [by eapply reduction_trans|done].
  - case_match; [|done]. pose proof (aircraftOrFamily_reduction remote UsePseudoFamily l setup) as Hf.
    destruct (ifPossibleReduceByAircraftOrFamily _ _ _ _) as [models r1].
    pose proof (airline_reduction remote models setup) as Ha. destruct (ifPossibleReduceByAirline _ models _) as [models' r2].
    destruct (if _ && _ then _ else _) as [models2nd r3] eqn:E.
    destruct r3; [|destruct (r1 || r2); [by eapply reduction_trans|done]]. simpl. destruct (_ && _) in E; [|discriminate].
    eapply reduction_trans; [apply (family_reduction remote UsePseudoFamily)|].
    replace models2nd with (ifPossibleReduceByAirline remote (ifPossibleReduceByFamily remote UsePseudoFamily l).1 setup).1
      by (by rewrite E). apply airline_reduction.
Qed.
End filters.

(** ** Categories *)

(** No category, or one with levels as the database has them: none below one that is missing. *)
Definition levelsOk (c : CAircraftCategory) : Prop :=
  AircraftCategory.isNull c = true \/
  0 < m_l1 c /\ 0 <= m_l2 c /\ 0 <= m_l3 c /\ (m_l2 c = 0 -> m_l3 c = 0).

(** The models that are left: some of the set, and at least one if there was one. *)
Definition leaves (modelSet models : list CAircraftModel) (o : option (list CAircraftModel)) : Prop :=
  exists out, o = Some out /\ out ⊆ modelSet /\ (models <> [] -> out <> []).

Section kinds.
Context `{QtConv} `{QtChars} `{StdSortBy}.
Implicit Types (l modelSet models : list CAircraftModel) (category : CAircraftCategory) (categories : list CAircraftCategory).

Lemma depth_levels category : levelsOk category -> AircraftCategory.isNull category = false ->
  AircraftCategory.isFirstLevel category = false ->
  (length (AircraftCategory.getLevel category) <=? (if (AircraftCategory.getDepth category =? 2)%Z then 0 else 1))%nat = false.
Proof.
  intros [?|(Hl1 & Hl2 & Hl3 & H23)] Hn Hf; [congruence|]. unfold AircraftCategory.getDepth. rewrite Hf.
  unfold AircraftCategory.isFirstLevel, AircraftCategory.getLevel in *.
  destruct (Z.eq_dec (m_l2 category) 0) as [E2|]; [rewrite E2, (H23 E2) in Hf; simpl in Hf; lia|].
  rewrite !filter_cons. rewrite (decide_True (P:=0 < m_l1 category)), (decide_True (P:=0 < m_l2 category)) by lia.
  destruct (decide (0 < m_l3 category)).
  - destruct (Z.eqb_spec (m_l3 category) 0); [lia|]. done.
  - destruct (Z.eqb_spec (m_l3 category) 0); [|lia]. simpl.
    destruct (Z.ltb_spec 0 (m_l2 category)), (Z.ltb_spec 0 (m_l1 category)); [done|lia..].
Qed.
Lemma findInParallelBranch_total category categories :
  levelsOk category -> exists found, findInParallelBranch category categories = Some found.
Proof.
  intros Hok. unfold findInParallelBranch. case_match eqn:En; [by eexists|]. apply orb_false_iff in En as [En _].
  destruct (AircraftCategory.isFirstLevel category) eqn:E; [by eexists|].
  pose proof (depth_levels _ Hok En E) as Hd. destruct (AircraftCategory.getDepth category =? 2); simpl in *;
    (case_match; [by eexists|]; rewrite Hd; by eexists).
Qed.

Lemma reduceToGliders_leaves gliders modelSet remote cm : levelsOk (icao_category (getAircraftIcao remote)) ->
  gliders ⊆ modelSet -> leaves modelSet gliders (reduceToGliders gliders modelSet remote cm).
Proof.
  intros Hok Hg. unfold reduceToGliders, leaves.
  destruct (findByCategory _ gliders) as [|m ms] eqn:E1.
  2:{ eexists. split; [done|]. split; [|intros _; discriminate]. rewrite <- E1. etransitivity; [apply findByCategory_subset|done]. }
  destruct (findInParallelBranch_total _ (m_gliders cm) Hok) as [branches ->]. simpl.
  destruct (findByCategories branches gliders) as [|m ms] eqn:E2.
  2:{ eexists. split; [done|]. split; [|intros _; discriminate]. rewrite <- E2. etransitivity; [apply findByCategories_subset|done]. }
  destruct (findByCategories _ modelSet) as [|m ms] eqn:E3; eexists; (split; [done|]); [by split|].
  split; [|intros _; discriminate]. rewrite <- E3. apply findByCategories_subset.
Qed.
Lemma reduceByCategories_leaves models modelSet setup remote cm :
  levelsOk (icao_category (getAircraftIcao remote)) -> models ⊆ modelSet ->
  leaves modelSet models (fst <$> reduceByCategories models modelSet setup remote cm).
Proof.
  intros Hok Hs. unfold reduceByCategories.
  assert (leaves modelSet models (Some models)) as Hkeep by (eexists; split; [done|]; by split).
  do 3 (case_match; [done|]). case_match; [|done].
  destruct (findByCategoryFirstLevel _ modelSet) as [|g gs] eqn:Eg.
  - assert (forall found, found ⊆ models -> found <> [] -> leaves modelSet models (Some found)) as Hfound.
    { intros found Hf ?. exists found. split; [done|]. split; [by etransitivity|done]. }
    destruct (findByDesignatorsOrFamilyWithColorLivery _ models) as [|m ms] eqn:Es.
    + destruct (findByCombinedType _ models) as [|m ms] eqn:Ec; [done|]. apply Hfound; [|done].
      rewrite <- Ec. apply findByCombinedType_subset.
    + apply Hfound; [|done]. rewrite <- Es. apply findBy_subset.
  - destruct (reduceToGliders_leaves (g :: gs) modelSet remote cm Hok) as (out & -> & Ho & Hn);
      [rewrite <- Eg; apply findByCategoryFirstLevel_subset|].
    exists out. split; [done|]. split; [done|]. intros _. by apply Hn.
Qed.

Lemma vtol_nonempty l : containsVtol l = true -> findByVtolFlag true l <> [].
Proof.
  intros (m & Hm & Hv)%existsb_exists Hn. apply (not_elem_of_nil m). rewrite <- Hn. unfold findByVtolFlag.
  apply elem_findBy. rewrite Hv. split; [done|]. by apply list_elem_of_In.
Qed.
Lemma leaves_reduction modelSet models l out :
  leaves modelSet models (Some l) -> reduction l out -> leaves modelSet models (Some out).
Proof.
  intros (l' & [= <-] & Hs & Hn) [H1' H2']. exists out. split; [done|]. split; [by etransitivity|auto].
Qed.
Lemma reduceByKind_leaves modelSet setup cm remote models reduced :
  levelsOk (icao_category (getAircraftIcao remote)) -> models ⊆ modelSet ->
  leaves modelSet models (reduceByKind modelSet setup cm remote models reduced).
Proof.
  intros Hok Hs. unfold reduceByKind.
  assert (exists models1 reduced1,
    (if useCategoryMatching setup then reduceByCategories models modelSet setup remote cm else Some (models, reduced))
      = Some (models1, reduced1) /\ leaves modelSet models (Some models1)) as (models1 & reduced1 & -> & Hl).
  { case_match; [|eexists _, _; split; [done|]; eexists; split; [done|]; by split].
    pose proof (reduceByCategories_leaves models modelSet setup remote cm Hok Hs) as Hc.
    destruct (reduceByCategories _ _ _ _ _) as [[models1 r]|]; [by eauto|]. by destruct Hc as (? & ? & _). }
  simpl. eapply leaves_reduction; [eapply leaves_reduction; [eapply leaves_reduction; [exact Hl|]|]|].
  3:{ case_match; [apply combinedType_reduction|apply reduction_refl]. }
  2:{ case_match; [apply military_reduction|apply reduction_refl]. }
  case_match eqn:E; [|apply reduction_refl]. split; [apply findBy_subset|]. intros _. apply vtol_nonempty.
  by repeat apply andb_true_iff in E as [E ?].
Qed.

Lemma kind_leaves modelSet setup cm remote models reduced :
  levelsOk (icao_category (getAircraftIcao remote)) -> reduction modelSet models ->
  leaves modelSet modelSet (reduceByKind modelSet setup cm remote models reduced).
Proof.
  intros Hok [Hs Hn]. destruct (reduceByKind_leaves modelSet setup cm remote models reduced Hok Hs) as (out & -> & Ho & Hm).
  exists out. auto.
Qed.
Lemma stepwise_leaves modelSet setup cm remote reduceLog :
  levelsOk (icao_category (getAircraftIcao remote)) ->
  leaves modelSet modelSet (getClosestMatchStepwiseReduceImplementation modelSet setup cm remote reduceLog).
Proof.
  intros Hok. unfold getClosestMatchStepwiseReduceImplementation.
  destruct (if testFlag (m_mode setup) ByLivery then _ else _) as [models r] eqn:E.
  assert (reduction modelSet models) as Hr.
  { replace models with (models, r).1 by done. rewrite <- E. case_match; [apply livery_reduction|apply reduction_refl]. }
  assert (leaves modelSet modelSet (Some models)) as Hl by (destruct Hr; eexists; done).
  match goal with |- leaves _ _ (mbind _ ?o) => assert (leaves modelSet modelSet o) as (out & -> & Ho & Hn) end.
  { destruct r; [done|]. destruct (testFlag _ ByIcaoData); [|destruct (_ && _); [|by apply kind_leaves]].
    - pose proof (icaoData_reduction remote models setup false) as Hi. destruct (ifPossibleReduceByIcaoData _ _ _ _) as [models2 r2].
      apply kind_leaves; [done|by eapply reduction_trans].
    - pose proof (family_reduction remote UsePseudoFamily models) as Hi. destruct (ifPossibleReduceByFamily _ _ _) as [models2 r2].
      destruct r2; [|apply kind_leaves; [done|by eapply reduction_trans]].
      eapply leaves_reduction; [done|done]. }
  simpl. eapply leaves_reduction; [by exists out|]. destruct (_ && _); [apply manufacturer_reduction|apply reduction_refl].
Qed.
End kinds.

(** ** Scores *)

Lemma filter_iff_elem {A} (P Q : A -> Prop) `{!forall x, Decision (P x), !forall x, Decision (Q x)} (l : list A) :
  (forall x, x ∈ l -> P x <-> Q x) -> filter P l = filter Q l.
Proof.
  induction l as [|x l IH]; intros Hl; [done|]. rewrite !filter_cons, IH by (intros; apply Hl; by right).
  specialize (Hl x (list_elem_of_here _ _)). repeat case_decide; tauto.
Qed.

Section scores.
Context `{QtConv} `{QtChars}.
Implicit Types (scores : ScoredModels) (models : list CAircraftModel).

Lemma valuesOf_insert key score model scores :
  valuesOf key (insertScored score model scores) = (if decide (score = key) then [model] else []) ++ valuesOf key scores.
Proof.
  unfold valuesOf. induction scores as [|[k m] rest IH]; cbn [insertScored].
  { rewrite filter_cons, filter_nil. simpl. by case_decide. }
  destruct (Z.leb_spec score k).
  { rewrite (filter_cons _ (score, model)). cbn [fst]. by destruct (decide (score = key)). }
  rewrite !filter_cons. cbn [fst]. destruct (decide (k = key)); cbn [map snd]; rewrite IH; [|done].
  rewrite decide_False by lia. done.
Qed.

Definition keyLe (a b : Z * CAircraftModel) : Prop := a.1 <= b.1.
Definition keysSorted : ScoredModels -> Prop := StronglySorted keyLe.
Lemma elem_insertScored e score model scores : e ∈ insertScored score model scores <-> e = (score, model) \/ e ∈ scores.
Proof.
  induction scores as [|[k m] rest IH]; simpl; [by rewrite list_elem_of_singleton, elem_of_nil; tauto|].
  destruct (score <=? k); rewrite !elem_of_cons; [done|]. rewrite IH. tauto.
Qed.
Lemma insertScored_sorted score model scores : keysSorted scores -> keysSorted (insertScored score model scores).
Proof.
  unfold keysSorted. induction 1 as [|[k m] rest Hs IH Hk]; simpl; [by repeat constructor|].
  destruct (Z.leb_spec score k).
  - constructor; [by constructor|]. constructor; [done|]. eapply Forall_impl; [exact Hk|]. unfold keyLe. simpl. lia.
  - constructor; [done|]. apply Forall_forall. intros e [->|He]%elem_insertScored; [unfold keyLe; simpl; lia|].
    by rewrite Forall_forall in Hk; apply Hk.
Qed.
Lemma sorted_lastKey scores k : keysSorted scores -> lastKey scores = Some k ->
  (exists model, (k, model) ∈ scores) /\ forall e, e ∈ scores -> e.1 <= k.
Proof.
  unfold lastKey. intros Hs. rewrite fmap_Some. intros ([k' m] & Hl & ->). simpl. apply last_Some in Hl as [l ->].
  split; [exists m; rewrite elem_of_app; right; by left|]. intros e [He|He%list_elem_of_singleton]%elem_of_app; [|by subst].
  unfold keysSorted in Hs. rewrite StronglySorted_app in Hs. destruct Hs as (Hc & _ & _).
  by apply (Hc e (k', m)), list_elem_of_singleton.
Qed.

Section full.
Context (remoteModel : CAircraftModel) (preferColorLiveries ignoreZeroScores : bool).
Local Abbreviation score := (calculateScore preferColorLiveries remoteModel).
Definition counted (model : CAircraftModel) : Prop := ignoreZeroScores = true -> 1 <= score model.
#[export] Instance counted_dec model : Decision (counted model).
Proof. unfold counted. apply _. Defined.
Local Abbreviation full := (scoreFull remoteModel preferColorLiveries ignoreZeroScores).

Lemma scoreFull_snoc models model :
  full (models ++ [model]) = if decide (counted model) then insertScored (score model) model (full models) else full models.
Proof.
  unfold scoreFull at 1. rewrite foldl_app. simpl. fold (full models).
  assert (ignoreZeroScores && (score model <? 1) = negb (bool_decide (counted model))) as ->.
  { unfold counted. case_bool_decide as Hc; destruct ignoreZeroScores; simpl; [apply Z.ltb_ge; auto|done| |by destruct Hc].
    apply Z.ltb_lt. destruct (Z.lt_ge_cases (score model) 1); [done|by destruct Hc]. }
  unfold bool_decide, decide. by destruct (counted_dec model).
Qed.
Lemma scoreFull_sorted models : keysSorted (full models).
Proof.
  induction models as [|m ms IH] using rev_ind; [constructor|]. rewrite scoreFull_snoc. case_decide; [by apply insertScored_sorted|done].
Qed.
Lemma elem_scoreFull k m models : (k, m) ∈ full models <-> m ∈ models /\ counted m /\ k = score m.
Proof.
  induction models as [|m' ms IH] using rev_ind; [unfold scoreFull; simpl; rewrite !elem_of_nil; tauto|].
  rewrite scoreFull_snoc, elem_of_app, list_elem_of_singleton. case_decide; rewrite ?elem_insertScored, IH, ?pair_equal_spec.
  - split; [intros [[-> ->]|?]; tauto|]. intros ([?| ->] & ? & ?); tauto.
  - split; [tauto|]. intros ([?| ->] & ? & ?); tauto.
Qed.
Lemma in_scoreFull m models : m ∈ models -> counted m -> (score m, m) ∈ full models.
Proof. intros ? ?. by apply elem_scoreFull. Qed.
Lemma valuesOf_full k models : valuesOf k (full models) = reverse (filter (fun m => counted m /\ score m = k) models).
Proof.
  induction models as [|m ms IH] using rev_ind; [done|]. rewrite scoreFull_snoc, filter_app, reverse_app, filter_cons, filter_nil.
  case_decide as Hc; [rewrite valuesOf_insert|]; rewrite IH.
  - case_decide; [rewrite decide_True by done|rewrite decide_False by tauto]; done.
  - by rewrite decide_False by tauto.
Qed.

(** The best of the models that count. *)
Definition best (models : list CAircraftModel) (m : CAircraftModel) : Prop :=
  counted m /\ Forall (fun m' => score m' <= score m) models.
#[export] Instance best_dec models m : Decision (best models m).
Proof. unfold best. apply _. Defined.

Lemma best_full models k m : lastKey (full models) = Some k -> m ∈ models -> (counted m /\ score m = k <-> best models m).
Proof.
  intros Hk Hm. destruct (sorted_lastKey _ _ (scoreFull_sorted models) Hk) as [[m' Hm'] Hmax].
  apply elem_scoreFull in Hm' as (Hin & Hc' & ->). unfold best. rewrite Forall_forall. split.
  - intros [Hc Hs]. split; [done|]. intros m2 Hm2. destruct (decide (counted m2)) as [Hc2|Hc2].
    + rewrite Hs. exact (Hmax _ (in_scoreFull m2 models Hm2 Hc2)).
    + unfold counted in Hc2, Hc. destruct ignoreZeroScores; [|exfalso; apply Hc2; discriminate].
      assert (~ 1 <= score m2) by (intros ?; apply Hc2; done). specialize (Hc eq_refl). lia.
  - intros [Hc Hb]. split; [done|]. apply Z.le_antisymm; [|by apply Hb]. exact (Hmax _ (in_scoreFull m models Hm Hc)).
Qed.
End full.

Lemma insertScored_nonempty score m scores : insertScored score m scores <> [].
Proof. destruct scores as [|[k m'] rest]; simpl; [done|]. by case_match. Qed.
Lemma lastKey_none scores : lastKey scores = None -> scores = [].
Proof. unfold lastKey. rewrite fmap_None, last_None. done. Qed.

Lemma score_candidates_best modelSet setup remoteAircraft :
  getClosestMatchScoreImplementation modelSet setup remoteAircraft =
  reverse (filter (best (r_model remoteAircraft) (testFlag (m_mode setup) ScorePreferColorLiveries)
                     (testFlag (m_mode setup) ScoreIgnoreZeros) modelSet) modelSet).
Proof.
  unfold getClosestMatchScoreImplementation. set (prefer := testFlag _ ScorePreferColorLiveries).
  set (ignore := testFlag _ ScoreIgnoreZeros). destruct (lastKey _) as [k|] eqn:Hk.
  - rewrite valuesOf_full. f_equal. apply filter_iff_elem. intros m Hm. by apply best_full.
  - apply lastKey_none in Hk. rewrite list_filter_none; [done|]. intros m Hm [Hc _].
    apply (not_elem_of_nil (calculateScore prefer (r_model remoteAircraft) m, m)). rewrite <- Hk. by apply in_scoreFull.
Qed.
End scores.

(** ** Picking *)

Section picking.
Context `{UniformIntLaws}.

Lemma copyRandom_subset {A} draw (l : list A) n : copyRandomElements draw l n ⊆ l.
Proof.
  revert draw n. induction l as [|x l IH]; intros draw n; [done|]. simpl. repeat case_match; [apply list_subseteq_nil| |].
  - apply list_subseteq_skip, IH.
  - apply list_subseteq_cons, IH.
Qed.
(** As long as one element is wanted, the last is taken with certainty. *)
Lemma copyRandom_nonempty {A} draw (l : list A) : l <> [] -> copyRandomElements draw l 1 <> [].
Proof.
  revert draw. induction l as [|x l IH]; intros draw Hl; [done|]. cbn [copyRandomElements]. simpl (1 <=? 0).
  destruct (Z.ltb_spec (uniform_int draw (Z.of_nat (length (x :: l)) - 1)) 1) as [|Hu]; [done|].
  apply IH. intros ->. pose proof (uniform_int_range draw (Z.of_nat (length [x]) - 1)). simpl in *. lia.
Qed.
Lemma head_elem {A} (l : list A) d : l <> [] -> default d (head l) ∈ l.
Proof. destruct l; [done|]. intros _. left. Qed.
Lemma randomElement_elem models : models <> [] -> randomElement models ∈ models.
Proof.
  intros Hm. unfold randomElement. apply (copyRandom_subset 0 models 1), head_elem. by apply copyRandom_nonempty.
Qed.
Lemma minOrder_elem models : models <> [] -> minOrderOrDefault models ∈ models.
Proof.
  destruct models as [|m ms]; [done|]. intros _. unfold minOrderOrDefault.
  cut (forall l acc, acc ∈ m :: ms -> l ⊆ m :: ms ->
    foldl (fun min model => if hasValidOrder model && (m_order model <? m_order min) then model else min) acc l ∈ m :: ms).
  { intros Hc. apply Hc; [left|done]. }
  induction l as [|x l IH]; intros acc Ha Hl; [done|]. simpl. apply IH; [|by intros y ?; apply Hl; right].
  case_match; [apply Hl; left|done].
Qed.
Lemma pickModel_elem strategy candidates : candidates <> [] -> pickModel strategy candidates ∈ candidates.
Proof.
  intros Hc. unfold pickModel. destruct strategy; [by apply head_elem|by apply randomElement_elem|].
  case_match; [by apply minOrder_elem|by apply head_elem].
Qed.
End picking.

(** ** What is found *)

Section found.
Context `{QtConv} `{QtChars} `{StdSortBy} `{UniformIntLaws} `{ScriptEngine} `{AircraftDatabase}.
Implicit Types (s : CAircraftMatcher) (remoteAircraft : RemoteAircraft) (m : CAircraftModel) (modelSet : list CAircraftModel).

(** The models of the set that may be matched. *)
Definition eligible s : list CAircraftModel := excludeModels (m_setup s) (m_modelSet s).
(** Whether the scores may leave no candidate. *)
Definition mayIgnore (setup : CAircraftMatcherSetup) : Prop :=
  m_algorithm setup <> MatchingStepwiseReduce /\ testFlag (m_mode setup) ScoreIgnoreZeros = true.

(** Where a match comes from. *)
Inductive matchedFrom s remoteAircraft : CAircraftModel -> Prop :=
| by_hand : hasManuallySetString (r_model remoteAircraft) = true -> matchedFrom s remoteAircraft (r_model remoteAircraft)
| by_text m : m ∈ m_modelSet s -> hasModelString m = true -> testFlag (m_mode (m_setup s)) ByModelString = true ->
    matchesModelStringOrAlias (m_modelString (r_model remoteAircraft)) m = true -> matchedFrom s remoteAircraft m
| by_search m : hasManuallySetString (r_model remoteAircraft) = false -> m ∈ eligible s -> matchedFrom s remoteAircraft m
| by_default : hasManuallySetString (r_model remoteAircraft) = false -> eligible s = [] \/ mayIgnore (m_setup s) ->
    matchedFrom s remoteAircraft (m_defaultModel s).

Lemma scored_leaves modelSet setup remoteAircraft :
  getClosestMatchScoreImplementation modelSet setup remoteAircraft ⊆ modelSet /\
  (testFlag (m_mode setup) ScoreIgnoreZeros = false -> modelSet <> [] ->
   getClosestMatchScoreImplementation modelSet setup remoteAircraft <> []).
Proof.
  split; [rewrite score_candidates_best; intros m; rewrite elem_of_reverse; apply list_subseteq_filter|].
  intros Hz Hm. unfold getClosestMatchScoreImplementation. rewrite Hz.
  destruct modelSet as [|m ms _] using rev_ind; [done|].
  destruct (lastKey _) as [k|] eqn:Hk.
  - apply sorted_lastKey in Hk as [[m' Hm'] _]; [|apply scoreFull_sorted]. intros Hn.
    apply (not_elem_of_nil m'). rewrite <- Hn. unfold valuesOf. apply list_elem_of_fmap. exists (k, m'). split; [done|].
    by apply list_elem_of_filter.
  - apply lastKey_none in Hk. exfalso. eapply not_elem_of_nil. rewrite <- Hk. apply in_scoreFull with (m := m); [|done].
    rewrite elem_of_app. right. left.
Qed.
Lemma findCandidates_leaves s modelSet remoteAircraft reduceLog :
  levelsOk (icao_category (getAircraftIcao remoteAircraft)) ->
  exists out, findCandidates s modelSet remoteAircraft reduceLog = Some out /\ out ⊆ modelSet /\
    (modelSet <> [] -> ~ mayIgnore (m_setup s) -> out <> []).
Proof.
  intros Hok. unfold findCandidates, mayIgnore.
  destruct (stepwise_leaves modelSet (m_setup s) (m_categoryMatcher s) remoteAircraft reduceLog Hok) as (l & -> & Hl & Hn).
  destruct (m_algorithm (m_setup s)); simpl; (eexists; split; [done|]).
  - destruct (scored_leaves modelSet (m_setup s) remoteAircraft) as [Hs Hz]. split; [done|]. intros Hm Hi. apply Hz; [|done].
    apply not_true_iff_false. intros E. by apply Hi.
  - destruct (scored_leaves l (m_setup s) remoteAircraft) as [Hs Hz]. split; [by etransitivity|]. intros Hm Hi. apply Hz; [|auto].
    apply not_true_iff_false. intros E. by apply Hi.
  - auto.
Qed.
Lemma combinedTypeDefault_cases modelSet remoteAircraft d :
  getCombinedTypeDefaultModel modelSet remoteAircraft d = d \/ getCombinedTypeDefaultModel modelSet remoteAircraft d ∈ modelSet.
Proof.
  unfold getCombinedTypeDefaultModel. set (ct := icao_combinedType _).
  do 2 (case_match; [by left|]). pose proof (findByCombinedTypeWithColorLivery_subset ct modelSet) as Hc.
  destruct (if isEmpty _ then _ else _) as [|m ms] eqn:E; [by left|]. right.
  assert (m ∈ m :: ms) as Hm by left. rewrite <- E in Hm.
  apply Hc. destruct (isEmpty (findByCombinedTypeWithColorLivery _ _)) in Hm; [|done].
  by apply (findByCombinedType_subset _ _ _ Hm).
Qed.

Lemma asMatched_again remoteAircraft type m :
  asMatched remoteAircraft (setCallsign (r_callsign remoteAircraft) (setModelType type m)) = asMatched remoteAircraft m.
Proof. by destruct m. Qed.
Lemma asMatched_string remoteAircraft m : hasModelString (asMatched remoteAircraft m) = hasModelString m.
Proof. by destruct m. Qed.
(** The branch for a match without text is taken only for a default model without text. *)
Lemma orDefault_matched s remoteAircraft m : hasModelString m = true \/ m = m_defaultModel s ->
  orDefault s remoteAircraft m = asMatched remoteAircraft m.
Proof.
  intros Hm. unfold orDefault. rewrite asMatched_string. destruct (hasModelString m) eqn:E; [done|].
  destruct Hm as [|Hm]; [done|]. by rewrite <- Hm, E.
Qed.

Lemma exactMatch_cases s remoteAircraft : let m := matchByExactModelString remoteAircraft (m_modelSet s) in
  hasModelString m = true -> exists m0, m = setCallsign (r_callsign remoteAircraft) (setModelType TypeModelMatching m0) /\
    m0 ∈ m_modelSet s /\ hasModelString m0 = true /\ matchesModelStringOrAlias (m_modelString (r_model remoteAircraft)) m0 = true.
Proof.
  intros m. subst m. unfold matchByExactModelString, findFirstByModelStringAliasOrDefault, findFirstByOrDefault.
  destruct (isEmpty _); [done|]. destruct (findBy _ _) as [|m0 ms] eqn:E; [done|]. simpl. intros Hm.
  assert (m0 ∈ m0 :: ms) as H0' by left. rewrite <- E, elem_findBy in H0'. destruct H0' as [Hp Hi].
  exists m0. split_and!; [done..| |done]. by destruct m0.
Qed.
Lemma matchInSet_from s remoteAircraft reduceLog : levelsOk (icao_category (getAircraftIcao remoteAircraft)) ->
  exists m m0 rest, matchInSet s remoteAircraft reduceLog = Some (m, rest) /\ matchedFrom s remoteAircraft m0 /\
    asMatched remoteAircraft m = asMatched remoteAircraft m0 /\ (hasModelString m = true \/ m = m_defaultModel s).
Proof.
  intros Hok. unfold matchInSet, prephase. destruct (hasManuallySetString _) eqn:Eh.
  { do 3 eexists. split_and!; [done|by apply by_hand|done|]. left. by apply andb_true_iff in Eh as [_ ?]. }
  destruct (isEmpty (m_modelSet s)) eqn:Ee.
  { do 3 eexists. split_and!; [done|apply by_default; [done|left]|done|by right]. unfold eligible.
    destruct (m_modelSet s); [|done]. apply list_nil_subseteq, excludeModels_subset. }
  set (rest := if _ && _ then _ else _).
  assert (rest = None \/ exists m, rest = Some (setCallsign (r_callsign remoteAircraft) (setModelType TypeModelMatching m)) /\
    matchedFrom s remoteAircraft m /\ hasModelString m = true) as [-> | (m0 & -> & Hf & Hm)].
  { subst rest. destruct (_ && testFlag _ _) eqn:Et; [|by left]. apply andb_true_iff in Et as [_ Et].
    destruct (hasModelString (matchByExactModelString _ _)) eqn:Em; [|by left]. right.
    destruct (exactMatch_cases _ _ Em) as (m0 & -> & Hi & Hm & Hx). exists m0. split_and!; [done| |done]. by apply by_text. }
  2:{ exists (setCallsign (r_callsign remoteAircraft) (setModelType TypeModelMatching m0)), m0, (m_modelSet s).
      split_and!; [done..|apply asMatched_again|]. left. by destruct m0. }
  fold (eligible s). destruct (findCandidates_leaves s (eligible s) remoteAircraft reduceLog Hok) as (out & -> & Ho & Hn). simpl.
  assert (forall m, m ∈ eligible s -> matchedFrom s remoteAircraft m /\ hasModelString m = true) as Hel.
  { intros m Hm. split; [by apply by_search|by eapply excludeModels_string]. }
  destruct (isEmpty out) eqn:Eo.
  - destruct (combinedTypeDefault_cases (eligible s) remoteAircraft (m_defaultModel s)) as [Ed|Hm].
    + rewrite Ed. do 3 eexists. split_and!; [done| |done|by right]. apply by_default; [done|].
      destruct (decide (eligible s = [])); [by left|]. right. destruct out; [|done].
      unfold mayIgnore in *. destruct (decide (m_algorithm (m_setup s) = MatchingStepwiseReduce)) as [Ea|Ea].
      * exfalso. apply Hn; [done| |done]. by intros [? _].
      * split; [done|]. apply not_false_iff_true. intros Ez. apply Hn; [done| |done]. rewrite Ez. by intros [_ ?].
    + apply Hel in Hm as [Hm ?]. do 3 eexists. by split_and!; [..|left].
  - assert (pickModel (m_strategy (m_setup s)) out ∈ out) as Hm by (apply pickModel_elem; by destruct out).
    apply Ho, Hel in Hm as [Hm ?]. do 3 eexists. by split_and!; [..|left].
Qed.

Lemma withoutScript_from s remoteAircraft reduceLog : levelsOk (icao_category (getAircraftIcao remoteAircraft)) ->
  exists m, getClosestMatchWithoutScript s remoteAircraft reduceLog = Some (asMatched remoteAircraft m) /\
    matchedFrom s remoteAircraft m.
Proof.
  intros Hok. destruct (matchInSet_from s remoteAircraft reduceLog Hok) as (m & m0 & rest & E & Hf & Ha & Ht).
  exists m0. split; [|done]. unfold getClosestMatchWithoutScript. rewrite E. simpl. by rewrite orDefault_matched, Ha.
Qed.
Lemma asMatched_idem remoteAircraft other m : asMatched remoteAircraft (asMatched other m) = asMatched remoteAircraft m.
Proof. by destruct m. Qed.
Lemma asMatched_other remoteAircraft other m :
  asMatched remoteAircraft (setCallsign (r_callsign remoteAircraft) (asMatched other m)) = asMatched remoteAircraft m.
Proof. by destruct m. Qed.
Lemma orDefault_asMatched s remoteAircraft m : hasModelString m = true \/ m = m_defaultModel s ->
  orDefault s remoteAircraft (asMatched remoteAircraft m) = asMatched remoteAircraft m.
Proof.
  intros Hm. unfold orDefault. rewrite asMatched_idem, asMatched_string. destruct (hasModelString m) eqn:E; [done|].
  destruct Hm as [|Hm]; [done|]. by rewrite <- Hm, E.
Qed.

(** The aircraft a script has the matching run again for. *)
Definition rerunFor s remoteAircraft (reduceLog : bool) (other : RemoteAircraft) : Prop :=
  exists m modelSet rv, matchInSet s remoteAircraft reduceLog = Some (m, modelSet) /\
    matchingStageScript (r_model remoteAircraft) (asMatched remoteAircraft m) (m_setup s) modelSet = Some rv /\
    runScriptModifiedAndRerun rv = true /\ other = setModel (rv_model rv) remoteAircraft.
(** Whether the steps are logged. *)
Definition stepsLogged (whatToLog : Z) (log : bool) : bool :=
  log && negb (whatToLog =? MatchingLogNothing) && testFlag whatToLog MatchingLogStepwiseReduce.

(** The script of the setup, if it runs, returns none of the objects that are not values. *)
Definition scriptOk (setup : CAircraftMatcherSetup) : Prop :=
  doRunMsMatchingStageScript setup = true -> forall inModel matchedModel modelSet,
    evaluate (readFileToString (m_msMatchingStageFile setup)) inModel matchedModel modelSet <> ScriptOtherObject.
Lemma stageScript_defined inModel matchedModel setup modelSet :
  scriptOk setup -> exists rv, matchingStageScript inModel matchedModel setup modelSet = Some rv.
Proof.
  unfold scriptOk, matchingStageScript, matchingScript. destruct (doRunMsMatchingStageScript setup); [|by eexists]. cbn [negb].
  intros Hok. specialize (Hok eq_refl inModel matchedModel modelSet). case_match; [by eexists|].
  destruct (evaluate _ _ _ _); [by eexists..| |by eexists]. by destruct Hok.
Qed.

Lemma getClosestMatch_from s remoteAircraft whatToLog log useMatchingScript :
  scriptOk (m_setup s) -> levelsOk (icao_category (getAircraftIcao remoteAircraft)) ->
  (forall other, rerunFor s remoteAircraft (stepsLogged whatToLog log) other -> levelsOk (icao_category (getAircraftIcao other))) ->
  exists m other, getClosestMatch s remoteAircraft whatToLog log useMatchingScript = Some (asMatched remoteAircraft m) /\
    matchedFrom s other m /\
    (other = remoteAircraft \/ useMatchingScript = true /\ rerunFor s remoteAircraft (stepsLogged whatToLog log) other).
Proof.
  intros Hscript Hok Hre. unfold getClosestMatch. fold (stepsLogged whatToLog log) in *.
  set (reduceLog := stepsLogged whatToLog log) in *.
  destruct (matchInSet_from s remoteAircraft reduceLog Hok) as (m & m0 & rest & E & Hf & Ha & Ht).
  rewrite E. simpl.
  destruct (stageScript_defined (r_model remoteAircraft) (asMatched remoteAircraft m) _ rest Hscript) as [rv Erv]. rewrite Erv.
  simpl.
  assert (orDefault s remoteAircraft (asMatched remoteAircraft m) = asMatched remoteAircraft m0) as Hd
    by (by rewrite orDefault_asMatched).
  destruct (useMatchingScript && _) eqn:Eu; [|exists m0, remoteAircraft; simpl; rewrite Hd; auto].
  destruct (runScriptModifiedAndRerun rv) eqn:Er; [|exists m0, remoteAircraft; simpl; rewrite Hd; auto].
  apply andb_true_iff in Eu as [-> _].
  assert (runScriptAndModified rv = true) as ->.
  { unfold runScriptModifiedAndRerun, runScriptAndModified in *. destruct (rv_modified rv), (rv_runScript rv), (rv_rerun rv); done. }
  set (other := setModel (rv_model rv) remoteAircraft).
  assert (rerunFor s remoteAircraft reduceLog other) as Ho by (by eexists _, _, _; split_and!; [exact E | exact Erv | exact Er |]).
  destruct (withoutScript_from s other reduceLog (Hre _ Ho)) as (m' & -> & Hf'). simpl.
  destruct (hasModelString (setCallsign _ _)) eqn:Em; [|exists m0, remoteAircraft; rewrite Hd; auto].
  exists m', other. split_and!; [|done|by right]. f_equal. unfold orDefault. rewrite asMatched_other, asMatched_string.
  by destruct m' as [? ? ? ? ? text ? ? ?], text.
Qed.

(** C17: A match is always found: no index runs out of range, whatever the steps, the scores and the
    script do, when the script returns no object but values, and the aircraft, also the one a script
    has the matching run again for, has no category or one whose levels have no gap.
    The model is the one set by hand, one of the set with the text of the network, one of the
    models of the set that may be matched, or the default model, with the callsign and the
    type set.  The default is used only when the set has no model that may be matched, or
    when scores of zero are ignored.  A script can change it only by asking for a second run. *)
Theorem match_found s remoteAircraft whatToLog log useMatchingScript :
  scriptOk (m_setup s) -> levelsOk (icao_category (getAircraftIcao remoteAircraft)) ->
  (forall other, rerunFor s remoteAircraft (stepsLogged whatToLog log) other -> levelsOk (icao_category (getAircraftIcao other))) ->
  exists m other, getClosestMatch s remoteAircraft whatToLog log useMatchingScript = Some (asMatched remoteAircraft m) /\
    matchedFrom s other m /\
    (other = remoteAircraft \/ useMatchingScript = true /\ rerunFor s remoteAircraft (stepsLogged whatToLog log) other).
Proof. intros Hscript Hok Hre. by apply getClosestMatch_from. Qed.

(** C21: Matching by scores picks the best model.  Of the models that may be matched, and, where scores
    of zero are ignored, have a positive score, the strategy picks one with the highest score;
    the first picked is the last of them in the set.  With no such model the default for the
    combined type is used. *)
Theorem scored_match s remoteAircraft reduceLog :
  m_algorithm (m_setup s) = MatchingScoreBased -> prephase s remoteAircraft = None ->
  let mode := m_mode (m_setup s) in
  let bestModels := filter (best (r_model remoteAircraft) (testFlag mode ScorePreferColorLiveries)
                              (testFlag mode ScoreIgnoreZeros) (eligible s)) (eligible s) in
  matchInSet s remoteAircraft reduceLog =
    Some (match bestModels with
          | [] => getCombinedTypeDefaultModel (eligible s) remoteAircraft (m_defaultModel s)
          | front :: rest => if decide (m_strategy (m_setup s) = PickFirst) then List.last rest front
                             else pickModel (m_strategy (m_setup s)) (reverse bestModels)
          end, eligible s).
Proof.
  intros Ha Hp mode bestModels. unfold matchInSet. rewrite Hp. unfold findCandidates. rewrite Ha. simpl. fold (eligible s).
  rewrite score_candidates_best. fold mode bestModels. destruct bestModels as [|front rest] eqn:E; [done|].
  assert (isEmpty (reverse (front :: rest)) = false) as ->.
  { rewrite reverse_cons. by destruct (reverse rest). }
  case_decide as Hs; [|done]. rewrite Hs. unfold pickModel. rewrite head_reverse, last_cons. do 2 f_equal.
  clear. induction rest as [|x [|y rest] IH] in front |- *; [done..|]. apply IH.
Qed.
End found.

(** ** A small set *)

Section demo.
#[local] Instance demoEngine : ScriptEngine := {|
  readFileToString := fun file => file;
  evaluate := fun js _ _ _ => if eqs js "any" then ScriptOther else if eqs js "set" then ScriptOtherObject
    else ScriptObject (mkInOutValues [] [] [] (lit "C172 RED") (-1) (-1) (-1) (-1) true true) |}.
#[local] Instance demoDatabase : AircraftDatabase := {|
  getModelForDbKey := fun _ => CAircraftModel_default;
  getModelForModelString := fun _ => CAircraftModel_default;
  getAircraftIcaoCodeForDbKey := fun _ => AircraftIcao.null;
  getAirlineIcaoCodeForDbKey := fun _ => AirlineIcao.null;
  getAirlineIcaoCodeForUniqueDesignatorOrDefault := fun _ => AirlineIcao.null;
  getLiveryForDbKey := fun _ => Livery.null;
  getStdLiveryForAirlineCode := fun _ => Livery.null |}.

Definition icaoOf (designator combinedType : string) : CAircraftIcaoCode :=
  mkAircraftIcaoCode (-1) (lit designator) [] (lit combinedType) [] false 10
    (mkCategory 1 0 (lit "light") [] [] true 2 1 0).
Definition airlineModel (text designator combinedType airline : string) : CAircraftModel :=
  CAircraftModel_make (lit text) TypeOwnSimulatorModel (icaoOf designator combinedType)
    (Livery.make (lit "") (AirlineIcao.ofDesignator (lit airline)) []).
Definition demoSet : list CAircraftModel :=
  [airlineModel "C172 RED" "C172" "L1P" ""; airlineModel "A320 DLH" "A320" "L2J" "DLH";
   airlineModel "A320 BAW" "A320" "L2J" "BAW"; airlineModel "A320 BAW NEW" "A320" "L2J" "BAW"].
Definition demoMatcher (algorithm : MatchingAlgorithm) (script : string) : CAircraftMatcher :=
  mkAircraftMatcher
    (mkMatcherSetup algorithm (Z.lor ByModelString (Z.lor ByIcaoData (Z.lor ByFamily ScoreIgnoreZeros))) PickFirst (lit script) true)
    (airlineModel "DEFAULT" "A320" "L2J" "") demoSet [] (bit 0) CCategoryMatcher_init.
Definition demoRemote (designator combinedType airline : string) : RemoteAircraft :=
  mkRemoteAircraft (mkCallsign (lit "BAW1") (lit "BAW1") [] NoHint)
    (airlineModel "" designator combinedType airline).
Definition textOf (o : option CAircraftModel) : option QString := m_modelString <$> o.

Example demo_steps : textOf (getClosestMatch (demoMatcher MatchingStepwiseReduce "any") (demoRemote "A320" "L2J" "BAW") 1 true true)
  = Some (lit "A320 BAW").
Proof. vm_compute. reflexivity. Qed.
Example demo_scores : textOf (getClosestMatch (demoMatcher MatchingScoreBased "any") (demoRemote "A320" "L2J" "BAW") 1 true true)
  = Some (lit "A320 BAW NEW").
Proof. vm_compute. reflexivity. Qed.
Example demo_script : textOf (getClosestMatch (demoMatcher MatchingScoreBased "rerun") (demoRemote "A320" "L2J" "BAW") 1 true true)
  = Some (lit "C172 RED").
Proof. vm_compute. reflexivity. Qed.

(** A script that returns the set it was handed. *)
Example script_other_object :
  getClosestMatch (demoMatcher MatchingScoreBased "set") (demoRemote "A320" "L2J" "BAW") 1 true true = None.
Proof. vm_compute. reflexivity. Qed.

Lemma match_found_witness :
  exists m other, let s := demoMatcher MatchingScoreBased "rerun" in let remoteAircraft := demoRemote "A320" "L2J" "BAW" in
    getClosestMatch s remoteAircraft 1 true true = Some (asMatched remoteAircraft m) /\ matchedFrom s other m /\
    (other = remoteAircraft \/ true = true /\ rerunFor s remoteAircraft (stepsLogged 1 true) other).
Proof.
  apply (match_found (demoMatcher MatchingScoreBased "rerun") (demoRemote "A320" "L2J" "BAW") 1 true true).
  - intros _ inModel matchedModel modelSet. vm_compute. discriminate.
  - right. vm_compute. repeat split; discriminate.
  - intros other (m & modelSet & rv & E & E2 & _ & ->). vm_compute in E. injection E as <- <-.
    vm_compute in E2. injection E2 as <-. right. vm_compute. repeat split; discriminate.
Defined.

Lemma scored_match_witness : let s := demoMatcher MatchingScoreBased "any" in let remoteAircraft := demoRemote "A320" "L2J" "BAW" in
  let mode := m_mode (m_setup s) in
  let bestModels := filter (best (r_model remoteAircraft) (testFlag mode ScorePreferColorLiveries)
                              (testFlag mode ScoreIgnoreZeros) (eligible s)) (eligible s) in
  matchInSet s remoteAircraft false =
    Some (match bestModels with
          | [] => getCombinedTypeDefaultModel (eligible s) remoteAircraft (m_defaultModel s)
          | front :: rest => if decide (m_strategy (m_setup s) = PickFirst) then List.last rest front
                             else pickModel (m_strategy (m_setup s)) (reverse bestModels)
          end, eligible s) /\ length bestModels = 2%nat.
Proof.
  split; [|vm_compute; reflexivity].
  apply (scored_match (demoMatcher MatchingScoreBased "any") (demoRemote "A320" "L2J" "BAW") false); vm_compute; reflexivity.
Defined.
End demo.
