(* ===== verification/SimulatorContext.v ===== *)
(** * Matching and failing over in the simulator context (core/context/contextsimulatorimpl.cpp)

    Every aircraft that becomes ready is matched and added to the simulator.  When the simulator
    cannot add it, the model is taken out of the set and the aircraft is matched again, a few
    times.  The aircraft in range, kept by the network context, are a map; the plugin's info and
    object, set and reset together, are a flag.  Single shots are a list in which any may fire:
    their delays differ and the order of the others is the event loop's.  [None] is a crash of
    the matching.  Left out are the centre of gravity and the messages. *)

From stdpp Require Import base gmap list.
From S2P Require Import Prelude QtCore QtReference.
From S2P Require Export AircraftMatcher MatcherResult.
From S2P Require AirspaceSnapshot.
Import AirspaceSnapshot(StdSortBy).

Open Scope Z_scope.

(** ** State *)

(** An aircraft of the provider: the current model and the one of the network. *)
Record AircraftInRange := mkAircraftInRange {
  a_aircraft : RemoteAircraft; a_networkModel : CAircraftModel }.

Inductive SingleShot :=
| MatchAgain (cs : QString)       (** of doMatchingsAgain *)
| MatchNow (cs : QString).        (** of doMatchingAgain, 2500 ms *)

Record CContextSimulator := mkContextSimulator {
  m_simulatorPlugin : bool; m_aircraftMatcher : CAircraftMatcher; m_failoverAddingCounts : gmap QString Z;
  m_logMatchingMessages : Z; m_initallyAddAircraft : bool;
  m_aircraftInRange : gmap QString AircraftInRange; m_singleShots : list SingleShot }.

(** What the context makes the simulator do, and the signals it emits. *)
Inductive ContextOutput :=
| LogicallyAddRemoteAircraft (aircraft : RemoteAircraft)
| LogicallyRemoveRemoteAircraft (cs : QString)
| RemoveAllRemoteAircraft
| ModelMatchingCompleted (aircraft : RemoteAircraft)
| AircraftBroken (aircraft : RemoteAircraft)
| DoMatchingAgain (cs : QString)  (** a failed aircraft is to be matched again *)
| AddingRemoteModelFailed (aircraft : RemoteAircraft) (disabled failover : bool).

Definition MaxModelAddedFailoverTrials : Z := 3.
Definition ModelFailoverIfNoModelCanBeAdded := bit 17.
Definition doModelAddFailover (setup : CAircraftMatcherSetup) : bool := testFlag (m_mode setup) ModelFailoverIfNoModelCanBeAdded.
Definition p3d : Z := bit 3.

Section context.
Context `{QtConv} `{QtChars} `{StdSortBy} `{UniformInt} `{ScriptEngine} `{AircraftDatabase}.
Implicit Types (s : CContextSimulator) (remoteAircraft : RemoteAircraft) (cs : QString).

Definition keyOf remoteAircraft : QString := m_callsign (r_callsign remoteAircraft).
Definition isAircraftInRange cs s : bool := negb (isEmpty cs) && bool_decide (is_Some (m_aircraftInRange s !! cs)).

Definition updateAircraftModel cs (model : CAircraftModel) s : CContextSimulator :=
  (s) <| m_aircraftInRange ::= alter (fun a => mkAircraftInRange (setModel model (a_aircraft a)) (a_networkModel a)) cs |>.

(** *** Matching *)

Definition xCtxAddedRemoteAircraftReadyForModelMatching remoteAircraft s : option (CContextSimulator * list ContextOutput) :=
  if negb (m_simulatorPlugin s) then Some (s, [])
  else
    let cs := keyOf remoteAircraft in
    if isEmpty cs then Some (s, [])
    else
      aircraftModel ← getClosestMatch (m_aircraftMatcher s) remoteAircraft (m_logMatchingMessages s)
                        (0 <? m_logMatchingMessages s) true;
      let s := updateAircraftModel cs aircraftModel s in
      match m_aircraftInRange s !! cs with
      | None => Some (s, [])
      | Some aircraftAfterModelApplied =>
          let after := a_aircraft aircraftAfterModelApplied in
          if negb (hasModelString (r_model after)) then
            if isEmpty (keyOf after) then Some (s, [])
            else if isAircraftInRange (keyOf after) s then Some (s, [])
            else Some (s, [AircraftBroken after])
          else Some (s, [LogicallyAddRemoteAircraft after; ModelMatchingCompleted after])
      end.

Definition doMatchingAgain cs s : CContextSimulator :=
  if negb (isAircraftInRange cs s) then s
  else if negb (m_simulatorPlugin s) then s
  else (s) <| m_singleShots ::= fun l => l ++ [MatchNow cs] |>.
Definition doMatchingsAgain s : CContextSimulator :=
  (s) <| m_singleShots ::= fun l => l ++ map MatchAgain (map fst (map_to_list (m_aircraftInRange s))) |>.
Definition matchNow cs s : option (CContextSimulator * list ContextOutput) :=
  match m_aircraftInRange s !! cs with
  | None => Some (s, [])
  | Some aircraft =>
      let resetAircraft := mkRemoteAircraft (r_callsign (a_aircraft aircraft)) (a_networkModel aircraft) in
      if isEmpty (keyOf resetAircraft) then Some (s, [])
      else xCtxAddedRemoteAircraftReadyForModelMatching resetAircraft s
  end.

(** *** The simulator fails to add *)

Definition onAddingRemoteAircraftFailed remoteAircraft (disabled requestFailover : bool) s
  : CContextSimulator * list ContextOutput :=
  if negb (m_simulatorPlugin s) then (s, [])
  else
    let s := if disabled then (s) <| m_aircraftMatcher ::= addingRemoteModelFailed remoteAircraft |> else s in
    let cs := keyOf remoteAircraft in
    if isEmpty cs then (s, [])
    else if requestFailover && doModelAddFailover (m_setup (m_aircraftMatcher s)) then
      let trial := default 0 (m_failoverAddingCounts s !! cs) in
      if trial <? MaxModelAddedFailoverTrials
      then (doMatchingAgain cs ((s) <| m_failoverAddingCounts ::= <[cs := trial + 1]> |>),
            [DoMatchingAgain cs; AddingRemoteModelFailed remoteAircraft disabled true])
      else (s, [AddingRemoteModelFailed remoteAircraft disabled false])
    else (s, [AddingRemoteModelFailed remoteAircraft disabled requestFailover]).

(** *** Removal, connection, plugin *)

Definition xCtxRemovedRemoteAircraft cs s : CContextSimulator * list ContextOutput :=
  if negb (m_simulatorPlugin s) then (s, [])
  else ((s) <| m_failoverAddingCounts ::= delete cs |>, [LogicallyRemoveRemoteAircraft cs]).
Definition xCtxNetworkDisconnected s : CContextSimulator * list ContextOutput :=
  ((s) <| m_failoverAddingCounts := ∅ |>, if m_simulatorPlugin s then [RemoveAllRemoteAircraft] else []).

Definition loadSimulatorPlugin (modelSet : list CAircraftModel) (simInfo : Z) (defaultModel : CAircraftModel) (connected : bool) s
  : CContextSimulator :=
  if m_simulatorPlugin s then s
  else
    let simInfo := if isSingleSimulator simInfo then simInfo else p3d in
    let s := (s) <| m_aircraftMatcher ::= fun m => setDefaultModel defaultModel (setModelSet modelSet simInfo true m).2 |>
                 <| m_initallyAddAircraft := true |> <| m_failoverAddingCounts := ∅ |> in
    if connected then (s) <| m_simulatorPlugin := true |> else s.

(** The aircraft known when the simulator begins to simulate are matched one after another. *)
Fixpoint matchAll (aircraft : list RemoteAircraft) s : option (CContextSimulator * list ContextOutput) :=
  match aircraft with
  | [] => Some (s, [])
  | remoteAircraft :: rest =>
      '(s, outputs) ← xCtxAddedRemoteAircraftReadyForModelMatching remoteAircraft s;
      '(s, more) ← matchAll rest s; Some (s, outputs ++ more)
  end.
Definition onSimulatorStatusChanged (simulating connected : bool) s : option (CContextSimulator * list ContextOutput) :=
  '(s, outputs) ← (if m_initallyAddAircraft s && simulating then
                     '(s, outputs) ← matchAll (map (fun e => a_aircraft e.2) (map_to_list (m_aircraftInRange s))) s;
                     Some ((s) <| m_initallyAddAircraft := false |>, outputs)
                   else Some (s, []));
  Some (if connected then s else (s) <| m_simulatorPlugin := false |>, outputs).

(** *** The model set *)

Definition setModelSetLoaderSimulator (modelSet : list CAircraftModel) (simulator : Z) s : CContextSimulator :=
  if m_simulatorPlugin s then s else (s) <| m_aircraftMatcher ::= fun m => (setModelSet modelSet simulator false m).2 |>.
Definition setMatchingSetup (setup : CAircraftMatcherSetup) s : CContextSimulator :=
  (s) <| m_aircraftMatcher ::= fun m => (setSetup setup m).2 |>.
Definition contextDisableModels (removedModels : list CAircraftModel) (incremental : bool) s : CContextSimulator :=
  if negb (m_simulatorPlugin s) then s else (s) <| m_aircraftMatcher ::= disableModelsForMatching removedModels incremental |>.
Definition contextRestoreModels s : CContextSimulator :=
  if negb (m_simulatorPlugin s) then s else (s) <| m_aircraftMatcher ::= restoreDisabledModels |>.

(** ** Events *)

Inductive ContextEvent :=
| ReadyForModelMatching (remoteAircraft : RemoteAircraft)
| AddingFailed (remoteAircraft : RemoteAircraft) (disabled requestFailover : bool)
| ShotFires (i : nat)
| MatchingsAgain
| RemovedRemoteAircraft (cs : QString)
| ProviderChanges (cs : QString) (aircraft : option AircraftInRange)
| NetworkDisconnected
| LoadPlugin (modelSet : list CAircraftModel) (simInfo : Z) (defaultModel : CAircraftModel) (connected : bool)
| SimulatorStatus (simulating connected : bool)
| SetLoaderSimulator (modelSet : list CAircraftModel) (simulator : Z)
| SetMatchingSetup (setup : CAircraftMatcherSetup)
| DisableModels (removedModels : list CAircraftModel) (incremental : bool)
| RestoreModels.

Definition contextStep (e : ContextEvent) s : option (CContextSimulator * list ContextOutput) :=
  match e with
  | ReadyForModelMatching remoteAircraft => xCtxAddedRemoteAircraftReadyForModelMatching remoteAircraft s
  | AddingFailed remoteAircraft disabled requestFailover => Some (onAddingRemoteAircraftFailed remoteAircraft disabled requestFailover s)
  | ShotFires i =>
      match m_singleShots s !! i with
      | None => Some (s, [])
      | Some shot =>
          let s := (s) <| m_singleShots ::= delete i |> in
          match shot with
          | MatchAgain cs => Some (doMatchingAgain cs s, [])
          | MatchNow cs => matchNow cs s
          end
      end
  | MatchingsAgain => Some (doMatchingsAgain s, [])
  | RemovedRemoteAircraft cs => Some (xCtxRemovedRemoteAircraft cs s)
  | ProviderChanges cs aircraft => Some ((s) <| m_aircraftInRange ::= partial_alter (fun _ => aircraft) cs |>, [])
  | NetworkDisconnected => Some (xCtxNetworkDisconnected s)
  | LoadPlugin modelSet simInfo defaultModel connected => Some (loadSimulatorPlugin modelSet simInfo defaultModel connected s, [])
  | SimulatorStatus simulating connected => onSimulatorStatusChanged simulating connected s
  | SetLoaderSimulator modelSet simulator => Some (setModelSetLoaderSimulator modelSet simulator s, [])
  | SetMatchingSetup setup => Some (setMatchingSetup setup s, [])
  | DisableModels removedModels incremental => Some (contextDisableModels removedModels incremental s, [])
  | RestoreModels => Some (contextRestoreModels s, [])
  end.
Fixpoint contextRun (es : list ContextEvent) s : option (CContextSimulator * list ContextOutput) :=
  match es with
  | [] => Some (s, [])
  | e :: es => '(s, outputs) ← contextStep e s; '(s, more) ← contextRun es s; Some (s, outputs ++ more)
  end.
End context.

#[export] Instance RemoteAircraft_eq : EqDecision RemoteAircraft.
Proof. solve_decision. Defined.
#[export] Instance ContextOutput_eq : EqDecision ContextOutput.
Proof. solve_decision. Defined.

(** ** Failing over ends *)

Section failover.
Context `{QtConv} `{QtChars} `{StdSortBy} `{UniformInt} `{ScriptEngine} `{AircraftDatabase}.
Implicit Types (s : CContextSimulator) (remoteAircraft : RemoteAircraft) (cs : QString) (outputs : list ContextOutput).

(** What matching leaves alone. *)
Record sameFailover s s' : Prop := {
  same_plugin : m_simulatorPlugin s' = m_simulatorPlugin s;
  same_matcher : m_aircraftMatcher s' = m_aircraftMatcher s;
  same_counts : m_failoverAddingCounts s' = m_failoverAddingCounts s }.
Lemma same_refl s : sameFailover s s.
Proof. by split. Qed.
Lemma same_trans s1 s2 s3 : sameFailover s1 s2 -> sameFailover s2 s3 -> sameFailover s1 s3.
Proof. intros [H1a H2a H3a] [H1b H2b H3b]. split; congruence. Qed.

Definition retries cs outputs : nat := length (filter (fun o => o = DoMatchingAgain cs) outputs).
Lemma retries_app cs o1 o2 : retries cs (o1 ++ o2) = (retries cs o1 + retries cs o2)%nat.
Proof. unfold retries. by rewrite filter_app, length_app. Qed.

Lemma ready_same remoteAircraft s s' outputs cs :
  xCtxAddedRemoteAircraftReadyForModelMatching remoteAircraft s = Some (s', outputs) ->
  sameFailover s s' /\ retries cs outputs = 0%nat.
Proof.
  unfold xCtxAddedRemoteAircraftReadyForModelMatching. destruct (m_simulatorPlugin s); simpl; [|intros [= <- <-]; by split].
  destruct (isEmpty _); [intros [= <- <-]; by split|]. destruct (getClosestMatch _ _ _ _ _) as [m|]; simpl; [|done].
  set (s1 := updateAircraftModel _ _ _). assert (sameFailover s s1) as Hs by by split.
  repeat case_match; intros [= <- <-]; (split; [exact Hs|done]).
Qed.
Lemma matchAll_same l s s' outputs cs : matchAll l s = Some (s', outputs) -> sameFailover s s' /\ retries cs outputs = 0%nat.
Proof.
  revert s outputs. induction l as [|r l IH]; intros s outputs; simpl; [intros [= <- <-]; by split|].
  destruct (xCtxAddedRemoteAircraftReadyForModelMatching r s) as [[s1 o1]|] eqn:E1; simpl; [|done].
  destruct (matchAll l s1) as [[s2 o2]|] eqn:E2; simpl; [|done]. intros [= <- <-].
  destruct (ready_same _ _ _ _ cs E1) as [Hs1 Ho1]. destruct (IH _ _ E2) as [Hs2 Ho2].
  split; [by eapply same_trans|]. rewrite retries_app. lia.
Qed.
Lemma doMatchingAgain_same cs s : sameFailover s (doMatchingAgain cs s).
Proof. unfold doMatchingAgain. by repeat case_match. Qed.

Definition triesOf cs s : Z := default 0 (m_failoverAddingCounts s !! cs).
Definition countsOk s : Prop := forall cs, 0 <= triesOf cs s <= MaxModelAddedFailoverTrials.
(** The events by which the tries of an aircraft are forgotten. *)
Definition forgets cs (e : ContextEvent) : Prop :=
  match e with
  | RemovedRemoteAircraft cs' => cs' = cs
  | NetworkDisconnected | LoadPlugin _ _ _ _ => True
  | _ => False
  end.

Lemma same_tries cs s s' : sameFailover s s' -> triesOf cs s' = triesOf cs s.
Proof. intros [_ _ Hc]. unfold triesOf. by rewrite Hc. Qed.
Lemma failed_tries cs remoteAircraft disabled requestFailover s s' outputs :
  onAddingRemoteAircraftFailed remoteAircraft disabled requestFailover s = (s', outputs) -> countsOk s ->
  countsOk s' /\ Z.of_nat (retries cs outputs) + triesOf cs s = triesOf cs s'.
Proof.
  unfold onAddingRemoteAircraftFailed. intros E Hok.
  destruct (m_simulatorPlugin s); simpl in E; [|injection E as <- <-; by split].
  set (s1 := if disabled then _ else s) in E.
  assert (countsOk s1 /\ forall c, triesOf c s1 = triesOf c s) as [Hok1 Ht1] by (subst s1; by destruct disabled).
  rewrite <- (Ht1 cs). clearbody s1. destruct (isEmpty _); [injection E as <- <-; by split|].
  destruct (_ && _); [|injection E as <- <-; by split].
  fold (triesOf (keyOf remoteAircraft) s1) in E. destruct (Z.ltb_spec (triesOf (keyOf remoteAircraft) s1) MaxModelAddedFailoverTrials);
    [|injection E as <- <-; by split].
  injection E as <- <-. match goal with |- context [doMatchingAgain _ ?x] => set (s2 := x) end.
  pose proof (doMatchingAgain_same (keyOf remoteAircraft) s2) as Hs2.
  assert (forall c, triesOf c s2 = if decide (c = keyOf remoteAircraft) then triesOf c s1 + 1 else triesOf c s1) as Ht2.
  { intros c. subst s2. unfold triesOf at 1. simpl. case_decide as Hc; [subst; by rewrite lookup_insert_eq|by rewrite lookup_insert_ne]. }
  split.
  - intros c. rewrite (same_tries _ _ _ Hs2), Ht2. specialize (Hok1 c). case_decide; [subst|]; lia.
  - rewrite (same_tries _ _ _ Hs2), Ht2. unfold retries. rewrite !filter_cons, filter_nil.
    destruct (decide (cs = keyOf remoteAircraft)) as [->|Hne].
    + rewrite decide_True, decide_False by done. simpl. lia.
    + rewrite !decide_False by congruence. simpl. lia.
Qed.

Lemma addingFailed_setup remoteAircraft m : m_setup (addingRemoteModelFailed remoteAircraft m) = m_setup m.
Proof. unfold addingRemoteModelFailed. by repeat case_match. Qed.
Lemma forgets_all s' cs : m_failoverAddingCounts s' = ∅ -> triesOf cs s' = 0.
Proof. intros Hc. unfold triesOf. by rewrite Hc, lookup_empty. Qed.
Lemma same_ok s s' : sameFailover s s' -> countsOk s -> countsOk s'.
Proof. intros Hs Hok c. by rewrite (same_tries _ _ _ Hs). Qed.
Lemma same_counting cs s s' outputs : sameFailover s s' -> retries cs outputs = 0%nat -> countsOk s ->
  countsOk s' /\ Z.of_nat (retries cs outputs) + triesOf cs s = triesOf cs s'.
Proof. intros Hs Ho Hok. split; [by eapply same_ok|]. rewrite Ho, (same_tries _ _ _ Hs). lia. Qed.
(** Changes of the matcher, the shots and the aircraft in range. *)
Lemma counts_counting cs s s' : m_failoverAddingCounts s' = m_failoverAddingCounts s -> countsOk s ->
  countsOk s' /\ Z.of_nat (retries cs []) + triesOf cs s = triesOf cs s'.
Proof. intros Hc Hok. unfold countsOk, triesOf in *. rewrite Hc. split; [done|]. change (retries cs []) with 0%nat. lia. Qed.
Lemma status_counting cs simulating connected s s' outputs :
  onSimulatorStatusChanged simulating connected s = Some (s', outputs) ->
  m_failoverAddingCounts s' = m_failoverAddingCounts s /\ retries cs outputs = 0%nat.
Proof.
  unfold onSimulatorStatusChanged. destruct (m_initallyAddAircraft s && simulating).
  - destruct (matchAll _ s) as [[s1 o1]|] eqn:E; simpl; [|done]. destruct (matchAll_same _ _ _ _ cs E) as [[_ _ Hc] Ho].
    intros [= <- <-]. by destruct connected.
  - simpl. intros [= <- <-]. by destruct connected.
Qed.

Lemma contextStep_counting cs e s s' outputs : contextStep e s = Some (s', outputs) -> countsOk s ->
  countsOk s' /\ (~ forgets cs e -> Z.of_nat (retries cs outputs) + triesOf cs s = triesOf cs s').
Proof.
  intros E Hok. destruct e; cbn [contextStep] in E.
  - destruct (ready_same _ _ _ _ cs E) as [Hs Ho]. destruct (same_counting cs _ _ outputs Hs Ho Hok). auto.
  - injection E as E. destruct (failed_tries cs _ _ _ _ _ _ E Hok). auto.
  - destruct (m_singleShots s !! i) as [shot|]; [|injection E as <- <-; by split].
    set (s1 := (s) <| m_singleShots ::= delete i |>) in E. assert (sameFailover s s1) as Hs1 by by split.
    assert (sameFailover s1 s' /\ retries cs outputs = 0%nat) as [Hs Ho].
    { destruct shot as [c|c]; [injection E as <- <-; split; [apply doMatchingAgain_same|done]|].
      unfold matchNow in E. repeat case_match; try (injection E as <- <-; by split). by apply ready_same with (cs := cs) in E. }
    destruct (same_counting cs _ _ outputs (same_trans _ _ _ Hs1 Hs) Ho Hok). auto.
  - injection E as <- <-. destruct (counts_counting cs s (doMatchingsAgain s) eq_refl Hok). auto.
  - injection E as E. unfold xCtxRemovedRemoteAircraft in E. destruct (m_simulatorPlugin s); injection E as <- <-; [|by split].
    match goal with |- countsOk ?x /\ _ => set (s1 := x) end.
    assert (m_failoverAddingCounts s1 = delete cs0 (m_failoverAddingCounts s)) as Hd by done.
    unfold countsOk, triesOf in *. rewrite Hd. clearbody s1. split.
    + intros c. destruct (decide (c = cs0)) as [->|]; [rewrite lookup_delete_eq; unfold MaxModelAddedFailoverTrials; simpl; lia|].
      by rewrite lookup_delete_ne.
    + intros Hne. by rewrite lookup_delete_ne.
  - injection E as <- <-.
    destruct (counts_counting cs s ((s) <| m_aircraftInRange ::= partial_alter (fun _ => aircraft) cs0 |>) eq_refl Hok). auto.
  - injection E as <- <-. split; [|simpl; tauto]. intros c. rewrite forgets_all by done. unfold MaxModelAddedFailoverTrials. lia.
  - injection E as <- <-. split; [|simpl; tauto]. intros c. unfold loadSimulatorPlugin. destruct (m_simulatorPlugin s); [apply Hok|].
    rewrite forgets_all by (by destruct connected). unfold MaxModelAddedFailoverTrials. lia.
  - destruct (status_counting cs _ _ _ _ _ E) as [Hc Ho]. destruct (counts_counting cs s s' Hc Hok) as [? Ht]. split; [done|].
    intros _. by rewrite Ho.
  - injection E as <- <-. unfold setModelSetLoaderSimulator. destruct (m_simulatorPlugin s);
      destruct (counts_counting cs s _ eq_refl Hok); auto.
  - injection E as <- <-. destruct (counts_counting cs s (setMatchingSetup setup s) eq_refl Hok). auto.
  - injection E as <- <-. unfold contextDisableModels. destruct (m_simulatorPlugin s);
      destruct (counts_counting cs s _ eq_refl Hok); auto.
  - injection E as <- <-. unfold contextRestoreModels. destruct (m_simulatorPlugin s);
      destruct (counts_counting cs s _ eq_refl Hok); auto.
Qed.
Lemma contextRun_counting cs es s s' outputs : contextRun es s = Some (s', outputs) -> countsOk s ->
  countsOk s' /\ (Forall (fun e => ~ forgets cs e) es -> Z.of_nat (retries cs outputs) + triesOf cs s = triesOf cs s').
Proof.
  revert s outputs. induction es as [|e es IH]; intros s outputs; simpl; [intros [= <- <-]; by split|].
  destruct (contextStep e s) as [[s1 o1]|] eqn:E1; simpl; [|done].
  destruct (contextRun es s1) as [[s2 o2]|] eqn:E2; simpl; [|done]. intros [= <- <-] Hok.
  destruct (contextStep_counting cs _ _ _ _ E1 Hok) as [Hok1 H1']. destruct (IH _ _ E2 Hok1) as [Hok2 H2'].
  split; [done|]. intros [He Hes]%Forall_cons. specialize (H1' He). specialize (H2' Hes). rewrite retries_app. lia.
Qed.

(** C18: Failing over ends.  Whatever happens, until an aircraft is removed, the network is left or a plugin is
    loaded, its failures have it matched again at most three times; after three times the next
    failure is reported as final and nothing more is tried. *)
Theorem failover_ends cs before s0 s es s' o outputs :
  m_failoverAddingCounts s0 = ∅ -> contextRun before s0 = Some (s, o) -> contextRun es s = Some (s', outputs) ->
  Forall (fun e => ~ forgets cs e) es ->
  (retries cs outputs <= 3)%nat /\
  (retries cs outputs = 3%nat -> forall remoteAircraft disabled, keyOf remoteAircraft = cs -> cs <> [] ->
     m_simulatorPlugin s' = true -> doModelAddFailover (m_setup (m_aircraftMatcher s')) = true ->
     exists s'', onAddingRemoteAircraftFailed remoteAircraft disabled true s' =
       (s'', [AddingRemoteModelFailed remoteAircraft disabled false]) /\ m_singleShots s'' = m_singleShots s').
Proof.
  intros H0' E1 E2 Hes. assert (countsOk s0) as Hok0
    by (intros c; rewrite forgets_all by done; unfold MaxModelAddedFailoverTrials; lia).
  destruct (contextRun_counting cs _ _ _ _ E1 Hok0) as [Hok _]. destruct (contextRun_counting cs _ _ _ _ E2 Hok) as [Hok' Ht].
  specialize (Ht Hes). pose proof (Hok cs) as Hc. pose proof (Hok' cs) as Hc'. unfold MaxModelAddedFailoverTrials in *.
  split; [lia|]. intros Hr remoteAircraft disabled <- Hne Hp Hf.
  unfold onAddingRemoteAircraftFailed. rewrite Hp. cbn [negb].
  set (s1 := if disabled then _ else s'). assert (m_setup (m_aircraftMatcher s1) = m_setup (m_aircraftMatcher s') /\
    m_failoverAddingCounts s1 = m_failoverAddingCounts s' /\ m_singleShots s1 = m_singleShots s') as (Hs & Hk & Hq).
  { subst s1. destruct disabled; [|done]. split; [apply addingFailed_setup|done]. }
  clearbody s1. destruct (isEmpty (keyOf remoteAircraft)) eqn:Ee; [by destruct (keyOf remoteAircraft)|].
  rewrite Hs, Hf. cbn [andb]. unfold triesOf in *. rewrite Hk. rewrite (proj2 (Z.ltb_ge _ MaxModelAddedFailoverTrials)) by (unfold MaxModelAddedFailoverTrials; lia). eauto.
Qed.
End failover.

(** ** A model that cannot be added *)

Section avoided.
Context `{QtConv} `{QtChars} `{StdSortBy} `{UniformIntLaws} `{ScriptEngine} `{AircraftDatabase}.
Implicit Types (s : CContextSimulator) (remoteAircraft : RemoteAircraft) (cs text : QString) (models : list CAircraftModel).

Definition withoutText text models : Prop := forall m, m ∈ models -> equalsCI (m_modelString m) text = false.
Lemma withoutText_subset text models models' : models' ⊆ models -> withoutText text models -> withoutText text models'.
Proof. intros Hs Ht m Hm. by apply Ht, Hs. Qed.
Lemma removeModels_subset removed models : removeModels removed models ⊆ models.
Proof. unfold removeModels. case_match; [done|]. apply removeModelsWithString_subset. Qed.
Lemma removeModels_without m removed models : m ∈ removed -> hasModelString m = true ->
  withoutText (m_modelString m) (removeModels removed models).
Proof.
  intros Hm Ht m' Hm'. unfold removeModels in Hm'. destruct (isEmpty removed) eqn:E; [destruct removed; [by apply elem_of_nil in Hm|done]|].
  assert (m_modelString m ∈ getModelStringList removed) as Hin.
  { unfold getModelStringList. apply list_elem_of_fmap. exists m. by rewrite elem_findBy. }
  unfold removeModelsWithString in Hm'. destruct (isEmpty (getModelStringList removed)) eqn:E2;
    [destruct (getModelStringList removed); [by apply elem_of_nil in Hin|done]|].
  unfold findByNotInModelStrings in Hm'. rewrite elem_findBy in Hm'. destruct Hm' as [Hn _].
  apply negb_true_iff in Hn. apply not_true_iff_false. intros He. apply not_true_iff_false in Hn. apply Hn.
  apply existsb_exists. exists (m_modelString m). split; [by apply list_elem_of_In|done].
Qed.

(** The events that bring no model back into the set. *)
Definition keepsRemoved (e : ContextEvent) : Prop :=
  match e with
  | LoadPlugin _ _ _ _ | SetLoaderSimulator _ _ | RestoreModels | DisableModels _ false => False
  | _ => True
  end.
Definition contextSet s : list CAircraftModel := m_modelSet (m_aircraftMatcher s).
Lemma same_set s s' : sameFailover s s' -> contextSet s' = contextSet s.
Proof. intros [_ Hm _]. unfold contextSet. by rewrite Hm. Qed.
Lemma disable_set removed m : m_modelSet (disableModelsForMatching removed true m) = removeModels removed (m_modelSet m).
Proof. done. Qed.
Lemma addingFailed_subset remoteAircraft m : m_modelSet (addingRemoteModelFailed remoteAircraft m) ⊆ m_modelSet m.
Proof. unfold addingRemoteModelFailed. repeat case_match; [done| |done]. rewrite disable_set. apply removeModels_subset. Qed.
Lemma failed_subset remoteAircraft disabled requestFailover s s' outputs :
  onAddingRemoteAircraftFailed remoteAircraft disabled requestFailover s = (s', outputs) ->
  contextSet s' ⊆ contextSet s.
Proof.
  unfold onAddingRemoteAircraftFailed. destruct (m_simulatorPlugin s); cbn [negb]; [|by intros [= <- <-]].
  set (s1 := if disabled then _ else s). assert (contextSet s1 ⊆ contextSet s) as Hs
    by (subst s1; destruct disabled; [apply addingFailed_subset|done]).
  clearbody s1. repeat case_match; intros [= <- <-]; try done. rewrite (same_set _ _ (doMatchingAgain_same _ _)). done.
Qed.
Lemma contextStep_subset e s s' outputs : contextStep e s = Some (s', outputs) -> keepsRemoved e -> contextSet s' ⊆ contextSet s.
Proof.
  intros E He. destruct e; cbn [contextStep] in E; try done.
  - destruct (ready_same _ _ _ _ [] E) as [Hs _]. by rewrite (same_set _ _ Hs).
  - injection E as E. by eapply failed_subset.
  - destruct (m_singleShots s !! i) as [shot|]; [|by injection E as <- <-].
    destruct shot as [c|c]; [injection E as <- <-; by rewrite (same_set _ _ (doMatchingAgain_same _ _))|].
    unfold matchNow in E. repeat case_match; try by injection E as <- <-. apply ready_same with (cs := []) in E as [Hs _].
    by rewrite (same_set _ _ Hs).
  - by injection E as <- <-.
  - injection E as E. unfold xCtxRemovedRemoteAircraft in E. by destruct (m_simulatorPlugin s); injection E as <- <-.
  - by injection E as <- <-.
  - by injection E as <- <-.
  - unfold onSimulatorStatusChanged in E. destruct (m_initallyAddAircraft s && simulating).
    + destruct (matchAll _ s) as [[s1 o1]|] eqn:E1; simpl in E; [|done]. destruct (matchAll_same _ _ _ _ [] E1) as [Hs _].
      injection E as <- <-. rewrite <- (same_set _ _ Hs). by destruct connected.
    + injection E as <- <-. by destruct connected.
  - injection E as <- <-. unfold setMatchingSetup, setSetup, contextSet. cbn. by case_match.
  - destruct incremental; [|done]. injection E as <- <-. unfold contextDisableModels. destruct (m_simulatorPlugin s); [|done].
    apply removeModels_subset.
Qed.
Lemma contextRun_subset es s s' outputs : contextRun es s = Some (s', outputs) -> Forall keepsRemoved es -> contextSet s' ⊆ contextSet s.
Proof.
  revert s outputs. induction es as [|e es IH]; intros s outputs; simpl; [by intros [= <- <-]|].
  destruct (contextStep e s) as [[s1 o1]|] eqn:E1; simpl; [|done].
  destruct (contextRun es s1) as [[s2 o2]|] eqn:E2; simpl; [|done]. intros [= <- <-] [He Hes]%Forall_cons.
  etransitivity; [by eapply IH|by eapply contextStep_subset].
Qed.

Lemma failed_without remoteAircraft requestFailover s s1 outputs :
  testFlag (m_mode (m_setup (m_aircraftMatcher s))) ModelSetRemoveFailedModel = true -> m_simulatorPlugin s = true ->
  keyOf remoteAircraft <> [] -> hasModelString (r_model remoteAircraft) = true ->
  onAddingRemoteAircraftFailed remoteAircraft true requestFailover s = (s1, outputs) ->
  withoutText (m_modelString (r_model remoteAircraft)) (contextSet s1).
Proof.
  intros Hf Hp Hk Ht E. unfold onAddingRemoteAircraftFailed in E. rewrite Hp in E. cbn [negb] in E. cbn iota in E.
  set (s0 := (s) <| m_aircraftMatcher ::= addingRemoteModelFailed remoteAircraft |>) in E.
  assert (withoutText (m_modelString (r_model remoteAircraft)) (contextSet s0)) as Hw.
  { change (contextSet s0) with (m_modelSet (addingRemoteModelFailed remoteAircraft (m_aircraftMatcher s))).
    unfold addingRemoteModelFailed. rewrite Hf, Ht. fold (keyOf remoteAircraft). destruct (keyOf remoteAircraft); [done|]. simpl.
    apply removeModels_without; [left|done]. }
  clearbody s0. repeat case_match; injection E as <- <-; try done; by rewrite (same_set _ _ (doMatchingAgain_same _ _)).
Qed.

(** C20: A model that cannot be added is not matched again, when a plugin is loaded, the setup has failed
    models removed from the set and the model has a text.  Whatever happens after the failure, until models are
    brought back into the set, an aircraft without a category, or with one whose levels have no gap,
    is not matched to a model with that text, unless it was
    set by hand or is the default; a script, if one runs, returns no object but values. *)
Theorem failed_model_avoided remoteAircraft requestFailover s s1 o1 es s2 o2 :
  testFlag (m_mode (m_setup (m_aircraftMatcher s))) ModelSetRemoveFailedModel = true -> m_simulatorPlugin s = true ->
  keyOf remoteAircraft <> [] -> hasModelString (r_model remoteAircraft) = true ->
  onAddingRemoteAircraftFailed remoteAircraft true requestFailover s = (s1, o1) ->
  contextRun es s1 = Some (s2, o2) -> Forall keepsRemoved es ->
  forall other whatToLog log, let matcher := m_aircraftMatcher s2 in
    scriptOk (m_setup matcher) -> levelsOk (icao_category (getAircraftIcao other)) ->
    (forall again, rerunFor matcher other (stepsLogged whatToLog log) again -> levelsOk (icao_category (getAircraftIcao again))) ->
    exists m from, getClosestMatch matcher other whatToLog log true = Some (asMatched other m) /\
      (equalsCI (m_modelString m) (m_modelString (r_model remoteAircraft)) = true ->
       hasManuallySetString (r_model from) = true /\ m = r_model from \/ m = m_defaultModel matcher).
Proof.
  intros Hf Hp Hk Ht E1 E2 Hes other whatToLog log matcher Hscript Hok Hre.
  pose proof (failed_without _ _ _ _ _ Hf Hp Hk Ht E1) as Hw.
  apply (withoutText_subset _ _ _ (contextRun_subset _ _ _ _ E2 Hes)) in Hw.
  destruct (getClosestMatch_from matcher other whatToLog log true Hscript Hok Hre) as (m & from & E & Hm & _).
  exists m, from. split; [done|]. intros He. assert (m ∉ contextSet s2) as Hn by (intros Hi; by rewrite (Hw _ Hi) in He).
  destruct Hm as [|m Hi|m _ Hi|]; [by left|done| |by right]. by apply excludeModels_subset in Hi.
Qed.

(** *** The aircraft is added with another model *)

Lemma excludeModels_mono setup m models models' : m ∈ excludeModels setup models -> m ∈ models' -> m ∈ excludeModels setup models'.
Proof.
  unfold excludeModels, removeIfExcluded, removeObjectsWithoutDbKey, removeAllWithoutModelString.
  repeat case_match; rewrite ?elem_findBy; tauto.
Qed.
Lemma removeModel_keeps m removed models : equalsCI (m_modelString m) (m_modelString removed) = false -> m ∈ models ->
  m ∈ removeModels [removed] models.
Proof.
  intros He Hm. unfold removeModels, removeModelsWithString, getModelStringList, findByNotInModelStrings. simpl isEmpty. cbn iota.
  destruct (findBy hasModelString [removed]) as [|r rs] eqn:E; [done|].
  assert (forall x, x ∈ map m_modelString (r :: rs) -> x = m_modelString removed) as Hx.
  { intros x. rewrite <- E. rewrite list_elem_of_fmap. intros (y & -> & Hy). rewrite elem_findBy, list_elem_of_singleton in Hy.
    by destruct Hy as [_ ->]. }
  cbn [map isEmpty]. cbn iota. rewrite elem_findBy. split; [|done]. apply negb_true_iff, not_true_iff_false.
  intros (x & Hi & Ex)%existsb_exists. apply list_elem_of_In in Hi. rewrite (Hx x Hi), He in Ex. done.
Qed.

Lemma setModel_asMatched remoteAircraft a m : keyOf a = keyOf remoteAircraft ->
  let b := setModel (asMatched remoteAircraft m) a in keyOf b = keyOf remoteAircraft /\ m_modelString (r_model b) = m_modelString m.
Proof. intros Hk. unfold setModel, keyOf in *. simpl. split; [by case_match|by destruct m]. Qed.
Lemma ready_adds remoteAircraft s a m : m_simulatorPlugin s = true -> keyOf remoteAircraft <> [] ->
  m_aircraftInRange s !! keyOf remoteAircraft = Some a -> keyOf (a_aircraft a) = keyOf remoteAircraft ->
  getClosestMatch (m_aircraftMatcher s) remoteAircraft (m_logMatchingMessages s) (0 <? m_logMatchingMessages s) true =
    Some (asMatched remoteAircraft m) -> hasModelString m = true ->
  exists s' b, xCtxAddedRemoteAircraftReadyForModelMatching remoteAircraft s =
    Some (s', [LogicallyAddRemoteAircraft b; ModelMatchingCompleted b]) /\
    keyOf b = keyOf remoteAircraft /\ m_modelString (r_model b) = m_modelString m.
Proof.
  intros Hp Hk Ha Hka E Hm. destruct (setModel_asMatched remoteAircraft (a_aircraft a) m Hka) as [Hb Ht].
  unfold xCtxAddedRemoteAircraftReadyForModelMatching. rewrite Hp, E. cbn [negb]. cbn iota.
  destruct (isEmpty (keyOf remoteAircraft)) eqn:Ee; [by destruct (keyOf remoteAircraft)|]. cbv beta iota zeta delta [mbind option_bind].
  set (s1 := updateAircraftModel _ _ s).
  assert (m_aircraftInRange s1 !! keyOf remoteAircraft =
    Some (mkAircraftInRange (setModel (asMatched remoteAircraft m) (a_aircraft a)) (a_networkModel a))) as ->.
  { change (m_aircraftInRange s1) with
      (alter (fun x => mkAircraftInRange (setModel (asMatched remoteAircraft m) (a_aircraft x)) (a_networkModel x))
         (keyOf remoteAircraft) (m_aircraftInRange s)). by rewrite lookup_alter_eq, Ha. }
  assert (hasModelString (r_model (setModel (asMatched remoteAircraft m) (a_aircraft a))) = true) as Hs
    by (unfold hasModelString in *; by rewrite Ht).
  simpl a_aircraft. rewrite Hs. eexists _, _. split; [reflexivity|done].
Qed.
Lemma failed_retries remoteAircraft s : let cs := keyOf remoteAircraft in
  m_simulatorPlugin s = true -> doModelAddFailover (m_setup (m_aircraftMatcher s)) = true -> cs <> [] ->
  isAircraftInRange cs s = true -> triesOf cs s < MaxModelAddedFailoverTrials ->
  let s1 := (onAddingRemoteAircraftFailed remoteAircraft true true s).1 in
  (onAddingRemoteAircraftFailed remoteAircraft true true s).2 = [DoMatchingAgain cs; AddingRemoteModelFailed remoteAircraft true true] /\
  m_simulatorPlugin s1 = true /\ m_aircraftMatcher s1 = addingRemoteModelFailed remoteAircraft (m_aircraftMatcher s) /\
  m_aircraftInRange s1 = m_aircraftInRange s /\ m_singleShots s1 = m_singleShots s ++ [MatchNow cs].
Proof.
  intros cs Hp Hd Hk Hr Ht. unfold onAddingRemoteAircraftFailed. rewrite Hp. cbn [negb]. cbn iota.
  set (s0 := (s) <| m_aircraftMatcher ::= addingRemoteModelFailed remoteAircraft |>). fold cs.
  destruct (isEmpty cs) eqn:Ee; [by destruct cs|].
  assert (m_setup (m_aircraftMatcher s0) = m_setup (m_aircraftMatcher s)) as -> by apply addingFailed_setup.
  rewrite Hd. cbn [andb]. change (m_failoverAddingCounts s0) with (m_failoverAddingCounts s).
  unfold triesOf in Ht. rewrite (proj2 (Z.ltb_lt _ _) Ht). cbn [fst snd]. split; [done|].
  unfold doMatchingAgain. match goal with |- context [isAircraftInRange cs ?x] => change (isAircraftInRange cs x) with (isAircraftInRange cs s);
    change (m_simulatorPlugin x) with (m_simulatorPlugin s) end. rewrite Hr, Hp. done.
Qed.
Lemma addingFailed_eligible remoteAircraft m matcher : m ∈ eligible matcher ->
  equalsCI (m_modelString m) (m_modelString (r_model remoteAircraft)) = false ->
  m ∈ eligible (addingRemoteModelFailed remoteAircraft matcher).
Proof.
  intros Hm He. unfold eligible in *. rewrite addingFailed_setup. apply (excludeModels_mono _ _ _ _ Hm).
  pose proof (excludeModels_subset _ _ _ Hm) as Hi. unfold addingRemoteModelFailed. repeat case_match; [done| |done].
  rewrite disable_set. by apply removeModel_keeps.
Qed.

Lemma shot_fires i cs s : m_singleShots s !! i = Some (MatchNow cs) ->
  contextStep (ShotFires i) s = matchNow cs ((s) <| m_singleShots ::= delete i |>).
Proof. intros Hi. cbn [contextStep]. by rewrite Hi. Qed.
Lemma no_rerun matcher other log again : m_msMatchingEnabled (m_setup matcher) = false -> ~ rerunFor matcher other log again.
Proof.
  intros Hms (x & l & rv & _ & Hrv & Hrun & _). revert Hrv. unfold matchingStageScript, doRunMsMatchingStageScript.
  rewrite Hms. intros [= <-]. done.
Qed.
Lemma no_script setup : m_msMatchingEnabled setup = false -> scriptOk setup.
Proof. intros Hms. unfold scriptOk, doRunMsMatchingStageScript. by rewrite Hms. Qed.
Lemma matchedFrom_set matcher other m m0 :
  matchedFrom matcher other m -> hasManuallySetString (r_model other) = false -> m0 ∈ eligible matcher ->
  m ∈ m_modelSet matcher /\ hasModelString m = true \/ mayIgnore (m_setup matcher) /\ m = m_defaultModel matcher.
Proof.
  intros Hm Hh Hm0. destruct Hm as [Hh'|m Hi Hs|m _ Hi|_ Hn].
  - by rewrite Hh in Hh'.
  - by left.
  - left. split; [by apply (excludeModels_subset _ _ _ Hi)|by eapply excludeModels_string].
  - right. destruct Hn as [Hn|Hn]; [|done]. rewrite Hn in Hm0. by apply elem_of_nil in Hm0.
Qed.
Lemma addingFailed_default remoteAircraft matcher :
  m_defaultModel (addingRemoteModelFailed remoteAircraft matcher) = m_defaultModel matcher.
Proof. unfold addingRemoteModelFailed. repeat case_match; done. Qed.

(** C19: An aircraft whose model cannot be added is shown with another.  A plugin is loaded and the aircraft in
    range; the setup fails over and has failed models removed, and runs no script; the model that failed has a text; the model of the network was not
    set by hand, and has no category or one whose levels have no gap.  While tries are left, the aircraft is
    matched again with the model of the network when the timer fires, and, as long as the set
    has another model that may be matched, one of the set, with another text, is added; with an algorithm
    that ignores scores of zero it may be the default model, which is to have a text. *)
Theorem failed_aircraft_added_again remoteAircraft s a m :
  let cs := keyOf remoteAircraft in let matcher := m_aircraftMatcher s in
  let failedText := m_modelString (r_model remoteAircraft) in
  m_simulatorPlugin s = true -> doModelAddFailover (m_setup matcher) = true ->
  testFlag (m_mode (m_setup matcher)) ModelSetRemoveFailedModel = true -> hasModelString (r_model remoteAircraft) = true ->
  cs <> [] -> m_aircraftInRange s !! cs = Some a -> keyOf (a_aircraft a) = cs -> triesOf cs s < MaxModelAddedFailoverTrials ->
  (mayIgnore (m_setup matcher) -> hasModelString (m_defaultModel matcher) = true) ->
  m_msMatchingEnabled (m_setup matcher) = false -> hasManuallySetString (a_networkModel a) = false -> levelsOk (icao_category (m_aircraftIcao (a_networkModel a))) ->
  m ∈ eligible matcher -> equalsCI (m_modelString m) failedText = false ->
  exists s1 s2 b m',
    onAddingRemoteAircraftFailed remoteAircraft true true s =
      (s1, [DoMatchingAgain cs; AddingRemoteModelFailed remoteAircraft true true]) /\
    contextStep (ShotFires (length (m_singleShots s))) s1 = Some (s2, [LogicallyAddRemoteAircraft b; ModelMatchingCompleted b]) /\
    keyOf b = cs /\ m_modelString (r_model b) = m_modelString m' /\
    (m' ∈ contextSet s /\ equalsCI (m_modelString m') failedText = false \/
     mayIgnore (m_setup matcher) /\ m' = m_defaultModel matcher).
Proof.
  intros cs matcher failedText Hp Hd Hf Ht Hk Ha Hka Htr Hdefault Hms Hman Hok Hm He.
  assert (isAircraftInRange cs s = true) as Hr.
  { unfold isAircraftInRange. rewrite Ha. by destruct cs. }
  destruct (failed_retries remoteAircraft s Hp Hd Hk Hr Htr) as (Ho & Hp1 & Hm1 & Ha1 & Hq1).
  destruct (onAddingRemoteAircraftFailed remoteAircraft true true s) as [s1 o] eqn:E. simpl in Ho, Hp1, Hm1, Ha1, Hq1. subst o.
  pose proof (failed_without _ _ _ _ _ Hf Hp Hk Ht E) as Hw. pose proof (failed_subset _ _ _ _ _ _ E) as Hsub.
  set (s1' := (s1) <| m_singleShots ::= delete (length (m_singleShots s)) |>).
  set (again := mkRemoteAircraft (r_callsign (a_aircraft a)) (a_networkModel a)).
  assert (m_setup (m_aircraftMatcher s1) = m_setup matcher) as Hset by (rewrite Hm1; apply addingFailed_setup).
  assert (forall log other, ~ rerunFor (m_aircraftMatcher s1) again log other) as Hno by (intros; apply no_rerun; by rewrite Hset).
  destruct (getClosestMatch_from (m_aircraftMatcher s1) again (m_logMatchingMessages s1) (0 <? m_logMatchingMessages s1) true) as
    (m' & from & Em & Hfrom & Hor); [apply no_script; by rewrite Hset|exact Hok|intros ? Hx; by apply Hno in Hx|].
  destruct Hor as [->|[_ Hx]]; [|by apply Hno in Hx].
  pose proof (matchedFrom_set _ _ _ m Hfrom Hman ltac:(rewrite Hm1; by apply addingFailed_eligible)) as Hor.
  rewrite Hset in Hor. assert (m_defaultModel (m_aircraftMatcher s1) = m_defaultModel matcher) as Hdef
    by (rewrite Hm1; apply addingFailed_default). rewrite Hdef in Hor.
  assert (hasModelString m' = true) as Hs by (destruct Hor as [[_ ?]|[? ->]]; auto).
  assert (keyOf again = cs) as Hkey by exact Hka.
  destruct (ready_adds again s1' a m') as (s2 & b & E2 & Hkb & Htb);
    [exact Hp1|by rewrite Hkey|rewrite Hkey; change (m_aircraftInRange s1') with (m_aircraftInRange s1); by rewrite Ha1|
     by rewrite Hkey|exact Em|done|].
  exists s1, s2, b, m'. split; [done|]. split; [|split_and!; [by rewrite Hkb|done|]].
  2:{ destruct Hor as [[Hi _]|]; [left|by right]. split; [by apply Hsub|by apply Hw]. }
  rewrite (shot_fires _ cs) by (by rewrite Hq1, lookup_app_r, Nat.sub_diag). fold s1'. unfold matchNow.
  change (m_aircraftInRange s1') with (m_aircraftInRange s1). rewrite Ha1. fold cs. rewrite Ha. fold again. rewrite Hkey.
  destruct (isEmpty cs) eqn:Ee; [by destruct cs|]. exact E2.
Qed.
End avoided.

(** ** A simulator that cannot add an aircraft *)

Section example.
#[local] Existing Instance demoEngine.
#[local] Existing Instance demoDatabase.

Definition failingSetup : CAircraftMatcherSetup :=
  mkMatcherSetup MatchingStepwiseReduce
    (Z.lor ByModelString (Z.lor ByIcaoData (Z.lor ByFamily (Z.lor ModelSetRemoveFailedModel ModelFailoverIfNoModelCanBeAdded))))
    PickFirst [] false.
Definition failingRemote (text : string) : RemoteAircraft :=
  mkRemoteAircraft (mkCallsign (lit "BAW1") (lit "BAW1") [] Aircraft) (airlineModel text "A320" "L2J" "BAW").
Definition failingContext : CContextSimulator :=
  mkContextSimulator true ((demoMatcher MatchingStepwiseReduce "") <| m_setup := failingSetup |>) ∅ 1 false
    {[ lit "BAW1" := mkAircraftInRange (failingRemote "A320 BAW") (airlineModel "" "A320" "L2J" "BAW") ]} [].
(** Three models fail, each after the aircraft was matched again. *)
Definition threeFailures : list ContextEvent :=
  [AddingFailed (failingRemote "A320 BAW") true true; ShotFires 0;
   AddingFailed (failingRemote "A320 BAW NEW") true true; ShotFires 0;
   AddingFailed (failingRemote "A320 DLH") true true; ShotFires 0].
Definition addedTexts (o : option (CContextSimulator * list ContextOutput)) : list QString :=
  match o with
  | Some (_, outputs) => omap (fun o => match o with LogicallyAddRemoteAircraft a => Some (m_modelString (r_model a)) | _ => None end) outputs
  | None => []
  end.
Example three_failures : addedTexts (contextRun threeFailures failingContext) = [lit "A320 BAW NEW"; lit "A320 DLH"; lit "C172 RED"].
Proof. vm_compute. reflexivity. Qed.

Lemma failover_ends_witness : exists s' outputs, contextRun threeFailures failingContext = Some (s', outputs) /\
  retries (lit "BAW1") outputs = 3%nat /\ (retries (lit "BAW1") outputs <= 3)%nat /\
  (retries (lit "BAW1") outputs = 3%nat -> forall remoteAircraft disabled, keyOf remoteAircraft = lit "BAW1" -> lit "BAW1" <> [] ->
     m_simulatorPlugin s' = true -> doModelAddFailover (m_setup (m_aircraftMatcher s')) = true ->
     exists s'', onAddingRemoteAircraftFailed remoteAircraft disabled true s' =
       (s'', [AddingRemoteModelFailed remoteAircraft disabled false]) /\ m_singleShots s'' = m_singleShots s').
Proof.
  destruct (contextRun threeFailures failingContext) as [[s' outputs]|] eqn:E; [|by vm_compute in E].
  exists s', outputs. split; [done|]. split.
  - assert (retries (lit "BAW1") (default [] (snd <$> contextRun threeFailures failingContext)) = 3%nat) as Hr by (vm_compute; reflexivity).
    by rewrite E in Hr.
  - apply (failover_ends (lit "BAW1") [] failingContext failingContext threeFailures s' [] outputs); [done|done|exact E|].
    repeat constructor; intros [].
Defined.

Lemma failed_model_avoided_witness : exists s1 o1, onAddingRemoteAircraftFailed (failingRemote "A320 BAW") true true failingContext = (s1, o1) /\
  exists s2 o2, contextRun [ShotFires 0] s1 = Some (s2, o2) /\
  exists m from, getClosestMatch (m_aircraftMatcher s2) (failingRemote "") 1 true true = Some (asMatched (failingRemote "") m) /\
    (equalsCI (m_modelString m) (lit "A320 BAW") = true ->
     hasManuallySetString (r_model from) = true /\ m = r_model from \/ m = m_defaultModel (m_aircraftMatcher s2)).
Proof.
  destruct (onAddingRemoteAircraftFailed (failingRemote "A320 BAW") true true failingContext) as [s1 o1] eqn:E1.
  exists s1, o1. split; [done|].
  assert (is_Some (contextRun [ShotFires 0] s1)) as [[s2 o2] E2].
  { change s1 with (s1, o1).1. rewrite <- E1. apply (bool_decide_unpack _). vm_compute. exact I. }
  exists s2, o2. split; [done|].
  assert (m_msMatchingEnabled (m_setup (m_aircraftMatcher (default failingContext (fst <$>
    contextRun [ShotFires 0] (onAddingRemoteAircraftFailed (failingRemote "A320 BAW") true true failingContext).1)))) = false) as Hms
    by (vm_compute; reflexivity).
  rewrite E1 in Hms. cbn [fst] in Hms. rewrite E2 in Hms. cbn in Hms.
  refine (failed_model_avoided (failingRemote "A320 BAW") true failingContext s1 o1 [ShotFires 0] s2 o2
            eq_refl eq_refl _ eq_refl E1 E2 _ (failingRemote "") 1 true _ _ _).
  - discriminate.
  - repeat constructor.
  - by apply no_script.
  - right. vm_compute. repeat split; discriminate.
  - intros again Hre. by apply no_rerun in Hre.
Defined.

Lemma failed_aircraft_added_again_witness : exists s1 s2 b m',
    onAddingRemoteAircraftFailed (failingRemote "A320 BAW") true true failingContext =
      (s1, [DoMatchingAgain (lit "BAW1"); AddingRemoteModelFailed (failingRemote "A320 BAW") true true]) /\
    contextStep (ShotFires 0) s1 = Some (s2, [LogicallyAddRemoteAircraft b; ModelMatchingCompleted b]) /\
    keyOf b = lit "BAW1" /\ m_modelString (r_model b) = m_modelString m' /\
    (m' ∈ contextSet failingContext /\ equalsCI (m_modelString m') (lit "A320 BAW") = false \/
     mayIgnore failingSetup /\ m' = m_defaultModel (m_aircraftMatcher failingContext)).
Proof.
  apply (failed_aircraft_added_again (failingRemote "A320 BAW") failingContext
           (mkAircraftInRange (failingRemote "A320 BAW") (airlineModel "" "A320" "L2J" "BAW")) (airlineModel "C172 RED" "C172" "L1P" ""));
    try reflexivity; try discriminate.
  - right. vm_compute. repeat split; discriminate.
  - left.
Defined.
End example.
